(* ===== verification/_CoqProject ===== *)
-Q . S2P
Prelude.v
StateM.v
ByteQueue.v
RingBuffer.v
StaticBuf.v
LinkedList.v
DLList.v
Sb.v
Property.v
PropMap.v
PropOwn.v
JsonUtf8.v
Double.v
JsonTree.v
JsonParse.v
JsonSpec.v
JsonEmit.v
JsonEncode.v
JsonStream.v
JsonDecode.v
JsonDecodeSafe.v
Timer.v
ArrowUtf8.v
HttpClient.v
HttpPeer.v
HttpSend.v
HttpReceive.v
HttpExchange.v
HttpFaults.v
HttpRequest.v
HttpBuild.v
Crypt.v
GatewaySign.v
SignRequest.v
HttpRoutine.v
EventQueue.v
Events.v
EventSpec.v
Retry.v
DeviceCommand.v
CommandSpec.v
DeviceState.v
StateSpec.v
EventHandlers.v
MqttPacket.v
MqttPublish.v
MqttConnect.v
MqttSubscribe.v
MqttClient.v
MqttPeer.v
MqttCycle.v
MqttSend.v
MqttSafety.v
MqttProgress.v
