(* ===== verification/Prelude.v ===== *)
(** The Arrow Connect SDK for C (acn-sdk-c): a model of the code under src/ in
    Rocq, with the theorems that make it correct.

    * The program

    The SDK connects a device to a cloud service. Its own logic sits in four
    layers: containers (src/src/data), JSON (src/src/json), MQTT packets and the
    MQTT client (src/src/mqtt), and the application layer over them
    (src/src/arrow, src/src/http). A telemetry record is built as a JSON tree
    whose keys are properties; mqtt.c streams the text of the tree, part by part,
    through the send buffer of the MQTT client as the payload of one PUBLISH
    packet; what the server sends comes back through the receive buffer, is cut
    into parts, and each part goes to the callback of its topic, which feeds a
    streaming JSON decoder or a ring buffer.

    * The files

    - Prelude (this file): machine integers, byte buffers with checked access, C
      strings, the tactics and lemmas the components share.
    - StateM: the state and error monad of the two clients, and its logic.
    - ByteQueue: the interface of a bounded FIFO queue of bytes.
    - RingBuffer: src/src/data/ringbuffer.c, an instance of ByteQueue.
    - StaticBuf: src/src/data/static_buf.c, the sector allocator.
    - LinkedList, DLList: src/src/data/linkedlist.c, dllist.c and the macros of
      their headers, over heaps of next (and prev) pointers.
    - Property: the tagged strings of src/src/data/property*.c and
      src/src/json/property_json.c, over a memory of blocks. PropMap: src/src/data/propmap.c over LinkedList and Property.
      PropOwn: which blocks properties and maps own.
    - Sb: the string buffer src/src/json/sb.c, and the class of its allocator.
    - JsonUtf8: the Unicode helpers of src/src/json/json.c. Double: the doubles
      a JSON number is read into and printed from.
    - JsonParse, JsonSpec: the recursive descent parser of json.c and the grammar
      it refines. JsonEmit: its printers and their round trip.
    - JsonTree: the trees of json.c in memory: nodes with pointers to parent,
      siblings and children, in a heap that a map from containers to the lists
      of their children abstracts.
    - JsonEncode, JsonStream: the streaming encoder src/src/json/encode.c and the
      text its parts make up. JsonDecode, JsonDecodeSafe: the streaming decoder
      src/src/json/decode.c, its round trip with the encoder and its invariant.
    - Timer: src/src/mqtt/client/src/timer.c, include/time and src/src/time/time.c.
    - ArrowUtf8: src/src/arrow/utf8.c, and the timestamps of
      src/src/arrow/api/json/parse.c.
    - HttpClient: src/src/http/client.c, as functions on the client, the
      properties in memory and a world of sockets and handlers of the caller (class
      Net), with a ByteQueue as its queue; the default payload handlers of response.c
      run on the memory. HttpPeer: the laws of a server (class NetPeer) and a
      program logic for the client against it. HttpSend, HttpReceive: requests and
      responses. HttpExchange: one exchange, and the chunked coding in both
      directions. HttpFaults: closed connections and buffers that are too short.
    - HttpRequest: src/src/http/request.c and response.c and src/src/data/find_by.c,
      over the memory of properties. HttpBuild: what a request holds and owns from
      http_request_init to http_request_close, and what the default payload
      handlers keep.
    - Crypt: src/src/ssl/crypt.c over hash functions that are a parameter (class
      Hashes), the keys and the signature of src/src/arrow/sign.c. GatewaySign:
      src/src/arrow/gateway_payload_sign.c, the signature of an event. SignRequest:
      sign_request of sign.c. HttpRoutine: src/src/http/routine.c, which makes,
      signs, exchanges and closes a request, hands the response over and frees it.
    - EventQueue: queues of allocated nodes over LinkedList, and the sequences they
      hold. Events: src/src/arrow/events.c, from the JSON that arrives in parts to
      the handler of an event, in a state of keys, memory, queues, decoders and mutex.
      EventSpec: its refinement of a FIFO queue for handlers that keep a contract
      (Handler: what they need of an event, what they make of the program outside
      the queue), and what goes wrong.
    - DeviceCommand: src/src/arrow/device_command.c, the handler of commands over
      Events and HttpRoutine. CommandSpec: the answers the cloud gets (class Sends is
      what it needs of a function that sends one), their requests, and the table.
    - Retry: the loops with RETRY_UP of src/include/config.h, which both handlers use.
    - DeviceState: src/src/arrow/state.c, the states of a device, over EventQueue,
      Property and HttpRoutine. StateSpec: the states as a list of names, values and
      times, what a message of the cloud does to them, the answers of a request (class
      Answers), and what posting them does.
    - EventHandlers: the two handlers, in one program and one memory with the queue,
      keep their contracts (classes Posts and Replies are what they need of the
      functions that send), so the refinement holds of them.
    - MqttPacket, MqttPublish, MqttConnect, MqttSubscribe: src/src/mqtt/packet.
    - MqttClient: the client, src/src/mqtt/client (client.c, delivery.c,
      src/MQTTClient.c, src/network.c), as functions on the client, the registered
      callbacks and a world of sockets, clock and callbacks (class World).
    - MqttPeer: the laws of a peer (class Peer) and a program logic for the client
      against it. MqttCycle: receiving and delivery. MqttSend: publishing, and the
      JSON payload drive of src/src/arrow/mqtt.c (class Payload). MqttSafety: the
      type of a client, in any world. MqttProgress: termination, and the packets
      that overrun the receive buffer.

    A definition has the name of the C function it models, in a Module named
    after the file; a loop is a definition named after the function it is in.

    * Conventions

    A C access that the language leaves undefined (a read or write outside the
    object, a [memcpy] that runs past its buffers, a free of something that was
    not allocated) is [None] in the option monad; so "the result is [Some _]"
    reads "the code has no undefined behaviour on this input". Integers are Z
    with the wrap-around of their type written out (u8, u16, u32, s8, s32). A
    buffer is the list of its bytes; a pointer into it is an offset. Allocators,
    sockets, the clock and user callbacks are parameters with their documented
    behaviour as laws of a class: Malloc, SbMalloc, World, Peer, Payload, Net,
    NetPeer, Digests, Sends, Answers, Posts, Replies; Buffers stands for what uninitialised or reused storage holds.

    * The theorems

    - Containers: the ring buffer refines a FIFO queue; the sector allocator
      refines a finite map of blocks; the lists refine sequences, and insertion
      keeps them well formed; the property map refines an association list.
    - JSON: the parser accepts exactly the grammar and returns the value; printing
      and parsing are inverse; the linked nodes implement a forest, and deletion
      frees a tree and nothing else; of a tree that the streaming coders handle
      (JsonStream.streamable: no null, no empty array or object) the encoder writes
      the same text however it is cut into parts, and the decoder rebuilds the tree
      from any cut; on arbitrary bytes the decoder keeps its invariant, returns -1
      or the size of the part, and has no undefined behaviour.
    - MQTT packets: serializers write the packets of MQTT 3.1.1 or report a short
      buffer, deserializers read them back, and the lengths they report stay in
      bounds, or the theorem names the inputs for which they do not.
    - MQTT client: publishing through any payload drive, the JSON one included,
      puts exactly one PUBLISH packet on the wire; waiting for an acknowledgement
      delivers and acknowledges every message before it and returns it; the loop
      ends; the client stays well typed; and the two ways it goes wrong, a
      keepalive that never recovers and a body longer than the receive buffer.

    - HTTP: one exchange sends the text of the request, reads the response to its
      end and hands its payload, in pieces, to the handler of the request; a request
      holds what the URL and the setters say and gives all its memory back; what is
      sent in chunks is read back; a closed connection, a line as long as its buffer
      and a piece that comes at once break the client, and a second piece breaks the
      default payload handler.
    - Signatures: a request that is signed carries the digest of its canonical text
      under the two keys, and a whole call over HTTP sends it and is undefined when
      its response comes in two pieces; the signature of an
      event does not depend on the order of its parameters; no parameters, too many,
      and long numbers overrun the buffers.
    - Events: any sequence of messages, queries and rounds of the dispatcher behaves
      as a FIFO queue of the events that are well formed and signed, or not signed at
      all, with the handlers of commands and of states as they are; a message that is not JSON makes the client use freed memory, and the
      length of an empty queue leaves the mutex locked.
    - Commands: whatever becomes of the answers, the cloud is told that a command was
      received, the registered function is called once, and the cloud is told how that
      went, in this order; the request of an answer is the one of the event unless
      its identifier is too long for the URL; a table that was given back is still used.
    - States: a message of the cloud merges into the states by name and time, once,
      however often it comes; a request is answered in order; a newer value at an
      earlier time of the day is lost; posting reads through NULL when a string was
      not set, and takes names that are on the heap with it.
    - Text helpers: timestamps are read back as they are printed, hexadecimal text
      is decoded to what was encoded, and percent encoding is defined on ASCII.

    Where the code does not do what it means to, the theorem states what it does.

    * Fuel

    Recursion that is not structural takes fuel. Most definitions compute it from
    their input: the length of the text (parser, printers), four steps for each
    node of a tree (encoder), one more than the bytes still to be read or written
    (socket and packet loops), the rounds the packet format allows (remaining
    lengths). List walks take it as an argument, and their theorems ask for a step
    for each node. The streaming decoder needs none, it is a function of one byte.
    The loop of [waitfor], whose length the peer decides, takes its fuel as an
    argument; [waitfor_terminates] shows that the length of the input bounds it.
    So do the loops of the HTTP client that wait for its peer: [steps_ok], two
    steps for each byte of a line, suffices for the peer of HttpPeer, and
    [closed_peer_spins] shows that nothing suffices once the connection is closed.

    * Not modelled

    wolfSSL (src/src/wolfSSL) is vendored, and so are ceedling and unity under
    test/. The parser, the printers and the streaming coders take and return JSON
    trees as values; JsonTree models the pointers, and is not tied to them. Of src/src/mqtt/client, opening a socket,
    the task loop and the path with message handlers, which the SDK does not take,
    are left out, with the ports for Linux and FreeRTOS, which are system calls.
    MQTTFormat.c prints for logs. src/src/arrow builds requests from string
    constants and configuration and drives the layers below; of it the JSON
    payload drive, the signatures, the events, the commands, the states and
    the text helpers are modelled. Of
    src/src/http requests over MQTT are left out. The rest of src/src/ssl, src/src/ntp,
    src/src/bsd and src/src/sys are glue over sockets and the operating system. *)
From Stdlib Require Export ZArith Lia Ascii.
From stdpp Require Export base gmap strings option list.
Export list.

#[global] Open Scope Z_scope.

(** ** Machine integers *)

Definition u8 (z : Z) : Z := z mod 256.
Definition u16 (z : Z) : Z := z mod 65536.
Definition u32 (z : Z) : Z := z mod 4294967296.
Definition s8 (z : Z) : Z := (z + 128) mod 256 - 128.
Definition s32 (z : Z) : Z := (z + 2147483648) mod 4294967296 - 2147483648.

Definition is_byte (z : Z) : Prop := 0 <= z < 256.
Definition INT_MAX : Z := 2147483647.

#[global] Instance is_byte_dec z : Decision (is_byte z).
Proof. unfold is_byte. apply _. Defined.

(** ** Lengths and strings *)

Definition zlen {A} (l : list A) : Z := Z.of_nat (length l).

(** The bytes of a string literal, without the terminator. *)
Fixpoint lit (s : string) : list Z :=
  match s with
  | EmptyString => []
  | String c s' => Z.of_nat (nat_of_ascii c) :: lit s'
  end.

Arguments lit s%_string_scope.

(** A C string is the list of the bytes before its terminator. *)
Definition is_cstr (s : list Z) : Prop := Forall (fun b => 1 <= b < 256) s.

#[global] Instance is_cstr_dec s : Decision (is_cstr s).
Proof. unfold is_cstr. apply _. Defined.

(** [strlen] of the C string that starts a memory region: the bytes before the
    first zero, undefined when the region has none. *)
Fixpoint strlen (mem : list Z) : option Z :=
  match mem with
  | [] => None
  | b :: m => if b =? 0 then Some 0 else n ← strlen m; Some (n + 1)
  end.

(** [strcmp] used as an equality test. *)
Definition streqb (a b : list Z) : bool := bool_decide (a = b).

(** ** Byte buffers *)

Definition rd {A} (b : list A) (i : Z) : option A :=
  if 0 <=? i then b !! Z.to_nat i else None.

Definition wr {A} (b : list A) (i : Z) (v : A) : option (list A) :=
  if (0 <=? i) && (i <? zlen b) then Some (<[Z.to_nat i := v]> b) else None.

(** The source half of [memcpy]: [n] bytes from offset [i]. A negative count is
    a huge [size_t], so it never fits. *)
Definition rdn {A} (b : list A) (i n : Z) : option (list A) :=
  if (0 <=? i) && (0 <=? n) && (i + n <=? zlen b)
  then Some (take (Z.to_nat n) (drop (Z.to_nat i) b)) else None.

(** The destination half of [memcpy]: the bytes [s] at offset [i]. *)
Definition wrn {A} (b : list A) (i : Z) (s : list A) : option (list A) :=
  if (0 <=? i) && (i + zlen s <=? zlen b)
  then Some (take (Z.to_nat i) b ++ s ++ drop (Z.to_nat i + length s) b) else None.

Arguments rd : simpl never.
Arguments wr : simpl never.
Arguments rdn : simpl never.
Arguments wrn : simpl never.
Arguments zlen : simpl never.
Arguments u8 : simpl never.
Arguments u16 : simpl never.
Arguments u32 : simpl never.
Arguments s8 : simpl never.
Arguments s32 : simpl never.

(** ** Tactics and hint databases *)

Create HintDb cint.
Create Rewrite HintDb cint.
Create HintDb cbuf.
Create Rewrite HintDb cbuf.

(** Arithmetic on lengths: [zlen] unfolded, the length of every list operation
    pushed to its arguments, then [lia]. *)
Ltac zlen_norm :=
  unfold zlen in *;
  repeat first
    [ progress rewrite ?length_app, ?length_drop, ?length_take, ?length_cons,
        ?length_nil, ?length_insert, ?length_replicate, ?length_fmap, ?length_map, ?length_rev
    | progress rewrite ?length_app, ?length_drop, ?length_take, ?length_cons,
        ?length_nil, ?length_insert, ?length_replicate, ?length_fmap, ?length_map, ?length_rev in * ].
Ltac zl := zlen_norm; lia.

(** [lia] with the division and modulo of the goal turned into equations. *)
Ltac lia_mod := Z.div_mod_to_equations; lia.

(** Case analysis on the boolean comparisons of a C condition. *)
Ltac bool_cases :=
  repeat match goal with
    | |- context [if ?b then _ else _] => let E := fresh "E" in destruct b eqn:E
    | H : context [if ?b then _ else _] |- _ => let E := fresh "E" in destruct b eqn:E
    end.
Ltac bool_to_prop :=
  rewrite ?andb_true_iff, ?orb_true_iff, ?negb_true_iff, ?Z.eqb_eq, ?Z.eqb_neq,
    ?Z.ltb_lt, ?Z.leb_le, ?Z.ltb_ge, ?Z.leb_gt in *.

(** Decide the condition at the head of the goal by arithmetic. *)
Ltac if_true := match goal with |- context [if ?b then _ else _] =>
  replace b with true by (symmetry; bool_to_prop; zl) end.
Ltac if_false := match goal with |- context [if ?b then _ else _] =>
  replace b with false by (symmetry; apply not_true_iff_false; bool_to_prop; zl) end.

(** ** Lemmas on machine integers *)

Lemma u8_range z : is_byte (u8 z).
Proof. unfold is_byte, u8. lia_mod. Qed.

Lemma u8_id z : is_byte z -> u8 z = z.
Proof. unfold is_byte, u8. lia_mod. Qed.

Lemma u16_id z : 0 <= z < 65536 -> u16 z = z.
Proof. unfold u16. lia_mod. Qed.

Lemma u32_id z : 0 <= z < 4294967296 -> u32 z = z.
Proof. unfold u32. lia_mod. Qed.

Lemma s8_id z : -128 <= z < 128 -> s8 z = z.
Proof. unfold s8. lia_mod. Qed.

Lemma s32_id z : -2147483648 <= z < 2147483648 -> s32 z = z.
Proof. unfold s32. lia_mod. Qed.

#[export] Hint Resolve u8_range : cint.
#[export] Hint Rewrite u8_id u16_id u32_id s8_id s32_id using (unfold is_byte in *; lia) : cint.

(** ** Lemmas on lengths *)

Lemma zlen_app {A} (a b : list A) : zlen (a ++ b) = zlen a + zlen b.
Proof. zl. Qed.
Lemma zlen_cons {A} (x : A) l : zlen (x :: l) = zlen l + 1.
Proof. zl. Qed.
Lemma zlen_nil {A} : zlen (@nil A) = 0.
Proof. done. Qed.
Lemma zlen_nonneg {A} (l : list A) : 0 <= zlen l.
Proof. zl. Qed.
Lemma zlen_0 {A} (l : list A) : zlen l = 0 -> l = [].
Proof. destruct l; [done | zl]. Qed.
Lemma zlen_to_nat {A} (l : list A) : Z.to_nat (zlen l) = length l.
Proof. zl. Qed.

#[export] Hint Rewrite @zlen_app @zlen_cons @zlen_nil @zlen_to_nat : cbuf.

(** ** Lemmas on buffers *)

Lemma rd_app {A} (a : list A) x r i : i = zlen a -> rd (a ++ x :: r) i = Some x.
Proof.
  intros ->. unfold rd. if_true. rewrite lookup_app_r by zl.
  rewrite zlen_to_nat, Nat.sub_diag. done.
Qed.

Lemma rd_cons_0 {A} (x : A) r : rd (x :: r) 0 = Some x.
Proof. done. Qed.

Lemma rd_app_l {A} (a b : list A) i : i < zlen a -> rd (a ++ b) i = rd a i.
Proof. intros Hi. unfold rd. destruct (0 <=? i) eqn:E; [|done]. rewrite lookup_app_l by zl. done. Qed.

Lemma rd_None {A} (b : list A) i : rd b i = None <-> i < 0 \/ zlen b <= i.
Proof.
  unfold rd. destruct (0 <=? i) eqn:E; bool_to_prop; [|naive_solver lia].
  rewrite lookup_ge_None. zl.
Qed.

Lemma rd_Some {A} (b : list A) i : 0 <= i < zlen b -> exists x, rd b i = Some x.
Proof.
  intros Hi. destruct (rd b i) eqn:E; [eauto|]. apply rd_None in E. lia.
Qed.

Lemma wr_app {A} (a : list A) x r v i : i = zlen a -> wr (a ++ x :: r) i v = Some (a ++ v :: r).
Proof.
  intros ->. unfold wr. if_true. f_equal. rewrite zlen_to_nat.
  rewrite insert_app_r_alt by lia. rewrite Nat.sub_diag. done.
Qed.

Lemma wr_length {A} (b : list A) i v b' : wr b i v = Some b' -> length b' = length b.
Proof. unfold wr. intros H. bool_cases; simplify_eq. zl. Qed.

Lemma wr_None {A} (b : list A) i v : wr b i v = None <-> i < 0 \/ zlen b <= i.
Proof.
  unfold wr. destruct ((0 <=? i) && (i <? zlen b)) eqn:E.
  - bool_to_prop. split; [done | lia].
  - apply not_true_iff_false in E. bool_to_prop. split; [lia | done].
Qed.

Lemma wrn_app {A} (a r s : list A) i :
  i = zlen a -> zlen s <= zlen r ->
  wrn (a ++ r) i s = Some (a ++ s ++ drop (length s) r).
Proof.
  intros -> Hs. unfold wrn. if_true. f_equal. rewrite zlen_to_nat.
  rewrite take_app_length. f_equal. f_equal. rewrite drop_app_add. done.
Qed.

Lemma wrn_length {A} (b : list A) i s b' : wrn b i s = Some b' -> length b' = length b.
Proof. unfold wrn. intros H. bool_cases; simplify_eq. bool_to_prop. zl. Qed.

Lemma wrn_None {A} (b : list A) i s : wrn b i s = None <-> i < 0 \/ zlen b < i + zlen s.
Proof.
  unfold wrn. destruct ((0 <=? i) && (i + zlen s <=? zlen b)) eqn:E.
  - bool_to_prop. split; [done | lia].
  - apply not_true_iff_false in E. bool_to_prop. split; [lia | done].
Qed.

Lemma rdn_app {A} (a s r : list A) i n :
  i = zlen a -> n = zlen s -> rdn (a ++ s ++ r) i n = Some s.
Proof.
  intros -> ->. unfold rdn. if_true. f_equal. rewrite !zlen_to_nat.
  rewrite drop_app_length, take_app_length. done.
Qed.

Lemma rdn_all {A} (s : list A) n : n = zlen s -> rdn s 0 n = Some s.
Proof. intros ->. rewrite <- (app_nil_r s) at 1. apply (rdn_app [] s []); done. Qed.

Lemma rdn_length {A} (b : list A) i n s : rdn b i n = Some s -> zlen s = n.
Proof. unfold rdn. intros H. bool_cases; simplify_eq. bool_to_prop. zl. Qed.

Lemma rdn_None {A} (b : list A) i n :
  rdn b i n = None <-> i < 0 \/ n < 0 \/ zlen b < i + n.
Proof.
  unfold rdn. destruct ((0 <=? i) && (0 <=? n) && (i + n <=? zlen b)) eqn:E.
  - bool_to_prop. split; [done | lia].
  - apply not_true_iff_false in E. bool_to_prop. split; [lia | done].
Qed.

#[export] Hint Rewrite @drop_drop @take_take @app_nil_r : cbuf.

(** ** Lemmas on C strings *)

Lemma strlen_cstr s r : is_cstr s -> strlen (s ++ 0 :: r) = Some (zlen s).
Proof.
  induction 1 as [|b s Hb Hs IH]; [done|]. simpl. if_false.
  rewrite IH. simpl. f_equal. zl.
Qed.

Lemma is_cstr_bytes s : is_cstr s -> Forall is_byte s.
Proof. intros H. apply (Forall_impl _ _ _ H). unfold is_byte. lia. Qed.

Lemma streqb_eq a b : streqb a b = true <-> a = b.
Proof. unfold streqb. apply bool_decide_eq_true. Qed.

#[export] Hint Resolve is_cstr_bytes strlen_cstr : cbuf.

(** Splitting a list at a length. *)
Lemma split_at {A} (l : list A) n : 0 <= n <= zlen l -> exists a b, l = a ++ b /\ zlen a = n.
Proof.
  intros Hn. exists (take (Z.to_nat n) l), (drop (Z.to_nat n) l). rewrite take_drop. split; [done | zl].
Qed.

Lemma take_app_zlen {A} (a b : list A) n : n = zlen a -> take (Z.to_nat n) (a ++ b) = a.
Proof. intros ->. rewrite zlen_to_nat. apply take_app_length. Qed.

Lemma drop_app_zlen {A} (a b : list A) n : n = zlen a -> drop (Z.to_nat n) (a ++ b) = b.
Proof. intros ->. rewrite zlen_to_nat. apply drop_app_length. Qed.

Lemma drop_app_len {A} (a b : list A) n : n = length a -> drop n (a ++ b) = b.
Proof. intros ->. apply drop_app_length. Qed.

(** Writing over the front of what is left of a buffer. *)
Lemma wrn_app_split {A} (a s r1 r2 : list A) i :
  i = zlen a -> zlen s = zlen r1 -> wrn (a ++ r1 ++ r2) i s = Some (a ++ s ++ r2).
Proof. intros Hi Hs. rewrite wrn_app by zl. rewrite drop_app_len by zl. done. Qed.

Lemma mod_wrap a t : 0 <= a - t < t -> a mod t = a - t.
Proof. intros H. symmetry. apply (Z.mod_unique_pos a t 1); lia. Qed.

Lemma rdn_app_0 {A} (s r : list A) n : n = zlen s -> rdn (s ++ r) 0 n = Some s.
Proof. intros Hn. apply (rdn_app [] s r); done. Qed.

Lemma wrn_app_0 {A} (s r1 r2 : list A) : zlen s = zlen r1 -> wrn (r1 ++ r2) 0 s = Some (s ++ r2).
Proof. intros Hs. apply (wrn_app_split [] s r1 r2); done. Qed.

Lemma rdn_app_end {A} (a s : list A) i n : i = zlen a -> n = zlen s -> rdn (a ++ s) i n = Some s.
Proof. intros Hi Hn. rewrite <- (app_nil_r s) at 1. by apply rdn_app. Qed.

Lemma u8_s8 z : u8 (s8 z) = u8 z.
Proof. unfold u8, s8. lia_mod. Qed.

Lemma u8_u8 z : u8 (u8 z) = u8 z.
Proof. unfold u8. lia_mod. Qed.

#[export] Hint Rewrite u8_s8 u8_u8 : cint.

(** [strncmp a b n == 0] on the memory regions at [a] and [b]. *)
Fixpoint strncmp0 (a b : list Z) (n : nat) {struct n} : option bool :=
  match n with
  | O => Some true
  | S n' =>
      match a, b with
      | x :: a', y :: b' =>
          if x =? y then if x =? 0 then Some true else strncmp0 a' b' n' else Some false
      | _, _ => None
      end
  end.

Lemma strncmp0_cstr a b r n :
  is_cstr b -> n = length b ->
  zlen b <= zlen a -> strncmp0 a (b ++ r) n = Some (bool_decide (take n a = b)).
Proof.
  intros Hb ->. revert a. induction Hb as [|y b Hy Hb IH]; intros a Hlen.
  { done. }
  destruct a as [|x a]; [zl|]. simpl. destruct (Z.eqb_spec x y) as [-> | Hne].
  - if_false. rewrite IH by zl. f_equal. apply bool_decide_ext.
    split; intros Heq; [by rewrite Heq | congruence].
  - f_equal. symmetry. apply bool_decide_eq_false. intros Heq. congruence.
Qed.

Lemma rdn_0_inv {A} (b : list A) n s :
  rdn b 0 n = Some s -> s = take (Z.to_nat n) b /\ 0 <= n <= zlen b.
Proof. unfold rdn. intros H. bool_cases; simplify_eq. bool_to_prop. rewrite drop_0. split; [done | lia]. Qed.

(** What was written is read back. *)
Lemma rdn_wrn {A} (b : list A) i s b' : wrn b i s = Some b' -> rdn b' i (zlen s) = Some s.
Proof.
  unfold wrn. intros H. bool_cases; simplify_eq. bool_to_prop.
  apply rdn_app; [|done]. zl.
Qed.

Lemma rdn_Some {A} (b : list A) i n : 0 <= i -> 0 <= n -> i + n <= zlen b -> exists s, rdn b i n = Some s.
Proof. intros. destruct (rdn b i n) eqn:E; [eauto|]. apply rdn_None in E. lia. Qed.

Lemma wrn_Some {A} (b : list A) i s : 0 <= i -> i + zlen s <= zlen b -> exists b', wrn b i s = Some b'.
Proof. intros. destruct (wrn b i s) eqn:E; [eauto|]. apply wrn_None in E. lia. Qed.

Lemma wr_wrn {A} (b : list A) i v : wr b i v = wrn b i [v].
Proof.
  unfold wr, wrn. change (zlen [v]) with 1. replace (i + 1 <=? zlen b) with (i <? zlen b) by lia.
  destruct ((0 <=? i) && (i <? zlen b)) eqn:E; [|done]. bool_to_prop. f_equal. rewrite insert_take_drop by zl.
  f_equal. cbn [length app]. f_equal. f_equal. lia.
Qed.

Lemma wrn_nil {A} (b : list A) i : 0 <= i <= zlen b -> wrn b i [] = Some b.
Proof. intros Hi. unfold wrn. if_true. cbn [app length]. by rewrite Nat.add_0_r, take_drop. Qed.

(** Two writes in a row are one. *)
Lemma wrn_compose {A} (b : list A) i s b1 t : wrn b i s = Some b1 -> wrn b1 (i + zlen s) t = wrn b i (s ++ t).
Proof.
  intros H. pose proof (wrn_length _ _ _ _ H) as Hl. assert (Hz : zlen b1 = zlen b) by (unfold zlen; lia). clear Hl.
  unfold wrn in *. rewrite Hz, zlen_app.
  destruct ((0 <=? i) && (i + zlen s <=? zlen b)) eqn:E; [|done]. injection H as H. bool_to_prop.
  pose proof (zlen_nonneg s).
  replace ((0 <=? i + zlen s) && (i + zlen s + zlen t <=? zlen b)) with ((0 <=? i) && (i + (zlen s + zlen t) <=? zlen b)) by lia.
  destruct ((0 <=? i) && (i + (zlen s + zlen t) <=? zlen b)) eqn:E2; [|done]. bool_to_prop. f_equal. rewrite <- H.
  replace (Z.to_nat (i + zlen s)) with (length (take (Z.to_nat i) b ++ s)) by zl.
  rewrite (app_assoc (take _ b) s). rewrite take_app_length, drop_app_add, drop_drop, <- !app_assoc. do 3 f_equal. f_equal. zl.
Qed.

(** ** Finite checks *)

(** A boolean property of a bounded integer, decided by evaluation. *)
Lemma forall_range (P : Z -> bool) n :
  forallb P (seqZ 0 n) = true -> forall z, 0 <= z < n -> P z = true.
Proof. intros H z Hz. rewrite forallb_forall in H. apply H, list_elem_of_In, elem_of_seqZ. lia. Qed.

Lemma forall_byte (P : Z -> bool) :
  forallb P (seqZ 0 256) = true -> forall z, is_byte z -> P z = true.
Proof. intros H z Hz. by apply (forall_range P 256). Qed.

(** ** Loops *)

(** [for (i = i0; i < i0 + n; ++i) st = body(i, st)] *)
Fixpoint for_from {St} (body : Z -> St -> option St) (n : nat) (i : Z) (st : St) : option St :=
  match n with
  | O => Some st
  | S n' => st ← body i st; for_from body n' (i + 1) st
  end.

Definition for_ {St} (count : Z) (body : Z -> St -> option St) (st : St) : option St :=
  for_from body (Z.to_nat count) 0 st.

Lemma for_from_fold {St A} (body : Z -> St -> option St) (step : A -> St -> St) (l : list A) i st :
  (forall k a st, l !! k = Some a -> body (i + Z.of_nat k) st = Some (step a st)) ->
  for_from body (length l) i st = Some (foldl (fun st a => step a st) st l).
Proof.
  revert i st. induction l as [|a l IH]; intros i st H; [done|]. simpl.
  rewrite <- (Z.add_0_r i) at 1. rewrite (H O a) by done. cbn [mbind option_bind]. apply IH.
  intros k b st' Hk. rewrite <- (H (S k) b st' Hk). f_equal. lia.
Qed.

Lemma rd_lookup {A} (l : list A) k x : l !! k = Some x -> rd l (Z.of_nat k) = Some x.
Proof. intros H. unfold rd. if_true. by rewrite Nat2Z.id. Qed.

(** A loop over the elements of a list that may fail. *)
Fixpoint fold_opt {A St} (body : A -> St -> option St) (l : list A) (st : St) : option St :=
  match l with
  | [] => Some st
  | x :: l' => st ← body x st; fold_opt body l' st
  end.

Lemma fold_opt_app {A St} (body : A -> St -> option St) l l' st :
  fold_opt body (l ++ l') st = (st ← fold_opt body l st; fold_opt body l' st).
Proof.
  revert st. induction l as [|x l IH]; intros st; [done|]. simpl. destruct (body x st); simpl; auto.
Qed.
