(* ===== verification/StateM.v ===== *)
(** Stateful operations that may be undefined: functions from a state to a result
    and a state, [None] where the code has undefined behaviour or a loop is out
    of fuel; and a program logic of total correctness for them. *)
From S2P Require Import Prelude.

Module StateM.

Definition M (St A : Type) : Type := St -> option (A * St).

#[export] Instance M_ret {St} : MRet (M St) := fun A a s => Some (a, s).
#[export] Instance M_bind {St} : MBind (M St) := fun A B f m s => '(a, s) ← m s; f a s.

(** A value that may be undefined. *)
Definition lift {St A} (o : option A) : M St A := fun s => a ← o; Some (a, s).

Section logic.
Context {St : Type}.

(** [does m s Q]: the operation is defined, and [Q] holds of its result and the state after it. *)
Definition does {A} (m : M St A) (s : St) (Q : A -> St -> Prop) : Prop := exists a s', m s = Some (a, s') /\ Q a s'.

Lemma does_ret {A} (a : A) s (Q : A -> St -> Prop) : Q a s -> does (mret a) s Q.
Proof. intros HQ. by exists a, s. Qed.

Lemma does_bind {A B} (m : M St A) (f : A -> M St B) s (R : A -> St -> Prop) (Q : B -> St -> Prop) :
  does m s R -> (forall a s', R a s' -> does (f a) s' Q) -> does (m ≫= f) s Q.
Proof.
  intros (a & s1 & E & HR) Hf. destruct (Hf a s1 HR) as (b & s2 & E2 & HQ). exists b, s2. split; [|done].
  unfold mbind, M_bind. rewrite E. cbn [mbind option_bind]. exact E2.
Qed.

Lemma does_mono {A} (m : M St A) s (R Q : A -> St -> Prop) : does m s R -> (forall a s', R a s' -> Q a s') -> does m s Q.
Proof. intros (a & s1 & E & HR) Hf. exists a, s1. auto. Qed.

Lemma does_lift {A} (o : option A) a s (Q : A -> St -> Prop) : o = Some a -> Q a s -> does (lift o) s Q.
Proof. intros -> HQ. exists a, s. by split. Qed.

(** Running one step of a sequence. *)
Lemma bind_run {A B} (m : M St A) (f : A -> M St B) s a s' : m s = Some (a, s') -> (m ≫= f) s = f a s'.
Proof. intros E. unfold mbind, M_bind. by rewrite E. Qed.

(** A step that is undefined. *)
Lemma bind_stuck {A B} (m : M St A) (f : A -> M St B) s : m s = None -> (m ≫= f) s = None.
Proof. intros E. unfold mbind, M_bind. by rewrite E. Qed.

(** Bringing a step out of a sequence in front. *)
Lemma bind_assoc {A B C} (m : M St A) (f : A -> M St B) (g : B -> M St C) s : ((m ≫= f) ≫= g) s = (m ≫= (fun a => f a ≫= g)) s.
Proof. unfold mbind, M_bind. by destruct (m s) as [[a s']|]. Qed.

Lemma lift_run {A} (o : option A) (s : St) a : o = Some a -> lift o s = Some (a, s).
Proof. by intros ->. Qed.
End logic.

End StateM.
