(* ===== verification/ByteQueue.v ===== *)
(** The contract between the byte queue of src/src/data/ringbuffer.c and the
    code that moves bytes through it (src/src/http/client.c): a bounded FIFO of
    bytes whose operations either do all of their work or change nothing. *)
From S2P Require Import Prelude.

Class ByteQueue (Q : Type) := {
  q_ok : Q -> Prop;
  q_bytes : Q -> list Z;
  q_room : Q -> Z;
  q_size : Q -> Z;
  q_push : Q -> list Z -> Z -> option (Z * Q);
  q_pop : Q -> list Z -> Z -> option (Z * Q * list Z);
  q_clear : Q -> option (Z * Q);

  q_push_fits q s rest :
    q_ok q -> s <> [] -> zlen s <= q_room q ->
    exists q', q_push q (s ++ rest) (zlen s) = Some (0, q') /\ q_ok q' /\
      q_bytes q' = q_bytes q ++ s /\ q_room q' = q_room q - zlen s;
  q_push_str q s rest :
    q_ok q -> is_cstr s -> s <> [] -> q_push q (s ++ 0 :: rest) 0 = q_push q (s ++ 0 :: rest) (zlen s);
  q_push_full q s len :
    q_ok q -> q_room q < len -> q_push q s len = Some (-1, q);
  q_pop_all q n dst :
    q_ok q -> 0 <= n <= zlen (q_bytes q) -> n <= zlen dst ->
    exists q', q_pop q dst n = Some (0, q', take (Z.to_nat n) (q_bytes q) ++ drop (Z.to_nat n) dst) /\
      q_ok q' /\ q_bytes q' = drop (Z.to_nat n) (q_bytes q) /\ q_room q' = q_room q + n;
  q_pop_short q n dst :
    q_ok q -> zlen (q_bytes q) < n -> q_pop q dst n = Some (-1, q, dst);
  q_size_bytes q : q_ok q -> q_size q = zlen (q_bytes q);
  q_clear_empty q :
    q_ok q -> exists q', q_clear q = Some (0, q') /\ q_ok q' /\ q_bytes q' = [] /\
      q_room q' = q_room q + zlen (q_bytes q);
}.

Section client.
Context {Q : Type} `{ByteQueue Q}.

(** Bytes leave a queue in the order they entered it: with [q] drained of what
    it held before, a pushed block comes back unchanged. *)
Lemma q_push_pop q s rest dst :
  q_ok q -> q_bytes q = [] -> s <> [] -> zlen s <= q_room q -> zlen s <= zlen dst ->
  exists q1 q2, q_push q (s ++ rest) (zlen s) = Some (0, q1) /\
    q_pop q1 dst (zlen s) = Some (0, q2, s ++ drop (length s) dst) /\
    q_bytes q2 = [] /\ q_room q2 = q_room q.
Proof.
  intros Hok Hnil Hs Hroom Hdst.
  destruct (q_push_fits q s rest Hok Hs Hroom) as (q1 & Hpush & Hok1 & Hb1 & Hr1).
  rewrite Hnil in Hb1. simpl in Hb1.
  destruct (q_pop_all q1 (zlen s) dst Hok1) as (q2 & Hpop & Hok2 & Hb2 & Hr2);
    [rewrite Hb1; zl | done |].
  exists q1, q2. rewrite Hb1, zlen_to_nat, firstn_all in Hpop.
  split; [done|]. split; [done|]. rewrite Hb2, Hb1, zlen_to_nat, drop_all. split; [done | lia].
Qed.
End client.
