(* ===== verification/RingBuffer.v ===== *)
(** src/src/data/ringbuffer.c: the byte ring buffer, in the heap-allocated
    configuration (RING_BUFFER_ARRAY undefined). [buffer = None] is the NULL or
    freed pointer. [total], [size] and [shift] are [uint16_t] fields. *)
From S2P Require Import Prelude ByteQueue.

Module RingBuffer.

Record ring_buffer_t := mk_ring {
  buffer : option (list Z);
  total : Z;
  size : Z;
  shift : Z;
}.

(** [malloc size] gives a block of that many bytes of any contents, or NULL. *)
Definition ringbuf_init (malloc : Z -> option (list Z)) (buf : ring_buffer_t) (sz : Z) : Z * ring_buffer_t :=
  match malloc sz with
  | None => (-1, mk_ring None (total buf) (size buf) (shift buf))
  | Some block => (0, mk_ring (Some block) (u16 sz) 0 0)
  end.

Definition ringbuf_free (buf : ring_buffer_t) : ring_buffer_t := mk_ring None 0 0 0.

Definition ringbuf_capacity (buf : ring_buffer_t) : Z := u16 (total buf - 1 - size buf).

Definition ringbuf_size (buf : ring_buffer_t) : Z := size buf.

Definition ringbuf_clear (buf : ring_buffer_t) : option (Z * ring_buffer_t) :=
  b ← buffer buf;
  b' ← wr b 0 0;
  Some (0, mk_ring (Some b') (total buf) 0 0).

(** C's [%] on the non-negative field values; a zero divisor is undefined. *)
Definition c_mod (a b : Z) : option Z := if b =? 0 then None else Some (a mod b).

Definition ringbuf_push (buf : ring_buffer_t) (s : list Z) (len : Z) : option (Z * ring_buffer_t) :=
  len ← (if len =? 0 then strlen s else Some len);
  if ringbuf_capacity buf <? len then Some (-1, buf) else
  wr ← c_mod (shift buf + size buf) (total buf);
  let till_border := total buf - wr in
  b ← buffer buf;
  b' ← (if till_border <? len then
          s1 ← rdn s 0 till_border;
          b1 ← wrn b wr s1;
          s2 ← rdn s till_border (len - till_border);
          wrn b1 0 s2
        else
          s1 ← rdn s 0 len;
          wrn b wr s1);
  Some (0, mk_ring (Some b') (total buf) (u16 (size buf + len)) (shift buf)).

(** [pop] copies into the destination object [s] and returns its new contents. *)
Definition ringbuf_pop (buf : ring_buffer_t) (s : list Z) (len : Z)
    : option (Z * ring_buffer_t * list Z) :=
  if ringbuf_size buf <? len then Some (-1, buf, s) else
  let till_border := total buf - shift buf in
  b ← buffer buf;
  s' ← (if till_border <? len then
          p1 ← rdn b (shift buf) till_border;
          s1 ← wrn s 0 p1;
          p2 ← rdn b 0 (len - till_border);
          wrn s1 till_border p2
        else
          p1 ← rdn b (shift buf) len;
          wrn s 0 p1);
  sh ← c_mod (shift buf + len) (total buf);
  Some (0, mk_ring (Some b) (total buf) (u16 (size buf - len)) sh, s').

Definition ringbuf_strcat (buf : ring_buffer_t) (str : list Z) : option (Z * ring_buffer_t) :=
  len ← strlen str;
  ringbuf_push buf str len.

(** ** The queue a buffer stands for *)

Definition contents (buf : ring_buffer_t) : list Z :=
  match buffer buf with
  | Some b => take (Z.to_nat (size buf)) (drop (Z.to_nat (shift buf)) b ++ take (Z.to_nat (shift buf)) b)
  | None => []
  end.

Definition ring_ok (buf : ring_buffer_t) : Prop :=
  0 <= size buf < total buf /\ 0 <= shift buf < total buf /\ total buf < 65536 /\
  exists b, buffer buf = Some b /\ zlen b = total buf.

(** The two layouts of the live bytes: in one run, or wrapped over the border. *)
Inductive ring_repr : ring_buffer_t -> list Z -> Prop :=
  | repr_linear a q r :
      r <> [] -> zlen (a ++ q ++ r) < 65536 ->
      ring_repr (mk_ring (Some (a ++ q ++ r)) (zlen (a ++ q ++ r)) (zlen q) (zlen a)) q
  | repr_wrapped q1 q2 f :
      q1 <> [] -> f <> [] -> zlen (q2 ++ f ++ q1) < 65536 ->
      ring_repr (mk_ring (Some (q2 ++ f ++ q1)) (zlen (q2 ++ f ++ q1)) (zlen (q1 ++ q2)) (zlen (q2 ++ f)))
        (q1 ++ q2).

Lemma nonempty_zlen {A} (l : list A) : l <> [] <-> 0 < zlen l.
Proof. destruct l; split; intros; first [done | zl]. Qed.

Lemma ring_repr_contents buf q : ring_repr buf q -> contents buf = q.
Proof.
  destruct 1 as [a q r Hr Hlen | q1 q2 f Hq1 Hf Hlen]; unfold contents; simpl; rewrite !zlen_to_nat.
  - rewrite drop_app_length, <- app_assoc, take_app_length. done.
  - rewrite app_assoc, drop_app_length, take_app_length, app_assoc, take_app_length. done.
Qed.

Lemma ring_repr_ok buf q : ring_repr buf q -> ring_ok buf.
Proof.
  destruct 1 as [a q r Hr Hlen | q1 q2 f Hq1 Hf Hlen]; rewrite nonempty_zlen in *;
    unfold ring_ok; simpl; (split; [zl|]; split; [zl|]; split; [done|]; eauto).
Qed.

Lemma ring_ok_repr buf : ring_ok buf -> ring_repr buf (contents buf).
Proof.
  destruct buf as [b0 t n sh]. intros (Hn & Hsh & Ht & b & Hb & Hlen). simpl in *. subst b0 t.
  assert (exists a tl, b = a ++ tl /\ sh = zlen a) as (a & tl & -> & ->).
  { exists (take (Z.to_nat sh) b), (drop (Z.to_nat sh) b). rewrite take_drop. split; [done | zl]. }
  destruct (Z.lt_ge_cases n (zlen tl)) as [Hlt | Hge].
  - assert (exists q r, tl = q ++ r /\ n = zlen q) as (q & r & -> & ->).
    { exists (take (Z.to_nat n) tl), (drop (Z.to_nat n) tl). rewrite take_drop. split; [done | zl]. }
    assert (Hrep : ring_repr (mk_ring (Some (a ++ q ++ r)) (zlen (a ++ q ++ r)) (zlen q) (zlen a)) q).
    { constructor; [rewrite nonempty_zlen; zl | done]. }
    rewrite (ring_repr_contents _ _ Hrep). done.
  - assert (exists q2 f, a = q2 ++ f /\ n = zlen (tl ++ q2)) as (q2 & f & -> & ->).
    { exists (take (Z.to_nat (n - zlen tl)) a), (drop (Z.to_nat (n - zlen tl)) a).
      rewrite take_drop. split; [done | zl]. }
    rewrite <- app_assoc in *.
    assert (Hrep : ring_repr (mk_ring (Some (q2 ++ f ++ tl)) (zlen (q2 ++ f ++ tl))
              (zlen (tl ++ q2)) (zlen (q2 ++ f))) (tl ++ q2)).
    { constructor; rewrite ?nonempty_zlen; zl. }
    rewrite (ring_repr_contents _ _ Hrep). done.
Qed.

Lemma ring_repr_size buf q : ring_repr buf q -> size buf = zlen q.
Proof. by destruct 1. Qed.

Lemma ring_repr_room buf q : ring_repr buf q -> ringbuf_capacity buf = total buf - 1 - zlen q.
Proof.
  intros Hr. pose proof (ring_repr_ok _ _ Hr) as (Hn & _ & Ht & _).
  pose proof (ring_repr_size _ _ Hr).
  unfold ringbuf_capacity. rewrite u16_id by lia. lia.
Qed.

Lemma repr_linear_intro a q r b t n sh :
  b = a ++ q ++ r -> t = zlen b -> n = zlen q -> sh = zlen a -> r <> [] -> t < 65536 ->
  ring_repr (mk_ring (Some b) t n sh) q.
Proof. intros -> -> -> -> Hr Ht. by constructor. Qed.

Lemma repr_wrapped_intro q1 q2 f b t n sh q :
  q = q1 ++ q2 -> b = q2 ++ f ++ q1 -> t = zlen b -> n = zlen q -> sh = zlen (q2 ++ f) ->
  q1 <> [] -> f <> [] -> t < 65536 ->
  ring_repr (mk_ring (Some b) t n sh) q.
Proof. intros -> -> -> -> -> Hq Hf Ht. by constructor. Qed.

Lemma ringbuf_push_repr buf q s rest :
  ring_repr buf q -> s <> [] -> zlen s <= ringbuf_capacity buf ->
  exists buf', ringbuf_push buf (s ++ rest) (zlen s) = Some (0, buf') /\
    ring_repr buf' (q ++ s) /\ total buf' = total buf.
Proof.
  intros Hrep Hs Hroom. pose proof Hroom as Hroom'. rewrite (ring_repr_room _ _ Hrep) in Hroom'.
  rewrite nonempty_zlen in Hs. unfold ringbuf_push. if_false. simpl. if_false.
  destruct Hrep as [a q r Hr Hlen | q1 q2 f Hq1 Hf Hlen]; simpl in *; rewrite nonempty_zlen in *;
    unfold c_mod; if_false; simpl.
  - rewrite (Z.mod_small (zlen a + zlen q)) by zl.
    replace (zlen (a ++ q ++ r) - (zlen a + zlen q)) with (zlen r) by zl.
    rewrite u16_id by zl.
    destruct (Z.ltb_spec (zlen r) (zlen s)) as [Hlt | Hge].
    + destruct (split_at s (zlen r)) as (s1 & s2 & -> & Hs1); [lia|].
      destruct (split_at a (zlen s2)) as (a1 & a2 & -> & Ha1); [zl|].
      rewrite <- (app_assoc s1), rdn_app_0 by done. simpl.
      rewrite (app_assoc (a1 ++ a2) q r), <- (app_nil_r r), wrn_app_split by zl. simpl.
      rewrite rdn_app by zl. simpl.
      rewrite <- !app_assoc, wrn_app_0 by done. simpl.
      eexists. split; [done|]. split; [|done].
      apply (repr_wrapped_intro (q ++ s1) s2 a2); rewrite ?nonempty_zlen; autorewrite with cbuf in *; 
        first [by rewrite <- ?app_assoc, ?app_nil_r | zl].
    + destruct (split_at r (zlen s)) as (r1 & r2 & -> & Hr1); [zl|].
      rewrite rdn_app_0 by done. simpl.
      rewrite (app_assoc a q), wrn_app_split by zl. simpl.
      eexists. split; [done|]. split; [|done].
      destruct (decide (r2 = [])) as [-> | Hr2].
      * apply (repr_wrapped_intro (q ++ s) [] a); rewrite ?nonempty_zlen;
          first [by rewrite <- ?app_assoc, ?app_nil_r | zl].
      * apply (repr_linear_intro a (q ++ s) r2); first [by rewrite <- ?app_assoc | zl | done].
  - rewrite mod_wrap by zl.
    replace (zlen (q2 ++ f) + zlen (q1 ++ q2) - zlen (q2 ++ f ++ q1)) with (zlen q2) by zl.
    rewrite u16_id by zl. if_false.
    destruct (split_at f (zlen s)) as (f1 & f2 & -> & Hf1); [zl|].
    rewrite rdn_app_0 by done. simpl.
    rewrite <- app_assoc, wrn_app_split by zl. simpl.
    eexists. split; [done|]. split; [|done].
    apply (repr_wrapped_intro q1 (q2 ++ s) f2); rewrite ?nonempty_zlen;
      first [by rewrite <- ?app_assoc | zl].
Qed.

Lemma ringbuf_pop_repr buf q1 q2 dst :
  ring_repr buf (q1 ++ q2) -> zlen q1 <= zlen dst ->
  exists buf', ringbuf_pop buf dst (zlen q1) = Some (0, buf', q1 ++ drop (length q1) dst) /\
    ring_repr buf' q2 /\ total buf' = total buf.
Proof.
  intros Hrep Hdst. pose proof (zlen_nonneg q2).
  destruct (split_at dst (zlen q1)) as (d1 & d2 & -> & Hd); [zl|].
  rewrite drop_app_len by zl. remember (q1 ++ q2) as q eqn:Eq.
  unfold ringbuf_pop, ringbuf_size. destruct Hrep as [a q r Hr Hlen | c1 c2 f Hc1 Hf Hlen];
    simpl; rewrite nonempty_zlen in *.
  - subst q. if_false. simpl. if_false. rewrite <- app_assoc, rdn_app by zl. simpl.
    rewrite wrn_app_0 by zl. simpl. unfold c_mod. if_false. simpl.
    rewrite Z.mod_small, u16_id by zl. eexists. split; [done|]. split; [|done].
    apply (repr_linear_intro (a ++ q1) q2 r); rewrite ?nonempty_zlen;
      first [by rewrite <- ?app_assoc | zl].
  - pose proof (f_equal zlen Eq). if_false. simpl.
    replace (zlen (c2 ++ f ++ c1) - zlen (c2 ++ f)) with (zlen c1) by zl.
    unfold c_mod. if_false. simpl.
    apply app_eq_inv in Eq as [(k & -> & ->) | (k & -> & ->)].
    + if_false. rewrite (app_assoc c2 f), rdn_app by zl. simpl.
      rewrite wrn_app_0 by zl. simpl. rewrite u16_id by zl.
      eexists. split; [done|]. split; [|done].
      destruct (decide (k = [])) as [-> | Hk].
      * rewrite mod_wrap by zl. rewrite app_nil_r in *.
        apply (repr_linear_intro [] c2 (f ++ q1)); rewrite ?nonempty_zlen;
          first [by rewrite <- ?app_assoc | zl].
      * rewrite nonempty_zlen in Hk. rewrite Z.mod_small by zl.
        apply (repr_wrapped_intro k c2 (f ++ q1)); rewrite ?nonempty_zlen;
          first [by rewrite <- ?app_assoc | zl].
    + destruct (Z.ltb_spec (zlen c1) (zlen (c1 ++ k))) as [Hlt | Hge].
      * destruct (split_at d1 (zlen c1)) as (e1 & e2 & -> & He); [zl|].
        rewrite (app_assoc (k ++ q2) f c1), (rdn_app_end _ c1 (zlen ((k ++ q2) ++ f)) (zlen c1)) by done. simpl.
        rewrite <- (app_assoc e1), wrn_app_0 by zl. simpl.
        rewrite <- !app_assoc, rdn_app_0 by zl. simpl.
        rewrite wrn_app_split by zl. simpl. rewrite mod_wrap, u16_id by zl.
        eexists. split; [done|]. split; [|done].
        apply (repr_linear_intro k q2 (f ++ c1)); rewrite ?nonempty_zlen; zl || done.
      * assert (k = []) as -> by (apply zlen_0; pose proof (zlen_nonneg k); zl).
        rewrite app_nil_r in *. simpl.
        rewrite (app_assoc q2 f c1), (rdn_app_end _ c1 (zlen (q2 ++ f)) (zlen c1)) by done. simpl.
        rewrite wrn_app_0 by zl. simpl. rewrite mod_wrap, u16_id by zl.
        eexists. split; [done|]. split; [|done].
        apply (repr_linear_intro [] q2 (f ++ c1)); rewrite ?nonempty_zlen;
          first [by rewrite <- ?app_assoc | zl].
Qed.

Lemma ring_ok_room buf : ring_ok buf -> ringbuf_capacity buf = total buf - 1 - zlen (contents buf).
Proof. intros Hok. apply ring_repr_room, ring_ok_repr, Hok. Qed.

Lemma ring_ok_size buf : ring_ok buf -> size buf = zlen (contents buf).
Proof. intros Hok. apply ring_repr_size, ring_ok_repr, Hok. Qed.

Lemma ringbuf_clear_ok buf : ring_ok buf ->
  exists buf', ringbuf_clear buf = Some (0, buf') /\ ring_ok buf' /\ contents buf' = [] /\
    total buf' = total buf.
Proof.
  intros (Hn & Hsh & Ht & b & Hb & Hlen). unfold ringbuf_clear. rewrite Hb. simpl.
  unfold wr. if_true. simpl. eexists. split; [done|]. split; [|done].
  unfold ring_ok. simpl. split; [lia|]. split; [lia|]. split; [lia|]. eexists. split; [done|]. zl.
Qed.

Lemma ringbuf_push_full buf s len :
  0 <= ringbuf_capacity buf < len -> ringbuf_push buf s len = Some (-1, buf).
Proof. intros Hlen. unfold ringbuf_push. if_false. simpl. if_true. done. Qed.

Lemma ringbuf_pop_short buf dst n : size buf < n -> ringbuf_pop buf dst n = Some (-1, buf, dst).
Proof. intros Hn. unfold ringbuf_pop, ringbuf_size. if_true. done. Qed.

Lemma ringbuf_push_empty buf s :
  ring_ok buf -> exists buf', ringbuf_push buf (0 :: s) 0 = Some (0, buf') /\ ring_ok buf' /\
    contents buf' = contents buf /\ total buf' = total buf.
Proof.
  intros Hok. pose proof (ring_ok_room _ Hok) as Hcap. pose proof (ring_ok_size _ Hok) as Hsz.
  destruct Hok as (Hn & Hsh & Ht & b & Hb & Hlen). unfold ringbuf_push. simpl.
  if_false. unfold c_mod. if_false. simpl. rewrite Hb. simpl.
  pose proof (Z.mod_pos_bound (shift buf + size buf) (total buf)).
  if_false.
  unfold wrn. if_true. simpl. rewrite Nat.add_0_r, take_drop, Z.add_0_r, u16_id by lia.
  eexists. split; [done|].
  assert (mk_ring (Some b) (total buf) (size buf) (shift buf) = buf) as -> by (rewrite <- Hb; by destruct buf).
  split; [|done]. unfold ring_ok. eauto 10.
Qed.

#[export] Instance ring_byte_queue : ByteQueue ring_buffer_t.
Proof.
  refine {| q_ok := ring_ok; q_bytes := contents; q_room := ringbuf_capacity; q_size := ringbuf_size;
            q_push := ringbuf_push; q_pop := ringbuf_pop; q_clear := ringbuf_clear |}.
  - intros q s rest Hok Hs Hroom. pose proof (ring_ok_repr _ Hok) as Hr.
    destruct (ringbuf_push_repr q _ s rest Hr Hs Hroom) as (q' & Hp & Hr' & Ht).
    pose proof (ring_repr_ok _ _ Hr'). exists q'. rewrite !ring_ok_room, Ht by done.
    rewrite (ring_repr_contents _ _ Hr'). repeat split; first [done | apply H | zl].
  - intros q s rest Hok Hs Hne. unfold ringbuf_push. rewrite strlen_cstr by done. change (0 =? 0) with true.
    apply nonempty_zlen in Hne. by replace (zlen s =? 0) with false by lia.
  - intros q s len Hok Hlen. apply ringbuf_push_full. pose proof (ring_ok_room _ Hok).
    pose proof (ring_ok_size _ Hok). destruct Hok as (Hn & _). lia.
  - intros q n dst Hok Hn Hdst. pose proof (ring_ok_repr _ Hok) as Hr.
    destruct (split_at (contents q) n) as (q1 & q2 & Heq & Hq1); [lia|].
    rewrite Heq in Hr |- *. subst n. rewrite take_app_zlen, drop_app_zlen, zlen_to_nat by done.
    destruct (ringbuf_pop_repr q q1 q2 dst Hr Hdst) as (q' & Hp & Hr' & Ht).
    pose proof (ring_repr_ok _ _ Hr'). exists q'. rewrite !ring_ok_room, Ht, Heq by done.
    rewrite (ring_repr_contents _ _ Hr'). repeat split; first [done | apply H | zl].
  - intros q n dst Hok Hn. apply ringbuf_pop_short. rewrite ring_ok_size; done.
  - intros q Hok. by apply ring_ok_size.
  - intros q Hok. destruct (ringbuf_clear_ok q Hok) as (q' & Hc & Hok' & Hb & Ht).
    exists q'. rewrite !ring_ok_room, Ht, Hb by done. repeat split; first [done | apply Hok' | zl].
Defined.

(** ** The buffer refines a bounded FIFO *)

(** Calls a client makes: [Push s] passes the bytes [s] with their length (the
    region ends with a terminator, as the strings the code pushes do), [Pop n]
    passes a destination of [n] bytes. *)
Inductive ring_op := Push (s : list Z) | Pop (n : nat) | Clear.

Definition ring_step (o : ring_op) (buf : ring_buffer_t) : option (Z * list Z * ring_buffer_t) :=
  match o with
  | Push s => '(rc, buf') ← ringbuf_push buf (s ++ [0]) (zlen s); Some (rc, [], buf')
  | Pop n =>
      '(rc, buf', dst) ← ringbuf_pop buf (replicate n 0) (Z.of_nat n);
      Some (rc, (if rc =? 0 then dst else []), buf')
  | Clear => '(rc, buf') ← ringbuf_clear buf; Some (rc, [], buf')
  end.

Fixpoint ring_run (os : list ring_op) (buf : ring_buffer_t) : option (list (Z * list Z)) :=
  match os with
  | [] => Some []
  | o :: os' =>
      '(rc, out, buf') ← ring_step o buf;
      outs ← ring_run os' buf';
      Some ((rc, out) :: outs)
  end.

(** The specification: a list of bytes that holds at most [cap] of them. *)
Definition fifo_step (cap : Z) (o : ring_op) (q : list Z) : Z * list Z * list Z :=
  match o with
  | Push s => if cap - zlen q <? zlen s then (-1, [], q) else (0, [], q ++ s)
  | Pop n => if zlen q <? Z.of_nat n then (-1, [], q) else (0, take n q, drop n q)
  | Clear => (0, [], [])
  end.

Fixpoint fifo_run (cap : Z) (os : list ring_op) (q : list Z) : list (Z * list Z) :=
  match os with
  | [] => []
  | o :: os' => let '(rc, out, q') := fifo_step cap o q in (rc, out) :: fifo_run cap os' q'
  end.

Lemma ring_step_sim o buf : ring_ok buf ->
  exists rc out buf', ring_step o buf = Some (rc, out, buf') /\
    fifo_step (total buf - 1) o (contents buf) = (rc, out, contents buf') /\
    ring_ok buf' /\ total buf' = total buf.
Proof.
  intros Hok. pose proof (ring_ok_room _ Hok) as Hcap. pose proof (ring_ok_size _ Hok) as Hsz.
  assert (0 <= ringbuf_capacity buf) by (destruct Hok; lia).
  destruct o as [s | n | ]; unfold ring_step, fifo_step.
  - destruct (Z.ltb_spec (total buf - 1 - zlen (contents buf)) (zlen s)).
    + rewrite ringbuf_push_full by lia. simpl. eauto 10.
    + destruct (decide (s = [])) as [-> | Hs].
      * destruct (ringbuf_push_empty buf [] Hok) as (b' & Hp & Hok' & Hc & Ht).
        change ([] ++ [0]) with [0]. change (zlen []) with 0. rewrite Hp. simpl. rewrite app_nil_r, <- Hc. eauto 10.
      * destruct (ringbuf_push_repr buf _ s [0] (ring_ok_repr _ Hok) Hs) as (b' & Hp & Hr & Ht); [lia|].
        rewrite Hp. simpl. rewrite <- (ring_repr_contents _ _ Hr). eauto 10 using ring_repr_ok.
  - destruct (Z.ltb_spec (zlen (contents buf)) (Z.of_nat n)).
    + rewrite ringbuf_pop_short by lia. simpl. eauto 10.
    + pose proof (ring_ok_repr _ Hok) as Hr.
      destruct (split_at (contents buf) (Z.of_nat n)) as (q1 & q2 & Heq & Hq1); [lia|].
      rewrite Heq in Hr |- *. assert (n = length q1) as -> by zl.
      destruct (ringbuf_pop_repr buf q1 q2 (replicate (length q1) 0) Hr) as (b' & Hp & Hr' & Ht); [zl|].
      fold (zlen q1). rewrite Hp. simpl. rewrite take_app_length, drop_app_length.
      rewrite (drop_ge (replicate _ _)) by zl. rewrite app_nil_r.
      pose proof (ring_repr_contents _ _ Hr') as Hc. subst q2. eauto 10 using ring_repr_ok.
  - destruct (ringbuf_clear_ok buf Hok) as (b' & Hc & Hok' & Hb & Ht). rewrite Hc. simpl.
    rewrite <- Hb. eauto 10.
Qed.

(** C9. The ring buffer refines a bounded FIFO queue: on every sequence of push,
    pop and clear calls from a well-formed buffer, [ringbuf_push],
    [ringbuf_pop] and [ringbuf_clear] never access memory outside the buffer
    and return exactly the codes and the bytes of a byte list of capacity
    [total - 1], rejected calls included. *)
Theorem ring_refines_fifo os buf :
  ring_ok buf -> ring_run os buf = Some (fifo_run (total buf - 1) os (contents buf)).
Proof.
  revert buf. induction os as [|o os IH]; intros buf Hok; [done|]. simpl.
  destruct (ring_step_sim o buf Hok) as (rc & out & buf' & Hs & Hf & Hok' & Ht).
  rewrite Hs, Hf. simpl. rewrite IH, Ht by done. done.
Qed.

Definition ring8 : ring_buffer_t := mk_ring (Some [7; 1; 2; 9; 9; 4; 5; 6]) 8 6 5.

Lemma ring_refines_fifo_witness :
  ring_ok ring8 /\
  ring_run [Pop 4; Push [10; 11; 12; 13; 14]; Push [1]; Pop 7; Pop 1] ring8 =
    Some [(0, [4; 5; 6; 7]); (0, []); (-1, []); (0, [1; 2; 10; 11; 12; 13; 14]); (-1, [])].
Proof.
  assert (Hok : ring_ok ring8).
  { unfold ring_ok; simpl. split; [lia|]. split; [lia|]. split; [lia|]. eexists. split; done. }
  split; [exact Hok|]. rewrite (ring_refines_fifo _ _ Hok). vm_compute. reflexivity.
Defined.

(** [ringbuf_init] followed by [ringbuf_push] of a C string through
    [ringbuf_strcat] stores exactly the string's bytes, for every size from 2 to
    65535 and every string that leaves one byte of the block free. *)
Theorem ringbuf_init_strcat malloc buf0 sz block s :
  malloc sz = Some block -> zlen block = sz -> 2 <= sz < 65536 ->
  is_cstr s -> zlen s < sz ->
  exists buf buf', ringbuf_init malloc buf0 sz = (0, buf) /\ ring_ok buf /\ contents buf = [] /\
    ringbuf_strcat buf (s ++ [0]) = Some (0, buf') /\ ring_ok buf' /\ contents buf' = s.
Proof.
  intros Hm Hb Hsz Hs Hlen. unfold ringbuf_init. rewrite Hm, u16_id by lia.
  set (buf := mk_ring _ _ _ _).
  assert (ring_ok buf) as Hok by (unfold ring_ok; simpl; repeat split; eauto; lia).
  assert (contents buf = []) as Hc by done.
  pose proof (ring_step_sim (Push s) buf Hok) as (rc & out & buf' & Hstep & Hf & Hok' & _).
  unfold fifo_step in Hf. rewrite Hc in Hf. simpl in Hf, Hstep. revert Hf. if_false. intros [= <- <- Hc'].
  exists buf, buf'. split; [done|]. split; [done|]. split; [done|].
  unfold ringbuf_strcat. rewrite strlen_cstr by done. simpl.
  destruct (ringbuf_push buf (s ++ [0]) (zlen s)) as [[? ?]|]; simplify_option_eq. done.
Qed.

Lemma ringbuf_init_strcat_witness :
  let malloc := fun n => if n =? 6 then Some [9; 9; 9; 9; 9; 9] else None in
  exists buf buf', ringbuf_init malloc (mk_ring None 0 0 0) 6 = (0, buf) /\ ring_ok buf /\
    contents buf = [] /\ ringbuf_strcat buf (lit "hello" ++ [0]) = Some (0, buf') /\
    ring_ok buf' /\ contents buf' = lit "hello".
Proof.
  intros malloc. apply (ringbuf_init_strcat malloc (mk_ring None 0 0 0) 6 [9; 9; 9; 9; 9; 9] (lit "hello"));
    first [done | lia | vm_compute; repeat constructor; done].
Defined.

End RingBuffer.
