(* ===== verification/StaticBuf.v ===== *)
(** src/src/data/static_buf.c and static_buf.h: the allocator over a fixed
    buffer cut into sectors of [chunk] bytes. Two bitmaps say which sector
    starts a block ([head]) and which is taken ([space]); a pointer is its byte
    offset in the buffer. Reading or writing a bitmap out of bounds is [None]. *)
From S2P Require Import Prelude.

Module StaticBuf.

Definition is_in_use (buf : list Z) (index : Z) : option bool :=
  b ← rd buf (Z.shiftr index 3);
  Some (negb (Z.land b (Z.shiftl 1 (index mod 8)) =? 0)).

Definition set_in_use (buf : list Z) (index : Z) : option (list Z) :=
  b ← rd buf (Z.shiftr index 3);
  wr buf (Z.shiftr index 3) (u8 (Z.lor b (Z.shiftl 1 (index mod 8)))).

Definition unset_in_use (buf : list Z) (index : Z) : option (list Z) :=
  b ← rd buf (Z.shiftr index 3);
  wr buf (Z.shiftr index 3) (u8 (Z.land b (Z.lnot (Z.shiftl 1 (index mod 8))))).

(** The search of [__static_alloc]: [n] sectors are left from [i]; [t] counts
    the free ones just before [i]. Returns [sector], -1 if there is none. *)
Fixpoint find_sector (n : nat) (space : list Z) (i t r : Z) : option Z :=
  match n with
  | O => Some (-1)
  | S n' =>
      used ← is_in_use space i;
      if (used : bool) then find_sector n' space (i + 1) 0 r
      else if t + 1 =? r then Some i else find_sector n' space (i + 1) (t + 1) r
  end.

(** Number of sectors for [size] bytes. *)
Definition sectors (size chunk : Z) : Z := size / chunk + (if size mod chunk =? 0 then 0 else 1).

(** Returns (pointer or NULL, head, space). *)
Definition static_alloc (head space : list Z) (buf_size size chunk : Z)
    : option (option Z * list Z * list Z) :=
  if size <=? 0 then Some (None, head, space) else
  let r := sectors size chunk in
  sector ← find_sector (Z.to_nat buf_size) space 0 0 r;
  if sector <? 0 then Some (None, head, space) else
  head ← set_in_use head (sector + 1 - r);
  space ← for_from (fun i space => set_in_use space i) (Z.to_nat r) (sector + 1 - r) space;
  Some (Some (chunk * (sector + 1 - r)), head, space).

Definition find_max_alloc (space : list Z) (buf_size chunk : Z) : option Z :=
  n ← for_ buf_size (fun i sector =>
        used ← is_in_use space i; Some (if (used : bool) then sector else sector + 1)) 0;
  Some (n * chunk).

(** The loop of [__static_free] has no bound of its own: it stops at the end of
    the bitmaps at the latest, where the read is out of bounds. *)
Fixpoint free_loop (fuel : nat) (head space : list Z) (i : Z) : option (list Z) :=
  match fuel with
  | O => None
  | S fuel' =>
      h ← is_in_use head i;
      if (h : bool) then Some space else
      u ← is_in_use space i;
      if (u : bool) then space ← unset_in_use space i; free_loop fuel' head space (i + 1)
      else Some space
  end.

Definition map_fuel (head : list Z) : nat := S (8 * length head).

Definition static_free (head space : list Z) (ptr chunk : Z) : option (list Z * list Z) :=
  if ptr <? 0 then Some (head, space) else
  let shift := ptr / chunk in
  h ← is_in_use head shift;
  if negb h then Some (head, space) else
  head ← unset_in_use head shift;
  space ← free_loop (map_fuel head) head space shift;
  Some (head, space).

Fixpoint size_loop (fuel : nat) (head space : list Z) (shift i size : Z) : option Z :=
  match fuel with
  | O => None
  | S fuel' =>
      go ← (if i =? shift then Some true else h ← is_in_use head i; Some (negb h));
      if negb go then Some size else
      u ← is_in_use space i;
      if (u : bool) then size_loop fuel' head space shift (i + 1) (u16 (size + 1)) else Some size
  end.

Definition static_buf_size (head space : list Z) (ptr chunk : Z) : option Z :=
  if ptr <? 0 then Some 0 else
  let shift := ptr / chunk in
  h ← is_in_use head shift;
  if negb h then Some 0 else
  size_loop (map_fuel head) head space shift shift 0.

(** Returns (pointer or NULL, head, space, buffer). *)
Definition static_realloc (head space buffer : list Z) (buf_size ptr size chunk : Z)
    : option (option Z * list Z * list Z * list Z) :=
  '(p, head, space) ← static_alloc head space buf_size size chunk;
  match p with
  | None => Some (None, head, space, buffer)
  | Some p =>
      n ← static_buf_size head space ptr chunk;
      let s := if size <? chunk * n then size else chunk * n in
      data ← rdn buffer ptr s;
      buffer ← wrn buffer p data;
      '(head, space) ← static_free head space ptr chunk;
      Some (Some p, head, space, buffer)
  end.

(** ** Bitmaps as sets of sectors *)

Definition bit (bm : list Z) (i : Z) : bool :=
  Z.testbit (default 0 (bm !! Z.to_nat (i / 8))) (i mod 8).

Definition in_map (bm : list Z) (i : Z) : Prop := 0 <= i < 8 * zlen bm.

Lemma byte_bit_ops b k j :
  is_byte b -> 0 <= k < 8 -> 0 <= j < 8 ->
  negb (Z.land b (Z.shiftl 1 k) =? 0) = Z.testbit b k /\
  Z.testbit (u8 (Z.lor b (Z.shiftl 1 k))) j = (j =? k) || Z.testbit b j /\
  Z.testbit (u8 (Z.land b (Z.lnot (Z.shiftl 1 k)))) j = negb (j =? k) && Z.testbit b j.
Proof.
  intros Hb Hk Hj.
  assert (H : forallb (fun b => forallb (fun k => forallb (fun j =>
    eqb (negb (Z.land b (Z.shiftl 1 k) =? 0)) (Z.testbit b k) &&
    eqb (Z.testbit (u8 (Z.lor b (Z.shiftl 1 k))) j) ((j =? k) || Z.testbit b j) &&
    eqb (Z.testbit (u8 (Z.land b (Z.lnot (Z.shiftl 1 k)))) j) (negb (j =? k) && Z.testbit b j))
    (seqZ 0 8)) (seqZ 0 8)) (seqZ 0 256) = true) by by vm_compute.
  apply (fun H => forall_range _ _ H b Hb) in H. apply (fun H => forall_range _ _ H k Hk) in H.
  apply (fun H => forall_range _ _ H j Hj) in H.
  rewrite !andb_true_iff, !eqb_true_iff in H. tauto.
Qed.

Lemma rd_byte_at bm i :
  in_map bm i -> exists b, rd bm (Z.shiftr i 3) = Some b /\ bm !! Z.to_nat (i / 8) = Some b.
Proof.
  unfold in_map. intros Hi. rewrite Z.shiftr_div_pow2 by lia. change (2 ^ 3) with 8.
  assert (Hd : 0 <= i / 8 < zlen bm) by lia_mod. unfold rd. if_true.
  destruct (lookup_lt_is_Some_2 bm (Z.to_nat (i / 8))) as [b Hb]; [zl|].
  by exists b.
Qed.

Lemma is_in_use_bit bm i : Forall is_byte bm -> in_map bm i -> is_in_use bm i = Some (bit bm i).
Proof.
  intros Hb Hi. destruct (rd_byte_at bm i Hi) as (b & Hr & Hl). unfold is_in_use, bit.
  rewrite Hr, Hl. simpl. f_equal. apply (byte_bit_ops b (i mod 8) 0); [|lia_mod..].
  by apply (Forall_lookup_1 _ _ _ _ Hb) in Hl.
Qed.

Lemma is_in_use_out bm i : 0 <= i -> ~ in_map bm i -> is_in_use bm i = None.
Proof.
  unfold in_map. intros H0 Hi. unfold is_in_use.
  rewrite (proj2 (rd_None _ _)); [done|]. right. rewrite Z.shiftr_div_pow2 by lia. change (2 ^ 3) with 8. lia_mod.
Qed.

(** Writing the bit [i]: the common part of set and unset. *)
Lemma write_bit bm i b v (f : Z -> bool) :
  in_map bm i -> Forall is_byte bm -> rd bm (Z.shiftr i 3) = Some b -> is_byte v ->
  (forall j, 0 <= j < 8 -> Z.testbit v j = if j =? i mod 8 then f i else Z.testbit b j) ->
  exists bm', wr bm (Z.shiftr i 3) v = Some bm' /\ Forall is_byte bm' /\ zlen bm' = zlen bm /\
    forall j, in_map bm j -> bit bm' j = if j =? i then f i else bit bm j.
Proof.
  unfold in_map. intros Hi Hbm Hr Hv Hf. rewrite Z.shiftr_div_pow2 in * by lia. change (2 ^ 3) with 8 in *.
  assert (Hi8 : 0 <= i / 8 < zlen bm) by lia_mod.
  unfold rd in Hr. replace (0 <=? i / 8) with true in Hr by (symmetry; apply Z.leb_le; lia).
  eexists. unfold wr. if_true. split; [done|]. split; [|split; [zl|]].
  - apply Forall_insert; done.
  - intros j Hj. unfold bit. assert (Hj8 : 0 <= j / 8 < zlen bm) by lia_mod.
    destruct (Z.eq_dec (j / 8) (i / 8)) as [E | E].
    + rewrite E, list_lookup_insert_eq by zl. simpl. rewrite Hf by lia_mod. rewrite Hr. simpl.
      destruct (Z.eqb_spec (j mod 8) (i mod 8)), (Z.eqb_spec j i); try done; exfalso; lia_mod.
    + rewrite list_lookup_insert_ne by lia. destruct (Z.eqb_spec j i); [subst; done | done].
Qed.

Lemma set_in_use_bit bm i :
  Forall is_byte bm -> in_map bm i ->
  exists bm', set_in_use bm i = Some bm' /\ Forall is_byte bm' /\ zlen bm' = zlen bm /\
    forall j, in_map bm j -> bit bm' j = (j =? i) || bit bm j.
Proof.
  intros Hb Hi. destruct (rd_byte_at bm i Hi) as (b & Hr & Hl).
  pose proof (Forall_lookup_1 _ _ _ _ Hb Hl) as Hbb. unfold set_in_use. rewrite Hr. simpl.
  destruct (write_bit bm i b (u8 (Z.lor b (Z.shiftl 1 (i mod 8)))) (fun _ => true))
    as (bm' & Hw & Hb' & Hl' & Hbit); [done | done | done | apply u8_range | |].
  - intros j Hj. destruct (byte_bit_ops b (i mod 8) j) as (_ & -> & _); [done | lia_mod | done |].
    by destruct (j =? i mod 8).
  - exists bm'. split; [done|]. split; [done|]. split; [done|]. intros j Hj. rewrite Hbit by done.
    by destruct (j =? i).
Qed.

Lemma unset_in_use_bit bm i :
  Forall is_byte bm -> in_map bm i ->
  exists bm', unset_in_use bm i = Some bm' /\ Forall is_byte bm' /\ zlen bm' = zlen bm /\
    forall j, in_map bm j -> bit bm' j = negb (j =? i) && bit bm j.
Proof.
  intros Hb Hi. destruct (rd_byte_at bm i Hi) as (b & Hr & Hl).
  pose proof (Forall_lookup_1 _ _ _ _ Hb Hl) as Hbb. unfold unset_in_use. rewrite Hr. simpl.
  destruct (write_bit bm i b (u8 (Z.land b (Z.lnot (Z.shiftl 1 (i mod 8))))) (fun _ => false))
    as (bm' & Hw & Hb' & Hl' & Hbit); [done | done | done | apply u8_range | |].
  - intros j Hj. destruct (byte_bit_ops b (i mod 8) j) as (_ & _ & ->); [done | lia_mod | done |].
    by destruct (j =? i mod 8).
  - exists bm'. split; [done|]. split; [done|]. split; [done|]. intros j Hj. rewrite Hbit by done.
    by destruct (j =? i).
Qed.

(** ** The search *)

Definition free_run (space : list Z) (s r : Z) : Prop := forall j, s <= j < s + r -> bit space j = false.

(** The first run of [r] free sectors among [0 .. N-1], if there is one. *)
Definition first_fit (space : list Z) (N r sector : Z) : Prop :=
  (sector = -1 /\ forall s, 0 <= s -> s + r <= N -> ~ free_run space s r) \/
  (0 <= sector + 1 - r /\ sector < N /\ free_run space (sector + 1 - r) r /\
   forall s, 0 <= s < sector + 1 - r -> ~ free_run space s r).

Lemma find_sector_spec space N r n : forall i t,
  Forall is_byte space -> N = i + Z.of_nat n -> N <= 8 * zlen space -> 0 <= t < r -> t <= i ->
  (forall j, i - t <= j < i -> bit space j = false) ->
  (i = t \/ bit space (i - t - 1) = true) ->
  (forall s, 0 <= s -> s + r <= i -> ~ free_run space s r) ->
  exists sector, find_sector n space i t r = Some sector /\ first_fit space N r sector.
Proof.
  induction n as [|n IH]; intros i t Hb HN HM Ht Hti Hfree Hmax Hno.
  { exists (-1). split; [done|]. left. split; [done|]. intros s Hs Hr. apply Hno; lia. }
  cbn [find_sector]. rewrite is_in_use_bit by (done || unfold in_map; lia). cbn [mbind option_bind].
  destruct (bit space i) eqn:Ei; [|destruct (Z.eqb_spec (t + 1) r) as [Er | Er]].
  - apply IH; try done; try lia.
    + right. by replace (i + 1 - 0 - 1) with i by lia.
    + intros s Hs Hsr Hf. destruct (Z.eq_dec (s + r) (i + 1)) as [E | E].
      * rewrite (Hf i) in Ei by lia. done.
      * apply (Hno s); [done | lia | done].
  - exists i. split; [done|]. right. split; [lia|]. split; [lia|]. split.
    + intros j Hj. destruct (Z.eq_dec j i) as [-> | Hji]; [done|]. apply Hfree. lia.
    + intros s Hs. apply Hno; lia.
  - apply IH; try done; try lia.
    + intros j Hj. destruct (Z.eq_dec j i) as [-> | Hji]; [done|]. apply Hfree. lia.
    + destruct Hmax as [-> | Hm]; [left; lia | right]. by replace (i + 1 - (t + 1) - 1) with (i - t - 1) by lia.
    + intros s Hs Hsr Hf. destruct (Z.eq_dec (s + r) (i + 1)) as [E | E].
      * destruct Hmax as [-> | Hm]; [lia|]. rewrite (Hf (i - t - 1)) in Hm by lia. done.
      * apply (Hno s); [done | lia | done].
Qed.

Lemma set_range n : forall a bm,
  Forall is_byte bm -> 0 <= a -> a + Z.of_nat n <= 8 * zlen bm ->
  exists bm', for_from (fun i bm => set_in_use bm i) n a bm = Some bm' /\ Forall is_byte bm' /\
    zlen bm' = zlen bm /\
    forall j, in_map bm j -> bit bm' j = (a <=? j) && (j <? a + Z.of_nat n) || bit bm j.
Proof.
  induction n as [|n IH]; intros a bm Hb Ha Hn.
  { exists bm. split; [done|]. split; [done|]. split; [done|]. intros j _.
    change (Z.of_nat 0) with 0. by replace ((a <=? j) && (j <? a + 0)) with false by lia. }
  destruct (set_in_use_bit bm a Hb) as (bm1 & E1 & Hb1 & Hl1 & Hbit1); [unfold in_map; lia|].
  destruct (IH (a + 1) bm1 Hb1) as (bm2 & E2 & Hb2 & Hl2 & Hbit2); [lia | lia |].
  exists bm2. cbn [for_from]. rewrite E1. cbn [mbind option_bind]. split; [done|]. split; [done|].
  split; [lia|]. intros j Hj. rewrite Hbit2 by (unfold in_map in *; lia). rewrite Hbit1 by done.
  destruct (bit bm j); [by rewrite !orb_true_r|]. rewrite !orb_false_r, Nat2Z.inj_succ.
  apply eq_true_iff_eq. rewrite !orb_true_iff, !andb_true_iff, !Z.leb_le, !Z.ltb_lt, Z.eqb_eq. lia.
Qed.

Lemma sectors_spec size chunk :
  0 < size -> 0 < chunk -> 1 <= sectors size chunk /\
  (sectors size chunk - 1) * chunk < size <= sectors size chunk * chunk.
Proof. intros Hs Hc. unfold sectors. destruct (Z.eqb_spec (size mod chunk) 0); Z.div_mod_to_equations; nia. Qed.

(** ** The allocated blocks *)

(** [m] maps the first sector of every allocated block to its length. *)
Record blocks (head space : list Z) (N : Z) (m : gmap Z Z) : Prop := {
  b_head : Forall is_byte head;
  b_space : Forall is_byte space;
  b_len_head : N = 8 * zlen head;
  b_len_space : N = 8 * zlen space;
  b_range s l : m !! s = Some l -> 0 <= s /\ 1 <= l /\ s + l <= N;
  b_apart s l s' l' : m !! s = Some l -> m !! s' = Some l' -> s < s' -> s + l <= s';
  b_heads j : 0 <= j < N -> bit head j = true <-> is_Some (m !! j);
  b_taken j : 0 <= j < N -> bit space j = true <-> exists s l, m !! s = Some l /\ s <= j < s + l;
}.

(** A free run meets no block. *)
Lemma run_apart head space N m s r s' l' :
  blocks head space N m -> 0 <= s -> s + r <= N -> 1 <= r -> free_run space s r -> m !! s' = Some l' ->
  s + r <= s' \/ s' + l' <= s.
Proof.
  intros H Hs Hr H1 Hf Hm. destruct (b_range _ _ _ _ H _ _ Hm) as (? & ? & ?).
  destruct (Z.le_gt_cases (s + r) s') as [|Hlt1]; [by left|].
  destruct (Z.le_gt_cases (s' + l') s) as [|Hlt2]; [by right|]. exfalso.
  assert (Hj : bit space (Z.max s s') = true) by (apply (b_taken _ _ _ _ H); [lia|]; exists s', l'; split; [done | lia]).
  rewrite Hf in Hj by lia. done.
Qed.

Lemma static_alloc_blocks head space N size chunk m :
  blocks head space N m -> 0 < chunk -> 0 < size ->
  let r := sectors size chunk in
  (static_alloc head space N size chunk = Some (None, head, space) /\
     forall s, 0 <= s -> s + r <= N -> ~ free_run space s r) \/
  (exists s head' space', static_alloc head space N size chunk = Some (Some (chunk * s), head', space') /\
     free_run space s r /\ m !! s = None /\ (forall s', 0 <= s' < s -> ~ free_run space s' r) /\
     blocks head' space' N (<[s := r]> m)).
Proof.
  intros H Hc Hsz r. destruct (sectors_spec size chunk Hsz Hc) as [Hr _]. fold r in Hr.
  pose proof H as [Hbh Hbs Hlh Hls Hrange Hapart Hheads Htaken].
  pose proof (zlen_nonneg head).
  destruct (find_sector_spec space N r (Z.to_nat N) 0 0) as (sector & E & Hfit);
    [done | lia | lia | lia | lia | intros j Hj; lia | by left | intros s Hs Hsr; lia |].
  unfold static_alloc. if_false. fold r. rewrite E. cbn [mbind option_bind].
  destruct Hfit as [[-> Hno] | (Hpos & HN & Hf & Hfirst)]; [left; by split|].
  right. if_false. set (s := sector + 1 - r) in *.
  assert (Hs : s = sector + 1 - r) by done. clearbody s.
  destruct (set_in_use_bit head s Hbh) as (head' & Eh & Hbh' & Hlh' & Hbit); [unfold in_map; lia|].
  destruct (set_range (Z.to_nat r) s space Hbs) as (space' & Es & Hbs' & Hls' & Hsbit);
    [lia | lia |].
  rewrite Eh, Es. cbn [mbind option_bind]. rewrite Z2Nat.id in Hsbit by lia.
  assert (Hms : m !! s = None).
  { destruct (m !! s) as [l|] eqn:Em; [|done]. pose proof (Hrange _ _ Em).
    destruct (run_apart head space N m s r s l); done || lia. }
  exists s, head', space'. split; [done|]. split; [done|]. split; [done|]. split; [done|].
  assert (Hap : forall s' l', m !! s' = Some l' -> s + r <= s' \/ s' + l' <= s)
    by (intros s' l' Hm; apply (run_apart head space N m s r); done || lia).
  split; try done; try lia.
  - intros s' l' [(<- & <-) | (Hne & Hm)]%lookup_insert_Some; [lia | by apply Hrange].
  - intros s1 l1 s2 l2 [(<- & <-) | (Hne1 & Hm1)]%lookup_insert_Some [(<- & <-) | (Hne2 & Hm2)]%lookup_insert_Some Hlt.
    + lia.
    + pose proof (Hrange _ _ Hm2). apply Hap in Hm2. lia.
    + pose proof (Hrange _ _ Hm1). apply Hap in Hm1. lia.
    + by apply (Hapart _ _ _ _ Hm1 Hm2).
  - intros j Hj. rewrite Hbit by (unfold in_map; lia). rewrite orb_true_iff, Z.eqb_eq, Hheads by done.
    rewrite lookup_insert_is_Some. destruct (decide (s = j)) as [-> | Hne]; [tauto|].
    split; [intros [-> | Hm]; [done | by right] | intros [Hm | [_ Hm]]; [done | by right]].
  - intros j Hj. rewrite Hsbit by (unfold in_map; lia). rewrite orb_true_iff, Htaken by done. split.
    + intros [Hin | (s' & l' & Hm & Hin)].
      * exists s, r. rewrite lookup_insert_eq. split; [done | lia].
      * exists s', l'. rewrite lookup_insert_ne by congruence. done.
    + intros (s' & l' & [(<- & <-) | (Hne & Hm)]%lookup_insert_Some & Hin); [left; lia | right; eauto].
Qed.

(** *** Freeing *)

Lemma free_loop_clears fuel head : forall space i n,
  Forall is_byte head -> Forall is_byte space -> zlen head = zlen space ->
  0 <= i -> i + Z.of_nat n < 8 * zlen head -> (n < fuel)%nat ->
  (forall j, i <= j < i + Z.of_nat n -> bit head j = false /\ bit space j = true) ->
  bit head (i + Z.of_nat n) = true \/ bit space (i + Z.of_nat n) = false ->
  exists space', free_loop fuel head space i = Some space' /\ Forall is_byte space' /\
    zlen space' = zlen space /\
    forall j, in_map space j -> bit space' j = negb ((i <=? j) && (j <? i + Z.of_nat n)) && bit space j.
Proof.
  induction fuel as [|fuel IH]; intros space i n Hh Hs Hl Hi Hn Hf Hrun Hstop; [lia|].
  cbn [free_loop]. rewrite (is_in_use_bit head), (is_in_use_bit space) by (done || unfold in_map; lia).
  cbn [mbind option_bind].
  destruct n as [|n].
  - change (Z.of_nat 0) with 0 in *. rewrite Z.add_0_r in Hstop.
    exists space. split.
    + destruct Hstop as [-> | ->]; [done|]. by destruct (bit head i).
    + split; [done|]. split; [done|]. intros j _. rewrite Z.add_0_r.
      by replace ((i <=? j) && (j <? i)) with false by lia.
  - destruct (Hrun i) as [E1 E2]; [lia|].  rewrite E1, E2.
    destruct (unset_in_use_bit space i Hs) as (sp1 & E3 & Hs1 & Hl1 & Hbit1); [unfold in_map; lia|].
    rewrite E3. cbn [mbind option_bind].
    destruct (IH sp1 (i + 1) n) as (sp2 & E4 & Hs2 & Hl2 & Hbit2); [done | done | lia | lia | lia | lia | | |].
    + intros j Hj. destruct (Hrun j) as [H1 H2]; [lia|]. split; [done|].
      rewrite Hbit1 by (unfold in_map; lia). rewrite H2. lia.
    + replace (i + 1 + Z.of_nat n) with (i + Z.of_nat (S n)) by lia.
      destruct Hstop as [Hstop | Hstop]; [by left | right]. rewrite Hbit1 by (unfold in_map; lia).
      by rewrite Hstop, andb_false_r.
    + exists sp2. split; [done|]. split; [done|]. split; [lia|]. intros j Hj.
      rewrite Hbit2 by (unfold in_map in *; lia). rewrite Hbit1 by done. rewrite andb_assoc. f_equal.
      apply eq_true_iff_eq. rewrite !andb_true_iff, !negb_true_iff, !andb_false_iff, !Z.leb_gt, !Z.ltb_ge, Z.eqb_neq.
      lia.
Qed.

(** With no head and no free sector up to the end, the loop leaves the bitmaps. *)
Lemma free_loop_overrun fuel head : forall space i,
  Forall is_byte head -> Forall is_byte space -> zlen head = zlen space -> 0 <= i <= 8 * zlen head ->
  (forall j, i <= j < 8 * zlen head -> bit head j = false /\ bit space j = true) ->
  free_loop fuel head space i = None.
Proof.
  induction fuel as [|fuel IH]; intros space i Hh Hs Hl Hi Hrun; [done|]. cbn [free_loop].
  destruct (Z.eq_dec i (8 * zlen head)) as [E | E].
  { by rewrite (is_in_use_out head) by (unfold in_map; lia). }
  destruct (Hrun i) as [E1 E2]; [lia|]. rewrite !is_in_use_bit by (done || unfold in_map; lia).
  cbn [mbind option_bind]. rewrite E1, E2.
  destruct (unset_in_use_bit space i Hs) as (sp1 & -> & Hs1 & Hl1 & Hbit1); [unfold in_map; lia|].
  cbn [mbind option_bind]. apply IH; try done; try lia. intros j Hj. destruct (Hrun j) as [H1 H2]; [lia|].
  split; [done|]. rewrite Hbit1 by (unfold in_map; lia). rewrite H2. lia.
Qed.

(** After the head of a block is cleared, its sectors are the run from its start. *)
Lemma block_run head space N m s l head' :
  blocks head space N m -> m !! s = Some l ->
  (forall j, in_map head j -> bit head' j = negb (j =? s) && bit head j) ->
  (forall j, s <= j < s + l -> bit head' j = false /\ bit space j = true) /\
  (s + l < N -> bit head' (s + l) = true \/ bit space (s + l) = false).
Proof.
  intros H Hm Hbit. destruct (b_range _ _ _ _ H _ _ Hm) as (H0 & H1 & H2).
  pose proof (b_len_head _ _ _ _ H). split.
  - intros j Hj. split; [|apply (b_taken _ _ _ _ H); [lia | eauto]].
    rewrite Hbit by (unfold in_map; lia). destruct (Z.eqb_spec j s) as [|Hne]; [done|]. simpl.
    apply not_true_iff_false. rewrite (b_heads _ _ _ _ H) by lia. intros [l' Hl'].
    pose proof (b_apart _ _ _ _ H _ _ _ _ Hm Hl'). lia.
  - intros HN. rewrite Hbit by (unfold in_map; lia). replace (s + l =? s) with false by lia. simpl.
    destruct (bit head (s + l)) eqn:Eh; [by left | right].
    apply not_true_iff_false. rewrite (b_taken _ _ _ _ H) by lia. intros (s' & l' & Hm' & Hin).
    destruct (Z.lt_trichotomy s' s) as [Hlt | [-> | Hgt]].
    + pose proof (b_apart _ _ _ _ H _ _ _ _ Hm' Hm). lia.
    + rewrite Hm in Hm'. simplify_eq. lia.
    + pose proof (b_apart _ _ _ _ H _ _ _ _ Hm Hm'). assert (s' = s + l) as -> by lia.
      apply not_true_iff_false in Eh. apply Eh, (b_heads _ _ _ _ H); [lia | eauto].
Qed.

Lemma static_free_blocks head space N chunk m s l :
  blocks head space N m -> 0 < chunk -> m !! s = Some l ->
  (s + l < N -> exists head' space', static_free head space (chunk * s) chunk = Some (head', space') /\
     blocks head' space' N (delete s m)) /\
  (s + l = N -> static_free head space (chunk * s) chunk = None).
Proof.
  intros H Hc Hm. pose proof H as [Hbh Hbs Hlh Hls Hrange Hapart Hheads Htaken].
  destruct (Hrange _ _ Hm) as (H0 & H1 & H2).
  assert (Hs : is_in_use head s = Some true).
  { rewrite is_in_use_bit by (done || unfold in_map; lia). f_equal. apply Hheads; [lia | eauto]. }
  unfold static_free. if_false. rewrite (Z.mul_comm chunk s), Z.div_mul, Hs by lia. cbn [mbind option_bind negb].
  destruct (unset_in_use_bit head s Hbh) as (head' & -> & Hbh' & Hlh' & Hbit); [unfold in_map; lia|].
  cbn [mbind option_bind]. destruct (block_run head space N m s l head' H Hm Hbit) as [Hrun Hstop]. split.
  - intros HN. destruct (free_loop_clears (map_fuel head') head' space s (Z.to_nat l)) as (space' & -> & Hbs' & Hls' & Hsbit);
      [done | done | lia | lia | lia | unfold map_fuel; zl | intros j Hj; apply Hrun; lia
      | rewrite Z2Nat.id by lia; by apply Hstop |].
    rewrite Z2Nat.id in Hsbit by lia.
    exists head', space'. split; [done|]. split; try done; try lia.
    + intros s' l' [_ Hm']%lookup_delete_Some. by apply Hrange.
    + intros s1 l1 s2 l2 [_ Hm1]%lookup_delete_Some [_ Hm2]%lookup_delete_Some. by apply (Hapart _ _ _ _ Hm1 Hm2).
    + intros j Hj. rewrite Hbit by (unfold in_map; lia). rewrite andb_true_iff, negb_true_iff, Z.eqb_neq, Hheads by done.
      rewrite lookup_delete_is_Some. intuition congruence.
    + intros j Hj. rewrite Hsbit by (unfold in_map; lia). rewrite andb_true_iff, Htaken by done. split.
      * intros (Hout & s' & l' & Hm' & Hin). exists s', l'. rewrite lookup_delete_ne; [done|].
        intros ->. rewrite Hm in Hm'. simplify_eq. lia.
      * intros (s' & l' & [Hne Hm']%lookup_delete_Some & Hin). split; [|eauto].
        destruct (Z.lt_trichotomy s s') as [Hlt | [-> | Hgt]]; [|done|].
        -- pose proof (Hapart _ _ _ _ Hm Hm' Hlt). lia.
        -- pose proof (Hapart _ _ _ _ Hm' Hm Hgt). lia.
  - intros HN. rewrite free_loop_overrun; [done | done | done | lia | lia |].
    intros j Hj. apply Hrun. lia.
Qed.

(** *** Resizing *)

Lemma size_loop_counts fuel head space shift : forall i n size,
  Forall is_byte head -> Forall is_byte space -> zlen head = zlen space ->
  0 <= i -> i + Z.of_nat n < 8 * zlen head -> (n < fuel)%nat -> shift < i + Z.of_nat n ->
  0 <= size -> size + Z.of_nat n < 65536 ->
  (forall j, i <= j < i + Z.of_nat n -> (j <> shift -> bit head j = false) /\ bit space j = true) ->
  bit head (i + Z.of_nat n) = true \/ bit space (i + Z.of_nat n) = false ->
  size_loop fuel head space shift i size = Some (size + Z.of_nat n).
Proof.
  induction fuel as [|fuel IH]; intros i n size Hh Hs Hl Hi Hn Hf Hsh Hsz Hsz2 Hrun Hstop; [lia|].
  cbn [size_loop]. rewrite (is_in_use_bit head), (is_in_use_bit space) by (done || unfold in_map; lia).
  cbn [mbind option_bind]. destruct n as [|n].
  - change (Z.of_nat 0) with 0 in *. rewrite Z.add_0_r in *. replace (i =? shift) with false by lia.
    destruct Hstop as [-> | ->]; [done|]. by destruct (bit head i).
  - destruct (Hrun i) as [E1 E2]; [lia|]. rewrite E2.
    assert (Hgo : (if i =? shift then Some true else Some (negb (bit head i))) = Some true).
    { destruct (Z.eqb_spec i shift) as [|Hne]; [done|]. by rewrite E1. }
    rewrite Hgo. cbn [mbind option_bind negb]. rewrite u16_id by lia.
    rewrite (IH (i + 1) n (size + 1)); try done; try lia.
    + f_equal. lia.
    + intros j Hj. apply Hrun. lia.
    + replace (i + 1 + Z.of_nat n) with (i + Z.of_nat (S n)) by lia. done.
Qed.

Lemma static_buf_size_blocks head space N chunk m s l :
  blocks head space N m -> 0 < chunk -> m !! s = Some l -> s + l < N -> N <= 65536 ->
  static_buf_size head space (chunk * s) chunk = Some l.
Proof.
  intros H Hc Hm HN H16. pose proof H as [Hbh Hbs Hlh Hls Hrange Hapart Hheads Htaken].
  destruct (Hrange _ _ Hm) as (H0 & H1 & H2).
  assert (Hs : is_in_use head s = Some true).
  { rewrite is_in_use_bit by (done || unfold in_map; lia). f_equal. apply Hheads; [lia | eauto]. }
  unfold static_buf_size. if_false. rewrite (Z.mul_comm chunk s), Z.div_mul, Hs by lia. cbn [mbind option_bind negb].
  destruct (unset_in_use_bit head s Hbh) as (head' & _ & _ & _ & Hbit); [unfold in_map; lia|].
  destruct (block_run head space N m s l head' H Hm Hbit) as [Hrun Hstop].
  assert (Hsame : forall j, s < j < N -> bit head' j = bit head j).
  { intros j Hj. rewrite Hbit by (unfold in_map; lia). by replace (j =? s) with false by lia. }
  rewrite (size_loop_counts _ _ _ _ _ (Z.to_nat l)); try done; try lia.
  - f_equal. lia.
  - unfold map_fuel. zl.
  - intros j Hj. destruct (Hrun j) as [E1 E2]; [lia|]. split; [|done]. intros Hne. rewrite <- Hsame by lia. done.
  - rewrite Z2Nat.id, <- Hsame by lia. by apply Hstop.
Qed.

(** The bitmaps are determined by the blocks. *)
Lemma bitmap_ext a b :
  Forall is_byte a -> Forall is_byte b -> zlen a = zlen b ->
  (forall j, in_map a j -> bit a j = bit b j) -> a = b.
Proof.
  intros Ha Hb Hl Hbit. apply list_eq_same_length with (length a); [zl | done |].
  intros k x y Hk Hx Hy. pose proof (Forall_lookup_1 _ _ _ _ Ha Hx). pose proof (Forall_lookup_1 _ _ _ _ Hb Hy).
  apply Z.bits_inj'. intros n Hn. destruct (Z.le_gt_cases 8 n) as [H8 | H8].
  - assert (Hhigh : forall z, is_byte z -> Z.testbit z n = false).
    { intros z Hz. unfold is_byte in Hz. replace z with (z mod 2 ^ 8) by (apply Z.mod_small; lia).
      apply Z.mod_pow2_bits_high; lia. }
    by rewrite !Hhigh.
  - assert (Hj : in_map a (8 * Z.of_nat k + n)) by (unfold in_map; zl).
    specialize (Hbit _ Hj). unfold bit in Hbit.
    replace ((8 * Z.of_nat k + n) / 8) with (Z.of_nat k) in Hbit by lia_mod.
    replace ((8 * Z.of_nat k + n) mod 8) with n in Hbit by lia_mod.
    by rewrite Nat2Z.id, Hx, Hy in Hbit.
Qed.

Lemma blocks_unique head space head' space' N m :
  blocks head space N m -> blocks head' space' N m -> head = head' /\ space = space'.
Proof.
  intros H H'. destruct H, H'. split; apply bitmap_ext; try done; try lia; intros j Hj; unfold in_map in Hj;
    apply eq_true_iff_eq.
  - rewrite b_heads0, b_heads1 by lia. done.
  - rewrite b_taken0, b_taken1 by lia. done.
Qed.

(** ** Properties *)

(** Allocation: from a state that holds the blocks [m], [__static_alloc]
    returns NULL, unchanged, exactly when there is no run of free sectors long
    enough for [size] bytes; otherwise it returns the lowest such run, which is
    large enough, meets no live block, and is the one block added. *)
Theorem static_alloc_spec head space N size chunk m :
  blocks head space N m -> 0 < chunk -> 0 < size ->
  let r := sectors size chunk in
  size <= r * chunk < size + chunk /\
  ((static_alloc head space N size chunk = Some (None, head, space) /\
    forall s, 0 <= s -> s + r <= N -> ~ free_run space s r) \/
   (exists s head' space', static_alloc head space N size chunk = Some (Some (chunk * s), head', space') /\
      0 <= s /\ s + r <= N /\ (forall s' l', m !! s' = Some l' -> s + r <= s' \/ s' + l' <= s) /\
      (forall s', 0 <= s' < s -> ~ free_run space s' r) /\
      blocks head' space' N (<[s := r]> m))).
Proof.
  intros H Hc Hs r. destruct (sectors_spec size chunk Hs Hc) as [Hr1 Hr2]. fold r in Hr1, Hr2.
  split; [lia|].
  destruct (static_alloc_blocks head space N size chunk m H Hc Hs) as
    [[E Hno] | (s & head' & space' & E & Hf & Hms & Hfirst & H')]; [by left | right].
  fold r in Hf, Hfirst, H'. exists s, head', space'.
  destruct (b_range _ _ _ _ H' s r) as (Hs0 & _ & HsN); [by rewrite lookup_insert_eq|].
  split; [done|]. split; [done|]. split; [done|]. split; [|by split].
  intros s' l' Hm. by apply (run_apart head space N m s r).
Qed.

Lemma empty_blocks k : blocks (replicate k 0) (replicate k 0) (8 * Z.of_nat k) ∅.
Proof.
  assert (Hb : Forall is_byte (replicate k 0)) by (apply Forall_replicate; done).
  assert (Hbit : forall j, bit (replicate k 0) j = false).
  { intros j. unfold bit. destruct (replicate k 0 !! Z.to_nat (j / 8)) eqn:E; simpl.
    - apply lookup_replicate in E as [-> _]. apply Z.testbit_0_l.
    - apply Z.testbit_0_l. }
  split; try done; try zl.
  - intros j _. rewrite Hbit, lookup_empty. split; [done | by intros []].
  - intros j _. rewrite Hbit. split; [done | by intros (? & ? & ? & _)].
Defined.

Lemma static_alloc_spec_witness :
  exists s head' space', static_alloc [0; 0] [0; 0] 16 20 8 = Some (Some (8 * s), head', space') /\
    0 <= s /\ s + 3 <= 16 /\ blocks head' space' 16 (<[s := 3]> ∅).
Proof.
  destruct (static_alloc_spec [0; 0] [0; 0] 16 20 8 ∅) as [_ [[E _] | (s & h & sp & E & H0 & H1 & _ & _ & H)]];
    [exact (empty_blocks 2) | lia | lia | vm_compute in E; congruence |].
  by exists s, h, sp.
Defined.

(** Deallocation: freeing a block removes it and only it, and a second free
    of the same pointer changes nothing; but the loop of [__static_free] is
    bounded only by the next block or a free sector, so freeing a block that
    ends at the last sector reads beyond the bitmaps. *)
Theorem static_free_spec head space N chunk m s l :
  blocks head space N m -> 0 < chunk -> m !! s = Some l ->
  (s + l < N -> exists head' space', static_free head space (chunk * s) chunk = Some (head', space') /\
     blocks head' space' N (delete s m) /\
     static_free head' space' (chunk * s) chunk = Some (head', space')) /\
  (s + l = N -> static_free head space (chunk * s) chunk = None).
Proof.
  intros H Hc Hm. destruct (static_free_blocks head space N chunk m s l H Hc Hm) as [Hin Hlast].
  split; [|done]. intros HN. destruct (Hin HN) as (h & sp & E & H'). exists h, sp. split; [done|]. split; [done|].
  destruct (b_range _ _ _ _ H _ _ Hm) as (? & ? & ?). pose proof (b_len_head _ _ _ _ H').
  unfold static_free. if_false. rewrite (Z.mul_comm chunk s), Z.div_mul by lia.
  rewrite is_in_use_bit by (unfold in_map; lia || apply (b_head _ _ _ _ H')). cbn [mbind option_bind].
  replace (bit h s) with false; [done|]. symmetry. apply not_true_iff_false.
  rewrite (b_heads _ _ _ _ H') by lia. rewrite lookup_delete_eq. by intros [].
Qed.

Lemma static_free_spec_witness :
  exists head' space', static_free [1; 0] [7; 0] 0 8 = Some (head', space') /\ blocks head' space' 16 ∅ /\
    static_free head' space' 0 8 = Some (head', space').
Proof.
  destruct (static_alloc_blocks [0; 0] [0; 0] 16 20 8 ∅) as [[E _] | (s & h & sp & E & _ & _ & _ & H)];
    [exact (empty_blocks 2) | lia | lia | vm_compute in E; congruence |].
  assert (E' : static_alloc [0; 0] [0; 0] 16 20 8 = Some (Some (8 * 0), [1; 0], [7; 0])) by by vm_compute.
  rewrite E' in E. injection E as Es <- <-. assert (s = 0) as -> by lia.
  destruct (static_free_spec [1; 0] [7; 0] 16 8 _ 0 3 H) as [Hf _]; [lia | by vm_compute |].
  destruct Hf as (h & sp & Hf & Hb & Hg); [lia|]. exists h, sp. split; [done|]. split; [|done].
  by rewrite delete_insert_eq, delete_empty in Hb.
Defined.

(** A block that is allocated and freed again leaves no trace: both bitmaps
    are bit for bit what they were before the allocation. *)
Theorem static_alloc_free head space N size chunk m p head' space' :
  blocks head space N m -> 0 < chunk -> 0 < size ->
  static_alloc head space N size chunk = Some (Some p, head', space') ->
  p / chunk + sectors size chunk < N ->
  static_free head' space' p chunk = Some (head, space).
Proof.
  intros H Hc Hs E Hp.
  destruct (static_alloc_blocks head space N size chunk m H Hc Hs) as
    [[E' _] | (s & h & sp & E' & _ & Hms & _ & H')]; rewrite E in E'; simplify_eq.
  rewrite (Z.mul_comm chunk s), Z.div_mul in Hp by lia.
  destruct (static_free_blocks h sp N chunk _ s _ H' Hc (lookup_insert_eq _ _ _)) as [Hf _].
  destruct (Hf Hp) as (h2 & sp2 & -> & H2). rewrite delete_insert_eq, delete_id in H2 by done.
  by destruct (blocks_unique _ _ _ _ _ _ H2 H) as [-> ->].
Qed.

Lemma static_alloc_free_witness : static_free [1; 0] [7; 0] 0 8 = Some ([0; 0], [0; 0]).
Proof.
  apply (static_alloc_free [0; 0] [0; 0] 16 20 8 ∅); [exact (empty_blocks 2) | lia | lia | by vm_compute | by vm_compute].
Defined.

(** Resizing: unless no run is free, in which case nothing changes,
    [__static_realloc] moves the block to a new place, copies the smaller of
    the two sizes, leaves every other byte of the buffer alone, and the blocks
    afterwards are the old ones with the moved one replaced. *)
Theorem static_realloc_spec head space buffer N chunk m s l size :
  blocks head space N m -> 0 < chunk -> 0 < size -> m !! s = Some l -> s + l < N -> N <= 65536 ->
  N * chunk <= zlen buffer ->
  let r := sectors size chunk in
  let k := Z.min size (chunk * l) in
  (static_realloc head space buffer N (chunk * s) size chunk = Some (None, head, space, buffer) /\
   forall s', 0 <= s' -> s' + r <= N -> ~ free_run space s' r) \/
  (exists s' head' space' buffer',
     static_realloc head space buffer N (chunk * s) size chunk =
       Some (Some (chunk * s'), head', space', buffer') /\
     blocks head' space' N (delete s (<[s' := r]> m)) /\ s' <> s /\
     exists data, rdn buffer (chunk * s) k = Some data /\ rdn buffer' (chunk * s') k = Some data /\
       wrn buffer (chunk * s') data = Some buffer').
Proof.
  intros H Hc Hs Hm HN H16 Hbuf r k. destruct (sectors_spec size chunk Hs Hc) as [Hr1 Hr2]. fold r in Hr1, Hr2.
  destruct (b_range _ _ _ _ H _ _ Hm) as (H0 & H1 & H2).
  destruct (static_alloc_blocks head space N size chunk m H Hc Hs) as
    [[E Hno] | (s' & h & sp & E & Hf & Hms & _ & H')]; unfold static_realloc; rewrite E; cbn [mbind option_bind];
    [by left | right].
  fold r in Hf, H'. assert (Hne : s' <> s) by congruence.
  assert (Hm' : <[s' := r]> m !! s = Some l) by by rewrite lookup_insert_ne.
  rewrite (static_buf_size_blocks _ _ _ _ _ _ _ H' Hc Hm' HN H16). cbn [mbind option_bind].
  replace (if size <? chunk * l then size else chunk * l) with k
    by (unfold k; destruct (Z.ltb_spec size (chunk * l)); lia).
  destruct (b_range _ _ _ _ H' s' r) as (Hs0 & _ & HsN); [by rewrite lookup_insert_eq|].
  assert (Hk : 0 <= k <= size /\ k <= chunk * l) by (unfold k; nia).
  destruct (rdn_Some buffer (chunk * s) k) as [data Hd]; [nia | lia | nia |].
  rewrite Hd. cbn [mbind option_bind]. pose proof (rdn_length _ _ _ _ Hd) as Hlen.
  destruct (wrn_Some buffer (chunk * s') data) as [buffer' Hw]; [nia | rewrite Hlen; nia |].
  rewrite Hw. cbn [mbind option_bind].
  destruct (static_free_blocks _ _ _ chunk _ s l H' Hc Hm') as [Hfree _].
  destruct (Hfree HN) as (h2 & sp2 & -> & H2'). cbn [mbind option_bind].
  exists s', h2, sp2, buffer'. split; [done|]. split; [done|]. split; [done|]. exists data.
  split; [done|]. split; [|done]. rewrite <- Hlen. by apply (rdn_wrn buffer).
Qed.

Lemma static_realloc_spec_witness :
  static_realloc [1] [1] (lit "ab" ++ replicate 14 0) 8 0 4 2 = Some (Some 2, [2], [6], lit "abab" ++ replicate 12 0).
Proof.
  destruct (static_alloc_blocks [0] [0] 8 2 2 ∅) as [[E _] | (s & h & sp & E & _ & _ & _ & H)];
    [exact (empty_blocks 1) | lia | lia | vm_compute in E; congruence |].
  assert (E' : static_alloc [0] [0] 8 2 2 = Some (Some (2 * 0), [1], [1])) by by vm_compute.
  rewrite E' in E. injection E as Es <- <-. assert (s = 0) as -> by lia.
  destruct (static_realloc_spec [1] [1] (lit "ab" ++ replicate 14 0) 8 2 _ 0 1 4 H) as
    [[E _] | (s' & h & sp & b & E & _)]; try lia; [by vm_compute | by vm_compute | vm_compute in E; congruence | by vm_compute].
Defined.

End StaticBuf.
