(* ===== verification/LinkedList.v ===== *)
(** src/src/data/linkedlist.c and linkedlist.h: the intrusive singly linked
    list. A pointer to an object and a pointer to its [node] member stand for
    each other ([container_of] inverts [&p->node]), so both are one address;
    NULL is 0. The heap maps the address of a live node to its [next] field;
    touching an address outside the heap is [None]. *)
From S2P Require Import Prelude.

Module LinkedList.

Abbreviation heap := (gmap Z Z).
Definition NULL : Z := 0.

(** Enough rounds for a list that ends: one per node, and one more. *)
Definition nodes_fuel (h : heap) : nat := S (size h).

(** [while ( last && last->next ) { prev = last; last = last->next; }]: the last
    node and the one before it. *)
Fixpoint walk_last (fuel : nat) (h : heap) (prev last : Z) : option (Z * Z) :=
  match fuel with
  | O => None
  | S fuel' =>
      if last =? NULL then Some (prev, last) else
      next ← h !! last;
      if next =? NULL then Some (prev, last) else walk_last fuel' h last next
  end.

Definition store (h : heap) (p v : Z) : option heap :=
  _ ← h !! p; Some (<[p := v]> h).

Definition arrow_linked_list_add (h : heap) (root el : Z) : option (heap * Z) :=
  h ← store h el NULL;
  '(_, last) ← walk_last (nodes_fuel h) h NULL root;
  if negb (last =? NULL) then h ← store h last el; Some (h, root)
  else Some (h, el).

Definition arrow_linked_list_add_first (h : heap) (root el : Z) : option (heap * Z) :=
  h ← store h el root; Some (h, el).

Fixpoint del_loop (fuel : nat) (h : heap) (root el prev last : Z) : option (heap * Z) :=
  match fuel with
  | O => None
  | S fuel' =>
      if last =? NULL then Some (h, NULL) else
      next ← h !! last;
      if last =? el then
        if negb (prev =? NULL) then h ← store h prev next; Some (h, root)
        else r ← h !! root; h ← store h root NULL; Some (h, r)
      else del_loop fuel' h root el last next
  end.

Definition arrow_linked_list_del (h : heap) (root el : Z) : option (heap * Z) :=
  del_loop (nodes_fuel h) h root el NULL root.

Definition arrow_linked_list_del_last (h : heap) (root : Z) : option (heap * Z) :=
  '(prev, last) ← walk_last (nodes_fuel h) h NULL root;
  if negb (prev =? NULL) then
    next ← h !! last;
    h ← store h prev next;
    h ← store h last NULL;
    Some (h, root)
  else Some (h, NULL).

(** ** The macros of linkedlist.h: the value is the new [root]. *)

Definition arrow_linked_list_add_node_last := arrow_linked_list_add.
Definition arrow_linked_list_add_node_first := arrow_linked_list_add_first.
Definition arrow_linked_list_del_node := arrow_linked_list_del.
Definition arrow_linked_list_del_node_first (h : heap) (root : Z) : option (heap * Z) :=
  arrow_linked_list_del h root root.
Definition arrow_linked_list_del_node_last := arrow_linked_list_del_last.

(** [arrow_linked_list_for_each]: [next] is read after the body. The state of the
    body holds the heap. *)
Fixpoint for_each {St} (fuel : nat) (get : St -> heap) (body : Z -> St -> option St) (p : Z) (st : St)
    : option St :=
  match fuel with
  | O => None
  | S fuel' =>
      if p =? NULL then Some st else
      st ← body p st;
      next ← get st !! p;
      for_each fuel' get body next st
  end.

(** [arrow_linked_list_for_each_safe]: the node is copied before the body, which
    may then free it. *)
Fixpoint for_each_safe {St} (fuel : nat) (get : St -> heap) (body : Z -> St -> option St) (p : Z) (st : St)
    : option St :=
  match fuel with
  | O => None
  | S fuel' =>
      if p =? NULL then Some st else
      next ← get st !! p;
      st ← body p st;
      for_each_safe fuel' get body next st
  end.

(** [linked_list_find_node]: the first node that [func] matches, or NULL. *)
Fixpoint find_node (fuel : nat) (h : heap) (func : Z -> bool) (p : Z) : option Z :=
  match fuel with
  | O => None
  | S fuel' =>
      if p =? NULL then Some NULL else
      if func p then Some p else next ← h !! p; find_node fuel' h func next
  end.

Definition linked_list_find_node (h : heap) (root : Z) (func : Z -> bool) : option Z :=
  find_node (nodes_fuel h) h func root.

(** ** Lists in the heap *)

Fixpoint is_list (h : heap) (p : Z) (l : list Z) : Prop :=
  match l with
  | [] => p = NULL
  | x :: l' => p = x /\ x <> NULL /\ exists next, h !! x = Some next /\ is_list h next l'
  end.

(** A segment from [p] over [l] to [q]. *)
Fixpoint lseg (h : heap) (p : Z) (l : list Z) (q : Z) : Prop :=
  match l with
  | [] => p = q
  | x :: l' => p = x /\ x <> NULL /\ exists next, h !! x = Some next /\ lseg h next l' q
  end.

Lemma is_list_lseg h p l : is_list h p l <-> lseg h p l NULL.
Proof. revert p. induction l as [|x l IH]; intros p; simpl; [done|]. by setoid_rewrite IH. Qed.

Lemma lseg_app h p l1 l2 q : lseg h p (l1 ++ l2) q <-> exists m, lseg h p l1 m /\ lseg h m l2 q.
Proof.
  revert p. induction l1 as [|x l1 IH]; intros p; simpl.
  - split; [eauto | by intros (m & -> & H)].
  - split.
    + intros (-> & Hx & n & Hn & Hl). apply IH in Hl as (m & H1 & H2). eauto 10.
    + intros (m & (-> & Hx & n & Hn & H1) & H2). split; [done|]. split; [done|]. exists n. split; [done|].
      apply IH. eauto.
Qed.

Lemma lseg_snoc h p l x q : lseg h p (l ++ [x]) q <-> lseg h p l x /\ x <> NULL /\ h !! x = Some q.
Proof.
  rewrite lseg_app. simpl. split.
  - intros (m & H & -> & Hx & n & Hn & ->). done.
  - intros (H & Hx & Hn). exists x. eauto 10.
Qed.

(** Stores elsewhere do not change a segment. *)
Lemma lseg_insert h p l q a v : a ∉ l -> lseg h p l q -> lseg (<[a := v]> h) p l q.
Proof.
  revert p. induction l as [|x l IH]; intros p Ha H; simpl in *; [done|].
  destruct H as (-> & Hx & n & Hn & Hl). rewrite not_elem_of_cons in Ha. destruct Ha as [Hne Ha].
  split; [done|]. split; [done|]. exists n. rewrite lookup_insert_ne by done. eauto.
Qed.

Lemma lseg_elem h p l q x : lseg h p l q -> x ∈ l -> is_Some (h !! x) /\ x <> NULL.
Proof.
  revert p. induction l as [|y l IH]; intros p H Hx; [by apply not_elem_of_nil in Hx|].
  destruct H as (-> & Hy & n & Hn & Hl). apply elem_of_cons in Hx as [-> | Hx]; eauto.
Qed.

(** The address of a node determines the rest of the list, so no node repeats. *)
Lemma is_list_unique h p l l' : is_list h p l -> is_list h p l' -> l = l'.
Proof.
  revert p l'. induction l as [|x l IH]; intros p [|y l'] H H'; simpl in *;
    [done | destruct H' as (-> & Hy & _); by subst | destruct H as (-> & Hx & _); by subst |].
  destruct H as (-> & Hx & n & Hn & Hl), H' as (-> & _ & n' & Hn' & Hl'). simplify_eq. f_equal. eauto.
Qed.

Lemma is_list_NoDup h p l : is_list h p l -> NoDup l.
Proof.
  revert p. induction l as [|x l IH]; intros p H; [constructor|].
  pose proof H as (-> & Hx & n & Hn & Hl). constructor; [|eauto].
  intros Hin. apply list_elem_of_split in Hin as (l1 & l2 & ->).
  assert (Hsuf : is_list h x (x :: l2)).
  { apply is_list_lseg. apply is_list_lseg, lseg_app in Hl as (m & _ & Hm). simpl in Hm.
    destruct Hm as (-> & Hm). by split. }
  pose proof (is_list_unique h x _ _ H Hsuf) as E. apply (f_equal length) in E.
  simpl in E. rewrite length_app in E. simpl in E. lia.
Qed.

Lemma is_list_size h p l : is_list h p l -> (length l <= size h)%nat.
Proof.
  intros H. pose proof (is_list_NoDup _ _ _ H) as Hnd.
  rewrite <- (size_list_to_set (C := gset Z)) by done. rewrite <- size_dom.
  apply subseteq_size. intros x Hx. rewrite elem_of_list_to_set in Hx.
  apply elem_of_dom. apply is_list_lseg in H. by eapply lseg_elem.
Qed.

(** ** The operations on lists *)

Lemma store_live h p v : is_Some (h !! p) -> store h p v = Some (<[p := v]> h).
Proof. intros [n Hn]. unfold store. by rewrite Hn. Qed.

Lemma size_store (h : heap) p v : is_Some (h !! p) -> size (<[p := v]> h) = size h.
Proof. apply map_size_insert_Some. Qed.

Lemma is_list_store h p l a v : a ∉ l -> is_list h p l -> is_list (<[a := v]> h) p l.
Proof. rewrite !is_list_lseg. apply lseg_insert. Qed.

Lemma walk_last_list h l : forall fuel prev p x,
  is_list h p (l ++ [x]) -> (length l < fuel)%nat ->
  walk_last fuel h prev p = Some (default prev (list.last l), x).
Proof.
  induction l as [|y l IH]; intros [|fuel] prev p x H Hf; simpl in Hf; try lia; cbn [walk_last].
  - destruct H as (-> & Hx & n & Hn & ->). rewrite (proj2 (Z.eqb_neq _ _)) by done. by rewrite Hn.
  - destruct H as (-> & Hy & n & Hn & Hl). rewrite (proj2 (Z.eqb_neq _ _)) by done. rewrite Hn.
    cbn [mbind option_bind].
    assert (Hnn : n <> NULL) by (destruct l as [|z l]; destruct Hl as (-> & Hz & _); done).
    rewrite (proj2 (Z.eqb_neq _ _)) by done. rewrite (IH fuel y n x) by (done || lia).
    rewrite last_cons. by destruct (list.last l).
Qed.

Lemma walk_last_nil h fuel prev : (0 < fuel)%nat -> walk_last fuel h prev NULL = Some (prev, NULL).
Proof. intros Hf. destruct fuel; [lia | done]. Qed.

(** Replacing the last link. *)
Lemma lseg_set_last h p l x q v :
  NoDup (l ++ [x]) -> lseg h p (l ++ [x]) q -> lseg (<[x := v]> h) p (l ++ [x]) v.
Proof.
  intros Hnd H. apply lseg_snoc in H as (H & Hx & _). apply lseg_snoc. split; [|split; [done|]].
  - apply lseg_insert; [|done]. apply list.NoDup_app in Hnd as (_ & Hnd & _). intros Hin. by apply (Hnd x Hin), list_elem_of_singleton.
  - apply lookup_insert_eq.
Qed.

(** The neighbours of an element; [x] is unlinked by storing [next] in the link before it. *)
Lemma del_loop_list h el fuel : forall l1 l2 root prev last,
  is_list h last (l1 ++ el :: l2) -> el ∉ l1 -> (length l1 < fuel)%nat ->
  del_loop fuel h root el prev last =
    (next ← h !! el;
     let prev := default prev (list.last l1) in
     if negb (prev =? NULL) then h ← store h prev next; Some (h, root)
     else r ← h !! root; h ← store h root NULL; Some (h, r)).
Proof.
  induction fuel as [|fuel IH]; intros l1 l2 root prev lst H Hin Hf; [lia|]. cbn [del_loop].
  destruct l1 as [|y l1]; simpl in H.
  - destruct H as (-> & Hx & n & Hn & Hl). rewrite (proj2 (Z.eqb_neq _ _)) by done.
    rewrite Hn, Z.eqb_refl. done.
  - destruct H as (-> & Hy & n & Hn & Hl). rewrite (proj2 (Z.eqb_neq y NULL)) by done.
    rewrite Hn. cbn [mbind option_bind]. rewrite not_elem_of_cons in Hin. destruct Hin as [Hne Hin].
    rewrite (proj2 (Z.eqb_neq y el)) by done. simpl in Hf.
    rewrite (IH l1 l2 root y n) by (done || lia). rewrite last_cons. by destruct (list.last l1).
Qed.

Lemma del_loop_missing h el fuel : forall l root prev last,
  is_list h last l -> el ∉ l -> (length l < fuel)%nat -> del_loop fuel h root el prev last = Some (h, NULL).
Proof.
  induction fuel as [|fuel IH]; intros l root prev lst H Hin Hf; [lia|]. cbn [del_loop].
  destruct l as [|y l]; simpl in H; [by subst|].
  destruct H as (-> & Hy & n & Hn & Hl). rewrite (proj2 (Z.eqb_neq y NULL)) by done.
  rewrite Hn. cbn [mbind option_bind]. rewrite not_elem_of_cons in Hin. destruct Hin as [Hne Hin].
  rewrite (proj2 (Z.eqb_neq y el)) by done. simpl in Hf. apply (IH l); done || lia.
Qed.

Lemma add_last_list h root l el :
  is_list h root l -> is_Some (h !! el) -> el <> NULL -> el ∉ l ->
  exists h' r', arrow_linked_list_add h root el = Some (h', r') /\ is_list h' r' (l ++ [el]).
Proof.
  intros Hl Hel H0 Hin. unfold arrow_linked_list_add. rewrite store_live by done. cbn [mbind option_bind].
  pose proof (is_list_NoDup _ _ _ Hl) as Hnd. pose proof (is_list_size _ _ _ Hl) as Hsz.
  set (h1 := <[el := NULL]> h). assert (Hl1 : is_list h1 root l) by by apply is_list_store.
  assert (Hsz1 : size h1 = size h) by by apply size_store.
  destruct l as [|x l _] using rev_ind.
  - simpl in Hl. subst. rewrite walk_last_nil by (unfold nodes_fuel; lia). simpl.
    eexists _, _. split; [done|]. split; [done|]. split; [done|]. exists NULL.
    split; [apply lookup_insert_eq | done].
  - rewrite (walk_last_list h1 l _ NULL root x Hl1) by (unfold nodes_fuel; rewrite length_app in Hsz; simpl in Hsz; lia).
    cbn [mbind option_bind]. pose proof Hl1 as Hs%is_list_lseg%lseg_snoc. destruct Hs as (_ & Hx & Hxn).
    rewrite (proj2 (Z.eqb_neq x NULL)) by done. cbn [negb]. rewrite store_live by done. cbn [mbind option_bind].
    eexists _, _. split; [done|]. apply is_list_lseg, lseg_snoc. split.
    + by apply lseg_set_last with NULL, is_list_lseg.
    + split; [done|]. rewrite lookup_insert_ne; [apply lookup_insert_eq|].
      intros ->. apply Hin, elem_of_app. right. by apply list_elem_of_singleton.
Qed.

(** Appending touches the new node and the last one. *)
Lemma add_last_frame h root l el h' r' : is_list h root l -> el <> NULL -> el ∉ l -> arrow_linked_list_add h root el = Some (h', r') ->
  forall p, p <> el -> p ∉ l -> h' !! p = h !! p.
Proof.
  intros Hl H0 Hin E p Hp Hpl. unfold arrow_linked_list_add in E. destruct (h !! el) as [n0|] eqn:Hel; [|by unfold store in E; rewrite Hel in E].
  rewrite store_live in E by by eexists. cbn [mbind option_bind] in E.
  pose proof (is_list_size _ _ _ Hl) as Hsz. set (h1 := <[el := NULL]> h) in *. assert (Hl1 : is_list h1 root l) by by apply is_list_store.
  assert (Hsz1 : size h1 = size h) by by apply size_store; eexists. assert (Hp1 : h1 !! p = h !! p) by by apply lookup_insert_ne.
  destruct l as [|x l _] using rev_ind.
  - cbn in Hl. subst root. rewrite walk_last_nil in E by (unfold nodes_fuel; lia). cbn in E. by simplify_eq.
  - rewrite (walk_last_list h1 l _ NULL root x Hl1) in E by (unfold nodes_fuel; rewrite length_app in Hsz; simpl in Hsz; lia).
    cbn [mbind option_bind] in E. pose proof Hl1 as Hs%is_list_lseg%lseg_snoc. destruct Hs as (_ & Hx & Hxn).
    rewrite (proj2 (Z.eqb_neq x NULL)) in E by done. cbn [negb] in E. rewrite store_live in E by done. cbn [mbind option_bind] in E. simplify_eq.
    rewrite lookup_insert_ne; [done|]. intros ->. apply Hpl, elem_of_app. right. by apply list_elem_of_singleton.
Qed.

Lemma add_first_list h root l el :
  is_list h root l -> is_Some (h !! el) -> el <> NULL -> el ∉ l ->
  exists h' r', arrow_linked_list_add_first h root el = Some (h', r') /\ is_list h' r' (el :: l).
Proof.
  intros Hl Hel H0 Hin. unfold arrow_linked_list_add_first. rewrite store_live by done.
  eexists _, _. split; [done|]. split; [done|]. split; [done|]. exists root. split; [apply lookup_insert_eq|].
  by apply is_list_store.
Qed.

Lemma del_list h root l1 x l2 :
  is_list h root (l1 ++ x :: l2) ->
  exists h' r', arrow_linked_list_del h root x = Some (h', r') /\ is_list h' r' (l1 ++ l2).
Proof.
  intros Hl. pose proof (is_list_NoDup _ _ _ Hl) as Hnd. pose proof (is_list_size _ _ _ Hl) as Hsz.
  rewrite length_app in Hsz. simpl in Hsz.
  assert (Hx1 : x ∉ l1) by (apply list.NoDup_app in Hnd as (_ & Hd & _); intros Hin; apply (Hd x Hin), list_elem_of_here).
  unfold arrow_linked_list_del. rewrite (del_loop_list h x _ l1 l2) by (done || unfold nodes_fuel; lia).
  apply is_list_lseg, lseg_app in Hl as (m & H1 & H2). simpl in H2.
  destruct H2 as (-> & Hx & n & Hn & H2). rewrite Hn. cbn [mbind option_bind].
  destruct l1 as [|y l1 _] using rev_ind.
  - simpl in H1. subst. simpl. rewrite Hn. cbn [mbind option_bind]. rewrite store_live by eauto. cbn [mbind option_bind].
    eexists _, _. split; [done|]. apply is_list_store; [|by apply is_list_lseg]. by inversion Hnd.
  - rewrite last_snoc. cbn [from_option id]. pose proof H1 as (Hy1 & Hy & Hyn)%lseg_snoc.
    rewrite (proj2 (Z.eqb_neq y NULL)) by done. cbn [negb]. rewrite store_live by eauto. cbn [mbind option_bind].
    eexists _, _. split; [done|]. apply is_list_lseg, lseg_app. exists n. rewrite <- app_assoc in Hnd.
    split.
    + apply lseg_set_last with x; [|done]. apply list.NoDup_app in Hnd as (Hn1 & Hd & Hn2). apply list.NoDup_app.
      split; [done|]. split; [|by apply NoDup_singleton]. intros z Hz Hzy%list_elem_of_singleton. subst.
      by apply (Hd y Hz), list_elem_of_here.
    + apply lseg_insert; [|done]. apply list.NoDup_app in Hnd as (_ & _ & Hn2). simpl in Hn2.
      apply NoDup_cons in Hn2 as [Hy2 _]. rewrite not_elem_of_cons in Hy2. tauto.
Qed.

Lemma del_last_list h root l x :
  is_list h root (l ++ [x]) ->
  exists h' r', arrow_linked_list_del_last h root = Some (h', r') /\ is_list h' r' l.
Proof.
  intros Hl. pose proof (is_list_NoDup _ _ _ Hl) as Hnd. pose proof (is_list_size _ _ _ Hl) as Hsz.
  rewrite length_app in Hsz. simpl in Hsz.
  unfold arrow_linked_list_del_last. rewrite (walk_last_list h l _ NULL root x Hl) by (unfold nodes_fuel; lia).
  cbn [mbind option_bind]. apply is_list_lseg in Hl. apply lseg_snoc in Hl as (H1 & Hx & Hn).
  destruct l as [|y l _] using rev_ind; [by eexists _, _|].
  rewrite last_snoc. cbn [from_option id]. pose proof H1 as (Hy1 & Hy & Hyn)%lseg_snoc.
  rewrite (proj2 (Z.eqb_neq y NULL)) by done. cbn [negb]. rewrite Hn. cbn [mbind option_bind].
  rewrite store_live by eauto. cbn [mbind option_bind].
  rewrite store_live by (rewrite lookup_insert_is_Some; destruct (decide (y = x)); [by left | right; split; [done | by eexists]]).
  cbn [mbind option_bind]. eexists _, _. split; [done|].
  assert (Hnd1 : NoDup (l ++ [y]) /\ x ∉ l ++ [y]).
  { apply list.NoDup_app in Hnd as (Hn1 & Hd & _). split; [done|]. intros Hin. by apply (Hd x Hin), list_elem_of_singleton. }
  apply is_list_store; [tauto|]. apply is_list_lseg. apply lseg_set_last with x; [apply Hnd1 | done].
Qed.

(** ** Properties *)

(** The list operations implement a sequence of distinct live nodes: adding
    first and last prepend and append, deleting an element and deleting the
    last one remove it, and every other node keeps its place. *)
Theorem list_operations h root l el :
  is_list h root l -> is_Some (h !! el) -> el <> NULL -> el ∉ l ->
  (exists h' r', arrow_linked_list_add_node_last h root el = Some (h', r') /\ is_list h' r' (l ++ [el])) /\
  (exists h' r', arrow_linked_list_add_node_first h root el = Some (h', r') /\ is_list h' r' (el :: l)) /\
  (forall l1 x l2, l = l1 ++ x :: l2 ->
     exists h' r', arrow_linked_list_del_node h root x = Some (h', r') /\ is_list h' r' (l1 ++ l2)) /\
  (forall l1 x, l = l1 ++ [x] ->
     exists h' r', arrow_linked_list_del_node_last h root = Some (h', r') /\ is_list h' r' l1).
Proof.
  intros Hl Hel H0 Hin. split; [by apply add_last_list|]. split; [by apply add_first_list|]. split.
  - intros l1 x l2 ->. by apply del_list.
  - intros l1 x ->. by apply (del_last_list h root l1 x).
Qed.

Definition sample_heap : heap := <[10 := 20]> (<[20 := 0]> (<[30 := 7]> ∅)).

Lemma list_operations_witness :
  exists h' r', arrow_linked_list_add_node_last sample_heap 10 30 = Some (h', r') /\ is_list h' r' [10; 20; 30].
Proof.
  apply (list_operations sample_heap 10 [10; 20] 30); [|by eexists | done | ].
  - split; [done|]. split; [done|]. exists 20. split; [done|]. split; [done|]. split; [done|]. by exists 0.
  - rewrite !not_elem_of_cons. split; [done|]. split; [done|]. apply not_elem_of_nil.
Defined.

(** Deleting a node that is not in the list: the result is NULL, so the
    macro sets the root of a non-empty list to NULL and every node is lost. *)
Theorem del_missing_loses_list h root l el :
  is_list h root l -> el ∉ l -> arrow_linked_list_del_node h root el = Some (h, NULL).
Proof.
  intros Hl Hin. unfold arrow_linked_list_del_node, arrow_linked_list_del.
  apply (del_loop_missing h el _ l); [done | done |]. pose proof (is_list_size _ _ _ Hl). unfold nodes_fuel. lia.
Qed.

Lemma del_missing_loses_list_witness : arrow_linked_list_del_node sample_heap 10 30 = Some (sample_heap, NULL).
Proof.
  apply (del_missing_loses_list sample_heap 10 [10; 20] 30); [|rewrite !not_elem_of_cons; split; [done|]; split; [done|]; apply not_elem_of_nil].
  split; [done|]. split; [done|]. exists 20. split; [done|]. split; [done|]. split; [done|]. by exists 0.
Defined.

(** *** Iteration *)

Section iteration.
Context {St : Type} (get : St -> heap) (body : Z -> St -> option St).

(** The body leaves the links alone. *)
Definition keeps_links : Prop := forall p st st', body p st = Some st' -> get st' = get st.

(** The body changes, or frees, the node it is called with at most. *)
Definition only_current : Prop :=
  forall p st st' q, body p st = Some st' -> q <> p -> get st' !! q = get st !! q.

Lemma for_each_list l : forall fuel p st,
  keeps_links -> is_list (get st) p l -> (length l < fuel)%nat ->
  for_each fuel get body p st = fold_opt body l st.
Proof.
  induction l as [|x l IH]; intros [|fuel] p st Hk H Hf; simpl in Hf; try lia; cbn [for_each fold_opt].
  - by simpl in H; subst.
  - destruct H as (-> & Hx & n & Hn & Hl). rewrite (proj2 (Z.eqb_neq x NULL)) by done.
    destruct (body x st) as [st'|] eqn:E; [|done]. cbn [mbind option_bind].
    pose proof (Hk _ _ _ E) as Hg. rewrite Hg, Hn. cbn [mbind option_bind].
    apply IH; [done | by rewrite Hg | lia].
Qed.

Lemma is_list_same h h' p l :
  (forall q, q ∈ l -> h' !! q = h !! q) -> is_list h p l -> is_list h' p l.
Proof.
  revert p. induction l as [|x l IH]; intros p Hs H; [done|]. destruct H as (-> & Hx & n & Hn & Hl).
  split; [done|]. split; [done|]. exists n. split; [rewrite Hs; [done | apply list_elem_of_here]|].
  apply IH; [|done]. intros q Hq. by apply Hs, list_elem_of_further.
Qed.

Lemma for_each_safe_list l : forall fuel p st,
  only_current -> is_list (get st) p l -> (length l < fuel)%nat ->
  for_each_safe fuel get body p st = fold_opt body l st.
Proof.
  induction l as [|x l IH]; intros [|fuel] p st Hk H Hf; simpl in Hf; try lia; cbn [for_each_safe fold_opt].
  - by simpl in H; subst.
  - pose proof (is_list_NoDup _ _ _ H) as Hnd. apply NoDup_cons in Hnd as [Hxl _].
    destruct H as (-> & Hx & n & Hn & Hl). rewrite (proj2 (Z.eqb_neq x NULL)) by done.
    rewrite Hn. cbn [mbind option_bind]. destruct (body x st) as [st'|] eqn:E; [|done]. cbn [mbind option_bind].
    apply IH; [done | | lia]. apply (is_list_same (get st)); [|done].
    intros q Hq. apply (Hk _ _ _ _ E). by intros ->.
Qed.
End iteration.

(** Iteration: [arrow_linked_list_for_each] runs its body on the elements in
    order and stops, whenever the body leaves the links alone; the safe variant
    does so even when the body frees or relinks the element it is given. *)
Theorem for_each_in_order {St} (get : St -> heap) (body : Z -> St -> option St) root l st :
  is_list (get st) root l ->
  (keeps_links get body -> for_each (nodes_fuel (get st)) get body root st = fold_opt body l st) /\
  (only_current get body -> for_each_safe (nodes_fuel (get st)) get body root st = fold_opt body l st).
Proof.
  intros H. pose proof (is_list_size _ _ _ H) as Hsz.
  split; intros Hk; [apply for_each_list | apply for_each_safe_list]; done || unfold nodes_fuel; lia.
Qed.

Lemma for_each_in_order_witness :
  for_each_safe (nodes_fuel sample_heap) id (fun p h => _ ← h !! p; Some (delete p h)) 10 sample_heap =
    fold_opt (fun p h => _ ← h !! p; Some (delete p h)) [10; 20] sample_heap.
Proof.
  apply (for_each_in_order id (fun p h => _ ← h !! p; Some (delete p h)) 10 [10; 20] sample_heap).
  - split; [done|]. split; [done|]. exists 20. split; [done|]. split; [done|]. split; [done|]. by exists 0.
  - intros p st st' q E Hq. destruct (st !! p); simplify_eq/=. by rewrite lookup_delete_ne.
Defined.

(** [linked_list_find_node] returns the first element that matches, NULL
    when there is none. *)
Theorem find_node_first h root l func :
  is_list h root l ->
  linked_list_find_node h root func = Some (default NULL (head (filter (fun p => func p = true) l))).
Proof.
  intros H. pose proof (is_list_size _ _ _ H) as Hsz. unfold linked_list_find_node, nodes_fuel.
  assert (Hf : (length l < S (size h))%nat) by lia. revert Hf. generalize (S (size h)). clear Hsz.
  revert root H. induction l as [|x l IH]; intros root H [|fuel] Hf; simpl in Hf; try lia; cbn [find_node].
  - by simpl in H; subst.
  - destruct H as (-> & Hx & n & Hn & Hl). rewrite (proj2 (Z.eqb_neq x NULL)) by done.
    rewrite filter_cons. destruct (func x) eqn:E.
    + by rewrite decide_True.
    + rewrite decide_False by congruence. rewrite Hn. cbn [mbind option_bind]. apply IH; [done | lia].
Qed.

Lemma find_node_first_witness : linked_list_find_node sample_heap 10 (fun p => 15 <? p) = Some 20.
Proof.
  apply (find_node_first sample_heap 10 [10; 20] (fun p => 15 <? p)).
  split; [done|]. split; [done|]. exists 20. split; [done|]. split; [done|]. split; [done|]. by exists 0.
Defined.

End LinkedList.
