(* ===== verification/DLList.v ===== *)
(** src/src/data/dllist.c and dllist.h: the intrusive circular doubly linked
    list. As in LinkedList, an object and its [node] member are one address and
    NULL is 0. The heap holds the [next] and the [prev] field of the live
    nodes. *)
From S2P Require Import Prelude.

Module DLList.

Record dheap := mk_heap { nxt : gmap Z Z; prv : gmap Z Z }.
Definition NULL : Z := 0.

Definition set_next (h : dheap) (p v : Z) : option dheap :=
  _ ← nxt h !! p; Some (mk_heap (<[p := v]> (nxt h)) (prv h)).
Definition set_prev (h : dheap) (p v : Z) : option dheap :=
  _ ← prv h !! p; Some (mk_heap (nxt h) (<[p := v]> (prv h))).

Definition list_add (h : dheap) (n prev next : Z) : option dheap :=
  h ← set_prev h next n;
  h ← set_next h n next;
  h ← set_prev h n prev;
  set_next h prev n.

Definition doubly_linked_list_add (h : dheap) (n head : Z) : option (dheap * Z) :=
  next ← nxt h !! head;
  h ← list_add h n head next;
  Some (h, n).

Definition doubly_linked_list_add_tail (h : dheap) (n head : Z) : option (dheap * Z) :=
  prev ← prv h !! head;
  h ← list_add h n prev head;
  Some (h, head).

Definition doubly_linked_list_del (h : dheap) (el : Z) : option (dheap * Z) :=
  prev ← prv h !! el;
  next ← nxt h !! el;
  h ← set_next h prev next;
  h ← set_prev h next prev;
  h ← set_next h el NULL;
  h ← set_prev h el NULL;
  Some (h, el).

(** ** The macros of dllist.h: the value is the new [head]. *)

Definition single (h : dheap) (el : Z) : option (dheap * Z) :=
  h ← set_prev h el el;
  h ← set_next h el el;
  Some (h, el).

Definition doubly_linked_list_add_node (h : dheap) (head el : Z) : option (dheap * Z) :=
  if head =? NULL then single h el else doubly_linked_list_add h el head.

Definition doubly_linked_list_add_node_tail (h : dheap) (head el : Z) : option (dheap * Z) :=
  if head =? NULL then single h el else doubly_linked_list_add_tail h el head.

Definition doubly_linked_list_del_node (h : dheap) (head el : Z) : option (dheap * Z) :=
  if negb (el =? NULL) then
    head ← (if el =? head then prv h !! head else Some head);
    '(h, _) ← doubly_linked_list_del h el;
    Some (h, head)
  else Some (h, head).

Definition doubly_linked_list_del_node_head (h : dheap) (head : Z) : option (dheap * Z) :=
  if negb (head =? NULL) then
    head_prev ← prv h !! head;
    '(h, _) ← doubly_linked_list_del h head;
    Some (h, head_prev)
  else Some (h, head).

(** [dl_for_each_node] with a body that leaves the heap alone: [base_p] is NULL
    in the first round. *)
Fixpoint for_each_loop {St} (fuel : nat) (h : dheap) (body : Z -> St -> option St)
    (head first base_p p : Z) (st : St) : option St :=
  match fuel with
  | O => None
  | S fuel' =>
      stop ← (if p =? NULL then Some true else hn ← nxt h !! head; Some (base_p =? hn));
      if (stop : bool) then Some st else
      st ← body p st;
      base_p ← (if base_p =? NULL then nxt h !! first else nxt h !! base_p);
      for_each_loop fuel' h body head first base_p base_p st
  end.

Definition dl_for_each_node {St} (h : dheap) (body : Z -> St -> option St) (head : Z) (st : St) : option St :=
  first ← (if head =? NULL then Some NULL else nxt h !! head);
  for_each_loop (S (S (size (nxt h)))) h body head first NULL first st.

(** ** Rings in the heap *)

Definition edge (h : dheap) (a b : Z) : Prop := nxt h !! a = Some b /\ prv h !! b = Some a.

Fixpoint chain (h : dheap) (a : Z) (l : list Z) (b : Z) : Prop :=
  match l with
  | [] => edge h a b
  | y :: l' => edge h a y /\ chain h y l' b
  end.

(** The nodes of [l] form one cycle, in this order. *)
Definition ring (h : dheap) (l : list Z) : Prop :=
  match l with
  | [] => False
  | x :: l' => NoDup l /\ (NULL ∉ l) /\ chain h x l' x
  end.

Definition live (h : dheap) (p : Z) : Prop := is_Some (nxt h !! p) /\ is_Some (prv h !! p).

Lemma chain_app h a l1 y l2 b : chain h a (l1 ++ y :: l2) b <-> chain h a l1 y /\ chain h y l2 b.
Proof. revert a. induction l1 as [|z l1 IH]; intros a; simpl; [done|]. rewrite IH. tauto. Qed.

Lemma chain_frame h h' a l b :
  (forall p, p ∈ a :: l -> nxt h' !! p = nxt h !! p) ->
  (forall p, p ∈ l ++ [b] -> prv h' !! p = prv h !! p) ->
  chain h a l b -> chain h' a l b.
Proof.
  revert a. induction l as [|y l IH]; intros a Hn Hp H; simpl in *.
  - unfold edge in *. rewrite Hn, Hp by apply list_elem_of_here. done.
  - destruct H as [H1 H2]. unfold edge in *. rewrite Hn, Hp by apply list_elem_of_here. split; [done|].
    apply IH; [| | done]; intros p Hin.
    + apply Hn. by apply list_elem_of_further.
    + apply Hp. by apply list_elem_of_further.
Qed.

Lemma ring_rotate h l1 l2 : ring h (l1 ++ l2) -> ring h (l2 ++ l1).
Proof.
  destruct l1 as [|x l1]; [by rewrite app_nil_r|]. destruct l2 as [|y l2]; [by rewrite app_nil_r|].
  intros (Hnd & H0 & H). apply chain_app in H as [H1 H2]. split; [|split].
  - by rewrite Permutation_app_comm.
  - rewrite elem_of_app in *. tauto.
  - change (chain h y (l2 ++ x :: l1) y). by apply chain_app.
Qed.

Lemma ring_live h l p : ring h l -> p ∈ l -> live h p /\ p <> NULL.
Proof.
  intros H Hp. apply list_elem_of_split in Hp as (l1 & l2 & ->). apply ring_rotate in H. simpl in H.
  destruct H as (_ & H0 & H). split; [|by intros ->; apply H0, list_elem_of_here].
  split; [destruct (l2 ++ l1); simpl in H; unfold edge in H; destruct H as [? ?]; [by eexists | by eexists; apply H]|].
  destruct (l2 ++ l1) as [|y l _] using rev_ind; [destruct H; eauto|]. apply chain_app in H as [_ [_ H]]. eauto.
Qed.

(** The link that closes a ring. *)
Lemma ring_close h l x y : ring h (x :: l) -> list.last (x :: l) = Some y -> edge h y x.
Proof.
  intros (_ & _ & H) Hy. destruct l as [|z l _] using rev_ind.
  - simpl in Hy. simplify_eq. done.
  - rewrite app_comm_cons, last_snoc in Hy. simplify_eq. apply chain_app in H as [_ H]. done.
Qed.

Lemma set_next_live h p v : is_Some (nxt h !! p) -> set_next h p v = Some (mk_heap (<[p := v]> (nxt h)) (prv h)).
Proof. intros [n Hn]. unfold set_next. by rewrite Hn. Qed.
Lemma set_prev_live h p v : is_Some (prv h !! p) -> set_prev h p v = Some (mk_heap (nxt h) (<[p := v]> (prv h))).
Proof. intros [n Hn]. unfold set_prev. by rewrite Hn. Qed.

Lemma insert_live (m : gmap Z Z) p v q : is_Some (m !! q) -> is_Some (<[p := v]> m !! q).
Proof. intros H. apply lookup_insert_is_Some. destruct (decide (p = q)); [by left | by right]. Qed.

(** The node [n] goes between the last element of a ring and its first. *)
Lemma list_add_ring h n p q l :
  ring h (q :: l) -> list.last (q :: l) = Some p -> live h n -> n <> NULL -> n ∉ q :: l ->
  exists h', list_add h n p q = Some h' /\ ring h' (n :: q :: l) /\
    (forall z, live h z -> live h' z).
Proof.
  intros H Hp Hn H0 Hin. pose proof H as (Hnd & Hnull & Hc).
  assert (Hpin : p ∈ q :: l) by (by apply last_Some_elem_of in Hp).
  destruct (ring_live h _ q H) as [[Hq1 Hq2] _]; [apply list_elem_of_here|].
  destruct (ring_live h _ p H Hpin) as [[Hp1 Hp2] _]. destruct Hn as [Hn1 Hn2].
  assert (Hnp : n <> p) by congruence. rewrite not_elem_of_cons in Hin. destruct Hin as [Hnq Hnl].
  unfold list_add. rewrite set_prev_live by done. cbn [mbind option_bind].
  rewrite set_next_live by done. cbn [mbind option_bind nxt prv].
  rewrite set_prev_live by by apply insert_live. cbn [mbind option_bind nxt prv].
  rewrite set_next_live by by apply insert_live. cbn [nxt prv].
  eexists. split; [done|]. split.
  - split; [|split].
    + constructor; [|done]. rewrite elem_of_cons. tauto.
    + rewrite elem_of_cons. intros [Heq | Hx]; [by symmetry in Heq | done].
    + split.
      * split; cbn [nxt prv].
        -- rewrite lookup_insert_ne by done. apply lookup_insert_eq.
        -- rewrite lookup_insert_ne by done. apply lookup_insert_eq.
      * destruct l as [|y l _] using rev_ind.
        -- simpl in Hp. simplify_eq. split; cbn [nxt prv]; apply lookup_insert_eq.
        -- rewrite app_comm_cons, last_snoc in Hp. simplify_eq. apply chain_app in Hc as [Hc1 Hc2].
           apply NoDup_cons in Hnd as [Hql Hnd]. apply NoDup_app in Hnd as (Hnd & Hd & _).
           rewrite elem_of_app in Hnl, Hql. apply chain_app. split; [|split; cbn [nxt prv]; apply lookup_insert_eq].
           apply (chain_frame h); [| | done]; intros z Hz; cbn [nxt prv].
           ++ rewrite !lookup_insert_ne; [done | intros -> | intros ->].
              ** apply elem_of_cons in Hz as [-> | Hz]; [done | tauto].
              ** apply elem_of_cons in Hz as [-> | Hz]; [apply Hql; right; apply list_elem_of_here|].
                 by apply (Hd z Hz), list_elem_of_here.
           ++ rewrite !lookup_insert_ne; [done | intros -> | intros ->].
              ** apply Hql. by apply elem_of_app in Hz.
              ** apply Hnl. by apply elem_of_app in Hz.
  - intros z [Hz1 Hz2]. split; cbn [nxt prv]; by repeat apply insert_live.
Qed.

Lemma del_ring h x q l :
  ring h (x :: q :: l) ->
  exists h', doubly_linked_list_del h x = Some (h', x) /\ ring h' (q :: l) /\
    nxt h' !! x = Some NULL /\ prv h' !! x = Some NULL /\ prv h !! x = list.last (q :: l).
Proof.
  intros H. pose proof H as (Hnd & Hnull & [Hxq1 Hxq2] & Hc).
  assert (Hp : exists p, list.last (q :: l) = Some p).
  { destruct (list.last (q :: l)) eqn:E; [eauto|]. by apply last_None in E. }
  destruct Hp as [p Hp]. destruct (ring_close h (q :: l) x p H) as [Hpx1 Hpx2].
  { rewrite last_cons, Hp. done. }
  apply NoDup_cons in Hnd as [Hx Hnd]. rewrite not_elem_of_cons in Hx. destruct Hx as [Hxq Hxl].
  assert (Hpin : p ∈ q :: l) by (by apply last_Some_elem_of in Hp).
  assert (Hxp : x <> p) by (intros ->; apply elem_of_cons in Hpin as [Hpq | Hpl]; done).
  unfold doubly_linked_list_del. rewrite Hpx2, Hxq1. cbn [mbind option_bind].
  rewrite set_next_live by eauto. cbn [mbind option_bind nxt prv].
  rewrite set_prev_live by (cbn [prv]; eauto). cbn [mbind option_bind nxt prv].
  rewrite set_next_live by (cbn [nxt]; rewrite lookup_insert_ne by done; eauto). cbn [mbind option_bind nxt prv].
  rewrite set_prev_live by (cbn [prv]; rewrite lookup_insert_ne by done; eauto). cbn [mbind option_bind nxt prv].
  eexists. split; [done|]. cbn [nxt prv]. split; [|split; [apply lookup_insert_eq | split; [apply lookup_insert_eq | done]]].
  split; [done|]. split; [intros Hin; by apply Hnull, list_elem_of_further|].
  destruct l as [|y l _] using rev_ind.
  - simpl in Hp. simplify_eq. split; cbn [nxt prv]; rewrite lookup_insert_ne by done; apply lookup_insert_eq.
  - rewrite app_comm_cons, last_snoc in Hp. simplify_eq. apply chain_app in Hc as [Hc1 _].
    apply NoDup_cons in Hnd as [Hql Hnd]. apply NoDup_app in Hnd as (Hnd & Hd & _).
    rewrite elem_of_app in Hxl, Hql. apply chain_app. split.
    + apply (chain_frame h); [| | done]; intros z Hz; cbn [nxt prv].
      * rewrite !lookup_insert_ne; [done | intros -> | intros ->].
        -- apply elem_of_cons in Hz as [-> | Hz]; [apply Hql; right; apply list_elem_of_here|].
           by apply (Hd z Hz), list_elem_of_here.
        -- apply elem_of_cons in Hz as [-> | Hz]; [done | tauto].
      * rewrite !lookup_insert_ne; [done | intros -> | intros ->].
        -- apply Hql. by apply elem_of_app in Hz.
        -- apply Hxl. by apply elem_of_app in Hz.
    + split; cbn [nxt prv]; rewrite lookup_insert_ne by done; apply lookup_insert_eq.
Qed.

(** ** Iteration *)

Lemma ring_size h l : ring h l -> (length l <= size (nxt h))%nat.
Proof.
  intros H. assert (Hnd : NoDup l) by (destruct l; [done | apply H]).
  rewrite <- (size_list_to_set (C := gset Z)) by done. rewrite <- size_dom.
  apply subseteq_size. intros x Hx. rewrite elem_of_list_to_set in Hx.
  apply elem_of_dom. by destruct (ring_live h l x H Hx) as [[Hl _] _].
Qed.

Lemma for_each_loop_chain {St} h (body : Z -> St -> option St) head first l : forall fuel a st,
  nxt h !! head = Some first -> first <> NULL -> a <> NULL ->
  chain h a l first -> first ∉ l -> NULL ∉ l -> (length l < fuel)%nat ->
  (n ← nxt h !! a; for_each_loop fuel h body head first n n st) = fold_opt body l st.
Proof.
  induction l as [|y l IH]; intros fuel a st Hh Hf Ha Hc Hin H0 Hfuel; destruct fuel as [|fuel]; simpl in Hfuel; try lia.
  - destruct Hc as [Hn _]. rewrite Hn. cbn [mbind option_bind for_each_loop].
    rewrite (proj2 (Z.eqb_neq first NULL)), Hh by done. cbn [mbind option_bind]. by rewrite Z.eqb_refl.
  - destruct Hc as [[Hn _] Hc]. rewrite Hn. cbn [mbind option_bind for_each_loop].
    rewrite not_elem_of_cons in Hin, H0. destruct Hin as [Hyf Hin], H0 as [Hy0 H0].
    rewrite (proj2 (Z.eqb_neq y NULL)), Hh by done. cbn [mbind option_bind].
    rewrite (proj2 (Z.eqb_neq y first)) by done. cbn [fold_opt].
    destruct (body y st) as [st'|]; [|done]. cbn [mbind option_bind].
    apply IH; done || lia.
Qed.

(** ** Properties *)

(** Insertion: with [head] in front of a ring, the new node goes right after
    [head] and becomes the head, or right before [head], which stays the head;
    with a NULL head it becomes a ring of one. *)
Theorem add_node_spec h l head el :
  live h el -> el <> NULL -> el ∉ head :: l ->
  (ring h (head :: l) ->
     (exists h', doubly_linked_list_add_node h head el = Some (h', el) /\ ring h' (el :: l ++ [head])) /\
     (exists h', doubly_linked_list_add_node_tail h head el = Some (h', head) /\ ring h' (head :: l ++ [el]))) /\
  (exists h', doubly_linked_list_add_node h NULL el = Some (h', el) /\
     doubly_linked_list_add_node_tail h NULL el = Some (h', el) /\ ring h' [el]).
Proof.
  intros Hel H0 Hin. split.
  - intros H. destruct (ring_live h _ head H) as [[[y Hy] _] Hh0]; [apply list_elem_of_here|].
    unfold doubly_linked_list_add_node, doubly_linked_list_add_node_tail.
    rewrite (proj2 (Z.eqb_neq head NULL)) by done. split.
    + unfold doubly_linked_list_add. rewrite Hy. cbn [mbind option_bind].
      assert (Hl : exists l', l ++ [head] = y :: l').
      { destruct H as (_ & _ & Hc). destruct l as [|z l]; simpl in Hc; unfold edge in Hc; [|destruct Hc as [Hc _]];
          destruct Hc as [Hc _]; simplify_eq; by eexists. }
      destruct Hl as [l' Hl']. apply (ring_rotate h [head] l) in H. rewrite Hl' in H.
      destruct (list_add_ring h el head y l') as (h' & -> & Hr & _); try done.
      * by rewrite <- Hl', last_snoc.
      * rewrite <- Hl'. rewrite elem_of_app, list_elem_of_singleton. rewrite elem_of_cons in Hin. tauto.
      * rewrite Hl'. by exists h'.
    + unfold doubly_linked_list_add_tail.
      destruct (list.last (head :: l)) as [p|] eqn:Hp; [|by apply last_None in Hp].
      destruct (ring_close h l head p H Hp) as [_ ->]. cbn [mbind option_bind].
      destruct (list_add_ring h el p head l) as (h' & -> & Hr & _); try done.
      exists h'. split; [done|]. by apply (ring_rotate h' [el] (head :: l)).
  - destruct Hel as [H1 H2]. unfold doubly_linked_list_add_node, doubly_linked_list_add_node_tail, single. simpl.
    rewrite set_prev_live by done. cbn [mbind option_bind]. rewrite set_next_live by done. cbn [mbind option_bind nxt prv].
    eexists. split; [done|]. split; [done|]. split; [apply NoDup_singleton|]. split.
    + rewrite list_elem_of_singleton. congruence.
    + split; cbn [nxt prv]; apply lookup_insert_eq.
Qed.

Definition sample_heap : dheap :=
  mk_heap (<[1 := 2]> (<[2 := 1]> (<[3 := 0]> ∅))) (<[1 := 2]> (<[2 := 1]> (<[3 := 0]> ∅))).

Lemma sample_ring : ring sample_heap [1; 2].
Proof.
  split; [|split].
  - apply NoDup_cons. split; [by rewrite list_elem_of_singleton | apply NoDup_singleton].
  - rewrite !not_elem_of_cons. split; [done|]. split; [done|]. apply not_elem_of_nil.
  - by vm_compute.
Defined.

Lemma add_node_spec_witness :
  exists h', doubly_linked_list_add_node_tail sample_heap 1 3 = Some (h', 1) /\ ring h' [1; 2; 3].
Proof.
  apply (add_node_spec sample_heap [2] 1 3); [| done | | exact sample_ring].
  - by split; eexists.
  - rewrite !not_elem_of_cons. split; [done|]. split; [done|]. apply not_elem_of_nil.
Defined.

(** Deletion: removing the head makes its predecessor the head, removing
    another element leaves the head; the removed node is unlinked. Removing the
    only element leaves [head] pointing at the removed node, whose links are
    NULL, instead of an empty list. *)
Theorem del_node_spec h l head :
  ring h (head :: l) ->
  (forall el l1 l2, l = l1 ++ el :: l2 ->
     exists h', doubly_linked_list_del_node h head el = Some (h', head) /\ ring h' (head :: l1 ++ l2) /\
       nxt h' !! el = Some NULL /\ prv h' !! el = Some NULL) /\
  (forall l1 p, l = l1 ++ [p] ->
     exists h', doubly_linked_list_del_node h head head = Some (h', p) /\
       doubly_linked_list_del_node_head h head = Some (h', p) /\ ring h' (p :: l1)) /\
  (l = [] -> exists h', doubly_linked_list_del_node h head head = Some (h', head) /\
     nxt h' !! head = Some NULL /\ prv h' !! head = Some NULL).
Proof.
  intros H. destruct (ring_live h _ head H) as [_ Hh0]; [apply list_elem_of_here|]. split; [|split].
  - intros el l1 l2 ->. destruct (ring_live h _ el H) as [_ He0]; [apply list_elem_of_further, elem_of_app; right; apply list_elem_of_here|].
    assert (Hne : el <> head).
    { destruct H as (Hnd & _). apply NoDup_cons in Hnd as [Hn _]. intros ->. apply Hn, elem_of_app. right. apply list_elem_of_here. }
    rewrite app_comm_cons in H. apply ring_rotate in H. simpl in H.
    unfold doubly_linked_list_del_node. rewrite (proj2 (Z.eqb_neq el NULL)), (proj2 (Z.eqb_neq el head)) by done.
    cbn [negb mbind option_bind].
    assert (Hl : exists q l', l2 ++ head :: l1 = q :: l') by (destruct l2; by eexists _, _). destruct Hl as (q & l' & Hl).
    rewrite Hl in H. destruct (del_ring h el q l' H) as (h' & -> & Hr & Hn1 & Hn2 & _). cbn [mbind option_bind].
    exists h'. split; [done|]. split; [|done]. rewrite <- Hl in Hr. by apply (ring_rotate h' l2 (head :: l1)).
  - intros l1 p ->.
    assert (Hl : exists q l', l1 ++ [p] = q :: l') by (destruct l1; by eexists _, _). destruct Hl as (q & l' & Hl).
    rewrite Hl in H. destruct (del_ring h head q l' H) as (h' & Hd & Hr & _ & _ & Hp).
    rewrite <- Hl in Hr, Hp. rewrite last_snoc in Hp.
    unfold doubly_linked_list_del_node, doubly_linked_list_del_node_head.
    rewrite (proj2 (Z.eqb_neq head NULL)), Z.eqb_refl by done. cbn [negb]. rewrite Hp, Hd. cbn [mbind option_bind].
    exists h'. split; [done|]. split; [done|]. by apply (ring_rotate h' l1 [p]).
  - intros ->. destruct H as (_ & _ & [H1 H2]).
    unfold doubly_linked_list_del_node, doubly_linked_list_del.
    rewrite (proj2 (Z.eqb_neq head NULL)), Z.eqb_refl by done. cbn [negb]. rewrite H2. cbn [mbind option_bind]. rewrite H1. cbn [mbind option_bind].
    rewrite set_next_live by eauto. cbn [mbind option_bind nxt prv].
    rewrite set_prev_live by (cbn [prv]; eauto). cbn [mbind option_bind nxt prv].
    rewrite set_next_live by (cbn [nxt]; rewrite lookup_insert_eq; eauto). cbn [mbind option_bind nxt prv].
    rewrite set_prev_live by (cbn [prv]; rewrite lookup_insert_eq; eauto). cbn [mbind option_bind nxt prv].
    eexists. split; [done|]. split; apply lookup_insert_eq.
Qed.

Lemma del_node_spec_witness :
  exists h', doubly_linked_list_del_node sample_heap 1 1 = Some (h', 2) /\
    doubly_linked_list_del_node_head sample_heap 1 = Some (h', 2) /\ ring h' [2].
Proof. apply (del_node_spec sample_heap [2] 1 sample_ring). reflexivity. Defined.

(** [dl_for_each_node] visits every element of the ring once, starting with
    the successor of the head and ending with the head. *)
Theorem dl_for_each_node_visits {St} h (body : Z -> St -> option St) head l st :
  ring h (head :: l) -> dl_for_each_node h body head st = fold_opt body (l ++ [head]) st.
Proof.
  intros H. destruct (ring_live h _ head H) as [_ Hh0]; [apply list_elem_of_here|].
  pose proof (ring_size _ _ H) as Hsz. apply (ring_rotate h [head] l) in H.
  unfold dl_for_each_node. rewrite (proj2 (Z.eqb_neq head NULL)) by done.
  assert (Hl : exists y l', l ++ [head] = y :: l') by (destruct l; by eexists _, _). destruct Hl as (y & l' & Hl).
  rewrite Hl in *. destruct H as (Hnd & H0 & Hc).
  assert (Hy : nxt h !! head = Some y).
  { apply (ring_close h l' y head); [done|]. by rewrite <- Hl, last_snoc. }
  rewrite Hy. cbn [mbind option_bind]. apply NoDup_cons in Hnd as [Hyl _]. rewrite not_elem_of_cons in H0. destruct H0 as [Hy0 H0].
  assert (Hlen : length l' = length l) by (apply (f_equal length) in Hl; rewrite length_app in Hl; simpl in Hl; lia).
  simpl in Hsz. assert (Hf : (length l' < S (size (nxt h)))%nat) by lia.
  revert Hf. generalize (S (size (nxt h))). intros f Hf.
  cbn [for_each_loop]. rewrite (proj2 (Z.eqb_neq y NULL)), Hy by congruence. cbn [mbind option_bind].
  rewrite (proj2 (Z.eqb_neq NULL y)) by done. cbn [fold_opt].
  destruct (body y st) as [st'|]; [|done]. cbn [mbind option_bind]. change (NULL =? NULL) with true. cbv iota.
  apply for_each_loop_chain; try done; congruence.
Qed.

Lemma dl_for_each_node_visits_witness :
  dl_for_each_node sample_heap (fun p acc => Some (acc ++ [p])) 1 [] = Some [2; 1].
Proof. apply (dl_for_each_node_visits sample_heap (fun p acc => Some (acc ++ [p])) 1 [2] [] sample_ring). Defined.

End DLList.
