(* ===== verification/Sb.v ===== *)
(** src/src/json/sb.c (configuration without STATIC_JSON): the growing string
    buffer of the JSON code. A buffer is a block from the allocator, the offsets
    [cur] and [end_] in it and whether [start] still points to it: a failed
    reallocation sets [start] to NULL and leaves the other two. *)
From S2P Require Import Prelude.

Module Sb.

Section with_malloc.
Context (malloc : Z -> option (list Z)).

(** [blk = None]: [cur] and [end] are NULL. *)
Record SB := mk_sb { start : bool; blk : option (list Z); cur : Z; end_ : Z }.

Definition sb_null : SB := mk_sb false None 0 0.

Definition sb_size (sb : SB) : Z := if start sb then end_ sb else 0.
Definition sb_space (sb : SB) : Z := end_ sb - cur sb.
Definition sb_is_valid (sb : SB) : bool := start sb.

(** When there is no memory only [start] is assigned. *)
Definition sb_init (sb : SB) : Z * SB :=
  match malloc 17 with
  | None => (-1, mk_sb false (blk sb) (cur sb) (end_ sb))
  | Some m => (0, mk_sb true (Some m) 0 16)
  end.

(** The loop of [sb_grow]; 64 doublings overflow any [size_t]. *)
Fixpoint double_until (fuel : nat) (alloc target : Z) : option Z :=
  match fuel with
  | O => None
  | S fuel' => if 2 * alloc <? target then double_until fuel' (2 * alloc) target else Some (2 * alloc)
  end.

(** [length] and [alloc] are differences with [start]: undefined once it is NULL. *)
Definition sb_grow (sb : SB) (need : Z) : option (Z * SB) :=
  if negb (start sb) then None else
  old ← blk sb;
  let length := cur sb in
  alloc ← double_until 64 (end_ sb) (length + need);
  match malloc (alloc + 1) with
  | None => Some (-1, mk_sb false (blk sb) (cur sb) (end_ sb))
  | Some m => Some (0, mk_sb true (Some (take (List.length m) old ++ drop (List.length old) m)) length alloc)
  end.

Definition sb_need (sb : SB) (need : Z) : option (Z * SB) :=
  if sb_space sb <? need then sb_grow sb need else Some (0, sb).

Definition sb_put (sb : SB) (bytes : list Z) (count : Z) : option (Z * SB) :=
  '(r, sb) ← sb_need sb count;
  if r <? 0 then Some (-1, sb) else
  m ← blk sb;
  src ← rdn bytes 0 count;
  m ← wrn m (cur sb) src;
  Some (count, mk_sb (start sb) (Some m) (cur sb + count) (end_ sb)).

(** [str] is the memory the string starts in, its terminator included. *)
Definition sb_puts (sb : SB) (str : list Z) : option (Z * SB) :=
  n ← strlen str; sb_put sb str (s32 n).

Definition sb_putc (sb : SB) (c : Z) : option SB :=
  sb ← (if end_ sb <=? cur sb then '(_, sb) ← sb_grow sb 1; Some sb else Some sb);
  m ← blk sb;
  m ← wr m (cur sb) c;
  Some (mk_sb (start sb) (Some m) (cur sb + 1) (end_ sb)).

(** The string at [start] up to its terminator, or NULL; assertions are
    compiled out. *)
Definition sb_finish (sb : SB) : option (option (list Z) * SB) :=
  match blk sb with
  | None => Some (None, sb)
  | Some m =>
      m ← wr m (cur sb) 0;
      Some (if start sb then Some m else None, mk_sb (start sb) (Some m) (cur sb) (end_ sb))
  end.

Definition sb_clear (sb : SB) : SB := sb_null.
Definition sb_free (sb : SB) : SB := if start sb then sb_clear sb else sb.

(** ** What a buffer holds *)

(** The allocator as far as the texts of [M] bytes need it: blocks have the size
    asked for, and there is memory for every block of up to [2 * M + 1] bytes. *)
Class SbMalloc (M : Z) := {
  malloc_size n m : malloc n = Some m -> zlen m = n;
  malloc_gives n : 0 <= n <= 2 * M + 1 -> is_Some (malloc n);
  text_bound : 17 <= M <= INT_MAX;
}.

Context (M : Z) `{SbMalloc M}.

(** A valid buffer that holds the bytes [s]: the block has one byte after [end],
    for the terminator. *)
Definition holds (sb : SB) (s : list Z) : Prop :=
  exists rest, sb = mk_sb true (Some (s ++ rest)) (zlen s) (end_ sb) /\
    zlen s <= end_ sb /\ zlen s + zlen rest = end_ sb + 1 /\ 16 <= end_ sb <= 2 * M.

Lemma double_until_spec fuel : forall alloc target,
  0 < alloc -> target < alloc * 2 ^ Z.of_nat (S fuel) ->
  exists k, double_until (S fuel) alloc target = Some k /\ target <= k /\ 2 * alloc <= k /\
    (k = 2 * alloc \/ k < 2 * target).
Proof.
  induction fuel as [|fuel IH]; intros alloc target Ha Ht; rewrite Nat2Z.inj_succ, Z.pow_succ_r in Ht by lia.
  - change (2 ^ Z.of_nat 0) with 1 in Ht. exists (2 * alloc). cbn [double_until].
    destruct (Z.ltb_spec (2 * alloc) target); [lia | repeat split; lia].
  - cbn [double_until] in IH |- *. destruct (Z.ltb_spec (2 * alloc) target); [|exists (2 * alloc); repeat split; lia].
    destruct (IH (2 * alloc) target) as (k & -> & H1 & H2 & H3); [lia | lia|].
    exists k. repeat split; lia.
Qed.

Lemma sb_init_holds sb : exists sb', sb_init sb = (0, sb') /\ holds sb' [].
Proof.
  pose proof text_bound. unfold sb_init. destruct (malloc_gives 17) as [m Hm]; [lia|]. rewrite Hm.
  eexists. split; [done|]. exists m. apply malloc_size in Hm. repeat split; simpl; zl.
Qed.

(** Growing keeps the bytes and makes room. *)
Lemma sb_need_holds sb s n :
  holds sb s -> 0 <= n -> zlen s + n <= M ->
  exists sb', sb_need sb n = Some (0, sb') /\ holds sb' s /\ n <= end_ sb' - zlen s.
Proof.
  pose proof text_bound. unfold INT_MAX in *. intros (rest & E & Hle & Hlen & Hend) Hn HM.
  remember (end_ sb) as e. subst sb. unfold sb_need, sb_space. cbn [end_ cur].
  destruct (Z.ltb_spec (e - zlen s) n) as [Hg | Hg].
  2: { eexists. split; [done|]. split; [|simpl; lia]. by exists rest. }
  unfold sb_grow. cbn [start negb blk cur end_ mbind option_bind].
  destruct (double_until_spec 63 e (zlen s + n)) as (k & -> & H1 & H2 & H3); [lia | |].
  { change (2 ^ Z.of_nat 64) with 18446744073709551616. lia. }
  cbn [mbind option_bind]. destruct (malloc_gives (k + 1)) as [m Hm]; [lia|]. rewrite Hm.
  apply malloc_size in Hm. eexists. split; [done|]. split; [|simpl; lia].
  exists (rest ++ drop (List.length (s ++ rest)) m). cbn [end_].
  rewrite take_ge by zl. rewrite <- app_assoc. split; [done|]. split; [lia|]. split; [|lia]. zl.
Qed.

(** Writing [t] at [cur] and moving [cur] behind it. *)
Lemma holds_write sb s t m :
  holds sb s -> blk sb = Some m -> zlen t <= end_ sb - zlen s ->
  exists m', wrn m (zlen s) t = Some m' /\ holds (mk_sb (start sb) (Some m') (cur sb + zlen t) (end_ sb)) (s ++ t).
Proof.
  intros (rest & E & Hle & Hlen & Hend) Hm Ht. remember (end_ sb) as e. subst sb. cbn in Hm. simplify_eq.
  rewrite wrn_app by zl. eexists. split; [done|]. exists (drop (List.length t) rest). cbn [end_ start cur].
  rewrite <- app_assoc. split; [f_equal; zl|]. split; [zl|]. split; zl.
Qed.

Lemma holds_blk sb s : holds sb s -> exists m, blk sb = Some m.
Proof. intros (rest & E & _). rewrite E. by eexists. Qed.

Lemma holds_fields sb s : holds sb s -> start sb = true /\ cur sb = zlen s /\ zlen s <= end_ sb.
Proof. intros (rest & E & Hle & _). split; [by rewrite E|]. split; [by rewrite E | done]. Qed.

Lemma sb_put_holds sb s t u :
  holds sb s -> zlen s + zlen t <= M ->
  exists sb', sb_put sb (t ++ u) (zlen t) = Some (zlen t, sb') /\ holds sb' (s ++ t).
Proof.
  intros Hh HM. unfold sb_put.
  destruct (sb_need_holds sb s (zlen t) Hh) as (sb1 & -> & Hh1 & Hroom); [zl | done |].
  cbn [mbind option_bind]. if_false. destruct (holds_blk _ _ Hh1) as [m Hm]. rewrite Hm. cbn [mbind option_bind].
  rewrite rdn_app_0 by done. cbn [mbind option_bind].
  destruct (holds_write _ _ t _ Hh1 Hm) as (m' & Hw & Hh2); [done|].
  destruct (holds_fields _ _ Hh1) as (Hs & Hc & _). rewrite Hc in Hh2 |- *. rewrite Hw. cbn [mbind option_bind].
  by eexists.
Qed.

Lemma sb_puts_holds sb s t u :
  holds sb s -> is_cstr t -> zlen s + zlen t <= M ->
  exists sb', sb_puts sb (t ++ 0 :: u) = Some (zlen t, sb') /\ holds sb' (s ++ t).
Proof.
  intros Hh Ht HM. pose proof text_bound. unfold INT_MAX in *. unfold sb_puts.
  rewrite strlen_cstr by done. cbn [mbind option_bind]. rewrite s32_id by zl. by apply sb_put_holds.
Qed.

Lemma sb_putc_holds sb s c :
  holds sb s -> zlen s + 1 <= M -> exists sb', sb_putc sb c = Some sb' /\ holds sb' (s ++ [c]).
Proof.
  intros Hh HM. destruct (holds_fields _ _ Hh) as (Hs & Hc & Hle). unfold sb_putc.
  assert (exists sb1, (if end_ sb <=? cur sb then '(_, sb) ← sb_grow sb 1; Some sb else Some sb) = Some sb1 /\
    holds sb1 s /\ 1 <= end_ sb1 - zlen s) as (sb1 & -> & Hh1 & Hroom).
  { destruct (sb_need_holds sb s 1 Hh) as (sb1 & E & Hh1 & Hroom); [lia | done|]. unfold sb_need, sb_space in E.
    rewrite Hc in *. destruct (Z.leb_spec (end_ sb) (zlen s)).
    - replace (end_ sb - zlen s <? 1) with true in E by (symmetry; apply Z.ltb_lt; lia). rewrite E. by exists sb1.
    - replace (end_ sb - zlen s <? 1) with false in E by (symmetry; apply Z.ltb_ge; lia). simplify_eq. by exists sb1. }
  cbn [mbind option_bind]. destruct (holds_blk _ _ Hh1) as [m Hm]. rewrite Hm. cbn [mbind option_bind].
  destruct (holds_fields _ _ Hh1) as (Hs1 & Hc1 & _).
  destruct Hh1 as (rest & E & Hle1 & Hlen & Hend). remember (end_ sb1) as e. subst sb1. cbn in Hm |- *. simplify_eq.
  destruct rest as [|x rest]; [zl|]. rewrite wr_app by done. cbn [mbind option_bind]. eexists. split; [done|].
  exists rest. cbn [end_]. rewrite <- app_assoc. split; [f_equal; zl|]. split; [zl|]. split; zl.
Qed.

Lemma sb_finish_holds sb s :
  holds sb s -> exists rest sb', sb_finish sb = Some (Some (s ++ 0 :: rest), sb').
Proof.
  intros (rest & E & Hle & Hlen & Hend). remember (end_ sb) as e. subst sb. unfold sb_finish. cbn [blk cur start].
  destruct rest as [|x rest]; [zl|]. rewrite wr_app by done. cbn [mbind option_bind]. by eexists _, _.
Qed.

End with_malloc.

(** ** Properties *)

(** Appending to a buffer that holds [s]: with memory the buffer then holds
    [s ++ t], grown if need be; without, [sb_put] returns -1 and [start] is NULL
    while [cur] and [end] still point into the old block, and every later
    attempt to grow is undefined. *)
Theorem sb_put_spec malloc M sb s t u :
  holds M sb s ->
  (SbMalloc malloc M -> zlen s + zlen t <= M ->
   exists sb', sb_put malloc sb (t ++ u) (zlen t) = Some (zlen t, sb') /\ holds M sb' (s ++ t)) /\
  ((forall n, malloc n = None) -> end_ sb < zlen s + zlen t -> zlen t <= INT_MAX ->
   exists sb', sb_put malloc sb (t ++ u) (zlen t) = Some (-1, sb') /\ start sb' = false /\ blk sb' = blk sb /\
     cur sb' = cur sb /\ end_ sb' = end_ sb /\ forall n, sb_grow malloc sb' n = None).
Proof.
  intros Hh. split; [intros Hm HM; by apply sb_put_holds|]. intros Hno Hend Hint. unfold INT_MAX in *.
  destruct Hh as (rest & E & Hle & Hlen & Hcap). remember (end_ sb) as e. subst sb. unfold sb_put, sb_need, sb_space.
  cbn [end_ cur start blk]. replace (e - zlen s <? zlen t) with true by lia. unfold sb_grow. cbn [start negb blk cur end_ mbind option_bind].
  destruct (double_until_spec 63 e (zlen s + zlen t)) as (k & -> & _); [lia | |].
  { change (2 ^ Z.of_nat 64) with 18446744073709551616. lia. }
  cbn [mbind option_bind]. rewrite Hno. cbn [mbind option_bind]. change (-1 <? 0) with true. cbn match.
  eexists. split; [done|]. done.
Qed.

Lemma sb_put_spec_witness :
  exists sb', sb_put (fun _ => None) (mk_sb true (Some (replicate 17 0)) 0 16) (lit "seventeen letters") 17 = Some (-1, sb') /\
    start sb' = false.
Proof.
  destruct (sb_put_spec (fun _ => None) 100 (mk_sb true (Some (replicate 17 0)) 0 16) [] (lit "seventeen letters") []) as [_ H].
  { exists (replicate 17 0). by vm_compute. }
  destruct H as (sb' & E & Hs & _); [done | by vm_compute | by vm_compute |]. exists sb'. split; [exact E | exact Hs].
Defined.

End Sb.
