(* ===== verification/Property.v ===== *)
(** src/src/data/property.c, property_const.c, property_dynamic.c (STRDUP and
    friends are the C library's: STATIC_DYNAMIC_PROPERTY undefined) and
    property_stack.c, with the type of src/src/json/property_json.c: tagged
    strings that own, borrow or share their bytes.

    The memory maps the address of an object to its bytes and to whether it is
    a heap block; NULL is 0 and values point to the start of their object. The
    allocator is a parameter, constrained to what malloc promises. *)
From S2P Require Import Prelude Sb.

Module Property.

Abbreviation memory := (gmap Z (bool * list Z)).
Definition NULL : Z := 0.

(** [malloc m n]: the address and the bytes of a new block, or NULL. *)
Class Malloc (malloc : memory -> Z -> option (Z * list Z)) := {
  malloc_fresh m n a b : malloc m n = Some (a, b) -> m !! a = None /\ a <> NULL;
  malloc_size m n a b : malloc m n = Some (a, b) -> zlen b = n;
}.

(** enum prop_flags and the tags *)
Definition is_raw : Z := 64.
Definition is_owner : Z := 128.
Definition PROPERTY_BASE_MASK : Z := 63.
Definition PROPERTY_CONST_TAG : Z := 1.
Definition PROPERTY_DYNAMIC_TAG : Z := 2.
Definition PROPERTY_STACK_TAG : Z := 3.
Definition PROPERTY_JSON_TAG : Z := 4.

(** [property_t]; [size] is a uint16_t, [flags] a uint8_t. *)
Record property_t := mk_prop { value : Z; flags : Z; size : Z }.

Definition p_null : property_t := mk_prop NULL 0 0.
Definition flag (p : property_t) (f : Z) : bool := negb (Z.land (flags p) f =? 0).
Definition IS_EMPTY (p : property_t) : bool := value p =? NULL.

(** A handler table of property_base.h is the tag it is registered under. *)
Inductive prop_type := const_property_type | dynamic_property_type | stack_property_type | json_property_type.

Definition prop_index (t : prop_type) : Z :=
  match t with
  | const_property_type => PROPERTY_CONST_TAG
  | dynamic_property_type => PROPERTY_DYNAMIC_TAG
  | stack_property_type => PROPERTY_STACK_TAG
  | json_property_type => PROPERTY_JSON_TAG
  end.

(** The list [prop_disp]. *)
Definition property_type_add (disp : list prop_type) (t : prop_type) : list prop_type := disp ++ [t].
Definition property_types_init (disp : list prop_type) : list prop_type :=
  let disp := property_type_add disp const_property_type in
  let disp := property_type_add disp dynamic_property_type in
  property_type_add disp stack_property_type.
(** The loop removes the last entry until none is left. *)
Fixpoint types_deinit (fuel : nat) (disp : list prop_type) : list prop_type :=
  match fuel, disp with
  | S fuel', _ :: _ => types_deinit fuel' (removelast disp)
  | _, _ => disp
  end.
Definition property_types_deinit (disp : list prop_type) : list prop_type := types_deinit (length disp) disp.

Definition proptypeeq (d : prop_type) (flag : Z) : bool := prop_index d =? Z.land PROPERTY_BASE_MASK flag.

Definition get_property_type (disp : list prop_type) (src : property_t) : option prop_type :=
  head (filter (fun d => proptypeeq d (flags src) = true) disp).

(** ** C library *)

(** The bytes before the terminator. *)
Fixpoint cstr (b : list Z) : option (list Z) :=
  match b with
  | [] => None
  | x :: b' => if x =? 0 then Some [] else s ← cstr b'; Some (x :: s)
  end.

(** The bytes [strndup] copies. *)
Fixpoint cstrn (b : list Z) (n : nat) : option (list Z) :=
  match n, b with
  | O, _ => Some []
  | S n', x :: b' => if x =? 0 then Some [] else s ← cstrn b' n'; Some (x :: s)
  | S n', [] => None
  end.

(** [strcmp(a, b) == 0] *)
Fixpoint strcmp0 (a b : list Z) : option bool :=
  match a, b with
  | x :: a', y :: b' => if x =? y then if x =? 0 then Some true else strcmp0 a' b' else Some false
  | _, _ => None
  end.

Section with_malloc.
Context (malloc : memory -> Z -> option (Z * list Z)).

Definition bytes_at (m : memory) (p : Z) : option (list Z) := '(_, b) ← m !! p; Some b.

Definition mem_free (m : memory) (p : Z) : option memory :=
  if p =? NULL then Some m else
  '(heap, _) ← m !! p;
  if (heap : bool) then Some (delete p m) else None.

(** A new block that holds [s] and a terminator; NULL when there is no memory. *)
Definition dup_bytes (m : memory) (s : list Z) : memory * Z :=
  match malloc m (zlen s + 1) with
  | Some (a, _) => (<[a := (true, s ++ [0])]> m, a)
  | None => (m, NULL)
  end.

Definition strdup (m : memory) (p : Z) : option (memory * Z) :=
  b ← bytes_at m p; s ← cstr b; Some (dup_bytes m s).

Definition strndup (m : memory) (p n : Z) : option (memory * Z) :=
  b ← bytes_at m p; s ← cstrn b (Z.to_nat n); Some (dup_bytes m s).

(** [realloc] of a live block: a new block with the old bytes in front. *)
Definition realloc (m : memory) (p n : Z) : option (memory * Z) :=
  b ← bytes_at m p;
  match malloc m n with
  | Some (a, fresh) =>
      let k := Z.to_nat (Z.min n (zlen b)) in
      m ← mem_free m p;
      Some (<[a := (true, take k b ++ drop k fresh)]> m, a)
  | None => Some (m, NULL)
  end.

(** [dst[i] = v] and [memcpy(dst + i, s, n)] on an object. *)
Definition store_bytes (m : memory) (p i : Z) (s : list Z) : option memory :=
  '(heap, b) ← m !! p;
  b' ← wrn b i s;
  Some (<[p := (heap, b')]> m).

(** ** The handlers: (memory, dst, src) afterwards. *)

Definition const_copy (m : memory) (src : property_t) : memory * property_t :=
  (m, mk_prop (value src) (Z.lor is_owner PROPERTY_CONST_TAG) (size src)).
Definition const_weak (m : memory) (src : property_t) : memory * property_t :=
  (m, mk_prop (value src) PROPERTY_CONST_TAG (size src)).

Definition dynmc_copy (m : memory) (src : property_t) : option (memory * property_t) :=
  if negb (flag src is_owner) then Some (m, mk_prop (value src) (flags src) (size src)) else
  '(m, v) ← (if flag src is_raw then strndup m (value src) (size src) else strdup m (value src));
  Some (m, mk_prop v (Z.lor is_owner PROPERTY_DYNAMIC_TAG) (size src)).
Definition dynmc_weak (m : memory) (src : property_t) : memory * property_t :=
  (m, mk_prop (value src) PROPERTY_DYNAMIC_TAG (size src)).
Definition dynmc_move (src : property_t) : property_t * property_t :=
  if flag src is_owner
  then (mk_prop (value src) (Z.lor PROPERTY_DYNAMIC_TAG is_owner) (size src),
        mk_prop (value src) (Z.land (flags src) (Z.lnot is_owner)) (size src))
  else (mk_prop (value src) PROPERTY_DYNAMIC_TAG (size src), src).
Definition dynmc_destroy (m : memory) (dst : property_t) : option memory :=
  if flag dst is_owner then mem_free m (value dst) else Some m.

Definition owned (src : property_t) : property_t :=
  mk_prop (value src) (Z.lor (flags src) is_owner) (size src).
Definition stack_copy (m : memory) (src : property_t) : option (memory * property_t) := dynmc_copy m (owned src).
Definition stack_weak (m : memory) (src : property_t) : memory * property_t :=
  (m, mk_prop (value src) PROPERTY_STACK_TAG (size src)).

(** ** property_json.c *)

(** [json_strdup]: a string buffer with the bytes and a terminator. The result of
    [sb_init] is not looked at; a reallocation that fails in [sb_puts] returns
    NULL, one that fails in [sb_putc] writes to the old block and returns NULL. *)
Definition json_dup (m : memory) (s : list Z) : option (memory * Z) :=
  '(a, fresh) ← malloc m 17;
  let m := <[a := (true, fresh)]> m in
  '(m, a, end_) ← (if 16 <? zlen s
                   then alloc ← Sb.double_until 64 16 (zlen s); '(m, a) ← realloc m a (alloc + 1); Some (m, a, alloc)
                   else Some (m, a, 16));
  if a =? NULL then Some (m, NULL) else
  m ← store_bytes m a 0 s;
  '(m, a') ← (if end_ <=? zlen s then alloc ← Sb.double_until 64 end_ (zlen s + 1); realloc m a (alloc + 1) else Some (m, a));
  m ← store_bytes m (if a' =? NULL then a else a') (zlen s) [0];
  Some (m, a').
Definition json_strdup (m : memory) (p : Z) : option (memory * Z) := b ← bytes_at m p; s ← cstr b; json_dup m s.

(** [json_delete_string] through a string buffer whose [start] is the string. *)
Definition json_delete_string (m : memory) (p : Z) : option memory := mem_free m p.

Definition json_copy (m : memory) (src : property_t) : option (memory * property_t) :=
  '(m, v) ← json_strdup m (value src);
  Some (m, mk_prop v (Z.lor is_owner PROPERTY_JSON_TAG) (size src)).
Definition json_weak (m : memory) (src : property_t) : memory * property_t :=
  (m, mk_prop (value src) PROPERTY_JSON_TAG (size src)).
Definition json_move (src : property_t) : property_t * property_t :=
  if flag src is_owner
  then (mk_prop (value src) (Z.lor PROPERTY_JSON_TAG is_owner) (size src),
        mk_prop (value src) (Z.land (flags src) (Z.lnot is_owner)) (size src))
  else (mk_prop (value src) PROPERTY_JSON_TAG (size src), src).
Definition json_destroy (m : memory) (dst : property_t) : option memory := json_delete_string m (value dst).

(** [p_json] of a string. *)
Definition p_json (m : memory) (p : Z) : option property_t :=
  b ← bytes_at m p; n ← strlen b; Some (mk_prop p (Z.lor PROPERTY_JSON_TAG is_owner) (u16 n)).

Definition json_strdup_property (m : memory) (p : Z) : option (memory * property_t) :=
  '(m, tmp) ← json_strdup m p;
  if tmp =? NULL then Some (m, p_null) else q ← p_json m tmp; Some (m, q).

(** [strlen] of a value or the size of a raw one. *)
Definition text_len (m : memory) (p : property_t) : option Z :=
  if flag p is_raw then Some (size p) else b ← bytes_at m (value p); strlen b.

Definition dynmc_concat (m : memory) (dst src : property_t) : option (memory * property_t) :=
  if negb (flag dst is_owner) then Some (m, dst) else
  size_dst ← text_len m dst;
  size_src ← text_len m src;
  '(m, v) ← realloc m (value dst) (size_src + size_dst + 1);
  let dst := mk_prop v (flags dst) (size dst) in
  if v =? NULL then m ← dynmc_destroy m dst; Some (m, dst) else
  b ← bytes_at m (value src);
  s ← rdn b 0 size_src;
  m ← store_bytes m v size_dst s;
  m ← store_bytes m v (size_dst + size_src + 1) [0];
  Some (m, dst).

(** ** property.c *)

Context (disp : list prop_type).

(** The structure [src] is passed by value; [dst] is overwritten. *)
Definition property_copy (m : memory) (src : property_t) : option (memory * property_t) :=
  match get_property_type disp src with
  | Some const_property_type => Some (const_copy m src)
  | Some dynamic_property_type => dynmc_copy m src
  | Some stack_property_type => stack_copy m src
  | Some json_property_type => json_copy m src
  | None => Some (m, p_null)
  end.

Definition property_weak_copy (m : memory) (src : property_t) : memory * property_t :=
  match get_property_type disp src with
  | Some const_property_type => const_weak m src
  | Some dynamic_property_type => dynmc_weak m src
  | Some stack_property_type => stack_weak m src
  | Some json_property_type => json_weak m src
  | None => (m, p_null)
  end.

(** Returns (memory, dst). *)
Definition property_free (m : memory) (dst : property_t) : option (memory * property_t) :=
  m ← (if flag dst is_owner then
         match get_property_type disp dst with
         | Some dynamic_property_type => dynmc_destroy m dst
         | Some json_property_type => json_destroy m dst
         | _ => Some m
         end
       else Some m);
  Some (m, p_null).

(** Returns (memory, dst, src). *)
Definition property_move (m : memory) (dst src : property_t) : option (memory * property_t * property_t) :=
  match get_property_type disp src with
  | Some const_property_type =>
      let '(m, dst) := const_copy m src in '(m, src) ← property_free m src; Some (m, dst, src)
  | Some dynamic_property_type =>
      let '(dst, src) := dynmc_move src in '(m, src) ← property_free m src; Some (m, dst, src)
  | Some stack_property_type =>
      '(m, dst) ← stack_copy m src; '(m, src) ← property_free m (owned src); Some (m, dst, src)
  | Some json_property_type =>
      let '(dst, src) := json_move src in '(m, src) ← property_free m src; Some (m, dst, src)
  | None => Some (m, dst, src)
  end.

Definition property_size (m : memory) (src : property_t) : option Z :=
  if negb (size src =? 0) then Some (size src)
  else if negb (value src =? NULL) then b ← bytes_at m (value src); strlen b
  else Some 0.

Definition property_as_null_terminated (m : memory) (src : property_t) : option (memory * property_t) :=
  if flag src is_raw then
    '(m, v) ← (match malloc m (size src + 1) with
               | Some (a, b) => Some (<[a := (true, b)]> m, a)
               | None => None
               end);
    b ← bytes_at m (value src);
    s ← rdn b 0 (size src);
    m ← store_bytes m v 0 s;
    m ← store_bytes m v (size src) [0];
    Some (m, mk_prop v (Z.lor 0 (Z.lor is_owner PROPERTY_DYNAMIC_TAG)) (size src))
  else Some (property_weak_copy m src).

(** Returns (rc, memory, src1). *)
Definition property_concat (m : memory) (src1 src2 : property_t) : option (Z * memory * property_t) :=
  if IS_EMPTY src2 then Some (-1, m, src1) else
  if IS_EMPTY src1 then '(m, p) ← property_copy m src2; Some (0, m, p) else
  '(m, p) ← dynmc_concat m src1 src2;
  Some (0, m, p).

(** 0 when equal, -1 otherwise. *)
Definition property_cmp (m : memory) (src dst : property_t) : option Z :=
  a ← bytes_at m (value src);
  if flag src is_raw then
    if negb (size src =? size dst) then Some (-1) else
    b ← bytes_at m (value dst);
    e ← strncmp0 a b (Z.to_nat (size src));
    Some (if (e : bool) then 0 else -1)
  else
    b ← bytes_at m (value dst);
    e ← strcmp0 a b;
    Some (if (e : bool) then 0 else -1).
End with_malloc.

(** ** What a property says *)

(** The text of a property: its [size] bytes when raw, its C string otherwise. *)
Definition prop_text (m : memory) (p : property_t) : option (list Z) :=
  b ← bytes_at m (value p);
  if flag p is_raw then rdn b 0 (size p) else cstr b.

(** The registry after start-up. *)
Definition types : list prop_type := property_types_init [].

Definition prop_tag (p : property_t) : Z := Z.land PROPERTY_BASE_MASK (flags p).

Lemma get_property_type_tag p :
  get_property_type types p =
    if prop_tag p =? 1 then Some const_property_type
    else if prop_tag p =? 2 then Some dynamic_property_type
    else if prop_tag p =? 3 then Some stack_property_type else None.
Proof.
  unfold get_property_type, types, property_types_init, property_type_add, proptypeeq. fold (prop_tag p).
  cbn [app]. rewrite !filter_cons, filter_nil. cbn [prop_index].
  unfold PROPERTY_CONST_TAG, PROPERTY_DYNAMIC_TAG, PROPERTY_STACK_TAG.
  rewrite !(Z.eqb_sym _ (prop_tag p)).
  destruct (prop_tag p =? 1) eqn:E1; [done|]. destruct (prop_tag p =? 2) eqn:E2; [done|].
  by destruct (prop_tag p =? 3).
Qed.

Lemma cstr_app s r : is_cstr s -> cstr (s ++ 0 :: r) = Some s.
Proof.
  induction 1 as [|x s Hx Hs IH]; [done|]. cbn [app cstr]. if_false. by rewrite IH.
Qed.

Lemma cstr_Some b s : cstr b = Some s -> exists r, b = s ++ 0 :: r.
Proof.
  revert s. induction b as [|x b IH]; intros s H; [done|]. cbn [cstr] in H.
  destruct (Z.eqb_spec x 0) as [-> | Hx]; [simplify_eq; by exists b|].
  destruct (cstr b) as [s'|]; [|done]. cbn [mbind option_bind] in H. simplify_eq.
  destruct (IH s' eq_refl) as [r ->]. by exists r.
Qed.

Lemma cstr_strlen b s : cstr b = Some s -> strlen b = Some (zlen s).
Proof.
  revert s. induction b as [|x b IH]; intros s H; [done|]. cbn [cstr strlen] in *.
  destruct (Z.eqb_spec x 0) as [-> | Hx]; [by simplify_eq|].
  destruct (cstr b) as [s'|]; [|done]. cbn [mbind option_bind] in H. simplify_eq.
  rewrite (IH s') by done. cbn [mbind option_bind]. by rewrite zlen_cons.
Qed.

Lemma cstrn_take b n : (n <= length b)%nat -> is_cstr (take n b) -> cstrn b n = Some (take n b).
Proof.
  revert b. induction n as [|n IH]; intros [|x b] Hn Hs; simpl in Hn; try done; [lia|].
  cbn [take] in Hs. apply Forall_cons in Hs as [Hx Hs]. cbn [cstrn take]. if_false.
  rewrite IH by (done || lia). done.
Qed.

Lemma cstrn_text b n s : rdn b 0 n = Some s -> is_cstr s -> cstrn b (Z.to_nat n) = Some s.
Proof.
  intros [-> Hn]%rdn_0_inv Hs. apply cstrn_take; [zl | done].
Qed.

Lemma strcmp0_text a b s t :
  cstr a = Some s -> cstr b = Some t -> strcmp0 a b = Some (bool_decide (s = t)).
Proof.
  revert b s t. induction a as [|x a IH]; intros [|y b] s t Ha Hb; try done. cbn [cstr strcmp0] in *.
  destruct (Z.eqb_spec x y) as [-> | Hne].
  - destruct (y =? 0); [simplify_eq; f_equal; symmetry; by apply bool_decide_eq_true|].
    destruct (cstr a) as [s'|] eqn:Ea; [|done]. destruct (cstr b) as [t'|] eqn:Eb; [|done].
    cbn [mbind option_bind] in *. simplify_eq. rewrite (IH b s' t') by done. f_equal.
    apply bool_decide_ext. split; [by intros -> | congruence].
  - f_equal. symmetry. apply bool_decide_eq_false. intros ->.
    destruct (Z.eqb_spec x 0) as [Hx | Hx], (Z.eqb_spec y 0) as [Hy | Hy].
    + congruence.
    + destruct (cstr b); cbn [mbind option_bind] in Hb; congruence.
    + destruct (cstr a); cbn [mbind option_bind] in Ha; congruence.
    + destruct (cstr a), (cstr b); cbn [mbind option_bind] in Ha, Hb; congruence.
Qed.

(** ** Lemmas on the operations *)

Section lemmas.
Context (malloc : memory -> Z -> option (Z * list Z)) `{Hmalloc : !Malloc malloc}.

Lemma dup_bytes_spec m s m' v :
  dup_bytes malloc m s = (m', v) ->
  (v = NULL /\ m' = m) \/ (v <> NULL /\ m !! v = None /\ m' = <[v := (true, s ++ [0])]> m).
Proof.
  unfold dup_bytes. destruct (malloc m (zlen s + 1)) as [[a b]|] eqn:E; intros H; simplify_eq; [right | by left].
  destruct (malloc_fresh _ _ _ _ E). done.
Qed.

Lemma bytes_at_insert m a h b : bytes_at (<[a := (h, b)]> m) a = Some b.
Proof. unfold bytes_at. by rewrite lookup_insert_eq. Qed.

Lemma store_bytes_insert m a h b i s :
  store_bytes (<[a := (h, b)]> m) a i s = (b' ← wrn b i s; Some (<[a := (h, b')]> m)).
Proof.
  unfold store_bytes. rewrite lookup_insert_eq. cbn [mbind option_bind]. destruct (wrn b i s); [|done].
  cbn [mbind option_bind]. by rewrite insert_insert_eq.
Qed.

Lemma bytes_at_None m a : m !! a = None -> bytes_at m a = None.
Proof. unfold bytes_at. by intros ->. Qed.

Lemma dynmc_copy_owner m src s :
  flag src is_owner = true -> prop_text m src = Some s -> is_cstr s ->
  dynmc_copy malloc m src =
    let '(m', v) := dup_bytes malloc m s in
    Some (m', mk_prop v (Z.lor is_owner PROPERTY_DYNAMIC_TAG) (size src)).
Proof.
  unfold dynmc_copy, prop_text, strndup, strdup. intros -> Ht Hs. cbn [negb].
  destruct (bytes_at m (value src)) as [b|]; [|done]. cbn [mbind option_bind] in *.
  destruct (flag src is_raw).
  - rewrite (cstrn_text b _ s) by done. cbn [mbind option_bind]. by destruct (dup_bytes malloc m s).
  - rewrite Ht. cbn [mbind option_bind]. by destruct (dup_bytes malloc m s).
Qed.
End lemmas.

Lemma owned_flags p : is_byte (flags p) ->
  flag (owned p) is_owner = true /\ flag (owned p) is_raw = flag p is_raw.
Proof.
  intros Hb. unfold flag, owned. cbn [flags].
  assert (H : forallb (fun f => negb (Z.land (Z.lor f 128) 128 =? 0) &&
    Bool.eqb (negb (Z.land (Z.lor f 128) 64 =? 0)) (negb (Z.land f 64 =? 0))) (seqZ 0 256) = true) by by vm_compute.
  pose proof (forall_byte _ H _ Hb) as H'. cbv beta in H'. rewrite andb_true_iff, eqb_true_iff in H'. done.
Qed.

Lemma prop_text_owned m p : is_byte (flags p) -> prop_text m (owned p) = prop_text m p.
Proof. intros Hb. unfold prop_text. destruct (owned_flags p Hb) as [_ ->]. done. Qed.

Section properties.
Context (malloc : memory -> Z -> option (Z * list Z)) `{Hmalloc : !Malloc malloc}.

(** A copy with a block of its own: it says [s], nothing else changed, and
    freeing it gives the memory back. *)
Definition fresh_copy (m m' : memory) (dst : property_t) (s : list Z) : Prop :=
  prop_text m' dst = Some s /\ m !! value dst = None /\ m' = <[value dst := (true, s ++ [0])]> m /\
  property_free types m' dst = Some (m, p_null).

Lemma dup_fresh_copy m s m' v sz :
  is_cstr s -> dup_bytes malloc m s = (m', v) ->
  let dst := mk_prop v (Z.lor is_owner PROPERTY_DYNAMIC_TAG) sz in
  (v = NULL /\ m' = m) \/ fresh_copy m m' dst s.
Proof.
  intros Hs H dst. destruct (dup_bytes_spec malloc m s m' v H) as [Hl | (Hv & Hm & ->)]; [by left | right].
  split; [|split; [done | split; [done|]]].
  - unfold prop_text. cbn [value dst]. rewrite bytes_at_insert. cbn [mbind option_bind].
    change (flag dst is_raw) with false. cbv iota. by apply cstr_app.
  - unfold property_free. change (flag dst is_owner) with true. cbv iota.
    rewrite get_property_type_tag. change (prop_tag dst) with 2. cbn.
    unfold dynmc_destroy. change (flag dst is_owner) with true. cbv iota. unfold mem_free. cbn [value dst].
    rewrite (proj2 (Z.eqb_neq v NULL)), lookup_insert_eq by done. cbn [mbind option_bind].
    by rewrite delete_insert_eq, delete_id.
Qed.

(** Copying: a constant is shared, a borrowed dynamic string stays
    borrowed, and an owned dynamic string or a stack string is duplicated into
    a fresh block with the same text (or NULL without memory); in every case
    the rest of the memory is untouched and freeing the copy restores it. *)
Theorem property_copy_spec m src s :
  is_byte (flags src) -> prop_text m src = Some s -> is_cstr s ->
  (prop_tag src = PROPERTY_CONST_TAG -> flag src is_raw = false ->
     exists dst, property_copy malloc types m src = Some (m, dst) /\ prop_text m dst = Some s /\
       value dst = value src /\ property_free types m dst = Some (m, p_null)) /\
  (prop_tag src = PROPERTY_DYNAMIC_TAG -> flag src is_owner = false ->
     exists dst, property_copy malloc types m src = Some (m, dst) /\ prop_text m dst = Some s /\
       value dst = value src /\ property_free types m dst = Some (m, p_null)) /\
  (prop_tag src = PROPERTY_DYNAMIC_TAG /\ flag src is_owner = true \/ prop_tag src = PROPERTY_STACK_TAG ->
     exists m' dst, property_copy malloc types m src = Some (m', dst) /\
       (value dst = NULL /\ m' = m \/ fresh_copy m m' dst s)).
Proof.
  intros Hb Ht Hs. unfold property_copy. rewrite get_property_type_tag. split; [|split].
  - intros -> Hraw. eexists. split; [done|]. split; [|by split].
    unfold prop_text in *. rewrite Hraw in Ht. exact Ht.
  - intros -> Hown. cbn [Z.eqb PROPERTY_DYNAMIC_TAG]. simpl. unfold dynmc_copy. rewrite Hown. cbn [negb].
    eexists. split; [done|]. split; [by destruct src|]. split; [done|].
    unfold property_free. replace (flag _ is_owner) with false by (by destruct src). done.
  - intros Hcase.
    assert (exists src', flag src' is_owner = true /\ prop_text m src' = Some s /\
      (if prop_tag src =? 1 then Some (const_copy m src) else if prop_tag src =? 2 then dynmc_copy malloc m src
       else if prop_tag src =? 3 then stack_copy malloc m src else Some (m, p_null)) = dynmc_copy malloc m src')
      as (src' & Ho & Ht' & E).
    { destruct Hcase as [[-> Ho] | ->]; [by exists src | exists (owned src)].
      split; [by apply owned_flags|]. split; [by rewrite prop_text_owned | done]. }
    assert (E' : match (if prop_tag src =? 1 then Some const_property_type else if prop_tag src =? 2
      then Some dynamic_property_type else if prop_tag src =? 3 then Some stack_property_type else None) with
      | Some const_property_type => Some (const_copy m src) | Some dynamic_property_type => dynmc_copy malloc m src
      | Some stack_property_type => stack_copy malloc m src | Some json_property_type => json_copy malloc m src
      | None => Some (m, p_null) end = dynmc_copy malloc m src')
      by (rewrite <- E; by destruct (prop_tag src =? 1), (prop_tag src =? 2), (prop_tag src =? 3)).
    rewrite E', (dynmc_copy_owner malloc m src' s Ho Ht' Hs).
    destruct (dup_bytes malloc m s) as [m' v] eqn:Hd. eexists _, _. split; [done|]. cbn [value].
    by apply dup_fresh_copy.
Qed.

(** Moving an owned dynamic string transfers its block: the destination
    says the text and owns it, the source is empty, no byte of memory changes,
    and the block is released exactly when the destination is freed. *)
Theorem property_move_spec m dst0 src s :
  is_byte (flags src) -> prop_tag src = PROPERTY_DYNAMIC_TAG -> flag src is_owner = true ->
  flag src is_raw = false -> prop_text m src = Some s ->
  exists dst, property_move malloc types m dst0 src = Some (m, dst, p_null) /\
    prop_text m dst = Some s /\ value dst = value src /\
    (value src <> NULL -> fst <$> m !! value src = Some true ->
     property_free types m dst = Some (delete (value src) m, p_null)).
Proof.
  intros Hb Htag Ho Hraw Ht. unfold property_move. rewrite get_property_type_tag, Htag. cbn [Z.eqb PROPERTY_DYNAMIC_TAG Pos.eqb].
  unfold dynmc_move. rewrite Ho. eexists.
  assert (Hfree : property_free types m (mk_prop (value src) (Z.land (flags src) (Z.lnot is_owner)) (size src)) =
    Some (m, p_null)).
  { unfold property_free. replace (flag _ is_owner) with false; [done|]. symmetry. unfold flag. cbn [flags].
    assert (H : forallb (fun f => Z.land (Z.land f (Z.lnot 128)) 128 =? 0) (seqZ 0 256) = true) by by vm_compute.
    pose proof (forall_byte _ H _ Hb) as H'. cbv beta in H'. unfold is_owner. by rewrite H'. }
  rewrite Hfree. cbn [mbind option_bind]. split; [done|]. split; [|split; [done|]].
  - unfold prop_text in *. rewrite Hraw in Ht. exact Ht.
  - intros Hv Hheap. unfold property_free. change (flag _ is_owner) with true. cbv iota.
    rewrite get_property_type_tag. change (prop_tag _) with 2. cbn [Z.eqb Pos.eqb].
    unfold dynmc_destroy. change (flag _ is_owner) with true. cbv iota. unfold mem_free. cbn [value].
    rewrite (proj2 (Z.eqb_neq _ NULL)) by done. destruct (m !! value src) as [[h b]|]; [|done].
    cbn in Hheap. simplify_eq. done.
Qed.

(** Whatever the lengths are, the terminator goes one byte past the new block. *)
Lemma dynmc_concat_stuck m dst src a b :
  flag dst is_owner = true -> text_len m dst = Some a -> text_len m src = Some b -> 0 <= a -> 0 <= b ->
  fst <$> m !! value dst = Some true -> value dst <> NULL ->
  malloc m (b + a + 1) <> None -> dynmc_concat malloc m dst src = None.
Proof.
  intros Ho Ha Hb Ha0 Hb0 Hheap H0 Hmem. unfold dynmc_concat. rewrite Ho, Ha, Hb. cbn [negb mbind option_bind]. unfold realloc.
  destruct (bytes_at m (value dst)) as [bd|] eqn:Ed; [|done]. cbn [mbind option_bind].
  destruct (malloc m (b + a + 1)) as [[p fr]|] eqn:Em; [|done]. destruct (malloc_fresh _ _ _ _ Em) as [Hp Hp0]. pose proof (malloc_size _ _ _ _ Em) as Hsz.
  unfold mem_free. rewrite (proj2 (Z.eqb_neq (value dst) NULL)) by done. destruct (m !! value dst) as [[h x]|] eqn:Ev; [|done]. cbn in Hheap. simplify_eq.
  cbn [mbind option_bind value]. rewrite (proj2 (Z.eqb_neq p NULL)) by done.
  destruct (bytes_at _ (value src)) as [bs|]; [|done]. cbn [mbind option_bind]. destruct (rdn bs 0 b) as [s'|]; [|done]. cbn [mbind option_bind].
  rewrite store_bytes_insert. destruct (wrn _ a s') as [b'|] eqn:Ew; [|done]. cbn [mbind option_bind].
  rewrite store_bytes_insert. apply wrn_length in Ew. rewrite (proj2 (wrn_None _ _ _)); [done|]. right. change (zlen [0]) with 1.
  assert (Hb' : zlen b' = b + a + 1); [|lia]. unfold zlen at 1. rewrite Ew, length_app, length_take, length_drop. revert Hsz. clear -Ha0 Hb0. intros. zl.
Qed.

(** Concatenation: appending to an owned dynamic string reallocates room
    for the two texts and one terminator, and then stores the terminator one
    byte past that room; whenever the memory suffices this is out of bounds. *)
Theorem dynmc_concat_overflow m dst src s t :
  flag dst is_owner = true -> flag dst is_raw = false -> flag src is_raw = false ->
  prop_text m dst = Some s -> prop_text m src = Some t -> value dst <> value src ->
  fst <$> m !! value dst = Some true -> value dst <> NULL ->
  malloc m (zlen t + zlen s + 1) <> None ->
  dynmc_concat malloc m dst src = None.
Proof.
  intros Ho Hr1 Hr2 Hs Ht Hne Hheap H0 Hmem. unfold prop_text in Hs, Ht. rewrite Hr1 in Hs. rewrite Hr2 in Ht.
  apply (dynmc_concat_stuck m dst src (zlen s) (zlen t)); try done; try apply zlen_nonneg; unfold text_len; rewrite ?Hr1, ?Hr2.
  - destruct (bytes_at m (value dst)); [|done]. by apply cstr_strlen.
  - destruct (bytes_at m (value src)); [|done]. by apply cstr_strlen.
Qed.

(** Comparison: on texts, [property_cmp] is equality, with 0 for equal; a
    raw left operand also compares the sizes. *)
Theorem property_cmp_spec m p q s t :
  prop_text m p = Some s -> prop_text m q = Some t -> flag q is_raw = false ->
  (flag p is_raw = false -> property_cmp m p q = Some (if bool_decide (s = t) then 0 else -1)) /\
  (flag p is_raw = true -> is_cstr t -> size q = zlen t ->
     property_cmp m p q = Some (if bool_decide (s = t) then 0 else -1)).
Proof.
  unfold prop_text, property_cmp. intros Hs Ht Hq. rewrite Hq in Ht.
  destruct (bytes_at m (value p)) as [a|]; [|done]. destruct (bytes_at m (value q)) as [b|]; [|done].
  cbn [mbind option_bind] in *. split.
  - intros Hp. rewrite Hp in *. rewrite (strcmp0_text a b s t) by done. done.
  - intros Hp Hct Hsz. rewrite Hp in *. pose proof (rdn_length _ _ _ _ Hs) as Hl.
    destruct (Z.eqb_spec (size p) (size q)) as [E | E]; cbn [negb].
    + destruct (cstr_Some b t Ht) as [r ->]. apply rdn_0_inv in Hs as [-> Hr].
      rewrite strncmp0_cstr; [done | done | zl | zl].
    + rewrite bool_decide_eq_false_2; [done|]. intros ->. lia.
Qed.

(** [property_as_null_terminated] of raw bytes is an owned string with the
    same bytes followed by a terminator. *)
Theorem property_as_null_terminated_spec m p s :
  flag p is_raw = true -> prop_text m p = Some s -> is_cstr s -> malloc m (size p + 1) <> None ->
  exists m' dst, property_as_null_terminated malloc types m p = Some (m', dst) /\ prop_text m' dst = Some s /\
    flag dst is_owner = true /\ m !! value dst = None /\ delete (value dst) m' = m.
Proof.
  intros Hr Ht Hs Hmem. unfold property_as_null_terminated, prop_text in *. rewrite Hr in *.
  destruct (malloc m (size p + 1)) as [[a fr]|] eqn:Em; [|done]. cbn [mbind option_bind].
  destruct (malloc_fresh _ _ _ _ Em) as [Ha Ha0]. pose proof (malloc_size _ _ _ _ Em) as Hsz.
  destruct (bytes_at m (value p)) as [b|] eqn:Eb; [|done]. cbn [mbind option_bind] in Ht.
  assert (Hb : bytes_at (<[a := (true, fr)]> m) (value p) = Some b).
  { unfold bytes_at in *. rewrite lookup_insert_ne; [done|]. intros ->. by rewrite Ha in Eb. }
  rewrite Hb. cbn [mbind option_bind]. rewrite Ht. cbn [mbind option_bind].
  pose proof (rdn_length _ _ _ _ Ht) as Hl. rewrite store_bytes_insert.
  destruct (split_at fr (size p)) as (f1 & f2 & -> & Hf1); [pose proof (zlen_nonneg s); lia|].
  rewrite zlen_app in Hsz. destruct f2 as [|x [|y f2]]; [zl | | zl].
  rewrite wrn_app_0 by lia. cbn [mbind option_bind]. rewrite store_bytes_insert.
  rewrite (wrn_app_split s [0] [x] []) by (done || lia). cbn [mbind option_bind].
  eexists _, _. split; [done|]. change (flag _ is_raw) with false. cbv iota. cbn [value]. rewrite bytes_at_insert.
  cbn [mbind option_bind]. split; [by apply cstr_app|]. split; [done|]. split; [done|]. by rewrite delete_insert_eq, delete_id.
Qed.
End properties.

(** ** An allocator, and the witnesses *)

Definition bump_malloc (m : memory) (n : Z) : option (Z * list Z) :=
  if n <? 0 then None else Some (fresh (dom m ∪ {[NULL]}), replicate (Z.to_nat n) 0).

#[export] Instance bump_malloc_ok : Malloc bump_malloc.
Proof.
  split; unfold bump_malloc; intros m n a b H; destruct (Z.ltb_spec n 0); simplify_eq.
  - pose proof (is_fresh (dom m ∪ {[NULL]})) as Hf. rewrite not_elem_of_union, not_elem_of_dom, not_elem_of_singleton in Hf. done.
  - zl.
Defined.

Definition sample_mem : memory := <[1 := (true, lit "id" ++ [0])]> (<[2 := (false, lit "x9" ++ [0])]> ∅).
Definition sample_dyn : property_t := mk_prop 1 (Z.lor is_owner PROPERTY_DYNAMIC_TAG) 2.
Definition sample_stack : property_t := mk_prop 2 (Z.lor is_owner PROPERTY_STACK_TAG) 2.

Lemma property_copy_spec_witness :
  exists m' dst, property_copy bump_malloc types sample_mem sample_stack = Some (m', dst) /\
    (value dst = NULL /\ m' = sample_mem \/ fresh_copy sample_mem m' dst (lit "x9")).
Proof.
  apply (property_copy_spec bump_malloc sample_mem sample_stack (lit "x9"));
    [by vm_compute | reflexivity | repeat constructor; done | by right].
Defined.

Lemma property_move_spec_witness :
  exists dst, property_move bump_malloc types sample_mem p_null sample_dyn = Some (sample_mem, dst, p_null) /\
    prop_text sample_mem dst = Some (lit "id") /\ value dst = value sample_dyn /\
    (value sample_dyn <> NULL -> fst <$> sample_mem !! value sample_dyn = Some true ->
     property_free types sample_mem dst = Some (delete (value sample_dyn) sample_mem, p_null)).
Proof.
  apply (property_move_spec bump_malloc sample_mem p_null sample_dyn (lit "id")); try reflexivity. by vm_compute.
Defined.

Lemma dynmc_concat_overflow_witness : dynmc_concat bump_malloc sample_mem sample_dyn sample_stack = None.
Proof.
  apply (dynmc_concat_overflow bump_malloc sample_mem sample_dyn sample_stack (lit "id") (lit "x9"));
    try reflexivity; done.
Defined.

Lemma property_cmp_spec_witness : property_cmp sample_mem sample_dyn sample_stack = Some (-1).
Proof.
  exact (proj1 (property_cmp_spec sample_mem sample_dyn sample_stack (lit "id") (lit "x9") eq_refl eq_refl eq_refl) eq_refl).
Defined.

Lemma property_as_null_terminated_spec_witness :
  exists m' dst, property_as_null_terminated bump_malloc types sample_mem (mk_prop 2 (Z.lor is_raw PROPERTY_STACK_TAG) 1)
      = Some (m', dst) /\ prop_text m' dst = Some (lit "x") /\
    flag dst is_owner = true /\ sample_mem !! value dst = None /\ delete (value dst) m' = sample_mem.
Proof.
  apply (property_as_null_terminated_spec bump_malloc sample_mem (mk_prop 2 (Z.lor is_raw PROPERTY_STACK_TAG) 1) (lit "x"));
    [reflexivity | reflexivity | repeat constructor; done | done].
Defined.

(** A raw constant loses its flag when it is copied: the copy is then read as a
    C string, past the bytes it was given. *)
Example const_copy_drops_raw :
  let m : memory := {[ 2 := (false, lit "x9") ]} in
  let src := mk_prop 2 (Z.lor is_raw (Z.lor is_owner PROPERTY_CONST_TAG)) 1 in
  prop_text m src = Some (lit "x") /\
  match property_copy bump_malloc types m src with Some (m', dst) => prop_text m' dst = None | None => False end.
Proof. by vm_compute. Qed.

End Property.
