(* ===== verification/PropMap.v ===== *)
(** src/src/data/propmap.c: the property map, an intrusive list of key and value
    properties (STATIC_PROPERTY undefined). The nodes' [next] fields are the heap
    of LinkedList, their properties are kept beside it, and the values live in
    the memory of Property. *)
From S2P Require Import Prelude LinkedList Property.
Import Property.

Module PropMap.

Record world := mk_world {
  w_mem : memory;
  w_nodes : gmap Z (property_t * property_t);
  w_next : gmap Z Z;
}.

Definition set_mem (w : world) (m : memory) : world := mk_world m (w_nodes w) (w_next w).

Section operations.
Context (malloc : memory -> Z -> option (Z * list Z)).
(** The address of a new node, or NULL. *)
Context (new_node : gmap Z Z -> option Z).
Context (disp : list prop_type).

Definition node_of (w : world) (p : Z) : option (property_t * property_t) := w_nodes w !! p.

(** 0 when the key of node [s] equals [key]. *)
Definition propkeyeq (w : world) (s : Z) (key : property_t) : option Z :=
  '(k, _) ← node_of w s;
  c ← property_cmp (w_mem w) k key;
  Some (if c =? 0 then 0 else -1).

(** [linked_list_find_node] with [propkeyeq]. *)
Fixpoint find_loop (fuel : nat) (w : world) (p : Z) (key : property_t) : option Z :=
  match fuel with
  | O => None
  | S fuel' =>
      if p =? NULL then Some NULL else
      c ← propkeyeq w p key;
      if c =? 0 then Some p else next ← w_next w !! p; find_loop fuel' w next key
  end.

Definition property_map_find (w : world) (root : Z) (key : property_t) : option Z :=
  find_loop (LinkedList.nodes_fuel (w_next w)) w root key.

(** [property_map_init]: both properties and the link of [root] are cleared. *)
Definition property_map_init (w : world) (root : Z) : option (Z * world) :=
  _ ← node_of w root;
  _ ← w_next w !! root;
  Some (0, mk_world (w_mem w) (<[root := (p_null, p_null)]> (w_nodes w)) (<[root := NULL]> (w_next w))).

(** Returns (rc, world, *root). *)
Definition property_map_add (w : world) (root : Z) (key value : property_t) : option (Z * world * Z) :=
  match new_node (w_next w) with
  | None => Some (-1, w, root)
  | Some el =>
      '(m, k) ← property_copy malloc disp (w_mem w) key;
      '(m, v) ← property_copy malloc disp m value;
      '(next, root) ← LinkedList.arrow_linked_list_add_node_last (<[el := NULL]> (w_next w)) root el;
      Some (0, mk_world m (<[el := (k, v)]> (w_nodes w)) next, root)
  end.

(** [FREE(rm)] releases the node only. *)
Definition property_map_delete (w : world) (root : Z) (key : property_t) : option (Z * world * Z) :=
  rm ← property_map_find w root key;
  if negb (rm =? NULL) then
    '(next, root) ← LinkedList.arrow_linked_list_del_node (w_next w) root rm;
    _ ← node_of w rm;
    Some (0, mk_world (w_mem w) (delete rm (w_nodes w)) (delete rm next), root)
  else Some (-1, w, root).

(** Returns (rc, world). [property_copy] overwrites the old value. *)
Definition property_map_assign (w : world) (root : Z) (key value : property_t) : option (Z * world) :=
  el ← property_map_find w root key;
  if negb (el =? NULL) then
    '(k, _) ← node_of w el;
    '(m, v) ← property_copy malloc disp (w_mem w) value;
    Some (0, mk_world m (<[el := (k, v)]> (w_nodes w)) (w_next w))
  else Some (-1, w).

(** The body of the loop of [property_map_clear]. *)
Definition clear_node (tmp : Z) (w : world) : option world :=
  '(k, v) ← node_of w tmp;
  '(m, _) ← property_free disp (w_mem w) k;
  '(m, _) ← property_free disp m v;
  Some (mk_world m (delete tmp (w_nodes w)) (delete tmp (w_next w))).

(** Returns (rc, world, *root). *)
Definition property_map_clear (w : world) (root : Z) : option (Z * world * Z) :=
  if root =? NULL then Some (-1, w, root) else
  w ← LinkedList.for_each_safe (LinkedList.nodes_fuel (w_next w)) w_next clear_node root w;
  Some (0, w, NULL).
End operations.

(** ** The map a list of nodes stands for *)

(** An entry: its node, the two properties stored in it and their texts. *)
Record entry := mk_entry {
  e_node : Z; e_key : property_t; e_val : property_t; e_ktext : list Z; e_vtext : list Z;
}.

Definition const_flags : Z := Z.lor is_owner PROPERTY_CONST_TAG.
Definition dyn_flags : Z := Z.lor is_owner PROPERTY_DYNAMIC_TAG.

(** A stored property: a constant, or a heap block of its own. *)
Definition stored (m : memory) (p : property_t) (s : list Z) : Prop :=
  is_cstr s /\
  ((flags p = const_flags /\ exists b, m !! value p = Some (false, b) /\ cstr b = Some s) \/
   (flags p = dyn_flags /\ value p <> NULL /\ m !! value p = Some (true, s ++ [0]))).

(** The heap blocks an entry owns. *)
Definition prop_blocks (p : property_t) : list Z := if flags p =? dyn_flags then [value p] else [].
Definition entry_blocks (e : entry) : list Z := prop_blocks (e_key e) ++ prop_blocks (e_val e).
Definition blocks_of (es : list entry) : list Z := concat (map entry_blocks es).

Definition entry_ok (w : world) (e : entry) : Prop :=
  w_nodes w !! e_node e = Some (e_key e, e_val e) /\
  stored (w_mem w) (e_key e) (e_ktext e) /\ stored (w_mem w) (e_val e) (e_vtext e).

Record map_rep (w : world) (root : Z) (es : list entry) : Prop := {
  rep_list : LinkedList.is_list (w_next w) root (map e_node es);
  rep_entries : Forall (entry_ok w) es;
  rep_blocks : NoDup (blocks_of es);
}.

(** The key-value pairs, in order. *)
Definition pairs (es : list entry) : list (list Z * list Z) := map (fun e => (e_ktext e, e_vtext e)) es.

Lemma stored_text m p s : stored m p s -> prop_text m p = Some s /\ flag p is_raw = false /\ is_cstr s.
Proof.
  intros [Hs [[Hf (b & Hm & Hb)] | (Hf & Hv & Hm)]]; unfold prop_text, bytes_at, flag; rewrite Hf, Hm;
    cbn [mbind option_bind]; (split; [|by split]); [exact Hb | by apply cstr_app].
Qed.

(** Memory that keeps the bytes of a property keeps its text. *)
Lemma stored_same m m' p s : m' !! value p = m !! value p -> stored m p s -> stored m' p s.
Proof. unfold stored. by intros ->. Qed.

Lemma find_loop_spec w key k : forall es fuel p,
  LinkedList.is_list (w_next w) p (map e_node es) -> Forall (entry_ok w) es -> (length es < fuel)%nat ->
  prop_text (w_mem w) key = Some k -> flag key is_raw = false ->
  find_loop fuel w p key =
    Some (default NULL (e_node <$> head (filter (fun e => e_ktext e = k) es))).
Proof.
  intros es. induction es as [|e es IH]; intros [|fuel] p Hl He Hf Hk Hr; simpl in Hf; try lia; cbn [find_loop].
  - by simpl in Hl; subst.
  - apply Forall_cons in He as [(Hn & Hsk & Hsv) He]. destruct Hl as (-> & Hx & n & Hnx & Hl).
    change LinkedList.NULL with NULL in Hx. rewrite (proj2 (Z.eqb_neq _ NULL)) by done.
    destruct (stored_text _ _ _ Hsk) as (Ht & Hraw & _).
    unfold propkeyeq, node_of. rewrite Hn. cbn [mbind option_bind].
    destruct (property_cmp_spec (w_mem w) (e_key e) key (e_ktext e) k Ht Hk Hr) as [Hc _].
    rewrite (Hc Hraw). cbn [mbind option_bind]. rewrite filter_cons.
    destruct (decide (e_ktext e = k)) as [E | E].
    + by rewrite bool_decide_eq_true_2.
    + rewrite bool_decide_eq_false_2 by done. cbn [Z.eqb]. change (-1 =? 0) with false. cbv iota.
      rewrite Hnx. cbn [mbind option_bind]. by apply IH; try lia.
Qed.

Lemma map_rep_size w root es : map_rep w root es -> (length es <= base.size (w_next w))%nat.
Proof. intros H. pose proof (LinkedList.is_list_size _ _ _ (rep_list _ _ _ H)) as Hs. by rewrite length_map in Hs. Qed.

Lemma property_map_find_rep w root es key k :
  map_rep w root es -> prop_text (w_mem w) key = Some k -> flag key is_raw = false ->
  property_map_find w root key = Some (default NULL (e_node <$> head (filter (fun e => e_ktext e = k) es))).
Proof.
  intros H Hk Hr. pose proof (map_rep_size _ _ _ H). unfold property_map_find, LinkedList.nodes_fuel.
  apply find_loop_spec; [apply H | apply H | lia | done | done].
Qed.

(** The first entry with a key, and the entries around it. *)
Lemma first_entry es k :
  match head (filter (fun e => e_ktext e = k) es) with
  | Some e => exists l1 l2, es = l1 ++ e :: l2 /\ e_ktext e = k /\ Forall (fun e => e_ktext e <> k) l1
  | None => Forall (fun e => e_ktext e <> k) es
  end.
Proof.
  induction es as [|e es IH]; [constructor|]. rewrite filter_cons. destruct (decide (e_ktext e = k)) as [E | E].
  - simpl. exists [], es. done.
  - destruct (head _) as [e'|]; [|by constructor].
    destruct IH as (l1 & l2 & -> & Hk & Hl). exists (e :: l1), l2. split; [done|]. split; [done|]. by constructor.
Qed.

Lemma head_filter_app k l1 e l2 :
  Forall (fun e => e_ktext e <> k) l1 -> e_ktext e = k ->
  head (filter (fun e => e_ktext e = k) (l1 ++ e :: l2)) = Some e.
Proof.
  intros Hl He. induction Hl as [|e' l1 He' Hl IH]; cbn [app]; rewrite filter_cons.
  - by rewrite decide_True.
  - by rewrite decide_False.
Qed.

(** Exchanging the middle of three blocks. *)
Lemma NoDup_middle {A} (a k v b : list A) :
  NoDup (a ++ (k ++ v) ++ b) <-> NoDup (v ++ a ++ k ++ b).
Proof.
  assert (P : a ++ (k ++ v) ++ b ≡ₚ v ++ a ++ k ++ b).
  { rewrite (Permutation_app_comm k v), <- (app_assoc v k b), (app_assoc a v), (Permutation_app_comm a v).
    by rewrite <- app_assoc. }
  by rewrite P.
Qed.

(** Releasing the blocks of a property, of an entry, of a map. *)
Definition delete_all (bs : list Z) (m : memory) : memory := foldr delete m bs.

Lemma delete_all_lookup bs m a : delete_all bs m !! a = if decide (a ∈ bs) then None else m !! a.
Proof.
  induction bs as [|b bs IH].
  - by rewrite decide_False by apply not_elem_of_nil.
  - change (delete_all (b :: bs) m) with (delete b (delete_all bs m)). destruct (decide (a = b)) as [-> | Hne].
    + rewrite lookup_delete_eq, decide_True by apply list_elem_of_here. done.
    + rewrite lookup_delete_ne by done. rewrite IH. apply decide_ext. rewrite elem_of_cons. tauto.
Qed.

Lemma delete_all_app b1 b2 m : delete_all (b1 ++ b2) m = delete_all b1 (delete_all b2 m).
Proof. unfold delete_all. by rewrite foldr_app. Qed.

Lemma delete_all_comm b1 b2 m : delete_all b1 (delete_all b2 m) = delete_all b2 (delete_all b1 m).
Proof.
  apply map_eq. intros a. rewrite !delete_all_lookup. by destruct (decide (a ∈ b1)), (decide (a ∈ b2)).
Qed.

Lemma free_stored m p s :
  stored m p s -> property_free types m p = Some (delete_all (prop_blocks p) m, p_null).
Proof.
  intros [_ [[Hf _] | (Hf & Hv & Hm)]]; unfold property_free, flag, prop_blocks;
    rewrite get_property_type_tag; unfold prop_tag; rewrite Hf; [done|].
  cbn. unfold dynmc_destroy, flag. rewrite Hf. cbn. unfold mem_free.
  rewrite (proj2 (Z.eqb_neq (value p) NULL) Hv), Hm. done.
Qed.

Lemma stored_block m p s b : stored m p s -> b ∈ prop_blocks p -> fst <$> m !! b = Some true.
Proof.
  unfold prop_blocks. intros [_ [[Hf _] | (Hf & Hv & Hm)]]; rewrite Hf; cbn; intros Hb.
  - by apply not_elem_of_nil in Hb.
  - apply list_elem_of_singleton in Hb as ->. by rewrite Hm.
Qed.

(** Releasing other blocks keeps a stored property. *)
Lemma stored_delete_all m p s bs :
  stored m p s -> (forall b, b ∈ bs -> (b ∉ prop_blocks p) /\ fst <$> m !! b = Some true) ->
  stored (delete_all bs m) p s.
Proof.
  intros H Hbs. apply (stored_same m); [|done]. rewrite delete_all_lookup. destruct (decide _) as [Hin|]; [|done].
  exfalso. destruct (Hbs _ Hin) as [Hn Hh]. destruct H as [_ [[Hf (b & Hm & _)] | (Hf & Hv & Hm)]].
  - by rewrite Hm in Hh.
  - apply Hn. unfold prop_blocks. rewrite Hf. apply list_elem_of_here.
Qed.

Lemma entry_blocks_heap w e b : entry_ok w e -> b ∈ entry_blocks e -> fst <$> w_mem w !! b = Some true.
Proof.
  intros (_ & Hk & Hv) [Hb | Hb]%elem_of_app;
    [by apply (stored_block _ _ _ _ Hk) | by apply (stored_block _ _ _ _ Hv)].
Qed.

Lemma is_list_delete next p l x :
  x ∉ l -> LinkedList.is_list next p l -> LinkedList.is_list (delete x next) p l.
Proof.
  intros Hx H. apply (LinkedList.is_list_same next); [|done]. intros q Hq.
  apply lookup_delete_ne. by intros ->.
Qed.

(** *** Clearing *)

Lemma clear_node_ok w e :
  entry_ok w e -> NoDup (entry_blocks e) ->
  clear_node types (e_node e) w =
    Some (mk_world (delete_all (entry_blocks e) (w_mem w)) (delete (e_node e) (w_nodes w)) (delete (e_node e) (w_next w))).
Proof.
  intros Hok Hnd. destruct Hok as (Hn & Hk & Hv). unfold clear_node, node_of. rewrite Hn. cbn [mbind option_bind].
  rewrite (free_stored _ _ _ Hk). cbn [mbind option_bind].
  unfold entry_blocks in Hnd. apply NoDup_app in Hnd as (_ & Hd & _).
  rewrite (free_stored _ _ (e_vtext e)).
  - cbn [mbind option_bind]. unfold entry_blocks. by rewrite delete_all_app, delete_all_comm.
  - apply stored_delete_all; [done|]. intros b Hb. split; [by apply Hd | by apply (stored_block _ _ _ _ Hk)].
Qed.

Lemma entry_ok_after w e e' :
  entry_ok w e -> entry_ok w e' -> e_node e' <> e_node e ->
  (forall b, b ∈ entry_blocks e -> b ∉ entry_blocks e') ->
  entry_ok (mk_world (delete_all (entry_blocks e) (w_mem w)) (delete (e_node e) (w_nodes w)) (delete (e_node e) (w_next w))) e'.
Proof.
  intros He (Hn & Hk & Hv) Hne Hd. split; [|split]; cbn [w_nodes w_mem].
  - by rewrite lookup_delete_ne.
  - apply stored_delete_all; [done|]. intros b Hb. split; [|by apply (entry_blocks_heap _ _ _ He)].
    intros Hin. by apply (Hd b Hb), elem_of_app; left.
  - apply stored_delete_all; [done|]. intros b Hb. split; [|by apply (entry_blocks_heap _ _ _ He)].
    intros Hin. by apply (Hd b Hb), elem_of_app; right.
Qed.

Lemma clear_all es : forall w,
  Forall (entry_ok w) es -> NoDup (map e_node es) -> NoDup (blocks_of es) ->
  exists w', fold_opt (clear_node types) (map e_node es) w = Some w' /\
    w_mem w' = delete_all (blocks_of es) (w_mem w) /\
    (forall p, w_nodes w' !! p = if decide (p ∈ map e_node es) then None else w_nodes w !! p) /\
    (forall p, p ∉ map e_node es -> w_next w' !! p = w_next w !! p).
Proof.
  induction es as [|e es IH]; intros w He Hn Hb.
  { exists w. split; [done|]. split; [done|]. split; [|done]. intros p. by rewrite decide_False by apply not_elem_of_nil. }
  apply Forall_cons in He as [He Hes]. cbn [map] in Hn. apply NoDup_cons in Hn as [Hne Hn].
  unfold blocks_of in Hb. cbn [map concat] in Hb. apply NoDup_app in Hb as (Hb1 & Hd & Hb2).
  cbn [map fold_opt]. rewrite clear_node_ok by done. cbn [mbind option_bind].
  edestruct (IH (mk_world (delete_all (entry_blocks e) (w_mem w)) (delete (e_node e) (w_nodes w)) (delete (e_node e) (w_next w))))
    as (w' & E & Hm & Hnodes & Hnext); [| done | done |].
  - apply Forall_forall. intros e' He'. rewrite Forall_forall in Hes. apply entry_ok_after; [done | by apply Hes | |].
    + intros Heq. apply Hne. rewrite <- Heq. by apply list_elem_of_fmap_2.
    + intros b Hb Hin. apply (Hd b Hb). apply list_elem_of_In, in_concat. exists (entry_blocks e').
      split; apply list_elem_of_In; [by apply list_elem_of_fmap_2 | done].
  - exists w'. split; [done|]. cbn [w_mem w_nodes w_next] in *. split; [|split].
    + rewrite Hm. unfold blocks_of. cbn [map concat]. by rewrite delete_all_app, delete_all_comm.
    + intros p. rewrite Hnodes. destruct (decide (p = e_node e)) as [-> | Hp].
      * rewrite lookup_delete_eq, (decide_True (P := _ ∈ _ :: _)) by apply list_elem_of_here. by destruct (decide _).
      * rewrite lookup_delete_ne by done. apply decide_ext. rewrite elem_of_cons. tauto.
    + intros p Hp. apply not_elem_of_cons in Hp as [Hp1 Hp2]. rewrite Hnext by done. by apply lookup_delete_ne.
Qed.

Lemma clear_only_current : LinkedList.only_current w_next (clear_node types).
Proof.
  intros p w w' q H Hq. unfold clear_node in H. destruct (node_of w p) as [[k v]|]; [|done]. cbn [mbind option_bind] in H.
  destruct (property_free types (w_mem w) k) as [[m1 k1]|]; [|done]. cbn [mbind option_bind] in H.
  destruct (property_free types m1 v) as [[m2 v1]|]; [|done]. cbn [mbind option_bind] in H. simplify_eq.
  cbn [w_next]. by apply lookup_delete_ne.
Qed.

Lemma property_map_clear_rep w root es : map_rep w root es ->
  exists rc w', property_map_clear types w root = Some (rc, w', NULL) /\ (root <> NULL -> rc = 0) /\
    w_mem w' = delete_all (blocks_of es) (w_mem w) /\
    (forall p, w_nodes w' !! p = if decide (p ∈ map e_node es) then None else w_nodes w !! p) /\
    (forall p, p ∉ map e_node es -> w_next w' !! p = w_next w !! p).
Proof.
  intros H. pose proof (rep_list _ _ _ H) as Hl. unfold property_map_clear. destruct (Z.eqb_spec root NULL) as [-> | H0].
  - destruct es as [|e es]; [|by destruct Hl as (? & ? & _)]. exists (-1), w. split; [done|]. split; [done|]. split; [done|]. split; [|done].
    intros p. by rewrite decide_False by apply not_elem_of_nil.
  - pose proof (map_rep_size _ _ _ H).
    rewrite (LinkedList.for_each_safe_list w_next (clear_node types) (map e_node es));
      [| apply clear_only_current | done | unfold LinkedList.nodes_fuel; rewrite length_map; lia].
    destruct (clear_all es w) as (w' & -> & Hm); [apply H | by apply LinkedList.is_list_NoDup in Hl | apply H |].
    by exists 0, w'.
Qed.

(** *** Copying into the map *)

(** A key or value that can be copied: a constant string, an owned dynamic
    string or a stack string. *)
Definition copyable (m : memory) (p : property_t) (s : list Z) : Prop :=
  is_byte (flags p) /\ prop_text m p = Some s /\ is_cstr s /\
  ((prop_tag p = PROPERTY_CONST_TAG /\ flag p is_raw = false /\ exists b, m !! value p = Some (false, b)) \/
   (prop_tag p = PROPERTY_DYNAMIC_TAG /\ flag p is_owner = true) \/ prop_tag p = PROPERTY_STACK_TAG).

(** [m'] is [m] with the blocks [bs] added. *)
Record grown (m m' : memory) (bs : list Z) : Prop := {
  g_same a : is_Some (m !! a) -> m' !! a = m !! a;
  g_fresh b : b ∈ bs -> m !! b = None;
  g_live b : b ∈ bs -> is_Some (m' !! b);
  g_nodup : NoDup bs;
  g_back : delete_all bs m' = m;
}.

Lemma copyable_live m p s : copyable m p s -> is_Some (m !! value p).
Proof.
  intros (_ & Ht & _). unfold prop_text, bytes_at in Ht. destruct (m !! value p); [by eexists | done].
Qed.

Lemma copyable_grown m m' bs p s : grown m m' bs -> copyable m p s -> copyable m' p s.
Proof.
  intros Hg H. pose proof (g_same _ _ _ Hg _ (copyable_live _ _ _ H)) as E. destruct H as (Hb & Ht & Hs & Hc).
  split; [done|]. unfold prop_text, bytes_at in *. rewrite E. split; [done|]. split; done.
Qed.

Lemma stored_grown m m' bs p s : grown m m' bs -> stored m p s -> stored m' p s.
Proof.
  intros Hg H. apply (stored_same m); [|done]. apply (g_same _ _ _ Hg).
  destruct H as [_ [[_ (b & -> & _)] | (_ & _ & ->)]]; by eexists.
Qed.

Section map_properties.
Context (malloc : memory -> Z -> option (Z * list Z)) `{Hmalloc : !Malloc malloc}.
(** The properties below are stated for a memory that suffices. *)
Context (Henough : forall m n, 0 <= n -> malloc m n <> None).

Lemma property_copy_stored m p s :
  copyable m p s ->
  exists m' q, property_copy malloc types m p = Some (m', q) /\ stored m' q s /\ grown m m' (prop_blocks q).
Proof.
  intros (Hb & Ht & Hs & Hc).
  assert (Hcase : (prop_tag p = PROPERTY_CONST_TAG /\ flag p is_raw = false /\ exists b, m !! value p = Some (false, b)) \/
    exists p', property_copy malloc types m p = dynmc_copy malloc m p' /\ flag p' is_owner = true /\ prop_text m p' = Some s).
  { destruct Hc as [Hc | [[Htag Ho] | Htag]]; [by left | right; exists p | right; exists (owned p)];
      unfold property_copy; rewrite get_property_type_tag, Htag; (split; [done|]); split; try done.
    - by apply owned_flags.
    - by rewrite prop_text_owned. }
  destruct Hcase as [(Htag & Hraw & b & Hm) | (p' & -> & Ho & Ht')].
  - unfold property_copy. rewrite get_property_type_tag, Htag. eexists _, _. split; [done|]. split.
    + split; [done|]. left. split; [done|]. exists b. split; [done|]. unfold prop_text, bytes_at in Ht.
      rewrite Hm, Hraw in Ht. exact Ht.
    + split; try done; [intros c Hc'; by apply not_elem_of_nil in Hc'.. | constructor].
  - rewrite (dynmc_copy_owner malloc m p' s Ho Ht' Hs). destruct (dup_bytes malloc m s) as [m' v] eqn:E.
    destruct (dup_bytes_spec malloc m s m' v E) as [[-> ->] | (Hv & Hm & ->)].
    { exfalso. unfold dup_bytes in E. destruct (malloc m (zlen s + 1)) as [[a f]|] eqn:Em; [|by apply Henough in Em; [|zl]].
      simplify_eq. by destruct (malloc_fresh _ _ _ _ Em) as [_ ?]. }
    eexists _, _. split; [done|]. split.
    + split; [done|]. right. split; [done|]. split; [done | apply lookup_insert_eq].
    + unfold prop_blocks. cbn [flags value]. change (_ =? dyn_flags) with true. cbv iota. split.
      * intros a [x Ha]. rewrite lookup_insert_ne; [done|]. intros ->. congruence.
      * by intros b ->%list_elem_of_singleton.
      * intros b ->%list_elem_of_singleton. rewrite lookup_insert_eq. by eexists.
      * apply NoDup_singleton.
      * unfold delete_all. cbn [foldr]. by rewrite delete_insert_eq, delete_id.
Qed.

Lemma entry_ok_grown w w' bs e :
  grown (w_mem w) (w_mem w') bs -> w_nodes w' !! e_node e = w_nodes w !! e_node e -> entry_ok w e -> entry_ok w' e.
Proof.
  intros Hg Hn (H1 & H2 & H3). split; [by rewrite Hn|]. split; by apply (stored_grown (w_mem w) _ bs).
Qed.

Lemma block_live w es b : Forall (entry_ok w) es -> b ∈ blocks_of es -> is_Some (w_mem w !! b).
Proof.
  intros He Hb. unfold blocks_of in Hb. apply list_elem_of_In, in_concat in Hb as (bs & Hin & Hb).
  apply list_elem_of_In in Hin, Hb. apply list_elem_of_fmap in Hin as (e & -> & Hin).
  rewrite Forall_forall in He. pose proof (entry_blocks_heap w e b (He e Hin) Hb) as H.
  destruct (w_mem w !! b); [by eexists | done].
Qed.

Lemma blocks_of_app es es' : blocks_of (es ++ es') = blocks_of es ++ blocks_of es'.
Proof. unfold blocks_of. by rewrite map_app, concat_app. Qed.

Lemma grown_trans m m1 m2 b1 b2 : grown m m1 b1 -> grown m1 m2 b2 -> grown m m2 (b2 ++ b1).
Proof.
  intros H1 H2.
  assert (Hd : forall b, b ∈ b1 -> b ∈ b2 -> False).
  { intros b Hb1 Hb2. pose proof (g_live _ _ _ H1 b Hb1) as [x Hx]. by rewrite (g_fresh _ _ _ H2 b Hb2) in Hx. }
  split.
  - intros a Ha. rewrite <- (g_same _ _ _ H1) by done. apply (g_same _ _ _ H2). by rewrite (g_same _ _ _ H1).
  - intros b [Hb | Hb]%elem_of_app; [|by apply (g_fresh _ _ _ H1)].
    rewrite <- (g_back _ _ _ H1), delete_all_lookup. destruct (decide _); [done | by apply (g_fresh _ _ _ H2)].
  - intros b [Hb | Hb]%elem_of_app; [by apply (g_live _ _ _ H2)|].
    rewrite (g_same _ _ _ H2); by apply (g_live _ _ _ H1).
  - apply NoDup_app. split; [apply H2|]. split; [|apply H1]. intros b Hb2 Hb1. by apply (Hd b).
  - by rewrite delete_all_app, delete_all_comm, (g_back _ _ _ H2), (g_back _ _ _ H1).
Qed.

(** A node allocator: new nodes are not NULL and not in use. *)
Context (new_node : gmap Z Z -> option Z).
Context (Hnew : forall next el, new_node next = Some el -> next !! el = None /\ el <> NULL).

Lemma map_node_live w root es e :
  map_rep w root es -> e ∈ es -> is_Some (w_next w !! e_node e) /\ e_node e <> NULL.
Proof.
  intros H He. pose proof (rep_list _ _ _ H) as Hl. apply LinkedList.is_list_lseg in Hl.
  apply (LinkedList.lseg_elem _ _ _ _ _ Hl). by apply list_elem_of_fmap_2.
Qed.

Lemma property_map_add_rep w root es key value k v el :
  map_rep w root es -> copyable (w_mem w) key k -> copyable (w_mem w) value v ->
  new_node (w_next w) = Some el ->
  exists w' root' e, property_map_add malloc new_node types w root key value = Some (0, w', root') /\
    map_rep w' root' (es ++ [e]) /\ e_ktext e = k /\ e_vtext e = v /\
    grown (w_mem w) (w_mem w') (entry_blocks e).
Proof.
  intros H Hk Hv Hel. destruct (Hnew _ _ Hel) as [Hfree H0]. unfold property_map_add. rewrite Hel.
  destruct (property_copy_stored _ _ _ Hk) as (m1 & kp & -> & Hs1 & Hg1). cbn [mbind option_bind].
  destruct (property_copy_stored m1 value v) as (m2 & vp & -> & Hs2 & Hg2); [by apply (copyable_grown _ _ _ _ _ Hg1)|].
  cbn [mbind option_bind].
  assert (Hin : el ∉ map e_node es).
  { intros Hin. apply list_elem_of_fmap in Hin as (e & -> & He).
    destruct (map_node_live _ _ _ _ H He) as [[x Hx] _]. by rewrite Hfree in Hx. }
  destruct (LinkedList.add_last_list (<[el := NULL]> (w_next w)) root (map e_node es) el) as (next & root' & E & Hl');
    [by apply LinkedList.is_list_store, H | rewrite lookup_insert_eq; by eexists | done | done |].
  unfold LinkedList.arrow_linked_list_add_node_last. rewrite E. cbn [mbind option_bind].
  pose (e := mk_entry el kp vp k v). pose proof (grown_trans _ _ _ _ _ Hg1 Hg2) as Hg.
  exists (mk_world m2 (<[el := (kp, vp)]> (w_nodes w)) next), root', e. split; [done|].
  assert (Hg' : grown (w_mem w) m2 (entry_blocks e)).
  { unfold entry_blocks. cbn [e_key e_val e]. destruct Hg as [G1 G2 G3 G4 G5]. split; try done.
    - intros b Hb. apply G2. rewrite elem_of_app in *. tauto.
    - intros b Hb. apply G3. rewrite elem_of_app in *. tauto.
    - by rewrite Permutation_app_comm.
    - by rewrite delete_all_app, delete_all_comm, <- delete_all_app. }
  split; [|done]. split.
  - rewrite map_app. exact Hl'.
  - apply Forall_app. split.
    + apply Forall_forall. intros e' He'. pose proof (rep_entries _ _ _ H) as He. rewrite Forall_forall in He.
      apply (entry_ok_grown w _ (entry_blocks e)); [done | | by apply He]. cbn [w_nodes].
      apply lookup_insert_ne. intros ->. by apply Hin, list_elem_of_fmap_2.
    + apply Forall_cons. split; [|constructor]. split; [apply lookup_insert_eq|]. cbn [w_mem]. split; [|done].
      by apply (stored_grown m1 _ (prop_blocks vp)).
  - rewrite blocks_of_app. apply NoDup_app. split; [apply H|]. split.
    + intros b Hb Hb'. destruct (block_live w es b (rep_entries _ _ _ H) Hb) as [x Hx].
      unfold blocks_of in Hb'. cbn [map concat] in Hb'. rewrite app_nil_r in Hb'. by rewrite (g_fresh _ _ _ Hg' b Hb') in Hx.
    + unfold blocks_of. cbn [map concat]. rewrite app_nil_r. apply Hg'.
Qed.

Lemma entry_nodes_apart w root l1 e l2 :
  map_rep w root (l1 ++ e :: l2) -> forall e', e' ∈ l1 ++ l2 -> e_node e' <> e_node e.
Proof.
  intros H e' He' Heq. pose proof (LinkedList.is_list_NoDup _ _ _ (rep_list _ _ _ H)) as Hnd.
  rewrite map_app in Hnd. cbn [map] in Hnd. apply NoDup_app in Hnd as (_ & Hd & Hn2). apply NoDup_cons in Hn2 as [Hn2 _].
  apply elem_of_app in He' as [He' | He'].
  - apply (Hd (e_node e')); [by apply list_elem_of_fmap_2|]. rewrite Heq. apply list_elem_of_here.
  - apply Hn2. rewrite <- Heq. by apply list_elem_of_fmap_2.
Qed.

Lemma property_map_assign_rep w root l1 e l2 key value k v :
  map_rep w root (l1 ++ e :: l2) -> e_ktext e = k -> Forall (fun e => e_ktext e <> k) l1 ->
  prop_text (w_mem w) key = Some k -> flag key is_raw = false -> copyable (w_mem w) value v ->
  exists w' vp, property_map_assign malloc types w root key value = Some (0, w') /\
    map_rep w' root (l1 ++ mk_entry (e_node e) (e_key e) vp k v :: l2) /\
    grown (w_mem w) (w_mem w') (prop_blocks vp).
Proof.
  intros H He Hl1 Hk Hr Hv. unfold property_map_assign. rewrite (property_map_find_rep w root _ key k H Hk Hr).
  assert (Hhead : head (filter (fun e => e_ktext e = k) (l1 ++ e :: l2)) = Some e) by by apply head_filter_app.
  rewrite Hhead. cbn [fmap option_fmap option_map from_option id mbind option_bind].
  assert (Hin : e ∈ l1 ++ e :: l2) by (apply elem_of_app; right; apply list_elem_of_here).
  destruct (map_node_live _ _ _ _ H Hin) as [_ H0]. rewrite (proj2 (Z.eqb_neq _ NULL)) by done. cbn [negb].
  pose proof (rep_entries _ _ _ H) as Hes. rewrite Forall_forall in Hes. destruct (Hes e Hin) as (Hn & Hsk & Hsv).
  unfold node_of. rewrite Hn. cbn [mbind option_bind].
  destruct (property_copy_stored _ _ _ Hv) as (m' & vp & -> & Hs & Hg). cbn [mbind option_bind].
  exists (mk_world m' (<[e_node e := (e_key e, vp)]> (w_nodes w)) (w_next w)), vp. split; [done|]. split; [|done].
  assert (Hother : forall e', e' ∈ l1 ++ l2 -> entry_ok (mk_world m' (<[e_node e := (e_key e, vp)]> (w_nodes w)) (w_next w)) e').
  { intros e' He'. apply (entry_ok_grown w _ (prop_blocks vp)); [done | |].
    - apply lookup_insert_ne. intros Heq. by apply (entry_nodes_apart w root l1 e l2 H e').
    - apply Hes. rewrite elem_of_app, elem_of_cons in *. tauto. }
  split.
  - pose proof (rep_list _ _ _ H) as Hl. rewrite map_app in *. exact Hl.
  - apply Forall_app. split; [|apply Forall_cons; split]; [| split; [apply lookup_insert_eq|split; [|done]] |].
    + apply Forall_forall. intros e' He'. apply Hother, elem_of_app. by left.
    + cbn [e_key e_ktext w_mem]. subst k. by apply (stored_grown (w_mem w) _ (prop_blocks vp)).
    + apply Forall_forall. intros e' He'. apply Hother, elem_of_app. by right.
  - pose proof (rep_blocks _ _ _ H) as Hnd.
    assert (Hlive : forall b, b ∈ blocks_of (l1 ++ e :: l2) -> is_Some (w_mem w !! b))
      by (intros b; apply block_live, (rep_entries _ _ _ H)).
    rewrite blocks_of_app in *. unfold blocks_of in *. cbn [map concat] in *.
    change (entry_blocks (mk_entry (e_node e) (e_key e) vp k v)) with (prop_blocks (e_key e) ++ prop_blocks vp).
    change (entry_blocks e) with (prop_blocks (e_key e) ++ prop_blocks (e_val e)) in *.
    apply NoDup_middle. apply NoDup_middle in Hnd. apply NoDup_app in Hnd as (_ & _ & Hnd).
    apply NoDup_app. split; [apply Hg|]. split; [|done]. intros b Hb Hb'.
    destruct (Hlive b) as [x Hx]; [rewrite !elem_of_app in *; tauto|]. by rewrite (g_fresh _ _ _ Hg b Hb) in Hx.
Qed.

Lemma property_map_delete_rep w root l1 e l2 key k :
  map_rep w root (l1 ++ e :: l2) -> e_ktext e = k -> Forall (fun e => e_ktext e <> k) l1 ->
  prop_text (w_mem w) key = Some k -> flag key is_raw = false ->
  exists w' root', property_map_delete w root key = Some (0, w', root') /\
    map_rep w' root' (l1 ++ l2) /\ w_mem w' = w_mem w.
Proof.
  intros H He Hl1 Hk Hr. unfold property_map_delete. rewrite (property_map_find_rep w root _ key k H Hk Hr).
  rewrite head_filter_app by done. cbn [fmap option_fmap option_map from_option id mbind option_bind].
  assert (Hin : e ∈ l1 ++ e :: l2) by (apply elem_of_app; right; apply list_elem_of_here).
  destruct (map_node_live _ _ _ _ H Hin) as [_ H0]. rewrite (proj2 (Z.eqb_neq _ NULL)) by done. cbn [negb].
  pose proof (rep_list _ _ _ H) as Hl. rewrite map_app in Hl. cbn [map] in Hl.
  pose proof (LinkedList.is_list_NoDup _ _ _ Hl) as Hnd.
  destruct (LinkedList.del_list _ _ _ _ _ Hl) as (next & root' & E & Hl').
  unfold LinkedList.arrow_linked_list_del_node. rewrite E. cbn [mbind option_bind].
  pose proof (rep_entries _ _ _ H) as Hes. rewrite Forall_forall in Hes. destruct (Hes e Hin) as (Hn & _ & _).
  unfold node_of. rewrite Hn. cbn [mbind option_bind]. eexists _, _. split; [done|]. split; [|done]. split.
  - cbn [w_next]. rewrite map_app. apply is_list_delete; [|done]. intros Hx.
    apply NoDup_app in Hnd as (_ & Hd & Hn2). apply NoDup_cons in Hn2 as [Hn2 _].
    apply elem_of_app in Hx as [Hx | Hx]; [|done]. by apply (Hd _ Hx), list_elem_of_here.
  - apply Forall_forall. intros e' He'. destruct (Hes e') as (Hn' & Hk' & Hv'); [rewrite elem_of_app, elem_of_cons in *; tauto|].
    split; [|done]. cbn [w_nodes]. rewrite lookup_delete_ne; [done|]. intros Heq.
    by apply (entry_nodes_apart w root l1 e l2 H e').
  - pose proof (rep_blocks _ _ _ H) as Hb. rewrite blocks_of_app in *. unfold blocks_of in *. cbn [map concat] in Hb.
    rewrite (app_assoc _ (entry_blocks e)), Permutation_app_comm, app_assoc in Hb.
    apply NoDup_app in Hb as (Hb & _ & _). by rewrite Permutation_app_comm.
Qed.

(** C30. The property map is an association list: adding appends a pair, finding
    returns the node of the first pair with the key, assigning replaces its
    value and deleting removes it (and both report -1, changing nothing, when
    there is none), and clearing releases every block the map owns and no
    other. Assigning and deleting leave the replaced texts allocated. *)
Theorem property_map_operations w root es key k :
  map_rep w root es -> prop_text (w_mem w) key = Some k -> flag key is_raw = false ->
  (forall value v el, copyable (w_mem w) key k -> copyable (w_mem w) value v -> new_node (w_next w) = Some el ->
     exists w' root' e, property_map_add malloc new_node types w root key value = Some (0, w', root') /\
       map_rep w' root' (es ++ [e]) /\ e_ktext e = k /\ e_vtext e = v /\
       grown (w_mem w) (w_mem w') (entry_blocks e)) /\
  (forall l1 e l2, es = l1 ++ e :: l2 -> e_ktext e = k -> Forall (fun e => e_ktext e <> k) l1 ->
     property_map_find w root key = Some (e_node e) /\
     (forall value v, copyable (w_mem w) value v ->
        exists w' vp, property_map_assign malloc types w root key value = Some (0, w') /\
          map_rep w' root (l1 ++ mk_entry (e_node e) (e_key e) vp k v :: l2) /\
          grown (w_mem w) (w_mem w') (prop_blocks vp)) /\
     exists w' root', property_map_delete w root key = Some (0, w', root') /\
       map_rep w' root' (l1 ++ l2) /\ w_mem w' = w_mem w) /\
  (Forall (fun e => e_ktext e <> k) es ->
     property_map_find w root key = Some NULL /\ property_map_delete w root key = Some (-1, w, root) /\
     forall value, property_map_assign malloc types w root key value = Some (-1, w)) /\
  (root <> NULL ->
     exists w', property_map_clear types w root = Some (0, w', NULL) /\
       w_mem w' = delete_all (blocks_of es) (w_mem w) /\
       (forall p, w_nodes w' !! p = if decide (p ∈ map e_node es) then None else w_nodes w !! p)).
Proof.
  intros H Hk Hr. split; [|split; [|split]].
  - intros value v el Hck Hcv Hel. by apply (property_map_add_rep w root es key value k v el).
  - intros l1 e l2 -> He Hl1. split; [|split].
    + by rewrite (property_map_find_rep w root _ key k H Hk Hr), head_filter_app.
    + intros value v Hv. by apply property_map_assign_rep.
    + by apply (property_map_delete_rep w root l1 e l2 key k).
  - intros Hno. assert (E : property_map_find w root key = Some NULL).
    { rewrite (property_map_find_rep w root es key k H Hk Hr). pose proof (first_entry es k) as Hf.
      destruct (head _) as [e|]; [|done]. destruct Hf as (l1 & l2 & -> & He & _).
      rewrite Forall_app, Forall_cons in Hno. tauto. }
    unfold property_map_delete, property_map_assign. rewrite E. done.
  - intros H0. destruct (property_map_clear_rep w root es H) as (rc & w' & E & Hrc & Hm & Hn & _). rewrite (Hrc H0) in E. by exists w'.
Qed.
End map_properties.

(** ** The witness *)

Definition sample_node (next : gmap Z Z) : option Z := Some (fresh (dom next ∪ {[NULL]})).

Lemma sample_node_ok next el : sample_node next = Some el -> next !! el = None /\ el <> NULL.
Proof.
  unfold sample_node. intros H. simplify_eq. pose proof (is_fresh (dom next ∪ {[NULL]})) as Hf.
  rewrite not_elem_of_union, not_elem_of_dom, not_elem_of_singleton in Hf. done.
Qed.

Lemma bump_enough m n : 0 <= n -> bump_malloc m n <> None.
Proof. intros Hn. unfold bump_malloc. by rewrite (proj2 (Z.ltb_ge _ _)). Qed.

Definition sample_world : world := mk_world sample_mem ∅ ∅.

Lemma property_map_operations_witness :
  exists w' root' e, property_map_add bump_malloc sample_node types sample_world NULL sample_stack sample_dyn =
      Some (0, w', root') /\
    map_rep w' root' [e] /\ e_ktext e = lit "x9" /\ e_vtext e = lit "id" /\
    grown sample_mem (w_mem w') (entry_blocks e).
Proof.
  destruct (property_map_operations bump_malloc bump_enough sample_node sample_node_ok sample_world NULL []
    sample_stack (lit "x9")) as [Hadd _].
  - split; [done | constructor | constructor].
  - reflexivity.
  - reflexivity.
  - apply (Hadd sample_dyn (lit "id") (fresh (dom (∅ : gmap Z Z) ∪ {[NULL]}))); [| | done].
    + split; [by vm_compute|]. split; [done|]. split; [repeat constructor; done|]. by right; right.
    + split; [by vm_compute|]. split; [done|]. split; [repeat constructor; done|]. by right; left.
Defined.

End PropMap.
