(* ===== verification/PropOwn.v ===== *)
(** Who owns which block: several properties and property maps of
    src/src/data/propmap.c in one memory. *)
From S2P Require Import Prelude LinkedList Property PropMap.

Module PropOwn.
Import Property PropMap.

(** A field of a structure: empty, or a stored property. *)
Definition held (m : memory) (p : property_t) : Prop := p = p_null \/ exists s, stored m p s.
Definition owned_blocks (ps : list property_t) : list Z := concat (map prop_blocks ps).
(** The properties are live and no two of them own the same block. *)
Definition owns (m : memory) (ps : list property_t) : Prop := Forall (held m) ps /\ NoDup (owned_blocks ps).

#[export] Instance owned_blocks_perm : Proper ((≡ₚ) ==> (≡ₚ)) owned_blocks.
Proof. intros ps qs E. unfold owned_blocks. induction E; cbn [map concat]; [done | by f_equiv | by rewrite !app_assoc, (Permutation_app_comm (prop_blocks y)) | by etrans]. Qed.

#[export] Instance owns_perm m : Proper ((≡ₚ) ==> iff) (owns m).
Proof. intros ps qs E. unfold owns. by rewrite E. Qed.

#[export] Instance delete_all_perm : Proper ((≡ₚ) ==> (=) ==> (=)) delete_all.
Proof. intros b1 b2 E m ? <-. apply map_eq. intros a. rewrite !delete_all_lookup. apply decide_ext. by rewrite E. Qed.

Lemma owned_blocks_app ps qs : owned_blocks (ps ++ qs) = owned_blocks ps ++ owned_blocks qs.
Proof. unfold owned_blocks. by rewrite map_app, concat_app. Qed.

Lemma held_heap m p b : held m p -> b ∈ prop_blocks p -> fst <$> m !! b = Some true.
Proof. intros [-> | [s Hs]] Hb; [by apply not_elem_of_nil in Hb | by eapply stored_block]. Qed.

Lemma owned_in ps b : b ∈ owned_blocks ps <-> exists p, p ∈ ps /\ b ∈ prop_blocks p.
Proof.
  unfold owned_blocks. rewrite list_elem_of_In, in_concat. split.
  - intros (bs & Hin & Hb). apply list_elem_of_In in Hin, Hb. apply list_elem_of_fmap in Hin as (p & -> & Hp). by exists p.
  - intros (p & Hp & Hb). exists (prop_blocks p). split; apply list_elem_of_In; [by apply list_elem_of_fmap_2 | done].
Qed.

Lemma owns_heap m ps b : owns m ps -> b ∈ owned_blocks ps -> fst <$> m !! b = Some true.
Proof. intros [Hh _] (p & Hp & Hb)%owned_in. rewrite Forall_forall in Hh. by eapply held_heap; [apply Hh|]. Qed.

Lemma held_delete m p bs : held m p -> (forall b, b ∈ bs -> (b ∉ prop_blocks p) /\ fst <$> m !! b = Some true) -> held (delete_all bs m) p.
Proof. intros [-> | [s Hs]] Hb; [by left | right]. exists s. by apply stored_delete_all. Qed.

(** Some of the owners give their blocks back. *)
Lemma owns_delete m ps qs : owns m (ps ++ qs) -> owns (delete_all (owned_blocks ps) m) qs.
Proof.
  intros Ho. destruct Ho as [Hh Hn]. pose proof Hh as Hh'. apply Forall_app in Hh' as [_ Hq].
  rewrite owned_blocks_app in Hn. apply NoDup_app in Hn as (_ & Hd & Hn). split; [|done]. rewrite Forall_forall in Hq |- *. intros q Hin.
  apply held_delete; [by apply Hq|]. intros b Hb. split.
  - intros Hb'. apply (Hd b Hb), owned_in. by exists q.
  - apply owned_in in Hb as (p & Hp & Hb). rewrite Forall_forall in Hh. apply (held_heap m p); [apply Hh, elem_of_app; by left | done].
Qed.

Lemma free_held m p : held m p -> property_free types m p = Some (delete_all (prop_blocks p) m, p_null).
Proof. intros [-> | [s Hs]]; [done | by eapply free_stored]. Qed.

Lemma free_owned m p ps : owns m (p :: ps) -> property_free types m p = Some (delete_all (prop_blocks p) m, p_null) /\ owns (delete_all (prop_blocks p) m) ps.
Proof.
  intros Ho. split; [apply free_held; by destruct Ho as [[Hh _]%Forall_cons_1 _]|]. change (p :: ps) with ([p] ++ ps) in Ho. apply owns_delete in Ho.
  unfold owned_blocks in Ho. cbn [map concat] in Ho. by rewrite app_nil_r in Ho.
Qed.

Lemma held_grown m m' bs p : grown m m' bs -> held m p -> held m' p.
Proof. intros Hg [-> | [s Hs]]; [by left | right]. exists s. by eapply stored_grown. Qed.

(** New owners of new blocks. *)
Lemma owns_grown m m' ps qs : owns m ps -> Forall (held m') qs -> grown m m' (owned_blocks qs) -> owns m' (qs ++ ps).
Proof.
  intros Ho Hq Hg. split.
  - apply Forall_app. split; [done|]. eapply Forall_impl; [apply Ho|]. intros p. by eapply held_grown.
  - rewrite owned_blocks_app. apply NoDup_app. split; [apply Hg|]. split; [|apply Ho]. intros b Hb Hb'.
    pose proof (owns_heap _ _ _ Ho Hb') as E. by rewrite (g_fresh _ _ _ Hg b Hb) in E.
Qed.

(** A new block. *)
Lemma grown_insert m a b : m !! a = None -> grown m (<[a := b]> m) [a].
Proof.
  intros Ha. split.
  - intros x [y Hx]. apply lookup_insert_ne. intros ->. congruence.
  - by intros x ->%list_elem_of_singleton.
  - intros x ->%list_elem_of_singleton. rewrite lookup_insert_eq. by eexists.
  - apply NoDup_singleton.
  - unfold delete_all. cbn [foldr]. by rewrite delete_insert_eq, delete_id.
Qed.

Lemma grown_nil m : grown m m [].
Proof. split; try done; [intros b Hb; by apply not_elem_of_nil in Hb.. | constructor]. Qed.

(** ** Maps *)

Definition props_of (es : list entry) : list property_t := concat (map (fun e => [e_key e; e_val e]) es).

Lemma props_of_app es es' : props_of (es ++ es') = props_of es ++ props_of es'.
Proof. unfold props_of. by rewrite map_app, concat_app. Qed.

Lemma blocks_of_props es : blocks_of es = owned_blocks (props_of es).
Proof.
  induction es as [|e es IH]; [done|]. change (e :: es) with ([e] ++ es). rewrite props_of_app, owned_blocks_app, <- IH.
  unfold blocks_of, owned_blocks, props_of, entry_blocks. cbn. by rewrite !app_nil_r.
Qed.

Lemma props_of_held w es : Forall (entry_ok w) es -> Forall (held (w_mem w)) (props_of es).
Proof.
  induction 1 as [|e es (_ & Hk & Hv) _ IH]; [constructor|]. change (e :: es) with ([e] ++ es). rewrite props_of_app. apply Forall_app. split; [|done].
  unfold props_of. cbn [map concat]. rewrite app_nil_r. repeat (apply Forall_cons; split); [right; by eexists.. | constructor].
Qed.

(** What a change elsewhere leaves of a map. *)
Lemma map_rep_frame w w' root es : map_rep w root es ->
  (forall n, n ∈ map e_node es -> w_next w' !! n = w_next w !! n /\ w_nodes w' !! n = w_nodes w !! n) ->
  (forall p s, p ∈ props_of es -> stored (w_mem w) p s -> stored (w_mem w') p s) -> map_rep w' root es.
Proof.
  intros Hm Hn Hs. split; [| | apply Hm].
  - apply (LinkedList.is_list_same (w_next w)); [|apply Hm]. intros n Hin. by apply Hn.
  - pose proof (rep_entries _ _ _ Hm) as He. rewrite Forall_forall in He |- *. intros e Hin. destruct (He e Hin) as (H1 & H2 & H3).
    assert (Hp : forall p, p ∈ [e_key e; e_val e] -> p ∈ props_of es).
    { intros p Hp. apply list_elem_of_split in Hin as (l1 & l2 & ->). change (e :: l2) with ([e] ++ l2). rewrite !props_of_app. apply elem_of_app. right. apply elem_of_app. left.
      unfold props_of. cbn [map concat]. by rewrite app_nil_r. }
    split; [|split].
    + rewrite (proj2 (Hn (e_node e) ltac:(by apply list_elem_of_fmap_2))). done.
    + apply Hs; [apply Hp; by left | done].
    + apply Hs; [apply Hp; by right; left | done].
Qed.

(** Blocks that are not the map's are released. *)
Lemma map_rep_delete w root es bs : map_rep w root es -> (forall b, b ∈ bs -> (b ∉ owned_blocks (props_of es)) /\ fst <$> w_mem w !! b = Some true) ->
  map_rep (set_mem w (delete_all bs (w_mem w))) root es.
Proof.
  intros Hm Hb. apply (map_rep_frame w); [done | done |]. intros p s Hp Hs. apply stored_delete_all; [done|]. intros b Hin. destruct (Hb b Hin) as [Hn Hh].
  split; [|done]. intros Hin'. apply Hn, owned_in. by exists p.
Qed.

(** Clearing a map: its owners are gone, another map stays. *)
Lemma clear_owned w root es ps : map_rep w root es -> owns (w_mem w) (props_of es ++ ps) ->
  exists rc w', property_map_clear types w root = Some (rc, w', NULL) /\ w_mem w' = delete_all (owned_blocks (props_of es)) (w_mem w) /\ owns (w_mem w') ps /\
    forall root2 es2, map_rep w root2 es2 -> (forall n, n ∈ map e_node es -> n ∉ map e_node es2) -> (forall p, p ∈ props_of es2 -> p ∈ ps) -> map_rep w' root2 es2.
Proof.
  intros Hm Ho. destruct (property_map_clear_rep w root es Hm) as (rc & w' & E & _ & Hmem & Hnodes & Hnext). rewrite blocks_of_props in Hmem.
  exists rc, w'. split; [done|]. split; [done|]. split; [rewrite Hmem; by apply owns_delete|]. intros root2 es2 Hm2 Hd Hps. apply (map_rep_frame w); [done | |].
  - intros n Hn. split; [apply Hnext | rewrite Hnodes, decide_False]; [by intros Hin; apply (Hd n) | done | by intros Hin; apply (Hd n)].
  - intros p s Hp Hs. rewrite Hmem. apply stored_delete_all; [done|]. intros b Hb. split; [|].
    + intros Hb'. destruct Ho as [_ Hn]. rewrite owned_blocks_app in Hn. apply NoDup_app in Hn as (_ & Hdis & _). apply (Hdis b Hb), owned_in. exists p. by split; [apply Hps|].
    + apply (owns_heap _ (props_of es ++ ps)); [done|]. rewrite owned_blocks_app. apply elem_of_app. by left.
Qed.

Section add.
Context (malloc : memory -> Z -> option (Z * list Z)) `{Hmalloc : !Malloc malloc}.
Context (Henough : forall m n, 0 <= n -> malloc m n <> None).
Context (new_node : gmap Z Z -> option Z).
Context (Hnew : forall next el, new_node next = Some el -> next !! el = None /\ el <> NULL).

(** Moving a string of the stack type makes a copy. *)
Lemma move_stack m dst p s : copyable m p s -> prop_tag p = PROPERTY_STACK_TAG ->
  exists m' q, property_move malloc types m dst p = Some (m', q, p_null) /\ stored m' q s /\ Property.size q = Property.size p /\ flags q = dyn_flags /\
    grown m m' (prop_blocks q).
Proof.
  intros Hc Htag. destruct (property_copy_stored malloc Henough m p s Hc) as (m1 & q & E & Hs & Hg). destruct Hc as (Hb & Ht & Hcs & _).
  unfold property_copy in E. rewrite get_property_type_tag, Htag in E. cbn [Z.eqb Pos.eqb PROPERTY_STACK_TAG] in E.
  assert (Hq : Property.size q = Property.size p /\ flags q = dyn_flags).
  { pose proof E as E'. unfold stack_copy in E'. rewrite (dynmc_copy_owner malloc m (owned p) s) in E';
      [| by apply owned_flags | by rewrite prop_text_owned | done]. destruct (dup_bytes malloc m s). by simplify_eq. }
  exists m1, q. unfold property_move. rewrite get_property_type_tag, Htag. cbn [Z.eqb Pos.eqb PROPERTY_STACK_TAG]. rewrite E. cbn [mbind option_bind].
  unfold property_free. rewrite get_property_type_tag.
  assert (Ht3 : prop_tag (owned p) = 3).
  { unfold prop_tag, owned in *. cbn [flags]. revert Htag. clear -Hb.
    assert (Hall : forallb (fun f => (Z.land 63 (Z.lor f 128) =? Z.land 63 f)) (seqZ 0 256) = true) by by vm_compute.
    pose proof (forall_byte _ Hall _ Hb) as H'. cbv beta in H'. apply Z.eqb_eq in H'. unfold PROPERTY_BASE_MASK, is_owner, PROPERTY_STACK_TAG in *. by rewrite H'. }
  rewrite Ht3. cbn [Z.eqb Pos.eqb]. split; [by destruct (flag _ _)|]. by destruct Hq.
Qed.

(** A copy shares the bytes of a constant or is a new block. *)
Definition copy_of (m : memory) (p q : property_t) : Prop := value q = value p \/ m !! value q = None.

Lemma property_copy_of m p s m' q : copyable m p s -> property_copy malloc types m p = Some (m', q) -> copy_of m p q.
Proof.
  assert (Hdup : forall s v m1, dup_bytes malloc m s = (m1, v) -> m !! v = None).
  { intros t v m1 E. unfold dup_bytes in E. destruct (malloc m (zlen t + 1)) as [[a b]|] eqn:Em; [|by apply Henough in Em; [|zl]]. simplify_eq. by eapply malloc_fresh. }
  assert (Hdyn : forall p', value p' = value p -> dynmc_copy malloc m p' = Some (m', q) -> copy_of m p q).
  { intros p' Hp' E. unfold dynmc_copy, strndup, strdup in E. destruct (negb _); [left; by simplify_eq|]. right.
    destruct (flag p' is_raw), (bytes_at m (value p')) as [b|]; cbn [mbind option_bind] in E; try done;
      [destruct (cstrn b _) as [t|] | destruct (cstr b) as [t|]]; cbn [mbind option_bind] in E; try done; destruct (dup_bytes malloc m t) as [m1 v] eqn:Ed; simplify_eq; by eapply Hdup. }
  intros (_ & _ & _ & Htag) E. unfold property_copy in E. rewrite get_property_type_tag in E.
  destruct Htag as [(Ht & _) | [(Ht & _) | Ht]]; rewrite Ht in E; cbn [Z.eqb Pos.eqb PROPERTY_CONST_TAG PROPERTY_DYNAMIC_TAG PROPERTY_STACK_TAG] in E; [unfold const_copy in E; injection E as _ <-; by left | by apply (Hdyn p) | by apply (Hdyn (owned p))].
Qed.

(** Adding to a map: a new owner of the two texts, another map stays. *)
Lemma add_owned w root es key value k v el ps : map_rep w root es -> copyable (w_mem w) key k -> copyable (w_mem w) value v -> new_node (w_next w) = Some el ->
  owns (w_mem w) ps ->
  exists w' root' e, property_map_add malloc new_node types w root key value = Some (0, w', root') /\ map_rep w' root' (es ++ [e]) /\
    e_node e = el /\ e_ktext e = k /\ e_vtext e = v /\ copy_of (w_mem w) key (e_key e) /\ copy_of (w_mem w) value (e_val e) /\
    grown (w_mem w) (w_mem w') (owned_blocks (props_of [e])) /\ owns (w_mem w') (props_of [e] ++ ps) /\
    forall root2 es2, map_rep w root2 es2 -> (forall n, n ∈ map e_node es -> n ∉ map e_node es2) -> (el ∉ map e_node es2) /\ map_rep w' root2 es2.
Proof.
  intros Hm Hk Hv Hel Ho. destruct (Hnew _ _ Hel) as [Hfree H0].
  destruct (property_map_add_rep malloc Henough new_node Hnew w root es key value k v el Hm Hk Hv Hel) as (w' & root' & e & E & Hm' & Hek & Hev & Hg).
  assert (Hb : entry_blocks e = owned_blocks (props_of [e])) by (rewrite <- blocks_of_props; unfold blocks_of; cbn; by rewrite app_nil_r). rewrite Hb in Hg.
  pose proof E as Ea. unfold property_map_add in Ea. rewrite Hel in Ea.
  destruct (property_copy_stored malloc Henough (w_mem w) key k Hk) as (mk & qk & Ek & _ & Hgk). rewrite Ek in Ea. cbn [mbind option_bind] in Ea.
  destruct (property_copy malloc types mk value) as [[m2 vp]|] eqn:Evp; [|done]. cbn [mbind option_bind] in Ea.
  unfold LinkedList.arrow_linked_list_add_node_last in Ea.
  destruct (LinkedList.arrow_linked_list_add (<[el:=NULL]> (w_next w)) root el) as [[nx r']|] eqn:El; [|done]. cbn [mbind option_bind] in Ea. injection Ea as Ew Er.
  assert (Hout : forall root2 es2, map_rep w root2 es2 -> el ∉ map e_node es2).
  { intros root2 es2 Hm2 Hin. apply list_elem_of_fmap in Hin as (e2 & E2 & Hin). destruct (map_node_live w root2 es2 e2 Hm2 Hin) as [[x Hx] _]. rewrite <- E2, Hfree in Hx. done. }
  pose proof (Hout _ _ Hm) as Hines. assert (Hne : e_node e = el).
  { pose proof (rep_list _ _ _ Hm') as Hl. rewrite map_app in Hl. cbn [map] in Hl.
    destruct (LinkedList.add_last_list (<[el := NULL]> (w_next w)) root (map e_node es) el) as (nx2 & r2 & E2 & Hl2);
      [by apply LinkedList.is_list_store, Hm | rewrite lookup_insert_eq; by eexists | done | done |].
    rewrite El in E2. injection E2 as -> ->. rewrite <- Ew, <- Er in Hl. cbn [w_next] in Hl. pose proof (LinkedList.is_list_unique _ _ _ _ Hl Hl2) as Eq.
    by apply app_inj_2 in Eq as [_ [= ->]]. }
  assert (Hkv : (qk, vp) = (e_key e, e_val e)).
  { pose proof (rep_entries _ _ _ Hm') as He. apply Forall_app in He as [_ He]. apply Forall_cons in He as [(He & _) _]. rewrite Hne, <- Ew in He. cbn [w_nodes] in He. rewrite lookup_insert_eq in He. congruence. }
  injection Hkv as -> ->.
  exists w', root', e. split_and!; try done.
  - by eapply property_copy_of.
  - destruct (property_copy_of mk value v m2 (e_val e)) as [Hs | Hs]; [by eapply copyable_grown | done | by left | right].
    destruct (w_mem w !! Property.value (e_val e)) eqn:Ex; [|done]. rewrite (g_same _ _ _ Hgk) in Hs by (by eexists). congruence.
  - apply owns_grown with (w_mem w); [done | | done]. apply (props_of_held w'). pose proof (rep_entries _ _ _ Hm') as He. by apply Forall_app in He as [_ He].
  - intros root2 es2 Hm2 Hd. split; [by apply (Hout root2)|]. apply (map_rep_frame w); [done | |].
    + intros n Hn. assert (n <> el) by (intros ->; by apply (Hout root2 es2)). rewrite <- Ew. cbn [w_next w_nodes]. split; [|by apply lookup_insert_ne].
      rewrite (LinkedList.add_last_frame (<[el:=NULL]> (w_next w)) root (map e_node es) el nx r'); [by apply lookup_insert_ne | by apply LinkedList.is_list_store, Hm | done | done | done | done | by intros Hin; apply (Hd n)].
    + intros p s _ Hs. by eapply stored_grown.
Qed.
End add.
End PropOwn.
