(* ===== verification/JsonUtf8.v ===== *)
(** src/src/json/json.c, the Unicode helpers: validation, decoding and encoding
    of UTF-8, UTF-16 surrogate pairs and four-digit hexadecimal numbers.

    A pointer into a string is the list of the bytes from there to the end of
    its memory; reading past the end is [None]. *)
From S2P Require Import Prelude.

Module JsonUtf8.

(** [( *s++ & 0xC0) != 0x80] *)
Definition not_tail (b : Z) : bool := negb (Z.land b 192 =? 128).

Definition utf8_validate_cz (s : list Z) : option Z :=
  c ← rd s 0;
  if c <=? 127 then Some 1
  else if c <=? 193 then Some 0
  else if c <=? 223 then
    b1 ← rd s 1; if not_tail b1 then Some 0 else Some 2
  else if c <=? 239 then
    b1 ← rd s 1;
    if (c =? 224) && (b1 <? 160) then Some 0 else
    if (c =? 237) && (159 <? b1) then Some 0 else
    if not_tail b1 then Some 0 else
    b2 ← rd s 2; if not_tail b2 then Some 0 else Some 3
  else if c <=? 244 then
    b1 ← rd s 1;
    if (c =? 240) && (b1 <? 144) then Some 0 else
    if (c =? 244) && (143 <? b1) then Some 0 else
    if not_tail b1 then Some 0 else
    b2 ← rd s 2; if not_tail b2 then Some 0 else
    b3 ← rd s 3; if not_tail b3 then Some 0 else Some 4
  else Some 0.

(** The loop of [utf8_validate]; each round consumes at least one byte. *)
Fixpoint validate_loop (fuel : nat) (s : list Z) : option bool :=
  match fuel with
  | O => None
  | S fuel' =>
      c ← rd s 0;
      if c =? 0 then Some true else
      len ← utf8_validate_cz s;
      if len =? 0 then Some false else validate_loop fuel' (drop (Z.to_nat len) s)
  end.

Definition utf8_validate (s : list Z) : option bool := validate_loop (S (length s)) s.

(** Returns the code point and the number of bytes read. *)
Definition utf8_read_char (c : list Z) : option (Z * Z) :=
  c0 ← rd c 0;
  if c0 <=? 127 then Some (c0, 1)
  else if c0 <=? 223 then
    c1 ← rd c 1;
    Some (Z.lor (Z.shiftl (Z.land c0 31) 6) (Z.land c1 63), 2)
  else if c0 <=? 239 then
    c1 ← rd c 1; c2 ← rd c 2;
    Some (Z.lor (Z.lor (Z.shiftl (Z.land c0 15) 12) (Z.shiftl (Z.land c1 63) 6)) (Z.land c2 63), 3)
  else
    c1 ← rd c 1; c2 ← rd c 2; c3 ← rd c 3;
    Some (Z.lor (Z.lor (Z.lor (Z.shiftl (Z.land c0 7) 18) (Z.shiftl (Z.land c1 63) 12))
      (Z.shiftl (Z.land c2 63) 6)) (Z.land c3 63), 4).

(** The bytes written to [out]; their number is the return value. *)
Definition utf8_write_char (unicode : Z) : list Z :=
  if unicode <=? 127 then [u8 unicode]
  else if unicode <=? 2047 then
    [u8 (Z.lor 192 (Z.shiftr unicode 6)); u8 (Z.lor 128 (Z.land unicode 63))]
  else if unicode <=? 65535 then
    [u8 (Z.lor 224 (Z.shiftr unicode 12)); u8 (Z.lor 128 (Z.land (Z.shiftr unicode 6) 63));
     u8 (Z.lor 128 (Z.land unicode 63))]
  else
    [u8 (Z.lor 240 (Z.shiftr unicode 18)); u8 (Z.lor 128 (Z.land (Z.shiftr unicode 12) 63));
     u8 (Z.lor 128 (Z.land (Z.shiftr unicode 6) 63)); u8 (Z.lor 128 (Z.land unicode 63))].

Definition from_surrogate_pair (uc lc : Z) : option Z :=
  if (55296 <=? uc) && (uc <=? 56319) && (56320 <=? lc) && (lc <=? 57343)
  then Some (65536 + Z.lor (Z.shiftl (Z.land uc 1023) 10) (Z.land lc 1023)) else None.

Definition to_surrogate_pair (unicode : Z) : Z * Z :=
  let n := u32 (unicode - 65536) in
  (u16 (Z.lor (Z.land (Z.shiftr n 10) 1023) 55296), u16 (Z.lor (Z.land n 1023) 56320)).

(** One digit of [parse_hex16]. *)
Definition hex_digit (c : Z) : option Z :=
  if (48 <=? c) && (c <=? 57) then Some (c - 48)
  else if (65 <=? c) && (c <=? 70) then Some (c - 65 + 10)
  else if (97 <=? c) && (c <=? 102) then Some (c - 97 + 10)
  else None.

(** [None]: reads past the end; [Some None]: not four hex digits; otherwise the
    number and what is left. *)
Fixpoint hex_loop (n : nat) (s : list Z) (ret : Z) : option (option (Z * list Z)) :=
  match n with
  | O => Some (Some (ret, s))
  | S n' =>
      match s with
      | [] => None
      | c :: s' =>
          match hex_digit c with
          | None => Some None
          | Some tmp => hex_loop n' s' (u16 (u16 (Z.shiftl ret 4) + tmp))
          end
      end
  end.

Definition parse_hex16 (s : list Z) : option (option (Z * list Z)) := hex_loop 4 s 0.

Definition hex_char (d : Z) : Z := default 0 (lit "0123456789ABCDEF" !! Z.to_nat d).

Definition write_hex16 (val : Z) : list Z :=
  [hex_char (Z.land (Z.shiftr val 12) 15); hex_char (Z.land (Z.shiftr val 8) 15);
   hex_char (Z.land (Z.shiftr val 4) 15); hex_char (Z.land val 15)].

(** ** Arithmetic of the masks *)

(** A Unicode scalar value. *)
Definition scalar (u : Z) : Prop := 0 <= u <= 1114111 /\ ~ (55296 <= u <= 57343).

#[global] Instance scalar_dec u : Decision (scalar u).
Proof. unfold scalar. apply _. Defined.

Lemma land_63 z : Z.land z 63 = z mod 64.
Proof. apply (Z.land_ones z 6). lia. Qed.

Lemma tail_byte z : u8 (Z.lor 128 (Z.land z 63)) = 128 + z mod 64.
Proof.
  rewrite land_63.
  apply Z.eqb_eq, (forall_range (fun y => u8 (Z.lor 128 y) =? 128 + y) 64); [by vm_compute | lia_mod].
Qed.

Lemma lead_bytes y :
  (0 <= y < 32 -> u8 (Z.lor 192 y) = 192 + y) /\ (0 <= y < 16 -> u8 (Z.lor 224 y) = 224 + y) /\
  (0 <= y < 8 -> u8 (Z.lor 240 y) = 240 + y).
Proof.
  split; [|split]; intros Hy; apply Z.eqb_eq.
  - apply (forall_range (fun y => u8 (Z.lor 192 y) =? 192 + y) 32); [by vm_compute | done].
  - apply (forall_range (fun y => u8 (Z.lor 224 y) =? 224 + y) 16); [by vm_compute | done].
  - apply (forall_range (fun y => u8 (Z.lor 240 y) =? 240 + y) 8); [by vm_compute | done].
Qed.

Lemma not_tail_range b : is_byte b -> not_tail b = negb ((128 <=? b) && (b <? 192)).
Proof.
  intros Hb. apply eqb_true_iff.
  apply (forall_byte (fun b => eqb (not_tail b) (negb ((128 <=? b) && (b <? 192))))); [by vm_compute | done].
Qed.

(** The encoding, with the masks as divisions. *)
Lemma write_char_div u :
  0 <= u <= 1114111 ->
  utf8_write_char u =
    if u <=? 127 then [u]
    else if u <=? 2047 then [192 + u / 64; 128 + u mod 64]
    else if u <=? 65535 then [224 + u / 4096; 128 + (u / 64) mod 64; 128 + u mod 64]
    else [240 + u / 262144; 128 + (u / 4096) mod 64; 128 + (u / 64) mod 64; 128 + u mod 64].
Proof.
  intros Hu. unfold utf8_write_char. rewrite !tail_byte, !Z.shiftr_div_pow2 by lia.
  change (2 ^ 6) with 64. change (2 ^ 12) with 4096. change (2 ^ 18) with 262144.
  destruct (Z.leb_spec u 127); [by rewrite u8_id by (unfold is_byte; lia)|].
  destruct (Z.leb_spec u 2047); [by rewrite (proj1 (lead_bytes (u / 64))) by lia_mod|].
  destruct (Z.leb_spec u 65535); [by rewrite (proj1 (proj2 (lead_bytes (u / 4096)))) by lia_mod|].
  by rewrite (proj2 (proj2 (lead_bytes (u / 262144)))) by lia_mod.
Qed.

(** The disjunction of disjoint fields is their sum. *)
Lemma lor_add a b k : 0 <= k -> 0 <= b < 2 ^ k -> Z.lor (Z.shiftl a k) b = a * 2 ^ k + b.
Proof.
  intros Hk Hb. rewrite Z.shiftl_mul_pow2 by lia.
  assert (Hand : Z.land (a * 2 ^ k) b = 0).
  { apply Z.bits_inj'. intros n Hn. rewrite Z.land_spec, Z.bits_0.
    destruct (Z.lt_ge_cases n k); [by rewrite Z.mul_pow2_bits_low by lia|].
    rewrite <- (Z.mod_small b (2 ^ k)) by lia. rewrite Z.mod_pow2_bits_high by lia. apply andb_false_r. }
  rewrite <- Z.lxor_lor by done. symmetry. by apply Z.add_nocarry_lxor.
Qed.

(** What [utf8_read_char] computes, with sums for disjunctions. *)
Lemma read_char_div c0 c1 c2 c3 r :
  utf8_read_char (c0 :: r) =
    (if c0 <=? 127 then Some (c0, 1) else utf8_read_char (c0 :: r)) /\
  (127 < c0 <= 223 -> utf8_read_char (c0 :: c1 :: r) = Some (c0 mod 32 * 64 + c1 mod 64, 2)) /\
  (223 < c0 <= 239 -> utf8_read_char (c0 :: c1 :: c2 :: r) =
     Some (c0 mod 16 * 4096 + c1 mod 64 * 64 + c2 mod 64, 3)) /\
  (239 < c0 -> utf8_read_char (c0 :: c1 :: c2 :: c3 :: r) =
     Some (c0 mod 8 * 262144 + c1 mod 64 * 4096 + c2 mod 64 * 64 + c3 mod 64, 4)).
Proof.
  assert (Hl : forall z, Z.land z 31 = z mod 32 /\ Z.land z 15 = z mod 16 /\ Z.land z 7 = z mod 8).
  { intros z. split; [apply (Z.land_ones z 5); lia|]. split; [apply (Z.land_ones z 4) | apply (Z.land_ones z 3)]; lia. }
  unfold utf8_read_char. rewrite !rd_cons_0. cbn [mbind option_bind].
  split; [by destruct (c0 <=? 127)|].
  split; [|split]; intros Hc; replace (c0 <=? 127) with false by lia.
  - replace (c0 <=? 223) with true by lia. change (rd (c0 :: c1 :: r) 1) with (Some c1). cbn [mbind option_bind].
    rewrite (proj1 (Hl c0)), land_63, lor_add by lia_mod. done.
  - replace (c0 <=? 223) with false by lia. replace (c0 <=? 239) with true by lia.
    change (rd (c0 :: c1 :: c2 :: r) 1) with (Some c1). change (rd (c0 :: c1 :: c2 :: r) 2) with (Some c2).
    cbn [mbind option_bind]. rewrite (proj1 (proj2 (Hl c0))), !land_63.
    rewrite <- Z.lor_assoc. rewrite (lor_add (c1 mod 64)) by lia_mod. rewrite lor_add by lia_mod.
    change (2 ^ 12) with 4096. change (2 ^ 6) with 64. f_equal. f_equal. lia.
  - replace (c0 <=? 223) with false by lia. replace (c0 <=? 239) with false by lia.
    change (rd (c0 :: c1 :: c2 :: c3 :: r) 1) with (Some c1). change (rd (c0 :: c1 :: c2 :: c3 :: r) 2) with (Some c2).
    change (rd (c0 :: c1 :: c2 :: c3 :: r) 3) with (Some c3).
    cbn [mbind option_bind]. rewrite (proj2 (proj2 (Hl c0))), !land_63.
    rewrite <- !Z.lor_assoc. rewrite (lor_add (c2 mod 64)) by lia_mod. rewrite (lor_add (c1 mod 64)) by lia_mod.
    rewrite lor_add by lia_mod.
    change (2 ^ 18) with 262144. change (2 ^ 12) with 4096. change (2 ^ 6) with 64. f_equal. f_equal. lia.
Qed.

Lemma write_char_shape u :
  scalar u ->
  exists c t, utf8_write_char u = c :: t /\ is_byte c /\ Forall (fun b => 128 <= b < 192) t /\
    zlen (c :: t) = (if u <=? 127 then 1 else if u <=? 2047 then 2 else if u <=? 65535 then 3 else 4) /\
    (u <> 0 -> 1 <= c).
Proof.
  intros [Hu Hs]. rewrite write_char_div by done. unfold is_byte.
  destruct (Z.leb_spec u 127); [|destruct (Z.leb_spec u 2047); [|destruct (Z.leb_spec u 65535)]];
    eexists _, _; (split; [reflexivity|]); (split; [lia_mod|]); split; try done; repeat constructor; lia_mod.
Qed.

(** Decoding inverts encoding. *)
Lemma read_write_char u r :
  scalar u -> utf8_read_char (utf8_write_char u ++ r) = Some (u, zlen (utf8_write_char u)).
Proof.
  intros [Hu Hs]. rewrite write_char_div by done.
  destruct (Z.leb_spec u 127); [|destruct (Z.leb_spec u 2047); [|destruct (Z.leb_spec u 65535)]]; cbn [app].
  - rewrite (proj1 (read_char_div u 0 0 0 r)). by replace (u <=? 127) with true by lia.
  - destruct (read_char_div (192 + u / 64) (128 + u mod 64) 0 0 r) as (_ & -> & _); [|lia_mod].
    f_equal. f_equal. lia_mod.
  - destruct (read_char_div (224 + u / 4096) (128 + (u / 64) mod 64) (128 + u mod 64) 0 r) as (_ & _ & -> & _); [|lia_mod].
    f_equal. f_equal. lia_mod.
  - destruct (read_char_div (240 + u / 262144) (128 + (u / 4096) mod 64) (128 + (u / 64) mod 64) (128 + u mod 64) r)
      as (_ & _ & _ & ->); [|lia_mod]. f_equal. f_equal. lia_mod.
Qed.

(** Every encoding of a scalar value is accepted. *)
Lemma validate_write_char u r :
  scalar u -> utf8_validate_cz (utf8_write_char u ++ r) = Some (zlen (utf8_write_char u)).
Proof.
  intros [Hu Hs]. rewrite write_char_div by done.
  assert (Ht : forall x, not_tail (128 + x mod 64) = false).
  { intros x. rewrite not_tail_range by (unfold is_byte; lia_mod). apply negb_false_iff.
    apply andb_true_iff. rewrite Z.leb_le, Z.ltb_lt. lia_mod. }
  unfold utf8_validate_cz.
  destruct (Z.leb_spec u 127); [|destruct (Z.leb_spec u 2047); [|destruct (Z.leb_spec u 65535)]]; cbn [app];
    rewrite rd_cons_0; cbn [mbind option_bind].
  - by replace (u <=? 127) with true by lia.
  - replace (192 + u / 64 <=? 127) with false by (symmetry; apply Z.leb_gt; lia_mod).
    replace (192 + u / 64 <=? 193) with false by (symmetry; apply Z.leb_gt; lia_mod).
    replace (192 + u / 64 <=? 223) with true by (symmetry; apply Z.leb_le; lia_mod).
    unfold rd. simpl. by rewrite Ht.
  - replace (224 + u / 4096 <=? 127) with false by (symmetry; apply Z.leb_gt; lia_mod).
    replace (224 + u / 4096 <=? 193) with false by (symmetry; apply Z.leb_gt; lia_mod).
    replace (224 + u / 4096 <=? 223) with false by (symmetry; apply Z.leb_gt; lia_mod).
    replace (224 + u / 4096 <=? 239) with true by (symmetry; apply Z.leb_le; lia_mod).
    unfold rd. simpl. rewrite !Ht.
    replace ((224 + u / 4096 =? 224) && (128 + (u / 64) mod 64 <? 160)) with false.
    2: { symmetry. apply andb_false_iff. rewrite Z.eqb_neq, Z.ltb_ge. lia_mod. }
    replace ((224 + u / 4096 =? 237) && (159 <? 128 + (u / 64) mod 64)) with false; [done|].
    symmetry. apply andb_false_iff. rewrite Z.eqb_neq, Z.ltb_ge. lia_mod.
  - replace (240 + u / 262144 <=? 127) with false by (symmetry; apply Z.leb_gt; lia_mod).
    replace (240 + u / 262144 <=? 193) with false by (symmetry; apply Z.leb_gt; lia_mod).
    replace (240 + u / 262144 <=? 223) with false by (symmetry; apply Z.leb_gt; lia_mod).
    replace (240 + u / 262144 <=? 239) with false by (symmetry; apply Z.leb_gt; lia_mod).
    replace (240 + u / 262144 <=? 244) with true by (symmetry; apply Z.leb_le; lia_mod).
    unfold rd. simpl. rewrite !Ht.
    replace ((240 + u / 262144 =? 240) && (128 + (u / 4096) mod 64 <? 144)) with false.
    2: { symmetry. apply andb_false_iff. rewrite Z.eqb_neq, Z.ltb_ge. lia_mod. }
    replace ((240 + u / 262144 =? 244) && (143 <? 128 + (u / 4096) mod 64)) with false; [done|].
    symmetry. apply andb_false_iff. rewrite Z.eqb_neq, Z.ltb_ge. lia_mod.
Qed.

(** Whatever is accepted is the encoding of a scalar value. *)
Lemma validate_cz_sound s n :
  Forall is_byte s -> utf8_validate_cz s = Some n -> n <> 0 ->
  exists u r, scalar u /\ s = utf8_write_char u ++ r /\ n = zlen (utf8_write_char u).
Proof.
  intros Hb E Hn. unfold utf8_validate_cz in E. destruct s as [|c s]; [done|].
  apply Forall_cons in Hb as [Hc Hb]. rewrite rd_cons_0 in E. cbn [mbind option_bind] in E.
  assert (Hfin : forall u r n, scalar u -> c :: s = utf8_write_char u ++ r -> n = zlen (utf8_write_char u) ->
    exists u r, scalar u /\ c :: s = utf8_write_char u ++ r /\ n = zlen (utf8_write_char u)).
  { intros u r n' H1 H2 H3. by exists u, r. }
  assert (Htail : forall x, is_byte x -> not_tail x = false -> 128 <= x < 192).
  { intros x Hx. rewrite not_tail_range by done. rewrite negb_false_iff, andb_true_iff, Z.leb_le, Z.ltb_lt. lia. }
  unfold is_byte in Hc.
  destruct (Z.leb_spec c 127).
  { simplify_eq. apply (Hfin c s); [unfold scalar; lia | |]; rewrite write_char_div by lia;
      by replace (c <=? 127) with true by lia. }
  destruct (Z.leb_spec c 193); [congruence|]. unfold rd in E. simpl in E.
  destruct (Z.leb_spec c 223).
  { destruct s as [|b1 s]; [done|]. simpl in E. apply Forall_cons in Hb as [Hb1 Hb].
    destruct (not_tail b1) eqn:E1; [congruence|]. apply Htail in E1; [|done]. simplify_eq.
    apply (Hfin ((c - 192) * 64 + (b1 - 128)) s); [unfold scalar; lia | |]; rewrite write_char_div by lia;
      replace ((c - 192) * 64 + (b1 - 128) <=? 127) with false by lia;
      replace ((c - 192) * 64 + (b1 - 128) <=? 2047) with true by lia; [|done].
    simpl. f_equal; [lia_mod|]. f_equal. lia_mod. }
  destruct (Z.leb_spec c 239).
  { destruct s as [|b1 [|b2 s]]; simpl in E; [done | |];
      (destruct ((c =? 224) && (b1 <? 160)) eqn:G1; [congruence|]);
      (destruct ((c =? 237) && (159 <? b1)) eqn:G2; [congruence|]);
      (destruct (not_tail b1) eqn:E1; [congruence|]); [done|].
    destruct (not_tail b2) eqn:E2; [congruence|].
    apply Forall_cons in Hb as [Hb1 Hb]. apply Forall_cons in Hb as [Hb2 Hb].
    apply Htail in E1; [|done]. apply Htail in E2; [|done]. simplify_eq.
    apply andb_false_iff in G1, G2. rewrite Z.eqb_neq, Z.ltb_ge in G1, G2.
    apply (Hfin ((c - 224) * 4096 + (b1 - 128) * 64 + (b2 - 128)) s); [unfold scalar; lia | |];
      rewrite write_char_div by lia;
      replace ((c - 224) * 4096 + (b1 - 128) * 64 + (b2 - 128) <=? 127) with false by lia;
      replace ((c - 224) * 4096 + (b1 - 128) * 64 + (b2 - 128) <=? 2047) with false by lia;
      replace ((c - 224) * 4096 + (b1 - 128) * 64 + (b2 - 128) <=? 65535) with true by lia; [|done].
    simpl. repeat (f_equal; [lia_mod|]). f_equal. lia_mod. }
  destruct (Z.leb_spec c 244); [|congruence].
  destruct s as [|b1 [|b2 [|b3 s]]]; simpl in E; [done | | |];
    (destruct ((c =? 240) && (b1 <? 144)) eqn:G1; [congruence|]);
    (destruct ((c =? 244) && (143 <? b1)) eqn:G2; [congruence|]);
    (destruct (not_tail b1) eqn:E1; [congruence|]); [done | |];
    (destruct (not_tail b2) eqn:E2; [congruence|]); [done|].
  destruct (not_tail b3) eqn:E3; [congruence|].
  apply Forall_cons in Hb as [Hb1 Hb]. apply Forall_cons in Hb as [Hb2 Hb]. apply Forall_cons in Hb as [Hb3 Hb].
  apply Htail in E1; [|done]. apply Htail in E2; [|done]. apply Htail in E3; [|done]. simplify_eq.
  apply andb_false_iff in G1, G2. rewrite Z.eqb_neq, Z.ltb_ge in G1, G2.
  set (u := (c - 240) * 262144 + (b1 - 128) * 4096 + (b2 - 128) * 64 + (b3 - 128)).
  apply (Hfin u s); [unfold scalar, u; lia | |]; rewrite write_char_div by (unfold u; lia);
    replace (u <=? 127) with false by (unfold u; lia); replace (u <=? 2047) with false by (unfold u; lia);
    replace (u <=? 65535) with false by (unfold u; lia); [|done].
  simpl. unfold u. repeat (f_equal; [lia_mod|]). f_equal. lia_mod.
Qed.

(** ** Strings *)

(** The text of a list of scalar values, none of them the terminator. *)
Definition chars (us : list Z) : Prop := Forall (fun u => scalar u /\ u <> 0) us.
Definition text (us : list Z) : list Z := concat (map utf8_write_char us).
Definition well_formed (s : list Z) : Prop := exists us, chars us /\ s = text us.

Lemma write_char_cstr u : scalar u -> u <> 0 -> is_cstr (utf8_write_char u) /\ 1 <= zlen (utf8_write_char u) <= 4.
Proof.
  intros Hs H0. destruct (write_char_shape u Hs) as (c & t & -> & Hc & Ht & Hl & Hpos). split.
  - constructor; [unfold is_byte in Hc; lia|]. apply (Forall_impl _ _ _ Ht). lia.
  - rewrite Hl. bool_cases; lia.
Qed.

Lemma text_cstr us : chars us -> is_cstr (text us).
Proof.
  induction 1 as [|u us [Hs H0] Hus IH]; [constructor|]. apply Forall_app. split; [|done].
  by apply write_char_cstr.
Qed.

(** A zero-free prefix of a terminated string ends before the terminator. *)
Lemma prefix_of_cstr (a x s r : list Z) :
  is_cstr a -> a ++ x = s ++ 0 :: r -> exists s', s = a ++ s' /\ x = s' ++ 0 :: r.
Proof.
  intros Ha. revert s. induction Ha as [|b a Hb Ha IH]; intros s E; [by exists s|].
  destruct s as [|c s]; simpl in E; injection E as -> E; [lia|].
  destruct (IH s E) as (s' & -> & ->). by exists s'.
Qed.

(** Validation does not read past a terminator. *)
Lemma validate_cz_total c s r :
  is_cstr (c :: s) -> exists n, utf8_validate_cz ((c :: s) ++ 0 :: r) = Some n.
Proof.
  intros Hs. apply Forall_cons in Hs as [Hc Hs]. cbn [app].
  assert (H0 : not_tail 0 = true) by done.
  unfold utf8_validate_cz. rewrite rd_cons_0. cbn [mbind option_bind].
  destruct (c <=? 127); [eauto|]. destruct (c <=? 193); [eauto|].
  destruct s as [|b1 s]; unfold rd; simpl.
  { rewrite ?H0. bool_cases; eauto. }
  destruct (c <=? 223); [destruct (not_tail b1); eauto|].
  destruct s as [|b2 s]; simpl.
  { rewrite ?H0. bool_cases; eauto. }
  destruct s as [|b3 s]; simpl; rewrite ?H0; bool_cases; eauto.
Qed.

(** One character of a terminated string: accepted exactly when the string
    starts with the encoding of a scalar value. *)
Lemma validate_cz_cstr s r :
  is_cstr s -> s <> [] -> Forall is_byte r ->
  (exists u s', scalar u /\ u <> 0 /\ s = utf8_write_char u ++ s' /\
     utf8_validate_cz (s ++ 0 :: r) = Some (zlen (utf8_write_char u))) \/
  utf8_validate_cz (s ++ 0 :: r) = Some 0 /\ (forall u s', scalar u -> u <> 0 -> s <> utf8_write_char u ++ s').
Proof.
  intros Hs Hne Hr. destruct s as [|c s]; [done|]. destruct (validate_cz_total c s r Hs) as [n E].
  assert (Hc : 1 <= c < 256) by by apply Forall_cons in Hs as [].
  destruct (Z.eq_dec n 0) as [-> | Hn].
  - right. split; [done|]. intros u s' Hu H0 Heq. rewrite Heq, <- app_assoc, validate_write_char in E by done.
    destruct (write_char_cstr u Hu H0). injection E. lia.
  - left. destruct (validate_cz_sound ((c :: s) ++ 0 :: r) n) as (u & x & Hu & Hx & ->); [|done | done |].
    { apply Forall_app. split; [by apply is_cstr_bytes|]. by constructor. }
    assert (H0 : u <> 0).
    { intros ->. change (utf8_write_char 0) with [0] in Hx. cbn [app] in Hx. injection Hx as -> _. lia. }
    destruct (prefix_of_cstr (utf8_write_char u) x (c :: s) r) as (s' & Hs' & _); [by apply write_char_cstr | done |].
    by exists u, s'.
Qed.

Lemma validate_loop_spec s r fuel :
  is_cstr s -> Forall is_byte r -> (length s < fuel)%nat ->
  exists b, validate_loop fuel (s ++ 0 :: r) = Some b /\ (b = true <-> well_formed s).
Proof.
  revert s. induction fuel as [|fuel IH]; intros s Hs Hr Hf; [lia|]. destruct s as [|c s].
  { exists true. split; [done|]. split; [|done]. intros _. exists []. by split; [constructor|]. }
  assert (Hrd : rd ((c :: s) ++ 0 :: r) 0 = Some c) by done.
  assert (Hc : 1 <= c < 256) by by apply Forall_cons in Hs as [].
  cbn [validate_loop]. rewrite Hrd. cbn [mbind option_bind]. replace (c =? 0) with false by lia.
  destruct (validate_cz_cstr (c :: s) r Hs) as [(u & s' & Hu & H0 & Heq & ->) | [-> Hno]]; [done | done | |];
    cbn [mbind option_bind].
  - destruct (write_char_cstr u Hu H0) as [Hcs Hl]. replace (zlen (utf8_write_char u) =? 0) with false by lia.
    rewrite Heq, <- app_assoc, drop_app_zlen by done.
    assert (Hs' : is_cstr s') by (rewrite Heq in Hs; by apply Forall_app in Hs as []).
    destruct (IH s' Hs' Hr) as (b & -> & Hb). { apply (f_equal length) in Heq. rewrite length_app in Heq. zl. }
    exists b. split; [done|]. rewrite Hb. split.
    + intros (us & Hus & ->). exists (u :: us). split; [by constructor | done].
    + intros (us & Hus & Ht). destruct Hus as [|v us [Hv Hv0] Hus].
      { destruct (utf8_write_char u); [zl | done]. }
      assert (E : utf8_read_char (utf8_write_char u ++ s') = utf8_read_char (utf8_write_char v ++ text us))
        by by rewrite Ht.
      rewrite !read_write_char in E by done. injection E as -> _. apply app_inv_head in Ht as ->. by exists us.
  - replace (0 =? 0) with true by done. exists false. split; [done|]. split; [done|].
    intros (us & Hus & Ht). destruct Hus as [|v us [Hv Hv0] Hus]; [done|]. by destruct (Hno v (text us)).
Qed.

(** ** UTF-16 *)

Lemma surrogate_arith u :
  65536 <= u <= 1114111 ->
  to_surrogate_pair u = (55296 + (u - 65536) / 1024, 56320 + (u - 65536) mod 1024).
Proof.
  intros Hu. unfold to_surrogate_pair. rewrite u32_id by lia.
  assert (Hl : forall z, Z.land z 1023 = z mod 1024) by (intros z; apply (Z.land_ones z 10); lia).
  rewrite !Hl, Z.shiftr_div_pow2 by lia. change (2 ^ 10) with 1024.
  assert (Hor : forall y, 0 <= y < 1024 -> u16 (Z.lor y 55296) = 55296 + y /\ u16 (Z.lor y 56320) = 56320 + y).
  { intros y Hy.
    assert (Hc : (u16 (Z.lor y 55296) =? 55296 + y) && (u16 (Z.lor y 56320) =? 56320 + y) = true).
    { apply (forall_range (fun y => (u16 (Z.lor y 55296) =? 55296 + y) && (u16 (Z.lor y 56320) =? 56320 + y)) 1024);
        [by vm_compute | done]. }
    rewrite andb_true_iff, !Z.eqb_eq in Hc. done. }
  destruct (Hor (((u - 65536) / 1024) mod 1024)) as [-> _]; [lia_mod|].
  destruct (Hor ((u - 65536) mod 1024)) as [_ ->]; [lia_mod|]. f_equal. lia_mod.
Qed.

Lemma from_to_surrogate u :
  65536 <= u <= 1114111 -> from_surrogate_pair (to_surrogate_pair u).1 (to_surrogate_pair u).2 = Some u.
Proof.
  intros Hu. rewrite surrogate_arith by done. cbn [fst snd]. unfold from_surrogate_pair.
  assert (Hl : forall z, Z.land z 1023 = z mod 1024) by (intros z; apply (Z.land_ones z 10); lia).
  rewrite !Hl. rewrite lor_add by lia_mod. change (2 ^ 10) with 1024.
  replace (_ && _ && _ && _) with true; [f_equal; lia_mod|].
  symmetry. rewrite !andb_true_iff, !Z.leb_le. lia_mod.
Qed.

(** ** Hexadecimal *)

Lemma write_hex16_parts v :
  0 <= v < 65536 ->
  write_hex16 v = [hex_char (v / 4096); hex_char (v / 256 mod 16); hex_char (v / 16 mod 16); hex_char (v mod 16)].
Proof.
  intros Hv. assert (Hl : forall z, Z.land z 15 = z mod 16) by (intros z; apply (Z.land_ones z 4); lia).
  unfold write_hex16. rewrite !Hl, !Z.shiftr_div_pow2 by lia.
  change (2 ^ 12) with 4096. change (2 ^ 8) with 256. change (2 ^ 4) with 16.
  do 2 f_equal. lia_mod.
Qed.

Lemma hex_digit_char d : 0 <= d < 16 -> hex_digit (hex_char d) = Some d /\ 48 <= hex_char d < 103.
Proof.
  intros Hd.
  assert (H : match hex_digit (hex_char d) with Some x => x =? d | None => false end &&
    (48 <=? hex_char d) && (hex_char d <? 103) = true).
  { apply (forall_range (fun d => match hex_digit (hex_char d) with Some x => x =? d | None => false end &&
      (48 <=? hex_char d) && (hex_char d <? 103)) 16); [by vm_compute | done]. }
  rewrite !andb_true_iff, Z.leb_le, Z.ltb_lt in H. destruct H as [[H ?] ?].
  destruct (hex_digit (hex_char d)); [|done]. apply Z.eqb_eq in H as ->. done.
Qed.

Lemma hex_step n d s ret :
  0 <= d < 16 -> 0 <= ret < 4096 -> hex_loop (S n) (hex_char d :: s) ret = hex_loop n s (ret * 16 + d).
Proof.
  intros Hd Hr. cbn [hex_loop]. rewrite (proj1 (hex_digit_char d Hd)), Z.shiftl_mul_pow2 by lia.
  change (2 ^ 4) with 16. by rewrite !u16_id by (rewrite ?u16_id; lia).
Qed.

Lemma parse_write_hex16 v r : 0 <= v < 65536 -> parse_hex16 (write_hex16 v ++ r) = Some (Some (v, r)).
Proof.
  intros Hv. rewrite write_hex16_parts by done. unfold parse_hex16. cbn [app].
  rewrite !hex_step by lia_mod. cbn [hex_loop]. do 3 f_equal. lia_mod.
Qed.

(** ** Properties *)

(** C31. [utf8_validate] decides UTF-8: on a terminated string it reads nothing past
    the terminator and answers true exactly for the concatenations of encodings
    of Unicode scalar values, which [utf8_read_char] takes apart again. *)
Theorem utf8_validate_spec s r :
  is_cstr s -> Forall is_byte r ->
  (exists b, utf8_validate (s ++ 0 :: r) = Some b /\ (b = true <-> well_formed s)) /\
  (forall u s', scalar u -> s = utf8_write_char u ++ s' ->
     utf8_validate_cz (s ++ 0 :: r) = Some (zlen (utf8_write_char u)) /\
     utf8_read_char (s ++ 0 :: r) = Some (u, zlen (utf8_write_char u))).
Proof.
  intros Hs Hr. split.
  - apply validate_loop_spec; [done | done | zl].
  - intros u s' Hu ->. rewrite <- app_assoc. split; [by apply validate_write_char | by apply read_write_char].
Qed.

Lemma utf8_validate_spec_witness :
  exists b, utf8_validate ([226; 130; 172; 33] ++ [0]) = Some b /\ (b = true <-> well_formed [226; 130; 172; 33]).
Proof. apply (utf8_validate_spec [226; 130; 172; 33] []); [by repeat constructor | constructor]. Defined.

(** UTF-16 escapes: a code point above the basic plane is split into a high and
    a low surrogate that [from_surrogate_pair] joins again, and
    [write_hex16] is read back by [parse_hex16], either case of the digits. *)
Theorem utf16_escape_roundtrip u r :
  65536 <= u <= 1114111 ->
  let p := to_surrogate_pair u in
  55296 <= p.1 <= 56319 /\ 56320 <= p.2 <= 57343 /\ from_surrogate_pair p.1 p.2 = Some u /\
  parse_hex16 (write_hex16 p.1 ++ write_hex16 p.2 ++ r) = Some (Some (p.1, write_hex16 p.2 ++ r)) /\
  parse_hex16 (write_hex16 p.2 ++ r) = Some (Some (p.2, r)).
Proof.
  intros Hu p. assert (Hp : p = (55296 + (u - 65536) / 1024, 56320 + (u - 65536) mod 1024)) by by apply surrogate_arith.
  split; [rewrite Hp; cbn [fst]; lia_mod|]. split; [rewrite Hp; cbn [snd]; lia_mod|].
  split; [by apply from_to_surrogate|].
  split; (rewrite parse_write_hex16; [done|]); rewrite Hp; cbn [fst snd]; lia_mod.
Qed.

Lemma utf16_escape_roundtrip_witness :
  parse_hex16 (lit "D83D" ++ lit "DE00") = Some (Some (55357, lit "DE00")).
Proof. by destruct (utf16_escape_roundtrip 128512 []) as (_ & _ & _ & H & _); [lia|]. Defined.

End JsonUtf8.
