(* ===== verification/Double.v ===== *)
(** The [double] of the JSON code as an IEEE 754 binary64 number
    ([spec_float] with 53 bits of precision, round to nearest even), and the
    functions of the C library the code applies to it: [modf], the conversion
    to [int], [strtod], and [sprintf] with [%d], [%03d] and [%.16g]. *)
From Stdlib Require Import SpecFloat.
From S2P Require Import Prelude.

Module Double.

Definition prec : Z := 53.
Definition emax : Z := 1024.
Abbreviation double := spec_float.

(** ** Conversions between [int] and [double] *)

Definition double_of_Z (z : Z) : double := binary_normalize prec emax z 0 false.

Definition signed (s : bool) (z : Z) : Z := if s then - z else z.

(** [modf]: the integral part and the fraction of a finite number. *)
Definition modf (d : double) : double * double :=
  match d with
  | S754_finite s m e =>
      if 0 <=? e then (d, S754_zero s)
      else (binary_normalize prec emax (signed s (Z.pos m / 2 ^ (- e))) 0 s,
            binary_normalize prec emax (signed s (Z.pos m mod 2 ^ (- e))) e s)
  | S754_infinity s => (d, S754_zero s)
  | _ => (d, d)
  end.

(** [(int)d]: truncation, undefined outside the range of [int]. *)
Definition to_int (d : double) : option Z :=
  match d with
  | S754_zero _ => Some 0
  | S754_finite s m e =>
      let z := signed s (if 0 <=? e then Z.pos m * 2 ^ e else Z.pos m / 2 ^ (- e)) in
      if (-2147483648 <=? z) && (z <=? 2147483647) then Some z else None
  | _ => None
  end.

(** [d > 0.0 || d < 0.0] *)
Definition nonzero (d : double) : bool :=
  match d with S754_zero _ | S754_nan => false | _ => true end.

(** ** Decimal output *)

(** The decimal digits of a number, most significant first, in front of [acc]. *)
Fixpoint dec_loop (fuel : nat) (n : Z) (acc : list Z) : list Z :=
  match fuel with
  | O => acc
  | S fuel' => let acc := 48 + n mod 10 :: acc in if n <? 10 then acc else dec_loop fuel' (n / 10) acc
  end.

Definition dec_fuel (n : Z) : nat := S (Z.to_nat (Z.log2 n)).
Definition dec (n : Z) : list Z := dec_loop (dec_fuel n) n [].

(** [%d] *)
Definition fmt_d (z : Z) : list Z := if z <? 0 then 45 :: dec (- z) else dec z.

Definition pad (w : Z) (s : list Z) : list Z := replicate (Z.to_nat (w - zlen s)) 48 ++ s.

(** [%03d]: the sign counts for the width. *)
Definition fmt_03d (z : Z) : list Z := if z <? 0 then 45 :: pad 2 (dec (- z)) else pad 3 (dec z).

(** The nearest integer to [n / d], ties to even. *)
Definition div_even (n d : Z) : Z :=
  let q := n / d in let r := n mod d in
  if 2 * r <? d then q else if d <? 2 * r then q + 1 else if Z.even q then q else q + 1.

(** [n / d * 10 ^ k], rounded. *)
Definition scaled (n d k : Z) : Z := if 0 <=? k then div_even (n * 10 ^ k) d else div_even n (d * 10 ^ (- k)).

(** The largest [x] with [10 ^ x <= n / d]. *)
Definition log10 (n d : Z) : Z :=
  if d <=? n then zlen (dec (n / d)) - 1
  else let c := (d + n - 1) / n in - zlen (dec (c - 1)).

Fixpoint strip_zeros (l : list Z) : list Z :=
  match l with
  | [] => []
  | c :: l' => match strip_zeros l' with [] => if c =? 48 then [] else [c] | t => c :: t end
  end.

(** [%.16g] of a positive [n / d]: [g] has 16 significant digits, its decimal
    point after the first one stands for [10 ^ x]. *)
Definition fmt_g16_pos (n d : Z) : list Z :=
  let x0 := log10 n d in
  let g0 := scaled n d (15 - x0) in
  let (x, g) := if 10 ^ 16 <=? g0 then (x0 + 1, 10 ^ 15) else (x0, g0) in
  let digits := dec g in
  let join (a b : list Z) := match strip_zeros b with [] => a | t => a ++ 46 :: t end in
  if (-4 <=? x) && (x <? 16) then
    if 0 <=? x then join (take (Z.to_nat (x + 1)) digits) (drop (Z.to_nat (x + 1)) digits)
    else join [48] (replicate (Z.to_nat (- x - 1)) 48 ++ digits)
  else join (take 1 digits) (drop 1 digits) ++ 101 :: (if x <? 0 then 45 else 43) :: pad 2 (dec (Z.abs x)).

Definition fmt_g16 (d : double) : list Z :=
  match d with
  | S754_zero s => if s then lit "-0" else lit "0"
  | S754_infinity s => if s then lit "-inf" else lit "inf"
  | S754_nan => lit "nan"
  | S754_finite s m e =>
      let t := if 0 <=? e then fmt_g16_pos (Z.pos m * 2 ^ e) 1 else fmt_g16_pos (Z.pos m) (2 ^ (- e)) in
      if s then 45 :: t else t
  end.

(** [%f]: six digits after the point. *)
Definition fmt_f_pos (n d : Z) : list Z := let g := scaled n d 6 in dec (g / 1000000) ++ 46 :: pad 6 (dec (g mod 1000000)).
Definition fmt_f (d : double) : list Z :=
  match d with
  | S754_zero s => if s then lit "-0.000000" else lit "0.000000"
  | S754_infinity s => if s then lit "-inf" else lit "inf"
  | S754_nan => lit "nan"
  | S754_finite s m e =>
      let t := if 0 <=? e then fmt_f_pos (Z.pos m * 2 ^ e) 1 else fmt_f_pos (Z.pos m) (2 ^ (- e)) in
      if s then 45 :: t else t
  end.

Example fmt_f_1 : fmt_f (double_of_Z 25) = lit "25.000000".
Proof. by vm_compute. Qed.

(** ** Decimal input *)

Definition is_digit (c : Z) : bool := (48 <=? c) && (c <=? 57).

(** The digits in front of a text, as a number and a count, and the rest. *)
Fixpoint digits (s : list Z) (n k : Z) : Z * Z * list Z :=
  match s with
  | c :: s' => if is_digit c then digits s' (10 * n + (c - 48)) (k + 1) else (n, k, s)
  | [] => (n, k, [])
  end.

(** [-1^s * n * 10^e], correctly rounded. *)
Definition of_decimal (s : bool) (n e : Z) : double :=
  if n =? 0 then S754_zero s
  else if 0 <=? e then binary_normalize prec emax (signed s (n * 10 ^ e)) 0 s
  else let '(q, e', loc) := SFdiv_core_binary prec emax n 0 (10 ^ (- e)) 0 in
       binary_round_aux prec emax s q e' loc.

(** An exponent: a letter, an optional sign and at least one digit, else 0. *)
Definition exponent (s : list Z) : Z :=
  match s with
  | c :: s1 =>
      if (c =? 101) || (c =? 69) then
        let (neg, s2) := match s1 with
          | c1 :: s2 => if c1 =? 45 then (true, s2) else if c1 =? 43 then (false, s2) else (false, s1)
          | [] => (false, []) end in
        let '(n, k, _) := digits s2 0 0 in if k =? 0 then 0 else signed neg n
      else 0
  | [] => 0
  end.

Definition strtod_decimal (neg : bool) (s : list Z) : double :=
  let '(n, k, s1) := digits s 0 0 in
  let '(n', k', s2) := match s1 with
    | c :: s2 => if c =? 46 then digits s2 n 0 else (n, 0, s1)
    | [] => (n, 0, []) end in
  if k + k' =? 0 then S754_zero false else of_decimal neg n' (exponent s2 - k').

Definition hex_value (c : Z) : option Z :=
  if is_digit c then Some (c - 48)
  else if (65 <=? c) && (c <=? 70) then Some (c - 55)
  else if (97 <=? c) && (c <=? 102) then Some (c - 87) else None.

Fixpoint hex_digits (s : list Z) (n k : Z) : Z * Z * list Z :=
  match s with
  | c :: s' => match hex_value c with Some v => hex_digits s' (16 * n + v) (k + 1) | None => (n, k, s) end
  | [] => (n, k, [])
  end.

Definition hex_exponent (s : list Z) : Z :=
  match s with
  | c :: s1 => if (c =? 112) || (c =? 80) then exponent (101 :: s1) else 0
  | [] => 0
  end.

(** The hexadecimal number after [0x], if there is one. *)
Definition strtod_hex (neg : bool) (s : list Z) : option double :=
  let '(n, k, s1) := hex_digits s 0 0 in
  let '(n', k', s2) := match s1 with
    | c :: s2 => if c =? 46 then hex_digits s2 n 0 else (n, 0, s1)
    | [] => (n, 0, []) end in
  if k + k' =? 0 then None
  else Some (binary_normalize prec emax (signed neg n') (hex_exponent s2 - 4 * k') neg).

(** [strtod] of a text without leading white space that does not spell an
    infinity or a NaN. *)
Definition strtod (s : list Z) : double :=
  let (neg, s) := match s with
    | c :: s' => if c =? 45 then (true, s') else if c =? 43 then (false, s') else (false, s)
    | [] => (false, []) end in
  match s with
  | c0 :: c1 :: s' =>
      if (c0 =? 48) && ((c1 =? 120) || (c1 =? 88)) then
        match strtod_hex neg s' with Some d => d | None => strtod_decimal neg s end
      else strtod_decimal neg s
  | _ => strtod_decimal neg s
  end.

Example strtod_1 : strtod (lit "0.1") = S754_finite false 7205759403792794 (-56).
Proof. reflexivity. Qed.
Example strtod_2 : strtod (lit "-1.5e3,") = S754_finite true 6597069766656000 (-42).
Proof. reflexivity. Qed.
Example strtod_3 : strtod (lit "0x1p4") = double_of_Z 16.
Proof. reflexivity. Qed.
Example g16_1 : fmt_g16 (strtod (lit "0.30000000000000004")) = lit "0.3".
Proof. by vm_compute. Qed.
Example g16_2 : fmt_g16 (strtod (lit "123.456")) = lit "123.456".
Proof. by vm_compute. Qed.
Example g16_3 : fmt_g16 (strtod (lit "1.5e-7")) = lit "1.5e-07".
Proof. by vm_compute. Qed.
Example g16_4 : fmt_g16 (strtod (lit "-99999999999999999e3")) = lit "-1e+20".
Proof. by vm_compute. Qed.
Example g16_5 : fmt_g16 (strtod (lit "0.0001")) = lit "0.0001".
Proof. by vm_compute. Qed.
Example g16_6 : fmt_g16 (strtod (lit "9.9999999999999999")) = lit "10".
Proof. by vm_compute. Qed.
Example g16_7 : fmt_g16 (strtod (lit "0.001")) = lit "0.001".
Proof. by vm_compute. Qed.

(** ** Integers are exact *)

Lemma digits2_bounds m : 2 ^ Z.pos (digits2_pos m) <= 2 * Z.pos m < 2 * 2 ^ Z.pos (digits2_pos m).
Proof.
  induction m as [m IH | m IH |]; cbn [digits2_pos]; [| |done];
    rewrite Pos2Z.inj_succ, Z.pow_succ_r by lia; lia.
Qed.

Lemma iter_xO m k :
  Z.pos (Pos.iter xO m k) = Z.pos m * 2 ^ Z.pos k /\
  Z.pos (digits2_pos (Pos.iter xO m k)) = Z.pos (digits2_pos m) + Z.pos k.
Proof.
  induction k as [|k [IH1 IH2]] using Pos.peano_ind; [split; cbn; lia|].
  rewrite Pos.iter_succ. cbn [digits2_pos]. rewrite !Pos2Z.inj_succ, IH2, Z.pow_succ_r by lia. split; lia.
Qed.

Lemma round_exact s m e :
  Z.pos (digits2_pos m) = 53 -> -1074 <= e <= 971 ->
  binary_round_aux prec emax s (Z.pos m) e loc_Exact = S754_finite s m e.
Proof.
  intros Hd He. unfold binary_round_aux, shr_fexp.
  assert (Hf : fexp prec emax (Zdigits2 (Z.pos m) + e) - e = 0).
  { unfold fexp, emin, prec, emax. cbn [Zdigits2]. rewrite Hd. lia. }
  rewrite Hf. cbn [shr shr_record_of_loc shr_m loc_of_shr_record round_nearest_even].
  rewrite Hf. cbn [shr shr_record_of_loc shr_m].
  replace (e <=? emax - prec) with true by (symmetry; apply Z.leb_le; unfold emax, prec; lia). done.
Qed.

(** An integer below [2 ^ 52] is represented with 53 significant bits. *)
Lemma binary_round_int s m :
  Z.pos m < 2 ^ 52 ->
  exists k, 0 < k <= 52 /\ exists m', binary_round prec emax s m 0 = S754_finite s m' (- k) /\ Z.pos m' = Z.pos m * 2 ^ k.
Proof.
  intros Hm. destruct (digits2_bounds m) as [Hlo Hhi]. set (d := Z.pos (digits2_pos m)) in *.
  assert (Hd : 1 <= d <= 52).
  { split; [lia|]. destruct (Z.le_gt_cases d 52); [done|].
    assert (2 ^ 53 <= 2 ^ d) by (apply Z.pow_le_mono_r; lia). lia. }
  exists (53 - d). split; [lia|]. unfold binary_round.
  assert (Hf : fexp prec emax (d + 0) = - (53 - d)) by (unfold fexp, emin, prec, emax; lia).
  fold d. rewrite Hf. unfold shl_align. replace (- (53 - d) - 0) with (Z.neg (Z.to_pos (53 - d))) by lia.
  destruct (iter_xO m (Z.to_pos (53 - d))) as [H1 H2]. fold d in H2. rewrite Z2Pos.id in H1, H2 by lia.
  exists (Pos.iter xO m (Z.to_pos (53 - d))). rewrite round_exact; [done | lia | lia].
Qed.

Lemma double_of_Z_exact z :
  -2147483648 <= z <= 2147483647 ->
  to_int (double_of_Z z) = Some z /\ nonzero (modf (double_of_Z z)).2 = false.
Proof.
  intros Hz. unfold double_of_Z, binary_normalize.
  destruct z as [|m|m]; [done | destruct (binary_round_int false m) as (k & Hk & m1 & -> & H1)
    | destruct (binary_round_int true m) as (k & Hk & m1 & -> & H1)]; try lia;
    unfold to_int, modf; replace (0 <=? - k) with false by lia;
    rewrite Z.opp_involutive, H1, Z.div_mul, Z.mod_mul by lia; cbn [signed]; (split; [|done]).
  - by replace ((_ <=? Z.pos m) && _) with true by lia.
  - by replace ((_ <=? - Z.pos m) && _) with true by lia.
Qed.

(** ** Decimal output is read back *)

Lemma dec_loop_spec fuel : forall n acc,
  0 <= n < 2 ^ Z.of_nat fuel -> (0 < fuel)%nat ->
  exists D, dec_loop fuel n acc = D ++ acc /\ D <> [] /\ Forall (fun c => 48 <= c <= 57) D /\
    (0 < n -> head D <> Some 48) /\ (n = 0 -> D = [48]) /\
    forall r m k, digits (D ++ r) m k = digits r (m * 10 ^ zlen D + n) (k + zlen D).
Proof.
  induction fuel as [|fuel IH]; intros n acc Hn Hf; [lia|]. rewrite Nat2Z.inj_succ, Z.pow_succ_r in Hn by lia.
  cbn [dec_loop]. assert (Hd : is_digit (48 + n mod 10) = true).
  { unfold is_digit. apply andb_true_iff. rewrite !Z.leb_le. lia_mod. }
  destruct (Z.ltb_spec n 10) as [Hlt | Hge].
  - exists [48 + n mod 10]. split; [done|]. split; [done|]. split; [repeat constructor; lia_mod|].
    split; [intros H0; simpl; intros [=]; lia_mod|]. split; [by intros ->|].
    intros r m k. cbn [app digits]. rewrite Hd. rewrite Z.mod_small by lia.
    change (zlen [48 + n]) with 1. f_equal; lia.
  - destruct (IH (n / 10) (48 + n mod 10 :: acc)) as (D & -> & Hne & HD & Hh & H0 & Hdig).
    { lia_mod. } { destruct fuel; [cbn in Hn; lia | lia]. }
    exists (D ++ [48 + n mod 10]). rewrite <- app_assoc. split; [done|]. split; [by destruct D|].
    split; [apply Forall_app; split; [done | repeat constructor; lia_mod]|].
    split; [intros _; destruct D; [done | apply Hh; lia_mod]|]. split; [lia|].
    intros r m k. rewrite <- app_assoc, Hdig. cbn [app digits]. rewrite Hd.
    assert (Hl : zlen (D ++ [48 + n mod 10]) = zlen D + 1) by zl. rewrite Hl, Z.pow_add_r by zl.
    f_equal; [|lia]. lia_mod.
Qed.

Lemma dec_spec n :
  0 <= n ->
  dec n <> [] /\ Forall (fun c => 48 <= c <= 57) (dec n) /\ (0 < n -> head (dec n) <> Some 48) /\ (n = 0 -> dec n = [48]) /\
  forall r m k, digits (dec n ++ r) m k = digits r (m * 10 ^ zlen (dec n) + n) (k + zlen (dec n)).
Proof.
  intros Hn. destruct (dec_loop_spec (dec_fuel n) n []) as (D & E & H); [|unfold dec_fuel; lia|].
  { unfold dec_fuel. rewrite Nat2Z.inj_succ, Z2Nat.id by apply Z.log2_nonneg.
    destruct (Z.eq_dec n 0) as [-> | Hne]; [done|]. destruct (Z.log2_spec n); [lia | done]. }
  unfold dec. rewrite E, app_nil_r. exact H.
Qed.

(** What may follow a number without being taken for a part of it. *)
Definition ends_number (r : list Z) : Prop :=
  match r with
  | [] => True
  | c :: _ => is_digit c = false /\ c <> 46 /\ c <> 101 /\ c <> 69 /\ c <> 120 /\ c <> 88
  end.

Lemma strtod_decimal_dec neg n r :
  0 <= n -> ends_number r -> strtod_decimal neg (dec n ++ r) = of_decimal neg n 0.
Proof.
  intros Hn Hr. destruct (dec_spec n Hn) as (Hne & _ & _ & _ & Hdig). unfold strtod_decimal. rewrite Hdig.
  assert (Hpos : 0 < zlen (dec n)) by (destruct (dec n); [done | zl]).
  rewrite Z.mul_0_l, Z.add_0_l.
  assert (E : digits r n (0 + zlen (dec n)) = (n, 0 + zlen (dec n), r)).
  { destruct r as [|c r]; [done|]. simpl in Hr. cbn [digits]. by replace (is_digit c) with false by by destruct Hr. }
  rewrite E. destruct r as [|c r].
  - replace (0 + zlen (dec n) + 0 =? 0) with false by lia. done.
  - simpl in Hr. replace (c =? 46) with false by lia.
    replace (0 + zlen (dec n) + 0 =? 0) with false by lia. unfold exponent.
    replace ((c =? 101) || (c =? 69)) with false by (symmetry; apply orb_false_iff; rewrite !Z.eqb_neq; lia).
    done.
Qed.

Lemma strtod_fmt_d z r : ends_number r -> strtod (fmt_d z ++ r) = double_of_Z z.
Proof.
  intros Hr. assert (Hdec : forall neg n, 0 <= n ->
    match dec n ++ r with
    | c0 :: c1 :: s' =>
        if (c0 =? 48) && ((c1 =? 120) || (c1 =? 88)) then
          match strtod_hex neg s' with Some d => d | None => strtod_decimal neg (dec n ++ r) end
        else strtod_decimal neg (dec n ++ r)
    | _ => strtod_decimal neg (dec n ++ r)
    end = of_decimal neg n 0).
  { intros neg n Hn. rewrite strtod_decimal_dec by done. destruct (dec_spec n Hn) as (Hne & HD & _).
    destruct (dec n) as [|c0 D]; [done|]. apply Forall_cons in HD as [Hc0 HD]. cbn [app].
    destruct (D ++ r) as [|c1 s'] eqn:E; [done|].
    replace ((c1 =? 120) || (c1 =? 88)) with false; [by rewrite andb_false_r|].
    symmetry. apply orb_false_iff. rewrite !Z.eqb_neq.
    destruct D as [|c D]; simpl in E; [subst r; simpl in Hr; lia|].
    injection E as -> _. apply Forall_cons in HD as [Hc1 _]. lia. }
  unfold strtod, fmt_d. destruct (Z.ltb_spec z 0).
  - cbn [app]. change (45 =? 45) with true. cbn match. rewrite Hdec by lia. unfold of_decimal.
    replace (- z =? 0) with false by lia. cbn [Z.leb]. change (10 ^ 0) with 1.
    rewrite Z.mul_1_r. cbn [signed]. rewrite Z.opp_involutive. unfold double_of_Z. by destruct z.
  - destruct (dec_spec z) as (Hne & HD & _); [lia|]. specialize (Hdec false z).
    destruct (dec z) as [|c0 D] eqn:E; [done|]. apply Forall_cons in HD as [Hc0 HD]. cbn [app] in Hdec |- *.
    replace (c0 =? 45) with false by lia. replace (c0 =? 43) with false by lia.
    rewrite Hdec by lia. unfold of_decimal. destruct (Z.eqb_spec z 0) as [-> | _]; [done|].
    change (0 <=? 0) with true. change (10 ^ 0) with 1. rewrite Z.mul_1_r. cbn [signed]. by destruct z.
Qed.

End Double.
