(* ===== verification/JsonTree.v ===== *)
(** The JSON trees of src/src/json/json.c in memory: nodes with pointers to the
    parent, the siblings and the first and last child, keys that are properties,
    strings in blocks of the string memory. *)
From S2P Require Import Prelude Property JsonUtf8 Double.

Module JsonTree.
Import Property Double.

(** The union of [JsonNode] with its tag. *)
Inductive payload :=
| JSON_NULL
| JSON_BOOL (b : bool)
| JSON_STRING (string_ : Z)
| JSON_NUMBER (number_ : double)
| JSON_ARRAY (head tail : Z)
| JSON_OBJECT (head tail : Z).

Record node := mk_node { parent : Z; prev : Z; next : Z; key : property_t; body : payload }.

Abbreviation heap := (gmap Z node).
(** The memory of strings and the nodes. *)
Record world := mk_world { w_mem : memory; w_nodes : heap }.

Definition with_parent (n : node) (p : Z) : node := mk_node p (prev n) (next n) (key n) (body n).
Definition with_prev (n : node) (p : Z) : node := mk_node (parent n) p (next n) (key n) (body n).
Definition with_next (n : node) (p : Z) : node := mk_node (parent n) (prev n) p (key n) (body n).
Definition with_key (n : node) (k : property_t) : node := mk_node (parent n) (prev n) (next n) k (body n).
Definition with_body (n : node) (b : payload) : node := mk_node (parent n) (prev n) (next n) (key n) b.

(** [children.head] and [children.tail]. *)
Definition children (n : node) : option (Z * Z) :=
  match body n with JSON_ARRAY h t | JSON_OBJECT h t => Some (h, t) | _ => None end.
Definition set_children (n : node) (h t : Z) : option node :=
  match body n with
  | JSON_ARRAY _ _ => Some (with_body n (JSON_ARRAY h t))
  | JSON_OBJECT _ _ => Some (with_body n (JSON_OBJECT h t))
  | _ => None
  end.
Definition is_array (n : node) : bool := match body n with JSON_ARRAY _ _ => true | _ => false end.
Definition is_object (n : node) : bool := match body n with JSON_OBJECT _ _ => true | _ => false end.

(** An assignment through a pointer. *)
Definition update (h : heap) (p : Z) (f : node -> option node) : option heap := n ← h !! p; n ← f n; Some (<[p := n]> h).
Definition set (h : heap) (p : Z) (f : node -> node) : option heap := update h p (fun n => Some (f n)).

(** ** Construction *)

Section with_alloc.
Context (calloc : heap -> option Z) (malloc : memory -> Z -> option (Z * list Z)) (disp : list prop_type).

(** Returns the address, NULL when there is no memory. *)
Definition mknode (h : heap) (b : payload) : Z * heap :=
  match calloc h with
  | None => (NULL, h)
  | Some p => (p, <[p := mk_node NULL NULL NULL p_null b]> h)
  end.

Definition json_mknull (h : heap) : Z * heap := mknode h JSON_NULL.
Definition json_mkbool (h : heap) (b : bool) : Z * heap := mknode h (JSON_BOOL b).
Definition mkstring (h : heap) (s : Z) : Z * heap := mknode h (JSON_STRING s).
Definition json_mkstring (w : world) (s : Z) : option (Z * world) :=
  '(m, v) ← json_strdup malloc (w_mem w) s;
  let '(p, h) := mkstring (w_nodes w) v in Some (p, mk_world m h).
Definition json_mknumber (h : heap) (n : double) : Z * heap := mknode h (JSON_NUMBER n).
Definition json_mkarray (h : heap) : Z * heap := mknode h (JSON_ARRAY NULL NULL).
Definition json_mkobject (h : heap) : Z * heap := mknode h (JSON_OBJECT NULL NULL).

Definition append_node (h : heap) (p child : Z) : option heap :=
  h ← set h child (fun n => with_parent n p);
  '(_, tail) ← (n ← h !! p; children n);
  h ← set h child (fun n => with_next (with_prev n tail) NULL);
  h ← (if negb (tail =? NULL) then set h tail (fun n => with_next n child)
       else update h p (fun n => x ← children n; set_children n child x.2));
  update h p (fun n => x ← children n; set_children n x.1 child).

Definition prepend_node (h : heap) (p child : Z) : option heap :=
  h ← set h child (fun n => with_parent n p);
  '(hd, _) ← (n ← h !! p; children n);
  h ← set h child (fun n => with_next (with_prev n NULL) hd);
  h ← (if negb (hd =? NULL) then set h hd (fun n => with_prev n child)
       else update h p (fun n => x ← children n; set_children n x.1 child));
  update h p (fun n => x ← children n; set_children n child x.2).

(** The key is passed by value: what [property_move] leaves of it is dropped. *)
Definition append_member (w : world) (object : Z) (k : property_t) (v : Z) : option world :=
  n ← w_nodes w !! v;
  '(m, k, _) ← property_move malloc disp (w_mem w) (key n) k;
  h ← set (w_nodes w) v (fun n => with_key n k);
  h ← append_node h object v;
  Some (mk_world m h).

(** A failed assertion has no continuation. *)
Definition assert (h : heap) (p : Z) (c : node -> bool) : option unit := n ← h !! p; if c n then Some tt else None.
Definition no_parent (n : node) : bool := parent n =? NULL.

Definition json_append_element (h : heap) (array element : Z) : option heap :=
  _ ← assert h array is_array; _ ← assert h element no_parent; append_node h array element.
Definition json_prepend_element (h : heap) (array element : Z) : option heap :=
  _ ← assert h array is_array; _ ← assert h element no_parent; prepend_node h array element.
Definition json_append_member (w : world) (object : Z) (k : property_t) (v : Z) : option world :=
  _ ← assert (w_nodes w) object is_object; _ ← assert (w_nodes w) v no_parent; append_member w object k v.
Definition json_prepend_member (w : world) (object : Z) (k : property_t) (v : Z) : option world :=
  _ ← assert (w_nodes w) object is_object; _ ← assert (w_nodes w) v no_parent;
  '(m, k) ← property_copy malloc disp (w_mem w) k;
  h ← set (w_nodes w) v (fun n => with_key n k);
  h ← prepend_node h object v;
  Some (mk_world m h).

(** ** Removal *)

(** The four pointers around a node that has a parent. *)
Definition unlink (h : heap) (n : node) : option heap :=
  h ← (if negb (prev n =? NULL) then set h (prev n) (fun m => with_next m (next n))
       else update h (parent n) (fun p => x ← children p; set_children p (next n) x.2));
  (if negb (next n =? NULL) then set h (next n) (fun m => with_prev m (prev n))
   else update h (parent n) (fun p => x ← children p; set_children p x.1 (prev n))).

Definition json_remove_from_parent (w : world) (p : Z) : option world :=
  n ← w_nodes w !! p;
  if negb (parent n =? NULL) then
    h ← unlink (w_nodes w) n;
    '(m, k) ← property_free disp (w_mem w) (key n);
    h ← set h p (fun n => with_next (with_prev (with_parent (with_key n k) NULL) NULL) NULL);
    Some (mk_world m h)
  else Some w.

(** The fuel bounds the depth and the number of siblings. *)
Fixpoint json_delete (fuel : nat) (w : world) (p : Z) : option world :=
  match fuel with
  | O => None
  | S fuel' =>
      if p =? NULL then Some w else
      w ← json_remove_from_parent w p;
      n ← w_nodes w !! p;
      w ← match body n with
          | JSON_STRING s => m ← json_delete_string (w_mem w) s; Some (mk_world m (w_nodes w))
          | JSON_ARRAY hd _ | JSON_OBJECT hd _ => delete_children fuel' w hd
          | _ => Some w
          end;
      Some (mk_world (w_mem w) (delete p (w_nodes w)))
  end
with delete_children (fuel : nat) (w : world) (child : Z) : option world :=
  match fuel with
  | O => None
  | S fuel' =>
      if child =? NULL then Some w else
      n ← w_nodes w !! child;
      w ← json_delete fuel' w child;
      delete_children fuel' w (next n)
  end.

(** ** Lookup *)

Definition json_first_child (h : heap) (p : Z) : option Z :=
  if p =? NULL then Some NULL else n ← h !! p; Some (match children n with Some (hd, _) => hd | None => NULL end).

Fixpoint find_element (fuel : nat) (h : heap) (element i index : Z) : option Z :=
  match fuel with
  | O => None
  | S fuel' =>
      if element =? NULL then Some NULL else
      if i =? index then Some element else
      n ← h !! element; find_element fuel' h (next n) (i + 1) index
  end.
Definition json_find_element (fuel : nat) (h : heap) (array index : Z) : option Z :=
  if array =? NULL then Some NULL else
  n ← h !! array;
  if negb (is_array n) then Some NULL else
  hd ← json_first_child h array; find_element fuel h hd 0 index.

Fixpoint find_member (fuel : nat) (w : world) (member : Z) (name : property_t) : option Z :=
  match fuel with
  | O => None
  | S fuel' =>
      if member =? NULL then Some NULL else
      n ← w_nodes w !! member;
      c ← property_cmp (w_mem w) (key n) name;
      if c =? 0 then Some member else find_member fuel' w (next n) name
  end.
Definition json_find_member (fuel : nat) (w : world) (object : Z) (name : property_t) : option Z :=
  if object =? NULL then Some NULL else
  n ← w_nodes w !! object;
  if negb (is_object n) then Some NULL else
  hd ← json_first_child (w_nodes w) object; find_member fuel w hd name.

(** Returns (rc, memory, the property). *)
Definition fill_string_from_json (fuel : nat) (w : world) (object : Z) (name p : property_t) : option (Z * memory * property_t) :=
  tmp ← json_find_member fuel w object name;
  if tmp =? NULL then Some (-1, w_mem w, p) else
  n ← w_nodes w !! tmp;
  match body n with
  | JSON_STRING s =>
      '(m, t) ← json_strdup_property malloc (w_mem w) s;
      '(m, p, _) ← property_move malloc disp m p t;
      Some (0, m, p)
  | _ => Some (-1, w_mem w, p)
  end.

(** ** json_check; [errmsg] is NULL. *)

Fixpoint json_check (fuel : nat) (w : world) (p : Z) : option bool :=
  match fuel with
  | O => None
  | S fuel' =>
      n ← w_nodes w !! p;
      key_ok ← (if negb (IS_EMPTY (key n)) then b ← bytes_at (w_mem w) (value (key n)); JsonUtf8.utf8_validate b else Some true);
      if negb key_ok then Some false else
      match body n with
      | JSON_STRING s => if s =? NULL then Some false else b ← bytes_at (w_mem w) s; JsonUtf8.utf8_validate b
      | JSON_ARRAY hd tl | JSON_OBJECT hd tl =>
          if (hd =? NULL) || (tl =? NULL) then Some ((hd =? NULL) && (tl =? NULL)) else
          first ← w_nodes w !! hd;
          if negb (prev first =? NULL) then Some false else check_children fuel' w p hd tl hd NULL
      | _ => Some true
      end
  end
with check_children (fuel : nat) (w : world) (p hd tl child last : Z) : option bool :=
  match fuel with
  | O => None
  | S fuel' =>
      if child =? NULL then Some (last =? tl) else
      if child =? p then Some false else
      c ← w_nodes w !! child;
      if (next c =? child) || (next c =? hd) || negb (parent c =? p) then Some false else
      back ← (if negb (next c =? NULL) then n ← w_nodes w !! next c; Some (prev n =? child) else Some true);
      if negb back || negb (IS_EMPTY (key c)) then Some false else
      ok ← json_check fuel' w child;
      if negb ok then Some false else check_children fuel' w p hd tl (next c) child
  end.

End with_alloc.

(** ** The forest of a heap *)

Definition last_or (l : list Z) : Z := default NULL (last l).
Definition head_or (l : list Z) : Z := default NULL (head l).

(** The pointers of a node to its parent and siblings, its pointers to its children,
    and what is left of it. *)
Definition links (h : heap) (c : Z) : option (Z * Z * Z) := n ← h !! c; Some (parent n, prev n, next n).
Definition ends (h : heap) (p : Z) : option (Z * Z) := n ← h !! p; children n.
Definition erase (b : payload) : payload :=
  match b with JSON_ARRAY _ _ => JSON_ARRAY NULL NULL | JSON_OBJECT _ _ => JSON_OBJECT NULL NULL | _ => b end.
Definition label (h : heap) (c : Z) : option (property_t * payload) := n ← h !! c; Some (key n, erase (body n)).

(** The node [p] has the children [l]: first and last child, and around every
    child its siblings and its parent. *)
Record kids (h : heap) (p : Z) (l : list Z) : Prop := mk_kids {
  kids_ends : ends h p = Some (head_or l, last_or l);
  kids_nodup : NoDup l;
  kids_self : p ∉ l;
  kids_around l1 c l2 : l = l1 ++ c :: l2 -> links h c = Some (p, last_or l1, head_or l2);
}.

(** [F] has an entry for every container, and the entry of its parent lists every child. *)
Record forest (h : heap) (F : gmap Z (list Z)) : Prop := mk_forest {
  forest_kids p l : F !! p = Some l -> kids h p l;
  forest_container p : is_Some (ends h p) -> is_Some (F !! p);
  forest_child c p a b : links h c = Some (p, a, b) -> p <> NULL -> exists l, F !! p = Some l /\ c ∈ l;
  forest_null : h !! NULL = None;
}.

Lemma kids_links h p l c : kids h p l -> c ∈ l -> exists a b, links h c = Some (p, a, b).
Proof. intros Hk Hc. apply list_elem_of_split in Hc as (l1 & l2 & ->). rewrite (kids_around _ _ _ Hk l1 c l2 eq_refl). eauto. Qed.

(** Children are the same where their pointers are. *)
Lemma kids_frame h h' p l : kids h p l -> ends h' p = ends h p -> (forall c, c ∈ l -> links h' c = links h c) -> kids h' p l.
Proof.
  intros Hk He Hl. destruct Hk as [H1 H2 H3 H4]. split; [by rewrite He | done | done |]. intros l1 c l2 ->. rewrite Hl; [by apply H4 | set_solver].
Qed.

Lemma links_live h c x : links h c = Some x -> is_Some (h !! c).
Proof. unfold links. destruct (h !! c); [by eexists | done]. Qed.
Lemma ends_live h c x : ends h c = Some x -> is_Some (h !! c).
Proof. unfold ends. destruct (h !! c); [by eexists | done]. Qed.

Section laws.
Context (h : heap) (F : gmap Z (list Z)) (HF : forest h F).

Lemma live_not_null c : is_Some (h !! c) -> c <> NULL.
Proof. intros [m Hm] ->. by rewrite (forest_null _ _ HF) in Hm. Qed.

Lemma kids_not_null p l : F !! p = Some l -> p <> NULL /\ forall c, c ∈ l -> c <> NULL.
Proof.
  intros Hl. pose proof (forest_kids _ _ HF p l Hl) as Hk. split; [eapply live_not_null, ends_live, kids_ends, Hk|].
  intros c Hc. destruct (kids_links h p l c Hk Hc) as (a & b & E). by eapply live_not_null, links_live.
Qed.

(** A node is a child of its parent only. *)
Lemma kids_disjoint p q lp lq c : F !! p = Some lp -> F !! q = Some lq -> c ∈ lp -> c ∈ lq -> p = q.
Proof.
  intros Hp Hq Hcp Hcq. destruct (kids_links h p lp c) as (a & b & E); [by apply (forest_kids _ _ HF) | done|].
  destruct (kids_links h q lq c) as (a' & b' & E'); [by apply (forest_kids _ _ HF) | done|]. congruence.
Qed.
End laws.

Lemma last_or_snoc l c : last_or (l ++ [c]) = c.
Proof. unfold last_or. by rewrite last_snoc. Qed.
Lemma head_or_cons c l : head_or (c :: l) = c.
Proof. done. Qed.
Lemma head_or_app l1 l2 : l1 <> [] -> head_or (l1 ++ l2) = head_or l1.
Proof. by destruct l1. Qed.
Lemma last_or_app l1 l2 : l2 <> [] -> last_or (l1 ++ l2) = last_or l2.
Proof. intros Hl. unfold last_or. rewrite last_app. by destruct (last l2) eqn:E; [|apply last_None in E]. Qed.
Lemma last_or_cons c l : l <> [] -> last_or (c :: l) = last_or l.
Proof. intros Hl. by apply (last_or_app [c]). Qed.

(** ** Assignments *)

Lemma set_Some h p f n : h !! p = Some n -> set h p f = Some (<[p := f n]> h).
Proof. intros E. unfold set, update. by rewrite E. Qed.

Lemma update_Some h p f n n' : h !! p = Some n -> f n = Some n' -> update h p f = Some (<[p := n']> h).
Proof. intros E Ef. unfold update. by rewrite E; cbn [mbind option_bind]; rewrite Ef. Qed.

Lemma links_insert h x n y : links (<[x := n]> h) y = if decide (x = y) then Some (parent n, prev n, next n) else links h y.
Proof. unfold links. destruct (decide (x = y)) as [-> | Hne]; [by rewrite lookup_insert_eq | by rewrite lookup_insert_ne]. Qed.
Lemma ends_insert h x n y : ends (<[x := n]> h) y = if decide (x = y) then children n else ends h y.
Proof. unfold ends. destruct (decide (x = y)) as [-> | Hne]; [by rewrite lookup_insert_eq | by rewrite lookup_insert_ne]. Qed.
Lemma label_insert h x n y : label (<[x := n]> h) y = if decide (x = y) then Some (key n, erase (body n)) else label h y.
Proof. unfold label. destruct (decide (x = y)) as [-> | Hne]; [by rewrite lookup_insert_eq | by rewrite lookup_insert_ne]. Qed.

Lemma set_children_Some n a b : is_Some (children n) -> exists n', set_children n a b = Some n' /\ children n' = Some (a, b) /\
  parent n' = parent n /\ prev n' = prev n /\ next n' = next n /\ key n' = key n /\ erase (body n') = erase (body n).
Proof. intros [x Hx]. unfold children, set_children in *. destruct n as [p pr nx k [| | | |h t|h t]]; try done; eexists; by split_and!. Qed.

(** Assigning the ends of a node that has children. *)
Lemma update_ends h p n f a b : h !! p = Some n -> children n = Some (a, b) ->
  exists h', update h p (fun n => x ← children n; set_children n (f x).1 (f x).2) = Some h' /\
    (forall q, links h' q = links h q) /\ (forall q, ends h' q = if decide (p = q) then Some (f (a, b)) else ends h q) /\
    (forall q, label h' q = label h q).
Proof.
  intros Hp Hc. destruct (set_children_Some n (f (a, b)).1 (f (a, b)).2) as (n' & E & Hch & H1 & H2 & H3 & H4 & H5); [by rewrite Hc|].
  exists (<[p := n']> h). split; [eapply update_Some; [done|]; by rewrite Hc|]. split; [|split]; intros q.
  - rewrite links_insert. destruct (decide (p = q)) as [<- | Hne]; [|done]. unfold links. rewrite Hp. cbn. congruence.
  - rewrite ends_insert. destruct (decide (p = q)); [|done]. rewrite Hch. by destruct (f (a, b)).
  - rewrite label_insert. destruct (decide (p = q)) as [<- | Hne]; [|done]. unfold label. rewrite Hp. cbn. congruence.
Qed.

(** Assigning the pointers of a node to its parent and siblings. *)
Lemma set_links h c m f : h !! c = Some m -> (forall n, key (f n) = key n /\ body (f n) = body n) ->
  exists h', set h c f = Some h' /\ (forall q, links h' q = if decide (c = q) then Some (parent (f m), prev (f m), next (f m)) else links h q) /\
    (forall q, ends h' q = ends h q) /\ (forall q, label h' q = label h q) /\ h' !! c = Some (f m).
Proof.
  intros Hm Hf. exists (<[c := f m]> h). destruct (Hf m) as [Hk Hb]. split; [by apply set_Some|]. split; [|split; [|split; [|by rewrite lookup_insert_eq]]]; intros q.
  - apply links_insert.
  - rewrite ends_insert. destruct (decide (c = q)) as [<- | Hne]; [|done]. unfold ends, children. rewrite Hm, Hb. done.
  - rewrite label_insert. destruct (decide (c = q)) as [<- | Hne]; [|done]. unfold label. by rewrite Hm, Hk, Hb.
Qed.

Lemma ends_lookup h p x : ends h p = Some x -> exists n, h !! p = Some n /\ children n = Some x.
Proof. unfold ends. destruct (h !! p) as [n|]; [|done]. intros E. by exists n. Qed.
Lemma links_lookup h c x : links h c = Some x -> exists n, h !! c = Some n /\ (parent n, prev n, next n) = x.
Proof. unfold links. destruct (h !! c) as [n|]; [|done]. intros [= <-]. by exists n. Qed.

(** ** Appending *)

(** Only the pointers around a new last child change. *)
Lemma append_node_heap h p c l m : kids h p l -> (forall x, x ∈ l -> x <> NULL) -> h !! c = Some m -> c <> p -> c ∉ l ->
  exists h', append_node h p c = Some h' /\ links h' c = Some (p, last_or l, NULL) /\
    (forall l0 t, l = l0 ++ [t] -> links h' t = Some (p, last_or l0, c)) /\
    (forall q, q <> c -> q ∉ l -> links h' q = links h q) /\
    (forall l0 t q, l = l0 ++ [t] -> q ∈ l0 -> links h' q = links h q) /\
    (forall q, ends h' q = if decide (p = q) then Some (head_or (l ++ [c]), c) else ends h q) /\
    (forall q, label h' q = label h q).
Proof.
  intros [He Hnd Hpl Har] Hnn Hm Hcp Hcl. unfold append_node.
  destruct (set_links h c m (fun n => with_parent n p) Hm) as (h1 & E1 & L1 & N1 & B1 & M1); [done|]. rewrite E1. cbn [mbind option_bind].
  destruct (ends_lookup h1 p (head_or l, last_or l)) as (n1 & Hn1 & Hc1); [by rewrite N1|]. rewrite Hn1. cbn [mbind option_bind]. rewrite Hc1. cbn [mbind option_bind].
  destruct (set_links h1 c _ (fun n => with_next (with_prev n (last_or l)) NULL) M1) as (h2 & E2 & L2 & N2 & B2 & M2); [done|].
  rewrite E2. cbn [mbind option_bind]. cbn [parent prev next with_next with_prev with_parent] in L2.
  destruct l as [|t l0 _] using rev_ind.
  - change (last_or []) with NULL in *. change (negb (NULL =? NULL)) with false. cbv iota.
    destruct (ends_lookup h2 p (NULL, NULL)) as (n2 & Hn2 & Hc2); [by rewrite N2, N1|].
    destruct (update_ends h2 p n2 (fun x => (c, x.2)) NULL NULL Hn2 Hc2) as (h3 & E3 & L3 & N3 & B3). cbn [fst snd] in *. rewrite E3. cbn [mbind option_bind].
    destruct (ends_lookup h3 p (c, NULL)) as (n3 & Hn3 & Hc3); [by rewrite N3, decide_True|].
    destruct (update_ends h3 p n3 (fun x => (x.1, c)) c NULL Hn3 Hc3) as (h4 & E4 & L4 & N4 & B4). cbn [fst snd] in *.
    exists h4. split; [exact E4|]. split_and!.
    + rewrite L4, L3, L2. by rewrite decide_True.
    + intros l0 t Hl. by destruct l0.
    + intros q Hq _. rewrite L4, L3, L2, L1. by rewrite !decide_False by congruence.
    + intros l0 t q Hl. by destruct l0.
    + intros q. rewrite N4. destruct (decide (p = q)); [done|]. by rewrite N3, decide_False, N2, N1.
    + intros q. by rewrite B4, B3, B2, B1.
  - rewrite last_or_snoc in *. assert (Htn : t <> NULL) by (apply Hnn; set_solver). assert (Htc : t <> c) by set_solver. assert (Htp : t <> p) by set_solver.
    replace (negb (t =? NULL)) with true by (unfold NULL in *; lia).
    assert (Hlt : links h2 t = Some (p, last_or l0, NULL)).
    { rewrite L2, L1, !decide_False by congruence. by rewrite (Har l0 t []) by done. }
    destruct (links_lookup h2 t _ Hlt) as (n2 & Hn2 & Hn2').
    destruct (set_links h2 t n2 (fun n => with_next n c) Hn2) as (h3 & E3 & L3 & N3 & B3 & M3); [done|].
    rewrite E3. cbn [mbind option_bind]. cbn [parent prev next with_next] in L3.
    destruct (ends_lookup h3 p (head_or (l0 ++ [t]), t)) as (n3 & Hn3 & Hc3); [by rewrite N3, N2, N1|].
    destruct (update_ends h3 p n3 (fun x => (x.1, c)) _ _ Hn3 Hc3) as (h4 & E4 & L4 & N4 & B4). cbn [fst snd] in *.
    exists h4. split; [exact E4|]. split_and!.
    + rewrite L4, L3, decide_False by congruence. by rewrite L2, decide_True.
    + intros l1 t' Hl. apply app_inj_tail in Hl as [<- <-]. rewrite L4, L3, decide_True by done. by injection Hn2' as -> -> _.
    + intros q Hq Hql. rewrite L4, L3, L2, L1. by rewrite !decide_False by set_solver.
    + intros l1 t' q Hl Hq. apply app_inj_tail in Hl as [<- <-]. rewrite L4, L3, L2, L1.
      apply NoDup_app in Hnd as (_ & Hnd & _). rewrite !decide_False; [done | set_solver | set_solver |].
      intros <-. apply (Hnd t Hq). set_solver.
    + intros q. rewrite N4. destruct (decide (p = q)).
      * f_equal. f_equal. by destruct l0.
      * by rewrite N3, N2, N1.
    + intros q. by rewrite B4, B3, B2, B1.
Qed.

Lemma label_live h h' c : label h' c = label h c -> is_Some (h' !! c) <-> is_Some (h !! c).
Proof. unfold label. destruct (h' !! c), (h !! c); cbn; intros E; try done; split; intros [x Hx]; done. Qed.

(** The list before the last element, or nothing. *)
Lemma snoc_split (l l1 l2 : list Z) c x : l ++ [c] = l1 ++ x :: l2 -> (l2 = [] /\ l1 = l /\ x = c) \/ (exists l3, l2 = l3 ++ [c] /\ l = l1 ++ x :: l3).
Proof.
  destruct l2 as [|y l2 _] using rev_ind; intros E.
  - left. by apply app_inj_tail in E as [-> ->].
  - right. exists l2. rewrite app_comm_cons, app_assoc in E. by apply app_inj_tail in E as [-> ->].
Qed.

(** A node without parent is put among the children of [p]. *)
Lemma forest_link h h' F p c l l' a b : forest h F -> F !! p = Some l -> links h c = Some (NULL, a, b) ->
  kids h' p l' -> (forall q, q ∈ l' <-> q = c \/ q ∈ l) -> (forall q, q <> c -> q ∉ l -> links h' q = links h q) ->
  (forall q, q <> p -> ends h' q = ends h q) -> (forall q, label h' q = label h q) -> forest h' (<[p := l']> F).
Proof.
  intros HF Hl Hc Hkp Hl' Lo N B. split.
  - intros q lq Hq. destruct (decide (q = p)) as [-> | Hne]; [rewrite lookup_insert_eq in Hq; by simplify_eq|].
    rewrite lookup_insert_ne in Hq by done. pose proof (forest_kids _ _ HF q lq Hq) as Hkq. apply (kids_frame h); [done | by apply N |].
    intros x Hx. apply Lo.
    + intros ->. destruct (kids_links h q lq c Hkq Hx) as (? & ? & E'). rewrite Hc in E'. injection E' as E' _ _.
      by destruct (kids_not_null h F HF q lq Hq).
    + intros Hxl. apply Hne. by eapply (kids_disjoint h F HF).
  - intros q Hq. destruct (decide (p = q)) as [<- | Hne]; [by rewrite lookup_insert_eq|]. rewrite N in Hq by done. rewrite lookup_insert_ne by done. by apply (forest_container _ _ HF).
  - intros x p' a' b' Hx Hp'. destruct (decide (x ∈ l')) as [Hin | Hin].
    + destruct (kids_links h' p _ x Hkp Hin) as (? & ? & E'). rewrite E' in Hx. simplify_eq. exists l'. by rewrite lookup_insert_eq.
    + rewrite Hl' in Hin. rewrite Lo in Hx by tauto. destruct (forest_child _ _ HF x p' a' b' Hx Hp') as (lx & Hlx & Hxl). exists lx. split; [|done].
      rewrite lookup_insert_ne; [done|]. intros <-. simplify_eq. tauto.
  - pose proof (label_live h h' NULL (B NULL)) as [HB _]. destruct (h' !! NULL) eqn:E'; [|done]. destruct HB as [x Hx]; [by eexists|]. by rewrite (forest_null _ _ HF) in Hx.
Qed.

Lemma forest_append h F p c l a b : forest h F -> F !! p = Some l -> links h c = Some (NULL, a, b) -> c <> p ->
  exists h', append_node h p c = Some h' /\ forest h' (<[p := l ++ [c]]> F) /\ forall q, label h' q = label h q.
Proof.
  intros HF Hl Hc Hcp. pose proof (forest_kids _ _ HF p l Hl) as Hk. destruct (kids_not_null h F HF p l Hl) as [Hpn Hnn].
  assert (Hcl : c ∉ l). { intros Hin. destruct (kids_links h p l c Hk Hin) as (? & ? & E). congruence. }
  destruct (links_lookup h c _ Hc) as (m & Hm & _).
  destruct (append_node_heap h p c l m Hk Hnn Hm Hcp Hcl) as (h' & E & Lc & Lt & Lo & Li & N & B). exists h'. split; [done|]. split; [|done].
  assert (Hkp : kids h' p (l ++ [c])).
  { split; [by rewrite N, decide_True, last_or_snoc | | |].
    - apply NoDup_app. split; [apply Hk|]. split; [set_solver | apply NoDup_singleton].
    - pose proof (kids_self _ _ _ Hk). set_solver.
    - intros l1 x l2 Hsp. apply snoc_split in Hsp as [(-> & -> & ->) | (l3 & -> & ->)]; [exact Lc|].
      destruct l3 as [|y l3].
      + by rewrite (Lt l1 x).
      + destruct (exists_last (l := y :: l3)) as (l4 & t & E4); [done|].
        rewrite (Li (l1 ++ x :: l4) t); [by apply (kids_around _ _ _ Hk l1 x (y :: l3)) | rewrite E4, <- app_assoc; done | set_solver]. }
  apply (forest_link h h' F p c l _ a b); try done; [set_solver|]. intros q Hq. by rewrite N, decide_False by done.
Qed.

(** ** Prepending *)

(** Only the pointers around a new first child change. *)
Lemma prepend_node_heap h p c l m : kids h p l -> (forall x, x ∈ l -> x <> NULL) -> h !! c = Some m -> c <> p -> c ∉ l ->
  exists h', prepend_node h p c = Some h' /\ links h' c = Some (p, NULL, head_or l) /\
    (forall t l0, l = t :: l0 -> links h' t = Some (p, c, head_or l0)) /\
    (forall q, q <> c -> l = [] \/ q <> head_or l -> links h' q = links h q) /\
    (forall q, ends h' q = if decide (p = q) then Some (c, last_or (c :: l)) else ends h q) /\
    (forall q, label h' q = label h q).
Proof.
  intros [He Hnd Hpl Har] Hnn Hm Hcp Hcl. unfold prepend_node.
  destruct (set_links h c m (fun n => with_parent n p) Hm) as (h1 & E1 & L1 & N1 & B1 & M1); [done|]. rewrite E1. cbn [mbind option_bind].
  destruct (ends_lookup h1 p (head_or l, last_or l)) as (n1 & Hn1 & Hc1); [by rewrite N1|]. rewrite Hn1. cbn [mbind option_bind]. rewrite Hc1. cbn [mbind option_bind].
  destruct (set_links h1 c _ (fun n => with_next (with_prev n NULL) (head_or l)) M1) as (h2 & E2 & L2 & N2 & B2 & M2); [done|].
  rewrite E2. cbn [mbind option_bind]. cbn [parent prev next with_next with_prev with_parent] in L2.
  destruct l as [|t l0].
  - change (head_or []) with NULL in *. change (negb (NULL =? NULL)) with false. cbv iota.
    destruct (ends_lookup h2 p (NULL, NULL)) as (n2 & Hn2 & Hc2); [by rewrite N2, N1|].
    destruct (update_ends h2 p n2 (fun x => (x.1, c)) NULL NULL Hn2 Hc2) as (h3 & E3 & L3 & N3 & B3). cbn [fst snd] in *. rewrite E3. cbn [mbind option_bind].
    destruct (ends_lookup h3 p (NULL, c)) as (n3 & Hn3 & Hc3); [by rewrite N3, decide_True|].
    destruct (update_ends h3 p n3 (fun x => (c, x.2)) NULL c Hn3 Hc3) as (h4 & E4 & L4 & N4 & B4). cbn [fst snd] in *.
    exists h4. split; [exact E4|]. split_and!.
    + rewrite L4, L3, L2. by rewrite decide_True.
    + done.
    + intros q Hq _. rewrite L4, L3, L2, L1. by rewrite !decide_False by congruence.
    + intros q. rewrite N4. destruct (decide (p = q)); [done|]. by rewrite N3, decide_False, N2, N1.
    + intros q. by rewrite B4, B3, B2, B1.
  - rewrite head_or_cons in *. assert (Htn : t <> NULL) by (apply Hnn; left). assert (Htc : t <> c) by (intros ->; apply Hcl; left).
    assert (Htp : t <> p) by (intros ->; apply Hpl; left).
    replace (negb (t =? NULL)) with true by (unfold NULL in *; lia).
    assert (Hlt : links h2 t = Some (p, NULL, head_or l0)).
    { rewrite L2, L1, !decide_False by congruence. by rewrite (Har [] t l0) by done. }
    destruct (links_lookup h2 t _ Hlt) as (n2 & Hn2 & Hn2').
    destruct (set_links h2 t n2 (fun n => with_prev n c) Hn2) as (h3 & E3 & L3 & N3 & B3 & M3); [done|].
    rewrite E3. cbn [mbind option_bind]. cbn [parent prev next with_prev] in L3.
    destruct (ends_lookup h3 p (t, last_or (t :: l0))) as (n3 & Hn3 & Hc3); [by rewrite N3, N2, N1|].
    destruct (update_ends h3 p n3 (fun x => (c, x.2)) _ _ Hn3 Hc3) as (h4 & E4 & L4 & N4 & B4). cbn [fst snd] in *.
    exists h4. split; [exact E4|]. split_and!.
    + rewrite L4, L3, decide_False by congruence. by rewrite L2, decide_True.
    + intros t' l1 [= <- <-]. rewrite L4, L3, decide_True by done. by injection Hn2' as -> _ ->.
    + intros q Hq [Ht | Ht]; [done|]. rewrite L4, L3, L2, L1. by rewrite !decide_False by congruence.
    + intros q. rewrite N4. destruct (decide (p = q)); [by rewrite (last_or_cons c) | by rewrite N3, N2, N1].
    + intros q. by rewrite B4, B3, B2, B1.
Qed.

Lemma forest_prepend h F p c l a b : forest h F -> F !! p = Some l -> links h c = Some (NULL, a, b) -> c <> p ->
  exists h', prepend_node h p c = Some h' /\ forest h' (<[p := c :: l]> F) /\ forall q, label h' q = label h q.
Proof.
  intros HF Hl Hc Hcp. pose proof (forest_kids _ _ HF p l Hl) as Hk. destruct (kids_not_null h F HF p l Hl) as [Hpn Hnn].
  assert (Hcl : c ∉ l). { intros Hin. destruct (kids_links h p l c Hk Hin) as (? & ? & E). congruence. }
  destruct (links_lookup h c _ Hc) as (m & Hm & _).
  destruct (prepend_node_heap h p c l m Hk Hnn Hm Hcp Hcl) as (h' & E & Lc & Lt & Lo & N & B). exists h'. split; [done|]. split; [|done].
  assert (Hkp : kids h' p (c :: l)).
  { split; [by rewrite N, decide_True | apply NoDup_cons; split; [done | apply Hk] | |].
    - pose proof (kids_self _ _ _ Hk). set_solver.
    - intros [|y l1] x l2 Hsp; injection Hsp as ? Hsp; [by simplify_eq|]. subst y. destruct l1 as [|z l1]; [by apply Lt|].
      rewrite Lo.
      + rewrite (kids_around _ _ _ Hk (z :: l1) x l2) by done. by rewrite (last_or_cons c).
      + intros ->. apply Hcl. rewrite Hsp. apply elem_of_app. right. by left.
      + right. rewrite Hsp. change (x <> z). intros ->. pose proof (kids_nodup _ _ _ Hk) as Hnd. rewrite Hsp in Hnd. cbn in Hnd.
        apply NoDup_cons in Hnd as [Hnd _]. apply Hnd, elem_of_app. right. by left. }
  apply (forest_link h h' F p c l _ a b); try done; [intros q; apply elem_of_cons | | intros q Hq; by rewrite N, decide_False by done].
  intros q Hq Hql. apply Lo; [done|]. destruct l as [|t l]; [by left | right]. intros ->. apply Hql. by left.
Qed.

(** ** Unlinking *)

(** The sibling before: its next pointer, or the first child of the parent. *)
Lemma unlink_prev h p l1 c l2 n : kids h p (l1 ++ c :: l2) -> (forall x, x ∈ l1 ++ c :: l2 -> x <> NULL) ->
  (parent n, prev n, next n) = (p, last_or l1, head_or l2) ->
  exists h', (if negb (prev n =? NULL) then set h (prev n) (fun m => with_next m (next n))
     else update h (parent n) (fun p => x ← children p; set_children p (next n) x.2)) = Some h' /\
    (forall l0 x, l1 = l0 ++ [x] -> links h' x = Some (p, last_or l0, head_or l2)) /\
    (forall q, l1 = [] \/ q <> last_or l1 -> links h' q = links h q) /\
    (forall q, ends h' q = if decide (p = q) then Some (head_or (l1 ++ l2), last_or (l1 ++ c :: l2)) else ends h q) /\
    (forall q, label h' q = label h q).
Proof.
  intros [He Hnd Hpl Har] Hnn [= -> -> ->]. destruct l1 as [|x l0 _] using rev_ind.
  - change (last_or []) with NULL. change (negb (NULL =? NULL)) with false. cbv iota. cbn [app] in *.
    destruct (ends_lookup h p _ He) as (m & Hm & Hc). destruct (update_ends h p m (fun x => (head_or l2, x.2)) _ _ Hm Hc) as (h' & E & L & N & B).
    exists h'. split; [exact E|]. split; [by intros [|? ?] ?|]. split; [intros q _; apply L|]. split; [intros q; rewrite N; by destruct (decide (p = q))|]. exact B.
  - rewrite last_or_snoc in *. assert (Hx : x <> NULL) by (apply Hnn; rewrite <- app_assoc; apply elem_of_app; right; left).
    replace (negb (x =? NULL)) with true by (unfold NULL in *; lia).
    assert (Hl : links h x = Some (p, last_or l0, c)) by (rewrite (Har l0 x (c :: l2)); [done | by rewrite <- app_assoc]).
    destruct (links_lookup h x _ Hl) as (m & Hm & Hm').
    destruct (set_links h x m (fun m => with_next m (head_or l2)) Hm) as (h' & E & L & N & B & _); [done|].
    exists h'. split; [exact E|]. split; [|split; [|split; [|exact B]]].
    + intros l0' x' Hs. apply app_inj_tail in Hs as [<- <-]. rewrite L, decide_True by done. cbn [parent prev next with_next with_prev]. by injection Hm' as -> -> _.
    + intros q [Hq | Hq]; [by destruct l0|]. rewrite L, decide_False; [done | congruence].
    + intros q. rewrite N. destruct (decide (p = q)) as [<- | Hne]; [|done]. rewrite He. f_equal. f_equal.
      rewrite <- !app_assoc. by destruct l0.
Qed.

(** The sibling after: its prev pointer, or the last child of the parent. *)
Lemma unlink_next h p l1 c l2 n a b : ends h p = Some (a, b) -> NoDup (l1 ++ c :: l2) ->
  (forall y l3, l2 = y :: l3 -> y <> NULL /\ links h y = Some (p, c, head_or l3)) ->
  (parent n, prev n, next n) = (p, last_or l1, head_or l2) ->
  exists h', (if negb (next n =? NULL) then set h (next n) (fun m => with_prev m (prev n))
     else update h (parent n) (fun p => x ← children p; set_children p x.1 (prev n))) = Some h' /\
    (forall y l3, l2 = y :: l3 -> links h' y = Some (p, last_or l1, head_or l3)) /\
    (forall q, l2 = [] \/ q <> head_or l2 -> links h' q = links h q) /\
    (forall q, ends h' q = if decide (p = q) then Some (a, if decide (l2 = []) then last_or l1 else b) else ends h q) /\
    (forall q, label h' q = label h q).
Proof.
  intros He Hnd Hl2 [= -> -> ->]. destruct l2 as [|y l3].
  - change (head_or []) with NULL. change (negb (NULL =? NULL)) with false. cbv iota.
    destruct (ends_lookup h p _ He) as (m & Hm & Hc). destruct (update_ends h p m (fun x => (x.1, last_or l1)) _ _ Hm Hc) as (h' & E & L & N & B).
    exists h'. split; [exact E|]. split; [done|]. split; [intros q _; apply L|]. split; [intros q; rewrite N; by destruct (decide (p = q))|]. exact B.
  - change (head_or (y :: l3)) with y. destruct (Hl2 y l3 eq_refl) as [Hy Hly].
    replace (negb (y =? NULL)) with true by (unfold NULL in *; lia). destruct (links_lookup h y _ Hly) as (m & Hm & Hm').
    destruct (set_links h y m (fun m => with_prev m (last_or l1)) Hm) as (h' & E & L & N & B & _); [done|].
    exists h'. split; [exact E|]. split; [|split; [|split; [|exact B]]].
    + intros y' l3' [= <- <-]. rewrite L, decide_True by done. cbn [parent prev next with_next with_prev]. by injection Hm' as -> _ ->.
    + intros q [Hq | Hq]; [done|]. rewrite L, decide_False; [done | congruence].
    + intros q. rewrite N. destruct (decide (p = q)) as [<- | Hne]; [|done]. by rewrite He.
Qed.

Lemma split_app {A} (l1 l2 a b : list A) x : l1 ++ l2 = a ++ x :: b ->
  (exists k, l1 = a ++ x :: k /\ b = k ++ l2) \/ (exists k, a = l1 ++ k /\ l2 = k ++ x :: b).
Proof.
  revert l1. induction a as [|y a IH]; intros [|z l1] E; cbn in E.
  - right. by exists [].
  - left. injection E as -> <-. by exists l1.
  - right. by exists (y :: a).
  - injection E as -> E. destruct (IH l1 E) as [(k & -> & ->) | (k & -> & ->)]; [left | right]; by exists k.
Qed.

Lemma unlink_heap h p l1 c l2 n : kids h p (l1 ++ c :: l2) -> (forall x, x ∈ l1 ++ c :: l2 -> x <> NULL) -> h !! c = Some n ->
  parent n = p /\ exists h', unlink h n = Some h' /\ kids h' p (l1 ++ l2) /\
    (forall q, q ∉ l1 ++ l2 -> links h' q = links h q) /\
    (forall q, q <> p -> ends h' q = ends h q) /\ (forall q, label h' q = label h q).
Proof.
  intros Hk Hnn Hn. pose proof Hk as [He Hnd Hpl Har]. pose proof (Har l1 c l2 eq_refl) as Hlc. unfold links in Hlc. rewrite Hn in Hlc.
  cbn [mbind option_bind] in Hlc. assert (Hlinks : (parent n, prev n, next n) = (p, last_or l1, head_or l2)) by congruence.
  split; [congruence|]. unfold unlink.
  destruct (unlink_prev h p l1 c l2 n Hk Hnn Hlinks) as (h1 & E1 & X1 & O1 & N1 & B1). rewrite E1. cbn [mbind option_bind].
  apply NoDup_app in Hnd as (Hnd1 & Hd & Hnd2). apply NoDup_cons in Hnd2 as [Hc2 Hnd2].
  assert (Hc1 : c ∉ l1) by (intros Hin; apply (Hd c Hin); by left).
  assert (Hlast : forall q, q ∉ l1 -> l1 = [] \/ q <> last_or l1).
  { intros q Hq. destruct l1 as [|x l0 _] using rev_ind; [by left|]. right. rewrite last_or_snoc. intros ->. apply Hq, elem_of_app. right. by left. }
  assert (H12 : forall q, q ∈ l2 -> q ∉ l1) by (intros q Hq Hq1; apply (Hd q Hq1); by right).
  destruct (unlink_next h1 p l1 c l2 n (head_or (l1 ++ l2)) (last_or (l1 ++ c :: l2))) as (h' & E2 & X2 & O2 & N2 & B2).
  { by rewrite N1, decide_True. }
  { apply NoDup_app. split; [done|]. split; [done|]. by apply NoDup_cons. }
  { intros y l3 ->. split; [apply Hnn, elem_of_app; right; right; left|]. rewrite O1.
    - rewrite (Har (l1 ++ [c]) y l3) by by rewrite <- app_assoc. by rewrite last_or_snoc.
    - apply Hlast, H12. by left. }
  { done. }
  exists h'. split; [exact E2|].
  assert (Hhead : forall q, q ∉ l2 -> l2 = [] \/ q <> head_or l2).
  { intros q Hq. destruct l2 as [|y l3]; [by left|]. right. intros ->. apply Hq. by left. }
  assert (Hsame : forall q, (l1 = [] \/ q <> last_or l1) -> (l2 = [] \/ q <> head_or l2) -> links h' q = links h q).
  { intros q H1 H2. by rewrite O2, O1. }
  split_and!.
  - split.
    + rewrite N2, decide_True by done. f_equal. f_equal. destruct (decide (l2 = [])) as [-> | Hl2]; [by rewrite app_nil_r|].
      rewrite !last_or_app by done. by apply last_or_cons.
    + apply NoDup_app. split; [done|]. split; [|done]. intros q Hq Hq2. by apply (H12 q).
    + intros Hin. apply Hpl. apply elem_of_app in Hin as [Hin | Hin]; apply elem_of_app; [by left | right; by right].
    + intros a x b Hs. apply split_app in Hs as [(k & Hl1 & ->) | (k & -> & Hl2)].
      * assert (Hx2 : x ∉ l2) by (intros Hx; apply (H12 x Hx); rewrite Hl1; apply elem_of_app; right; left).
        destruct k as [|z k].
        { rewrite O2 by by apply Hhead. by apply X1. }
        rewrite Hsame; [| right | by apply Hhead].
        { by rewrite (Har a x (z :: k ++ c :: l2)) by by rewrite Hl1, <- app_assoc. }
        { rewrite Hl1, last_or_app, last_or_cons by done. intros ->. rewrite Hl1 in Hnd1. apply NoDup_app in Hnd1 as (_ & _ & Hnd1).
          apply NoDup_cons in Hnd1 as [Hnx _]. apply Hnx. destruct (exists_last (l := z :: k)) as (k' & w & ->); [done|].
          rewrite last_or_snoc. apply elem_of_app. right. by left. }
      * assert (Hx1 : x ∉ l1) by (apply H12; rewrite Hl2; apply elem_of_app; right; left).
        destruct k as [|z k].
        { rewrite app_nil_r. by apply X2. }
        rewrite Hsame; [| by apply Hlast | right].
        { rewrite (Har (l1 ++ c :: z :: k) x b) by by rewrite Hl2, <- app_assoc. by rewrite !last_or_app, last_or_cons by done. }
        { rewrite Hl2. cbn. intros ->. rewrite Hl2 in Hnd2. cbn in Hnd2. apply NoDup_cons in Hnd2 as [Hnz _]. apply Hnz, elem_of_app. right. by left. }
  - intros q Hq. apply Hsame; [apply Hlast | apply Hhead]; intros Hin; apply Hq, elem_of_app; auto.
  - intros q Hq. by rewrite N2, N1, !decide_False by done.
  - intros q. by rewrite B2, B1.
Qed.

(** The node with the key [k] and no parent. *)
Definition detach (k : property_t) (n : node) : node := with_next (with_prev (with_parent (with_key n k) NULL) NULL) NULL.

Lemma detach_heap h c n k : h !! c = Some n -> exists h', set h c (detach k) = Some h' /\
  (forall q, links h' q = if decide (c = q) then Some (NULL, NULL, NULL) else links h q) /\
  (forall q, ends h' q = ends h q) /\ (forall q, label h' q = if decide (c = q) then Some (k, erase (body n)) else label h q).
Proof.
  intros Hn. exists (<[c := detach k n]> h). split; [by apply set_Some|]. split_and!; intros q.
  - apply links_insert.
  - rewrite ends_insert. destruct (decide (c = q)) as [<- | Hne]; [|done]. unfold ends. by rewrite Hn.
  - by rewrite label_insert.
Qed.

Lemma forest_remove h F p l1 c l2 n k : forest h F -> F !! p = Some (l1 ++ c :: l2) -> h !! c = Some n ->
  parent n = p /\ p <> NULL /\ exists h1 h2, unlink h n = Some h1 /\ set h1 c (detach k) = Some h2 /\ forest h2 (<[p := l1 ++ l2]> F) /\
    links h2 c = Some (NULL, NULL, NULL) /\ (forall q, label h2 q = if decide (c = q) then Some (k, erase (body n)) else label h q).
Proof.
  intros HF Hl Hn. pose proof (forest_kids _ _ HF p _ Hl) as Hk. destruct (kids_not_null h F HF p _ Hl) as [Hpn Hnn].
  destruct (unlink_heap h p l1 c l2 n Hk Hnn Hn) as (Hp & h1 & E1 & Hk1 & L1 & N1 & B1). split; [done|]. split; [done|].
  assert (Hcl : c ∉ l1 ++ l2). { pose proof (kids_nodup _ _ _ Hk) as Hnd. apply NoDup_app in Hnd as (_ & Hd & Hnd). apply NoDup_cons in Hnd as [Hnd _].
    intros Hin. apply elem_of_app in Hin as [Hin | Hin]; [|done]. apply (Hd c Hin). by left. }
  assert (Hn1 : exists n1, h1 !! c = Some n1 /\ erase (body n1) = erase (body n)).
  { pose proof (B1 c) as Hb. unfold label in Hb. rewrite Hn in Hb. destruct (h1 !! c) as [n1|]; [|done]. exists n1. split; [done|]. by injection Hb. }
  destruct Hn1 as (n1 & Hn1 & He1). destruct (detach_heap h1 c n1 k Hn1) as (h2 & E2 & L2 & N2 & B2).
  exists h1, h2. split; [done|]. split; [done|]. split; [|split; [by rewrite L2, decide_True | intros q; rewrite B2, He1; by destruct (decide (c = q))]].
  assert (Hk2 : kids h2 p (l1 ++ l2)).
  { apply (kids_frame h1); [done | apply N2 |]. intros x Hx. rewrite L2, decide_False; [done|]. by intros <-. }
  split.
  - intros q lq Hq. destruct (decide (q = p)) as [-> | Hne]; [rewrite lookup_insert_eq in Hq; by simplify_eq|].
    rewrite lookup_insert_ne in Hq by done. pose proof (forest_kids _ _ HF q lq Hq) as Hkq.
    assert (Hdis : forall x, x ∈ lq -> x ∉ l1 ++ c :: l2) by (intros x Hx Hx'; apply Hne; by eapply (kids_disjoint h F HF)).
    apply (kids_frame h); [done | by rewrite N2, N1 |]. intros x Hx. pose proof (Hdis x Hx) as Hxl. rewrite L2, decide_False.
    + apply L1. intros Hin. apply Hxl. apply elem_of_app in Hin as [Hin | Hin]; apply elem_of_app; [by left | right; by right].
    + intros <-. apply Hxl, elem_of_app. right. by left.
  - intros q Hq. rewrite N2 in Hq. destruct (decide (p = q)) as [<- | Hne]; [by rewrite lookup_insert_eq|]. rewrite lookup_insert_ne by done.
    apply (forest_container _ _ HF). by rewrite <- N1.
  - intros x p' a' b' Hx Hp'. rewrite L2 in Hx. destruct (decide (c = x)) as [<- | Hcx]; [by simplify_eq|].
    destruct (decide (x ∈ l1 ++ l2)) as [Hin | Hin].
    + destruct (kids_links h1 p _ x Hk1 Hin) as (? & ? & E'). rewrite E' in Hx. simplify_eq. exists (l1 ++ l2). by rewrite lookup_insert_eq.
    + rewrite L1 in Hx by done. destruct (forest_child _ _ HF x p' a' b' Hx Hp') as (lx & Hlx & Hxl). exists lx. split; [|done].
      rewrite lookup_insert_ne; [done|]. intros <-. simplify_eq. apply Hin. apply elem_of_app in Hxl as [Hxl | Hxl]; apply elem_of_app; [by left|].
      apply elem_of_cons in Hxl as [-> | Hxl]; [done | by right].
  - pose proof (forest_null _ _ HF) as H0. assert (Hc0 : c <> NULL) by (apply Hnn, elem_of_app; right; by left).
    pose proof (B2 NULL) as Hb. rewrite decide_False, B1 in Hb by done. apply label_live in Hb. destruct (h2 !! NULL) eqn:E'; [|done].
    destruct Hb as [[x Hx] _]; [by eexists|]. by rewrite H0 in Hx.
Qed.

(** ** Deleting a tree *)

#[warnings="-register-all"]
Inductive rose := Rose (a : Z) (ts : list rose).
Definition root (t : rose) : Z := match t with Rose a _ => a end.

Section rose_ind.
Context (P : rose -> Prop) (HP : forall a ts, Forall P ts -> P (Rose a ts)).
Fixpoint rose_ind' (t : rose) : P t :=
  match t with
  | Rose a ts => HP a ts ((fix go (ts : list rose) : Forall P ts := match ts with [] => Forall_nil_2 P | t :: ts' => Forall_cons_2 P t ts' (rose_ind' t) (go ts') end) ts)
  end.
End rose_ind.

(** The nodes of a tree, in the order they are visited. *)
Fixpoint addrs (t : rose) : list Z := match t with Rose a ts => a :: concat (map addrs ts) end.
Fixpoint size (t : rose) : nat := match t with Rose a ts => S (S (list_sum (map size ts))) end.

(** [t] is the tree under its root. *)
#[warnings="-register-all"]
Inductive spans (F : gmap Z (list Z)) : rose -> Prop :=
| spans_rose a ts : default [] (F !! a) = map root ts -> Forall (spans F) ts -> spans F (Rose a ts).

Section delete.
Context (disp : list prop_type).

(** What [json_delete] gives back to the allocators of strings: the key of a node
    that has a parent, the string of a string node, then the same for its children. *)
Definition free_node (keyed : bool) (x : property_t * payload) (m : memory) : option memory :=
  m ← (if keyed then '(m, _) ← property_free disp m x.1; Some m else Some m);
  match x.2 with JSON_STRING s => json_delete_string m s | _ => Some m end.

Fixpoint free_tree (h : heap) (keyed : bool) (t : rose) (m : memory) : option memory :=
  match t with
  | Rose a ts =>
      x ← label h a;
      m ← free_node keyed x m;
      (fix go ts m := match ts with [] => Some m | t :: ts' => m ← free_tree h true t m; go ts' m end) ts m
  end.
Definition free_trees (h : heap) : list rose -> memory -> option memory :=
  fix go ts m := match ts with [] => Some m | t :: ts' => m ← free_tree h true t m; go ts' m end.

Lemma free_tree_eq h keyed a ts m : free_tree h keyed (Rose a ts) m = (x ← label h a; m ← free_node keyed x m; free_trees h ts m).
Proof. reflexivity. Qed.

Lemma free_tree_ext h h' t : forall keyed m, (forall q, q ∈ addrs t -> label h' q = label h q) -> free_tree h' keyed t m = free_tree h keyed t m.
Proof.
  induction t as [a ts IH] using rose_ind'. intros keyed m Hl. rewrite !free_tree_eq, Hl by (left).
  destruct (label h a) as [x|]; [|done]. cbn [mbind option_bind]. destruct (free_node keyed x m) as [m1|]; [|done]. cbn [mbind option_bind].
  assert (Hts : forall q, q ∈ concat (map addrs ts) -> label h' q = label h q) by (intros q Hq; apply Hl; by right). clear Hl m x. revert m1.
  induction IH as [|t ts Ht _ IHts]; intros m1; [done|]. cbn [free_trees map concat] in *. rewrite Ht by (intros q Hq; apply Hts, elem_of_app; by left).
  destruct (free_tree h true t m1) as [m2|]; [|done]. cbn [mbind option_bind]. apply IHts. intros q Hq. apply Hts, elem_of_app. by right.
Qed.

Lemma free_trees_ext h h' ts : forall m, (forall q, q ∈ concat (map addrs ts) -> label h' q = label h q) -> free_trees h' ts m = free_trees h ts m.
Proof.
  induction ts as [|t ts IH]; intros m Hl; [done|]. cbn [free_trees map concat] in *.
  rewrite (free_tree_ext h h') by (intros q Hq; apply Hl, elem_of_app; by left).
  destruct (free_tree h true t m) as [m2|]; [|done]. cbn [mbind option_bind]. apply IH. intros q Hq. apply Hl, elem_of_app. by right.
Qed.

Lemma spans_ext F F' t : spans F t -> (forall q, q ∈ addrs t -> F' !! q = F !! q) -> spans F' t.
Proof.
  induction t as [a ts IH] using rose_ind'. intros Hs Hq. inversion Hs as [? ? Hd Hts]; subst. constructor; [rewrite Hq; [done | by left]|].
  assert (Hqs : forall q, q ∈ concat (map addrs ts) -> F' !! q = F !! q) by (intros q Hin; apply Hq; by right). clear Hq Hs Hd.
  induction IH as [|t ts Ht _ IHts]; [done|]. apply Forall_cons in Hts as [Hst Hts]. cbn [map concat] in Hqs. constructor.
  - apply Ht; [done|]. intros q Hin. apply Hqs, elem_of_app. by left.
  - apply IHts; [done|]. intros q Hin. apply Hqs, elem_of_app. by right.
Qed.

(** The forest without some nodes. *)
Definition without (F : gmap Z (list Z)) (l : list Z) : gmap Z (list Z) := foldr delete F l.

Lemma without_lookup F l q : without F l !! q = if decide (q ∈ l) then None else F !! q.
Proof.
  induction l as [|x l IH]; cbn [without foldr]; [by rewrite decide_False by set_solver|]. fold (without F l).
  destruct (decide (x = q)) as [<- | Hne]; [rewrite lookup_delete_eq, decide_True; [done | by left]|].
  rewrite lookup_delete_ne, IH by done. destruct (decide (q ∈ l)) as [Hin | Hin].
  - rewrite decide_True; [done | by right].
  - rewrite decide_False; [done|]. intros [-> | Hq]%elem_of_cons; done.
Qed.

(** A node without parent and children is forgotten. *)
Lemma forest_drop h F a x y : forest h F -> links h a = Some (NULL, x, y) -> default [] (F !! a) = [] -> forest (delete a h) (delete a F).
Proof.
  intros HF Ha Hl. assert (Hlk : forall q, q <> a -> links (delete a h) q = links h q /\ ends (delete a h) q = ends h q).
  { intros q Hq. unfold links, ends. by rewrite lookup_delete_ne by done. }
  split.
  - intros p l Hp. destruct (decide (p = a)) as [-> | Hne]; [by rewrite lookup_delete_eq in Hp|]. rewrite lookup_delete_ne in Hp by done.
    pose proof (forest_kids _ _ HF p l Hp) as Hk. apply (kids_frame h); [done | by apply Hlk |]. intros c Hc. apply Hlk. intros ->.
    destruct (kids_links h p l a Hk Hc) as (? & ? & E). rewrite Ha in E. injection E as E _ _. by destruct (kids_not_null h F HF p l Hp).
  - intros p Hp. destruct (decide (p = a)) as [-> | Hne]; [unfold ends in Hp; rewrite lookup_delete_eq in Hp; by destruct Hp|].
    rewrite lookup_delete_ne by done. apply (forest_container _ _ HF). by rewrite <- (proj2 (Hlk p Hne)).
  - intros c p u v Hc Hp. destruct (decide (c = a)) as [-> | Hne]; [unfold links in Hc; by rewrite lookup_delete_eq in Hc|].
    rewrite (proj1 (Hlk c Hne)) in Hc. destruct (forest_child _ _ HF c p u v Hc Hp) as (l & Hpl & Hcl). exists l. split; [|done].
    rewrite lookup_delete_ne; [done|]. intros <-. rewrite Hpl in Hl. cbn in Hl. subst l. by apply elem_of_nil in Hcl.
  - destruct (decide (a = NULL)) as [-> | Hne]; [by rewrite lookup_delete_eq|]. rewrite lookup_delete_ne by done. apply HF.
Qed.
End delete.

(** Removing a node from its parent frees its key. *)
Lemma remove_ok disp h F p l1 c l2 m m' k k' b : forest h F -> F !! p = Some (l1 ++ c :: l2) -> label h c = Some (k, b) ->
  property_free disp m k = Some (m', k') ->
  exists h', json_remove_from_parent disp (mk_world m h) c = Some (mk_world m' h') /\ forest h' (<[p := l1 ++ l2]> F) /\
    links h' c = Some (NULL, NULL, NULL) /\ forall q, label h' q = if decide (c = q) then Some (k', b) else label h q.
Proof.
  intros HF Hl Hb Hk. unfold label in Hb. destruct (h !! c) as [n|] eqn:Hn; [|done]. cbn [mbind option_bind] in Hb. simplify_eq.
  destruct (forest_remove h F p l1 c l2 n k' HF Hl Hn) as (Hp & Hpn & h1 & h2 & E1 & E2 & HF2 & L2 & B2). exists h2. split; [|done].
  unfold json_remove_from_parent. cbn [w_mem w_nodes]. rewrite Hn. cbn [mbind option_bind]. rewrite Hp.
  replace (p =? NULL) with false by (unfold NULL in *; lia). cbn [negb]. rewrite E1. cbn [mbind option_bind]. rewrite Hk. cbn [mbind option_bind].
  unfold detach in E2. by rewrite E2.
Qed.

Lemma orphan_links h F a : forest h F -> is_Some (label h a) -> (forall p l, F !! p = Some l -> a ∉ l) -> exists x y, links h a = Some (NULL, x, y).
Proof.
  intros HF [x Hx] Ho. unfold label in Hx. destruct (h !! a) as [n|] eqn:Hn; [|done]. destruct (decide (parent n = NULL)) as [Hp | Hp].
  - exists (prev n), (next n). unfold links. rewrite Hn. cbn. by rewrite Hp.
  - destruct (forest_child _ _ HF a (parent n) (prev n) (next n)) as (l & Hl & Hal); [by unfold links; rewrite Hn | done|]. by destruct (Ho _ _ Hl).
Qed.

Lemma root_in t : root t ∈ addrs t.
Proof. destruct t. by left. Qed.
Lemma roots_in ts x : x ∈ map root ts -> x ∈ concat (map addrs ts).
Proof. induction ts as [|t ts IH]; [done|]. cbn. intros [-> | Hx]%elem_of_cons; apply elem_of_app; [left; apply root_in | right; by apply IH]. Qed.

(** Containers are the nodes with a list of children. *)
Lemma container_label h F a k b : forest h F -> label h a = Some (k, b) ->
  is_Some (F !! a) <-> (b = JSON_ARRAY NULL NULL \/ b = JSON_OBJECT NULL NULL).
Proof.
  intros HF Hb. assert (He : is_Some (F !! a) <-> is_Some (ends h a)).
  { split; [intros [l Hl]; rewrite (kids_ends _ _ _ (forest_kids _ _ HF a l Hl)); by eexists | apply (forest_container _ _ HF)]. }
  rewrite He. unfold ends, label in *. destruct (h !! a) as [n|]; [|done]. cbn in *. simplify_eq. unfold children.
  destruct (body n); cbn; split; intros Hx; try (by destruct Hx); try (by eexists); auto.
Qed.

Section delete_ok.
Context (disp : list prop_type).

Definition deletes (t : rose) : Prop := forall fuel h F m m' p l1 l2, (size t <= fuel)%nat -> forest h F -> spans F t -> NoDup (addrs t) ->
  F !! p = Some (l1 ++ root t :: l2) -> p ∉ addrs t -> free_tree disp h true t m = Some m' ->
  exists h', json_delete disp fuel (mk_world m h) (root t) = Some (mk_world m' h') /\ forest h' (<[p := l1 ++ l2]> (without F (addrs t))) /\
    forall q, label h' q = if decide (q ∈ addrs t) then None else label h q.

Lemma delete_loop ts : Forall deletes ts -> forall fuel h F m m' a, (list_sum (map size ts) < fuel)%nat -> forest h F ->
  F !! a = Some (map root ts) -> Forall (spans F) ts -> NoDup (a :: concat (map addrs ts)) -> free_trees disp h ts m = Some m' ->
  exists h', delete_children disp fuel (mk_world m h) (head_or (map root ts)) = Some (mk_world m' h') /\
    forest h' (<[a := []]> (without F (concat (map addrs ts)))) /\
    forall q, label h' q = if decide (q ∈ concat (map addrs ts)) then None else label h q.
Proof.
  induction 1 as [|t ts Ht _ IH]; intros fuel h F m m' a Hf HF Ha Hs Hnd Hm.
  - destruct fuel as [|fuel]; [lia|]. cbn in *. simplify_eq. exists h. split; [done|]. split; [by rewrite insert_id|]. intros q. by rewrite decide_False by set_solver.
  - destruct fuel as [|fuel]; [lia|]. cbn [map concat list_sum] in *. apply Forall_cons in Hs as [Hst Hs]. apply NoDup_cons in Hnd as [Hat Hnd].
    apply NoDup_app in Hnd as (Hnt & Hd & Hnts). change (list_sum (size t :: map size ts)) with (size t + list_sum (map size ts))%nat in Hf.
    assert (Hsz : (0 < size t)%nat) by (destruct t; cbn; lia).
    change (free_trees disp h (t :: ts) m) with (m1 ← free_tree disp h true t m; free_trees disp h ts m1) in Hm.
    destruct (free_tree disp h true t m) as [m1|] eqn:Em; [|done]. cbn [mbind option_bind] in Hm.
    destruct (Ht fuel h F m m1 a [] (map root ts)) as (h1 & E1 & HF1 & B1); try done; [lia | set_solver|]. cbn [app] in HF1.
    set (F1 := <[a := map root ts]> (without F (addrs t))) in *.
    assert (HF1s : forall q, q ∈ concat (map addrs ts) -> F1 !! q = F !! q).
    { intros q Hq. unfold F1. rewrite lookup_insert_ne by set_solver. rewrite without_lookup, decide_False; [done|]. intros Hqt. by apply (Hd q). }
    destruct (IH fuel h1 F1 m1 m' a) as (h2 & E2 & HF2 & B2); try done.
    { lia. }
    { unfold F1. by rewrite lookup_insert_eq. }
    { clear -Hs HF1s. clearbody F1. induction Hs as [|x ts Hx _ IH]; [done|]. cbn in HF1s. constructor.
      - apply (spans_ext F); [done|]. intros q Hq. apply HF1s, elem_of_app. by left.
      - apply IH. intros q Hq. apply HF1s, elem_of_app. by right. }
    { apply NoDup_cons. split; [set_solver | done]. }
    { rewrite (free_trees_ext disp h h1); [done|]. intros q Hq. rewrite B1, decide_False; [done|]. intros Hqt. by apply (Hd q). }
    exists h2. split; [|split].
    + pose proof (forest_kids _ _ HF a _ Ha) as Hk. pose proof (kids_around _ _ _ Hk [] (root t) (map root ts) eq_refl) as Hn.
      destruct (kids_not_null h F HF a _ Ha) as [_ Hnn]. assert (Hr : root t <> NULL) by (apply Hnn; left).
      change (head_or (root t :: map root ts)) with (root t). cbn [delete_children].
      replace (root t =? NULL) with false by (unfold NULL in *; lia). cbn [w_nodes]. unfold links in Hn. destruct (h !! root t) as [n|]; [|done].
      cbn [mbind option_bind] in Hn |- *. rewrite E1. cbn [mbind option_bind]. injection Hn as _ _ Hn. by rewrite Hn.
    + replace (<[a := []]> (without F (addrs t ++ concat (map addrs ts)))) with (<[a := []]> (without F1 (concat (map addrs ts)))); [done|].
      apply map_eq. intros q. destruct (decide (q = a)) as [-> | Hqa]; [by rewrite !lookup_insert_eq|]. rewrite !lookup_insert_ne by done.
      rewrite !without_lookup. unfold F1. rewrite lookup_insert_ne, without_lookup by done. repeat case_decide; set_solver.
    + intros q. rewrite B2, B1. repeat case_decide; set_solver.
Qed.
Definition orphan (F : gmap Z (list Z)) (a : Z) : Prop := forall p l, F !! p = Some l -> a ∉ l.

(** [json_delete] after the removal from the parent. *)
Lemma delete_body fuel h F m m' a ts k b : forest h F -> label h a = Some (k, b) -> orphan F a -> Forall deletes ts ->
  default [] (F !! a) = map root ts -> Forall (spans F) ts -> NoDup (a :: concat (map addrs ts)) -> (list_sum (map size ts) < fuel)%nat ->
  (m1 ← free_node disp false (k, b) m; free_trees disp h ts m1) = Some m' ->
  exists h', (n ← h !! a;
    w ← match body n with
        | JSON_STRING s => m ← json_delete_string m s; Some (mk_world m h)
        | JSON_ARRAY hd _ | JSON_OBJECT hd _ => delete_children disp fuel (mk_world m h) hd
        | _ => Some (mk_world m h)
        end;
    Some (mk_world (w_mem w) (delete a (w_nodes w)))) = Some (mk_world m' h') /\ forest h' (without F (a :: concat (map addrs ts))) /\
    forall q, label h' q = if decide (q ∈ a :: concat (map addrs ts)) then None else label h q.
Proof.
  intros HF Hb Ho Hts Hd Hs Hnd Hf Hm. pose proof (container_label h F a k b HF Hb) as Hc.
  pose proof Hnd as Hnd'. apply NoDup_cons in Hnd' as [Ha _].
  assert (Hn : exists n, h !! a = Some n /\ erase (body n) = b) by (unfold label in Hb; destruct (h !! a) as [n|]; [|done]; cbn in Hb; simplify_eq; by eexists).
  destruct Hn as (n & Hn & Hbn). rewrite Hn. cbn [mbind option_bind].
  assert (Hfin : forall h1 l, forest h1 (<[a := []]> (without F l)) \/ l = [] /\ ts = [] /\ forest h1 F -> l = concat (map addrs ts) -> label h1 a = label h a ->
      (forall q, label h1 q = if decide (q ∈ l) then None else label h q) ->
      forest (delete a h1) (without F (a :: l)) /\ forall q, label (delete a h1) q = if decide (q ∈ a :: l) then None else label h q).
  { intros h1 l HF1 El La1 B1. split.
    - assert (Hx : exists F1, forest h1 F1 /\ default [] (F1 !! a) = [] /\ orphan F1 a /\ delete a F1 = without F (a :: l)).
      { destruct HF1 as [HF1 | (-> & -> & HF1)].
        - exists (<[a := []]> (without F l)). split; [done|]. split; [by rewrite lookup_insert_eq|]. split.
          + intros p lp Hp. destruct (decide (p = a)) as [-> | Hne]; [rewrite lookup_insert_eq in Hp; simplify_eq; set_solver|].
            rewrite lookup_insert_ne, without_lookup in Hp by done. case_decide; [done|]. by apply (Ho p).
          + by rewrite delete_insert_eq.
        - exists F. by rewrite Hd. }
      destruct Hx as (F1 & HF1' & Hd1 & Ho1 & <-). destruct (orphan_links h1 F1 a) as (x & y & Hl); [done | by rewrite La1, Hb; eexists | done|].
      by apply (forest_drop _ _ _ x y).
    - intros q. unfold label at 1. destruct (decide (q = a)) as [-> | Hne]; [rewrite lookup_delete_eq, decide_True by (left); done|].
      rewrite lookup_delete_ne by done. fold (label h1 q). rewrite B1. repeat case_decide; set_solver. }
  assert (Hleaf : F !! a = None -> ts = []) by (intros E; rewrite E in Hd; by destruct ts).
  assert (Hloop : is_Some (F !! a) -> forall hd tl, children n = Some (hd, tl) -> free_node disp false (k, b) m = Some m ->
    exists h', delete_children disp fuel (mk_world m h) hd = Some (mk_world m' h') /\ forest (delete a h') (without F (a :: concat (map addrs ts))) /\
    forall q, label (delete a h') q = if decide (q ∈ a :: concat (map addrs ts)) then None else label h q).
  { intros [l Hl] hd tl Hch Hfr. rewrite Hl in Hd. cbn in Hd. subst l. rewrite Hfr in Hm. cbn [mbind option_bind] in Hm.
    pose proof (kids_ends _ _ _ (forest_kids _ _ HF a _ Hl)) as He. unfold ends in He. rewrite Hn in He. cbn [mbind option_bind] in He. rewrite Hch in He.
    injection He as -> _. destruct (delete_loop ts Hts fuel h F m m' a) as (h' & E & HF' & B'); try done. exists h'. split; [done|].
    apply Hfin; try done; [by left|]. by rewrite B', decide_False. }
  assert (Hnone : ~ is_Some (F !! a) -> ts = [] /\ forest (delete a h) (without F (a :: concat (map addrs ts))) /\
    forall q, label (delete a h) q = if decide (q ∈ a :: concat (map addrs ts)) then None else label h q).
  { intros Hno. apply eq_None_not_Some in Hno. rewrite (Hleaf Hno) in *. split; [done|]. apply (Hfin h []); [right; by split_and! | done | done |]. intros q. by rewrite decide_False by set_solver. }
  destruct (body n) as [|bb|s|nn|hd tl|hd tl] eqn:Ebody; cbn [erase] in Hbn; subst b.
  - destruct Hnone as (-> & HF' & B'); [by rewrite Hc; intros [|]|]. cbn in Hm. simplify_eq. by exists (delete a h).
  - destruct Hnone as (-> & HF' & B'); [by rewrite Hc; intros [|]|]. cbn in Hm. simplify_eq. by exists (delete a h).
  - destruct Hnone as (-> & HF' & B'); [by rewrite Hc; intros [|]|]. unfold free_node in Hm. cbn [mbind option_bind snd] in Hm.
    destruct (json_delete_string m s) as [m1|]; [|done]. cbn in Hm. simplify_eq. by exists (delete a h).
  - destruct Hnone as (-> & HF' & B'); [by rewrite Hc; intros [|]|]. cbn in Hm. simplify_eq. by exists (delete a h).
  - destruct (Hloop ltac:(rewrite Hc; by left) hd tl) as (h' & E & R); [by unfold children; rewrite Ebody | done|]. exists (delete a h'). by rewrite E.
  - destruct (Hloop ltac:(rewrite Hc; by right) hd tl) as (h' & E & R); [by unfold children; rewrite Ebody | done|]. exists (delete a h'). by rewrite E.
Qed.
Lemma free_node_keyed k b m : free_node disp true (k, b) m = ('(m1, _) ← property_free disp m k; free_node disp false (k, b) m1).
Proof. unfold free_node. cbn [fst snd]. by destruct (property_free disp m k) as [[m1 k']|]. Qed.

Lemma sizes_lt a ts fuel : (size (Rose a ts) <= S fuel)%nat -> (list_sum (map size ts) < fuel)%nat.
Proof. cbn. lia. Qed.

Lemma addrs_eq a ts : addrs (Rose a ts) = a :: concat (map addrs ts).
Proof. reflexivity. Qed.

Lemma deletes_all t : deletes t.
Proof.
  induction t as [a ts IH] using rose_ind'. intros fuel h F m m' p l1 l2 Hf HF Hs Hnd Hl Hp Hm. inversion Hs as [? ? Hd Hts]; subst.
  destruct fuel as [|fuel]; [cbn in Hf; lia|]. apply sizes_lt in Hf. rewrite free_tree_eq in Hm. rewrite addrs_eq in *. cbn [root] in Hl.
  destruct (label h a) as [[k b]|] eqn:Hb; [|done]. cbn [mbind option_bind] in Hm. rewrite free_node_keyed in Hm.
  destruct (property_free disp m k) as [[m1 k']|] eqn:Ek; [|done]. cbn [mbind option_bind] in Hm.
  destruct (remove_ok disp h F p l1 a l2 m m1 k k' b HF Hl Hb Ek) as (h1 & E1 & HF1 & _ & B1).
  destruct (kids_not_null h F HF p _ Hl) as [Hpn Hnn]. assert (Ha0 : a <> NULL) by (apply Hnn, elem_of_app; right; by left).
  assert (Hap : a <> p) by (intros ->; apply Hp; by left).
  destruct (delete_body fuel h1 (<[p := l1 ++ l2]> F) m1 m' a ts k' b) as (h2 & E2 & HF2 & B2); try done.
  - by rewrite B1, decide_True.
  - intros q lq Hq. pose proof (kids_nodup _ _ _ (forest_kids _ _ HF p _ Hl)) as Hn. destruct (decide (q = p)) as [-> | Hne].
    + rewrite lookup_insert_eq in Hq. simplify_eq. apply NoDup_app in Hn as (_ & Hn1 & Hn2). apply NoDup_cons in Hn2 as [Hn2 _].
      intros [Hin | Hin]%elem_of_app; [|done]. apply (Hn1 a Hin). by left.
    + rewrite lookup_insert_ne in Hq by done. intros Hin. apply Hne. apply (kids_disjoint h F HF q p lq (l1 ++ a :: l2) a Hq Hl Hin). apply elem_of_app. right. by left.
  - by rewrite lookup_insert_ne.
  - assert (Hps : p ∉ concat (map addrs ts)) by (intros Hin; apply Hp; by right). clear -Hts Hps.
    induction Hts as [|t ts Ht _ IH]; [done|]. cbn in Hps. constructor; [|apply IH; set_solver].
    apply (spans_ext F); [done|]. intros q Hq. rewrite lookup_insert_ne; [done|]. set_solver.
  - change (m2 ← free_node disp false (k, b) m1; free_trees disp h ts m2) with (m2 ← free_node disp false (k', b) m1; free_trees disp h ts m2) in Hm.
    rewrite <- Hm. destruct (free_node disp false (k', b) m1) as [m2|]; [|done]. cbn [mbind option_bind]. apply free_trees_ext.
    intros q Hq. rewrite B1, decide_False; [done|]. intros <-. by apply NoDup_cons in Hnd as [Hnd _].
  - exists h2. split; [|split].
    + cbn [json_delete root]. replace (a =? NULL) with false by (unfold NULL in *; lia). rewrite E1. cbn [mbind option_bind w_mem w_nodes]. exact E2.
    + replace (<[p := l1 ++ l2]> (without F (a :: concat (map addrs ts)))) with (without (<[p := l1 ++ l2]> F) (a :: concat (map addrs ts))); [done|].
      apply map_eq. intros q. rewrite without_lookup. destruct (decide (q = p)) as [-> | Hne]; [by rewrite decide_False, !lookup_insert_eq|].
      by rewrite !lookup_insert_ne, without_lookup by done.
    + intros q. rewrite B2, B1. repeat case_decide; set_solver.
Qed.

(** A tree that is no child is deleted without its key. *)
Lemma delete_root t fuel h F m m' x y : (size t <= fuel)%nat -> forest h F -> spans F t -> NoDup (addrs t) -> links h (root t) = Some (NULL, x, y) ->
  free_tree disp h false t m = Some m' ->
  exists h', json_delete disp fuel (mk_world m h) (root t) = Some (mk_world m' h') /\ forest h' (without F (addrs t)) /\
    forall q, label h' q = if decide (q ∈ addrs t) then None else label h q.
Proof.
  destruct t as [a ts]. intros Hf HF Hs Hnd Hl Hm. inversion Hs as [? ? Hd Hts]; subst.
  destruct fuel as [|fuel]; [cbn in Hf; lia|]. apply sizes_lt in Hf. rewrite free_tree_eq in Hm. rewrite addrs_eq in *. cbn [root] in Hl.
  destruct (label h a) as [[k b]|] eqn:Hb; [|done]. cbn [mbind option_bind] in Hm.
  destruct (delete_body fuel h F m m' a ts k b) as (h2 & E2 & HF2 & B2); try done.
  - intros p l Hp Hin. destruct (kids_links h p l a (forest_kids _ _ HF p l Hp) Hin) as (? & ? & E). rewrite E in Hl. simplify_eq.
    by destruct (kids_not_null h F HF NULL l Hp).
  - apply Forall_forall. intros t _. apply deletes_all.
  - exists h2. split; [|by split]. assert (Ha0 : a <> NULL) by (eapply (live_not_null h F HF), links_live, Hl).
    cbn [json_delete root]. replace (a =? NULL) with false by (unfold NULL in *; lia).
    unfold json_remove_from_parent. cbn [w_mem w_nodes]. unfold links in Hl. destruct (h !! a) as [n|] eqn:Hn; [|done]. cbn [mbind option_bind] in Hl |- *.
    injection Hl as -> _ _. change (negb (NULL =? NULL)) with false. cbv iota. cbn [mbind option_bind w_nodes w_mem]. rewrite Hn in *. exact E2.
Qed.
End delete_ok.

(** ** Lookup and check *)

Lemma kids_step h F p l1 c l2 : forest h F -> F !! p = Some (l1 ++ c :: l2) ->
  exists n, h !! c = Some n /\ parent n = p /\ prev n = last_or l1 /\ next n = head_or l2 /\ (c =? NULL) = false.
Proof.
  intros HF Hl. destruct (kids_not_null h F HF p _ Hl) as [_ Hnn]. pose proof (kids_around _ _ _ (forest_kids _ _ HF p _ Hl) l1 c l2 eq_refl) as Hc.
  destruct (links_lookup h c _ Hc) as (n & Hn & [= <- <- <-]). exists n. split_and!; try done.
  assert (c <> NULL) by (apply Hnn, elem_of_app; right; by left). unfold NULL in *. lia.
Qed.

Lemma first_child h F p l : forest h F -> F !! p = Some l -> json_first_child h p = Some (head_or l) /\ (p =? NULL) = false.
Proof.
  intros HF Hl. destruct (kids_not_null h F HF p l Hl) as [Hp _]. assert (Hp' : (p =? NULL) = false) by (unfold NULL in *; lia). split; [|done].
  unfold json_first_child. rewrite Hp'. pose proof (kids_ends _ _ _ (forest_kids _ _ HF p l Hl)) as He. apply ends_lookup in He as (n & -> & Hc). cbn. by rewrite Hc.
Qed.

Lemma find_element_loop h F p l1 l2 fuel i index : forest h F -> F !! p = Some (l1 ++ l2) -> (length l2 < fuel)%nat -> i <= index ->
  find_element fuel h (head_or l2) i index = Some (default NULL (l2 !! Z.to_nat (index - i))).
Proof.
  intros HF. revert l1 fuel i. induction l2 as [|c l2 IH]; intros l1 fuel i Hl Hf Hi; (destruct fuel as [|fuel]; [cbn in Hf; lia|]); [done|].
  destruct (kids_step h F p l1 c l2 HF Hl) as (n & Hn & _ & _ & Hnx & Hc). change (head_or (c :: l2)) with c. cbn [find_element]. rewrite Hc.
  destruct (Z.eqb_spec i index) as [<- | Hne]; [by rewrite Z.sub_diag|]. rewrite Hn. cbn [mbind option_bind]. rewrite Hnx.
  rewrite (IH (l1 ++ [c])); [| by rewrite <- app_assoc | cbn in Hf; lia | lia].
  by replace (Z.to_nat (index - i)) with (S (Z.to_nat (index - (i + 1)))) by lia.
Qed.

(** A negative index is never reached. *)
Lemma find_element_miss h F p l1 l2 fuel i index : forest h F -> F !! p = Some (l1 ++ l2) -> (length l2 < fuel)%nat -> index < i ->
  find_element fuel h (head_or l2) i index = Some NULL.
Proof.
  intros HF. revert l1 fuel i. induction l2 as [|c l2 IH]; intros l1 fuel i Hl Hf Hi; (destruct fuel as [|fuel]; [cbn in Hf; lia|]); [done|].
  destruct (kids_step h F p l1 c l2 HF Hl) as (n & Hn & _ & _ & Hnx & Hc). change (head_or (c :: l2)) with c. cbn [find_element]. rewrite Hc.
  replace (i =? index) with false by lia. rewrite Hn. cbn [mbind option_bind]. rewrite Hnx.
  apply (IH (l1 ++ [c])); [by rewrite <- app_assoc | cbn in Hf; lia | lia].
Qed.

(** The order of a child's key and a name. *)
Definition key_cmp (w : world) (name : property_t) (c : Z) : option Z := n ← w_nodes w !! c; property_cmp (w_mem w) (key n) name.

Lemma find_member_skip w F p l1 l2 l3 fuel name : forest (w_nodes w) F -> F !! p = Some (l1 ++ l2 ++ l3) ->
  (forall c, c ∈ l2 -> exists r, key_cmp w name c = Some r /\ r <> 0) ->
  find_member (length l2 + fuel) w (head_or (l2 ++ l3)) name = find_member fuel w (head_or l3) name.
Proof.
  intros HF. revert l1. induction l2 as [|c l2 IH]; intros l1 Hl Hc; [done|].
  destruct (kids_step _ F p l1 c (l2 ++ l3) HF Hl) as (n & Hn & _ & _ & Hnx & Hc0). cbn [length Nat.add app]. change (head_or (c :: l2 ++ l3)) with c.
  cbn [find_member]. rewrite Hc0, Hn. cbn [mbind option_bind]. destruct (Hc c) as (r & Hr & Hr0); [by left|].
  unfold key_cmp in Hr. rewrite Hn in Hr. cbn [mbind option_bind] in Hr. rewrite Hr. cbn [mbind option_bind]. rewrite (proj2 (Z.eqb_neq r 0)) by done.
  rewrite Hnx. apply (IH (l1 ++ [c])); [by rewrite <- app_assoc|]. intros x Hx. apply Hc. by right.
Qed.

(** [json_check] asks the members of an object to have no key. *)
Lemma json_check_rejects_members w F p n c l nc fuel : forest (w_nodes w) F -> F !! p = Some (c :: l) -> w_nodes w !! p = Some n ->
  IS_EMPTY (key n) = true -> is_object n = true -> w_nodes w !! c = Some nc -> IS_EMPTY (key nc) = false ->
  json_check (S (S fuel)) w p = Some false.
Proof.
  intros HF Hl Hn Hk Ho Hnc Hkc. destruct (kids_step _ F p [] c l HF Hl) as (n' & Hn' & Hpar & Hpr & Hnx & Hc0). rewrite Hnc in Hn'. injection Hn' as <-.
  pose proof (kids_ends _ _ _ (forest_kids _ _ HF p _ Hl)) as He. unfold ends in He. rewrite Hn in He. cbn [mbind option_bind] in He.
  destruct (kids_not_null _ F HF p _ Hl) as [_ Hnn]. pose proof (kids_self _ _ _ (forest_kids _ _ HF p _ Hl)) as Hp.
  destruct n as [pa pr nx kn bo]. destruct bo as [| | | | |hd tl]; try done. cbn [children body] in He. injection He as -> ->.
  change (head_or (c :: l)) with c in Hn. cbn [key] in Hk. cbn [json_check]. rewrite Hn. cbn [mbind option_bind key body]. rewrite Hk. cbn [negb]. cbv iota. cbn [negb].
  rewrite Hc0. assert (Ht : (last_or (c :: l) =? NULL) = false).
  { assert (Hin : last_or (c :: l) ∈ c :: l). { destruct l as [|x l _] using rev_ind; [by left|]. rewrite app_comm_cons, last_or_snoc. apply elem_of_app. right. by left. }
    apply Hnn in Hin. unfold NULL in *. lia. }
  rewrite Ht. cbn [orb]. rewrite Hnc. cbn [mbind option_bind]. rewrite Hpr. change (negb (last_or [] =? NULL)) with false. cbv iota.
  cbn [check_children]. rewrite Hc0, Hnc. replace (c =? p) with false by (symmetry; apply Z.eqb_neq; intros ->; apply Hp; by left).
  cbn [mbind option_bind]. destruct (next nc =? c); [done|]. cbn [orb]. rewrite Hpar, Z.eqb_refl. cbn [negb orb]. rewrite Hkc. rewrite Hnx.
  destruct l as [|y l]; [done|]. destruct (kids_step _ F p [c] y l HF Hl) as (ny & Hny & _ & _ & _ & Hy0). change (head_or (y :: l)) with y.
  rewrite Hy0. cbn [negb]. rewrite Hny. cbn [mbind option_bind]. destruct (prev ny =? c); reflexivity.
Qed.

(** ** The contract *)

(** [calloc] gives the address of no node. *)
Class Calloc (calloc : heap -> option Z) := calloc_fresh h p : calloc h = Some p -> h !! p = None /\ p <> NULL.

Definition leaf (b : payload) : node := mk_node NULL NULL NULL p_null b.

Lemma forest_new h F p b : forest h F -> h !! p = None -> p <> NULL -> erase b = b ->
  forest (<[p := leaf b]> h) (match children (leaf b) with Some _ => <[p := []]> F | None => F end).
Proof.
  intros HF Hp Hp0 Hb. set (F' := match children (leaf b) with Some _ => <[p := []]> F | None => F end).
  assert (Hl : forall q, links (<[p := leaf b]> h) q = if decide (p = q) then Some (NULL, NULL, NULL) else links h q) by (intros q; by rewrite links_insert).
  assert (He : forall q, ends (<[p := leaf b]> h) q = if decide (p = q) then children (leaf b) else ends h q) by (intros q; by rewrite ends_insert).
  assert (Hold : forall q, q <> p -> F' !! q = F !! q) by (intros q Hq; unfold F'; destruct (children _); [by rewrite lookup_insert_ne | done]).
  assert (HFp : F !! p = None).
  { destruct (F !! p) as [l|] eqn:E; [|done]. pose proof (kids_ends _ _ _ (forest_kids _ _ HF p l E)) as Hx. unfold ends in Hx. by rewrite Hp in Hx. }
  split.
  - intros q l Hq. destruct (decide (q = p)) as [-> | Hne].
    + unfold F' in Hq. destruct (children (leaf b)) as [x|] eqn:Ec; [|by rewrite HFp in Hq]. rewrite lookup_insert_eq in Hq. injection Hq as <-.
      split; [|constructor|set_solver|by intros [|? ?] ?]. rewrite He, decide_True by done. clear -Ec Hb. by destruct b; cbn in Ec, Hb; simplify_eq.
    + rewrite Hold in Hq by done. pose proof (forest_kids _ _ HF q l Hq) as Hk. apply (kids_frame h); [done | by rewrite He, decide_False |].
      intros c Hc. rewrite Hl, decide_False; [done|]. intros <-. destruct (kids_links h q l p Hk Hc) as (? & ? & E). unfold links in E. by rewrite Hp in E.
  - intros q Hq. rewrite He in Hq. destruct (decide (p = q)) as [<- | Hne].
    + unfold F'. destruct (children (leaf b)); [by rewrite lookup_insert_eq | by destruct Hq].
    + rewrite Hold by done. by apply (forest_container _ _ HF).
  - intros c q x y Hc Hq. rewrite Hl in Hc. destruct (decide (p = c)) as [<- | Hne]; [by simplify_eq|].
    destruct (forest_child _ _ HF c q x y Hc Hq) as (l & E & Hin). exists l. split; [|done]. rewrite Hold; [done|]. by intros ->; rewrite HFp in E.
  - rewrite lookup_insert_ne by done. apply HF.
Qed.

(** A new key changes no pointer. *)
Lemma forest_key h F c n k : forest h F -> h !! c = Some n ->
  forest (<[c := with_key n k]> h) F /\ (forall q, links (<[c := with_key n k]> h) q = links h q) /\
  forall q, label (<[c := with_key n k]> h) q = if decide (c = q) then Some (k, erase (body n)) else label h q.
Proof.
  intros HF Hn. assert (Hl : forall q, links (<[c := with_key n k]> h) q = links h q).
  { intros q. rewrite links_insert. destruct (decide (c = q)) as [<- | Hne]; [|done]. unfold links. by rewrite Hn. }
  assert (He : forall q, ends (<[c := with_key n k]> h) q = ends h q).
  { intros q. rewrite ends_insert. destruct (decide (c = q)) as [<- | Hne]; [|done]. unfold ends. by rewrite Hn. }
  split; [|split; [done | intros q; by rewrite label_insert]]. split.
  - intros q l Hq. apply (kids_frame h); [by apply (forest_kids _ _ HF) | done | done].
  - intros q. rewrite He. apply (forest_container _ _ HF).
  - intros x p a b. rewrite Hl. apply (forest_child _ _ HF).
  - rewrite lookup_insert_ne; [apply HF|]. intros ->. by rewrite (forest_null _ _ HF) in Hn.
Qed.

Lemma assert_array h p k : label h p = Some (k, JSON_ARRAY NULL NULL) -> assert h p is_array = Some tt.
Proof. unfold label, assert. destruct (h !! p) as [n|]; [|done]. cbn. unfold is_array. by destruct (body n). Qed.
Lemma assert_object h p k : label h p = Some (k, JSON_OBJECT NULL NULL) -> assert h p is_object = Some tt.
Proof. unfold label, assert. destruct (h !! p) as [n|]; [|done]. cbn. unfold is_object. by destruct (body n). Qed.
Lemma assert_no_parent h c x y : links h c = Some (NULL, x, y) -> assert h c no_parent = Some tt.
Proof. unfold links, assert. destruct (h !! c) as [n|]; [|done]. cbn. intros [= E _ _]. unfold no_parent. by rewrite E. Qed.

(** The heap after an operation: a forest with the given lists, and the labels of [h] but for [c]. *)
Definition becomes (h h' : heap) (F' : gmap Z (list Z)) (c : Z) (x : option (property_t * payload)) : Prop :=
  forest h' F' /\ forall q, label h' q = if decide (c = q) then x else label h q.

Section operations.
Context (calloc : heap -> option Z) `{!Calloc calloc} (malloc : memory -> Z -> option (Z * list Z)) (disp : list prop_type).

(** C13. The doubly linked nodes implement a forest, a map from every container
    to the list of its children. A new node is a root without children, or no
    node is made. [json_append_element] and [json_prepend_element] of a root
    put it at the end or in front of an array's list; the member functions do
    the same with an object's list and give the node the key; and
    [json_remove_from_parent] takes a child out of its parent's list, wherever
    it is, and frees its key. All else is left as it was. *)
Theorem json_tree_operations h F m : forest h F ->
  (forall b, erase b = b -> mknode calloc h b = (NULL, h) \/
     exists p h', mknode calloc h b = (p, h') /\ links h' p = Some (NULL, NULL, NULL) /\
       becomes h h' (match children (leaf b) with Some _ => <[p := []]> F | None => F end) p (Some (p_null, b))) /\
  (forall p l c k0 x a b, F !! p = Some l -> links h c = Some (NULL, a, b) -> c <> p -> label h c = Some x ->
     (label h p = Some (k0, JSON_ARRAY NULL NULL) ->
        (exists h', json_append_element h p c = Some h' /\ becomes h h' (<[p := l ++ [c]]> F) c (Some x)) /\
        (exists h', json_prepend_element h p c = Some h' /\ becomes h h' (<[p := c :: l]> F) c (Some x))) /\
     (label h p = Some (k0, JSON_OBJECT NULL NULL) -> forall k m1 k1,
        (forall k2, property_move malloc disp m x.1 k = Some (m1, k1, k2) ->
           exists h', json_append_member malloc disp (mk_world m h) p k c = Some (mk_world m1 h') /\
             becomes h h' (<[p := l ++ [c]]> F) c (Some (k1, x.2))) /\
        (property_copy malloc disp m k = Some (m1, k1) ->
           exists h', json_prepend_member malloc disp (mk_world m h) p k c = Some (mk_world m1 h') /\
             becomes h h' (<[p := c :: l]> F) c (Some (k1, x.2))))) /\
  (forall p l1 c l2 k b m1 k1, F !! p = Some (l1 ++ c :: l2) -> label h c = Some (k, b) -> property_free disp m k = Some (m1, k1) ->
     exists h', json_remove_from_parent disp (mk_world m h) c = Some (mk_world m1 h') /\ links h' c = Some (NULL, NULL, NULL) /\
       becomes h h' (<[p := l1 ++ l2]> F) c (Some (k1, b))).
Proof.
  intros HF. split; [|split].
  - intros b Hb. unfold mknode. destruct (calloc h) as [p|] eqn:Ec; [right | by left]. destruct (calloc_fresh _ _ Ec) as [Hp Hp0].
    exists p, (<[p := leaf b]> h). split; [done|]. split; [by rewrite links_insert, decide_True|]. split; [by apply forest_new|].
    intros q. rewrite label_insert. cbn [leaf key body]. by rewrite Hb.
  - intros p l c k0 x a b Hl Hc Hcp Hx. split.
    + intros Hp. unfold json_append_element, json_prepend_element. rewrite (assert_array h p k0) by done. cbn [mbind option_bind].
      rewrite (assert_no_parent h c a b) by done. cbn [mbind option_bind].
      destruct (forest_append h F p c l a b) as (ha & Ea & HFa & Ba); try done. destruct (forest_prepend h F p c l a b) as (hp & Ep & HFp & Bp); try done.
      split; [exists ha | exists hp]; (split; [done|]; split; [done|]); intros q; [rewrite Ba | rewrite Bp]; by destruct (decide (c = q)) as [<- |].
    + intros Hp k m1 k1. unfold json_append_member, json_prepend_member. cbn [w_nodes w_mem]. rewrite (assert_object h p k0) by done. cbn [mbind option_bind].
      rewrite (assert_no_parent h c a b) by done. cbn [mbind option_bind]. destruct (links_lookup h c _ Hc) as (n & Hn & _).
      assert (Hxn : x = (key n, erase (body n))) by (unfold label in Hx; rewrite Hn in Hx; by injection Hx). subst x. cbn [fst snd].
      destruct (forest_key h F c n k1 HF Hn) as (HFk & Lk & Bk).
      destruct (forest_append _ F p c l a b HFk Hl) as (ha & Ea & HFa & Ba); [by rewrite Lk | done |].
      destruct (forest_prepend _ F p c l a b HFk Hl) as (hp & Ep & HFp & Bp); [by rewrite Lk | done |].
      assert (Hset : set h c (fun n => with_key n k1) = Some (<[c := with_key n k1]> h)) by by apply (set_Some h c (fun n => with_key n k1)).
      split; [intros k2 E; exists ha | intros E; exists hp].
      * unfold append_member. cbn [w_nodes w_mem]. rewrite Hn. cbn [mbind option_bind]. rewrite E. cbn [mbind option_bind]. rewrite Hset. cbn [mbind option_bind].
        rewrite Ea. split; [done|]. split; [done|]. intros q. rewrite Ba. apply Bk.
      * rewrite E. cbn [mbind option_bind]. rewrite Hset. cbn [mbind option_bind]. rewrite Ep. split; [done|]. split; [done|]. intros q. rewrite Bp. apply Bk.
  - intros p l1 c l2 k b m1 k1 Hl Hx E. destruct (remove_ok disp h F p l1 c l2 m m1 k k1 b) as (h' & E' & HF' & L' & B'); try done.
    by exists h'.
Qed.

(** C14. [json_delete] frees a tree and nothing else: with fuel for its size, every
    node of the tree is gone, what is left is the forest without them, and
    their keys and strings have gone back to the allocator of strings in the
    order of the visit. A child also leaves its parent's list and gives back
    its key; a root keeps its key. *)
Theorem json_delete_spec t fuel h F m m' : forest h F -> spans F t -> NoDup (addrs t) -> (size t <= fuel)%nat ->
  (forall x y, links h (root t) = Some (NULL, x, y) -> free_tree disp h false t m = Some m' ->
     exists h', json_delete disp fuel (mk_world m h) (root t) = Some (mk_world m' h') /\ forest h' (without F (addrs t)) /\
       forall q, label h' q = if decide (q ∈ addrs t) then None else label h q) /\
  (forall p l1 l2, F !! p = Some (l1 ++ root t :: l2) -> p ∉ addrs t -> free_tree disp h true t m = Some m' ->
     exists h', json_delete disp fuel (mk_world m h) (root t) = Some (mk_world m' h') /\ forest h' (<[p := l1 ++ l2]> (without F (addrs t))) /\
       forall q, label h' q = if decide (q ∈ addrs t) then None else label h q).
Proof.
  intros HF Hs Hnd Hf. split.
  - intros x y Hl Hm. by apply (delete_root disp t fuel h F m m' x y).
  - intros p l1 l2 Hl Hp Hm. by apply (deletes_all disp t fuel h F m m' p l1 l2).
Qed.

(** Lookup follows the list of children: an index gives the child at that
    place, or NULL past the end and below 0; a name gives the first child
    whose key compares equal, or NULL. *)
Theorem json_find_spec w F p l n fuel : forest (w_nodes w) F -> F !! p = Some l -> w_nodes w !! p = Some n -> (length l < fuel)%nat ->
  (is_array n = true -> forall index, json_find_element fuel (w_nodes w) p index =
     Some (if index <? 0 then NULL else default NULL (l !! Z.to_nat index))) /\
  (is_object n = true -> forall name,
     (forall l1 c l2, l = l1 ++ c :: l2 -> (forall x, x ∈ l1 -> exists r, key_cmp w name x = Some r /\ r <> 0) -> key_cmp w name c = Some 0 ->
        json_find_member fuel w p name = Some c) /\
     ((forall x, x ∈ l -> exists r, key_cmp w name x = Some r /\ r <> 0) -> json_find_member fuel w p name = Some NULL)).
Proof.
  intros HF Hl Hn Hf. destruct (first_child _ F p l HF Hl) as [Hfc Hp0]. split.
  - intros Ha index. unfold json_find_element. rewrite Hp0, Hn. cbn [mbind option_bind]. rewrite Ha, Hfc. cbn [negb mbind option_bind].
    destruct (Z.ltb_spec index 0).
    + by apply (find_element_miss _ F p []).
    + rewrite (find_element_loop _ F p [] l) by done. by rewrite Z.sub_0_r.
  - intros Ho name. unfold json_find_member. rewrite Hp0, Hn. cbn [mbind option_bind]. rewrite Ho, Hfc. cbn [negb mbind option_bind]. split.
    + intros l1 c l2 -> Hl1 Hc. rewrite length_app in Hf. cbn [length] in Hf. replace fuel with (length l1 + S (fuel - length l1 - 1))%nat by lia.
      rewrite (find_member_skip w F p [] l1 (c :: l2)) by done. change (head_or (c :: l2)) with c. cbn [find_member].
      destruct (kids_step _ F p l1 c l2 HF Hl) as (nc & Hnc & _ & _ & _ & Hc0). unfold key_cmp in Hc. rewrite Hnc in Hc. cbn [mbind option_bind] in Hc.
      rewrite Hc0, Hnc. cbn [mbind option_bind]. by rewrite Hc.
    + intros Hx. pose proof (find_member_skip w F p [] l [] (S (fuel - length l - 1)) name) as E. cbn [app] in E. rewrite app_nil_r in E.
      replace fuel with (length l + S (fuel - length l - 1))%nat by lia. by rewrite E.
Qed.
End operations.

(** ** Examples *)

(** The object of a string with the key a, and a null. *)
Definition key_a : property_t := mk_prop 200 (Z.lor is_owner PROPERTY_CONST_TAG) 1.
Definition ex_heap : heap :=
  <[3 := mk_node 1 2 NULL p_null JSON_NULL]> (<[2 := mk_node 1 NULL 3 key_a (JSON_STRING 100)]>
    (<[1 := mk_node NULL NULL NULL p_null (JSON_OBJECT 2 3)]> ∅)).
Definition ex_forest : gmap Z (list Z) := {[1 := [2; 3]]}.
Definition ex_memory : memory := <[100 := (true, lit "hi" ++ [0])]> {[200 := (false, lit "a" ++ [0])]}.
Definition all_types : list prop_type := property_types_init [json_property_type].

Lemma ex_lookup q : ex_heap !! q = if decide (3 = q) then Some (mk_node 1 2 NULL p_null JSON_NULL) else
  if decide (2 = q) then Some (mk_node 1 NULL 3 key_a (JSON_STRING 100)) else
  if decide (1 = q) then Some (mk_node NULL NULL NULL p_null (JSON_OBJECT 2 3)) else None.
Proof. unfold ex_heap. rewrite !lookup_insert, lookup_empty. done. Qed.

Lemma ex_ok : forest ex_heap ex_forest.
Proof.
  split.
  - intros p l Hp. unfold ex_forest in Hp. apply lookup_singleton_Some in Hp as [<- <-]. split; [done | by repeat constructor; set_solver | set_solver |].
    intros [|x [|y [|z l1]]] c l2 [=]; by subst.
  - intros p [x Hx]. unfold ends in Hx. rewrite ex_lookup in Hx. repeat case_decide; simplify_eq. by eexists.
  - intros c p a b Hc Hp. unfold links in Hc. rewrite ex_lookup in Hc. repeat case_decide; cbn in Hc; simplify_eq; exists [2; 3]; (split; [done | set_solver]).
  - done.
Qed.

Definition bump_calloc (h : heap) : option Z := Some (fresh (dom h ∪ {[NULL]})).
#[export] Instance bump_calloc_ok : Calloc bump_calloc.
Proof.
  intros h p [= <-]. pose proof (is_fresh (dom h ∪ {[NULL]})) as Hf. rewrite not_elem_of_union, not_elem_of_dom, not_elem_of_singleton in Hf. done.
Defined.

Lemma json_tree_operations_witness : forest ex_heap ex_forest /\
  exists h', json_remove_from_parent all_types (mk_world ex_memory ex_heap) 2 = Some (mk_world ex_memory h') /\
    links h' 2 = Some (NULL, NULL, NULL) /\ forest h' (<[1 := [3]]> ex_forest).
Proof.
  split; [exact ex_ok|]. destruct (json_tree_operations bump_calloc bump_malloc all_types ex_heap ex_forest ex_memory ex_ok) as (_ & _ & H).
  destruct (H 1 [] 2 [3] key_a (JSON_STRING 100) ex_memory p_null) as (h' & E & L & HF & _); [reflexivity | reflexivity | by vm_compute |].
  exists h'. split; [exact E|]. split; [exact L | exact HF].
Defined.

Definition ex_tree : rose := Rose 1 [Rose 2 []; Rose 3 []].

Lemma json_delete_spec_witness : spans ex_forest ex_tree /\
  exists h', json_delete all_types 8 (mk_world ex_memory ex_heap) 1 = Some (mk_world (delete 100 ex_memory) h') /\
    forall q, q ∈ [1; 2; 3] -> label h' q = None.
Proof.
  assert (Hs : spans ex_forest ex_tree) by by repeat constructor.
  split; [exact Hs|]. destruct (json_delete_spec all_types ex_tree 8 ex_heap ex_forest ex_memory (delete 100 ex_memory) ex_ok Hs) as [H _].
  - by repeat constructor; set_solver.
  - cbn. lia.
  - destruct (H NULL NULL) as (h' & E & _ & B); [reflexivity | by vm_compute |]. exists h'. split; [exact E|].
    intros q Hq. rewrite B. exact (decide_True _ _ Hq).
Defined.

Lemma json_find_spec_witness : json_find_member 4 (mk_world ex_memory ex_heap) 1 key_a = Some 2.
Proof.
  destruct (json_find_spec (mk_world ex_memory ex_heap) ex_forest 1 [2; 3] (mk_node NULL NULL NULL p_null (JSON_OBJECT 2 3)) 4 ex_ok) as [_ H];
    [reflexivity | reflexivity | cbn; lia |].
  destruct (H eq_refl key_a) as [H1 _]. apply (H1 [] 2 [3]); [reflexivity | by intros x Hx; apply elem_of_nil in Hx | by vm_compute].
Defined.

Example json_check_example : json_check 9 (mk_world ex_memory ex_heap) 1 = Some false /\
  json_check 9 (mk_world ex_memory (<[2 := mk_node 1 NULL 3 p_null (JSON_STRING 100)]> ex_heap)) 1 = Some true.
Proof. split; by vm_compute. Qed.

End JsonTree.
