(* ===== verification/JsonParse.v ===== *)
(** src/src/json/json.c: the recursive descent parser ([json_decode],
    [json_validate] and the [parse_*] functions), against a grammar of JSON.

    A pointer into the text is the list of the bytes from there to the end of
    its memory. Every function returns [None] when it would read or write out of
    bounds, [Some None] when the C function returns false, and otherwise the
    value and the advanced pointer. Nodes are values: their allocation is taken
    to succeed, and a partial tree that the code deletes on failure has no
    counterpart. String buffers are those of Sb.v. *)
From Stdlib Require Import SpecFloat.
From S2P Require Import Prelude Sb JsonUtf8 Double.

Module JsonParse.
Import Sb JsonUtf8 Double.

(** [string_] may be NULL. *)
#[warnings="-register-all"]
Inductive JsonNode :=
  | JNull
  | JBool (b : bool)
  | JString (s : option (list Z))
  | JNumber (d : double)
  | JArray (els : list JsonNode)
  | JObject (members : list (list Z * JsonNode)).

Abbreviation P A := (option (option (A * list Z))).
Definition ok {A} (a : A) (s : list Z) : P A := Some (Some (a, s)).
Definition fail {A} : P A := Some None.
Definition pbind {A B} (m : P A) (k : A -> list Z -> P B) : P B :=
  match m with Some (Some (a, s)) => k a s | Some None => Some None | None => None end.

Notation "'let!' ( x , s ) := m 'in' k" := (pbind m (fun x s => k)) (at level 10, x name, s name, k at level 200).

Definition is_space (c : Z) : bool := (c =? 9) || (c =? 10) || (c =? 13) || (c =? 32).

Fixpoint skip_space (s : list Z) : option (list Z) :=
  match s with
  | [] => None
  | c :: s' => if is_space c then skip_space s' else Some s
  end.

Fixpoint expect_literal (s str : list Z) : P unit :=
  match str with
  | [] => ok tt s
  | x :: str' => c ← rd s 0; if negb (c =? x) then fail else expect_literal (drop 1 s) str'
  end.

(** [do s++; while (is_digit( *s));] from behind the first digit. *)
Fixpoint skip_digits (s : list Z) : option (list Z) :=
  match s with
  | [] => None
  | c :: s' => if is_digit c then skip_digits s' else Some s
  end.

(** At least one digit. *)
Definition some_digits (s : list Z) : P unit :=
  c ← rd s 0;
  if negb (is_digit c) then fail else s ← skip_digits (drop 1 s); ok tt s.

Definition skip_sign (s : list Z) : option (list Z) :=
  c ← rd s 0; Some (if (c =? 43) || (c =? 45) then drop 1 s else s).

Definition parse_number (out : bool) (sp : list Z) : P (option double) :=
  c ← rd sp 0;
  let s := if c =? 45 then drop 1 sp else sp in
  c ← rd s 0;
  let! (_, s) := (if c =? 48 then ok tt (drop 1 s) else some_digits s) in
  c ← rd s 0;
  let! (_, s) := (if c =? 46 then some_digits (drop 1 s) else ok tt s) in
  c ← rd s 0;
  let! (_, s) := (if (c =? 69) || (c =? 101) then s ← skip_sign (drop 1 s); some_digits s else ok tt s) in
  ok (if out then Some (strtod sp) else None) s.

(** One character of a string literal: the bytes it stands for. *)
Definition parse_unicode (s : list Z) : P (list Z) :=
  let! (uc, s) := parse_hex16 s in
  if (55296 <=? uc) && (uc <=? 57343) then
    c ← rd s 0; if negb (c =? 92) then fail else
    c ← rd s 1; if negb (c =? 117) then fail else
    let! (lc, s) := parse_hex16 (drop 2 s) in
    match from_surrogate_pair uc lc with Some u => ok (utf8_write_char u) s | None => fail end
  else if uc =? 0 then fail
  else ok (utf8_write_char uc) s.

Definition parse_escape (s : list Z) : P (list Z) :=
  c ← rd s 0;
  let s := drop 1 s in
  if (c =? 34) || (c =? 92) || (c =? 47) then ok [c] s
  else if c =? 98 then ok [8] s
  else if c =? 102 then ok [12] s
  else if c =? 110 then ok [10] s
  else if c =? 114 then ok [13] s
  else if c =? 116 then ok [9] s
  else if c =? 117 then parse_unicode s
  else fail.

Definition parse_char (s : list Z) : P (list Z) :=
  c ← rd s 0;
  if c =? 92 then parse_escape (drop 1 s)
  else if c <=? 31 then fail
  else
    len ← utf8_validate_cz s;
    if len =? 0 then fail else bytes ← rdn s 0 len; ok bytes (drop (Z.to_nat len) s).

Section with_malloc.
Context (malloc : Z -> option (list Z)).

(** [char throwaway_buffer[4]] *)
Definition throwaway_buffer : list Z := replicate 4 0.

(** Room for the next character; the result of [sb_need] is not looked at. *)
Definition make_room (sb : SB) : option SB := '(_, sb) ← sb_need malloc sb 4; Some sb.

(** The characters of the literal, written at [b] when there is an [out]. *)
Fixpoint string_loop (fuel : nat) (out : bool) (s : list Z) (sb : SB) : P SB :=
  match fuel with
  | O => None
  | S fuel' =>
      c ← rd s 0;
      if c =? 34 then ok sb (drop 1 s) else
      let! (w, s) := parse_char s in
      if out then
        m ← blk sb;
        m ← wrn m (cur sb) w;
        sb ← make_room (mk_sb (start sb) (Some m) (cur sb + zlen w) (end_ sb));
        string_loop fuel' out s sb
      else _ ← wrn throwaway_buffer 0 w; string_loop fuel' out s sb
  end.

(** The text of the C string that starts a memory block. *)
Definition c_text (m : list Z) : option (list Z) := n ← strlen m; Some (take (Z.to_nat n) m).

(** With [out]: the string, or NULL when the last reallocation failed. *)
Definition parse_string (out : bool) (s : list Z) : P (option (list Z)) :=
  c ← rd s 0;
  if negb (c =? 34) then fail else
  let s := drop 1 s in
  if out then
    let (r, sb) := sb_init malloc sb_null in
    if r <? 0 then fail else
    sb ← make_room sb;
    let! (sb, s) := string_loop (S (length s)) true s sb in
    '(str, _) ← sb_finish sb;
    match str with None => ok None s | Some m => t ← c_text m; ok (Some t) s end
  else let! (_, s) := string_loop (S (length s)) false s sb_null in ok None s.

Definition when_out {A} (out : bool) (a : A) : option A := if out then Some a else None.

(** [parse_array] and [parse_object] enter their loops behind the bracket and
    the white space; [p_json(key)] takes the length of the key. *)
Fixpoint parse_value (fuel : nat) (out : bool) (s : list Z) : P (option JsonNode) :=
  match fuel with
  | O => None
  | S fuel' =>
      c ← rd s 0;
      if c =? 110 then let! (_, s) := expect_literal s (lit "null") in ok (when_out out JNull) s
      else if c =? 102 then let! (_, s) := expect_literal s (lit "false") in ok (when_out out (JBool false)) s
      else if c =? 116 then let! (_, s) := expect_literal s (lit "true") in ok (when_out out (JBool true)) s
      else if c =? 34 then let! (str, s) := parse_string out s in ok (when_out out (JString str)) s
      else if c =? 91 then
        s ← skip_space (drop 1 s);
        c ← rd s 0;
        if c =? 93 then ok (when_out out (JArray [])) (drop 1 s) else array_loop fuel' out s []
      else if c =? 123 then
        s ← skip_space (drop 1 s);
        c ← rd s 0;
        if c =? 125 then ok (when_out out (JObject [])) (drop 1 s) else object_loop fuel' out s []
      else let! (num, s) := parse_number out s in ok (option_map JNumber num) s
  end
with array_loop (fuel : nat) (out : bool) (s : list Z) (ret : list JsonNode) : P (option JsonNode) :=
  match fuel with
  | O => None
  | S fuel' =>
      let! (element, s) := parse_value fuel' out s in
      s ← skip_space s;
      let ret := ret ++ option_list element in
      c ← rd s 0;
      if c =? 93 then ok (when_out out (JArray ret)) (drop 1 s)
      else if negb (c =? 44) then fail
      else s ← skip_space (drop 1 s); array_loop fuel' out s ret
  end
with object_loop (fuel : nat) (out : bool) (s : list Z) (ret : list (list Z * JsonNode)) : P (option JsonNode) :=
  match fuel with
  | O => None
  | S fuel' =>
      let! (key, s) := parse_string out s in
      s ← skip_space s;
      c ← rd s 0;
      if negb (c =? 58) then fail else
      s ← skip_space (drop 1 s);
      let! (value, s) := parse_value fuel' out s in
      s ← skip_space s;
      ret ← (if out then key ← key; Some (ret ++ option_list (option_map (pair key) value)) else Some ret);
      c ← rd s 0;
      if c =? 125 then ok (when_out out (JObject ret)) (drop 1 s)
      else if negb (c =? 44) then fail
      else s ← skip_space (drop 1 s); object_loop fuel' out s ret
  end.

(** Each level of nesting and each element takes at most two steps a byte. *)
Definition parse_fuel (s : list Z) : nat := S (S (2 * length s)).

(** [None]: undefined; [Some None]: NULL. *)
Definition json_decode (json : list Z) : option (option JsonNode) :=
  s ← skip_space json;
  match parse_value (parse_fuel s) true s with
  | None => None
  | Some None => Some None
  | Some (Some (ret, s)) =>
      s ← skip_space s;
      c ← rd s 0;
      if negb (c =? 0) then Some None else Some ret
  end.

Definition json_validate (json : list Z) : option bool :=
  s ← skip_space json;
  match parse_value (parse_fuel s) false s with
  | None => None
  | Some None => Some false
  | Some (Some (_, s)) =>
      s ← skip_space s;
      c ← rd s 0;
      Some (c =? 0)
  end.

End with_malloc.

(** Test texts are written with single quotes. *)
Definition js (s : string) : list Z := map (fun c => if c =? 39 then 34 else c) (lit s).
Arguments js s%_string_scope.

Definition test_malloc (n : Z) : option (list Z) := if n <? 0 then None else Some (replicate (Z.to_nat n) 170).

Example decode_1 :
  json_decode test_malloc (js "{ 'a' : [1, true,null] } " ++ [0]) =
  Some (Some (JObject [(lit "a", JArray [JNumber (double_of_Z 1); JBool true; JNull])])).
Proof. by vm_compute. Qed.
Example decode_2 :
  json_decode test_malloc (js "['\u00e9\ud83d\uDE00\n-long enough to grow'" ++ [0]) = Some None.
Proof. by vm_compute. Qed.
Example decode_3 :
  json_decode test_malloc (js "'\u00e9\ud83d\uDE00\n-long enough to grow'" ++ [0]) =
  Some (Some (JString (Some ([195; 169; 240; 159; 152; 128; 10] ++ lit "-long enough to grow")))).
Proof. by vm_compute. Qed.
Example validate_1 : json_validate test_malloc (js "[0.5e+3,{}]" ++ [0]) = Some true.
Proof. by vm_compute. Qed.

End JsonParse.
