(* ===== verification/JsonSpec.v ===== *)
(** The JSON grammar (RFC 8259, strings without NUL) as relations between texts
    and values, and the proof that the parser of JsonParse.v decides it: it
    accepts exactly the texts of the grammar, returns their value, terminates
    and stays inside the terminated text and its buffers. *)
From Stdlib Require Import SpecFloat.
From S2P Require Import Prelude Sb JsonUtf8 Double JsonParse.

Module JsonSpec.
Import Sb JsonUtf8 Double JsonParse.

Ltac drop1 := repeat match goal with |- context [drop 1 (?c :: ?s)] => change (drop 1 (c :: s)) with s end.

(** ** The grammar *)

Definition ws (w : list Z) : Prop := Forall (fun c => is_space c = true) w.

Definition hex4 (h : list Z) (v : Z) : Prop :=
  length h = 4%nat /\ exists ds, Forall2 (fun c d => hex_digit c = Some d) h ds /\ v = foldl (fun r d => r * 16 + d) 0 ds.

Definition escapes : list (Z * Z) :=
  [(34, 34); (92, 92); (47, 47); (98, 8); (102, 12); (110, 10); (114, 13); (116, 9)].

(** A character of a literal and the UTF-8 bytes it stands for. *)
Inductive char_text : list Z -> list Z -> Prop :=
  | ct_raw u : scalar u -> 31 < u -> u <> 34 -> u <> 92 -> char_text (utf8_write_char u) (utf8_write_char u)
  | ct_escape e b : (e, b) ∈ escapes -> char_text [92; e] [b]
  | ct_unicode h u : hex4 h u -> u <> 0 -> ~ (55296 <= u <= 57343) -> char_text (92 :: 117 :: h) (utf8_write_char u)
  | ct_pair h1 h2 hi lo : hex4 h1 hi -> hex4 h2 lo -> 55296 <= hi <= 56319 -> 56320 <= lo <= 57343 ->
      char_text (92 :: 117 :: h1 ++ 92 :: 117 :: h2) (utf8_write_char (65536 + (hi - 55296) * 1024 + (lo - 56320))).

Inductive chars_text : list Z -> list Z -> Prop :=
  | cs_nil : chars_text [] []
  | cs_cons t b t' b' : char_text t b -> chars_text t' b' -> chars_text (t ++ t') (b ++ b').

Definition string_text (t s : list Z) : Prop := exists t', t = 34 :: t' ++ [34] /\ chars_text t' s.

Definition digit (c : Z) : Prop := 48 <= c <= 57.
Definition digits_text (ds : list Z) : Prop := ds <> [] /\ Forall digit ds.
Definition int_text (i : list Z) : Prop := i = [48] \/ digits_text i /\ head i <> Some 48.
Definition frac_text (f ds : list Z) : Prop := f = [] /\ ds = [] \/ f = 46 :: ds /\ digits_text ds.
Definition num_of (ds : list Z) : Z := foldl (fun n c => 10 * n + (c - 48)) 0 ds.
Definition exp_text (e : list Z) (x : Z) : Prop :=
  e = [] /\ x = 0 \/
  exists l sg ds, e = l :: sg ++ ds /\ (l = 101 \/ l = 69) /\ (sg = [] \/ sg = [43] \/ sg = [45]) /\
    digits_text ds /\ x = signed (bool_decide (sg = [45])) (num_of ds).

(** A number and the double nearest to it. *)
Definition number_text (t : list Z) (d : double) : Prop :=
  exists sg i f fd e x, t = sg ++ i ++ f ++ e /\ (sg = [] \/ sg = [45]) /\ int_text i /\ frac_text f fd /\
    exp_text e x /\ d = of_decimal (bool_decide (sg = [45])) (num_of (i ++ fd)) (x - zlen fd).

Inductive value_text : list Z -> JsonNode -> Prop :=
  | vt_null : value_text (lit "null") JNull
  | vt_false : value_text (lit "false") (JBool false)
  | vt_true : value_text (lit "true") (JBool true)
  | vt_string t s : string_text t s -> value_text t (JString (Some s))
  | vt_number t d : number_text t d -> value_text t (JNumber d)
  | vt_array_nil w : ws w -> value_text (91 :: w ++ [93]) (JArray [])
  | vt_array w t vs : ws w -> elements_text t vs -> value_text (91 :: w ++ t) (JArray vs)
  | vt_object_nil w : ws w -> value_text (123 :: w ++ [125]) (JObject [])
  | vt_object w t ms : ws w -> members_text t ms -> value_text (123 :: w ++ t) (JObject ms)
with elements_text : list Z -> list JsonNode -> Prop :=
  | et_last t w v : value_text t v -> ws w -> elements_text (t ++ w ++ [93]) [v]
  | et_cons t w w' v t' vs : value_text t v -> ws w -> ws w' -> elements_text t' vs ->
      elements_text (t ++ w ++ 44 :: w' ++ t') (v :: vs)
with members_text : list Z -> list (list Z * JsonNode) -> Prop :=
  | mt_last k key w1 w2 t w v : string_text k key -> ws w1 -> ws w2 -> value_text t v -> ws w ->
      members_text (k ++ w1 ++ 58 :: w2 ++ t ++ w ++ [125]) [(key, v)]
  | mt_cons k key w1 w2 t w w' v t' ms : string_text k key -> ws w1 -> ws w2 -> value_text t v -> ws w -> ws w' ->
      members_text t' ms ->
      members_text (k ++ w1 ++ 58 :: w2 ++ t ++ w ++ 44 :: w' ++ t') ((key, v) :: ms).

Scheme value_text_mut := Induction for value_text Sort Prop
  with elements_text_mut := Induction for elements_text Sort Prop
  with members_text_mut := Induction for members_text Sort Prop.
Combined Scheme json_mutind from value_text_mut, elements_text_mut, members_text_mut.

(** A document: a value with white space around it. *)
Definition json_text (s : list Z) (v : JsonNode) : Prop :=
  exists w t w', ws w /\ ws w' /\ s = w ++ t ++ w' /\ value_text t v.

(** ** Positions in a terminated text *)

Section in_text.
(** The memory behind the terminator. *)
Context (r : list Z) (Hr : Forall is_byte r).

Definition term (s : list Z) : Prop := exists t, is_cstr t /\ s = t ++ 0 :: r.

Lemma term_head s : term s -> exists c s', s = c :: s' /\ (c = 0 /\ s' = r \/ 1 <= c < 256 /\ term s').
Proof.
  intros (t & Ht & ->). destruct Ht as [|c t Hc Ht]; [exists 0, r; naive_solver|].
  exists c, (t ++ 0 :: r). split; [done|]. right. split; [done|]. by exists t.
Qed.

Lemma term_rd s : term s -> exists c, rd s 0 = Some c.
Proof. intros (c & s' & -> & _)%term_head. by exists c. Qed.

(** Stepping over a byte that is not the terminator. *)
Lemma term_step s c : term s -> rd s 0 = Some c -> c <> 0 -> exists s', s = c :: s' /\ term s' /\ 1 <= c < 256.
Proof. intros (c' & s' & -> & [[-> ->] | [Hc Ht]])%term_head E Hne; unfold rd in E; simpl in E; simplify_eq; eauto. Qed.

(** The outcome of a parser at [s]: failure, or a value [a] for a consumed text
    [t] with [Q t a s'], where [s'] is what is left. *)
Definition parses {A} (s : list Z) (m : P A) (Q : list Z -> A -> list Z -> Prop) : Prop :=
  m = fail \/ exists t a s', m = ok a s' /\ s = t ++ s' /\ term s' /\ Q t a s'.

Lemma parses_ok {A} s (a : A) (Q : list Z -> A -> list Z -> Prop) : term s -> Q [] a s -> parses s (ok a s) Q.
Proof. right. by exists [], a, s. Qed.

Lemma parses_fail {A} s (Q : list Z -> A -> list Z -> Prop) : parses s fail Q.
Proof. by left. Qed.

Lemma parses_bind {A B} s (m : P A) (k : A -> list Z -> P B) Q1 Q :
  parses s m Q1 ->
  (forall t a s', s = t ++ s' -> term s' -> Q1 t a s' -> parses s' (k a s') (fun t' b s'' => Q (t ++ t') b s'')) ->
  parses s (pbind m k) Q.
Proof.
  intros [-> | (t & a & s' & -> & Hs & Ht & HQ)] Hk; [by left|]. change (pbind (ok a s') k) with (k a s').
  destruct (Hk t a s' Hs Ht HQ) as [-> | (t' & b & s'' & -> & Hs' & Ht' & HQ')]; [by left|].
  right. exists (t ++ t'), b, s''. split; [done|]. split; [by rewrite Hs, Hs', app_assoc | done].
Qed.

(** Consuming some text first. *)
Lemma parses_app {A} t s s' (m : P A) (Q : list Z -> A -> list Z -> Prop) :
  s = t ++ s' -> parses s' m (fun t' a s'' => Q (t ++ t') a s'') -> parses s m Q.
Proof.
  intros Hs [-> | (t' & a & s'' & -> & Hs' & Ht & HQ)]; [by left|].
  right. exists (t ++ t'), a, s''. split; [done|]. split; [by rewrite Hs, Hs', app_assoc | done].
Qed.

Lemma parses_weaken {A} s (m : P A) (Q Q' : list Z -> A -> list Z -> Prop) :
  parses s m Q -> (forall t a s', s = t ++ s' -> term s' -> Q t a s' -> Q' t a s') -> parses s m Q'.
Proof. intros [-> | (t & a & s' & -> & Hs & Ht & HQ)] HQ'; [by left | right; exists t, a, s'; eauto]. Qed.

Lemma skip_space_spec s :
  term s -> exists w s' c, skip_space s = Some s' /\ s = w ++ s' /\ ws w /\ term s' /\
    rd s' 0 = Some c /\ is_space c = false.
Proof.
  intros (t & Ht & ->). induction Ht as [|c t Hc Ht IH].
  - exists [], (0 :: r), 0. split; [done|]. split; [done|]. split; [constructor|]. split; [|done].
    exists []. by split; [constructor|].
  - cbn [app skip_space]. destruct (is_space c) eqn:E.
    + destruct IH as (w & s' & c' & -> & Hs & Hw & Hrest). exists (c :: w), s', c'.
      split; [done|]. split; [by rewrite Hs|]. split; [by constructor | done].
    + exists [], (c :: t ++ 0 :: r), c. split; [done|]. split; [done|]. split; [constructor|]. split; [|done].
      exists (c :: t). by split; [constructor|].
Qed.

Lemma expect_literal_spec str : forall s,
  is_cstr str -> term s -> parses s (expect_literal s str) (fun t _ _ => t = str).
Proof.
  induction str as [|x str IH]; intros s Hstr Hs; [by apply parses_ok|].
  apply Forall_cons in Hstr as [Hx Hstr]. cbn [expect_literal].
  destruct (term_rd s Hs) as [c Hc]. rewrite Hc. cbn [mbind option_bind].
  destruct (Z.eqb_spec c x) as [-> | Hne]; cbn [negb]; [|apply parses_fail].
  destruct (term_step s x Hs Hc) as (s' & -> & Hs' & _); [lia|].
  apply (parses_app [x] (x :: s') s'); [done|]. eapply parses_weaken; [by apply IH|].
  intros t a s'' _ _ ->. done.
Qed.

(** ** Numbers *)

Lemma is_digit_digit c : is_digit c = true <-> digit c.
Proof. unfold is_digit, digit. rewrite andb_true_iff, !Z.leb_le. done. Qed.

Definition not_digit (s : list Z) : Prop := exists c, rd s 0 = Some c /\ is_digit c = false.

Lemma skip_digits_spec s :
  term s -> exists ds s', skip_digits s = Some s' /\ s = ds ++ s' /\ Forall digit ds /\ term s' /\ not_digit s'.
Proof.
  intros (t & Ht & ->). induction Ht as [|c t Hc Ht IH].
  - exists [], (0 :: r). split; [done|]. split; [done|]. split; [constructor|].
    split; [exists []; by split; [constructor|]|]. by exists 0.
  - cbn [app skip_digits]. destruct (is_digit c) eqn:E.
    + destruct IH as (ds & s' & -> & Hs & Hd & Hrest). exists (c :: ds), s'.
      split; [done|]. split; [by rewrite Hs|]. split; [constructor; [by apply is_digit_digit | done] | done].
    + exists [], (c :: t ++ 0 :: r). split; [done|]. split; [done|]. split; [constructor|]. split; [|by exists c].
      exists (c :: t). by split; [constructor|].
Qed.

Lemma some_digits_spec s :
  term s -> parses s (some_digits s) (fun t _ s' => digits_text t /\ head t = head s /\ not_digit s').
Proof.
  intros Hs. unfold some_digits. destruct (term_rd s Hs) as [c Hc]. rewrite Hc. cbn [mbind option_bind].
  destruct (is_digit c) eqn:E; cbn [negb]; [|apply parses_fail].
  apply is_digit_digit in E. destruct (term_step s c Hs Hc) as (s1 & -> & Hs1 & _); [unfold digit in E; lia|].
  drop1. destruct (skip_digits_spec s1 Hs1) as (ds & s' & -> & Hs' & Hd & Ht & Hn). cbn [mbind option_bind].
  right. exists (c :: ds), tt, s'. split; [done|]. split; [by rewrite Hs'|]. split; [done|].
  split; [|done]. split; [done | by constructor].
Qed.

(** [strtod] on a number of the grammar. *)
Lemma digits_forall ds s n k :
  Forall digit ds -> digits (ds ++ s) n k = digits s (foldl (fun n c => 10 * n + (c - 48)) n ds) (k + zlen ds).
Proof.
  intros Hd. revert n k. induction Hd as [|c ds Hc Hd IH]; intros n k.
  - cbn [app foldl]. rewrite Z.add_0_r. done.
  - cbn [app digits foldl]. apply is_digit_digit in Hc. rewrite Hc, IH. f_equal. zl.
Qed.

(** The end of the list or something that is not a digit. *)
Definition stops (s : list Z) : Prop := match s with [] => True | c :: _ => is_digit c = false end.

Lemma digits_stop s n k : stops s -> digits s n k = (n, k, s).
Proof. destruct s as [|c s]; [done|]. simpl. by intros ->. Qed.

Lemma ends_stops s : ends_number s -> stops s.
Proof. destruct s as [|c s]; [done|]. by intros []. Qed.

Lemma exponent_text e x s : exp_text e x -> ends_number s -> exponent (e ++ s) = x /\ stops (e ++ s).
Proof.
  intros [[-> ->] | (l & sg & ds & -> & Hl & Hsg & [Hne Hd] & ->)] Hs; cbn [app].
  - split; [|by apply ends_stops]. destruct s as [|c s]; [done|]. cbn in Hs |- *.
    by replace ((c =? 101) || (c =? 69)) with false by lia.
  - split; [|cbn; unfold is_digit; destruct Hl as [-> | ->]; done].
    unfold exponent. replace ((l =? 101) || (l =? 69)) with true by lia. rewrite <- app_assoc.
    assert (Hds : forall neg, (let '(n, k, _) := digits (ds ++ s) 0 0 in if k =? 0 then 0 else signed neg n) =
      signed neg (num_of ds)).
    { intros neg. rewrite digits_forall, digits_stop by (done || by apply ends_stops).
      destruct ds; [done|]. by replace (0 + zlen (z :: ds) =? 0) with false by (symmetry; apply Z.eqb_neq; zl). }
    destruct Hsg as [-> | [-> | ->]]; cbn [app].
    + destruct ds as [|c ds]; [done|]. cbn [app]. apply Forall_cons in Hd as [Hc Hd]. unfold digit in Hc.
      replace (c =? 45) with false by lia. replace (c =? 43) with false by lia. apply Hds.
    + apply Hds.
    + apply Hds.
Qed.

Lemma strtod_number t d s : number_text t d -> ends_number s -> strtod (t ++ s) = d.
Proof.
  intros (sg & i & f & fd & e & x & -> & Hsg & Hi & Hf & He & ->) Hs.
  destruct (exponent_text e x s He Hs) as [Hexp Hstop].
  assert (Hid : digits_text i) by (destruct Hi as [-> | []]; [split; [done | by repeat constructor] | done]).
  destruct Hid as [Hine Hid].
  assert (Hfs : stops (f ++ e ++ s)) by (destruct Hf as [[-> _] | [-> _]]; [done | by cbn]).
  assert (Hdec : forall neg, strtod_decimal neg (i ++ f ++ e ++ s) =
    of_decimal neg (num_of (i ++ fd)) (x - zlen fd)).
  { intros neg. unfold strtod_decimal. rewrite digits_forall, digits_stop by done.
    assert (0 < zlen i) by (destruct i; [done | zl]).
    destruct Hf as [[-> ->] | [-> [Hfne Hfd]]]; cbn [app].
    - assert (E : match e ++ s with
        | [] => (foldl (fun n c => 10 * n + (c - 48)) 0 i, 0, [])
        | c :: s2 => if c =? 46 then digits s2 (foldl (fun n c => 10 * n + (c - 48)) 0 i) 0
                     else (foldl (fun n c => 10 * n + (c - 48)) 0 i, 0, e ++ s) end =
        (foldl (fun n c => 10 * n + (c - 48)) 0 i, 0, e ++ s)).
      { destruct (e ++ s) as [|c u] eqn:E; [done|].
        assert (c <> 46); [|by replace (c =? 46) with false by lia].
        destruct He as [[-> _] | (l & sg' & ds & -> & Hl & _)]; cbn [app] in E.
        - rewrite E in Hs. cbn in Hs. lia.
        - injection E as -> _. lia. }
      rewrite E, Hexp, app_nil_r. replace (0 + zlen i + 0 =? 0) with false by lia. done.
    - change (46 =? 46) with true. cbn match.
      rewrite digits_forall, digits_stop by done. rewrite Hexp.
      replace (0 + zlen i + (0 + zlen fd) =? 0) with false by (symmetry; apply Z.eqb_neq; zl).
      unfold num_of. rewrite foldl_app. done. }
  rewrite <- !app_assoc. unfold strtod. destruct i as [|c0 i]; [done|]. apply Forall_cons in Hid as [Hc0 Hid].
  unfold digit in Hc0.
  assert (Hx : match i ++ f ++ e ++ s with
    | c1 :: _ => (c0 =? 48) && ((c1 =? 120) || (c1 =? 88)) = false | [] => True end).
  { destruct (i ++ f ++ e ++ s) as [|c1 u] eqn:E; [done|].
    assert (c1 <> 120 /\ c1 <> 88); [|by replace ((c1 =? 120) || (c1 =? 88)) with false by lia; rewrite andb_false_r].
    destruct i as [|c i]; cbn [app] in E; [|injection E as -> _; apply Forall_cons in Hid as [Hc _]; unfold digit in Hc; lia].
    destruct Hf as [[-> ->] | [-> _]]; cbn [app] in E; [|injection E as <- _; lia].
    destruct He as [[-> _] | (l & sg' & ds & -> & Hl & _)]; cbn [app] in E; [|injection E as <- _; lia].
    rewrite E in Hs. cbn in Hs. lia. }
  destruct Hsg as [-> | ->]; cbn [app] in Hdec |- *.
  - replace (c0 =? 45) with false by lia. replace (c0 =? 43) with false by lia. rewrite <- Hdec.
    destruct (i ++ f ++ e ++ s); [done | by rewrite Hx].
  - change (45 =? 45) with true. cbn match. rewrite <- Hdec.
    destruct (i ++ f ++ e ++ s); [done | by rewrite Hx].
Qed.

Lemma parse_number_spec out s :
  term s ->
  parses s (parse_number out s) (fun t num s' => ends_number s' -> exists d, number_text t d /\ num = when_out out d).
Proof.
  intros Hs. unfold parse_number. destruct (term_rd s Hs) as [c Hc]. rewrite Hc. cbn [mbind option_bind].
  assert (exists sg s0, s = sg ++ s0 /\ (if c =? 45 then drop 1 s else s) = s0 /\ term s0 /\ (sg = [] \/ sg = [45]))
    as (sg & s0 & E & -> & Hs0 & Hsg).
  { destruct (Z.eqb_spec c 45) as [-> | _]; [|by exists [], s; eauto].
    destruct (term_step s 45 Hs Hc) as (s' & -> & Hs' & _); [lia|]. exists [45], s'. by eauto. }
  destruct (term_rd s0 Hs0) as [c0 Hc0]. rewrite Hc0. cbn [mbind option_bind].
  apply (parses_app sg s s0); [done|].
  apply (parses_bind _ _ _ (fun i _ _ => int_text i)).
  { destruct (Z.eqb_spec c0 48) as [-> | Hne].
    - destruct (term_step s0 48 Hs0 Hc0) as (s' & -> & Hs' & _); [lia|].
      apply (parses_app [48] (48 :: s') s'); [done|]. apply parses_ok; [done|]. by left.
    - eapply parses_weaken; [by apply some_digits_spec|]. intros t _ s' _ _ (Hd & Hh & _). right.
      split; [done|]. rewrite Hh. destruct s0; [done|]. unfold rd in Hc0. simpl in Hc0 |- *. congruence. }
  intros i _ s1 E1 Hs1 Hi. destruct (term_rd s1 Hs1) as [c1 Hc1]. rewrite Hc1. cbn [mbind option_bind].
  apply (parses_bind _ _ _ (fun f _ _ => exists fd, frac_text f fd)).
  { destruct (Z.eqb_spec c1 46) as [-> | Hne].
    - destruct (term_step s1 46 Hs1 Hc1) as (s' & -> & Hs' & _); [lia|]. drop1.
      apply (parses_app [46] (46 :: s') s'); [done|].
      eapply parses_weaken; [by apply some_digits_spec|]. intros t _ s'' _ _ (Hd & _). exists t. by right.
    - apply parses_ok; [done|]. exists []. by left. }
  intros f _ s2 E2 Hs2 [fd Hf]. destruct (term_rd s2 Hs2) as [c2 Hc2]. rewrite Hc2. cbn [mbind option_bind].
  apply (parses_bind _ _ _ (fun e _ _ => exists x, exp_text e x)).
  { destruct ((c2 =? 69) || (c2 =? 101)) eqn:El.
    - destruct (term_step s2 c2 Hs2 Hc2) as (s' & -> & Hs' & _); [lia|]. drop1.
      apply (parses_app [c2] (c2 :: s') s'); [done|]. unfold skip_sign.
      destruct (term_rd s' Hs') as [c3 Hc3]. rewrite Hc3. cbn [mbind option_bind].
      assert (exists sg' s3, s' = sg' ++ s3 /\ (if (c3 =? 43) || (c3 =? 45) then drop 1 s' else s') = s3 /\ term s3 /\
        (sg' = [] \/ sg' = [43] \/ sg' = [45])) as (sg' & s3 & E3 & -> & Hs3 & Hsg').
      { destruct ((c3 =? 43) || (c3 =? 45)) eqn:E3; [|by exists [], s'; eauto].
        destruct (term_step s' c3 Hs' Hc3) as (s3 & -> & Hs3 & _); [lia|]. exists [c3], s3.
        split; [done|]. split; [done|]. split; [done|]. right. assert (c3 = 43 \/ c3 = 45) as [-> | ->] by lia; eauto. }
      apply (parses_app sg' s' s3); [done|]. eapply parses_weaken; [by apply some_digits_spec|].
      intros ds _ s4 _ _ (Hd & _). exists (signed (bool_decide (sg' = [45])) (num_of ds)). right.
      exists c2, sg', ds. split; [done|]. split; [lia|]. done.
    - apply parses_ok; [done|]. exists 0. by left. }
  intros e _ s3 E3 Hs3 [x He]. apply parses_ok; [done|]. rewrite app_nil_r. intros Hend.
  set (d := of_decimal (bool_decide (sg = [45])) (num_of (i ++ fd)) (x - zlen fd)).
  assert (Hn : number_text (sg ++ i ++ f ++ e) d) by by exists sg, i, f, fd, e, x.
  exists d. split; [done|]. destruct out; [|done]. cbn [when_out]. f_equal.
  replace s with ((sg ++ i ++ f ++ e) ++ s3); [by apply strtod_number|].
  by rewrite E, E1, E2, E3, <- !app_assoc.
Qed.

(** ** Strings *)

Lemma hex_digit_range c d : hex_digit c = Some d -> 0 <= d < 16 /\ c <> 0.
Proof. unfold hex_digit. intros H. bool_cases; simplify_eq; lia. Qed.

Lemma hex_loop_digit n c d s ret :
  hex_digit c = Some d -> 0 <= ret < 4096 -> hex_loop (S n) (c :: s) ret = hex_loop n s (ret * 16 + d).
Proof.
  intros Hd Hret. cbn [hex_loop]. destruct (hex_digit_range c d Hd). rewrite Hd, Z.shiftl_mul_pow2 by lia.
  change (2 ^ 4) with 16. by rewrite !u16_id by (rewrite ?u16_id; lia).
Qed.

Lemma parse_hex16_accepts h v s : hex4 h v -> parse_hex16 (h ++ s) = ok v s /\ 0 <= v < 65536.
Proof.
  intros (Hl & ds & Hds & ->). unfold parse_hex16.
  destruct Hds as [|a x h ds Ha [|b y h' ds' Hb [|c z h'' ds'' Hc [|d w h3 ds3 Hd [|]]]]]; try done.
  destruct (hex_digit_range _ _ Ha), (hex_digit_range _ _ Hb), (hex_digit_range _ _ Hc), (hex_digit_range _ _ Hd).
  cbn [app foldl]. rewrite !(hex_loop_digit _ _ _ _ _ Ha), !(hex_loop_digit _ _ _ _ _ Hb),
    !(hex_loop_digit _ _ _ _ _ Hc), !(hex_loop_digit _ _ _ _ _ Hd) by lia. split; [done | lia].
Qed.

Lemma parse_hex16_spec s : term s -> parses s (parse_hex16 s) (fun t v _ => hex4 t v).
Proof.
  intros Hs. unfold parse_hex16.
  assert (Hgen : forall n s ret, term s -> 0 <= ret -> (ret + 1) * 16 ^ Z.of_nat n <= 65536 ->
    parses s (hex_loop n s ret) (fun t v _ => length t = n /\ exists ds,
      Forall2 (fun c d => hex_digit c = Some d) t ds /\ v = foldl (fun r d => r * 16 + d) ret ds)).
  { clear s Hs. induction n as [|n IH]; intros s ret Hs H0 Hret.
    { apply (parses_ok s ret); [done|]. split; [done|]. by exists []. }
    rewrite Nat2Z.inj_succ, Z.pow_succ_r in Hret by lia.
    destruct (term_head s Hs) as (c & s' & -> & Hc). destruct (hex_digit c) as [d|] eqn:Ed.
    - destruct (hex_digit_range c d Ed). destruct Hc as [[-> _] | [Hc Hs']]; [done|].
      rewrite (hex_loop_digit _ _ d) by (done || nia). apply (parses_app [c] (c :: s') s'); [done|].
      eapply parses_weaken; [apply IH; [done | lia | nia]|].
      intros t v s'' _ _ (Hl & ds & Hds & ->). split; [cbn; lia|]. exists (d :: ds). split; [by constructor | done].
    - cbn [hex_loop]. rewrite Ed. apply parses_fail. }
  apply (Hgen 4%nat); [done | lia | done].
Qed.

Lemma from_surrogate_spec hi lo :
  55296 <= hi <= 56319 -> 56320 <= lo <= 57343 ->
  from_surrogate_pair hi lo = Some (65536 + (hi - 55296) * 1024 + (lo - 56320)).
Proof.
  intros Hhi Hlo. unfold from_surrogate_pair. replace (_ && _ && _ && _) with true by lia.
  assert (Hl : forall z, Z.land z 1023 = z mod 1024) by (intros z; apply (Z.land_ones z 10); lia).
  rewrite !Hl, lor_add by lia_mod. change (2 ^ 10) with 1024. f_equal. lia_mod.
Qed.

Lemma char_text_size t b : char_text t b -> 1 <= zlen b <= 4 /\ zlen b <= zlen t /\ is_cstr b.
Proof.
  intros [u Hu H31 _ _ | e b' He | h u Hh Hu Hsur | h1 h2 hi lo H1 H2 Hhi Hlo].
  - destruct (write_char_cstr u Hu); [lia|]. split; [done|]. split; [lia | done].
  - assert (is_cstr [b']) by (unfold escapes in He; rewrite !elem_of_cons, elem_of_nil in He; destruct_or! He; simplify_eq; by repeat constructor).
    split; [zl|]. split; [zl | done].
  - destruct (parse_hex16_accepts h u [] Hh) as [_ Hrange]. destruct Hh as [Hl _].
    assert (scalar u) by (unfold scalar; lia). destruct (write_char_cstr u); [done | done|].
    split; [done|]. split; [zl | done].
  - destruct H1 as [Hl1 _], H2 as [Hl2 _].
    destruct (write_char_cstr (65536 + (hi - 55296) * 1024 + (lo - 56320))); [unfold scalar; lia | lia|].
    split; [done|]. split; [zl | done].
Qed.

Lemma parse_unicode_spec s :
  term s -> parses s (parse_unicode s) (fun t w _ => char_text (92 :: 117 :: t) w).
Proof.
  intros Hs. unfold parse_unicode. eapply parses_bind; [by apply parse_hex16_spec|].
  intros h uc s1 E1 Hs1 Hh. cbn beta. destruct (parse_hex16_accepts h uc s1 Hh) as [_ Huc].
  destruct (Z.leb_spec 55296 uc), (Z.leb_spec uc 57343); cbn [andb].
  2-4: destruct (Z.eqb_spec uc 0); [apply parses_fail|]; apply parses_ok; [done|]; rewrite app_nil_r;
    constructor; [done | done | lia].
  destruct (term_rd s1 Hs1) as [c Hc]. rewrite Hc. cbn [mbind option_bind].
  destruct (Z.eqb_spec c 92) as [-> | _]; [|apply parses_fail]. cbn [negb].
  destruct (term_step s1 92 Hs1 Hc) as (s2 & -> & Hs2 & _); [lia|].
  destruct (term_rd s2 Hs2) as [c2 Hc2]. replace (rd (92 :: s2) 1) with (Some c2) by (rewrite <- Hc2; by destruct s2).
  cbn [mbind option_bind]. destruct (Z.eqb_spec c2 117) as [-> | _]; [|apply parses_fail]. cbn [negb].
  destruct (term_step s2 117 Hs2 Hc2) as (s3 & -> & Hs3 & _); [lia|].
  change (drop 2 (92 :: 117 :: s3)) with s3. apply (parses_app [92; 117] _ s3); [done|].
  eapply parses_bind; [by apply parse_hex16_spec|]. intros h2 lc s4 E4 Hs4 Hh2. cbn beta.
  destruct (from_surrogate_pair uc lc) as [u|] eqn:Eu; [|apply parses_fail].
  assert (Hrange : 55296 <= uc <= 56319 /\ 56320 <= lc <= 57343).
  { unfold from_surrogate_pair in Eu. destruct (_ && _ && _ && _) eqn:Eb; [|done].
    rewrite !andb_true_iff, !Z.leb_le in Eb. lia. }
  destruct Hrange. rewrite from_surrogate_spec in Eu by done. simplify_eq.
  apply parses_ok; [done|]. rewrite app_nil_r. by constructor.
Qed.

Lemma parse_char_spec s c :
  term s -> rd s 0 = Some c -> c <> 34 -> parses s (parse_char s) (fun t w _ => char_text t w).
Proof.
  intros Hs Hc H34. unfold parse_char. rewrite Hc. cbn [mbind option_bind].
  destruct (Z.eqb_spec c 92) as [-> | H92].
  { destruct (term_step s 92 Hs Hc) as (s1 & -> & Hs1 & _); [lia|]. drop1.
    apply (parses_app [92] _ s1); [done|]. unfold parse_escape.
    destruct (term_rd s1 Hs1) as [e He]. rewrite He. cbn [mbind option_bind].
    destruct (Z.eq_dec e 0) as [-> | He0]; [apply parses_fail|].
    destruct (term_step s1 e Hs1 He He0) as (s2 & -> & Hs2 & _). drop1. apply (parses_app [e] _ s2); [done|].
    assert (Hesc : forall b, (e, b) ∈ escapes -> parses s2 (ok [b] s2) (fun t' w _ => char_text ([92] ++ [e] ++ t') w)).
    { intros b Hb. apply parses_ok; [done|]. by constructor. }
    destruct ((e =? 34) || (e =? 92) || (e =? 47)) eqn:E1.
    { apply Hesc. unfold escapes. assert (e = 34 \/ e = 92 \/ e = 47) as [-> | [-> | ->]] by lia; set_solver. }
    repeat match goal with |- parses _ (if ?e =? ?k then ok [?b] _ else _) _ =>
      destruct (Z.eqb_spec e k) as [-> | _]; [apply Hesc; unfold escapes; set_solver|] end.
    destruct (Z.eqb_spec e 117) as [-> | _]; [|apply parses_fail].
    by apply parse_unicode_spec. }
  destruct (Z.leb_spec c 31) as [|H31]; [apply parses_fail|].
  destruct Hs as (t & Ht & ->). destruct t as [|c' t]; [unfold rd in Hc; simpl in Hc; simplify_eq|].
  unfold rd in Hc. simpl in Hc. simplify_eq.
  destruct (validate_cz_cstr (c :: t) r Ht) as [(u & s' & Hu & H0 & Heq & ->) | [-> _]]; [done | done | |];
    cbn [mbind option_bind]; [|apply parses_fail].
  destruct (write_char_cstr u Hu H0) as [Hw Hl]. replace (zlen (utf8_write_char u) =? 0) with false by lia.
  rewrite Heq, <- app_assoc, rdn_app_0 by done. cbn [mbind option_bind]. rewrite drop_app_zlen by done.
  apply (parses_app (utf8_write_char u) _ (s' ++ 0 :: r)); [done|]. apply parses_ok.
  { exists s'. split; [|done]. rewrite Heq in Ht. by apply Forall_app in Ht as []. }
  rewrite app_nil_r. destruct (write_char_shape u Hu) as (c0 & t0 & E & _ & Htail & Hlen & _).
  rewrite E in Heq. injection Heq as <- _.
  destruct (Z.le_gt_cases u 127).
  - rewrite write_char_div in E by (unfold scalar in Hu; lia). replace (u <=? 127) with true in E by lia.
    injection E as -> _. by constructor.
  - constructor; [done | lia | lia | lia].
Qed.

(** What the buffer of a literal needs; nothing when there is no [out]. *)
Definition memory_for (malloc : Z -> option (list Z)) (M : Z) (out : bool) (n : Z) : Prop :=
  out = true -> SbMalloc malloc M /\ n + 4 <= M.

Lemma chars_text_cstr t b : chars_text t b -> is_cstr b /\ zlen b <= zlen t.
Proof.
  induction 1 as [|t b t' b' Hc _ [IH1 IH2]]; [by split; [constructor|]|].
  destruct (char_text_size t b Hc) as (_ & H1 & H2). split; [by apply Forall_app | zl].
Qed.

Lemma make_room_holds malloc M sb b :
  SbMalloc malloc M -> holds M sb b -> zlen b + 4 <= M ->
  exists sb', make_room malloc sb = Some sb' /\ holds M sb' b /\ 4 <= end_ sb' - zlen b.
Proof.
  intros Hm Hh HM. destruct (sb_need_holds malloc M sb b 4 Hh) as (sb' & E & Hh' & Hroom); [lia | done|].
  unfold make_room. rewrite E. by exists sb'.
Qed.

(** Writing one character and making room for the next. *)
Lemma put_char malloc M sb b w k :
  SbMalloc malloc M -> holds M sb b -> 4 <= end_ sb - zlen b -> zlen w <= 4 -> zlen b + zlen w + 4 <= M ->
  exists sb', (m ← blk sb; m ← wrn m (cur sb) w;
               sb ← make_room malloc (mk_sb (start sb) (Some m) (cur sb + zlen w) (end_ sb)); k sb) = (k sb' : P SB) /\
    holds M sb' (b ++ w) /\ 4 <= end_ sb' - zlen (b ++ w).
Proof.
  intros Hmem Hh Hroom Hw HM. destruct (holds_blk M sb b Hh) as [m Hm]. rewrite Hm. cbn [mbind option_bind].
  destruct (holds_write M sb b w m Hh Hm) as (m' & Hwr & Hh'); [lia|].
  destruct (holds_fields M sb b Hh) as (_ & Hc & _). rewrite Hc in Hh' |- *. rewrite Hwr. cbn [mbind option_bind].
  destruct (make_room_holds malloc M _ (b ++ w) Hmem Hh') as (sb' & -> & Hh2 & Hroom2); [zl|].
  cbn [mbind option_bind]. by exists sb'.
Qed.

Lemma string_loop_spec malloc M out fuel : forall s sb b0,
  term s -> (length s < fuel)%nat -> memory_for malloc M out (zlen b0 + (zlen s - zlen r)) ->
  (out = true -> holds M sb b0 /\ 4 <= end_ sb - zlen b0) ->
  parses s (string_loop malloc fuel out s sb)
    (fun t sb' _ => exists t' b, t = t' ++ [34] /\ chars_text t' b /\ (out = true -> holds M sb' (b0 ++ b))).
Proof.
  induction fuel as [|fuel IH]; intros s sb b0 Hs Hf Hmem Hsb; [lia|]. cbn [string_loop].
  destruct (term_rd s Hs) as [c Hc]. rewrite Hc. cbn [mbind option_bind].
  destruct (Z.eqb_spec c 34) as [-> | H34].
  { destruct (term_step s 34 Hs Hc) as (s' & -> & Hs' & _); [lia|]. drop1.
    apply (parses_app [34] _ s'); [done|]. apply parses_ok; [done|]. exists [], [].
    split; [done|]. split; [constructor|]. intros Ho. rewrite app_nil_r. by apply Hsb. }
  eapply parses_bind; [by eapply parse_char_spec|].
  intros t w s' E Hs' Ht. cbn beta. destruct (char_text_size t w Ht) as (Hw & Hwt & _).
  assert (Hlen : zlen s = zlen t + zlen s') by (rewrite E; zl).
  destruct out.
  - destruct (Hmem eq_refl) as [Hm HM]. destruct (Hsb eq_refl) as [Hh Hroom].
    assert (Hr0 : zlen r <= zlen s') by (destruct Hs' as (x & _ & ->); zl).
    destruct (put_char malloc M sb b0 w (fun sb => string_loop malloc fuel true s' sb)) as (sb' & -> & Hh' & Hroom');
      [done | done | done | lia | lia |].
    eapply parses_weaken; [apply (IH s' sb' (b0 ++ w)); [done | zl | | by intros _]|].
    + intros _. split; [done|]. rewrite zlen_app. lia.
    + intros t2 sb2 s2 _ _ (t' & b & -> & Hb & Hh2). exists (t ++ t'), (w ++ b).
      split; [by rewrite app_assoc|]. split; [by constructor|]. by rewrite app_assoc.
  - destruct (wrn_Some throwaway_buffer 0 w) as [buf Hbuf]; [lia | change (zlen throwaway_buffer) with 4; lia|].
    rewrite Hbuf. cbn [mbind option_bind].
    eapply parses_weaken; [apply (IH s' sb (b0 ++ w)); [done | zl | by intros | by intros]|].
    intros t2 sb2 s2 _ _ (t' & b & -> & Hb & _). exists (t ++ t'), (w ++ b).
    split; [by rewrite app_assoc|]. split; [by constructor | done].
Qed.

Lemma c_text_cstr s u : is_cstr s -> c_text (s ++ 0 :: u) = Some s.
Proof.
  intros Hs. unfold c_text. rewrite strlen_cstr by done. cbn [mbind option_bind]. by rewrite take_app_zlen.
Qed.

Lemma parse_string_spec malloc M out s :
  term s -> memory_for malloc M out (zlen s - zlen r) ->
  parses s (parse_string malloc out s) (fun t str _ => exists b, string_text t b /\ str = when_out out b).
Proof.
  intros Hs Hmem. unfold parse_string. destruct (term_rd s Hs) as [c Hc]. rewrite Hc. cbn [mbind option_bind].
  destruct (Z.eqb_spec c 34) as [-> | _]; [|apply parses_fail]. cbn [negb].
  destruct (term_step s 34 Hs Hc) as (s1 & -> & Hs1 & _); [lia|]. drop1. apply (parses_app [34] _ s1); [done|].
  assert (Hl1 : zlen (34 :: s1) = zlen s1 + 1) by zl. destruct out.
  - destruct (Hmem eq_refl) as [Hm HM]. destruct (sb_init_holds malloc M sb_null) as (sb & -> & Hh).
    change (0 <? 0) with false. cbn match.
    assert (Hr0 : zlen r <= zlen s1) by (destruct Hs1 as (x & _ & ->); zl).
    destruct (make_room_holds malloc M sb [] Hm Hh) as (sb1 & -> & Hh1 & Hroom); [rewrite zlen_nil; lia|].
    cbn [mbind option_bind]. eapply parses_bind.
    + apply (string_loop_spec malloc M true _ s1 sb1 []); [done | lia | | done].
      intros _. split; [done|]. rewrite zlen_nil. lia.
    + intros t sb2 s2 _ Hs2 (t' & b & -> & Hb & Hh2). cbn beta.
      destruct (sb_finish_holds M sb2 b) as (rest & sb3 & ->); [by apply Hh2|]. cbn [mbind option_bind].
      destruct (chars_text_cstr t' b Hb). rewrite c_text_cstr by done. cbn [mbind option_bind].
      apply parses_ok; [done|]. exists b. split; [|done]. exists t'. by rewrite app_nil_r.
  - eapply parses_bind.
    + apply (string_loop_spec malloc M false _ s1 sb_null []); [done | lia | by intros | by intros].
    + intros t sb2 s2 _ Hs2 (t' & b & -> & Hb & _). cbn beta. apply parses_ok; [done|].
      exists b. split; [|done]. exists t'. by rewrite app_nil_r.
Qed.

(** ** Values: soundness *)

(** White space, a comma or a closing bracket ends a number. *)
Lemma space_ends w s c : ws w -> rd s 0 = Some c -> (w <> [] \/ c = 44 \/ c = 93 \/ c = 125 \/ c = 0) -> ends_number (w ++ s).
Proof.
  intros Hw Hc H. destruct w as [|x w].
  - destruct s as [|c' s]; [done|]. unfold rd in Hc. simpl in Hc. simplify_eq. cbn. unfold is_digit.
    destruct H as [H | H]; [done|]. destruct H as [-> | [-> | [-> | ->]]]; done.
  - apply Forall_cons in Hw as [Hx _]. cbn. unfold is_space in Hx. unfold is_digit.
    rewrite !orb_true_iff, !Z.eqb_eq in Hx. destruct Hx as [[[-> | ->] | ->] | ->]; done.
Qed.

Lemma memory_step malloc M out (s s' t : list Z) :
  memory_for malloc M out (zlen s - zlen r) -> s = t ++ s' -> memory_for malloc M out (zlen s' - zlen r).
Proof. intros H -> Ho. destruct (H Ho). split; [done|]. rewrite zlen_app in *. pose proof (zlen_nonneg t). lia. Qed.

Definition value_post (out : bool) (t : list Z) (a : option JsonNode) (s' : list Z) : Prop :=
  ends_number s' -> exists v, value_text t v /\ a = when_out out v.

(** The three parsing functions at one fuel. *)
Section with_memory.
Context (malloc : Z -> option (list Z)) (M : Z) (out : bool).

Definition value_sound (fuel : nat) : Prop := forall s,
  term s -> (2 * length s + 1 <= fuel)%nat -> memory_for malloc M out (zlen s - zlen r) ->
  parses s (parse_value malloc fuel out s) (value_post out).
Definition array_sound (fuel : nat) : Prop := forall s ret,
  term s -> (2 * length s + 2 <= fuel)%nat -> memory_for malloc M out (zlen s - zlen r) ->
  parses s (array_loop malloc fuel out s ret)
    (fun t a _ => exists vs, elements_text t vs /\ a = when_out out (JArray (ret ++ vs))).
Definition object_sound (fuel : nat) : Prop := forall s ret,
  term s -> (2 * length s + 2 <= fuel)%nat -> memory_for malloc M out (zlen s - zlen r) ->
  parses s (object_loop malloc fuel out s ret)
    (fun t a _ => exists ms, members_text t ms /\ a = when_out out (JObject (ret ++ ms))).

Lemma literal_sound s str v :
  term s -> is_cstr str -> value_text str v ->
  parses s (let! (_, s) := expect_literal s str in ok (when_out out v) s) (value_post out).
Proof.
  intros Hs Hstr Hv. eapply parses_bind; [by apply expect_literal_spec|]. intros t _ s' _ Hs' ->.
  apply parses_ok; [done|]. rewrite app_nil_r. intros _. by exists v.
Qed.

(** Behind an opening bracket: either the closing one or the loop. *)
Lemma bracket_sound {L} s close (loop : list Z -> P (option JsonNode)) (mk : list L -> JsonNode) (body : list Z -> list L -> Prop) :
  term s -> close <> 0 ->
  (forall s', term s' -> (length s' <= length s)%nat -> (exists w, s = w ++ s') ->
     parses s' (loop s') (fun t a _ => exists vs, body t vs /\ a = when_out out (mk vs))) ->
  parses s (s ← skip_space s; c ← rd s 0;
            if c =? close then ok (when_out out (mk [])) (drop 1 s) else loop s)
    (fun t a _ => (exists w, ws w /\ t = w ++ [close] /\ a = when_out out (mk [])) \/
                  (exists w t' vs, ws w /\ t = w ++ t' /\ body t' vs /\ a = when_out out (mk vs))).
Proof.
  intros Hs Hclose Hloop. destruct (skip_space_spec s Hs) as (w & s' & c & -> & E & Hw & Hs' & Hc & _).
  cbn [mbind option_bind]. rewrite Hc. cbn [mbind option_bind]. apply (parses_app w s s'); [done|].
  destruct (Z.eqb_spec c close) as [-> | Hne].
  - destruct (term_step s' close Hs' Hc Hclose) as (s2 & -> & Hs2 & _). drop1.
    apply (parses_app [close] _ s2); [done|]. apply parses_ok; [done|]. left. exists w. by rewrite app_nil_r.
  - eapply parses_weaken; [apply Hloop; [done | rewrite E; zl | by exists w]|].
    intros t a s2 _ _ (vs & Ht & ->). right. by exists w, t, vs.
Qed.

Lemma value_sound_step fuel : array_sound fuel -> object_sound fuel -> value_sound (S fuel).
Proof.
  intros Ha Ho s Hs Hf Hmem. cbn [parse_value]. destruct (term_rd s Hs) as [c Hc]. rewrite Hc. cbn [mbind option_bind].
  destruct (Z.eqb_spec c 110); [apply literal_sound; [done | by repeat constructor | constructor]|].
  destruct (Z.eqb_spec c 102); [apply literal_sound; [done | by repeat constructor | constructor]|].
  destruct (Z.eqb_spec c 116); [apply literal_sound; [done | by repeat constructor | constructor]|].
  destruct (Z.eqb_spec c 34) as [_ | _].
  { eapply parses_bind; [by eapply parse_string_spec|]. intros t str s' _ Hs' (b & Hb & ->).
    apply parses_ok; [done|]. rewrite app_nil_r. intros _. exists (JString (Some b)).
    split; [by constructor | by destruct out]. }
  destruct (Z.eqb_spec c 91) as [-> | _].
  { destruct (term_step s 91 Hs Hc) as (s1 & -> & Hs1 & _); [lia|]. drop1. apply (parses_app [91] _ s1); [done|].
    eapply parses_weaken; [apply (bracket_sound s1 93 (fun s => array_loop malloc fuel out s []) JArray elements_text Hs1); [lia|]|].
    - intros s' Hs' Hl [w E]. eapply parses_weaken; [apply Ha; [done | cbn in Hf; lia |]|].
      + eapply (memory_step _ _ _ (91 :: s1) s' (91 :: w)); [done | by rewrite E].
      + done.
    - intros t a s' _ _ [(w & Hw & -> & ->) | (w & t' & vs & Hw & -> & Ht & ->)] _.
      + exists (JArray []). split; [by apply (vt_array_nil w) | done].
      + exists (JArray vs). split; [by apply (vt_array w t' vs) | done]. }
  destruct (Z.eqb_spec c 123) as [-> | _].
  { destruct (term_step s 123 Hs Hc) as (s1 & -> & Hs1 & _); [lia|]. drop1. apply (parses_app [123] _ s1); [done|].
    eapply parses_weaken; [apply (bracket_sound s1 125 (fun s => object_loop malloc fuel out s []) JObject members_text Hs1); [lia|]|].
    - intros s' Hs' Hl [w E]. eapply parses_weaken; [apply Ho; [done | cbn in Hf; lia |]|].
      + eapply (memory_step _ _ _ (123 :: s1) s' (123 :: w)); [done | by rewrite E].
      + done.
    - intros t a s' _ _ [(w & Hw & -> & ->) | (w & t' & vs & Hw & -> & Ht & ->)] _.
      + exists (JObject []). split; [by apply (vt_object_nil w) | done].
      + exists (JObject vs). split; [by apply (vt_object w t' vs) | done]. }
  eapply parses_bind; [by apply parse_number_spec|]. intros t num s' _ Hs' Hn.
  apply parses_ok; [done|]. rewrite app_nil_r. intros Hend. destruct (Hn Hend) as (d & Hd & ->).
  exists (JNumber d). split; [by constructor | by destruct out].
Qed.

(** After an element: white space, then [close] or a comma and more. *)
Lemma element_end s (a1 : option JsonNode) close (next : list Z -> P (option JsonNode)) (Q : list Z -> option JsonNode -> list Z -> Prop) :
  term s -> close = 93 \/ close = 125 ->
  (forall w s', ws w -> ends_number s -> Q (w ++ [close]) a1 s') ->
  (forall w w' s', s = (w ++ 44 :: w') ++ s' -> ws w -> ws w' -> ends_number s -> term s' ->
     parses s' (next s') (fun t a s'' => Q ((w ++ 44 :: w') ++ t) a s'')) ->
  parses s (s ← skip_space s; c ← rd s 0;
            if c =? close then ok a1 (drop 1 s)
            else if negb (c =? 44) then fail else s ← skip_space (drop 1 s); next s) Q.
Proof.
  intros Hs Hclose Hend Hnext. destruct (skip_space_spec s Hs) as (w & s' & c & -> & E & Hw & Hs' & Hc & _).
  cbn [mbind option_bind]. rewrite Hc. cbn [mbind option_bind].
  destruct (Z.eqb_spec c close) as [-> | Hne].
  { assert (Hnum : ends_number s) by (rewrite E; apply (space_ends w s' close); [done | done | lia]).
    destruct (term_step s' close Hs' Hc) as (s2 & -> & Hs2 & _); [lia|]. drop1.
    apply (parses_app (w ++ [close]) s s2); [by rewrite E, <- app_assoc|]. apply parses_ok; [done|].
    rewrite app_nil_r. by apply Hend. }
  destruct (Z.eqb_spec c 44) as [-> | _]; [|apply parses_fail]. cbn [negb].
  assert (Hnum : ends_number s) by (rewrite E; apply (space_ends w s' 44); [done | done | lia]).
  destruct (term_step s' 44 Hs' Hc) as (s2 & -> & Hs2 & _); [lia|]. drop1.
  destruct (skip_space_spec s2 Hs2) as (w' & s3 & c' & -> & E' & Hw' & Hs3 & _). cbn [mbind option_bind].
  assert (E3 : s = (w ++ 44 :: w') ++ s3) by (rewrite E, E', <- app_assoc; done).
  apply (parses_app (w ++ 44 :: w') s s3 _ _ E3). by apply Hnext.
Qed.

Lemma array_sound_step fuel : value_sound fuel -> array_sound fuel -> array_sound (S fuel).
Proof.
  intros Hv Ha s ret Hs Hf Hmem. cbn [array_loop].
  eapply parses_bind; [apply Hv; [done | lia | done]|]. intros t el s' E Hs' Hel. unfold value_post in Hel.
  apply element_end; [done | lia | |].
  - intros w s2 Hw Hnum. destruct (Hel Hnum) as (v & Ht & ->). exists [v]. split; [by constructor | by destruct out].
  - intros w w' s2 E2 Hw Hw' Hnum Hs2. destruct (Hel Hnum) as (v & Ht & ->).
    eapply parses_weaken; [apply Ha; [done | |]|].
    + rewrite E, E2 in Hf. zlen_norm. lia.
    + eapply (memory_step _ _ _ s s2 (t ++ w ++ 44 :: w')); [done|]. rewrite E, E2, <- !app_assoc. done.
    + intros t2 a s3 _ _ (vs & Hvs & ->). exists (v :: vs). split.
      * replace (t ++ (w ++ 44 :: w') ++ t2) with (t ++ w ++ 44 :: w' ++ t2) by by rewrite <- app_assoc.
        by constructor.
      * destruct out; [|done]. cbn. by rewrite <- app_assoc.
Qed.

Lemma object_sound_step fuel : value_sound fuel -> object_sound fuel -> object_sound (S fuel).
Proof.
  intros Hv Ho s ret Hs Hf Hmem. cbn [object_loop].
  eapply parses_bind; [by eapply parse_string_spec|]. intros k kv s1 E1 Hs1 (key & Hk & ->). cbn beta.
  destruct (skip_space_spec s1 Hs1) as (w1 & s2 & c & -> & E2 & Hw1 & Hs2 & Hc & _).
  cbn [mbind option_bind]. rewrite Hc. cbn [mbind option_bind].
  destruct (Z.eqb_spec c 58) as [-> | _]; [|apply parses_fail]. cbn [negb].
  destruct (term_step s2 58 Hs2 Hc) as (s3 & -> & Hs3 & _); [lia|]. drop1.
  destruct (skip_space_spec s3 Hs3) as (w2 & s4 & c' & -> & E4 & Hw2 & Hs4 & _). cbn [mbind option_bind].
  assert (E : s = (k ++ w1 ++ 58 :: w2) ++ s4) by by rewrite E1, E2, E4, <- !app_assoc.
  apply (parses_app (w1 ++ 58 :: w2) s1 s4); [by rewrite E2, E4, <- app_assoc|].
  eapply parses_bind; [apply Hv; [done | rewrite E in Hf; zlen_norm; lia |]|].
  { eapply (memory_step _ _ _ s s4); [done | exact E]. }
  intros t val s5 E5 Hs5 Hval. unfold value_post in Hval.
  set (ret' := if out then ret ++ option_list (option_map (pair key) val) else ret).
  match goal with |- parses _ (s ← skip_space s5; @?k s) _ =>
    assert (Hk' : forall s, k s = (c ← rd s 0;
      if c =? 125 then ok (when_out out (JObject ret')) (drop 1 s)
      else if negb (c =? 44) then fail else s ← skip_space (drop 1 s); object_loop malloc fuel out s ret'))
      by (intros ?; unfold ret'; by destruct out) end.
  destruct (skip_space s5) as [s6|] eqn:E6; [cbn [mbind option_bind]|].
  2: { destruct (skip_space_spec s5 Hs5) as (? & ? & ? & ? & _). congruence. }
  cbn beta in Hk'. rewrite Hk'.
  change (parses s5 (s ← Some s6; c ← rd s 0;
      if c =? 125 then ok (when_out out (JObject ret')) (drop 1 s)
      else if negb (c =? 44) then fail else s ← skip_space (drop 1 s); object_loop malloc fuel out s ret')
    (fun t' a s'' => exists ms, members_text (k ++ (w1 ++ 58 :: w2) ++ t ++ t') ms /\ a = when_out out (JObject (ret ++ ms)))).
  rewrite <- E6. apply (element_end s5 _ 125); [done | lia | |].
  - intros w s7 Hw Hnum. destruct (Hval Hnum) as (v & Ht & Ev). exists [(key, v)]. split.
    + replace (k ++ (w1 ++ 58 :: w2) ++ t ++ w ++ [125]) with (k ++ w1 ++ 58 :: w2 ++ t ++ w ++ [125])
        by by rewrite <- !app_assoc.
      by constructor.
    + unfold ret'. rewrite Ev. by destruct out.
  - intros w w' s7 E7 Hw Hw' Hnum Hs7. destruct (Hval Hnum) as (v & Ht & Ev).
    eapply parses_weaken; [apply Ho; [done | |]|].
    + rewrite E, E5, E7 in Hf. zlen_norm. lia.
    + eapply (memory_step _ _ _ s s7 ((k ++ w1 ++ 58 :: w2) ++ t ++ w ++ 44 :: w')); [done|].
      rewrite E, E5, E7, <- !app_assoc. done.
    + intros t2 a s8 _ _ (ms & Hms & ->). exists ((key, v) :: ms). split.
      * replace (k ++ (w1 ++ 58 :: w2) ++ t ++ (w ++ 44 :: w') ++ t2) with
          (k ++ w1 ++ 58 :: w2 ++ t ++ w ++ 44 :: w' ++ t2) by by rewrite <- !app_assoc.
        by constructor.
      * unfold ret'. rewrite Ev. destruct out; [|done]. cbn. by rewrite <- app_assoc.
Qed.

Lemma parse_sound fuel : value_sound fuel /\ array_sound fuel /\ object_sound fuel.
Proof.
  induction fuel as [|fuel (IH1 & IH2 & IH3)].
  - split; [|split]; intros s; intros; lia.
  - split; [by apply value_sound_step|]. split; [by apply array_sound_step | by apply object_sound_step].
Qed.

End with_memory.
End in_text.

(** ** Completeness: the texts of the grammar are accepted *)

Lemma skip_space_accepts w s c : ws w -> rd s 0 = Some c -> is_space c = false -> skip_space (w ++ s) = Some s.
Proof.
  intros Hw Hc Hn. induction Hw as [|x w Hx Hw IH]; cbn [app skip_space].
  - destruct s as [|c' s]; [done|]. unfold rd in Hc. simpl in Hc. simplify_eq. cbn [skip_space]. by rewrite Hn.
  - by rewrite Hx.
Qed.

Lemma expect_literal_accepts str s : expect_literal (str ++ s) str = ok tt s.
Proof.
  induction str as [|x str IH]; [done|]. cbn [app expect_literal]. rewrite rd_cons_0. cbn [mbind option_bind].
  rewrite Z.eqb_refl. cbn [negb]. drop1. exact IH.
Qed.

Lemma skip_digits_accepts ds s : Forall digit ds -> not_digit s -> skip_digits (ds ++ s) = Some s.
Proof.
  intros Hd (c & Hc & Hn). induction Hd as [|x ds Hx Hd IH]; cbn [app skip_digits].
  - destruct s as [|c' s]; [done|]. unfold rd in Hc. simpl in Hc. simplify_eq. cbn [skip_digits]. by rewrite Hn.
  - apply is_digit_digit in Hx. by rewrite Hx.
Qed.

Lemma some_digits_accepts ds s : digits_text ds -> not_digit s -> some_digits (ds ++ s) = ok tt s.
Proof.
  intros [Hne Hd] Hs. destruct Hd as [|c ds Hc Hd]; [done|]. unfold some_digits. cbn [app].
  rewrite rd_cons_0. cbn [mbind option_bind]. apply is_digit_digit in Hc. rewrite Hc. cbn [negb]. drop1.
  by rewrite skip_digits_accepts.
Qed.

Lemma nonempty_rd (s : list Z) : s <> [] -> exists c, rd s 0 = Some c /\ head s = Some c.
Proof. destruct s as [|c s]; [done|]. by exists c. Qed.

Lemma stops_not_digit s : stops s -> s <> [] -> not_digit s.
Proof. destruct s as [|c s]; [done|]. intros H _. by exists c. Qed.

Lemma parse_number_accepts out t d s :
  number_text t d -> ends_number s -> s <> [] -> parse_number out (t ++ s) = ok (when_out out d) s.
Proof.
  intros Hn Hs Hne. pose proof (strtod_number t d s Hn Hs) as Hval.
  destruct Hn as (sg & i & f & fd & e & x & -> & Hsg & Hi & Hf & He & _).
  destruct (exponent_text e x s He Hs) as [_ Hstop].
  assert (Hes : e ++ s <> []) by (destruct e, s; done).
  assert (stops (f ++ e ++ s) /\ f ++ e ++ s <> []) as [Hfes1 Hfes2] by (destruct Hf as [[-> _] | [-> _]]; done).
  unfold parse_number. rewrite Hval. rewrite <- !app_assoc.
  assert (Hid : digits_text i) by (destruct Hi as [-> | []]; [split; [done | by repeat constructor] | done]).
  assert (Hi0 : exists c0 i', i = c0 :: i' /\ digit c0 /\ (c0 = 48 -> i' = [])).
  { destruct Hi as [-> | [[Hine Hd] Hh]]; [by exists 48, []|].
    destruct Hd as [|c0 i' Hc Hd]; [done|]. exists c0, i'. split; [done|]. split; [done|]. intros ->. by destruct Hh. }
  destruct Hi0 as (c0 & i' & -> & Hc0 & H48).
  assert (Hsign : exists c, rd (sg ++ (c0 :: i') ++ f ++ e ++ s) 0 = Some c /\
    (if c =? 45 then drop 1 (sg ++ (c0 :: i') ++ f ++ e ++ s) else sg ++ (c0 :: i') ++ f ++ e ++ s) =
    (c0 :: i') ++ f ++ e ++ s).
  { destruct Hsg as [-> | ->].
    - exists c0. split; [done|]. cbn [app]. unfold digit in Hc0. by replace (c0 =? 45) with false by lia.
    - by exists 45. }
  destruct Hsign as (c & -> & Hrest). cbn [mbind option_bind]. rewrite Hrest. cbn [app]. rewrite rd_cons_0.
  cbn [mbind option_bind].
  assert (Hint : (if c0 =? 48 then ok tt (drop 1 (c0 :: i' ++ f ++ e ++ s)) else some_digits (c0 :: i' ++ f ++ e ++ s)) =
    ok tt (f ++ e ++ s)).
  { destruct (Z.eqb_spec c0 48) as [-> | _]; [drop1; by rewrite H48|].
    apply (some_digits_accepts (c0 :: i')); [done|]. by apply stops_not_digit. }
  rewrite Hint. cbn [pbind ok].
  destruct (nonempty_rd (f ++ e ++ s) Hfes2) as (c1 & Hc1 & Hh1). rewrite Hc1. cbn [mbind option_bind].
  assert (Hfrac : (if c1 =? 46 then some_digits (drop 1 (f ++ e ++ s)) else ok tt (f ++ e ++ s)) = ok tt (e ++ s)).
  { destruct Hf as [[-> ->] | [-> Hfd]]; cbn [app] in Hh1 |- *.
    - assert (c1 <> 46); [|by replace (c1 =? 46) with false by lia].
      destruct He as [[-> _] | (l & sg' & ds & -> & Hl & _)]; cbn [app] in Hh1.
      + destruct s; [done|]. cbn in Hs, Hh1. injection Hh1 as ->. lia.
      + injection Hh1 as <-. lia.
    - injection Hh1 as <-. change (46 =? 46) with true. cbn match. drop1.
      apply some_digits_accepts; [done|]. by apply stops_not_digit. }
  rewrite Hfrac. cbn [pbind ok].
  destruct (nonempty_rd (e ++ s)) as (c2 & Hc2 & Hh2); [done|]. rewrite Hc2. cbn [mbind option_bind].
  assert (Hexp : (if (c2 =? 69) || (c2 =? 101) then s ← skip_sign (drop 1 (e ++ s)); some_digits s else ok tt (e ++ s)) =
    ok tt s).
  { destruct He as [[-> _] | (l & sg' & ds & -> & Hl & Hsg' & Hds & _)]; cbn [app] in Hh2 |- *.
    - destruct s as [|c3 s]; [done|]. cbn in Hs, Hh2. injection Hh2 as ->.
      by replace ((c2 =? 69) || (c2 =? 101)) with false by lia.
    - injection Hh2 as <-. replace ((l =? 69) || (l =? 101)) with true by lia. drop1. rewrite <- app_assoc.
      assert (Hsk : skip_sign (sg' ++ ds ++ s) = Some (ds ++ s)).
      { destruct Hsg' as [-> | [-> | ->]]; [|done..]. destruct Hds as [Hdne Hdd]. destruct Hdd as [|c3 ds Hc3 _]; [done|].
        unfold skip_sign. cbn [app]. rewrite rd_cons_0. cbn [mbind option_bind]. unfold digit in Hc3.
        by replace ((c3 =? 43) || (c3 =? 45)) with false by lia. }
      rewrite Hsk. cbn [mbind option_bind]. apply some_digits_accepts; [done|].
      apply stops_not_digit; [by apply ends_stops | done]. }
  rewrite Hexp. cbn [pbind ok]. by destruct out.
Qed.

Lemma parse_char_accepts t w s :
  char_text t w -> parse_char (t ++ s) = ok w s /\ exists c, rd (t ++ s) 0 = Some c /\ c <> 34.
Proof.
  intros [u Hu H31 H34 H92 | e b He | h u Hh Hu Hsur | h1 h2 hi lo H1 H2 Hhi Hlo].
  - destruct (write_char_shape u Hu) as (c & t' & E & Hc & Ht & Hl & _).
    assert (Hc' : 31 < c /\ c <> 34 /\ c <> 92).
    { rewrite write_char_div in E by (unfold scalar in Hu; lia). unfold scalar in Hu.
      destruct (Z.leb_spec u 127); [injection E; lia|].
      bool_cases; injection E as <- _; lia_mod. }
    split; [|exists c; rewrite E; split; [done | lia]].
    unfold parse_char. rewrite E at 1. cbn [app]. rewrite rd_cons_0. cbn [mbind option_bind].
    replace (c =? 92) with false by lia. replace (c <=? 31) with false by lia.
    rewrite validate_write_char by done. cbn [mbind option_bind].
    destruct (write_char_cstr u Hu); [lia|]. replace (zlen (utf8_write_char u) =? 0) with false by lia.
    rewrite rdn_app_0 by done. cbn [mbind option_bind]. by rewrite drop_app_zlen.
  - split; [|by exists 92]. unfold escapes in He. rewrite !elem_of_cons, elem_of_nil in He.
    destruct_or! He; simplify_eq; reflexivity.
  - split; [|by exists 92]. change (parse_char ((92 :: 117 :: h) ++ s)) with (parse_unicode (h ++ s)).
    unfold parse_unicode. destruct (parse_hex16_accepts h u s Hh) as [-> Hrange]. cbn [pbind ok].
    replace ((55296 <=? u) && (u <=? 57343)) with false by lia. by replace (u =? 0) with false by lia.
  - split; [|by exists 92].
    change (parse_char ((92 :: 117 :: h1 ++ 92 :: 117 :: h2) ++ s)) with (parse_unicode ((h1 ++ 92 :: 117 :: h2) ++ s)).
    unfold parse_unicode. rewrite <- app_assoc. destruct (parse_hex16_accepts h1 hi ((92 :: 117 :: h2) ++ s) H1) as [-> _].
    cbn [pbind ok app]. replace ((55296 <=? hi) && (hi <=? 57343)) with true by lia.
    change (rd (92 :: 117 :: h2 ++ s) 0) with (Some 92). change (rd (92 :: 117 :: h2 ++ s) 1) with (Some 117).
    cbn [mbind option_bind]. change (92 =? 92) with true. change (117 =? 117) with true. cbn [negb].
    change (drop 2 (92 :: 117 :: h2 ++ s)) with (h2 ++ s).
    destruct (parse_hex16_accepts h2 lo s H2) as [-> _]. cbn [pbind ok]. by rewrite from_surrogate_spec.
Qed.

Lemma string_loop_accepts malloc M out t b s :
  chars_text t b -> forall fuel sb b0,
  (length t < fuel)%nat ->
  (out = true -> SbMalloc malloc M /\ zlen b0 + zlen b + 4 <= M /\ holds M sb b0 /\ 4 <= end_ sb - zlen b0) ->
  exists sb', string_loop malloc fuel out (t ++ 34 :: s) sb = ok sb' s /\ (out = true -> holds M sb' (b0 ++ b)).
Proof.
  induction 1 as [|t w t' b Hc Hcs IH]; intros fuel sb b0 Hf Hmem; (destruct fuel as [|fuel]; [cbn in Hf; lia|]).
  - exists sb. split; [done|]. intros Ho. rewrite app_nil_r. by apply Hmem.
  - cbn [string_loop]. rewrite <- app_assoc. destruct (parse_char_accepts t w (t' ++ 34 :: s) Hc) as (Hp & c & Hrd & H34).
    rewrite Hrd. cbn [mbind option_bind]. replace (c =? 34) with false by lia. rewrite Hp. cbn [pbind ok].
    destruct (char_text_size t w Hc) as (Hw & Hwt & _).
    assert (Hf' : (length t' < fuel)%nat) by (rewrite length_app in Hf; zl).
    destruct out.
    + destruct (Hmem eq_refl) as (Hm & HM & Hh & Hroom). rewrite zlen_app in HM. pose proof (zlen_nonneg b).
      destruct (put_char malloc M sb b0 w (fun sb => string_loop malloc fuel true (t' ++ 34 :: s) sb)) as (sb' & E & Hh' & Hroom');
        [done | done | done | lia | lia |].
      rewrite E. destruct (IH fuel sb' (b0 ++ w) Hf') as (sb2 & E2 & Hh2).
      { intros _. split; [done|]. split; [rewrite zlen_app; lia | done]. }
      exists sb2. rewrite app_assoc. split; [exact E2 | done].
    + destruct (wrn_Some throwaway_buffer 0 w) as [buf Hbuf]; [lia | change (zlen throwaway_buffer) with 4; lia|].
      rewrite Hbuf. cbn [mbind option_bind]. destruct (IH fuel sb (b0 ++ w) Hf') as (sb2 & E2 & _); [done|].
      by exists sb2.
Qed.

Lemma parse_string_accepts malloc M out t b s :
  string_text t b -> memory_for malloc M out (zlen t) -> parse_string malloc out (t ++ s) = ok (when_out out b) s.
Proof.
  intros (t' & -> & Hb) Hmem. destruct (chars_text_cstr t' b Hb) as [Hcb Hlb].
  unfold parse_string. cbn [app]. rewrite rd_cons_0. cbn [mbind option_bind]. change (34 =? 34) with true. cbn [negb].
  drop1. rewrite <- app_assoc. cbn [app].
  assert (Hfuel : (length t' < S (length (t' ++ 34%Z :: s)))%nat) by zl. destruct out.
  - destruct (Hmem eq_refl) as [Hm HM]. destruct (sb_init_holds malloc M sb_null) as (sb & -> & Hh).
    change (0 <? 0) with false. cbn match.
    assert (zlen (34 :: t' ++ [34]) = zlen t' + 2) by zl.
    destruct (make_room_holds malloc M sb [] Hm Hh) as (sb1 & -> & Hh1 & Hroom); [rewrite zlen_nil; pose proof (zlen_nonneg t'); lia|].
    cbn [mbind option_bind].
    destruct (string_loop_accepts malloc M true t' b s Hb _ sb1 [] Hfuel) as (sb2 & -> & Hh2).
    { intros _. split; [done|]. rewrite zlen_nil. split; [lia | done]. }
    cbn [pbind ok]. destruct (sb_finish_holds M sb2 b) as (rest & sb3 & ->); [by apply Hh2|].
    cbn [mbind option_bind]. by rewrite c_text_cstr.
  - destruct (string_loop_accepts malloc M false t' b s Hb _ sb_null [] Hfuel) as (sb2 & -> & _); [done|]. done.
Qed.

(** The first byte of a value decides what it is. *)
Lemma value_head t v :
  value_text t v -> exists c t', t = c :: t' /\ is_space c = false /\ c <> 93 /\ c <> 125 /\ c <> 44 /\ c <> 58.
Proof.
  intros Hv. destruct Hv as [| | |t s (t' & -> & _)|t d Hn|w _|w t vs _ _|w _|w t ms _ _];
    try (eexists _, _; split; [reflexivity | done]).
  destruct Hn as (sg & i & f & fd & e & x & -> & [-> | ->] & Hi & _).
  - assert (Hi0 : exists c0 i', i = c0 :: i' /\ digit c0).
    { destruct Hi as [-> | [[Hine Hd] _]]; [by exists 48, []|]. destruct Hd as [|c0 i' Hc Hd]; [done|]. by exists c0, i'. }
    destruct Hi0 as (c0 & i' & -> & Hc0). unfold digit in Hc0. exists c0, (i' ++ f ++ e).
    split; [done|]. split; [unfold is_space; lia | lia].
  - eexists _, _. split; [reflexivity | done].
Qed.

Lemma number_head t d : number_text t d -> exists c t', t = c :: t' /\ (c = 45 \/ digit c).
Proof.
  intros (sg & i & f & fd & e & x & -> & [-> | ->] & Hi & _); [|eexists 45, _; split; [reflexivity | by left]].
  destruct Hi as [-> | [[Hine Hd] _]]; [eexists 48, _; split; [reflexivity | by right]|].
  destruct Hd as [|c0 i' Hc Hd]; [done|]. eexists c0, _. split; [reflexivity | by right].
Qed.

Lemma memory_le malloc M out n n' : memory_for malloc M out n -> n' <= n -> memory_for malloc M out n'.
Proof. intros H Hle Ho. destruct (H Ho). split; [done | lia]. Qed.

Section accepts.
Context (malloc : Z -> option (list Z)) (M : Z) (out : bool).

Definition value_accepted (t : list Z) (v : JsonNode) : Prop := forall fuel s,
  ends_number s -> s <> [] -> (2 * length t + 1 <= fuel)%nat -> memory_for malloc M out (zlen t) ->
  parse_value malloc fuel out (t ++ s) = ok (when_out out v) s.
Definition elements_accepted (t : list Z) (vs : list JsonNode) : Prop := forall fuel s ret,
  (2 * length t + 2 <= fuel)%nat -> memory_for malloc M out (zlen t) ->
  array_loop malloc fuel out (t ++ s) ret = ok (when_out out (JArray (ret ++ vs))) s.
Definition members_accepted (t : list Z) (ms : list (list Z * JsonNode)) : Prop := forall fuel s ret,
  (2 * length t + 2 <= fuel)%nat -> memory_for malloc M out (zlen t) ->
  object_loop malloc fuel out (t ++ s) ret = ok (when_out out (JObject (ret ++ ms))) s.

Lemma literal_accepted str v c str' :
  str = c :: str' -> c = 110 /\ str = lit "null" /\ v = JNull \/ c = 102 /\ str = lit "false" /\ v = JBool false \/
    c = 116 /\ str = lit "true" /\ v = JBool true ->
  value_accepted str v.
Proof.
  intros -> H fuel s _ _ Hf _. destruct fuel as [|fuel]; [lia|]. cbn [parse_value app]. rewrite rd_cons_0.
  cbn [mbind option_bind].
  destruct H as [(-> & H & ->) | [(-> & H & ->) | (-> & H & ->)]]; injection H as ->; reflexivity.
Qed.

Lemma number_accepted t d : number_text t d -> value_accepted t (JNumber d).
Proof.
  intros Hn fuel s Hs Hne Hf _. destruct fuel as [|fuel]; [lia|].
  destruct (number_head t d Hn) as (c & t' & E & Hc). unfold digit in Hc. cbn [parse_value]. rewrite E at 1. cbn [app].
  rewrite rd_cons_0. cbn [mbind option_bind].
  replace (c =? 110) with false by lia. replace (c =? 102) with false by lia. replace (c =? 116) with false by lia.
  replace (c =? 34) with false by lia. replace (c =? 91) with false by lia. replace (c =? 123) with false by lia.
  rewrite (parse_number_accepts out t d) by done. cbn [pbind ok]. by destruct out.
Qed.

Lemma string_accepted t b : string_text t b -> value_accepted t (JString (Some b)).
Proof.
  intros Hst fuel s Hs Hne Hf Hmem. destruct fuel as [|fuel]; [lia|]. cbn [parse_value].
  destruct Hst as (t' & E & Hb). assert (Hrd : rd (t ++ s) 0 = Some 34) by by rewrite E.
  rewrite Hrd. cbn [mbind option_bind]. change (parse_value malloc (S fuel) out) with (parse_value malloc (S fuel) out).
  cbn. rewrite (parse_string_accepts malloc M out t b) by (done || by exists t'). cbn. by destruct out.
Qed.

(** White space and the closing bracket or comma after a value. *)
Lemma after_value w s c : ws w -> rd s 0 = Some c -> c = 44 \/ c = 93 \/ c = 125 ->
  ends_number (w ++ s) /\ w ++ s <> [] /\ skip_space (w ++ s) = Some s.
Proof.
  intros Hw Hc H. split; [apply (space_ends w s c); [done | done | lia]|]. split; [by destruct w, s|].
  apply (skip_space_accepts w s c); [done | done | unfold is_space; lia].
Qed.

Lemma elements_head t vs : elements_text t vs -> exists c t', t = c :: t' /\ is_space c = false /\ c <> 93.
Proof.
  intros [t1 w v Hv _ | t1 w w' v t' vs' Hv _ _ _]; destruct (value_head t1 v Hv) as (c & t2 & -> & ?);
    eexists c, _; (split; [reflexivity | tauto]).
Qed.

Lemma members_head t ms : members_text t ms -> exists t', t = 34 :: t'.
Proof. intros [k key w1 w2 t1 w v (k' & -> & _) | k key w1 w2 t1 w w' v t' ms' (k' & -> & _)]; by eexists. Qed.

Lemma elements_last_accepted t w v : value_accepted t v -> ws w -> elements_accepted (t ++ w ++ [93]) [v].
Proof.
  intros Hv Hw fuel s ret Hf Hmem. destruct fuel as [|fuel]; [lia|]. cbn [array_loop]. rewrite <- !app_assoc. cbn [app].
  destruct (after_value w (93 :: s) 93 Hw) as (He & Hne & Hsk); [done | lia |].
  rewrite Hv; [|done | done | zlen_norm; lia | eapply memory_le; [done | zl]].
  cbn [pbind ok]. rewrite Hsk. cbn [mbind option_bind]. rewrite rd_cons_0. cbn [mbind option_bind].
  change (93 =? 93) with true. cbn match. drop1. by destruct out.
Qed.

Lemma elements_cons_accepted t w w' v t' vs :
  value_accepted t v -> ws w -> ws w' -> elements_text t' vs -> elements_accepted t' vs ->
  elements_accepted (t ++ w ++ 44 :: w' ++ t') (v :: vs).
Proof.
  intros Hv Hw Hw' Ht' Hvs fuel s ret Hf Hmem. destruct fuel as [|fuel]; [lia|]. cbn [array_loop].
  rewrite <- !app_assoc. cbn [app]. rewrite <- app_assoc.
  destruct (after_value w (44 :: w' ++ t' ++ s) 44 Hw) as (He & Hne & Hsk); [done | lia |].
  rewrite Hv; [|done | done | zlen_norm; lia | eapply memory_le; [done | zl]].
  cbn [pbind ok]. rewrite Hsk. cbn [mbind option_bind]. rewrite rd_cons_0. cbn [mbind option_bind].
  change (44 =? 93) with false. change (44 =? 44) with true. cbn match. cbn [negb]. drop1.
  destruct (elements_head t' vs Ht') as (c & t2 & E & Hc & _).
  rewrite (skip_space_accepts w' _ c) by (done || by rewrite E). cbn [mbind option_bind].
  rewrite Hvs; [|zlen_norm; lia | eapply memory_le; [done | zl]]. destruct out; [|done]. cbn. by rewrite <- app_assoc.
Qed.

(** The common part of the two forms of members: up to the value. *)
Lemma member_accepted k key w1 w2 t w v s c fuel (ret : list (list Z * JsonNode)) :
  string_text k key -> ws w1 -> ws w2 -> value_text t v -> value_accepted t v -> ws w ->
  rd s 0 = Some c -> c = 44 \/ c = 125 ->
  (2 * length t + 1 <= fuel)%nat -> memory_for malloc M out (zlen k + zlen t) ->
  object_loop malloc (S fuel) out (k ++ w1 ++ 58 :: w2 ++ t ++ w ++ s) ret =
    if c =? 125 then ok (when_out out (JObject (ret ++ [(key, v)]))) (drop 1 s)
    else s ← skip_space (drop 1 s); object_loop malloc fuel out s (if out then ret ++ [(key, v)] else ret).
Proof.
  intros Hk Hw1 Hw2 Htv Hv Hw Hc Hcc Hf Hmem. cbn [object_loop]. pose proof (zlen_nonneg k). pose proof (zlen_nonneg t).
  rewrite (parse_string_accepts malloc M out k key) by (done || (eapply memory_le; [done | lia])). cbn [pbind ok].
  rewrite (skip_space_accepts w1 _ 58) by done. cbn [mbind option_bind]. rewrite rd_cons_0. cbn [mbind option_bind].
  change (58 =? 58) with true. cbn [negb]. drop1. destruct (value_head t v Htv) as (c0 & t0 & E & Hc0 & _).
  rewrite (skip_space_accepts w2 _ c0) by (done || by rewrite E). cbn [mbind option_bind].
  destruct (after_value w s c Hw Hc) as (He & Hne & Hsk); [lia|].
  rewrite Hv; [|done | done | lia | eapply memory_le; [done | lia]]. cbn [pbind ok]. rewrite Hsk.
  cbn [mbind option_bind]. destruct out; cbn [when_out option_map option_list mbind option_bind]; rewrite Hc;
    cbn [mbind option_bind]; (destruct (Z.eqb_spec c 125); [done|]); replace (c =? 44) with true by lia; done.
Qed.

Lemma json_accepts :
  (forall t v, value_text t v -> value_accepted t v) /\
  (forall t vs, elements_text t vs -> elements_accepted t vs) /\
  (forall t ms, members_text t ms -> members_accepted t ms).
Proof.
  apply json_mutind.
  - eapply literal_accepted; [done|]. by left.
  - eapply literal_accepted; [done|]. by right; left.
  - eapply literal_accepted; [done|]. by right; right.
  - intros. by apply string_accepted.
  - intros. by apply number_accepted.
  - intros w Hw fuel s _ _ Hf _. destruct fuel as [|fuel]; [lia|]. cbn [parse_value app]. rewrite rd_cons_0, <- app_assoc.
    cbn -[skip_space]. rewrite drop_0. by rewrite (skip_space_accepts w _ 93).
  - intros w t vs Hw Ht IH fuel s _ _ Hf Hmem. destruct fuel as [|fuel]; [lia|]. cbn [parse_value app].
    rewrite rd_cons_0, <- app_assoc. destruct (elements_head t vs Ht) as (c & t' & E & Hc & H93).
    change (drop 1 (91 :: w ++ t ++ s)) with (w ++ t ++ s).
    cbn -[skip_space]. rewrite ?drop_0, (skip_space_accepts w _ c) by (done || by rewrite E). cbn [mbind option_bind].
    replace (rd (t ++ s) 0) with (Some c) by by rewrite E. cbn [mbind option_bind]. replace (c =? 93) with false by lia.
    apply IH; [zlen_norm; lia | eapply memory_le; [done | zl]].
  - intros w Hw fuel s _ _ Hf _. destruct fuel as [|fuel]; [lia|]. cbn [parse_value app]. rewrite rd_cons_0, <- app_assoc.
    cbn -[skip_space]. rewrite drop_0. by rewrite (skip_space_accepts w _ 125).
  - intros w t ms Hw Ht IH fuel s _ _ Hf Hmem. destruct fuel as [|fuel]; [lia|]. cbn [parse_value app].
    rewrite rd_cons_0, <- app_assoc. destruct (members_head t ms Ht) as (t' & E).
    change (drop 1 (123 :: w ++ t ++ s)) with (w ++ t ++ s).
    cbn -[skip_space]. rewrite ?drop_0, (skip_space_accepts w _ 34) by (done || by rewrite E). cbn [mbind option_bind].
    replace (rd (t ++ s) 0) with (Some 34) by by rewrite E. cbn [mbind option_bind]. change (34 =? 125) with false.
    apply IH; [zlen_norm; lia | eapply memory_le; [done | zl]].
  - intros. by apply elements_last_accepted.
  - intros. by apply elements_cons_accepted.
  - intros k key w1 w2 t w v Hk Hw1 Hw2 Ht IH Hw fuel s ret Hf Hmem. destruct fuel as [|fuel]; [lia|].
    rewrite <- !app_assoc. cbn [app]. rewrite <- !app_assoc. cbn [app].
    rewrite (member_accepted k key w1 w2 t w v (125 :: s) 125) by (done || lia || (zlen_norm; lia) || (eapply memory_le; [done | zl])).
    done.
  - intros k key w1 w2 t w w' v t' ms Hk Hw1 Hw2 Ht IH Hw Hw' Ht' IH' fuel s ret Hf Hmem. destruct fuel as [|fuel]; [lia|].
    rewrite <- !app_assoc. cbn [app]. rewrite <- !app_assoc. cbn [app]. rewrite <- app_assoc.
    rewrite (member_accepted k key w1 w2 t w v (44 :: w' ++ t' ++ s) 44)
      by (done || lia || (zlen_norm; lia) || (eapply memory_le; [done | zl])).
    change (44 =? 125) with false. cbn match. drop1. destruct (members_head t' ms Ht') as (t2 & E).
    rewrite (skip_space_accepts w' _ 34) by (done || by rewrite E). cbn [mbind option_bind].
    rewrite IH'; [|zlen_norm; lia | eapply memory_le; [done | zl]]. destruct out; [|done]. cbn. by rewrite <- app_assoc.
Qed.

End accepts.

(** ** Documents *)

Section document.
Context (malloc : Z -> option (list Z)) (M : Z) (out : bool) (s r : list Z).
Context (Hs : is_cstr s) (Hr : Forall is_byte r) (Hmem : memory_for malloc M out (zlen s + 1)).

Lemma document_accepts v :
  json_text s v -> exists s0 w, skip_space (s ++ 0 :: r) = Some s0 /\
    parse_value malloc (parse_fuel s0) out s0 = ok (when_out out v) (w ++ 0 :: r) /\ ws w.
Proof.
  intros (w1 & t & w & Hw1 & Hw & -> & Hv). destruct (value_head t v Hv) as (c & t' & E & Hc & _).
  exists (t ++ w ++ 0 :: r), w. rewrite <- !app_assoc.
  rewrite (skip_space_accepts w1 _ c) by (done || by rewrite E). split; [done|]. split; [|done].
  apply (proj1 (json_accepts malloc M out)); [done | | by destruct w | unfold parse_fuel; zlen_norm; lia
    | eapply memory_le; [done | zl]].
  apply (space_ends w _ 0); [done | done | lia].
Qed.

Lemma document_sound :
  exists s0, skip_space (s ++ 0 :: r) = Some s0 /\
    (parse_value malloc (parse_fuel s0) out s0 = fail \/
     exists a s1 s2 c, parse_value malloc (parse_fuel s0) out s0 = ok a s1 /\ skip_space s1 = Some s2 /\
       rd s2 0 = Some c /\ (c = 0 -> exists v, a = when_out out v /\ json_text s v)).
Proof.
  assert (Ht : term r (s ++ 0 :: r)) by by exists s.
  destruct (skip_space_spec r _ Ht) as (w & s0 & c0 & -> & E & Hw & Hs0 & _). exists s0. split; [done|].
  destruct (proj1 (parse_sound r Hr malloc M out (parse_fuel s0)) s0) as [-> | (t & a & s1 & -> & E1 & Hs1 & Hpost)];
    [done | unfold parse_fuel; lia | | by left |].
  { apply (memory_step r malloc M out _ s0 w) with (2 := E). eapply memory_le; [done | zl]. }
  right. destruct (skip_space_spec r s1 Hs1) as (w' & s2 & c & Hsk & E2 & Hw' & Hs2 & Hc & _).
  exists a, s1, s2, c. split; [done|]. split; [done|]. split; [done|]. intros ->.
  destruct Hpost as (v & Hv & ->). { rewrite E2. apply (space_ends w' s2 0); [done | done | lia]. }
  exists v. split; [done|]. exists w, t, w'. split; [done|]. split; [done|]. split; [|done].
  destruct (term_head r s2 Hs2) as (c' & s3 & -> & Hc'). rewrite rd_cons_0 in Hc. injection Hc as ->.
  destruct Hc' as [[_ ->] | [? _]]; [|lia]. apply (app_inv_tail (0 :: r)).
  by rewrite E, E1, E2, <- !app_assoc.
Qed.

End document.

(** ** Properties *)

(** C1. [json_decode] decides the grammar: on any terminated bytes, with memory for
    a string of their length, it terminates without undefined behaviour, and it
    returns a tree exactly when the text is a JSON document, the tree of that
    document. *)
Theorem json_decode_spec malloc M s r :
  SbMalloc malloc M -> is_cstr s -> Forall is_byte r -> zlen s + 5 <= M ->
  exists res, json_decode malloc (s ++ 0 :: r) = Some res /\ forall v, res = Some v <-> json_text s v.
Proof.
  intros Hm Hs Hr HM. assert (Hmem : memory_for malloc M true (zlen s + 1)) by (intros _; split; [done | lia]).
  assert (Hc : forall v, json_text s v -> json_decode malloc (s ++ 0 :: r) = Some (Some v)).
  { intros v Hv. destruct (document_accepts malloc M true s r Hs Hmem v Hv) as (s0 & w & E0 & E1 & Hw).
    unfold json_decode. rewrite E0. cbn [mbind option_bind]. rewrite E1. cbn [ok].
    by rewrite (skip_space_accepts w _ 0). }
  assert (Hsound : exists res, json_decode malloc (s ++ 0 :: r) = Some res /\ forall v, res = Some v -> json_text s v).
  { destruct (document_sound malloc M true s r Hs Hr Hmem) as (s0 & E0 & H). unfold json_decode. rewrite E0.
    cbn [mbind option_bind]. destruct H as [-> | (a & s1 & s2 & c & -> & E1 & E2 & Hv)]; [by exists None|].
    cbn [ok]. rewrite E1. cbn [mbind option_bind]. rewrite E2. cbn [mbind option_bind].
    destruct (Z.eqb_spec c 0) as [Hc0 | _]; [|by exists None]. destruct (Hv Hc0) as (v & -> & Ht). exists (Some v).
    split; [done|]. intros v' [= <-]. done. }
  destruct Hsound as (res & E & Hres). exists res. split; [done|]. intros v. split; [apply Hres|].
  intros Hv. apply Hc in Hv. congruence.
Qed.

Lemma test_malloc_ok M : 17 <= M <= INT_MAX -> SbMalloc test_malloc M.
Proof.
  intros HM. split; [| |done].
  - intros n m. unfold test_malloc. destruct (Z.ltb_spec n 0); [done|]. intros [= <-].
    unfold zlen. rewrite length_replicate. lia.
  - intros n Hn. unfold test_malloc. replace (n <? 0) with false by lia. by eexists.
Defined.

Lemma json_decode_spec_witness :
  json_text (js " [true, {'k': 'v'}] ") (JArray [JBool true; JObject [(lit "k", JString (Some (lit "v")))]]).
Proof.
  destruct (json_decode_spec test_malloc 100 (js " [true, {'k': 'v'}] ") []) as (res & E & Hres);
    [apply test_malloc_ok; unfold INT_MAX; lia | by repeat constructor | constructor | by vm_compute |].
  apply Hres. vm_compute in E. by injection E as <-.
Defined.

(** C33. [json_validate] agrees with [json_decode]: without any memory it answers
    true exactly for the documents of the grammar. *)
Theorem json_validate_spec malloc s r :
  is_cstr s -> Forall is_byte r ->
  exists b, json_validate malloc (s ++ 0 :: r) = Some b /\ (b = true <-> exists v, json_text s v).
Proof.
  intros Hs Hr. assert (Hmem : memory_for malloc 0 false (zlen s + 1)) by done.
  assert (Hc : forall v, json_text s v -> json_validate malloc (s ++ 0 :: r) = Some true).
  { intros v Hv. destruct (document_accepts malloc 0 false s r Hs Hmem v Hv) as (s0 & w & E0 & E1 & Hw).
    unfold json_validate. rewrite E0. cbn [mbind option_bind]. rewrite E1. cbn [ok].
    by rewrite (skip_space_accepts w _ 0). }
  destruct (document_sound malloc 0 false s r Hs Hr Hmem) as (s0 & E0 & H).
  assert (Hsound : exists b, json_validate malloc (s ++ 0 :: r) = Some b /\ (b = true -> exists v, json_text s v)).
  { unfold json_validate. rewrite E0.
    cbn [mbind option_bind]. destruct H as [-> | (a & s1 & s2 & c & -> & E1 & E2 & Hv)]; [by exists false|].
    cbn [ok]. rewrite E1. cbn [mbind option_bind]. rewrite E2. cbn [mbind option_bind]. exists (c =? 0).
    split; [done|]. intros Hc0%Z.eqb_eq. destruct (Hv Hc0) as (v & _ & Ht). by exists v. }
  destruct Hsound as (b & E & Hb). exists b. split; [done|]. split; [done|]. intros [v Hv]. apply Hc in Hv. congruence.
Qed.

Lemma json_validate_spec_witness : exists v, json_text (js "[1e3]") v.
Proof.
  destruct (json_validate_spec (fun _ => None) (js "[1e3]") []) as (b & E & Hb); [by repeat constructor | constructor |].
  apply Hb. vm_compute in E. by injection E as <-.
Defined.

End JsonSpec.
