(* ===== verification/JsonEmit.v ===== *)
(** src/src/json/json.c: serialisation of a tree ([json_encode],
    [json_stringify], the [emit_*] functions) into a string buffer, and the
    theorems that the buffer receives exactly the rendered text and that
    [json_decode] reads it back.

    Assertions are compiled out (NDEBUG). *)
From Stdlib Require Import SpecFloat.
From S2P Require Import Prelude Sb JsonUtf8 Double JsonParse JsonSpec.

Module JsonEmit.
Import Sb JsonUtf8 Double JsonParse JsonSpec.

(** [parse_number(&num, NULL) && *num == '\0'] *)
Definition number_is_valid (num : list Z) : option bool :=
  match parse_number false num with
  | None => None
  | Some None => Some false
  | Some (Some (_, s)) => c ← rd s 0; Some (c =? 0)
  end.

(** What [emit_number] prints into [buf]; undefined when the number does not fit
    an [int]. *)
Definition number_buf (num : double) : option (list Z) :=
  let (intg, fraction) := modf num in
  if nonzero fraction then
    let buf := fmt_g16 num in
    valid ← number_is_valid (buf ++ [0]);
    if (valid : bool) then Some buf else
    i ← to_int intg;
    f ← to_int (SFmul prec emax fraction (double_of_Z 1000));
    Some (fmt_d i ++ 46 :: fmt_03d f)
  else i ← to_int num; Some (fmt_d i).

(** One round of [emit_string] at [s]: the bytes it writes and the rest. *)
Definition emit_char (escape_unicode : bool) (s : list Z) : option (list Z * list Z) :=
  c ← rd s 0;
  let s1 := drop 1 s in
  if c =? 34 then Some ([92; 34], s1)
  else if c =? 92 then Some ([92; 92], s1)
  else if c =? 8 then Some ([92; 98], s1)
  else if c =? 12 then Some ([92; 102], s1)
  else if c =? 10 then Some ([92; 110], s1)
  else if c =? 13 then Some ([92; 114], s1)
  else if c =? 9 then Some ([92; 116], s1)
  else
    len ← utf8_validate_cz s;
    if len =? 0 then Some (if escape_unicode then 92 :: lit "uFFFD" else [239; 191; 189], s1)
    else if (c <? 31) || ((128 <=? c) && escape_unicode) then
      '(unicode, n) ← utf8_read_char s;
      Some (if unicode <=? 65535 then 92 :: 117 :: write_hex16 (u16 unicode)
            else let (uc, lc) := to_surrogate_pair unicode in
                 92 :: 117 :: write_hex16 uc ++ 92 :: 117 :: write_hex16 lc,
            drop (Z.to_nat n) s)
    else w ← rdn s 0 len; Some (w, drop (Z.to_nat len) s).

Section with_malloc.
Context (malloc : Z -> option (list Z)).

(** [*b++ = w[0]; ...] into the block of [out]. *)
Definition store_at (out : SB) (b : Z) (w : list Z) : option SB :=
  m ← blk out; m ← wrn m b w; Some (mk_sb (start out) (Some m) (cur out) (end_ out)).
Definition set_cur (out : SB) (b : Z) : SB := mk_sb (start out) (blk out) b (end_ out).

Fixpoint emit_string_loop (fuel : nat) (s : list Z) (out : SB) (b : Z) : option (SB * Z) :=
  match fuel with
  | O => None
  | S fuel' =>
      c ← rd s 0;
      if c =? 0 then Some (out, b) else
      '(w, s) ← emit_char false s;
      out ← store_at out b w;
      '(_, out) ← sb_need malloc (set_cur out (b + zlen w)) 14;
      emit_string_loop fuel' s out (cur out)
  end.

(** [str] is the memory of the string, its terminator included. *)
Definition emit_string (out : SB) (str : list Z) : option SB :=
  '(_, out) ← sb_need malloc out 14;
  out ← store_at out (cur out) [34];
  '(out, b) ← emit_string_loop (S (length str)) str out (cur out + 1);
  out ← store_at out b [34];
  Some (set_cur out (b + 1)).

Definition puts (out : SB) (s : list Z) : option SB := '(_, out) ← sb_puts malloc out (s ++ [0]); Some out.

Definition emit_number (out : SB) (num : double) : option SB :=
  buf ← number_buf num;
  valid ← number_is_valid (buf ++ [0]);
  puts out (if (valid : bool) then buf else lit "null").

(** A NULL string is dereferenced. *)
Definition emit_string_node (out : SB) (s : option (list Z)) : option SB :=
  s ← s; emit_string out (s ++ [0]).

(** The loops of [emit_array] and [emit_object] are over the children; the last
    one has no [next]. *)
Fixpoint emit_value (out : SB) (node : JsonNode) {struct node} : option SB :=
  match node with
  | JNull => puts out (lit "null")
  | JBool b => puts out (if b then lit "true" else lit "false")
  | JString s => emit_string_node out s
  | JNumber d => emit_number out d
  | JArray els =>
      out ← sb_putc malloc out 91;
      out ← (fix emit_elements (els : list JsonNode) (out : SB) : option SB :=
               match els with
               | [] => Some out
               | element :: next =>
                   out ← emit_value out element;
                   out ← (match next with [] => Some out | _ => sb_putc malloc out 44 end);
                   emit_elements next out
               end) els out;
      sb_putc malloc out 93
  | JObject members =>
      out ← sb_putc malloc out 123;
      out ← (fix emit_members (members : list (list Z * JsonNode)) (out : SB) : option SB :=
               match members with
               | [] => Some out
               | (key, member) :: next =>
                   out ← emit_string out (key ++ [0]);
                   out ← sb_putc malloc out 58;
                   out ← emit_value out member;
                   out ← (match next with [] => Some out | _ => sb_putc malloc out 44 end);
                   emit_members next out
               end) members out;
      sb_putc malloc out 125
  end.

(** [for (i = 0; i < n; i++) sb_puts(out, space);] *)
Definition indent (out : SB) (space : list Z) (n : Z) : option SB := for_ n (fun _ out => puts out space) out.

Fixpoint emit_value_indented (out : SB) (node : JsonNode) (space : list Z) (indent_level : Z) {struct node} : option SB :=
  match node with
  | JNull => puts out (lit "null")
  | JBool b => puts out (if b then lit "true" else lit "false")
  | JString s => emit_string_node out s
  | JNumber d => emit_number out d
  | JArray [] => puts out (lit "[]")
  | JArray els =>
      out ← puts out (lit "[" ++ [10]);
      out ← (fix emit_elements (els : list JsonNode) (out : SB) : option SB :=
               match els with
               | [] => Some out
               | element :: next =>
                   out ← indent out space (indent_level + 1);
                   out ← emit_value_indented out element space (indent_level + 1);
                   out ← puts out (match next with [] => [10] | _ => [44; 10] end);
                   emit_elements next out
               end) els out;
      out ← indent out space indent_level;
      sb_putc malloc out 93
  | JObject [] => puts out (lit "{}")
  | JObject members =>
      out ← puts out (lit "{" ++ [10]);
      out ← (fix emit_members (members : list (list Z * JsonNode)) (out : SB) : option SB :=
               match members with
               | [] => Some out
               | (key, member) :: next =>
                   out ← indent out space (indent_level + 1);
                   out ← emit_string out (key ++ [0]);
                   out ← puts out (lit ": ");
                   out ← emit_value_indented out member space (indent_level + 1);
                   out ← puts out (match next with [] => [10] | _ => [44; 10] end);
                   emit_members next out
               end) members out;
      out ← indent out space indent_level;
      sb_putc malloc out 125
  end.

(** The C string a finished buffer starts with, NULL without memory. *)
Definition finish (sb : SB) : option (option (list Z)) :=
  '(str, _) ← sb_finish sb;
  match str with None => Some None | Some m => t ← c_text m; Some (Some t) end.

Definition json_stringify (node : JsonNode) (space : option (list Z)) : option (option (list Z)) :=
  let (r, sb) := sb_init malloc sb_null in
  if r <? 0 then Some None else
  sb ← (match space with
        | Some space => emit_value_indented sb node space 0
        | None => emit_value sb node
        end);
  finish sb.

Definition json_encode (node : JsonNode) : option (option (list Z)) := json_stringify node None.

Definition json_encode_string (str : list Z) : option (option (list Z)) :=
  let (r, sb) := sb_init malloc sb_null in
  if r <? 0 then Some None else sb ← emit_string sb (str ++ [0]); finish sb.

(** The result of [sb_init] is not checked: without memory [sb_puts] reads an
    uninitialised buffer. *)
Definition json_strdup (s : list Z) : option (option (list Z)) :=
  let (r, out) := sb_init malloc sb_null in
  if r <? 0 then None else
  '(ret, out) ← sb_puts malloc out (s ++ [0]);
  if ret <? 0 then Some None else
  out ← sb_putc malloc out 0;
  if start out then m ← blk out; t ← c_text m; Some (Some t) else Some None.

End with_malloc.

Example encode_1 :
  json_encode test_malloc (JArray [JNumber (double_of_Z 12); JString (Some [34; 1; 195; 169; 255]); JObject [(lit "a", JNull); (lit "b", JBool true)]]) =
  Some (Some (js "[12,'\'\u0001" ++ [195; 169; 239; 191; 189] ++ js "',{'a':null,'b':true}]")).
Proof. by vm_compute. Qed.
Example encode_2 :
  json_stringify test_malloc (JArray [JNumber (strtod (lit "0.5")); JArray []]) (Some [9]) =
  Some (Some (lit "[" ++ [10; 9] ++ lit "0.5," ++ [10; 9] ++ lit "[]" ++ [10] ++ lit "]")).
Proof. by vm_compute. Qed.
(** A fraction is printed with 16 digits, one too few to identify a double. *)
Example encode_loses_digits :
  json_encode test_malloc (JNumber (strtod (lit "0.30000000000000004"))) = Some (Some (lit "0.3")).
Proof. by vm_compute. Qed.
(** An integral double outside the range of int is converted all the same. *)
Example encode_big_undefined : json_encode test_malloc (JNumber (double_of_Z 3000000000)) = None.
Proof. by vm_compute. Qed.
(** Byte 31 is neither escaped by the encoder nor accepted by the decoder. *)
Example encode_31 :
  json_encode test_malloc (JString (Some [31])) = Some (Some [34; 31; 34]) /\
  json_decode test_malloc [34; 31; 34; 0] = Some None.
Proof. by vm_compute. Qed.

(** ** The rendered text *)

Definition esc_byte (c : Z) : list Z :=
  if c =? 34 then [92; 34] else if c =? 92 then [92; 92] else if c =? 8 then [92; 98] else if c =? 12 then [92; 102]
  else if c =? 10 then [92; 110] else if c =? 13 then [92; 114] else if c =? 9 then [92; 116]
  else if c <? 31 then 92 :: 117 :: write_hex16 c else [c].

Definition escape (s : list Z) : list Z := concat (map esc_byte s).
Definition quote (s : list Z) : list Z := 34 :: escape s ++ [34].

Definition number_out (d : double) : list Z :=
  match number_buf d with
  | Some buf => match number_is_valid (buf ++ [0]) with Some true => buf | _ => lit "null" end
  | None => []
  end.

Fixpoint join (sep : list Z) (l : list (list Z)) : list Z :=
  match l with [] => [] | [x] => x | x :: l' => x ++ sep ++ join sep l' end.

Fixpoint render (v : JsonNode) : list Z :=
  match v with
  | JNull => lit "null"
  | JBool b => if b then lit "true" else lit "false"
  | JString s => quote (default [] s)
  | JNumber d => number_out d
  | JArray els => 91 :: join [44] (map render els) ++ [93]
  | JObject ms => 123 :: join [44] (map (fun kv => quote kv.1 ++ 58 :: render kv.2) ms) ++ [125]
  end.

Definition margin (space : list Z) (n : Z) : list Z := concat (replicate (Z.to_nat n) space).

Fixpoint render_indented (space : list Z) (level : Z) (v : JsonNode) : list Z :=
  match v with
  | JArray ((_ :: _) as els) =>
      91 :: 10 :: join [44; 10] (map (fun e => margin space (level + 1) ++ render_indented space (level + 1) e) els)
      ++ 10 :: margin space level ++ [93]
  | JObject ((_ :: _) as ms) =>
      123 :: 10 :: join [44; 10] (map (fun kv => margin space (level + 1) ++ quote kv.1 ++ 58 :: 32 ::
        render_indented space (level + 1) kv.2) ms)
      ++ 10 :: margin space level ++ [125]
  | JArray [] => lit "[]"
  | JObject [] => lit "{}"
  | v => render v
  end.

(** Induction over trees. *)
Section tree_ind.
Context (P : JsonNode -> Prop).
Context (Hnull : P JNull) (Hbool : forall b, P (JBool b)) (Hstring : forall s, P (JString s))
  (Hnumber : forall d, P (JNumber d)) (Harray : forall els, Forall P els -> P (JArray els))
  (Hobject : forall ms, Forall (fun kv => P kv.2) ms -> P (JObject ms)).

Fixpoint tree_ind (v : JsonNode) : P v :=
  match v with
  | JNull => Hnull
  | JBool b => Hbool b
  | JString s => Hstring s
  | JNumber d => Hnumber d
  | JArray els => Harray els ((fix go (els : list JsonNode) : Forall P els :=
      match els with [] => Forall_nil_2 P | e :: els' => Forall_cons_2 P e els' (tree_ind e) (go els') end) els)
  | JObject ms => Hobject ms ((fix go (ms : list (list Z * JsonNode)) : Forall (fun kv => P kv.2) ms :=
      match ms with [] => Forall_nil_2 _ | kv :: ms' => Forall_cons_2 _ kv ms' (tree_ind kv.2) (go ms') end) ms)
  end.
End tree_ind.

(** Trees the encoder prints: no NULL strings, UTF-8 texts, numbers that are
    fractions or fit an int. *)
#[warnings="-register-all"]
Inductive printable : JsonNode -> Prop :=
  | p_null : printable JNull
  | p_bool b : printable (JBool b)
  | p_string s : well_formed s -> printable (JString (Some s))
  | p_number d : is_Some (number_buf d) -> printable (JNumber d)
  | p_array els : Forall printable els -> printable (JArray els)
  | p_object ms : Forall (fun kv => well_formed kv.1 /\ printable kv.2) ms -> printable (JObject ms).

(** Trees that survive a round trip: texts without byte 31, and ints. *)
#[warnings="-register-all"]
Inductive readable : JsonNode -> Prop :=
  | r_null : readable JNull
  | r_bool b : readable (JBool b)
  | r_string s : well_formed s -> 31 ∉ s -> readable (JString (Some s))
  | r_number z : -2147483648 <= z <= 2147483647 -> readable (JNumber (double_of_Z z))
  | r_array els : Forall readable els -> readable (JArray els)
  | r_object ms : Forall (fun kv => (well_formed kv.1 /\ 31 ∉ kv.1) /\ readable kv.2) ms -> readable (JObject ms).

(** ** One character *)

Lemma esc_high c : 128 <= c -> esc_byte c = [c].
Proof.
  intros Hc. unfold esc_byte.
  repeat match goal with |- context [c =? ?k] => replace (c =? k) with false by lia end.
  by replace (c <? 31) with false by lia.
Qed.

Lemma escape_char u :
  scalar u -> escape (utf8_write_char u) = if u <=? 127 then esc_byte u else utf8_write_char u.
Proof.
  intros [Hu _]. rewrite write_char_div by done. unfold escape.
  destruct (Z.leb_spec u 127); [by cbn; rewrite app_nil_r|].
  destruct (Z.leb_spec u 2047); [|destruct (Z.leb_spec u 65535)]; cbn; rewrite !esc_high by lia_mod; done.
Qed.

Lemma emit_char_spec u r :
  scalar u -> u <> 0 -> emit_char false (utf8_write_char u ++ r) = Some (escape (utf8_write_char u), r).
Proof.
  intros Hu H0. rewrite escape_char by done. destruct (write_char_shape u Hu) as (c & t & E & Hc & _).
  unfold emit_char. destruct (Z.leb_spec u 127) as [Hle | Hgt].
  - assert (Ew : utf8_write_char u = [u]) by (rewrite write_char_div by (unfold scalar in Hu; lia); by replace (u <=? 127) with true by lia).
    rewrite validate_write_char, read_write_char, Ew by done. cbn [app]. rewrite rd_cons_0. cbn [mbind option_bind]. drop1.
    unfold esc_byte. destruct (u =? 34); [done|]. destruct (u =? 92); [done|]. destruct (u =? 8); [done|].
    destruct (u =? 12); [done|]. destruct (u =? 10); [done|]. destruct (u =? 13); [done|]. destruct (u =? 9); [done|].
    change (zlen [u]) with 1. change (1 =? 0) with false. cbn match. replace (128 <=? u) with false by lia.
    rewrite andb_false_l, orb_false_r. destruct (u <? 31) eqn:E31.
    + replace (u <=? 65535) with true by lia. by rewrite u16_id by (unfold scalar in Hu; lia).
    + change (u :: r) with ([u] ++ r). rewrite (rdn_app_0 [u] r) by done. cbn [mbind option_bind]. done.
  - assert (Hc128 : 128 <= c).
    { rewrite write_char_div in E by (unfold scalar in Hu; lia). unfold scalar in Hu.
      replace (u <=? 127) with false in E by lia. bool_cases; injection E as <- _; lia_mod. }
    rewrite validate_write_char by done. rewrite E at 1. cbn [app]. rewrite rd_cons_0. cbn [mbind option_bind].
    repeat match goal with |- context [c =? ?k] => replace (c =? k) with false by lia end.
    destruct (write_char_cstr u Hu H0) as [_ Hl]. replace (zlen (utf8_write_char u) =? 0) with false by lia.
    replace (c <? 31) with false by lia. rewrite andb_false_r. cbn [orb].
    rewrite rdn_app_0 by done. cbn [mbind option_bind]. by rewrite drop_app_zlen.
Qed.

Lemma escape_size u : scalar u -> 1 <= zlen (escape (utf8_write_char u)) <= 6.
Proof.
  intros Hu. rewrite escape_char by done. destruct (write_char_shape u Hu) as (c & t & -> & _ & _ & Hl & _).
  destruct (u <=? 127); [|rewrite Hl; bool_cases; lia].
  unfold esc_byte. bool_cases; unfold zlen; cbn; lia.
Qed.

Lemma escape_app a b : escape (a ++ b) = escape a ++ escape b.
Proof. unfold escape. by rewrite map_app, concat_app. Qed.

(** ** Printed numbers are C strings *)

Lemma digits_cstr n : is_cstr (dec n).
Proof.
  unfold dec. assert (H : forall fuel n acc, is_cstr acc -> is_cstr (dec_loop fuel n acc)).
  { induction fuel as [|fuel IH]; intros m acc Hacc; [done|]. cbn [dec_loop].
    assert (is_cstr (48 + m mod 10 :: acc)) by (constructor; [lia_mod | done]). bool_cases; auto. }
  apply H. constructor.
Qed.

Lemma zeros_cstr n : is_cstr (replicate n 48).
Proof. by apply Forall_replicate. Qed.

Lemma pad_cstr w s : is_cstr s -> is_cstr (pad w s).
Proof. intros Hs. apply Forall_app. split; [apply zeros_cstr | done]. Qed.

Lemma fmt_d_cstr z : is_cstr (fmt_d z).
Proof. unfold fmt_d. bool_cases; [constructor; [lia|]|]; apply digits_cstr. Qed.

Lemma fmt_03d_cstr z : is_cstr (fmt_03d z).
Proof. unfold fmt_03d. bool_cases; [constructor; [lia|]|]; apply pad_cstr, digits_cstr. Qed.

Lemma strip_zeros_cstr l : is_cstr l -> is_cstr (strip_zeros l).
Proof.
  induction 1 as [|c l Hc Hl IH]; [constructor|]. cbn. destruct (strip_zeros l); [|by constructor].
  bool_cases; [constructor | by constructor].
Qed.

Lemma fmt_g16_pos_cstr n d : is_cstr (fmt_g16_pos n d).
Proof.
  unfold fmt_g16_pos. destruct (if 10 ^ 16 <=? _ then _ else _) as [x g].
  assert (Hj : forall a b, is_cstr a -> is_cstr b -> is_cstr (match strip_zeros b with [] => a | t => a ++ 46 :: t end)).
  { intros a b Ha Hb. apply strip_zeros_cstr in Hb. destruct (strip_zeros b); [done|].
    apply Forall_app. split; [done|]. by constructor. }
  pose proof (digits_cstr g) as Hg.
  assert (Ht : forall n, is_cstr (take n (dec g)) /\ is_cstr (drop n (dec g)))
    by (intros k; split; [by apply Forall_take | by apply Forall_drop]).
  destruct ((-4 <=? x) && (x <? 16)).
  - destruct (0 <=? x); apply Hj; try apply Ht; [by repeat constructor|].
    apply Forall_app. split; [apply zeros_cstr | done].
  - apply Forall_app. split; [apply Hj; apply Ht|].
    constructor; [lia|]. constructor; [bool_cases; lia|]. apply pad_cstr, digits_cstr.
Qed.

Lemma fmt_g16_cstr d : is_cstr (fmt_g16 d).
Proof.
  destruct d as [s | s | | s m e]; cbn [fmt_g16]; [by destruct s; repeat constructor..| by repeat constructor |].
  destruct s; [constructor; [lia|]|]; bool_cases; apply fmt_g16_pos_cstr.
Qed.

Lemma number_is_valid_total s : is_cstr s -> exists b, number_is_valid (s ++ [0]) = Some b.
Proof.
  intros Hs. unfold number_is_valid.
  destruct (parse_number_spec [] false (s ++ [0])) as [-> | (t & a & s' & -> & _ & Ht & _)]; [by exists s | by exists false|].
  cbn [ok]. destruct (term_rd [] s' Ht) as [c Hc]. rewrite Hc. by eexists.
Qed.

Lemma number_buf_cstr d buf : number_buf d = Some buf -> is_cstr buf.
Proof.
  unfold number_buf. destruct (modf d) as [i f]. intros H. destruct (nonzero f).
  - destruct (number_is_valid (fmt_g16 d ++ [0])) as [[]|]; cbn [mbind option_bind] in H; [| |done].
    + simplify_eq. apply fmt_g16_cstr.
    + destruct (to_int i) as [z|]; cbn [mbind option_bind] in H; [|done].
      destruct (to_int (SFmul prec emax f (double_of_Z 1000))) as [z'|]; cbn [mbind option_bind] in H; [|done].
      injection H as <-. apply Forall_app. split; [apply fmt_d_cstr|]. constructor; [lia | apply fmt_03d_cstr].
  - destruct (to_int d) as [z|]; cbn [mbind option_bind] in H; [|done]. injection H as <-. apply fmt_d_cstr.
Qed.

(** ** The buffer receives the rendered text *)

Section in_memory.
Context (malloc : Z -> option (list Z)) (M : Z) (Hm : SbMalloc malloc M).

Lemma holds_app sb s t : holds M sb s -> zlen t <= end_ sb - zlen s ->
  exists sb', store_at sb (cur sb) t = Some sb' /\ holds M (set_cur sb' (cur sb + zlen t)) (s ++ t) /\
    end_ sb' = end_ sb /\ cur sb' = cur sb.
Proof.
  intros Hh Ht. destruct (holds_blk M sb s Hh) as [m Hb]. destruct (holds_write M sb s t m Hh Hb Ht) as (m' & Hw & Hh').
  destruct (holds_fields M sb s Hh) as (_ & Hc & _). unfold store_at. rewrite Hb. cbn [mbind option_bind].
  rewrite Hc, Hw in *. cbn [mbind option_bind]. eexists. split; [done|]. split; [exact Hh' | done].
Qed.

(** Bytes stored at [b], behind [cur]. *)
Lemma store_pending sb b s w :
  holds M (set_cur sb b) s -> zlen w <= end_ sb - zlen s ->
  exists sb', store_at sb b w = Some sb' /\ holds M (set_cur sb' (b + zlen w)) (s ++ w) /\ end_ sb' = end_ sb.
Proof.
  intros Hh Hw. destruct (holds_app (set_cur sb b) s w Hh Hw) as (sb1 & E & Hh1 & He & Hc).
  unfold store_at in E |- *. cbn [blk cur set_cur start end_] in E. destruct (blk sb); [|done].
  cbn [mbind option_bind] in E |- *. destruct (wrn l b w); [|done]. cbn [mbind option_bind] in E |- *. simplify_eq.
  eexists. split; [done|]. split; [exact Hh1 | done].
Qed.

Lemma emit_string_loop_spec fuel : forall us sb b s0,
  chars us -> (length (text us) < fuel)%nat -> holds M (set_cur sb b) s0 -> 13 <= end_ sb - zlen s0 ->
  zlen s0 + zlen (escape (text us)) + 14 <= M ->
  exists sb' b', emit_string_loop malloc fuel (text us ++ [0]) sb b = Some (sb', b') /\
    holds M (set_cur sb' b') (s0 ++ escape (text us)) /\ 1 <= end_ sb' - zlen (s0 ++ escape (text us)).
Proof.
  induction fuel as [|fuel IH]; intros us sb b s0 Hus Hf Hh Hroom HM; [lia|].
  destruct Hus as [|u us [Hu H0] Hus].
  { exists sb, b. cbn. rewrite app_nil_r. split; [done|]. split; [done | lia]. }
  change (text (u :: us)) with (utf8_write_char u ++ text us) in *. rewrite <- app_assoc. cbn [emit_string_loop].
  destruct (write_char_shape u Hu) as (c & t & E & _ & _ & _ & Hpos).
  assert (Hrd : rd (utf8_write_char u ++ text us ++ [0]) 0 = Some c) by by rewrite E.
  rewrite Hrd. cbn [mbind option_bind]. replace (c =? 0) with false by lia. rewrite emit_char_spec by done.
  cbn [mbind option_bind]. rewrite escape_app in *. destruct (escape_size u Hu) as [Hs1 Hs6].
  destruct (store_pending sb b s0 (escape (utf8_write_char u)) Hh) as (sb1 & -> & Hh1 & He1); [lia|].
  cbn [mbind option_bind]. pose proof (zlen_nonneg (escape (text us))). rewrite zlen_app in HM.
  destruct (sb_need_holds malloc M _ _ 14 Hh1) as (sb2 & -> & Hh2 & Hroom2); [lia | rewrite zlen_app; lia|].
  cbn [mbind option_bind]. destruct (holds_fields M sb2 _ Hh2) as (_ & Hc2 & _).
  assert (Hset : set_cur sb2 (cur sb2) = sb2) by by destruct sb2.
  destruct (IH us sb2 (cur sb2) (s0 ++ escape (utf8_write_char u)) Hus) as (sb3 & b3 & -> & Hh3 & Hroom3).
  - rewrite length_app in Hf. destruct (utf8_write_char u); [done | cbn in Hf; lia].
  - by rewrite Hset.
  - lia.
  - rewrite zlen_app. lia.
  - exists sb3, b3. rewrite app_assoc. done.
Qed.

Lemma emit_string_spec sb s0 s :
  holds M sb s0 -> well_formed s -> zlen s0 + zlen (quote s) + 13 <= M ->
  exists sb', emit_string malloc sb (s ++ [0]) = Some sb' /\ holds M sb' (s0 ++ quote s).
Proof.
  intros Hh (us & Hus & ->) HM. unfold quote in *. set (e := escape (text us)) in *.
  assert (Hle : zlen (34 :: e ++ [34]) = zlen e + 2) by zl. pose proof (zlen_nonneg e). unfold emit_string.
  destruct (sb_need_holds malloc M sb s0 14 Hh) as (sb1 & -> & Hh1 & Hroom1); [lia | lia|]. cbn [mbind option_bind].
  destruct (holds_app sb1 s0 [34] Hh1) as (sb2 & -> & Hh2 & He2 & Hc2); [change (zlen [34]) with 1; lia|].
  cbn [mbind option_bind]. change (zlen [34]) with 1 in Hh2. rewrite Hc2.
  destruct (emit_string_loop_spec (S (length (text us ++ [0]))) us sb2 (cur sb1 + 1) (s0 ++ [34]) Hus) as (sb3 & b3 & -> & Hh3 & Hroom3).
  - rewrite length_app. lia.
  - done.
  - rewrite He2, zlen_app. change (zlen [34]) with 1. lia.
  - rewrite zlen_app. change (zlen [34]) with 1. fold e. lia.
  - cbn [mbind option_bind]. fold e in Hh3, Hroom3. destruct (store_pending sb3 b3 _ [34] Hh3) as (sb4 & -> & Hh4 & _); [done|].
    cbn [mbind option_bind]. eexists. split; [done|]. change (zlen [34]) with 1 in Hh4.
    rewrite <- !app_assoc in Hh4. done.
Qed.

Lemma puts_spec sb s0 t :
  holds M sb s0 -> is_cstr t -> zlen s0 + zlen t <= M -> exists sb', puts malloc sb t = Some sb' /\ holds M sb' (s0 ++ t).
Proof.
  intros Hh Ht HM. unfold puts. destruct (sb_puts_holds malloc M sb s0 t [] Hh Ht HM) as (sb' & E & Hh').
  rewrite E. by exists sb'.
Qed.

(** A printing function that appends [t]. *)
Definition emits (f : SB -> option SB) (t : list Z) : Prop := forall sb s0,
  holds M sb s0 -> zlen s0 + zlen t + 13 <= M -> exists sb', f sb = Some sb' /\ holds M sb' (s0 ++ t).

Lemma prints_bind f g t u : emits f t -> emits g u -> emits (fun sb => sb ← f sb; g sb) (t ++ u).
Proof.
  intros Hf Hg sb s0 Hh HM. rewrite zlen_app in HM. pose proof (zlen_nonneg u).
  destruct (Hf sb s0 Hh) as (sb1 & -> & Hh1); [lia|]. cbn [mbind option_bind]. rewrite app_assoc.
  apply Hg; [done | rewrite zlen_app; lia].
Qed.

Lemma emits_ext f g t : (forall sb, f sb = g sb) -> emits f t -> emits g t.
Proof. intros He Hf sb s0 Hh HM. rewrite <- He. by apply Hf. Qed.

Lemma emits_nothing : emits Some [].
Proof. intros sb s0 Hh _. exists sb. by rewrite app_nil_r. Qed.

Lemma emits_puts t : is_cstr t -> emits (fun sb => puts malloc sb t) t.
Proof. intros Ht sb s0 Hh HM. apply puts_spec; [done | done | lia]. Qed.

Lemma emits_putc c : emits (fun sb => sb_putc malloc sb c) [c].
Proof. intros sb s0 Hh HM. change (zlen [c]) with 1 in HM. apply (sb_putc_holds malloc M); [done | lia]. Qed.

Lemma emits_string s : well_formed s -> emits (fun sb => emit_string malloc sb (s ++ [0])) (quote s).
Proof. intros Hs sb s0 Hh HM. by apply emit_string_spec. Qed.

Lemma emits_number d : is_Some (number_buf d) -> emits (fun sb => emit_number malloc sb d) (number_out d).
Proof.
  intros [buf Hb]. unfold emit_number, number_out. rewrite Hb. cbn [mbind option_bind].
  pose proof (number_buf_cstr d buf Hb) as Hc. destruct (number_is_valid_total buf Hc) as [b Hv]. rewrite Hv.
  cbn [mbind option_bind]. destruct b; apply emits_puts; [done | by repeat constructor].
Qed.

Lemma emits_indent space n : is_cstr space -> emits (fun sb => indent malloc sb space n) (margin space n).
Proof.
  intros Hs. unfold indent, for_, margin. generalize 0. induction (Z.to_nat n) as [|k IH]; intros i.
  - apply emits_nothing.
  - cbn [for_from replicate concat]. apply prints_bind; [by apply emits_puts | apply IH].
Qed.

(** A loop over children: each is printed by [item], then comes [fin], which
    is told whether the child is the last. *)
Definition children_text {X} (txt : X -> list Z) (sep last : list Z) (l : list X) : list Z :=
  match l with [] => [] | _ => join sep (map txt l) ++ last end.

Lemma emits_children {X} (loop : list X -> SB -> option SB) item (fin : list X -> SB -> option SB) txt sep last l :
  (forall sb, loop [] sb = Some sb) ->
  (forall x next sb, loop (x :: next) sb = (out ← item x sb; out ← fin next out; loop next out)) ->
  Forall (fun x => emits (item x) (txt x)) l -> emits (fin []) last -> (forall x next, emits (fin (x :: next)) sep) ->
  emits (loop l) (children_text txt sep last l).
Proof.
  intros H0 H1 HF Hlast Hsep. induction HF as [|x l Hx HF IH].
  { apply (emits_ext Some); [done | apply emits_nothing]. }
  apply (emits_ext (fun sb => sb ← item x sb; (fun sb => sb ← fin l sb; loop l sb) sb)).
  { intros sb. by rewrite H1. }
  destruct l as [|y l].
  - replace (children_text txt sep last [x]) with (txt x ++ last ++ []) by by rewrite app_nil_r.
    apply prints_bind; [done|]. by apply prints_bind.
  - replace (children_text txt sep last (x :: y :: l)) with (txt x ++ sep ++ children_text txt sep last (y :: l)).
    + apply prints_bind; [done|]. by apply prints_bind.
    + unfold children_text. change (map txt (x :: y :: l)) with (txt x :: txt y :: map txt l). cbn [map join].
      by rewrite <- !app_assoc.
Qed.

Lemma emits_value v : printable v -> emits (fun sb => emit_value malloc sb v) (render v).
Proof.
  induction v as [|b|s|d|els IH|ms IH] using tree_ind; intros Hp; inversion Hp as [| |? Hwf|? Hd|? Hels|? Hms]; subst;
    cbn [emit_value render].
  - apply emits_puts. by repeat constructor.
  - destruct b; apply emits_puts; by repeat constructor.
  - by apply emits_string.
  - by apply emits_number.
  - change (91 :: join [44] (map render els) ++ [93]) with ([91] ++ join [44] (map render els) ++ [93]).
    apply prints_bind; [apply emits_putc|]. apply prints_bind; [|apply emits_putc].
    replace (join [44] (map render els)) with (children_text render [44] [] els)
      by (destruct els; [done | apply app_nil_r]).
    apply (emits_children _ (fun e sb => emit_value malloc sb e)
      (fun next sb => match next with [] => Some sb | _ => sb_putc malloc sb 44 end)); [done | done | | apply emits_nothing | intros; apply emits_putc].
    apply Forall_forall. intros e He. rewrite Forall_forall in IH, Hels. auto.
  - change (123 :: join [44] (map (fun kv => quote kv.1 ++ 58 :: render kv.2) ms) ++ [125]) with
      ([123] ++ join [44] (map (fun kv => quote kv.1 ++ 58 :: render kv.2) ms) ++ [125]).
    apply prints_bind; [apply emits_putc|]. apply prints_bind; [|apply emits_putc].
    replace (join [44] (map (fun kv => quote kv.1 ++ 58 :: render kv.2) ms)) with
      (children_text (fun kv => quote kv.1 ++ 58 :: render kv.2) [44] [] ms) by (destruct ms; [done | apply app_nil_r]).
    apply (emits_children _ (fun kv sb => sb ← emit_string malloc sb (kv.1 ++ [0]); sb ← sb_putc malloc sb 58; emit_value malloc sb kv.2)
      (fun next sb => match next with [] => Some sb | _ => sb_putc malloc sb 44 end)); [done | | | apply emits_nothing | intros; apply emits_putc].
    + intros [k e] next sb. cbn [fst snd]. destruct (emit_string malloc sb (k ++ [0])); [|done]. cbn [mbind option_bind].
      by destruct (sb_putc malloc s 58).
    + apply Forall_forall. intros [k e] He. rewrite Forall_forall in IH, Hms. destruct (Hms _ He) as [Hk Hpe].
      change (58 :: render (k, e).2) with ([58] ++ render e).
      apply prints_bind; [by apply emits_string|]. apply prints_bind; [apply emits_putc | apply (IH _ He Hpe)].
Qed.

(** The loops of the indented printers, named. *)
Definition elements_indented (space : list Z) (level : Z) := fix go (els : list JsonNode) (out : SB) : option SB :=
  match els with
  | [] => Some out
  | element :: next =>
      out ← indent malloc out space (level + 1);
      out ← emit_value_indented malloc out element space (level + 1);
      out ← puts malloc out (match next with [] => [10] | _ => [44; 10] end);
      go next out
  end.

Definition members_indented (space : list Z) (level : Z) := fix go (members : list (list Z * JsonNode)) (out : SB) : option SB :=
  match members with
  | [] => Some out
  | (key, member) :: next =>
      out ← indent malloc out space (level + 1);
      out ← emit_string malloc out (key ++ [0]);
      out ← puts malloc out (lit ": ");
      out ← emit_value_indented malloc out member space (level + 1);
      out ← puts malloc out (match next with [] => [10] | _ => [44; 10] end);
      go next out
  end.

Lemma emit_indented_array out space level e els :
  emit_value_indented malloc out (JArray (e :: els)) space level =
  (out ← puts malloc out (lit "[" ++ [10]); out ← elements_indented space level (e :: els) out;
   out ← indent malloc out space level; sb_putc malloc out 93).
Proof. reflexivity. Qed.

Lemma emit_indented_object out space level m ms :
  emit_value_indented malloc out (JObject (m :: ms)) space level =
  (out ← puts malloc out (lit "{" ++ [10]); out ← members_indented space level (m :: ms) out;
   out ← indent malloc out space level; sb_putc malloc out 125).
Proof. reflexivity. Qed.

Lemma emits_elements_indented space level e els :
  is_cstr space -> Forall (fun v => emits (fun sb => emit_value_indented malloc sb v space (level + 1)) (render_indented space (level + 1) v)) (e :: els) ->
  emits (fun sb => emit_value_indented malloc sb (JArray (e :: els)) space level) (render_indented space level (JArray (e :: els))).
Proof.
  intros Hsp HF. set (txt := fun e => margin space (level + 1) ++ render_indented space (level + 1) e).
  replace (render_indented space level (JArray (e :: els))) with
    ((lit "[" ++ [10]) ++ children_text txt [44; 10] [10] (e :: els) ++ margin space level ++ [93])
    by (unfold children_text; by rewrite <- !app_assoc).
  apply (emits_ext (fun out => out ← puts malloc out (lit "[" ++ [10]); out ← elements_indented space level (e :: els) out;
    out ← indent malloc out space level; sb_putc malloc out 93)); [intros; by rewrite emit_indented_array|].
  apply (prints_bind _ (fun out => out ← elements_indented space level (e :: els) out; out ← indent malloc out space level; sb_putc malloc out 93));
    [apply emits_puts; by repeat constructor|]. apply prints_bind; [|apply prints_bind; [by apply emits_indent | apply emits_putc]].
  apply (emits_children _ (fun e sb => sb ← indent malloc sb space (level + 1); emit_value_indented malloc sb e space (level + 1))
    (fun next sb => puts malloc sb (match next with [] => [10] | _ => [44; 10] end)));
    [done | | | apply emits_puts; by repeat constructor | intros; apply emits_puts; by repeat constructor].
  - intros x next sb. unfold elements_indented. by destruct (indent malloc sb space (level + 1)).
  - apply (Forall_impl _ _ _ HF). intros x Hx. apply prints_bind; [by apply emits_indent | exact Hx].
Qed.

Lemma emits_members_indented space level m ms :
  is_cstr space -> Forall (fun kv => well_formed kv.1 /\
    emits (fun sb => emit_value_indented malloc sb kv.2 space (level + 1)) (render_indented space (level + 1) kv.2)) (m :: ms) ->
  emits (fun sb => emit_value_indented malloc sb (JObject (m :: ms)) space level) (render_indented space level (JObject (m :: ms))).
Proof.
  intros Hsp HF.
  set (txt := fun kv : list Z * JsonNode => margin space (level + 1) ++ quote kv.1 ++ 58 :: 32 :: render_indented space (level + 1) kv.2).
  replace (render_indented space level (JObject (m :: ms))) with
    ((lit "{" ++ [10]) ++ children_text txt [44; 10] [10] (m :: ms) ++ margin space level ++ [125])
    by (unfold children_text; by rewrite <- !app_assoc).
  apply (emits_ext (fun out => out ← puts malloc out (lit "{" ++ [10]); out ← members_indented space level (m :: ms) out;
    out ← indent malloc out space level; sb_putc malloc out 125)); [intros; by rewrite emit_indented_object|].
  apply (prints_bind _ (fun out => out ← members_indented space level (m :: ms) out; out ← indent malloc out space level; sb_putc malloc out 125));
    [apply emits_puts; by repeat constructor|]. apply prints_bind; [|apply prints_bind; [by apply emits_indent | apply emits_putc]].
  apply (emits_children _ (fun kv sb => sb ← indent malloc sb space (level + 1); sb ← emit_string malloc sb (kv.1 ++ [0]);
      sb ← puts malloc sb (lit ": "); emit_value_indented malloc sb kv.2 space (level + 1))
    (fun next sb => puts malloc sb (match next with [] => [10] | _ => [44; 10] end)));
    [done | | | apply emits_puts; by repeat constructor | intros; apply emits_puts; by repeat constructor].
  - intros [k e] next sb. unfold members_indented. cbn [fst snd]. destruct (indent malloc sb space (level + 1)) as [sb1|]; [|done].
    cbn [mbind option_bind]. destruct (emit_string malloc sb1 (k ++ [0])) as [sb2|]; [|done]. cbn [mbind option_bind].
    by destruct (puts malloc sb2 (lit ": ")).
  - apply (Forall_impl _ _ _ HF). intros [k e] [Hk He]. unfold txt. cbn [fst snd] in *.
    apply prints_bind; [by apply emits_indent|]. apply prints_bind; [by apply emits_string|].
    apply (prints_bind _ _ (lit ": ")); [apply emits_puts; by repeat constructor | exact He].
Qed.

Lemma emits_value_indented space v : is_cstr space -> forall level, printable v ->
  emits (fun sb => emit_value_indented malloc sb v space level) (render_indented space level v).
Proof.
  intros Hsp. induction v as [|b|s|d|els IH|ms IH] using tree_ind; intros level Hp;
    inversion Hp as [| |? Hwf|? Hd|? Hels|? Hms]; subst.
  - apply emits_puts. by repeat constructor.
  - destruct b; apply emits_puts; by repeat constructor.
  - by apply emits_string.
  - by apply emits_number.
  - destruct els as [|e els]; [apply emits_puts; by repeat constructor|]. apply emits_elements_indented; [done|].
    apply Forall_forall. intros x Hx. rewrite Forall_forall in IH, Hels. auto.
  - destruct ms as [|m ms]; [apply emits_puts; by repeat constructor|]. apply emits_members_indented; [done|].
    apply Forall_forall. intros x Hx. rewrite Forall_forall in IH, Hms. destruct (Hms _ Hx). auto.
Qed.

End in_memory.

(** ** The rendered text is in the grammar *)

Lemma num_of_dec n : 0 <= n -> num_of (dec n) = n.
Proof.
  intros Hn. destruct (dec_spec n Hn) as (_ & HD & _ & _ & H). specialize (H [] 0 0).
  pose proof (digits_forall (dec n) [] 0 0) as H2. rewrite H in H2. cbn [digits] in H2.
  assert (Hd : Forall digit (dec n)) by by apply (Forall_impl _ _ _ HD).
  specialize (H2 Hd). injection H2 as H3. unfold num_of. lia.
Qed.

Lemma number_text_int z : number_text (fmt_d z) (double_of_Z z).
Proof.
  assert (Hint : forall n, 0 <= n -> int_text (dec n)).
  { intros n Hn. destruct (dec_spec n Hn) as (Hne & HD & Hh & H0 & _). destruct (Z.eq_dec n 0) as [E | E]; [left; auto|].
    right. split; [split; [done | by apply (Forall_impl _ _ _ HD)] | apply Hh; lia]. }
  assert (Hof : forall neg n, 0 <= n -> (n = 0 -> neg = false) -> of_decimal neg n 0 = double_of_Z (signed neg n)).
  { intros neg n Hn H0. unfold of_decimal. destruct (Z.eqb_spec n 0) as [-> | Hne]; [by rewrite H0|].
    change (0 <=? 0) with true. change (10 ^ 0) with 1. rewrite Z.mul_1_r. unfold double_of_Z, signed.
    destruct neg, n; done || lia. }
  unfold fmt_d. destruct (Z.ltb_spec z 0).
  - exists [45], (dec (- z)), [], [], [], 0. split; [by rewrite !app_nil_r|]. split; [by right|]. split; [apply Hint; lia|].
    split; [by left|]. split; [by left|]. rewrite app_nil_r, num_of_dec by lia.
    rewrite (bool_decide_eq_true_2 _ eq_refl). rewrite Hof by lia. f_equal. cbn [signed]. lia.
  - exists [], (dec z), [], [], [], 0. split; [by rewrite !app_nil_r|]. split; [by left|]. split; [apply Hint; lia|].
    split; [by left|]. split; [by left|]. rewrite app_nil_r, num_of_dec by lia.
    rewrite bool_decide_eq_false_2 by done. by rewrite Hof by lia.
Qed.

Lemma number_out_int z : -2147483648 <= z <= 2147483647 ->
  number_out (double_of_Z z) = fmt_d z /\ is_Some (number_buf (double_of_Z z)).
Proof.
  intros Hz. destruct (double_of_Z_exact z Hz) as [Hi Hf]. unfold number_out, number_buf.
  destruct (modf (double_of_Z z)) as [i f]. cbn [snd] in Hf. rewrite Hf, Hi. cbn [mbind option_bind].
  unfold number_is_valid. rewrite (parse_number_accepts false _ _ [0] (number_text_int z)) by done. cbn. by split; [|eexists].
Qed.

Lemma write_hex16_hex4 v : 0 <= v < 65536 -> hex4 (write_hex16 v) v.
Proof.
  intros Hv. rewrite write_hex16_parts by done. split; [done|].
  exists [v / 4096; v / 256 mod 16; v / 16 mod 16; v mod 16]. split.
  - repeat constructor; apply hex_digit_char; lia_mod.
  - cbn [foldl]. lia_mod.
Qed.

Lemma escape_char_text u : scalar u -> u <> 0 -> u <> 31 -> char_text (escape (utf8_write_char u)) (utf8_write_char u).
Proof.
  intros Hu H0 H31. rewrite escape_char by done. destruct (Z.leb_spec u 127); [|constructor; [done | lia..]].
  assert (Ew : utf8_write_char u = [u]) by (rewrite write_char_div by (unfold scalar in Hu; lia); by replace (u <=? 127) with true by lia).
  unfold esc_byte.
  repeat match goal with |- context [if u =? ?k then _ else _] =>
    destruct (Z.eqb_spec u k) as [-> | ?]; [apply ct_escape; unfold escapes; set_solver|] end.
  destruct (Z.ltb_spec u 31).
  - apply ct_unicode; [apply write_hex16_hex4; unfold scalar in Hu; lia | done | lia].
  - rewrite <- Ew at 1. constructor; [done | lia..].
Qed.

Lemma quote_text s : well_formed s -> 31 ∉ s -> string_text (quote s) s.
Proof.
  intros (us & Hus & ->) H31. exists (escape (text us)). split; [done|].
  induction Hus as [|u us [Hu H0] Hus IH]; [constructor|].
  change (text (u :: us)) with (utf8_write_char u ++ text us) in *. rewrite escape_app. apply not_elem_of_app in H31 as [H1 H2].
  constructor; [|by apply IH]. apply escape_char_text; [done | done|]. intros ->. apply H1. vm_compute. constructor.
Qed.

Lemma elements_of (txt : JsonNode -> list Z) w1 w2 els :
  els <> [] -> ws w1 -> ws w2 -> Forall (fun v => exists w t, txt v = w ++ t /\ ws w /\ value_text t v) els ->
  exists w t, join (44 :: w1) (map txt els) ++ w2 ++ [93] = w ++ t /\ ws w /\ elements_text t els.
Proof.
  intros Hne Hw1 Hw2 HF. induction HF as [|v els (w & t & E & Hw & Ht) HF IH]; [done|]. cbn [map].
  destruct els as [|v2 els].
  - exists w, (t ++ w2 ++ [93]). cbn [map join]. rewrite E, <- app_assoc. split; [done|]. split; [done|]. by constructor.
  - destruct IH as (w' & t' & E' & Hw' & Ht'); [done|]. exists w, (t ++ [] ++ 44 :: (w1 ++ w') ++ t').
    split; [|split; [done|]].
    + cbn [map join] in E' |- *. rewrite E. rewrite <- !app_assoc. cbn [app]. rewrite <- E'. by rewrite <- ?app_assoc.
    + constructor; [done | constructor | by apply Forall_app | done].
Qed.

Lemma members_of (txt : list Z * JsonNode -> list Z) w1 w2 ms :
  ms <> [] -> ws w1 -> ws w2 ->
  Forall (fun kv => exists w k w' t, txt kv = w ++ k ++ 58 :: w' ++ t /\ ws w /\ ws w' /\ string_text k kv.1 /\ value_text t kv.2) ms ->
  exists w t, join (44 :: w1) (map txt ms) ++ w2 ++ [125] = w ++ t /\ ws w /\ members_text t ms.
Proof.
  intros Hne Hw1 Hw2 HF. induction HF as [|[key v] ms (w & k & w3 & t & E & Hw & Hw3 & Hk & Ht) HF IH]; [done|]. cbn [map].
  cbn [fst snd] in *. destruct ms as [|m2 ms].
  - exists w, (k ++ [] ++ 58 :: w3 ++ t ++ w2 ++ [125]). cbn [map join]. rewrite E, <- !app_assoc. cbn [app]. rewrite <- app_assoc.
    split; [done|]. split; [done|]. by apply (mt_last k key [] w3 t w2 v); [|constructor|..].
  - destruct IH as (w' & t' & E' & Hw' & Ht'); [done|].
    exists w, (k ++ [] ++ 58 :: w3 ++ t ++ [] ++ 44 :: (w1 ++ w') ++ t').
    split; [|split; [done|]].
    + cbn [map join] in E' |- *. rewrite E. rewrite <- !app_assoc. cbn [app]. rewrite <- !app_assoc. cbn [app].
      rewrite <- E'. by rewrite <- ?app_assoc.
    + apply (mt_cons k key [] w3 t [] (w1 ++ w')); [done | constructor | done | done | constructor | by apply Forall_app | done].
Qed.

Lemma readable_printable v : readable v -> printable v.
Proof.
  induction v as [|b|s|d|els IH|ms IH] using tree_ind; intros Hr; inversion Hr as [| |? Hw H31|? Hz|? Hels|? Hms]; subst;
    constructor; try done.
  - by apply number_out_int.
  - apply Forall_forall. intros x Hx. rewrite Forall_forall in IH, Hels. auto.
  - apply Forall_forall. intros x Hx. rewrite Forall_forall in IH, Hms. destruct (Hms _ Hx) as [[] ?]. auto.
Qed.

Lemma render_text v : readable v -> value_text (render v) v.
Proof.
  induction v as [|b|s|d|els IH|ms IH] using tree_ind; intros Hr; inversion Hr as [| |? Hw H31|? Hz|? Hels|? Hms]; subst; cbn [render].
  - constructor.
  - destruct b; constructor.
  - constructor. by apply quote_text.
  - constructor. rewrite (proj1 (number_out_int z Hz)). apply number_text_int.
  - destruct els as [|e els]; [by apply (vt_array_nil []); constructor|].
    destruct (elements_of render [] [] (e :: els)) as (w & t & E & Hw & Ht); [done | constructor | constructor | |].
    + apply Forall_forall. intros x Hx. rewrite Forall_forall in IH, Hels. exists [], (render x).
      split; [done|]. split; [constructor | auto].
    + change (join [44] (map render (e :: els)) ++ [93]) with (join [44] (map render (e :: els)) ++ [] ++ [93]).
      rewrite E. by apply vt_array.
  - destruct ms as [|m ms]; [by apply (vt_object_nil []); constructor|].
    destruct (members_of (fun kv => quote kv.1 ++ 58 :: render kv.2) [] [] (m :: ms)) as (w & t & E & Hw & Ht);
      [done | constructor | constructor | |].
    + apply Forall_forall. intros x Hx. rewrite Forall_forall in IH, Hms. destruct (Hms _ Hx) as [[Hwf H31] Hrx].
      exists [], (quote x.1), [], (render x.2). split; [done|]. split; [constructor|]. split; [constructor|].
      split; [by apply quote_text | auto].
    + change (join [44] (map (fun kv => quote kv.1 ++ 58 :: render kv.2) (m :: ms)) ++ [125]) with
        (join [44] (map (fun kv => quote kv.1 ++ 58 :: render kv.2) (m :: ms)) ++ [] ++ [125]).
      rewrite E. by apply vt_object.
Qed.

Lemma margin_ws space n : ws space -> ws (margin space n).
Proof. intros Hs. unfold margin. induction (Z.to_nat n); cbn; [constructor | by apply Forall_app]. Qed.

Lemma render_indented_text space v : ws space -> readable v -> forall level, value_text (render_indented space level v) v.
Proof.
  intros Hsp. assert (H10 : forall w, ws w -> ws (10 :: w)) by by constructor.
  induction v as [|b|s|d|els IH|ms IH] using tree_ind; intros Hr level;
    try (apply (render_text _ Hr)); inversion Hr as [| | | |? Hels|? Hms]; subst.
  - destruct els as [|e els]; [by apply (vt_array_nil []); constructor|].
    set (txt := fun e => margin space (level + 1) ++ render_indented space (level + 1) e).
    destruct (elements_of txt [10] (10 :: margin space level) (e :: els)) as (w & t & E & Hw & Ht);
      [done | by apply H10; constructor | by apply H10, margin_ws | |].
    + apply Forall_forall. intros x Hx. rewrite Forall_forall in IH, Hels. eexists _, _. split; [reflexivity|].
      split; [by apply margin_ws | by apply IH; auto].
    + change (value_text (91 :: 10 :: (join [44; 10] (map txt (e :: els)) ++ (10 :: margin space level) ++ [93])) (JArray (e :: els))).
      rewrite E. apply (vt_array (10 :: w)); [by apply H10 | done].
  - destruct ms as [|m ms]; [by apply (vt_object_nil []); constructor|].
    set (txt := fun kv : list Z * JsonNode => margin space (level + 1) ++ quote kv.1 ++ 58 :: 32 :: render_indented space (level + 1) kv.2).
    destruct (members_of txt [10] (10 :: margin space level) (m :: ms)) as (w & t & E & Hw & Ht);
      [done | by apply H10; constructor | by apply H10, margin_ws | |].
    + apply Forall_forall. intros x Hx. rewrite Forall_forall in IH, Hms. destruct (Hms _ Hx) as [[Hwf H31] Hrx].
      exists (margin space (level + 1)), (quote x.1), [32], (render_indented space (level + 1) x.2).
      split; [done|]. split; [by apply margin_ws|]. split; [by repeat constructor|].
      split; [by apply quote_text | by apply IH; auto].
    + change (value_text (123 :: 10 :: (join [44; 10] (map txt (m :: ms)) ++ (10 :: margin space level) ++ [125])) (JObject (m :: ms))).
      rewrite E. apply (vt_object (10 :: w)); [by apply H10 | done].
Qed.

(** ** The rendered text is a C string *)

Lemma esc_byte_cstr b : 1 <= b < 256 -> is_cstr (esc_byte b).
Proof.
  intros Hb. assert (H : (b =? 0) || forallb (fun c => (1 <=? c) && (c <? 256)) (esc_byte b) = true).
  { apply (forall_range (fun b => (b =? 0) || forallb (fun c => (1 <=? c) && (c <? 256)) (esc_byte b)) 256);
      [by vm_compute | lia]. }
  replace (b =? 0) with false in H by lia. apply Forall_forall. intros c Hc.
  apply (proj1 (forallb_forall _ _)) with (x := c) in H; [lia | by apply list_elem_of_In].
Qed.

Lemma quote_cstr s : is_cstr s -> is_cstr (quote s).
Proof.
  intros Hs. constructor; [lia|]. apply Forall_app. split; [|by repeat constructor].
  induction Hs as [|b s Hb Hs IH]; [constructor|]. apply Forall_app. split; [by apply esc_byte_cstr | done].
Qed.

Lemma join_cons sep x l : join sep (x :: l) = x ++ match l with [] => [] | _ => sep ++ join sep l end.
Proof. destruct l; cbn; [by rewrite app_nil_r | done]. Qed.

Lemma join_cstr sep l : is_cstr sep -> Forall is_cstr l -> is_cstr (join sep l).
Proof.
  intros Hsep Hl. induction Hl as [|x l Hx Hl IH]; [constructor|]. rewrite join_cons. apply Forall_app. split; [done|].
  destruct l; [constructor|]. by apply Forall_app.
Qed.

Lemma number_out_cstr d : is_cstr (number_out d).
Proof.
  unfold number_out. destruct (number_buf d) as [buf|] eqn:E; [|constructor]. apply number_buf_cstr in E.
  destruct (number_is_valid (buf ++ [0])) as [[]|]; [done | by repeat constructor..].
Qed.

Lemma well_formed_cstr s : well_formed s -> is_cstr s.
Proof. intros (us & Hus & ->). by apply text_cstr. Qed.

Lemma render_cstr v : printable v -> is_cstr (render v).
Proof.
  assert (Hc : forall c d l, 1 <= c < 256 -> 1 <= d < 256 -> is_cstr l -> is_cstr (c :: l ++ [d])).
  { intros c d l Hc Hd Hl. constructor; [done|]. apply Forall_app. split; [done | by repeat constructor; lia]. }
  induction v as [|b|s|d|els IH|ms IH] using tree_ind; intros Hp; inversion Hp as [| |? Hwf|? Hd|? Hels|? Hms]; subst; cbn [render].
  - by repeat constructor.
  - by destruct b; repeat constructor.
  - by apply quote_cstr, well_formed_cstr.
  - apply number_out_cstr.
  - apply Hc; [lia.. |]. apply join_cstr; [by repeat constructor|]. apply Forall_forall. intros x (e & -> & He)%list_elem_of_fmap.
    rewrite Forall_forall in IH, Hels. auto.
  - apply Hc; [lia.. |]. apply join_cstr; [by repeat constructor|]. apply Forall_forall. intros x (e & -> & He)%list_elem_of_fmap.
    rewrite Forall_forall in IH, Hms. destruct (Hms _ He). apply Forall_app. split; [by apply quote_cstr, well_formed_cstr|].
    constructor; [lia | by apply (IH e He)].
Qed.

Lemma margin_cstr space n : is_cstr space -> is_cstr (margin space n).
Proof. intros Hs. unfold margin. induction (Z.to_nat n); cbn; [constructor | by apply Forall_app]. Qed.

Lemma render_indented_cstr space v : is_cstr space -> printable v -> forall level, is_cstr (render_indented space level v).
Proof.
  intros Hsp. assert (Hc : forall c d l level, 1 <= c < 256 -> 1 <= d < 256 -> Forall is_cstr l ->
    is_cstr (c :: 10 :: join [44; 10] l ++ 10 :: margin space level ++ [d])).
  { intros c d l level Hc Hd Hl. constructor; [done|]. constructor; [lia|]. apply Forall_app.
    split; [apply join_cstr; [by repeat constructor | done]|]. constructor; [lia|]. apply Forall_app.
    split; [by apply margin_cstr | by repeat constructor; lia]. }
  induction v as [|b|s|d|els IH|ms IH] using tree_ind; intros Hp level; try (apply (render_cstr _ Hp));
    inversion Hp as [| | | |? Hels|? Hms]; subst.
  - destruct els as [|e els]; [by repeat constructor|]. apply Hc; [lia..|]. apply Forall_forall.
    intros x (y & -> & Hy)%list_elem_of_fmap. rewrite Forall_forall in IH, Hels. apply Forall_app.
    split; [by apply margin_cstr | by apply (IH y Hy); auto].
  - destruct ms as [|m ms]; [by repeat constructor|]. apply Hc; [lia..|]. apply Forall_forall.
    intros x (y & -> & Hy)%list_elem_of_fmap. rewrite Forall_forall in IH, Hms. destruct (Hms _ Hy).
    apply Forall_app. split; [by apply margin_cstr|]. apply Forall_app. split; [by apply quote_cstr, well_formed_cstr|].
    constructor; [lia|]. constructor; [lia | by apply (IH y Hy)].
Qed.

(** ** Properties *)

Definition rendered (space : option (list Z)) (v : JsonNode) : list Z :=
  match space with Some space => render_indented space 0 v | None => render v end.

Lemma stringify_rendered malloc M space v :
  SbMalloc malloc M -> printable v -> (forall sp, space = Some sp -> is_cstr sp) -> zlen (rendered space v) + 13 <= M ->
  json_stringify malloc v space = Some (Some (rendered space v)).
Proof.
  intros Hm Hp Hsp HM. unfold json_stringify. destruct (sb_init_holds malloc M sb_null) as (sb & -> & Hh).
  change (0 <? 0) with false. cbn match.
  assert (Hemit : exists sb', match space with Some space => emit_value_indented malloc sb v space 0 | None => emit_value malloc sb v end
      = Some sb' /\ holds M sb' (rendered space v)).
  { destruct space as [sp|]; cbn [rendered] in *.
    - apply (emits_value_indented malloc M Hm sp v (Hsp sp eq_refl) 0 Hp sb [] Hh). rewrite zlen_nil. lia.
    - apply (emits_value malloc M Hm v Hp sb [] Hh). rewrite zlen_nil. lia. }
  destruct Hemit as (sb' & -> & Hh'). cbn [mbind option_bind]. unfold finish.
  destruct (sb_finish_holds M sb' _ Hh') as (rest & sb2 & ->). cbn [mbind option_bind].
  rewrite c_text_cstr; [done|]. destruct space as [sp|]; cbn [rendered].
  - apply render_indented_cstr; auto.
  - by apply render_cstr.
Qed.

(** [json_encode] and [json_stringify] write exactly the rendered text of a
    tree, for every tree without NULL strings whose texts are UTF-8 and whose
    numbers are fractions or fit an int: no write leaves the buffer, whatever its
    growth, given memory for the text and 13 bytes more. *)
Theorem json_stringify_spec malloc M space v :
  SbMalloc malloc M -> printable v -> (forall sp, space = Some sp -> is_cstr sp) -> zlen (rendered space v) + 13 <= M ->
  json_stringify malloc v space = Some (Some (rendered space v)).
Proof. apply stringify_rendered. Qed.

Definition sample_tree : JsonNode :=
  JObject [(lit "hid", JString (Some (34 :: 10 :: [195; 169] ++ lit "x"))); ([], JArray [JNumber (double_of_Z (-12)); JNull; JBool true])].

Lemma sample_readable : readable sample_tree.
Proof.
  assert (Hchars : chars [34; 10; 233; 120] /\ chars [104; 105; 100] /\ chars []) by (split; [|split]; repeat constructor; unfold scalar; lia).
  destruct Hchars as (H1 & H2 & H3). constructor. constructor; [|constructor; [|constructor]]; cbn [fst snd]; split; [split| |split|].
  - by exists [104; 105; 100].
  - by apply (bool_decide_unpack _).
  - constructor; [by exists [34; 10; 233; 120] | by apply (bool_decide_unpack _)].
  - by exists [].
  - by apply (bool_decide_unpack _).
  - constructor. constructor; [by apply r_number|]. constructor; [constructor|]. constructor; [constructor | constructor].
Defined.

Lemma json_stringify_spec_witness :
  json_stringify test_malloc sample_tree (Some [32]) = Some (Some (render_indented [32] 0 sample_tree)).
Proof.
  apply (json_stringify_spec test_malloc 200 (Some [32])); [apply test_malloc_ok; unfold INT_MAX; lia |
    apply readable_printable, sample_readable | intros sp [= <-]; by repeat constructor | by vm_compute].
Defined.

(** C29. Round trip: a tree whose texts are UTF-8 without byte 31 (which is not
    read back, [encode_31]) and whose numbers are ints is read back by
    [json_decode] from what [json_encode] wrote, and from what [json_stringify]
    wrote with white space for indentation. *)
Theorem json_roundtrip malloc M space v :
  SbMalloc malloc M -> readable v -> (forall sp, space = Some sp -> ws sp) -> zlen (rendered space v) + 13 <= M ->
  exists t, json_stringify malloc v space = Some (Some t) /\ json_decode malloc (t ++ [0]) = Some (Some v) /\
    json_validate malloc (t ++ [0]) = Some true.
Proof.
  intros Hm Hr Hsp HM. pose proof (readable_printable v Hr) as Hp. exists (rendered space v).
  assert (Hcs : forall sp, space = Some sp -> is_cstr sp).
  { intros sp E. apply (Forall_impl _ _ _ (Hsp sp E)). intros c Hc. unfold is_space in Hc. lia. }
  assert (Ht : value_text (rendered space v) v).
  { destruct space as [sp|]; cbn [rendered]; [apply render_indented_text; auto | by apply render_text]. }
  assert (Hc : is_cstr (rendered space v)).
  { destruct space as [sp|]; cbn [rendered]; [apply render_indented_cstr; auto | by apply render_cstr]. }
  assert (Hj : json_text (rendered space v) v).
  { exists [], (rendered space v), []. split; [constructor|]. split; [constructor|]. by rewrite app_nil_r. }
  split; [by apply stringify_rendered with (M := M)|]. split.
  - destruct (document_accepts malloc M true (rendered space v) []) with (v := v) as (s0 & w & E0 & E1 & Hw);
      [done | intros _; split; [done | lia] | done |].
    unfold json_decode. rewrite E0. cbn [mbind option_bind]. rewrite E1. cbn [ok].
    by rewrite (skip_space_accepts w _ 0).
  - destruct (document_accepts malloc 0 false (rendered space v) []) with (v := v) as (s0 & w & E0 & E1 & Hw); [done | done | done |].
    unfold json_validate. rewrite E0. cbn [mbind option_bind]. rewrite E1. cbn [ok].
    by rewrite (skip_space_accepts w _ 0).
Qed.

Lemma json_roundtrip_witness :
  exists t, json_stringify test_malloc sample_tree None = Some (Some t) /\ json_decode test_malloc (t ++ [0]) = Some (Some sample_tree).
Proof.
  destruct (json_roundtrip test_malloc 200 None sample_tree) as (t & E & D & _); [apply test_malloc_ok; unfold INT_MAX; lia |
    exact sample_readable | intros sp [=] | by vm_compute |].
  exists t. exact (conj E D).
Defined.

End JsonEmit.
