(* ===== verification/JsonEncode.v ===== *)
(** src/src/json/encode.c: [json_size] and the machine that encodes a tree part
    by part into buffers of any size, as used to stream MQTT payloads.

    The output is a memory and an offset in it; a write outside the memory is
    [None]. A machine points to a child: a node, its key and the siblings after
    it. The list of machines that an encoding keeps, one per level of nesting,
    is the field [next]. The fields [state] and [start] are uint16_t. *)
From Stdlib Require Import SpecFloat.
From S2P Require Import Prelude Sb JsonUtf8 Double JsonParse JsonEmit.

Module JsonEncode.
Import Sb JsonUtf8 Double JsonParse JsonEmit.

(** A node with its key; [None] is an empty property. *)
Definition child : Type := option (list Z) * JsonNode.

Definition children (v : JsonNode) : list child :=
  match v with
  | JArray els => map (fun e => (None, e)) els
  | JObject ms => map (fun kv => (Some kv.1, kv.2)) ms
  | _ => []
  end.

Definition is_escape (c : Z) : bool := c =? 34.

(** The C string at the start of a memory, by its [strlen]. *)
Definition str_of (s : list Z) : list Z := s ++ [0].

Definition encoded_strlen (str : list Z) : Z :=
  foldl (fun total c => (if is_escape c then total + 1 else total) + 1) 2 str.

(** enum json_encode_states *)
Definition jem_encode_state_init : Z := 0.
Definition jem_encode_state_key : Z := 1.
Definition jem_encode_state_delim : Z := 2.
Definition jem_encode_state_value : Z := 3.

#[warnings="-register-all"]
Inductive jem := mk_jem {
  state : Z;
  jstart : Z;
  complete : bool;
  buffer : SB;
  ptr : option (child * list child);
  next : option jem;
}.

Definition with_state (j : jem) (newstate : Z) : jem := mk_jem newstate 0 false (buffer j) (ptr j) (next j).
Definition with_value (j : jem) : jem := mk_jem jem_encode_state_value (jstart j) (complete j) (buffer j) (ptr j) (next j).
Definition with_start (j : jem) (n : Z) : jem := mk_jem (state j) (u16 n) (complete j) (buffer j) (ptr j) (next j).
Definition with_complete (j : jem) (b : bool) : jem := mk_jem (state j) (jstart j) b (buffer j) (ptr j) (next j).
Definition with_buffer (j : jem) (sb : SB) : jem := mk_jem (state j) (jstart j) (complete j) sb (ptr j) (next j).
Definition with_next (j : jem) (n : option jem) : jem := mk_jem (state j) (jstart j) (complete j) (buffer j) (ptr j) n.

(** [json_encode_machine_init] with the new [ptr]. *)
Definition machine_init (p : option (child * list child)) : jem := mk_jem jem_encode_state_init 0 false sb_null p None.

Definition first_child (v : JsonNode) : option (child * list child) :=
  match children v with [] => None | c :: cs => Some (c, cs) end.

Definition json_next (p : child * list child) : option (child * list child) :=
  match p.2 with [] => None | c :: cs => Some (c, cs) end.

(** ** Strings *)

(** The variables of the loop of [jem_encode_string]; [out] is the memory,
    [pos] the offset of [buf + buf_start]. *)
Record cursor := mk_cursor { out : list Z; pos : Z; offset : Z; len : Z }.

Definition put (k : cursor) (c : Z) : option cursor :=
  m ← wr (out k) (pos k) c; Some (mk_cursor m (pos k + 1) (offset k) (len k)).
(** [offset++; len--] *)
Definition advance (k : cursor) : cursor := mk_cursor (out k) (pos k) (offset k + 1) (len k - 1).

Fixpoint string_body (fuel : nat) (s : list Z) (threash skip index : Z) (k : cursor) : option cursor :=
  match fuel with
  | O => None
  | S fuel' =>
      if negb (len k =? 0) && (offset k <? encoded_strlen s - 1) then
        if skip <? threash then
          c ← rd (str_of s) index;
          if is_escape c then
            if skip + 1 =? threash then
              k ← put k c;
              let k := advance k in
              if len k =? 0 then Some k else string_body fuel' s threash (skip + 2) (index + 1) k
            else string_body fuel' s threash (skip + 2) (index + 1) k
          else string_body fuel' s threash (skip + 1) (index + 1) k
        else
          sym ← rd (str_of s) index;
          if is_escape sym then
            k ← put k 92;
            let k := advance k in
            if len k =? 0 then Some k else
            k ← put k sym;
            string_body fuel' s threash skip (index + 1) (advance k)
          else
            k ← put k sym;
            string_body fuel' s threash skip (index + 1) (advance k)
      else Some k
  end.

(** Returns the memory and [buf_start]. *)
Definition jem_encode_string (start_ end_ : Z) (s : list Z) (offset0 : Z) (buf : list Z) (at_ n : Z) : option (list Z * Z) :=
  let k := mk_cursor buf at_ offset0 n in
  k ← (if (offset0 =? 0) && negb (n =? 0) then k ← put k start_; Some (advance k) else Some k);
  k ← (if (1 <=? offset k) && (offset k <? encoded_strlen s - 1) && negb (len k =? 0)
       then string_body (S (length s)) s (offset k - 1) 0 0 k else Some k);
  k ← (if (encoded_strlen s - 1 <=? offset k) && negb (len k =? 0) then put k end_ else Some k);
  Some (out k, pos k - at_).

(** ** The machine *)

Section with_malloc.
Context (malloc : Z -> option (list Z)).

Definition sb_contents (sb : SB) : option (list Z) := if start sb then m ← blk sb; rdn m 0 (cur sb) else None.

(** The C string buffer of a number, printed. *)
Definition number_size (d : double) : option Z :=
  let (_, t) := sb_init malloc sb_null in
  t ← emit_number malloc t d;
  s ← sb_contents t;
  Some (zlen s).

(** [property_size(&key) + 3]; the size field of the key is a uint16_t. *)
Definition key_size (key : option (list Z)) : Z :=
  match key with
  | Some k => (if u16 (zlen k) =? 0 then zlen k else u16 (zlen k)) + 3
  | None => 0
  end.

Fixpoint json_size (key : option (list Z)) (o : JsonNode) {struct o} : option Z :=
  match o with
  | JNull => Some (key_size key)
  | JString s => s ← s; Some (key_size key + encoded_strlen s)
  | JNumber d => n ← number_size d; Some (key_size key + n)
  | JBool b => Some (key_size key + if b then 4 else 5)
  | JArray els =>
      n ← (fix sizes (els : list JsonNode) : option Z :=
             match els with
             | [] => Some 0
             | e :: next => n ← json_size None e; r ← sizes next; Some (n + (match next with [] => 0 | _ => 1 end) + r)
             end) els;
      Some (key_size key + n + 2)
  | JObject members =>
      n ← (fix sizes (ms : list (list Z * JsonNode)) : option Z :=
             match ms with
             | [] => Some 0
             | (k, e) :: next => n ← json_size (Some k) e; r ← sizes next; Some (n + (match next with [] => 0 | _ => 1 end) + r)
             end) members;
      Some (key_size key + n + 2)
  end.

(** The functions below return the machine, the memory and the return value. *)
Definition result : Type := jem * list Z * Z.

Definition jem_encode_value_string (j : jem) (str : option (list Z)) (m : list Z) (s len : Z) : option result :=
  str ← str;
  '(m, r) ← jem_encode_string 34 34 str (jstart j) m s len;
  let j := with_start j (jstart j + r) in
  Some (if jstart j =? encoded_strlen str then with_complete j true else j, m, r).

(** The common end of [jem_encode_bool] and [jem_encode_number]: copy what is
    left of [text] if it is shorter than the buffer, else [len] bytes of it. *)
Definition copy_text (j : jem) (text : list Z) (m : list Z) (s len : Z) : option result :=
  let buf_size := zlen text - jstart j in
  if buf_size <? len then
    w ← rdn text (jstart j) buf_size; m ← wrn m s w; Some (with_complete j true, m, buf_size)
  else
    w ← rdn text (jstart j) len; m ← wrn m s w; Some (with_start j (jstart j + len), m, len).

Definition jem_encode_bool (j : jem) (b : bool) (m : list Z) (s len : Z) : option result :=
  copy_text j (if b then lit "true" else lit "false") m s len.

Definition jem_encode_number (j : jem) (d : double) (m : list Z) (s len : Z) : option result :=
  j ← (if sb_size (buffer j) =? 0
       then let (_, sb) := sb_init malloc (buffer j) in sb ← emit_number malloc sb d; Some (with_buffer j sb)
       else Some j);
  text ← sb_contents (buffer j);
  copy_text j text m s len.

(** What [jem_encode_value] does with the result of one of the functions above. *)
Definition finish_value (j : jem) (m : list Z) (total r : Z) : option result :=
  if r <? 0 then Some (j, m, -1) else
  if negb (complete j) then Some (j, m, total + r) else Some (with_value j, m, total + r).

(** The key is taken from the child; [start] is moved by the caller. *)
Definition jem_encode_key (j : jem) (key : list Z) (m : list Z) (s len : Z) : option result :=
  '(m, r) ← jem_encode_string 34 34 key (jstart j) m s len;
  Some (if jstart j + r =? encoded_strlen key then with_complete j true else j, m, r).

Definition key_of (j : jem) : option (list Z) := '(c, _) ← ptr j; c.1.

(** Whether to go on to the next case: the machine, the memory, the offset, the
    length and the total. *)
Definition step : Type := bool * (jem * list Z * Z * Z * Z).

(** [case jem_encode_state_init] *)
Definition encode_key_case (j : jem) (m : list Z) (s len : Z) : option step :=
  if state j =? jem_encode_state_init then
    match key_of j with
    | Some key =>
        '(j, m, r) ← jem_encode_key j key m s len;
        if complete j then
          Some (negb (len - r =? 0), (with_state j jem_encode_state_key, m, s + r, len - r, r))
        else Some (false, (with_start j (jstart j + r), m, s + r, len - r, r))
    | None => Some (true, (with_state j jem_encode_state_delim, m, s, len, 0))
    end
  else Some (true, (j, m, s, len, 0)).

(** [case jem_encode_state_key] *)
Definition encode_colon_case (j : jem) (m : list Z) (s len total : Z) : option step :=
  if (state j =? jem_encode_state_key) then
    m ← wr m s 58;
    let j := with_state j jem_encode_state_delim in
    Some (negb (len - 1 =? 0), (j, m, s + 1, len - 1, total + 1))
  else Some (true, (j, m, s, len, total)).

Definition encode_key_part (j : jem) (m : list Z) (s len : Z) : option step :=
  '(go, (j, m, s, len, total)) ← encode_key_case j m s len;
  if negb go then Some (false, (j, m, s, len, total)) else encode_colon_case j m s len total.

(** [case 2] and [case 3] of a container. *)
Definition container_close (closing : Z) (j : jem) (m : list Z) (s len total : Z) : option result :=
  '(go, (j, m, s, len, total)) ←
    (if jstart j =? 2 then m ← wr m s closing; Some (negb (len - 1 =? 0), (with_start j 3, m, s + 1, len - 1, total + 1))
     else Some (true, (j, m, s, len, total)));
  if negb go then Some (j, m, total) else
  Some (with_value (if jstart j =? 3 then with_complete j true else j), m, total).

(** Freeing the last machine of the list: [next] itself, unless it has one. *)
Definition drop_next (j : jem) (n : jem) : option jem :=
  match next n with None => Some (with_complete (with_next j None) true) | Some _ => None end.

Fixpoint jem_encode_value (fuel : nat) (j : jem) (m : list Z) (s len : Z) : option result :=
  match fuel with
  | O => None
  | S fuel' =>
      if negb ((0 <=? state j) && (state j <=? 3)) then Some (j, m, -1) else
      if state j =? jem_encode_state_value then Some (j, m, 0) else
      '((c, _)) ← ptr j;
      '(go, (j, m, s, len, total)) ← encode_key_part j m s len;
      if negb go then Some (j, m, total) else
      match c.2 with
      | JNull => Some (j, m, -1)
      | JString str => '(j, m, r) ← jem_encode_value_string j str m s len; finish_value j m total r
      | JBool b => '(j, m, r) ← jem_encode_bool j b m s len; finish_value j m total r
      | JNumber d => '(j, m, r) ← jem_encode_number j d m s len; finish_value j m total r
      | JArray _ => encode_container fuel' 91 93 j m s len total
      | JObject _ => encode_container fuel' 123 125 j m s len total
      end
  end
with encode_container (fuel : nat) (opening closing : Z) (j : jem) (m : list Z) (s len total : Z) : option result :=
  match fuel with
  | O => None
  | S fuel' =>
      (* case 0 *)
      '(go, (j, m, s, len, total)) ←
        (if jstart j =? 0 then m ← wr m s opening; Some (negb (len - 1 =? 0), (with_start j 1, m, s + 1, len - 1, total + 1))
         else Some (true, (j, m, s, len, total)));
      if negb go then Some (j, m, total) else
      (* case 1 *)
      '(go, (j, m, s, len, total)) ←
        (if jstart j =? 1 then
           '(j, m, r) ← jem_encode_obj fuel' j m s len;
           if r <? 0 then Some (false, (j, m, s, len, -1)) else
           if complete j then Some (negb (len - r =? 0), (with_complete (with_start j 2) false, m, s + r, len - r, total + r))
           else Some (false, (j, m, s + r, len - r, total + r))
         else Some (true, (j, m, s, len, total)));
      if negb go then Some (j, m, total) else
      container_close closing j m s len total
  end
with jem_encode_obj (fuel : nat) (j : jem) (m : list Z) (s len : Z) : option result :=
  match fuel with
  | O => None
  | S fuel' =>
      if len =? 0 then Some (j, m, 0) else
      let n := match next j with Some n => n | None => machine_init None end in
      n ← (match ptr n, complete n with
           | None, false => '(c, _) ← ptr j; Some (machine_init (first_child c.2))
           | _, _ => Some n
           end);
      obj_loop fuel' j n m s len 0
  end
with obj_loop (fuel : nat) (j n : jem) (m : list Z) (s len ret : Z) : option result :=
  match fuel with
  | O => None
  | S fuel' =>
      match ptr n with
      | None =>
          if complete n then j ← drop_next j n; Some (j, m, ret) else Some (with_next j (Some n), m, ret)
      | Some p =>
          if complete n && (len =? 0) then Some (with_next j (Some n), m, ret) else
          '(n, m, s, len, ret) ←
            (if complete n then m ← wr m s 44; Some (with_complete n false, m, s + 1, len - 1, ret + 1)
             else Some (n, m, s, len, ret));
          if len =? 0 then Some (with_next j (Some n), m, ret) else
          '(n, m, r) ← jem_encode_value fuel' n m s len;
          if ret <? 0 then Some (with_next j (Some n), m, -1) else
          let n := if complete n then with_complete (machine_init (json_next p)) true else n in
          obj_loop fuel' j n m (s + r) (len - r) (ret + r)
      end
  end
.

(** Number of nodes of a tree. *)
Fixpoint nodes (v : JsonNode) : nat :=
  match v with
  | JArray els => S (list_sum (map nodes els))
  | JObject ms => S (list_sum (map (fun kv => nodes kv.2) ms))
  | _ => 1
  end.

(** Four steps for each node and its place in the list of its parent. *)
Definition part_fuel (j : jem) : nat := match ptr j with Some (c, _) => 4 * nodes c.2 | None => 1 end.

Definition json_encode_init (node : JsonNode) : jem := machine_init (Some ((None, node), [])).
(** [json_encode_machine_fin]: the machines behind [next] are freed too. *)
Definition json_encode_machine_fin (j : jem) : jem :=
  mk_jem (state j) (jstart j) (complete j) (if negb (sb_size (buffer j) =? 0) then sb_free (buffer j) else buffer j) None None.
Definition json_encode_fin (j : jem) : jem := json_encode_machine_fin j.

Definition json_encode_part (j : jem) (m : list Z) (s len : Z) : option result := jem_encode_value (part_fuel j) j m s len.

End with_malloc.

(** Encoding in parts of the given sizes, one after the other in a memory. *)
Fixpoint encode_parts (malloc : Z -> option (list Z)) (j : jem) (m : list Z) (s : Z) (sizes : list Z) : option (jem * list Z * Z) :=
  match sizes with
  | [] => Some (j, m, s)
  | n :: sizes' =>
      '(j, m, r) ← json_encode_part malloc j m s n;
      if r <? 0 then None else encode_parts malloc j m (s + r) sizes'
  end.

Definition test_parts (v : JsonNode) (sizes : list Z) : option (list Z * bool) :=
  '(j, m, s) ← encode_parts test_malloc (json_encode_init v) (replicate 100 0) 0 sizes;
  Some (take (Z.to_nat s) m, complete j).

Definition test_tree : JsonNode :=
  JObject [(lit "k", JArray [JNumber (double_of_Z 12); JBool true; JString (Some (34 :: lit "a"))]); (lit "z", JObject [(lit "q", JBool false)])].
Example parts_1 : test_parts test_tree (replicate 50 1) = Some (js "{'k':[12,true,'\'a'],'z':{'q':false}}", true).
Proof. by vm_compute. Qed.
Example parts_7 : test_parts test_tree (replicate 10 7) = Some (js "{'k':[12,true,'\'a'],'z':{'q':false}}", true).
Proof. by vm_compute. Qed.
Example parts_100 : test_parts test_tree [60] = Some (js "{'k':[12,true,'\'a'],'z':{'q':false}}", true).
Proof. by vm_compute. Qed.
(** An empty array never completes: the parts after the bracket are empty. *)
Example empty_array_stuck : test_parts (JArray []) [5; 5; 5; 5] = Some (lit "[", false).
Proof. by vm_compute. Qed.
(** A null cannot be encoded. *)
Example null_rejected : json_encode_part test_malloc (json_encode_init JNull) (replicate 9 0) 0 9 =
  Some (with_state (json_encode_init JNull) jem_encode_state_delim, replicate 9 0, -1).
Proof. by vm_compute. Qed.
(** Backslashes and control characters are not escaped. *)
Example backslash_not_escaped : test_parts (JString (Some (lit "a\"))) [9] = Some (js "'a\'", true).
Proof. by vm_compute. Qed.

(** ** Strings in parts *)

Definition esc (c : Z) : list Z := if is_escape c then [92; c] else [c].
Definition body (s : list Z) : list Z := concat (map esc s).
(** The quoted text with quotation marks escaped, and only them. *)
Definition equote (s : list Z) : list Z := 34 :: body s ++ [34].

Definition takeZ {A} (n : Z) (l : list A) : list A := take (Z.to_nat n) l.
Definition dropZ {A} (n : Z) (l : list A) : list A := drop (Z.to_nat n) l.

Lemma takeZ_cons {A} n (x : A) l : 0 < n -> takeZ n (x :: l) = x :: takeZ (n - 1) l.
Proof. intros Hn. unfold takeZ. by replace (Z.to_nat n) with (S (Z.to_nat (n - 1))) by lia. Qed.
Lemma takeZ_0 {A} (l : list A) : takeZ 0 l = [].
Proof. done. Qed.
Lemma takeZ_nil {A} n : takeZ n (@nil A) = [].
Proof. apply take_nil. Qed.
Lemma dropZ_0 {A} (l : list A) : dropZ 0 l = l.
Proof. apply drop_0. Qed.
Lemma dropZ_cons {A} n (x : A) l : 0 < n -> dropZ n (x :: l) = dropZ (n - 1) l.
Proof. intros Hn. unfold dropZ. by replace (Z.to_nat n) with (S (Z.to_nat (n - 1))) by lia. Qed.
Lemma takeZ_length {A} n (l : list A) : 0 <= n -> zlen (takeZ n l) = Z.min n (zlen l).
Proof. intros Hn. unfold takeZ. zl. Qed.
Lemma dropZ_length {A} n (l : list A) : 0 <= n -> zlen (dropZ n l) = Z.max 0 (zlen l - n).
Proof. intros Hn. unfold dropZ. zl. Qed.
Lemma takeZ_all {A} n (l : list A) : zlen l <= n -> takeZ n l = l.
Proof. intros Hn. unfold takeZ. apply take_ge. zl. Qed.
Lemma dropZ_all {A} n (l : list A) : zlen l <= n -> dropZ n l = [].
Proof. intros Hn. unfold dropZ. apply drop_ge. zl. Qed.
Lemma takeZ_app {A} n (a b : list A) : 0 <= n -> takeZ n (a ++ b) = takeZ n a ++ takeZ (n - zlen a) b.
Proof. intros Hn. unfold takeZ. rewrite take_app. f_equal. f_equal. zl. Qed.
Lemma dropZ_app {A} n (a b : list A) : 0 <= n -> dropZ n (a ++ b) = dropZ n a ++ dropZ (n - zlen a) b.
Proof. intros Hn. unfold dropZ. rewrite drop_app. f_equal. f_equal. zl. Qed.
Lemma dropZ_dropZ {A} n k (l : list A) : 0 <= n -> 0 <= k -> dropZ k (dropZ n l) = dropZ (n + k) l.
Proof. intros Hn Hk. unfold dropZ. rewrite drop_drop. f_equal. lia. Qed.

Lemma encoded_strlen_equote s : encoded_strlen s = zlen (equote s).
Proof.
  unfold encoded_strlen, equote. assert (H : forall n, foldl (fun total c => (if is_escape c then total + 1 else total) + 1) n s = n + zlen (body s)).
  { induction s as [|c s IH]; intros n; cbn [foldl]; [unfold body; cbn; zl|]. rewrite IH.
    change (body (c :: s)) with (esc c ++ body s). rewrite zlen_app. unfold esc. destruct (is_escape c); zl. }
  rewrite H. zl.
Qed.

Lemma body_app a b : body (a ++ b) = body a ++ body b.
Proof. unfold body. by rewrite map_app, concat_app. Qed.

Lemma body_cons c s : body (c :: s) = esc c ++ body s.
Proof. done. Qed.

(** From [k] to [k'] the bytes [w] were written. *)
Record writes (k k' : cursor) (w : list Z) : Prop := {
  w_out : wrn (out k) (pos k) w = Some (out k');
  w_pos : pos k' = pos k + zlen w;
  w_offset : offset k' = offset k + zlen w;
  w_len : len k' = len k - zlen w;
}.

(** There is room for [len] more bytes. *)
Definition room (k : cursor) : Prop := 0 <= len k /\ 0 <= pos k /\ pos k + len k <= zlen (out k).

Lemma writes_nil k : room k -> writes k k [].
Proof. intros (? & ? & ?). split; rewrite ?zlen_nil; try lia. apply wrn_nil. lia. Qed.

Lemma writes_app k k1 k2 w1 w2 : writes k k1 w1 -> writes k1 k2 w2 -> writes k k2 (w1 ++ w2).
Proof.
  intros [Ho1 Hp1 Hf1 Hl1] [Ho2 Hp2 Hf2 Hl2]. split; rewrite ?zlen_app; try lia.
  rewrite <- (wrn_compose _ _ _ _ _ Ho1), <- Hp1. done.
Qed.

Lemma writes_room k k' w : room k -> writes k k' w -> zlen w <= len k -> room k'.
Proof.
  intros (? & ? & ?) [Ho Hp _ Hl] Hw. apply wrn_length in Ho. unfold room, zlen in *. lia.
Qed.

Lemma put_advance k c : room k -> len k <> 0 ->
  exists k1, put k c = Some k1 /\ writes k (advance k1) [c] /\ room (advance k1).
Proof.
  intros Hr Hl. pose proof Hr as (? & ? & ?). unfold put. rewrite wr_wrn.
  destruct (wrn_Some (out k) (pos k) [c]) as [m Hm]; [lia | change (zlen [c]) with 1; lia|]. rewrite Hm.
  cbn [mbind option_bind]. eexists. split; [done|].
  assert (Hw : writes k (advance (mk_cursor m (pos k + 1) (offset k) (len k))) [c]) by by split.
  split; [done|]. apply (writes_room k _ [c] Hr Hw). change (zlen [c]) with 1. lia.
Qed.

Lemma rd_str_of a c b : rd (str_of (a ++ c :: b)) (zlen a) = Some c.
Proof. unfold str_of. rewrite <- app_assoc. by apply rd_app. Qed.

Lemma string_body_emit fuel : forall s a b thr skip k,
  s = a ++ b -> thr <= skip -> offset k = 1 + zlen (body a) -> room k -> (length b < fuel)%nat ->
  exists k', string_body fuel s thr skip (zlen a) k = Some k' /\ writes k k' (takeZ (len k) (body b)).
Proof.
  induction fuel as [|fuel IH]; intros s a b thr skip k Hs Hthr Hoff Hr Hf; [lia|]. cbn [string_body].
  assert (Hel : encoded_strlen s - 1 = 1 + zlen (body a) + zlen (body b)).
  { rewrite encoded_strlen_equote, Hs. unfold equote. rewrite body_app. zl. }
  pose proof Hr as (Hl0 & _). destruct (Z.eqb_spec (len k) 0) as [E0 | E0]; cbn [negb andb].
  { exists k. rewrite E0, takeZ_0. split; [done|]. by apply writes_nil. }
  destruct b as [|c b].
  { replace (offset k <? encoded_strlen s - 1) with false by (change (zlen (body [])) with 0 in Hel; lia).
    exists k. split; [done|]. change (body []) with (@nil Z). rewrite takeZ_nil. by apply writes_nil. }
  assert (Hbpos : 1 <= zlen (esc c)) by (unfold esc; destruct (is_escape c); zl).
  rewrite body_cons, zlen_app in Hel. pose proof (zlen_nonneg (body b)).
  replace (offset k <? encoded_strlen s - 1) with true by lia. replace (skip <? thr) with false by lia.
  rewrite Hs, rd_str_of, <- Hs. cbn [mbind option_bind]. rewrite body_cons.
  assert (Hidx : zlen a + 1 = zlen (a ++ [c])) by zl. assert (Hs' : s = (a ++ [c]) ++ b) by by rewrite Hs, <- app_assoc.
  unfold esc in *. destruct (is_escape c) eqn:Ec; cbn [app].
  - destruct (put_advance k 92 Hr E0) as (k1 & -> & Hw1 & Hr1). cbn [mbind option_bind].
    pose proof (w_len _ _ _ Hw1) as Hl1. change (zlen [92]) with 1 in Hl1. rewrite takeZ_cons by lia. rewrite Hl1.
    destruct (Z.eqb_spec (len k - 1) 0) as [E1 | E1].
    { eexists. split; [done|]. by rewrite E1, takeZ_0. }
    destruct (put_advance (advance k1) c Hr1) as (k2 & -> & Hw2 & Hr2); [lia|]. cbn [mbind option_bind].
    pose proof (w_len _ _ _ Hw2) as Hl2. change (zlen [c]) with 1 in Hl2.
    destruct (IH s (a ++ [c]) b thr skip (advance k2) Hs' Hthr) as (k3 & E3 & Hw3).
    { rewrite (w_offset _ _ _ Hw2), (w_offset _ _ _ Hw1), Hoff, body_app, zlen_app. unfold body at 3. cbn [map concat].
      unfold esc. rewrite Ec. zl. } { done. } { cbn in Hf. lia. }
    rewrite Hidx, E3. eexists. split; [done|]. rewrite takeZ_cons by lia.
    apply (writes_app _ _ _ [92] _ Hw1), (writes_app _ _ _ [c] _ Hw2). by rewrite <- Hl1, <- Hl2.
  - destruct (put_advance k c Hr E0) as (k1 & -> & Hw1 & Hr1). cbn [mbind option_bind].
    pose proof (w_len _ _ _ Hw1) as Hl1. change (zlen [c]) with 1 in Hl1. rewrite takeZ_cons by lia.
    destruct (IH s (a ++ [c]) b thr skip (advance k1) Hs' Hthr) as (k3 & E3 & Hw3).
    { rewrite (w_offset _ _ _ Hw1), Hoff, body_app, zlen_app. unfold body at 3. cbn [map concat].
      unfold esc. rewrite Ec. zl. } { done. } { cbn in Hf. lia. }
    rewrite Hidx, E3. eexists. split; [done|]. apply (writes_app _ _ _ [c] _ Hw1). by rewrite <- Hl1.
Qed.

Lemma string_body_skip fuel : forall s a b thr k,
  s = a ++ b -> thr = offset k - 1 -> zlen (body a) < thr -> thr < zlen (body s) -> room k -> len k <> 0 -> (length b < fuel)%nat ->
  exists k', string_body fuel s thr (zlen (body a)) (zlen a) k = Some k' /\
    writes k k' (takeZ (len k) (dropZ (thr - zlen (body a)) (body b))).
Proof.
  induction fuel as [|fuel IH]; intros s a b thr k Hs Hthr Hlt Hin Hr Hl Hf; [lia|]. cbn [string_body].
  assert (Hel : encoded_strlen s - 1 = 1 + zlen (body s)) by (rewrite encoded_strlen_equote; unfold equote; zl).
  pose proof (zlen_nonneg (body a)). replace (len k =? 0) with false by lia. cbn [negb andb].
  replace (offset k <? encoded_strlen s - 1) with true by lia. replace (zlen (body a) <? thr) with true by lia.
  destruct b as [|c b]; [rewrite app_nil_r in Hs; subst; lia|].
  rewrite Hs, rd_str_of, <- Hs. cbn [mbind option_bind]. rewrite body_cons.
  assert (Hidx : zlen a + 1 = zlen (a ++ [c])) by zl. assert (Hs' : s = (a ++ [c]) ++ b) by by rewrite Hs, <- app_assoc.
  assert (Hbody : zlen (body (a ++ [c])) = zlen (body a) + zlen (esc c)).
  { rewrite body_app, zlen_app. unfold body at 2. cbn. by rewrite app_nil_r. }
  assert (Hgo : forall sk, sk = zlen (body a) + zlen (esc c) -> sk <= thr ->
    exists k', string_body fuel s thr sk (zlen a + 1) k = Some k' /\
      writes k k' (takeZ (len k) (dropZ (thr - zlen (body a)) (esc c ++ body b)))).
  { intros sk -> Hle. rewrite dropZ_app by lia. rewrite (dropZ_all _ (esc c)) by lia. cbn [app].
    replace (thr - zlen (body a) - zlen (esc c)) with (thr - zlen (body (a ++ [c]))) by lia. rewrite Hidx, <- Hbody.
    destruct (Z.eq_dec (zlen (body (a ++ [c]))) thr) as [Et | Et].
    - rewrite Et, Z.sub_diag, dropZ_0. destruct (string_body_emit fuel s (a ++ [c]) b thr thr k Hs') as (k' & E & Hw);
        [lia | lia | done | cbn in Hf; lia |]. by exists k'.
    - apply IH; try done; [lia | cbn in Hf; lia]. }
  unfold esc in *. destruct (is_escape c) eqn:Ec.
  2: { apply Hgo; change (zlen [c]) with 1 in *; lia. }
  change (zlen [92; c]) with 2 in *. destruct (Z.eqb_spec (zlen (body a) + 1) thr) as [Et | Et].
  2: { apply Hgo; lia. }
  replace (thr - zlen (body a)) with 1 by lia. cbn [app]. rewrite dropZ_cons by lia. rewrite Z.sub_diag, dropZ_0.
  destruct (put_advance k c Hr Hl) as (k1 & -> & Hw1 & Hr1). cbn [mbind option_bind].
  pose proof (w_len _ _ _ Hw1) as Hl1. change (zlen [c]) with 1 in Hl1. destruct Hr as (? & _). rewrite takeZ_cons by lia. rewrite Hl1.
  destruct (Z.eqb_spec (len k - 1) 0) as [E1 | E1].
  { eexists. split; [done|]. by rewrite E1, takeZ_0. }
  destruct (string_body_emit fuel s (a ++ [c]) b thr (zlen (body a) + 2) (advance k1) Hs') as (k3 & E3 & Hw3);
    [lia | rewrite (w_offset _ _ _ Hw1); change (zlen [c]) with 1; lia | done | cbn in Hf; lia |].
  rewrite Hidx, E3. eexists. split; [done|]. apply (writes_app _ _ _ [c] _ Hw1). by rewrite <- Hl1.
Qed.

(** ** The three steps of [jem_encode_string] *)

(** From [k] to [k'] the text [e] was continued. *)
Definition copied (e : list Z) (k k' : cursor) : Prop :=
  room k' /\ exists w, writes k k' w /\ takeZ (zlen w) (dropZ (offset k) e) = w.

Lemma copied_nil e k : room k -> copied e k k.
Proof. intros Hr. split; [done|]. exists []. split; [by apply writes_nil | done]. Qed.

Lemma take_drop_Z {A} n (l : list A) : takeZ n l ++ dropZ n l = l.
Proof. apply take_drop. Qed.

Lemma copied_trans e k k1 k2 : 0 <= offset k -> copied e k k1 -> copied e k1 k2 -> copied e k k2.
Proof.
  intros Ho (Hr1 & w1 & Hw1 & E1) (Hr2 & w2 & Hw2 & E2). split; [done|]. exists (w1 ++ w2).
  split; [by apply (writes_app _ k1)|]. rewrite (w_offset _ _ _ Hw1), <- dropZ_dropZ in E2 by zl.
  rewrite <- (take_drop_Z (zlen w1) (dropZ (offset k) e)), E1, takeZ_app by zl. rewrite (takeZ_all _ w1) by zl.
  f_equal. by replace (zlen (w1 ++ w2) - zlen w1) with (zlen w2) by zl.
Qed.

Lemma copied_put e k c : room k -> len k <> 0 -> takeZ 1 (dropZ (offset k) e) = [c] ->
  exists k1, put k c = Some k1 /\ copied e k (advance k1) /\ offset (advance k1) = offset k + 1.
Proof.
  intros Hr Hl E. destruct (put_advance k c Hr Hl) as (k1 & Hp & Hw & Hr1). exists k1. split; [done|].
  split; [|apply (w_offset _ _ _ Hw)]. split; [done|]. by exists [c].
Qed.

(** Either the room or the text is used up. *)
Lemma copied_all e k k' : room k -> 0 <= offset k -> copied e k k' -> len k' = 0 \/ offset k' = zlen e ->
  writes k k' (takeZ (len k) (dropZ (offset k) e)).
Proof.
  intros (Hl & _) Ho ((Hl' & _) & w & Hw & E) Hend. pose proof (w_offset _ _ _ Hw). pose proof (w_len _ _ _ Hw).
  pose proof (zlen_nonneg w). replace (takeZ (len k) (dropZ (offset k) e)) with w; [done|]. rewrite <- E at 1.
  destruct Hend as [? | ?]; [by replace (len k) with (zlen w) by lia|].
  rewrite !takeZ_all by (rewrite dropZ_length; lia). done.
Qed.

Lemma takeZ_min {A} n (a b : list A) : 0 <= n -> takeZ (Z.min n (zlen a)) (a ++ b) = takeZ n a.
Proof.
  intros Hn. pose proof (zlen_nonneg a). rewrite takeZ_app by lia. replace (takeZ (Z.min n (zlen a) - zlen a) b) with (@nil A).
  - rewrite app_nil_r. destruct (Z.le_ge_cases n (zlen a)); [by rewrite Z.min_l | rewrite Z.min_r by done; by rewrite !takeZ_all].
  - unfold takeZ. by replace (Z.to_nat (Z.min n (zlen a) - zlen a)) with O by lia.
Qed.

Lemma open_quote s k : room k -> 0 <= offset k ->
  exists k1, (if (offset k =? 0) && negb (len k =? 0) then k ← put k 34; Some (advance k) else Some k) = Some k1 /\
    copied (equote s) k k1 /\ (len k1 = 0 \/ 1 <= offset k1) /\ (offset k1 = offset k \/ offset k1 = 1).
Proof.
  intros Hr Ho. destruct (Z.eqb_spec (offset k) 0) as [E | E]; cbn [andb].
  2: { exists k. split; [done|]. split; [by apply copied_nil | lia]. }
  destruct (Z.eqb_spec (len k) 0) as [E0 | E0]; cbn [negb].
  { exists k. split; [done|]. split; [by apply copied_nil | lia]. }
  destruct (copied_put (equote s) k 34 Hr E0) as (k1 & -> & Hc & Ho1); [by rewrite E|].
  exists (advance k1). split; [done|]. split; [done|]. lia.
Qed.

Lemma inner_text s k : room k -> len k = 0 \/ 1 <= offset k -> offset k < zlen (equote s) ->
  exists k2, (if (1 <=? offset k) && (offset k <? encoded_strlen s - 1) && negb (len k =? 0)
      then string_body (S (length s)) s (offset k - 1) 0 0 k else Some k) = Some k2 /\
    copied (equote s) k k2 /\ (len k2 = 0 \/ offset k2 = zlen (equote s) - 1).
Proof.
  intros Hr H1 Hoff. assert (Heq : zlen (equote s) = 2 + zlen (body s)) by (unfold equote; zl).
  rewrite encoded_strlen_equote. pose proof (zlen_nonneg (body s)).
  destruct (Z.eqb_spec (len k) 0) as [E0 | E0]; cbn [negb].
  { rewrite andb_false_r. exists k. split; [done|]. split; [by apply copied_nil | by left]. }
  destruct H1 as [? | H1]; [done|]. rewrite andb_true_r. replace (1 <=? offset k) with true by lia. cbn [andb].
  destruct (Z.ltb_spec (offset k) (zlen (equote s) - 1)) as [Hlt | Hge].
  2: { exists k. split; [done|]. split; [by apply copied_nil | right; lia]. }
  assert (exists k2, string_body (S (length s)) s (offset k - 1) 0 0 k = Some k2 /\
    writes k k2 (takeZ (len k) (dropZ (offset k - 1) (body s)))) as (k2 & E & Hw).
  { change 0 with (zlen (@nil Z)) at 2. destruct (Z.eq_dec (offset k) 1) as [E1 | E1].
    - rewrite E1. change (dropZ (1 - 1) (body s)) with (dropZ 0 (body s)). rewrite dropZ_0.
      apply (string_body_emit _ s [] s); [done | done | by rewrite E1 | done | lia].
    - pose proof (string_body_skip (S (length s)) s [] s (offset k - 1) k) as Hs.
      change (zlen (body [])) with 0 in Hs. rewrite Z.sub_0_r in Hs. apply Hs; first [done | lia]. }
  exists k2. split; [exact E|]. destruct Hr as (Hl & Hr).
  assert (Hlen : zlen (takeZ (len k) (dropZ (offset k - 1) (body s))) = Z.min (len k) (zlen (body s) - (offset k - 1))).
  { rewrite takeZ_length, dropZ_length; lia. }
  pose proof (w_offset _ _ _ Hw). pose proof (w_len _ _ _ Hw). split; [|lia].
  split; [apply (writes_room _ _ _ (conj Hl Hr) Hw); lia|]. eexists. split; [exact Hw|]. rewrite Hlen. unfold equote.
  rewrite dropZ_cons, dropZ_app by lia. replace (zlen (body s) - (offset k - 1)) with (zlen (dropZ (offset k - 1) (body s))).
  - by apply takeZ_min.
  - rewrite dropZ_length; lia.
Qed.

Lemma last_of_quote s : dropZ (zlen (equote s) - 1) (equote s) = [34].
Proof.
  unfold equote. change (34 :: body s ++ [34]) with ((34 :: body s) ++ [34]).
  replace (zlen ((34 :: body s) ++ [34]) - 1) with (zlen (34 :: body s)) by zl. rewrite dropZ_app, dropZ_all by zl.
  by rewrite Z.sub_diag.
Qed.

Lemma close_quote s k : room k -> len k = 0 \/ offset k = zlen (equote s) - 1 ->
  exists k3 k4, (if (encoded_strlen s - 1 <=? offset k) && negb (len k =? 0) then put k 34 else Some k) = Some k3 /\
    out k4 = out k3 /\ pos k4 = pos k3 /\ copied (equote s) k k4 /\ (len k4 = 0 \/ offset k4 = zlen (equote s)).
Proof.
  intros Hr Hend. rewrite encoded_strlen_equote. destruct (Z.eqb_spec (len k) 0) as [E0 | E0]; cbn [negb].
  - rewrite andb_false_r. exists k, k. split_and!; try done; [by apply copied_nil | by left].
  - rewrite andb_true_r. replace (zlen (equote s) - 1 <=? offset k) with true by lia.
    destruct Hend as [? | Hend]; [done|].
    destruct (copied_put (equote s) k 34 Hr E0) as (k3 & -> & Hc & Ho); [by rewrite Hend, last_of_quote|].
    exists k3, (advance k3). split_and!; try done. right. lia.
Qed.

(** The part of a quoted string that fits, from any offset. *)
Lemma jem_encode_string_part s off buf at_ n :
  0 <= off < zlen (equote s) -> 0 <= n -> 0 <= at_ -> at_ + n <= zlen buf ->
  exists buf', jem_encode_string 34 34 s off buf at_ n = Some (buf', zlen (takeZ n (dropZ off (equote s)))) /\
    wrn buf at_ (takeZ n (dropZ off (equote s))) = Some buf'.
Proof.
  intros Hoff Hn Hat Hbuf. unfold jem_encode_string. set (k0 := mk_cursor buf at_ off n).
  assert (Hr0 : room k0) by done. assert (Heq : 2 <= zlen (equote s)) by (unfold equote; zl).
  destruct (open_quote s k0 Hr0) as (k1 & E1 & Hc1 & H1 & Ho1); [cbn; lia|].
  assert (0 <= offset k1 < zlen (equote s)) as [Ho1' Ho1''] by (unfold k0 in Ho1; cbn in Ho1; lia).
  unfold k0 in E1 at 1 2. cbn [offset len] in E1. rewrite E1. cbn [mbind option_bind].
  destruct (inner_text s k1) as (k2 & -> & Hc2 & H2); [apply Hc1 | done | done |]. cbn [mbind option_bind].
  destruct (close_quote s k2) as (k3 & k4 & -> & Ho4 & Hp4 & Hc4 & H4); [apply Hc2 | done |]. cbn [mbind option_bind].
  assert (Hc : copied (equote s) k0 k4).
  { apply (copied_trans _ _ k2); [cbn; lia | | done]. by apply (copied_trans _ _ k1); [cbn; lia | |]. }
  destruct (copied_all _ _ _ Hr0 (proj1 Hoff) Hc H4) as [Ho Hp _ _]. cbn [out pos offset len k0] in Ho, Hp.
  exists (out k3). rewrite <- Ho4, <- Hp4, Hp, Z.add_simpl_l. done.
Qed.

End JsonEncode.
