(* ===== verification/JsonStream.v ===== *)
(** Correctness of the encoding machine of src/src/json/encode.c (JsonEncode):
    cutting the text of a tree into parts of any sizes and writing the parts one
    after the other gives the text, [json_size] is its length, and for plain
    strings the text is the one [json_encode] prints. *)
From S2P Require Import Prelude Sb JsonUtf8 Double JsonParse JsonSpec JsonEmit JsonEncode.

Module JsonStream.
Import Sb JsonUtf8 Double JsonParse JsonSpec JsonEmit JsonEncode.

(** ** The text of a tree *)

Definition bool_text (b : bool) : list Z := if b then lit "true" else lit "false".

Fixpoint etext (v : JsonNode) : list Z :=
  match v with
  | JNull => []
  | JBool b => bool_text b
  | JString s => equote (default [] s)
  | JNumber d => number_out d
  | JArray els => 91 :: join [44] (map etext els) ++ [93]
  | JObject ms => 123 :: join [44] (map (fun kv => equote kv.1 ++ 58 :: etext kv.2) ms) ++ [125]
  end.

Definition ctext (c : child) : list Z := match c.1 with Some k => equote k ++ 58 :: etext c.2 | None => etext c.2 end.

(** Strings and keys of fewer than 65536 encoded bytes ([start] is a uint16_t),
    numbers that fit the 64 bytes of [emit_number], no nulls and no empty containers. *)
Definition short_text (s : list Z) : Prop := is_cstr s /\ zlen (equote s) < 65536.

#[warnings="-register-all"]
Inductive streamable : JsonNode -> Prop :=
  | st_bool b : streamable (JBool b)
  | st_string s : short_text s -> streamable (JString (Some s))
  | st_number d : is_Some (number_buf d) -> zlen (number_out d) < 64 -> streamable (JNumber d)
  | st_array els : els <> [] -> Forall streamable els -> streamable (JArray els)
  | st_object ms : ms <> [] -> Forall (fun kv => short_text kv.1 /\ streamable kv.2) ms -> streamable (JObject ms).

Definition child_ok (c : child) : Prop := from_option short_text True c.1 /\ streamable c.2.

Definition closing (v : JsonNode) : Z := match v with JArray _ => 93 | _ => 125 end.
Definition opening (v : JsonNode) : Z := match v with JArray _ => 91 | _ => 123 end.
Definition is_container (v : JsonNode) : bool := match v with JArray _ | JObject _ => true | _ => false end.

(** The children after the first, with their commas. *)
Definition more (cs : list child) : list Z := concat (map (fun c => 44 :: ctext c) cs).

Lemma join_more c cs : join [44] (map ctext (c :: cs)) = ctext c ++ more cs.
Proof.
  revert c. induction cs as [|c' cs IH]; intros c; [cbn; by rewrite app_nil_r|].
  change (map ctext (c :: c' :: cs)) with (ctext c :: map ctext (c' :: cs)). rewrite join_cons, IH. done.
Qed.

Lemma etext_container v : is_container v = true -> etext v = opening v :: join [44] (map ctext (children v)) ++ [closing v].
Proof. destruct v as [| | | |els|ms]; try done; intros _; cbn; by rewrite map_map. Qed.

Lemma children_ok v : streamable v -> is_container v = true -> children v <> [] /\ Forall child_ok (children v).
Proof.
  destruct v as [| | | |els|ms]; try done; intros Hs _; inversion Hs as [| | |? Hne HF|? Hne HF]; subst; cbn [children].
  - split; [by destruct els|]. apply Forall_map. apply (Forall_impl _ _ _ HF). by intros e He.
  - split; [by destruct ms|]. apply Forall_map. apply (Forall_impl _ _ _ HF). by intros e He.
Qed.

Lemma nodes_children v : is_container v = true -> nodes v = S (list_sum (map (fun c => nodes c.2) (children v))).
Proof. destruct v as [| | | |els|ms]; try done; intros _; cbn; by rewrite map_map. Qed.

Lemma nodes_pos v : (1 <= nodes v)%nat.
Proof. destruct v; cbn; lia. Qed.

(** ** What is left to write *)

Section machine.
Context (malloc : Z -> option (list Z)) (M : Z) (Hm : SbMalloc malloc M) (HM : 77 <= M).

#[warnings="-register-all"]
Inductive rep : jem -> list Z -> Prop :=
  | rep_key k v sibs off : 0 <= off < zlen (equote k) ->
      rep (mk_jem 0 off false sb_null (Some ((Some k, v), sibs)) None) (dropZ off (equote k) ++ 58 :: etext v)
  | rep_no_key v sibs : rep (mk_jem 0 0 false sb_null (Some ((None, v), sibs)) None) (etext v)
  | rep_colon c sibs : rep (mk_jem 1 0 false sb_null (Some (c, sibs)) None) (58 :: etext c.2)
  | rep_fresh c sibs : rep (mk_jem 2 0 false sb_null (Some (c, sibs)) None) (etext c.2)
  | rep_string k s sibs off : 0 <= off < zlen (equote s) ->
      rep (mk_jem 2 off false sb_null (Some ((k, JString (Some s)), sibs)) None) (dropZ off (equote s))
  | rep_bool k b sibs off : 0 <= off <= zlen (bool_text b) ->
      rep (mk_jem 2 off false sb_null (Some ((k, JBool b), sibs)) None) (dropZ off (bool_text b))
  | rep_number k d sibs off sb : holds M sb (number_out d) -> 0 <= off <= zlen (number_out d) ->
      rep (mk_jem 2 off false sb (Some ((k, JNumber d), sibs)) None) (dropZ off (number_out d))
  | rep_first k v sibs : is_container v = true ->
      rep (mk_jem 2 1 false sb_null (Some ((k, v), sibs)) None) (join [44] (map ctext (children v)) ++ [closing v])
  | rep_children k v sibs n pre c cs t : is_container v = true -> children v = pre ++ c :: cs ->
      ptr n = Some (c, cs) -> rep (with_complete n false) t ->
      rep (mk_jem 2 1 false sb_null (Some ((k, v), sibs)) (Some n))
        ((if complete n then [44] else []) ++ t ++ more cs ++ [closing v])
  | rep_close k v sibs : is_container v = true -> rep (mk_jem 2 2 false sb_null (Some ((k, v), sibs)) None) [closing v]
  | rep_end k v sibs : is_container v = true -> rep (mk_jem 2 3 false sb_null (Some ((k, v), sibs)) None) [].

(** There is room for [len] bytes at [s]. *)
Definition room_at (m : list Z) (s len : Z) : Prop := 0 <= s /\ s + len <= zlen m.

(** What a call returns that had the text [t] left and a buffer of [len] bytes
    at [s], [base] bytes having been written before: all of [t] and a machine
    that is [all], or [len] bytes and a machine with the rest left. *)
Definition part (all : jem -> Prop) (left_ : jem -> list Z -> Prop) (t : list Z) (m : list Z) (s len : Z) (r : option result) (base : Z) : Prop :=
  exists j' m', r = Some (j', m', base + Z.min len (zlen t)) /\ wrn m s (takeZ len t) = Some m' /\
    (all j' /\ zlen t <= len \/ left_ j' (dropZ len t) /\ len <= zlen t).

(** The machine of a value: complete, or still at the same child. *)
Definition finished (j' : jem) : Prop := complete j' = true /\ state j' = jem_encode_state_value.
Definition left_at (p : option (child * list child)) (j' : jem) (t : list Z) : Prop :=
  complete j' = false /\ ptr j' = p /\ rep j' t.
Definition wrote (p : option (child * list child)) : list Z -> list Z -> Z -> Z -> option result -> Z -> Prop := part finished (left_at p).

Lemma takeZ_at {A} (w t : list A) n : n = zlen w -> takeZ n (w ++ t) = w.
Proof. intros ->. by apply take_app_zlen. Qed.
Lemma dropZ_at {A} (w t : list A) n : n = zlen w -> dropZ n (w ++ t) = t.
Proof. intros ->. by apply drop_app_zlen. Qed.
Lemma takeZ_over {A} (w t : list A) n : zlen w <= n -> takeZ n (w ++ t) = w ++ takeZ (n - zlen w) t.
Proof. intros Hn. pose proof (zlen_nonneg w). rewrite takeZ_app, takeZ_all by lia. done. Qed.
Lemma dropZ_over {A} (w t : list A) n : zlen w <= n -> dropZ n (w ++ t) = dropZ (n - zlen w) t.
Proof. intros Hn. pose proof (zlen_nonneg w). rewrite dropZ_app, dropZ_all by lia. done. Qed.

Lemma room_after m s len w m1 : room_at m s len -> zlen w <= len -> wrn m s w = Some m1 -> room_at m1 (s + zlen w) (len - zlen w).
Proof. intros [H1 H2] Hw Hm1. apply wrn_length in Hm1. unfold room_at, zlen in *. lia. Qed.

Lemma wrn_room m s len w : room_at m s len -> zlen w <= len -> exists m1, wrn m s w = Some m1.
Proof. intros [H1 H2] Hw. apply wrn_Some; lia. Qed.

Section part.
Context (all : jem -> Prop) (left_ : jem -> list Z -> Prop).

(** The buffer is full after [w]. *)
Lemma part_full t w t' m s len j1 m1 base : t = w ++ t' -> len = zlen w -> wrn m s w = Some m1 ->
  left_ j1 t' -> part all left_ t m s len (Some (j1, m1, base + zlen w)) base.
Proof.
  intros -> Hlen Hw Hr. exists j1, m1. pose proof (zlen_nonneg t'). rewrite zlen_app, Z.min_l by lia. rewrite Hlen at 1.
  split; [done|]. rewrite takeZ_at by done. split; [done|]. right. rewrite dropZ_at by done. split; [done|]. lia.
Qed.

(** The text is written. *)
Lemma part_all t m s len j1 m1 base : zlen t <= len -> wrn m s t = Some m1 -> all j1 ->
  part all left_ t m s len (Some (j1, m1, base + zlen t)) base.
Proof.
  intros Hlen Hw Ha. exists j1, m1. rewrite Z.min_r by lia. split; [done|]. rewrite takeZ_all by done. split; [done|]. by left.
Qed.

(** After [w], the rest. *)
Lemma part_after t w t' m s len m1 r base : t = w ++ t' -> zlen w <= len -> wrn m s w = Some m1 ->
  part all left_ t' m1 (s + zlen w) (len - zlen w) r (base + zlen w) -> part all left_ t m s len r base.
Proof.
  intros -> Hlen Hw (j' & m' & -> & Hw' & Hend). exists j', m'. rewrite zlen_app.
  split; [do 2 f_equal; lia|]. rewrite takeZ_over by done. split; [by rewrite <- (wrn_compose _ _ _ _ _ Hw)|].
  rewrite dropZ_over by done. destruct Hend as [(? & ?) | (? & ?)]; [left | right]; split_and!; try done; lia.
Qed.
End part.

(** ** The key *)

(** From the text [t] left, [w] was written and the case goes on or the buffer is full. *)
Definition stepped (p : option (child * list child)) (t : list Z) (m : list Z) (s len base : Z) (f : option step) : Prop :=
  exists w t' j1 m1 go, f = Some (go, (j1, m1, s + zlen w, len - zlen w, base + zlen w)) /\
    t = w ++ t' /\ wrn m s w = Some m1 /\ rep j1 t' /\ ptr j1 = p /\ complete j1 = false /\
    (go = false /\ zlen w = len \/ go = true /\ state j1 = 2 /\ zlen w < len).

Lemma stepped_colon c sibs m s len base : 1 <= len -> room_at m s len ->
  stepped (Some (c, sibs)) (58 :: etext c.2) m s len base
    (encode_colon_case (mk_jem 1 0 false sb_null (Some (c, sibs)) None) m s len base).
Proof.
  intros Hlen Hroom. destruct (wrn_room m s len [58] Hroom) as [m1 Hm1]; [change (zlen [58]) with 1; lia|].
  exists [58], (etext c.2), (mk_jem 2 0 false sb_null (Some (c, sibs)) None), m1, (negb (len - 1 =? 0)).
  unfold encode_colon_case. cbn [state with_state]. rewrite Z.eqb_refl, wr_wrn, Hm1. cbn [mbind option_bind].
  split; [done|]. split; [done|]. split; [done|]. split; [constructor|]. change (zlen [58]) with 1.
  split; [done|]. split; [done|]. destruct (Z.eqb_spec (len - 1) 0); [left | right]; split_and!; try done; lia.
Qed.

Lemma stepped_after p t w t' m s len m1 f base : t = w ++ t' -> zlen w <= len -> wrn m s w = Some m1 ->
  stepped p t' m1 (s + zlen w) (len - zlen w) (base + zlen w) f -> stepped p t m s len base f.
Proof.
  intros -> Hlen Hw (w2 & t2 & j2 & m2 & go & -> & -> & Hw2 & Hr & Hp & Hc & Hend). exists (w ++ w2), t2, j2, m2, go.
  rewrite zlen_app. split; [do 2 f_equal; f_equal; [f_equal; [f_equal|]|]; lia|]. split; [by rewrite app_assoc|].
  split; [by rewrite <- (wrn_compose _ _ _ _ _ Hw)|]. split_and!; try done.
  destruct Hend as [[? ?] | (? & ? & ?)]; [left | right]; split_and!; try done; lia.
Qed.

(** The buffer is full after [w]. *)
Lemma stepped_full p t w t' m s len m1 j1 base : t = w ++ t' -> wrn m s w = Some m1 -> zlen w = len ->
  rep j1 t' -> ptr j1 = p -> complete j1 = false ->
  stepped p t m s len base (Some (false, (j1, m1, s + zlen w, len - zlen w, base + zlen w))).
Proof. intros. exists w, t', j1, m1, false. split_and!; try done. by left. Qed.

Lemma encode_key_part_step j t c sibs m s len :
  rep j t -> ptr j = Some (c, sibs) -> child_ok c -> 1 <= len -> room_at m s len ->
  stepped (ptr j) t m s len 0 (encode_key_part j m s len).
Proof.
  intros Hr Hp [Hk _] Hlen Hroom.
  assert (Hid : state j = 2 -> stepped (ptr j) t m s len 0 (encode_key_part j m s len)).
  { intros Hs. assert (E : encode_key_part j m s len = Some (true, (j, m, s, len, 0))).
    { unfold encode_key_part, encode_key_case, encode_colon_case. rewrite Hs. cbn. by rewrite Hs. }
    exists [], t, j, m, true. rewrite E. change (zlen (@nil Z)) with 0. rewrite (Z.add_0_r s), Z.sub_0_r. destruct Hroom.
    split; [done|]. split; [done|]. split; [by apply wrn_nil; lia|]. split_and!; try done.
    - by destruct Hr.
    - right. split_and!; [done.. | lia]. }
  destruct Hr as [k v sibs' off Hoff | v sibs' | c' sibs' | | | | | | | |]; try (by apply Hid); cbn [ptr] in Hp; simplify_eq.
  3: { unfold encode_key_part. cbn. by apply stepped_colon. }
  2: { exists [], (etext v), (mk_jem 2 0 false sb_null (Some ((None, v), sibs)) None), m, true.
       change (zlen (@nil Z)) with 0. rewrite (Z.add_0_r s), Z.sub_0_r. split; [done|]. destruct Hroom. split; [done|].
       split; [by apply wrn_nil; lia|]. split; [apply (rep_fresh (None, v))|]. split_and!; try done. right. split_and!; [done.. | lia]. }
  cbn [fst snd from_option] in Hk. destruct Hk as [_ Hk].
  destruct (jem_encode_string_part k off m s len Hoff) as (m1 & E & Hw); [lia | apply Hroom | apply Hroom|].
  set (w := takeZ len (dropZ off (equote k))) in *.
  assert (Hwl : zlen w = Z.min len (zlen (equote k) - off)) by (unfold w; rewrite takeZ_length, dropZ_length; lia).
  unfold encode_key_part, encode_key_case. cbn [state key_of ptr mbind option_bind fst]. rewrite Z.eqb_refl.
  unfold jem_encode_key. cbn [jstart]. rewrite E. cbn [mbind option_bind]. rewrite encoded_strlen_equote. cbn [jstart complete].
  destruct (Z.eqb_spec (off + zlen w) (zlen (equote k))) as [Ed | Ed]; cbn [with_complete complete mbind option_bind].
  - assert (Hwd : w = dropZ off (equote k)) by (unfold w; apply takeZ_all; rewrite dropZ_length; lia).
    destruct (Z.eqb_spec (len - zlen w) 0) as [El | El]; cbn [negb].
    + apply (stepped_full _ _ w (58 :: etext v)); first [done | lia | by rewrite Hwd | by apply (rep_colon (Some k, v))].
    + apply (stepped_after _ _ w (58 :: etext v) m s len m1); [by rewrite Hwd | lia | done |].
      apply (stepped_colon (Some k, v)); [lia|]. by apply (room_after m); [|lia|].
  - apply (stepped_full _ _ w (dropZ (off + zlen w) (equote k) ++ 58 :: etext v)); try done; [|lia|].
    + rewrite <- dropZ_dropZ by zl. rewrite app_assoc. f_equal. unfold w at 1.
      rewrite <- (take_drop_Z len (dropZ off (equote k))) at 1. f_equal. f_equal. lia.
    + unfold with_start. cbn. rewrite u16_id by zl. constructor. zl.
Qed.

(** ** Strings, booleans and numbers *)

Lemma rdn_take_drop {A} (l : list A) i n : 0 <= i -> 0 <= n -> i + n <= zlen l -> rdn l i n = Some (takeZ n (dropZ i l)).
Proof. intros. unfold rdn. by if_true. Qed.

(** The call wrote a part of [text] from [start] on, before [finish_value]; a
    machine that is not complete has [start] at most [last]. *)
Definition value_part (j : jem) (text : list Z) (last : Z) (m : list Z) (s len : Z) (f : option result) : Prop :=
  let w := takeZ len (dropZ (jstart j) text) in
  exists j1 m1, f = Some (j1, m1, zlen w) /\ wrn m s w = Some m1 /\
    (complete j1 = true /\ zlen text - jstart j <= len \/
     j1 = mk_jem (state j) (jstart j + zlen w) false (buffer j) (ptr j) (next j) /\ jstart j + len <= last).

Lemma copy_text_part j text m s len :
  complete j = false -> 0 <= jstart j <= zlen text -> zlen text < 65536 -> 1 <= len -> room_at m s len ->
  value_part j text (zlen text) m s len (copy_text j text m s len).
Proof.
  intros Hc Hj Htext Hlen Hroom. unfold value_part, copy_text.
  assert (Hwl : zlen (takeZ len (dropZ (jstart j) text)) = Z.min len (zlen text - jstart j)) by (rewrite takeZ_length, dropZ_length; lia).
  destruct (wrn_room m s len (takeZ len (dropZ (jstart j) text)) Hroom) as [m1 Hm1]; [lia|].
  destruct (Z.ltb_spec (zlen text - jstart j) len) as [Hlt | Hge]; rewrite rdn_take_drop by lia; cbn [mbind option_bind].
  - replace (takeZ (zlen text - jstart j) _) with (takeZ len (dropZ (jstart j) text)) by (rewrite !takeZ_all; [done | rewrite dropZ_length; lia..]).
    rewrite Hm1. cbn [mbind option_bind]. eexists _, m1. split; [do 2 f_equal; lia|]. split; [done|]. left. split; [done | lia].
  - rewrite Hm1. cbn [mbind option_bind]. eexists _, m1. split; [do 2 f_equal; lia|]. split; [done|]. right. split; [|lia].
    unfold with_start. rewrite Hc, Hwl, u16_id by lia. f_equal. lia.
Qed.

Lemma value_string_part j str m s len :
  complete j = false -> 0 <= jstart j < zlen (equote str) -> short_text str -> 1 <= len -> room_at m s len ->
  value_part j (equote str) (zlen (equote str) - 1) m s len (jem_encode_value_string j (Some str) m s len).
Proof.
  intros Hc Hj [_ Hshort] Hlen [Hs Hroom]. unfold value_part, jem_encode_value_string. cbn [mbind option_bind].
  destruct (jem_encode_string_part str (jstart j) m s len Hj) as (m1 & E & Hw); [lia..|]. rewrite E. cbn [mbind option_bind].
  set (w := takeZ len (dropZ (jstart j) (equote str))) in *.
  assert (Hwl : zlen w = Z.min len (zlen (equote str) - jstart j)) by (unfold w; rewrite takeZ_length, dropZ_length; lia).
  rewrite encoded_strlen_equote. cbn [with_start jstart]. rewrite u16_id by zl.
  destruct (Z.eqb_spec (jstart j + zlen w) (zlen (equote str))); eexists _, m1; (split; [done|]; split; [done|]).
  - left. split; [done | lia].
  - right. split; [|lia]. unfold with_start. rewrite Hc, u16_id by zl. done.
Qed.

(** The end of [jem_encode_value] turns a part of a value into the result. *)
Lemma finish_value_wrote p j text last m s len f base t : value_part j text last m s len f -> last <= zlen text ->
  t = dropZ (jstart j) text -> 0 <= jstart j <= zlen text -> 1 <= len -> p = ptr j ->
  (forall off, jstart j <= off <= last -> rep (mk_jem (state j) off false (buffer j) (ptr j) (next j)) (dropZ off text)) ->
  wrote p t m s len ('(j, m, r) ← f; finish_value j m base r) base.
Proof.
  intros (j1 & m1 & -> & Hw & Hend) Hlast -> Hj Hlen -> Hrep. cbn [mbind option_bind]. unfold finish_value.
  set (t := dropZ (jstart j) text) in *. assert (Htl : zlen t = zlen text - jstart j) by (unfold t; rewrite dropZ_length; lia).
  pose proof (zlen_nonneg (takeZ len t)). if_false. destruct Hend as [[Hc Hle] | [-> Hle]].
  - rewrite Hc. cbn [negb]. rewrite takeZ_all in Hw |- * by lia. by apply part_all; [lia|..].
  - cbn [complete negb]. assert (Hlw : zlen (takeZ len t) = len) by (rewrite takeZ_length; lia).
    apply (part_full _ _ _ _ (dropZ len t)); try done; [by rewrite take_drop_Z|]. split; [done|]. split; [done|].
    unfold t at 2. rewrite dropZ_dropZ, Hlw by lia. apply Hrep; lia.
Qed.

Lemma holds_size sb s : holds M sb s -> (sb_size sb =? 0) = false /\ sb_contents sb = Some s.
Proof.
  intros (rest & E & H1 & H2 & H3). rewrite E. unfold sb_size, sb_contents. cbn [start blk cur end_ mbind option_bind].
  split; [lia|]. by apply rdn_app_0.
Qed.

Lemma number_part j d m s len :
  is_Some (number_buf d) -> zlen (number_out d) < 64 ->
  complete j = false -> 0 <= jstart j <= zlen (number_out d) -> 1 <= len -> room_at m s len ->
  buffer j = sb_null \/ holds M (buffer j) (number_out d) ->
  exists sb, holds M sb (number_out d) /\
    value_part (with_buffer j sb) (number_out d) (zlen (number_out d)) m s len (jem_encode_number malloc j d m s len).
Proof.
  intros Hd H64 Hc Hj Hlen Hroom Hb. unfold jem_encode_number.
  assert (exists sb, (if sb_size (buffer j) =? 0
      then let (_, sb) := sb_init malloc (buffer j) in sb ← emit_number malloc sb d; Some (with_buffer j sb)
      else Some j) = Some (with_buffer j sb) /\ holds M sb (number_out d)) as (sb & -> & Hh).
  { destruct Hb as [-> | Hb].
    - destruct (sb_init_holds malloc M sb_null) as (sb & E & Hh). change (sb_size sb_null =? 0) with true. cbn match. rewrite E.
      destruct (emits_number malloc M Hm d Hd sb [] Hh) as (sb' & -> & Hh'); [change (zlen (@nil Z)) with 0; lia|].
      exists sb'. by split.
    - exists (buffer j). rewrite (proj1 (holds_size _ _ Hb)). split; [by destruct j | done]. }
  cbn [mbind option_bind]. exists sb. split; [done|]. cbn [with_buffer buffer]. rewrite (proj2 (holds_size _ _ Hh)).
  cbn [mbind option_bind]. by apply copy_text_part; try done; lia.
Qed.

(** [jem_encode_value] at a value that is not a container. *)
Definition encode_scalar (v : JsonNode) (j : jem) (m : list Z) (s len total : Z) : option result :=
  match v with
  | JString str => '(j, m, r) ← jem_encode_value_string j str m s len; finish_value j m total r
  | JBool b => '(j, m, r) ← jem_encode_bool j b m s len; finish_value j m total r
  | JNumber d => '(j, m, r) ← jem_encode_number malloc j d m s len; finish_value j m total r
  | _ => Some (j, m, -1)
  end.

(** The machine of such a value: an offset into its text, and the buffer of a number. *)
Lemma rep_scalar j k v sibs t : rep j t -> state j = 2 -> ptr j = Some ((k, v), sibs) -> streamable v -> is_container v = false ->
  exists off sb, t = dropZ off (etext v) /\ j = mk_jem 2 off false sb (ptr j) None /\ 0 <= off <= zlen (etext v) /\
    match v with JString _ => sb = sb_null /\ off < zlen (etext v) | JNumber d => sb = sb_null \/ holds M sb (etext v) | _ => sb = sb_null end.
Proof.
  intros Hr Hs Hp Hst Hnc. assert (Hpos : 0 <= zlen (etext v)) by zl.
  destruct Hr as [| | |c sibs' | | | | | | |]; cbn [state ptr] in *; try done; simplify_eq; try congruence; cbn [fst snd etext default] in *.
  1: { exists 0, sb_null. rewrite dropZ_0. split; [done|]. split; [done|]. split; [lia|].
       inversion Hst; subst; cbn [etext default] in *; try done; by left. }
  all: eexists _, _; split; [done|]; split; [done|]; unfold id in *; split; [lia|]; first [done | by right | split; [done | lia]].
Qed.

Lemma encode_scalar_wrote j k v sibs t m s len base :
  rep j t -> state j = 2 -> ptr j = Some ((k, v), sibs) -> streamable v -> is_container v = false ->
  1 <= len -> room_at m s len -> wrote (ptr j) t m s len (encode_scalar v j m s len base) base.
Proof.
  intros Hr Hs Hp Hst Hnc Hlen Hroom.
  destruct (rep_scalar j k v sibs t Hr Hs Hp Hst Hnc) as (off & sb & -> & Ej & Hoff & Hx). rewrite Ej. clear Ej Hr Hs. rewrite Hp. clear Hp.
  inversion Hst as [b | str Hstr | d Hd H64 | |]; subst; try done; cbn [encode_scalar etext default] in *.
  - subst sb. eapply finish_value_wrote; [apply copy_text_part; try done; by destruct b | done | done | done | done | done |].
    intros o Ho. apply (rep_bool k b sibs o). unfold bool_text in *. cbn [jstart] in Ho. lia.
  - destruct Hx as [-> Hx]. eapply finish_value_wrote; [apply value_string_part; try done; cbn [jstart]; unfold id in *; lia | lia | done | done | done | done |].
    intros o Ho. apply (rep_string k str sibs o). cbn [jstart] in Ho. lia.
  - destruct (number_part (mk_jem 2 off false sb (Some ((k, JNumber d), sibs)) None) d m s len) as (sb' & Hh & Hv); try done.
    apply (finish_value_wrote _ _ _ _ _ _ _ _ _ _ Hv); try done. intros o Ho. apply (rep_number k d sibs o); [done|]. cbn [jstart with_buffer] in Ho. lia.
Qed.

(** ** Containers *)

Definition encode_value_ok (v : JsonNode) : Prop := forall fuel j k sibs t m s len,
  ptr j = Some ((k, v), sibs) -> child_ok (k, v) -> rep j t -> 1 <= len -> room_at m s len -> (4 * nodes v <= fuel)%nat ->
  wrote (ptr j) t m s len (jem_encode_value malloc fuel j m s len) 0.

(** What the loop of [jem_encode_obj] has left: the rest of the child [n] is at,
    and the children after it. *)
Definition loop_text (n : jem) (t : list Z) (cs : list child) : list Z := (if complete n then [44] else []) ++ t ++ more cs.

Definition left_in (j : jem) (l : list child) (j' : jem) (t' : list Z) : Prop :=
  exists n pre c cs t, j' = with_next j (Some n) /\ l = pre ++ c :: cs /\ ptr n = Some (c, cs) /\
    rep (with_complete n false) t /\ t' = loop_text n t cs.

Definition looped (j : jem) (l : list child) : list Z -> list Z -> Z -> Z -> option result -> Z -> Prop :=
  part (fun j' => j' = with_complete (with_next j None) true) (left_in j l).

Definition loop_nodes (cs : list child) : nat := list_sum (map (fun c => nodes c.2) cs).

(** A child that is not started. *)
Lemma rep_machine_init c cs : rep (machine_init (Some (c, cs))) (ctext c).
Proof.
  destruct c as [[k|] v]; unfold ctext; cbn [fst snd].
  - rewrite <- (dropZ_0 (equote k)). apply rep_key. unfold equote. zl.
  - apply rep_no_key.
Qed.

Lemma looped_tail j l1 l2 t m s len r base : looped j l2 t m s len r base -> looped j (l1 ++ l2) t m s len r base.
Proof.
  intros (j' & m' & Hr & Hw & Hend). exists j', m'. split; [done|]. split; [done|]. destruct Hend as [? | [H ?]]; [by left|].
  right. split; [|done]. destruct H as (n & pre & c & cs & u & ? & -> & H). exists n, (l1 ++ pre), c, cs, u.
  split; [done|]. split; [by rewrite app_assoc | done].
Qed.

(** The loop stops with a full buffer. *)
Lemma looped_stop j c cs n t m s base : room_at m s 0 -> ptr n = Some (c, cs) -> rep (with_complete n false) t ->
  looped j (c :: cs) (loop_text n t cs) m s 0 (Some (with_next j (Some n), m, base)) base.
Proof.
  intros [Hs Hroom] Hp Hr. rewrite <- (Z.add_0_r base) at 1. change 0 with (zlen (@nil Z)) at 2.
  apply (part_full _ _ _ [] (loop_text n t cs)); [done | done | apply wrn_nil; lia|]. by exists n, [], c, cs, t.
Qed.

(** Nothing is left. *)
Lemma part_nothing all left_ m s len j1 base : 0 <= len -> room_at m s len -> all j1 -> part all left_ [] m s len (Some (j1, m, base)) base.
Proof.
  intros Hlen [? ?] Ha. exists j1, m. rewrite Z.min_r, takeZ_nil by done. change (zlen (@nil Z)) with 0. rewrite Z.add_0_r.
  split; [done|]. split; [apply wrn_nil; lia|]. by left.
Qed.

(** The comma before a child that is not the first. *)
Lemma loop_comma n m s len base : room_at m s len -> 0 <= len -> (complete n = true -> 1 <= len) ->
  exists m1, let w := if complete n then [44] else [] in
    (if complete n then m ← wr m s 44; Some (with_complete n false, m, s + 1, len - 1, base + 1) else Some (n, m, s, len, base)) =
      Some (with_complete n false, m1, s + zlen w, len - zlen w, base + zlen w) /\ wrn m s w = Some m1.
Proof.
  intros Hroom H0 Hl. destruct (complete n) eqn:Ec.
  - destruct (wrn_room m s len [44] Hroom) as [m1 Hm1]; [change (zlen [44]) with 1; auto|]. exists m1.
    by rewrite wr_wrn, Hm1.
  - exists m. cbv zeta. change (zlen (@nil Z)) with 0. rewrite (Z.add_0_r s), (Z.add_0_r base), Z.sub_0_r. destruct Hroom.
    split; [destruct n; cbn in Ec; by subst | apply wrn_nil; lia].
Qed.

(** One round, with the rest of the loop as a premise. *)
Lemma obj_loop_round fuel j c cs n t m s len base : ptr n = Some (c, cs) -> rep (with_complete n false) t ->
  child_ok c -> encode_value_ok c.2 -> 0 <= len -> 0 <= base -> room_at m s len -> (4 * nodes c.2 <= fuel)%nat ->
  (forall m s len base, 0 <= len -> 0 <= base -> room_at m s len ->
     looped j (c :: cs) (more cs) m s len
       (obj_loop malloc fuel j (with_complete (machine_init (json_next (c, cs))) true) m s len base) base) ->
  looped j (c :: cs) (loop_text n t cs) m s len (obj_loop malloc (S fuel) j n m s len base) base.
Proof.
  intros Hp Hr Hok Hc Hlen Hbase Hroom Hfuel Hrest. cbn [obj_loop]. rewrite Hp.
  destruct (complete n && (len =? 0)) eqn:E0; [bool_to_prop; replace len with 0 in * by lia; by apply looped_stop|].
  destruct (loop_comma n m s len base Hroom Hlen) as (m1 & -> & Hw); [intros Ec; rewrite Ec in E0; cbn in E0; lia|].
  cbn [mbind option_bind]. set (w := if complete n then [44] else []) in *.
  assert (Hwl : zlen w <= len).
  { unfold w. destruct (complete n); [change (zlen [44]) with 1; cbn in E0 | change (zlen (@nil Z)) with 0]; lia. }
  pose proof (room_after _ _ _ _ _ Hroom Hwl Hw) as Hroom1. apply (part_after _ _ _ w (t ++ more cs) _ _ _ m1); try done.
  destruct (Z.eqb_spec (len - zlen w) 0) as [E1 | E1].
  { rewrite E1 in *. change (t ++ more cs) with (loop_text (with_complete n false) t cs). by apply looped_stop. }
  destruct c as [k v]. destruct (Hc fuel (with_complete n false) k cs t m1 (s + zlen w) (len - zlen w)) as (n2 & m2 & E & Hw2 & Hend);
    try done; [lia|]. rewrite E. cbn [mbind option_bind]. replace (base + zlen w <? 0) with false by zl. rewrite Z.add_0_l.
  destruct Hend as [[[Hc2 Hs2] Hle] | [(Hc2 & Hp2 & Hr2) Hle]]; rewrite Hc2.
  - rewrite takeZ_all in Hw2 by lia. rewrite Z.min_r by lia. apply (part_after _ _ _ t (more cs) _ _ _ m2); try done.
    apply Hrest; [lia | zl | by apply (room_after m1)].
  - rewrite Z.min_l by lia. cbn [ptr with_complete] in Hp2. rewrite Hp in Hp2. destruct fuel as [|fuel]; [pose proof (nodes_pos v); cbn in Hfuel; lia|].
    cbn [obj_loop]. rewrite Hp2, Hc2. cbn [andb mbind option_bind]. rewrite Z.sub_diag, Z.eqb_refl.
    assert (Hlw : zlen (takeZ (len - zlen w) t) = len - zlen w) by (rewrite takeZ_length; lia).
    replace (base + zlen w + (len - zlen w)) with (base + zlen w + zlen (takeZ (len - zlen w) t)) by lia. apply (part_full _ _ _ _ (dropZ (len - zlen w) t ++ more cs)); [|done|done|].
    + by rewrite app_assoc, take_drop_Z.
    + exists n2, [], (k, v), cs, (dropZ (len - zlen w) t). split_and!; try done; [by destruct n2; cbn in *; subst|].
      unfold loop_text. by rewrite Hc2.
Qed.

Lemma obj_loop_ok cs : forall fuel j c n t m s len base, ptr n = Some (c, cs) -> rep (with_complete n false) t ->
  Forall child_ok (c :: cs) -> Forall (fun c => encode_value_ok c.2) (c :: cs) -> 0 <= len -> 0 <= base -> room_at m s len ->
  (1 + 4 * loop_nodes (c :: cs) <= fuel)%nat ->
  looped j (c :: cs) (loop_text n t cs) m s len (obj_loop malloc fuel j n m s len base) base.
Proof.
  induction cs as [|c' cs IH]; intros fuel j c n t m s len base Hp Hr Hok Hall Hlen Hbase Hroom Hfuel.
  all: destruct fuel as [|fuel]; [lia|]; unfold loop_nodes in *; cbn [map list_sum foldr] in *;
    pose proof (nodes_pos c.2) as Hpos; apply Forall_cons in Hall as [Hc Hall], Hok as [Hokc Hok].
  all: apply obj_loop_round; try done; [lia|]; clear m s len base Hlen Hbase Hroom; intros m s len base Hlen Hbase Hroom.
  - destruct fuel as [|fuel]; [lia|]. cbn. by apply part_nothing.
  - apply (looped_tail _ [c]). cbn [json_next snd].
    apply (IH fuel j c' (with_complete (machine_init (Some (c', cs))) true) (ctext c')); try done; [|lia].
    apply rep_machine_init.
Qed.

Lemma loop_nodes_app a b : loop_nodes (a ++ b) = (loop_nodes a + loop_nodes b)%nat.
Proof. unfold loop_nodes. by rewrite map_app, list_sum_app. Qed.

(** [jem_encode_obj] at a container, [start] being 1: with no machine for the
    children, or with one. *)
Definition children_left (v : JsonNode) (nx : option jem) (t : list Z) : Prop :=
  nx = None /\ t = join [44] (map ctext (children v)) \/
  exists n pre c cs u, nx = Some n /\ children v = pre ++ c :: cs /\ ptr n = Some (c, cs) /\ rep (with_complete n false) u /\
    t = loop_text n u cs.

Lemma jem_encode_obj_looped fuel j k v sibs t m s len : ptr j = Some ((k, v), sibs) -> streamable v -> is_container v = true ->
  children_left v (next j) t -> Forall (fun c => encode_value_ok c.2) (children v) -> 1 <= len -> room_at m s len ->
  (2 + 4 * loop_nodes (children v) <= fuel)%nat ->
  looped j (children v) t m s len (jem_encode_obj malloc fuel j m s len) 0.
Proof.
  intros Hp Hst Hv Hleft Hall Hlen Hroom Hfuel. destruct fuel as [|fuel]; [lia|]. cbn [jem_encode_obj].
  replace (len =? 0) with false by lia. destruct (children_ok v Hst Hv) as [Hne Hok].
  destruct Hleft as [[-> ->] | (n & pre & c & cs & u & -> & Ev & Hn & Hr & ->)].
  - cbn [machine_init ptr complete]. rewrite Hp. cbn [mbind option_bind snd]. unfold first_child.
    destruct (children v) as [|c cs]; [done|]. rewrite join_more.
    apply (obj_loop_ok cs fuel j c (machine_init (Some (c, cs))) (ctext c)); try done; [apply rep_machine_init | lia | lia].
  - rewrite Hn. cbn [mbind option_bind]. rewrite Ev in *. apply looped_tail. apply Forall_app in Hok as [_ Hok], Hall as [_ Hall].
    rewrite loop_nodes_app in Hfuel. apply obj_loop_ok; try done; lia.
Qed.

Lemma container_close_wrote j k v sibs t m s len base : ptr j = Some ((k, v), sibs) -> is_container v = true ->
  rep j t -> state j = 2 -> jstart j = 2 \/ jstart j = 3 -> 1 <= len -> room_at m s len ->
  wrote (ptr j) t m s len (container_close (closing v) j m s len base) base.
Proof.
  intros Hp Hv Hr Hs Hj Hlen Hroom. unfold container_close. assert (Hcase : j = mk_jem 2 2 false sb_null (ptr j) None /\ t = [closing v] \/
    j = mk_jem 2 3 false sb_null (ptr j) None /\ t = []).
  { destruct Hr as [| | | |k' str sibs' | k' b sibs' | k' d sibs' | | | k' v' sibs' | k' v' sibs']; cbn [state jstart ptr] in *;
      simplify_eq; try discriminate; try lia; [by left | by right]. }
  destruct Hcase as [[-> ->] | [-> ->]]; rewrite Hp; cbn [jstart].
  - rewrite Z.eqb_refl, wr_wrn. destruct (wrn_room m s len [closing v] Hroom) as [m1 Hm1]; [change (zlen [closing v]) with 1; lia|].
    rewrite Hm1. cbn [mbind option_bind]. destruct (Z.eqb_spec (len - 1) 0) as [E1 | E1]; cbn [negb].
    + apply (part_full _ _ _ [closing v] []); try done; [change (zlen [closing v]) with 1; lia|].
      split; [done|]. split; [done|]. by apply (rep_end k v).
    + by apply (part_all _ _ [closing v]).
  - by apply part_nothing; [lia| |].
Qed.

(** [encode_container] with [start] = 1. *)
Lemma encode_container_1 fuel op cl p nx m s len base : let j := mk_jem 2 1 false sb_null p nx in
  encode_container malloc (S fuel) op cl j m s len base =
  '(j, m, r) ← jem_encode_obj malloc fuel j m s len;
  if r <? 0 then Some (j, m, -1) else
  if complete j then
    let j := with_complete (with_start j 2) false in
    if len - r =? 0 then Some (j, m, base + r) else container_close cl j m (s + r) (len - r) (base + r)
  else Some (j, m, base + r).
Proof.
  cbv zeta. cbn [encode_container jstart mbind option_bind]. change (1 =? 0) with false. cbn match. cbn [mbind option_bind negb].
  change (1 =? 1) with true. cbn match. destruct (jem_encode_obj _ _ _ _ _) as [[[j1 m1] r]|]; [|done]. cbn [mbind option_bind].
  destruct (r <? 0); [done|]. destruct (complete j1); [|done]. cbn [mbind option_bind]. by destruct (len - r =? 0).
Qed.

Lemma encode_container_2 fuel op cl j m s len base : jstart j = 2 \/ jstart j = 3 ->
  encode_container malloc (S fuel) op cl j m s len base = container_close cl j m s len base.
Proof. destruct j as [st js c b p n]. cbn [jstart]. by intros [-> | ->]. Qed.

(** From [start] = 1 on: the children, then the bracket. *)
Lemma container_children_wrote fuel k v sibs nx t m s len base : streamable v -> is_container v = true ->
  children_left v nx t -> Forall (fun c => encode_value_ok c.2) (children v) -> 1 <= len -> 0 <= base -> room_at m s len ->
  (3 + 4 * loop_nodes (children v) <= fuel)%nat ->
  wrote (Some ((k, v), sibs)) (t ++ [closing v]) m s len
    (encode_container malloc fuel (opening v) (closing v) (mk_jem 2 1 false sb_null (Some ((k, v), sibs)) nx) m s len base) base.
Proof.
  intros Hst Hv Hleft Hall Hlen Hbase Hroom Hfuel. destruct fuel as [|fuel]; [lia|]. rewrite encode_container_1.
  set (j := mk_jem 2 1 false sb_null (Some ((k, v), sibs)) nx).
  destruct (jem_encode_obj_looped fuel j k v sibs t m s len) as (j1 & m1 & -> & Hw & Hend); try done; [lia|].
  cbn [mbind option_bind]. rewrite Z.add_0_l. pose proof (zlen_nonneg t). if_false.
  destruct Hend as [[-> Hle] | [(n & pre & c & cs & u & -> & Ev & Hn & Hr & Eu) Hle]].
  - rewrite Z.min_r, takeZ_all in * by done. cbn [complete with_complete]. cbv zeta.
    pose proof (rep_close k v sibs Hv) as Hclose. destruct (Z.eqb_spec (len - zlen t) 0) as [E1 | E1].
    + by apply (part_full _ _ _ t [closing v]); [|lia| |].
    + apply (part_after _ _ _ t [closing v] _ _ _ m1); try done.
      apply (container_close_wrote (mk_jem 2 2 false sb_null (Some ((k, v), sibs)) None) k v sibs); try done; [by left | lia | by apply (room_after m)].
  - rewrite Z.min_l by done. cbn [complete with_next j].
    assert (Hlw : zlen (takeZ len t) = len) by (rewrite takeZ_length; lia). rewrite <- Hlw at 2.
    apply (part_full _ _ _ _ (dropZ len t ++ [closing v])); [by rewrite app_assoc, take_drop_Z | done | done|].
    split; [done|]. split; [done|]. rewrite Eu. unfold loop_text. rewrite <- !app_assoc.
    by apply (rep_children k v sibs n pre c cs u).
Qed.

Lemma encode_container_wrote fuel j k v sibs t m s len base : rep j t -> state j = 2 -> ptr j = Some ((k, v), sibs) ->
  streamable v -> is_container v = true -> Forall (fun c => encode_value_ok c.2) (children v) ->
  1 <= len -> 0 <= base -> room_at m s len -> (3 + 4 * loop_nodes (children v) <= fuel)%nat ->
  wrote (ptr j) t m s len (encode_container malloc fuel (opening v) (closing v) j m s len base) base.
Proof.
  intros Hr Hs Hp Hst Hv Hall Hlen Hbase Hroom Hfuel.
  assert (Hclose : jstart j = 2 \/ jstart j = 3 -> wrote (ptr j) t m s len (encode_container malloc fuel (opening v) (closing v) j m s len base) base).
  { intros Hj. destruct fuel as [|fuel]; [lia|]. rewrite encode_container_2 by done.
    by apply (container_close_wrote j k v sibs). }
  destruct Hr as [| | |c sibs'| | | |k' v' sibs' Hv'|k' v' sibs' n pre c cs u Hv' Ev Hn Hr| |];
    cbn [state ptr jstart] in *; simplify_eq; try discriminate; try (by apply Hclose; lia).
  - (* the opening bracket *)
    destruct (wrn_room m s len [opening v] Hroom) as [m1 Hm1]; [change (zlen [opening v]) with 1; lia|].
    cbn [fst snd] in *. rewrite (etext_container v Hv).
    set (j1 := mk_jem 2 1 false sb_null (Some ((k, v), sibs)) None).
    assert (E : encode_container malloc fuel (opening v) (closing v) (mk_jem 2 0 false sb_null (Some ((k, v), sibs)) None) m s len base =
      if len - 1 =? 0 then Some (j1, m1, base + 1) else encode_container malloc fuel (opening v) (closing v) j1 m1 (s + 1) (len - 1) (base + 1)).
    { destruct fuel as [|fuel]; [lia|]. cbn [encode_container]. cbn [jstart]. rewrite Z.eqb_refl, wr_wrn, Hm1. cbn [mbind option_bind].
      by destruct (len - 1 =? 0). }
    match goal with |- wrote ?p ?u _ _ _ _ _ => enough (Hgoal : wrote p u m s len (if len - 1 =? 0 then Some (j1, m1, base + 1)
      else encode_container malloc fuel (opening v) (closing v) j1 m1 (s + 1) (len - 1) (base + 1)) base) by (rewrite <- E in Hgoal; exact Hgoal) end.
    clear E. pose proof (rep_first k v sibs Hv) as Hfirst. destruct (Z.eqb_spec (len - 1) 0) as [E1 | E1].
    + apply (part_full _ _ _ [opening v] (join [44] (map ctext (children v)) ++ [closing v])); try done.
      change (zlen [opening v]) with 1. lia.
    + apply (part_after _ _ _ [opening v] (join [44] (map ctext (children v)) ++ [closing v]) _ _ _ m1); try done.
      change (zlen [opening v]) with 1. apply container_children_wrote; try done; [by left | lia | lia |].
      apply (room_after m s len [opening v]); done.
  - apply container_children_wrote; try done. by left.
  - replace ((if complete n then [44] else []) ++ u ++ more cs ++ [closing v]) with (loop_text n u cs ++ [closing v]) by (unfold loop_text; by rewrite <- !app_assoc).
    apply container_children_wrote; try done.
    right. by exists n, pre, c, cs, u.
Qed.

(** ** Values *)

(** [jem_encode_value] from the value on. *)
Definition encode_from_delim (fuel : nat) (v : JsonNode) (j : jem) (m : list Z) (s len total : Z) : option result :=
  if is_container v then encode_container malloc fuel (opening v) (closing v) j m s len total else encode_scalar v j m s len total.

Lemma jem_encode_value_delim fuel j c sibs m s len : 0 <= state j <= 2 -> ptr j = Some (c, sibs) ->
  jem_encode_value malloc (S fuel) j m s len =
  '(go, (j, m, s, len, total)) ← encode_key_part j m s len;
  if negb go then Some (j, m, total) else encode_from_delim fuel c.2 j m s len total.
Proof.
  intros Hs Hp. cbn [jem_encode_value]. replace ((0 <=? state j) && (state j <=? 3)) with true by lia. cbn [negb].
  replace (state j =? jem_encode_state_value) with false by (unfold jem_encode_state_value; lia). rewrite Hp. cbn [mbind option_bind].
  destruct (encode_key_part j m s len) as [[go [[[[j1 m1] s1] len1] tot]]|]; [|done]. cbn [mbind option_bind].
  destruct (negb go); [done|]. by destruct c as [k []].
Qed.

Lemma encode_value_step v : (is_container v = true -> Forall (fun c => encode_value_ok c.2) (children v)) -> encode_value_ok v.
Proof.
  intros Hall fuel j k sibs t m s len Hp Hok Hr Hlen Hroom Hfuel. pose proof (nodes_pos v). destruct fuel as [|fuel]; [lia|].
  assert (Hs : 0 <= state j <= 2) by (destruct Hr; cbn; lia). rewrite (jem_encode_value_delim _ _ _ _ _ _ _ Hs Hp).
  destruct (encode_key_part_step j t (k, v) sibs m s len Hr Hp Hok Hlen Hroom)
    as (w & t1 & j1 & m1 & go & -> & -> & Hw & Hr1 & Hp1 & Hc1 & Hend). cbn [mbind option_bind].
  destruct Hend as [[-> Hwl] | (-> & Hs1 & Hwl)]; cbn [negb].
  - by apply (part_full _ _ _ w t1).
  - apply (part_after _ _ _ w t1 _ _ _ m1); try done; [lia|]. rewrite Hp in Hp1. rewrite Hp, <- Hp1. cbn [snd].
    assert (Hroom1 : room_at m1 (s + zlen w) (len - zlen w)) by (apply (room_after m); try done; lia).
    unfold encode_from_delim. destruct (is_container v) eqn:Ev.
    + apply (encode_container_wrote fuel j1 k v sibs); try done; [apply Hok | auto | lia | zl |].
      rewrite (nodes_children v Ev) in Hfuel. unfold loop_nodes. lia.
    + apply (encode_scalar_wrote j1 k v sibs); try done; [apply Hok | lia].
Qed.

Lemma encode_value_all v : encode_value_ok v.
Proof.
  induction v as [|b|str|d|els IH|ms IH] using tree_ind; apply encode_value_step; intros Hv; try done; by apply Forall_map.
Qed.


(** ** Sequences of parts *)

Definition zsum (l : list Z) : Z := foldr Z.add 0 l.

Lemma zsum_nonneg sizes : Forall (fun n => 1 <= n) sizes -> 0 <= zsum sizes.
Proof. induction 1 as [|n sizes Hn _ IH]; cbn; [done|]. fold (zsum sizes). lia. Qed.

Lemma part_fuel_pos j : exists f, part_fuel j = S f.
Proof.
  unfold part_fuel. destruct (ptr j) as [[[k v] cs]|]; [|by exists O]. pose proof (nodes_pos v). cbn [snd].
  destruct (4 * nodes v)%nat eqn:E; [lia|]. by eexists.
Qed.

Lemma finished_part j m s len : finished j -> json_encode_part malloc j m s len = Some (j, m, 0).
Proof.
  intros [_ Hs]. unfold json_encode_part. destruct (part_fuel_pos j) as [f ->]. cbn [jem_encode_value].
  by rewrite Hs.
Qed.

Lemma finished_parts sizes : forall j m s, finished j -> encode_parts malloc j m s sizes = Some (j, m, s).
Proof.
  induction sizes as [|n sizes IH]; intros j m s Hj; [done|]. cbn [encode_parts].
  rewrite finished_part by done. cbn [mbind option_bind]. change (0 <? 0) with false. cbn match. by rewrite Z.add_0_r, IH.
Qed.

Lemma encode_parts_ok sizes : forall j k v sibs t m s,
  ptr j = Some ((k, v), sibs) -> child_ok (k, v) -> rep j t -> complete j = false -> Forall (fun n => 1 <= n) sizes -> room_at m s (zsum sizes) ->
  exists j' m', encode_parts malloc j m s sizes = Some (j', m', s + Z.min (zsum sizes) (zlen t)) /\
    wrn m s (takeZ (zsum sizes) t) = Some m' /\ (zlen t < zsum sizes -> complete j' = true) /\ (complete j' = true -> zlen t <= zsum sizes).
Proof.
  induction sizes as [|n sizes IH]; intros j k v sibs t m s Hp Hok Hr Hc HF Hroom; cbn [encode_parts zsum foldr] in *;
    pose proof (zlen_nonneg t).
  { exists j, m. rewrite Z.min_l, takeZ_0, Z.add_0_r by done. destruct Hroom. rewrite wrn_nil, Hc by lia. split; [done|]. split; [done|]. split; [intros ?; lia | done]. }
  fold (zsum sizes) in *. apply Forall_cons in HF as [Hn HF]. pose proof (zsum_nonneg sizes HF) as Hz. destruct Hroom as [Hs Hroom].
  destruct (encode_value_all v (part_fuel j) j k sibs t m s n) as (j1 & m1 & E & Hw & Hend); try done.
  { split; [done | lia]. } { unfold part_fuel. by rewrite Hp. }
  unfold json_encode_part. rewrite E. cbn [mbind option_bind]. rewrite Z.add_0_l. if_false.
  pose proof (wrn_length _ _ _ _ Hw) as Hl1. destruct Hend as [[Hfin Hle] | [(Hc1 & Hp1 & Hr1) Hle]].
  - rewrite finished_parts by done. exists j1, m1. rewrite !Z.min_r by lia. rewrite !takeZ_all in * by lia.
    split_and!; [done | done | intros _; apply Hfin | lia].
  - rewrite Z.min_l by done. rewrite Hp in Hp1. assert (Hd : zlen (dropZ n t) = zlen t - n) by (rewrite dropZ_length; lia).
    assert (Ht : zlen (takeZ n t) = n) by (rewrite takeZ_length; lia).
    destruct (IH j1 k v sibs (dropZ n t) m1 (s + n)) as (j2 & m2 & -> & Hw2 & H1 & H2); try done.
    { unfold room_at, zlen in *. lia. }
    exists j2, m2. rewrite Hd in *. split; [do 2 f_equal; lia|]. split; [|split; [intros; apply H1; lia | intros Hx; specialize (H2 Hx); lia]].
    rewrite <- (take_drop_Z n t), takeZ_over by lia. rewrite <- (wrn_compose _ _ _ _ _ Hw), Ht, <- Hw2.
    do 2 f_equal. lia.
Qed.

End machine.

(** ** Properties *)

(** C12. Streaming a tree that the encoder handles ([streamable]: no null, no
    empty array or object, texts whose escaped form is shorter than 65536 bytes,
    numbers shorter than 64): however its encoding is cut into parts of one or more
    bytes, the parts written one after the other are the beginning of its text,
    as much of it as the parts have room for, in bounds; the machine is complete
    once there is a byte to spare, and never before the whole text is written. *)
Theorem json_encode_parts_spec malloc M v sizes m :
  SbMalloc malloc M -> 77 <= M -> streamable v -> Forall (fun n => 1 <= n) sizes -> zsum sizes <= zlen m ->
  exists j' m', encode_parts malloc (json_encode_init v) m 0 sizes = Some (j', m', Z.min (zsum sizes) (zlen (etext v))) /\
    m' = takeZ (zsum sizes) (etext v) ++ dropZ (Z.min (zsum sizes) (zlen (etext v))) m /\
    (zlen (etext v) < zsum sizes -> complete j' = true) /\ (complete j' = true -> zlen (etext v) <= zsum sizes).
Proof.
  intros Hm HM Hst HF Hroom. destruct (encode_parts_ok malloc M Hm HM sizes (json_encode_init v) None v [] (etext v) m 0)
    as (j' & m' & E & Hw & H1 & H2); try done; [by apply rep_no_key|].
  exists j', m'. rewrite Z.add_0_l in E. split; [exact E|]. split; [|done]. pose proof (zsum_nonneg sizes HF).
  unfold wrn in Hw. bool_cases; simplify_eq. bool_to_prop. change (take (Z.to_nat 0) m) with (@nil Z). cbn [app]. f_equal. unfold dropZ. f_equal.
  rewrite <- (zlen_to_nat (takeZ _ _)), takeZ_length by done. lia.
Qed.

Lemma test_tree_streamable : streamable test_tree.
Proof.
  assert (Hs : forall s, forallb (fun c => (1 <=? c) && (c <? 256)) s && (zlen (equote s) <? 65536) = true -> short_text s).
  { intros s H. apply andb_true_iff in H as [H1 H2]. split; [|lia]. apply Forall_forall. intros c Hc.
    rewrite forallb_forall in H1. specialize (H1 c (proj1 (list_elem_of_In _ _) Hc)). lia. }
  unfold test_tree. repeat constructor; try done; cbn [fst snd]; try by apply Hs.
Defined.

Lemma json_encode_parts_spec_witness : exists j' m',
  encode_parts test_malloc (json_encode_init test_tree) (replicate 60 0) 0 (replicate 12 5) = Some (j', m', Z.min 60 (zlen (etext test_tree))) /\
  complete j' = true.
Proof.
  destruct (json_encode_parts_spec test_malloc 200 test_tree (replicate 12 5) (replicate 60 0)) as (j' & m' & E & _ & H & _).
  - apply test_malloc_ok. unfold INT_MAX. lia.
  - lia.
  - exact test_tree_streamable.
  - cbn. repeat constructor; lia.
  - by vm_compute.
  - exists j', m'. split; [exact E|]. apply H. by vm_compute.
Defined.

(** Texts in which only quotation marks are escaped by either encoder. *)
Definition plain_text (s : list Z) : Prop := Forall (fun c => 32 <= c /\ c <> 92) s.

#[warnings="-register-all"]
Inductive plain : JsonNode -> Prop :=
  | pl_bool b : plain (JBool b)
  | pl_string s : plain_text s -> plain (JString (Some s))
  | pl_number d : plain (JNumber d)
  | pl_array els : Forall plain els -> plain (JArray els)
  | pl_object ms : Forall (fun kv => plain_text kv.1 /\ plain kv.2) ms -> plain (JObject ms).

Lemma equote_plain s : plain_text s -> equote s = quote s.
Proof.
  intros Hs. unfold equote, quote, body, escape. do 2 f_equal. induction Hs as [|c s [Hc Hc'] _ IH]; [done|]. cbn [map concat].
  rewrite IH. f_equal. unfold esc, esc_byte, is_escape. destruct (Z.eqb_spec c 34) as [->|]; [done|].
  repeat (match goal with |- context [?a =? ?b] => replace (a =? b) with false by lia end). by replace (c <? 31) with false by lia.
Qed.

Lemma etext_plain v : plain v -> etext v = render v.
Proof.
  induction v as [|b|str|d|els IH|ms IH] using tree_ind; intros Hp; inversion Hp as [|s Hs| |? HF|? HF]; subst; cbn [etext render].
  - done.
  - by apply equote_plain.
  - done.
  - do 3 f_equal. apply map_ext_Forall. rewrite Forall_forall in *. auto.
  - do 3 f_equal. apply map_ext_Forall. rewrite Forall_forall in *. intros kv Hkv. destruct (HF kv Hkv) as [Hk Hv].
    by rewrite equote_plain, (IH kv Hkv).
Qed.

(** For trees whose texts need no other escapes than quotation marks,
    streaming is equivalent to [json_encode]: parts with a byte to spare, written
    one after the other, are the text [json_encode] returns, byte for byte. *)
Theorem json_encode_parts_json_encode malloc M v sizes m :
  SbMalloc malloc M -> 77 <= M -> streamable v -> plain v -> printable v -> zlen (render v) + 13 <= M ->
  Forall (fun n => 1 <= n) sizes -> zlen (render v) < zsum sizes <= zlen m ->
  exists t j' m', json_encode malloc v = Some (Some t) /\
    encode_parts malloc (json_encode_init v) m 0 sizes = Some (j', m', zlen t) /\ takeZ (zlen t) m' = t /\ complete j' = true.
Proof.
  intros Hm HM Hst Hpl Hpr Hlen HF [Hsum Hroom]. exists (render v).
  destruct (encode_parts_ok malloc M Hm HM sizes (json_encode_init v) None v [] (etext v) m 0)
    as (j' & m' & E & Hw & H1 & _); try done; [by apply rep_no_key|].
  rewrite (etext_plain v Hpl) in *. exists j', m'.
  split; [by apply (stringify_rendered malloc M None v)|]. rewrite Z.min_r in E by lia. split; [exact E|].
  rewrite takeZ_all in Hw by lia. split; [|auto]. apply rdn_wrn in Hw. apply rdn_0_inv in Hw as [Hw _]. by symmetry.
Qed.

Lemma json_encode_parts_json_encode_witness : exists t j' m',
  json_encode test_malloc test_tree = Some (Some t) /\
  encode_parts test_malloc (json_encode_init test_tree) (replicate 60 0) 0 (replicate 12 5) = Some (j', m', zlen t) /\ takeZ (zlen t) m' = t.
Proof.
  assert (Hw : forall us, chars us -> well_formed (text us)) by (intros us H; by exists us).
  destruct (json_encode_parts_json_encode test_malloc 200 test_tree (replicate 12 5) (replicate 60 0)) as (t & j' & m' & E1 & E2 & E3 & _).
  - apply test_malloc_ok. unfold INT_MAX. lia.
  - lia.
  - exact test_tree_streamable.
  - unfold test_tree. assert (Hb : forall s, forallb (fun c => (32 <=? c) && negb (c =? 92)) s = true -> plain_text s).
    { intros s H. apply Forall_forall. intros c Hc. rewrite forallb_forall in H. specialize (H c (proj1 (list_elem_of_In _ _) Hc)). lia. }
    repeat first [apply Hb; reflexivity | constructor].
  - assert (Hs : chars [107] /\ chars [122] /\ chars [34; 97] /\ chars [113]) by (repeat split; repeat constructor; unfold scalar; lia).
    destruct Hs as (H1 & H2 & H3 & H4). unfold test_tree.
    repeat first [exact (Hw _ H1) | exact (Hw _ H2) | exact (Hw _ H3) | exact (Hw _ H4) | constructor]. by eexists.
  - by vm_compute.
  - cbn. repeat constructor; lia.
  - by vm_compute.
  - exists t, j', m'. exact (conj E1 (conj E2 E3)).
Defined.

(** ** [json_size] *)

Definition quotes (s : list Z) : Z := zlen (List.filter is_escape s).

(** Quotation marks in the keys of a tree. *)
Fixpoint key_quotes (v : JsonNode) : Z :=
  match v with
  | JArray els => zsum (map key_quotes els)
  | JObject ms => zsum (map (fun kv => quotes kv.1 + key_quotes kv.2) ms)
  | _ => 0
  end.

Definition sizes {X} (f : X -> option Z) := fix go (l : list X) : option Z :=
  match l with
  | [] => Some 0
  | e :: next => n ← f e; r ← go next; Some (n + (match next with [] => 0 | _ => 1 end) + r)
  end.

Lemma sizes_ok {X} (f : X -> option Z) txt q l : Forall (fun e => f e = Some (zlen (txt e) - q e)) l ->
  sizes f l = Some (zlen (join [44] (map txt l)) - zsum (map q l)).
Proof.
  induction 1 as [|e l He _ IH]; [done|]. cbn [sizes map zsum foldr]. fold (sizes f l). rewrite He, IH. cbn [mbind option_bind].
  f_equal. rewrite join_cons. destruct l as [|e' l]; cbn [map].
  - cbn. rewrite app_nil_r. change (zlen (@nil Z)) with 0. lia.
  - rewrite !zlen_app. change (zlen [44]) with 1. unfold zsum. cbn [foldr map]. lia.
Qed.

Lemma zlen_equote s : zlen (equote s) = zlen s + 2 + quotes s.
Proof.
  unfold equote, quotes. rewrite zlen_cons, zlen_app. change (zlen [34]) with 1.
  assert (H : zlen (body s) = zlen s + zlen (List.filter is_escape s)); [|lia].
  induction s as [|c s IH]; [done|]. rewrite body_cons, zlen_app, IH. cbn [List.filter]. unfold esc.
  destruct (is_escape c); zl.
Qed.

Lemma key_size_text k v : short_text k -> key_size (Some k) + zlen (etext v) = zlen (equote k ++ 58 :: etext v) - quotes k.
Proof.
  intros [_ Hk]. rewrite zlen_equote in Hk. pose proof (zlen_nonneg (List.filter is_escape k)). unfold quotes in *.
  rewrite zlen_app, zlen_equote, zlen_cons. unfold key_size, quotes. rewrite u16_id by zl. destruct (zlen k =? 0); lia.
Qed.

Lemma number_size_text malloc M d : SbMalloc malloc M -> 77 <= M -> is_Some (number_buf d) -> zlen (number_out d) < 64 ->
  number_size malloc d = Some (zlen (number_out d)).
Proof.
  intros Hm HM Hd H64. unfold number_size. destruct (sb_init_holds malloc M sb_null) as (sb & -> & Hh).
  destruct (emits_number malloc M Hm d Hd sb [] Hh) as (sb' & -> & Hh'); [change (zlen (@nil Z)) with 0; lia|].
  cbn [mbind option_bind]. by rewrite (proj2 (holds_size M sb' _ Hh')).
Qed.

(** The loop of [json_size] over members. *)
Definition member_sizes malloc := fix sizes (ms : list (list Z * JsonNode)) : option Z :=
  match ms with
  | [] => Some 0
  | (k, e) :: next => n ← json_size malloc (Some k) e; r ← sizes next; Some (n + (match next with [] => 0 | _ => 1 end) + r)
  end.

Lemma member_sizes_eq malloc ms : member_sizes malloc ms = sizes (fun kv : list Z * JsonNode => json_size malloc (Some kv.1) kv.2) ms.
Proof. induction ms as [|[k e] ms IH]; [done|]. cbn [member_sizes sizes fst snd]. fold (member_sizes malloc ms). by rewrite IH. Qed.

Lemma json_size_text malloc M v : SbMalloc malloc M -> 77 <= M -> streamable v ->
  forall key, json_size malloc key v = Some (key_size key + (zlen (etext v) - key_quotes v)).
Proof.
  intros Hm HM. induction v as [|b|str|d|els IH|ms IH] using tree_ind; intros Hst key;
    inversion Hst as [| | |? Hne HF|? Hne HF]; subst; cbn [json_size etext key_quotes mbind option_bind].
  - by destruct b.
  - by rewrite encoded_strlen_equote, Z.sub_0_r.
  - rewrite (number_size_text malloc M) by done. cbn [mbind option_bind]. f_equal. lia.
  - change (fix sizes (els0 : list JsonNode) : option Z := _) with (sizes (fun e => json_size malloc None e)).
    rewrite (sizes_ok _ etext key_quotes).
    + cbn [mbind option_bind]. f_equal. rewrite zlen_cons, zlen_app. change (zlen [93]) with 1. lia.
    + rewrite Forall_forall in *. intros e He. rewrite (IH e He (HF e He)). f_equal.
  - change (fix sizes (ms0 : list (list Z * JsonNode)) : option Z := _) with (member_sizes malloc). rewrite member_sizes_eq.
    rewrite (sizes_ok _ (fun kv => equote kv.1 ++ 58 :: etext kv.2) (fun kv => quotes kv.1 + key_quotes kv.2)).
    + cbn [mbind option_bind]. f_equal. rewrite zlen_cons, zlen_app. change (zlen [125]) with 1. lia.
    + rewrite Forall_forall in *. intros kv Hkv. destruct (HF kv Hkv) as [Hk Hv]. rewrite (IH kv Hkv Hv). f_equal.
      pose proof (key_size_text kv.1 kv.2 Hk). lia.
Qed.

(** [json_size], which mqtt.c uses as the length of the payload it streams, is
    the length of the text the machine writes, less one for every quotation mark
    in a key: the key is counted unescaped and written escaped. *)
Theorem json_size_spec malloc M v : SbMalloc malloc M -> 77 <= M -> streamable v ->
  json_size malloc None v = Some (zlen (etext v) - key_quotes v).
Proof. intros Hm HM Hst. by rewrite (json_size_text malloc M) by done. Qed.

Lemma json_size_spec_witness : json_size test_malloc None test_tree = Some (zlen (etext test_tree) - key_quotes test_tree).
Proof.
  apply (json_size_spec test_malloc 200 test_tree); [apply test_malloc_ok; unfold INT_MAX; lia | lia | exact test_tree_streamable].
Defined.

(** A key with a quotation mark: the payload is cut before its last byte. *)
Example json_size_short :
  let v := JObject [([34], JBool true)] in
  json_size test_malloc None v = Some 10 /\ test_parts v [10] = Some (js "{'\'':true", false).
Proof. by vm_compute. Qed.

End JsonStream.
