(* ===== verification/JsonDecode.v ===== *)
(** src/src/json/decode.c: the machine that decodes a JSON text byte by byte, as
    used for the bodies and payloads that arrive in parts.

    The machines of a text, one per open value, are the linked list that starts
    at [sm]; the pointer [p] of a machine is always the machine before it in the
    list, so a machine is handed the [root] of that machine and returns it. Trees
    are values: a root is owned by one machine and moved into its parent's. *)
From S2P Require Import Prelude Sb JsonUtf8 Double JsonParse JsonSpec JsonEmit JsonEncode JsonStream.

Module JsonDecode.
Import Sb JsonUtf8 Double JsonParse JsonSpec JsonEmit.

(** The function pointer [process_byte]. *)
Inductive parse_fn :=
  | jpm_null | jpm_key_init | jpm_key_body | jpm_key_end | jpm_value_init | jpm_value_end
  | jpm_string_body | jpm_string_escape | jpm_number_body
  | jpm_bool_false_a | jpm_bool_false_l | jpm_bool_false_s | jpm_bool_false_e
  | jpm_bool_true_r | jpm_bool_true_u | jpm_bool_true_e.

Record jpm := mk_jpm {
  jcomplete : bool;
  process_byte : parse_fn;
  jbuffer : SB;
  key : option (list Z);
  root : option JsonNode;
}.

Definition set_byte (j : jpm) (f : parse_fn) : jpm := mk_jpm (jcomplete j) f (jbuffer j) (key j) (root j).
Definition set_buffer (j : jpm) (b : SB) : jpm := mk_jpm (jcomplete j) (process_byte j) b (key j) (root j).
Definition set_root (j : jpm) (r : option JsonNode) : jpm := mk_jpm (jcomplete j) (process_byte j) (jbuffer j) (key j) r.

Definition json_parse_machine_init : jpm := mk_jpm false jpm_value_init sb_null None None.

(** A call returns its result, the root of the parent machine and the machine
    with the ones added to the list after it. [None] is undefined behaviour. *)
Definition called : Type := option (Z * option (option JsonNode) * list jpm).
Definition done_ (p : option (option JsonNode)) (r : Z) (j : jpm) : called := Some (r, p, [j]).

(** [json_append_element] and [json_append_member] on a root: the tag of the root
    is what [is_array_context] tests. *)
Definition append_root (proot : option JsonNode) (k : option (list Z)) (v : JsonNode) : option JsonNode :=
  match proot with
  | Some (JArray els) => Some (JArray (els ++ [v]))
  | Some (JObject ms) => k ← k; Some (JObject (ms ++ [(k, v)]))
  | _ => None
  end.

Definition jpm_append_to_parent (p : option (option JsonNode)) (j : jpm) : option (Z * option (option JsonNode)) :=
  match p with
  | Some proot => v ← root j; r ← append_root proot (key j) v; Some (0, Some (Some r))
  | None => Some (-1, None)
  end.

Section with_malloc.
Context (malloc : Z -> option (list Z)).

(** [sb_putc] and the check of the buffer after it, for the bytes of a text. *)
Definition put_byte (p : option (option JsonNode)) (j : jpm) (byte : Z) (f : parse_fn) : called :=
  b ← sb_putc malloc (jbuffer j) byte;
  let j := set_buffer j b in
  if negb (sb_is_valid b) then done_ p (-1) j else done_ p 0 (set_byte j f).

(** [sb_init] at the start of a text. *)
Definition start_text (p : option (option JsonNode)) (j : jpm) (f : parse_fn) : called :=
  let (r, b) := sb_init malloc (jbuffer j) in
  let j := set_buffer j b in
  if r <? 0 then done_ p (-1) j else done_ p 0 (set_byte j f).

Definition start_child (p : option (option JsonNode)) (j : jpm) (f : parse_fn) (v : JsonNode) : called :=
  Some (0, p, [set_byte (set_root j (Some v)) jpm_value_end; set_byte json_parse_machine_init f]).

Definition do_value_end (p : option (option JsonNode)) (j : jpm) (byte : Z) : called :=
  if is_space byte then done_ p 0 j else
  if byte =? 125 then
    '(r, p) ← jpm_append_to_parent p j;
    let j := mk_jpm true (process_byte j) (jbuffer j) (key j) (root j) in
    if r <? 0 then done_ p (-1) j else
    done_ p 0 (mk_jpm true (process_byte j) sb_null None None)
  else if byte =? 93 then
    '(r, p) ← jpm_append_to_parent p j;
    let j := mk_jpm true (process_byte j) (jbuffer j) (key j) (root j) in
    if r <? 0 then done_ p (-1) j else
    done_ p 0 (mk_jpm true jpm_null sb_null None None)
  else if byte =? 44 then
    '(r, p) ← jpm_append_to_parent p j;
    if r <? 0 then done_ p (-1) j else
    match p with
    | Some (Some (JArray _)) => done_ p 0 (set_byte json_parse_machine_init jpm_value_init)
    | Some (Some _) => done_ p 0 (set_byte json_parse_machine_init jpm_key_init)
    | _ => None
    end
  else done_ p (-1) j.

Definition do_number_body (p : option (option JsonNode)) (j : jpm) (byte : Z) : called :=
  if is_digit byte || (byte =? 46) then put_byte p j byte jpm_number_body
  else if sb_size (jbuffer j) <=? 0 then done_ p (-1) j else
  '(str, b) ← sb_finish (jbuffer j);
  m ← str;
  t ← c_text m;
  do_value_end p (mk_jpm (jcomplete j) jpm_value_end (sb_free b) (key j) (Some (JNumber (strtod t)))) byte.

Definition do_value_init (p : option (option JsonNode)) (j : jpm) (byte : Z) : called :=
  if is_space byte then done_ p 0 j else
  if byte =? 123 then start_child p j jpm_key_init (JObject [])
  else if byte =? 34 then start_text p j jpm_string_body
  else if byte =? 102 then done_ p 0 (set_byte j jpm_bool_false_a)
  else if byte =? 116 then done_ p 0 (set_byte j jpm_bool_true_r)
  else if byte =? 91 then start_child p j jpm_value_init (JArray [])
  else
    let (r, b) := sb_init malloc (jbuffer j) in
    let j := set_buffer j b in
    if r <? 0 then done_ p (-1) j else do_number_body p (set_byte j jpm_number_body) byte.

Definition do_string_body (p : option (option JsonNode)) (j : jpm) (byte : Z) : called :=
  if byte =? 92 then done_ p 0 (set_byte j jpm_string_escape)
  else if byte =? 34 then
    if sb_size (jbuffer j) <=? 0 then done_ p (-1) j else
    '(str, b) ← sb_finish (jbuffer j);
    m ← str;
    t ← c_text m;
    s ← json_strdup malloc t;
    done_ p 0 (mk_jpm (jcomplete j) jpm_value_end (sb_free b) (key j) (Some (JString s)))
  else put_byte p j byte jpm_string_body.

Definition do_string_escape (p : option (option JsonNode)) (j : jpm) (byte : Z) : called :=
  put_byte p j (if byte =? 110 then 10 else if byte =? 116 then 9 else byte) jpm_string_body.

Definition do_key_init (p : option (option JsonNode)) (j : jpm) (byte : Z) : called :=
  if is_space byte then done_ p 0 j else
  if byte =? 34 then start_text p j jpm_key_body else done_ p (-1) j.

Definition do_key_end (p : option (option JsonNode)) (j : jpm) (byte : Z) : called :=
  if is_space byte then done_ p 0 j else
  if byte =? 58 then done_ p 0 (set_byte j jpm_value_init) else done_ p (-1) j.

Definition do_key_body (p : option (option JsonNode)) (j : jpm) (byte : Z) : called :=
  if byte =? 34 then
    if sb_size (jbuffer j) <=? 0 then done_ p (-1) j else
    '(str, b) ← sb_finish (jbuffer j);
    m ← str;
    t ← c_text m;
    done_ p 0 (mk_jpm (jcomplete j) jpm_key_end (sb_clear b) (Some t) (root j))
  else put_byte p j byte jpm_key_body.

(** jpm_bool_state_char *)
Definition expect_char (p : option (option JsonNode)) (j : jpm) (byte sym : Z) (f : parse_fn) : called :=
  if byte =? sym then done_ p 0 (set_byte j f) else done_ p (-1) j.

Definition expect_last (p : option (option JsonNode)) (j : jpm) (byte : Z) (b : bool) : called :=
  if byte =? 101 then done_ p 0 (set_byte (set_root j (Some (JBool b))) jpm_value_end) else done_ p (-1) j.

Definition run_fn (p : option (option JsonNode)) (j : jpm) (byte : Z) : called :=
  match process_byte j with
  | jpm_null => done_ p (-1) j
  | jpm_key_init => do_key_init p j byte
  | jpm_key_body => do_key_body p j byte
  | jpm_key_end => do_key_end p j byte
  | jpm_value_init => do_value_init p j byte
  | jpm_value_end => do_value_end p j byte
  | jpm_string_body => do_string_body p j byte
  | jpm_string_escape => do_string_escape p j byte
  | jpm_number_body => do_number_body p j byte
  | jpm_bool_false_a => expect_char p j byte 97 jpm_bool_false_l
  | jpm_bool_false_l => expect_char p j byte 108 jpm_bool_false_s
  | jpm_bool_false_s => expect_char p j byte 115 jpm_bool_false_e
  | jpm_bool_false_e => expect_last p j byte false
  | jpm_bool_true_r => expect_char p j byte 114 jpm_bool_true_u
  | jpm_bool_true_u => expect_char p j byte 117 jpm_bool_true_e
  | jpm_bool_true_e => expect_last p j byte true
  end.

(** [json_parse_machine_process] at [j], with the machines after it. *)
Fixpoint json_parse_machine_process (p : option (option JsonNode)) (j : jpm) (rest : list jpm) (byte : Z) : called :=
  match rest with
  | n :: rest' =>
      if jcomplete n then json_parse_machine_process p j rest' byte
      else
        '(r, jp, ms) ← json_parse_machine_process (Some (root j)) n rest' byte;
        jr ← jp;
        Some (r, p, set_root j jr :: ms)
  | [] => run_fn p j byte
  end.

(** The list that starts at [sm], never empty. *)
Definition json_decode_init : list jpm := [json_parse_machine_init].

Definition process_first (sm : list jpm) (byte : Z) : option (Z * list jpm) :=
  match sm with
  | j :: rest => '(r, _, ms) ← json_parse_machine_process None j rest byte; Some (r, ms)
  | [] => None
  end.

(** Returns -1 or the size. *)
Fixpoint decode_bytes (sm : list jpm) (json : list Z) : option (Z * list jpm) :=
  match json with
  | [] => Some (0, sm)
  | byte :: json' => '(r, sm) ← process_first sm byte; if r <? 0 then Some (-1, sm) else decode_bytes sm json'
  end.

Definition json_decode_part (sm : list jpm) (json : list Z) : option (Z * list jpm) :=
  '(r, sm) ← decode_bytes sm json; Some (if r <? 0 then -1 else zlen json, sm).

Definition json_decode_finish (sm : list jpm) : option JsonNode :=
  match sm with j :: _ => root j | [] => None end.

End with_malloc.

Fixpoint decode_parts (malloc : Z -> option (list Z)) (sm : list jpm) (parts : list (list Z)) : option (Z * list jpm) :=
  match parts with
  | [] => Some (0, sm)
  | part :: parts' => '(r, sm) ← json_decode_part malloc sm part; if r <? 0 then Some (-1, sm) else decode_parts malloc sm parts'
  end.

Definition test_decode (parts : list (list Z)) : option (Z * option JsonNode) :=
  '(r, sm) ← decode_parts test_malloc json_decode_init parts; Some (r, json_decode_finish sm).

Example decode_part_1 : test_decode [js "{'k': [12, tr"; js "ue, '\'a"; js "'], 'z':{'q':false"; js "}}"] =
  Some (0, Some (JObject [(lit "k", JArray [JNumber (double_of_Z 12); JBool true; JString (Some (34 :: lit "a"))]); (lit "z", JObject [(lit "q", JBool false)])])).
Proof. by vm_compute. Qed.
(** Something for nothing: an empty array decodes to [0], and a missing value to 0. *)
Example decode_empty_array : test_decode [js "[]"] = Some (0, Some (JArray [JNumber (double_of_Z 0)])).
Proof. by vm_compute. Qed.
Example decode_missing : test_decode [js "{'k':}"] = Some (0, Some (JObject [(lit "k", JNumber (double_of_Z 0))])).
Proof. by vm_compute. Qed.
Example decode_empty_object : test_decode [js "{}"] = Some (-1, Some (JObject [])).
Proof. by vm_compute. Qed.
(** Negative numbers, exponents and null are refused; closing brackets are interchangeable. *)
Example decode_negative : test_decode [js "[-1]"] = Some (-1, Some (JArray [])).
Proof. by vm_compute. Qed.
Example decode_null : test_decode [js "[null]"] = Some (-1, Some (JArray [])).
Proof. by vm_compute. Qed.
Example decode_exponent : test_decode [js "[1e3]"] = Some (-1, Some (JArray [])).
Proof. by vm_compute. Qed.
Example decode_brackets : test_decode [js "[1}"] = Some (0, Some (JArray [JNumber (double_of_Z 1)])).
Proof. by vm_compute. Qed.
(** A truncated text is not an error, and \u escapes are not decoded. *)
Example decode_truncated : test_decode [js "[1,2"] = Some (0, Some (JArray [JNumber (double_of_Z 1)])).
Proof. by vm_compute. Qed.
Example decode_unicode : test_decode [js "['\u0041']"] = Some (0, Some (JArray [JString (Some (lit "u0041"))])).
Proof. by vm_compute. Qed.

(** ** Runs of a machine and the ones after it *)

Section correct.
Import JsonEncode JsonStream.
Context (malloc : Z -> option (list Z)) (M : Z) (Hm : SbMalloc malloc M) (HM : 65537 <= M).

(** The bytes of a text at the first machine of [ms], which is not complete before any of them. *)
Fixpoint lrun (p : option (option JsonNode)) (ms : list jpm) (bytes : list Z) : option (option (option JsonNode) * list jpm) :=
  match bytes, ms with
  | [], _ => Some (p, ms)
  | _, [] => None
  | b :: bytes', j :: rest =>
      if jcomplete j then None else
      '(r, p, ms) ← json_parse_machine_process malloc p j rest b;
      if r <? 0 then None else lrun p ms bytes'
  end.

Lemma lrun_app bs1 bs2 : forall p ms p1 ms1, lrun p ms bs1 = Some (p1, ms1) -> lrun p ms (bs1 ++ bs2) = lrun p1 ms1 bs2.
Proof.
  induction bs1 as [|b bs1 IH]; intros p ms p1 ms1 H; cbn [lrun app] in *; [by simplify_eq|].
  destruct ms as [|j rest]; [done|]. destruct (jcomplete j); [done|].
  destruct (json_parse_machine_process malloc p j rest b) as [[[r p2] ms2]|]; [|done]. cbn [mbind option_bind] in *.
  destruct (r <? 0); [done|]. by apply IH.
Qed.

Lemma lrun_cons p j rest b bs r p1 ms1 : jcomplete j = false -> json_parse_machine_process malloc p j rest b = Some (r, p1, ms1) ->
  r = 0 -> lrun p (j :: rest) (b :: bs) = lrun p1 ms1 bs.
Proof. intros Hc E ->. cbn [lrun]. by rewrite Hc, E. Qed.

(** A call leaves a machine with a parent in that state, and the list is not empty. *)
Lemma called_parent p j rest b r q ms : json_parse_machine_process malloc p j rest b = Some (r, q, ms) ->
  (is_Some p -> is_Some q) /\ ms <> [].
Proof.
  revert p j r q ms. induction rest as [|n rest IH]; intros p j r q ms; cbn [json_parse_machine_process].
  - unfold run_fn, do_key_init, do_key_body, do_key_end, do_value_init, do_string_body, do_string_escape, do_number_body,
      do_value_end, expect_char, expect_last, start_child, start_text, put_byte, jpm_append_to_parent, done_.
    intros H. destruct (process_byte j); repeat (first [case_match; simplify_eq | progress simplify_option_eq]); by auto.
  - destruct (jcomplete n); [apply IH|].
    destruct (json_parse_machine_process malloc (Some (root j)) n rest b) as [[[r1 q1] ms1]|] eqn:E; [|done]. cbn [mbind option_bind].
    destruct q1; [|done]. cbn [mbind option_bind]. intros [= <- <- <-]. done.
Qed.

Lemma called_no_parent j rest b r q ms : json_parse_machine_process malloc None j rest b = Some (r, Some q, ms) -> False.
Proof.
  revert j r q ms. induction rest as [|n rest IH]; intros j r q ms; cbn [json_parse_machine_process].
  - unfold run_fn, do_key_init, do_key_body, do_key_end, do_value_init, do_string_body, do_string_escape, do_number_body,
      do_value_end, expect_char, expect_last, start_child, start_text, put_byte, jpm_append_to_parent, done_.
    intros H. destruct (process_byte j); repeat (first [case_match; simplify_eq | progress simplify_option_eq]).
  - destruct (jcomplete n); [apply IH|].
    destruct (json_parse_machine_process malloc (Some (root j)) n rest b) as [[[r1 q1] ms1]|] eqn:E; [|done]. cbn [mbind option_bind].
    destruct q1; [|done]. cbn [mbind option_bind]. by intros [= <- <- <-].
Qed.

(** A run below a machine that is not complete. *)
Lemma lrun_lift bs : forall p j ms jr ms', ms <> [] -> jcomplete j = false ->
  lrun (Some (root j)) ms bs = Some (Some jr, ms') -> lrun p (j :: ms) bs = Some (p, set_root j jr :: ms').
Proof.
  induction bs as [|b bs IH]; intros p j ms jr ms' Hne Hc H.
  - cbn [lrun] in *. simplify_eq. by destruct j.
  - destruct ms as [|m rest]; [done|]. cbn [lrun] in H |- *. rewrite Hc. cbn [json_parse_machine_process].
    destruct (jcomplete m); [done|].
    destruct (json_parse_machine_process malloc (Some (root j)) m rest b) as [[[r q] ms1]|] eqn:E; [|done]. cbn [mbind option_bind] in *.
    destruct (called_parent _ _ _ _ _ _ _ E) as [Hq Hms]. destruct Hq as [jr1 ->]; [done|]. cbn [mbind option_bind].
    destruct (r <? 0); [done|]. specialize (IH p (set_root j jr1) ms1 jr ms' Hms Hc H). by rewrite IH.
Qed.

Lemma lrun_decode_bytes bs : forall p ms p' ms', p = None -> lrun p ms bs = Some (p', ms') -> ms <> [] -> decode_bytes malloc ms bs = Some (0, ms').
Proof.
  induction bs as [|b bs IH]; intros p ms p' ms' -> H Hne; cbn [lrun decode_bytes] in *; [by simplify_eq|].
  destruct ms as [|j rest]; [done|]. destruct (jcomplete j); [done|]. cbn [process_first].
  destruct (json_parse_machine_process malloc None j rest b) as [[[r q] ms1]|] eqn:E; [|done]. cbn [mbind option_bind] in *.
  destruct (r <? 0); [done|]. apply (IH q ms1 p' ms'); [|done | by apply called_parent in E as [_ ?]].
  destruct q as [q|]; [|done]. exfalso. by apply called_no_parent in E.
Qed.

(** ** Texts *)

Definition mach (f : parse_fn) (b : SB) (k : option (list Z)) : jpm := mk_jpm false f b k None.

(** [s] more bytes collected by a state that stays. *)
Lemma lrun_collect f k p s : (forall sb c, c ∈ s -> run_fn malloc p (mach f sb k) c = put_byte malloc p (mach f sb k) c f) ->
  forall sb s0, holds M sb s0 -> zlen s0 + zlen s <= M ->
  exists sb', lrun p [mach f sb k] s = Some (p, [mach f sb' k]) /\ holds M sb' (s0 ++ s).
Proof.
  induction s as [|c s IH]; intros Hf sb s0 Hh HM'; [exists sb; by rewrite app_nil_r|].
  rewrite zlen_cons in HM'. pose proof (zlen_nonneg s).
  destruct (sb_putc_holds malloc M sb s0 c Hh) as (sb1 & E & Hh1); [lia|].
  destruct (IH (fun sb c Hc => Hf sb c (list_elem_of_further _ _ _ Hc)) sb1 (s0 ++ [c]) Hh1) as (sb' & E' & Hh'); [zl|].
  exists sb'. rewrite <- app_assoc in Hh'. split; [|done]. rewrite <- E'. eapply lrun_cons; [done| |done].
  cbn [json_parse_machine_process]. rewrite Hf by left. unfold put_byte. cbn [mach jbuffer]. rewrite E. cbn [mbind option_bind].
  unfold sb_is_valid. by rewrite (proj1 (holds_fields _ _ _ Hh1)).
Qed.

Lemma finish_text sb s : holds M sb s -> is_cstr s ->
  exists m sb', sb_finish sb = Some (Some m, sb') /\ c_text m = Some s /\ sb_free sb' = sb_null /\ (sb_size sb <=? 0) = false.
Proof.
  intros Hh Hs. pose proof (holds_fields _ _ _ Hh) as (Hst & _). destruct (sb_finish_holds M sb s Hh) as (rest & sb' & E).
  exists (s ++ 0 :: rest), sb'. split; [done|]. split; [by apply c_text_cstr|]. split.
  - unfold sb_finish in E. rewrite Hst in E. destruct (blk sb); [|done]. destruct (wr l (cur sb) 0); [|done]. cbn [mbind option_bind] in E.
    simplify_eq. done.
  - unfold sb_size. rewrite Hst. destruct Hh as (? & _ & _ & _ & ?). lia.
Qed.

Lemma json_strdup_text s : is_cstr s -> zlen s + 1 <= M -> json_strdup malloc s = Some (Some s).
Proof.
  intros Hs Hlen. unfold json_strdup. destruct (sb_init_holds malloc M sb_null) as (sb & -> & Hh).
  change (0 <? 0) with false. cbn match. destruct (sb_puts_holds malloc M sb [] s [] Hh Hs) as (sb1 & -> & Hh1); [change (zlen (@nil Z)) with 0; lia|]. cbn [app] in Hh1.
  cbn [mbind option_bind]. pose proof (zlen_nonneg s). if_false. destruct (sb_putc_holds malloc M sb1 s 0 Hh1) as (sb2 & -> & Hh2); [done|].
  cbn [mbind option_bind]. rewrite (proj1 (holds_fields _ _ _ Hh2)). destruct Hh2 as (rest & E2 & _). rewrite E2. cbn [blk mbind option_bind].
  rewrite <- app_assoc. cbn [app]. by rewrite (c_text_cstr s rest).
Qed.

(** ** Values *)

(** Trees whose text the decoder reads as the encoder meant it. *)
#[warnings="-register-all"]
Inductive decodable : JsonNode -> Prop :=
  | dc_bool b : decodable (JBool b)
  | dc_string s : 92 ∉ s -> decodable (JString (Some s))
  | dc_number z : 0 <= z <= 2147483647 -> decodable (JNumber (double_of_Z z))
  | dc_array els : Forall decodable els -> decodable (JArray els)
  | dc_object ms : Forall (fun kv => (34 ∉ kv.1) /\ decodable kv.2) ms -> decodable (JObject ms).

Definition valued (k : option (list Z)) (v : JsonNode) : jpm := mk_jpm false jpm_value_end sb_null k (Some v).

(** After the text of [v] the next comma or bracket finds [v] as the root. *)
Definition read_value (p : option (option JsonNode)) (k : option (list Z)) (v : JsonNode) (t : list Z) : Prop :=
  exists m tail_, lrun p [mach jpm_value_init sb_null k] t = Some (p, m :: tail_) /\ jcomplete m = false /\
    (forall b, b ∈ [44; 93; 125] -> json_parse_machine_process malloc p m tail_ b = do_value_end p (valued k v) b) /\
    (is_container v = true -> m = valued k v).

Lemma read_bool p k b : read_value p k (JBool b) (bool_text b).
Proof. exists (valued k (JBool b)), []. by destruct b. Qed.

Lemma start_text_step p j f : exists sb, start_text malloc p j f = done_ p 0 (set_byte (set_buffer j sb) f) /\ holds M sb [].
Proof. unfold start_text. destruct (sb_init_holds malloc M (jbuffer j)) as (sb & -> & Hh). by exists sb. Qed.

(** One more byte of a string. *)
Lemma string_byte p k sb s0 c c' f bs : holds M sb s0 -> zlen s0 + 1 <= M ->
  run_fn malloc p (mach f sb k) c = put_byte malloc p (mach f sb k) c' jpm_string_body ->
  exists sb', lrun p [mach f sb k] (c :: bs) = lrun p [mach jpm_string_body sb' k] bs /\ holds M sb' (s0 ++ [c']).
Proof.
  intros Hh HM' Hf. destruct (sb_putc_holds malloc M sb s0 c' Hh) as (sb1 & E & Hh1); [lia|]. exists sb1. split; [|done].
  eapply lrun_cons; [done| |done]. cbn [json_parse_machine_process]. rewrite Hf. unfold put_byte. cbn [mach jbuffer]. rewrite E.
  cbn [mbind option_bind]. unfold sb_is_valid. by rewrite (proj1 (holds_fields _ _ _ Hh1)).
Qed.

Lemma run_string_char p k sb c : c <> 92 -> c <> 34 ->
  run_fn malloc p (mach jpm_string_body sb k) c = put_byte malloc p (mach jpm_string_body sb k) c jpm_string_body.
Proof. intros H1 H2. unfold run_fn, do_string_body. cbn [mach process_byte]. by rewrite (proj2 (Z.eqb_neq _ _) H1), (proj2 (Z.eqb_neq _ _) H2). Qed.

Lemma lrun_body p k s : 92 ∉ s -> forall sb s0 bs, holds M sb s0 -> zlen s0 + zlen s <= M ->
  exists sb', lrun p [mach jpm_string_body sb k] (body s ++ bs) = lrun p [mach jpm_string_body sb' k] bs /\ holds M sb' (s0 ++ s).
Proof.
  induction s as [|c s IH]; intros Hs sb s0 bs Hh HM'; [exists sb; by rewrite app_nil_r|].
  apply not_elem_of_cons in Hs as [Hc Hs]. rewrite zlen_cons in HM'. pose proof (zlen_nonneg s).
  assert (Hgo : forall sb1, holds M sb1 (s0 ++ [c]) ->
    exists sb', lrun p [mach jpm_string_body sb1 k] (body s ++ bs) = lrun p [mach jpm_string_body sb' k] bs /\ holds M sb' (s0 ++ c :: s)).
  { intros sb1 Hh1. destruct (IH Hs sb1 (s0 ++ [c]) bs Hh1) as (sb' & E & Hh'); [zl|]. exists sb'. by rewrite <- app_assoc in Hh'. }
  rewrite body_cons. unfold esc, is_escape. destruct (Z.eqb_spec c 34) as [-> | Hq]; cbn [app].
  - assert (E : lrun p [mach jpm_string_body sb k] (92 :: 34 :: body s ++ bs) = lrun p [mach jpm_string_escape sb k] (34 :: body s ++ bs))
      by (by eapply lrun_cons).
    destruct (string_byte p k sb s0 34 34 jpm_string_escape (body s ++ bs) Hh) as (sb1 & E1 & Hh1); [lia | done |].
    destruct (Hgo sb1 Hh1) as (sb' & E2 & Hh'). exists sb'. by rewrite E, E1, E2.
  - destruct (string_byte p k sb s0 c c jpm_string_body (body s ++ bs) Hh) as (sb1 & E1 & Hh1); [lia | by apply run_string_char |].
    destruct (Hgo sb1 Hh1) as (sb' & E2 & Hh'). exists sb'. by rewrite E1, E2.
Qed.

Lemma read_string p k s : 92 ∉ s -> short_text s -> read_value p k (JString (Some s)) (equote s).
Proof.
  intros Hs [Hcs Hlen]. rewrite zlen_equote in Hlen. pose proof (zlen_nonneg (List.filter JsonEncode.is_escape s)). unfold quotes in Hlen.
  exists (valued k (JString (Some s))), []. split; [|by split].
  destruct (start_text_step p (mach jpm_value_init sb_null k) jpm_string_body) as (sb & E & Hh).
  unfold equote. rewrite (lrun_cons p _ [] 34 (body s ++ [34]) 0 p [mach jpm_string_body sb k]); [|done| |done].
  2: { cbn [json_parse_machine_process]. unfold run_fn, do_value_init. cbn [mach process_byte]. exact E. }
  destruct (lrun_body p k s Hs sb [] [34] Hh) as (sb' & E' & Hh'); [change (zlen (@nil Z)) with 0; lia|]. cbn [app] in Hh'.
  destruct (finish_text sb' s Hh' Hcs) as (m & sb2 & Ef & Et & Efr & Esz).
  rewrite E'. rewrite (lrun_cons p _ [] 34 [] 0 p [valued k (JString (Some s))]); [done|done| |done].
  cbn [json_parse_machine_process]. unfold run_fn, do_string_body. cbn [mach process_byte jbuffer jcomplete key].
  change (34 =? 92) with false. change (34 =? 34) with true. cbn match. rewrite Esz, Ef. cbn [mbind option_bind].
  rewrite Et. cbn [mbind option_bind]. rewrite json_strdup_text by (done || lia). cbn [mbind option_bind]. by rewrite Efr.
Qed.

Lemma start_number p k sb s0 c : 48 <= c <= 57 -> holds M sb s0 -> zlen s0 + 1 <= M ->
  exists sb', do_number_body malloc p (mach jpm_number_body sb k) c = done_ p 0 (mach jpm_number_body sb' k) /\ holds M sb' (s0 ++ [c]).
Proof.
  intros Hc Hh HM'. unfold do_number_body. replace (is_digit c || (c =? 46)) with true by (unfold is_digit; lia).
  unfold put_byte. cbn [mach jbuffer]. destruct (sb_putc_holds malloc M sb s0 c Hh HM') as (sb' & -> & Hh').
  cbn [mbind option_bind]. unfold sb_is_valid. rewrite (proj1 (holds_fields _ _ _ Hh')). by exists sb'.
Qed.

Lemma read_number p k z : 0 <= z <= 2147483647 -> zlen (number_out (double_of_Z z)) < 64 ->
  read_value p k (JNumber (double_of_Z z)) (number_out (double_of_Z z)).
Proof.
  intros Hz Hlen. rewrite (proj1 (number_out_int z ltac:(lia))) in *. pose proof (fmt_d_cstr z) as Hcs.
  pose proof (strtod_fmt_d z [] ltac:(done)) as Hst. rewrite app_nil_r in Hst.
  assert (Hd : fmt_d z <> [] /\ Forall (fun c => 48 <= c <= 57) (fmt_d z)).
  { unfold fmt_d. replace (z <? 0) with false by lia. destruct (dec_spec z) as (H1 & H2 & _); [lia | done]. }
  destruct Hd as [Hne Hd]. destruct (fmt_d z) as [|c ds]; [done|]. apply Forall_cons in Hd as [Hc Hd].
  rewrite zlen_cons in Hlen. pose proof (zlen_nonneg ds).
  destruct (sb_init_holds malloc M sb_null) as (sb & Ei & Hh).
  destruct (start_number p k sb [] c Hc Hh) as (sb1 & E1 & Hh1); [change (zlen (@nil Z)) with 0; lia|].
  destruct (lrun_collect jpm_number_body k p ds) with (sb := sb1) (s0 := [c]) as (sb2 & E2 & Hh2);
    [|done|change (zlen [c]) with 1; lia|].
  { intros sb' c' Hc'. rewrite Forall_forall in Hd. specialize (Hd c' Hc'). unfold run_fn, do_number_body. cbn [mach process_byte].
    by replace (is_digit c' || (c' =? 46)) with true by (unfold is_digit; lia). }
  exists (mach jpm_number_body sb2 k), []. split; [|split; [done|split; [|done]]].
  - rewrite <- E2. eapply lrun_cons; [done| |done]. cbn [json_parse_machine_process]. unfold run_fn, do_value_init.
    cbn [mach process_byte jbuffer]. unfold is_space.
    repeat (match goal with |- context [?a =? ?b] => replace (a =? b) with false by lia end). cbn [orb]. rewrite Ei.
    change (0 <? 0) with false. cbn match. exact E1.
  - intros b Hb. assert (Hnd : is_digit b || (b =? 46) = false).
    { set_unfold in Hb. by destruct Hb as [-> | [-> | [-> | []]]]. }
    cbn [json_parse_machine_process]. unfold run_fn. cbn [mach process_byte]. unfold do_number_body. rewrite Hnd.
    destruct (finish_text sb2 ([c] ++ ds) Hh2 Hcs) as (m & sb3 & Ef & Et & Efr & Esz). cbn [mach jbuffer]. rewrite Esz, Ef.
    cbn [mbind option_bind]. rewrite Et. cbn [mbind option_bind mach jcomplete key]. rewrite Efr.
    change ([c] ++ ds) with (c :: ds). by rewrite Hst.
Qed.

(** ** Keys *)

Lemma read_key p s t : 34 ∉ s -> short_text s ->
  lrun p [mach jpm_key_init sb_null None] (equote s ++ 58 :: t) = lrun p [mach jpm_value_init sb_null (Some s)] t.
Proof.
  intros Hs [Hcs Hlen]. pose proof (zlen_nonneg s).
  assert (Hb : body s = s).
  { clear -Hs. induction s as [|c s IH]; [done|]. apply not_elem_of_cons in Hs as [Hc Hs]. rewrite body_cons, IH by done.
    unfold esc, is_escape. by replace (c =? 34) with false by lia. }
  unfold equote in *. rewrite Hb in *. rewrite zlen_cons, zlen_app in Hlen. change (zlen [34]) with 1 in Hlen.
  destruct (start_text_step p (mach jpm_key_init sb_null None) jpm_key_body) as (sb & E & Hh).
  cbn [app]. rewrite (lrun_cons p _ [] 34 _ 0 p [mach jpm_key_body sb None]); [|done|exact E|done].
  destruct (lrun_collect jpm_key_body None p s) with (sb := sb) (s0 := @nil Z) as (sb1 & E1 & Hh1);
    [|done|change (zlen (@nil Z)) with 0; lia|].
  { intros sb' c Hc. unfold run_fn, do_key_body. cbn [mach process_byte]. replace (c =? 34) with false; [done|].
    symmetry. apply Z.eqb_neq. by intros ->. }
  rewrite <- app_assoc, (lrun_app _ _ _ _ _ _ E1). destruct (finish_text sb1 s Hh1 Hcs) as (m & sb2 & Ef & Et & _ & Esz).
  cbn [app]. rewrite (lrun_cons p _ [] 34 _ 0 p [mach jpm_key_end sb_null (Some s)]); [|done| |done].
  - by eapply lrun_cons.
  - cbn [json_parse_machine_process]. unfold run_fn, do_key_body. cbn [mach process_byte jbuffer].
    change (34 =? 34) with true. cbn match. rewrite Esz, Ef. cbn [mbind option_bind]. by rewrite Et.
Qed.

(** ** Containers *)

Definition with_children (r : JsonNode) (cs : list child) : JsonNode :=
  match r with
  | JArray els => JArray (els ++ map snd cs)
  | JObject ms => JObject (ms ++ map (fun c : child => (default [] c.1, c.2)) cs)
  | v => v
  end.

Definition child_fn (r : JsonNode) : parse_fn := match r with JArray _ => jpm_value_init | _ => jpm_key_init end.
Definition has_key (r : JsonNode) (c : child) : Prop := match r with JObject _ => is_Some c.1 | _ => True end.

Lemma append_root_child r c : is_container r = true -> has_key r c -> append_root (Some r) c.1 c.2 = Some (with_children r [c]).
Proof. destruct r as [| | | |els|ms]; try done; intros _ Hk. cbn in Hk. destruct Hk as [k Hk]. cbn. by rewrite Hk. Qed.

Lemma with_children_cons r c cs : with_children (with_children r [c]) cs = with_children r (c :: cs).
Proof. destruct r as [| | | |els|ms]; try done; cbn; by rewrite <- app_assoc. Qed.

Lemma with_children_kind r cs : is_container (with_children r cs) = is_container r /\
  child_fn (with_children r cs) = child_fn r /\ closing (with_children r cs) = closing r /\ (forall c, has_key (with_children r cs) c = has_key r c).
Proof. by destruct r. Qed.

(** A child is read up to the comma or bracket after it. *)
Definition item_ok (r : JsonNode) (c : child) : Prop := has_key r c /\ forall p, exists m tail_,
  lrun p [mach (child_fn r) sb_null None] (ctext c) = Some (p, m :: tail_) /\ jcomplete m = false /\
  forall b, b ∈ [44; 93; 125] -> json_parse_machine_process malloc p m tail_ b = do_value_end p (valued c.1 c.2) b.

(** A machine whose container is closed. *)
Definition closed_machine (r : JsonNode) : jpm :=
  mk_jpm true (match r with JArray _ => jpm_null | _ => jpm_value_end end) sb_null None None.

Lemma item_end r c bs b : is_container r = true -> item_ok r c -> b = 44 \/ b = closing r ->
  lrun (Some (Some r)) [mach (child_fn r) sb_null None] (ctext c ++ b :: bs) =
  lrun (Some (Some (with_children r [c]))) [if b =? 44 then mach (child_fn r) sb_null None else closed_machine r] bs.
Proof.
  intros Hr [Hk Hi] Hb. destruct (Hi (Some (Some r))) as (m & tail_ & E & Hc & Hend). rewrite (lrun_app _ _ _ _ _ _ E).
  pose proof (append_root_child r c Hr Hk) as Ha. destruct (with_children_kind r [c]) as (_ & Hf & _ & _).
  apply (lrun_cons _ _ _ _ _ 0); [done| |done].
  rewrite Hend by (destruct Hb as [-> | ->]; [|destruct r]; set_solver).
  unfold do_value_end, jpm_append_to_parent. cbn [valued root key mbind option_bind]. rewrite Ha. cbn [mbind option_bind].
  destruct Hb as [-> | ->]; [|by destruct r]. cbn. destruct r; done.
Qed.

Lemma children_run cs : forall r c, is_container r = true -> Forall (item_ok r) (c :: cs) ->
  lrun (Some (Some r)) [mach (child_fn r) sb_null None] (join [44] (map ctext (c :: cs)) ++ [closing r]) =
  Some (Some (Some (with_children r (c :: cs))), [closed_machine r]).
Proof.
  induction cs as [|c' cs IH]; intros r c Hr HF; apply Forall_cons in HF as [Hc HF]; rewrite join_more, <- app_assoc.
  - cbn [more map concat app]. rewrite item_end by auto. by destruct r.
  - change (more (c' :: cs)) with (44 :: ctext c' ++ more cs). cbn [app]. rewrite item_end by auto.
    change (44 =? 44) with true. cbn match. rewrite <- join_more.
    destruct (with_children_kind r [c]) as (H1 & H2 & H3 & H4).
    specialize (IH (with_children r [c]) c'). rewrite H1, H2, H3, with_children_cons in IH. rewrite IH; [by destruct r|done|].
    apply (Forall_impl _ _ _ HF). intros x. unfold item_ok. by rewrite H2, H4.
Qed.

Definition empty_of (v : JsonNode) : JsonNode := match v with JArray _ => JArray [] | JObject _ => JObject [] | v => v end.

Lemma read_container p k v : is_container v = true -> children v <> [] -> Forall (item_ok (empty_of v)) (children v) ->
  read_value p k v (etext v).
Proof.
  intros Hv Hne HF. set (m1 := valued k (empty_of v)).
  assert (Hempty : is_container (empty_of v) = true /\ closing (empty_of v) = closing v /\ child_fn (empty_of v) = child_fn v /\
    closed_machine (empty_of v) = closed_machine v /\ with_children (empty_of v) (children v) = v).
  { destruct v as [| | | |els|ms]; try done; cbn; rewrite map_map; (split; [done|]; split; [done|]; split; [done|]; split; [done|]); f_equal.
    - by rewrite map_id.
    - rewrite <- (map_id ms) at 2. apply map_ext. by intros []. }
  destruct Hempty as (H1 & H2 & H3 & H4 & H5).
  exists (valued k v), [closed_machine v]. split; [|by split].
  rewrite etext_container by done.
  assert (E : json_parse_machine_process malloc p (mach jpm_value_init sb_null k) [] (opening v) =
    Some (0, p, [m1; mach (child_fn v) sb_null None])) by (by destruct v).
  rewrite (lrun_cons p (mach jpm_value_init sb_null k) [] (opening v) _ 0 p [m1; mach (child_fn v) sb_null None]) by done.
  destruct (children v) as [|c cs]; [done|]. pose proof (children_run cs (empty_of v) c H1 HF) as Hrun. rewrite H2, H3, H4, H5 in Hrun.
  by rewrite (lrun_lift _ p m1 [mach (child_fn v) sb_null None] (Some v) [closed_machine v]).
Qed.

Lemma read_all v : streamable v -> decodable v -> forall p k, read_value p k v (etext v).
Proof.
  induction v as [|b|str|d|els IH|ms IH] using tree_ind; intros Hst Hd p k;
    inversion Hst as [|? Hs|? Hn H64|? Hne HF|? Hne HF]; inversion Hd as [|? H92|z Hz|? HG|? HG]; simplify_eq.
  - apply read_bool.
  - by apply (read_string p k s).
  - by apply (read_number p k z).
  - apply read_container; [done | by destruct els |]. apply Forall_map, Forall_forall. intros e He. rewrite Forall_forall in *.
    split; [done|]. intros p'.
    destruct (IH e He (HF e He) (HG e He) p' None) as (m & tail_ & E & Hc & Hend & _). by exists m, tail_.
  - apply read_container; [done | by destruct ms |]. apply Forall_map, Forall_forall. intros kv He. rewrite Forall_forall in *.
    destruct (HF kv He) as [Hk1 Hv1], (HG kv He) as [Hk2 Hv2]. split; [by eexists|]. intros p'. cbn [ctext fst snd].
    destruct (IH kv He Hv1 Hv2 p' (Some kv.1)) as (m & tail_ & E & Hc & Hend & _). exists m, tail_. by rewrite read_key.
Qed.

End correct.

(** ** Parts *)

Lemma decode_bytes_app malloc a b sm : decode_bytes malloc sm (a ++ b) =
  ('(r, sm) ← decode_bytes malloc sm a; if r <? 0 then Some (-1, sm) else decode_bytes malloc sm b).
Proof.
  revert sm. induction a as [|c a IH]; intros sm; [done|]. cbn [app decode_bytes].
  destruct (process_first malloc sm c) as [[r sm1]|]; [|done]. cbn [mbind option_bind]. destruct (r <? 0); [done | apply IH].
Qed.

Lemma decode_bytes_result malloc json : forall sm r sm', decode_bytes malloc sm json = Some (r, sm') -> r = 0 \/ r = -1.
Proof.
  induction json as [|c json IH]; intros sm r sm'; cbn [decode_bytes]; [intros [= <- _]; by left|].
  destruct (process_first malloc sm c) as [[r1 sm1]|]; [|done]. cbn [mbind option_bind]. destruct (r1 <? 0); [intros [= <- _]; by right | apply IH].
Qed.

Lemma decode_parts_concat malloc parts : forall sm, decode_parts malloc sm parts = decode_bytes malloc sm (concat parts).
Proof.
  induction parts as [|part parts IH]; intros sm; [done|]. cbn [decode_parts concat]. rewrite decode_bytes_app. unfold json_decode_part.
  destruct (decode_bytes malloc sm part) as [[r sm1]|] eqn:E; [|done]. cbn [mbind option_bind].
  destruct (decode_bytes_result _ _ _ _ _ E) as [-> | ->]; [|done]. change (0 <? 0) with false. cbn match.
  pose proof (zlen_nonneg part). if_false. apply IH.
Qed.

Import JsonEncode JsonStream.

Lemma decode_text malloc M v : SbMalloc malloc M -> 65537 <= M -> streamable v -> decodable v -> is_container v = true ->
  exists sm, decode_bytes malloc json_decode_init (etext v) = Some (0, sm) /\ json_decode_finish sm = Some v.
Proof.
  intros Hm HM Hst Hd Hv. destruct (read_all malloc M Hm HM v Hst Hd None None) as (m & tail_ & E & Hc & _ & Hroot).
  exists (m :: tail_). split; [by apply (lrun_decode_bytes malloc _ None _ None)|].
  cbn [json_decode_finish]. by rewrite (Hroot Hv).
Qed.

(** ** Properties *)

(** How a text is cut into parts does not matter to the decoder: feeding the
    parts one after the other gives the result, and the machines, of feeding
    their bytes in one go, errors included. *)
Theorem json_decode_part_split malloc parts sm :
  decode_parts malloc sm parts = decode_bytes malloc sm (concat parts) /\
  forall r sm', decode_parts malloc sm parts = Some (r, sm') -> r = 0 \/ r = -1.
Proof.
  rewrite decode_parts_concat. split; [done|]. intros r sm'. apply decode_bytes_result.
Qed.

(** C26. A stream from end to end: an array or object without null and without
    empty arrays or objects, whose texts are shorter than 65536 bytes when
    escaped, whose strings have no backslash, whose keys have no quotation mark
    and whose numbers are ints from 0 on, encoded in parts of one or more bytes
    that have room for all of it and decoded in parts of any sizes, is the same
    tree. *)
Theorem json_stream_roundtrip malloc M v sizes m :
  SbMalloc malloc M -> 65537 <= M -> streamable v -> decodable v -> is_container v = true ->
  Forall (fun n => 1 <= n) sizes -> zlen (etext v) <= zsum sizes <= zlen m ->
  exists j' m' n, encode_parts malloc (json_encode_init v) m 0 sizes = Some (j', m', n) /\
    forall parts, concat parts = takeZ n m' ->
      exists sm, decode_parts malloc json_decode_init parts = Some (0, sm) /\ json_decode_finish sm = Some v.
Proof.
  intros Hm HM Hst Hd Hv HF [Hlen Hroom].
  destruct (encode_parts_ok malloc M Hm ltac:(lia) sizes (json_encode_init v) None v [] (etext v) m 0)
    as (j' & m' & E & Hw & _); try done; [by apply rep_no_key|].
  exists j', m', (zlen (etext v)). rewrite Z.min_r in E by lia. split; [exact E|]. intros parts Hparts.
  rewrite takeZ_all in Hw by lia. apply rdn_wrn, rdn_0_inv in Hw as [Hw _]. unfold takeZ in Hparts. rewrite <- Hw in Hparts.
  rewrite decode_parts_concat, Hparts. by apply (decode_text malloc M).
Qed.

Lemma json_stream_roundtrip_witness : exists j' m' n,
  encode_parts test_malloc (json_encode_init test_tree) (replicate 60 0) 0 (replicate 12 5) = Some (j', m', n) /\
  exists sm, decode_parts test_malloc json_decode_init [takeZ 7 (takeZ n m'); dropZ 7 (takeZ n m')] = Some (0, sm) /\
    json_decode_finish sm = Some test_tree.
Proof.
  destruct (json_stream_roundtrip test_malloc 70000 test_tree (replicate 12 5) (replicate 60 0)) as (j' & m' & n & E & H).
  - apply test_malloc_ok. unfold INT_MAX. lia.
  - lia.
  - exact test_tree_streamable.
  - unfold test_tree. repeat first [by apply (bool_decide_unpack _) | apply (dc_number 12); lia | constructor].
  - reflexivity.
  - cbn. repeat constructor; lia.
  - by vm_compute.
  - exists j', m', n. split; [exact E|]. apply H. cbn [concat]. rewrite app_nil_r. apply take_drop_Z.
Defined.

End JsonDecode.
