(* ===== verification/JsonDecodeSafe.v ===== *)
(** Safety of the decoding machine of src/src/json/decode.c on arbitrary bytes:
    an invariant of the list of machines, kept by every byte. *)
From S2P Require Import Prelude Sb JsonUtf8 Double JsonParse JsonSpec JsonEmit JsonEncode JsonStream JsonDecode.

Module JsonDecodeSafe.
Import Sb JsonUtf8 Double JsonParse JsonSpec JsonEmit JsonStream JsonDecode.

(** ** The invariant *)

(** The container a machine fills: an object or an array; [None] at the top. *)
Definition kind (v : JsonNode) : option bool := match v with JArray _ => Some false | JObject _ => Some true | _ => None end.

Definition keyed (ctx : option bool) (j : jpm) : Prop := ctx = Some true -> is_Some (key j).

Section invariant.
Context (malloc : Z -> option (list Z)) (M : Z) (Hm : SbMalloc malloc M).

(** A buffer with at most [n] bytes of text. *)
Definition has_text (n : Z) (sb : SB) : Prop := exists s, holds M sb s /\ zlen s <= n /\ Forall is_byte s.

(** A machine that is not complete, as the last of the list: only a machine with
    a parent completes. *)
Definition last_ok (n : Z) (ctx : option bool) (j : jpm) : Prop :=
  match process_byte j with
  | jpm_null => False
  | jpm_key_init => True
  | jpm_key_body => has_text n (jbuffer j)
  | jpm_value_end => is_Some (root j) /\ keyed ctx j
  | jpm_string_body | jpm_string_escape | jpm_number_body => has_text n (jbuffer j) /\ keyed ctx j
  | _ => keyed ctx j
  end.

(** A machine with another after it waits for the end of a container. *)
Definition inner_ok (ctx : option bool) (j : jpm) (k : bool) : Prop :=
  jcomplete j = false /\ process_byte j = jpm_value_end /\ keyed ctx j /\ exists r, root j = Some r /\ kind r = Some k.

Inductive machines_ok (n : Z) : option bool -> list jpm -> Prop :=
  | ok_last ctx j : jcomplete j = true /\ ctx <> None \/ jcomplete j = false /\ last_ok n ctx j -> machines_ok n ctx [j]
  | ok_inner ctx j m rest k : inner_ok ctx j k -> machines_ok n (Some k) (m :: rest) -> (jcomplete m = true -> rest = []) ->
      machines_ok n ctx (j :: m :: rest).

(** The root of the parent, of kind [ctx]. *)
Definition parent_ok (ctx : option bool) (p : option (option JsonNode)) : Prop :=
  match ctx with None => p = None | Some k => exists r, p = Some (Some r) /\ kind r = Some k end.

(** A call that is defined and keeps the invariant, unless it reports an error. *)
Definition safe (n : Z) (ctx : option bool) (c : called) : Prop :=
  exists r p ms, c = Some (r, p, ms) /\ (r < 0 \/ r = 0 /\ parent_ok ctx p /\ machines_ok n ctx ms).

Lemma safe_fail n ctx p j : safe n ctx (done_ p (-1) j).
Proof. eexists _, _, _. split; [done|]. left. lia. Qed.

Lemma safe_done n ctx p j : parent_ok ctx p -> jcomplete j = false -> last_ok n ctx j -> safe n ctx (done_ p 0 j).
Proof. intros Hp Hc Hj. eexists _, _, _. split; [done|]. right. split_and!; try done. constructor. by right. Qed.

Lemma has_text_mono n n' sb : n <= n' -> has_text n sb -> has_text n' sb.
Proof. intros Hn (s & Hh & Hs & Hb). exists s. split_and!; try done. lia. Qed.

Lemma last_ok_mono n n' ctx j : n <= n' -> last_ok n ctx j -> last_ok n' ctx j.
Proof.
  intros Hn. unfold last_ok. destruct (process_byte j); try done; eauto using has_text_mono; intros [? ?]; eauto using has_text_mono.
Qed.

(** ** The handlers *)

Section handlers.
Context (n : Z) (ctx : option bool) (p : option (option JsonNode)) (j : jpm) (byte : Z)
  (Hp : parent_ok ctx p) (Hc : jcomplete j = false) (Hbyte : is_byte byte) (Hn : 0 <= n) (HM : n + 2 <= M).

Lemma safe_put c f : has_text n (jbuffer j) -> is_byte c ->
  (forall sb, has_text (n + 1) sb -> last_ok (n + 1) ctx (set_byte (set_buffer j sb) f)) ->
  safe (n + 1) ctx (put_byte malloc p j c f).
Proof.
  intros (s & Hh & Hs & Hb) Hcb Hok. unfold put_byte. destruct (sb_putc_holds malloc M (jbuffer j) s c Hh) as (sb & -> & Hh'); [lia|].
  cbn [mbind option_bind]. unfold sb_is_valid. rewrite (proj1 (holds_fields _ _ _ Hh')). cbn [negb].
  apply safe_done; [exact Hp | exact Hc |]. apply Hok. exists (s ++ [c]). split; [done|]. split; [zl|]. apply Forall_app. split; [done|]. by constructor.
Qed.

Lemma safe_start f : (forall sb, has_text 0 sb -> last_ok (n + 1) ctx (set_byte (set_buffer j sb) f)) ->
  safe (n + 1) ctx (start_text malloc p j f).
Proof.
  intros Hok. unfold start_text. destruct (sb_init_holds malloc M (jbuffer j)) as (sb & -> & Hh). change (0 <? 0) with false. cbn match.
  apply safe_done; [exact Hp | exact Hc |]. apply Hok. by exists [].
Qed.

(** The text of a buffer, up to its first zero. *)
Lemma finish_safe sb : has_text n sb -> (sb_size sb <=? 0) = false /\
  exists m sb' t, sb_finish sb = Some (Some m, sb') /\ c_text m = Some t /\ is_cstr t /\ zlen t <= n.
Proof.
  intros (s & Hh & Hs & Hb). pose proof (holds_fields _ _ _ Hh) as (Hst & _). split.
  { unfold sb_size. rewrite Hst. destruct Hh as (? & _ & _ & _ & ?). lia. }
  destruct (sb_finish_holds M sb s Hh) as (rest & sb' & E). exists (s ++ 0 :: rest), sb'.
  assert (Ht : exists t u, s ++ 0 :: rest = t ++ 0 :: u /\ is_cstr t /\ zlen t <= zlen s).
  { clear -Hb. induction Hb as [|c s Hc _ (t & u & E & Ht & Hl)]; [exists [], rest; split; [done|]; split; [constructor | lia]|]. destruct (Z.eq_dec c 0) as [-> | Hne].
    - exists [], (s ++ 0 :: rest). split; [done|]. split; [constructor | zl].
    - exists (c :: t), u. cbn [app]. rewrite E. split; [done|]. split; [constructor; [unfold is_byte in Hc; lia | done] | zl]. }
  destruct Ht as (t & u & Et & Hcs & Hl). exists t. split; [done|]. rewrite Et, c_text_cstr by done. split; [done|]. split; [done | lia].
Qed.

Lemma safe_append : is_Some (root j) -> keyed ctx j ->
  jpm_append_to_parent p j = Some (-1, None) /\ ctx = None \/
  exists r k, jpm_append_to_parent p j = Some (0, Some (Some r)) /\ ctx = Some k /\ kind r = Some k.
Proof.
  intros [v Hv] Hk. unfold jpm_append_to_parent. destruct ctx as [k|]; [|rewrite Hp; by left]. right.
  destruct Hp as (r & -> & Hr). rewrite Hv. cbn [mbind option_bind]. unfold append_root.
  destruct r as [| | | |els|ms]; try done; injection Hr as <-.
  - cbn [mbind option_bind]. by eexists _, _.
  - destruct (Hk eq_refl) as [k ->]. cbn [mbind option_bind]. by eexists _, _.
Qed.

Lemma safe_value_end : is_Some (root j) -> keyed ctx j -> process_byte j = jpm_value_end -> safe (n + 1) ctx (do_value_end p j byte).
Proof.
  intros Hr Hk Hf. unfold do_value_end. destruct (is_space byte).
  { apply safe_done; [done|done|]. unfold last_ok. by rewrite Hf. }
  assert (Hend : forall f, safe (n + 1) ctx ('(r, p) ← jpm_append_to_parent p j;
    let j := mk_jpm true (process_byte j) (jbuffer j) (key j) (root j) in
    if r <? 0 then done_ p (-1) j else done_ p 0 (mk_jpm true (f j) sb_null None None))).
  { intros f. destruct (safe_append Hr Hk) as [[-> _] | (r & k & -> & -> & Hkind)]; cbn [mbind option_bind].
    - apply safe_fail.
    - eexists _, _, _. split; [done|]. right. split; [done|]. split; [by exists r|]. constructor. left. by subst. }
  destruct (byte =? 125); [apply (Hend process_byte)|]. destruct (byte =? 93); [apply (Hend (fun _ => jpm_null))|].
  destruct (byte =? 44); [|apply safe_fail].
  destruct (safe_append Hr Hk) as [[-> _] | (r & k & -> & Hctx & Hkind)]; cbn [mbind option_bind]; [apply safe_fail|].
  change (0 <? 0) with false. cbn match. destruct r as [| | | |els|ms]; try done; injection Hkind as <-.
  - apply safe_done; [rewrite Hctx; by eexists | done |]. unfold last_ok, keyed. cbn. by rewrite Hctx.
  - apply safe_done; [rewrite Hctx; by eexists | done | done].
Qed.

Lemma safe_keep : last_ok n ctx j -> safe (n + 1) ctx (done_ p 0 j).
Proof. intros Hj. apply safe_done; [exact Hp | exact Hc |]. apply (last_ok_mono n); [lia | done]. Qed.

End handlers.

Section handlers.
Context (n : Z) (ctx : option bool) (p : option (option JsonNode)) (byte : Z)
  (Hp : parent_ok ctx p) (Hbyte : is_byte byte) (Hn : 0 <= n) (HM : n + 2 <= M).

Lemma safe_number_body j : jcomplete j = false -> has_text n (jbuffer j) -> keyed ctx j -> safe (n + 1) ctx (do_number_body malloc p j byte).
Proof.
  intros Hc Ht Hk. unfold do_number_body. destruct (is_digit byte || (byte =? 46)).
  { apply safe_put; try done. }
  destruct (finish_safe n (jbuffer j) Ht) as (-> & m & sb' & t & -> & Et & _). cbn [mbind option_bind]. rewrite Et. cbn [mbind option_bind].
  by apply safe_value_end.
Qed.

Lemma safe_string_end j : jcomplete j = false -> has_text n (jbuffer j) -> keyed ctx j -> byte = 34 -> safe (n + 1) ctx (do_string_body malloc p j byte).
Proof.
  intros Hc Ht Hk ->. unfold do_string_body. change (34 =? 92) with false. change (34 =? 34) with true. cbn match.
  destruct (finish_safe n (jbuffer j) Ht) as (-> & m & sb' & t & -> & Et & Hcs & Hl). cbn [mbind option_bind]. rewrite Et. cbn [mbind option_bind].
  rewrite (json_strdup_text malloc M) by (done || lia). cbn [mbind option_bind]. by apply safe_done.
Qed.

Lemma safe_start_child j f v : jcomplete j = false -> keyed ctx j -> is_Some (kind v) -> last_ok (n + 1) (kind v) (set_byte json_parse_machine_init f) ->
  safe (n + 1) ctx (start_child p j f v).
Proof.
  intros Hc Hk [k Hv] Hf. eexists _, _, _. split; [done|]. right. split; [done|]. split; [done|].
  apply (ok_inner _ _ _ _ _ k); [|constructor; right; by rewrite <- Hv|done].
  split; [done|]. split; [done|]. split; [done|]. by exists v.
Qed.

Lemma safe_value_init j : jcomplete j = false -> keyed ctx j -> process_byte j = jpm_value_init -> safe (n + 1) ctx (do_value_init malloc p j byte).
Proof.
  intros Hc Hk Hf. unfold do_value_init. destruct (is_space byte).
  { apply safe_done; try done. unfold last_ok. by rewrite Hf. }
  destruct (byte =? 123); [by apply safe_start_child|].
  destruct (byte =? 34).
  { apply safe_start; try done. intros sb Hsb. split; [by apply (has_text_mono 0); [lia|] | done]. }
  destruct (byte =? 102); [by apply safe_done|]. destruct (byte =? 116); [by apply safe_done|].
  destruct (byte =? 91); [by apply safe_start_child|].
  destruct (sb_init_holds malloc M (jbuffer j)) as (sb & -> & Hh). change (0 <? 0) with false. cbn match.
  apply safe_number_body; [done| |done]. exists []. split; [done|]. split; [done | constructor].
Qed.

Lemma safe_run j : jcomplete j = false -> last_ok n ctx j -> safe (n + 1) ctx (run_fn malloc p j byte).
Proof.
  intros Hc Hj. pose proof (safe_keep n ctx p j Hp Hc Hj) as Hkeep. unfold run_fn. unfold last_ok in Hj.
  destruct (process_byte j) eqn:Ef; try done.
  - unfold do_key_init. destruct (is_space byte); [done|]. destruct (byte =? 34); [|apply safe_fail].
    apply safe_start; try done. intros sb Hsb. by apply (has_text_mono 0); [lia|].
  - unfold do_key_body. destruct (byte =? 34); [|by apply safe_put].
    destruct (finish_safe n (jbuffer j) Hj) as (-> & m & sb' & t & -> & Et & _). cbn [mbind option_bind]. rewrite Et. cbn [mbind option_bind].
    apply safe_done; try done. intros _. by eexists.
  - unfold do_key_end. destruct (is_space byte); [done|]. destruct (byte =? 58); [by apply safe_done | apply safe_fail].
  - by apply safe_value_init.
  - destruct Hj. by apply safe_value_end.
  - destruct Hj as [Ht Hk]. destruct (Z.eq_dec byte 34); [by apply safe_string_end|]. unfold do_string_body.
    destruct (byte =? 92); [apply safe_done; try done; split; [by apply (has_text_mono n); [lia|] | done]|].
    replace (byte =? 34) with false by lia. by apply safe_put.
  - destruct Hj as [Ht Hk]. unfold do_string_escape. apply safe_put; try done.
    bool_cases; unfold is_byte in *; lia.
  - destruct Hj. by apply safe_number_body.
  - unfold expect_char. destruct (byte =? 97); [by apply safe_done | apply safe_fail].
  - unfold expect_char. destruct (byte =? 108); [by apply safe_done | apply safe_fail].
  - unfold expect_char. destruct (byte =? 115); [by apply safe_done | apply safe_fail].
  - unfold expect_last. destruct (byte =? 101); [by apply safe_done | apply safe_fail].
  - unfold expect_char. destruct (byte =? 114); [by apply safe_done | apply safe_fail].
  - unfold expect_char. destruct (byte =? 117); [by apply safe_done | apply safe_fail].
  - unfold expect_last. destruct (byte =? 101); [by apply safe_done | apply safe_fail].
Qed.

End handlers.
Lemma machines_inv n ctx ms : machines_ok n ctx ms -> exists m rest, ms = m :: rest /\ (jcomplete m = true -> rest = []).
Proof. intros [ctx' j Hj | ctx' j m rest k (Hc & _) _ _]; eexists _, _; split; [done|done|done|by rewrite Hc]. Qed.

Lemma safe_process n byte : is_byte byte -> 0 <= n -> n + 2 <= M -> forall rest ctx p j, machines_ok n ctx (j :: rest) ->
  jcomplete j = false -> parent_ok ctx p -> safe (n + 1) ctx (json_parse_machine_process malloc p j rest byte).
Proof.
  intros Hb Hn HM. induction rest as [|m rest IH]; intros ctx p j Hok Hc Hp; cbn [json_parse_machine_process].
  - inversion Hok as [? ? [Hj | [_ Hj]]|]; subst; [by destruct Hj; congruence | by apply safe_run].
  - inversion Hok as [|? ? ? ? k Hin Hrest Hdone]; subst. destruct Hin as (_ & Hf & Hk & r & Hr & Hkind). destruct (jcomplete m) eqn:Em.
    { rewrite Hdone by done. apply safe_run; try done. unfold last_ok. rewrite Hf. split; [by eexists | done]. }
    destruct (IH (Some k) (Some (root j)) m Hrest Em) as (res & q & ms & E & Hend); [exists r; by rewrite Hr|].
    destruct (called_parent _ _ _ _ _ _ _ _ E) as [Hq _]. destruct Hq as [jr ->]; [done|]. rewrite E. cbn [mbind option_bind].
    eexists _, _, _. split; [done|]. destruct Hend as [? | (-> & (r' & [= ->] & Hkind') & Hms)]; [by left|]. right.
    split; [done|]. split; [done|]. destruct (machines_inv _ _ _ Hms) as (m' & rest' & -> & Hd).
    apply (ok_inner _ _ _ _ _ k); [|done|done]. split; [done|]. split; [done|]. split; [done|]. by exists r'.
Qed.

Lemma top_open n ms : machines_ok n None ms -> exists m rest, ms = m :: rest /\ jcomplete m = false.
Proof.
  intros Hok. inversion Hok as [? m [[_ H] | [H _]]|? m ? ? ? (H & _)]; subst; [done|eexists _, _; by split..].
Qed.

Lemma decode_bytes_safe json : forall n ms, Forall is_byte json -> 0 <= n -> n + zlen json + 1 <= M -> machines_ok n None ms ->
  exists r ms', decode_bytes malloc ms json = Some (r, ms') /\ (r = -1 \/ r = 0 /\ machines_ok (n + zlen json) None ms').
Proof.
  induction json as [|b json IH]; intros n ms Hb Hn HM Hok; cbn [decode_bytes].
  { exists 0, ms. split; [done|]. right. change (zlen (@nil Z)) with 0. by rewrite Z.add_0_r. }
  apply Forall_cons in Hb as [Hb Hjson]. rewrite zlen_cons in *. pose proof (zlen_nonneg json).
  destruct (top_open n ms Hok) as (m & rest & -> & Hc). cbn [process_first].
  destruct (safe_process n b Hb Hn ltac:(lia) rest None None m Hok Hc eq_refl) as (r & p & ms' & E & Hend). rewrite E. cbn [mbind option_bind].
  destruct Hend as [Hr | (-> & _ & Hms)].
  - replace (r <? 0) with true by lia. eexists _, _. split; [done | by left].
  - change (0 <? 0) with false. cbn match. destruct (IH (n + 1) ms' Hjson) as (r & ms2 & E2 & Hend); [lia..|done|].
    exists r, ms2. split; [done|]. destruct Hend as [? | [? Hok2]]; [by left|]. right. split; [done|].
    by replace (n + (zlen json + 1)) with (n + 1 + zlen json) by lia.
Qed.

Lemma init_ok : machines_ok 0 None json_decode_init.
Proof. constructor. right. split; [done|]. by intros [=]. Qed.

End invariant.

(** ** Properties *)

(** The results of consecutive calls of [json_decode_part], to the first error. *)
Fixpoint decode_calls (malloc : Z -> option (list Z)) (sm : list jpm) (parts : list (list Z)) : option (list Z * list jpm) :=
  match parts with
  | [] => Some ([], sm)
  | part :: parts' =>
      '(r, sm) ← json_decode_part malloc sm part;
      if r <? 0 then Some ([r], sm) else '(rs, sm) ← decode_calls malloc sm parts'; Some (r :: rs, sm)
  end.

Lemma decode_calls_safe malloc M (Hm : SbMalloc malloc M) parts : forall n ms,
  Forall is_byte (concat parts) -> 0 <= n -> n + zlen (concat parts) + 1 <= M -> machines_ok M n None ms ->
  exists rs sm, decode_calls malloc ms parts = Some (rs, sm) /\
    (rs = map zlen parts /\ machines_ok M (n + zlen (concat parts)) None sm \/
     exists accepted part rest, parts = accepted ++ part :: rest /\ rs = map zlen accepted ++ [-1]).
Proof.
  induction parts as [|part parts IH]; intros n ms Hb Hn HM Hok; cbn [decode_calls concat map] in *.
  { exists [], ms. split; [done|]. left. change (zlen (@nil Z)) with 0. by rewrite Z.add_0_r. }
  apply Forall_app in Hb as [Hb Hbs]. rewrite zlen_app in *. pose proof (zlen_nonneg part). pose proof (zlen_nonneg (concat parts)).
  destruct (decode_bytes_safe malloc M Hm part n ms Hb Hn ltac:(lia) Hok) as (r & sm1 & E & Hend).
  unfold json_decode_part. rewrite E. cbn [mbind option_bind]. destruct Hend as [-> | [-> Hok1]].
  - change (-1 <? 0) with true. cbn match. exists [-1], sm1. split; [done|]. right. by exists [], part, parts.
  - change (0 <? 0) with false. cbn match. replace (zlen part <? 0) with false by lia.
    destruct (IH (n + zlen part) sm1 Hbs) as (rs & sm & E2 & Hend); [lia | lia | done |].
    rewrite E2. cbn [mbind option_bind]. exists (zlen part :: rs), sm. split; [done|]. destruct Hend as [[-> Hok2] | (a & p & q & -> & ->)].
    + left. split; [done|]. by rewrite Z.add_assoc.
    + right. by exists (part :: a), p, q.
Qed.

(** C21. The decoder on arbitrary bytes, in parts of any sizes: given memory for
    twice the bytes, no call is undefined - no buffer is overrun, no NULL root,
    key or parent is used. Every call of [json_decode_part] returns the size of
    its part, up to the first that fails, which returns -1; while no call has
    failed the machines form a chain of open containers: every one but the last
    waits at the end of a value with a container of the right kind as its root,
    only the last collects bytes, and every member has its key. *)
Theorem json_decode_part_safe malloc M parts :
  SbMalloc malloc M -> Forall is_byte (concat parts) -> zlen (concat parts) + 1 <= M ->
  exists rs sm, decode_calls malloc json_decode_init parts = Some (rs, sm) /\
    (rs = map zlen parts /\ machines_ok M (zlen (concat parts)) None sm \/
     exists accepted part rest, parts = accepted ++ part :: rest /\ rs = map zlen accepted ++ [-1]).
Proof.
  intros Hm Hb HM. exact (decode_calls_safe malloc M Hm parts 0 json_decode_init Hb ltac:(lia) ltac:(lia) (init_ok M)).
Qed.

(** A part that is accepted, one with an error, and one that is not looked at. *)
Lemma json_decode_part_safe_witness :
  exists rs sm, decode_calls test_malloc json_decode_init [[123; 34]; [255; 34; 58; 120]; [125]] = Some (rs, sm) /\
    (rs = [2; 4; 1] \/ exists accepted part rest, [[123; 34]; [255; 34; 58; 120]; [125]] = accepted ++ part :: rest /\ rs = map zlen accepted ++ [-1]).
Proof.
  destruct (json_decode_part_safe test_malloc 200 [[123; 34]; [255; 34; 58; 120]; [125]]) as (rs & sm & E & H).
  - apply test_malloc_ok. unfold INT_MAX. lia.
  - cbn. repeat constructor; unfold is_byte; lia.
  - by vm_compute.
  - exists rs, sm. split; [exact E|]. destruct H as [[-> _] | H]; [by left | by right].
Defined.

End JsonDecodeSafe.
