(* ===== verification/Timer.v ===== *)
(** Time: include/time/timer_functions.h (struct timeval), the interval timers of
    src/src/mqtt/client/src/timer.c, and the packed timestamps of
    src/src/time/time.c in the layout of a little-endian build. *)
From S2P Require Import Prelude Double.

Module Timer.
Import Double.

(** ** struct timeval *)

Record timeval := mk_tv { tv_sec : Z; tv_usec : Z }.

Definition timeradd (a b : timeval) : timeval :=
  let sec := tv_sec a + tv_sec b in
  let usec := tv_usec a + tv_usec b in
  if 1000000 <=? usec then mk_tv (sec + 1) (usec - 1000000) else mk_tv sec usec.

Definition timersub (a b : timeval) : timeval :=
  let sec := tv_sec a - tv_sec b in
  let usec := tv_usec a - tv_usec b in
  if s32 usec <? 0 then mk_tv (sec - 1) (usec + 1000000) else mk_tv sec usec.

(** ** Interval timers; [now] is what [gettimeofday] stores. *)

Definition TimerInit : timeval := mk_tv 0 0.

Definition TimerIsExpired (now end_time : timeval) : bool :=
  let res := timersub end_time now in
  (s32 (tv_sec res) <? 0) || ((tv_sec res =? 0) && (tv_usec res <=? 0)).

(** [timeout] is an unsigned int. *)
Definition TimerCountdownMS (now : timeval) (timeout : Z) : timeval :=
  timeradd now (mk_tv (timeout / 1000) (timeout mod 1000 * 1000)).
Definition TimerCountdown (now : timeval) (timeout : Z) : timeval := timeradd now (mk_tv timeout 0).

Definition TimerLeftMS (now end_time : timeval) : Z :=
  let res := timersub end_time now in
  if s32 (tv_sec res) <? 0 then 0 else s32 (tv_sec res * 1000 + Z.quot (tv_usec res) 1000).

(** ** Timestamps *)

Record timestamp := mk_ts {
  ts_dummy : Z; ts_msec : Z; ts_sec : Z; ts_min : Z; ts_hour : Z; ts_day : Z; ts_mon : Z; ts_year : Z
}.

(** The two words of [timestamp_t] when __LE_MODE__ is 1: bit fields from the
    lowest bit up. *)
Definition ts_word0 (t : timestamp) : Z :=
  ts_dummy t + Z.shiftl (ts_msec t) 5 + Z.shiftl (ts_sec t) 15 + Z.shiftl (ts_min t) 21 + Z.shiftl (ts_hour t) 27.
Definition ts_word1 (t : timestamp) : Z := ts_day t + Z.shiftl (ts_mon t) 5 + Z.shiftl (ts_year t) 9.

Definition timestamp_less (t1 t2 : timestamp) : Z :=
  if ts_word0 t1 <? ts_word0 t2 then 1 else
  if (ts_word0 t1 =? ts_word0 t2) && (ts_word1 t1 <? ts_word1 t2) then 1 else 0.

Definition timestamp_is_empty (t : timestamp) : Z :=
  if negb (ts_word0 t =? 0) then 0 else if negb (ts_word1 t =? 0) then 0 else 1.

(** [snprintf] with a buffer of 25 bytes. *)
Definition timestamp_string (t : timestamp) : list Z :=
  take 24 (pad 4 (dec (ts_year t)) ++ 45 :: pad 2 (dec (ts_mon t)) ++ 45 :: pad 2 (dec (ts_day t)) ++
    84 :: pad 2 (dec (ts_hour t)) ++ 58 :: pad 2 (dec (ts_min t)) ++ 58 :: pad 2 (dec (ts_sec t)) ++
    46 :: pad 3 (dec (ts_msec t)) ++ [90]).

Example timestamp_string_1 : timestamp_string (mk_ts 0 7 5 4 23 9 2 2018) = lit "2018-02-09T23:04:05.007Z".
Proof. by vm_compute. Qed.

(** ** Microseconds *)

Definition usec_of (t : timeval) : Z := tv_sec t * 1000000 + tv_usec t.
Definition normal (t : timeval) : Prop := 0 <= tv_usec t < 1000000.

Lemma timeradd_usec a b : normal a -> normal b -> normal (timeradd a b) /\ usec_of (timeradd a b) = usec_of a + usec_of b.
Proof.
  unfold normal, usec_of, timeradd. intros Ha Hb. destruct (Z.leb_spec 1000000 (tv_usec a + tv_usec b)); cbn [tv_sec tv_usec]; lia.
Qed.

Lemma timersub_usec a b : normal a -> normal b -> normal (timersub a b) /\ usec_of (timersub a b) = usec_of a - usec_of b.
Proof.
  unfold normal, usec_of, timersub. intros Ha Hb. rewrite s32_id by lia.
  destruct (Z.ltb_spec (tv_usec a - tv_usec b) 0); cbn [tv_sec tv_usec]; lia.
Qed.

(** Times within 68 years of each other. *)
Definition close (a b : timeval) : Prop := Z.abs (usec_of a - usec_of b) < 2000000000 * 1000000.

Lemma expired_usec now end_ : normal now -> normal end_ -> close end_ now ->
  TimerIsExpired now end_ = (usec_of end_ <=? usec_of now).
Proof.
  intros Hn He Hc. destruct (timersub_usec end_ now He Hn) as [Hr Hu]. unfold TimerIsExpired, close, normal, usec_of in *.
  rewrite s32_id by lia. destruct (Z.leb_spec (tv_sec end_ * 1000000 + tv_usec end_) (tv_sec now * 1000000 + tv_usec now)); lia.
Qed.

Lemma left_usec now end_ : normal now -> normal end_ -> close end_ now -> usec_of end_ - usec_of now < 2147483648000 ->
  TimerLeftMS now end_ = Z.max 0 ((usec_of end_ - usec_of now) / 1000).
Proof.
  intros Hn He Hc Hlt. destruct (timersub_usec end_ now He Hn) as [Hr Hu]. unfold TimerLeftMS, close, normal in *.
  rewrite <- Hu in *. unfold usec_of in Hu, Hc, Hlt |- *. set (r := timersub end_ now) in *. rewrite s32_id by lia.
  destruct (Z.ltb_spec (tv_sec r) 0).
  - symmetry. apply Z.max_l. apply Z.lt_le_incl, Z.div_lt_upper_bound; lia.
  - rewrite Z.quot_div_nonneg by lia. assert (0 <= tv_usec r / 1000 < 1000) by lia_mod. rewrite s32_id by lia_mod.
    rewrite Z.max_r by (apply Z.div_pos; lia). replace (tv_sec r * 1000000) with (tv_sec r * 1000 * 1000) by lia.
    rewrite Z.div_add_l by lia. done.
Qed.

Lemma countdown_usec now timeout : normal now -> 0 <= timeout ->
  normal (TimerCountdownMS now timeout) /\ usec_of (TimerCountdownMS now timeout) = usec_of now + timeout * 1000.
Proof.
  intros Hn Ht. unfold TimerCountdownMS.
  destruct (timeradd_usec now (mk_tv (timeout / 1000) (timeout mod 1000 * 1000)) Hn) as [H1 H2].
  - unfold normal. cbn [tv_usec]. lia_mod.
  - split; [done|]. rewrite H2. unfold usec_of. cbn [tv_sec tv_usec]. lia_mod.
Qed.

(** ** Properties *)

(** An interval timer started for [timeout] milliseconds has, at any later
    time less than 68 years away, the rest of the time left, rounded down and
    never negative, and is expired exactly when the timeout is used up. *)
Theorem timer_countdown_spec start now timeout :
  normal start -> normal now -> 0 <= timeout < 2147483648 -> usec_of start <= usec_of now < usec_of start + 1000000000 * 1000000 ->
  let timer := TimerCountdownMS start timeout in
  let elapsed := usec_of now - usec_of start in
  TimerLeftMS now timer = Z.max 0 ((timeout * 1000 - elapsed) / 1000) /\
  (TimerIsExpired now timer = true <-> timeout * 1000 <= elapsed).
Proof.
  intros Hs Hn Ht Hw timer elapsed. destruct (countdown_usec start timeout Hs) as [Hnt Hut]; [lia|]. fold timer in Hnt, Hut.
  assert (Hc : close timer now) by (unfold close; lia). split.
  - rewrite left_usec by (done || lia). do 2 f_equal. lia.
  - rewrite expired_usec by done. rewrite Z.leb_le. lia.
Qed.

Lemma timer_countdown_spec_witness :
  TimerLeftMS (mk_tv 101 200000) (TimerCountdownMS (mk_tv 100 999999) 1500) = 1299.
Proof.
  destruct (timer_countdown_spec (mk_tv 100 999999) (mk_tv 101 200000) 1500) as [H _].
  - unfold normal. cbn. lia.
  - unfold normal. cbn. lia.
  - lia.
  - unfold usec_of. cbn. lia.
  - exact H.
Defined.

(** A timestamp with every field in its range. *)
Definition ts_ok (t : timestamp) : Prop :=
  0 <= ts_dummy t < 32 /\ 0 <= ts_msec t < 1000 /\ 0 <= ts_sec t < 60 /\ 0 <= ts_min t < 60 /\ 0 <= ts_hour t < 24 /\
  1 <= ts_day t < 32 /\ 1 <= ts_mon t < 13 /\ 0 <= ts_year t < 8388608.

(** The time of day in milliseconds (with the padding bits) and the date. *)
Definition day_time (t : timestamp) : Z :=
  (((ts_hour t * 60 + ts_min t) * 60 + ts_sec t) * 1000 + ts_msec t) * 32 + ts_dummy t.
Definition date (t : timestamp) : Z := (ts_year t * 16 + ts_mon t) * 32 + ts_day t.

Lemma word0_fields t : ts_word0 t = ts_dummy t + ts_msec t * 32 + ts_sec t * 32768 + ts_min t * 2097152 + ts_hour t * 134217728.
Proof. unfold ts_word0. rewrite !Z.shiftl_mul_pow2 by lia. reflexivity. Qed.

Lemma word1_date t : ts_word1 t = date t.
Proof. unfold ts_word1, date. rewrite !Z.shiftl_mul_pow2 by lia. lia. Qed.

(** The first word orders timestamps by their time of day. *)
Lemma word0_day_time t1 t2 : ts_ok t1 -> ts_ok t2 -> (ts_word0 t1 ?= ts_word0 t2) = (day_time t1 ?= day_time t2).
Proof.
  intros H1 H2. rewrite !word0_fields. unfold ts_ok, day_time in *.
  destruct (Z.lt_trichotomy (ts_hour t1) (ts_hour t2)) as [Hh | [Hh | Hh]];
    [| destruct (Z.lt_trichotomy (ts_min t1) (ts_min t2)) as [Hm | [Hm | Hm]];
       [| destruct (Z.lt_trichotomy (ts_sec t1) (ts_sec t2)) as [Hs | [Hs | Hs]];
          [| destruct (Z.lt_trichotomy (ts_msec t1) (ts_msec t2)) as [Hx | [Hx | Hx]] |] |] |];
    match goal with |- (?a ?= ?b) = (?c ?= ?d) => destruct (Z.compare_spec a b), (Z.compare_spec c d); first [done | lia] end.
Qed.

(** [timestamp_less] on a little-endian build compares the time of day first
    and the date only between equal times of day: a later date does not make a
    timestamp greater. *)
Theorem timestamp_less_spec t1 t2 : ts_ok t1 -> ts_ok t2 ->
  timestamp_less t1 t2 = (if (day_time t1 <? day_time t2) || ((day_time t1 =? day_time t2) && (date t1 <? date t2)) then 1 else 0).
Proof.
  intros H1 H2. pose proof (word0_day_time t1 t2 H1 H2) as Hc. unfold timestamp_less. rewrite !word1_date.
  destruct (Z.compare_spec (ts_word0 t1) (ts_word0 t2)) as [E | E | E], (Z.compare_spec (day_time t1) (day_time t2)) as [E' | E' | E']; try done.
  - rewrite E, E', !Z.ltb_irrefl, !Z.eqb_refl. done.
  - by rewrite (proj2 (Z.ltb_lt _ _) E), (proj2 (Z.ltb_lt _ _) E').
  - replace (ts_word0 t1 <? ts_word0 t2) with false by lia. replace (day_time t1 <? day_time t2) with false by lia.
    replace (ts_word0 t1 =? ts_word0 t2) with false by lia. by replace (day_time t1 =? day_time t2) with false by lia.
Qed.

Lemma timestamp_less_spec_witness :
  timestamp_less (mk_ts 0 0 0 30 12 31 12 2018) (mk_ts 0 0 0 29 12 1 1 2019) = 0.
Proof.
  rewrite (timestamp_less_spec (mk_ts 0 0 0 30 12 31 12 2018) (mk_ts 0 0 0 29 12 1 1 2019)); [reflexivity | |];
    unfold ts_ok; cbn; lia.
Defined.

End Timer.
