(* ===== verification/ArrowUtf8.v ===== *)
(** src/src/arrow/utf8.c: cutting C strings at a pattern, numbers in them, URL and
    hexadecimal encoding; and timestamp_parse of src/src/arrow/api/json/parse.c,
    which is built from them. A pointer into a string is the list of the bytes
    from there to the end of its object. *)
From S2P Require Import Prelude Property Double Timer.

Module Utf8.
Import Property Double Timer.

(** ** C library *)

Definition isspace (c : Z) : bool := (c =? 32) || ((9 <=? c) && (c <=? 13)).
Fixpoint skip_spaces (s : list Z) : list Z :=
  match s with c :: s' => if isspace c then skip_spaces s' else s | [] => [] end.
(** An optional sign: is it a minus, and what follows. *)
Definition sign (s : list Z) : bool * list Z :=
  match s with
  | c :: s' => if c =? 45 then (true, s') else if c =? 43 then (false, s') else (false, s)
  | [] => (false, [])
  end.
Definition signed (neg : bool) (n : Z) : Z := if neg then - n else n.

(** [atoi] is undefined when an int cannot hold the number. *)
Definition atoi (b : list Z) : option Z :=
  s ← cstr b;
  let (neg, s) := sign (skip_spaces s) in
  let '(n, _, _) := digits s 0 0 in
  let v := signed neg n in
  if (-2147483648 <=? v) && (v <=? INT_MAX) then Some v else None.

(** [(int)strtol(b, NULL, 16)] *)
Definition LONG_MAX : Z := 9223372036854775807.
Definition strtol16 (b : list Z) : option Z :=
  s ← cstr b;
  let (neg, s) := sign (skip_spaces s) in
  let s := match s with
    | 48 :: x :: d :: s' => if ((x =? 120) || (x =? 88)) && bool_decide (is_Some (hex_value d)) then d :: s' else s
    | _ => s
    end in
  let '(n, _, _) := hex_digits s 0 0 in
  Some (s32 (Z.max (- LONG_MAX - 1) (Z.min LONG_MAX (signed neg n)))).

(** Where [pat] occurs first. *)
Fixpoint find_sub (s pat : list Z) : option Z :=
  if bool_decide (pat `prefix_of` s) then Some 0 else
  match s with [] => None | _ :: s' => i ← find_sub s' pat; Some (i + 1) end.
Definition strstr (b pat : list Z) : option (option Z) := s ← cstr b; Some (find_sub s pat).

(** ** utf8.c *)

Definition utf8_validate_cz (s : list Z) : option Z :=
  c ← rd s 0;
  let cont (i : Z) : option bool := x ← rd s i; Some (Z.land x 192 =? 128) in
  if (31 <? c) && (c <=? 127) then Some 1 else
  if c <=? 193 then Some 0 else
  if c <=? 223 then k ← cont 0; Some (if (k : bool) then 2 else 0) else
  if c <=? 239 then
    if (c =? 224) && (c <? 160) then Some 0 else
    if (c =? 237) && (159 <? c) then Some 0 else
    k0 ← cont 0; if negb k0 then Some 0 else
    k1 ← cont 1; Some (if (k1 : bool) then 3 else 0)
  else if c <=? 244 then
    if (c =? 240) && (c <? 144) then Some 0 else
    if (c =? 244) && (143 <? c) then Some 0 else
    k0 ← cont 0; if negb k0 then Some 0 else
    k1 ← cont 1; if negb k1 then Some 0 else
    k2 ← cont 2; Some (if (k2 : bool) then 4 else 0)
  else Some 0.

(** The fuel bounds the length of the string. *)
Fixpoint utf8check_loop (fuel : nat) (s : list Z) : option Z :=
  match fuel with
  | O => None
  | S fuel' =>
      c ← rd s 0;
      if c =? 0 then Some 1 else
      len ← utf8_validate_cz s;
      if len =? 0 then Some 0 else utf8check_loop fuel' (drop (Z.to_nat len) s)
  end.
Definition utf8check (s : list Z) : option Z := utf8check_loop (S (length s)) s.

(** Returns the offset behind the pattern, or NULL, and [dst]. *)
Definition copy_till (src end_pattern dst : list Z) : option (option Z * list Z) :=
  str_end ← strstr src end_pattern;
  match str_end with
  | None => Some (None, dst)
  | Some size =>
      s ← rdn src 0 size;
      dst ← wrn dst 0 s;
      dst ← wr dst size 0;
      Some (Some (size + zlen end_pattern), dst)
  end.

(** Returns the offset, or NULL, and [*i]. *)
Definition copy_till_to_int (src end_pattern : list Z) (i : Z) : option (option Z * Z) :=
  '(p, v) ← copy_till src end_pattern (replicate 8 0);
  match p with None => Some (None, i) | Some o => n ← atoi v; Some (Some o, n) end.

Definition copy_till_hex_to_int (src end_pattern : list Z) (i : Z) : option (option Z * Z) :=
  '(p, v) ← copy_till src end_pattern (replicate 8 0);
  match p with None => Some (None, i) | Some o => n ← strtol16 v; Some (Some o, n) end.

Definition hex : list Z := lit "0123456789abcdef" ++ [0].
Definition unreserved (c : Z) : bool :=
  ((97 <=? c) && (c <=? 122)) || ((65 <=? c) && (c <=? 90)) || ((48 <=? c) && (c <=? 57)) || (c =? 45) || (c =? 95).

(** One character of [src_p], a signed char, into [dst] at [j]. *)
Definition urlencode_char (dst : list Z) (j x : Z) : option (list Z * Z) :=
  let c := s8 x in
  if unreserved c then dst ← wr dst j x; Some (dst, j + 1) else
  dst ← wr dst j 37;
  h ← rd hex (Z.shiftr c 4);
  dst ← wr dst (j + 1) h;
  l ← rd hex (Z.land c 15);
  dst ← wr dst (j + 2) l;
  Some (dst, j + 3).

Fixpoint urlencode_loop (len : nat) (dst src : list Z) (j : Z) : option (list Z * Z) :=
  match len with
  | O => Some (dst, j)
  | S len' => x ← rd src 0; '(dst, j) ← urlencode_char dst j x; urlencode_loop len' dst (drop 1 src) j
  end.

(** A negative [len] counts down past every object. *)
Definition urlencode (dst src : list Z) (len : Z) : option (list Z) :=
  len ← (if len =? 0 then strlen src else Some len);
  if len <? 0 then None else
  '(dst, j) ← urlencode_loop (Z.to_nat len) dst src 0;
  wr dst j 0.

(** [%02x] of a byte *)
Definition hex_lower (n : Z) : Z := if n <? 10 then 48 + n else 87 + n.
Definition fmt_02x (x : Z) : list Z := [hex_lower (x / 16); hex_lower (x mod 16)].

Definition hex_encode (dst src : list Z) (size : Z) : option (list Z) :=
  for_ size (fun i dst => x ← rd src i; wrn dst (i * 2) (fmt_02x x ++ [0])) dst.

Definition hex_decode (dst src : list Z) (size : Z) : option (list Z) :=
  for_ size (fun i dst => a ← rd src (i * 2); b ← rd src (i * 2 + 1); v ← strtol16 [a; b; 0]; wr dst i (u8 v)) dst.

(** ** parse.c *)

(** A field, which ends with [pat]: [k] goes on with the number and the text behind it. *)
Definition parse_field (p pat : list Z) (t : timestamp) (k : Z -> list Z -> option (Z * timestamp)) : option (Z * timestamp) :=
  '(o, tmp) ← copy_till_to_int p pat 0;
  match o with None => Some (-1, t) | Some o => k tmp (drop (Z.to_nat o) p) end.

(** Assignments to the bit fields, which are unsigned. *)
Definition set_msec (t : timestamp) (v : Z) : timestamp := mk_ts (ts_dummy t) (v mod 2 ^ 10) (ts_sec t) (ts_min t) (ts_hour t) (ts_day t) (ts_mon t) (ts_year t).
Definition set_sec (t : timestamp) (v : Z) : timestamp := mk_ts (ts_dummy t) (ts_msec t) (v mod 2 ^ 6) (ts_min t) (ts_hour t) (ts_day t) (ts_mon t) (ts_year t).
Definition set_min (t : timestamp) (v : Z) : timestamp := mk_ts (ts_dummy t) (ts_msec t) (ts_sec t) (v mod 2 ^ 6) (ts_hour t) (ts_day t) (ts_mon t) (ts_year t).
Definition set_hour (t : timestamp) (v : Z) : timestamp := mk_ts (ts_dummy t) (ts_msec t) (ts_sec t) (ts_min t) (v mod 2 ^ 5) (ts_day t) (ts_mon t) (ts_year t).
Definition set_day (t : timestamp) (v : Z) : timestamp := mk_ts (ts_dummy t) (ts_msec t) (ts_sec t) (ts_min t) (ts_hour t) (v mod 2 ^ 5) (ts_mon t) (ts_year t).
Definition set_mon (t : timestamp) (v : Z) : timestamp := mk_ts (ts_dummy t) (ts_msec t) (ts_sec t) (ts_min t) (ts_hour t) (ts_day t) (v mod 2 ^ 4) (ts_year t).
Definition set_year (t : timestamp) (v : Z) : timestamp := mk_ts (ts_dummy t) (ts_msec t) (ts_sec t) (ts_min t) (ts_hour t) (ts_day t) (ts_mon t) (v mod 2 ^ 23).

(** Returns (rc, t). *)
Definition timestamp_parse (t : timestamp) (s : list Z) : option (Z * timestamp) :=
  parse_field s (lit "-") t (fun tmp p => let t := set_year t tmp in
  parse_field p (lit "-") t (fun tmp p => let t := set_mon t tmp in
  parse_field p (lit "T") t (fun tmp p => let t := set_day t tmp in
  parse_field p (lit ":") t (fun tmp p => let t := set_hour t tmp in
  parse_field p (lit ":") t (fun tmp p => let t := set_min t tmp in
  parse_field p (lit ".") t (fun tmp p => let t := set_sec t tmp in
  parse_field p (lit "Z") t (fun tmp _ => Some (0, set_msec t tmp)))))))).

Definition ts_zero : timestamp := mk_ts 0 0 0 0 0 0 0 0.
Example timestamp_parse_1 : timestamp_parse ts_zero (lit "2018-05-21T13:40:32.173Z" ++ [0]) = Some (0, mk_ts 0 173 32 40 13 21 5 2018).
Proof. by vm_compute. Qed.
Example copy_till_hex_1 : copy_till_hex_to_int (lit "1aF" ++ [13; 10; 0]) [13; 10] 0 = Some (Some 5, 431).
Proof. by vm_compute. Qed.
Example urlencode_1 : urlencode (replicate 20 7) (lit "a b/-" ++ [0]) 0 = Some (lit "a%20b%2f-" ++ 0 :: replicate 10 7).
Proof. by vm_compute. Qed.

(** ** Cutting strings *)

Lemma find_sub_bounds s pat k : find_sub s pat = Some k -> 0 <= k /\ k + zlen pat <= zlen s.
Proof.
  revert k. induction s as [|c s IH]; intros k; cbn [find_sub].
  - case_bool_decide as Hp; [|done]. intros [= <-]. apply prefix_nil_inv in Hp as ->. zl.
  - case_bool_decide as Hp; [intros [= <-]; destruct Hp as [r ->]; zl|].
    destruct (find_sub s pat) as [i|]; [|done]. intros [= <-]. destruct (IH i eq_refl). zl.
Qed.

(** A pattern whose first byte does not occur before it. *)
Lemma find_sub_first a c pat r : c ∉ a -> find_sub (a ++ c :: pat ++ r) (c :: pat) = Some (zlen a).
Proof.
  induction a as [|x a IH]; intros Hc.
  - cbn [app find_sub]. rewrite bool_decide_true; [done|]. by exists r.
  - apply not_elem_of_cons in Hc as [Hx Hc]. cbn [app find_sub]. rewrite bool_decide_false; [|by intros [r' [= -> _]]].
    rewrite IH by done. cbn [mbind option_bind]. by rewrite zlen_cons.
Qed.

Lemma find_sub_none s c pat : c ∉ s -> find_sub s (c :: pat) = None.
Proof.
  induction s as [|x s IH]; intros Hc; cbn [find_sub]; [rewrite bool_decide_false; [done | by intros [? ?]]|].
  apply not_elem_of_cons in Hc as [Hx Hc]. rewrite bool_decide_false by (by intros [r' [= -> _]]). by rewrite (IH Hc).
Qed.

Lemma copy_till_at src s pat dst k : cstr src = Some s -> find_sub s pat = Some k -> k < zlen dst ->
  copy_till src pat dst = Some (Some (k + zlen pat), take (Z.to_nat k) s ++ 0 :: drop (S (Z.to_nat k)) dst).
Proof.
  intros Hs Hk Hd. unfold copy_till, strstr. rewrite Hs. cbn [mbind option_bind]. rewrite Hk.
  destruct (find_sub_bounds s pat k Hk) as [H0 H1]. pose proof (zlen_nonneg pat).
  destruct (cstr_Some _ _ Hs) as [r ->]. destruct (split_at s k) as (a & b & -> & Ha); [lia|]. rewrite <- app_assoc.
  rewrite rdn_app_0 by done. cbn [mbind option_bind]. rewrite take_app_zlen by done.
  destruct (split_at dst k) as (d1 & d2 & -> & Hd1); [lia|]. rewrite wrn_app_0 by lia. cbn [mbind option_bind].
  destruct d2 as [|x d2]; [rewrite app_nil_r in Hd; lia|]. rewrite wr_app by done. cbn [mbind option_bind]. do 4 f_equal.
  replace (S (Z.to_nat k)) with (length (d1 ++ [x])) by (subst k; rewrite length_app; unfold zlen in *; cbn; lia).
  change (d1 ++ x :: d2) with (d1 ++ [x] ++ d2). by rewrite app_assoc, drop_app_length.
Qed.

(** [copy_till] copies what is in front of the first occurrence of the pattern
    and ends it with a zero, if the destination has room for both; the size of
    the destination is not known to it, so a longer text is written past its
    end. Without the pattern nothing is written. *)
Theorem copy_till_spec src s pat dst : cstr src = Some s ->
  (find_sub s pat = None -> copy_till src pat dst = Some (None, dst)) /\
  (forall k, find_sub s pat = Some k ->
     (k < zlen dst -> copy_till src pat dst = Some (Some (k + zlen pat), take (Z.to_nat k) s ++ 0 :: drop (S (Z.to_nat k)) dst)) /\
     (zlen dst <= k -> copy_till src pat dst = None)).
Proof.
  intros Hs. split; [unfold copy_till, strstr; rewrite Hs; cbn [mbind option_bind]; by intros -> |]. intros k Hk. split; [by apply copy_till_at|]. intros Hd.
  unfold copy_till, strstr. rewrite Hs. cbn [mbind option_bind]. rewrite Hk. destruct (find_sub_bounds s pat k Hk) as [H0 _].
  destruct (rdn src 0 k) as [a|]; [|done]. cbn [mbind option_bind]. destruct (wrn dst 0 a) as [d|] eqn:E; [|done].
  cbn [mbind option_bind]. apply wrn_length in E. rewrite (proj2 (wr_None _ _ _)); [done|]. right. unfold zlen in *. lia.
Qed.

Lemma copy_till_spec_witness :
  copy_till (lit "Date: now" ++ [0]) (lit ": ") (replicate 6 7) = Some (Some 6, lit "Date" ++ [0; 7]) /\
  copy_till (lit "Date: now" ++ [0]) (lit ": ") (replicate 4 7) = None.
Proof.
  destruct (copy_till_spec (lit "Date: now" ++ [0]) (lit "Date: now") (lit ": ") (replicate 6 7)) as [_ H1]; [by vm_compute|].
  destruct (copy_till_spec (lit "Date: now" ++ [0]) (lit "Date: now") (lit ": ") (replicate 4 7)) as [_ H2]; [by vm_compute|].
  destruct (H1 4) as [H1a _]; [by vm_compute|]. destruct (H2 4) as [_ H2b]; [by vm_compute|].
  split; [rewrite H1a; by vm_compute | apply H2b; by vm_compute].
Defined.

(** ** Numbers *)

Lemma digit_char c : 48 <= c <= 57 -> is_digit c = true /\ isspace c = false /\ (c =? 45) = false /\ (c =? 43) = false.
Proof. intros Hc. unfold is_digit, isspace. split_and!; lia. Qed.

Lemma digits_zeros k r n0 : digits (replicate k 48 ++ r) 0 n0 = digits r 0 (n0 + Z.of_nat k).
Proof.
  revert n0. induction k as [|k IH]; intros n0; [cbn [replicate app]; by rewrite Z.add_0_r|].
  cbn [replicate app digits]. change (is_digit 48) with true. cbv iota. change (10 * 0 + (48 - 48)) with 0. rewrite IH. f_equal. lia.
Qed.

Lemma pad_digits w n : 0 <= n -> Forall (fun c => 48 <= c <= 57) (pad w (dec n)) /\ pad w (dec n) <> [].
Proof.
  intros Hn. destruct (dec_spec n Hn) as (Hne & Hd & _). unfold pad. split.
  - apply Forall_app. split; [apply Forall_replicate; lia | done].
  - intros E. apply app_eq_nil in E as [_ E]. done.
Qed.

Lemma atoi_pad w n r : 0 <= n <= INT_MAX -> atoi (pad w (dec n) ++ 0 :: r) = Some n.
Proof.
  intros Hn. destruct (pad_digits w n) as [Hd Hne]; [lia|]. unfold atoi. rewrite cstr_app.
  2: { eapply Forall_impl; [exact Hd|]. cbn. intros c Hc. lia. }
  cbn [mbind option_bind]. assert (Hs : forall s, Forall (fun c => 48 <= c <= 57) s -> sign (skip_spaces s) = (false, s)).
  { intros [|c s] Hc; [done|]. apply Forall_cons in Hc as [Hc _]. destruct (digit_char c Hc) as (_ & H1 & H2 & H3).
    cbn [skip_spaces]. rewrite H1. cbn [sign]. by rewrite H2, H3. }
  rewrite Hs by done. destruct (dec_spec n) as (_ & _ & _ & _ & Hdec); [lia|].
  assert (E : digits (pad w (dec n)) 0 0 = (n, Z.of_nat (Z.to_nat (w - zlen (dec n))) + zlen (dec n), [])).
  { unfold pad. rewrite digits_zeros, <- (app_nil_r (dec n)) at 1. rewrite Hdec. cbn [digits]. done. }
  rewrite E. cbn [signed]. unfold INT_MAX in *. if_true. done.
Qed.

Lemma copy_till_pad w n c r t i : 0 <= n <= INT_MAX -> is_digit c = false -> c <> 0 -> is_byte c -> zlen (pad w (dec n)) <= 7 -> is_cstr r ->
  copy_till_to_int ((pad w (dec n) ++ c :: r) ++ 0 :: t) [c] i = Some (Some (zlen (pad w (dec n)) + 1), n).
Proof.
  intros Hn Hc Hc0 Hb Hlen Hr. rewrite <- app_assoc. cbn [app]. destruct (pad_digits w n) as [Hd Hne]; [lia|]. set (D := pad w (dec n)) in *.
  assert (HcD : c ∉ D).
  { intros Hin. rewrite Forall_forall in Hd. apply Hd in Hin. unfold is_digit in Hc. lia. }
  assert (Hs : cstr (D ++ c :: r ++ 0 :: t) = Some (D ++ c :: r)).
  { change (c :: r ++ 0 :: t) with ((c :: r) ++ 0 :: t). rewrite app_assoc. apply cstr_app. apply Forall_app. split.
    - eapply Forall_impl; [exact Hd|]. cbn. intros x Hx. lia.
    - constructor; [unfold is_byte in Hb; lia | done]. }
  unfold copy_till_to_int. pose proof (find_sub_first D c [] r HcD) as Hf. cbn [app] in Hf.
  assert (Hcopy : copy_till (D ++ c :: r ++ 0 :: t) [c] (replicate 8 0) = Some (Some (zlen D + 1), D ++ 0 :: drop (S (length D)) (replicate 8 0))).
  { rewrite (copy_till_at _ _ _ _ _ Hs Hf) by zl. change (zlen [c]) with 1. by rewrite zlen_to_nat, take_app_length. }
  assert (HA : atoi (D ++ 0 :: drop (S (length D)) (replicate 8 0)) = Some n) by by apply atoi_pad.
  rewrite Hcopy. cbn [mbind option_bind]. by rewrite HA.
Qed.

Lemma parse_field_pad w n c r t ts k : 0 <= n <= INT_MAX -> is_digit c = false -> c <> 0 -> is_byte c -> zlen (pad w (dec n)) <= 7 -> is_cstr r ->
  parse_field ((pad w (dec n) ++ c :: r) ++ 0 :: t) [c] ts k = k n (r ++ 0 :: t).
Proof.
  intros Hn Hc Hc0 Hb Hlen Hr. unfold parse_field. rewrite copy_till_pad by done. cbn [mbind option_bind]. f_equal.
  set (D := pad w (dec n)). replace (Z.to_nat (zlen D + 1)) with (length (D ++ [c])) by (rewrite length_app; unfold zlen; cbn; lia).
  rewrite <- app_assoc. change ((c :: r) ++ 0 :: t) with ([c] ++ r ++ 0 :: t). by rewrite app_assoc, drop_app_length.
Qed.

Lemma pad_lengths :
  (forall n, 0 <= n < 10000 -> zlen (pad 4 (dec n)) = 4) /\ (forall n, 0 <= n < 1000 -> zlen (pad 3 (dec n)) = 3) /\
  (forall n, 0 <= n < 100 -> zlen (pad 2 (dec n)) = 2).
Proof.
  split_and!; intros n Hn; apply Z.eqb_eq; revert n Hn;
    [apply (forall_range (fun n => zlen (pad 4 (dec n)) =? 4) 10000) | apply (forall_range (fun n => zlen (pad 3 (dec n)) =? 3) 1000) |
     apply (forall_range (fun n => zlen (pad 2 (dec n)) =? 2) 100)]; by vm_compute.
Qed.

Lemma pad_dec_cstr w n : 0 <= n -> is_cstr (pad w (dec n)).
Proof. intros Hn. destruct (pad_digits w n Hn) as [Hd _]. eapply Forall_impl; [exact Hd|]. cbn. intros c Hc. lia. Qed.

Ltac cstr_pads := unfold is_cstr;
  repeat first [apply pad_dec_cstr; lia | apply Forall_app; split | apply Forall_cons; split | apply Forall_nil; exact I | lia].

(** C23. [timestamp_parse] reads back every timestamp of the years 0 to 9999 that
    [timestamp_string] has printed, except for the padding bits. *)
Theorem timestamp_roundtrip t t0 r : ts_ok t -> ts_year t < 10000 ->
  timestamp_parse t0 (timestamp_string t ++ 0 :: r) =
    Some (0, mk_ts (ts_dummy t0) (ts_msec t) (ts_sec t) (ts_min t) (ts_hour t) (ts_day t) (ts_mon t) (ts_year t)).
Proof.
  intros (_ & Hms & Hs & Hmi & Hh & Hd & Hmo & Hy) Hy'. destruct pad_lengths as (H4 & H3 & H2).
  assert (E : timestamp_string t = pad 4 (dec (ts_year t)) ++ 45 :: pad 2 (dec (ts_mon t)) ++ 45 :: pad 2 (dec (ts_day t)) ++
    84 :: pad 2 (dec (ts_hour t)) ++ 58 :: pad 2 (dec (ts_min t)) ++ 58 :: pad 2 (dec (ts_sec t)) ++ 46 :: pad 3 (dec (ts_msec t)) ++ [90]).
  { unfold timestamp_string. apply firstn_all2.
    pose proof (H4 (ts_year t)). pose proof (H2 (ts_mon t)). pose proof (H2 (ts_day t)). pose proof (H2 (ts_hour t)). pose proof (H2 (ts_min t)).
    pose proof (H2 (ts_sec t)). pose proof (H3 (ts_msec t)). unfold zlen in *. repeat (rewrite length_app || cbn [length]). lia. }
  rewrite E. unfold timestamp_parse.
  change (lit "-") with [45]. change (lit "T") with [84]. change (lit ":") with [58]. change (lit ".") with [46]. change (lit "Z") with [90].
  do 7 (etransitivity; [apply parse_field_pad; [unfold INT_MAX; lia | done | done | by cbv | rewrite ?H4, ?H3, ?H2; lia | cstr_pads] | cbv beta zeta]).
    unfold set_year, set_mon, set_day, set_hour, set_min, set_sec, set_msec. cbn [ts_dummy ts_msec ts_sec ts_min ts_hour ts_day ts_mon ts_year].
  do 3 f_equal; apply Z.mod_small; lia.
Qed.

Lemma timestamp_roundtrip_witness : ts_ok (mk_ts 3 7 5 4 23 9 2 2018) /\ timestamp_parse ts_zero (timestamp_string (mk_ts 3 7 5 4 23 9 2 2018) ++ [0]) = Some (0, mk_ts 0 7 5 4 23 9 2 2018).
Proof.
  assert (H : ts_ok (mk_ts 3 7 5 4 23 9 2 2018)) by (cbv; intuition discriminate).
  split; [exact H|]. apply (timestamp_roundtrip (mk_ts 3 7 5 4 23 9 2 2018) ts_zero []); [exact H | by cbv].
Defined.

(** ** Encodings *)

Lemma utf8_validate_high c t : 128 <= c < 256 -> utf8_validate_cz (c :: t) = Some 0.
Proof.
  intros Hc. assert (Hk : (Z.land c 192 =? 128) = true -> c <= 193).
  { assert (H : forallb (fun c => negb (Z.land c 192 =? 128) || (c <=? 193)) (seqZ 0 256) = true) by by vm_compute.
    intros E. pose proof (forall_byte _ H c ltac:(unfold is_byte; lia)) as H'. cbv beta in H'. rewrite E in H'. cbn in H'. lia. }
  unfold utf8_validate_cz. rewrite rd_cons_0. cbn [mbind option_bind].
  repeat (case_match; bool_to_prop; try lia); try done; try (exfalso; lia).
Qed.

(** [utf8check] never moves past a lead byte before it looks for the bytes that
    continue it, so it accepts exactly the strings of printable ASCII and DEL:
    every text with a character outside ASCII is refused. *)
Theorem utf8check_spec s r : is_cstr s ->
  utf8check (s ++ 0 :: r) = Some (if forallb (fun c => (32 <=? c) && (c <=? 127)) s then 1 else 0).
Proof.
  intros Hs. unfold utf8check. assert (Hf : (length s < S (length (s ++ 0%Z :: r)))%nat) by (rewrite length_app; lia).
  revert Hf. generalize (S (length (s ++ 0 :: r))). induction Hs as [|c s Hc Hs IH]; intros fuel Hf; (destruct fuel as [|fuel]; [cbn in Hf; lia|]); [done|].
  cbn [utf8check_loop app forallb]. rewrite rd_cons_0. cbn [mbind option_bind]. replace (c =? 0) with false by lia.
  destruct (Z.leb_spec 128 c).
  - rewrite utf8_validate_high by lia. cbn [mbind option_bind]. replace ((32 <=? c) && (c <=? 127)) with false by lia. done.
  - unfold utf8_validate_cz. rewrite rd_cons_0. cbn [mbind option_bind]. destruct (Z.leb_spec 32 c).
    + replace ((31 <? c) && (c <=? 127)) with true by lia. cbn [mbind option_bind]. replace ((true && (c <=? 127))) with true by lia.
      change (1 =? 0) with false. cbv iota. change (Z.to_nat 1) with 1%nat. cbn [drop andb]. apply IH. cbn in Hf. lia.
    + replace ((31 <? c) && (c <=? 127)) with false by lia. replace (c <=? 193) with true by lia. done.
Qed.

Lemma utf8check_spec_witness : utf8check (lit "Arrow" ++ [0]) = Some 1 /\ utf8check ([195; 169] ++ [0]) = Some 0.
Proof.
  split; [apply (utf8check_spec (lit "Arrow") []) | apply (utf8check_spec [195; 169] [])]; by repeat constructor.
Defined.

Lemma fmt_02x_read x : is_byte x -> strtol16 (fmt_02x x ++ [0]) = Some x /\ is_cstr (fmt_02x x).
Proof.
  intros Hx. assert (H : forallb (fun x => bool_decide (strtol16 (fmt_02x x ++ [0]) = Some x) && forallb (fun c => (1 <=? c) && (c <? 256)) (fmt_02x x)) (seqZ 0 256) = true) by by vm_compute.
  pose proof (forall_byte _ H x Hx) as H'. cbv beta in H'. apply andb_true_iff in H' as [H1 H2]. split; [by apply bool_decide_eq_true in H1|].
  unfold is_cstr. rewrite Forall_forall. rewrite forallb_forall in H2. intros c Hc. apply list_elem_of_In in Hc. apply H2 in Hc. lia.
Qed.

Definition hexes (bs : list Z) : list Z := concat (map fmt_02x bs).

Lemma hexes_length bs : zlen (hexes bs) = 2 * zlen bs.
Proof. induction bs as [|x bs IH]; [done|]. unfold hexes in *. cbn [map concat]. rewrite zlen_app, IH, zlen_cons. change (zlen (fmt_02x x)) with 2. lia. Qed.

Lemma hex_encode_loop bs : forall pre P d rest, zlen P = 2 * zlen pre -> 2 * zlen bs < zlen d ->
  for_from (fun i dst => x ← rd (pre ++ bs ++ rest) i; wrn dst (i * 2) (fmt_02x x ++ [0])) (length bs) (zlen pre) (P ++ d) =
    Some (P ++ hexes bs ++ match bs with [] => d | _ => 0 :: drop (2 * length bs + 1) d end).
Proof.
  induction bs as [|x bs IH]; intros pre P d rest HP Hd; [done|]. cbn [length for_from]. rewrite <- app_comm_cons.
  rewrite (rd_app pre x) by done. cbn [mbind option_bind]. rewrite zlen_cons in Hd. pose proof (zlen_nonneg bs).
  destruct d as [|d0 [|d1 [|d2 d]]]; [unfold zlen in *; cbn in Hd; lia | unfold zlen in *; cbn in Hd; lia | unfold zlen in *; cbn in Hd; lia |].
  change (d0 :: d1 :: d2 :: d) with ([d0; d1; d2] ++ d). rewrite (wrn_app_split P (fmt_02x x ++ [0]) [d0; d1; d2] d) by (done || lia). cbn [mbind option_bind].
  change ((fmt_02x x ++ [0]) ++ d) with (fmt_02x x ++ 0 :: d). rewrite app_assoc.
  replace (zlen pre + 1) with (zlen (pre ++ [x])) by (rewrite zlen_app; done).
  replace (fun i dst => x0 ← rd (pre ++ x :: bs ++ rest) i; wrn dst (i * 2) (fmt_02x x0 ++ [0])) with
    (fun i dst => x0 ← rd ((pre ++ [x]) ++ bs ++ rest) i; wrn dst (i * 2) (fmt_02x x0 ++ [0])) by by rewrite <- app_assoc.
  rewrite (IH (pre ++ [x]) (P ++ fmt_02x x) (0 :: d) rest).
  - unfold hexes. cbn [map concat]. rewrite <- !app_assoc. do 4 f_equal. destruct bs as [|y bs]; [done|]. f_equal. cbn [length].
    replace (2 * S (length bs) + 1)%nat with (S (2 * length bs + 2))%nat by lia. replace (2 * S (S (length bs)) + 1)%nat with (3 + (2 * length bs + 2))%nat by lia. done.
  - rewrite !zlen_app. change (zlen (fmt_02x x)) with 2. change (zlen [x]) with 1. lia.
  - rewrite !zlen_cons in *. lia.
Qed.

Lemma hex_decode_loop bs : forall pre P d rest, zlen P = zlen pre -> zlen bs <= zlen d -> Forall is_byte bs ->
  for_from (fun i dst => a ← rd (hexes pre ++ hexes bs ++ rest) (i * 2); b ← rd (hexes pre ++ hexes bs ++ rest) (i * 2 + 1);
      v ← strtol16 [a; b; 0]; wr dst i (u8 v)) (length bs) (zlen pre) (P ++ d) = Some (P ++ bs ++ drop (length bs) d).
Proof.
  induction bs as [|x bs IH]; intros pre P d rest HP Hd Hb; [done|]. apply Forall_cons in Hb as [Hx Hb]. cbn [length for_from].
  destruct (fmt_02x_read x Hx) as [Hr _]. unfold fmt_02x in Hr. cbn [app] in Hr.
  change (hexes (x :: bs) ++ rest) with (hex_lower (x / 16) :: hex_lower (x mod 16) :: hexes bs ++ rest).
  pose proof (hexes_length pre) as Hl. rewrite (rd_app (hexes pre) (hex_lower (x / 16)) _ (zlen pre * 2)) by lia. cbn [mbind option_bind].
  replace (rd (hexes pre ++ hex_lower (x / 16) :: hex_lower (x mod 16) :: hexes bs ++ rest) (zlen pre * 2 + 1)) with (Some (hex_lower (x mod 16))).
  2: { change (hex_lower (x / 16) :: hex_lower (x mod 16) :: hexes bs ++ rest) with ([hex_lower (x / 16)] ++ hex_lower (x mod 16) :: hexes bs ++ rest).
       rewrite app_assoc, rd_app; [done|]. rewrite zlen_app. change (zlen [hex_lower (x / 16)]) with 1. lia. }
  cbn [mbind option_bind]. rewrite Hr. cbn [mbind option_bind]. rewrite u8_id by done. rewrite zlen_cons in Hd. pose proof (zlen_nonneg bs).
  destruct d as [|d0 d]; [unfold zlen in *; cbn in Hd; lia|]. rewrite wr_app by done. cbn [mbind option_bind].
  replace (zlen pre + 1) with (zlen (pre ++ [x])) by (rewrite zlen_app; done).
  replace (P ++ x :: d) with ((P ++ [x]) ++ d) by by rewrite <- app_assoc.
  replace (hexes pre ++ hex_lower (x / 16) :: hex_lower (x mod 16) :: hexes bs ++ rest) with (hexes (pre ++ [x]) ++ hexes bs ++ rest).
  2: { unfold hexes. rewrite map_app, concat_app, <- app_assoc. done. }
  rewrite IH; [by rewrite <- app_assoc | rewrite !zlen_app; change (zlen [x]) with 1; lia | rewrite zlen_cons in Hd; lia | done].
Qed.

(** [hex_encode] writes two lower-case digits for each byte and a terminator,
    and [hex_decode] reads the bytes back. *)
Theorem hex_roundtrip bs dst dst2 rest : Forall is_byte bs -> bs <> [] -> 2 * zlen bs < zlen dst -> zlen bs <= zlen dst2 ->
  exists t, hex_encode dst (bs ++ rest) (zlen bs) = Some t /\ cstr t = Some (hexes bs) /\
    hex_decode dst2 t (zlen bs) = Some (bs ++ drop (length bs) dst2).
Proof.
  intros Hb Hne Hd Hd2. unfold hex_encode, for_. rewrite zlen_to_nat.
  pose proof (hex_encode_loop bs [] [] dst rest eq_refl Hd) as E. cbn [app] in E. change (zlen (@nil Z)) with 0 in E. rewrite E.
  eexists. split; [done|]. destruct bs as [|b bs]; [done|]. split.
  - apply cstr_app. clear -Hb. induction Hb as [|x l Hx _ IH]; [constructor|]. unfold hexes in *. cbn [map concat]. apply Forall_app. split; [by apply fmt_02x_read | exact IH].
  - unfold hex_decode, for_. rewrite zlen_to_nat. pose proof (hex_decode_loop (b :: bs) [] [] dst2 (0 :: drop (2 * length (b :: bs) + 1) dst) eq_refl Hd2 Hb) as E2.
    cbn [app] in E2. change (zlen (@nil Z)) with 0 in E2. exact E2.
Qed.

Lemma hex_roundtrip_witness : exists t, hex_encode (replicate 9 0) [222; 173; 190; 239] 4 = Some t /\
  cstr t = Some (lit "deadbeef") /\ hex_decode (replicate 4 0) t 4 = Some [222; 173; 190; 239].
Proof.
  destruct (hex_roundtrip [222; 173; 190; 239] (replicate 9 0) (replicate 4 0) []) as (t & H1 & H2 & H3);
    [repeat constructor; by cbv | done | by cbv | by cbv |]. exists t. split; [exact H1|]. split; [exact H2 | exact H3].
Defined.

(** What stands for a character in a URL. *)
Definition url_char (x : Z) : list Z := if unreserved x then [x] else 37 :: fmt_02x x.
Definition url_text (s : list Z) : list Z := concat (map url_char s).

Lemma url_char_ok x : 1 <= x < 128 -> exists y l, url_char x = y :: l /\
  forall P d r, zlen (url_char x) = zlen d -> urlencode_char (P ++ d ++ r) (zlen P) x = Some (P ++ url_char x ++ r, zlen P + zlen (url_char x)).
Proof.
  intros Hx. unfold url_char, urlencode_char. rewrite s8_id by lia. destruct (unreserved x).
  - exists x, []. split; [done|]. intros P d r Hd. destruct d as [|d0 [|d1 d]]; [done | | unfold zlen in Hd; cbn in Hd; lia].
    cbn [app]. rewrite wr_app by done. done.
  - exists 37, (fmt_02x x). split; [done|]. intros P d r Hd. change (zlen (37 :: fmt_02x x)) with 3 in *.
    destruct d as [|d0 [|d1 [|d2 [|d3 d]]]]; [done | done | done | | unfold zlen in Hd; cbn in Hd; lia].
    assert (H : forallb (fun x => bool_decide (rd hex (Z.shiftr x 4) = Some (hex_lower (x / 16)) /\ rd hex (Z.land x 15) = Some (hex_lower (x mod 16)))) (seqZ 0 128) = true) by by vm_compute.
    pose proof (forall_range _ _ H x ltac:(lia)) as H'. cbv beta in H'. apply bool_decide_eq_true in H' as [H1 H2].
    cbn [app]. rewrite wr_app by done. cbn [mbind option_bind]. rewrite H1. cbn [mbind option_bind].
    change (P ++ 37 :: d1 :: d2 :: r) with (P ++ [37] ++ d1 :: d2 :: r). rewrite app_assoc, wr_app by by rewrite zlen_app. cbn [mbind option_bind].
    rewrite H2. cbn [mbind option_bind]. replace ((P ++ [37]) ++ hex_lower (x / 16) :: d2 :: r) with ((P ++ [37; hex_lower (x / 16)]) ++ d2 :: r) by by rewrite <- !app_assoc.
    rewrite wr_app by by rewrite zlen_app. cbn [mbind option_bind]. by rewrite <- app_assoc.
Qed.

Lemma urlencode_loop_ok s : forall P d r, Forall (fun x => 1 <= x < 128) s -> zlen (url_text s) <= zlen d ->
  urlencode_loop (length s) (P ++ d) (s ++ r) (zlen P) =
    Some (P ++ url_text s ++ drop (length (url_text s)) d, zlen P + zlen (url_text s)).
Proof.
  induction s as [|x s IH]; intros P d r Hs Hd.
  - cbn. change (zlen (@nil Z)) with 0. by rewrite Z.add_0_r.
  - apply Forall_cons in Hs as [Hx Hs]. destruct (url_char_ok x Hx) as (y & l & _ & E). unfold url_text in *. cbn [map concat] in *. rewrite zlen_app in Hd.
    pose proof (zlen_nonneg (url_char x)). pose proof (zlen_nonneg (concat (map url_char s))). destruct (split_at d (zlen (url_char x))) as (d1 & d2 & -> & Hd1); [lia|].
    cbn [length urlencode_loop app]. rewrite rd_cons_0. cbn [mbind option_bind]. rewrite E by done. cbn [mbind option_bind drop].
    rewrite app_assoc, <- zlen_app, drop_0, IH; [|done | rewrite zlen_app in Hd; lia]. rewrite <- !app_assoc, !zlen_app, length_app. do 2 f_equal; [|lia].
    replace (length (url_char x)) with (length d1) by (unfold zlen in Hd1; lia). by rewrite drop_app_add.
Qed.

(** A byte above 127 is a negative char, which indexes in front of the digits. *)
Lemma urlencode_loop_negative s : forall dst r j, Forall is_byte s -> Exists (fun x => 128 <= x) s -> urlencode_loop (length s) dst (s ++ r) j = None.
Proof.
  induction s as [|x s IH]; intros dst r j Hb He; [by apply Exists_nil in He|]. apply Forall_cons in Hb as [Hx Hb].
  cbn [length urlencode_loop app]. rewrite rd_cons_0. cbn [mbind option_bind]. change (drop 1 (x :: s ++ r)) with (s ++ r). destruct (Z.leb_spec 128 x).
  - assert (E : urlencode_char dst j x = None); [|by rewrite E]. unfold urlencode_char.
    assert (Hf : forallb (fun x => (x <? 128) || (negb (unreserved (s8 x)) && bool_decide (rd hex (Z.shiftr (s8 x) 4) = None))) (seqZ 0 256) = true) by by vm_compute.
    pose proof (forall_byte _ Hf x Hx) as H'. cbv beta in H'. replace (x <? 128) with false in H' by lia. cbn [orb] in H'.
    apply andb_true_iff in H' as [H1 H2]. apply negb_true_iff in H1. apply bool_decide_eq_true in H2. rewrite H1, H2.
    by destruct (wr dst j 37).
  - apply Exists_cons in He as [He | He]; [lia|]. destruct (urlencode_char dst j x) as [[d' j']|]; [|done]. cbn [mbind option_bind]. by apply IH.
Qed.

(** [urlencode] keeps letters, digits, [-] and [_] and writes every other ASCII
    character as [%] and two digits; given a byte above 127, as keys decoded
    from base 64 have them, it reads outside the table of digits. *)
Theorem urlencode_spec s r dst : is_cstr s ->
  (Forall (fun x => x < 128) s -> zlen (url_text s) < zlen dst ->
     urlencode dst (s ++ 0 :: r) 0 = Some (url_text s ++ 0 :: drop (S (length (url_text s))) dst)) /\
  (Exists (fun x => 128 <= x) s -> urlencode dst (s ++ 0 :: r) 0 = None).
Proof.
  intros Hs. unfold urlencode. change (0 =? 0) with true. cbv iota. rewrite strlen_cstr by done. cbn [mbind option_bind].
  pose proof (zlen_nonneg s). replace (zlen s <? 0) with false by lia. rewrite zlen_to_nat. split.
  - intros Ha Hd. pose proof (urlencode_loop_ok s [] dst (0 :: r)) as E. cbn [app] in E. change (zlen (@nil Z)) with 0 in E. rewrite E; [|  | lia].
    2: { unfold is_cstr in Hs. rewrite Forall_forall in *. intros x Hx. specialize (Hs x Hx). specialize (Ha x Hx). cbn in *. lia. }
    cbn [mbind option_bind]. rewrite Z.add_0_l. destruct (drop (length (url_text s)) dst) as [|d0 d] eqn:Ed.
    { apply (f_equal length) in Ed. rewrite length_drop in Ed. unfold zlen in Hd. cbn in Ed. lia. }
    rewrite wr_app by done. do 3 f_equal. replace (S (length (url_text s))) with (length (url_text s) + 1)%nat by lia. by rewrite <- drop_drop, Ed.
  - intros He. rewrite urlencode_loop_negative; [done | by apply is_cstr_bytes | done].
Qed.

Lemma urlencode_spec_witness : urlencode (replicate 8 7) (lit "a/b" ++ [0]) 0 = Some (lit "a%2fb" ++ [0; 7; 7]) /\
  urlencode (replicate 8 7) ([200] ++ [0]) 0 = None.
Proof.
  destruct (urlencode_spec (lit "a/b") [] (replicate 8 7)) as [H1 _]; [by repeat constructor|].
  destruct (urlencode_spec [200] [] (replicate 8 7)) as [_ H2]; [by repeat constructor|].
  split; [rewrite H1; [by vm_compute | by repeat constructor | by cbv] | apply H2; by repeat constructor].
Defined.

End Utf8.
