(* ===== verification/HttpClient.v ===== *)
(** The HTTP client: src/src/http/client.c with the request and response structures
    of include/http.

    The world outside (sockets, TLS, name resolution, a payload handler that is not
    the default one) is a type class of operations. An operation of the client is a
    function on the state - the client, the properties in memory, the world -
    that is undefined ([None]) where the code reads or writes outside a buffer.
    HTTP_PARSE_HEADER and STATIC_HTTP_CLIENT are not defined. *)
From S2P Require Import Prelude StateM ByteQueue RingBuffer LinkedList Property PropMap Double ArrowUtf8.

Module HttpClient.
Import StateM RingBuffer Property Double Utf8.

Definition RINGBUFFER_SIZE : Z := 1024.
Definition CHUNK_SIZE : Z := RINGBUFFER_SIZE / 2.
Definition MAX_TMP_BUF_SIZE : Z := CHUNK_SIZE - 1.
Definition LINE_CHUNK : Z := 40.
Definition DEFAULT_API_TIMEOUT : Z := 10000.
Definition api_via_http : Z := 0.
Definition CRLF : list Z := [13; 10].
Definition HTTP_VERS : list Z := lit " HTTP/1.1" ++ CRLF.

(** What the two pointers of [_payload_meth_t] point to: nothing, the default
    handlers of response.c, or a function of the caller's (the one of
    software_release.c), which is an operation of the world. *)
Inductive payload_handler := no_handler | default_handler | other_handler.
Record payload_meth_t := mk_meth { p_set_handler : payload_handler; p_add_handler : payload_handler }.
Definition no_meth : payload_meth_t := mk_meth no_handler no_handler.

(** [header] and [query] are pointers to the first node of a property map. *)
Record http_request_t := mk_request {
  meth : property_t; scheme : property_t; host : property_t; uri : property_t; port : Z;
  is_corrupt : Z; is_cipher : Z; is_chunked : Z;
  header : Z; content_type : property_t * property_t; query : Z; payload : property_t;
  response_payload_meth : payload_meth_t;
}.

(** A response: the fields the client itself works on, the handlers, and the
    fields it does not look at. *)
Record response_data := mk_data { r_header : Z; r_content_type : property_t * property_t; r_payload : property_t }.
Definition no_data : response_data := mk_data NULL (p_null, p_null) p_null.
Record http_response_t := mk_response {
  m_httpResponseCode : Z; res_is_chunked : Z; recvContentLength : Z; processed_payload_chunk : Z;
  res_meth : payload_meth_t; res_data : response_data;
}.

Definition with_code (r : http_response_t) (c k : Z) : http_response_t := mk_response c k (recvContentLength r) (processed_payload_chunk r) (res_meth r) (res_data r).
Definition with_res_chunked (r : http_response_t) (k : Z) : http_response_t := mk_response (m_httpResponseCode r) k (recvContentLength r) (processed_payload_chunk r) (res_meth r) (res_data r).
Definition with_length (r : http_response_t) (n : Z) : http_response_t := mk_response (m_httpResponseCode r) (res_is_chunked r) n (processed_payload_chunk r) (res_meth r) (res_data r).
Definition with_processed (r : http_response_t) (n : Z) : http_response_t := mk_response (m_httpResponseCode r) (res_is_chunked r) (recvContentLength r) n (res_meth r) (res_data r).
Definition with_data (r : http_response_t) (d : response_data) : http_response_t := mk_response (m_httpResponseCode r) (res_is_chunked r) (recvContentLength r) (processed_payload_chunk r) (res_meth r) d.

(** [http_response_init] with the handlers of a request. *)
Definition http_response_init (handler : payload_meth_t) : http_response_t := mk_response 0 0 0 0 handler no_data.

(** The operations of the world. [soc_recv] and [soc_send] choose between the
    socket and its TLS session; [soc_recv] returns its result and the bytes it
    stored. [add_payload] is a handler of the caller's; it leaves the response and
    the memory of the properties alone. *)
Class Net (W : Type) := {
  soc_recv : W -> bool -> Z -> Z * list Z * W;
  soc_send : W -> bool -> list Z -> Z * W;
  add_payload : W -> list Z -> Z * W;
  socket : W -> Z * W;
  gethostbyname : W -> list Z -> bool * W;
  setsockopt : W -> Z -> Z -> W;
  connect : W -> Z -> Z * W;
  ssl_connect : W -> Z * W;
  socket_connect_done : W -> Z * W;
  ssl_close : W -> W;
  soc_close : W -> W;
}.

(** What a buffer of the client holds when a function starts to use it: static
    storage that earlier calls wrote to, or a fresh block. *)
Class Buffers := {
  chunk : Z -> list Z;
  chunk_size n : 0 <= n -> zlen (chunk n) = n;
}.

Section client.
Context {Q W : Type} `{ByteQueue Q} `{Net W} `{Buffers}.

Record http_client_t := mk_client {
  sock : Z; timeout : Z; response_code : Z; f_close : bool; f_cipher : bool;
  queue : option Q; request : option http_request_t; protocol : Z;
}.

Definition with_queue (c : http_client_t) (q : option Q) : http_client_t := mk_client (sock c) (timeout c) (response_code c) (f_close c) (f_cipher c) q (request c) (protocol c).
Definition with_sock (c : http_client_t) (s : Z) : http_client_t := mk_client s (timeout c) (response_code c) (f_close c) (f_cipher c) (queue c) (request c) (protocol c).
Definition with_cipher (c : http_client_t) (b : bool) : http_client_t := mk_client (sock c) (timeout c) (response_code c) (f_close c) b (queue c) (request c) (protocol c).
Definition with_close (c : http_client_t) (b : bool) : http_client_t := mk_client (sock c) (timeout c) (response_code c) b (f_cipher c) (queue c) (request c) (protocol c).
Definition with_request (c : http_client_t) (r : option http_request_t) : http_client_t := mk_client (sock c) (timeout c) (response_code c) (f_close c) (f_cipher c) (queue c) r (protocol c).
Definition with_response_code (c : http_client_t) (n : Z) : http_client_t := mk_client (sock c) (timeout c) n (f_close c) (f_cipher c) (queue c) (request c) (protocol c).
Definition with_protocol (c : http_client_t) (p : Z) : http_client_t := mk_client (sock c) (timeout c) (response_code c) (f_close c) (f_cipher c) (queue c) (request c) p.

Record st := mk_st { cl : http_client_t; props : PropMap.world; wd : W }.

#[local] Abbreviation M := (StateM.M st).

Definition get : M http_client_t := fun s => Some (cl s, s).
Definition put (c : http_client_t) : M unit := fun s => Some (tt, mk_st c (props s) (wd s)).
Definition world {A} (f : W -> A * W) : M A := fun s => let (a, w) := f (wd s) in Some (a, mk_st (cl s) (props s) w).
Definition get_props : M PropMap.world := fun s => Some (props s, s).
Definition put_mem (m : memory) : M unit := fun s => Some (tt, mk_st (cl s) (PropMap.set_mem (props s) m) (wd s)).

Definition put_props (w : PropMap.world) : M unit := fun s => Some (tt, mk_st (cl s) w (wd s)).

(** ** The queue; a client without one is dereferenced. *)

Definition queue_op {A} (f : Q -> option (A * Q)) : M A :=
  c ← get; q ← lift (queue c); r ← lift (f q);
  _ ← put (with_queue c (Some r.2)); mret r.1.
Definition push (s : list Z) (len : Z) : M Z := queue_op (fun q => q_push q s len).
Definition pop (dst : list Z) (len : Z) : M (Z * list Z) := queue_op (fun q => '(rc, q, d) ← q_pop q dst len; Some ((rc, d), q)).
Definition clear : M Z := queue_op q_clear.
Definition capacity : M Z := queue_op (fun q => Some (q_room q, q)).
Definition size : M Z := queue_op (fun q => Some (q_size q, q)).

(** ** Strings *)

(** [P_VALUE] as a C string. *)
Definition text_of (w : PropMap.world) (p : property_t) : option (list Z) := b ← bytes_at (PropMap.w_mem w) (value p); cstr b.
Definition P_VALUE (p : property_t) : M (list Z) := w ← get_props; lift (text_of w p).
Definition payload_size (p : property_t) : M Z := w ← get_props; lift (property_size (PropMap.w_mem w) p).
Definition payload_bytes (p : property_t) : M (list Z) := w ← get_props; lift (bytes_at (PropMap.w_mem w) (value p)).

(** [snprintf(buf, n, ...)] of a text; the result is the length of the text. *)
Definition snprintf (buf : list Z) (n : Z) (text : list Z) : option (list Z) :=
  if n <=? 0 then Some buf else wrn buf 0 (take (Z.to_nat (n - 1)) text ++ [0]).
Definition strcat (buf s : list Z) : option (list Z) := n ← strlen buf; wrn buf n (s ++ [0]).
Definition strcpy (buf s : list Z) : option (list Z) := wrn buf 0 (s ++ [0]).
Definition u64 (z : Z) : Z := z mod 18446744073709551616.

(** [%02X] *)
Definition hex_upper (n : Z) : Z := if n <? 10 then 48 + n else 55 + n.
Fixpoint hex_loop (fuel : nat) (n : Z) (acc : list Z) : list Z :=
  match fuel with
  | O => acc
  | S fuel' => let acc := hex_upper (n mod 16) :: acc in if n <? 16 then acc else hex_loop fuel' (n / 16) acc
  end.
Definition fmt_02X (n : Z) : list Z := pad 2 (hex_loop (S (Z.to_nat (Z.log2 n))) n []).

(** ** The socket *)

(** [len] is a uint16_t. *)
Definition client_recv (len : Z) : M Z :=
  let len := u16 len in
  cap ← capacity;
  let len := if cap <? len then cap else len in
  c ← get;
  r ← world (fun w => soc_recv w (f_cipher c) len);
  let '(ret, data) := r in
  if 0 <? ret then
    tmp ← lift (wrn (chunk MAX_TMP_BUF_SIZE) 0 data);
    rc ← push tmp ret;
    mret (if rc <? 0 then -1 else ret)
  else mret ret.

(** [buf] NULL: what the queue holds is sent. [len] is a uint16_t. *)
Definition simple_write (buf : option (list Z)) (len : Z) : M Z :=
  let len := u16 len in
  c ← get;
  match buf with
  | None =>
      len ← (if len =? 0 then size else mret len);
      r ← pop (chunk MAX_TMP_BUF_SIZE) len;
      if r.1 <? 0 then mret (-1) else
      data ← lift (rdn r.2 0 len);
      world (fun w => soc_send w (f_cipher c) data)
  | Some b =>
      len ← (if len =? 0 then n ← lift (strlen b); mret (u16 n) else mret len);
      data ← lift (rdn b 0 len);
      world (fun w => soc_send w (f_cipher c) data)
  end.
Definition client_send : M Z := simple_write None 0.
Definition client_send_direct (b : list Z) (len : Z) : M Z := simple_write (Some b) len.

(** ** Sending a request *)

(** The pairs of the query, through [tmpbuffer]; a pair that does not fit ends it. *)
Fixpoint query_loop (fuel : nat) (p : Z) (tmpbuffer : list Z) : M (list Z) :=
  match fuel with
  | O => lift None
  | S fuel' =>
      if p =? NULL then mret tmpbuffer else
      w ← get_props;
      node ← lift (PropMap.node_of w p);
      k ← P_VALUE node.1;
      v ← P_VALUE node.2;
      cap ← capacity;
      if cap <? zlen k + zlen v + 3 then mret tmpbuffer else
      tmpbuffer ← lift (b ← strcat tmpbuffer k; b ← strcat b (lit "="); strcat b v);
      n ← lift (strlen tmpbuffer);
      cap ← capacity;
      if u64 (cap - 12 - 1) <? n then mret tmpbuffer else
      rc ← push tmpbuffer 0;
      if rc <? 0 then mret tmpbuffer else
      tmpbuffer ← lift (strcpy tmpbuffer (lit "&"));
      next ← lift (PropMap.w_next w !! p);
      query_loop fuel' next tmpbuffer
  end.

Definition nodes_fuel (w : PropMap.world) : nat := LinkedList.nodes_fuel (PropMap.w_next w).

Definition send_start (req : http_request_t) : M Z :=
  _ ← clear;
  m ← P_VALUE (meth req);
  u ← P_VALUE (uri req);
  let text := m ++ lit " " ++ u in
  tmpbuffer ← lift (snprintf (chunk CHUNK_SIZE) MAX_TMP_BUF_SIZE text);
  rc ← push tmpbuffer (zlen text);
  if rc <? 0 then mret (-1) else
  tmpbuffer ← (if negb (query req =? NULL) then
                 tmpbuffer ← lift (strcpy tmpbuffer (lit "?"));
                 w ← get_props;
                 query_loop (nodes_fuel w) (query req) tmpbuffer
               else mret tmpbuffer);
  ret ← push (HTTP_VERS ++ [0]) 0;
  if ret <? 0 then mret ret else
  ret ← client_send;
  if ret <? 0 then mret ret else
  h ← P_VALUE (host req);
  let text := lit "Host: " ++ h ++ lit ":" ++ fmt_d (port req) ++ CRLF in
  tmpbuffer ← lift (snprintf tmpbuffer MAX_TMP_BUF_SIZE text);
  rc ← push tmpbuffer (zlen text);
  if rc <? 0 then mret (-1) else
  ret ← client_send;
  mret (if ret <? 0 then ret else 0).

(** [snprintf] into [tmpbuffer] with the room of the queue, and the push. *)
Definition push_line (text : list Z) : M Z :=
  cap ← capacity;
  tmpbuffer ← lift (snprintf (chunk CHUNK_SIZE) cap text);
  push tmpbuffer (zlen text).

Fixpoint header_loop (fuel : nat) (p : Z) : M Z :=
  match fuel with
  | O => lift None
  | S fuel' =>
      if p =? NULL then client_send_direct (CRLF ++ [0]) 2 else
      w ← get_props;
      _ ← clear;
      node ← lift (PropMap.node_of w p);
      k ← P_VALUE node.1;
      v ← P_VALUE node.2;
      rc ← push_line (k ++ lit ": " ++ v ++ CRLF);
      if rc <? 0 then mret (-1) else
      ret ← client_send;
      if ret <? 0 then mret ret else
      next ← lift (PropMap.w_next w !! p);
      header_loop fuel' next
  end.

(** The lines of a request with a payload; a negative result ends [send_header]. *)
Definition send_payload_headers (req : http_request_t) (n : Z) : M Z :=
  rc ← (if negb (is_chunked req =? 0) then mret 0 else push_line (lit "Content-Length: " ++ dec n ++ CRLF));
  if rc <? 0 then mret (-1) else
  ret ← (if negb (is_chunked req =? 0) then client_send_direct (lit "Transfer-Encoding: chunked" ++ CRLF ++ [0]) 0
         else client_send);
  _ ← clear;
  if ret <? 0 then mret ret else
  v ← P_VALUE (content_type req).2;
  rc ← push_line (lit "Content-Type: " ++ v ++ CRLF);
  if rc <? 0 then mret (-1) else client_send.

Definition has_payload (req : http_request_t) : M Z := if negb (IS_EMPTY (payload req)) then payload_size (payload req) else mret 0.

Definition send_header (req : http_request_t) : M Z :=
  _ ← clear;
  n ← has_payload req;
  ret ← (if negb (n =? 0) then send_payload_headers req n else mret 0);
  if ret <? 0 then mret ret else
  w ← get_props;
  header_loop (nodes_fuel w) (header req).

(** The loop goes on while [len >= 0] and ends with an empty chunk. *)
Fixpoint chunk_loop (fuel : nat) (data : list Z) (len trData : Z) : M Z :=
  match fuel with
  | O => lift None
  | S fuel' =>
      if len <? 0 then mret 0 else
      let n := if CHUNK_SIZE <? len then CHUNK_SIZE else len in
      let text := fmt_02X n ++ CRLF in
      buf ← lift (wrn (chunk 6) 0 (text ++ [0]));
      _ ← client_send_direct buf (zlen text);
      _ ← (if negb (n =? 0) then b ← lift (rdn data trData (zlen data - trData)); client_send_direct b n else mret 0);
      _ ← client_send_direct (CRLF ++ [0]) 2;
      if n =? 0 then mret 0 else chunk_loop fuel' data (len - n) (trData + n)
  end.

Definition send_payload (req : http_request_t) : M Z :=
  n ← has_payload req;
  if negb (n =? 0) then
    data ← payload_bytes (payload req);
    if negb (is_chunked req =? 0) then chunk_loop (S (S (Z.to_nat (n / CHUNK_SIZE)))) data n 0
    else client_send_direct data n
  else mret (-1).

(** ** Reading lines *)

(** [strncmp(buf + size - 2, "\r\n", 2) != 0] *)
Definition line_open (buf : list Z) (size : Z) : option bool :=
  if size <? 2 then Some true else e ← rdn buf (size - 2) 2; Some (negb (bool_decide (e = CRLF))).

(** Returns the offset of the end of line, or NULL, and the buffer. How long the
    peer keeps it waiting decides how often the loop runs. *)
Fixpoint wait_line_loop (fuel : nat) (buf : list Z) (size maxsize : Z) : M (option Z * list Z) :=
  match fuel with
  | O => lift None
  | S fuel' =>
      more ← lift (line_open buf size);
      if (more : bool) then
        r ← pop (drop (Z.to_nat size) buf) 1;
        if r.1 =? 0 then
          let buf := take (Z.to_nat size) buf ++ r.2 in
          let size := size + 1 in
          buf ← lift (wr buf size 0);
          if size =? maxsize then mret (None, buf) else wait_line_loop fuel' buf size maxsize
        else
          cap ← capacity;
          if LINE_CHUNK <? cap then
            ret ← client_recv LINE_CHUNK;
            if ret <? 0 then mret (None, buf) else wait_line_loop fuel' buf size maxsize
          else mret (None, buf)
      else mret (Some (size - 2), buf)
  end.
Definition wait_line (fuel : nat) (buf : list Z) (maxsize : Z) : M (option Z * list Z) := wait_line_loop fuel buf 0 maxsize.

(** ** Receiving a response *)

(** The lines of less than ten characters in front of the status line are skipped. *)
Fixpoint status_loop (fuel lines : nat) (tmp : list Z) : M (option (list Z)) :=
  match lines with
  | O => lift None
  | S lines' =>
      r ← wait_line fuel tmp RINGBUFFER_SIZE;
      match r.1 with
      | None => mret None
      | Some crlf =>
          tmp ← lift (wr r.2 crlf 0);
          if crlf <? 10 then status_loop fuel lines' tmp else mret (Some tmp)
      end
  end.

(** The status code is stored through a pointer to int into a field of 16 bits:
    on a little-endian machine its upper half goes to the next field. *)
Definition receive_response (fuel lines : nat) (res : http_response_t) : M (Z * http_response_t) :=
  _ ← clear;
  t ← status_loop fuel lines (chunk RINGBUFFER_SIZE);
  match t with
  | None => mret (-1, res)
  | Some tmp =>
      p ← lift (strstr tmp (lit "HTTP/1.1 "));
      match p with
      | None => mret (-1, res)
      | Some o =>
          r ← lift (copy_till_to_int (drop (Z.to_nat (o + 9)) tmp) (lit " OK") (m_httpResponseCode res + 65536 * res_is_chunked res));
          match r.1 with
          | None => mret (-1, res)
          | Some _ =>
              let res := with_code res (u16 r.2) (u16 (r.2 / 65536)) in
              c ← get;
              _ ← put (with_response_code c (m_httpResponseCode res));
              mret (0, res)
          end
      end
  end.

(** One header: a name, a colon and a space, and the value. *)
Definition apply_header (key value : list Z) (res : http_response_t) : option http_response_t :=
  k ← cstr key;
  if bool_decide (k = lit "Content-Length") then n ← atoi value; Some (with_length res (u32 n)) else
  if bool_decide (k = lit "Transfer-Encoding") then
    v ← cstr value;
    Some (if bool_decide (v = lit "Chunked") || bool_decide (v = lit "chunked") then with_res_chunked res 1 else res)
  else Some res.

Fixpoint recv_header_loop (fuel lines : nat) (tmp key value : list Z) (res : http_response_t) : M (Z * http_response_t) :=
  match lines with
  | O => lift None
  | S lines' =>
      r ← wait_line fuel tmp RINGBUFFER_SIZE;
      match r.1 with
      | None => mret (0, res)
      | Some crlf =>
          if crlf =? 0 then mret (0, res) else
          let tmp := r.2 in
          k ← lift (copy_till tmp (lit ": ") key);
          match k.1 with
          | None => mret (-1, res)
          | Some o =>
              v ← lift (copy_till (drop (Z.to_nat o) tmp) CRLF value);
              match v.1 with
              | None => mret (-1, res)
              | Some _ =>
                  res ← lift (apply_header k.2 v.2 res);
                  recv_header_loop fuel lines' tmp k.2 v.2 res
              end
          end
      end
  end.
Definition receive_headers (fuel lines : nat) (res : http_response_t) : M (Z * http_response_t) :=
  recv_header_loop fuel lines (chunk RINGBUFFER_SIZE) (chunk (CHUNK_SIZE / 4)) (chunk CHUNK_SIZE) res.

Definition get_chunked_payload_size (fuel : nat) : M Z :=
  r ← wait_line fuel (chunk RINGBUFFER_SIZE) RINGBUFFER_SIZE;
  match r.1 with
  | None => mret (-1)
  | Some _ =>
      p ← lift (copy_till_hex_to_int r.2 CRLF 0);
      mret (match p.1 with None => -1 | Some _ => p.2 end)
  end.

Context (malloc : memory -> Z -> option (Z * list Z)) (disp : list prop_type).

(** src/src/http/response.c *)
Definition default_set_payload_handler (m : memory) (res : response_data) (buf : property_t) : option (Z * memory * response_data) :=
  '(m, p, _) ← property_move malloc disp m (r_payload res) buf;
  Some (0, m, mk_data (r_header res) (r_content_type res) p).

Definition default_add_payload_handler (m : memory) (res : response_data) (p : property_t) : option (Z * memory * response_data) :=
  '(m, p) ← (if IS_EMPTY (r_payload res) then '(m, p, _) ← property_move malloc disp m (r_payload res) p; Some (m, p)
             else '(_, m, p) ← property_concat malloc disp m (r_payload res) p; Some (m, p));
  Some (0, m, mk_data (r_header res) (r_content_type res) p).

(** An address without an object. *)
Definition unused (m : memory) : Z := 1 + map_fold (fun a _ b => Z.max a b) 0 m.

(** The default handler is given [p_stack_raw(tmpbuffer, n)]: while it runs, the
    bytes of the piece are an object of their own. *)
Definition add_piece (w : PropMap.world) (d : response_data) (data : list Z) : option (Z * PropMap.world * response_data) :=
  let tmpbuffer := unused (PropMap.w_mem w) in
  '(ret, m, d) ← default_add_payload_handler (<[tmpbuffer := (false, data)]> (PropMap.w_mem w)) d
    (mk_prop tmpbuffer (Z.lor PROPERTY_STACK_TAG (Z.lor is_owner is_raw)) (zlen data));
  Some (ret, PropMap.set_mem w (delete tmpbuffer m), d).

(** The handler's result, and the count of the pieces. *)
Definition http_response_add_payload (res : http_response_t) (data : list Z) : M (Z * http_response_t) :=
  r ← match p_add_handler (res_meth res) with
      | no_handler => lift None
      | default_handler =>
          w ← get_props;
          r ← lift (add_piece w (res_data res) data);
          _ ← put_props r.1.2;
          mret (r.1.1, with_data res r.2)
      | other_handler => ret ← world (fun w => add_payload w data); mret (ret, res)
      end;
  if r.1 <? 0 then mret (-1, r.2) else mret (0, with_processed r.2 (processed_payload_chunk r.2 + 1)).

(** Waits until the queue holds [need] bytes; the fourth error ends it. *)
Fixpoint fill_loop (fuel : nat) (need no_data_error : Z) : M (Z * Z) :=
  match fuel with
  | O => lift None
  | S fuel' =>
      n ← size;
      if n <? need then
        ret ← client_recv (need - n);
        if ret <? 0 then
          if 2 <? no_data_error then mret (-1, no_data_error + 1) else fill_loop fuel' need (no_data_error + 1)
        else fill_loop fuel' need no_data_error
      else mret (0, no_data_error)
  end.

(** The bytes of one chunk, in pieces of [CHUNK_SIZE]: (rc, errors, tmpbuffer, res). *)
Fixpoint piece_loop (fuel pieces : nat) (chunk_len no_data_error : Z) (tmpbuffer : list Z) (res : http_response_t)
    : M (Z * Z * list Z * http_response_t) :=
  match pieces with
  | O => lift None
  | S pieces' =>
      if chunk_len =? 0 then mret (0, no_data_error, tmpbuffer, res) else
      let need := if chunk_len <? CHUNK_SIZE then chunk_len else CHUNK_SIZE in
      f ← fill_loop fuel need no_data_error;
      if f.1 <? 0 then mret (-1, f.2, tmpbuffer, res) else
      r ← pop tmpbuffer need;
      if r.1 <? 0 then mret (-1, f.2, r.2, res) else
      data ← lift (rdn r.2 0 need);
      a ← http_response_add_payload res data;
      if a.1 <? 0 then _ ← clear; mret (-1, f.2, r.2, a.2) else
      piece_loop fuel pieces' (chunk_len - need) f.2 r.2 a.2
  end.

Fixpoint payload_loop (fuel chunks : nat) (no_data_error : Z) (tmpbuffer : list Z) (res : http_response_t) : M (Z * http_response_t) :=
  match chunks with
  | O => lift None
  | S chunks' =>
      chunk_len ← (if negb (res_is_chunked res =? 0) then get_chunked_payload_size fuel else mret (s32 (recvContentLength res)));
      if chunk_len <=? 0 then mret (0, res) else
      p ← piece_loop fuel (S (S (Z.to_nat (chunk_len / CHUNK_SIZE)))) chunk_len no_data_error tmpbuffer res;
      let '(rc, errors, tmpbuffer, res) := p in
      if rc <? 0 then mret (-1, res) else
      if res_is_chunked res =? 0 then mret (0, res) else
      r ← wait_line fuel tmpbuffer CHUNK_SIZE;
      payload_loop fuel chunks' errors r.2 res
  end.
Definition receive_payload (fuel chunks : nat) (res : http_response_t) : M (Z * http_response_t) :=
  payload_loop fuel chunks 0 (chunk CHUNK_SIZE) res.

(** The fuel bounds the waiting in one line or piece, and the number of lines and chunks. *)
Definition default_http_client_do (fuel : nat) (res : http_response_t) : M (Z * http_response_t) :=
  c ← get;
  match request c with
  | None => mret (-1, res)
  | Some req =>
      let res := http_response_init (response_payload_meth req) in
      ret ← send_start req;
      if ret <? 0 then mret (-1, res) else
      ret ← send_header req;
      if ret <? 0 then mret (-1, res) else
      ret ← (if negb (IS_EMPTY (payload req)) then send_payload req else mret 0);
      if ret <? 0 then mret (-1, res) else
      _ ← clear;
      r ← receive_response fuel fuel res;
      if r.1 <? 0 then mret (-1, r.2) else
      let res := with_processed (with_res_chunked r.2 0) 0 in
      r ← receive_headers fuel fuel res;
      if r.1 <? 0 then mret (-1, r.2) else
      receive_payload fuel fuel r.2
  end.

(** ** The session *)

Definition http_session_is_open (c : http_client_t) : Z := if sock c <? 0 then 0 else 1.
(** HTTP_SOCK_KEEP_OPEN is not defined. *)
Definition http_session_close_set (mode : bool) : M unit := c ← get; put (with_close c mode).
Definition http_session_set_protocol (prot : Z) : M unit := c ← get; put (with_protocol c prot).

Definition default_http_client_close : M Z :=
  c ← get;
  let c := with_request c None in
  _ ← put c;
  if negb (protocol c =? api_via_http) then mret (-1) else
  if sock c <? 0 then mret (-1) else
  if negb (f_close c) then mret 1 else
  _ ← (if f_cipher c then _ ← world (fun w => (tt, ssl_close w)); put (with_cipher c false) else mret tt);
  _ ← world (fun w => (tt, soc_close w));
  c ← get;
  _ ← put (with_sock c (-1));
  mret 0.

(** The name of the host, as a string of its own. *)
Definition resolve (req : http_request_t) : M bool :=
  w ← get_props;
  r ← lift (property_as_null_terminated malloc disp (PropMap.w_mem w) (host req));
  let '(m, h) := r in
  name ← lift (b ← bytes_at m (value h); cstr b);
  found ← world (fun w => gethostbyname w name);
  m ← lift (property_free disp m h);
  _ ← put_mem m.1;
  mret found.

Definition default_http_client_open (req : http_request_t) : M Z :=
  c ← get;
  let c := with_request (with_response_code c 0) (Some req) in
  _ ← put c;
  if negb (protocol c =? api_via_http) then mret (-1) else
  match queue c with
  | None => mret (-1)
  | Some _ =>
      _ ← clear;
      if sock c <? 0 then
        ret ← world socket;
        if ret <? 0 then mret ret else
        c ← get;
        _ ← put (with_sock c ret);
        found ← resolve req;
        if negb (found : bool) then mret (-1) else
        _ ← world (fun w => (tt, setsockopt w (timeout c / 1000) (timeout c mod 1000 * 1000)));
        ret ← world (fun w => connect w (port req));
        if ret <? 0 then
          _ ← world (fun w => (tt, soc_close w));
          c ← get; _ ← put (with_sock c (-1)); mret (-1)
        else
        ret ← (if negb (is_cipher req =? 0) then
                 c ← get; _ ← put (with_cipher c true);
                 ret ← world ssl_connect;
                 _ ← (if ret <? 0 then c ← get; put (with_close c true) else mret tt);
                 mret ret
               else mret 0);
        if ret <? 0 then _ ← default_http_client_close; mret (-1) else
        ret ← world socket_connect_done;
        if ret <? 0 then _ ← default_http_client_close; mret (-1) else mret 0
      else mret 0
  end.
End client.

(** [http_client_init] allocates the queue; the socket and the flags are set only
    when that has worked. *)
Definition http_client_init (alloc : bool) (malloc : Z -> option (list Z)) (cli : @http_client_t ring_buffer_t) : Z * @http_client_t ring_buffer_t :=
  if negb alloc then (-1, with_queue cli None) else
  let '(ret, q) := ringbuf_init malloc (mk_ring None 0 0 0) RINGBUFFER_SIZE in
  if ret <? 0 then (ret, with_queue cli (Some q)) else
  (0, mk_client (-1) DEFAULT_API_TIMEOUT (response_code cli) true false (Some q) (request cli) api_via_http).

Definition http_client_free (cli : @http_client_t ring_buffer_t) : option (Z * @http_client_t ring_buffer_t) :=
  _ ← queue cli; Some (0, with_protocol (with_queue cli None) api_via_http).

End HttpClient.
