(* ===== verification/HttpPeer.v ===== *)
(** What the HTTP client relies on: a peer that has sent some bytes, takes all
    that is sent to it, and a handler that accepts the payload, as laws on the
    world of HttpClient; and the queue and the socket of the client against
    such a peer. *)
From S2P Require Import Prelude StateM ByteQueue LinkedList Property PropMap Double ArrowUtf8 HttpClient.

Module HttpPeer.
Import StateM Property Double Utf8 HttpClient.

(** The bytes to be received, the bytes sent, the pieces handed to the handler. *)
Record view := mk_view { input : list Z; output : list Z; pieces : list (list Z) }.

(** A stream socket returns at least one byte while there is one, and at most
    [segment] of them at a time; it takes all that is sent. *)
Class NetPeer (W : Type) `{Net W} := {
  see : W -> view;
  segment : Z;
  net_recv w b n : 1 <= n -> input (see w) <> [] ->
    exists k w', soc_recv w b n = (k, take (Z.to_nat k) (input (see w)), w') /\ 1 <= k <= n /\ k <= segment /\ k <= zlen (input (see w)) /\
      see w' = mk_view (drop (Z.to_nat k) (input (see w))) (output (see w)) (pieces (see w));
  net_send w b bs : bs <> [] -> exists w', soc_send w b bs = (zlen bs, w') /\ see w' = mk_view (input (see w)) (output (see w) ++ bs) (pieces (see w));
  net_payload w p : exists k w', add_payload w p = (k, w') /\ 0 <= k /\ see w' = mk_view (input (see w)) (output (see w)) (pieces (see w) ++ [p]);
}.

(** What a state of the client stands for: the bytes in the queue, the response
    code and the view of the peer. *)
Record abs := mk_abs { held : list Z; code : Z; net : view }.

Definition hold (a : abs) (q : list Z) : abs := mk_abs q (code a) (net a).
Definition sent (a : abs) (bs : list Z) : abs := mk_abs (held a) (code a) (mk_view (input (net a)) (output (net a) ++ bs) (pieces (net a))).
Definition handed (a : abs) (p : list Z) : abs := mk_abs (held a) (code a) (mk_view (input (net a)) (output (net a)) (pieces (net a) ++ [p])).

(** The bytes still to be read. *)
Definition stream (a : abs) : list Z := held a ++ input (net a).
(** After reading: [rest] is still to be read, nothing else has changed. *)
Definition reads (a : abs) (rest : list Z) (a' : abs) : Prop :=
  stream a' = rest /\ code a' = code a /\ output (net a') = output (net a) /\ pieces (net a') = pieces (net a).

Section peer.
Context {U W : Type} `{ByteQueue U} `{NetPeer W} `{Buffers}.
Context (c0 : @http_client_t U) (pw : PropMap.world).

#[local] Abbreviation M := (StateM.M (@st U W)).

Definition rep (a : abs) (s : @st U W) : Prop := exists q w,
  s = mk_st (with_response_code (with_queue c0 (Some q)) (code a)) pw w /\
  q_ok q /\ q_bytes q = held a /\ q_room q + zlen (held a) = RINGBUFFER_SIZE - 1 /\ see w = net a.

(** [runs m a Q]: on every state that stands for [a] the operation is defined, and
    the state after it stands for one that satisfies [Q] with the result. *)
Definition runs {A} (m : M A) (a : abs) (Q : A -> abs -> Prop) : Prop :=
  forall s, rep a s -> does m s (fun x s' => exists a', rep a' s' /\ Q x a').

Lemma runs_ret {A} (x : A) a (Q : A -> abs -> Prop) : Q x a -> runs (mret x) a Q.
Proof. intros HQ s Hs. apply does_ret. eauto. Qed.

Lemma runs_bind {A B} (m : M A) (f : A -> M B) a (Q : B -> abs -> Prop) : runs m a (fun x a' => runs (f x) a' Q) -> runs (m ≫= f) a Q.
Proof. intros Hm s Hs. eapply does_bind; [by apply Hm|]. intros x s' (a' & Hs' & Hf). by apply Hf. Qed.

Lemma runs_mono {A} (m : M A) a (P Q : A -> abs -> Prop) : runs m a P -> (forall x a', P x a' -> Q x a') -> runs m a Q.
Proof. intros Hm HPQ s Hs. eapply does_mono; [by apply Hm|]. intros x s' (a' & ? & ?). eauto. Qed.

Lemma runs_lift {A} (o : option A) x a (Q : A -> abs -> Prop) : o = Some x -> Q x a -> runs (lift o) a Q.
Proof. intros -> HQ s Hs. eapply does_lift; [done|]. eauto. Qed.

Lemma runs_get a (Q : @http_client_t U -> abs -> Prop) :
  (forall q, q_ok q -> Q (with_response_code (with_queue c0 (Some q)) (code a)) a) -> runs get a Q.
Proof. intros HQ s Hs. pose proof Hs as (q & w & -> & Hq & _). eexists _, _. split; [done|]. exists a. split; [done|]. by apply HQ. Qed.

Lemma runs_props a (Q : PropMap.world -> abs -> Prop) : Q pw a -> runs get_props a Q.
Proof. intros HQ s Hs. pose proof Hs as (q & w & -> & _). eexists _, _. split; [done|]. by exists a. Qed.

Lemma runs_value p t a (Q : list Z -> abs -> Prop) : text_of pw p = Some t -> Q t a -> runs (P_VALUE p) a Q.
Proof. intros Ht HQ. apply runs_bind, runs_props. by eapply runs_lift. Qed.

(** An operation on the queue. *)
Lemma runs_queue {A} (f : U -> option (A * U)) a x b (Q' : A -> abs -> Prop) :
  (forall q, q_ok q -> q_bytes q = held a -> q_room q + zlen (held a) = RINGBUFFER_SIZE - 1 ->
     exists q', f q = Some (x, q') /\ q_ok q' /\ q_bytes q' = b /\ q_room q' + zlen b = RINGBUFFER_SIZE - 1) ->
  Q' x (hold a b) -> runs (queue_op f) a Q'.
Proof.
  intros Hf HQ s (q & w & -> & Hok & Hb & Hr & Hv). destruct (Hf q Hok Hb Hr) as (q' & E & Hok' & Hb' & Hr').
  exists x, (mk_st (with_response_code (with_queue c0 (Some q')) (code a)) pw w). split.
  - unfold queue_op, get, put, lift, mbind, M_bind, mret, M_ret. cbn [cl queue with_response_code with_queue mbind option_bind props wd]. rewrite E. done.
  - exists (hold a b). split; [|done]. by exists q', w.
Qed.

Lemma runs_push s rest a Q' : s <> [] -> zlen (held a ++ s) <= RINGBUFFER_SIZE - 1 -> Q' 0 (hold a (held a ++ s)) -> runs (push (s ++ rest) (zlen s)) a Q'.
Proof.
  intros Hs Hl HQ. eapply runs_queue; [|exact HQ]. intros q Hok Hb Hr. rewrite zlen_app in Hl.
  destruct (q_push_fits q s rest Hok Hs) as (q' & E & Hok' & Hb' & Hr'); [lia|]. exists q'. rewrite Hb', Hb. split_and!; try done. rewrite zlen_app. lia.
Qed.

Lemma runs_push_str s rest a Q' : is_cstr s -> s <> [] -> zlen (held a ++ s) <= RINGBUFFER_SIZE - 1 -> Q' 0 (hold a (held a ++ s)) ->
  runs (push (s ++ 0 :: rest) 0) a Q'.
Proof.
  intros Hc Hs Hl HQ. eapply runs_queue; [|exact HQ]. intros q Hok Hb Hr. rewrite zlen_app in Hl. rewrite q_push_str by done.
  destruct (q_push_fits q s (0 :: rest) Hok Hs) as (q' & E & Hok' & Hb' & Hr'); [lia|]. exists q'. rewrite Hb', Hb. split_and!; try done. rewrite zlen_app. lia.
Qed.

Lemma runs_pop dst n a Q' : 0 <= n <= zlen (held a) -> n <= zlen dst ->
  Q' (0, take (Z.to_nat n) (held a) ++ drop (Z.to_nat n) dst) (hold a (drop (Z.to_nat n) (held a))) -> runs (pop dst n) a Q'.
Proof.
  intros Hn Hd HQ. eapply runs_queue; [|exact HQ]. intros q Hok Hb Hr.
  destruct (q_pop_all q n dst Hok) as (q' & E & Hok' & Hb' & Hr'); [by rewrite Hb | done|]. rewrite E. cbn [mbind option_bind].
  exists q'. rewrite Hb', Hb. split_and!; try done. rewrite Hr'. unfold zlen in *. rewrite length_drop. lia.
Qed.

Lemma hold_held a : hold a (held a) = a.
Proof. by destruct a. Qed.

Lemma runs_pop_short dst n a Q' : zlen (held a) < n -> Q' (-1, dst) a -> runs (pop dst n) a Q'.
Proof.
  intros Hn HQ. eapply (runs_queue _ _ _ (held a)); [|by rewrite hold_held]. intros q Hok Hb Hr. exists q.
  rewrite q_pop_short by (done || by rewrite Hb). done.
Qed.

Lemma runs_clear a Q' : Q' 0 (hold a []) -> runs clear a Q'.
Proof.
  intros HQ. eapply runs_queue; [|exact HQ]. intros q Hok Hb Hr. destruct (q_clear_empty q Hok) as (q' & E & Hok' & Hb' & Hr').
  exists q'. split_and!; try done. rewrite Hr', Hb. change (zlen (@nil Z)) with 0. lia.
Qed.

Lemma runs_capacity a Q' : Q' (RINGBUFFER_SIZE - 1 - zlen (held a)) a -> runs capacity a Q'.
Proof.
  intros HQ. eapply (runs_queue _ _ _ (held a)); [|by rewrite hold_held]. intros q Hok Hb Hr. exists q. split_and!; try done. do 2 f_equal. lia.
Qed.

Lemma runs_size a Q' : Q' (zlen (held a)) a -> runs size a Q'.
Proof.
  intros HQ. eapply (runs_queue _ _ _ (held a)); [|by rewrite hold_held]. intros q Hok Hb Hr. exists q. split_and!; try done. by rewrite q_size_bytes, Hb.
Qed.

(** An operation of the world. *)
Lemma runs_world {A} (f : W -> A * W) a v (Q' : A -> abs -> Prop) (P : A -> Prop) :
  (forall w, see w = net a -> exists x w', f w = (x, w') /\ P x /\ see w' = v x) ->
  (forall x, P x -> Q' x (mk_abs (held a) (code a) (v x))) -> runs (world f) a Q'.
Proof.
  intros Hf HQ s (q & w & -> & Hok & Hb & Hr & Hv). destruct (Hf w Hv) as (x & w' & E & HP & Hv').
  eexists _, _. unfold world. cbn [wd]. rewrite E. split; [done|]. exists (mk_abs (held a) (code a) (v x)). split; [|by apply HQ].
  by exists q, w'.
Qed.

Lemma runs_send b bs a Q' : bs <> [] -> Q' (zlen bs) (sent a bs) -> runs (world (fun w => soc_send w b bs)) a Q'.
Proof.
  intros Hbs HQ. eapply (runs_world _ _ (fun _ => net (sent a bs)) _ (fun x => x = zlen bs)); [|by intros x ->].
  intros w Hw. destruct (net_send w b bs Hbs) as (w' & E & Hw'). exists (zlen bs), w'. by rewrite Hw', Hw.
Qed.

(** ** The socket *)

Lemma runs_client_recv len a Q' : input (net a) <> [] -> 1 <= len < 65536 -> zlen (held a) < RINGBUFFER_SIZE - 1 -> len <= MAX_TMP_BUF_SIZE \/ segment <= MAX_TMP_BUF_SIZE ->
  (forall k, 1 <= k <= len -> k <= zlen (input (net a)) ->
     Q' k (mk_abs (held a ++ take (Z.to_nat k) (input (net a))) (code a) (mk_view (drop (Z.to_nat k) (input (net a))) (output (net a)) (pieces (net a))))) ->
  runs (client_recv len) a Q'.
Proof.
  intros Hin Hlen Hroom Hseg HQ. unfold client_recv. rewrite u16_id by lia. apply runs_bind, runs_capacity.
  set (cap := RINGBUFFER_SIZE - 1 - zlen (held a)). set (n := if cap <? len then cap else len).
  assert (Hcap : 1 <= cap) by (unfold cap; lia).
  assert (Hn : 1 <= n <= len /\ n <= cap) by (unfold n; destruct (Z.ltb_spec cap len); lia).
  assert (Hce : cap = RINGBUFFER_SIZE - 1 - zlen (held a)) by done. clearbody n cap.
  apply runs_bind, runs_get. intros q Hq. set (b := f_cipher _). apply runs_bind.
  apply (runs_world _ _ (fun r => mk_view (drop (Z.to_nat r.1) (input (net a))) (output (net a)) (pieces (net a))) _
    (fun r => r.2 = take (Z.to_nat r.1) (input (net a)) /\ 1 <= r.1 <= n /\ r.1 <= segment /\ r.1 <= zlen (input (net a)))).
  { intros w Hw. destruct (net_recv w b n) as (k & w' & E & Hk & Hks & Hki & Hw'); [lia | by rewrite Hw |]. rewrite Hw in *. eexists _, w'. split; [exact E|]. done. }
  intros [k data] (Hd & Hk & Hks & Hki). cbn [fst snd] in *. subst data. replace (0 <? k) with true by lia.
  set (d := take (Z.to_nat k) (input (net a))). assert (Hdl : zlen d = k) by (unfold d, zlen in *; rewrite length_take; lia).
  assert (Hmax : k <= MAX_TMP_BUF_SIZE) by (destruct Hseg as [Hseg|Hseg]; [lia|]; etransitivity; [exact Hks|exact Hseg]).
  destruct (split_at (chunk MAX_TMP_BUF_SIZE) k) as (x & y & Hxy & Hx); [rewrite chunk_size by (by cbv); lia|].
  apply runs_bind. eapply runs_lift; [rewrite Hxy; apply wrn_app_0; lia|]. apply runs_bind.
  rewrite <- Hdl at 1. apply runs_push.
  - intros E. rewrite E in Hdl. change (zlen (@nil Z)) with 0 in Hdl. lia.
  - cbn [held]. rewrite zlen_app. lia.
  - apply runs_ret. apply (HQ k); [|exact Hki]. split; [apply Hk|]. etransitivity; [apply Hk | apply Hn].
Qed.

Lemma runs_client_send a Q' : held a <> [] -> zlen (held a) <= MAX_TMP_BUF_SIZE -> Q' (zlen (held a)) (sent (hold a []) (held a)) -> runs client_send a Q'.
Proof.
  intros Hne Hl HQ. unfold client_send, simple_write. change (u16 0) with 0. cbv zeta. apply runs_bind, runs_get. intros q Hq. set (b := f_cipher _).
  change (0 =? 0) with true. cbv iota. apply runs_bind, runs_size, runs_bind. pose proof (zlen_nonneg (held a)).
  apply runs_pop; [lia | rewrite chunk_size by (by cbv); lia |]. rewrite !zlen_to_nat, firstn_all, drop_all. change (0 <? 0) with false. cbv iota.
  apply runs_bind. eapply runs_lift; [by apply rdn_app_0|]. by apply runs_send.
Qed.

Lemma runs_direct s rest a Q' : s <> [] -> zlen s < 65536 -> Q' (zlen s) (sent a s) -> runs (client_send_direct (s ++ rest) (zlen s)) a Q'.
Proof.
  intros Hne Hl HQ. assert (Hpos : 0 < zlen s) by (destruct s; [done | zl]). unfold client_send_direct, simple_write. rewrite u16_id by lia. apply runs_bind, runs_get. intros q Hq. set (b := f_cipher _).
  replace (zlen s =? 0) with false by lia. apply runs_bind, runs_ret, runs_bind.
  eapply runs_lift; [by apply rdn_app_0|]. by apply runs_send.
Qed.

Lemma runs_direct_str s rest a Q' : is_cstr s -> s <> [] -> zlen s < 65536 -> Q' (zlen s) (sent a s) -> runs (client_send_direct (s ++ 0 :: rest) 0) a Q'.
Proof.
  intros Hc Hne Hl HQ. pose proof (zlen_nonneg s). unfold client_send_direct, simple_write. change (u16 0) with 0. apply runs_bind, runs_get. intros q Hq. set (b := f_cipher _).
  change (0 =? 0) with true. cbv iota. apply runs_bind, runs_bind. eapply runs_lift; [by apply strlen_cstr|]. apply runs_ret. rewrite u16_id by lia.
  apply runs_bind. eapply runs_lift; [by apply rdn_app_0|]. by apply runs_send.
Qed.

(** [snprintf] of a text that fits. *)
Lemma snprintf_fits buf n text : zlen text < n -> zlen text < zlen buf -> snprintf buf n text = Some (text ++ 0 :: drop (S (length text)) buf).
Proof.
  intros Ht Hn. pose proof (zlen_nonneg text). unfold snprintf. replace (n <=? 0) with false by lia.
  rewrite firstn_all2 by (unfold zlen in *; lia). destruct (split_at buf (zlen text + 1)) as (x & y & -> & Hx); [lia|].
  rewrite wrn_app_0 by (rewrite zlen_app; change (zlen [0]) with 1; lia). rewrite <- app_assoc. do 3 f_equal. cbn.
  replace (S (length text)) with (length x) by (unfold zlen in Hx; lia). by rewrite drop_app_length.
Qed.

Lemma strcat_fits s t r : is_cstr s -> zlen t <= zlen r -> exists r', strcat (s ++ 0 :: r) t = Some ((s ++ t) ++ 0 :: r') /\ zlen r' = zlen r - zlen t.
Proof.
  intros Hs Hl. unfold strcat. rewrite strlen_cstr by done. cbn [mbind option_bind].
  destruct (split_at (0 :: r) (zlen t + 1)) as (x & y & E & Hx); [rewrite zlen_cons; pose proof (zlen_nonneg t); lia|].
  exists y. rewrite E. rewrite wrn_app_split by (rewrite ?zlen_app; change (zlen [0]) with 1; lia). rewrite <- !app_assoc. split; [done|].
  apply (f_equal zlen) in E. rewrite zlen_cons, zlen_app in E. lia.
Qed.

End peer.

(** ** The default payload handler

    With the default handler the memory of the properties changes, and the handler
    can be undefined. [ends m a pw Q]: on the states that stand for [a] with the
    properties [pw] the operation is undefined and [Q None], or it is defined and
    [Q] holds of its result, of what the state after it stands for and of the
    properties. *)

Section ends.
Context {U W : Type} `{ByteQueue U} `{NetPeer W}.
Context (c0 : @http_client_t U).
#[local] Abbreviation M := (StateM.M (@st U W)).

Definition ends {A} (m : M A) (a : abs) (pw : PropMap.world) (Q : option (A * abs * PropMap.world) -> Prop) : Prop :=
  forall s, rep c0 pw a s -> match m s with
    | None => Q None
    | Some (x, s') => exists a' pw', rep c0 pw' a' s' /\ Q (Some (x, a', pw'))
    end.

Lemma ends_runs {A} (m : M A) a pw Q : runs c0 pw m a (fun x a' => Q (Some (x, a', pw))) -> ends m a pw Q.
Proof. intros Hm s Hs. destruct (Hm s Hs) as (x & s' & -> & a' & Hs' & HQ). by exists a', pw. Qed.

Lemma ends_bind {A B} (m : M A) (f : A -> M B) a pw Q :
  ends m a pw (fun o => match o with None => Q None | Some (x, a', pw') => ends (f x) a' pw' Q end) -> ends (m ≫= f) a pw Q.
Proof.
  intros Hm s Hs. specialize (Hm s Hs). unfold mbind, M_bind. destruct (m s) as [[x s']|]; [|done].
  destruct Hm as (a' & pw' & Hs' & Hf). by apply Hf.
Qed.

(** A step that leaves the properties alone. *)
Lemma ends_step {A B} (m : M A) (f : A -> M B) a pw Q : runs c0 pw m a (fun x a' => ends (f x) a' pw Q) -> ends (m ≫= f) a pw Q.
Proof. intros Hm. by apply ends_bind, ends_runs. Qed.

Lemma ends_ret {A} (x : A) a pw (Q : _ -> Prop) : Q (Some (x, a, pw)) -> ends (mret x) a pw Q.
Proof. intros HQ. by apply ends_runs, runs_ret. Qed.

Lemma ends_mono {A} (m : M A) a pw (P Q : option (A * abs * PropMap.world) -> Prop) : ends m a pw P -> (forall o, P o -> Q o) -> ends m a pw Q.
Proof. intros Hm HPQ s Hs. specialize (Hm s Hs). destruct (m s) as [[x s']|]; [|by apply HPQ]. destruct Hm as (a' & pw' & Hs' & HP). exists a', pw'. by split; [|apply HPQ]. Qed.

Context (malloc : memory -> Z -> option (Z * list Z)) (disp : list prop_type).

(** What the properties, the response and the pieces of the world are after a
    piece has been handed over; undefined where the handler is. *)
Definition hand (h : payload_handler) (p : list Z) (st : PropMap.world * response_data * list (list Z)) : option (PropMap.world * response_data * list (list Z)) :=
  let '(w, d, ps) := st in
  match h with
  | no_handler => None
  | default_handler => '(_, w, d) ← add_piece malloc disp w d p; Some (w, d, ps)
  | other_handler => Some (w, d, ps ++ [p])
  end.
Definition hand_all (h : payload_handler) (ps : list (list Z)) (st : PropMap.world * response_data * list (list Z)) : option (PropMap.world * response_data * list (list Z)) :=
  fold_opt (hand h) ps st.

(** A handler of the caller's is given the pieces in order. *)
Lemma hand_all_other ps w d qs : hand_all other_handler ps (w, d, qs) = Some (w, d, qs ++ ps).
Proof.
  revert qs. unfold hand_all. induction ps as [|p ps IH]; intros qs; cbn [fold_opt]; [by rewrite app_nil_r|].
  cbn [hand mbind option_bind]. by rewrite IH, <- app_assoc.
Qed.

(** The handlers put something into the response only by [with_data]. *)
Definition take_in (a : abs) (qs : list (list Z)) : abs := mk_abs (held a) (code a) (mk_view (input (net a)) (output (net a)) qs).

Lemma add_piece_result w d p ret w' d' : add_piece malloc disp w d p = Some (ret, w', d') -> ret = 0.
Proof.
  unfold add_piece, default_add_payload_handler. intros E.
  match type of E with context [if ?b then _ else _] => destruct b end.
  - destruct (property_move _ _ _ _ _) as [[[m p'] q]|]; [|done]. cbn [mbind option_bind] in E. by injection E as <- _ _.
  - destruct (property_concat _ _ _ _ _) as [[[r m] p']|]; [|done]. cbn [mbind option_bind] in E. by injection E as <- _ _.
Qed.

Lemma ends_add_payload res p a pw (Q : _ -> Prop) :
  match hand (p_add_handler (res_meth res)) p (pw, res_data res, pieces (net a)) with
  | None => Q None
  | Some (pw', d, qs) => Q (Some ((0, with_processed (with_data res d) (processed_payload_chunk res + 1)), take_in a qs, pw'))
  end -> ends (http_response_add_payload malloc disp res p) a pw Q.
Proof.
  intros HQ. unfold http_response_add_payload. destruct (p_add_handler (res_meth res)); cbn [hand] in HQ.
  - intros s Hs. done.
  - apply ends_bind. intros s Hs. pose proof Hs as (q & w & -> & Hq). erewrite bind_run by done. cbn [props].
    destruct (add_piece malloc disp pw (res_data res) p) as [[[ret w'] d]|] eqn:E; [|done]. cbn [mbind option_bind] in HQ.
    apply add_piece_result in E as ->. cbn. exists a, w'. split; [by exists q, w|].
    apply ends_ret. destruct a as [? ? []]. exact HQ.
  - cbn [mbind option_bind] in HQ. apply ends_step, runs_bind.
    apply (runs_world c0 pw _ _ (fun _ => net (handed a p)) _ (fun k => 0 <= k)).
    + intros w Hw. destruct (net_payload w p) as (k & w' & E & Hk & Hw'). exists k, w'. by rewrite Hw', Hw.
    + intros k Hk. apply runs_ret. cbn [fst snd]. replace (k <? 0) with false by lia. apply ends_ret. by destruct res.
Qed.

End ends.
End HttpPeer.
