(* ===== verification/HttpSend.v ===== *)
(** Sending a request: the request line with its query, the headers and the
    payload of src/src/http/client.c reach the peer as the text of the request. *)
From S2P Require Import Prelude StateM ByteQueue LinkedList Property PropMap Double ArrowUtf8 HttpClient HttpPeer.

Module HttpSend.
Import StateM Property Double Utf8 HttpClient HttpPeer.

(** ** The text of a request *)

Definition pair_text (kv : list Z * list Z) : list Z := kv.1 ++ 61 :: kv.2.
(** The query, each pair after a separator, the first one after [sep]. *)
Fixpoint query_text (sep : Z) (l : list (list Z * list Z)) : list Z :=
  match l with [] => [] | kv :: l' => (sep :: pair_text kv) ++ query_text 38 l' end.
Definition request_line (m u : list Z) (q : list (list Z * list Z)) : list Z := m ++ lit " " ++ u ++ query_text 63 q ++ HTTP_VERS.
Definition host_line (h : list Z) (port : Z) : list Z := lit "Host: " ++ h ++ lit ":" ++ fmt_d port ++ CRLF.
Definition header_line (kv : list Z * list Z) : list Z := kv.1 ++ lit ": " ++ kv.2 ++ CRLF.

(** The pairs a map in memory holds. *)
Definition pair_at (w : PropMap.world) (n : Z) (kv : list Z * list Z) : Prop :=
  exists k v, PropMap.node_of w n = Some (k, v) /\ text_of w k = Some kv.1 /\ text_of w v = Some kv.2 /\ is_cstr kv.1 /\ is_cstr kv.2.
Definition map_texts (w : PropMap.world) (root : Z) (l : list (list Z * list Z)) : Prop :=
  exists nodes, LinkedList.is_list (PropMap.w_next w) root nodes /\ Forall2 (pair_at w) nodes l.

(** A property map holds its pairs. *)
Lemma map_rep_texts w root es : PropMap.map_rep w root es -> map_texts w root (PropMap.pairs es).
Proof.
  intros [Hl He _]. exists (map PropMap.e_node es). split; [done|]. unfold PropMap.pairs. clear Hl.
  induction He as [|e es (Hn & Hk & Hv) _ IH]; cbn [map]; constructor; [|done].
  destruct (PropMap.stored_text _ _ _ Hk) as (Htk & Hrk & Hck). destruct (PropMap.stored_text _ _ _ Hv) as (Htv & Hrv & Hcv).
  exists (PropMap.e_key e), (PropMap.e_val e). unfold prop_text in *. rewrite Hrk in Htk. rewrite Hrv in Htv. by split_and!.
Qed.

Lemma map_texts_fuel w root l nodes : LinkedList.is_list (PropMap.w_next w) root nodes -> Forall2 (pair_at w) nodes l -> (length l < nodes_fuel w)%nat.
Proof.
  intros Hl Hf. apply LinkedList.is_list_size in Hl. apply Forall2_length in Hf. unfold nodes_fuel, LinkedList.nodes_fuel. lia.
Qed.

Section send.
Context {U W : Type} `{ByteQueue U} `{NetPeer W} `{Buffers}.
Context (c0 : @http_client_t U) (pw : PropMap.world).

#[local] Abbreviation runs := (runs c0 pw).

(** A full line through [tmpbuffer] and the queue, and out. *)
Lemma runs_push_line text a Q' : held a = [] -> text <> [] -> zlen text <= MAX_TMP_BUF_SIZE -> Q' 0 (hold a text) -> runs (push_line text) a Q'.
Proof.
  intros Ha Hne Hl HQ. change MAX_TMP_BUF_SIZE with 511 in Hl. unfold push_line. apply runs_bind, runs_capacity, runs_bind. rewrite Ha. change (zlen (@nil Z)) with 0.
  eapply runs_lift; [apply snprintf_fits; [change RINGBUFFER_SIZE with 1024; lia | rewrite chunk_size by (by cbv); change CHUNK_SIZE with 512; lia]|].
  apply runs_push; rewrite ?Ha; cbn [app]; [done | change RINGBUFFER_SIZE with 1024; lia | exact HQ].
Qed.

Lemma runs_query_loop l : forall nodes fuel p sep t a Q', LinkedList.is_list (PropMap.w_next pw) p nodes -> Forall2 (pair_at pw) nodes l -> (length l < fuel)%nat ->
  1 <= sep < 256 -> zlen (sep :: 0 :: t) = CHUNK_SIZE -> zlen (held a) + zlen (query_text sep l) <= 500 ->
  (forall tmp, zlen tmp = CHUNK_SIZE -> Q' tmp (hold a (held a ++ query_text sep l))) -> runs (query_loop fuel p (sep :: 0 :: t)) a Q'.
Proof.
  induction l as [|kv l IH]; intros nodes fuel p sep t a Q' Hl Hf Hfuel Hsep Ht Hfit HQ; (destruct fuel as [|fuel]; [cbn in Hfuel; lia|]); cbn [query_loop].
  - apply Forall2_nil_inv_r in Hf as ->. cbn in Hl. subst p. change (LinkedList.NULL =? NULL) with true. cbv iota. apply runs_ret.
    specialize (HQ _ Ht). cbn [query_text] in HQ. by rewrite app_nil_r, hold_held in HQ.
  - apply Forall2_cons_inv_r in Hf as (n & nodes' & (k & v & Hn & Hk & Hv & Hck & Hcv) & Hf & ->). destruct Hl as (-> & Hn0 & nxt & Hnxt & Hl).
    rewrite (proj2 (Z.eqb_neq n NULL)) by done. apply runs_bind, runs_props, runs_bind. eapply runs_lift; [exact Hn|]. cbn [fst snd].
    apply runs_bind, (runs_value _ _ _ kv.1); [done|]. apply runs_bind, (runs_value _ _ _ kv.2); [done|]. apply runs_bind, runs_capacity.
    cbn [query_text] in *. unfold pair_text in *. rewrite !zlen_app, !zlen_cons, zlen_app, zlen_cons in Hfit. change CHUNK_SIZE with 512 in Ht. rewrite !zlen_cons in Ht.
    pose proof (zlen_nonneg (held a)). pose proof (zlen_nonneg kv.1). pose proof (zlen_nonneg kv.2). pose proof (zlen_nonneg (query_text 38 l)).
    change RINGBUFFER_SIZE with 1024. replace (1024 - 1 - zlen (held a) <? zlen kv.1 + zlen kv.2 + 3) with false by lia.
    assert (Hc1 : is_cstr [sep]) by (repeat constructor; lia).
    destruct (strcat_fits [sep] kv.1 t) as (t1 & E1 & L1); [done | lia|].
    assert (Hc2 : is_cstr ([sep] ++ kv.1)) by by apply Forall_app.
    destruct (strcat_fits ([sep] ++ kv.1) [61] t1) as (t2 & E2 & L2); [done | change (zlen [61]) with 1; lia|]. change (zlen [61]) with 1 in L2.
    assert (Hc3 : is_cstr (([sep] ++ kv.1) ++ [61])) by (apply Forall_app; split; [done | by repeat constructor]).
    destruct (strcat_fits (([sep] ++ kv.1) ++ [61]) kv.2 t2) as (t3 & E3 & L3); [done | lia|].
    assert (Hc4 : is_cstr ((([sep] ++ kv.1) ++ [61]) ++ kv.2)) by by apply Forall_app.
    apply runs_bind. change (sep :: 0 :: t) with ([sep] ++ 0 :: t). change (lit "=") with [61].
    eapply runs_lift; [rewrite E1; cbn [mbind option_bind]; rewrite E2; cbn [mbind option_bind]; exact E3|].
    set (item := (([sep] ++ kv.1) ++ [61]) ++ kv.2) in *.
    assert (Hitem : zlen item = zlen kv.1 + zlen kv.2 + 2) by (unfold item; rewrite !zlen_app; change (zlen [sep]) with 1; change (zlen [61]) with 1; lia).
    apply runs_bind. eapply runs_lift; [by apply strlen_cstr|]. apply runs_bind, runs_capacity. change RINGBUFFER_SIZE with 1024.
    replace (u64 (1024 - 1 - zlen (held a) - 12 - 1) <? zlen item) with false by (unfold u64; rewrite Z.mod_small by lia; lia).
    apply runs_bind. apply runs_push_str; [done | by intros E; rewrite E in Hitem; change (zlen (@nil Z)) with 0 in Hitem; lia | rewrite zlen_app; change RINGBUFFER_SIZE with 1024; lia |].
    change (0 <? 0) with false. cbv iota. apply runs_bind.
    assert (E4 : exists t4, strcpy (item ++ 0 :: t3) (lit "&") = Some (38 :: 0 :: t4) /\ zlen (38 :: 0 :: t4) = 512).
    { unfold strcpy. change (lit "&" ++ [0]) with [38; 0]. destruct (split_at (item ++ 0 :: t3) 2) as (x & y & E & Hx); [rewrite zlen_app, zlen_cons; pose proof (zlen_nonneg t3); lia|].
      exists y. rewrite E, wrn_app_0 by (change (zlen [38; 0]) with 2; lia). split; [done|]. apply (f_equal zlen) in E. rewrite !zlen_app, zlen_cons in E. rewrite !zlen_cons. lia. }
    destruct E4 as (t4 & E4 & L4). eapply runs_lift; [exact E4|]. apply runs_bind. eapply runs_lift; [exact Hnxt|].
    assert (Happ : held a ++ (sep :: kv.1 ++ 61 :: kv.2) ++ query_text 38 l = held (hold a (held a ++ item)) ++ query_text 38 l).
    { unfold item. cbn [held hold app]. rewrite <- !app_assoc. cbn [app]. by rewrite <- app_assoc. }
    apply (IH nodes' _ _ _ _ _ _ Hl Hf); [cbn in Hfuel; lia | lia | done | cbn [held hold]; rewrite zlen_app; lia |].
    intros tmp Htmp. specialize (HQ tmp Htmp). rewrite Happ in HQ. exact HQ.
Qed.

(** ** The request line and the host *)

Record start_ok (req : http_request_t) (m u h : list Z) (q : list (list Z * list Z)) : Prop := {
  so_meth : text_of pw (meth req) = Some m;
  so_uri : text_of pw (uri req) = Some u;
  so_host : text_of pw (host req) = Some h;
  so_query : map_texts pw (query req) q;
  so_line : zlen (request_line m u q) <= MAX_TMP_BUF_SIZE;
  so_host_line : zlen (host_line h (port req)) < MAX_TMP_BUF_SIZE;
}.

Lemma runs_send_start req m u h q a Q' : start_ok req m u h q ->
  Q' 0 (sent (hold a []) (request_line m u q ++ host_line h (port req))) -> runs (send_start req) a Q'.
Proof.
  intros [Hm Hu Hh (nodes & Hl & Hf) Hline Hhost] HQ. unfold send_start. apply runs_bind, runs_clear, runs_bind, (runs_value _ _ _ m); [done|].
  apply runs_bind, (runs_value _ _ _ u); [done|]. apply runs_bind. set (text := m ++ lit " " ++ u). change MAX_TMP_BUF_SIZE with 511 in *.
  assert (Hrl : request_line m u q = (text ++ query_text 63 q) ++ HTTP_VERS) by (unfold request_line, text; by rewrite <- !app_assoc).
  rewrite Hrl, !zlen_app in Hline. change (zlen HTTP_VERS) with 11 in Hline. pose proof (zlen_nonneg (query_text 63 q)).
  assert (Ht : 0 < zlen text) by (unfold text; rewrite !zlen_app; change (zlen (lit " ")) with 1; pose proof (zlen_nonneg m); pose proof (zlen_nonneg u); lia).
  assert (Hch : zlen (chunk CHUNK_SIZE) = 512) by by rewrite chunk_size by (by cbv).
  eapply runs_lift; [apply snprintf_fits; lia|]. apply runs_bind, runs_push; [by intros ->; change (zlen (@nil Z)) with 0 in Ht; lia | cbn [held hold app]; change RINGBUFFER_SIZE with 1024; lia |].
  change (0 <? 0) with false. cbv iota. cbn [held hold app]. apply runs_bind.
  assert (Hq : forall Q'' : list Z -> abs -> Prop, (forall tmp, zlen tmp = 512 -> Q'' tmp (hold a (text ++ query_text 63 q))) ->
    runs (if negb (query req =? NULL) then
      tmpbuffer ← lift (strcpy (text ++ 0 :: drop (S (length text)) (chunk CHUNK_SIZE)) (lit "?")); w ← get_props; query_loop (nodes_fuel w) (query req) tmpbuffer
      else mret (text ++ 0 :: drop (S (length text)) (chunk CHUNK_SIZE))) (hold a text) Q'').
  { intros Q'' HQ''. assert (Hlen : zlen (text ++ 0 :: drop (S (length text)) (chunk CHUNK_SIZE)) = 512) by (clear -Hch Hline Ht; revert Hch Hline; unfold zlen; rewrite length_app; cbn [length]; rewrite length_drop; lia).
    destruct nodes as [|n nodes].
    - apply Forall2_nil_inv_l in Hf as ->. cbn in Hl. rewrite Hl. change (negb (LinkedList.NULL =? NULL)) with false. cbv iota. apply runs_ret.
      specialize (HQ'' _ Hlen). cbn [query_text] in HQ''. by rewrite app_nil_r in HQ''.
    - assert (Hn0 : query req <> NULL) by by destruct Hl as (-> & Hn0 & _). rewrite (proj2 (Z.eqb_neq _ NULL)) by done. cbn [negb]. apply runs_bind.
      assert (E4 : exists t4, strcpy (text ++ 0 :: drop (S (length text)) (chunk CHUNK_SIZE)) (lit "?") = Some (63 :: 0 :: t4) /\ zlen (63 :: 0 :: t4) = 512).
      { unfold strcpy. change (lit "?" ++ [0]) with [63; 0]. destruct (split_at (text ++ 0 :: drop (S (length text)) (chunk CHUNK_SIZE)) 2) as (x & y & E & Hx); [lia|].
        exists y. rewrite E, wrn_app_0 by (change (zlen [63; 0]) with 2; lia). split; [done|]. rewrite E, zlen_app in Hlen. rewrite !zlen_cons. lia. }
      destruct E4 as (t4 & E4 & L4). eapply runs_lift; [exact E4|]. apply runs_bind, runs_props.
      apply (runs_query_loop q (n :: nodes)); try done; [by eapply map_texts_fuel | cbn [held hold]; lia]. }
  apply Hq. clear Hq. intros tmp Htmp. apply runs_bind, runs_push_str; [by repeat constructor | done | cbn [held hold]; rewrite !zlen_app; change (zlen HTTP_VERS) with 11; change RINGBUFFER_SIZE with 1024; lia |].
  change (0 <? 0) with false. cbv iota. cbn [held hold code net]. apply runs_bind, runs_client_send.
  { cbn [held hold]. by destruct text. }
  { cbn [held hold]. rewrite !zlen_app. change (zlen HTTP_VERS) with 11. change MAX_TMP_BUF_SIZE with 511. lia. }
  cbn [held hold]. rewrite <- Hrl. pose proof (zlen_nonneg (request_line m u q)). replace (zlen (request_line m u q) <? 0) with false by lia.
  apply runs_bind, (runs_value _ _ _ h); [done|]. apply runs_bind. change (lit "Host: " ++ h ++ lit ":" ++ fmt_d (port req) ++ CRLF) with (host_line h (port req)).
  eapply runs_lift; [apply snprintf_fits; lia|]. apply runs_bind, runs_push; [done | cbn [held hold sent app]; change RINGBUFFER_SIZE with 1024; lia |].
  change (0 <? 0) with false. cbv iota. apply runs_bind, runs_client_send; [done | cbn [held hold sent app]; change MAX_TMP_BUF_SIZE with 511; lia |].
  cbn [held hold sent app]. pose proof (zlen_nonneg (host_line h (port req))). replace (zlen (host_line h (port req)) <? 0) with false by lia.
  apply runs_ret. unfold sent, hold in *. cbn [held code net input output pieces] in *. by rewrite <- app_assoc.
Qed.

(** ** The headers *)

(** A line that goes out by itself. *)
Definition line_ok (s : list Z) : Prop := zlen s <= MAX_TMP_BUF_SIZE.

Lemma hold_nil a : held a = [] -> hold a [] = a.
Proof. intros <-. apply hold_held. Qed.

Lemma runs_header_loop l : forall nodes fuel p a Q', LinkedList.is_list (PropMap.w_next pw) p nodes -> Forall2 (pair_at pw) nodes l -> (length l < fuel)%nat ->
  held a = [] -> Forall (fun kv => line_ok (header_line kv)) l ->
  (forall x, 0 <= x -> Q' x (sent a (concat (map header_line l) ++ CRLF))) -> runs (header_loop fuel p) a Q'.
Proof.
  induction l as [|kv l IH]; intros nodes fuel p a Q' Hl Hf Hfuel Ha Hok HQ; (destruct fuel as [|fuel]; [cbn in Hfuel; lia|]); cbn [header_loop].
  - apply Forall2_nil_inv_r in Hf as ->. cbn in Hl. subst p. change (LinkedList.NULL =? NULL) with true. cbv iota.
    apply (runs_direct c0 pw CRLF [0]); [done | by cbv |]. by apply HQ.
  - apply Forall2_cons_inv_r in Hf as (n & nodes' & (k & v & Hn & Hk & Hv & Hck & Hcv) & Hf & ->). destruct Hl as (-> & Hn0 & nxt & Hnxt & Hl).
    apply Forall_cons in Hok as [Hkv Hok]. rewrite (proj2 (Z.eqb_neq n NULL)) by done. apply runs_bind, runs_props, runs_bind, runs_clear, runs_bind.
    eapply runs_lift; [exact Hn|]. cbn [fst snd]. apply runs_bind, (runs_value _ _ _ kv.1); [done|]. apply runs_bind, (runs_value _ _ _ kv.2); [done|].
    change (kv.1 ++ lit ": " ++ kv.2 ++ CRLF) with (header_line kv).
    assert (Hne : header_line kv <> []) by (unfold header_line; by destruct kv.1).
    apply runs_bind, runs_push_line; [done | done | done |]. change (0 <? 0) with false. cbv iota.
    apply runs_bind, runs_client_send; [done | done |]. pose proof (zlen_nonneg (header_line kv)). cbn [held hold]. replace (zlen (header_line kv) <? 0) with false by lia.
    apply runs_bind. eapply runs_lift; [exact Hnxt|]. apply (IH nodes'); [done | done | cbn in Hfuel; lia | done | done |]. intros x Hx. specialize (HQ x Hx).
    unfold sent, hold in *. cbn [held code net input output pieces map concat] in *. rewrite Ha in HQ. by rewrite <- !app_assoc in *.
Qed.

(** The lines that announce a payload of [n] bytes. *)
Definition type_lines (req : http_request_t) (ct : list Z) (n : Z) : list Z :=
  (if is_chunked req =? 0 then lit "Content-Length: " ++ dec n ++ CRLF else lit "Transfer-Encoding: chunked" ++ CRLF) ++ lit "Content-Type: " ++ ct ++ CRLF.

Lemma runs_send_payload_headers req ct n a Q' : held a = [] -> text_of pw (content_type req).2 = Some ct -> 
  line_ok (lit "Content-Length: " ++ dec n ++ CRLF) -> line_ok (lit "Content-Type: " ++ ct ++ CRLF) ->
  (forall x, 0 <= x -> Q' x (sent a (type_lines req ct n))) -> runs (send_payload_headers req n) a Q'.
Proof.
  intros Ha Hct Hn Hc HQ. unfold send_payload_headers.
  set (first := if is_chunked req =? 0 then lit "Content-Length: " ++ dec n ++ CRLF else lit "Transfer-Encoding: chunked" ++ CRLF).
  apply runs_bind. apply (runs_mono _ _ _ _ (fun rc a' => rc = 0 /\ a' = hold a (if is_chunked req =? 0 then first else []))).
  { unfold first. destruct (is_chunked req =? 0) eqn:E; cbn [negb].
    - apply runs_push_line; [done | done | done | done].
    - apply runs_ret. split; [done|]. by rewrite <- Ha, hold_held. }
  intros rc a' [-> ->]. change (0 <? 0) with false. cbv iota. apply runs_bind.
  apply (runs_mono _ _ _ _ (fun ret a' => 0 <= ret /\ a' = sent (hold a []) first)).
  { pose proof (zlen_nonneg first). unfold first in *. destruct (is_chunked req =? 0) eqn:E; cbn [negb].
    - apply runs_client_send; [done | done |]. cbn [held hold]. split; [lia | done].
    - apply (runs_direct_str c0 pw (lit "Transfer-Encoding: chunked" ++ CRLF) []); [by repeat constructor | done | by cbv |]. done. }
  intros ret a' [Hret ->]. apply runs_bind, runs_clear. replace (ret <? 0) with false by lia.
  apply runs_bind, (runs_value _ _ _ ct); [done|]. apply runs_bind, runs_push_line; [done | done | done |].
  change (0 <? 0) with false. cbv iota. apply runs_client_send; [done | done |]. cbn [held hold].
  specialize (HQ (zlen (lit "Content-Type: " ++ ct ++ CRLF)) (zlen_nonneg _)). unfold type_lines in HQ. fold first in HQ. unfold sent, hold in *.
  cbn [held code net input output pieces] in *. rewrite Ha in HQ. by rewrite <- app_assoc.
Qed.

(** The payload: [n] bytes at the front of what the property points to. *)
Definition has_body (req : http_request_t) (body : list Z) : Prop :=
  IS_EMPTY (payload req) = false /\ property_size (PropMap.w_mem pw) (payload req) = Some (zlen body) /\
  exists rest, bytes_at (PropMap.w_mem pw) (value (payload req)) = Some (body ++ rest).
(** No payload: none at all, or an empty one. *)
Definition no_body (req : http_request_t) : Prop := IS_EMPTY (payload req) = true.

Lemma runs_has_payload req n a (Q' : Z -> abs -> Prop) : (IS_EMPTY (payload req) = true /\ n = 0 \/
  IS_EMPTY (payload req) = false /\ property_size (PropMap.w_mem pw) (payload req) = Some n) -> Q' n a -> runs (has_payload req) a Q'.
Proof.
  intros Hp HQ. unfold has_payload. destruct Hp as [[-> ->] | [-> Hn]]; cbn [negb]; [by apply runs_ret|]. apply runs_bind, runs_props. by eapply runs_lift.
Qed.

Definition body_ok (req : http_request_t) (ct body : list Z) : Prop :=
  no_body req /\ body = [] \/
  has_body req body /\ body <> [] /\ text_of pw (content_type req).2 = Some ct /\
  line_ok (lit "Content-Length: " ++ dec (zlen body) ++ CRLF) /\ line_ok (lit "Content-Type: " ++ ct ++ CRLF).

Definition header_text (req : http_request_t) (ct body : list Z) (hs : list (list Z * list Z)) : list Z :=
  (match body with [] => [] | _ => type_lines req ct (zlen body) end) ++ concat (map header_line hs) ++ CRLF.

Lemma runs_send_header req ct body hs a Q' : body_ok req ct body -> map_texts pw (header req) hs -> Forall (fun kv => line_ok (header_line kv)) hs ->
  (forall x, 0 <= x -> Q' x (sent (hold a []) (header_text req ct body hs))) -> runs (send_header req) a Q'.
Proof.
  intros Hb (nodes & Hl & Hf) Hok HQ. unfold send_header. apply runs_bind, runs_clear, runs_bind. apply (runs_has_payload _ (zlen body)).
  { destruct Hb as [[Hb ->] | ((H1' & H2' & _) & _)]; [by left | by right]. }
  apply runs_bind. apply (runs_mono _ _ _ _ (fun x a' => 0 <= x /\ a' = sent (hold a []) (match body with [] => [] | _ => type_lines req ct (zlen body) end))).
  { destruct Hb as [[Hb ->] | (_ & Hne & Hct & Hl1 & Hl2)].
    - change (negb (zlen (@nil Z) =? 0)) with false. cbv iota. apply runs_ret. split; [done|]. unfold sent, hold. cbn [held code net input output pieces]. rewrite app_nil_r. by destruct (net a).
    - assert (Hpos : 0 < zlen body) by (destruct body; [done | zl]). replace (zlen body =? 0) with false by lia. cbn [negb].
      apply (runs_send_payload_headers _ ct); [done | done | done | done |]. intros x Hx. split; [done|]. by destruct body. }
  intros x a' [Hx ->]. replace (x <? 0) with false by lia. apply runs_bind, runs_props. apply (runs_header_loop hs nodes); [done | done | by eapply map_texts_fuel | done | done |].
  intros y Hy. specialize (HQ y Hy). unfold header_text, sent, hold in *. cbn [held code net input output pieces] in *. by rewrite <- app_assoc.
Qed.

(** ** The payload *)

(** Chunks on the wire. *)
Definition chunk_text (p : list Z) : list Z := fmt_02X (zlen p) ++ CRLF ++ p ++ CRLF.
Fixpoint split_chunks (fuel : nat) (data : list Z) : list (list Z) :=
  match fuel, data with
  | S fuel', _ :: _ => take (Z.to_nat CHUNK_SIZE) data :: split_chunks fuel' (drop (Z.to_nat CHUNK_SIZE) data)
  | _, _ => []
  end.
Definition chunked_text (data : list Z) : list Z := concat (map chunk_text (split_chunks (length data) data)) ++ chunk_text [].

Lemma split_chunks_spec fuel : forall data, (length data <= fuel)%nat -> concat (split_chunks fuel data) = data /\ Forall (fun p => 1 <= zlen p <= CHUNK_SIZE) (split_chunks fuel data).
Proof.
  induction fuel as [|fuel IH]; intros data Hf; [by destruct data; [|cbn in Hf; lia]|]. destruct data as [|x data]; [done|].
  cbn [split_chunks concat]. destruct (IH (drop (Z.to_nat CHUNK_SIZE) (x :: data))) as [E Hall].
  { rewrite length_drop. change (Z.to_nat CHUNK_SIZE) with 512%nat. cbn [length] in *. lia. }
  rewrite E, take_drop. split; [done|]. constructor; [|done]. unfold zlen. rewrite length_take. change (Z.to_nat CHUNK_SIZE) with 512%nat. change CHUNK_SIZE with 512. cbn [length]. lia.
Qed.

Lemma split_chunks_fuel f1 : forall f2 data, (length data <= f1)%nat -> (length data <= f2)%nat -> split_chunks f1 data = split_chunks f2 data.
Proof.
  induction f1 as [|f1 IH]; intros f2 data H1' H2'; [destruct data; [by destruct f2 | cbn in H1'; lia]|].
  destruct data as [|x data]; [by destruct f2|]. destruct f2 as [|f2]; [cbn in H2'; lia|]. cbn [split_chunks]. f_equal.
  apply IH; rewrite length_drop; change (Z.to_nat CHUNK_SIZE) with 512%nat; cbn [length] in *; lia.
Qed.

(** What the receiver needs to know of a chunk size. *)
Lemma fmt_02X_ok n : 0 <= n <= CHUNK_SIZE -> is_cstr (fmt_02X n) /\ 2 <= zlen (fmt_02X n) <= 3 /\ strtol16 (fmt_02X n ++ [0]) = Some n.
Proof.
  intros Hn. change CHUNK_SIZE with 512 in Hn.
  assert (Hall : forallb (fun n => bool_decide (is_cstr (fmt_02X n) /\ 2 <= zlen (fmt_02X n) <= 3 /\ strtol16 (fmt_02X n ++ [0]) = Some n)) (seqZ 0 513) = true) by by vm_compute.
  pose proof (forall_range _ _ Hall n ltac:(lia)) as Hx. by apply bool_decide_eq_true in Hx.
Qed.

(** One chunk of the payload. *)
Lemma runs_chunk_loop fuel : forall done todo rest a Q', zlen todo <= CHUNK_SIZE * (Z.of_nat fuel - 1) -> (0 < fuel)%nat ->
  Q' 0 (sent a (concat (map chunk_text (split_chunks (length todo) todo)) ++ chunk_text [])) ->
  runs (chunk_loop fuel (done ++ todo ++ rest) (zlen todo) (zlen done)) a Q'.
Proof.
  change CHUNK_SIZE with 512. induction fuel as [|fuel IH]; intros done todo rest a Q' Hl Hf HQ; [lia|]. cbn [chunk_loop].
  pose proof (zlen_nonneg todo). replace (zlen todo <? 0) with false by lia. change CHUNK_SIZE with 512.
  set (n := if 512 <? zlen todo then 512 else zlen todo). assert (Hn : 0 <= n <= 512 /\ n <= zlen todo /\ (n = 0 <-> zlen todo = 0)) by (unfold n; destruct (Z.ltb_spec 512 (zlen todo)); lia).
  destruct (fmt_02X_ok n) as (Hc & Hlen & _); [change CHUNK_SIZE with 512; lia|].
  assert (Hct : is_cstr (fmt_02X n ++ CRLF)) by (apply Forall_app; split; [done | by repeat constructor]).
  assert (Htl : zlen (fmt_02X n ++ CRLF) = zlen (fmt_02X n) + 2) by by rewrite zlen_app.
  destruct (split_at (chunk 6) (zlen (fmt_02X n ++ CRLF) + 1)) as (x & y & Hxy & Hx); [rewrite chunk_size by lia; lia|].
  apply runs_bind. eapply runs_lift; [rewrite Hxy; apply wrn_app_0; rewrite (zlen_app _ [0]); change (zlen [0]) with 1; lia|].
  apply runs_bind. rewrite <- (app_assoc _ [0]). apply runs_direct; [by intros E; rewrite E in Htl; change (zlen (@nil Z)) with 0 in Htl; lia | lia |].
  destruct (split_at todo n) as (p & t & -> & Hp); [lia|]. apply runs_bind.
  apply (runs_mono _ _ _ _ (fun _ a' => a' = sent a (fmt_02X n ++ CRLF ++ p))).
  { destruct (Z.eqb_spec n 0) as [E | E]; cbn [negb].
    - apply runs_ret. assert (p = []) as -> by (apply zlen_0; lia). by rewrite app_nil_r.
    - apply runs_bind. eapply runs_lift; [apply rdn_app_end; [done|]; rewrite !zlen_app; lia|]. rewrite <- app_assoc, <- Hp.
      apply runs_direct; [by intros E'; rewrite E' in Hp; change (zlen (@nil Z)) with 0 in Hp; lia | lia |].
      unfold sent. cbn [held code net input output pieces]. by rewrite <- !app_assoc. }
  intros _ a' ->. apply runs_bind. apply (runs_direct c0 pw CRLF [0]); [done | by cbv |].
  assert (Hs : sent (sent a (fmt_02X n ++ CRLF ++ p)) CRLF = sent a (chunk_text p)).
  { unfold chunk_text. rewrite Hp. unfold sent. cbn [held code net input output pieces]. by rewrite <- !app_assoc. }
  rewrite Hs. rewrite zlen_app in Hn, Hl. pose proof (zlen_nonneg t). destruct (Z.eqb_spec n 0) as [E | E].
  - apply runs_ret. assert (p = []) as -> by (apply zlen_0; lia). assert (t = []) as -> by (apply zlen_0; lia). exact HQ.
  - assert (Hsplit : split_chunks (length (p ++ t)) (p ++ t) = p :: split_chunks (length t) t).
    { assert (Hpl : length p = 512%nat \/ t = []).
      { unfold n in Hp. rewrite zlen_app in Hp. destruct (Z.ltb_spec 512 (zlen p + zlen t)); [left; unfold zlen in Hp; lia | right; apply zlen_0; lia]. }
      destruct p as [|z p]; [change (zlen (@nil Z)) with 0 in Hp; lia|]. cbn [app length split_chunks]. change (Z.to_nat CHUNK_SIZE) with 512%nat.
      change (z :: p ++ t) with ((z :: p) ++ t). destruct Hpl as [Hpl | ->].
      - rewrite <- Hpl, take_app_length, drop_app_length. f_equal. apply split_chunks_fuel; [|done]. rewrite length_app. lia.
      - rewrite app_nil_r in *. rewrite firstn_all2, drop_ge by (unfold zlen in *; cbn [length] in *; lia). by destruct (length (p ++ [])). }
    rewrite Hsplit in HQ. replace (zlen (p ++ t) - n) with (zlen t) by (rewrite zlen_app; lia). replace (zlen done + n) with (zlen (done ++ p)) by (rewrite zlen_app; lia).
    replace (done ++ (p ++ t) ++ rest) with ((done ++ p) ++ t ++ rest) by by rewrite <- !app_assoc.
    assert (Hfl : (0 < fuel)%nat) by (destruct fuel; [lia | lia]).
    apply IH; [|done|].
    + unfold n in *. rewrite zlen_app in *. destruct (Z.ltb_spec 512 (zlen p + zlen t)); lia.
    + cbn [map concat] in HQ. unfold sent in *. cbn [held code net input output pieces] in *. by rewrite <- !app_assoc in *.
Qed.

Definition payload_text (req : http_request_t) (body : list Z) : list Z :=
  match body with [] => [] | _ => if is_chunked req =? 0 then body else chunked_text body end.

Lemma runs_send_payload req body a Q' : has_body req body -> body <> [] -> zlen body < 65536 ->
  (forall x, 0 <= x -> Q' x (sent a (payload_text req body))) -> runs (send_payload req) a Q'.
Proof.
  intros (Hp & Hs & rest & Hb) Hne Hl HQ. assert (Hpos : 0 < zlen body) by (destruct body; [done | zl]). unfold send_payload.
  apply runs_bind, (runs_has_payload _ (zlen body)); [by right|]. replace (zlen body =? 0) with false by lia. cbn [negb].
  apply runs_bind. unfold payload_bytes. apply runs_bind, runs_props. eapply runs_lift; [exact Hb|].
  assert (Ht : payload_text req body = if is_chunked req =? 0 then body else chunked_text body) by by destruct body. rewrite Ht in HQ.
  destruct (is_chunked req =? 0); cbn [negb].
  - apply runs_direct; [done | done |]. apply HQ. lia.
  - apply (runs_chunk_loop _ [] body rest); [|lia |].
    + change CHUNK_SIZE with 512. pose proof (Z.div_mod (zlen body) 512). pose proof (Z.mod_pos_bound (zlen body) 512). pose proof (Z.div_pos (zlen body) 512).
      rewrite !Nat2Z.inj_succ, Z2Nat.id by lia. lia.
    + by apply HQ.
Qed.

End send.
End HttpSend.
