(* ===== verification/HttpReceive.v ===== *)
(** Receiving a response: lines, the status, the headers and the payload of
    src/src/http/client.c, read from a peer that sends a response. *)
From S2P Require Import Prelude StateM ByteQueue Property PropMap Double ArrowUtf8 HttpClient HttpPeer HttpSend.

Module HttpReceive.
Import StateM Property Double Utf8 HttpClient HttpPeer HttpSend.

(** ** Lines *)

(** A line without an end of line in it. *)
Definition one_line (s : list Z) : Prop := is_cstr s /\ find_sub (s ++ CRLF) CRLF = Some (zlen s).

Lemma find_sub_least s pat k a b : find_sub s pat = Some k -> s = a ++ pat ++ b -> k <= zlen a.
Proof.
  revert k a. induction s as [|c s IH]; intros k a E Hs; cbn [find_sub] in E.
  - case_bool_decide; [|done]. simplify_eq. apply zlen_nonneg.
  - case_bool_decide as Hp; [simplify_eq; apply zlen_nonneg|]. destruct (find_sub s pat) as [i|]; [|done]. cbn in E. simplify_eq.
    destruct a as [|x a]; [exfalso; apply Hp; by exists b|]. injection Hs as -> Hs. pose proof (IH i a eq_refl Hs). rewrite zlen_cons. lia.
Qed.

(** A part of the line and its end: the loop goes on until all of it is there. *)
Lemma line_open_prefix s done_ todo tl : one_line s -> done_ ++ todo = s ++ CRLF -> 
  line_open (done_ ++ tl) (zlen done_) = Some (negb (bool_decide (todo = []))).
Proof.
  intros [_ Hf] Hs. unfold line_open. pose proof (zlen_nonneg done_). destruct (Z.ltb_spec (zlen done_) 2) as [H2' | H2'].
  - rewrite bool_decide_false; [done|]. intros ->. rewrite app_nil_r in Hs. subst done_. rewrite zlen_app in H2'. change (zlen CRLF) with 2 in H2'. pose proof (zlen_nonneg s). lia.
  - destruct (split_at done_ (zlen done_ - 2)) as (d & e & -> & Hd); [lia|]. rewrite zlen_app in *.
    rewrite <- (app_assoc d). rewrite (rdn_app d e tl) by lia. cbn [mbind option_bind]. do 2 f_equal. apply bool_decide_ext. split.
    + intros ->. rewrite <- app_assoc in Hs. pose proof (find_sub_least _ _ _ d todo Hf (eq_sym Hs)) as Hle.
      apply (f_equal zlen) in Hs. rewrite !zlen_app in Hs. apply zlen_0. pose proof (zlen_nonneg todo). lia.
    + intros ->. rewrite app_nil_r in Hs. apply app_inj_2 in Hs as [_ ->]; [done|]. unfold zlen in *. cbn. lia.
Qed.

Section receive.
Context {U W : Type} `{ByteQueue U} `{NetPeer W} `{Buffers}.
Context (c0 : @http_client_t U) (pw : PropMap.world).

#[local] Abbreviation runs := (runs c0 pw).

(** The steps the loop needs at most: a byte, and a read when the queue is empty. *)
Definition line_steps (todo h : list Z) : Z := 2 * zlen todo + (if bool_decide (h = []) then 1 else 0).

Lemma runs_wait_line_loop s rest maxsize fuel : one_line s -> zlen s + 2 < maxsize -> forall done_ todo tl a Q', done_ ++ todo = s ++ CRLF ->
  maxsize <= zlen (done_ ++ tl) -> (done_ = [] \/ head tl = Some 0) -> stream a = todo ++ rest -> line_steps todo (held a) < Z.of_nat fuel -> zlen (held a) < RINGBUFFER_SIZE ->
  (forall t a', zlen (s ++ CRLF ++ 0 :: t) = zlen (done_ ++ tl) -> reads a rest a' -> zlen (held a') < RINGBUFFER_SIZE -> Q' (Some (zlen s), s ++ CRLF ++ 0 :: t) a') ->
  runs (wait_line_loop fuel (done_ ++ tl) (zlen done_) maxsize) a Q'.
Proof.
  intros Hs Hmax. induction fuel as [|fuel IH]; intros done_ todo tl a Q' Hd Hb Htl Hst Hf Hh HQ.
  { unfold line_steps in Hf. pose proof (zlen_nonneg todo). case_bool_decide; lia. }
  cbn [wait_line_loop]. apply runs_bind. eapply runs_lift; [by eapply line_open_prefix|]. destruct todo as [|c todo].
  - rewrite bool_decide_true by done. cbn [negb]. apply runs_ret. rewrite app_nil_r in Hd. subst done_.
    assert (Ht : exists t, tl = 0 :: t). { destruct Htl as [E | E]; [by apply app_eq_nil in E as [_ E] | destruct tl; [done|]; injection E as ->; by eexists]. }
    destruct Ht as (t & ->). rewrite <- app_assoc in *. rewrite zlen_app. change (zlen CRLF) with 2. replace (zlen s + 2 - 2) with (zlen s) by lia.
    apply HQ; [done | by split_and! | done].
  - rewrite bool_decide_false by done. cbn [negb]. apply runs_bind. rewrite zlen_to_nat, drop_app_length, take_app_length.
    assert (Hdl : zlen done_ + zlen (c :: todo) = zlen s + 2) by (apply (f_equal zlen) in Hd; rewrite !zlen_app in Hd; exact Hd).
    rewrite zlen_cons in Hdl. pose proof (zlen_nonneg todo). rewrite zlen_app in Hb. destruct tl as [|y tl]; [change (zlen (@nil Z)) with 0 in Hb; lia|].
    destruct (held a) as [|x h] eqn:Eh.
    + apply runs_pop_short; [by rewrite Eh|]. change (-1 =? 0) with false. cbn [fst]. cbv iota. apply runs_bind, runs_capacity. rewrite Eh.
      change (LINE_CHUNK <? RINGBUFFER_SIZE - 1 - zlen (@nil Z)) with true. cbv iota. unfold stream in Hst. rewrite Eh in Hst. cbn [app] in Hst.
      apply runs_bind, runs_client_recv; [by rewrite Hst | done | by rewrite Eh | left; by cbv |]. intros k Hk Hki. replace (k <? 0) with false by lia.
      apply (IH done_ (c :: todo) (y :: tl)); cbn [held].
      * done.
      * rewrite zlen_app. lia.
      * done.
      * unfold stream. cbn [held net input]. by rewrite Eh, app_nil_l, take_drop.
      * rewrite Eh, Hst. destruct (Z.to_nat k) eqn:Ek; [lia|]. cbn [app take]. unfold line_steps in *. rewrite bool_decide_false by done. rewrite bool_decide_true in Hf by done. lia.
      * rewrite Eh. cbn [app]. change LINE_CHUNK with 40 in Hk. unfold zlen. rewrite length_take. change RINGBUFFER_SIZE with 1024. lia.
      * intros t a' Hz (R1 & R2 & R3 & R4) Ha'. apply HQ; [done | by split_and! | done].
    + unfold stream in Hst. rewrite Eh in Hst. cbn [app] in Hst. injection Hst as -> Hst. apply runs_pop; [rewrite Eh, zlen_cons; pose proof (zlen_nonneg h); lia | rewrite zlen_cons; pose proof (zlen_nonneg tl); lia |].
      rewrite Eh. change (Z.to_nat 1) with 1%nat. cbn [take drop app fst snd]. rewrite take_0, !drop_0. cbn [app]. change (0 =? 0) with true. cbv iota. apply runs_bind.
      rewrite zlen_cons in Hb. replace (zlen done_ + 1) with (zlen (done_ ++ [c])) by (rewrite zlen_app; done).
      destruct tl as [|z tl]; [change (zlen (@nil Z)) with 0 in Hb; lia|].
      replace (done_ ++ c :: z :: tl) with ((done_ ++ [c]) ++ z :: tl) by by rewrite <- app_assoc.
      eapply runs_lift; [by apply wr_app|]. replace (zlen (done_ ++ [c]) =? maxsize) with false by (rewrite zlen_app; change (zlen [c]) with 1; lia).
      apply (IH (done_ ++ [c]) todo (0 :: tl)); cbn [held hold].
      * by rewrite <- app_assoc.
      * rewrite !zlen_app, !zlen_cons in *. change (zlen (@nil Z)) with 0. lia.
      * by right.
      * done.
      * unfold line_steps in *. rewrite bool_decide_false in Hf by done. rewrite zlen_cons in Hf. case_bool_decide; lia.
      * rewrite zlen_cons in Hh. lia.
      * intros t a' Hz (R1 & R2 & R3 & R4) Ha'. apply HQ; [|by split_and! | done]. rewrite Hz, !zlen_app, !zlen_cons. change (zlen (@nil Z)) with 0. lia.
Qed.

Lemma runs_wait_line s rest buf maxsize fuel a Q' : one_line s -> zlen s + 2 < maxsize <= zlen buf -> stream a = s ++ CRLF ++ rest -> 2 * zlen s + 5 < Z.of_nat fuel -> zlen (held a) < RINGBUFFER_SIZE ->
  (forall t a', zlen (s ++ CRLF ++ 0 :: t) = zlen buf -> reads a rest a' -> zlen (held a') < RINGBUFFER_SIZE -> Q' (Some (zlen s), s ++ CRLF ++ 0 :: t) a') ->
  runs (wait_line fuel buf maxsize) a Q'.
Proof.
  intros Hs Hmax Hst Hf Hh HQ. unfold wait_line. apply (runs_wait_line_loop s rest maxsize fuel Hs ltac:(lia) [] (s ++ CRLF) buf); try done.
  - cbn. lia.
  - by left.
  - by rewrite <- app_assoc.
  - unfold line_steps. rewrite zlen_app. change (zlen CRLF) with 2. case_bool_decide; lia.
Qed.
(** ** The status line *)

Lemma runs_put_code n {A} (k : StateM.M (@st U W) A) a Q' : runs k (mk_abs (held a) n (net a)) Q' ->
  runs (c ← get; _ ← put (with_response_code c n); k) a Q'.
Proof.
  intros Hk s (q & w & -> & Hok & Hb & Hr & Hv).
  destruct (Hk (mk_st (with_response_code (with_queue c0 (Some q)) n) pw w)) as (x & s' & E & HQ); [exists q, w; by split_and!|].
  exists x, s'. split; [exact E | exact HQ].
Qed.

Lemma atoi_cstr b b' : cstr b = cstr b' -> atoi b = atoi b'.
Proof. intros E. unfold atoi. by rewrite E. Qed.
Lemma strtol16_cstr b b' : cstr b = cstr b' -> strtol16 b = strtol16 b'.
Proof. intros E. unfold strtol16. by rewrite E. Qed.

Lemma find_sub_suffix s1 s pat k : find_sub (s1 ++ s) pat = Some (zlen s1 + k) -> 0 <= k -> find_sub s pat = Some k.
Proof.
  revert k. induction s1 as [|c s1 IH]; intros k E Hk; [exact E|]. cbn [app find_sub] in E. rewrite zlen_cons in E. pose proof (zlen_nonneg s1).
  case_bool_decide; [injection E; lia|]. destruct (find_sub (s1 ++ s) pat) as [i|] eqn:Ei; [|done]. cbn in E. apply IH; [|done]. f_equal. injection E. lia.
Qed.

(** The text of a number in front of a pattern, in a buffer of eight bytes. *)
Lemma copy_number src c pat r : cstr src = Some (c ++ pat ++ r) -> find_sub (c ++ pat ++ r) pat = Some (zlen c) -> zlen c <= 7 ->
  exists v, copy_till src pat (replicate 8 0) = Some (Some (zlen c + zlen pat), v) /\ (is_cstr c -> cstr v = cstr (c ++ [0])).
Proof.
  intros Hs Hf Hl. eexists. split; [apply (copy_till_at _ _ _ _ _ Hs Hf); change (zlen (replicate 8 0)) with 8; lia|].
  intros Hc. rewrite take_app_zlen by done. by rewrite !cstr_app.
Qed.

Record number_text (c : list Z) (n : Z) : Prop := { nt_cstr : is_cstr c; nt_len : zlen c <= 7; nt_value : atoi (c ++ [0]) = Some n; nt_space : 32 ∉ c }.
Definition status_line (c more : list Z) : list Z := lit "HTTP/1.1 " ++ c ++ lit " OK" ++ more.

Lemma runs_receive_response c n more rest fuel lines res a Q' : number_text c n -> one_line (status_line c more) -> zlen (status_line c more) + 2 < RINGBUFFER_SIZE ->
  input (net a) = status_line c more ++ CRLF ++ rest -> 2 * zlen (status_line c more) + 5 < Z.of_nat fuel -> (0 < lines)%nat ->
  (forall a', reads (mk_abs [] (u16 n) (net a)) rest a' -> zlen (held a') < RINGBUFFER_SIZE -> Q' (0, with_code res (u16 n) (u16 (n / 65536))) a') ->
  runs (receive_response fuel lines res) a Q'.
Proof.
  intros [Hc Hcl Hn Hsp] Hline Hmax Hin Hf Hlines HQ. unfold receive_response. apply runs_bind, runs_clear, runs_bind. destruct lines as [|lines]; [lia|]. cbn [status_loop].
  assert (H9 : zlen (status_line c more) = 12 + zlen c + zlen more) by (unfold status_line; rewrite !zlen_app; change (zlen (lit "HTTP/1.1 ")) with 9; change (zlen (lit " OK")) with 3; lia).
  pose proof (zlen_nonneg c). pose proof (zlen_nonneg more).
  apply runs_bind, (runs_wait_line (status_line c more) rest); [done | rewrite chunk_size by (by cbv); lia | exact Hin | done | done |].
  intros t a' Ht (R1 & R2 & R3 & R4) Ha'. cbn [fst snd]. apply runs_bind. eapply runs_lift; [by apply wr_app|]. replace (zlen (status_line c more) <? 10) with false by lia.
  apply runs_ret, runs_bind. assert (Hs : cstr (status_line c more ++ 0 :: 10 :: 0 :: t) = Some (status_line c more)) by apply cstr_app, Hline.
  eapply runs_lift; [unfold strstr; rewrite Hs; reflexivity|]. assert (Hf0 : find_sub (status_line c more) (lit "HTTP/1.1 ") = Some 0) by apply (find_sub_first []), not_elem_of_nil.
  rewrite Hf0. change (Z.to_nat (0 + 9)) with (length (lit "HTTP/1.1 ")). apply runs_bind. unfold status_line at 1. rewrite <- app_assoc, drop_app_length.
  assert (Hs2 : cstr ((c ++ lit " OK" ++ more) ++ 0 :: 10 :: 0 :: t) = Some (c ++ lit " OK" ++ more)).
  { apply cstr_app. destruct Hline as [Hcs _]. by apply Forall_app in Hcs as [_ Hcs]. }
  destruct (copy_number _ c (lit " OK") more Hs2) as (v & E & Hv); [by apply find_sub_first | done |].
  eapply runs_lift; [unfold copy_till_to_int; rewrite E; cbn [mbind option_bind]; rewrite (atoi_cstr _ _ (Hv Hc)), Hn; reflexivity|].
  cbn [fst snd]. apply runs_put_code, runs_ret. apply HQ; [by split_and! | done].
Qed.

(** ** The headers *)

Definition header_ok (kv : list Z * list Z) : Prop :=
  one_line (kv.1 ++ lit ": " ++ kv.2) /\ 58 ∉ kv.1 /\ zlen kv.1 < CHUNK_SIZE / 4 /\ zlen kv.2 < CHUNK_SIZE /\ zlen kv.1 + zlen kv.2 + 4 < RINGBUFFER_SIZE.

(** The effect of a header, on texts. *)
Definition header_effect (kv : list Z * list Z) (res : http_response_t) : option http_response_t := apply_header (kv.1 ++ [0]) (kv.2 ++ [0]) res.

Lemma apply_header_cstr k v k' v' res : cstr k = cstr k' -> cstr v = cstr v' -> apply_header k v res = apply_header k' v' res.
Proof. intros Hk Hv. unfold apply_header. by rewrite Hk, Hv, (atoi_cstr v v'). Qed.

Definition steps_ok (fuel : nat) : Prop := 2 * RINGBUFFER_SIZE + 5 < Z.of_nat fuel.

Lemma runs_recv_header_loop fuel rest hs : steps_ok fuel -> forall lines tmp key value res res' a Q', Forall header_ok hs -> (length hs < lines)%nat ->
  zlen tmp = RINGBUFFER_SIZE -> zlen key = CHUNK_SIZE / 4 -> zlen value = CHUNK_SIZE ->
  stream a = concat (map header_line hs) ++ CRLF ++ rest -> zlen (held a) < RINGBUFFER_SIZE -> fold_opt header_effect hs res = Some res' ->
  (forall a', reads a rest a' -> zlen (held a') < RINGBUFFER_SIZE -> Q' (0, res') a') -> runs (recv_header_loop fuel lines tmp key value res) a Q'.
Proof.
  intros Hfuel. induction hs as [|kv hs IH]; intros lines tmp key value res res' a Q' Hok Hlines Ht Hk Hv Hst Hh He HQ; (destruct lines as [|lines]; [cbn in Hlines; lia|]); cbn [recv_header_loop].
  - cbn in He. injection He as <-. apply runs_bind, (runs_wait_line [] rest); [by repeat constructor | rewrite Ht; by cbv | done | unfold steps_ok in Hfuel; change (zlen (@nil Z)) with 0; change RINGBUFFER_SIZE with 1024 in Hfuel; lia | done |].
    intros t a' _ HR Ha'. cbn [fst snd]. change (zlen (@nil Z) =? 0) with true. cbv iota. apply runs_ret. by apply HQ.
  - apply Forall_cons in Hok as [(Hline & Hcol & Hkl & Hvl & Hll) Hok]. cbn [fold_opt] in He. destruct (header_effect kv res) as [res1|] eqn:E1; [|done]. cbn [mbind option_bind] in He.
    set (s := kv.1 ++ lit ": " ++ kv.2) in *. assert (Hs : zlen s = zlen kv.1 + zlen kv.2 + 2) by (unfold s; rewrite !zlen_app; change (zlen (lit ": ")) with 2; lia).
    pose proof (zlen_nonneg kv.1). pose proof (zlen_nonneg kv.2). cbn [map concat] in Hst.
    apply runs_bind, (runs_wait_line s (concat (map header_line hs) ++ CRLF ++ rest)); [done | lia | | unfold steps_ok in Hfuel; lia | done |].
    { rewrite Hst. unfold header_line, s. by rewrite <- !app_assoc. }
    intros t a' Ht' (R1 & R2 & R3 & R4) Ha'. cbn [fst snd]. replace (zlen s =? 0) with false by lia. apply runs_bind.
    assert (Hcs : cstr (s ++ CRLF ++ 0 :: t) = Some (s ++ CRLF)).
    { rewrite app_assoc. apply cstr_app, Forall_app. split; [apply Hline | by repeat constructor]. }
    assert (Hf1 : find_sub (s ++ CRLF) (lit ": ") = Some (zlen kv.1)) by (unfold s; rewrite <- !app_assoc; by apply find_sub_first).
    eapply runs_lift; [apply (copy_till_at _ _ _ _ _ Hcs Hf1); lia|]. cbn [fst snd].
    change (zlen (lit ": ")) with 2. assert (Hdrop : drop (Z.to_nat (zlen kv.1 + 2)) (s ++ CRLF ++ 0 :: t) = (kv.2 ++ CRLF) ++ 0 :: t).
    { unfold s. rewrite app_assoc, <- !app_assoc. change (kv.1 ++ lit ": " ++ kv.2 ++ CRLF ++ 0 :: t) with (kv.1 ++ lit ": " ++ (kv.2 ++ CRLF ++ 0 :: t)). rewrite app_assoc. apply drop_app_zlen. by rewrite zlen_app. }
    rewrite Hdrop. destruct Hline as [Hsc Hsf].
    assert (Hvc : is_cstr kv.2) by (unfold s in Hsc; apply Forall_app in Hsc as [_ Hsc]; by apply Forall_app in Hsc as [_ Hsc]).
    assert (Hkc : is_cstr kv.1) by (unfold s in Hsc; by apply Forall_app in Hsc as [Hsc _]).
    assert (Hcs2 : cstr ((kv.2 ++ CRLF) ++ 0 :: t) = Some (kv.2 ++ CRLF)) by (apply cstr_app, Forall_app; split; [done | by repeat constructor]).
    assert (Hf2 : find_sub (kv.2 ++ CRLF) CRLF = Some (zlen kv.2)).
    { apply (find_sub_suffix (kv.1 ++ lit ": ")); [|done]. rewrite <- app_assoc. unfold s in Hsf. rewrite <- !app_assoc in Hsf. rewrite Hsf. f_equal. rewrite zlen_app. change (zlen (lit ": ")) with 2. rewrite !zlen_app. change (zlen (lit ": ")) with 2. lia. }
    apply runs_bind. eapply runs_lift; [apply (copy_till_at _ _ _ _ _ Hcs2 Hf2); lia|]. cbn [fst snd].
    rewrite (take_app_zlen kv.2) by done. assert (Hpre : take (Z.to_nat (zlen kv.1)) (s ++ CRLF) = kv.1) by (unfold s; rewrite <- app_assoc; by apply take_app_zlen). rewrite Hpre, !zlen_to_nat.
    apply runs_bind. eapply runs_lift; [unfold header_effect in E1; rewrite <- E1; apply apply_header_cstr; by rewrite !cstr_app|].
    apply (IH _ _ _ _ _ res'); try done; [cbn in Hlines; lia | by rewrite Ht' | | |].
    + rewrite zlen_app, zlen_cons. unfold zlen in *. rewrite length_drop. lia.
    + rewrite zlen_app, zlen_cons. unfold zlen in *. rewrite length_drop. lia.
    + intros a'' (S1 & S2 & S3 & S4) Ha''. apply HQ; [|done]. split_and!; congruence.
Qed.

Lemma runs_receive_headers fuel lines rest hs res res' a Q' : steps_ok fuel -> Forall header_ok hs -> (length hs < lines)%nat ->
  stream a = concat (map header_line hs) ++ CRLF ++ rest -> zlen (held a) < RINGBUFFER_SIZE -> fold_opt header_effect hs res = Some res' ->
  (forall a', reads a rest a' -> zlen (held a') < RINGBUFFER_SIZE -> Q' (0, res') a') -> runs (receive_headers fuel lines res) a Q'.
Proof.
  intros Hf Hok Hl Hst Hh He HQ. unfold receive_headers. eapply (runs_recv_header_loop fuel rest hs); try done; by rewrite chunk_size by (by cbv).
Qed.

(** ** The payload *)

(** After reading, when a handler of the caller's has been given [qs] in all. *)
Definition gets (a : abs) (rest : list Z) (qs : list (list Z)) (a' : abs) : Prop :=
  stream a' = rest /\ code a' = code a /\ output (net a') = output (net a) /\ pieces (net a') = qs.

(** The pieces of up to 512 bytes are read at once: the peer must not have more
    than 511 of them ready. *)
Definition fits_read (n : Z) : Prop := n <= MAX_TMP_BUF_SIZE \/ segment <= MAX_TMP_BUF_SIZE.

Lemma runs_fill_loop fuel : forall need e a Q', 0 <= need <= CHUNK_SIZE -> fits_read need -> need <= zlen (stream a) -> zlen (held a) < RINGBUFFER_SIZE ->
  need - zlen (held a) < Z.of_nat fuel -> (0 < fuel)%nat ->
  (forall a', reads a (stream a) a' -> need <= zlen (held a') < RINGBUFFER_SIZE -> Q' (0, e) a') -> runs (fill_loop fuel need e) a Q'.
Proof.
  change CHUNK_SIZE with 512. change RINGBUFFER_SIZE with 1024. induction fuel as [|fuel IH]; intros need e a Q' Hn Hfit Hst Hh Hf Hf0 HQ; [lia|]. cbn [fill_loop].
  apply runs_bind, runs_size. destruct (Z.ltb_spec (zlen (held a)) need) as [Hlt | Hge]; [|apply runs_ret, HQ; [by split_and! | lia]].
  unfold stream in Hst. rewrite zlen_app in Hst. pose proof (zlen_nonneg (held a)).
  apply runs_bind, runs_client_recv; [| lia | change RINGBUFFER_SIZE with 1024; lia | |].
  { intros E. rewrite E in Hst. change (zlen (@nil Z)) with 0 in Hst. lia. }
  { destruct Hfit as [Hfit | Hfit]; [left; lia | by right]. }
  intros k Hk Hki. replace (k <? 0) with false by lia.
  assert (Hk' : zlen (held a ++ take (Z.to_nat k) (input (net a))) = zlen (held a) + k) by (rewrite zlen_app; unfold zlen in *; rewrite length_take; lia).
  assert (Hstr : stream (mk_abs (held a ++ take (Z.to_nat k) (input (net a))) (code a) (mk_view (drop (Z.to_nat k) (input (net a))) (output (net a)) (pieces (net a)))) = stream a).
  { unfold stream. cbn [held net input]. by rewrite <- app_assoc, take_drop. }
  apply IH; [done | done | | cbn [held]; lia | cbn [held]; lia | lia |].
  - rewrite Hstr. unfold stream. rewrite zlen_app. lia.
  - rewrite Hstr. intros a' (R1 & R2 & R3 & R4) Ha'. by apply HQ.
Qed.

Definition pieces_of (body : list Z) : list (list Z) := split_chunks (length body) body.
Definition processed (res : http_response_t) (n : nat) : http_response_t := with_processed res (processed_payload_chunk res + Z.of_nat n).

Lemma processed_more res d d' n :
  processed (with_data (with_processed (with_data res d) (processed_payload_chunk res + 1)) d') n = processed (with_data res d') (S n).
Proof. unfold processed, with_processed, with_data. cbn. f_equal. lia. Qed.
Lemma processed_0 res : processed res 0 = res.
Proof. destruct res. unfold processed, with_processed. cbn. f_equal. lia. Qed.
Lemma with_data_same res : with_data res (res_data res) = res.
Proof. by destruct res. Qed.

(** The size of a chunk *)

Record size_text (h : list Z) (n : Z) : Prop := { st_line : one_line h; st_len : zlen h <= 7; st_value : strtol16 (h ++ [0]) = Some n }.

Lemma runs_get_chunk_size fuel h n rest a Q' : steps_ok fuel -> size_text h n -> stream a = h ++ CRLF ++ rest -> zlen (held a) < RINGBUFFER_SIZE ->
  (forall a', reads a rest a' -> zlen (held a') < RINGBUFFER_SIZE -> Q' n a') -> runs (get_chunked_payload_size fuel) a Q'.
Proof.
  intros Hf [Hline Hlen Hn] Hst Hh HQ. unfold get_chunked_payload_size. unfold steps_ok in Hf. change RINGBUFFER_SIZE with 1024 in *.
  apply runs_bind, (runs_wait_line h rest); [done | rewrite chunk_size by (by cbv); lia | done | lia | done |].
  intros t a' Ht HR Ha'. cbn [fst snd]. destruct Hline as [Hc Hfs]. apply runs_bind.
  assert (Hcs : cstr (h ++ CRLF ++ 0 :: t) = Some (h ++ CRLF ++ [])) by (rewrite app_nil_r, app_assoc; apply cstr_app, Forall_app; split; [done | by repeat constructor]).
  destruct (copy_number _ h CRLF [] Hcs) as (v & E & Hv); [by rewrite app_nil_r | done |].
  eapply runs_lift; [unfold copy_till_hex_to_int; rewrite E; cbn [mbind option_bind]; rewrite (strtol16_cstr _ _ (Hv Hc)), Hn; reflexivity|].
  cbn [fst snd]. apply runs_ret. by apply HQ.
Qed.

End receive.

Section payload.
Context {U W : Type} `{ByteQueue U} `{NetPeer W} `{Buffers}.
Context (c0 : @http_client_t U).
Context (malloc : memory -> Z -> option (Z * list Z)) (disp : list prop_type).
#[local] Abbreviation hand_all h ps st := (hand_all malloc disp h ps st).

(** The pieces [ps] go to the handler of [res]; [done_] says the rest when all of
    them have been taken in. *)
Definition handing (res : http_response_t) (ps : list (list Z)) (w : PropMap.world) (a : abs) {A} (Q : option (A * abs * PropMap.world) -> Prop)
    (done_ : PropMap.world -> http_response_t -> list (list Z) -> Prop) : Prop :=
  match hand_all (p_add_handler (res_meth res)) ps (w, res_data res, pieces (net a)) with
  | None => Q None
  | Some (w', d, qs) => done_ w' (processed (with_data res d) (length ps)) qs
  end.

Lemma handing_nil res w a {A} (Q : option (A * abs * PropMap.world) -> Prop) done_ : handing res [] w a Q done_ -> done_ w res (pieces (net a)).
Proof. unfold handing. cbn. by rewrite with_data_same, processed_0. Qed.

Lemma handing_app res ps ps' w a {A} (Q : option (A * abs * PropMap.world) -> Prop) done_ : handing res (ps ++ ps') w a Q done_ ->
  handing res ps w a Q (fun w1 res1 qs => forall a1, pieces (net a1) = qs -> handing res1 ps' w1 a1 Q done_).
Proof.
  unfold handing, HttpPeer.hand_all. rewrite fold_opt_app. destruct (fold_opt _ ps _) as [[[w1 d1] qs]|]; [|done]. cbn [mbind option_bind].
  intros HQ a1 Ha1. cbn [processed with_processed with_data res_meth res_data]. rewrite Ha1. destruct (fold_opt _ ps' _) as [[[w2 d2] qs2]|]; [|done].
  rewrite length_app in HQ. unfold processed, with_processed, with_data in *. cbn in *. by replace (processed_payload_chunk res + Z.of_nat (length ps) + Z.of_nat (length ps')) with (processed_payload_chunk res + Z.of_nat (length ps + length ps')) by lia.
Qed.

Lemma ends_piece_loop fuel rest : steps_ok fuel -> forall n body m e tmp res a w Q', zlen body <= CHUNK_SIZE * (Z.of_nat n - 1) -> (0 < n)%nat -> (length body <= m)%nat ->
  fits_read (zlen body) -> zlen tmp = CHUNK_SIZE -> stream a = body ++ rest -> zlen (held a) < RINGBUFFER_SIZE ->
  handing res (split_chunks m body) w a Q' (fun w' res' qs => forall tmp' a', zlen tmp' = CHUNK_SIZE -> gets a rest qs a' -> zlen (held a') < RINGBUFFER_SIZE ->
     Q' (Some (0, e, tmp', res', a', w'))) -> ends c0 (piece_loop malloc disp fuel n (zlen body) e tmp res) a w Q'.
Proof.
  unfold steps_ok. change RINGBUFFER_SIZE with 1024. intros Hfuel. induction n as [|n IH]; intros body m e tmp res a w Q' Hl Hn Hm Hfit Ht Hst Hh HQ; [lia|]. cbn [piece_loop].
  pose proof (zlen_nonneg body). destruct (Z.eqb_spec (zlen body) 0) as [E | E].
  { apply zlen_0 in E. subst body. apply ends_ret. assert (Es : split_chunks m [] = []) by by destruct m. rewrite Es in HQ.
    apply handing_nil in HQ. by apply HQ. }
  set (need := if zlen body <? CHUNK_SIZE then zlen body else CHUNK_SIZE). change CHUNK_SIZE with 512 in *.
  assert (Hneed : 1 <= need <= 512 /\ need <= zlen body /\ (need = 512 \/ need = zlen body)) by (unfold need; destruct (Z.ltb_spec (zlen body) 512); lia).
  destruct (split_at body need) as (p & b & -> & Hp); [lia|]. rewrite zlen_app in *. pose proof (zlen_nonneg b). pose proof (zlen_nonneg (held a)).
  apply ends_step, runs_fill_loop; [change CHUNK_SIZE with 512; lia | destruct Hfit as [Hfit|Hfit]; [left; lia | by right] | rewrite Hst, !zlen_app; pose proof (zlen_nonneg rest); lia | done | lia | lia |].
  rewrite Hst. intros a1 (R1 & R2 & R3 & R4) Ha1. cbn [fst snd]. change (0 <? 0) with false. cbv iota.
  apply ends_step, runs_pop; [lia | rewrite Ht; lia |]. cbn [fst snd]. change (0 <? 0) with false. cbv iota.
  assert (Hheld : exists h, held a1 = p ++ h /\ h ++ input (net a1) = b ++ rest).
  { unfold stream in R1. destruct (split_at (held a1) need) as (p' & h & Eh & Hp'); [lia|]. rewrite Eh, <- !app_assoc in R1. apply app_inj_1 in R1 as [-> R1]; [by exists h|]. unfold zlen in *. lia. }
  destruct Hheld as (h & Eh & Hh'). rewrite Eh, take_app_zlen, drop_app_zlen by done. apply ends_step, (runs_lift _ _ _ p); [by apply rdn_app_0|].
  assert (Hsp : exists m', split_chunks m (p ++ b) = p :: split_chunks m' b /\ (length b <= m')%nat).
  { destruct m as [|m]; [destruct p; [change (zlen (@nil Z)) with 0 in Hp; lia | cbn in Hm; lia]|]. exists m.
    destruct p as [|z p]; [change (zlen (@nil Z)) with 0 in Hp; lia|]. cbn [app split_chunks]. change (Z.to_nat CHUNK_SIZE) with 512%nat.
    change (z :: p ++ b) with ((z :: p) ++ b). rewrite length_app in Hm. cbn [length] in Hm. split; [|lia]. destruct Hneed as (Hx1 & _ & [Hx | Hx]).
    - replace 512%nat with (length (z :: p)) by (unfold zlen in Hp; lia). by rewrite take_app_length, drop_app_length.
    - assert (b = []) as -> by (apply zlen_0; lia). rewrite app_nil_r. rewrite firstn_all2, drop_ge by (unfold zlen in *; lia). by destruct m. }
  destruct Hsp as (m' & Hsp & Hm'). rewrite Hsp in HQ. change (p :: split_chunks m' b) with ([p] ++ split_chunks m' b) in HQ. apply handing_app in HQ.
  apply ends_bind, ends_add_payload. cbn [net hold]. rewrite R4. unfold handing, HttpPeer.hand_all in HQ. cbn [fold_opt] in HQ.
  destruct (hand malloc disp _ p _) as [[[w1 d1] qs1]|] eqn:Ehand; [|done]. cbn [mbind option_bind length processed] in HQ.
  cbn [fst snd]. change (0 <? 0) with false. cbv iota. replace (zlen p + zlen b - need) with (zlen b) by lia.
  apply (IH b m'); [lia | destruct n; lia | done | destruct Hfit as [Hfit|Hfit]; [left; lia | by right] | | exact Hh' | |].
  - assert (Hpl : zlen p <= 512) by lia. clear -Ht Hp Hpl. clearbody need. subst need. rewrite zlen_app. unfold zlen in *. rewrite length_drop. lia.
  - cbn [held take_in hold]. rewrite Eh, zlen_app in Ha1. change RINGBUFFER_SIZE with 1024 in Ha1. pose proof (zlen_nonneg p). lia.
  - specialize (HQ (take_in (hold a1 h) qs1) eq_refl). change (processed (with_data res d1) 1) with (with_processed (with_data res d1) (processed_payload_chunk res + 1)) in HQ.
    revert HQ. unfold handing, HttpPeer.hand_all. destruct (fold_opt _ _ _) as [[[w2 d2] qs2]|]; [|done].
    intros HQ tmp' a' Ht' (S1 & S2 & S3 & S4) Ha'. apply HQ; [done | | done].
    unfold take_in, hold in *. cbn [code net output pieces] in *. split_and!; congruence.
Qed.

(** A body whose length the headers gave. *)
Lemma ends_receive_length fuel chunks body rest res a w Q' : steps_ok fuel -> (0 < chunks)%nat -> res_is_chunked res = 0 -> recvContentLength res = zlen body -> zlen body <= INT_MAX ->
  fits_read (zlen body) -> stream a = body ++ rest -> zlen (held a) < RINGBUFFER_SIZE ->
  handing res (pieces_of body) w a Q' (fun w' res' qs => forall a', gets a rest qs a' -> Q' (Some (0, res', a', w'))) -> ends c0 (receive_payload malloc disp fuel chunks res) a w Q'.
Proof.
  intros Hf Hc Hch Hlen Hmax Hfit Hst Hh HQ. unfold receive_payload. destruct chunks as [|chunks]; [lia|]. cbn [payload_loop]. rewrite Hch. cbn [Z.eqb negb].
  apply ends_step, runs_ret. pose proof (zlen_nonneg body). unfold INT_MAX in Hmax. rewrite Hlen, s32_id by lia. destruct (Z.leb_spec (zlen body) 0) as [E | E].
  - assert (zlen body = 0) as E0 by lia. apply zlen_0 in E0. subst body. apply ends_ret. apply handing_nil in HQ. by apply HQ.
  - apply ends_bind. apply (ends_piece_loop fuel rest Hf _ body (length body)); [| lia | done | done | by rewrite chunk_size by (by cbv) | done | done |].
    + change CHUNK_SIZE with 512. rewrite !Nat2Z.inj_succ, Z2Nat.id by (apply Z.div_pos; lia). lia_mod.
    + fold (pieces_of body). revert HQ. unfold handing. destruct (hand_all _ _ _) as [[[w' d] qs]|]; [|done].
      intros HQ tmp' a' _ HG Ha'. change (0 <? 0) with false. cbv iota beta. unfold processed at 1. cbn [res_is_chunked with_processed with_data]. rewrite Hch. cbn [Z.eqb].
      apply ends_ret. by apply HQ.
Qed.

(** ** Chunks *)

(** A chunk as it is sent: a size in hexadecimal and the bytes. *)
Definition wire_chunk (c : list Z * list Z) : list Z := c.1 ++ CRLF ++ c.2 ++ CRLF.
Definition chunk_ok (c : list Z * list Z) : Prop := size_text c.1 (zlen c.2) /\ 0 < zlen c.2 /\ fits_read (zlen c.2).
Definition chunk_pieces (cs : list (list Z * list Z)) : list (list Z) := concat (map (fun c => pieces_of c.2) cs).

Lemma ends_payload_loop fuel h0 rest cs : steps_ok fuel -> size_text h0 0 -> forall chunks e tmp res a w Q', Forall chunk_ok cs -> (length cs < chunks)%nat -> zlen tmp = CHUNK_SIZE ->
  res_is_chunked res <> 0 -> stream a = concat (map wire_chunk cs) ++ h0 ++ CRLF ++ rest -> zlen (held a) < RINGBUFFER_SIZE ->
  handing res (chunk_pieces cs) w a Q' (fun w' res' qs => forall a', gets a rest qs a' -> Q' (Some (0, res', a', w'))) -> ends c0 (payload_loop malloc disp fuel chunks e tmp res) a w Q'.
Proof.
  intros Hf H0'. induction cs as [|[h p] cs IH]; intros chunks e tmp res a w Q' Hok Hc Ht Hch Hst Hh HQ; (destruct chunks as [|chunks]; [cbn in Hc; lia|]); cbn [payload_loop];
    rewrite (proj2 (Z.eqb_neq _ 0) Hch); cbn [negb]; apply ends_step.
  - apply (runs_get_chunk_size c0 w fuel h0 0 rest); [done | done | done | done |]. intros a' HR Ha'. change (0 <=? 0) with true. cbv iota. apply ends_ret.
    apply handing_nil in HQ. by apply HQ.
  - apply Forall_cons in Hok as [(Hh1 & Hp0 & Hfit) Hok]. cbn [fst snd map concat] in *. unfold wire_chunk in Hst. cbn [fst snd] in Hst. rewrite <- !app_assoc in Hst.
    apply (runs_get_chunk_size c0 w fuel h (zlen p) _ _ _ Hf Hh1 Hst Hh). intros a1 (R1 & R2 & R3 & R4) Ha1. replace (zlen p <=? 0) with false by lia.
    unfold chunk_pieces in HQ. cbn [map concat snd] in HQ. apply handing_app in HQ.
    apply ends_bind. apply (ends_piece_loop fuel (CRLF ++ concat (map wire_chunk cs) ++ h0 ++ CRLF ++ rest) Hf _ p (length p)); [| lia | done | done | done | exact R1 | done |].
    + change CHUNK_SIZE with 512. rewrite !Nat2Z.inj_succ, Z2Nat.id by (apply Z.div_pos; lia). lia_mod.
    + fold (pieces_of p). revert HQ. unfold handing at 1 3. rewrite R4. destruct (hand_all _ (pieces_of p) _) as [[[w1 d1] qs1]|]; [|done].
      intros HQ tmp' a2 Ht' (S1 & S2 & S3 & S4) Ha2. change (0 <? 0) with false. cbv iota beta. unfold processed at 1. cbn [res_is_chunked with_processed with_data].
      rewrite (proj2 (Z.eqb_neq _ 0) Hch). apply ends_step, (runs_wait_line c0 w1 [] (concat (map wire_chunk cs) ++ h0 ++ CRLF ++ rest)); [by repeat constructor | rewrite Ht'; by cbv | exact S1 | | done |].
      { unfold steps_ok in Hf. change RINGBUFFER_SIZE with 1024 in Hf. change (zlen (@nil Z)) with 0. lia. }
      intros t a3 Ht3 (T1 & T2 & T3 & T4) Ha3. cbn [fst snd]. apply IH; [done | cbn in Hc; lia | rewrite <- Ht', <- Ht3; done | done | exact T1 | done |].
      specialize (HQ a3 ltac:(congruence)). revert HQ. unfold chunk_pieces, handing. destruct (hand_all _ _ _) as [[[w4 d4] qs4]|]; [|done].
      intros HQ a4 (V1 & V2 & V3 & V4). apply HQ. split_and!; congruence.
Qed.

End payload.
End HttpReceive.
