(* ===== verification/HttpExchange.v ===== *)
(** One exchange of the HTTP client with a server, the chunked coding in both
    directions, and the inputs on which src/src/http/client.c goes wrong. *)
From S2P Require Import Prelude StateM ByteQueue RingBuffer LinkedList Property PropMap Double ArrowUtf8 HttpClient HttpPeer HttpSend HttpReceive.

Module HttpExchange.
Import StateM RingBuffer Property Double Utf8 HttpClient HttpPeer HttpSend HttpReceive.

Section exchange.
Context {U W : Type} `{ByteQueue U} `{NetPeer W} `{Buffers}.
Context (malloc : memory -> Z -> option (Z * list Z)) (disp : list prop_type).

(** ** The request and the response *)

(** Everything the client needs of a request: its texts in memory, and lines that
    fit the buffers they go through. *)
Record request_ok (pw : PropMap.world) (req : http_request_t) (m u h : list Z) (q : list (list Z * list Z)) (ct body : list Z) (hs : list (list Z * list Z)) : Prop := {
  ro_start : start_ok pw req m u h q;
  ro_body : body_ok pw req ct body;
  ro_size : zlen body < 65536;
  ro_headers : map_texts pw (header req) hs;
  ro_lines : Forall (fun kv => line_ok (header_line kv)) hs;
}.

Definition request_text (req : http_request_t) (m u h : list Z) (q : list (list Z * list Z)) (ct body : list Z) (hs : list (list Z * list Z)) : list Z :=
  request_line m u q ++ host_line h (port req) ++ header_text req ct body hs ++ payload_text req body.

(** A payload on the wire and the pieces the handler is given, when the headers
    have left [res]. *)
Inductive payload_wire (fuel : nat) (res : http_response_t) : list Z -> list (list Z) -> Prop :=
| by_length body : res_is_chunked res = 0 -> recvContentLength res = zlen body -> zlen body <= INT_MAX -> fits_read (zlen body) ->
    payload_wire fuel res body (pieces_of body)
| by_chunks cs h0 : res_is_chunked res <> 0 -> Forall chunk_ok cs -> (length cs < fuel)%nat -> size_text h0 0 ->
    payload_wire fuel res (concat (map wire_chunk cs) ++ h0 ++ CRLF) (chunk_pieces cs).

(** A response to a request with the handlers [hd]: its status line, its headers
    and what they say, its payload. *)
Record response_ok (fuel : nat) (hd : payload_meth_t) (c more : list Z) (n : Z) (rhs : list (list Z * list Z)) (res : http_response_t) (wire : list Z) (ps : list (list Z)) : Prop := {
  re_code : number_text c n;
  re_line : one_line (status_line c more);
  re_short : zlen (status_line c more) + 2 < RINGBUFFER_SIZE;
  re_headers : Forall header_ok rhs;
  re_count : (length rhs < fuel)%nat;
  re_effect : fold_opt header_effect rhs (mk_response (u16 n) 0 0 0 hd no_data) = Some res;
  re_payload : payload_wire fuel res wire ps;
}.

Definition response_text (c more : list Z) (rhs : list (list Z * list Z)) (wire : list Z) : list Z :=
  status_line c more ++ CRLF ++ concat (map header_line rhs) ++ CRLF ++ wire.

(** The headers leave the handlers and the data alone. *)
Lemma effects_keep rhs : forall res res', fold_opt header_effect rhs res = Some res' -> res_meth res' = res_meth res /\ res_data res' = res_data res.
Proof.
  induction rhs as [|kv rhs IH]; intros res res' E; cbn [fold_opt] in E; [by injection E as <-|].
  destruct (header_effect kv res) as [res1|] eqn:E1; [|done]. cbn [mbind option_bind] in E. apply IH in E as [-> ->].
  unfold header_effect, apply_header in E1. repeat (match type of E1 with context [if ?b then _ else _] => destruct b | context [mbind _ ?o] => destruct o; cbn [mbind option_bind] in E1 end; try done); by injection E1 as <-.
Qed.

(** A result [res'] and an end [P] when the handler takes the pieces in; undefined otherwise. *)
Definition delivered (res : http_response_t) (ps : list (list Z)) (pw : PropMap.world) (a : abs) (P : list (list Z) -> abs -> Prop)
    (o : option (Z * http_response_t * abs * PropMap.world)) : Prop :=
  match hand_all malloc disp (p_add_handler (res_meth res)) ps (pw, res_data res, pieces (net a)) with
  | None => o = None
  | Some (pw', d, qs) => exists a', o = Some ((0, processed (with_data res d) (length ps)), a', pw') /\ P qs a'
  end.

Lemma ends_delivered c0 pw a s m res ps (P : list (list Z) -> abs -> Prop) : ends c0 m a pw (delivered res ps pw a P) -> rep c0 pw a s ->
  match hand_all malloc disp (p_add_handler (res_meth res)) ps (pw, res_data res, pieces (net a)) with
  | None => m s = None
  | Some (pw', d, qs) => does m s (fun r s' => r = (0, processed (with_data res d) (length ps)) /\ exists a', rep c0 pw' a' s' /\ P qs a')
  end.
Proof.
  intros Hm Hs. specialize (Hm s Hs). unfold delivered in Hm. destruct (hand_all _ _ _ _ _) as [[[pw' d] qs]|].
  - destruct (m s) as [[x s']|] eqn:E; [|by destruct Hm as (? & ? & _)]. destruct Hm as (a' & pw2 & Hs' & a2 & [= -> <- ->] & HP).
    exists (0, processed (with_data res d) (length ps)), s'. split; [exact E|]. split; [done|]. by exists a'.
  - destruct (m s) as [[x s']|]; [|done]. by destruct Hm as (? & ? & _ & ?).
Qed.

Lemma ends_receive_payload c0 pw fuel res wire ps rest a : steps_ok fuel -> payload_wire fuel res wire ps -> stream a = wire ++ rest -> zlen (held a) < RINGBUFFER_SIZE ->
  ends c0 (receive_payload malloc disp fuel fuel res) a pw (delivered res ps pw a (fun qs a' => gets a rest qs a')).
Proof.
  intros Hf Hw Hst Hh. assert (Hf0 : (0 < fuel)%nat) by (unfold steps_ok in Hf; change RINGBUFFER_SIZE with 1024 in Hf; lia).
  assert (HQ : handing malloc disp res ps pw a (delivered res ps pw a (fun qs a' => gets a rest qs a'))
    (fun w' res' qs => forall a', gets a rest qs a' -> delivered res ps pw a (fun qs a' => gets a rest qs a') (Some (0, res', a', w')))).
  { unfold handing, delivered. destruct (hand_all _ _ _ _ _) as [[[w' d] qs]|]; [|done]. intros a' Ha'. by exists a'. }
  destruct Hw as [body Hch Hlen Hmax Hfit | cs h0 Hch Hcs Hl H0'].
  - by eapply ends_receive_length.
  - rewrite <- !app_assoc in Hst. eapply (ends_payload_loop c0 malloc disp fuel h0 rest cs Hf H0'); [done | done | by apply chunk_size | done | exact Hst | done | exact HQ].
Qed.

(** ** The chunked coding in both directions *)

Lemma fmt_02X_size n : 0 <= n <= CHUNK_SIZE -> size_text (fmt_02X n) n.
Proof.
  intros Hn. change CHUNK_SIZE with 512 in Hn.
  assert (Hall : forallb (fun n => bool_decide (find_sub (fmt_02X n ++ CRLF) CRLF = Some (zlen (fmt_02X n)))) (seqZ 0 513) = true) by by vm_compute.
  pose proof (forall_range _ _ Hall n ltac:(lia)) as Hx. apply bool_decide_eq_true in Hx.
  destruct (fmt_02X_ok n) as (Hc & Hl & Hv); [exact Hn|]. split; [exact (conj Hc Hx) | lia | exact Hv].
Qed.

Definition coded (p : list Z) : list Z * list Z := (fmt_02X (zlen p), p).

Lemma chunked_text_wire data : chunked_text data = concat (map wire_chunk (map coded (split_chunks (length data) data))) ++ fmt_02X 0 ++ CRLF ++ CRLF.
Proof. unfold chunked_text. by rewrite map_map. Qed.

Lemma chunk_pieces_coded data : segment <= MAX_TMP_BUF_SIZE -> concat (chunk_pieces (map coded (split_chunks (length data) data))) = data /\
  Forall chunk_ok (map coded (split_chunks (length data) data)).
Proof.
  intros Hseg. destruct (split_chunks_spec (length data) data) as [E Hall]; [done|]. rewrite <- E at 3. clear E. unfold chunk_pieces.
  induction Hall as [|p ps Hp _ [IH1 IH2]]; [by split|]. cbn [map concat]. rewrite concat_app, IH1. split.
  - f_equal. by apply split_chunks_spec.
  - constructor; [|done]. unfold chunk_ok. cbn [coded fst snd]. split_and!; [by apply fmt_02X_size; lia | lia | by right].
Qed.

(** One exchange, in the logic of the client. *)
Lemma exchange_ends fuel c0 pw a req m u h q ct body hs c more n rhs res wire ps rest r0 :
  request c0 = Some req -> request_ok pw req m u h q ct body hs -> response_ok fuel (response_payload_meth req) c more n rhs res wire ps -> steps_ok fuel ->
  input (net a) = response_text c more rhs wire ++ rest ->
  ends c0 (default_http_client_do malloc disp fuel r0) a pw (delivered res ps pw a (fun qs a' =>
    stream a' = rest /\ code a' = u16 n /\ output (net a') = output (net a) ++ request_text req m u h q ct body hs /\ pieces (net a') = qs)).
Proof.
  intros Hreq [Hstart Hbody Hsize Hhs Hlines] [Hc Hline Hshort Hrhs Hcount Heff Hpay] Hf Hin.
  assert (Hf0 : 2 * RINGBUFFER_SIZE + 5 < Z.of_nat fuel) by exact Hf. change RINGBUFFER_SIZE with 1024 in Hf0, Hshort.
  unfold default_http_client_do. apply ends_step, runs_get. intros q0 _. change (request (with_response_code (with_queue c0 (Some q0)) (code a))) with (request c0). rewrite Hreq.
  apply ends_step, (runs_send_start c0 pw req m u h q); [done|]. change (0 <? 0) with false. cbv iota.
  apply ends_step, (runs_send_header c0 pw req ct body hs); [done | done | done |]. intros x Hx. replace (x <? 0) with false by lia.
  apply ends_step. match goal with |- context [sent (hold ?b []) ?t] => set (a1 := sent (hold b []) t) end.
  apply (runs_mono _ _ _ _ (fun y a' => 0 <= y /\ a' = sent a1 (payload_text req body))).
  { destruct Hbody as [[Hb ->] | (Hb & Hne & _)].
    - unfold no_body in Hb. rewrite Hb. apply runs_ret. split; [done|]. unfold sent. cbn [payload_text]. rewrite app_nil_r. by destruct a1 as [? ? []].
    - pose proof Hb as (E & _). rewrite E. cbn [negb]. by apply (runs_send_payload c0 pw req body). }
  intros y a2 [Hy ->]. replace (y <? 0) with false by lia. apply ends_step, runs_clear, ends_step.
  apply (runs_receive_response c0 pw c n more (concat (map header_line rhs) ++ CRLF ++ wire ++ rest)); [done | done | done | | lia | lia |].
  { change (input (net a) = status_line c more ++ CRLF ++ concat (map header_line rhs) ++ CRLF ++ wire ++ rest). rewrite Hin. unfold response_text. rewrite <- !app_assoc. done. }
  intros a3 (R1 & R2 & R3 & R4) Ha3. cbn [fst snd]. change (0 <? 0) with false. cbv iota. apply ends_step.
  apply (runs_receive_headers c0 pw fuel fuel (wire ++ rest) rhs _ res); [done | done | done | done | done | exact Heff |].
  intros a4 (S1 & S2 & S3 & S4) Ha4. cbn [fst snd]. change (0 <? 0) with false. cbv iota.
  destruct (effects_keep _ _ _ Heff) as [Em Ed]. cbn [res_meth res_data] in Em, Ed.
  eapply ends_mono; [by apply (ends_receive_payload c0 pw fuel res wire ps rest)|]. intros o. unfold delivered. rewrite S4, R4.
  change (pieces (net (hold (sent a1 (payload_text req body)) []))) with (pieces (net a)).
  destruct (hand_all _ _ _ _ _) as [[[pw' d] qs]|]; [|done]. intros (a5 & -> & T1 & T2 & T3 & T4). exists a5. split; [done|].
  cbn [code] in R2. split_and!; [done | congruence | | done].
  rewrite T3, S3, R3. unfold a1, request_text. cbn [output net sent hold]. by rewrite <- !app_assoc.
Qed.

(** C15. One exchange: the client sends exactly the text of the request, and reads
    the response up to its end. The payload is handed to the handler of the
    request in pieces of at most 512 bytes, whether the server gives its length
    or sends it in chunks; when the handler takes them in, the client returns 0
    with the status code, the headers and the number of pieces, and when the
    handler is undefined on them the exchange is. *)
Theorem http_exchange fuel c0 pw s a req m u h q ct body hs c more n rhs res wire ps rest r0 :
  rep c0 pw a s -> request c0 = Some req -> request_ok pw req m u h q ct body hs -> response_ok fuel (response_payload_meth req) c more n rhs res wire ps -> steps_ok fuel ->
  input (net a) = response_text c more rhs wire ++ rest ->
  match hand_all malloc disp (p_add_handler (response_payload_meth req)) ps (pw, no_data, pieces (net a)) with
  | None => default_http_client_do malloc disp fuel r0 s = None
  | Some (pw', d, qs) => does (default_http_client_do malloc disp fuel r0) s (fun r s' => r = (0, processed (with_data res d) (length ps)) /\ exists a', rep c0 pw' a' s' /\
      stream a' = rest /\ code a' = u16 n /\ output (net a') = output (net a) ++ request_text req m u h q ct body hs /\ pieces (net a') = qs)
  end.
Proof.
  intros Hs Hreq Hrok Hres Hf Hin. destruct (effects_keep _ _ _ (re_effect _ _ _ _ _ _ _ _ _ Hres)) as [Em Ed].
  cbn [res_meth res_data] in Em, Ed. rewrite <- Em, <- Ed.
  eapply ends_delivered; [by apply (exchange_ends fuel c0 pw a req m u h q ct body hs c more n rhs res wire ps rest r0) | done].
Qed.

(** C22. What [send_payload] sends in chunks, [receive_payload] reads back: the
    pieces handed to the handler are the payload, and the end of line of the
    empty chunk is left in the stream; it is undefined only when the handler is. *)
Theorem chunked_roundtrip fuel c1 pw1 s1 a req body :
  rep c1 pw1 a s1 -> has_body pw1 req body -> body <> [] -> zlen body < 65536 -> is_chunked req <> 0 ->
  steps_ok fuel -> zlen body < Z.of_nat fuel -> segment <= MAX_TMP_BUF_SIZE ->
  does (send_payload req) s1 (fun r1 s1' => 0 <= r1 /\ exists a' text, rep c1 pw1 a' s1' /\ output (net a') = output (net a) ++ text /\
    forall c2 pw2 s2 b rest res, rep c2 pw2 b s2 -> zlen (held b) < RINGBUFFER_SIZE -> res_is_chunked res <> 0 -> stream b = text ++ rest ->
      exists ps, concat ps = body /\
        match hand_all malloc disp (p_add_handler (res_meth res)) ps (pw2, res_data res, pieces (net b)) with
        | None => receive_payload malloc disp fuel fuel res s2 = None
        | Some (pw', d, qs) => does (receive_payload malloc disp fuel fuel res) s2 (fun r2 s2' => r2 = (0, processed (with_data res d) (length ps)) /\
            exists b', rep c2 pw' b' s2' /\ pieces (net b') = qs /\ stream b' = CRLF ++ rest)
        end).
Proof.
  intros Hs1 Hbody Hne Hlen Hch Hf Hfl Hseg.
  eapply does_mono; [eapply (runs_send_payload c1 pw1 req body a (fun x a' => 0 <= x /\ a' = sent a (payload_text req body))); try done|].
  intros r1 s1' (a' & Hs1' & Hr1 & ->). split; [done|]. exists (sent a (payload_text req body)), (payload_text req body). split_and!; [done | done |].
  assert (Ht : payload_text req body = chunked_text body) by (destruct body; [done|]; unfold payload_text; by rewrite (proj2 (Z.eqb_neq _ 0) Hch)).
  rewrite Ht, chunked_text_wire. intros c2 pw2 s2 b rest res Hs2 Hheld Hres Hst. destruct (chunk_pieces_coded body Hseg) as [Hcat Hok].
  set (cs := map coded (split_chunks (length body) body)) in *.
  assert (Hlcs : (length cs < fuel)%nat).
  { unfold cs. rewrite length_map. destruct (split_chunks_spec (length body) body) as [E Hall]; [done|]. apply (f_equal zlen) in E. clear -E Hall Hfl.
    assert (Hle : Z.of_nat (length (split_chunks (length body) body)) <= zlen (concat (split_chunks (length body) body))); [|lia].
    clear E. induction Hall as [|p ps Hp _ IH]; [done|]. cbn [concat length]. rewrite zlen_app. lia. }
  exists (chunk_pieces cs). split; [done|].
  apply (ends_delivered c2 pw2 b s2 _ res (chunk_pieces cs) (fun qs b' => pieces (net b') = qs /\ stream b' = CRLF ++ rest)); [|done].
  eapply ends_mono; [apply (ends_receive_payload c2 pw2 fuel res (concat (map wire_chunk cs) ++ fmt_02X 0 ++ CRLF) (chunk_pieces cs) (CRLF ++ rest) b); [done | | | done]|].
  - apply (by_chunks fuel res cs (fmt_02X 0)); [done | done | done | by apply fmt_02X_size].
  - rewrite Hst. by rewrite <- !app_assoc.
  - intros o. unfold delivered. destruct (hand_all _ _ _ _ _) as [[[pw' d] qs]|]; [|done]. intros (b' & -> & G1 & G2 & G3 & G4). by exists b'.
Qed.

End exchange.
(** ** A network that is the view itself, with segments of 100 bytes *)

#[export] Instance view_net : Net view := {
  soc_recv v b n := let k := Z.min (Z.min n 100) (zlen (input v)) in
    (k, take (Z.to_nat k) (input v), mk_view (drop (Z.to_nat k) (input v)) (output v) (pieces v));
  soc_send v b bs := (zlen bs, mk_view (input v) (output v ++ bs) (pieces v));
  add_payload v p := (0, mk_view (input v) (output v) (pieces v ++ [p]));
  socket v := (3, v); gethostbyname v h := (true, v); setsockopt v s u := v; connect v p := (0, v);
  ssl_connect v := (0, v); socket_connect_done v := (0, v); ssl_close v := v; soc_close v := v;
}.

#[export, refine] Instance view_peer : NetPeer view := { see v := v; segment := 100 }.
Proof.
  - intros v b n Hn Hi. eexists _, _. split; [done|]. pose proof (zlen_nonneg (input v)).
    assert (0 < zlen (input v)) by (destruct (input v); [done | zl]). split; [lia|]. split; [lia|]. split; [lia | done].
  - intros v b bs _. by eexists.
  - intros v p. by eexists 0, _.
Defined.

#[export, refine] Instance sample_buffers : Buffers := { chunk n := replicate (Z.to_nat n) 7 }.
Proof. intros n Hn. unfold zlen. rewrite length_replicate. lia. Defined.

Definition sample_memory : memory :=
  list_to_map (zip [1; 2; 3; 4; 5; 6; 7; 8; 9] (map (fun s => (false, lit s ++ [0])) ["GET"; "host"; "/api"; "from"; "3"; "Accept"; "text"; "POST"; "hello"]%string)).
Definition in_memory (a : Z) : property_t := mk_prop a PROPERTY_CONST_TAG 0.

(** A map of headers at node 1 and a query at node 2. *)
Definition sample_props : PropMap.world := PropMap.mk_world sample_memory
  (list_to_map [(1, (in_memory 6, in_memory 7)); (2, (in_memory 4, in_memory 5))]) (list_to_map [(1, 0); (2, 0)]).

Definition sample_get : http_request_t := mk_request (in_memory 1) p_null (in_memory 2) (in_memory 3) 80 0 0 0 1 (p_null, p_null) 2 p_null (mk_meth other_handler other_handler).
Definition sample_post : http_request_t := mk_request (in_memory 8) p_null (in_memory 2) (in_memory 3) 80 0 0 1 1 (p_null, in_memory 7) 2 (in_memory 9) no_meth.

Definition sample_queue : ring_buffer_t := mk_ring (Some (replicate 1024 0)) 1024 0 0.
Definition sample_http (req : http_request_t) : @http_client_t ring_buffer_t := mk_client 3 10000 0 true false (Some sample_queue) (Some req) 0.
Definition sample_st (req : http_request_t) (i : list Z) : @st ring_buffer_t view := mk_st (sample_http req) sample_props (mk_view i [] []).

Lemma sample_queue_ok : q_ok sample_queue.
Proof.
  unfold q_ok, ring_byte_queue, ring_ok. cbn [sample_queue buffer total shift RingBuffer.size]. split_and!; [lia.. |]. exists (replicate 1024 0). split; [done | by vm_compute].
Qed.

Lemma sample_rep req i : rep (sample_http req) sample_props (mk_abs [] 0 (mk_view i [] [])) (sample_st req i).
Proof. exists sample_queue, (mk_view i [] []). split; [done|]. split_and!; [exact sample_queue_ok | done | by vm_compute | done]. Qed.

Lemma sample_response hd : response_ok (Z.to_nat 3000) hd (lit "200") [] 200 [(lit "Transfer-Encoding", lit "chunked")] (mk_response 200 1 0 0 hd no_data)
  (concat (map wire_chunk [(lit "5", lit "hello"); (lit "02", lit "!!")]) ++ lit "0" ++ CRLF) [lit "hello"; lit "!!"].
Proof.
  split.
  - split; [by repeat constructor | by cbv | by vm_compute | by apply (bool_decide_unpack _); vm_compute].
  - split; [by repeat constructor | by vm_compute].
  - by cbv.
  - constructor; [|constructor]. split_and!; [split; [by repeat constructor | by vm_compute] | by apply (bool_decide_unpack _); vm_compute | by cbv..].
  - change 1%nat with (Z.to_nat 1). cbn [length]. lia.
  - by vm_compute.
  - apply (by_chunks _ _ [(lit "5", lit "hello"); (lit "02", lit "!!")]); [done | | cbn [length]; lia |].
    + repeat constructor; try (by cbv); left; by cbv.
    + split; [split; [by repeat constructor | by vm_compute] | by cbv | by vm_compute].
Qed.

(** A request with a query and a header, and a response in two chunks. *)
Lemma http_exchange_witness :
  exists s', default_http_client_do bump_malloc types (Z.to_nat 3000) (http_response_init no_meth) (sample_st sample_get (lit "HTTP/1.1 200 OK" ++ CRLF ++ lit "Transfer-Encoding: chunked" ++ CRLF ++ CRLF ++
      lit "5" ++ CRLF ++ lit "hello" ++ CRLF ++ lit "02" ++ CRLF ++ lit "!!" ++ CRLF ++ lit "0" ++ CRLF ++ CRLF)) = Some ((0, mk_response 200 1 0 2 (mk_meth other_handler other_handler) no_data), s') /\
    output (wd s') = lit "GET /api?from=3 HTTP/1.1" ++ CRLF ++ lit "Host: host:80" ++ CRLF ++ lit "Accept: text" ++ CRLF ++ CRLF /\
    pieces (wd s') = [lit "hello"; lit "!!"].
Proof.
  set (i := lit "HTTP/1.1 200 OK" ++ _).
  pose proof (http_exchange bump_malloc types (Z.to_nat 3000) (sample_http sample_get) sample_props (sample_st sample_get i) (mk_abs [] 0 (mk_view i [] [])) sample_get
    (lit "GET") (lit "/api") (lit "host") [(lit "from", lit "3")] [] [] [(lit "Accept", lit "text")]
    (lit "200") [] 200 [(lit "Transfer-Encoding", lit "chunked")] (mk_response 200 1 0 0 (mk_meth other_handler other_handler) no_data)
    (concat (map wire_chunk [(lit "5", lit "hello"); (lit "02", lit "!!")]) ++ lit "0" ++ CRLF) [lit "hello"; lit "!!"] CRLF (http_response_init no_meth)) as Hx.
  change (p_add_handler (response_payload_meth sample_get)) with other_handler in Hx. rewrite hand_all_other in Hx.
  destruct Hx as (r & s' & E & -> & a' & Hs' & _ & _ & Ho & Hp).
  - apply sample_rep.
  - done.
  - split; [split | by left | by cbv | |].
    1-3: by vm_compute.
    + exists [2]. split; [split_and!; [done | done | by exists 0]|]. constructor; [|constructor]. exists (in_memory 4), (in_memory 5). split_and!; [by vm_compute.. | | ]; by repeat constructor.
    + by vm_compute.
    + by vm_compute.
    + exists [1]. split; [split_and!; [done | done | by exists 0]|]. constructor; [|constructor]. exists (in_memory 6), (in_memory 7). split_and!; [by vm_compute.. | | ]; by repeat constructor.
    + by repeat constructor.
  - exact (sample_response _).
  - unfold steps_ok. change RINGBUFFER_SIZE with 1024. lia.
  - done.
  - destruct Hs' as (q' & w' & -> & _ & _ & _ & Hw'). cbn [wd] in *. change (see w') with w' in Hw'. subst w'. rewrite E. eexists. split; [reflexivity|]. cbn [wd]. rewrite Ho, Hp. by split; vm_compute.
Defined.

(** "hello" in a chunk, and the bytes after it. *)
Lemma chunked_roundtrip_witness :
  exists r s s', send_payload sample_post (sample_st sample_post []) = Some (r, s) /\ output (wd s) = lit "05" ++ CRLF ++ lit "hello" ++ CRLF ++ lit "00" ++ CRLF ++ CRLF /\
    receive_payload bump_malloc types (Z.to_nat 3000) (Z.to_nat 3000) (mk_response 200 1 0 0 (mk_meth other_handler other_handler) no_data) (sample_st sample_get (output (wd s) ++ [33])) = Some ((0, mk_response 200 1 0 1 (mk_meth other_handler other_handler) no_data), s') /\
    pieces (wd s') = [lit "hello"].
Proof.
  destruct (chunked_roundtrip bump_malloc types (Z.to_nat 3000) (sample_http sample_post) sample_props (sample_st sample_post []) (mk_abs [] 0 (mk_view [] [] [])) sample_post (lit "hello"))
    as (r & s & E & _ & a' & text & Hs & Ho & Hback).
  - apply sample_rep.
  - split_and!; [done | by vm_compute | exists [0]; by vm_compute].
  - done.
  - by cbv.
  - done.
  - unfold steps_ok. change RINGBUFFER_SIZE with 1024. lia.
  - change (zlen (lit "hello")) with 5. lia.
  - by cbv.
  - assert (Ht : output (wd s) = text).
    { destruct Hs as (q' & w' & -> & _ & _ & _ & Hw'). change (see w') with w' in Hw'. subst w'. exact Ho. }
    assert (Hw : output (wd s) = lit "05" ++ CRLF ++ lit "hello" ++ CRLF ++ lit "00" ++ CRLF ++ CRLF).
    { assert (Hc : (fun p => output (wd p.2)) <$> send_payload sample_post (sample_st sample_post []) = Some (lit "05" ++ CRLF ++ lit "hello" ++ CRLF ++ lit "00" ++ CRLF ++ CRLF)) by by vm_compute.
      rewrite E in Hc. cbn in Hc. by injection Hc as ->. }
    destruct (Hback (sample_http sample_get) sample_props (sample_st sample_get (output (wd s) ++ [33])) (mk_abs [] 0 (mk_view (output (wd s) ++ [33]) [] [])) [33] (mk_response 200 1 0 0 (mk_meth other_handler other_handler) no_data)) as (ps & Hcat & Hx).
    + apply sample_rep.
    + by cbv.
    + done.
    + unfold stream. cbn [held net input app]. by rewrite Ht.
    + change (p_add_handler (res_meth _)) with other_handler in Hx. rewrite hand_all_other in Hx. destruct Hx as (r2 & s' & E2 & -> & b' & Hs' & Hp & Hst).
      exists r, s. assert (Hv : (fun p => (p.1, pieces (wd p.2))) <$> receive_payload bump_malloc types (Z.to_nat 3000) (Z.to_nat 3000) (mk_response 200 1 0 0 (mk_meth other_handler other_handler) no_data) (sample_st sample_get (output (wd s) ++ [33])) =
        Some ((0, mk_response 200 1 0 1 (mk_meth other_handler other_handler) no_data), [lit "hello"])) by (rewrite Hw; by vm_compute).
      rewrite E2 in Hv. cbn in Hv. exists s'. injection Hv as Hl Hps. split_and!; [done | exact Hw | | exact Hps]. rewrite E2. do 2 f_equal.
      unfold processed, with_processed. cbn. do 2 f_equal. lia.
Defined.

End HttpExchange.
