(* ===== verification/HttpFaults.v ===== *)
(** Where src/src/http/client.c goes wrong: a server that closes the connection
    inside a response, and a line as long as the buffer it is read into. *)
From S2P Require Import Prelude StateM ByteQueue RingBuffer Property PropMap Double ArrowUtf8 HttpClient HttpPeer HttpSend HttpReceive HttpExchange.

Module HttpFaults.
Import StateM RingBuffer Property Double Utf8 HttpClient HttpPeer HttpSend HttpReceive HttpExchange.

Lemma bind_value {S A B} (m : StateM.M S A) (f : A -> StateM.M S B) s x s' : m s = Some (x, s') -> (m ≫= f) s = f x s'.
Proof. intros E. unfold mbind, M_bind. by rewrite E. Qed.

Lemma queue_same {U W A} `{ByteQueue U} (f : U -> option (A * U)) (s : @st U W) q x : queue (cl s) = Some q -> f q = Some (x, q) -> queue_op f s = Some (x, s).
Proof. destruct s as [[] pr w]. cbn. intros -> E. unfold queue_op, get, put, lift, mbind, M_bind, mret, M_ret. cbn. rewrite E. done. Qed.

Section closed.
Context {U W : Type} `{ByteQueue U} `{Net W} `{Buffers}.

(** A connection the server has closed: a read returns 0, now and later. *)
Context (closed : W -> Prop).
Hypothesis closed_recv : forall w b n, 0 <= n -> closed w -> exists w', soc_recv w b n = (0, [], w') /\ closed w'.

(** The client with the bytes [b] in its queue, on a closed connection. *)
Definition at_end (b : list Z) (s : @st U W) : Prop := exists q, queue (cl s) = Some q /\ q_ok q /\ q_bytes q = b /\ LINE_CHUNK < q_room q /\ closed (wd s).

Lemma client_recv_closed len b s : at_end b s -> exists s', client_recv len s = Some (0, s') /\ at_end b s'.
Proof.
  intros (q & Hq & Hok & Hb & Hr & Hc). unfold client_recv, capacity. cbv zeta. rewrite (bind_value _ _ s _ s (queue_same _ s q _ Hq eq_refl)).
  rewrite (bind_value get _ s (cl s) s eq_refl). set (n := if _ <? _ then _ else _). destruct (closed_recv (wd s) (f_cipher (cl s)) n) as (w' & E & Hc'); [|done|].
  { change LINE_CHUNK with 40 in Hr. unfold n, u16. destruct (Z.ltb_spec (q_room q) (len mod 65536)); lia_mod. }
  exists (mk_st (cl s) (props s) w'). split; [|by exists q].
  rewrite (bind_value _ _ s (0, []) (mk_st (cl s) (props s) w')); [done|]. unfold world. by rewrite E.
Qed.

Lemma wait_line_closed buf maxsize size s : line_open buf size = Some true -> at_end [] s ->
  exists s', at_end [] s' /\ forall fuel, wait_line_loop (S fuel) buf size maxsize s = wait_line_loop fuel buf size maxsize s'.
Proof.
  intros Ho Hs. pose proof Hs as (q & Hq & Hok & Hb & Hr & Hc). destruct (client_recv_closed LINE_CHUNK [] s Hs) as (s' & E & Hs'). exists s'. split; [done|]. intros fuel.
  cbn [wait_line_loop]. rewrite Ho. rewrite (bind_value _ _ s true s) by done.
  rewrite (bind_value _ _ s (-1, drop (Z.to_nat size) buf) s).
  2: { apply (queue_same _ s q); [done|]. rewrite q_pop_short by (done || by rewrite Hb). done. }
  cbn [fst]. change (-1 =? 0) with false. cbv iota. rewrite (bind_value _ _ s (q_room q) s) by by apply (queue_same _ s q).
  replace (LINE_CHUNK <? q_room q) with true by lia. rewrite (bind_value _ _ s 0 s' E). done.
Qed.

Lemma fill_closed need e b s : zlen b < need -> at_end b s ->
  exists s', at_end b s' /\ forall fuel, fill_loop (S fuel) need e s = fill_loop fuel need e s'.
Proof.
  intros Hn Hs. pose proof Hs as (q & Hq & Hok & Hb & Hr & Hc). destruct (client_recv_closed (need - zlen b) b s Hs) as (s' & E & Hs'). exists s'. split; [done|]. intros fuel.
  cbn [fill_loop]. rewrite (bind_value _ _ s (zlen b) s).
  2: { apply (queue_same _ s q); [done|]. by rewrite q_size_bytes, Hb. }
  replace (zlen b <? need) with true by lia. rewrite (bind_value _ _ s 0 s' E). done.
Qed.

(** C40. A server that closes the connection in front of a line, or inside the
    payload, leaves the client in its loop: after any number of rounds it is
    where it was, so neither loop ever returns. *)
Theorem closed_peer_spins buf maxsize need e b s k :
  (at_end [] s -> exists s', at_end [] s' /\ forall fuel, wait_line (k + fuel) buf maxsize s = wait_line fuel buf maxsize s') /\
  (at_end b s -> zlen b < need -> exists s', at_end b s' /\ forall fuel, fill_loop (k + fuel) need e s = fill_loop fuel need e s').
Proof.
  split; (revert s; induction k as [|k IH]; intros s Hs; [by exists s|]).
  - destruct (wait_line_closed buf maxsize 0 s) as (s2 & Hs2 & E2); [done | done|]. destruct (IH s2 Hs2) as (s3 & Hs3 & E3).
    exists s3. split; [done|]. intros fuel. cbn [plus]. unfold wait_line in *. by rewrite E2.
  - intros Hn. destruct (fill_closed need e b s Hn Hs) as (s2 & Hs2 & E2). destruct (IH s2 Hs2 Hn) as (s3 & Hs3 & E3).
    exists s3. split; [done|]. intros fuel. cbn [plus]. by rewrite E2.
Qed.
End closed.

(** ** A piece that comes at once *)

Section bulk.
Context {U W : Type} `{ByteQueue U} `{Net W} `{Buffers}.

(** A server that has 512 bytes of the payload ready when the client asks for
    them: the read stores them in a buffer of 511, so it is undefined, and with it
    the receiving of every payload of at least 512 bytes. *)
Theorem receive_payload_overflow malloc disp fuel chunks res (s : @st U W) q data w' :
  queue (cl s) = Some q -> q_ok q -> q_bytes q = [] -> CHUNK_SIZE <= q_room q ->
  res_is_chunked res = 0 -> CHUNK_SIZE <= recvContentLength res <= INT_MAX ->
  soc_recv (wd s) (f_cipher (cl s)) CHUNK_SIZE = (CHUNK_SIZE, data, w') -> zlen data = CHUNK_SIZE ->
  client_recv CHUNK_SIZE s = None /\ receive_payload malloc disp fuel chunks res s = None.
Proof.
  intros Hq Hok Hb Hr Hch Hl Hrecv Hd. assert (E : client_recv CHUNK_SIZE s = None).
  { unfold client_recv, capacity. cbv zeta. change (u16 CHUNK_SIZE) with CHUNK_SIZE. rewrite (bind_value _ _ s _ s (queue_same _ s q _ Hq eq_refl)).
    replace (q_room q <? CHUNK_SIZE) with false by lia. rewrite (bind_value get _ s (cl s) s eq_refl).
    rewrite (bind_value _ _ s (CHUNK_SIZE, data) (mk_st (cl s) (props s) w')) by (unfold world; by rewrite Hrecv).
    change (0 <? CHUNK_SIZE) with true. cbv iota. unfold wrn. rewrite chunk_size, Hd by (by cbv). done. }
  split; [exact E|]. unfold receive_payload. destruct chunks as [|chunks]; [done|]. cbn [payload_loop]. rewrite Hch. change (negb (0 =? 0)) with false. cbv iota.
  change CHUNK_SIZE with 512 in Hl. unfold INT_MAX in Hl. rewrite s32_id by lia. rewrite (bind_value _ _ s (recvContentLength res) s) by done.
  replace (recvContentLength res <=? 0) with false by lia.
  assert (Ef : fill_loop fuel CHUNK_SIZE 0 s = None).
  { destruct fuel as [|fuel]; [done|]. cbn [fill_loop]. rewrite (bind_value _ _ s 0 s).
    2: { apply (queue_same _ s q); [done|]. by rewrite q_size_bytes, Hb. }
    change (0 <? CHUNK_SIZE) with true. cbv iota. change (CHUNK_SIZE - 0) with CHUNK_SIZE. unfold mbind, M_bind. by rewrite E. }
  cbn [piece_loop]. replace (recvContentLength res =? 0) with false by lia. change CHUNK_SIZE with 512. replace (recvContentLength res <? 512) with false by lia.
  change CHUNK_SIZE with 512 in Ef. unfold mbind, M_bind. by rewrite Ef.
Qed.
End bulk.

(** ** A line as long as the buffer *)

Lemma find_sub_never s pat a b : find_sub s pat = None -> s <> a ++ pat ++ b.
Proof.
  revert a. induction s as [|c s IH]; intros a E Hs; cbn [find_sub] in E; case_bool_decide as Hp; try done.
  - apply Hp. destruct a; [by exists b | done].
  - destruct a as [|x a]; [apply Hp; by exists b|]. injection Hs as -> Hs. destruct (find_sub s pat) eqn:Ef; [done|]. by apply (IH a).
Qed.

Lemma line_open_none p done_ todo tl : find_sub p CRLF = None -> done_ ++ todo = p -> line_open (done_ ++ tl) (zlen done_) = Some true.
Proof.
  intros Hf Hp. unfold line_open. destruct (Z.ltb_spec (zlen done_) 2) as [|Hd]; [done|].
  destruct (split_at done_ (zlen done_ - 2)) as (d & e & -> & Hdl); [lia|]. rewrite zlen_app in *.
  rewrite <- (app_assoc d), (rdn_app d e tl) by lia. cbn [mbind option_bind]. rewrite bool_decide_false; [done|]. intros ->.
  rewrite <- app_assoc in Hp. by apply (find_sub_never p CRLF d todo).
Qed.

Section overflow.
Context {U W : Type} `{ByteQueue U} `{NetPeer W} `{Buffers}.
Context (c0 : @http_client_t U) (pw : PropMap.world).

#[local] Abbreviation runs := (runs c0 pw).

(** The operation is undefined on every state that stands for [a]. *)
Definition stuck {A} (m : StateM.M (@st U W) A) (a : abs) : Prop := forall s, rep c0 pw a s -> m s = None.

Lemma stuck_bind {A B} (m : StateM.M (@st U W) A) (f : A -> StateM.M (@st U W) B) a : runs m a (fun x a' => stuck (f x) a') -> stuck (m ≫= f) a.
Proof. intros Hm s Hs. destruct (Hm s Hs) as (x & s' & E & a' & Hs' & Hf). rewrite (bind_value _ _ _ _ _ E). by apply Hf. Qed.

Lemma stuck_lift {A B} (o : option A) (f : A -> StateM.M (@st U W) B) a : o = None -> stuck (lift o ≫= f) a.
Proof. intros -> s Hs. done. Qed.

(** The loop up to the last byte [c] of a line [q ++ [c]] that has no end, for a
    [goal] that can be pushed through an operation. *)
Section upto.
Context (goal : StateM.M (@st U W) (option Z * list Z) -> abs -> Prop).
Hypothesis goal_bind : forall A (m : StateM.M (@st U W) A) (f : A -> StateM.M (@st U W) (option Z * list Z)) a, runs m a (fun x a' => goal (f x) a') -> goal (m ≫= f) a.

Lemma line_upto q c rest maxsize fuel : zlen q + 1 = maxsize -> find_sub (q ++ [c]) CRLF = None -> forall done_ todo tl a, done_ ++ todo = q ->
  maxsize <= zlen (done_ ++ tl) -> stream a = todo ++ c :: rest -> zlen (held a) < RINGBUFFER_SIZE ->
  line_steps (todo ++ [c]) (held a) < Z.of_nat fuel \/ (forall b n a', goal (wait_line_loop 0 b n maxsize) a') ->
  (forall fuel' tl' a' h, zlen (q ++ tl') = zlen (done_ ++ tl) -> held a' = c :: h -> goal (wait_line_loop (S fuel') (q ++ tl') (zlen q) maxsize) a') ->
  goal (wait_line_loop fuel (done_ ++ tl) (zlen done_) maxsize) a.
Proof.
  intros Hmax Hnone. induction fuel as [|fuel IH]; intros done_ todo tl a Hd Hb Hst Hh Hf HG.
  { destruct Hf as [Hf|Hf]; [|by apply Hf]. unfold line_steps in Hf. pose proof (zlen_nonneg (todo ++ [c])). case_bool_decide; lia. }
  assert (Hopen : line_open (done_ ++ tl) (zlen done_) = Some true).
  { apply (line_open_none (q ++ [c]) done_ (todo ++ [c])); [done|]. by rewrite <- Hd, app_assoc. }
  assert (Hdl : zlen done_ + zlen todo = zlen q) by (rewrite <- Hd, zlen_app; lia). pose proof (zlen_nonneg todo). rewrite zlen_app in Hb.
  destruct (held a) as [|x h] eqn:Eh.
  - cbn [wait_line_loop]. rewrite Hopen. apply goal_bind. eapply runs_lift; [done|]. apply goal_bind. rewrite zlen_to_nat, drop_app_length, take_app_length.
    apply runs_pop_short; [by rewrite Eh|]. change (-1 =? 0) with false. cbn [fst]. cbv iota. apply goal_bind, runs_capacity. rewrite Eh.
    change (LINE_CHUNK <? RINGBUFFER_SIZE - 1 - zlen (@nil Z)) with true. cbv iota. unfold stream in Hst. rewrite Eh in Hst. cbn [app] in Hst.
    apply goal_bind, runs_client_recv; [rewrite Hst; by destruct todo | done | by rewrite Eh | left; by cbv |]. intros k Hk Hki. replace (k <? 0) with false by lia.
    apply (IH done_ todo tl); cbn [held]; try done.
    + by rewrite zlen_app.
    + unfold stream. cbn [held net input]. by rewrite Eh, app_nil_l, take_drop.
    + rewrite Eh. cbn [app]. change LINE_CHUNK with 40 in Hk. unfold zlen. rewrite length_take. change RINGBUFFER_SIZE with 1024. lia.
    + destruct Hf as [Hf|Hf]; [left | by right]. rewrite Eh, Hst. destruct (Z.to_nat k) eqn:Ek; [lia|].
      assert (Hne : [] ++ take (S n) (todo ++ c :: rest) <> []) by by destruct todo. unfold line_steps in *. rewrite bool_decide_false by done. rewrite bool_decide_true in Hf by done. lia.
  - unfold stream in Hst. rewrite Eh in Hst. destruct todo as [|y todo]; cbn [app] in Hst; injection Hst as -> Hst.
    { rewrite app_nil_r in Hd. subst done_. by apply (HG fuel tl a h). }
    rewrite zlen_cons in Hdl. pose proof (zlen_nonneg todo).
    destruct tl as [|z tl]; [change (zlen (@nil Z)) with 0 in Hb; lia|]. rewrite zlen_cons in Hb. destruct tl as [|z2 tl]; [change (zlen (@nil Z)) with 0 in Hb; lia|].
    cbn [wait_line_loop]. rewrite Hopen. apply goal_bind. eapply runs_lift; [done|]. apply goal_bind. rewrite zlen_to_nat, drop_app_length, take_app_length.
    apply runs_pop; [rewrite Eh, zlen_cons; pose proof (zlen_nonneg h); lia | rewrite !zlen_cons; pose proof (zlen_nonneg tl); lia |].
    rewrite Eh. change (Z.to_nat 1) with 1%nat. cbn [take drop app fst snd]. rewrite take_0, !drop_0. cbn [app]. change (0 =? 0) with true. cbv iota. apply goal_bind.
    replace (zlen done_ + 1) with (zlen (done_ ++ [y])) by (rewrite zlen_app; done). rewrite (app_assoc done_ [y]) || replace (done_ ++ y :: z2 :: tl) with ((done_ ++ [y]) ++ z2 :: tl) by by rewrite <- app_assoc.
    eapply runs_lift; [by apply wr_app|]. replace (zlen (done_ ++ [y]) =? maxsize) with false by (rewrite zlen_app; change (zlen [y]) with 1; lia).
    apply (IH (done_ ++ [y]) todo (0 :: tl)); cbn [held hold].
    + by rewrite <- app_assoc.
    + rewrite !zlen_app, !zlen_cons in *. change (zlen (@nil Z)) with 0. lia.
    + done.
    + rewrite zlen_cons in Hh. lia.
    + destruct Hf as [Hf|Hf]; [left | by right]. unfold line_steps in *. rewrite bool_decide_false in Hf by done. cbn [app] in Hf. rewrite zlen_cons in Hf. case_bool_decide; lia.
    + intros fuel' tl' a' h' Hz. apply HG. rewrite Hz, !zlen_app, !zlen_cons. change (zlen (@nil Z)) with 0. lia.
Qed.
End upto.

(** A line of [maxsize] bytes that has no end: the terminator is written behind
    the buffer of [maxsize] bytes the client passes, so [wait_line] is undefined
    there, whatever the fuel; with one byte more it is defined and returns NULL. *)
Theorem wait_line_overflow fuel q c rest maxsize buf x a s :
  rep c0 pw a s -> zlen q + 1 = maxsize -> find_sub (q ++ [c]) CRLF = None -> stream a = q ++ c :: rest -> zlen (held a) < RINGBUFFER_SIZE ->
  zlen buf = maxsize -> 2 * maxsize + 1 < Z.of_nat fuel ->
  (forall fuel', wait_line fuel' buf maxsize s = None) /\ does (wait_line fuel (buf ++ [x]) maxsize) s (fun r _ => r.1 = None).
Proof.
  intros Hs Hmax Hnone Hst Hh Hbuf Hf. unfold wait_line. split.
  - intros fuel'. revert s Hs. change (stuck (wait_line_loop fuel' ([] ++ buf) (zlen (@nil Z)) maxsize) a).
    apply (line_upto stuck (fun A => stuck_bind) q c rest maxsize fuel' Hmax Hnone [] q buf); [done | cbn [app]; lia | done | done | by right |].
    intros f tl a' h Hz Ha. cbn [wait_line_loop]. rewrite (line_open_none (q ++ [c]) q [c]) by done. apply stuck_bind. eapply runs_lift; [done|].
    apply stuck_bind. rewrite zlen_to_nat, drop_app_length, take_app_length. cbn [app] in Hz. rewrite zlen_app in Hz.
    apply runs_pop; [rewrite Ha, zlen_cons; pose proof (zlen_nonneg h); lia | lia |]. cbn [fst snd]. change (0 =? 0) with true. cbv iota.
    apply stuck_lift. rewrite Ha. change (Z.to_nat 1) with 1%nat. cbn [take]. assert (Htl : exists z, tl = [z]).
    { destruct tl as [|z [|]]; [change (zlen (@nil Z)) with 0 in Hz; lia | by exists z |]. rewrite !zlen_cons in Hz. pose proof (zlen_nonneg l). lia. }
    destruct Htl as (z & ->). cbn [app drop]. unfold wr. if_false. done.
  - assert (Hrun : runs (wait_line_loop fuel ([] ++ buf ++ [x]) (zlen (@nil Z)) maxsize) a (fun r _ => r.1 = None)); [|].
    2: { eapply does_mono; [by apply Hrun|]. by intros r s' (a' & _ & E). }
    apply (line_upto (fun m a => runs m a (fun r _ => r.1 = None)) (fun A m f a => runs_bind c0 pw m f a _) q c rest maxsize fuel Hmax Hnone [] q (buf ++ [x]));
      [done | cbn [app]; rewrite zlen_app; change (zlen [x]) with 1; lia | done | done | left |].
    { unfold line_steps. rewrite zlen_app. change (zlen [c]) with 1. case_bool_decide; lia. }
    intros f tl a' h Hz Ha. cbn [wait_line_loop]. rewrite (line_open_none (q ++ [c]) q [c]) by done. apply runs_bind. eapply runs_lift; [done|].
    apply runs_bind. rewrite zlen_to_nat, drop_app_length, take_app_length. cbn [app] in Hz. rewrite !zlen_app in Hz. change (zlen [x]) with 1 in Hz.
    apply runs_pop; [rewrite Ha, zlen_cons; pose proof (zlen_nonneg h); lia | lia |]. cbn [fst snd]. change (0 =? 0) with true. cbv iota. rewrite Ha.
    change (Z.to_nat 1) with 1%nat. cbn [take]. destruct tl as [|y [|z tl]]; [change (zlen (@nil Z)) with 0 in Hz; lia | change (zlen [y]) with 1 in Hz; lia |].
    cbn [app drop]. apply runs_bind. rewrite take_0, drop_0. cbn [app]. replace (q ++ c :: z :: tl) with ((q ++ [c]) ++ z :: tl) by by rewrite <- app_assoc.
    replace (zlen q + 1) with (zlen (q ++ [c])) by by rewrite zlen_app. eapply runs_lift; [by apply wr_app|].
    replace (zlen (q ++ [c]) =? maxsize) with true by (rewrite zlen_app; change (zlen [c]) with 1; lia). by apply runs_ret.
Qed.
End overflow.

(** ** Samples *)

Lemma view_closed w b n : 0 <= n -> input w = [] -> exists w' : view, soc_recv w b n = (0, [], w') /\ input w' = [].
Proof. intros Hn E. exists (mk_view [] (output w) (pieces w)). cbn [soc_recv view_net]. rewrite E. change (zlen (@nil Z)) with 0. rewrite Z.min_r by lia. done. Qed.

(** The connection is closed in front of the status line: seven rounds later the
    client is still there. *)
Lemma closed_peer_spins_witness :
  exists s', input (wd s') = [] /\ forall fuel, wait_line (7 + fuel) (chunk 1024) 1024 (sample_st sample_get []) = wait_line fuel (chunk 1024) 1024 s'.
Proof.
  destruct (closed_peer_spins (fun w : view => input w = []) view_closed (chunk 1024) 1024 5 0 [] (sample_st sample_get []) 7) as [Hline _].
  destruct Hline as (s' & (q & _ & _ & _ & _ & Hw) & E).
  - exists sample_queue. split; [done|]. split; [exact sample_queue_ok|]. split; [done|]. split; [by cbv | done].
  - by exists s'.
Defined.

(** A line of 16 bytes for a buffer of 16. *)
Lemma wait_line_overflow_witness :
  wait_line 99 (chunk 16) 16 (sample_st sample_get (lit "0123456789abcdef" ++ CRLF)) = None /\
  exists r s', wait_line 99 (chunk 16 ++ [7]) 16 (sample_st sample_get (lit "0123456789abcdef" ++ CRLF)) = Some (r, s') /\ r.1 = None.
Proof.
  set (i := lit "0123456789abcdef" ++ CRLF).
  destruct (wait_line_overflow (sample_http sample_get) sample_props 99 (lit "0123456789abcde") 102 CRLF 16 (chunk 16) 7 (mk_abs [] 0 (mk_view i [] [])) (sample_st sample_get i)) as [E (r & s' & E' & Hr)].
  - apply sample_rep.
  - by cbv.
  - by vm_compute.
  - done.
  - by cbv.
  - by cbv.
  - lia.
  - split; [apply E|]. exists r, s'. exact (conj E' Hr).
Defined.

(** A connection that gives all it is asked for. *)
Record bulk := mk_bulk { there : list Z }.
#[export] Instance bulk_net : Net bulk := {
  soc_recv v b n := (n, take (Z.to_nat n) (there v), mk_bulk (drop (Z.to_nat n) (there v))); soc_send v b bs := (zlen bs, v); add_payload v p := (0, v);
  socket v := (3, v); gethostbyname v h := (true, v); setsockopt v s u := v; connect v p := (0, v);
  ssl_connect v := (0, v); socket_connect_done v := (0, v); ssl_close v := v; soc_close v := v;
}.

Lemma receive_payload_overflow_witness :
  let s := mk_st (sample_http sample_get) sample_props (mk_bulk (replicate 512 65)) in
  client_recv 512 s = None /\ receive_payload bump_malloc types 9 9 (mk_response 200 0 512 0 no_meth no_data) s = None.
Proof.
  intros s. apply (receive_payload_overflow bump_malloc types 9 9 (mk_response 200 0 512 0 no_meth no_data) s sample_queue (replicate 512 65) (mk_bulk [])).
  - done.
  - exact sample_queue_ok.
  - done.
  - by cbv.
  - done.
  - by cbv.
  - by vm_compute.
  - by vm_compute.
Defined.

End HttpFaults.
