(* ===== verification/HttpRequest.v ===== *)
(** Requests and responses of src/src/http/request.c and response.c, and the search
    parameters of src/src/data/find_by.c. A request is a structure of properties in
    memory; the address of a string literal is a parameter. STATIC_HTTP_CLIENT is
    not defined, and the NULL checks of the arguments are the caller's. *)
From S2P Require Import Prelude LinkedList Property PropMap PropOwn Double ArrowUtf8 HttpClient.

Module HttpRequest.
Import Property Double Utf8 HttpClient.

Definition METH_str : list (list Z) := map lit ["GET"; "POST"; "PUT"; "DELETE"; "HEAD"]%string.
Definition Scheme_str : list (list Z) := map lit ["http"; "https"]%string.
Definition METH_count : Z := 5.
Definition Scheme_count : Z := 2.
Definition CONTENT_TYPE : list Z := lit "Content-Type".

(** enum FindBy *)
Definition find_by_name : list (list Z) := map lit
  ["userHid"; "uid"; "type"; "gatewayHid"; "createdBefore"; "createdAfter"; "updatedBefore"; "updatedAfter"; "enabled"; "_page"; "_size";
   "createdDateFrom"; "createdDateTo"; "sortField"; "sortDirection"; "statuses"; "systemNames"; "fromTimestamp"; "toTimestamp"; "telemetryNames"; "osNames"]%string.
Definition FindBy_count : Z := 21.

Record find_by_t := mk_find_by { fb_key : Z; fb_value : property_t }.

Definition with_corrupt (r : http_request_t) (b : Z) : http_request_t :=
  mk_request (meth r) (scheme r) (host r) (uri r) (port r) b (is_cipher r) (is_chunked r) (header r) (content_type r) (query r) (payload r) (response_payload_meth r).
Definition with_meth (r : http_request_t) (p : property_t) : http_request_t :=
  mk_request p (scheme r) (host r) (uri r) (port r) (is_corrupt r) (is_cipher r) (is_chunked r) (header r) (content_type r) (query r) (payload r) (response_payload_meth r).
Definition with_scheme (r : http_request_t) (p : property_t) (cipher : Z) : http_request_t :=
  mk_request (meth r) p (host r) (uri r) (port r) (is_corrupt r) cipher (is_chunked r) (header r) (content_type r) (query r) (payload r) (response_payload_meth r).
Definition with_host (r : http_request_t) (p : property_t) : http_request_t :=
  mk_request (meth r) (scheme r) p (uri r) (port r) (is_corrupt r) (is_cipher r) (is_chunked r) (header r) (content_type r) (query r) (payload r) (response_payload_meth r).
Definition with_header (r : http_request_t) (h : Z) : http_request_t :=
  mk_request (meth r) (scheme r) (host r) (uri r) (port r) (is_corrupt r) (is_cipher r) (is_chunked r) h (content_type r) (query r) (payload r) (response_payload_meth r).
Definition with_query (r : http_request_t) (q : Z) : http_request_t :=
  mk_request (meth r) (scheme r) (host r) (uri r) (port r) (is_corrupt r) (is_cipher r) (is_chunked r) (header r) (content_type r) q (payload r) (response_payload_meth r).
Definition with_content_type (r : http_request_t) (k v : property_t) : http_request_t :=
  mk_request (meth r) (scheme r) (host r) (uri r) (port r) (is_corrupt r) (is_cipher r) (is_chunked r) (header r) (k, v) (query r) (payload r) (response_payload_meth r).
Definition with_payload (r : http_request_t) (p : property_t) : http_request_t :=
  mk_request (meth r) (scheme r) (host r) (uri r) (port r) (is_corrupt r) (is_cipher r) (is_chunked r) (header r) (content_type r) (query r) p (response_payload_meth r).

(** CMP_INIT: the index of the name that equals [str], or whose first [n]
    characters do; -1 without one. *)
Fixpoint cmp_names (eq : list Z -> option bool) (names : list (list Z)) (i : Z) : option Z :=
  match names with
  | [] => Some (-1)
  | s :: names' => e ← eq (s ++ [0]); if (e : bool) then Some i else cmp_names eq names' (i + 1)
  end.
Definition cmp_METH (str : list Z) : option Z := cmp_names (strcmp0 str) METH_str 0.
Definition cmp_n_METH (str : list Z) (n : Z) : option Z := cmp_names (fun s => strncmp0 str s (Z.to_nat n)) METH_str 0.
Definition cmp_Scheme (str : list Z) : option Z := cmp_names (strcmp0 str) Scheme_str 0.
Definition cmp_n_Scheme (str : list Z) (n : Z) : option Z := cmp_names (fun s => strncmp0 str s (Z.to_nat n)) Scheme_str 0.

Section requests.
Context (malloc : memory -> Z -> option (Z * list Z)) (new_node : gmap Z Z -> option Z) (disp : list prop_type).
(** Where a string literal is. *)
Context (literal : list Z -> Z).

Definition get_name (names : list (list Z)) (count i : Z) : Z :=
  if (0 <=? i) && (i <? count) then literal (nth (Z.to_nat i) names []) else NULL.
Definition get_METH (i : Z) : Z := get_name METH_str METH_count i.
Definition get_Scheme (i : Z) : Z := get_name Scheme_str Scheme_count i.

(** The macros take the length of the string, so NULL is read. *)
Definition p_string (m : memory) (tag p : Z) : option property_t :=
  if p =? NULL then None else b ← bytes_at m p; n ← strlen b; Some (mk_prop p (Z.lor tag is_owner) (u16 n)).
Definition p_const (m : memory) (p : Z) : option property_t := p_string m PROPERTY_CONST_TAG p.
Definition p_heap (m : memory) (p : Z) : option property_t := p_string m PROPERTY_DYNAMIC_TAG p.

(** [property_copy(dst, p_stack(s))] of a pointer into an object: the string behind
    it is duplicated when the stack type is registered. *)
Definition copy_p_stack (m : memory) (s : list Z) : option (memory * property_t) :=
  t ← cstr s;
  match get_property_type disp (mk_prop NULL (Z.lor PROPERTY_STACK_TAG is_owner) (u16 (zlen t))) with
  | Some _ => let '(m, v) := dup_bytes malloc m t in Some (m, mk_prop v (Z.lor is_owner PROPERTY_DYNAMIC_TAG) (u16 (zlen t)))
  | None => Some (m, p_null)
  end.

(** [url] is the address of a string. What [req] held before stays in the fields
    that are not set when the URL is cut short. *)
Definition http_request_init (m : memory) (req : http_request_t) (meth_ url : Z) : option (memory * http_request_t) :=
  let req := mk_request p_null p_null p_null p_null (port req) 0 (is_cipher req) (is_chunked req) (header req) (content_type req) (query req) p_null (response_payload_meth req) in
  name ← p_const m (get_METH meth_);
  '(m, name) ← property_copy malloc disp m name;
  let req := with_meth req name in
  u ← bytes_at m url;
  sch_end ← strstr u (lit "://");
  match sch_end with
  | None => Some (m, with_corrupt req 1)
  | Some sch_end =>
      sch ← cmp_n_Scheme u sch_end;
      name ← p_const m (get_Scheme sch);
      '(m, name) ← property_copy malloc disp m name;
      let req := with_scheme req name (s8 sch) in
      let host_start := drop (Z.to_nat (sch_end + 3)) u in
      host_end ← strstr host_start (lit ":");
      match host_end with
      | None => Some (m, with_corrupt req 1)
      | Some n =>
          '(dynamic_host, b) ← malloc m (n + 1);
          name ← rdn host_start 0 n;
          b ← wrn b 0 name;
          b ← wr b n 0;
          let m := <[dynamic_host := (true, b)]> m in
          h ← p_heap m dynamic_host;
          let req := with_host req h in
          let after := drop (Z.to_nat (n + 1)) host_start in
          p ← copy_till_to_int after (lit "/") 0;
          match p.1 with
          | None => Some (m, with_corrupt req 1)
          | Some uri_start =>
              '(m, u) ← copy_p_stack m (drop (Z.to_nat (uri_start - 1)) after);
              Some (m, mk_request (meth req) (scheme req) (host req) u (u16 p.2) (is_corrupt req) (is_cipher req) 0 NULL (p_null, p_null) NULL p_null
                (mk_meth default_handler default_handler))
          end
      end
  end.

Definition zero_request : http_request_t := mk_request p_null p_null p_null p_null 0 0 0 0 NULL (p_null, p_null) NULL p_null no_meth.

Definition free_in (w : PropMap.world) (p : property_t) : option PropMap.world := '(m, _) ← property_free disp (PropMap.w_mem w) p; Some (PropMap.set_mem w m).

Definition http_request_close (w : PropMap.world) (req : http_request_t) : option (PropMap.world * http_request_t) :=
  w ← free_in w (meth req);
  w ← free_in w (scheme req);
  w ← free_in w (host req);
  w ← free_in w (uri req);
  w ← free_in w (payload req);
  '(_, w, _) ← PropMap.property_map_clear disp w (header req);
  '(_, w, _) ← PropMap.property_map_clear disp w (query req);
  w ← free_in w (content_type req).2;
  w ← free_in w (content_type req).1;
  Some (w, zero_request).

(** The result of the map is not looked at. *)
Definition http_request_add_header (w : PropMap.world) (req : http_request_t) (key val : property_t) : option (PropMap.world * http_request_t) :=
  '(_, w, root) ← PropMap.property_map_add malloc new_node disp w (header req) key val;
  Some (w, with_header req root).

Definition http_request_set_header (w : PropMap.world) (req : http_request_t) (key val : property_t) : option PropMap.world :=
  '(_, w) ← PropMap.property_map_assign malloc disp w (header req) key val; Some w.

(** Returns (rc, world, *value), [value] being NULL or not. *)
Definition http_request_find_header (w : PropMap.world) (req : http_request_t) (key : property_t) (val : option property_t)
    : option (Z * PropMap.world * option property_t) :=
  fm ← PropMap.property_map_find w (header req) key;
  if fm =? NULL then Some (-1, w, val) else
  match val with
  | None => Some (0, w, None)
  | Some _ =>
      '(_, v) ← PropMap.node_of w fm;
      '(m, v) ← property_copy malloc disp (PropMap.w_mem w) v;
      Some (0, PropMap.set_mem w m, Some v)
  end.

Definition http_request_add_query (w : PropMap.world) (req : http_request_t) (key val : property_t) : option (PropMap.world * http_request_t) :=
  '(_, w, root) ← PropMap.property_map_add malloc new_node disp w (query req) key val;
  Some (w, with_query req root).

Definition http_request_set_content_type (m : memory) (req : http_request_t) (val : property_t) : option http_request_t :=
  k ← p_const m (literal CONTENT_TYPE); Some (with_content_type req k val).

Definition http_request_first_header (req : http_request_t) : Z := header req.

Definition http_request_set_payload (w : PropMap.world) (req : http_request_t) (p : property_t) : option (PropMap.world * http_request_t) :=
  '(m, dst, _) ← property_move malloc disp (PropMap.w_mem w) (payload req) p;
  Some (PropMap.set_mem w m, with_payload req dst).

(** ** Search parameters *)

(** A negative number is read in front of the table. *)
Definition get_find_by_name (num : Z) : option Z :=
  if num <? FindBy_count then if num <? 0 then None else Some (literal (nth (Z.to_nat num) find_by_name [])) else Some NULL.

Definition find_by_validate_key (fb : find_by_t) : Z := if fb_key fb <? FindBy_count then 0 else -1.

(** The list [fb] has its nodes in [fbs] and its links in [next]. *)
Definition http_request_set_findby (fbs : gmap Z find_by_t) (next : gmap Z Z) (w : PropMap.world) (req : http_request_t) (fb : Z) : option (Z * PropMap.world * http_request_t) :=
  '(w, req) ← LinkedList.for_each (LinkedList.nodes_fuel next) (fun _ => next)
    (fun tmp (s : PropMap.world * http_request_t) =>
       t ← fbs !! tmp;
       if find_by_validate_key t =? 0 then
         name ← get_find_by_name (fb_key t);
         k ← p_const (PropMap.w_mem s.1) name;
         http_request_add_query s.1 s.2 k (fb_value t)
       else Some s) fb (w, req);
  Some (0, w, req).

(** ** Responses *)

Definition http_response_free (w : PropMap.world) (res : http_response_t) : option (PropMap.world * http_response_t) :=
  let d := res_data res in
  w ← free_in w (r_payload d);
  '(_, w, _) ← PropMap.property_map_clear disp w (r_header d);
  w ← free_in w (r_content_type d).2;
  w ← free_in w (r_content_type d).1;
  Some (w, http_response_init no_meth).

Definition http_response_add_header (w : PropMap.world) (res : http_response_t) (key val : property_t) : option (PropMap.world * http_response_t) :=
  let d := res_data res in
  '(_, w, root) ← PropMap.property_map_add malloc new_node disp w (r_header d) key val;
  Some (w, with_data res (mk_data root (r_content_type d) (r_payload d))).

Definition http_response_set_content_type (m : memory) (res : http_response_t) (val : property_t) : option (memory * http_response_t) :=
  let d := res_data res in
  k ← p_const m (literal CONTENT_TYPE);
  '(m, v) ← property_copy malloc disp m val;
  Some (m, with_data res (mk_data (r_header d) (k, v) (r_payload d))).

(** [other] is a handler of the caller's for setting the payload; the result of a
    handler is not looked at. *)
Definition http_response_set_payload (other : memory -> response_data -> property_t -> option (Z * memory * response_data))
    (m : memory) (res : http_response_t) (p : property_t) : option (memory * http_response_t) :=
  '(_, m, d) ← match p_set_handler (res_meth res) with
               | no_handler => None
               | default_handler => default_set_payload_handler malloc disp m (res_data res) p
               | other_handler => other m (res_data res) p
               end;
  Some (m, with_processed (with_data res d) 1).

End requests.
End HttpRequest.
