(* ===== verification/HttpBuild.v ===== *)
(** Building a request and giving it back: what the URL of http_request_init means,
    the headers and queries that are added to a request, and who owns the memory in
    between (src/src/http/request.c). *)
From S2P Require Import Prelude LinkedList Property PropMap PropOwn Double ArrowUtf8 HttpClient HttpPeer HttpSend HttpRequest.

Module HttpBuild.
Import Property PropMap PropOwn Double Utf8 HttpClient HttpSend HttpRequest.

(** The properties a request owns besides its maps. *)
Definition fields (r : http_request_t) : list property_t := [meth r; scheme r; host r; uri r; payload r; (content_type r).2; (content_type r).1].
Definition owners (r : http_request_t) (hs qs : list entry) : list property_t := fields r ++ props_of hs ++ props_of qs.

(** No property of the request is at [a]. *)
Definition avoids (a : Z) (r : http_request_t) (hs qs : list entry) : Prop := forall p, p ∈ owners r hs qs -> value p <> a.

(** The request [r] says the method [mt], the scheme [sc], the host [h], the path
    [u] and the maps [hs] and [qs]; without the blocks it owns the memory is [m0]. *)
Record request_rep (m0 : memory) (w : PropMap.world) (r : http_request_t) (mt sc h u : list Z) (hs qs : list entry) : Prop := {
  rr_meth : stored (w_mem w) (meth r) mt;
  rr_scheme : stored (w_mem w) (scheme r) sc;
  rr_host : stored (w_mem w) (host r) h;
  rr_uri : stored (w_mem w) (uri r) u;
  rr_header : map_rep w (header r) hs;
  rr_query : map_rep w (query r) qs;
  rr_apart n : n ∈ map e_node hs -> n ∉ map e_node qs;
  rr_owns : owns (w_mem w) (owners r hs qs);
  rr_back : delete_all (owned_blocks (owners r hs qs)) (w_mem w) = m0;
}.

Section build.
Context (malloc : memory -> Z -> option (Z * list Z)) `{Hmalloc : !Malloc malloc}.
Context (Henough : forall m n, 0 <= n -> malloc m n <> None).
Context (new_node : gmap Z Z -> option Z).
Context (Hnew : forall next el, new_node next = Some el -> next !! el = None /\ el <> NULL).
Context (Hnodes : forall next, new_node next <> None).
Context (literal : list Z -> Z).

(** The string literals are in memory. *)
Definition literals (m : memory) : Prop := forall s, s ∈ METH_str ++ Scheme_str ++ CONTENT_TYPE :: find_by_name -> literal s <> NULL /\ m !! literal s = Some (false, s ++ [0]).

Lemma p_string_ok m tag p h s : p <> NULL -> m !! p = Some (h, s ++ [0]) -> is_cstr s -> p_string m tag p = Some (mk_prop p (Z.lor tag is_owner) (u16 (zlen s))).
Proof.
  intros Hp Hm Hs. unfold p_string. rewrite (proj2 (Z.eqb_neq p NULL) Hp). unfold bytes_at. rewrite Hm. cbn [mbind option_bind]. by rewrite strlen_cstr.
Qed.

(** A literal, copied: a constant property that owns nothing. *)
Lemma copy_literal m s : literals m -> s ∈ METH_str ++ Scheme_str ++ CONTENT_TYPE :: find_by_name -> is_cstr s ->
  exists p q, p_const m (literal s) = Some p /\ property_copy malloc types m p = Some (m, q) /\ stored m q s /\ prop_blocks q = [] /\ value q = literal s /\ Property.size q = u16 (zlen s).
Proof.
  intros Hl Hin Hs. destruct (Hl s Hin) as [H0 Hm]. unfold p_const. eexists _, _. split; [by eapply p_string_ok|]. split; [done|]. split; [|done].
  split; [done|]. left. split; [done|]. exists (s ++ [0]). split; [done|]. by apply cstr_app.
Qed.

Lemma copy_p_stack_ok m s r : is_cstr s -> exists m' q, copy_p_stack malloc types m (s ++ 0 :: r) = Some (m', q) /\ stored m' q s /\ grown m m' (prop_blocks q) /\ m !! value q = None.
Proof.
  intros Hs. unfold copy_p_stack. rewrite cstr_app by done. cbn [mbind option_bind]. rewrite get_property_type_tag. change (prop_tag _) with 3. cbn [Z.eqb Pos.eqb].
  unfold dup_bytes. destruct (malloc m (zlen s + 1)) as [[a b]|] eqn:E; [|by apply Henough in E; [|zl]]. destruct (malloc_fresh _ _ _ _ E) as [Ha Ha0].
  eexists _, _. split; [done|]. split; [|split; [by apply grown_insert | done]]. split; [done|]. right. split; [done|]. split; [done | apply lookup_insert_eq].
Qed.

(** ** The URL *)

Definition url_text (sc h : list Z) (port : Z) (u : list Z) : list Z := sc ++ lit "://" ++ h ++ lit ":" ++ dec port ++ u.

(** A host without a colon and a path that starts with a slash. *)
Record url_ok (sc h : list Z) (port : Z) (u : list Z) : Prop := {
  ul_scheme : sc ∈ Scheme_str;
  ul_host : is_cstr h;
  ul_colon : 58 ∉ h;
  ul_port : 0 <= port < 65536;
  ul_path : exists path, u = 47 :: path /\ is_cstr path;
}.

Definition scheme_index (sc : list Z) : Z := if bool_decide (sc = lit "https") then 1 else 0.

Lemma scheme_cases sc : sc ∈ Scheme_str -> sc = lit "http" \/ sc = lit "https".
Proof. intros Hin. unfold Scheme_str in Hin. cbn [map] in Hin. apply elem_of_cons in Hin as [-> | Hin]; [by left|]. apply list_elem_of_singleton in Hin as ->. by right. Qed.

Lemma cmp_n_Scheme_ok sc r : sc ∈ Scheme_str -> cmp_n_Scheme (sc ++ lit "://" ++ r) (zlen sc) = Some (scheme_index sc).
Proof. by intros [-> | ->]%scheme_cases. Qed.

Lemma dec_loop_short fuel : forall n acc k, 0 <= n < 10 ^ k -> 1 <= k -> zlen (dec_loop fuel n acc) <= k + zlen acc.
Proof.
  induction fuel as [|fuel IH]; intros n acc k Hn Hk; [cbn; lia|]. cbn [dec_loop]. destruct (Z.ltb_spec n 10); [rewrite zlen_cons; lia|].
  assert (2 <= k) by (destruct (Z.eq_dec k 1) as [-> | ?]; lia). etransitivity; [apply (IH _ _ (k - 1)); [|lia]|rewrite zlen_cons; lia].
  split; [apply Z.div_pos; lia|]. apply Z.div_lt_upper_bound; [lia|]. rewrite <- Z.pow_succ_r by lia. replace (Z.succ (k - 1)) with k by lia. lia.
Qed.

Lemma dec_short n : 0 <= n < 65536 -> zlen (dec n) <= 7.
Proof. intros Hn. unfold dec. pose proof (dec_loop_short (dec_fuel n) n [] 5 ltac:(lia) ltac:(lia)) as Hl. change (zlen (@nil Z)) with 0 in Hl. lia. Qed.

Lemma pad_0 n : pad 0 (dec n) = dec n.
Proof. unfold pad. pose proof (zlen_nonneg (dec n)). by replace (Z.to_nat (0 - zlen (dec n))) with 0%nat by lia. Qed.

Lemma url_cstr sc h port u : url_ok sc h port u -> is_cstr (url_text sc h port u).
Proof.
  intros [Hsc Hh _ Hp (path & -> & Hpath)]. unfold url_text, is_cstr. apply Forall_app; split; [|apply Forall_app; split; [by repeat constructor|]].
  { apply scheme_cases in Hsc as [-> | ->]; by repeat constructor. }
  apply Forall_app; split; [done|]. apply Forall_app; split; [by repeat constructor|]. apply Forall_app; split.
  - rewrite <- pad_0. apply pad_dec_cstr. lia.
  - constructor; [lia | done].
Qed.

Lemma meth_name k mt : METH_str !! k = Some mt -> mt ∈ METH_str /\ get_METH literal (Z.of_nat k) = literal mt /\ is_cstr mt /\ u16 (zlen mt) = zlen mt /\ mt <> [].
Proof.
  intros Hk. split; [by eapply list_elem_of_lookup_2|]. unfold METH_str in Hk. cbn [map] in Hk.
  do 5 (destruct k as [|k]; [injection Hk as <-; split; [done|]; split; [by repeat constructor | done]|]). done.
Qed.

(** Two constants and two new blocks make a request with empty maps. *)
Lemma new_request_rep w m1 m2 q1 q2 hp q4 mt sc h u p c hd : stored (w_mem w) q1 mt -> prop_blocks q1 = [] -> stored (w_mem w) q2 sc -> prop_blocks q2 = [] ->
  grown (w_mem w) m1 (prop_blocks hp) -> stored m1 hp h -> grown m1 m2 (prop_blocks q4) -> stored m2 q4 u ->
  request_rep (w_mem w) (set_mem w m2) (mk_request q1 q2 hp q4 p 0 c 0 NULL (p_null, p_null) NULL p_null hd) mt sc h u [] [].
Proof.
  intros S1 B1 S2 B2 G3 S3 G4 S4. pose proof (grown_trans _ _ _ _ _ G3 G4) as G.
  assert (Go : grown (w_mem w) m2 (owned_blocks [q4; hp])) by (unfold owned_blocks; cbn [map concat]; by rewrite app_nil_r).
  assert (Hl : forall p s, stored (w_mem w) p s -> stored m2 p s) by (intros p' s; by apply stored_grown with (prop_blocks q4 ++ prop_blocks hp)).
  assert (Hown : owns m2 ([q4; hp] ++ [q1; q2; p_null; p_null; p_null])).
  { apply owns_grown with (w_mem w); [| |done].
    - split; [repeat (apply Forall_cons; split); [right; by eexists.. | by left | by left | by left | constructor]|]. unfold owned_blocks. cbn [map concat]. rewrite B1, B2. constructor.
    - repeat (apply Forall_cons; split); [right; by eexists | right; eexists; by apply stored_grown with m1 (prop_blocks q4) | constructor]. }
  assert (Hperm : owners (mk_request q1 q2 hp q4 p 0 c 0 NULL (p_null, p_null) NULL p_null hd) [] [] ≡ₚ [q4; hp] ++ [q1; q2; p_null; p_null; p_null]).
  { unfold owners, fields. cbn [meth scheme host uri payload content_type fst snd app]. unfold props_of. cbn [map concat app]. by solve_Permutation. }
  split; cbn [meth scheme host uri header query set_mem w_mem w_next]; try done; try (by apply Hl).
  - by apply stored_grown with m1 (prop_blocks q4).
  - split; [done | constructor | constructor].
  - split; [done | constructor | constructor].
  - intros n Hn. by apply not_elem_of_nil in Hn.
  - by rewrite Hperm.
  - rewrite Hperm. rewrite owned_blocks_app. unfold owned_blocks at 2. cbn [map concat]. rewrite B1, B2. cbn [app]. rewrite app_nil_r. apply Go.
Qed.

(** A well-formed URL: the request says its parts and owns two blocks. *)
Lemma http_request_init_ok w req0 k mt sc h port u url r : literals (w_mem w) -> METH_str !! k = Some mt -> url_ok sc h port u ->
  bytes_at (w_mem w) url = Some (url_text sc h port u ++ 0 :: r) ->
  exists m req, http_request_init malloc types literal (w_mem w) req0 (Z.of_nat k) url = Some (m, req) /\
    request_rep (w_mem w) (set_mem w m) req mt sc h u [] [] /\ (exists bs, grown (w_mem w) m bs) /\
    HttpClient.port req = port /\ is_cipher req = scheme_index sc /\ is_corrupt req = 0 /\ is_chunked req = 0 /\ payload req = p_null /\ content_type req = (p_null, p_null) /\
    header req = NULL /\ query req = NULL /\ Property.size (meth req) = zlen mt /\ response_payload_meth req = mk_meth default_handler default_handler /\
    (forall a, is_Some (w_mem w !! a) -> a <> NULL -> literal mt <> a -> literal sc <> a -> avoids a req [] []).
Proof.
  intros Hlit Hk Hok Hurl. pose proof (url_cstr _ _ _ _ Hok) as Hcs. destruct Hok as [Hsc Hh Hcol Hport (path & -> & Hpath)]. unfold http_request_init.
  destruct (meth_name _ _ Hk) as (Hmt & -> & Hmtc & Hmtl & _). destruct (copy_literal (w_mem w) mt Hlit) as (p1 & q1 & -> & E1 & S1 & B1 & V1 & Z1); [apply elem_of_app; by left | done|].
  cbn [mbind option_bind]. rewrite E1. cbn [mbind option_bind]. rewrite Hurl. cbn [mbind option_bind].
  assert (Hcolon : 58 ∉ sc) by (apply scheme_cases in Hsc as [-> | ->]; by apply (bool_decide_unpack _); vm_compute).
  set (u := 47 :: path) in *. set (rest := h ++ lit ":" ++ dec port ++ u).
  assert (Hurlt : url_text sc h port u = sc ++ lit "://" ++ rest) by done.
  assert (Hs1 : strstr (url_text sc h port u ++ 0 :: r) (lit "://") = Some (Some (zlen sc))).
  { unfold strstr. rewrite (cstr_app _ r Hcs). cbn [mbind option_bind]. rewrite Hurlt. f_equal. exact (find_sub_first sc 58 [47; 47] rest Hcolon). }
  rewrite Hs1. cbn [mbind option_bind]. rewrite Hurlt. rewrite <- app_assoc, <- (app_assoc (lit "://")). rewrite (cmp_n_Scheme_ok sc) by done. cbn [mbind option_bind].
  assert (Hsn : get_Scheme literal (scheme_index sc) = literal sc /\ is_cstr sc /\ s8 (scheme_index sc) = scheme_index sc).
  { apply scheme_cases in Hsc as [-> | ->]; (split_and!; [done | by repeat constructor | done]). }
  destruct Hsn as (-> & Hscc & Hs8). destruct (copy_literal (w_mem w) sc Hlit) as (p2 & q2 & -> & E2 & S2 & B2 & V2 & _); [rewrite !elem_of_app; tauto | done|].
  cbn [mbind option_bind]. rewrite E2. cbn [mbind option_bind]. rewrite Hs8. clear E1 E2 p1 p2.
  assert (Hd1 : drop (Z.to_nat (zlen sc + 3)) (sc ++ lit "://" ++ rest ++ 0 :: r) = rest ++ 0 :: r).
  { rewrite app_assoc. apply drop_app_zlen. by rewrite zlen_app. }
  rewrite Hd1. rewrite Hurlt in Hcs. apply Forall_app in Hcs as [_ Hcs]. apply Forall_app in Hcs as [_ Hrest]. fold (is_cstr rest) in Hrest.
  assert (Hs2 : strstr (rest ++ 0 :: r) (lit ":") = Some (Some (zlen h))).
  { unfold strstr. rewrite (cstr_app rest r Hrest). cbn [mbind option_bind]. f_equal. exact (find_sub_first h 58 [] _ Hcol). }
  rewrite Hs2. cbn [mbind option_bind].
  destruct (malloc (w_mem w) (zlen h + 1)) as [[a b]|] eqn:Em; [|by apply Henough in Em; [|zl]]. cbn [mbind option_bind].
  destruct (malloc_fresh _ _ _ _ Em) as [Ha Ha0]. pose proof (malloc_size _ _ _ _ Em) as Hb.
  assert (Hrd : rdn (rest ++ 0 :: r) 0 (zlen h) = Some h) by (unfold rest; rewrite <- app_assoc; by apply rdn_app_0).
  rewrite Hrd. cbn [mbind option_bind].
  assert (Hw : exists b1, wrn b 0 h = Some b1 /\ wr b1 (zlen h) 0 = Some (h ++ [0])).
  { pose proof (zlen_nonneg h). destruct (split_at b (zlen h)) as (x & y & -> & Hx); [lia|]. rewrite zlen_app in Hb.
    assert (Hy : exists z, y = [z]).
    { destruct y as [|z [|z2 y]]; [change (zlen (@nil Z)) with 0 in Hb; lia | by exists z | rewrite !zlen_cons in Hb; pose proof (zlen_nonneg y); lia]. }
    destruct Hy as (z & ->). exists (h ++ [z]). split; [by apply wrn_app_0 | by apply wr_app]. }
  destruct Hw as (b1 & -> & Hw). cbn [mbind option_bind]. rewrite Hw. cbn [mbind option_bind].
  set (m1 := <[a := (true, h ++ [0])]> (w_mem w)). assert (Hg1 : grown (w_mem w) m1 [a]) by by apply grown_insert.
  assert (Hm1 : m1 !! a = Some (true, h ++ [0])) by apply lookup_insert_eq.
  unfold p_heap. rewrite (p_string_ok m1 PROPERTY_DYNAMIC_TAG a true h) by done. cbn [mbind option_bind].
  assert (Hd2 : drop (Z.to_nat (zlen h + 1)) (rest ++ 0 :: r) = (pad 0 (dec port) ++ 47 :: path) ++ 0 :: r).
  { rewrite pad_0. unfold rest. rewrite (app_assoc h), <- (app_assoc (h ++ _)). apply drop_app_zlen. rewrite zlen_app. done. }
  rewrite Hd2. change (lit "/") with [47]. rewrite (copy_till_pad 0 port 47 path r 0); [| unfold INT_MAX; lia | done | done | by unfold is_byte | rewrite pad_0; by apply dec_short | done].
  cbn [mbind option_bind fst snd]. rewrite !pad_0.
  assert (Hd3 : drop (Z.to_nat (zlen (dec port) + 1 - 1)) ((dec port ++ 47 :: path) ++ 0 :: r) = (47 :: path) ++ 0 :: r).
  { rewrite <- app_assoc. apply drop_app_zlen. lia. }
  rewrite Hd3. destruct (copy_p_stack_ok m1 (47 :: path) r) as (m2 & q4 & E4 & S4 & G4 & F4); [constructor; [lia | done]|].
  rewrite E4. cbn [mbind option_bind]. set (hp := mk_prop a _ _).
  assert (S3 : stored m1 hp h) by (split; [done | right; by split]).
  assert (B3 : prop_blocks hp = [a]) by done.
  eexists _, _. split; [done|]. split; [apply (new_request_rep w m1); by rewrite ?B3|]. pose proof (grown_trans _ _ _ _ _ Hg1 G4) as G.
  split_and!; try done; [by eexists | apply u16_id; lia | by rewrite <- Hmtl |].
  intros x [y Hx] Hx0 Hmx Hsx p. unfold owners, fields. cbn [meth scheme host uri payload content_type with_meth with_scheme with_host fst snd app]. unfold props_of. cbn [map concat app].
  rewrite !elem_of_cons. intros [-> | [-> | [-> | [-> | [-> | [-> | [-> | Hp]]]]]]]; try (by apply not_eq_sym); [congruence | congruence | | | by apply not_elem_of_nil in Hp].
  - unfold hp. cbn [value]. congruence.
  - intros <-. unfold m1 in F4. rewrite lookup_insert_None in F4. destruct F4. congruence.
Qed.
(** ** Adding to the maps *)

Lemma owners_header r hs qs e root : owners (with_header r root) (hs ++ [e]) qs ≡ₚ props_of [e] ++ owners r hs qs.
Proof. unfold owners, fields. cbn [meth scheme host uri payload content_type with_header]. rewrite props_of_app. solve_Permutation. Qed.
Lemma owners_query r hs qs e root : owners (with_query r root) hs (qs ++ [e]) ≡ₚ props_of [e] ++ owners r hs qs.
Proof. unfold owners, fields. cbn [meth scheme host uri payload content_type with_query]. rewrite props_of_app. solve_Permutation. Qed.

(** An address in the memory is avoided by copies of properties that are elsewhere. *)
Lemma avoids_added m a r r' hs qs hs' qs' key val e : owners r' hs' qs' ≡ₚ props_of [e] ++ owners r hs qs -> copy_of m key (e_key e) -> copy_of m val (e_val e) ->
  is_Some (m !! a) -> value key <> a -> value val <> a -> avoids a r hs qs -> avoids a r' hs' qs'.
Proof.
  intros Hp Hk Hv [x Hx] Hka Hva Ha p. rewrite Hp. unfold props_of. cbn [map concat]. rewrite app_nil_r. cbn [app]. rewrite !elem_of_cons.
  assert (Hcopy : forall q p', copy_of m q p' -> value q <> a -> value p' <> a) by (intros q p' [-> | Hn] Hq; [done | intros <-; congruence]).
  intros [-> | [-> | Hin]]; [by apply (Hcopy key) | by apply (Hcopy val) | by apply Ha].
Qed.

Lemma back_grown m0 m m' ps qs : delete_all (owned_blocks qs) m = m0 -> grown m m' (owned_blocks ps) -> delete_all (owned_blocks (ps ++ qs)) m' = m0.
Proof. intros <- Hg. by rewrite owned_blocks_app, delete_all_app, delete_all_comm, (g_back _ _ _ Hg). Qed.

Lemma add_header_rep m0 w r mt sc h u hs qs key value k v : request_rep m0 w r mt sc h u hs qs -> copyable (w_mem w) key k -> copyable (w_mem w) value v ->
  exists w' r' e, http_request_add_header malloc new_node types w r key value = Some (w', r') /\ request_rep m0 w' r' mt sc h u (hs ++ [e]) qs /\
    e_ktext e = k /\ e_vtext e = v /\ copy_of (w_mem w) key (e_key e) /\ copy_of (w_mem w) value (e_val e) /\ grown (w_mem w) (w_mem w') (owned_blocks (props_of [e])) /\ r' = with_header r (header r').
Proof.
  intros [] Hk Hv. destruct (new_node (w_next w)) as [el|] eqn:Hel; [|by apply Hnodes in Hel].
  destruct (add_owned malloc Henough new_node Hnew w (header r) hs key value k v el _ rr_header0 Hk Hv Hel rr_owns0) as (w' & root & e & E & Hm & He & Hek & Hev & Hck & Hcv & Hg & Ho & Hoth).
  destruct (Hoth _ _ rr_query0 rr_apart0) as [Hq Hq']. assert (Hst : forall p s, stored (w_mem w) p s -> stored (w_mem w') p s) by (intros p s; by eapply stored_grown).
  exists w', (with_header r root), e. unfold http_request_add_header. rewrite E. split; [done|]. split; [|done].
  split; cbn [meth scheme host uri header query with_header]; try done; try (by apply Hst).
  - intros n. rewrite map_app, elem_of_app. intros [Hn | Hn]; [by apply rr_apart0|]. cbn [map] in Hn. apply list_elem_of_singleton in Hn as ->. by rewrite He.
  - by rewrite owners_header.
  - rewrite owners_header. by eapply back_grown.
Qed.

Lemma add_query_rep m0 w r mt sc h u hs qs key value k v : request_rep m0 w r mt sc h u hs qs -> copyable (w_mem w) key k -> copyable (w_mem w) value v ->
  exists w' r' e, http_request_add_query malloc new_node types w r key value = Some (w', r') /\ request_rep m0 w' r' mt sc h u hs (qs ++ [e]) /\
    e_ktext e = k /\ e_vtext e = v /\ copy_of (w_mem w) key (e_key e) /\ copy_of (w_mem w) value (e_val e) /\ grown (w_mem w) (w_mem w') (owned_blocks (props_of [e])) /\ r' = with_query r (query r').
Proof.
  intros [] Hk Hv. destruct (new_node (w_next w)) as [el|] eqn:Hel; [|by apply Hnodes in Hel].
  destruct (add_owned malloc Henough new_node Hnew w (query r) qs key value k v el _ rr_query0 Hk Hv Hel rr_owns0) as (w' & root & e & E & Hm & He & Hek & Hev & Hck & Hcv & Hg & Ho & Hoth).
  destruct (Hoth _ _ rr_header0) as [Hq Hq']; [intros n Hn Hn'; by apply (rr_apart0 n)|].
  assert (Hst : forall p s, stored (w_mem w) p s -> stored (w_mem w') p s) by (intros p s; by eapply stored_grown).
  exists w', (with_query r root), e. unfold http_request_add_query. rewrite E. split; [done|]. split; [|done].
  split; cbn [meth scheme host uri header query with_query]; try done; try (by apply Hst).
  - intros n Hn. rewrite map_app, elem_of_app. intros [Hn' | Hn']; [by apply (rr_apart0 n)|]. cbn [map] in Hn'. apply list_elem_of_singleton in Hn' as ->. by rewrite He in Hn.
  - by rewrite owners_query.
  - rewrite owners_query. by eapply back_grown.
Qed.

(** A payload of the stack type is copied. *)
Lemma set_payload_rep m0 w r mt sc h u hs qs p s : request_rep m0 w r mt sc h u hs qs -> payload r = p_null -> copyable (w_mem w) p s -> prop_tag p = PROPERTY_STACK_TAG ->
  exists w' q bs, http_request_set_payload malloc types w r p = Some (w', with_payload r q) /\ request_rep m0 w' (with_payload r q) mt sc h u hs qs /\
    stored (w_mem w') q s /\ Property.size q = Property.size p /\ flags q = dyn_flags /\ grown (w_mem w) (w_mem w') bs /\ w_next w' = w_next w /\ w_nodes w' = w_nodes w.
Proof.
  intros [] Hp Hc Htag. destruct (move_stack malloc Henough (w_mem w) (payload r) p s Hc Htag) as (m & q & E & Hs & Hsz & Hf & Hg).
  assert (Hst : forall p s, stored (w_mem w) p s -> stored m p s) by (intros p' s'; by eapply stored_grown).
  exists (set_mem w m), q, (prop_blocks q). unfold http_request_set_payload. rewrite E. cbn [mbind option_bind]. split; [done|]. split; [|done].
  set (rest := [meth r; scheme r; host r; uri r; (content_type r).2; (content_type r).1] ++ props_of hs ++ props_of qs).
  assert (Ho0 : owners r hs qs ≡ₚ p_null :: rest) by (unfold owners, fields, rest; rewrite Hp; cbn [app]; solve_Permutation).
  assert (Ho1 : owners (with_payload r q) hs qs ≡ₚ [q] ++ rest) by (unfold owners, fields, rest; cbn [meth scheme host uri payload content_type with_payload app]; solve_Permutation).
  assert (Hg' : grown (w_mem w) m (owned_blocks [q])) by (unfold owned_blocks; cbn [map concat]; by rewrite app_nil_r).
  assert (Hor : owns (w_mem w) rest). { rewrite Ho0 in rr_owns0. destruct rr_owns0 as [[_ Hfs]%Forall_cons_1 Hn]. by split. }
  split; cbn [meth scheme host uri header query with_payload w_mem set_mem]; try done; try (by apply Hst).
  - apply (map_rep_frame w); [done | done | intros p' s' _; by apply Hst].
  - apply (map_rep_frame w); [done | done | intros p' s' _; by apply Hst].
  - rewrite Ho1. apply owns_grown with (w_mem w); [done | apply Forall_cons; split; [right; by exists s | constructor] | done].
  - rewrite Ho1. apply (back_grown _ (w_mem w)); [|done]. rewrite <- rr_back0, Ho0. done.
Qed.

(** ** Giving it back *)

(** Releasing a property that is not in a map. *)
Lemma free_in_ok w p ps : owns (w_mem w) (p :: ps) ->
  exists w', free_in types w p = Some w' /\ w_mem w' = delete_all (prop_blocks p) (w_mem w) /\ owns (w_mem w') ps /\
    forall root es, map_rep w root es -> (forall x, x ∈ props_of es -> x ∈ ps) -> map_rep w' root es.
Proof.
  intros Ho. destruct (free_owned _ _ _ Ho) as [E Ho']. eexists. unfold free_in. rewrite E. split; [done|]. split; [done|]. split; [done|].
  intros root es Hm Hin. apply map_rep_delete; [done|]. intros b Hb. split; [|by apply (owns_heap _ (p :: ps)); [|apply owned_in; exists p; split; [left|]]].
  intros Hb'. destruct Ho as [_ Hn]. change (p :: ps) with ([p] ++ ps) in Hn. rewrite owned_blocks_app in Hn. apply NoDup_app in Hn as (_ & Hd & _).
  apply (Hd b); [apply owned_in; exists p; split; [left | done] |]. apply owned_in in Hb' as (x & Hx & Hb'). apply owned_in. exists x. split; [by apply Hin | done].
Qed.

Lemma http_request_close_ok m0 w r mt sc h u hs qs : request_rep m0 w r mt sc h u hs qs ->
  exists w', http_request_close types w r = Some (w', zero_request) /\ w_mem w' = m0.
Proof.
  intros []. set (tail := [(content_type r).2; (content_type r).1] ++ props_of hs ++ props_of qs).
  assert (Hh : forall x, x ∈ props_of hs -> x ∈ tail) by (intros x Hx; unfold tail; rewrite !elem_of_app; by right; left).
  assert (Hq : forall x, x ∈ props_of qs -> x ∈ tail) by (intros x Hx; unfold tail; rewrite !elem_of_app; by right; right).
  assert (Ho : owns (w_mem w) ([meth r; scheme r; host r; uri r; payload r] ++ tail)) by exact rr_owns0.
  unfold http_request_close.
  destruct (free_in_ok _ _ _ Ho) as (w1 & -> & M1 & O1 & F1). destruct (free_in_ok _ _ _ O1) as (w2 & E2 & M2 & O2 & F2). cbn [mbind option_bind]. rewrite E2.
  destruct (free_in_ok _ _ _ O2) as (w3 & E3 & M3 & O3 & F3). cbn [mbind option_bind]. rewrite E3.
  destruct (free_in_ok _ _ _ O3) as (w4 & E4 & M4 & O4 & F4). cbn [mbind option_bind]. rewrite E4.
  destruct (free_in_ok _ _ _ O4) as (w5 & E5 & M5 & O5 & F5). cbn [mbind option_bind]. rewrite E5. cbn [mbind option_bind].
  assert (Hmap : forall root es, map_rep w root es -> (forall x, x ∈ props_of es -> x ∈ tail) -> map_rep w5 root es).
  { intros root es Hm Hin. apply F5; [|done]. apply F4; [|by intros x Hx; right; apply Hin]. apply F3; [|by intros x Hx; do 2 right; apply Hin].
    apply F2; [|by intros x Hx; do 3 right; apply Hin]. apply F1; [done|]. intros x Hx. do 4 right. by apply Hin. }
  assert (O5' : owns (w_mem w5) (props_of hs ++ props_of qs ++ [(content_type r).2; (content_type r).1])) by (revert O5; apply owns_perm; unfold tail; solve_Permutation).
  destruct (clear_owned w5 (header r) hs _ (Hmap _ _ rr_header0 Hh) O5') as (rc & w6 & -> & M6 & O6 & F6). cbn [mbind option_bind].
  assert (Hq6 : map_rep w6 (query r) qs) by (apply F6; [by apply Hmap | done | intros x Hx; apply elem_of_app; by left]).
  destruct (clear_owned w6 (query r) qs _ Hq6 O6) as (rc' & w7 & -> & M7 & O7 & _). cbn [mbind option_bind].
  destruct (free_in_ok _ _ _ O7) as (w8 & -> & M8 & O8 & _). cbn [mbind option_bind].
  destruct (free_in_ok _ _ _ O8) as (w9 & -> & M9 & _ & _). cbn [mbind option_bind]. exists w9. split; [done|].
  rewrite M9, M8, M7, M6, M5, M4, M3, M2, M1, <- !delete_all_app, <- rr_back0. apply delete_all_perm; [|done].
  unfold owners, fields. rewrite !owned_blocks_app. unfold owned_blocks at 3. cbn [map concat]. rewrite app_nil_r. solve_Permutation.
Qed.

(** ** A request from the URL to its end *)

(** One call that adds a header or a query: its properties and their texts. *)
Record step := mk_step { s_header : bool; s_key : property_t; s_val : property_t; s_pair : list Z * list Z }.
Definition step_ok (m : memory) (s : step) : Prop := copyable m (s_key s) (s_pair s).1 /\ copyable m (s_val s) (s_pair s).2.
Definition apply_step (s : step) (st : PropMap.world * http_request_t) : option (PropMap.world * http_request_t) :=
  if s_header s then http_request_add_header malloc new_node types st.1 st.2 (s_key s) (s_val s)
  else http_request_add_query malloc new_node types st.1 st.2 (s_key s) (s_val s).
Definition headers_of (steps : list step) : list (list Z * list Z) := map s_pair (filter (fun s => s_header s = true) steps).
Definition queries_of (steps : list step) : list (list Z * list Z) := map s_pair (filter (fun s => s_header s = false) steps).

Definition elsewhere (a : Z) (s : step) : Prop := value (s_key s) <> a /\ value (s_val s) <> a.

(** The fields that adding leaves alone. *)
Definition same_line (r r' : http_request_t) : Prop :=
  HttpClient.port r' = HttpClient.port r /\ is_cipher r' = is_cipher r /\ is_chunked r' = is_chunked r /\ payload r' = payload r /\ content_type r' = content_type r /\ meth r' = meth r /\
  response_payload_meth r' = response_payload_meth r.

Lemma run_steps m0 mt sc h u steps : forall w r hs qs, request_rep m0 w r mt sc h u hs qs -> Forall (step_ok (w_mem w)) steps ->
  exists w' r' hs' qs', fold_opt apply_step steps (w, r) = Some (w', r') /\ request_rep m0 w' r' mt sc h u hs' qs' /\
    pairs hs' = pairs hs ++ headers_of steps /\ pairs qs' = pairs qs ++ queries_of steps /\ same_line r r' /\
    (forall a, is_Some (w_mem w !! a) -> Forall (elsewhere a) steps -> avoids a r hs qs -> avoids a r' hs' qs').
Proof.
  induction steps as [|s steps IH]; intros w r hs qs Hr Hok.
  { exists w, r, hs, qs. unfold headers_of, queries_of. rewrite !filter_nil. cbn [map]. by rewrite !app_nil_r. }
  apply Forall_cons in Hok as [[Hk Hv] Hok]. cbn [fold_opt].
  assert (Hnext : forall w1 r1 hs1 qs1 e, grown (w_mem w) (w_mem w1) (owned_blocks (props_of [e])) -> request_rep m0 w1 r1 mt sc h u hs1 qs1 -> same_line r r1 ->
    owners r1 hs1 qs1 ≡ₚ props_of [e] ++ owners r hs qs -> copy_of (w_mem w) (s_key s) (e_key e) -> copy_of (w_mem w) (s_val s) (e_val e) ->
    exists w' r' hs' qs', fold_opt apply_step steps (w1, r1) = Some (w', r') /\ request_rep m0 w' r' mt sc h u hs' qs' /\
      pairs hs' = pairs hs1 ++ headers_of steps /\ pairs qs' = pairs qs1 ++ queries_of steps /\ same_line r r' /\
      (forall a, is_Some (w_mem w !! a) -> Forall (elsewhere a) (s :: steps) -> avoids a r hs qs -> avoids a r' hs' qs')).
  { intros w1 r1 hs1 qs1 e Hg Hr1 (A1 & A2 & A3 & A4 & A5 & A6 & A7) Hown Hck Hcv. destruct (IH w1 r1 hs1 qs1 Hr1) as (w' & r' & hs' & qs' & E & Hr' & Ph & Pq & (B1 & B2 & B3 & B4 & B5 & B6 & B7) & Av).
    { eapply Forall_impl; [exact Hok|]. intros s' [Hk' Hv']. split; by eapply copyable_grown. }
    exists w', r', hs', qs'. split_and!; try done; [split_and!; congruence|]. intros a Ha [[Ek Ev] Hs]%Forall_cons Hav. apply Av; [by rewrite (g_same _ _ _ Hg) | done | by eapply avoids_added]. }
  unfold headers_of, queries_of. rewrite !filter_cons. destruct (s_header s) eqn:Es.
  - destruct (add_header_rep _ _ _ _ _ _ _ _ _ _ _ _ _ Hr Hk Hv) as (w1 & r1 & e & E & Hr1 & He1 & He2 & Hck & Hcv & Hg & Hr1').
    assert (Ea : apply_step s (w, r) = Some (w1, r1)) by (unfold apply_step; by rewrite Es).
    rewrite Ea. cbn [mbind option_bind]. destruct (Hnext w1 r1 (hs ++ [e]) qs e Hg Hr1) as (w' & r' & hs' & qs' & E' & Hr' & Ph & Pq & Hs); [by rewrite Hr1' | rewrite Hr1'; apply owners_header | done | done |].
    exists w', r', hs', qs'. split_and!; try done; [|by destruct Hs..]. rewrite Ph. unfold pairs. rewrite map_app, <- app_assoc. cbn [map app]. rewrite He1, He2, <- surjective_pairing. done.
  - destruct (add_query_rep _ _ _ _ _ _ _ _ _ _ _ _ _ Hr Hk Hv) as (w1 & r1 & e & E & Hr1 & He1 & He2 & Hck & Hcv & Hg & Hr1').
    assert (Ea : apply_step s (w, r) = Some (w1, r1)) by (unfold apply_step; by rewrite Es).
    rewrite Ea. cbn [mbind option_bind]. destruct (Hnext w1 r1 hs (qs ++ [e]) e Hg Hr1) as (w' & r' & hs' & qs' & E' & Hr' & Ph & Pq & Hs); [by rewrite Hr1' | rewrite Hr1'; apply owners_query | done | done |].
    exists w', r', hs', qs'. split_and!; try done; [|by destruct Hs..]. rewrite Pq. unfold pairs. rewrite map_app, <- app_assoc. cbn [map app]. rewrite He1, He2, <- surjective_pairing. done.
Qed.

Lemma text_of_stored w p s : stored (w_mem w) p s -> text_of w p = Some s.
Proof. intros Hs. destruct (stored_text _ _ _ Hs) as (Ht & Hr & _). unfold prop_text in Ht. by rewrite Hr in Ht. Qed.

(** Init and the calls that add, from any URL that is well formed. *)
Lemma request_built w req0 k mt sc h port u url rest steps : literals (w_mem w) -> METH_str !! k = Some mt -> url_ok sc h port u ->
  bytes_at (w_mem w) url = Some (url_text sc h port u ++ 0 :: rest) -> Forall (step_ok (w_mem w)) steps ->
  exists m r1 w2 r2 hs qs, http_request_init malloc types literal (w_mem w) req0 (Z.of_nat k) url = Some (m, r1) /\
    fold_opt apply_step steps (set_mem w m, r1) = Some (w2, r2) /\ request_rep (w_mem w) w2 r2 mt sc h u hs qs /\
    pairs hs = headers_of steps /\ pairs qs = queries_of steps /\ HttpClient.port r2 = port /\ is_cipher r2 = scheme_index sc /\ is_chunked r2 = 0 /\ payload r2 = p_null /\
    content_type r2 = (p_null, p_null) /\ Property.size (meth r2) = zlen mt /\ response_payload_meth r2 = mk_meth default_handler default_handler /\
    (forall a, is_Some (w_mem w !! a) -> a <> NULL -> literal mt <> a -> literal sc <> a -> Forall (elsewhere a) steps -> avoids a r2 hs qs).
Proof.
  intros Hl Hk Hu Hb Hs. destruct (http_request_init_ok w req0 k mt sc h port u url rest Hl Hk Hu Hb) as (m & r1 & E & Hr & (bs & Hg) & P1 & P2 & _ & P4 & P5 & P6 & _ & _ & P9 & P10 & Av).
  destruct (run_steps _ _ _ _ _ steps _ _ _ _ Hr) as (w2 & r2 & hs & qs & E2 & Hr2 & Ph & Pq & (S1 & S2 & S3 & S4 & S5 & S6 & S7) & Av').
  { eapply Forall_impl; [exact Hs|]. intros s [Ha Hb']. split; by eapply copyable_grown. }
  exists m, r1, w2, r2, hs, qs. split_and!; try (congruence || done). intros a Ha Ha0 Hma Hsa Hst. apply Av'; [|done | by apply Av]. change (is_Some (m !! a)). by rewrite (g_same _ _ _ Hg a Ha).
Qed.

(** C18. A request is made of a URL and lives until it is closed: from scheme, host,
    port and path in the URL, through any sequence of headers and queries that
    are added, its fields say what was given, in order; and closing it clears
    the structure and leaves the memory as it was before the URL was read. *)
Theorem http_request_lifecycle w req0 k mt sc h port u url rest steps : literals (w_mem w) -> METH_str !! k = Some mt -> url_ok sc h port u ->
  bytes_at (w_mem w) url = Some (url_text sc h port u ++ 0 :: rest) -> Forall (step_ok (w_mem w)) steps ->
  exists m r1 w2 r2 w3, http_request_init malloc types literal (w_mem w) req0 (Z.of_nat k) url = Some (m, r1) /\
    fold_opt apply_step steps (set_mem w m, r1) = Some (w2, r2) /\
    (text_of w2 (meth r2) = Some mt /\ text_of w2 (scheme r2) = Some sc /\ text_of w2 (host r2) = Some h /\ text_of w2 (uri r2) = Some u) /\
    (HttpClient.port r2 = port /\ is_cipher r2 = scheme_index sc /\ is_chunked r2 = 0 /\ payload r2 = p_null) /\
    map_texts w2 (header r2) (headers_of steps) /\ map_texts w2 (query r2) (queries_of steps) /\
    http_request_close types w2 r2 = Some (w3, zero_request) /\ w_mem w3 = w_mem w.
Proof.
  intros Hl Hk Hu Hb Hs. destruct (request_built w req0 k mt sc h port u url rest steps Hl Hk Hu Hb Hs) as (m & r1 & w2 & r2 & hs & qs & E1 & E2 & Hr & Ph & Pq & P1 & P2 & P3 & P4 & _).
  destruct (http_request_close_ok _ _ _ _ _ _ _ _ _ Hr) as (w3 & E3 & Hm). exists m, r1, w2, r2, w3. destruct Hr.
  split; [done|]. split; [done|]. split; [by split_and!; apply text_of_stored|]. split; [done|]. rewrite <- Ph, <- Pq. split_and!; [by apply map_rep_texts.. | done | done].
Qed.

(** ** Where it goes wrong *)

(** A URL without "://" marks the request corrupt and leaves the pointers to
    its maps as the structure held them before; nothing looks at the mark, and
    closing a request that was not cleared before follows such a pointer. *)
Theorem http_request_init_corrupt w req0 k mt url s rest : literals (w_mem w) -> METH_str !! k = Some mt ->
  bytes_at (w_mem w) url = Some (s ++ 0 :: rest) -> is_cstr s -> find_sub s (lit "://") = None ->
  exists r, http_request_init malloc types literal (w_mem w) req0 (Z.of_nat k) url = Some (w_mem w, r) /\
    is_corrupt r = 1 /\ header r = header req0 /\ query r = query req0 /\ content_type r = content_type req0 /\
    (header req0 <> NULL -> w_next w !! header req0 = None -> http_request_close types w r = None).
Proof.
  intros Hlit Hk Hurl Hs Hnone. destruct (meth_name _ _ Hk) as (Hmt & Hget & Hmtc & _). destruct (copy_literal (w_mem w) mt Hlit) as (p1 & q1 & Hp & E1 & S1 & B1 & _); [apply elem_of_app; by left | done|].
  assert (Hstr : strstr (s ++ 0 :: rest) (lit "://") = Some None) by (unfold strstr; rewrite cstr_app by done; cbn [mbind option_bind]; by rewrite Hnone).
  unfold http_request_init. rewrite Hget, Hp. cbn [mbind option_bind]. rewrite E1. cbn [mbind option_bind]. rewrite Hurl. cbn [mbind option_bind]. rewrite Hstr. cbn [mbind option_bind].
  eexists. split; [done|]. split_and!; try done. intros H0 Hdead. unfold http_request_close. cbn [meth scheme host uri payload header with_corrupt with_meth].
  assert (F1 : free_in types w q1 = Some w) by (unfold free_in; rewrite (free_stored _ _ _ S1), B1; by destruct w).
  assert (F0 : free_in types w p_null = Some w) by (unfold free_in; by destruct w).
  rewrite F1. cbn [mbind option_bind]. do 4 (rewrite F0; cbn [mbind option_bind]).
  unfold property_map_clear. rewrite (proj2 (Z.eqb_neq _ NULL) H0). unfold LinkedList.nodes_fuel. cbn [LinkedList.for_each_safe].
  change (header req0 =? LinkedList.NULL) with (header req0 =? NULL). by rewrite (proj2 (Z.eqb_neq _ NULL) H0), Hdead.
Qed.

(** The default handler of a response keeps the first piece of the payload as a
    string of its own; with the second one it writes past the block that joins
    the two, so a payload in two pieces, which the client hands over for every
    body of more than 512 bytes or in two chunks, is undefined behaviour. *)
Theorem default_add_payload_second m d p s m' d' p' n' : r_payload d = p_null -> copyable m p s -> prop_tag p = PROPERTY_STACK_TAG ->
  default_add_payload_handler malloc types m d p = Some (0, m', d') -> text_len m' p' = Some n' -> 0 <= n' -> value p' <> NULL ->
  prop_text m' (r_payload d') = Some s /\ default_add_payload_handler malloc types m' d' p' = None.
Proof.
  intros Hd Hc Htag E Hlen Hn0 Hv'. destruct (move_stack malloc Henough m (r_payload d) p s Hc Htag) as (m1 & q & Em & Hs & _ & Hf & _).
  unfold default_add_payload_handler in E. rewrite Em in E. rewrite Hd in E. change (IS_EMPTY p_null) with true in E. cbn [mbind option_bind] in E. injection E as <- <-. cbn [r_payload].
  split; [by apply stored_text|]. destruct Hs as [Hcs [[Hf' _] | (_ & Hq0 & Hqm)]]; [by rewrite Hf in Hf'|].
  unfold default_add_payload_handler, property_concat, IS_EMPTY. cbn [r_payload]. rewrite (proj2 (Z.eqb_neq _ NULL) Hq0), (proj2 (Z.eqb_neq _ NULL) Hv').
  pose proof (zlen_nonneg s).
  rewrite (dynmc_concat_stuck malloc m1 q p' (zlen s) n'); [done | by unfold flag; rewrite Hf | | exact Hlen | lia | done | by rewrite Hqm | done | apply Henough; lia].
  unfold text_len, flag, bytes_at. rewrite Hf, Hqm. change (negb (Z.land dyn_flags is_raw =? 0)) with false. cbn [mbind option_bind]. by apply strlen_cstr.
Qed.

(** *** The pieces of a payload *)

Lemma unused_spec m : m !! unused m = None /\ unused m <> NULL.
Proof.
  assert (H : 0 <= map_fold (fun a (_ : bool * list Z) b => Z.max a b) 0 m /\ forall a, is_Some (m !! a) -> a <= map_fold (fun a _ b => Z.max a b) 0 m).
  { apply (map_fold_weak_ind (fun b (m' : memory) => 0 <= b /\ forall a, is_Some (m' !! a) -> a <= b)).
    - split; [done|]. intros a [x Hx]. by rewrite lookup_empty in Hx.
    - intros a x m' b _ [H0 IH]. split; [lia|]. intros a' [y Hy]. destruct (decide (a' = a)) as [-> | Hne]; [lia|].
      rewrite lookup_insert_ne in Hy by done. specialize (IH a' ltac:(by eexists)). lia. }
  destruct H as [H0 H]. unfold unused. split.
  - destruct (m !! (1 + _)) eqn:E; [|done]. specialize (H _ ltac:(by eexists)). lia.
  - change NULL with 0. lia.
Qed.

Lemma cstrn_all s : is_cstr s -> cstrn s (Z.to_nat (zlen s)) = Some s.
Proof. intros Hs. rewrite zlen_to_nat. induction Hs as [|c s Hc _ IH]; [done|]. cbn [length cstrn]. replace (c =? 0) with false by lia. by rewrite IH. Qed.

(** The first piece is kept as a string of its own ... *)
Lemma add_piece_first w d p : r_payload d = p_null -> is_cstr p -> exists v, w_mem w !! v = None /\ v <> NULL /\
  add_piece malloc types w d p = Some (0, set_mem w (<[v := (true, p ++ [0])]> (w_mem w)), mk_data (r_header d) (r_content_type d) (mk_prop v dyn_flags (zlen p))).
Proof.
  intros Hd Hp. unfold add_piece. destruct (unused_spec (w_mem w)) as [Hu Hu0]. set (a := unused (w_mem w)) in *. set (m := <[a := (false, p)]> (w_mem w)).
  destruct (malloc m (zlen p + 1)) as [[v b]|] eqn:E; [|by apply Henough in E; [|zl]]. destruct (malloc_fresh _ _ _ _ E) as [Hv Hv0].
  assert (Hva : v <> a) by (intros ->; unfold m in Hv; by rewrite lookup_insert_eq in Hv). unfold m in Hv. rewrite lookup_insert_ne in Hv by done.
  exists v. split; [done|]. split; [done|]. unfold default_add_payload_handler. rewrite Hd. change (IS_EMPTY p_null) with true. cbv iota.
  unfold property_move. change (get_property_type types _) with (Some stack_property_type). cbv iota.
  unfold stack_copy, dynmc_copy. change (flag (owned (mk_prop a _ _)) is_owner) with true. change (flag (owned (mk_prop a _ _)) is_raw) with true. cbn [negb owned value Property.size].
  unfold strndup, bytes_at. unfold m. rewrite lookup_insert_eq. cbn [mbind option_bind]. rewrite cstrn_all by done. cbn [mbind option_bind].
  unfold dup_bytes. fold m. rewrite E. cbn [mbind option_bind].
  unfold property_free. change (flag (owned _) is_owner) with true. change (get_property_type types _) with (Some stack_property_type). cbn [mbind option_bind].
  unfold m. rewrite delete_insert_ne by done. by rewrite delete_insert_id by done.
Qed.

(** ... and the second one is written past the end of the block that joins the two. *)
Lemma add_piece_second w d p q v : r_payload d = mk_prop v dyn_flags (zlen p) -> w_mem w !! v = Some (true, p ++ [0]) -> v <> NULL -> is_cstr p -> add_piece malloc types w d q = None.
Proof.
  intros Hd Hv Hv0 Hp. unfold add_piece. destruct (unused_spec (w_mem w)) as [Hu Hu0]. set (a := unused (w_mem w)) in *.
  assert (Hva : v <> a) by congruence. unfold default_add_payload_handler, property_concat, IS_EMPTY. rewrite Hd. cbn [value].
  rewrite (proj2 (Z.eqb_neq _ NULL) Hv0), (proj2 (Z.eqb_neq _ NULL) Hu0).
  assert (Hv' : <[a := (false, q)]> (w_mem w) !! v = Some (true, p ++ [0])) by by rewrite lookup_insert_ne.
  rewrite (dynmc_concat_stuck malloc _ _ _ (zlen p) (zlen q)); try done; try apply zlen_nonneg.
  - unfold text_len, flag, bytes_at. cbn [flags value]. rewrite Hv'. change (negb (Z.land dyn_flags is_raw =? 0)) with false. cbn [mbind option_bind]. by apply strlen_cstr.
  - cbn [value]. by rewrite Hv'.
  - apply Henough. pose proof (zlen_nonneg p). pose proof (zlen_nonneg q). lia.
Qed.

(** What the default handler makes of the pieces of a payload without a byte 0. *)
Lemma hand_all_default w qs ps : Forall is_cstr ps -> (length ps <= 1)%nat ->
  exists w' d, HttpPeer.hand_all malloc types default_handler ps (w, no_data, qs) = Some (w', d, qs) /\
    ((ps = [] /\ w' = w /\ d = no_data) \/
     exists p v, ps = [p] /\ w_mem w !! v = None /\ v <> NULL /\ w' = set_mem w (<[v := (true, p ++ [0])]> (w_mem w)) /\ d = mk_data NULL (p_null, p_null) (mk_prop v dyn_flags (zlen p))).
Proof.
  destruct ps as [|p [|q ps]]; intros Hps Hl; [|apply Forall_cons in Hps as [Hp _]|cbn in Hl; lia].
  - exists w, no_data. split; [done|]. by left.
  - destruct (add_piece_first w no_data p eq_refl Hp) as (v & Hv & Hv0 & E). eexists _, _. split; [unfold HttpPeer.hand_all; cbn [fold_opt HttpPeer.hand]; rewrite E; done|].
    right. by exists p, v.
Qed.

Lemma hand_all_default_more w qs ps : Forall is_cstr ps -> (2 <= length ps)%nat -> HttpPeer.hand_all malloc types default_handler ps (w, no_data, qs) = None.
Proof.
  destruct ps as [|p [|q ps]]; intros Hps Hl; [cbn in Hl; lia.. |]. apply Forall_cons in Hps as [Hp _].
  destruct (add_piece_first w no_data p eq_refl Hp) as (v & Hv & Hv0 & E). unfold HttpPeer.hand_all. cbn [fold_opt HttpPeer.hand]. rewrite E. cbn [mbind option_bind HttpPeer.hand].
  rewrite (add_piece_second _ _ p q v); try done. cbn [set_mem w_mem]. apply lookup_insert_eq.
Qed.

End build.

(** ** Samples *)

Definition sample_names : list (list Z) := METH_str ++ Scheme_str ++ CONTENT_TYPE :: find_by_name.
Definition sample_literal (s : list Z) : Z := 100 + from_option (fun p => Z.of_nat p.1) 0 (list_find (fun x => x = s) sample_names).
(** The literals, a URL, the text of a header and of a query. *)
Definition sample_texts : memory :=
  list_to_map (zip (seqZ 100 29) (map (fun s => (false, s ++ [0])) sample_names) ++
    zip [1; 2; 3; 4; 5; 6] (map (fun s => (false, lit s ++ [0])) ["https://host:443/api"; "Accept"; "text"; "from"; "3"; "host/api"]%string)).
Definition sample_heap : PropMap.world := mk_world sample_texts ∅ ∅.
Definition stack_text (a n : Z) : property_t := mk_prop a (Z.lor is_owner PROPERTY_STACK_TAG) n.
Definition sample_steps : list step := [mk_step true (stack_text 2 6) (stack_text 3 4) (lit "Accept", lit "text"); mk_step false (stack_text 4 4) (stack_text 5 1) (lit "from", lit "3")].

Lemma sample_literals : literals sample_literal sample_texts.
Proof.
  intros s Hs. revert s Hs. apply Forall_forall. change (METH_str ++ Scheme_str ++ CONTENT_TYPE :: find_by_name) with sample_names.
  apply (bool_decide_unpack _). by vm_compute.
Qed.

Lemma sample_url : url_ok (lit "https") (lit "host") 443 (lit "/api").
Proof.
  split; [by apply (bool_decide_unpack _); vm_compute | by repeat constructor | by apply (bool_decide_unpack _); vm_compute | lia |].
  exists (lit "api"). split; [done | by repeat constructor].
Qed.

Lemma sample_steps_ok : Forall (step_ok sample_texts) sample_steps.
Proof.
  assert (Hc : forall a n s, a ∈ [(2, 6, lit "Accept"); (3, 4, lit "text"); (4, 4, lit "from"); (5, 1, lit "3")] -> (n, s) = (a.1.2, a.2) -> copyable sample_texts (stack_text a.1.1 n) s).
  { intros [[a n] s] n' s' Ha [= -> ->]. cbn [fst snd]. split; [by cbv|].
    repeat (apply elem_of_cons in Ha as [[= -> -> ->] | Ha]; [split; [by vm_compute | split; [by repeat constructor | right; right; by vm_compute]]|]).
    by apply not_elem_of_nil in Ha. }
  repeat (apply Forall_cons; split); [split.. | constructor]; cbn [s_key s_val s_pair fst snd].
  - apply (Hc (2, 6, lit "Accept")); [by left | done].
  - apply (Hc (3, 4, lit "text")); [by right; left | done].
  - apply (Hc (4, 4, lit "from")); [by right; right; left | done].
  - apply (Hc (5, 1, lit "3")); [by right; right; right; left | done].
Qed.

Lemma sample_nodes next : sample_node next <> None.
Proof. done. Qed.

(** A GET of https://host:443/api with a header and a query. *)
Lemma http_request_lifecycle_witness :
  exists m r1 w2 r2 w3, http_request_init bump_malloc types sample_literal sample_texts zero_request 0 1 = Some (m, r1) /\
    fold_opt (apply_step bump_malloc sample_node) sample_steps (set_mem sample_heap m, r1) = Some (w2, r2) /\
    text_of w2 (uri r2) = Some (lit "/api") /\ HttpClient.port r2 = 443 /\ is_cipher r2 = 1 /\
    map_texts w2 (header r2) [(lit "Accept", lit "text")] /\ map_texts w2 (query r2) [(lit "from", lit "3")] /\
    http_request_close types w2 r2 = Some (w3, zero_request) /\ w_mem w3 = sample_texts.
Proof.
  destruct (http_request_lifecycle bump_malloc bump_enough sample_node sample_node_ok sample_nodes sample_literal sample_heap zero_request 0 (lit "GET") (lit "https") (lit "host") 443 (lit "/api") 1 [] sample_steps)
    as (m & r1 & w2 & r2 & w3 & E1 & E2 & (_ & _ & _ & Hu) & (Hp & Hc & _) & Hh & Hq & E3 & Hm).
  - exact sample_literals.
  - done.
  - exact sample_url.
  - by vm_compute.
  - exact sample_steps_ok.
  - exists m, r1, w2, r2, w3. split_and!; try done.
Defined.

(** "host/api" is no URL, and the structure held the pointer 77 before. *)
Lemma http_request_init_corrupt_witness :
  exists r, http_request_init bump_malloc types sample_literal sample_texts (with_header zero_request 77) 0 6 = Some (sample_texts, r) /\
    is_corrupt r = 1 /\ header r = 77 /\ http_request_close types sample_heap r = None.
Proof.
  destruct (http_request_init_corrupt bump_malloc sample_literal sample_heap (with_header zero_request 77) 0 (lit "GET") 6 (lit "host/api") [])
    as (r & E & Hc & Hh & _ & _ & Hclose).
  - exact sample_literals.
  - done.
  - by vm_compute.
  - by repeat constructor.
  - by vm_compute.
  - exists r. split_and!; [exact E | done | done | by apply Hclose].
Defined.

(** Pieces of four bytes and of one. *)
Lemma default_add_payload_second_witness :
  let d := no_data in
  exists m d', default_add_payload_handler bump_malloc types sample_texts d (stack_text 3 4) = Some (0, m, d') /\
    default_add_payload_handler bump_malloc types m d' (stack_text 5 1) = None.
Proof.
  intros d. destruct (default_add_payload_handler bump_malloc types sample_texts d (stack_text 3 4)) as [[[rc m] d']|] eqn:E; [|by vm_compute in E].
  assert (Hrc : rc = 0 /\ text_len m (stack_text 5 1) = Some 1).
  { assert (Hv : (fun x => (x.1.1, text_len x.1.2 (stack_text 5 1))) <$> default_add_payload_handler bump_malloc types sample_texts d (stack_text 3 4) = Some (0, Some 1)) by by vm_compute.
    rewrite E in Hv. by injection Hv as -> ->. }
  destruct Hrc as [-> Hlen]. exists m, d'. split; [done|].
  apply (default_add_payload_second bump_malloc bump_enough sample_texts d (stack_text 3 4) (lit "text") m d' (stack_text 5 1) 1); try done.
  split; [by cbv|]. split; [by vm_compute|]. split; [by repeat constructor | right; right; by vm_compute].
Defined.

End HttpBuild.
