(* ===== verification/Crypt.v ===== *)
(** src/src/ssl/crypt.c, and of src/src/arrow/sign.c the keys and the signature of a
    request. SHA-256 and HMAC are wolfSSL's, and so a parameter; the contexts of the
    chunked forms are what they have been fed. A [const char *] argument is the
    bytes from it on; the keys are found by address. *)
From S2P Require Import Prelude StateM Property Double ArrowUtf8 HttpClient.

Module Crypt.
Import StateM Property Utf8.

(** wolfSSL: the digest of a message, and of a message under a key. *)
Class Hashes := { SHA256 : list Z -> list Z; HMAC256 : list Z -> list Z -> list Z }.

Definition digest (d : list Z) : Prop := Forall is_byte d /\ zlen d = 32.
Class Digests `{Hashes} := {
  SHA256_digest s : digest (SHA256 s);
  HMAC256_digest k s : digest (HMAC256 k s);
}.

(** The memory, the static hash contexts, and [api.key] and [secret.key]. *)
Record state := mk_state { mem : memory; static_sh : list Z; static_hmac : list Z * list Z; api : Z; secret : Z }.

Abbreviation M := (StateM.M state).

Definition get : M state := fun s => Some (s, s).
Definition put (s : state) : M unit := fun _ => Some (tt, s).
Definition get_mem : M memory := fun s => Some (mem s, s).
Definition put_mem (m : memory) : M unit := fun s => Some (tt, mk_state m (static_sh s) (static_hmac s) (api s) (secret s)).

(** The bytes a pointer leads to; there is no object at NULL. *)
Definition string_at (p : Z) : M (list Z) := m ← get_mem; lift (bytes_at m p).

Section crypt.
Context `{Hashes}.

(** ** crypt.c *)

Definition sha256 (shasum buf : list Z) (size : Z) : option (list Z) := s ← rdn buf 0 size; wrn shasum 0 (SHA256 s).

Definition sha256_init : M unit := s ← get; put (mk_state (mem s) [] (static_hmac s) (api s) (secret s)).
Definition sha256_chunk (buf : list Z) (size : Z) : M unit :=
  b ← lift (rdn buf 0 size); s ← get; put (mk_state (mem s) (static_sh s ++ b) (static_hmac s) (api s) (secret s)).
(** The context starts afresh. *)
Definition sha256_fin (shasum : list Z) : M (list Z) :=
  s ← get; _ ← put (mk_state (mem s) [] (static_hmac s) (api s) (secret s)); lift (wrn shasum 0 (SHA256 (static_sh s))).

Definition hmac256 (hmacdig key : list Z) (key_size : Z) (buf : list Z) (buf_size : Z) : option (list Z) :=
  k ← rdn key 0 key_size; s ← rdn buf 0 buf_size; wrn hmacdig 0 (HMAC256 k s).

Definition hmac256_init (key : list Z) (key_size : Z) : M unit :=
  k ← lift (rdn key 0 key_size); s ← get; put (mk_state (mem s) (static_sh s) (k, []) (api s) (secret s)).
Definition hmac256_chunk (buf : list Z) (buf_size : Z) : M unit :=
  b ← lift (rdn buf 0 buf_size); s ← get;
  put (mk_state (mem s) (static_sh s) ((static_hmac s).1, (static_hmac s).2 ++ b) (api s) (secret s)).
Definition hmac256_fin (hmacdig : list Z) : M (list Z) :=
  s ← get; _ ← put (mk_state (mem s) (static_sh s) ((static_hmac s).1, []) (api s) (secret s));
  lift (wrn hmacdig 0 (HMAC256 (static_hmac s).1 (static_hmac s).2)).

(** [sha256_chunk(s, strlen(s))] and [hmac256_chunk(s, strlen(s))] *)
Definition sha256_str (s : list Z) : M unit := n ← lift (strlen s); sha256_chunk s n.
Definition hmac256_str (s : list Z) : M unit := n ← lift (strlen s); hmac256_chunk s n.

(** ** The keys of sign.c *)

(** Where the arrays [api_key] (66 bytes) and [secret_key] (50) are, the default
    keys or NULL, and the storage: its result, and the memory after it has
    written to the arrays it was given. *)
Context (api_key secret_key default_api_key default_secret_key : Z).
Context (restore_key_setting : memory -> Z -> Z -> Z * memory).

Definition get_api_key : M Z :=
  s ← get;
  if negb (api s =? NULL) then mret (api s) else
  if negb (default_api_key =? NULL) then mret default_api_key else
  let '(r, m) := restore_key_setting (mem s) api_key NULL in
  _ ← put_mem m;
  mret (if r <? 0 then NULL else api_key).

Definition get_secret_key : M Z :=
  s ← get;
  if negb (secret s =? NULL) then mret (secret s) else
  if negb (default_secret_key =? NULL) then mret default_secret_key else
  let '(r, m) := restore_key_setting (mem s) NULL secret_key in
  _ ← put_mem m;
  mret (if r <? 0 then NULL else secret_key).

(** The length of the key is not compared with the array. *)
Definition set_key (iot newkey : Z) : M unit :=
  b ← string_at newkey;
  n ← lift (strlen b);
  k ← lift (rdn b 0 n);
  m ← get_mem;
  m ← lift (store_bytes m iot 0 k);
  m ← lift (store_bytes m iot n [0]);
  put_mem m.

Definition set_api_key (newkey : Z) : M unit :=
  s ← get; _ ← put (mk_state (mem s) (static_sh s) (static_hmac s) api_key (secret s)); set_key api_key newkey.
Definition set_secret_key (newkey : Z) : M unit :=
  s ← get; _ ← put (mk_state (mem s) (static_sh s) (static_hmac s) (api s) secret_key); set_key secret_key newkey.

(** The string a key function returns. *)
Definition api_key_str : M (list Z) := p ← get_api_key; string_at p.
Definition secret_key_str : M (list Z) := p ← get_secret_key; string_at p.

(** ** sign *)

Definition null_hash : list Z := lit "e3b0c44298fc1c149afbf4c8996fb92427ae41e4649b934ca495991b7852b855".

(** The digest as a string. *)
Definition hex_digest (hex d : list Z) : option (list Z) := hex ← hex_encode hex d 32; wr hex 64 0.

Context `{HttpClient.Buffers}.
Abbreviation chunk := HttpClient.chunk.

(** Returns [signature] afterwards. *)
Definition sign (signature timestamp : list Z) (meth : property_t) (uri : list Z) (canQueryString payload : option (list Z)) (apiVersion : list Z) : M (list Z) :=
  _ ← sha256_init;
  m ← get_mem;
  n ← lift (property_size m meth);
  name ← string_at (value meth);
  _ ← sha256_chunk name n;
  _ ← sha256_chunk [10; 0] 1;
  _ ← sha256_str uri;
  _ ← sha256_chunk [10; 0] 1;
  _ ← match canQueryString with Some q => sha256_str q | None => mret tt end;
  hex_hash ← match payload with
             | Some p => n ← lift (strlen p); h ← lift (sha256 (chunk 34) p n); lift (hex_digest (chunk 66) h)
             | None => lift (wrn (chunk 66) 0 (null_hash ++ [0]))
             end;
  _ ← sha256_chunk hex_hash 64;
  hash ← sha256_fin (chunk 34);
  hex_hash ← lift (hex_digest hex_hash hash);
  sec ← secret_key_str;
  sec ← lift (cstr sec);
  signKey ← lift (wrn (chunk 128) 0 (sec ++ [0]));
  key ← api_key_str;
  n ← lift (strlen key);
  len ← lift (strlen signKey);
  tmp ← lift (hmac256 (chunk 128) key n signKey len);
  signKey ← lift (hex_encode signKey tmp 32);
  n ← lift (strlen timestamp);
  tmp ← lift (hmac256 tmp timestamp n signKey 64);
  signKey ← lift (hex_encode signKey tmp 32);
  n ← lift (strlen apiVersion);
  tmp ← lift (hmac256 tmp apiVersion n signKey 64);
  signKey ← lift (hex_encode signKey tmp 32);
  _ ← hmac256_init signKey 64;
  _ ← hmac256_chunk hex_hash 64;
  _ ← hmac256_chunk [10; 0] 1;
  key ← api_key_str;
  _ ← hmac256_str key;
  _ ← hmac256_chunk [10; 0] 1;
  _ ← hmac256_str timestamp;
  _ ← hmac256_chunk [10; 0] 1;
  _ ← hmac256_str apiVersion;
  tmp ← hmac256_fin tmp;
  lift (hex_encode signature tmp 32).

End crypt.

(** ** The signature *)

Definition NL : list Z := [10].
Definition canonical_request (meth uri query hash : list Z) : list Z := meth ++ NL ++ uri ++ NL ++ query ++ hash.
Definition payload_hash `{Hashes} (payload : option (list Z)) : list Z := match payload with Some p => hexes (SHA256 p) | None => null_hash end.
Definition signing_key `{Hashes} (K Sk ts ver : list Z) : list Z := hexes (HMAC256 ver (hexes (HMAC256 ts (hexes (HMAC256 K Sk))))).
Definition signature_of `{Hashes} (K Sk ts meth uri : list Z) (query : list Z) (payload : option (list Z)) (ver : list Z) : list Z :=
  hexes (HMAC256 (signing_key K Sk ts ver)
    (hexes (SHA256 (canonical_request meth uri query (payload_hash payload))) ++ NL ++ K ++ NL ++ ts ++ NL ++ ver)).

(** ** Running the parts *)

Section parts.
Context `{Digests}.
Context (api_key secret_key default_api_key default_secret_key : Z).
Context (restore_key_setting : memory -> Z -> Z -> Z * memory).

(** A key that has been set, or the default one: a string outside the heap. *)
Definition key_is (m : memory) (p : Z) (K : list Z) : Prop := p <> NULL /\ is_cstr K /\ exists r, m !! p = Some (false, K ++ 0 :: r).
Definition key_at (set default : Z) : Z := if set =? NULL then default else set.
Definition keys_ok (m : memory) (a s : Z) (K Sk : list Z) : Prop :=
  key_is m (key_at a default_api_key) K /\ key_is m (key_at s default_secret_key) Sk.

Lemma key_is_insert m p K a b : key_is m p K -> p <> a -> key_is (<[a := b]> m) p K.
Proof. intros (H1 & H2 & r & H3) Hne. split; [done|]. split; [done|]. exists r. by rewrite lookup_insert_ne. Qed.

Lemma keys_ok_same m m' a s K Sk : (forall p h b, m !! p = Some (h, b) -> h = false -> m' !! p = Some (h, b)) -> keys_ok m a s K Sk -> keys_ok m' a s K Sk.
Proof. intros Hs [(H1 & H2 & r & H3) (G1 & G2 & r' & G3)]. split; (split; [done|]; split; [done|]); eexists; by apply Hs. Qed.

Lemma string_at_ok p h b st : mem st !! p = Some (h, b) -> string_at p st = Some (b, st).
Proof. intros Hm. unfold string_at. cbv [mbind M_bind get_mem]. cbn [mbind option_bind]. unfold bytes_at, lift. by rewrite Hm. Qed.

Lemma get_key_ok (st : state) (set default : Z) K m0 (e : M Z) : key_is m0 (key_at set default) K ->
  (if negb (set =? NULL) then mret set else if negb (default =? NULL) then mret default else e) st = Some (key_at set default, st).
Proof. intros (Hp0 & _). unfold key_at in *. destruct (set =? NULL); [|done]. cbn [negb]. by rewrite (proj2 (Z.eqb_neq default NULL) Hp0). Qed.

Lemma api_key_str_ok m sh hm a s K Sk : keys_ok m a s K Sk ->
  exists r, api_key_str api_key default_api_key restore_key_setting (mk_state m sh hm a s) = Some (K ++ 0 :: r, mk_state m sh hm a s).
Proof.
  intros [Hk _]. pose proof Hk as (Hp0 & _ & r & Hm). exists r. unfold api_key_str. erewrite bind_run by (by eapply get_key_ok). by eapply string_at_ok.
Qed.

Lemma secret_key_str_ok m sh hm a s K Sk : keys_ok m a s K Sk ->
  exists r, secret_key_str secret_key default_secret_key restore_key_setting (mk_state m sh hm a s) = Some (Sk ++ 0 :: r, mk_state m sh hm a s).
Proof.
  intros [_ Hk]. pose proof Hk as (Hp0 & _ & r & Hm). exists r. unfold secret_key_str. erewrite bind_run by (by eapply get_key_ok). by eapply string_at_ok.
Qed.

Lemma sha256_chunk_ok m sh hm a s b r n : n = zlen b -> sha256_chunk (b ++ r) n (mk_state m sh hm a s) = Some (tt, mk_state m (sh ++ b) hm a s).
Proof. intros ->. unfold sha256_chunk. erewrite bind_run by (apply lift_run; by apply rdn_app_0). done. Qed.

Lemma sha256_str_ok m sh hm a s b r : is_cstr b -> sha256_str (b ++ 0 :: r) (mk_state m sh hm a s) = Some (tt, mk_state m (sh ++ b) hm a s).
Proof. intros Hb. unfold sha256_str. erewrite bind_run by (apply lift_run; by apply strlen_cstr). by apply sha256_chunk_ok. Qed.

Lemma sha256_fin_ok m sh hm a s x y : zlen x = 32 -> sha256_fin (x ++ y) (mk_state m sh hm a s) = Some (SHA256 sh ++ y, mk_state m [] hm a s).
Proof. intros Hx. unfold sha256_fin. cbv [mbind M_bind get put]. cbn [mbind option_bind mem static_sh static_hmac api secret]. unfold lift. rewrite wrn_app_0; [done|]. destruct (SHA256_digest sh). lia. Qed.

Lemma hmac256_ok x y k kr kn b br bn : zlen x = 32 -> kn = zlen k -> bn = zlen b -> hmac256 (x ++ y) (k ++ kr) kn (b ++ br) bn = Some (HMAC256 k b ++ y).
Proof. intros Hx -> ->. unfold hmac256. rewrite !rdn_app_0 by done. cbn [mbind option_bind]. apply wrn_app_0. destruct (HMAC256_digest k b). lia. Qed.

Lemma hmac256_init_ok m sh hm a s k r n : n = zlen k -> hmac256_init (k ++ r) n (mk_state m sh hm a s) = Some (tt, mk_state m sh (k, []) a s).
Proof. intros ->. unfold hmac256_init. erewrite bind_run by (apply lift_run; by apply rdn_app_0). done. Qed.

Lemma hmac256_chunk_ok m sh k d a s b r n : n = zlen b -> hmac256_chunk (b ++ r) n (mk_state m sh (k, d) a s) = Some (tt, mk_state m sh (k, d ++ b) a s).
Proof. intros ->. unfold hmac256_chunk. erewrite bind_run by (apply lift_run; by apply rdn_app_0). done. Qed.

Lemma hmac256_str_ok m sh k d a s b r : is_cstr b -> hmac256_str (b ++ 0 :: r) (mk_state m sh (k, d) a s) = Some (tt, mk_state m sh (k, d ++ b) a s).
Proof. intros Hb. unfold hmac256_str. erewrite bind_run by (apply lift_run; by apply strlen_cstr). by apply hmac256_chunk_ok. Qed.

Lemma hmac256_fin_ok m sh k d a s x y : zlen x = 32 -> hmac256_fin (x ++ y) (mk_state m sh (k, d) a s) = Some (HMAC256 k d ++ y, mk_state m sh (k, []) a s).
Proof. intros Hx. unfold hmac256_fin. cbv [mbind M_bind get put]. cbn [mbind option_bind mem static_sh static_hmac api secret fst snd]. unfold lift. rewrite wrn_app_0; [done|]. destruct (HMAC256_digest k d). lia. Qed.

(** A digest in hexadecimal is a string of 64 characters. *)
Lemma hexes_cstr d : Forall is_byte d -> is_cstr (hexes d).
Proof. induction 1 as [|x l Hx _ IH]; [constructor|]. unfold hexes in *. cbn [map concat]. apply Forall_app. split; [by apply fmt_02x_read | exact IH]. Qed.

Lemma hexes_digest d : digest d -> is_cstr (hexes d) /\ zlen (hexes d) = 64.
Proof. intros [Hb Hl]. split; [by apply hexes_cstr | rewrite hexes_length; lia]. Qed.

Lemma hex_encode_digest dst d rest : digest d -> 64 < zlen dst -> exists r, hex_encode dst (d ++ rest) 32 = Some (hexes d ++ 0 :: r) /\ zlen r = zlen dst - 65.
Proof.
  intros [Hb Hl] Hd. exists (drop 65 dst). unfold hex_encode, for_. replace (Z.to_nat 32) with (length d) by (unfold zlen in Hl; lia).
  pose proof (hex_encode_loop d [] [] dst rest eq_refl ltac:(lia)) as E. cbn [app] in E. change (zlen (@nil Z)) with 0 in E. rewrite E.
  destruct d as [|x d]; [done|]. split; [|zl]. do 4 f_equal. unfold zlen in Hl. lia.
Qed.

Lemma hex_digest_ok hex d rest : digest d -> 64 < zlen hex -> exists r, hex_digest hex (d ++ rest) = Some (hexes d ++ 0 :: r) /\ zlen r = zlen hex - 65.
Proof.
  intros Hd Hh. destruct (hex_encode_digest hex d rest Hd Hh) as (r & E & Hr). exists r. split; [|done]. unfold hex_digest. rewrite E. cbn [mbind option_bind].
  rewrite wr_app; [done|]. by rewrite (proj2 (hexes_digest d Hd)).
Qed.

(** ** What sign writes *)

Context `{HttpClient.Buffers}.

Lemma chunk_split n k : 0 <= k <= n -> exists x y, HttpClient.chunk n = x ++ y /\ zlen x = k /\ zlen y = n - k.
Proof.
  intros Hn. pose proof (HttpClient.chunk_size n ltac:(lia)) as Hs. destruct (split_at (HttpClient.chunk n) k) as (x & y & E & Hx); [lia|].
  exists x, y. split; [done|]. split; [done|]. rewrite E, zlen_app in Hs. lia.
Qed.

(** The string that was in the front of a buffer is followed by its rest. *)
Definition c_string (s : list Z) (b : list Z) : Prop := is_cstr s /\ exists r, b = s ++ 0 :: r.

(** The hash of the payload, as a string in the buffer of 66 bytes. *)
Lemma payload_hash_ok (payload : option (list Z)) (p : option (list Z)) st : option_Forall2 (fun b s => c_string s b) payload p ->
  exists r, (match payload with
             | Some p => n ← lift (strlen p); h ← lift (sha256 (HttpClient.chunk 34) p n); lift (hex_digest (HttpClient.chunk 66) h)
             | None => lift (wrn (HttpClient.chunk 66) 0 (null_hash ++ [0]))
             end : M (list Z)) st = Some (payload_hash p ++ 0 :: r, st) /\ zlen r = 1 /\ zlen (payload_hash p) = 64.
Proof.
  intros [b s (Hs & r & ->) | ]; cbn [payload_hash].
  - erewrite bind_run by (apply lift_run; by apply strlen_cstr). destruct (chunk_split 34 32) as (x & y & E & Hx & Hy); [lia|].
    assert (Eh : sha256 (HttpClient.chunk 34) (s ++ 0 :: r) (zlen s) = Some (SHA256 s ++ y)).
    { unfold sha256. rewrite rdn_app_0 by done. cbn [mbind option_bind]. rewrite E. apply wrn_app_0. destruct (SHA256_digest s). lia. }
    erewrite bind_run by (apply lift_run; exact Eh).
    destruct (hex_digest_ok (HttpClient.chunk 66) (SHA256 s) y (SHA256_digest s)) as (r' & E' & Hr'); [rewrite HttpClient.chunk_size; lia|].
    exists r'. split; [by apply lift_run|]. rewrite HttpClient.chunk_size in Hr' by lia. split; [done | apply hexes_digest, SHA256_digest].
  - destruct (chunk_split 66 65) as (x & y & E & Hx & Hy); [lia|]. exists y. rewrite E. split; [|by split].
    apply lift_run. exact (wrn_app_0 (null_hash ++ [0]) x y (eq_sym Hx)).
Qed.

Lemma sign_ok m sh hm a s K Sk sig ts tsb meth_ mt uri urib qb q pb p ver verb : keys_ok m a s K Sk -> zlen Sk < 128 ->
  (exists h r, m !! value meth_ = Some (h, mt ++ r)) -> property_size m meth_ = Some (zlen mt) ->
  c_string ts tsb -> c_string uri urib -> c_string ver verb -> option_Forall2 (fun b s => c_string s b) qb q -> option_Forall2 (fun b s => c_string s b) pb p -> 64 < zlen sig ->
  exists hm' r, sign api_key secret_key default_api_key default_secret_key restore_key_setting sig tsb meth_ urib qb pb verb (mk_state m sh hm a s)
    = Some (signature_of K Sk ts mt uri (default [] q) p ver ++ 0 :: r, mk_state m [] hm' a s) /\ zlen r = zlen sig - 65.
Proof.
  intros Hkeys Hsk (h & mr & Hmeth) Hsize (Hts & tr & ->) (Huri & ur & ->) (Hver & vr & ->) Hq Hp Hsig. unfold sign.
  erewrite bind_run by done. erewrite bind_run by done. erewrite bind_run by (apply lift_run; exact Hsize).
  erewrite bind_run by (by eapply string_at_ok). erewrite bind_run by (by apply sha256_chunk_ok).
  erewrite bind_run by (by apply (sha256_chunk_ok _ _ _ _ _ [10] [0])). erewrite bind_run by (by apply sha256_str_ok).
  erewrite bind_run by (by apply (sha256_chunk_ok _ _ _ _ _ [10] [0])).
  set (req := (((([] ++ mt) ++ [10]) ++ uri) ++ [10])).
  assert (Eq : (match qb with Some q => sha256_str q | None => mret tt end) (mk_state m req hm a s) = Some (tt, mk_state m (req ++ default [] q) hm a s)).
  { destruct Hq as [b s' (Hs' & r & ->) |]; [by apply sha256_str_ok | cbn [default from_option]; by rewrite app_nil_r]. }
  erewrite bind_run by exact Eq. clear Eq. destruct (payload_hash_ok pb p (mk_state m (req ++ default [] q) hm a s) Hp) as (r1 & E1 & Hr1 & Hl1).
  erewrite bind_run by exact E1. erewrite bind_run by (by apply sha256_chunk_ok).
  destruct (chunk_split 34 32) as (x & y & Ex & Hx & Hy); [lia|]. rewrite Ex. erewrite bind_run by (by apply sha256_fin_ok).
  set (cr := canonical_request mt uri (default [] q) (payload_hash p)).
  assert (Ecr : (req ++ default [] q) ++ payload_hash p = cr) by (unfold cr, canonical_request, req, NL; by rewrite <- !app_assoc). rewrite Ecr.
  destruct (hex_digest_ok (payload_hash p ++ 0 :: r1) (SHA256 cr) y (SHA256_digest cr)) as (r2 & E2 & _); [rewrite zlen_app, zlen_cons; lia|].
  erewrite bind_run by (apply lift_run; exact E2). destruct (hexes_digest _ (SHA256_digest cr)) as [Hc2 Hl2].
  destruct (secret_key_str_ok m [] hm a s K Sk Hkeys) as (rs & Es). erewrite bind_run by exact Es.
  pose proof Hkeys as [(_ & HK & _) (_ & HS & _)]. erewrite bind_run by (apply lift_run; by apply cstr_app).
  pose proof (zlen_nonneg Sk). destruct (chunk_split 128 (zlen Sk + 1)) as (x1 & y1 & Ex1 & Hx1 & Hy1); [lia|]. rewrite Ex1.
  erewrite bind_run by (apply lift_run; apply wrn_app_0; rewrite zlen_app; change (zlen [0]) with 1; lia).
  destruct (api_key_str_ok m [] hm a s K Sk Hkeys) as (rk & Ek). erewrite bind_run by exact Ek.
  erewrite bind_run by (apply lift_run; by apply strlen_cstr). rewrite <- app_assoc. change ([0] ++ y1) with (0 :: y1).
  erewrite bind_run by (apply lift_run; by apply strlen_cstr).
  destruct (chunk_split 128 32) as (x2 & y2 & Ex2 & Hx2 & Hy2); [lia|]. rewrite <- Ex1, Ex2.
  erewrite bind_run by (apply lift_run; by apply hmac256_ok).
  assert (Hlen : zlen (Sk ++ 0 :: y1) = 128) by (rewrite zlen_app, zlen_cons; lia).
  destruct (hex_encode_digest (Sk ++ 0 :: y1) (HMAC256 K Sk) y2 (HMAC256_digest K Sk)) as (r3 & E3 & Hr3); [lia|]. rewrite Hlen in Hr3.
  erewrite bind_run by (apply lift_run; exact E3). destruct (hexes_digest _ (HMAC256_digest K Sk)) as [_ Hl3].
  erewrite bind_run by (apply lift_run; by apply strlen_cstr).
  erewrite bind_run by (apply lift_run; apply hmac256_ok; [apply HMAC256_digest | done | by rewrite Hl3]).
  destruct (hex_encode_digest (hexes (HMAC256 K Sk) ++ 0 :: r3) (HMAC256 ts (hexes (HMAC256 K Sk))) y2 (HMAC256_digest _ _)) as (r4 & E4 & Hr4); [rewrite zlen_app, zlen_cons; lia|].
  erewrite bind_run by (apply lift_run; exact E4). destruct (hexes_digest _ (HMAC256_digest ts (hexes (HMAC256 K Sk)))) as [_ Hl4].
  rewrite zlen_app, zlen_cons in Hr4.
  erewrite bind_run by (apply lift_run; by apply strlen_cstr).
  erewrite bind_run by (apply lift_run; apply hmac256_ok; [apply HMAC256_digest | done | by rewrite Hl4]).
  destruct (hex_encode_digest (hexes (HMAC256 ts (hexes (HMAC256 K Sk))) ++ 0 :: r4) (HMAC256 ver (hexes (HMAC256 ts (hexes (HMAC256 K Sk))))) y2 (HMAC256_digest _ _)) as (r5 & E5 & _); [rewrite zlen_app, zlen_cons; lia|].
  erewrite bind_run by (apply lift_run; exact E5). destruct (hexes_digest _ (HMAC256_digest ver (hexes (HMAC256 ts (hexes (HMAC256 K Sk)))))) as [_ Hl5].
  fold (signing_key K Sk ts ver) in *.
  erewrite bind_run by (apply hmac256_init_ok; by rewrite Hl5). erewrite bind_run by (by apply hmac256_chunk_ok).
  erewrite bind_run by (by apply (hmac256_chunk_ok _ _ _ _ _ _ [10] [0])). 
  destruct (api_key_str_ok m [] (signing_key K Sk ts ver, ([] ++ hexes (SHA256 cr)) ++ [10]) a s K Sk Hkeys) as (rk' & Ek'). erewrite bind_run by exact Ek'.
  erewrite bind_run by (by apply hmac256_str_ok). erewrite bind_run by (by apply (hmac256_chunk_ok _ _ _ _ _ _ [10] [0])).
  erewrite bind_run by (by apply hmac256_str_ok). erewrite bind_run by (by apply (hmac256_chunk_ok _ _ _ _ _ _ [10] [0])).
  erewrite bind_run by (by apply hmac256_str_ok).
  erewrite bind_run by (apply hmac256_fin_ok; apply HMAC256_digest).
  set (d := HMAC256 _ _). destruct (hex_encode_digest sig d y2 (HMAC256_digest _ _) Hsig) as (r6 & E6 & Hr6).
  eexists _, r6. split; [|exact Hr6]. unfold lift. rewrite E6. cbn [mbind option_bind]. unfold signature_of, NL. fold cr. unfold d. cbn [app]. rewrite <- !app_assoc. done.
Qed.
End parts.
End Crypt.
