(* ===== verification/GatewaySign.v ===== *)
(** src/src/arrow/gateway_payload_sign.c (STATIC_MQTT_ENV undefined): the signature of
    an event. JSON trees are values; the lines of the canonical form are blocks of the
    heap, which [qsort] orders by their strings. *)
From stdpp Require Import sorting.
From S2P Require Import Prelude StateM Property PropMap PropOwn Double Sb JsonParse ArrowUtf8 HttpClient HttpExchange Crypt.

Module GatewaySign.
Import StateM Property PropMap PropOwn Double JsonParse Utf8 Crypt.

Definition MAX_PARAM_LINE : Z := 20.

(** [tolower] of a [char], which is signed: defined on ASCII and on EOF. *)
Definition tolower (c : Z) : option Z :=
  if c <? 128 then Some (if (65 <=? c) && (c <=? 90) then c + 32 else c) else if c =? 255 then Some 255 else None.

(** [strcmp(a, b) <= 0] *)
Fixpoint str_leb (a b : list Z) : bool :=
  match a, b with
  | [], _ => true
  | _ :: _, [] => false
  | x :: a', y :: b' => (x <? y) || ((x =? y) && str_leb a' b')
  end.
Definition str_le (a b : list Z) : Prop := str_leb a b = true.
#[export] Instance str_le_dec : RelDecision str_le := fun a b => bool_dec (str_leb a b) true.

Definition mem_str (m : memory) (p : Z) : option (list Z) := b ← bytes_at m p; cstr b.

(** [qsort] with [cmpstringp]: the pointers in the order of their strings. *)
Definition by_text (x y : list Z * Z) : Prop := str_le x.1 y.1.
#[export] Instance by_text_dec : RelDecision by_text := fun x y => str_le_dec x.1 y.1.
Definition qsort (m : memory) (l : list Z) : option (list Z) :=
  ts ← mapM (mem_str m) l; Some (map snd (merge_sort by_text (zip ts l))).

Section sign.
Context (malloc : memory -> Z -> option (Z * list Z)).
(** [number_] of a node that is not a number: the bytes of another member of the union. *)
Context (union_number : JsonNode -> double).

Definition number_ (j : JsonNode) : double := match j with JNumber d => d | _ => union_number j end.

(** [json_first_child] and the nodes behind it, with [json_key], which is NULL in an array. *)
Definition children (j : JsonNode) : list (option (list Z) * JsonNode) :=
  match j with
  | JObject ms => map (fun kv => (Some kv.1, kv.2)) ms
  | JArray els => map (fun c => (None, c)) els
  | _ => []
  end.

(** [strcat(p, s)] *)
Definition mem_strcat (m : memory) (p : Z) (s : list Z) : option memory :=
  b ← bytes_at m p; n ← strlen b; store_bytes m p n (s ++ [0]).

Definition free_all (m : memory) (l : list Z) : option memory := fold_opt (fun p m => mem_free m p) l m.

(** One line: the key in lower case, and the value behind [i] characters. *)
Definition put_value (m : memory) (p i : Z) (child : JsonNode) : option memory :=
  match child with
  | JString s => s ← s; store_bytes m p (i + 1) (s ++ [0])
  | JBool b => store_bytes m p (i + 1) (lit (if b then "true" else "false") ++ [0])
  | _ =>
      let text := fmt_f (number_ child) in
      m ← store_bytes m p (i + 1) (take 49 text ++ [0]);
      store_bytes m p (i + 1 + zlen text) [0]
  end.

(** The loop over the parameters; a block that was not got ends it. *)
Fixpoint lines_loop (m : memory) (can_list : list Z) (total_len : Z) (l : list (option (list Z) * JsonNode)) : option (memory * list Z * Z * bool) :=
  match l with
  | [] => Some (m, can_list, total_len, true)
  | (key, child) :: l' =>
      alloc_len ← match child with JString s => s ← s; Some (zlen s) | _ => Some 50 end;
      key ← key;
      let alloc_len := alloc_len + zlen key + 10 in
      if MAX_PARAM_LINE <=? zlen can_list then None else
      match malloc m alloc_len with
      | None => Some (m, can_list, total_len, false)
      | Some (p, b) =>
          let m := <[p := (true, b)]> m in
          low ← mapM tolower key;
          m ← store_bytes m p 0 low;
          m ← store_bytes m p (zlen key) [61];
          m ← put_value m p (zlen key) child;
          lines_loop m (can_list ++ [p]) (total_len + alloc_len) l'
      end
  end.

(** The loop that joins the lines; the last one has no newline behind it. *)
Fixpoint join_loop (m : memory) (canParam : Z) (l : list Z) : option memory :=
  match l with
  | [] => Some m
  | p :: l' =>
      s ← mem_str m p;
      m ← mem_strcat m canParam s;
      m ← match l' with [] => Some m | _ => mem_strcat m canParam [10] end;
      m ← mem_free m p;
      join_loop m canParam l'
  end.

Definition form_canonical_prm (m : memory) (param : JsonNode) : option (memory * Z) :=
  '(m, can_list, total_len, ok) ← lines_loop m [] 0 (children param);
  if negb (ok : bool) then m ← free_all m can_list; Some (m, NULL) else
  match malloc m total_len with
  | None => m ← free_all m can_list; Some (m, NULL)
  | Some (canParam, b) =>
      let m := <[canParam := (true, b)]> m in
      m ← store_bytes m canParam 0 [0];
      can_list ← qsort m can_list;
      m ← join_loop m canParam can_list;
      Some (m, canParam)
  end.

Context `{Hashes} `{HttpClient.Buffers}.
Context (api_key secret_key default_api_key default_secret_key : Z).
Context (restore_key_setting : memory -> Z -> Z -> Z * memory).
Abbreviation chunk := HttpClient.chunk.
Abbreviation api_key_str := (api_key_str api_key default_api_key restore_key_setting).
Abbreviation secret_key_str := (secret_key_str secret_key default_secret_key restore_key_setting).

(** Returns (rc, signature); USE_HEAP is not defined, so the chunks are arrays. *)
Definition gateway_payload_sign (signature hid name : list Z) (encrypted : bool) (canParString signatureVersion : list Z) : M (Z * list Z) :=
  _ ← sha256_init;
  _ ← sha256_str hid;
  _ ← sha256_chunk [10; 0] 1;
  _ ← sha256_str name;
  _ ← sha256_chunk [10; 0] 1;
  _ ← (if encrypted then sha256_chunk (lit "true" ++ [10; 0]) 5 else sha256_chunk (lit "false" ++ [10; 0]) 6);
  _ ← sha256_str canParString;
  _ ← sha256_chunk [10; 0] 1;
  tmp ← sha256_fin (chunk 34);
  hex_canreq ← lift (hex_digest (chunk 66) tmp);
  key ← api_key_str;
  n ← lift (strlen key);
  sec ← secret_key_str;
  k ← lift (strlen sec);
  tmp ← lift (hmac256 tmp key n sec k);
  hex_tmp ← lift (hex_digest (chunk 66) tmp);
  let tmp := replicate 34 0 in
  n ← lift (strlen signatureVersion);
  k ← lift (strlen hex_tmp);
  tmp ← lift (hmac256 tmp signatureVersion n hex_tmp k);
  hex_tmp ← lift (hex_digest hex_tmp tmp);
  k ← lift (strlen hex_tmp);
  _ ← hmac256_init hex_tmp k;
  _ ← hmac256_str hex_canreq;
  _ ← hmac256_chunk [10; 0] 1;
  key ← api_key_str;
  _ ← hmac256_str key;
  _ ← hmac256_chunk [10; 0] 1;
  _ ← hmac256_str signatureVersion;
  tmp ← hmac256_fin tmp;
  signature ← lift (hex_digest signature tmp);
  mret (0, signature).

(** Returns (rc, signature). *)
Definition arrow_event_sign (signature ghid name : list Z) (encrypted : bool) (parameters : JsonNode) : M (Z * list Z) :=
  m ← get_mem;
  r ← lift (form_canonical_prm m parameters);
  _ ← put_mem r.1;
  if r.2 =? NULL then mret (-1, signature) else
  can ← string_at r.2;
  x ← gateway_payload_sign signature ghid name encrypted can (lit "1" ++ [0]);
  if x.1 <? 0 then mret (-1, x.2) else
  m ← get_mem;
  m ← lift (mem_free m r.2);
  _ ← put_mem m;
  mret (0, x.2).

End sign.

(** ** The order of strings *)

#[export] Instance str_le_total : Total str_le.
Proof.
  intros a. induction a as [|x a IH]; intros [|y b]; unfold str_le in *; cbn [str_leb]; try (by left); try (by right).
  rewrite !orb_true_iff, !andb_true_iff, !Z.ltb_lt, !Z.eqb_eq. destruct (IH b), (Z.lt_trichotomy x y) as [? | [? | ?]]; auto.
Qed.

#[export] Instance str_le_trans : Transitive str_le.
Proof.
  intros a. induction a as [|x a IH]; intros [|y b] [|z c]; unfold str_le in *; cbn [str_leb]; try done.
  rewrite !orb_true_iff, !andb_true_iff, !Z.ltb_lt, !Z.eqb_eq. intros [? | [-> ?]] [? | [-> ?]]; [left; lia | by left | by left | right; split; [done | by apply (IH b)]].
Qed.

#[export] Instance str_le_antisymm : AntiSymm (=) str_le.
Proof.
  intros a. induction a as [|x a IH]; intros [|y b]; unfold str_le in *; cbn [str_leb]; try done.
  rewrite !orb_true_iff, !andb_true_iff, !Z.ltb_lt, !Z.eqb_eq. intros [? | [-> ?]] [? | [? ?]]; try lia. f_equal. by apply IH.
Qed.

#[export] Instance by_text_total : Total by_text.
Proof. intros x y. apply str_le_total. Qed.

Definition sort_lines (ts : list (list Z)) : list (list Z) := merge_sort str_le ts.

#[export] Instance sort_lines_perm : Proper ((≡ₚ) ==> (=)) sort_lines.
Proof.
  intros a b E. apply (Sorted_unique str_le); [apply (Sorted_merge_sort str_le).. |]. unfold sort_lines. by rewrite !merge_sort_Permutation.
Qed.

(** Sorting pointers by their strings sorts the strings. *)
Lemma sort_by_text (l : list (list Z * Z)) : map fst (merge_sort by_text l) = sort_lines (map fst l).
Proof.
  apply (Sorted_unique str_le); [| apply (Sorted_merge_sort str_le) |].
  - pose proof (Sorted_merge_sort by_text l) as Hs. induction Hs as [|x s Hs IH Hx]; cbn [map]; constructor; [done|].
    destruct Hx as [|y s Hy]; cbn [map]; constructor. exact Hy.
  - unfold sort_lines. rewrite (merge_sort_Permutation str_le). apply fmap_Permutation, merge_sort_Permutation.
Qed.

(** A pointer to a string in a block of the heap. *)
Definition line_at (m : memory) (p : Z) (t : list Z) : Prop := p <> NULL /\ is_cstr t /\ exists r, m !! p = Some (true, t ++ 0 :: r).

Lemma mem_str_line m p t : line_at m p t -> mem_str m p = Some t.
Proof. intros (_ & Ht & r & Hm). unfold mem_str, bytes_at. rewrite Hm. cbn [mbind option_bind]. by apply cstr_app. Qed.

Lemma qsort_ok m ps ts : Forall2 (line_at m) ps ts ->
  exists qs, qsort m ps = Some qs /\ qs ≡ₚ ps /\ Forall2 (line_at m) qs (sort_lines ts).
Proof.
  intros Hf. assert (E : mapM (mem_str m) ps = Some ts).
  { apply mapM_Some. eapply Forall2_impl; [exact Hf|]. intros p t. apply mem_str_line. }
  unfold qsort. rewrite E. cbn [mbind option_bind]. pose proof (Forall2_length _ _ _ Hf) as Hl.
  pose proof (merge_sort_Permutation by_text (zip ts ps)) as Hp. eexists. split; [done|]. split.
  - change (map snd) with (fmap (M := list) (@snd (list Z) Z)). rewrite Hp. by rewrite snd_zip by lia.
  - assert (Hall : Forall (fun x => line_at m x.2 x.1) (merge_sort by_text (zip ts ps))).
    { rewrite Hp. clear -Hf. induction Hf as [|p t ps ts H _ IH]; constructor; [exact H | exact IH]. }
    pose proof (sort_by_text (zip ts ps)) as Hs. replace (map fst (zip ts ps)) with ts in Hs by (symmetry; apply fst_zip; lia). rewrite <- Hs.
    clear -Hall. induction Hall as [|x l H _ IH]; cbn [map]; constructor; [exact H | exact IH].
Qed.

(** ** The canonical form *)

Fixpoint join (ts : list (list Z)) : list Z :=
  match ts with [] => [] | [t] => t | t :: ts' => t ++ 10 :: join ts' end.

Lemma joined_cstr ts : Forall is_cstr ts -> is_cstr (join ts).
Proof.
  induction 1 as [|t ts Ht _ IH]; [constructor|]. destruct ts as [|u ts]; [done|]. change (join (t :: u :: ts)) with (t ++ 10 :: join (u :: ts)).
  apply Forall_app. split; [done|]. constructor; [lia | exact IH].
Qed.

Lemma mem_strcat_ok m c cur r s : is_cstr cur -> zlen s <= zlen r -> exists r', mem_strcat (<[c := (true, cur ++ 0 :: r)]> m) c s = Some (<[c := (true, (cur ++ s) ++ 0 :: r')]> m) /\ zlen r' = zlen r - zlen s.
Proof.
  intros Hc Hs. exists (drop (length s) r). split; [|zl]. unfold mem_strcat. rewrite bytes_at_insert. cbn [mbind option_bind]. rewrite strlen_cstr by done. cbn [mbind option_bind].
  rewrite store_bytes_insert, wrn_app; [| done | zl]. cbn [mbind option_bind].
  rewrite length_app. change (length [0]) with 1%nat. rewrite Nat.add_comm. cbn [Nat.add drop]. by rewrite <- !app_assoc.
Qed.

Lemma join_loop_ok c ps ts : forall m cur r, Forall2 (line_at m) ps ts -> NoDup ps -> c ∉ ps -> is_cstr cur -> zlen (join ts) <= zlen r ->
  exists r', join_loop (<[c := (true, cur ++ 0 :: r)]> m) c ps = Some (<[c := (true, (cur ++ join ts) ++ 0 :: r')]> (delete_all ps m)).
Proof.
  revert ts. induction ps as [|p ps IH]; intros ts m cur r Hf Hnd Hc Hcur Hr.
  { inv Hf. exists r. cbn [join_loop join]. by rewrite app_nil_r. }
  inv Hf as [|? t ? ts' Hp Hf']. apply NoDup_cons in Hnd as [Hnin Hnd]. apply not_elem_of_cons in Hc as [Hcp Hc]. pose proof Hp as (Hp0 & Ht & pr & Hm).
  cbn [join_loop]. unfold mem_str, bytes_at. rewrite lookup_insert_ne, Hm by done. cbn [mbind option_bind]. rewrite cstr_app by done. cbn [mbind option_bind].
  assert (Hfree : forall b, mem_free (<[c := b]> m) p = Some (<[c := b]> (delete p m))).
  { intros b. unfold mem_free. rewrite (proj2 (Z.eqb_neq p NULL) Hp0), lookup_insert_ne, Hm by done. cbn [mbind option_bind]. by rewrite delete_insert_ne. }
  destruct ts' as [|u ts'].
  - inv Hf'. cbn [join] in *. destruct (mem_strcat_ok m c cur r t Hcur Hr) as (r1 & E1 & _). rewrite E1. cbn [mbind option_bind]. rewrite Hfree. by exists r1.
  - change (join (t :: u :: ts')) with (t ++ 10 :: join (u :: ts')) in *. rewrite zlen_app, zlen_cons in Hr. pose proof (zlen_nonneg (join (u :: ts'))). pose proof (zlen_nonneg t).
    destruct (mem_strcat_ok m c cur r t Hcur) as (r1 & E1 & Hr1); [lia|]. rewrite E1. cbn [mbind option_bind]. destruct ps as [|q ps]; [by inv Hf'|].
    assert (Hcur1 : is_cstr (cur ++ t)) by by apply Forall_app.
    destruct (mem_strcat_ok m c (cur ++ t) r1 [10] Hcur1) as (r2 & E2 & Hr2); [change (zlen [10]) with 1; lia|]. rewrite E2. cbn [mbind option_bind]. rewrite Hfree. cbn [mbind option_bind].
    change (zlen [10]) with 1 in Hr2.
    destruct (IH (u :: ts') (delete p m) ((cur ++ t) ++ [10]) r2) as (r' & E); [| done | done | | lia |].
    + assert (Hne : forall x, x ∈ q :: ps -> x <> p) by (intros x Hx ->; done). revert Hne. clear -Hf'. intros Hne. induction Hf' as [|x y xs ys Hx _ IHf]; constructor.
      * destruct Hx as (A & B & r & C). split; [done|]. split; [done|]. exists r. rewrite lookup_delete_ne; [done|]. intros ->. apply (Hne x); [by left | done].
      * apply IHf. intros z Hz. apply Hne. by right.
    + apply Forall_app. split; [done|]. by repeat constructor.
    + exists r'. rewrite E. do 2 f_equal; [by rewrite <- !app_assoc|]. change (p :: q :: ps) with ([p] ++ q :: ps). by rewrite delete_all_app, delete_all_comm.
Qed.

(** [%f] prints a string. *)
Lemma fmt_f_cstr d : is_cstr (fmt_f d).
Proof.
  assert (Hpos : forall n k, 0 <= n -> 0 < k -> is_cstr (fmt_f_pos n k)).
  { intros n k Hn Hk. unfold fmt_f_pos. cbv zeta. assert (Hg : 0 <= scaled n k 6).
    { unfold scaled. cbn [Z.leb Z.compare Pos.compare Pos.compare_cont]. change (0 <=? 6) with true. cbv iota. unfold div_even. cbv zeta.
      pose proof (Z.div_pos (n * 10 ^ 6) k ltac:(lia) Hk). bool_cases; lia. }
    apply Forall_app. split; [|constructor; [lia|]].
    - pose proof (pad_dec_cstr 0 (scaled n k 6 / 1000000)) as Hp. unfold pad in Hp. pose proof (zlen_nonneg (dec (scaled n k 6 / 1000000))).
      replace (Z.to_nat (0 - _)) with 0%nat in Hp by lia. apply Hp. apply Z.div_pos; lia.
    - apply pad_dec_cstr. apply Z.mod_pos_bound. lia. }
  destruct d as [[] | [] | | s m e]; cbn [fmt_f]; try (by repeat constructor).
  assert (Ht : is_cstr (if 0 <=? e then fmt_f_pos (Z.pos m * 2 ^ e) 1 else fmt_f_pos (Z.pos m) (2 ^ (- e)))).
  { destruct (Z.leb_spec 0 e); (apply Hpos; [|try lia]); [pose proof (Z.pow_nonneg 2 e ltac:(lia)); nia | lia]. }
  destruct s; [constructor; [lia | exact Ht] | exact Ht].
Qed.

Section lines.
Context (malloc : memory -> Z -> option (Z * list Z)) `{Hmalloc : !Malloc malloc}.
Context (Henough : forall m n, 0 <= n -> malloc m n <> None).
Context (union_number : JsonNode -> double).

Definition ascii_lower (c : Z) : Z := if (65 <=? c) && (c <=? 90) then c + 32 else c.
(** The text of a value; a number is cut off after 49 characters. *)
Definition value_text (j : JsonNode) : list Z :=
  match j with
  | JString s => default [] s
  | JBool b => lit (if b then "true" else "false")
  | _ => take 49 (fmt_f (number_ union_number j))
  end.
Definition param_line (kv : list Z * JsonNode) : list Z := map ascii_lower kv.1 ++ 61 :: value_text kv.2.
(** The parameters as the signature sees them: a line for each, in order of the lines. *)
Definition canonical (ms : list (list Z * JsonNode)) : list Z := join (sort_lines (map param_line ms)).

(** An ASCII key, and a string, or a number whose text is not too long. *)
Definition value_ok (j : JsonNode) : Prop :=
  match j with
  | JString s => exists t, s = Some t /\ is_cstr t
  | JBool _ => True
  | _ => zlen (fmt_f (number_ union_number j)) <= 58
  end.
Definition param_ok (kv : list Z * JsonNode) : Prop := Forall (fun c => 1 <= c < 128) kv.1 /\ value_ok kv.2.

Lemma tolower_ascii k : Forall (fun c => 1 <= c < 128) k -> mapM tolower k = Some (map ascii_lower k) /\ is_cstr (map ascii_lower k).
Proof.
  intros Hk. split.
  - apply mapM_Some. induction Hk as [|c k Hc _ IH]; cbn [map]; constructor; [|exact IH]. unfold tolower. by rewrite (proj2 (Z.ltb_lt c 128)) by lia.
  - induction Hk as [|c k Hc _ IH]; cbn [map]; constructor; [|exact IH]. unfold ascii_lower. bool_cases; bool_to_prop; lia.
Qed.

Lemma value_text_cstr j : value_ok j -> is_cstr (value_text j).
Proof.
  destruct j as [| b | s | d | |]; cbn [value_ok value_text]; try (intros _; apply Forall_take, fmt_f_cstr).
  - intros _. destruct b; by repeat constructor.
  - by intros (t & -> & Ht).
Qed.

(** A string in front of a buffer is kept by a zero behind it. *)
Lemma zero_behind (s r : list Z) i : zlen s <= i < zlen (s ++ 0 :: r) -> exists r', wrn (s ++ 0 :: r) i [0] = Some (s ++ 0 :: r') /\ zlen r' = zlen r.
Proof.
  intros Hi. rewrite zlen_app, zlen_cons in Hi. destruct (Z.eq_dec i (zlen s)) as [-> | Hne].
  - exists r. split; [|done]. by rewrite (wrn_app_split s [0] [0] r).
  - destruct (split_at r (i - zlen s - 1)) as (a & b & -> & Ha); [lia|]. rewrite zlen_app in Hi. destruct b as [|x b]; [change (zlen (@nil Z)) with 0 in Hi; lia|].
    exists (a ++ 0 :: b). split; [|zl]. change (s ++ 0 :: a ++ x :: b) with (s ++ (0 :: a) ++ [x] ++ b). rewrite app_assoc.
    rewrite (wrn_app_split (s ++ 0 :: a) [0] [x] b); [by rewrite <- app_assoc | rewrite zlen_app, zlen_cons; lia | done].
Qed.

Lemma put_value_ok m p (k : list Z) d j : value_ok j -> zlen d = (match j with JString s => zlen (default [] s) | _ => 50 end) + 9 ->
  exists r, put_value union_number (<[p := (true, k ++ [61] ++ d)]> m) p (zlen k) j = Some (<[p := (true, (k ++ 61 :: value_text j) ++ 0 :: r)]> m).
Proof.
  intros Hj Hd. pose proof (value_text_cstr j Hj) as Hc.
  assert (Hput : forall t, zlen t < zlen d -> store_bytes (<[p := (true, k ++ [61] ++ d)]> m) p (zlen k + 1) (t ++ [0]) = Some (<[p := (true, (k ++ 61 :: t) ++ 0 :: drop (S (length t)) d)]> m)).
  { intros t Ht. rewrite store_bytes_insert, app_assoc, wrn_app; [| by rewrite zlen_app | zl]. cbn [mbind option_bind].
    rewrite length_app, Nat.add_comm. cbn [length Nat.add]. by rewrite <- !app_assoc. }
  assert (Hnum : value_ok j -> zlen d = 59 -> (exists x, j = x /\ match x with JString _ | JBool _ => False | _ => True end) ->
    exists r, (m ← store_bytes (<[p := (true, k ++ [61] ++ d)]> m) p (zlen k + 1) (take 49 (fmt_f (number_ union_number j)) ++ [0]);
      store_bytes m p (zlen k + 1 + zlen (fmt_f (number_ union_number j))) [0]) = Some (<[p := (true, (k ++ 61 :: take 49 (fmt_f (number_ union_number j))) ++ 0 :: r)]> m)).
  { intros Hv Hd' (x & <- & Hx). set (f := fmt_f _) in *. assert (Hf : zlen f <= 58) by (by destruct j). pose proof (zlen_nonneg f).
    rewrite Hput by zl. cbn [mbind option_bind]. rewrite store_bytes_insert.
    destruct (zero_behind (k ++ 61 :: take 49 f) (drop (S (length (take 49 f))) d) (zlen k + 1 + zlen f)) as (r & E & _); [zl|]. rewrite E. by exists r. }
  destruct j as [| b | s | x | |]; try (by apply Hnum; [| lia | eexists]).
  - cbn [put_value value_text]. eexists. apply Hput. destruct b; [change (zlen (lit _)) with 4 | change (zlen (lit _)) with 5]; lia.
  - destruct Hj as (t & -> & Ht). cbn [put_value value_text default from_option]. cbn [mbind option_bind]. eexists. apply (Hput t). change (zlen d = zlen t + 9) in Hd. lia.
Qed.

(** The blocks of the lines. *)
Lemma lines_loop_ok ms : forall m0 m ps ts total, grown m0 m (rev ps) -> Forall2 (line_at m) ps ts -> Forall param_ok ms -> zlen ps + zlen ms <= MAX_PARAM_LINE ->
  exists m' ps' total', (forall rest, lines_loop malloc union_number m ps total (map (fun kv => (Some kv.1, kv.2)) ms ++ rest) = lines_loop malloc union_number m' ps' total' rest) /\
    grown m0 m' (rev ps') /\ Forall2 (line_at m') ps' (ts ++ map param_line ms) /\ total + zlen (concat (map param_line ms)) + zlen ms <= total' .
Proof.
  induction ms as [|[k j] ms IH]; intros m0 m ps ts total Hg Hf Hok Hn.
  { exists m, ps, total. cbn [map concat app]. rewrite app_nil_r. split_and!; try done. change (zlen (@nil (list Z * JsonNode))) with 0. change (zlen (@nil Z)) with 0. lia. }
  apply Forall_cons in Hok as [[Hk Hj] Hok]. cbn [fst snd] in Hk, Hj. rewrite zlen_cons in Hn. pose proof (zlen_nonneg ms). destruct (tolower_ascii k Hk) as [Elow Hlow].
  cbn [map fst snd]. set (n := match j with JString s => zlen (default [] s) | _ => 50 end).
  assert (En : match j with JString s => s ← s; Some (zlen s) | _ => Some 50 end = Some n) by (unfold n; destruct j; try done; by destruct Hj as (t & -> & _)).
  assert (Hn0 : 0 <= n) by (unfold n; destruct j; try lia; apply zlen_nonneg). pose proof (zlen_nonneg k).
  destruct (malloc m (n + zlen k + 10)) as [[p b]|] eqn:Em; [|by apply Henough in Em; [|lia]]. destruct (malloc_fresh _ _ _ _ Em) as [Hp Hp0]. pose proof (malloc_size _ _ _ _ Em) as Hb.
  assert (Hlk : zlen (map ascii_lower k) = zlen k) by zl.
  destruct (split_at b (zlen k)) as (b1 & b2 & -> & Hb1); [lia|]. rewrite zlen_app in Hb.
  destruct b2 as [|x d]; [change (zlen (@nil Z)) with 0 in Hb; lia|]. rewrite zlen_cons in Hb.
  destruct (put_value_ok m p (map ascii_lower k) d j Hj) as (r & E); [fold n; lia|].
  set (m1 := <[p := (true, (map ascii_lower k ++ 61 :: value_text j) ++ 0 :: r)]> m) in E. assert (Hg1 : grown m m1 [p]) by by apply grown_insert.
  assert (Estep : forall rest, lines_loop malloc union_number m ps total ((Some k, j) :: rest) = lines_loop malloc union_number m1 (ps ++ [p]) (total + (n + zlen (map ascii_lower k) + 10)) rest).
  { intros rest. cbn [lines_loop]. rewrite En. cbn [mbind option_bind]. rewrite (proj2 (Z.leb_gt MAX_PARAM_LINE (zlen ps))) by lia. rewrite Em, Elow. cbn [mbind option_bind].
    rewrite store_bytes_insert, wrn_app_0 by lia. cbn [mbind option_bind]. rewrite store_bytes_insert. change (map ascii_lower k ++ x :: d) with (map ascii_lower k ++ [x] ++ d).
    rewrite (wrn_app_split _ [61] [x] d) by (done || lia). cbn [mbind option_bind]. rewrite <- Hlk. by rewrite E. }
  destruct (IH m0 m1 (ps ++ [p]) (ts ++ [param_line (k, j)]) (total + (n + zlen (map ascii_lower k) + 10))) as (m' & ps' & total' & E' & Hg' & Hf' & Ht'); try done.
  - rewrite rev_app_distr. exact (grown_trans _ _ _ _ _ Hg Hg1).
  - apply Forall2_app.
    + eapply Forall2_impl; [exact Hf|]. intros q t (A & B & r' & C). split; [done|]. split; [done|]. exists r'. unfold m1. rewrite lookup_insert_ne; [done|]. intros ->. congruence.
    + constructor; [|constructor]. split; [done|]. split; [|eexists; apply lookup_insert_eq]. apply Forall_app. split; [done|]. constructor; [lia | by apply value_text_cstr].
  - rewrite zlen_app. change (zlen [p]) with 1. lia.
  - exists m', ps', total'. split; [intros rest; cbn [app]; by rewrite Estep, E'|]. split; [done|]. split; [by rewrite <- app_assoc in Hf'|]. cbn [concat map]. rewrite zlen_app, zlen_cons. unfold param_line at 1. rewrite zlen_app, zlen_cons. cbn [fst snd].
    assert (zlen (value_text j) <= n + 5); [|lia]. unfold n, value_text. destruct j as [|[]| | | |]; first [zl | by vm_compute].
Qed.

Lemma join_length ts : ts <> [] -> zlen (join ts) + 1 = zlen (concat ts) + zlen ts.
Proof.
  induction ts as [|t ts IH]; [done|]. intros _. destruct ts as [|u ts]; [cbn [join concat]; rewrite app_nil_r; done|].
  change (join (t :: u :: ts)) with (t ++ 10 :: join (u :: ts)). change (concat (t :: u :: ts)) with (t ++ concat (u :: ts)). rewrite !zlen_app, !(zlen_cons _ (_ :: _)), (zlen_cons 10).
  specialize (IH ltac:(done)). lia.
Qed.

Lemma sort_lines_spec ts : sort_lines ts ≡ₚ ts.
Proof. apply merge_sort_Permutation. Qed.

Lemma sort_join ts : ts <> [] -> zlen (join (sort_lines ts)) + 1 = zlen (concat ts) + zlen ts.
Proof.
  intros Hne. pose proof (sort_lines_spec ts) as Hp. rewrite join_length.
  - unfold zlen. by rewrite Hp.
  - intros E. rewrite E in Hp. by apply Permutation_nil in Hp.
Qed.

Lemma canonical_cstr ms : Forall param_ok ms -> is_cstr (canonical ms).
Proof.
  intros Hok. apply joined_cstr. rewrite sort_lines_spec. rewrite Forall_fmap. eapply Forall_impl; [exact Hok|]. intros [k j] [Hk Hj].
  apply Forall_app. split; [by apply tolower_ascii|]. constructor; [lia | by apply value_text_cstr].
Qed.

(** The canonical form is a new block, and the blocks of the lines are gone. *)
Lemma form_canonical_prm_ok m ms : ms <> [] -> Forall param_ok ms -> zlen ms <= MAX_PARAM_LINE ->
  exists c r, form_canonical_prm malloc union_number m (JObject ms) = Some (<[c := (true, canonical ms ++ 0 :: r)]> m, c) /\ m !! c = None /\ c <> NULL.
Proof.
  intros Hne Hok Hn. destruct (lines_loop_ok ms m m [] [] 0 (grown_nil m)) as (m1 & ps & total & E & Hg & Hf & Ht); [constructor | done | done |].
  cbn [app] in Hf. specialize (E []). rewrite app_nil_r in E. unfold form_canonical_prm. cbn [children]. rewrite E. cbn [lines_loop mbind option_bind negb].
  assert (Hne' : map param_line ms <> []) by by destruct ms. pose proof (sort_join _ Hne') as Hj. pose proof (zlen_nonneg (join (sort_lines (map param_line ms)))).
  assert (Hlen : zlen (map param_line ms) = zlen ms) by zl.
  destruct (malloc m1 total) as [[c b]|] eqn:Em; [|by apply Henough in Em; [|lia]]. destruct (malloc_fresh _ _ _ _ Em) as [Hc Hc0]. pose proof (malloc_size _ _ _ _ Em) as Hb.
  destruct b as [|x b]; [change (zlen (@nil Z)) with 0 in Hb; lia|]. rewrite zlen_cons in Hb. rewrite store_bytes_insert. change (x :: b) with ([x] ++ b). rewrite wrn_app_0 by done. cbn [mbind option_bind].
  change ([0] ++ b) with ([] ++ 0 :: b). set (m2 := <[c := _]> m1).
  assert (Hcps : c ∉ ps). { intros Hin. destruct (g_live _ _ _ Hg c) as [y Hy]; [by rewrite <- Permutation_rev | congruence]. }
  assert (Hf2 : Forall2 (line_at m2) ps (map param_line ms)).
  { eapply Forall2_impl; [exact Hf|]. intros p t (A & B & r & C). split; [done|]. split; [done|]. exists r. unfold m2. rewrite lookup_insert_ne; [done|]. intros ->. congruence. }
  destruct (qsort_ok m2 ps _ Hf2) as (qs & Eq & Hqp & Hfq). rewrite Eq. cbn [mbind option_bind].
  assert (Hfq1 : Forall2 (line_at m1) qs (sort_lines (map param_line ms))).
  { assert (Hcq : c ∉ qs) by by rewrite Hqp. revert Hcq. clear -Hfq. induction Hfq as [|p t qs' ts' Hp _ IH]; intros Hc; constructor.
    - destruct Hp as (A & B & r & C). split; [done|]. split; [done|]. exists r. unfold m2 in C. rewrite lookup_insert_ne in C; [done|]. intros ->. apply Hc. by left.
    - apply IH. intros Hin. apply Hc. by right. }
  destruct (join_loop_ok c qs _ m1 [] b Hfq1) as (r & Ej).
  - rewrite Hqp. rewrite (Permutation_rev ps). apply Hg.
  - by rewrite Hqp.
  - constructor.
  - lia.
  - unfold m2. rewrite Ej. cbn [mbind option_bind]. exists c, r. cbn [app]. split; [|split; [|done]].
    + do 3 f_equal. rewrite <- (g_back _ _ _ Hg). apply delete_all_perm; [|done]. by rewrite Hqp, <- Permutation_rev.
    + destruct (m !! c) eqn:Ec; [|done]. rewrite (g_same _ _ _ Hg c) in Hc by (by eexists). congruence.
Qed.

Context `{Digests} `{HttpClient.Buffers}.
Context (api_key secret_key default_api_key default_secret_key : Z).
Context (restore_key_setting : memory -> Z -> Z -> Z * memory).

(** ** The signature of an event *)

Definition event_request (hid name : list Z) (encrypted : bool) (can : list Z) : list Z :=
  hid ++ NL ++ name ++ NL ++ lit (if encrypted then "true" else "false") ++ NL ++ can ++ NL.
Definition event_signature (K Sk hid name : list Z) (encrypted : bool) (can ver : list Z) : list Z :=
  hexes (HMAC256 (hexes (HMAC256 ver (hexes (HMAC256 K Sk))))
    (hexes (SHA256 (event_request hid name encrypted can)) ++ NL ++ K ++ NL ++ ver)).

Lemma gateway_payload_sign_ok m sh hm a s K Sk sig hid hb name nb enc can cb ver vb : keys_ok default_api_key default_secret_key m a s K Sk ->
  c_string hid hb -> c_string name nb -> c_string can cb -> c_string ver vb -> 64 < zlen sig ->
  exists hm' r, gateway_payload_sign api_key secret_key default_api_key default_secret_key restore_key_setting sig hb nb enc cb vb (mk_state m sh hm a s)
    = Some ((0, event_signature K Sk hid name enc can ver ++ 0 :: r), mk_state m [] hm' a s) /\ zlen r = zlen sig - 65.
Proof.
  intros Hkeys (Hh & hr & ->) (Hname & nr & ->) (Hcan & cr & ->) (Hver & vr & ->) Hsig. unfold gateway_payload_sign.
  erewrite bind_run by done. erewrite bind_run by (by apply sha256_str_ok). erewrite bind_run by (by apply (sha256_chunk_ok _ _ _ _ _ [10] [0])).
  erewrite bind_run by (by apply sha256_str_ok). erewrite bind_run by (by apply (sha256_chunk_ok _ _ _ _ _ [10] [0])).
  set (req := (((([] ++ hid) ++ [10]) ++ name) ++ [10])).
  assert (Ee : (if enc then sha256_chunk (lit "true" ++ [10; 0]) 5 else sha256_chunk (lit "false" ++ [10; 0]) 6) (mk_state m req hm a s)
    = Some (tt, mk_state m (req ++ (lit (if enc then "true" else "false") ++ [10])) hm a s)).
  { destruct enc; [apply (sha256_chunk_ok _ _ _ _ _ (lit "true" ++ [10]) [0]) | apply (sha256_chunk_ok _ _ _ _ _ (lit "false" ++ [10]) [0])]; done. }
  erewrite bind_run by exact Ee. clear Ee. erewrite bind_run by (by apply sha256_str_ok). erewrite bind_run by (by apply (sha256_chunk_ok _ _ _ _ _ [10] [0])).
  destruct (chunk_split 34 32) as (x & y & Ex & Hx & Hy); [lia|]. rewrite Ex. erewrite bind_run by (by apply sha256_fin_ok).
  set (er := event_request hid name enc can). assert (Er : (((req ++ lit (if enc then "true" else "false") ++ [10]) ++ can) ++ [10]) = er).
  { unfold er, event_request, req, NL. by rewrite <- !app_assoc. }
  rewrite Er. destruct (hex_digest_ok (HttpClient.chunk 66) (SHA256 er) y (SHA256_digest er)) as (r2 & E2 & Hr2); [rewrite HttpClient.chunk_size; lia|]. rewrite HttpClient.chunk_size in Hr2 by lia.
  erewrite bind_run by (apply lift_run; exact E2). destruct (hexes_digest _ (SHA256_digest er)) as [Hc2 Hl2].
  destruct (api_key_str_ok api_key default_api_key default_secret_key restore_key_setting m [] hm a s K Sk Hkeys) as (rk & Ek). erewrite bind_run by exact Ek.
  pose proof Hkeys as [(_ & HK & _) (_ & HS & _)]. erewrite bind_run by (apply lift_run; by apply strlen_cstr).
  destruct (secret_key_str_ok secret_key default_api_key default_secret_key restore_key_setting m [] hm a s K Sk Hkeys) as (rs & Es). erewrite bind_run by exact Es.
  erewrite bind_run by (apply lift_run; by apply strlen_cstr). erewrite bind_run by (apply lift_run; apply hmac256_ok; [apply SHA256_digest | done | done]).
  destruct (hex_digest_ok (HttpClient.chunk 66) (HMAC256 K Sk) y (HMAC256_digest K Sk)) as (r3 & E3 & Hr3); [rewrite HttpClient.chunk_size; lia|]. rewrite HttpClient.chunk_size in Hr3 by lia.
  erewrite bind_run by (apply lift_run; exact E3). destruct (hexes_digest _ (HMAC256_digest K Sk)) as [Hc3 Hl3].
  cbv zeta. erewrite bind_run by (apply lift_run; by apply strlen_cstr). erewrite bind_run by (apply lift_run; by apply strlen_cstr).
  set (k1 := hexes (HMAC256 K Sk)) in *.
  erewrite bind_run by (apply lift_run; by apply (hmac256_ok (replicate 32 0) [0; 0])).
  destruct (hex_digest_ok (k1 ++ 0 :: r3) (HMAC256 ver k1) [0; 0] (HMAC256_digest ver k1)) as (r4 & E4 & Hr4); [rewrite zlen_app, zlen_cons; lia|].
  erewrite bind_run by (apply lift_run; exact E4). destruct (hexes_digest _ (HMAC256_digest ver k1)) as [Hc4 Hl4].
  erewrite bind_run by (apply lift_run; by apply strlen_cstr). erewrite bind_run by (by apply hmac256_init_ok). erewrite bind_run by (by apply hmac256_str_ok).
  erewrite bind_run by (by apply (hmac256_chunk_ok _ _ _ _ _ _ [10] [0])).
  destruct (api_key_str_ok api_key default_api_key default_secret_key restore_key_setting m [] (hexes (HMAC256 ver k1), ([] ++ hexes (SHA256 er)) ++ [10]) a s K Sk Hkeys) as (rk' & Ek').
  erewrite bind_run by exact Ek'. erewrite bind_run by (by apply hmac256_str_ok). erewrite bind_run by (by apply (hmac256_chunk_ok _ _ _ _ _ _ [10] [0])).
  erewrite bind_run by (by apply hmac256_str_ok). erewrite bind_run by (apply hmac256_fin_ok; apply HMAC256_digest).
  set (d := HMAC256 _ (_ ++ ver)). destruct (hex_digest_ok sig d [0; 0] (HMAC256_digest _ _) Hsig) as (r6 & E6 & Hr6).
  erewrite bind_run by (apply lift_run; exact E6). eexists _, r6. split; [|exact Hr6]. unfold event_signature, NL, d. fold er k1. cbn [app]. by rewrite <- !app_assoc.
Qed.

Lemma arrow_event_sign_ok m sh hm a s K Sk sig hid hb name nb enc ms : keys_ok default_api_key default_secret_key m a s K Sk ->
  c_string hid hb -> c_string name nb -> ms <> [] -> Forall param_ok ms -> zlen ms <= MAX_PARAM_LINE -> 64 < zlen sig ->
  exists hm' r, arrow_event_sign malloc union_number api_key secret_key default_api_key default_secret_key restore_key_setting sig hb nb enc (JObject ms) (mk_state m sh hm a s)
    = Some ((0, event_signature K Sk hid name enc (canonical ms) (lit "1") ++ 0 :: r), mk_state m [] hm' a s).
Proof.
  intros Hkeys Hh Hname Hne Hok Hn Hsig.
  destruct (form_canonical_prm_ok m ms Hne Hok Hn) as (c & r & E & Hc & Hc0). unfold arrow_event_sign.
  erewrite bind_run by done. erewrite bind_run by (apply lift_run; exact E). erewrite bind_run by done. cbn [fst snd]. rewrite (proj2 (Z.eqb_neq c NULL) Hc0).
  cbn [put_mem static_sh static_hmac api secret]. set (m1 := <[c := _]> m).
  erewrite bind_run by (eapply string_at_ok; apply lookup_insert_eq).
  destruct (gateway_payload_sign_ok m1 sh hm a s K Sk sig hid hb name nb enc (canonical ms) (canonical ms ++ 0 :: r) (lit "1") (lit "1" ++ [0])) as (hm' & r' & Es & _); try done.
  - apply (keys_ok_same _ _ m); [|done]. intros p h b Hp' _. unfold m1. rewrite lookup_insert_ne; [done|]. intros ->. congruence.
  - split; [by apply canonical_cstr | by eexists].
  - split; [by repeat constructor | by exists []].
  - erewrite bind_run by exact Es. cbn [fst snd]. change (0 <? 0) with false. cbv iota. erewrite bind_run by done.
    assert (Ef : mem_free (mem (mk_state m1 [] hm' a s)) c = Some m).
    { unfold mem_free. rewrite (proj2 (Z.eqb_neq c NULL) Hc0). cbn [mem]. unfold m1. rewrite lookup_insert_eq. cbn [mbind option_bind]. by rewrite delete_insert_eq, delete_id. }
    erewrite bind_run by (apply lift_run; exact Ef). erewrite bind_run by done. by exists hm', r'.
Qed.

(** C16. The signature of an event is HMAC-SHA-256, with a key derived from the
    secret key, the API key and the version, of the hash of its identifier, name,
    flag and parameters, and of API key and version. It does not depend on the
    order of the parameters, and all the memory it took is given back. *)
Theorem arrow_event_sign_spec m sh hm a s K Sk sig hid hb name nb enc ms ms' : keys_ok default_api_key default_secret_key m a s K Sk ->
  c_string hid hb -> c_string name nb -> ms <> [] -> Forall param_ok ms -> zlen ms <= MAX_PARAM_LINE -> ms' ≡ₚ ms -> 64 < zlen sig ->
  exists hm' r, arrow_event_sign malloc union_number api_key secret_key default_api_key default_secret_key restore_key_setting sig hb nb enc (JObject ms') (mk_state m sh hm a s)
    = Some ((0, event_signature K Sk hid name enc (canonical ms) (lit "1") ++ 0 :: r), mk_state m [] hm' a s).
Proof.
  intros Hkeys Hh Hname Hne Hok Hn Hp Hsig. rewrite <- Hp in Hok. assert (Hne' : ms' <> []) by (intros ->; by apply Hne, Permutation_nil).
  assert (Hn' : zlen ms' <= MAX_PARAM_LINE) by (unfold zlen in *; by rewrite Hp).
  assert (Hcan : canonical ms' = canonical ms) by (unfold canonical; by rewrite Hp).
  rewrite <- Hcan. by apply arrow_event_sign_ok.
Qed.

(** C24. The parameters that break the canonical form: none at all, more than
    twenty, and a number whose text has more than 58 characters, which is
    terminated behind its block. *)
Theorem form_canonical_prm_faults m ms : Forall param_ok ms ->
  form_canonical_prm malloc union_number m (JObject []) = None /\
  (MAX_PARAM_LINE < zlen ms -> form_canonical_prm malloc union_number m (JObject ms) = None) /\
  (forall k d rest, zlen ms < MAX_PARAM_LINE -> Forall (fun c => 1 <= c < 128) k -> 58 < zlen (fmt_f d) ->
    form_canonical_prm malloc union_number m (JObject (ms ++ (k, JNumber d) :: rest)) = None).
Proof.
  intros Hok. unfold form_canonical_prm. cbn [children]. split; [|split].
  - cbn [map lines_loop mbind option_bind negb]. destruct (malloc m 0) as [[c b]|] eqn:Em; [|by apply Henough in Em]. apply malloc_size, zlen_0 in Em as ->. by rewrite store_bytes_insert.
  - intros Hn. destruct (split_at ms MAX_PARAM_LINE) as (ms1 & ms2 & -> & Hm1); [unfold MAX_PARAM_LINE in *; lia|]. rewrite zlen_app in Hn. destruct ms2 as [|[k j] ms2]; [change (zlen (@nil (list Z * JsonNode))) with 0 in Hn; lia|].
    apply Forall_app in Hok as [Hok1 Hok2]. apply Forall_cons in Hok2 as [[_ Hj] _]. destruct (lines_loop_ok ms1 m m [] [] 0 (grown_nil m)) as (m1 & ps & total & E & _ & Hf & _); [constructor | done | change (zlen (@nil Z)) with 0; lia|].
    rewrite map_app, E. cbn [map lines_loop fst snd] in *. apply Forall2_length in Hf. cbn [app] in Hf. rewrite length_map in Hf.
    assert (Hps : (MAX_PARAM_LINE <=? zlen ps) = true) by (apply Z.leb_le; unfold zlen in *; lia).
    destruct j as [| | s0 | | |]; cbn [mbind option_bind]; rewrite ?Hps; try done. by destruct Hj as (t & -> & _); cbn [mbind option_bind]; rewrite ?Hps.
  - intros k d rest Hn Hk Hd. destruct (lines_loop_ok ms m m [] [] 0 (grown_nil m)) as (m1 & ps & total & E & _ & Hf & _); [constructor | done | change (zlen (@nil Z)) with 0; lia|].
    rewrite map_app, E. cbn [map lines_loop fst snd mbind option_bind]. apply Forall2_length in Hf. cbn [app] in Hf. rewrite length_map in Hf.
    rewrite (proj2 (Z.leb_gt MAX_PARAM_LINE (zlen ps))) by (unfold zlen in *; lia). destruct (tolower_ascii k Hk) as [-> _]. pose proof (zlen_nonneg k).
    destruct (malloc m1 (50 + zlen k + 10)) as [[p b]|] eqn:Em; [|by apply Henough in Em; [|lia]]. pose proof (malloc_size _ _ _ _ Em) as Hb. cbn [mbind option_bind].
    assert (Hlk : zlen (map ascii_lower k) = zlen k) by zl.
    rewrite store_bytes_insert. destruct (wrn b 0 _) as [b1|] eqn:E1; [|done]. apply wrn_length in E1. cbn [mbind option_bind].
    rewrite store_bytes_insert. destruct (wrn b1 _ _) as [b2|] eqn:E2; [|done]. apply wrn_length in E2. cbn [mbind option_bind put_value number_].
    rewrite store_bytes_insert. destruct (wrn b2 _ _) as [b3|] eqn:E3; [|done]. apply wrn_length in E3. cbn [mbind option_bind].
    rewrite store_bytes_insert. destruct (wrn b3 _ _) as [b4|] eqn:E4; [|done]. exfalso.
    assert (wrn b3 (zlen k + 1 + zlen (fmt_f d)) [0] = None); [|congruence]. apply wrn_None. right. change (zlen [0]) with 1. unfold zlen in *. lia.
Qed.

End lines.

(** ** Witnesses: hashes that fold the bytes, and two keys in memory *)

Definition toy_digest (l : list Z) : list Z := map (fun i => u8 (i + fold_right Z.add 0 l)) (seqZ 0 32).
#[export] Instance toy_hashes : Hashes := { SHA256 := toy_digest; HMAC256 k l := toy_digest (k ++ l) }.
Lemma toy_digest_ok l : digest (toy_digest l).
Proof. split; [|done]. unfold toy_digest. apply Forall_fmap, Forall_true. intros i. apply u8_range. Qed.
#[export] Instance toy_digests : Digests.
Proof. split; intros; apply toy_digest_ok. Qed.

Definition sample_keys : memory := {[ 90 := (false, lit "api" ++ [0]); 91 := (false, lit "secret" ++ [0]) ]}.
Lemma sample_keys_ok : keys_ok 90 91 sample_keys NULL NULL (lit "api") (lit "secret").
Proof. split; (split; [done|]; split; [by repeat constructor|]); by exists []. Qed.

Definition sample_params : list (list Z * JsonNode) := [(lit "Command", JString (Some (lit "go"))); (lit "Arg", JNumber (double_of_Z 2)); (lit "Now", JBool true)].
Definition no_number (j : JsonNode) : double := double_of_Z 0.
Lemma sample_params_ok : Forall (param_ok no_number) sample_params.
Proof.
  assert (Hk : Forall (fun kv => Forall (fun c => 1 <= c < 128) kv.1) sample_params) by (apply (bool_decide_unpack _); by vm_compute).
  unfold sample_params in *. apply Forall_cons in Hk as [H1 Hk]. apply Forall_cons in Hk as [H2 Hk]. apply Forall_cons in Hk as [H3 _].
  apply Forall_cons. split; [|apply Forall_cons; split; [|apply Forall_cons; split; [|constructor]]]; (split; [done|]); cbn [value_ok snd].
  - eexists. split; [done | by repeat constructor].
  - by vm_compute.
  - done.
Qed.

#[local] Existing Instance HttpExchange.sample_buffers.
Lemma arrow_event_sign_spec_witness : exists hm r,
  arrow_event_sign bump_malloc no_number 1 2 90 91 (fun m _ _ => (-1, m)) (replicate 65 0) (lit "hid" ++ [0]) (lit "DeviceCommand" ++ [0]) false
    (JObject (rev sample_params)) (mk_state sample_keys [] ([], []) NULL NULL)
  = Some ((0, event_signature (lit "api") (lit "secret") (lit "hid") (lit "DeviceCommand") false
      (lit "arg=2.000000" ++ [10] ++ lit "command=go" ++ [10] ++ lit "now=true") (lit "1") ++ 0 :: r), mk_state sample_keys [] hm NULL NULL).
Proof.
  destruct (arrow_event_sign_spec bump_malloc PropMap.bump_enough no_number 1 2 90 91 (fun m _ _ => (-1, m)) sample_keys [] ([], []) NULL NULL (lit "api") (lit "secret")
    (replicate 65 0) (lit "hid") (lit "hid" ++ [0]) (lit "DeviceCommand") (lit "DeviceCommand" ++ [0]) false sample_params (rev sample_params)) as (hm & r & E).
  - exact sample_keys_ok.
  - split; [by repeat constructor | by exists []].
  - split; [by repeat constructor | by exists []].
  - done.
  - exact sample_params_ok.
  - by vm_compute.
  - symmetry. apply Permutation_rev.
  - by vm_compute.
  - exists hm, r. rewrite E. do 4 f_equal.
Defined.

Lemma form_canonical_prm_faults_witness : form_canonical_prm bump_malloc no_number sample_keys
  (JObject (sample_params ++ [(lit "x", JNumber (double_of_Z (10 ^ 60)))])) = None.
Proof.
  refine (proj2 (proj2 (form_canonical_prm_faults bump_malloc PropMap.bump_enough no_number sample_keys sample_params sample_params_ok)) (lit "x") _ [] _ _ _).
  - by vm_compute.
  - by repeat constructor.
  - by vm_compute.
Defined.

End GatewaySign.
