(* ===== verification/SignRequest.v ===== *)
(** sign_request of src/src/arrow/sign.c: the headers that make the request of a
    device acceptable to the cloud. Its timestamp and signature are in static arrays
    of the memory, [p_const] properties point to them; the clock's time is an
    argument. *)
From S2P Require Import Prelude StateM LinkedList Property PropMap PropOwn Timer ArrowUtf8 HttpClient HttpSend HttpExchange HttpRequest HttpBuild Crypt GatewaySign.

Module SignRequest.
Import StateM Property PropMap PropOwn Utf8 HttpClient HttpSend HttpRequest HttpBuild Crypt.

Definition SIGN_BUFFER_LEN : Z := 512.

Section sign.
Context (malloc : memory -> Z -> option (Z * list Z)) (new_node : gmap Z Z -> option Z) (disp : list prop_type).
Context (literal : list Z -> Z).
Context `{Hashes} `{HttpClient.Buffers}.
Context (api_key secret_key default_api_key default_secret_key : Z).
Context (restore_key_setting : memory -> Z -> Z -> Z * memory).
(** The arrays [ts] (25 bytes) and [signature] (70). *)
Context (ts signature : Z).

(** The string behind a pointer. *)
Definition text_at (m : memory) (p : Z) : option (list Z) := b ← bytes_at m p; cstr b.

Definition strcat_at (m : memory) (p src : Z) : option memory := s ← text_at m src; GatewaySign.mem_strcat m p s.

Definition query_line (w : PropMap.world) (buffer node : Z) (m : memory) : option memory :=
  '(k, v) ← PropMap.node_of w node;
  m ← strcat_at m buffer (value k);
  m ← GatewaySign.mem_strcat m buffer (lit "=");
  m ← strcat_at m buffer (value v);
  GatewaySign.mem_strcat m buffer [13; 10].

(** [buffer] has SIGN_BUFFER_LEN bytes, whatever the queries need. *)
Definition get_canonical_string (w : PropMap.world) (m : memory) (buffer : Z) (req : http_request_t) : option memory :=
  m ← store_bytes m buffer 0 [0];
  LinkedList.for_each (LinkedList.nodes_fuel (PropMap.w_next w)) (fun _ => PropMap.w_next w) (query_line w buffer) (query req) m.

(** An operation on the keys and the hashes, in the memory of the properties. *)
Definition with_keys {A} (f : Crypt.M A) (st : Crypt.state) (w : PropMap.world) : option (A * Crypt.state * PropMap.world) :=
  '(a, st) ← f (Crypt.mk_state (PropMap.w_mem w) (static_sh st) (static_hmac st) (api st) (secret st));
  Some (a, st, PropMap.set_mem w (mem st)).

Definition add_header (w : PropMap.world) (req : http_request_t) (k v : Z) : option (PropMap.world * http_request_t) :=
  v ← p_const (PropMap.w_mem w) v;
  k ← p_const (PropMap.w_mem w) k;
  http_request_add_header malloc new_node disp w req k v.
Abbreviation name s := (literal (lit s)).

Definition canonical_query (w : PropMap.world) (req : http_request_t) : option (PropMap.world * Z) :=
  if query req =? NULL then Some (w, NULL) else
  '(p, b) ← malloc (PropMap.w_mem w) SIGN_BUFFER_LEN;
  m ← get_canonical_string w (<[p := (true, b)]> (PropMap.w_mem w)) p req;
  Some (PropMap.set_mem w m, p).

(** The request, signed into the array [signature]. *)
Definition put_signature (st : Crypt.state) (w : PropMap.world) (req : http_request_t) (canonicalQuery : Z) : option (Crypt.state * PropMap.world) :=
  let m := PropMap.w_mem w in
  '(heap, sig) ← m !! signature;
  tsb ← bytes_at m ts;
  uri ← bytes_at m (value (uri req));
  cq ← (if canonicalQuery =? NULL then Some None else b ← bytes_at m canonicalQuery; Some (Some b));
  p ← (if IS_EMPTY (payload req) then Some None else b ← bytes_at m (value (payload req)); Some (Some b));
  '(sig, st, w) ← with_keys (sign api_key secret_key default_api_key default_secret_key restore_key_setting sig tsb (meth req) uri cq p (lit "1" ++ [0])) st w;
  Some (st, PropMap.set_mem w (<[signature := (heap, sig)]> (PropMap.w_mem w))).

(** The part of sign_request behind the signature. *)
Definition closing_headers (w : PropMap.world) (req : http_request_t) : option (PropMap.world * http_request_t) :=
  '(w, req) ← add_header w req (name "x-arrow-signature") signature;
  v ← p_const (PropMap.w_mem w) (name "application/json");
  req ← http_request_set_content_type literal (PropMap.w_mem w) req v;
  '(w, req) ← add_header w req (name "Accept") (name "application/json");
  '(w, req) ← add_header w req (name "Connection") (name "Keep-Alive");
  '(w, req) ← add_header w req (name "Accept-Encoding") (name "gzip, deflate");
  add_header w req (name "User-Agent") (name "Eos").

Definition sign_request (now : Timer.timestamp) (st : Crypt.state) (w : PropMap.world) (req : http_request_t) : option (Crypt.state * PropMap.world * http_request_t) :=
  '(w, canonicalQuery) ← canonical_query w req;
  m ← store_bytes (PropMap.w_mem w) ts 0 (Timer.timestamp_string now ++ [0]);
  let w := PropMap.set_mem w m in
  k ← p_const m (name "x-arrow-apikey");
  '(rc, w, _) ← http_request_find_header malloc disp w req k None;
  '(st, w, req) ← (if rc <? 0 then
      '(p, st, w) ← with_keys (get_api_key api_key default_api_key restore_key_setting) st w;
      '(w, req) ← add_header w req (name "x-arrow-apikey") p; Some (st, w, req)
    else Some (st, w, req));
  '(w, req) ← add_header w req (name "x-arrow-date") ts;
  '(w, req) ← add_header w req (name "x-arrow-version") (name "1");
  '(st, w) ← put_signature st w req canonicalQuery;
  m ← mem_free (PropMap.w_mem w) canonicalQuery;
  let w := PropMap.set_mem w m in
  '(w, req) ← closing_headers w req;
  Some (st, w, req).

End sign.

(** ** Changes of the memory around a request *)

Lemma avoids_blocks a r hs qs : avoids a r hs qs -> a ∉ owned_blocks (owners r hs qs).
Proof.
  intros Ha (p & Hp & Hb)%owned_in. unfold prop_blocks in Hb. destruct (flags p =? dyn_flags); [|by apply not_elem_of_nil in Hb]. apply list_elem_of_singleton in Hb as ->. by apply (Ha p).
Qed.

(** An address that is not in the memory. *)
Lemma avoids_fresh m0 w r mt sc h u hs qs a : request_rep m0 w r mt sc h u hs qs -> w_mem w !! a = None -> a <> NULL -> avoids a r hs qs.
Proof.
  intros Hr Ha H0 p Hp <-. destruct (rr_owns _ _ _ _ _ _ _ _ _ Hr) as [Hh _]. rewrite Forall_forall in Hh. destruct (Hh p Hp) as [-> | [s [_ [[_ (b & Hb & _)] | (_ & _ & Hb)]]]]; [done | congruence..].
Qed.

(** A block of the memory that is left without what the request owns. *)
Lemma avoids_back m0 w r mt sc h u hs qs a b : request_rep m0 w r mt sc h u hs qs -> m0 !! a = Some (true, b) -> a <> NULL -> avoids a r hs qs.
Proof.
  intros Hr Ha H0 p Hp E. rewrite <- (rr_back _ _ _ _ _ _ _ _ _ Hr), delete_all_lookup in Ha. destruct (decide _) as [|Hn]; [done|]. apply Hn, owned_in. exists p. split; [done|].
  destruct (rr_owns _ _ _ _ _ _ _ _ _ Hr) as [Hh _]. rewrite Forall_forall in Hh. destruct (Hh p Hp) as [-> | [s [_ [[_ (x & Hx & _)] | (Hf & _)]]]].
  - by rewrite <- E in H0.
  - rewrite E in Hx. congruence.
  - unfold prop_blocks. rewrite Hf, E. left.
Qed.

Lemma delete_all_insert bs m (a : Z) b : a ∉ bs -> delete_all bs (<[a := b]> m) = <[a := b]> (delete_all bs m).
Proof.
  intros Ha. apply map_eq. intros x. rewrite delete_all_lookup. destruct (decide (x = a)) as [-> | Hne].
  - by rewrite decide_False, !lookup_insert_eq.
  - rewrite !lookup_insert_ne, delete_all_lookup by done. done.
Qed.

Lemma request_rep_frame m0 w m' r mt sc h u hs qs : request_rep m0 w r mt sc h u hs qs -> (forall p, p ∈ owners r hs qs -> m' !! value p = w_mem w !! value p) ->
  request_rep (delete_all (owned_blocks (owners r hs qs)) m') (set_mem w m') r mt sc h u hs qs.
Proof.
  intros [] Hm. assert (Hst : forall p s, p ∈ owners r hs qs -> stored (w_mem w) p s -> stored m' p s) by (intros p s Hp; by apply stored_same, Hm).
  assert (Hf : forall p, p ∈ fields r -> p ∈ owners r hs qs) by (intros p Hp; apply elem_of_app; by left).
  split; cbn [set_mem w_mem w_next w_nodes]; try done.
  - apply Hst; [|done]. apply Hf. by left.
  - apply Hst; [|done]. apply Hf. right. by left.
  - apply Hst; [|done]. apply Hf. do 2 right. by left.
  - apply Hst; [|done]. apply Hf. do 3 right. by left.
  - apply (map_rep_frame w); [done | done |]. intros p s Hp. apply Hst. unfold owners. rewrite !elem_of_app. by right; left.
  - apply (map_rep_frame w); [done | done |]. intros p s Hp. apply Hst. unfold owners. rewrite !elem_of_app. by right; right.
  - destruct rr_owns0 as [Hh Hn]. split; [|done]. rewrite Forall_forall in Hh |- *. intros p Hp. destruct (Hh p Hp) as [-> | [s Hs]]; [by left | right; exists s; by apply Hst].
Qed.

(** Another object is written, or made. *)
Lemma request_rep_insert m0 w r mt sc h u hs qs a b : request_rep m0 w r mt sc h u hs qs -> avoids a r hs qs ->
  request_rep (<[a := b]> m0) (set_mem w (<[a := b]> (w_mem w))) r mt sc h u hs qs.
Proof.
  intros Hr Ha. rewrite <- (rr_back _ _ _ _ _ _ _ _ _ Hr), <- delete_all_insert by by apply avoids_blocks. apply (request_rep_frame m0); [done|].
  intros p Hp. rewrite lookup_insert_ne; [done|]. by apply not_eq_sym, Ha.
Qed.

(** Another object is given back. *)
Lemma request_rep_delete m0 w r mt sc h u hs qs a : request_rep m0 w r mt sc h u hs qs -> avoids a r hs qs ->
  request_rep (delete a m0) (set_mem w (delete a (w_mem w))) r mt sc h u hs qs.
Proof.
  intros Hr Ha. rewrite <- (rr_back _ _ _ _ _ _ _ _ _ Hr). change (delete a (delete_all ?bs ?m)) with (delete_all [a] (delete_all bs m)). rewrite delete_all_comm.
  apply (request_rep_frame m0); [done|]. intros p Hp. unfold delete_all. cbn [foldr]. rewrite lookup_delete_ne; [done|]. by apply not_eq_sym, Ha.
Qed.

(** The content type, where there was none. *)
Lemma request_rep_content m0 w r mt sc h u hs qs k v ks vs : request_rep m0 w r mt sc h u hs qs -> content_type r = (p_null, p_null) ->
  stored (w_mem w) k ks -> stored (w_mem w) v vs -> prop_blocks k = [] -> prop_blocks v = [] ->
  request_rep m0 w (with_content_type r k v) mt sc h u hs qs.
Proof.
  intros [] Hct Hk Hv Bk Bv.
  assert (Hb : owned_blocks (owners (with_content_type r k v) hs qs) = owned_blocks (owners r hs qs)).
  { unfold owners, fields. cbn [meth scheme host uri payload content_type with_content_type fst snd]. rewrite Hct. unfold owned_blocks. rewrite !map_app, !concat_app.
    cbn [map concat fst snd]. rewrite Bk, Bv. done. }
  split; cbn [meth scheme host uri header query with_content_type]; try done.
  - split; [|rewrite Hb; apply rr_owns0]. destruct rr_owns0 as [Hh _]. unfold owners, fields in *. cbn [meth scheme host uri payload content_type with_content_type fst snd]. rewrite Hct in Hh. cbn [fst snd] in Hh.
    apply Forall_app in Hh as [Hf Hm]. apply Forall_app. split; [|done]. repeat (apply Forall_cons in Hf as [? Hf]; apply Forall_cons; split; [first [done | right; by eexists]|]). constructor.
  - by rewrite Hb.
Qed.

(** ** Signing *)

Definition names : list (list Z) := map lit ["x-arrow-apikey"; "x-arrow-date"; "x-arrow-version"; "1"; "x-arrow-signature"; "application/json"; "Accept";
  "Connection"; "Keep-Alive"; "Accept-Encoding"; "gzip, deflate"; "User-Agent"; "Eos"; "Content-Type"]%string.

Lemma names_cstr s : s ∈ names -> is_cstr s.
Proof. revert s. apply Forall_forall. apply (bool_decide_unpack _). by vm_compute. Qed.

Section proofs.
Context (malloc : memory -> Z -> option (Z * list Z)) `{Hmalloc : !Malloc malloc}.
Context (Henough : forall m n, 0 <= n -> malloc m n <> None).
Context (new_node : gmap Z Z -> option Z).
Context (Hnew : forall next el, new_node next = Some el -> next !! el = None /\ el <> NULL).
Context (Hnodes : forall next, new_node next <> None).
Context (literal : list Z -> Z).
Context `{Digests} `{HttpClient.Buffers}.
Context (api_key secret_key default_api_key default_secret_key : Z).
Context (restore_key_setting : memory -> Z -> Z -> Z * memory).
Context (ts signature : Z).

Definition static_at (m : memory) (a n : Z) : Prop := exists b, m !! a = Some (false, b) /\ zlen b = n.

(** The string literals, the keys and the two arrays, which are apart. *)
Record env (m : memory) (a s : Z) (K Sk : list Z) : Prop := {
  env_names t : t ∈ names -> literal t <> NULL /\ literal t <> ts /\ literal t <> signature /\ m !! literal t = Some (false, t ++ [0]);
  env_keys : keys_ok default_api_key default_secret_key m a s K Sk;
  env_key : key_at a default_api_key <> ts /\ key_at a default_api_key <> signature;
  env_secret : key_at s default_secret_key <> ts /\ key_at s default_secret_key <> signature;
  env_ts : ts <> NULL /\ static_at m ts 25;
  env_signature : signature <> NULL /\ static_at m signature 70;
  env_apart : ts <> signature;
}.

Lemma env_frame m m' a s K Sk : env m a s K Sk -> (forall p b, m !! p = Some (false, b) -> p <> ts -> p <> signature -> m' !! p = Some (false, b)) ->
  static_at m' ts 25 -> static_at m' signature 70 -> env m' a s K Sk.
Proof.
  intros [] Hs Ht Hg. split; try done; [| | by destruct env_ts0 | by destruct env_signature0].
  - intros t Hin. destruct (env_names0 t Hin) as (A & B & C & D). split_and!; try done. by apply Hs.
  - destruct env_keys0 as [(A1 & A2 & r & A3) (B1 & B2 & r' & B3)]. destruct env_key0, env_secret0.
    split; (split; [done|]; split; [done|]); eexists; by apply Hs.
Qed.

Lemma env_live m m' a s K Sk : env m a s K Sk -> (forall p b, m !! p = Some (false, b) -> m' !! p = Some (false, b)) -> env m' a s K Sk.
Proof. intros He Hs. apply (env_frame m); [done | auto | |]; [destruct (env_ts _ _ _ _ _ He) as (_ & b & Hb & Hl) | destruct (env_signature _ _ _ _ _ He) as (_ & b & Hb & Hl)]; unfold static_at; exists b; auto. Qed.

Lemma env_grown m m' bs a s K Sk : env m a s K Sk -> grown m m' bs -> env m' a s K Sk.
Proof. intros He Hg. apply (env_live m); [done|]. intros p b Hp. rewrite (g_same _ _ _ Hg); [done | by eexists]. Qed.

Lemma env_store m a s K Sk p b : env m a s K Sk -> (p = ts /\ zlen b = 25 \/ p = signature /\ zlen b = 70) -> env (<[p := (false, b)]> m) a s K Sk.
Proof.
  intros He Hp. pose proof (env_apart _ _ _ _ _ He). destruct (env_ts _ _ _ _ _ He) as (_ & bt & Hbt & Hlt), (env_signature _ _ _ _ _ He) as (_ & bg & Hbg & Hlg).
  apply (env_frame m); [done | | |]; unfold static_at.
  - intros q x Hq H1' H2'. rewrite lookup_insert_ne; [done|]. destruct Hp as [[-> _] | [-> _]]; by apply not_eq_sym.
  - destruct Hp as [[-> Hl] | [-> _]]; [rewrite lookup_insert_eq; by exists b | rewrite lookup_insert_ne by (by apply not_eq_sym); by exists bt].
  - destruct Hp as [[-> _] | [-> Hl]]; [rewrite lookup_insert_ne by done; by exists bg | rewrite lookup_insert_eq; by exists b].
Qed.

(** A constant property of a string in memory. *)
Lemma p_const_ok m v t r : v <> NULL -> m !! v = Some (false, t ++ 0 :: r) -> is_cstr t ->
  exists p, p_const m v = Some p /\ copyable m p t /\ value p = v /\ stored m (const_copy m p).2 t /\ prop_blocks (const_copy m p).2 = [] /\ stored m p t /\ prop_blocks p = [].
Proof.
  intros Hv Hm Ht. exists (mk_prop v (Z.lor PROPERTY_CONST_TAG is_owner) (u16 (zlen t))). unfold p_const, p_string. rewrite (proj2 (Z.eqb_neq v NULL) Hv). unfold bytes_at. rewrite Hm. cbn [mbind option_bind].
  rewrite strlen_cstr by done. split; [done|].
  assert (Hst : forall z, stored m (mk_prop v const_flags z) t) by (intros z; split; [done|]; left; split; [done|]; eexists; split; [exact Hm | by apply cstr_app]).
  split; [|split_and!; first [done | apply Hst]]. split; [by vm_compute|]. split; [|split; [done|]].
  - unfold prop_text, bytes_at. cbn [value]. rewrite Hm. cbn [mbind option_bind]. change (flag _ is_raw) with false. by apply cstr_app.
  - left. split; [done|]. split; [done|]. by eexists.
Qed.

(** A header of the signature: a literal and a string outside the heap. *)
Lemma add_header_ok m0 w r mt sc h u hs qs a s K Sk kt v vt x : request_rep m0 w r mt sc h u hs qs -> env (w_mem w) a s K Sk -> kt ∈ names -> v <> NULL ->
  w_mem w !! v = Some (false, vt ++ 0 :: x) -> is_cstr vt ->
  exists w' r' e, add_header malloc new_node types w r (literal kt) v = Some (w', r') /\ request_rep m0 w' r' mt sc h u (hs ++ [e]) qs /\ pairs (hs ++ [e]) = pairs hs ++ [(kt, vt)] /\
    env (w_mem w') a s K Sk /\ (forall p b, w_mem w !! p = Some b -> w_mem w' !! p = Some b) /\ r' = with_header r (header r') /\
    (forall y, is_Some (w_mem w !! y) -> literal kt <> y -> v <> y -> avoids y r hs qs -> avoids y r' (hs ++ [e]) qs).
Proof.
  intros Hr He Hk Hv Hm Hvt. destruct (env_names _ _ _ _ _ He kt Hk) as (Hk0 & _ & _ & Hkm). pose proof (names_cstr kt Hk) as Hkt.
  destruct (p_const_ok (w_mem w) v vt x Hv Hm Hvt) as (pv & Ev & Cv & Vv & _). destruct (p_const_ok (w_mem w) (literal kt) kt [] Hk0 Hkm Hkt) as (pk & Ek & Ck & Vk & _).
  destruct (add_header_rep malloc Henough new_node Hnew Hnodes m0 w r mt sc h u hs qs pk pv kt vt Hr Ck Cv) as (w' & r' & e & E & Hr' & He1 & He2 & Hck & Hcv & Hg & Hr2).
  exists w', r', e. unfold add_header. rewrite Ev. cbn [mbind option_bind]. rewrite Ek. cbn [mbind option_bind]. split; [exact E|]. split; [done|].
  split; [unfold pairs; rewrite map_app; cbn [map]; by rewrite He1, He2|]. split; [by eapply env_grown|]. split; [intros p b Hp; by rewrite (g_same _ _ _ Hg) by (by eexists)|]. split; [done|].
  intros y Hy Hky Hvy Ha. rewrite Hr2. eapply avoids_added; [apply owners_header | exact Hck | exact Hcv | done | by rewrite Vk | by rewrite Vv | done].
Qed.

(** *** The canonical query *)

Definition query_string (qs : list (list Z * list Z)) : list Z := concat (map (fun kv => kv.1 ++ lit "=" ++ kv.2 ++ [13; 10]) qs).

Lemma stored_bytes m p s : stored m p s -> is_cstr s /\ exists r, bytes_at m (value p) = Some (s ++ 0 :: r).
Proof.
  intros [Hs [[_ (b & Hb & Hc)] | (_ & _ & Hb)]]; (split; [done|]); unfold bytes_at; rewrite Hb; cbn [mbind option_bind].
  - apply cstr_Some in Hc as (r & ->). by exists r.
  - by exists [].
Qed.

Lemma strcat_at_ok m c cur r p s : is_cstr cur -> stored m p s -> value p <> c -> zlen s <= zlen r ->
  exists r', strcat_at (<[c := (true, cur ++ 0 :: r)]> m) c (value p) = Some (<[c := (true, (cur ++ s) ++ 0 :: r')]> m) /\ zlen r' = zlen r - zlen s.
Proof.
  intros Hcur Hs Hp Hr. destruct (stored_bytes _ _ _ Hs) as (Hc & x & Hb). unfold strcat_at, text_at. unfold bytes_at in *. rewrite lookup_insert_ne by by apply not_eq_sym. rewrite Hb.
  cbn [mbind option_bind]. rewrite cstr_app by done. cbn [mbind option_bind]. by apply GatewaySign.mem_strcat_ok.
Qed.

Lemma query_line_ok w c e m cur r : entry_ok w e -> (forall p s, p ∈ [e_key e; e_val e] -> stored (w_mem w) p s -> stored m p s /\ value p <> c) -> is_cstr cur ->
  zlen (query_string [(e_ktext e, e_vtext e)]) <= zlen r ->
  exists r', query_line w c (e_node e) (<[c := (true, cur ++ 0 :: r)]> m) = Some (<[c := (true, (cur ++ query_string [(e_ktext e, e_vtext e)]) ++ 0 :: r')]> m) /\
    zlen r' = zlen r - zlen (query_string [(e_ktext e, e_vtext e)]).
Proof.
  intros (Hn & Hk & Hv) Hst Hcur Hr. destruct (Hst _ _ (list_elem_of_here _ _) Hk) as [Hk' Hkc]. destruct (Hst (e_val e) (e_vtext e)) as [Hv' Hvc]; [right; left | done |].
  assert (Eq : query_string [(e_ktext e, e_vtext e)] = ((e_ktext e ++ lit "=") ++ e_vtext e) ++ [13; 10]) by (unfold query_string; cbn [map concat fst snd]; by rewrite app_nil_r, <- !app_assoc).
  rewrite Eq in *. rewrite !zlen_app in Hr. change (zlen (lit "=")) with 1 in Hr. change (zlen [13; 10]) with 2 in Hr. pose proof (zlen_nonneg (e_ktext e)). pose proof (zlen_nonneg (e_vtext e)).
  unfold query_line, PropMap.node_of. rewrite Hn. cbn [mbind option_bind].
  destruct (strcat_at_ok m c cur r (e_key e) (e_ktext e) Hcur Hk' Hkc) as (r1 & -> & L1); [lia|]. cbn [mbind option_bind].
  assert (C1 : is_cstr (cur ++ e_ktext e)) by (apply Forall_app; split; [done | apply Hk]).
  destruct (GatewaySign.mem_strcat_ok m c _ r1 (lit "=") C1) as (r2 & -> & L2); [change (zlen (lit "=")) with 1; lia|]. cbn [mbind option_bind]. change (zlen (lit "=")) with 1 in L2.
  assert (C2 : is_cstr ((cur ++ e_ktext e) ++ lit "=")) by (apply Forall_app; split; [done | by repeat constructor]).
  destruct (strcat_at_ok m c _ r2 (e_val e) (e_vtext e) C2 Hv' Hvc) as (r3 & -> & L3); [lia|]. cbn [mbind option_bind].
  assert (C3 : is_cstr (((cur ++ e_ktext e) ++ lit "=") ++ e_vtext e)) by (apply Forall_app; split; [done | apply Hv]).
  destruct (GatewaySign.mem_strcat_ok m c _ r3 [13; 10] C3) as (r4 & E4 & L4); [change (zlen [13; 10]) with 2; lia|]. change (zlen [13; 10]) with 2 in L4.
  exists r4. split; [rewrite E4; by rewrite <- !app_assoc|]. rewrite !zlen_app. change (zlen (lit "=")) with 1. change (zlen [13; 10]) with 2. lia.
Qed.

Lemma query_lines_ok w c es : forall m cur r, Forall (entry_ok w) es -> (forall p s, p ∈ props_of es -> stored (w_mem w) p s -> stored m p s /\ value p <> c) -> is_cstr cur ->
  zlen (query_string (pairs es)) <= zlen r ->
  exists r', fold_opt (query_line w c) (map e_node es) (<[c := (true, cur ++ 0 :: r)]> m) = Some (<[c := (true, (cur ++ query_string (pairs es)) ++ 0 :: r')]> m).
Proof.
  induction es as [|e es IH]; intros m cur r He Hst Hcur Hr; [exists r; cbn [map fold_opt]; by rewrite app_nil_r|]. apply Forall_cons in He as [He Hes].
  assert (Eq : query_string (pairs (e :: es)) = query_string [(e_ktext e, e_vtext e)] ++ query_string (pairs es)) by (unfold query_string; cbn [map concat pairs]; by rewrite app_nil_r).
  rewrite Eq in *. rewrite zlen_app in Hr. pose proof (zlen_nonneg (query_string (pairs es))). cbn [map fold_opt].
  assert (Hin : forall p, p ∈ [e_key e; e_val e] -> p ∈ props_of (e :: es)) by (intros p Hp; change (e :: es) with ([e] ++ es); rewrite props_of_app; apply elem_of_app; left; unfold props_of; cbn [map concat]; by rewrite app_nil_r).
  destruct (query_line_ok w c e m cur r He) as (r1 & E1 & L1); [intros p s Hp; by apply Hst, Hin | done | lia|]. rewrite E1. cbn [mbind option_bind].
  destruct (IH m (cur ++ query_string [(e_ktext e, e_vtext e)]) r1 Hes) as (r2 & E2).
  - intros p s Hp. apply Hst. change (e :: es) with ([e] ++ es). rewrite props_of_app. apply elem_of_app. by right.
  - apply Forall_app. split; [done|]. unfold query_string. cbn [map concat fst snd]. rewrite app_nil_r. destruct He as (_ & [Hk _] & [Hv _]).
    apply Forall_app. split; [done|]. apply Forall_app. split; [by repeat constructor|]. apply Forall_app. split; [done | by repeat constructor].
  - lia.
  - exists r2. by rewrite E2, <- (app_assoc cur).
Qed.

(** The queries as a string of their own, or NULL without a query. *)
Lemma canonical_query_ok m0 w r mt sc h u hs qs : request_rep m0 w r mt sc h u hs qs -> zlen (query_string (pairs qs)) < SIGN_BUFFER_LEN ->
  exists w1 c, canonical_query malloc w r = Some (w1, c) /\
    ((qs = [] /\ c = NULL /\ w1 = w) \/ (c <> NULL /\ w_mem w !! c = None /\ exists x, w1 = set_mem w (<[c := (true, query_string (pairs qs) ++ 0 :: x)]> (w_mem w)))).
Proof.
  intros Hr Hq. pose proof (rr_query _ _ _ _ _ _ _ _ _ Hr) as Hm. pose proof (rep_list _ _ _ Hm) as Hl. unfold canonical_query. destruct (Z.eqb_spec (query r) NULL) as [E | E].
  { exists w, NULL. split; [done|]. left. rewrite E in Hl. destruct qs as [|e qs]; [done|]. destruct Hl as (He1 & He2 & _); by rewrite <- He1 in He2. }
  destruct (malloc (w_mem w) SIGN_BUFFER_LEN) as [[c b]|] eqn:Em; [|by apply Henough in Em]. destruct (malloc_fresh _ _ _ _ Em) as [Hc Hc0]. pose proof (malloc_size _ _ _ _ Em) as Hb. cbn [mbind option_bind].
  unfold get_canonical_string. rewrite store_bytes_insert. change SIGN_BUFFER_LEN with 512 in *. destruct b as [|x b]; [change (zlen (@nil Z)) with 0 in Hb; lia|]. rewrite zlen_cons in Hb.
  change (x :: b) with ([x] ++ b). rewrite wrn_app_0 by done. cbn [mbind option_bind]. change ([0] ++ b) with ([] ++ 0 :: b).
  rewrite (LinkedList.for_each_list _ _ (map e_node qs)).
  - destruct (query_lines_ok w c qs (w_mem w) [] b) as (y & Ey); [apply Hm | | constructor | lia |].
    + intros p s Hp Hs. split; [done|]. intros Ep. destruct Hs as [_ [[_ (z & Hz & _)] | (_ & _ & Hz)]]; congruence.
    + rewrite Ey. cbn [mbind option_bind app]. eexists _, c. split; [done|]. right. split; [done|]. split; [done|]. by eexists.
  - by intros p st st' _.
  - done.
  - pose proof (map_rep_size _ _ _ Hm). unfold LinkedList.nodes_fuel. rewrite length_map. lia.
Qed.

(** *** The signature *)

(** The text of a payload, if there is one. *)
Definition payload_ok (m : memory) (r : http_request_t) (body : option (list Z)) : Prop :=
  match body with Some b => value (payload r) <> NULL /\ stored m (payload r) b | None => value (payload r) = NULL end.

Lemma put_signature_ok st m0 w r mt sc h u hs qs K Sk c q tt_ body : request_rep m0 w r mt sc h u hs qs -> env (w_mem w) (api st) (secret st) K Sk -> zlen Sk < 128 ->
  property_size (w_mem w) (meth r) = Some (zlen mt) -> payload_ok (w_mem w) r body -> is_cstr tt_ -> w_mem w !! ts = Some (false, tt_ ++ [0]) ->
  (c = NULL /\ q = None \/ c <> NULL /\ exists s x, q = Some s /\ is_cstr s /\ w_mem w !! c = Some (true, s ++ 0 :: x)) ->
  exists st' x, put_signature api_key secret_key default_api_key default_secret_key restore_key_setting ts signature st w r c =
      Some (st', set_mem w (<[signature := (false, signature_of K Sk tt_ mt u (default [] q) body (lit "1") ++ 0 :: x)]> (w_mem w))) /\
    api st' = api st /\ secret st' = secret st /\ zlen x = 5.
Proof.
  intros Hr He Hsk Hsize Hp Ht Hts Hq. destruct (env_signature _ _ _ _ _ He) as (_ & sb & Hsig & Hsl).
  destruct (stored_bytes _ _ _ (rr_uri _ _ _ _ _ _ _ _ _ Hr)) as (Hu & ur & Eu). destruct (stored_bytes _ _ _ (rr_meth _ _ _ _ _ _ _ _ _ Hr)) as (_ & mr & Emt).
  assert (Et : bytes_at (w_mem w) ts = Some (tt_ ++ [0])) by (unfold bytes_at; by rewrite Hts).
  unfold put_signature. rewrite Hsig. cbn [mbind option_bind]. rewrite Et. cbn [mbind option_bind]. rewrite Eu. cbn [mbind option_bind].
  assert (Ec : exists qb, (if c =? NULL then Some None else b ← bytes_at (w_mem w) c; Some (Some b)) = Some qb /\ option_Forall2 (fun b s => c_string s b) qb q).
  { destruct Hq as [[-> ->] | (Hc & s & x & -> & Hs & Hm)]; [exists None; split; [done | constructor]|]. rewrite (proj2 (Z.eqb_neq c NULL) Hc). unfold bytes_at. rewrite Hm. cbn [mbind option_bind].
    eexists. split; [done|]. constructor. split; [done | by eexists]. }
  destruct Ec as (qb & -> & Hqb). cbn [mbind option_bind].
  assert (Ep : exists pb, (if IS_EMPTY (payload r) then Some None else b ← bytes_at (w_mem w) (value (payload r)); Some (Some b)) = Some pb /\ option_Forall2 (fun b s => c_string s b) pb body).
  { unfold IS_EMPTY, payload_ok in *. destruct body as [b|]; [|rewrite Hp; exists None; split; [done | constructor]]. destruct Hp as [Hp0 Hp]. rewrite (proj2 (Z.eqb_neq _ NULL) Hp0).
    destruct (stored_bytes _ _ _ Hp) as (Hb & x & ->). cbn [mbind option_bind]. eexists. split; [done|]. constructor. split; [done | by eexists]. }
  destruct Ep as (pb & -> & Hpb). cbn [mbind option_bind]. unfold with_keys.
  destruct (sign_ok api_key secret_key default_api_key default_secret_key restore_key_setting (w_mem w) (static_sh st) (static_hmac st) (api st) (secret st) K Sk sb
    tt_ (tt_ ++ [0]) (meth r) mt u (u ++ 0 :: ur) qb q pb body (lit "1") (lit "1" ++ [0])) as (hm' & x & Es & Lx); try done.
  - apply He.
  - unfold bytes_at in Emt. destruct (w_mem w !! value (meth r)) as [[hh bb]|]; [|done]. cbn [mbind option_bind] in Emt. injection Emt as ->. by exists hh, (0 :: mr).
  - split; [done | by exists []].
  - split; [done | by exists ur].
  - split; [by repeat constructor | by exists []].
  - lia.
  - rewrite Es. cbn [mbind option_bind]. eexists _, x. split; [done|]. split; [done|]. split; [done | lia].
Qed.

(** *** The whole *)

Definition api_header (hs : list (list Z * list Z)) (K : list Z) : list (list Z * list Z) :=
  if existsb (fun kv => bool_decide (kv.1 = lit "x-arrow-apikey")) hs then [] else [(lit "x-arrow-apikey", K)].
Definition signed_headers (hs : list (list Z * list Z)) (K now sig : list Z) : list (list Z * list Z) :=
  api_header hs K ++ [(lit "x-arrow-date", now); (lit "x-arrow-version", lit "1"); (lit "x-arrow-signature", sig); (lit "Accept", lit "application/json");
    (lit "Connection", lit "Keep-Alive"); (lit "Accept-Encoding", lit "gzip, deflate"); (lit "User-Agent", lit "Eos")].

(** The memory keeps what it has. *)
Definition keeps (m m' : memory) : Prop := forall p b, m !! p = Some b -> m' !! p = Some b.

Lemma stored_keeps m m' p s : keeps m m' -> stored m p s -> stored m' p s.
Proof. intros Hk [Hs Hc]. split; [done|]. destruct Hc as [(Hf & b & Hb & Hc) | (Hf & Hv & Hb)]; [left | right]; (split; [done|]); [exists b; split; [by apply Hk | done] | split; [done | by apply Hk]]. Qed.

Lemma find_api_key w root es K : map_rep w root es ->
  (default NULL (e_node <$> head (filter (fun e => e_ktext e = lit "x-arrow-apikey") es)) = NULL /\ api_header (pairs es) K = [(lit "x-arrow-apikey", K)]) \/
  (default NULL (e_node <$> head (filter (fun e => e_ktext e = lit "x-arrow-apikey") es)) <> NULL /\ api_header (pairs es) K = []).
Proof.
  intros Hm. unfold api_header. pose proof (first_entry es (lit "x-arrow-apikey")) as Hf. destruct (head _) as [e|]; [right | left].
  - destruct Hf as (l1 & l2 & -> & He & _). split; [apply (map_node_live w root _ e Hm), elem_of_app; right; left|].
    unfold pairs. rewrite map_app, existsb_app. cbn [map existsb fst]. by rewrite (bool_decide_eq_true_2 _ He), orb_true_r.
  - split; [done|]. replace (existsb _ (pairs es)) with false; [done|]. clear Hm. induction Hf as [|e es He _ IH]; [done|]. cbn [pairs map existsb fst]. rewrite (bool_decide_eq_false_2 _ He). exact IH.
Qed.

(** The API key, unless the request has one. *)
Lemma api_header_ok st m0 w r mt sc h u hs qs K Sk : request_rep m0 w r mt sc h u hs qs -> env (w_mem w) (api st) (secret st) K Sk ->
  exists k st' w' r' hs', p_const (w_mem w) (literal (lit "x-arrow-apikey")) = Some k /\
    ('(rc, w, _) ← http_request_find_header malloc types w r k None;
     if rc <? 0 then
       '(p, st, w) ← with_keys (get_api_key api_key default_api_key restore_key_setting) st w;
       '(w, req) ← add_header malloc new_node types w r (literal (lit "x-arrow-apikey")) p; Some (st, w, req)
     else Some (st, w, r)) = Some (st', w', r') /\ api st' = api st /\ secret st' = secret st /\
    request_rep m0 w' r' mt sc h u hs' qs /\ pairs hs' = pairs hs ++ api_header (pairs hs) K /\ env (w_mem w') (api st) (secret st) K Sk /\
    keeps (w_mem w) (w_mem w') /\ r' = with_header r (header r') /\ (forall y, y = ts \/ y = signature -> avoids y r hs qs -> avoids y r' hs' qs).
Proof.
  intros Hr He. assert (Hin : lit "x-arrow-apikey" ∈ names) by left. destruct (env_names _ _ _ _ _ He _ Hin) as (Hk0 & Hkt & Hks & Hkm).
  destruct (p_const_ok (w_mem w) _ _ [] Hk0 Hkm (names_cstr _ Hin)) as (k & Ek & _ & _ & _ & _ & Hst & _). exists k. pose proof (rr_header _ _ _ _ _ _ _ _ _ Hr) as Hm.
  destruct (stored_text _ _ _ Hst) as (Htext & Hraw & _). pose proof (property_map_find_rep w (header r) hs k _ Hm Htext Hraw) as Ef.
  unfold http_request_find_header. rewrite Ef. cbn [mbind option_bind]. destruct (find_api_key w (header r) hs K Hm) as [[-> Ea] | [Hn Ea]]; rewrite Ea.
  - change (NULL =? NULL) with true. cbn [mbind option_bind]. change (-1 <? 0) with true. cbv iota. unfold with_keys.
    destruct (env_keys _ _ _ _ _ He) as [Hkey _]. pose proof Hkey as (Hp0 & HK & x & Hp). pose proof (get_key_ok (mk_state (w_mem w) (static_sh st) (static_hmac st) (api st) (secret st)) (api st) default_api_key K (w_mem w)) as Eg.
    unfold get_api_key. erewrite bind_run by done. cbn [Crypt.api]. rewrite Eg by done. cbn [mbind option_bind].
    assert (Ew : forall z, set_mem w (mem (mk_state (w_mem w) z (static_hmac st) (api st) (secret st))) = w) by (intros; by destruct w). rewrite Ew.
    destruct (add_header_ok m0 w r mt sc h u hs qs (api st) (secret st) K Sk (lit "x-arrow-apikey") (key_at (api st) default_api_key) K x Hr He Hin Hp0 Hp HK) as (w' & r' & e & E & Hr' & Hpairs & He' & Hkeep & Hrr & Hav).
    rewrite E. cbn [mbind option_bind]. eexists _, w', r', (hs ++ [e]). split_and!; try done. intros y Hy. destruct (env_key _ _ _ _ _ He). 
    apply Hav; [destruct (env_ts _ _ _ _ _ He) as (_ & bt & Hbt & _), (env_signature _ _ _ _ _ He) as (_ & bg & Hbg & _); destruct Hy as [-> | ->]; by eexists | by destruct Hy as [-> | ->] | by destruct Hy as [-> | ->]].
  - rewrite (proj2 (Z.eqb_neq _ NULL) Hn). cbn [mbind option_bind]. change (0 <? 0) with false. cbv iota. exists st, w, r, hs. rewrite app_nil_r. split_and!; try done; [by intros ? ? | by destruct r].
Qed.

Ltac in_names := apply (bool_decide_unpack _); by vm_compute.

Lemma query_string_cstr w es : Forall (entry_ok w) es -> is_cstr (query_string (pairs es)).
Proof.
  induction 1 as [|e es (_ & [Hk _] & [Hv _]) _ IH]; [constructor|]. unfold query_string in *. cbn [pairs map concat fst snd].
  repeat (apply Forall_app; split); try done; by repeat constructor.
Qed.

(** The headers behind the signature are literals. *)
Lemma add_literals_ok m0 mt sc h u qs a s K Sk l : forall w r hs, request_rep m0 w r mt sc h u hs qs -> env (w_mem w) a s K Sk -> Forall (fun kv => kv.1 ∈ names /\ kv.2 ∈ names) l ->
  exists w' r' hs', fold_opt (fun kv st => add_header malloc new_node types st.1 st.2 (literal kv.1) (literal kv.2)) l (w, r) = Some (w', r') /\
    request_rep m0 w' r' mt sc h u hs' qs /\ pairs hs' = pairs hs ++ l /\ env (w_mem w') a s K Sk /\ keeps (w_mem w) (w_mem w') /\ r' = with_header r (header r') /\
    (forall y, y = ts \/ y = signature -> avoids y r hs qs -> avoids y r' hs' qs).
Proof.
  induction l as [|[k v] l IH]; intros w r hs Hr He Hl.
  { exists w, r, hs. rewrite app_nil_r. split_and!; try done; [by intros ? ? | by destruct r]. }
  apply Forall_cons in Hl as [[Hk Hv] Hl]. cbn [fst snd] in Hk, Hv. destruct (env_names _ _ _ _ _ He k Hk) as (_ & Hkt & Hks & _). destruct (env_names _ _ _ _ _ He v Hv) as (Hv0 & Hvt & Hvs & Hvm).
  destruct (add_header_ok m0 w r mt sc h u hs qs a s K Sk k (literal v) v [] Hr He Hk Hv0 Hvm (names_cstr v Hv)) as (w1 & r1 & e & E & Hr1 & P1 & He1 & Hk1 & R1 & Av1).
  destruct (IH w1 r1 (hs ++ [e]) Hr1 He1 Hl) as (w' & r' & hs' & E' & Hr' & P' & He' & Hk' & R' & Av'). exists w', r', hs'. cbn [fold_opt fst snd]. rewrite E. cbn [mbind option_bind].
  split; [done|]. split; [done|]. split; [rewrite P', P1, <- app_assoc; done|]. split; [done|]. split; [intros p b Hp; by apply Hk', Hk1|]. split; [rewrite R', R1; done|].
  intros y Hy Ha. apply Av'; [done|]. apply Av1; [| by destruct Hy as [-> | ->] | by destruct Hy as [-> | ->] | done].
  destruct (env_ts _ _ _ _ _ He) as (_ & bt & Hbt & _), (env_signature _ _ _ _ _ He) as (_ & bg & Hbg & _); destruct Hy as [-> | ->]; by eexists.
Qed.

(** The buffer [c] of the string [q], which [m1] has and [m0] does not; or none. *)
Definition buffer (m0 m1 m : memory) (c : Z) (q : list Z) : Prop :=
  (c = NULL /\ m1 = m0 /\ q = []) \/
  (c <> NULL /\ c <> ts /\ c <> signature /\ delete c m1 = m0 /\ (exists b, m1 !! c = Some (true, b)) /\ exists y, m !! c = Some (true, q ++ 0 :: y)).

Lemma buffer_same m0 m1 m m' c q : buffer m0 m1 m c q -> (c <> ts -> c <> signature -> m' !! c = m !! c) -> buffer m0 m1 m' c q.
Proof. intros [Hn | (A & B & C & D & E & y & F)] Hm; [by left | right]. split_and!; try done. exists y. by rewrite Hm. Qed.

Lemma buffer_made m0 w r mt sc h u hs qs a s K Sk : request_rep m0 w r mt sc h u hs qs -> env (w_mem w) a s K Sk -> zlen (query_string (pairs qs)) < SIGN_BUFFER_LEN ->
  exists w1 c m1, canonical_query malloc w r = Some (w1, c) /\ request_rep m1 w1 r mt sc h u hs qs /\ env (w_mem w1) a s K Sk /\ keeps (w_mem w) (w_mem w1) /\
    buffer m0 m1 (w_mem w1) c (query_string (pairs qs)).
Proof.
  intros Hr He Hq. destruct (canonical_query_ok m0 w r mt sc h u hs qs Hr Hq) as (w1 & c & E1 & Hc). exists w1, c.
  destruct Hc as [(-> & -> & ->) | (Hc & Hfree & y & ->)]; [exists m0; split_and!; try done; [by intros ? ? | by left]|].
  set (b := (true, _)). assert (Hk : keeps (w_mem w) (<[c := b]> (w_mem w))) by (intros p x Hp'; rewrite lookup_insert_ne; [done | congruence]). exists (<[c := b]> m0). split; [done|].
  split; [apply request_rep_insert; [done | by eapply avoids_fresh]|]. split; [apply (env_live (w_mem w)); [done | intros p x; apply Hk]|]. split; [done|]. right.
  destruct (env_ts _ _ _ _ _ He) as (_ & bt & Hbt & _), (env_signature _ _ _ _ _ He) as (_ & bg & Hbg & _).
  split; [done|]. split; [congruence|]. split; [congruence|]. split; [|split; [eexists; apply lookup_insert_eq | exists y; apply lookup_insert_eq]].
  rewrite delete_insert_eq. apply delete_id. rewrite <- (rr_back _ _ _ _ _ _ _ _ _ Hr), delete_all_lookup. by destruct (decide _).
Qed.

(** Giving the buffer back, with the arrays written. *)
Lemma buffer_freed m0 m1 w c q r mt sc h u hs qs bg bt : buffer m0 m1 (w_mem w) c q -> request_rep (<[signature := bg]> (<[ts := bt]> m1)) w r mt sc h u hs qs ->
  exists m, mem_free (w_mem w) c = Some m /\ request_rep (<[signature := bg]> (<[ts := bt]> m0)) (set_mem w m) r mt sc h u hs qs /\
    (forall p b, w_mem w !! p = Some (false, b) -> m !! p = Some (false, b)) /\ (forall p s, p ∈ owners r hs qs -> stored (w_mem w) p s -> stored m p s).
Proof.
  intros Hb Hr. destruct Hb as [(-> & -> & _) | (Hc0 & Hcts & Hcs & Hdel & (cb & Hcb) & y & Hy)]; [exists (w_mem w); split_and!; try done; by destruct w|].
  assert (Hav : avoids c r hs qs) by (apply (avoids_back _ _ _ _ _ _ _ _ _ c cb Hr); [by rewrite !lookup_insert_ne by by apply not_eq_sym | done]).
  exists (delete c (w_mem w)). unfold mem_free. rewrite (proj2 (Z.eqb_neq c NULL) Hc0), Hy. cbn [mbind option_bind]. split; [done|].
  split; [rewrite <- Hdel, <- !delete_insert_ne by (by apply not_eq_sym || done); by apply request_rep_delete|]. split.
  - intros p b Hp'. rewrite lookup_delete_ne; [done | congruence].
  - intros p s Hp. apply stored_same, lookup_delete_ne, not_eq_sym. by apply Hav.
Qed.

(** The date in its array. *)
Lemma date_written m0 w r mt sc h u hs qs a s K Sk d : request_rep m0 w r mt sc h u hs qs -> env (w_mem w) a s K Sk -> avoids ts r hs qs -> zlen d = 25 ->
  store_bytes (w_mem w) ts 0 d = Some (<[ts := (false, d)]> (w_mem w)) /\ request_rep (<[ts := (false, d)]> m0) (set_mem w (<[ts := (false, d)]> (w_mem w))) r mt sc h u hs qs /\
  env (<[ts := (false, d)]> (w_mem w)) a s K Sk.
Proof.
  intros Hr He Ha Hd. destruct (env_ts _ _ _ _ _ He) as (_ & bt & Hbt & Hbtl). split; [|split; [by apply request_rep_insert | apply env_store; [done | by left]]].
  unfold store_bytes. rewrite Hbt. cbn [mbind option_bind]. rewrite <- (app_nil_r bt), wrn_app_0 by lia. cbn [mbind option_bind]. by rewrite app_nil_r.
Qed.

(** The payload is a property of the request. *)
Lemma payload_ok_same m m' r hs qs body : payload_ok m r body -> (forall p s, p ∈ owners r hs qs -> stored m p s -> stored m' p s) -> payload_ok m' r body.
Proof. unfold payload_ok. destruct body as [b|]; [|done]. intros [Hp0 Hp] Hs. split; [done|]. apply Hs; [|done]. unfold owners, fields. apply elem_of_app. left. by do 4 right; left. Qed.

Lemma signature_headers_ok m0 w r mt sc h u hs qs a s K Sk sig x : request_rep m0 w r mt sc h u hs qs -> env (w_mem w) a s K Sk ->
  w_mem w !! signature = Some (false, sig ++ 0 :: x) -> is_cstr sig -> content_type r = (p_null, p_null) ->
  exists w' r' hs', closing_headers malloc new_node types literal signature w r = Some (w', r') /\ request_rep m0 w' r' mt sc h u hs' qs /\
    pairs hs' = pairs hs ++ [(lit "x-arrow-signature", sig); (lit "Accept", lit "application/json"); (lit "Connection", lit "Keep-Alive"); (lit "Accept-Encoding", lit "gzip, deflate"); (lit "User-Agent", lit "Eos")] /\
    (exists k v, content_type r' = (k, v) /\ stored (w_mem w') k (lit "Content-Type") /\ stored (w_mem w') v (lit "application/json")) /\
    env (w_mem w') a s K Sk /\ keeps (w_mem w) (w_mem w') /\ payload r' = payload r /\ HttpClient.port r' = HttpClient.port r /\ is_cipher r' = is_cipher r /\ is_chunked r' = is_chunked r /\
    response_payload_meth r' = response_payload_meth r.
Proof.
  intros Hr He Hs Hsc Hct. destruct (env_signature _ _ _ _ _ He) as [Hsig0 _].
  destruct (add_header_ok _ w r mt sc h u hs qs a s K Sk (lit "x-arrow-signature") signature sig x Hr He ltac:(in_names) Hsig0 Hs Hsc) as (w8 & r8 & e8 & E8 & Hr8 & P8 & He8 & Hk8 & R8 & _).
  unfold closing_headers. rewrite E8. cbn [mbind option_bind].
  destruct (env_names _ _ _ _ _ He8 (lit "application/json") ltac:(in_names)) as (Hj0 & _ & _ & Hjm). destruct (env_names _ _ _ _ _ He8 (lit "Content-Type") ltac:(in_names)) as (Ht0 & _ & _ & Htm).
  destruct (p_const_ok _ _ _ [] Hj0 Hjm (names_cstr (lit "application/json") ltac:(in_names))) as (pv & Ev & _ & _ & _ & _ & Sv & Bv).
  destruct (p_const_ok _ _ _ [] Ht0 Htm (names_cstr (lit "Content-Type") ltac:(in_names))) as (pk & Epk & _ & _ & _ & _ & Spk & Bpk).
  rewrite Ev. cbn [mbind option_bind]. unfold http_request_set_content_type. change CONTENT_TYPE with (lit "Content-Type"). rewrite Epk. cbn [mbind option_bind].
  assert (Hr9 : request_rep m0 w8 (with_content_type r8 pk pv) mt sc h u (hs ++ [e8]) qs) by (eapply request_rep_content; try done; by rewrite R8).
  destruct (add_literals_ok _ mt sc h u qs a s K Sk [(lit "Accept", lit "application/json"); (lit "Connection", lit "Keep-Alive"); (lit "Accept-Encoding", lit "gzip, deflate"); (lit "User-Agent", lit "Eos")]
    w8 (with_content_type r8 pk pv) (hs ++ [e8]) Hr9 He8) as (w' & r' & hs' & E9 & Hr' & P9 & He' & Hk9 & R9 & _); [by repeat constructor; in_names|].
  cbn [fold_opt fst snd] in E9.
  repeat (match type of E9 with context [add_header ?a ?b ?c ?d ?e ?f ?g] => destruct (add_header a b c d e f g) as [[? ?]|]; cbn [mbind option_bind fst snd] in E9 |- *; [|discriminate] end).
  injection E9 as -> ->. exists w', r', hs'. split; [done|]. split; [done|]. split; [rewrite P9, P8, <- app_assoc; done|].
  split; [exists pk, pv; split; [by rewrite R9|]; split; by eapply stored_keeps|]. split; [done|]. split; [intros p b Hp; by apply Hk9, Hk8|]. rewrite R9, R8. done.
Qed.

(** What signing leaves of a request. *)
Lemma sign_request_ok now st m0 w r mt sc h u hs qs K Sk body : request_rep m0 w r mt sc h u hs qs -> env (w_mem w) (api st) (secret st) K Sk -> zlen Sk < 128 ->
  Property.size (meth r) = zlen mt -> mt <> [] -> payload_ok (w_mem w) r body -> content_type r = (p_null, p_null) ->
  avoids ts r hs qs -> avoids signature r hs qs -> zlen (query_string (pairs qs)) < SIGN_BUFFER_LEN ->
  is_cstr (Timer.timestamp_string now) -> zlen (Timer.timestamp_string now) = 24 ->
  exists st' w' r' hs' x, sign_request malloc new_node types literal api_key secret_key default_api_key default_secret_key restore_key_setting ts signature now st w r = Some (st', w', r') /\
    let sig := signature_of K Sk (Timer.timestamp_string now) mt u (query_string (pairs qs)) body (lit "1") in
    request_rep (<[signature := (false, sig ++ 0 :: x)]> (<[ts := (false, Timer.timestamp_string now ++ [0])]> m0)) w' r' mt sc h u hs' qs /\
    pairs hs' = pairs hs ++ signed_headers (pairs hs) K (Timer.timestamp_string now) sig /\
    (exists k v, content_type r' = (k, v) /\ stored (w_mem w') k (lit "Content-Type") /\ stored (w_mem w') v (lit "application/json")) /\
    payload_ok (w_mem w') r' body /\ HttpClient.port r' = HttpClient.port r /\ is_cipher r' = is_cipher r /\ is_chunked r' = is_chunked r /\ payload r' = payload r /\ response_payload_meth r' = response_payload_meth r /\
    env (w_mem w') (api st) (secret st) K Sk /\ api st' = api st /\ secret st' = secret st.
Proof.
  intros Hr He Hsk Hsize Hmt Hp Hct Hat Has Hq Hnow Hnowl. unfold sign_request.
  destruct (buffer_made m0 w r mt sc h u hs qs (api st) (secret st) K Sk Hr He Hq) as (w1 & c & m1 & E1 & Hr1 & He1 & Hk1 & Hc1). rewrite E1. cbn [mbind option_bind]. clear Hr He E1.
  set (date := Timer.timestamp_string now ++ [0]). destruct (date_written m1 w1 r mt sc h u hs qs (api st) (secret st) K Sk date Hr1 He1 Hat) as (Est & Hr2 & He2); [unfold date; rewrite zlen_app; change (zlen [0]) with 1; lia|].
  rewrite Est. cbn [mbind option_bind]. clear Est. set (w2 := set_mem w1 _) in *. change (<[ts := (false, date)]> (w_mem w1)) with (w_mem w2). change (env (w_mem w2) (api st) (secret st) K Sk) in He2.
  destruct (api_header_ok st _ w2 r mt sc h u hs qs K Sk Hr2 He2) as (k & st3 & w3 & r3 & hs3 & Ek & E3 & Ha3 & Hs3 & Hr3 & P3 & He3 & Hk3 & R3 & Av3).
  rewrite Ek. cbn [mbind option_bind].
  destruct (http_request_find_header malloc types w2 r k None) as [[[rc wf] vf]|]; [|done]. cbn [mbind option_bind] in E3 |- *. rewrite E3. cbn [mbind option_bind]. rewrite <- Ha3, <- Hs3 in *. clear E3 Ek rc wf vf.
  assert (Hd2 : w_mem w2 !! ts = Some (false, date)) by apply lookup_insert_eq. pose proof (env_ts _ _ _ _ _ He3) as [Hts0 _].
  destruct (add_header_ok _ w3 r3 mt sc h u hs3 qs (api st3) (secret st3) K Sk (lit "x-arrow-date") ts (Timer.timestamp_string now) [] Hr3 He3 ltac:(in_names) Hts0 (Hk3 _ _ Hd2) Hnow) as (w4 & r4 & e4 & E4 & Hr4 & P4 & He4 & Hk4 & R4 & Av4).
  rewrite E4. cbn [mbind option_bind].
  destruct (add_literals_ok _ mt sc h u qs (api st3) (secret st3) K Sk [(lit "x-arrow-version", lit "1")] w4 r4 (hs3 ++ [e4]) Hr4 He4) as (w5 & r5 & hs5 & E5 & Hr5 & P5 & He5 & Hk5 & R5 & Av5); [by repeat constructor; in_names|].
  cbn [fold_opt fst snd] in E5. destruct (add_header _ _ _ w4 r4 _ _) as [[w5' r5']|]; [|done]. cbn [mbind option_bind] in E5 |- *. injection E5 as -> ->.
  destruct (env_signature _ _ _ _ _ He3) as (Hsig0 & bg & Hbg & _).
  assert (Hkeep : keeps (w_mem w2) (w_mem w5)) by (intros p b Hp'; by apply Hk5, Hk4, Hk3).
  assert (Hr5r : r5 = with_header r (header r5)) by (rewrite R5, R4, R3; done). assert (Has5 : avoids signature r5 hs5 qs).
  { apply Av5; [by right|]. apply Av4; [by eexists | by destruct (env_names _ _ _ _ _ He3 (lit "x-arrow-date") ltac:(in_names)) as (_ & _ & ? & _) | by apply env_apart in He3 |]. apply Av3; [by right | done]. }
  assert (Hp5 : payload_ok (w_mem w5) r5 body).
  { rewrite Hr5r. apply (payload_ok_same (w_mem w)  _ r hs qs); [done|]. intros p s' Hp' Hs'. apply (stored_keeps (w_mem w2)); [done|]. apply (stored_same (w_mem w1)); [|by eapply stored_keeps].
    by apply lookup_insert_ne, not_eq_sym, Hat. }
  assert (Hc5 : buffer m0 m1 (w_mem w5) c (query_string (pairs qs))).
  { destruct Hc1 as [Hn | (A & B & C & D & E & y & F)]; [by left | right]. split_and!; try done. exists y. apply Hkeep. cbn [w2 set_mem w_mem]. by rewrite lookup_insert_ne by by apply not_eq_sym. }
  clear Av3 Av4 Av5 E4 Hp Hc1.
  destruct (put_signature_ok st3 _ w5 r5 mt sc h u hs5 qs K Sk c (if c =? NULL then None else Some (query_string (pairs qs))) (Timer.timestamp_string now) body Hr5 He5 Hsk) as (st6 & x & E6 & Ha6 & Hs6 & Hx).
  { rewrite Hr5r. unfold property_size. cbn [meth with_header]. rewrite Hsize. destruct (Z.eqb_spec (zlen mt) 0) as [E0 | _]; [by apply zlen_0 in E0 | done]. }
  { done. } { done. } { by apply Hkeep. }
  { destruct Hc5 as [(-> & _) | (Hc0 & _ & _ & _ & _ & y & Hy)]; [by left | right]. rewrite (proj2 (Z.eqb_neq c NULL) Hc0). split; [done|]. exists (query_string (pairs qs)), y. split; [done|]. split; [|done].
    eapply query_string_cstr. apply (rep_entries _ _ _ (rr_query _ _ _ _ _ _ _ _ _ Hr5)). }
  assert (Hq' : default [] (if c =? NULL then None else Some (query_string (pairs qs))) = query_string (pairs qs)).
  { destruct Hc5 as [(-> & _ & ->) | (Hc0 & _)]; [done|]. by rewrite (proj2 (Z.eqb_neq c NULL) Hc0). }
  rewrite E6. cbn [mbind option_bind]. clear E6. rewrite Hq'. set (sig := signature_of _ _ _ _ _ _ _ _). set (w6 := set_mem w5 _).
  assert (Hr6 : request_rep (<[signature := (false, sig ++ 0 :: x)]> (<[ts := (false, date)]> m1)) w6 r5 mt sc h u hs5 qs) by by apply request_rep_insert.
  destruct (hexes_digest _ (HMAC256_digest (signing_key K Sk (Timer.timestamp_string now) (lit "1")) (hexes (SHA256 (canonical_request mt u (query_string (pairs qs)) (payload_hash body))) ++ NL ++ K ++ NL ++ Timer.timestamp_string now ++ NL ++ lit "1"))) as [Hsc Hsl].
  change (is_cstr sig) in Hsc. change (zlen sig = 64) in Hsl.
  assert (He6 : env (w_mem w6) (api st3) (secret st3) K Sk) by (apply env_store; [done|]; right; split; [done|]; rewrite zlen_app, zlen_cons; lia).
  destruct (buffer_freed m0 m1 w6 c (query_string (pairs qs)) r5 mt sc h u hs5 qs _ _ (buffer_same _ _ _ _ _ _ Hc5 ltac:(intros _ Hcs; by apply lookup_insert_ne, not_eq_sym)) Hr6) as (m7 & -> & Hr7 & Hl7 & Hs7').
  assert (Hp7 : payload_ok m7 r5 body) by (apply (payload_ok_same (w_mem w6) _ _ hs5 qs); [|done]; apply (payload_ok_same (w_mem w5) _ _ hs5 qs); [done|]; intros p s' Hp'; apply stored_same, lookup_insert_ne, not_eq_sym; by apply Has5).
  cbn [mbind option_bind]. set (w7 := set_mem w6 m7) in *. assert (He7 : env (w_mem w7) (api st3) (secret st3) K Sk) by (apply (env_live (w_mem w6)); done).
  assert (Hs7 : w_mem w7 !! signature = Some (false, sig ++ 0 :: x)) by (apply Hl7, lookup_insert_eq).
  destruct (signature_headers_ok _ w7 r5 mt sc h u hs5 qs (api st3) (secret st3) K Sk sig x Hr7 He7 Hs7 Hsc) as (w' & r' & hs' & E9 & Hr' & P9 & Hct' & He' & Hk9 & Hpl & R1 & R2 & R3' & R4'); [by rewrite Hr5r|].
 rewrite E9. cbn [mbind option_bind]. exists st6, w', r', hs', x. split; [done|]. cbv zeta. split; [exact Hr'|].
  split; [rewrite P9, P5, P4, P3; unfold signed_headers; rewrite <- !app_assoc; done|]. split; [done|].
  split; [|rewrite Hr5r in R1, R2, R3', R4', Hpl; split_and!; congruence || done]. unfold payload_ok in *. rewrite Hpl. destruct body as [b|]; [|done]. destruct Hp7 as [A B]. split; [done | by eapply stored_keeps].
Qed.

(** C17. A request that is signed carries the API key, the date of the clock and
    the signature of its method, path, queries and payload under the two keys,
    behind the headers it had; its method, host, path and queries do not change,
    the buffer of the canonical query is given back, and closing the request
    restores the memory up to the two static arrays. *)
Theorem sign_request_spec now st m0 w r mt sc h u hs qs K Sk body : request_rep m0 w r mt sc h u hs qs -> env (w_mem w) (api st) (secret st) K Sk -> zlen Sk < 128 ->
  Property.size (meth r) = zlen mt -> mt <> [] -> payload_ok (w_mem w) r body -> content_type r = (p_null, p_null) ->
  avoids ts r hs qs -> avoids signature r hs qs -> zlen (query_string (pairs qs)) < SIGN_BUFFER_LEN ->
  is_cstr (Timer.timestamp_string now) -> zlen (Timer.timestamp_string now) = 24 ->
  exists st' w' r' x, sign_request malloc new_node types literal api_key secret_key default_api_key default_secret_key restore_key_setting ts signature now st w r = Some (st', w', r') /\
    let sig := signature_of K Sk (Timer.timestamp_string now) mt u (query_string (pairs qs)) body (lit "1") in
    (text_of w' (meth r') = Some mt /\ text_of w' (host r') = Some h /\ text_of w' (uri r') = Some u /\ HttpClient.port r' = HttpClient.port r) /\
    map_texts w' (header r') (pairs hs ++ signed_headers (pairs hs) K (Timer.timestamp_string now) sig) /\ map_texts w' (query r') (pairs qs) /\
    (exists k v, content_type r' = (k, v) /\ text_of w' v = Some (lit "application/json")) /\ payload_ok (w_mem w') r' body /\
    exists w3, http_request_close types w' r' = Some (w3, zero_request) /\
      w_mem w3 = <[signature := (false, sig ++ 0 :: x)]> (<[ts := (false, Timer.timestamp_string now ++ [0])]> m0).
Proof.
  intros Hr He Hsk Hsize Hmt Hp Hct Hat Has Hq Hnow Hnowl.
  destruct (sign_request_ok now st m0 w r mt sc h u hs qs K Sk body) as (st' & w' & r' & hs' & x & E & Hr' & Ph & (k & v & Ek & _ & Hv) & Hp' & P1 & _); [done..|].
  exists st', w', r', x. split; [exact E|]. cbv zeta in *. destruct (http_request_close_ok _ _ _ _ _ _ _ _ _ Hr') as (w3 & Ec & Hm).
  destruct Hr' as [? _ ? ? Hh Hq' _ _ _]. apply map_rep_texts in Hh, Hq'. rewrite Ph in Hh. split; [by split_and!; try apply text_of_stored|]. split; [done|]. split; [done|].
  split; [exists k, v; split; [done | by apply text_of_stored]|]. split; [done|]. by exists w3.
Qed.

End proofs.
(** ** Samples: the texts of a request, the names of the signature, two keys and the arrays *)

#[local] Existing Instances GatewaySign.toy_hashes GatewaySign.toy_digests HttpExchange.sample_buffers.

Definition sign_literal (s : list Z) : Z := 100 + from_option (fun p => Z.of_nat p.1) 0 (list_find (fun x => x = s) (sample_names ++ names)).
Definition sign_extra : list (Z * (bool * list Z)) := zip (seqZ 129 14) (map (fun s => (false, s ++ [0])) names) ++
  [(90, (false, lit "api" ++ [0])); (91, (false, lit "secret" ++ [0])); (92, (false, replicate 25 0)); (93, (false, replicate 70 0))].
Definition sign_texts : memory := sample_texts ∪ list_to_map sign_extra.
Definition sign_heap : PropMap.world := mk_world sign_texts ∅ ∅.

Lemma sign_texts_grown : grown sample_texts sign_texts (map fst sign_extra).
Proof.
  assert (Hd : forallb (fun b => bool_decide (sample_texts !! b = None) && bool_decide (is_Some (sign_texts !! b))) (map fst sign_extra) = true) by by vm_compute.
  rewrite forallb_forall in Hd. split.
  - intros a [b Hb]. unfold sign_texts. rewrite Hb. by apply lookup_union_Some_l.
  - intros b Hb%list_elem_of_In. apply Hd, andb_prop in Hb as [Hb _]. by apply bool_decide_eq_true in Hb.
  - intros b Hb%list_elem_of_In. apply Hd, andb_prop in Hb as [_ Hb]. by apply bool_decide_eq_true in Hb.
  - apply (bool_decide_unpack _). by vm_compute.
  - apply (bool_decide_unpack _). by vm_compute.
Qed.

Lemma sign_literals : literals sign_literal sign_texts.
Proof.
  intros s Hs. revert s Hs. apply Forall_forall. change (METH_str ++ Scheme_str ++ CONTENT_TYPE :: find_by_name) with sample_names.
  apply (bool_decide_unpack _). by vm_compute.
Qed.

Lemma sign_steps_ok : Forall (step_ok sign_texts) sample_steps.
Proof. eapply Forall_impl; [exact sample_steps_ok|]. intros s [A B]. split; eapply copyable_grown; eauto using sign_texts_grown. Qed.

Lemma sign_env : env sign_literal 90 91 92 93 sign_texts NULL NULL (lit "api") (lit "secret").
Proof.
  split.
  - intros t Ht. revert t Ht. apply Forall_forall. apply (bool_decide_unpack _). by vm_compute.
  - split; (split; [done|]; split; [by repeat constructor|]); exists []; by vm_compute.
  - done.
  - done.
  - split; [done|]. exists (replicate 25 0). split; by vm_compute.
  - split; [done|]. exists (replicate 70 0). split; by vm_compute.
  - done.
Qed.

Lemma sign_elsewhere a : a = 92 \/ a = 93 -> Forall (elsewhere a) sample_steps /\ sign_literal (lit "GET") <> a /\ sign_literal (lit "https") <> a.
Proof. intros [-> | ->]; (split; [by repeat constructor | split; by vm_compute]). Qed.

(** The moment of the samples. *)
Definition sample_now : Timer.timestamp := Timer.mk_ts 0 7 5 4 23 9 2 2018.

(** GET https://host:443/api?from=3 with a header, signed. *)
Lemma sign_request_spec_witness :
  exists m r1 w1 r w' r' st' x,
    http_request_init bump_malloc types sign_literal sign_texts zero_request 0 1 = Some (m, r1) /\ fold_opt (apply_step bump_malloc sample_node) sample_steps (set_mem sign_heap m, r1) = Some (w1, r) /\
    sign_request bump_malloc sample_node types sign_literal 10 11 90 91 (fun m _ _ => (-1, m)) 92 93 sample_now (mk_state sign_texts [] ([], []) NULL NULL) w1 r = Some (st', w', r') /\
    let sig := signature_of (lit "api") (lit "secret") (lit "2018-02-09T23:04:05.007Z") (lit "GET") (lit "/api") (lit "from=3" ++ [13; 10]) None (lit "1") in
    map_texts w' (header r') ([(lit "Accept", lit "text")] ++ signed_headers [(lit "Accept", lit "text")] (lit "api") (lit "2018-02-09T23:04:05.007Z") sig) /\
    exists w3, http_request_close types w' r' = Some (w3, zero_request) /\ w_mem w3 = <[93 := (false, sig ++ 0 :: x)]> (<[92 := (false, lit "2018-02-09T23:04:05.007Z" ++ [0])]> sign_texts).
Proof.
  destruct (request_built bump_malloc bump_enough sample_node sample_node_ok sample_nodes sign_literal sign_heap zero_request 0 (lit "GET") (lit "https") (lit "host") 443 (lit "/api") 1 [] sample_steps)
    as (m & r1 & w1 & r & hs & qs & E1 & E2 & Hr & Ph & Pq & _ & _ & _ & P4 & P5 & P6 & Av); [exact sign_literals | done | exact sample_url | by vm_compute | exact sign_steps_ok |].
  assert (Ha : forall a, a = 92 \/ a = 93 -> avoids a r hs qs).
  { intros a Ha. destruct (sign_elsewhere a Ha) as (A & B & C). apply Av; [destruct Ha as [-> | ->]; eexists; by vm_compute | by destruct Ha as [-> | ->] | done..]. }
  destruct (sign_request_spec bump_malloc bump_enough sample_node sample_node_ok sample_nodes sign_literal 10 11 90 91 (fun m _ _ => (-1, m)) 92 93 sample_now
    (mk_state sign_texts [] ([], []) NULL NULL) sign_texts w1 r (lit "GET") (lit "https") (lit "host") (lit "/api") hs qs (lit "api") (lit "secret") None)
    as (st' & w' & r' & x & E & _ & Hh & _ & _ & _ & Hclose).
  - exact Hr.
  - apply (env_live _ _ _ _ _ sign_texts); [exact sign_env|]. intros p b. rewrite <- (rr_back _ _ _ _ _ _ _ _ _ Hr) at 1. rewrite delete_all_lookup. by destruct (decide _).
  - by vm_compute.
  - exact P6.
  - done.
  - unfold payload_ok. by rewrite P4.
  - exact P5.
  - apply Ha. by left.
  - apply Ha. by right.
  - rewrite Pq. by vm_compute.
  - by repeat constructor.
  - by vm_compute.
  - exists m, r1, w1, r, w', r', st', x. rewrite Ph, Pq in Hh; rewrite Pq in Hclose. split; [exact E1|]. split; [exact E2|]. split; [exact E|]. split; [exact Hh | exact Hclose].
Defined.

End SignRequest.
