(* ===== verification/HttpRoutine.v ===== *)
(** src/src/http/routine.c: one call of the API, from the function that makes the
    request to the one that reads the response; the request is signed in between.
    HTTP_VIA_MQTT is not defined. *)
From S2P Require Import Prelude StateM ByteQueue RingBuffer LinkedList Property PropMap PropOwn Double Timer ArrowUtf8 HttpClient HttpPeer HttpSend HttpReceive HttpExchange HttpRequest HttpBuild Crypt GatewaySign SignRequest.

Module HttpRoutine.
Import StateM RingBuffer Property PropOwn Double Utf8 HttpClient HttpPeer HttpSend HttpReceive HttpExchange HttpRequest HttpBuild Crypt SignRequest.

(** The entries of client_protocols. *)
Definition client_protocol_size : Z := 1.

(** A property that looks like one on the heap, at an address that is not. *)
Lemma free_in_wild disp w p : get_property_type disp p = Some dynamic_property_type -> flags p = PropMap.dyn_flags -> value p <> NULL -> PropMap.w_mem w !! value p = None -> free_in disp w p = None.
Proof.
  intros Ht Hf Hv Hm. unfold free_in, property_free. rewrite Ht. unfold dynmc_destroy, flag, mem_free. rewrite Hf, (proj2 (Z.eqb_neq _ NULL) Hv), Hm. done.
Qed.

Section routine.
Context {U W : Type} `{ByteQueue U} `{Net W} `{Hashes} `{Buffers}.
Context (malloc : memory -> Z -> option (Z * list Z)) (new_node : gmap Z Z -> option Z) (disp : list prop_type) (literal : list Z -> Z).
Context (api_key secret_key default_api_key default_secret_key : Z).
Context (restore_key_setting : memory -> Z -> Z -> Z * memory).
Context (ts signature : Z).

(** What the caller gives: the request, and what to do with the response; a
    result and what it leaves of the client, the memory, the world and the response. *)
Context (req_init : PropMap.world -> http_request_t -> option (PropMap.world * http_request_t)).
Context (resp_proc : option (@st U W -> http_response_t -> option (Z * @st U W * http_response_t))).
(** What the local variables hold before they are set. *)
Context (no_request : http_request_t) (no_response : http_response_t).

Definition with_props (s : @st U W) (w : PropMap.world) : @st U W := mk_st (cl s) w (wd s).

(** [ph->client_close(&_cli)] *)
Definition client_close (s : @st U W) : option (@st U W) := '(_, s) ← default_http_client_close s; Some s.

(** The state of the keys, the client and the responses. *)
Definition __http_routine (fuel : nat) (now : Timer.timestamp) (ks : Crypt.state) (s : @st U W) : option (Z * Crypt.state * @st U W) :=
  if client_protocol_size <? protocol (cl s) then Some (-2, ks, s) else
  '(w, request) ← req_init (props s) no_request;
  '(ks, w, request) ← sign_request malloc new_node disp literal api_key secret_key default_api_key default_secret_key restore_key_setting ts signature now ks w request;
  let s := with_props s w in
  if client_protocol_size <=? protocol (cl s) then None else
  '(ret, s) ← default_http_client_open malloc disp request s;
  '(ret, response, s) ← (if 0 <=? ret then
      '(r, s) ← default_http_client_do malloc disp fuel no_response s;
      Some (r.1, r.2, s)
    else Some (ret, no_response, s));
  '(w, _) ← http_request_close disp (props s) request;
  s ← client_close (with_props s w);
  '(ret, response, s) ← (if ret <? 0 then Some (ret, response, s) else
    match resp_proc with
    | Some proc => '(ret, s, response) ← proc s response; Some (ret, response, s)
    | None => Some (if negb (m_httpResponseCode response =? 200) then -1 else ret, response, s)
    end);
  '(w, _) ← http_response_free disp (props s) response;
  let s := with_props s w in
  s ← (if negb (http_session_is_open (cl s) =? 0) && (ret <? 0) then
         '(_, s) ← http_session_close_set true s; client_close s
       else Some s);
  Some (ret, ks, s).

(** The response is a local variable that only client_do sets. When the session
    does not open it is freed as the stack left it: with a payload that happens
    to look like one on the heap, at an address that is not, the call is undefined. *)
Lemma http_routine_open_failed fuel now ks s w r ks' w1 r1 ret s1 w2 r2 s2 : protocol (cl s) = api_via_http ->
  req_init (props s) no_request = Some (w, r) ->
  sign_request malloc new_node disp literal api_key secret_key default_api_key default_secret_key restore_key_setting ts signature now ks w r = Some (ks', w1, r1) ->
  default_http_client_open malloc disp r1 (with_props s w1) = Some (ret, s1) -> ret < 0 -> http_request_close disp (props s1) r1 = Some (w2, r2) -> client_close (with_props s1 w2) = Some s2 ->
  get_property_type disp (r_payload (res_data no_response)) = Some dynamic_property_type -> flags (r_payload (res_data no_response)) = PropMap.dyn_flags -> value (r_payload (res_data no_response)) <> NULL -> PropMap.w_mem (props s2) !! value (r_payload (res_data no_response)) = None ->
  __http_routine fuel now ks s = None.
Proof.
  intros Hp E1 E2 E3 Hret E4 E5 Ht Hf Hv Hm. unfold __http_routine. rewrite Hp. change (client_protocol_size <? api_via_http) with false. cbv iota.
  rewrite E1. cbn [mbind option_bind]. rewrite E2. cbn [mbind option_bind]. cbv zeta. cbn [with_props cl]. rewrite Hp. change (client_protocol_size <=? api_via_http) with false. cbv iota.
  change (mk_st (cl s) w1 (wd s)) with (with_props s w1). rewrite E3. cbn [mbind option_bind]. rewrite (proj2 (Z.leb_gt 0 ret)) by done. cbn [mbind option_bind]. rewrite E4. cbn [mbind option_bind].
  rewrite E5. cbn [mbind option_bind]. rewrite (proj2 (Z.ltb_lt ret 0)) by done. cbn [mbind option_bind].
  unfold http_response_free. rewrite free_in_wild by done. done.
Qed.

End routine.

(** ** A signed call *)

(** The lines of a request without a payload fit the buffers. *)
Record lines_ok (mt u h : list Z) (port : Z) (hs qs : list (list Z * list Z)) : Prop := {
  lo_start : zlen (request_line mt u qs) <= MAX_TMP_BUF_SIZE;
  lo_host : zlen (host_line h port) < MAX_TMP_BUF_SIZE;
  lo_headers : Forall (fun kv => line_ok (header_line kv)) hs;
}.

(** What a server receives. *)
Definition call_text (mt u h : list Z) (port : Z) (hs qs : list (list Z * list Z)) : list Z :=
  request_line mt u qs ++ host_line h port ++ concat (map header_line hs) ++ CRLF.

(** A response that is read: a function of the status code and the text of the
    payload, which leaves everything as it is. *)
Definition read_response {U W} (k : Z -> list Z -> Z) (s : @st U W) (res : http_response_t) : option (Z * @st U W * http_response_t) :=
  t ← (if IS_EMPTY (r_payload (res_data res)) then Some [] else text_of (props s) (r_payload (res_data res)));
  Some (k (m_httpResponseCode res) t, s, res).

(** The result of a call: the one of the reader, or what the status code says. *)
Definition call_result (reader : option (Z -> list Z -> Z)) (code : Z) (body : list Z) : Z :=
  match reader with Some k => k code body | None => if code =? 200 then 0 else -1 end.

Section call.
Context {U W : Type} `{ByteQueue U} `{NetPeer W} `{Digests} `{Buffers}.
Context (malloc : memory -> Z -> option (Z * list Z)) `{Hmalloc : !Malloc malloc}.
Context (Henough : forall m n, 0 <= n -> malloc m n <> None).
Context (new_node : gmap Z Z -> option Z).
Context (Hnew : forall next el, new_node next = Some el -> next !! el = None /\ el <> NULL).
Context (Hnodes : forall next, new_node next <> None).
Context (literal : list Z -> Z).
Context (api_key secret_key default_api_key default_secret_key : Z).
Context (restore_key_setting : memory -> Z -> Z -> Z * memory).
Context (ts signature : Z).

(** A function that makes a request from a URL, headers and queries. *)
Definition request_from (k : nat) (url : Z) (steps : list step) (w : PropMap.world) (req : http_request_t) : option (PropMap.world * http_request_t) :=
  '(m, r) ← http_request_init malloc types literal (PropMap.w_mem w) req (Z.of_nat k) url;
  fold_opt (apply_step malloc new_node) steps (PropMap.set_mem w m, r).

(** Opening a session that is open prepares the client. *)
Lemma open_again (cli : @http_client_t U) (q : U) w (wd0 : W) r : protocol cli = api_via_http -> 0 <= sock cli -> queue cli = Some q -> q_ok q -> q_room q + zlen (q_bytes q) = RINGBUFFER_SIZE - 1 ->
  does (default_http_client_open malloc types r) (mk_st cli w wd0) (fun ret s' => ret = 0 /\ rep (with_request cli (Some r)) w (mk_abs [] 0 (see wd0)) s').
Proof.
  intros Hp Hs Hq Hok Hroom. unfold default_http_client_open, does. erewrite bind_run by done. erewrite bind_run by done. cbn [protocol queue sock with_request with_response_code cl].
  rewrite Hp, Hq. change (negb (api_via_http =? api_via_http)) with false. cbv iota.
  assert (Hrep : rep (with_request cli (Some r)) w (mk_abs (q_bytes q) 0 (see wd0)) (mk_st (with_request (with_response_code cli 0) (Some r)) w wd0)).
  { exists q, wd0. split_and!; try done. unfold with_response_code, with_queue, with_request. cbn. by rewrite Hq. }
  destruct (runs_clear (with_request cli (Some r)) w (mk_abs (q_bytes q) 0 (see wd0)) (fun x a => x = 0 /\ a = mk_abs [] 0 (see wd0)) ltac:(done) _ Hrep) as (x & s' & E & a' & Hs' & -> & ->).
  erewrite bind_run by exact E. rewrite (proj2 (Z.ltb_ge (sock cli) 0)) by done. exists 0, s'. done.
Qed.

(** Closing a session that stays open. *)
Lemma close_keeps (s : @st U W) : protocol (cl s) = api_via_http -> 0 <= sock (cl s) -> f_close (cl s) = false -> client_close s = Some (mk_st (with_request (cl s) None) (props s) (wd s)).
Proof.
  intros Hp Hs Hf. unfold client_close, default_http_client_close. erewrite bind_run by done. cbv zeta. erewrite bind_run by done. cbn [protocol sock f_close with_request].
  rewrite Hp, (proj2 (Z.ltb_ge (sock (cl s)) 0)), Hf by done. done.
Qed.

(** Freeing a response gives back the copy of the payload, if there is one. *)
Lemma response_free_none w res : res_data res = no_data -> http_response_free types w res = Some (w, http_response_init no_meth).
Proof. intros Hd. unfold http_response_free, free_in. rewrite Hd. by destruct w. Qed.

Lemma response_free_payload w res v n b : res_data res = mk_data NULL (p_null, p_null) (mk_prop v PropMap.dyn_flags n) -> v <> NULL -> PropMap.w_mem w !! v = Some (true, b) ->
  http_response_free types w res = Some (PropMap.set_mem w (delete v (PropMap.w_mem w)), http_response_init no_meth).
Proof.
  intros Hd Hv0 Hv. unfold http_response_free. rewrite Hd. cbn [r_payload r_header r_content_type fst snd].
  assert (E : property_free types (PropMap.w_mem w) (mk_prop v PropMap.dyn_flags n) = Some (delete v (PropMap.w_mem w), p_null)).
  { unfold property_free. rewrite get_property_type_tag. unfold prop_tag, flag. cbn. unfold dynmc_destroy, flag, mem_free. cbn [flags value]. cbn. by rewrite (proj2 (Z.eqb_neq _ NULL) Hv0), Hv. }
  unfold free_in. rewrite E. done.
Qed.

(** What is made of the URL and the steps. *)
Lemma request_from_ok w req0 k mt sc h port_ u url tail steps : literals literal (PropMap.w_mem w) -> METH_str !! k = Some mt -> url_ok sc h port_ u ->
  bytes_at (PropMap.w_mem w) url = Some (url_text sc h port_ u ++ 0 :: tail) -> Forall (step_ok (PropMap.w_mem w)) steps ->
  exists w1 r hs qs, request_from k url steps w req0 = Some (w1, r) /\ request_rep (PropMap.w_mem w) w1 r mt sc h u hs qs /\ PropMap.pairs hs = headers_of steps /\ PropMap.pairs qs = queries_of steps /\
    HttpClient.port r = port_ /\ payload r = p_null /\ content_type r = (p_null, p_null) /\ Property.size (meth r) = zlen mt /\
    response_payload_meth r = mk_meth default_handler default_handler /\ keeps (PropMap.w_mem w) (PropMap.w_mem w1) /\
    (forall a, is_Some (PropMap.w_mem w !! a) -> a <> NULL -> literal mt <> a -> literal sc <> a -> Forall (elsewhere a) steps -> avoids a r hs qs).
Proof.
  intros Hl Hk Hu Hurl Hst. destruct (request_built malloc Henough new_node Hnew Hnodes literal w req0 k mt sc h port_ u url tail steps Hl Hk Hu Hurl Hst)
    as (m & r1 & w1 & r & hs & qs & E1 & E2 & Hrep & Ph & Pq & P1 & P2 & P3 & P4 & P5 & P6 & P7 & Av).
  exists w1, r, hs, qs. unfold request_from. rewrite E1. cbn [mbind option_bind]. split; [done|]. split_and!; try done.
  intros p b Hp. rewrite <- (rr_back _ _ _ _ _ _ _ _ _ Hrep), PropMap.delete_all_lookup in Hp. by destruct (decide _).
Qed.

(** The exchange of a request without a payload. *)
Lemma plain_exchange fuel (cli : @http_client_t U) w m0 r mt sc h u hs qs r0 s c more n rhs res wire ps rest (wd0 : W) : request_rep m0 w r mt sc h u hs qs -> payload r = p_null ->
  lines_ok mt u h (HttpClient.port r) (PropMap.pairs hs) (PropMap.pairs qs) -> response_ok fuel (response_payload_meth r) c more n rhs res wire ps -> steps_ok fuel -> input (see wd0) = response_text c more rhs wire ++ rest ->
  rep (with_request cli (Some r)) w (mk_abs [] 0 (see wd0)) s ->
  match hand_all malloc types (p_add_handler (response_payload_meth r)) ps (w, no_data, pieces (see wd0)) with
  | None => default_http_client_do malloc types fuel r0 s = None
  | Some (w', d, qs') => does (default_http_client_do malloc types fuel r0) s (fun x s' => x = (0, processed (with_data res d) (length ps)) /\ props s' = w' /\
      sock (cl s') = sock cli /\ f_close (cl s') = f_close cli /\ protocol (cl s') = protocol cli /\
      output (see (wd s')) = output (see wd0) ++ call_text mt u h (HttpClient.port r) (PropMap.pairs hs) (PropMap.pairs qs) /\ pieces (see (wd s')) = qs')
  end.
Proof.
  intros [S1 S2 S3 S4 Hmh Hmq _ _ _] Hp [L1 L2 L3] Hres Hf Hin Hs. apply map_rep_texts in Hmh, Hmq.
  destruct (effects_keep _ _ _ (re_effect _ _ _ _ _ _ _ _ _ Hres)) as [Em Ed]. cbn [res_meth res_data] in Em, Ed. rewrite <- Em, <- Ed.
  assert (Hx : ends (with_request cli (Some r)) (default_http_client_do malloc types fuel r0) (mk_abs [] 0 (see wd0)) w (delivered malloc types res ps w (mk_abs [] 0 (see wd0)) (fun qs' a' =>
    stream a' = rest /\ code a' = u16 n /\ output (net a') = output (see wd0) ++ request_text r mt u h (PropMap.pairs qs) [] [] (PropMap.pairs hs) /\ pieces (net a') = qs'))).
  { apply (exchange_ends malloc types fuel (with_request cli (Some r)) w (mk_abs [] 0 (see wd0)) r mt u h (PropMap.pairs qs) [] [] (PropMap.pairs hs) c more n rhs res wire ps rest r0); [done | | done | done | done].
    split; [| | by cbv | done | done].
    + split; try done; by apply text_of_stored.
    + left. split; [|done]. unfold no_body. by rewrite Hp. }
  pose proof (ends_delivered malloc types _ _ _ _ _ _ _ _ Hx Hs) as Hd. cbn [net] in Hd. destruct (hand_all _ _ _ _ _) as [[[w' d] qs']|]; [|done].
  eapply does_mono; [exact Hd|]. intros x s' (-> & a' & (q' & w1 & -> & _ & _ & _ & Hv) & _ & _ & Hoo & Hpp). cbn [cl wd props]. rewrite Hv, Hoo, Hpp. split_and!; try done.
  unfold request_text, call_text, header_text. cbn [payload_text]. by rewrite app_nil_r.
Qed.

(** The request and then the response are given back, whatever the default handler
    has copied in between. *)
Lemma close_and_free w2 w2' m0 r mt sc h u hs qs res d ps : request_rep m0 w2 r mt sc h u hs qs ->
  (ps = [] /\ w2' = w2 /\ d = no_data) \/
    (exists p v, ps = [p] /\ PropMap.w_mem w2 !! v = None /\ v <> NULL /\ w2' = PropMap.set_mem w2 (<[v := (true, p ++ [0])]> (PropMap.w_mem w2)) /\
       d = mk_data NULL (p_null, p_null) (mk_prop v PropMap.dyn_flags (zlen p))) -> Forall is_cstr ps -> res_data res = d ->
  exists w3 w4, http_request_close types w2' r = Some (w3, zero_request) /\
    (if IS_EMPTY (r_payload (res_data res)) then Some [] else text_of w3 (r_payload (res_data res))) = Some (concat ps) /\
    http_response_free types w3 res = Some (w4, http_response_init no_meth) /\ PropMap.w_mem w4 = m0.
Proof.
  intros Hr [(-> & -> & ->) | (p & v & -> & Hv & Hv0 & -> & ->)] Hps Hd; rewrite Hd.
  - destruct (http_request_close_ok _ _ _ _ _ _ _ _ _ Hr) as (w3 & Ec & Hm). exists w3, w3. split; [done|]. split; [done|]. split; [by apply response_free_none | done].
  - apply Forall_cons in Hps as [Hp _].
    destruct (http_request_close_ok _ _ _ _ _ _ _ _ _ (request_rep_insert m0 w2 r mt sc h u hs qs v (true, p ++ [0]) Hr ltac:(by eapply avoids_fresh))) as (w3 & Ec & Hm).
    assert (Hm3 : PropMap.w_mem w3 !! v = Some (true, p ++ [0])) by (rewrite Hm; apply lookup_insert_eq).
    exists w3, (PropMap.set_mem w3 (delete v (PropMap.w_mem w3))). split; [done|]. split; [|split].
    + cbn [r_payload]. unfold IS_EMPTY, text_of, bytes_at. cbn [value]. rewrite (proj2 (Z.eqb_neq _ NULL) Hv0), Hm3. cbn [mbind option_bind concat]. rewrite app_nil_r. by apply cstr_app.
    + by eapply response_free_payload.
    + cbn [PropMap.set_mem PropMap.w_mem]. rewrite Hm. apply delete_insert_id. rewrite <- (rr_back _ _ _ _ _ _ _ _ _ Hr), PropMap.delete_all_lookup. by case_decide.
Qed.

Ltac reach_do Hpr E1 E2 Eo :=
  unfold __http_routine; cbn [cl props]; rewrite Hpr; change (client_protocol_size <? api_via_http) with false; cbv iota;
  rewrite E1; cbn [mbind option_bind]; rewrite E2; cbn [mbind option_bind];
  match goal with |- context [with_props (mk_st ?c ?w ?d) ?w2] => change (with_props (mk_st c w d) w2) with (mk_st c w2 d) end;
  cbv zeta; cbn [cl]; rewrite Hpr; change (client_protocol_size <=? api_via_http) with false; cbv iota;
  rewrite Eo; cbn [mbind option_bind]; change (0 <=? 0) with true; cbv iota.

(** C4. A call of the API over an open session, with the request that
    [http_request_init] makes of the URL - the default payload handlers among
    its fields - and the headers and queries that are added, that ends with a
    result that is not negative, so that the session stays open. When the server
    answers with a body that reaches the client in at most one piece, the server
    has got the request with the headers of the signature behind its own, the
    result is the one of the reader of the response, which is given the status
    code and the body, or without a reader 0 for status 200, and afterwards the
    memory is as before up to the arrays of the date and the signature: the
    request and the copy of the body are given back. When the body comes in two
    pieces or more - it is longer than 512 bytes or has two chunks - the default
    handler writes past the end of its copy, and the call is undefined. *)
Theorem http_routine_signed w req0 no_response k mt sc h port_ u url tail steps (cli : @http_client_t U) (q : U) (wd0 : W) fuel c more n rhs res wire ps rest now ks K Sk reader :
  literals literal (PropMap.w_mem w) -> env literal default_api_key default_secret_key ts signature (PropMap.w_mem w) (api ks) (secret ks) K Sk -> zlen Sk < 128 ->
  METH_str !! k = Some mt -> url_ok sc h port_ u -> bytes_at (PropMap.w_mem w) url = Some (url_text sc h port_ u ++ 0 :: tail) ->
  Forall (step_ok (PropMap.w_mem w)) steps -> (forall a, a = ts \/ a = signature -> Forall (elsewhere a) steps /\ literal mt <> a /\ literal sc <> a) ->
  zlen (query_string (queries_of steps)) < SIGN_BUFFER_LEN -> is_cstr (Timer.timestamp_string now) -> zlen (Timer.timestamp_string now) = 24 ->
  let sig := signature_of K Sk (Timer.timestamp_string now) mt u (query_string (queries_of steps)) None (lit "1") in
  let hs := headers_of steps ++ signed_headers (headers_of steps) K (Timer.timestamp_string now) sig in
  let run := __http_routine malloc new_node types literal api_key secret_key default_api_key default_secret_key restore_key_setting ts signature
    (request_from k url steps) (option_map read_response reader) req0 no_response fuel now ks (mk_st cli w wd0) in
  lines_ok mt u h port_ hs (queries_of steps) ->
  protocol cli = api_via_http -> 0 <= sock cli -> f_close cli = false -> queue cli = Some q -> q_ok q -> q_room q + zlen (q_bytes q) = RINGBUFFER_SIZE - 1 ->
  response_ok fuel (mk_meth default_handler default_handler) c more n rhs res wire ps -> Forall is_cstr ps -> 0 <= call_result reader (m_httpResponseCode res) (concat ps) ->
  steps_ok fuel -> input (see wd0) = response_text c more rhs wire ++ rest ->
  ((length ps <= 1)%nat -> exists ks' s' x, run = Some (call_result reader (m_httpResponseCode res) (concat ps), ks', s') /\
    output (see (wd s')) = output (see wd0) ++ call_text mt u h port_ hs (queries_of steps) /\
    PropMap.w_mem (props s') = <[signature := (false, sig ++ 0 :: x)]> (<[ts := (false, Timer.timestamp_string now ++ [0])]> (PropMap.w_mem w)) /\ request (cl s') = None) /\
  ((2 <= length ps)%nat -> run = None).
Proof.
  intros Hl He Hsk Hk Hu Hurl Hst Hels Hq Hnow Hnowl sig hs run [L1 L2 L3] Hpr Hsock Hcl Hqq Hqok Hroom Hres Hps Hans Hf Hin.
  destruct (request_from_ok w req0 k mt sc h port_ u url tail steps Hl Hk Hu Hurl Hst) as (w1 & r1 & hs1 & qs & E1 & Hr1 & Ph & Pq & P1 & P3 & P4 & P5 & P6 & Hk1 & Av).
  destruct (meth_name literal k mt Hk) as (_ & _ & _ & _ & Hmt).
  assert (Ha : forall a, a = ts \/ a = signature -> avoids a r1 hs1 qs).
  { intros a Ha. destruct (Hels a Ha) as (A & B & C). apply Av; [| | done..]; destruct Ha as [-> | ->]; destruct (env_ts _ _ _ _ _ _ _ _ _ _ He) as (? & b & ? & ?), (env_signature _ _ _ _ _ _ _ _ _ _ He) as (? & b' & ? & ?); by try eexists. }
  destruct (sign_request_ok malloc Henough new_node Hnew Hnodes literal api_key secret_key default_api_key default_secret_key restore_key_setting ts signature
    now ks (PropMap.w_mem w) w1 r1 mt sc h u hs1 qs K Sk None Hr1) as (ks' & w2 & r2 & hs2 & x & E2 & Hr2 & Ph2 & _ & Hp2 & R1 & R2 & R3 & R4 & R5 & _); try done.
  { apply (env_live literal default_api_key default_secret_key ts signature (PropMap.w_mem w)); [done|]. intros a b. apply Hk1. }
  { unfold payload_ok. by rewrite P3. } { by apply Ha; left. } { by apply Ha; right. } { by rewrite Pq. }
  cbv zeta in Hr2, Ph2. rewrite Ph, Pq in *. fold sig in Hr2, Ph2. fold hs in Ph2. rewrite P6 in R5.
  destruct (open_again cli q w2 wd0 r2 Hpr Hsock Hqq Hqok Hroom) as (ret & s1 & Eo & -> & Hs1).
  pose proof (plain_exchange fuel cli w2 _ r2 mt sc h u hs2 qs no_response s1 c more n rhs res wire ps rest wd0 Hr2) as Hx. rewrite R5, Ph2, Pq, R1, P1 in Hx.
  specialize (Hx ltac:(congruence) ltac:(done) Hres Hf Hin Hs1). cbn [p_add_handler] in Hx. unfold run. clear run. split; intros Hlen.
  2: { rewrite (hand_all_default_more malloc Henough) in Hx by done. reach_do Hpr E1 E2 Eo. by rewrite Hx. }
  destruct (hand_all_default malloc Henough w2 (pieces (see wd0)) ps Hps Hlen) as (w2' & d & Eh & Hcase). rewrite Eh in Hx.
  destruct Hx as (out & s2 & E3 & -> & Hw & Hsock2 & Hcl2 & Hpr2 & Hoo & _).
  destruct (close_and_free w2 w2' _ r2 mt sc h u hs2 qs (processed (with_data res d) (length ps)) d ps Hr2 Hcase Hps eq_refl) as (w3 & w4 & Ec & Er & Efree & Hm).
  exists ks', (mk_st (with_request (cl s2) None) w4 (wd s2)), x. split; [|cbn [cl props wd]; by rewrite Hoo, Hm].
  reach_do Hpr E1 E2 Eo. rewrite E3. cbn [mbind option_bind fst snd]. rewrite Hw, Ec. cbn [mbind option_bind].
  unfold with_props. rewrite close_keeps by (cbn [cl]; congruence). cbn [mbind option_bind cl props wd]. change (0 <? 0) with false. cbv iota.
  change (m_httpResponseCode (processed _ _)) with (m_httpResponseCode res).
  destruct reader as [kf|]; cbn [option_map call_result] in *.
  - unfold read_response. cbn [props]. rewrite Er. cbn [mbind option_bind cl props wd]. rewrite Efree. cbn [mbind option_bind].
    change (m_httpResponseCode (processed _ _)) with (m_httpResponseCode res). rewrite (proj2 (Z.ltb_ge _ 0) Hans), andb_false_r. done.
  - destruct (Z.eqb_spec (m_httpResponseCode res) 200); [|lia]. cbn [negb mbind option_bind cl props wd]. rewrite Efree. cbn [mbind option_bind]. rewrite andb_false_r. done.
Qed.
End call.

(** GET https://host:443/api?from=3 over the open socket 3, signed, with a reader
    that returns the length of the body: once with a response in one piece, once
    with one in two chunks. *)
#[local] Existing Instances GatewaySign.toy_hashes GatewaySign.toy_digests.
Definition open_client : @http_client_t ring_buffer_t := mk_client 3 10000 0 false false (Some sample_queue) None api_via_http.
Definition sample_reader (code : Z) (body : list Z) : Z := zlen body.
Definition sample_run (i : list Z) : option (Z * Crypt.state * @st ring_buffer_t view) :=
  __http_routine bump_malloc PropMap.sample_node types sign_literal 10 11 90 91 (fun m _ _ => (-1, m)) 92 93
    (request_from bump_malloc PropMap.sample_node sign_literal 0 1 sample_steps) (Some (read_response sample_reader)) zero_request (http_response_init no_meth)
    (Z.to_nat 3000) sample_now (Crypt.mk_state sign_texts [] ([], []) NULL NULL) (mk_st open_client sign_heap (mk_view i [] [])).

Definition one_chunk : list Z := concat (map wire_chunk [(lit "5", lit "hello")]) ++ lit "0" ++ CRLF.
Definition two_chunks : list Z := concat (map wire_chunk [(lit "5", lit "hello"); (lit "02", lit "!!")]) ++ lit "0" ++ CRLF.
Definition sample_input (wire : list Z) : list Z := response_text (lit "200") [] [(lit "Transfer-Encoding", lit "chunked")] wire ++ CRLF.

Lemma one_chunk_response hd : response_ok (Z.to_nat 3000) hd (lit "200") [] 200 [(lit "Transfer-Encoding", lit "chunked")] (mk_response 200 1 0 0 hd no_data) one_chunk [lit "hello"].
Proof.
  destruct (sample_response hd) as [R1 R2 R3 R4 R5 R6 _]. split; try done.
  apply (by_chunks _ _ [(lit "5", lit "hello")]); [done | | cbn [length]; lia |].
  - repeat constructor; try (by cbv); left; by cbv.
  - split; [split; [by repeat constructor | by vm_compute] | by cbv | by vm_compute].
Qed.

Lemma http_routine_signed_witness :
  let sig := signature_of (lit "api") (lit "secret") (lit "2018-02-09T23:04:05.007Z") (lit "GET") (lit "/api") (lit "from=3" ++ [13; 10]) None (lit "1") in
  (exists ks' s', sample_run (sample_input one_chunk) = Some (5, ks', s') /\
    output (wd s') = call_text (lit "GET") (lit "/api") (lit "host") 443
      ([(lit "Accept", lit "text")] ++ signed_headers [(lit "Accept", lit "text")] (lit "api") (lit "2018-02-09T23:04:05.007Z") sig) [(lit "from", lit "3")]) /\
  sample_run (sample_input two_chunks) = None.
Proof.
  intros sig.
  pose proof (fun i wire ps => http_routine_signed bump_malloc PropMap.bump_enough PropMap.sample_node PropMap.sample_node_ok sample_nodes sign_literal 10 11 90 91 (fun m _ _ => (-1, m)) 92 93
    sign_heap zero_request (http_response_init no_meth) 0 (lit "GET") (lit "https") (lit "host") 443 (lit "/api") 1 [] sample_steps open_client sample_queue (mk_view i [] []) (Z.to_nat 3000)
    (lit "200") [] 200 [(lit "Transfer-Encoding", lit "chunked")] (mk_response 200 1 0 0 (mk_meth default_handler default_handler) no_data)
    wire ps CRLF sample_now (Crypt.mk_state sign_texts [] ([], []) NULL NULL) (lit "api") (lit "secret") (Some sample_reader)
    sign_literals sign_env ltac:(by vm_compute) eq_refl sample_url ltac:(by vm_compute) sign_steps_ok sign_elsewhere ltac:(by vm_compute) ltac:(by repeat constructor) ltac:(by vm_compute)
    ltac:(split; [by vm_compute | by vm_compute |]; repeat constructor; by vm_compute)
    eq_refl ltac:(done) eq_refl eq_refl sample_queue_ok ltac:(by vm_compute)) as Hx.
  assert (Hfuel : steps_ok (Z.to_nat 3000)) by (unfold steps_ok; change RINGBUFFER_SIZE with 1024; lia). split.
  - destruct (Hx (sample_input one_chunk) one_chunk [lit "hello"] (one_chunk_response _)) as [Hrun _]; [by repeat constructor | done | exact Hfuel | done |].
    destruct Hrun as (ks' & s' & x & E & Ho & _); [done|]. exists ks', s'. split; [exact E | exact Ho].
  - destruct (Hx (sample_input two_chunks) two_chunks [lit "hello"; lit "!!"] (sample_response _)) as [_ Hrun]; [by repeat constructor | done | exact Hfuel | done |].
    apply Hrun. cbn [length]. lia.
Defined.

End HttpRoutine.
