(* ===== verification/EventQueue.v ===== *)
(** Queues of allocated nodes over src/src/data/linkedlist.c, as the macros
    arrow_linked_list_add_node_last and arrow_linked_list_del_node_first build them:
    src/src/arrow/events.c has two of them. A node is a link and its contents, at
    the address that allocating gave it. *)
From S2P Require Import Prelude LinkedList.

Module EventQueue.
Import LinkedList.

Record queue (A : Type) := mk_queue { q_root : Z; q_links : heap; q_nodes : gmap Z A }.
Arguments mk_queue {A} _ _ _.
Arguments q_root {A} _.
Arguments q_links {A} _.
Arguments q_nodes {A} _.

Section queue.
Context {A : Type}.
Context (new_node : heap -> option Z).

(** A node from the allocator, set and with its link cleared; NULL without memory. *)
Definition alloc_node (q : queue A) (a : A) : queue A * Z :=
  match new_node (q_links q) with
  | Some el => (mk_queue (q_root q) (<[el := NULL]> (q_links q)) (<[el := a]> (q_nodes q)), el)
  | None => (q, NULL)
  end.
Definition get_node (q : queue A) (el : Z) : option A := q_nodes q !! el.
Definition set_node (q : queue A) (el : Z) (a : A) : queue A := mk_queue (q_root q) (q_links q) (<[el := a]> (q_nodes q)).
Definition free_node (q : queue A) (el : Z) : queue A := mk_queue (q_root q) (delete el (q_links q)) (delete el (q_nodes q)).

Definition add_node_last (q : queue A) (el : Z) : option (queue A) :=
  '(links, root) ← arrow_linked_list_add_node_last (q_links q) (q_root q) el; Some (mk_queue root links (q_nodes q)).
Definition del_node_first (q : queue A) : option (queue A) :=
  '(links, root) ← arrow_linked_list_del_node_first (q_links q) (q_root q); Some (mk_queue root links (q_nodes q)).

(** The loop that counts the nodes. *)
Definition count (q : queue A) : option Z :=
  for_each (nodes_fuel (q_links q)) (fun _ => q_links q) (fun _ n => Some (n + 1)) (q_root q) 0.

(** The macro [linked_list_find_node] with a comparison that may be undefined: the first node
    it accepts, and its contents. *)
Fixpoint find_node (fuel : nat) (q : queue A) (eq : A -> option bool) (p : Z) : option (option (Z * A)) :=
  match fuel with
  | O => None
  | S fuel' =>
      if p =? NULL then Some None else
      a ← get_node q p;
      e ← eq a;
      if (e : bool) then Some (Some (p, a)) else next ← q_links q !! p; find_node fuel' q eq next
  end.
Definition linked_list_find_node (q : queue A) (eq : A -> option bool) : option (option (Z * A)) := find_node (nodes_fuel (q_links q)) q eq (q_root q).

(** ** Sequences *)

(** The queue holds [l] in order, in nodes of its own, and no node is lost. *)
Record holds (q : queue A) (ps : list Z) (l : list A) : Prop := {
  h_list : is_list (q_links q) (q_root q) ps;
  h_nodes : Forall2 (fun p a => q_nodes q !! p = Some a) ps l;
  h_links : dom (q_links q) = list_to_set ps;
  h_dom : dom (q_nodes q) = list_to_set ps;
}.

Context (Hnew : forall links el, new_node links = Some el -> links !! el = None /\ el <> NULL).

Lemma holds_empty : holds (mk_queue NULL ∅ ∅) [] [].
Proof. by split; rewrite ?dom_empty_L. Qed.

Lemma holds_NoDup q ps l : holds q ps l -> NoDup ps.
Proof. intros Hq. eapply is_list_NoDup, Hq. Qed.

Lemma holds_root q ps l : holds q ps l -> q_root q = default NULL (head ps).
Proof. intros [Hl _ _ _]. destruct ps; [exact Hl | apply Hl]. Qed.

(** The root is NULL exactly when nothing is queued. *)
Lemma holds_null q ps l : holds q ps l -> (q_root q =? NULL) = match l with [] => true | _ => false end.
Proof.
  intros Hq. pose proof (h_nodes _ _ _ Hq) as Hn. pose proof (h_list _ _ _ Hq) as Hl. destruct Hn as [|p a ps l _ _]; cbn in Hl.
  - by rewrite Hl.
  - destruct Hl as (-> & Hp & _). by apply Z.eqb_neq.
Qed.

Lemma holds_length q ps l : holds q ps l -> length ps = length l.
Proof. intros Hq. eapply Forall2_length, Hq. Qed.

Lemma holds_fresh q ps l el : holds q ps l -> q_links q !! el = None -> el ∉ ps.
Proof. intros Hq Hel Hin. apply not_elem_of_dom in Hel. rewrite (h_links _ _ _ Hq) in Hel. by apply Hel, elem_of_list_to_set. Qed.

(** A node that is taken, set and given back leaves the queue as it was. *)
Lemma alloc_free q ps l a b el q1 : holds q ps l -> alloc_node q a = (q1, el) -> el <> NULL -> free_node (set_node q1 el b) el = q.
Proof.
  intros Hq. unfold alloc_node. destruct (new_node (q_links q)) as [x|] eqn:E; [|by intros [= <- <-]]. intros [= <- <-] _. destruct (Hnew _ _ E) as [Hx _].
  assert (Hnx : q_nodes q !! x = None) by (apply not_elem_of_dom; rewrite (h_dom _ _ _ Hq), <- (h_links _ _ _ Hq); by apply not_elem_of_dom).
  unfold free_node, set_node. cbn [q_root q_links q_nodes]. rewrite !delete_insert_eq, !delete_id by done. by destruct q.
Qed.

Lemma alloc_get q a b el q1 : alloc_node q a = (q1, el) -> el <> NULL -> get_node (set_node q1 el b) el = Some b /\ get_node q1 el = Some a /\ q_root q1 = q_root q.
Proof.
  unfold alloc_node. destruct (new_node (q_links q)) as [x|]; [|by intros [= <- <-]]. intros [= <- <-] _. unfold get_node, set_node. cbn [q_nodes q_root]. by rewrite !lookup_insert_eq.
Qed.

(** The nodes at [ps] while another one changes. *)
Lemma nodes_insert (h : gmap Z A) ps l el b : el ∉ ps -> Forall2 (fun p a => h !! p = Some a) ps l -> Forall2 (fun p a => <[el := b]> h !! p = Some a) ps l.
Proof.
  intros Hin Hn. induction Hn as [|p a ps l Hp _ IH]; [constructor|]. apply not_elem_of_cons in Hin as [Hne Hin]. constructor; [by rewrite lookup_insert_ne | by apply IH].
Qed.
Lemma nodes_delete (h : gmap Z A) ps l el : el ∉ ps -> Forall2 (fun p a => h !! p = Some a) ps l -> Forall2 (fun p a => delete el h !! p = Some a) ps l.
Proof.
  intros Hin Hn. induction Hn as [|p a ps l Hp _ IH]; [constructor|]. apply not_elem_of_cons in Hin as [Hne Hin]. constructor; [by rewrite lookup_delete_ne | by apply IH].
Qed.

(** Appending a new node. *)
Lemma add_last_holds q ps l a b el q1 : holds q ps l -> alloc_node q a = (q1, el) -> el <> NULL ->
  exists q2, add_node_last (set_node q1 el b) el = Some q2 /\ holds q2 (ps ++ [el]) (l ++ [b]).
Proof.
  intros Hq. unfold alloc_node. destruct (new_node (q_links q)) as [x|] eqn:E; [|by intros [= <- <-]]. intros [= <- <-] Hx0. destruct (Hnew _ _ E) as [Hx _].
  pose proof (holds_fresh _ _ _ _ Hq Hx) as Hin. destruct Hq as [Hl Hn Hk Hd]. unfold add_node_last, set_node. cbn [q_root q_links q_nodes].
  assert (Hl1 : is_list (<[x := NULL]> (q_links q)) (q_root q) ps) by by apply is_list_store.
  destruct (add_last_list _ _ _ x Hl1 (mk_is_Some _ _ (lookup_insert_eq _ _ _)) Hx0 Hin) as (h' & r' & Ea & Hl').
  unfold arrow_linked_list_add_node_last. rewrite Ea. cbn [mbind option_bind]. eexists. split; [done|]. split; cbn [q_root q_links q_nodes].
  - done.
  - apply Forall2_app.
    + rewrite insert_insert_eq. by apply nodes_insert.
    + constructor; [|constructor]. by rewrite insert_insert_eq, lookup_insert_eq.
  - apply set_eq. intros y. rewrite list_to_set_app_L, elem_of_union, <- Hk. cbn [list_to_set]. rewrite union_empty_r_L, elem_of_singleton, !elem_of_dom.
    destruct (decide (y = x)) as [-> | Hne].
    + split; [by right|]. intros _. apply is_list_lseg in Hl'. eapply lseg_elem; [exact Hl'|]. apply elem_of_app. right. by left.
    + destruct (decide (y ∈ ps)) as [Hy | Hy].
      * split; intros _; [left; rewrite <- elem_of_dom, Hk; by apply elem_of_list_to_set|]. apply is_list_lseg in Hl'. eapply lseg_elem; [exact Hl'|]. apply elem_of_app. by left.
      * rewrite (add_last_frame _ _ _ _ _ _ Hl1 Hx0 Hin Ea y Hne Hy), lookup_insert_ne by done. naive_solver.
  - rewrite insert_insert_eq, dom_insert_L, Hd, list_to_set_app_L. cbn [list_to_set]. set_solver.
Qed.

(** Taking the first node out and giving it back. *)
Lemma del_first_holds q p ps a l : holds q (p :: ps) (a :: l) ->
  exists q1, del_node_first q = Some q1 /\ q_nodes q1 = q_nodes q /\ holds (free_node q1 p) ps l.
Proof.
  intros [Hl Hn Hk Hd]. pose proof (is_list_NoDup _ _ _ Hl) as Hnd. apply NoDup_cons in Hnd as [Hp Hnd]. apply Forall2_cons in Hn as [_ Hn].
  pose proof Hl as (Hr & Hp0 & n & Hpn & Hl2). unfold del_node_first, arrow_linked_list_del_node_first, arrow_linked_list_del. rewrite Hr.
  unfold nodes_fuel. cbn [del_loop]. rewrite (proj2 (Z.eqb_neq p NULL) Hp0), Hpn. cbn [mbind option_bind]. rewrite Z.eqb_refl. change (negb (NULL =? NULL)) with false. cbv iota.
  rewrite store_live by by eexists. cbn [mbind option_bind]. eexists. split; [done|]. split; [done|]. split; cbn [free_node q_root q_links q_nodes].
  - rewrite delete_insert_eq. apply (is_list_same (q_links q)); [|done]. intros y Hy. rewrite lookup_delete_ne; [done|]. by intros ->.
  - by apply nodes_delete.
  - rewrite delete_insert_eq, dom_delete_L, Hk. cbn [list_to_set]. apply set_eq. intros y. rewrite elem_of_difference, elem_of_union, !elem_of_singleton, elem_of_list_to_set.
    split; [intros [[-> | ?] ?]; done|]. intros Hy. split; [by right|]. by intros ->.
  - rewrite dom_delete_L, Hd. cbn [list_to_set]. apply set_eq. intros y. rewrite elem_of_difference, elem_of_union, !elem_of_singleton, elem_of_list_to_set.
    split; [intros [[-> | ?] ?]; done|]. intros Hy. split; [by right|]. by intros ->.
Qed.

Lemma count_holds q ps l : holds q ps l -> count q = Some (zlen l).
Proof.
  intros Hq. unfold count. rewrite (for_each_list _ _ ps); [|by intros p st st' _ | apply Hq |].
  - unfold zlen. rewrite <- (holds_length _ _ _ Hq). replace (Z.of_nat (length ps)) with (0 + Z.of_nat (length ps)) by lia. generalize 0. clear.
    induction ps as [|p ps IH]; intros n; cbn [fold_opt mbind option_bind length]; [f_equal; lia|]. rewrite IH. f_equal. lia.
  - pose proof (is_list_size _ _ _ (h_list _ _ _ Hq)). unfold nodes_fuel. lia.
Qed.

(** Looking for a node: the first of the sequence that is accepted. *)
Inductive found (f : A -> bool) : list Z -> list A -> option (Z * A) -> Prop :=
  | found_none ps l : Forall (fun a => f a = false) l -> found f ps l None
  | found_some ps1 p ps2 l1 a l2 : length ps1 = length l1 -> Forall (fun a => f a = false) l1 -> f a = true -> found f (ps1 ++ p :: ps2) (l1 ++ a :: l2) (Some (p, a)).

Lemma find_node_from q (eq : A -> option bool) (f : A -> bool) : forall fuel p ps l, is_list (q_links q) p ps -> Forall2 (fun p a => q_nodes q !! p = Some a) ps l -> (forall a, a ∈ l -> eq a = Some (f a)) -> (length ps < fuel)%nat ->
  exists r, find_node fuel q eq p = Some r /\ found f ps l r.
Proof.
  induction fuel as [|fuel IH]; intros p ps l Hl Hn Heq Hf; [lia|]. cbn [find_node]. destruct Hn as [|x a ps l Hx Hn]; cbn [is_list] in Hl.
  - subst p. exists None. split; [done | by constructor].
  - destruct Hl as (-> & Hx0 & nx & Hnx & Hl). cbn [length] in Hf. rewrite (proj2 (Z.eqb_neq x NULL) Hx0). unfold get_node. rewrite Hx. cbn [mbind option_bind]. rewrite (Heq a) by left. cbn [mbind option_bind]. destruct (f a) eqn:Ef.
    + exists (Some (x, a)). split; [done|]. by apply (found_some f [] x ps [] a l).
    + rewrite Hnx. cbn [mbind option_bind]. destruct (IH nx ps l Hl Hn) as (r & E & Hr); [intros b Hb; apply Heq; by right | lia |]. exists r. split; [done|].
      destruct Hr as [ps l Hr | ps1 p ps2 l1 b l2 Hlen Hr Hb]; [apply found_none; by constructor|]. apply (found_some f (x :: ps1) p ps2 (a :: l1) b l2); [cbn; by f_equal | by constructor | done].
Qed.

Lemma find_node_holds q ps l eq f : holds q ps l -> (forall a, a ∈ l -> eq a = Some (f a)) -> exists r, linked_list_find_node q eq = Some r /\ found f ps l r.
Proof.
  intros Hq Heq. apply find_node_from; [apply Hq | apply Hq | done |]. pose proof (is_list_size _ _ _ (h_list _ _ _ Hq)). unfold nodes_fuel. lia.
Qed.

Lemma found_head f ps l r : found f ps l r -> snd <$> r = head (filter (fun a => f a = true) l).
Proof.
  assert (Hno : forall l1, Forall (fun a => f a = false) l1 -> filter (fun a => f a = true) l1 = []).
  { induction 1 as [|a l1 Ha _ IH]; [done|]. rewrite filter_cons, decide_False by by rewrite Ha. done. }
  intros [ps' l' Hl | ps1 p ps2 l1 a l2 _ Hl Ha]; [by rewrite Hno|]. rewrite filter_app, Hno by done. cbn [app]. by rewrite filter_cons, decide_True.
Qed.

(** The contents of a node that is found are replaced. *)
Lemma set_holds q ps1 p ps2 l1 a l2 b : length ps1 = length l1 -> holds q (ps1 ++ p :: ps2) (l1 ++ a :: l2) -> holds (set_node q p b) (ps1 ++ p :: ps2) (l1 ++ b :: l2).
Proof.
  intros Hlen Hq. pose proof (holds_NoDup _ _ _ Hq) as Hnd. destruct Hq as [Hl Hn Hk Hd]. split; cbn [set_node q_root q_links q_nodes]; [done | | done |].
  - apply Forall2_app_inv in Hn as [H1 H2]; [|done]. apply Forall2_cons in H2 as [_ H2]. apply NoDup_app in Hnd as (_ & Hin & Hnd). apply NoDup_cons in Hnd as [Hp _]. apply Forall2_app; [|constructor].
    + apply nodes_insert; [|done]. intros Hp1. apply (Hin p Hp1). left.
    + apply lookup_insert_eq.
    + by apply nodes_insert.
  - rewrite dom_insert_L, Hd. apply set_eq. intros y. rewrite elem_of_union, elem_of_singleton, elem_of_list_to_set. split; [intros [-> | Hy]; [apply elem_of_app; right; left | done]|]. by right.
Qed.

End queue.
End EventQueue.
