(* ===== verification/Events.v ===== *)
(** src/src/arrow/events.c: events that arrive as JSON over MQTT, wait in a queue and
    are dispatched by their name; the replies of the HTTP API that arrive the same
    way have a queue of their own. JSON trees are values, the strings of an event
    are properties in the memory. STATIC_MQTT_ENV, STATIC_ACN and DEVICE_STARTSTOP
    are undefined, software and release updates are not disabled. *)
From S2P Require Import Prelude StateM LinkedList EventQueue Property PropMap PropOwn Double Sb JsonParse JsonDecode HttpClient HttpRequest Crypt GatewaySign.

Module Events.
Import StateM EventQueue Property Double JsonParse JsonDecode.

(** ** Data *)

Record mqtt_event_base_t := mk_base { id : property_t; name : property_t; encrypted : Z; parameters : option JsonNode }.
Record mqtt_event_t := mk_event { device_hid : property_t; base : mqtt_event_base_t }.
Abbreviation mqtt_api_event_t := mqtt_event_base_t.

Definition mqtt_event_base_init : mqtt_event_base_t := mk_base p_null p_null 0 None.
Definition mqtt_event_init : mqtt_event_t := mk_event p_null mqtt_event_base_init.

(** A machine of json/decode.c: the list of machines, or what [json_decode_finish]
    leaves, which are a root and a function that are NULL and, if there was a
    second machine, the pointer to it that was freed. *)
Inductive machine := running (ms : list jpm) | finished (dangling : bool).

(** The static variables of events.c, the keys and the memory, and the rest of the program. *)
Record state (W : Type) := mk_state {
  ks : Crypt.state; event_queue : queue mqtt_event_t; api_event_queue : queue mqtt_api_event_t;
  sm : machine; sm_http : machine; api_mqtt_max_capacity : Z; locked : bool; rest : W;
}.
Arguments ks {W} _.
Arguments event_queue {W} _.
Arguments api_event_queue {W} _.
Arguments sm {W} _.
Arguments sm_http {W} _.
Arguments api_mqtt_max_capacity {W} _.
Arguments locked {W} _.
Arguments rest {W} _.
Arguments mk_state {W} _ _ _ _ _ _ _ _.

Section events.
Context {W : Type}.
Abbreviation M := (StateM.M (state W)).

Definition get : M (state W) := fun s => Some (s, s).
Definition set_ks (k : Crypt.state) : M unit := fun s => Some (tt, mk_state k (event_queue s) (api_event_queue s) (sm s) (sm_http s) (api_mqtt_max_capacity s) (locked s) (rest s)).
Definition set_queue (q : queue mqtt_event_t) : M unit := fun s => Some (tt, mk_state (ks s) q (api_event_queue s) (sm s) (sm_http s) (api_mqtt_max_capacity s) (locked s) (rest s)).
Definition set_api_queue (q : queue mqtt_api_event_t) : M unit := fun s => Some (tt, mk_state (ks s) (event_queue s) q (sm s) (sm_http s) (api_mqtt_max_capacity s) (locked s) (rest s)).
Definition set_sm (x : machine) : M unit := fun s => Some (tt, mk_state (ks s) (event_queue s) (api_event_queue s) x (sm_http s) (api_mqtt_max_capacity s) (locked s) (rest s)).
Definition set_sm_http (x : machine) : M unit := fun s => Some (tt, mk_state (ks s) (event_queue s) (api_event_queue s) (sm s) x (api_mqtt_max_capacity s) (locked s) (rest s)).
Definition set_capacity (n : Z) : M unit := fun s => Some (tt, mk_state (ks s) (event_queue s) (api_event_queue s) (sm s) (sm_http s) n (locked s) (rest s)).
Definition set_locked (b : bool) : M unit := fun s => Some (tt, mk_state (ks s) (event_queue s) (api_event_queue s) (sm s) (sm_http s) (api_mqtt_max_capacity s) b (rest s)).

(** Operations on the keys and on the memory. *)
Definition on_keys {A} (f : Crypt.M A) : M A := s ← get; r ← lift (f (ks s)); _ ← set_ks r.2; mret r.1.
Definition on_mem {A} (f : memory -> option (A * memory)) : M A :=
  on_keys (fun k => '(a, m) ← f (Crypt.mem k); Some (a, Crypt.mk_state m (Crypt.static_sh k) (Crypt.static_hmac k) (Crypt.api k) (Crypt.secret k))).
Definition get_mem : M memory := s ← get; mret (Crypt.mem (ks s)).

(** ** Parameters *)

Context (malloc : memory -> Z -> option (Z * list Z)) (text_malloc : Z -> option (list Z)) (new_node : gmap Z Z -> option Z).
Context (disp : list prop_type).
Context `{Crypt.Hashes} `{HttpClient.Buffers}.
Context (api_key secret_key default_api_key default_secret_key : Z) (restore_key_setting : memory -> Z -> Z -> Z * memory).
(** What another member of the union shows: of a node that is not a number, not a
    boolean, not a string. *)
Context (union_number : JsonNode -> double) (union_bool : JsonNode -> Z) (union_string : JsonNode -> option (list Z)).
(** ARROW_THREAD; ARROW_MAX_MQTT_COMMANDS. *)
Context (ARROW_THREAD : bool) (ARROW_MAX_MQTT_COMMANDS : option Z).

Definition bool_ (j : JsonNode) : Z := match j with JBool b => Z.b2z b | _ => union_bool j end.
Definition string_ (j : JsonNode) : option (list Z) := match j with JString s => s | _ => union_string j end.

(** [json_find_member]: the first member of that name. *)
Fixpoint find_in (ms : list (list Z * JsonNode)) (name : list Z) : option JsonNode :=
  match ms with
  | [] => None
  | (k, v) :: ms' => if bool_decide (k = name) then Some v else find_in ms' name
  end.
Definition json_find_member (j : JsonNode) (name : list Z) : option JsonNode := match j with JObject ms => find_in ms name | _ => None end.

(** A NULL object has no members. *)
Definition find_param (params : option JsonNode) (name : list Z) : option JsonNode := p ← params; json_find_member p name.

(** [json_remove_from_parent] of the first member of that name. *)
Fixpoint remove_in (ms : list (list Z * JsonNode)) (name : list Z) : list (list Z * JsonNode) :=
  match ms with
  | [] => []
  | (k, v) :: ms' => if bool_decide (k = name) then ms' else (k, v) :: remove_in ms' name
  end.
Definition remove_member (j : JsonNode) (name : list Z) : JsonNode := match j with JObject ms => JObject (remove_in ms name) | _ => j end.

(** [json_strdup_property] of the string of a node. *)
Definition strdup_property (m : memory) (s : list Z) : option (memory * property_t) :=
  '(m, p) ← json_dup malloc m s; if p =? NULL then Some (m, p_null) else q ← p_json m p; Some (m, q).

(** [fill_string_from_json]: returns (rc, p). *)
Definition fill_string_from_json (node : JsonNode) (name : list Z) (p : property_t) : M (Z * property_t) :=
  match json_find_member node name with
  | Some (JString s) =>
      s ← lift s;
      on_mem (fun m =>
        '(m, t) ← strdup_property m s;
        '(m, p, _) ← property_move malloc disp m p t;
        Some ((0, p), m))
  | _ => mret (-1, p)
  end.

Definition free_property (p : property_t) : M unit := on_mem (fun m => '(m, _) ← property_free disp m p; Some (tt, m)).
Definition mqtt_event_base_free (b : mqtt_event_base_t) : M unit := _ ← free_property (id b); free_property (name b).
Definition mqtt_event_free (e : mqtt_event_t) : M unit := _ ← mqtt_event_base_free (base e); free_property (device_hid e).

(** ** The mutex: a lock that is taken is never returned from, there is no other thread to give it back. *)

Definition MQTT_EVENTS_QUEUE_LOCK : M unit :=
  if ARROW_THREAD then s ← get; if locked s then lift None else set_locked true else mret tt.
Definition MQTT_EVENTS_QUEUE_UNLOCK : M unit := if ARROW_THREAD then set_locked false else mret tt.

(** ** Signatures *)

(** The bytes behind the value of a property. *)
Definition p_bytes (p : property_t) : M (list Z) := m ← get_mem; lift (bytes_at m (value p)).

Definition check_sign_1 (sign : list Z) (hid name : property_t) (encrypted : Z) (parameters : JsonNode) : M Z :=
  hid ← p_bytes hid;
  name ← p_bytes name;
  r ← on_keys (GatewaySign.arrow_event_sign malloc union_number api_key secret_key default_api_key default_secret_key restore_key_setting
         (replicate 65 0) hid name (negb (encrypted =? 0)) parameters);
  if negb (r.1 =? 0) then mret (-1) else
  e ← lift (strcmp0 (sign ++ [0]) r.2);
  mret (if (e : bool) then 0 else -1).

(** [checker_collection] has one entry. *)
Definition check_signature (vers sing : list Z) (ev : mqtt_event_base_t) : M Z :=
  if bool_decide (vers = lit "1") then p ← lift (parameters ev); check_sign_1 sing (id ev) (name ev) (encrypted ev) p else mret (-1).

Definition mqtt_event_sign_checker (main : JsonNode) (b : mqtt_event_base_t) : M Z :=
  match json_find_member main (lit "signatureVersion") with
  | Some sign_version =>
      match json_find_member main (lit "signature") with
      | None => mret (-1)
      | Some sign =>
          v ← lift (string_ sign_version);
          s ← lift (string_ sign);
          r ← check_signature v s b;
          mret (if r <? 0 then -1 else 0)
      end
  | None => mret 0
  end.

(** Returns (rc, base, main): the parameters are taken out of [main]. *)
Definition get_event_base (b : mqtt_event_base_t) (main : JsonNode) (id_ name_ : list Z) : M (Z * mqtt_event_base_t * JsonNode) :=
  r ← fill_string_from_json main id_ (id b);
  let b := mk_base r.2 (name b) (encrypted b) (parameters b) in
  if r.1 <? 0 then mret (-1, b, main) else
  r ← fill_string_from_json main name_ (name b);
  let b := mk_base (id b) r.2 (encrypted b) (parameters b) in
  if r.1 <? 0 then mret (-1, b, main) else
  match json_find_member main (lit "encrypted") with
  | None => mret (-1, b, main)
  | Some e =>
      let b := mk_base (id b) (name b) (bool_ e) (parameters b) in
      match json_find_member main (lit "parameters") with
      | None => mret (-1, b, main)
      | Some p => mret (0, mk_base (id b) (name b) (encrypted b) (Some p), remove_member main (lit "parameters"))
      end
  end.

(** ** Decoding *)

(** [json_decode_part] on the machine, which after [json_decode_finish] has no
    function to call, or follows the pointer to the second machine. *)
Definition decode_part (x : machine) (str : list Z) : option (Z * machine) :=
  match x with
  | running ms => '(r, ms) ← json_decode_part text_malloc ms str; Some (r, running ms)
  | finished dangling => match str with [] => Some (0, x) | _ => if dangling then None else Some (-1, x) end
  end.
Definition decode_finish (x : machine) : option (option JsonNode * machine) :=
  match x with
  | running ms => Some (json_decode_finish ms, finished (1 <? zlen ms))
  | finished dangling => if dangling then None else Some (None, x)
  end.

(** [process_event] and [process_http]: a part that does not decode ends the tree. *)
Definition process_part (x : machine) (str : list Z) : option (Z * machine) :=
  '(r, x) ← decode_part x str;
  if negb (r =? zlen str) then '(_, x) ← decode_finish x; Some (-1, x) else Some (0, x).

(** ** The queue of events *)

Definition arrow_mqtt_has_events : M Z :=
  _ ← MQTT_EVENTS_QUEUE_LOCK;
  s ← get;
  if q_root (event_queue s) =? NULL then mret 0 else
  ret ← lift (count (event_queue s));
  _ ← MQTT_EVENTS_QUEUE_UNLOCK;
  mret ret.

Definition process_event_init (size : Z) : M Z :=
  full ← match ARROW_MAX_MQTT_COMMANDS with Some k => n ← arrow_mqtt_has_events; mret (k <=? n) | None => mret false end;
  if (full : bool) then mret (-1) else
  _ ← set_sm (running json_decode_init); mret 0.

Definition process_event (str : list Z) : M Z :=
  s ← get; r ← lift (process_part (sm s) str); _ ← set_sm r.2; mret r.1.

Definition process_event_finish : M Z :=
  s ← get;
  f ← lift (decode_finish (sm s));
  _ ← set_sm f.2;
  match f.1 with
  | None => mret (-1)
  | Some main =>
      s ← get;
      let '(q, mqtt_e) := alloc_node new_node (event_queue s) mqtt_event_init in
      if mqtt_e =? NULL then mret (-1) else
      _ ← set_queue q;
      r ← get_event_base (base mqtt_event_init) main (lit "hid") (lit "name");
      let '(rc, b, main) := r in
      ok ← (if rc <? 0 then mret (-1) else mqtt_event_sign_checker main b);
      s ← get;
      let q := set_node (event_queue s) mqtt_e (mk_event p_null b) in
      if ok <? 0 then
        _ ← mqtt_event_free (mk_event p_null b); _ ← set_queue (free_node q mqtt_e); mret (-1)
      else
        q ← lift (add_node_last q mqtt_e); _ ← set_queue q; mret 0
  end.

(** ** Dispatch *)

Section dispatch.
Context (ev_DeviceCommand ev_DeviceStateRequest ev_GatewaySoftwareUpdate ev_DeviceSoftwareRelease : Z -> option JsonNode -> M Z).
(** The functions [init] and [deinit] of the entries, which are NULL but for one. *)
Context (arrow_command_handler_free : M unit).

Record sub_t := mk_sub { s_name : option (list Z); s_proc : option (Z -> option JsonNode -> M Z); s_init : option (M unit); s_deinit : option (M unit) }.

Definition sub_list : list sub_t := [
  mk_sub (Some (lit "ServerToGateway_DeviceCommand")) (Some ev_DeviceCommand) None (Some arrow_command_handler_free);
  mk_sub (Some (lit "SendCommand")) (Some ev_DeviceCommand) None None;
  mk_sub (Some (lit "ServerToGateway_DeviceStateRequest")) (Some ev_DeviceStateRequest) None None;
  mk_sub (Some (lit "ServerToGateway_GatewaySoftwareUpdate")) (Some ev_GatewaySoftwareUpdate) None None;
  mk_sub (Some (lit "ServerToGateway_DeviceSoftwareRelease")) (Some ev_DeviceSoftwareRelease) None None;
  mk_sub (Some (lit "ServerToGateway_GatewaySoftwareRelease")) (Some ev_DeviceSoftwareRelease) None None;
  mk_sub None None None None].

Fixpoint run_all (l : list (option (M unit))) : M unit :=
  match l with [] => mret tt | Some f :: l' => _ ← f; run_all l' | None :: l' => run_all l' end.
Definition arrow_mqtt_events_init : M unit := _ ← (if ARROW_THREAD then set_locked false else mret tt); run_all (map s_init sub_list).
Definition arrow_mqtt_events_done : M unit := run_all (map s_deinit sub_list).

(** The loop over [sub_list], which the last entry of that name decides. *)
Fixpoint find_processor (l : list sub_t) (name : list Z) (current : option (Z -> option JsonNode -> M Z)) : option (option (Z -> option JsonNode -> M Z)) :=
  match l with
  | [] => Some current
  | e :: l' =>
      same ← match s_name e with Some n => strcmp0 (n ++ [0]) name | None => Some false end;
      find_processor l' name (if (same : bool) then s_proc e else current)
  end.

Definition arrow_mqtt_event_proc : M Z :=
  s ← get;
  let tmp := q_root (event_queue s) in
  if tmp =? NULL then mret (-1) else
  e ← lift (get_node (event_queue s) tmp);
  n ← p_bytes (name (base e));
  current_processor ← lift (find_processor sub_list n None);
  ret ← match current_processor with Some f => f tmp (parameters (base e)) | None => mret (-1) end;
  _ ← MQTT_EVENTS_QUEUE_LOCK;
  s ← get;
  q ← lift (del_node_first (event_queue s));
  _ ← set_queue q;
  _ ← MQTT_EVENTS_QUEUE_UNLOCK;
  e ← lift (get_node q tmp);
  _ ← mqtt_event_free e;
  s ← get;
  _ ← set_queue (free_node (event_queue s) tmp);
  mret (if negb (q_root (event_queue s) =? NULL) && (ret =? 0) then 1 else ret).
End dispatch.

(** ** The queue of the API *)

Definition arrow_mqtt_api_has_events : M Z :=
  _ ← MQTT_EVENTS_QUEUE_LOCK;
  s ← get;
  if q_root (api_event_queue s) =? NULL then mret 0 else
  ret ← lift (count (api_event_queue s));
  _ ← MQTT_EVENTS_QUEUE_UNLOCK;
  mret ret.

(** [p_stack] of a pointer to a node, whose bytes are read as a string; and a
    handler of the caller's for adding to a payload. *)
Context (stack_of : JsonNode -> property_t).
Context (other_add : memory -> HttpClient.response_data -> property_t -> option (Z * memory * HttpClient.response_data)).

Definition http_response_add_payload (res : HttpClient.http_response_t) (p : property_t) : M (Z * HttpClient.http_response_t) :=
  add ← lift (match HttpClient.p_add_handler (HttpClient.res_meth res) with
              | HttpClient.no_handler => None
              | HttpClient.default_handler => Some (HttpClient.default_add_payload_handler malloc disp)
              | HttpClient.other_handler => Some other_add
              end);
  r ← on_mem (fun m => '(ret, m, d) ← add m (HttpClient.res_data res) p; Some ((ret, d), m));
  let res := HttpClient.with_data res r.2 in
  if r.1 <? 0 then mret (-1, res) else mret (0, HttpClient.with_processed res (HttpClient.processed_payload_chunk res + 1)).

Definition api_status (params : option JsonNode) (res : HttpClient.http_response_t) : M (Z * HttpClient.http_response_t) :=
  match find_param params (lit "status") with
  | None => mret (-1, res)
  | Some status =>
      t ← lift (string_ status);
      if negb (bool_decide (t = lit "OK")) then mret (-1, res) else
      let res := HttpClient.with_code res 200 (HttpClient.res_is_chunked res) in
      match find_param params (lit "payload") with
      | Some payload => r ← http_response_add_payload res (stack_of payload); mret (0, r.2)
      | None => mret (0, res)
      end
  end.

Definition arrow_mqtt_api_event_proc (res : HttpClient.http_response_t) : M (Z * HttpClient.http_response_t) :=
  s ← get;
  let tmp := q_root (api_event_queue s) in
  if tmp =? NULL then mret (-1, res) else
  e ← lift (get_node (api_event_queue s) tmp);
  r ← api_status (parameters e) res;
  _ ← MQTT_EVENTS_QUEUE_LOCK;
  s ← get;
  q ← lift (del_node_first (api_event_queue s));
  _ ← set_api_queue q;
  _ ← MQTT_EVENTS_QUEUE_UNLOCK;
  _ ← mqtt_event_base_free e;
  _ ← set_api_queue (free_node q tmp);
  mret (if negb (q_root q =? NULL) then 1 else r.1, r.2).

(** The response is a local variable that is not set. *)
Fixpoint api_wait_loop (fuel : nat) (dummy : HttpClient.http_response_t) : M unit :=
  match fuel with
  | O => lift None
  | S fuel' =>
      n ← arrow_mqtt_api_has_events;
      s ← get;
      if api_mqtt_max_capacity s <? n then _ ← arrow_mqtt_api_event_proc dummy; api_wait_loop fuel' dummy else mret tt
  end.
Definition arrow_mqtt_api_wait (fuel : nat) (dummy : HttpClient.http_response_t) (num : Z) : M Z := _ ← set_capacity num; _ ← api_wait_loop fuel dummy; mret 0.

Definition process_http_init (size : Z) : M Z :=
  full ← match ARROW_MAX_MQTT_COMMANDS with Some _ => n ← arrow_mqtt_api_has_events; s ← get; mret (api_mqtt_max_capacity s <=? n) | None => mret false end;
  if (full : bool) then mret (-1) else
  _ ← set_sm_http (running json_decode_init); mret 0.

Definition process_http (str : list Z) : M Z :=
  s ← get; r ← lift (process_part (sm_http s) str); _ ← set_sm_http r.2; mret r.1.

Definition process_http_finish : M Z :=
  s ← get;
  f ← lift (decode_finish (sm_http s));
  _ ← set_sm_http f.2;
  match f.1 with
  | None => mret (-1)
  | Some main =>
      s ← get;
      let '(q, api_e) := alloc_node new_node (api_event_queue s) mqtt_event_base_init in
      if api_e =? NULL then mret (-1) else
      _ ← set_api_queue q;
      r ← get_event_base mqtt_event_base_init main (lit "requestId") (lit "eventName");
      let '(rc, b, main) := r in
      ok ← (if rc <? 0 then mret (-1) else mqtt_event_sign_checker main b);
      s ← get;
      let q := set_node (api_event_queue s) api_e b in
      if ok <? 0 then
        _ ← mqtt_event_base_free b; _ ← set_api_queue (free_node q api_e); mret (-1)
      else
        q ← lift (add_node_last q api_e); _ ← set_api_queue q; mret 0
  end.

End events.
End Events.
