(* ===== verification/EventSpec.v ===== *)
(** What the queue of events promises: src/src/arrow/events.c (Events.v) refines a
    FIFO queue of the events whose JSON text arrived complete and whose signature,
    if there is one, is right. *)
From S2P Require Import Prelude StateM LinkedList EventQueue Property PropMap PropOwn Double Sb JsonParse JsonSpec JsonEncode JsonStream JsonDecode HttpClient HttpExchange HttpRequest Crypt GatewaySign Events.

Module EventSpec.
Import StateM EventQueue Property PropMap PropOwn JsonParse JsonStream JsonDecode Events.

(** The types that arrow_init registers. *)
Definition json_types : list prop_type := property_type_add types json_property_type.
(** A string of a JSON node, on the heap. *)
Definition json_prop (a n : Z) : property_t := mk_prop a (Z.lor PROPERTY_JSON_TAG is_owner) n.

Section strings.
Context (malloc : memory -> Z -> option (Z * list Z)) `{Hmalloc : !Malloc malloc}.
Context (Henough : forall m n, 0 <= n -> malloc m n <> None).

Lemma realloc_grows m a b n : m !! a = None -> a <> NULL -> zlen b <= n ->
  exists a' x, realloc malloc (<[a := (true, b)]> m) a n = Some (<[a' := (true, b ++ x)]> m, a') /\ m !! a' = None /\ a' <> NULL /\ zlen x = n - zlen b.
Proof.
  intros Ha Ha0 Hn. pose proof (zlen_nonneg b). unfold realloc, bytes_at. rewrite lookup_insert_eq. cbn [mbind option_bind].
  destruct (malloc _ n) as [[a' f]|] eqn:Em; [|by apply Henough in Em; [|lia]]. destruct (malloc_fresh _ _ _ _ Em) as [Hf Hf0]. pose proof (malloc_size _ _ _ _ Em) as Hl.
  unfold mem_free. rewrite (proj2 (Z.eqb_neq a NULL) Ha0), lookup_insert_eq. cbn [mbind option_bind]. rewrite delete_insert_eq, delete_id by done.
  exists a', (drop (Z.to_nat (zlen b)) f). rewrite Z.min_r by done. split; [rewrite zlen_to_nat, firstn_all; done|].
  split; [|split; [done | unfold zlen in *; rewrite length_drop; lia]]. destruct (decide (a' = a)) as [-> | Hne]; [done | by rewrite lookup_insert_ne in Hf].
Qed.

Lemma json_dup_ok m s : is_cstr s -> zlen s < 2 ^ 31 ->
  exists a x, json_dup malloc m s = Some (<[a := (true, s ++ 0 :: x)]> m, a) /\ m !! a = None /\ a <> NULL.
Proof.
  intros Hs Hlen. pose proof (zlen_nonneg s). unfold json_dup. destruct (malloc m 17) as [[a0 f]|] eqn:Em; [|by apply Henough in Em].
  destruct (malloc_fresh _ _ _ _ Em) as [Hf Hf0]. pose proof (malloc_size _ _ _ _ Em) as Hl. cbn [mbind option_bind].
  assert (Hroom : exists a b e, (if 16 <? zlen s then alloc ← Sb.double_until 64 16 (zlen s); '(m, a) ← realloc malloc (<[a0 := (true, f)]> m) a0 (alloc + 1); Some (m, a, alloc) else Some (<[a0 := (true, f)]> m, a0, 16))
    = Some (<[a := (true, b)]> m, a, e) /\ m !! a = None /\ a <> NULL /\ zlen b = e + 1 /\ zlen s <= e /\ 16 <= e < 2 ^ 33).
  { destruct (Z.ltb_spec 16 (zlen s)); [|exists a0, f, 16; split; [done|]; split; [done|]; split; [done|]; lia].
    destruct (Sb.double_until_spec 63 16 (zlen s)) as (k & -> & K1 & K2 & K3); [lia | change (2 ^ Z.of_nat 63) with (2 ^ 63); lia |]. cbn [mbind option_bind].
    destruct (realloc_grows m a0 f (k + 1)) as (a & x & -> & A1 & A2 & A3); [done | done | lia |]. cbn [mbind option_bind].
    exists a, (f ++ x), k. rewrite zlen_app. split; [done|]. split; [done|]. split; [done|]. lia. }
  destruct Hroom as (a & b & e & -> & Ha & Ha0 & Hb & He1 & He2). cbn [mbind option_bind]. rewrite (proj2 (Z.eqb_neq a NULL) Ha0).
  destruct (split_at b (zlen s)) as (b1 & b2 & -> & Hb1); [lia|]. rewrite store_bytes_insert, wrn_app_0 by done. cbn [mbind option_bind]. rewrite zlen_app in Hb.
  assert (Hroom : exists a' y c, (if e <=? zlen s then alloc ← Sb.double_until 64 e (zlen s + 1); realloc malloc (<[a := (true, s ++ b2)]> m) a (alloc + 1) else Some (<[a := (true, s ++ b2)]> m, a))
    = Some (<[a' := (true, s ++ y :: c)]> m, a') /\ m !! a' = None /\ a' <> NULL).
  { destruct b2 as [|y b2]; [change (zlen (@nil Z)) with 0 in Hb; lia|]. rewrite zlen_cons in Hb. destruct (Z.leb_spec e (zlen s)); [|exists a, y, b2; by split_and!].
    destruct (Sb.double_until_spec 63 e (zlen s + 1)) as (k & -> & K1 & K2 & K3); [lia | change (2 ^ Z.of_nat 63) with (2 ^ 63); lia |]. cbn [mbind option_bind].
    destruct (realloc_grows m a (s ++ y :: b2) (k + 1)) as (a' & x & -> & A1 & A2 & A3); [done | done | rewrite zlen_app, zlen_cons; lia |].
    exists a', y, (b2 ++ x). rewrite <- app_assoc. by split_and!. }
  destruct Hroom as (a' & y & c & -> & Ha' & Ha0'). cbn [mbind option_bind]. rewrite (proj2 (Z.eqb_neq a' NULL) Ha0').
  change (y :: c) with ([y] ++ c). rewrite store_bytes_insert, wrn_app_split by done. cbn [mbind option_bind]. by exists a', c.
Qed.

End strings.

(** ** Blocks that are added and taken away *)

Lemma Forall2_impl_in {A B} (P Q : A -> B -> Prop) l k : Forall2 P l k -> (forall x y, x ∈ l -> P x y -> Q x y) -> Forall2 Q l k.
Proof.
  induction 1 as [|x y l k Hx _ IH]; intros Hi; constructor; [apply Hi; [left | done]|]. apply IH. intros a b Ha. apply Hi. by right.
Qed.

Lemma grown_perm m m' bs bs' : bs ≡ₚ bs' -> grown m m' bs -> grown m m' bs'.
Proof.
  intros Hp [Hs Hf Hl Hn Hb]. split; try done.
  - intros b Hb'. apply Hf. by rewrite Hp.
  - intros b Hb'. apply Hl. by rewrite Hp.
  - by rewrite <- Hp.
  - by rewrite <- Hp.
Qed.

Lemma grown_delete m m' a bs : grown m m' (a :: bs) -> grown m (delete a m') bs.
Proof.
  intros [Hs Hf Hl Hn Hb]. apply NoDup_cons in Hn as [Ha Hn]. split.
  - intros x Hx. destruct (decide (x = a)) as [-> | Hne]; [rewrite Hf in Hx by left; by destruct Hx|]. rewrite lookup_delete_ne by done. by apply Hs.
  - intros b Hb'. apply Hf. by right.
  - intros b Hb'. rewrite lookup_delete_ne by (intros ->; done). apply Hl. by right.
  - done.
  - rewrite <- Hb. change (delete a m') with (delete_all [a] m'). by rewrite delete_all_comm.
Qed.

(** ** Strings of an event *)

Definition own (p : property_t) : list Z := if value p =? NULL then [] else [value p].

(** [p] is NULL, or a string of its own with the text [t]. *)
Definition str_ok (m : memory) (p : property_t) (t : option (list Z)) : Prop :=
  match t with
  | None => p = p_null
  | Some s => exists a n x, p = json_prop a n /\ a <> NULL /\ is_cstr s /\ m !! a = Some (true, s ++ 0 :: x)
  end.

Lemma str_ok_same m m' p t : str_ok m p t -> (forall a, a ∈ own p -> m' !! a = m !! a) -> str_ok m' p t.
Proof.
  destruct t as [s|]; [|done]. intros (a & n & x & -> & Ha & Hs & Hm) Hsame. exists a, n, x. split_and!; try done. rewrite Hsame; [done|].
  unfold own. cbn [value json_prop]. rewrite (proj2 (Z.eqb_neq a NULL) Ha). left.
Qed.

Lemma str_ok_grown m m' bs p t : str_ok m p t -> grown m m' bs -> str_ok m' p t.
Proof.
  intros Hp Hg. apply (str_ok_same m); [done|]. intros a Ha. apply (g_same _ _ _ Hg). destruct t as [s|]; [|rewrite Hp in Ha; by apply not_elem_of_nil in Ha].
  destruct Hp as (a' & n & x & -> & Ha0 & _ & Hm). unfold own in Ha. cbn [value json_prop] in Ha. rewrite (proj2 (Z.eqb_neq a' NULL) Ha0) in Ha. apply list_elem_of_singleton in Ha as ->. by eexists.
Qed.

Lemma property_free_json m p t : str_ok m p t -> property_free json_types m p = Some (delete_all (own p) m, p_null).
Proof.
  destruct t as [s|]; [|by intros ->]. intros (a & n & x & -> & Ha & _ & Hm). unfold property_free, own. cbn [value json_prop]. rewrite (proj2 (Z.eqb_neq a NULL) Ha).
  change (flag (json_prop a n) is_owner) with true. change (get_property_type json_types (json_prop a n)) with (Some json_property_type). unfold json_destroy, json_delete_string, mem_free. cbn [value json_prop].
  by rewrite (proj2 (Z.eqb_neq a NULL) Ha), Hm.
Qed.

(** ** Events as values *)

Record event := mk_ev { ev_id : list Z; ev_name : list Z; ev_encrypted : Z; ev_parameters : JsonNode }.

(** The text of a member that is a string. *)
Definition text_member (ms : list (list Z * JsonNode)) (k : list Z) : option (list Z) :=
  match find_in ms k with Some (JString s) => s | _ => None end.

Definition base_blocks (b : mqtt_event_base_t) : list Z := own (id b) ++ own (name b).
Definition base_rep (m : memory) (b : mqtt_event_base_t) (h n : option (list Z)) : Prop := str_ok m (id b) h /\ str_ok m (name b) n.
(** The structure holds the event, with strings of its own. *)
Definition base_ok (m : memory) (b : mqtt_event_base_t) (e : event) : Prop :=
  base_rep m b (Some (ev_id e)) (Some (ev_name e)) /\ encrypted b = ev_encrypted e /\ parameters b = Some (ev_parameters e).

Lemma base_rep_same m m' b h n : base_rep m b h n -> (forall a, a ∈ base_blocks b -> m' !! a = m !! a) -> base_rep m' b h n.
Proof. intros [A B] Hs. split; eapply str_ok_same; try done; intros a Ha; apply Hs, elem_of_app; auto. Qed.

Lemma base_rep_grown m m' bs b h n : base_rep m b h n -> grown m m' bs -> base_rep m' b h n.
Proof. intros [A B] Hg. split; by eapply str_ok_grown. Qed.

(** The strings of an event are no longer than what a part can hold. *)
Definition texts_ok (ms : list (list Z * JsonNode)) (k : list Z) : Prop :=
  forall s, find_in ms k = Some (JString s) -> exists t, s = Some t /\ is_cstr t /\ zlen t < 2 ^ 31.

Definition with_ks {W} (s : state W) (k : Crypt.state) : state W := mk_state k (event_queue s) (api_event_queue s) (sm s) (sm_http s) (api_mqtt_max_capacity s) (locked s) (rest s).
Definition with_mem (k : Crypt.state) (m : memory) : Crypt.state := Crypt.mk_state m (Crypt.static_sh k) (Crypt.static_hmac k) (Crypt.api k) (Crypt.secret k).
Abbreviation mem s := (Crypt.mem (ks s)).

Lemma on_keys_run {W A} (f : Crypt.M A) (s : state W) a k : f (ks s) = Some (a, k) -> on_keys f s = Some (a, with_ks s k).
Proof. intros E. unfold on_keys. erewrite bind_run by done. erewrite bind_run by (apply lift_run; exact E). done. Qed.

Lemma on_mem_run {W A} (f : memory -> option (A * memory)) (s : state W) a m : f (mem s) = Some (a, m) -> on_mem f s = Some (a, with_ks s (with_mem (ks s) m)).
Proof. intros E. unfold on_mem. apply on_keys_run. rewrite E. done. Qed.

Lemma with_mem_id {W} (s : state W) : with_ks s (with_mem (ks s) (mem s)) = s.
Proof. by destruct s as [[] ? ? ? ? ? ? ?]. Qed.

Section ops.
Context {W : Type}.
Context (malloc : memory -> Z -> option (Z * list Z)) `{Hmalloc : !Malloc malloc}.
Context (Henough : forall m n, 0 <= n -> malloc m n <> None).
Context (union_bool : JsonNode -> Z).
Abbreviation fill := (fill_string_from_json malloc json_types).

Lemma fill_none ms k p (s : state W) : texts_ok ms k -> text_member ms k = None -> fill (JObject ms) k p s = Some ((-1, p), s).
Proof.
  unfold text_member, texts_ok, fill_string_from_json, json_find_member. intros Ht Hn. destruct (find_in ms k) as [j|]; [|done].
  destruct j as [| |t| | |]; try done. destruct (Ht _ eq_refl) as (x & -> & _). done.
Qed.

Lemma fill_some ms k t (s : state W) : texts_ok ms k -> text_member ms k = Some t ->
  exists p m, fill (JObject ms) k p_null s = Some ((0, p), with_ks s (with_mem (ks s) m)) /\ grown (mem s) m (own p) /\ str_ok m p (Some t).
Proof.
  unfold text_member, texts_ok, fill_string_from_json, json_find_member. intros Ht Hn. destruct (find_in ms k) as [j|]; [|done].
  destruct j as [| |o| | |]; try done. destruct (Ht _ eq_refl) as (x & -> & Hx & Hl). injection Hn as ->.
  destruct (json_dup_ok malloc Henough (mem s) t Hx Hl) as (a & x & E & Ha & Ha0).
  exists (json_prop a (u16 (zlen t))), (<[a := (true, t ++ 0 :: x)]> (mem s)). cbn [mbind]. erewrite bind_run by done. split; [|split].
  - apply on_mem_run. unfold strdup_property. rewrite E. cbn [mbind option_bind]. rewrite (proj2 (Z.eqb_neq a NULL) Ha0). unfold p_json, bytes_at. rewrite lookup_insert_eq. cbn [mbind option_bind].
    by rewrite strlen_cstr.
  - unfold own. cbn [value json_prop]. rewrite (proj2 (Z.eqb_neq a NULL) Ha0). by apply grown_insert.
  - exists a, (u16 (zlen t)), x. split_and!; try done. apply lookup_insert_eq.
Qed.

(** The event that a message says, if it has the four members. *)
Definition parse_event (ms : list (list Z * JsonNode)) (id_ name_ : list Z) : option event :=
  h ← text_member ms id_; n ← text_member ms name_; e ← find_in ms (lit "encrypted"); p ← find_in ms (lit "parameters");
  Some (mk_ev h n (bool_ union_bool e) p).

Lemma get_event_base_ok ms id_ name_ (s : state W) : texts_ok ms id_ -> texts_ok ms name_ ->
  exists rc b main m h n, get_event_base malloc json_types union_bool mqtt_event_base_init (JObject ms) id_ name_ s = Some ((rc, b, main), with_ks s (with_mem (ks s) m)) /\
    grown (mem s) m (base_blocks b) /\ base_rep m b h n /\
    match parse_event ms id_ name_ with
    | Some e => rc = 0 /\ base_ok m b e /\ main = JObject (remove_in ms (lit "parameters"))
    | None => rc = -1
    end.
Proof.
  intros Hid Hname. unfold get_event_base, parse_event. cbn [mqtt_event_base_init id name encrypted parameters].
  destruct (text_member ms id_) as [h|] eqn:Eh; cbn [mbind option_bind].
  2: { erewrite bind_run by by apply fill_none. cbn [fst snd]. change (-1 <? 0) with true. cbv iota. exists (-1), mqtt_event_base_init, (JObject ms), (mem s), None, None.
    rewrite with_mem_id. split; [done|]. split; [apply grown_nil | done]. }
  destruct (fill_some ms id_ h s Hid Eh) as (p1 & m1 & E1 & G1 & S1). erewrite bind_run by exact E1. cbn [fst snd]. change (0 <? 0) with false. cbv iota. set (s1 := with_ks s _) in *.
  destruct (text_member ms name_) as [n|] eqn:En; cbn [mbind option_bind].
  2: { erewrite bind_run by by apply fill_none. cbn [fst snd]. change (-1 <? 0) with true. cbv iota. exists (-1), (mk_base p1 p_null 0 None), (JObject ms), m1, (Some h), None.
    split; [done|]. split; [unfold base_blocks; cbn [id name]; by rewrite app_nil_r | done]. }
  destruct (fill_some ms name_ n s1 Hname En) as (p2 & m2 & E2 & G2 & S2). erewrite bind_run by exact E2. cbn [fst snd]. change (0 <? 0) with false. cbv iota.
  assert (Hg : forall e ps, grown (mem s) m2 (base_blocks (mk_base p1 p2 e ps))).
  { intros e ps. unfold base_blocks. cbn [id name]. apply (grown_perm _ _ (own p2 ++ own p1)); [apply Permutation_app_comm|]. by apply (grown_trans _ m1). }
  assert (Hr : forall e ps, base_rep m2 (mk_base p1 p2 e ps) (Some h) (Some n)) by (intros e ps; split; [by eapply str_ok_grown | done]).
  cbn [id name encrypted parameters json_find_member]. destruct (find_in ms (lit "encrypted")) as [e|]; cbn [mbind option_bind]; [|by eexists _, _, _, m2, _, _].
  destruct (find_in ms (lit "parameters")) as [ps|]; cbn [mbind option_bind]; [|by eexists _, _, _, m2, _, _].
  eexists _, _, _, m2, _, _. split; [done|]. split; [apply Hg|]. split; [apply Hr|]. split; [done|]. split; [|done]. split; [apply Hr | done].
Qed.

(** Giving an event back. *)
Lemma delete_all_own m p bs m0 : grown m0 m (own p ++ bs) -> grown m0 (delete_all (own p) m) bs.
Proof. unfold own. destruct (value p =? NULL); [done|]. apply grown_delete. Qed.

Lemma base_free_ok m0 b h n bs (s : state W) : base_rep (mem s) b h n -> grown m0 (mem s) (base_blocks b ++ bs) ->
  exists m, mqtt_event_base_free json_types b s = Some (tt, with_ks s (with_mem (ks s) m)) /\ m = delete_all (base_blocks b) (mem s) /\ grown m0 m bs.
Proof.
  intros [Hi Hn] Hg. unfold base_blocks in Hg. rewrite <- app_assoc in Hg. pose proof (delete_all_own _ _ _ _ Hg) as Hg1. pose proof (delete_all_own _ _ _ _ Hg1) as Hg2.
  exists (delete_all (own (name b)) (delete_all (own (id b)) (mem s))). unfold mqtt_event_base_free, free_property.
  erewrite bind_run by (apply on_mem_run; by rewrite (property_free_json _ _ _ Hi)). split.
  - erewrite on_mem_run; [done|]. cbn [with_ks ks with_mem Crypt.mem]. rewrite (property_free_json _ _ n); [done|].
    apply (str_ok_same (mem s)); [done|]. intros a Ha. rewrite delete_all_lookup. destruct (decide _) as [Hin|]; [|done].
    apply g_nodup in Hg. apply list.NoDup_app in Hg as (_ & Hd & _). exfalso. apply (Hd a Hin), elem_of_app. by left.
  - split; [|done]. unfold base_blocks. by rewrite delete_all_comm, <- delete_all_app.
Qed.

End ops.
(** ** Signatures *)

Section signed.
Context {W : Type}.
Context (malloc : memory -> Z -> option (Z * list Z)) `{Hmalloc : !Malloc malloc}.
Context (Henough : forall m n, 0 <= n -> malloc m n <> None).
Context `{Crypt.Digests} `{HttpClient.Buffers}.
Context (api_key secret_key default_api_key default_secret_key : Z) (restore_key_setting : memory -> Z -> Z -> Z * memory).
Context (union_number : JsonNode -> Double.double) (union_string : JsonNode -> option (list Z)).

(** The parameters of an object. *)
Definition params_of (j : JsonNode) : list (list Z * JsonNode) := match j with JObject ps => ps | _ => [] end.

Definition signature_text (K Sk : list Z) (e : event) : list Z :=
  GatewaySign.event_signature K Sk (ev_id e) (ev_name e) (negb (ev_encrypted e =? 0)) (GatewaySign.canonical union_number (params_of (ev_parameters e))) (lit "1").

(** A message passes without a signature version, or with version 1 and the right signature. *)
Definition signed (K Sk : list Z) (ms : list (list Z * JsonNode)) (e : event) : bool :=
  match find_in ms (lit "signatureVersion") with
  | None => true
  | Some v => match find_in ms (lit "signature") with
              | None => false
              | Some g => bool_decide (string_ union_string v = Some (lit "1")) && bool_decide (string_ union_string g = Some (signature_text K Sk e))
              end
  end.

(** What the check relies on when there is something to check: texts, and
    parameters that [form_canonical_prm] has room for. *)
Definition checkable (ms : list (list Z * JsonNode)) (e : event) : Prop :=
  forall v g, find_in ms (lit "signatureVersion") = Some v -> find_in ms (lit "signature") = Some g ->
    exists vt gt, string_ union_string v = Some vt /\ string_ union_string g = Some gt /\ is_cstr gt /\
      (vt = lit "1" -> exists ps, ev_parameters e = JObject ps /\ ps <> [] /\ Forall (GatewaySign.param_ok union_number) ps /\ zlen ps <= GatewaySign.MAX_PARAM_LINE).

(** The keys, and a state of the hashes. *)
Definition same_keys (k k' : Crypt.state) : Prop := Crypt.mem k' = Crypt.mem k /\ Crypt.api k' = Crypt.api k /\ Crypt.secret k' = Crypt.secret k.

Lemma p_bytes_ok p t (s : state W) : str_ok (mem s) p (Some t) -> exists x, p_bytes p s = Some (t ++ 0 :: x, s) /\ is_cstr t.
Proof.
  intros (a & n & x & -> & _ & Hs & Hm). exists x. split; [|done]. unfold p_bytes, get_mem. erewrite bind_run by done. apply lift_run. unfold bytes_at. cbn [value json_prop].
  rewrite Hm. done.
Qed.

Lemma check_sign_ok b e ps gt (s : state W) K Sk : Crypt.keys_ok default_api_key default_secret_key (mem s) (Crypt.api (ks s)) (Crypt.secret (ks s)) K Sk ->
  base_ok (mem s) b e -> is_cstr gt -> ev_parameters e = JObject ps -> ps <> [] -> Forall (GatewaySign.param_ok union_number) ps -> zlen ps <= GatewaySign.MAX_PARAM_LINE ->
  exists k, check_sign_1 malloc api_key secret_key default_api_key default_secret_key restore_key_setting union_number gt (id b) (name b) (encrypted b) (JObject ps) s
    = Some (if bool_decide (gt = signature_text K Sk e) then 0 else -1, with_ks s k) /\ same_keys (ks s) k.
Proof.
  intros Hk ((Hi & Hn) & He & _) Hg Hps Hne Hok Hl. unfold check_sign_1. destruct (p_bytes_ok _ _ s Hi) as (x & E1 & Ci). destruct (p_bytes_ok _ _ s Hn) as (y & E2 & Cn).
  erewrite bind_run by exact E1. erewrite bind_run by exact E2. destruct (ks s) as [m sh hm a sc] eqn:Eks. cbn [Crypt.mem Crypt.api Crypt.secret] in *.
  destruct (GatewaySign.arrow_event_sign_ok malloc Henough union_number api_key secret_key default_api_key default_secret_key restore_key_setting m sh hm a sc K Sk (replicate 65 0)
    (ev_id e) (ev_id e ++ 0 :: x) (ev_name e) (ev_name e ++ 0 :: y) (negb (encrypted b =? 0)) ps Hk) as (hm' & r & E); try done.
  - split; [done | by eexists].
  - split; [done | by eexists].
  - exists (Crypt.mk_state m [] hm' a sc). split; [|done].
    erewrite bind_run by (apply on_keys_run; rewrite Eks; exact E). cbn [fst snd]. change (negb (0 =? 0)) with false. cbv iota.
    erewrite bind_run; [|apply lift_run; apply (strcmp0_text _ _ gt (signature_text K Sk e)); [by apply cstr_app|]].
    + done.
    + unfold signature_text. rewrite Hps, He. cbn [params_of]. apply cstr_app. unfold GatewaySign.event_signature. by apply Crypt.hexes_digest, Crypt.HMAC256_digest.
Qed.

Lemma sign_checker_ok ms b e (s : state W) K Sk : Crypt.keys_ok default_api_key default_secret_key (mem s) (Crypt.api (ks s)) (Crypt.secret (ks s)) K Sk ->
  base_ok (mem s) b e -> checkable ms e ->
  exists k, mqtt_event_sign_checker malloc api_key secret_key default_api_key default_secret_key restore_key_setting union_number union_string (JObject ms) b s
    = Some (if signed K Sk ms e then 0 else -1, with_ks s k) /\ same_keys (ks s) k.
Proof.
  intros Hk Hb Hc. unfold mqtt_event_sign_checker, signed, json_find_member. assert (Hid : with_ks s (ks s) = s) by by destruct s.
  destruct (find_in ms (lit "signatureVersion")) as [v|] eqn:Ev; [|exists (ks s); by rewrite Hid].
  destruct (find_in ms (lit "signature")) as [g|] eqn:Eg; [|exists (ks s); by rewrite Hid].
  destruct (Hc v g Ev Eg) as (vt & gt & -> & -> & Hg & Hps). do 2 (erewrite bind_run by done).
  unfold check_signature. destruct (bool_decide_reflect (vt = lit "1")) as [-> | Hne].
  - destruct (Hps eq_refl) as (ps & Hp & Hne & Hok & Hl). destruct (check_sign_ok b e ps gt s K Sk Hk Hb Hg Hp Hne Hok Hl) as (k & E & Hs). pose proof Hb as (_ & _ & Hpar).
    exists k. split; [|done]. erewrite bind_run; [|erewrite bind_run by (apply lift_run; exact Hpar); rewrite Hp; exact E].
    rewrite (bool_decide_eq_true_2 (Some (lit "1") = Some (lit "1"))) by done. cbn [andb]. rewrite (bool_decide_ext (Some gt = _) (gt = signature_text K Sk e)) by (split; congruence). by destruct (bool_decide _).
  - exists (ks s). rewrite Hid, bool_decide_eq_false_2 by congruence. done.
Qed.

End signed.
(** ** The queues *)

Section queues.
Context {W : Type}.
Context (malloc : memory -> Z -> option (Z * list Z)) `{Hmalloc : !Malloc malloc}.
Context (Henough : forall m n, 0 <= n -> malloc m n <> None).
Context (text_malloc : Z -> option (list Z)) (new_node : gmap Z Z -> option Z).
Context (Hnew : forall next el, new_node next = Some el -> next !! el = None /\ el <> NULL).
Context (Hnodes : forall next, new_node next <> None).
Context `{Crypt.Digests} `{HttpClient.Buffers}.
Context (api_key secret_key default_api_key default_secret_key : Z) (restore_key_setting : memory -> Z -> Z -> Z * memory).
Context (union_number : JsonNode -> Double.double) (union_bool : JsonNode -> Z) (union_string : JsonNode -> option (list Z)).
Context (ARROW_THREAD : bool) (ARROW_MAX_MQTT_COMMANDS : option Z).

(** The state holds the events [evs] and the replies [apis] in nodes and strings
    of their own; without the strings the memory is [m0], where the keys are. *)
Record ready (m0 : memory) (K Sk : list Z) (s : state W) (ps : list Z) (bs : list mqtt_event_base_t) (evs : list event) (aps : list Z) (abs : list mqtt_event_base_t) (apis : list event) : Prop := {
  rd_queue : holds (event_queue s) ps (map (mk_event p_null) bs);
  rd_api : holds (api_event_queue s) aps abs;
  rd_evs : Forall2 (base_ok (mem s)) bs evs;
  rd_apis : Forall2 (base_ok (mem s)) abs apis;
  rd_grown : grown m0 (mem s) (concat (map base_blocks (bs ++ abs)));
  rd_keys : Crypt.keys_ok default_api_key default_secret_key m0 (Crypt.api (ks s)) (Crypt.secret (ks s)) K Sk;
  rd_unlocked : ARROW_THREAD = true -> locked s = false;
}.
Definition queued (m0 : memory) (K Sk : list Z) (s : state W) (evs apis : list event) : Prop := exists ps bs aps abs, ready m0 K Sk s ps bs evs aps abs apis.

(** What processing a message leaves alone. *)
Definition elsewhere_same (s s' : state W) : Prop :=
  api_event_queue s' = api_event_queue s /\ sm_http s' = sm_http s /\ api_mqtt_max_capacity s' = api_mqtt_max_capacity s /\ locked s' = locked s /\ rest s' = rest s /\
  Crypt.api (ks s') = Crypt.api (ks s) /\ Crypt.secret (ks s') = Crypt.secret (ks s).

Lemma ready_same m0 K Sk s s' ps bs evs aps abs apis : ready m0 K Sk s ps bs evs aps abs apis -> event_queue s' = event_queue s -> api_event_queue s' = api_event_queue s ->
  same_keys (ks s) (ks s') -> locked s' = locked s -> ready m0 K Sk s' ps bs evs aps abs apis.
Proof. intros [] Hq Ha (Hm & Hap & Hse) Hl. split; rewrite ?Hq, ?Ha, ?Hm, ?Hap, ?Hse, ?Hl; done. Qed.

Lemma keys_grown m0 m bs a sc K Sk : Crypt.keys_ok default_api_key default_secret_key m0 a sc K Sk -> grown m0 m bs -> Crypt.keys_ok default_api_key default_secret_key m a sc K Sk.
Proof. intros [(A & B & r & C) (D & E & r' & F)] Hg. split; (split; [done|]; split; [done|]); eexists; rewrite (g_same _ _ _ Hg); by eauto. Qed.

Lemma base_ok_grown m m' bs b e : base_ok m b e -> grown m m' bs -> base_ok m' b e.
Proof. intros (A & B) Hg. split; [by eapply base_rep_grown | done]. Qed.

(** The event that a message adds to the queue. *)
Definition accepted (K Sk : list Z) (ms : list (list Z * JsonNode)) (id_ name_ : list Z) : option event :=
  e ← parse_event union_bool ms id_ name_;
  if signed union_number union_string K Sk (remove_in ms (lit "parameters")) e then Some e else None.

Definition message_ok (ms : list (list Z * JsonNode)) (id_ name_ : list Z) : Prop :=
  texts_ok ms id_ /\ texts_ok ms name_ /\ forall e, parse_event union_bool ms id_ name_ = Some e -> checkable union_number union_string (remove_in ms (lit "parameters")) e.

Lemma event_free_ok m0 b h n bs (s : state W) : base_rep (mem s) b h n -> grown m0 (mem s) (base_blocks b ++ bs) ->
  mqtt_event_free json_types (mk_event p_null b) s = Some (tt, with_ks s (with_mem (ks s) (delete_all (base_blocks b) (mem s)))).
Proof.
  intros Hb Hg. destruct (base_free_ok m0 b h n bs s Hb Hg) as (m & E & -> & _). unfold mqtt_event_free. cbn [base device_hid]. erewrite bind_run by exact E.
  unfold free_property. erewrite on_mem_run; [done|]. done.
Qed.

Lemma grown_back m m' bs : grown m m' bs -> delete_all bs m' = m.
Proof. by intros []. Qed.

(** The new event in front of what [concat] collects. *)
Lemma blocks_snoc b bs abs : base_blocks b ++ concat (map base_blocks (bs ++ abs)) ≡ₚ concat (map base_blocks ((bs ++ [b]) ++ abs)).
Proof. rewrite !map_app, !concat_app. cbn [map concat]. rewrite app_nil_r, !app_assoc. apply Permutation_app_tail, Permutation_app_comm. Qed.

Abbreviation finish := (process_event_finish malloc new_node json_types api_key secret_key default_api_key default_secret_key restore_key_setting union_number union_bool union_string).

Lemma process_event_finish_ok m0 K Sk s evs apis sms ms : queued m0 K Sk s evs apis -> sm s = running sms -> json_decode_finish sms = Some (JObject ms) -> message_ok ms (lit "hid") (lit "name") ->
  exists rc s', finish s = Some (rc, s') /\ elsewhere_same s s' /\ sm s' = finished (1 <? zlen sms) /\
    match accepted K Sk ms (lit "hid") (lit "name") with
    | Some e => rc = 0 /\ queued m0 K Sk s' (evs ++ [e]) apis
    | None => rc = -1 /\ queued m0 K Sk s' evs apis
    end.
Proof.
  intros (ps & bs & aps & abs & Hr) Hsm Hroot (Hid & Hname & Hcheck). unfold process_event_finish.
  erewrite bind_run by done. erewrite bind_run by (apply lift_run; rewrite Hsm; cbn [decode_finish]; by rewrite Hroot). erewrite bind_run by done. cbn [fst snd]. erewrite bind_run by done.
  cbn [event_queue]. destruct (alloc_node new_node (event_queue s) mqtt_event_init) as [q el] eqn:Eq.
  assert (Hel : el <> NULL) by (unfold alloc_node in Eq; destruct (new_node _) as [x|] eqn:En; [injection Eq as _ <-; by apply Hnew in En as [_ ?] | by apply Hnodes in En]).
  rewrite (proj2 (Z.eqb_neq el NULL) Hel). erewrite bind_run by done. cbn [ks api_event_queue sm sm_http api_mqtt_max_capacity locked rest]. set (s2 := mk_state _ q _ _ _ _ _ _).
  destruct (get_event_base_ok malloc Henough union_bool ms (lit "hid") (lit "name") s2 Hid Hname) as (rc & b & main & m & h & n & E & Hg & Hb & Hres).
  erewrite bind_run by exact E. change (mem s2) with (mem s) in Hg. set (s3 := with_ks s2 _) in *.
  assert (Hrej : forall k, same_keys (ks s3) k -> exists s', (_ ← mqtt_event_free json_types (mk_event p_null b); _ ← set_queue (free_node (set_node (event_queue (with_ks s3 k)) el (mk_event p_null b)) el); mret (-1)) (with_ks s3 k) = Some (-1, s') /\
    elsewhere_same s s' /\ sm s' = finished (1 <? zlen sms) /\ queued m0 K Sk s' evs apis).
  { intros k (Km & Ka & Ks). assert (Hm3 : mem (with_ks s3 k) = m) by exact Km. erewrite bind_run by (eapply (event_free_ok (mem s) b h n []); rewrite Hm3; [done | by rewrite app_nil_r]).
    erewrite bind_run by done. eexists. split; [done|]. split; [split_and!; first [exact Ka | exact Ks | done]|]. split; [done|]. exists ps, bs, aps, abs. eapply ready_same; [exact Hr | | done | | done].
    - cbn [event_queue with_ks s3 s2]. eapply (alloc_free new_node Hnew); [apply Hr | exact Eq | done].
    - split; [|done]. cbn [ks with_ks with_mem Crypt.mem]. rewrite Km. cbn [s3 ks with_ks with_mem Crypt.mem]. by apply grown_back. }
  unfold accepted. destruct (parse_event union_bool ms (lit "hid") (lit "name")) as [e|] eqn:Ep; cbn [mbind option_bind].
  - destruct Hres as (-> & Hbe & ->). change (0 <? 0) with false. cbv iota.
    destruct (sign_checker_ok malloc Henough api_key secret_key default_api_key default_secret_key restore_key_setting union_number union_string (remove_in ms (lit "parameters")) b e s3 K Sk) as (k & Ek & Hk).
    { eapply keys_grown; [apply Hr|]. cbn [s3 with_ks ks with_mem Crypt.mem]. eapply grown_trans; [apply Hr | exact Hg]. } { exact Hbe. } { by apply Hcheck. }
    erewrite bind_run by exact Ek. erewrite bind_run by done. destruct (signed _ _ _ _ _ _) eqn:Es; [|].
    + change (0 <? 0) with false. cbv iota. pose proof Hr as [Rq Ra Re Rp Rg Rk Rl].
      destruct (add_last_holds new_node Hnew (event_queue s) ps _ mqtt_event_init (mk_event p_null b) el q Rq Eq Hel) as (q2 & Ea & Hq2).
      erewrite bind_run by (apply lift_run; exact Ea). erewrite bind_run by done. destruct Hk as (Km & Kap & Kse). eexists _, _. split; [done|]. split; [split_and!; first [exact Kap | exact Kse | done]|]. split; [done|]. split; [done|].
      exists (ps ++ [el]), (bs ++ [b]), aps, abs. split; cbn [event_queue api_event_queue ks with_ks s3 s2 locked]; rewrite ?Km; cbn [s3 ks with_ks with_mem Crypt.mem].
      * by rewrite map_app.
      * done.
      * apply Forall2_app; [|by apply Forall2_cons; split; [exact Hbe | constructor]]. eapply Forall2_impl; [exact Re|]. intros x y Hxy. by eapply base_ok_grown.
      * eapply Forall2_impl; [exact Rp|]. intros x y Hxy. by eapply base_ok_grown.
      * eapply grown_perm; [apply blocks_snoc|]. by eapply grown_trans.
      * by rewrite Kap, Kse.
      * done.
    + change (-1 <? 0) with true. cbv iota. destruct (Hrej k Hk) as (s' & E' & Hs'). exists (-1), s'. destruct Hs' as (Hs1 & Hs2 & Hs3). by split_and!.
  - subst rc. change (-1 <? 0) with true. cbv iota. assert (Hid3 : with_ks s3 (ks s3) = s3) by by destruct s3. destruct (Hrej (ks s3) ltac:(done)) as (s' & E' & Hs'). rewrite Hid3 in E'.
    erewrite bind_run by done. erewrite bind_run by done. change (-1 <? 0) with true. cbv iota. exists (-1), s'. destruct Hs' as (Hs1 & Hs2 & Hs3). by split_and!.
Qed.

(** *** Counting *)

Definition with_lock (s : state W) (b : bool) : state W := mk_state (ks s) (event_queue s) (api_event_queue s) (sm s) (sm_http s) (api_mqtt_max_capacity s) b (rest s).
Abbreviation has_events := (arrow_mqtt_has_events ARROW_THREAD).

Lemma lock_run (s : state W) : (ARROW_THREAD = true -> locked s = false) -> MQTT_EVENTS_QUEUE_LOCK ARROW_THREAD s = Some (tt, if ARROW_THREAD then with_lock s true else s).
Proof. intros Hl. unfold MQTT_EVENTS_QUEUE_LOCK. destruct ARROW_THREAD; [|done]. erewrite bind_run by done. by rewrite Hl. Qed.

Lemma unlock_run (s : state W) : MQTT_EVENTS_QUEUE_UNLOCK ARROW_THREAD s = Some (tt, if ARROW_THREAD then with_lock s false else s).
Proof. unfold MQTT_EVENTS_QUEUE_UNLOCK. by destruct ARROW_THREAD. Qed.

Lemma with_lock_same (s : state W) : (ARROW_THREAD = true -> locked s = false) -> (if ARROW_THREAD then with_lock s false else s) = s.
Proof. intros Hl. destruct ARROW_THREAD; [|done]. destruct s. cbn in Hl. unfold with_lock. cbn. by rewrite Hl. Qed.

Lemma has_events_ok m0 K Sk s evs apis : queued m0 K Sk s evs apis -> ARROW_THREAD = false \/ evs <> [] -> has_events s = Some (zlen evs, s).
Proof.
  intros (ps & bs & aps & abs & Hr) Hne. pose proof Hr as [Rq _ Re _ _ _ Rl]. unfold arrow_mqtt_has_events. erewrite bind_run by by apply lock_run. erewrite bind_run by done.
  assert (Hq : event_queue (if ARROW_THREAD then with_lock s true else s) = event_queue s) by by destruct ARROW_THREAD. rewrite Hq. change NULL with LinkedList.NULL. rewrite (holds_null _ _ _ Rq).
  apply Forall2_length in Re. destruct bs as [|b bs]; cbn [map]; destruct evs as [|e evs]; try done; [destruct Hne as [-> | ?]; done|].
  erewrite bind_run by (apply lift_run; by eapply count_holds). erewrite bind_run by apply unlock_run. cbn [length] in Re. unfold zlen at 1. cbn [length]. rewrite length_map.
  replace (if ARROW_THREAD then with_lock (if ARROW_THREAD then with_lock s true else s) false else _) with s; [unfold mret, M_ret, zlen; cbn [length]; by rewrite Re|].
  rewrite <- (with_lock_same s Rl) at 1. by destruct ARROW_THREAD.
Qed.

(** *** Messages *)

Definition with_sm (s : state W) (x : machine) : state W := mk_state (ks s) (event_queue s) (api_event_queue s) x (sm_http s) (api_mqtt_max_capacity s) (locked s) (rest s).

Fixpoint process_all (parts : list (list Z)) : M (state W) unit :=
  match parts with [] => mret tt | part :: parts' => _ ← process_event text_malloc part; process_all parts' end.

(** The calls that src/src/mqtt/client makes for one message: the results of
    process_event are not looked at. *)
Definition on_message (parts : list (list Z)) : M (state W) Z :=
  msg_err ← process_event_init ARROW_THREAD ARROW_MAX_MQTT_COMMANDS (zlen (concat parts));
  if negb (msg_err =? 0) then mret (-1) else
  _ ← process_all parts;
  finish.

Definition full (evs : list event) : bool := match ARROW_MAX_MQTT_COMMANDS with Some k => k <=? zlen evs | None => false end.

Lemma process_event_run s ms str r ms' : sm s = running ms -> decode_bytes text_malloc ms str = Some (r, ms') ->
  process_event text_malloc str s = Some (if r <? 0 then -1 else 0, with_sm s (if r <? 0 then finished (1 <? zlen ms') else running ms')).
Proof.
  intros Hs E. unfold process_event. erewrite bind_run by done.
  assert (Ep : process_part text_malloc (sm s) str = Some (if r <? 0 then -1 else 0, if r <? 0 then finished (1 <? zlen ms') else running ms')).
  { unfold process_part, decode_part, json_decode_part. rewrite Hs, E. cbn [mbind option_bind]. pose proof (zlen_nonneg str). destruct (decode_bytes_result _ _ _ _ _ E) as [-> | ->].
    - change (0 <? 0) with false. cbv iota. by rewrite Z.eqb_refl.
    - change (-1 <? 0) with true. cbv iota. by rewrite (proj2 (Z.eqb_neq (-1) (zlen str))) by lia. }
  erewrite bind_run by (apply lift_run; exact Ep). done.
Qed.

Lemma process_all_run parts : forall s ms ms', sm s = running ms -> decode_bytes text_malloc ms (concat parts) = Some (0, ms') -> process_all parts s = Some (tt, with_sm s (running ms')).
Proof.
  induction parts as [|part parts IH]; intros s ms ms' Hs E; cbn [concat] in E; [injection E as ->; destruct s; by cbn in Hs; subst|].
  rewrite decode_bytes_app in E. destruct (decode_bytes text_malloc ms part) as [[r ms1]|] eqn:E1; [|done]. cbn [mbind option_bind] in E.
  destruct (decode_bytes_result _ _ _ _ _ E1) as [-> | ->]; [|done]. change (0 <? 0) with false in E. cbv iota in E.
  cbn [process_all]. erewrite bind_run by by eapply process_event_run. change (0 <? 0) with false. cbv iota. by rewrite (IH _ ms1 ms').
Qed.

Lemma init_run m0 K Sk s evs apis n : queued m0 K Sk s evs apis -> ARROW_THREAD = false \/ evs <> [] \/ ARROW_MAX_MQTT_COMMANDS = None ->
  process_event_init ARROW_THREAD ARROW_MAX_MQTT_COMMANDS n s = Some (if full evs then -1 else 0, if full evs then s else with_sm s (running json_decode_init)).
Proof.
  intros Hq Hl. unfold process_event_init, full. destruct ARROW_MAX_MQTT_COMMANDS as [k|].
  - assert (En : (n ← has_events; mret (k <=? n)) s = Some (k <=? zlen evs, s)) by (erewrite bind_run by (eapply has_events_ok; [exact Hq | intuition congruence]); done).
    erewrite bind_run by exact En. destruct (k <=? zlen evs); [done|]. done.
  - done.
Qed.

Lemma on_message_ok M m0 K Sk s evs apis ms parts : Sb.SbMalloc text_malloc M -> 65537 <= M -> queued m0 K Sk s evs apis -> ARROW_THREAD = false \/ evs <> [] \/ ARROW_MAX_MQTT_COMMANDS = None ->
  streamable (JObject ms) -> decodable (JObject ms) -> concat parts = etext (JObject ms) -> message_ok ms (lit "hid") (lit "name") ->
  exists rc s', on_message parts s = Some (rc, s') /\ elsewhere_same s s' /\
    match (if full evs then None else accepted K Sk ms (lit "hid") (lit "name")) with
    | Some e => rc = 0 /\ queued m0 K Sk s' (evs ++ [e]) apis
    | None => rc = -1 /\ queued m0 K Sk s' evs apis
    end.
Proof.
  intros Hm HM Hq Hl Hst Hd Hparts Hok. unfold on_message. erewrite bind_run by by eapply init_run. destruct (full evs); [by exists (-1), s|].
  change (negb (0 =? 0)) with false. cbv iota. destruct (decode_text text_malloc M (JObject ms) Hm HM Hst Hd) as (sms & E & Hroot); [done|]. rewrite <- Hparts in E.
  set (s1 := with_sm s _). erewrite bind_run by by apply (process_all_run parts s1 json_decode_init sms).
  destruct Hq as (ps & bs & aps & abs & Hr). destruct (process_event_finish_ok m0 K Sk (with_sm s1 (running sms)) evs apis sms ms) as (rc & s' & Ef & He & _ & Hres); [|done..|].
  - exists ps, bs, aps, abs. by eapply ready_same.
  - exists rc, s'. split; [exact Ef|]. split; [exact He | exact Hres].
Qed.

(** *** Dispatch *)

(** What the queues do not own: the memory without the strings of the events, the
    addresses of the keys, and the rest of the program. *)
Definition outer : Type := memory * (Z * Z) * W.
Definition outer_of (m0 : memory) (s : state W) : outer := (m0, (Crypt.api (ks s), Crypt.secret (ks s)), rest s).

(** The contract of a handler: what it needs of an event, and how what it answers
    and what it makes of the rest of the program follow from the event. *)
Record handler_spec := mk_spec { needs : event -> Prop; effect : event -> outer -> Z -> outer -> Prop }.

(** The contracts of the four handlers, and what they keep of the rest of the program. *)
Context (Inv : outer -> Prop) (command_spec state_spec update_spec release_spec : handler_spec).

(** The names of the table. *)
Definition by_name {A} (command state update release : A) (name : list Z) : option A :=
  if bool_decide (name = lit "ServerToGateway_DeviceCommand") || bool_decide (name = lit "SendCommand") then Some command
  else if bool_decide (name = lit "ServerToGateway_DeviceStateRequest") then Some state
  else if bool_decide (name = lit "ServerToGateway_GatewaySoftwareUpdate") then Some update
  else if bool_decide (name = lit "ServerToGateway_DeviceSoftwareRelease") || bool_decide (name = lit "ServerToGateway_GatewaySoftwareRelease") then Some release
  else None.
Definition spec_of : list Z -> option handler_spec := by_name command_spec state_spec update_spec release_spec.
Definition event_ok (e : event) : Prop := forall sp, spec_of (ev_name e) = Some sp -> needs sp e.

(** A handler keeps its contract when, given the first event of the queue, it
    returns, with the queue as it was up to events that arrived meanwhile. It may
    change the rest of the program, the memory that is not the events' included. *)
Definition Handler (sp : handler_spec) (f : Z -> option JsonNode -> M (state W) Z) : Prop := forall m0 K Sk s p ps b bs e evs aps abs apis,
  ready m0 K Sk s (p :: ps) (b :: bs) (e :: evs) aps abs apis -> Inv (outer_of m0 s) -> needs sp e ->
  exists r s' m0' ps' bs' more aps' abs' apis', f p (Some (ev_parameters e)) s = Some (r, s') /\
    effect sp e (outer_of m0 s) r (outer_of m0' s') /\ Inv (outer_of m0' s') /\ Forall event_ok more /\
    ready m0' K Sk s' (p :: ps') (b :: bs') (e :: evs ++ more) aps' abs' apis'.

Context (ev_DeviceCommand ev_DeviceStateRequest ev_GatewaySoftwareUpdate ev_DeviceSoftwareRelease : Z -> option JsonNode -> M (state W) Z) (arrow_command_handler_free : M (state W) unit).
Context (Hcommand : Handler command_spec ev_DeviceCommand) (Hstate : Handler state_spec ev_DeviceStateRequest)
  (Hupdate : Handler update_spec ev_GatewaySoftwareUpdate) (Hrelease : Handler release_spec ev_DeviceSoftwareRelease).
Abbreviation subs := (sub_list ev_DeviceCommand ev_DeviceStateRequest ev_GatewaySoftwareUpdate ev_DeviceSoftwareRelease arrow_command_handler_free).
Abbreviation proc := (arrow_mqtt_event_proc json_types ARROW_THREAD ev_DeviceCommand ev_DeviceStateRequest ev_GatewaySoftwareUpdate ev_DeviceSoftwareRelease arrow_command_handler_free).

Definition handler_of : list Z -> option (Z -> option JsonNode -> M (state W) Z) :=
  by_name ev_DeviceCommand ev_DeviceStateRequest ev_GatewaySoftwareUpdate ev_DeviceSoftwareRelease.

Lemma find_processor_ok t x : is_cstr t -> find_processor subs (t ++ 0 :: x) None = Some (handler_of t).
Proof.
  intros Ht. assert (Hcmp : forall n, is_cstr n -> strcmp0 (n ++ [0]) (t ++ 0 :: x) = Some (bool_decide (t = n))).
  { intros n Hn. rewrite (strcmp0_text _ _ n t) by by apply cstr_app. f_equal. apply bool_decide_ext. split; congruence. }
  unfold sub_list, handler_of, by_name. cbn [find_processor s_name s_proc]. rewrite !Hcmp by by repeat constructor. cbn [mbind option_bind].
  repeat case_bool_decide; subst; done.
Qed.

Lemma handler_ok t : match handler_of t, spec_of t with
  | Some f, Some sp => Handler sp f
  | None, None => True
  | _, _ => False
  end.
Proof. unfold handler_of, spec_of, by_name. by repeat case_bool_decide; cbn [orb]. Qed.

(** The result of a round, from the result of the handler and what is left. *)
Definition round_code (r : Z) (evs : list event) : Z := match evs with [] => r | _ => if r =? 0 then 1 else r end.

Lemma holds_same_nodes (q : queue mqtt_event_t) p ps b bs : holds q (p :: ps) (map (mk_event p_null) (b :: bs)) -> q_root q = p /\ get_node q p = Some (mk_event p_null b) /\ p <> NULL.
Proof. intros [Hl Hn _ _]. destruct Hl as (-> & Hp & _). apply Forall2_cons in Hn as [Hn _]. done. Qed.

(** Behind the handler: the first event is taken out and given back. *)
Lemma proc_tail m0 K Sk s p ps b bs e evs aps abs apis ret : ready m0 K Sk s (p :: ps) (b :: bs) (e :: evs) aps abs apis ->
  exists s', (_ ← MQTT_EVENTS_QUEUE_LOCK ARROW_THREAD; s ← get; q ← lift (del_node_first (event_queue s)); _ ← set_queue q; _ ← MQTT_EVENTS_QUEUE_UNLOCK ARROW_THREAD;
    e ← lift (get_node q p); _ ← mqtt_event_free json_types e; s ← get; _ ← set_queue (free_node (event_queue s) p);
    mret (if negb (q_root (event_queue s) =? NULL) && (ret =? 0) then 1 else ret)) s = Some (round_code ret evs, s') /\
    ready m0 K Sk s' ps bs evs aps abs apis /\ outer_of m0 s' = outer_of m0 s.
Proof.
  intros [Rq Ra Re Rp Rg Rk Rl]. destruct (holds_same_nodes _ _ _ _ _ Rq) as (_ & Hn & _). cbn [map] in Rq. destruct (del_first_holds _ _ _ _ _ Rq) as (q1 & Ed & Hq1 & Rq').
  apply Forall2_cons in Re as [Hb Re]. cbn [app map concat] in Rg.
  erewrite bind_run by by apply lock_run. erewrite bind_run by done.
  assert (Hq : event_queue (if ARROW_THREAD then with_lock s true else s) = event_queue s) by by destruct ARROW_THREAD.
  erewrite bind_run by (apply lift_run; rewrite Hq; exact Ed). erewrite bind_run by done. erewrite bind_run by apply unlock_run.
  erewrite bind_run by (apply lift_run; unfold get_node; rewrite Hq1; exact Hn). set (s1 := mk_state _ q1 _ _ _ _ _ _). set (s2 := if ARROW_THREAD then _ else s1).
  assert (Hs2 : ks s2 = ks s /\ event_queue s2 = q1 /\ api_event_queue s2 = api_event_queue s /\ (ARROW_THREAD = true -> locked s2 = false) /\ rest s2 = rest s) by (unfold s2, s1; by destruct ARROW_THREAD).
  destruct Hs2 as (Hk2 & Hq2 & Ha2 & Hl2 & Hr2). assert (Hm2 : mem s2 = mem s) by by rewrite Hk2.
  destruct Hb as (Hbr & Hbe). pose proof (event_free_ok m0 b (Some (ev_id e)) (Some (ev_name e)) (concat (map base_blocks (bs ++ abs))) s2) as Ef. rewrite Hm2 in Ef. specialize (Ef Hbr Rg).
  erewrite bind_run by exact Ef. erewrite bind_run by done. erewrite bind_run by done. eexists. split.
  - cbn [with_ks event_queue]. rewrite Hq2. change NULL with LinkedList.NULL. pose proof (holds_null _ _ _ Rq') as Hz. cbn [free_node q_root] in Hz. rewrite Hz.
    apply Forall2_length in Re. unfold round_code. destruct bs, evs; done.
  - split; [|unfold outer_of; cbn [with_ks ks rest with_mem Crypt.api Crypt.secret]; by rewrite Hr2, Hk2].
    destruct (base_free_ok m0 b _ _ (concat (map base_blocks (bs ++ abs))) s Hbr Rg) as (m & _ & -> & Hg).
    assert (Hsame : forall c x, c ∈ bs ++ abs -> base_ok (mem s) c x -> base_ok (delete_all (base_blocks b) (mem s)) c x).
    { intros c x Hc (Hcr & Hce). split; [|done]. apply (base_rep_same (mem s)); [done|]. intros a Hin. rewrite delete_all_lookup. destruct (decide _) as [Hbl|]; [|done]. exfalso.
      apply g_nodup, list.NoDup_app in Rg as (_ & Hd & _). apply (Hd a Hbl). apply list_elem_of_In, in_concat. exists (base_blocks c). split; [by apply in_map, list_elem_of_In | by apply list_elem_of_In]. }
    split; cbn [with_ks ks event_queue api_event_queue locked with_mem Crypt.mem Crypt.api Crypt.secret]; rewrite ?Hq2, ?Ha2, ?Hk2; cbn [with_mem Crypt.mem Crypt.api Crypt.secret]; try done.
    + rewrite ?Hm2. eapply Forall2_impl_in; [exact Re|]. intros c x Hc. apply Hsame, elem_of_app. by left.
    + rewrite ?Hm2. eapply Forall2_impl_in; [exact Rp|]. intros c x Hc. apply Hsame, elem_of_app. by right.
Qed.

(** [r] is what the handler answers to the parameters. *)
Definition answers (f : Z -> option JsonNode -> M (state W) Z) (ps : JsonNode) (r : Z) : Prop := exists p s s', f p (Some ps) s = Some (r, s').

(** What becomes of the first event: its handler is run, once, and keeps its
    contract; an event without a handler is dropped. *)
Definition handled_event (e : event) (c : outer) (r : Z) (more : list event) (c' : outer) : Prop :=
  match handler_of (ev_name e), spec_of (ev_name e) with
  | Some f, Some sp => answers f (ev_parameters e) r /\ effect sp e c r c'
  | _, _ => r = -1 /\ more = [] /\ c' = c
  end.

Lemma event_proc_ok m0 K Sk s e evs apis : queued m0 K Sk s (e :: evs) apis -> Inv (outer_of m0 s) -> event_ok e ->
  exists r s' m0' more apis', proc s = Some (round_code r (evs ++ more), s') /\ queued m0' K Sk s' (evs ++ more) apis' /\
    handled_event e (outer_of m0 s) r more (outer_of m0' s') /\ Inv (outer_of m0' s') /\ Forall event_ok more.
Proof.
  intros (ps & bs & aps & abs & Hr) Hi Hev. pose proof Hr as [Rq _ Re _ _ _ _].
  destruct bs as [|b bs]; [by apply Forall2_length in Re|]. destruct ps as [|p ps]; [by apply holds_length in Rq|].
  destruct (holds_same_nodes _ _ _ _ _ Rq) as (Hroot & Hn & Hp). unfold arrow_mqtt_event_proc. erewrite bind_run by done. rewrite Hroot. change NULL with LinkedList.NULL. rewrite (proj2 (Z.eqb_neq p LinkedList.NULL) Hp).
  erewrite bind_run by (apply lift_run; exact Hn). cbn [base]. pose proof Re as [Hb _]%Forall2_cons. destruct Hb as ((_ & Hname) & _ & Hpar).
  destruct (p_bytes_ok _ _ s Hname) as (x & Ex & Hx). erewrite bind_run by exact Ex. erewrite bind_run by (apply lift_run; by apply find_processor_ok).
  pose proof (handler_ok (ev_name e)) as Hh. unfold handled_event. unfold event_ok in Hev. destruct (handler_of (ev_name e)) as [f|], (spec_of (ev_name e)) as [sp|]; [|done..|].
  - destruct (Hh _ _ _ _ _ _ _ _ _ _ _ _ _ Hr Hi (Hev sp eq_refl)) as (r & s1 & m0' & ps' & bs' & more & aps' & abs' & apis' & Er & He & Hi' & Hmore & Hr').
    rewrite Hpar. erewrite bind_run by exact Er. destruct (proc_tail _ _ _ _ _ _ _ _ _ _ _ _ _ r Hr') as (s' & E & Hs' & Ho).
    exists r, s', m0', more, apis'. rewrite Ho. split; [exact E|]. split; [by exists ps', bs', aps', abs'|]. split; [|done]. split; [by exists p, s, s1 | done].
  - erewrite bind_run by done. destruct (proc_tail _ _ _ _ _ _ _ _ _ _ _ _ _ (-1) Hr) as (s' & E & Hs' & Ho).
    exists (-1), s', m0, [], apis. rewrite Ho, app_nil_r. split; [exact E|]. split; [by exists ps, bs, aps, abs|]. split_and!; done.
Qed.

(** *** The queue as a FIFO of events *)

Inductive op := Message (ms : list (list Z * JsonNode)) (parts : list (list Z)) | Has | Proc.
Definition run_op (o : op) : M (state W) Z :=
  match o with Message _ parts => on_message parts | Has => has_events | Proc => proc end.
Fixpoint run_ops (os : list op) : M (state W) (list Z) :=
  match os with [] => mret [] | o :: os' => r ← run_op o; rs ← run_ops os'; mret (r :: rs) end.

(** A message of the compact text of an object that the coders handle, cut into
    any parts, with parameters that the check of the signature has room for; the
    event it says, if it is accepted, is one that its handler can be given. *)
Definition op_ok (K Sk : list Z) (o : op) : Prop :=
  match o with
  | Message ms parts => streamable (JObject ms) /\ decodable (JObject ms) /\ concat parts = etext (JObject ms) /\ message_ok ms (lit "hid") (lit "name") /\
      forall e, accepted K Sk ms (lit "hid") (lit "name") = Some e -> event_ok e
  | _ => True
  end.

Definition arrives (K Sk : list Z) (evs : list event) (ms : list (list Z * JsonNode)) : option event := if full evs then None else accepted K Sk ms (lit "hid") (lit "name").

(** One operation on the queue: what is outside it and the events before it, its
    result, the same after it. *)
Inductive fifo (K Sk : list Z) : outer * list event -> op -> Z -> outer * list event -> Prop :=
  | fifo_new c evs ms parts e : arrives K Sk evs ms = Some e -> fifo K Sk (c, evs) (Message ms parts) 0 (c, evs ++ [e])
  | fifo_refused c evs ms parts : arrives K Sk evs ms = None -> fifo K Sk (c, evs) (Message ms parts) (-1) (c, evs)
  | fifo_has c evs : fifo K Sk (c, evs) Has (zlen evs) (c, evs)
  | fifo_idle c : fifo K Sk (c, []) Proc (-1) (c, [])
  | fifo_proc c e evs r more c' : handled_event e c r more c' -> fifo K Sk (c, e :: evs) Proc (round_code r (evs ++ more)) (c', evs ++ more).
Inductive fifo_run (K Sk : list Z) : outer * list event -> list op -> list Z -> outer * list event -> Prop :=
  | fifo_done q : fifo_run K Sk q [] [] q
  | fifo_step q o r q' os rs q'' : fifo K Sk q o r q' -> fifo_run K Sk q' os rs q'' -> fifo_run K Sk q (o :: os) (r :: rs) q''.

Lemma op_refines M m0 K Sk s evs apis o : Sb.SbMalloc text_malloc M -> 65537 <= M -> ARROW_THREAD = false -> op_ok K Sk o -> queued m0 K Sk s evs apis -> Inv (outer_of m0 s) -> Forall event_ok evs ->
  exists r s' m0' evs' apis', run_op o s = Some (r, s') /\ fifo K Sk (outer_of m0 s, evs) o r (outer_of m0' s', evs') /\ queued m0' K Sk s' evs' apis' /\ Inv (outer_of m0' s') /\ Forall event_ok evs'.
Proof.
  intros Hm HM Ht Ho Hq Hi Hevs. destruct o as [ms parts | | ]; cbn [run_op].
  - destruct Ho as (Hst & Hd & Hp & Hok & Hev). destruct (on_message_ok M m0 K Sk s evs apis ms parts Hm HM Hq (or_introl Ht) Hst Hd Hp Hok) as (rc & s' & E & (_ & _ & _ & _ & Er & Ea & Es) & Hres).
    assert (Hout : outer_of m0 s' = outer_of m0 s) by (unfold outer_of; by rewrite Er, Ea, Es).
    change (if full evs then None else _) with (arrives K Sk evs ms) in Hres. destruct (arrives K Sk evs ms) as [e|] eqn:Earr; destruct Hres as [-> Hq'].
    + exists 0, s', m0, (evs ++ [e]), apis. rewrite Hout. split; [exact E|]. split; [by constructor|]. split; [done|]. split; [done|]. apply Forall_app; split; [done|]. apply Forall_singleton.
      apply Hev. unfold arrives in Earr. by destruct (full evs).
    + exists (-1), s', m0, evs, apis. rewrite Hout. split; [exact E|]. by split; [constructor|].
  - exists (zlen evs), s, m0, evs, apis. split; [eapply has_events_ok; eauto|]. by split; [constructor|].
  - destruct evs as [|e evs].
    + destruct Hq as (ps & bs & aps & abs & Hr). pose proof (rd_queue _ _ _ _ _ _ _ _ _ _ Hr) as Rq. pose proof (rd_evs _ _ _ _ _ _ _ _ _ _ Hr) as Re. apply Forall2_length in Re. destruct bs; [|done].
      exists (-1), s, m0, [], apis. split; [|split; [constructor | split; [by exists ps, [], aps, abs | done]]].
      unfold arrow_mqtt_event_proc. erewrite bind_run by done. change NULL with LinkedList.NULL. by rewrite (holds_null _ _ _ Rq).
    + apply Forall_cons in Hevs as [He Hevs]. destruct (event_proc_ok _ _ _ _ _ _ _ Hq Hi He) as (r & s' & m0' & more & apis' & E & Hq' & Hn & Hi' & Hmore).
      exists (round_code r (evs ++ more)), s', m0', (evs ++ more), apis'. split; [exact E|]. split; [by apply fifo_proc|]. split; [done|]. split; [done | by apply Forall_app].
Qed.

(** Any sequence of operations; EventHandlers.v puts the handlers of the repository in. *)
Lemma run_refines M m0 K Sk s evs apis os : Sb.SbMalloc text_malloc M -> 65537 <= M -> ARROW_THREAD = false -> Forall (op_ok K Sk) os ->
  queued m0 K Sk s evs apis -> Inv (outer_of m0 s) -> Forall event_ok evs ->
  exists rs s' m0' evs' apis', run_ops os s = Some (rs, s') /\ fifo_run K Sk (outer_of m0 s, evs) os rs (outer_of m0' s', evs') /\ Inv (outer_of m0' s') /\ queued m0' K Sk s' evs' apis'.
Proof.
  intros Hm HM Ht Hos. revert m0 s evs apis. induction Hos as [|o os Ho _ IH]; intros m0 s evs apis Hq Hi Hevs.
  - exists [], s, m0, evs, apis. split; [done|]. by split; [constructor|].
  - destruct (op_refines M m0 K Sk s evs apis o Hm HM Ht Ho Hq Hi Hevs) as (r & s1 & m1 & evs1 & apis1 & E1 & F1 & Q1 & I1 & Hevs1).
    destruct (IH m1 s1 evs1 apis1 Q1 I1 Hevs1) as (rs & s2 & m2 & evs2 & apis2 & E2 & F2 & I2 & Q2).
    exists (r :: rs), s2, m2, evs2, apis2. cbn [run_ops]. split; [by erewrite bind_run by exact E1; erewrite bind_run by exact E2|].
    split; [by econstructor | done].
Qed.

(** *** What goes wrong *)

(** After json_decode_finish the machine must not be touched again when it had a second one. *)
Lemma dangling_stuck parts : forall s, sm s = finished true -> (_ ← process_all parts; finish) s = None.
Proof.
  induction parts as [|part parts IH]; intros s Hs; cbn [process_all].
  - erewrite bind_run by done. unfold process_event_finish. erewrite bind_run by done. apply bind_stuck. unfold lift. by rewrite Hs.
  - rewrite bind_assoc. destruct part as [|x part].
    + assert (E : process_event text_malloc [] s = Some (0, with_sm s (finished true))) by (unfold process_event; erewrite bind_run by done; erewrite bind_run by (apply lift_run; by rewrite Hs); done).
      erewrite bind_run by exact E. by apply IH.
    + apply bind_stuck. unfold process_event. erewrite bind_run by done. apply bind_stuck. unfold lift. by rewrite Hs.
Qed.

Lemma rejected_stuck parts : forall s ms ms', sm s = running ms -> decode_bytes text_malloc ms (concat parts) = Some (-1, ms') -> 1 < zlen ms' -> (_ ← process_all parts; finish) s = None.
Proof.
  induction parts as [|part parts IH]; intros s ms ms' Hs E Hl; cbn [concat] in E; [done|].
  rewrite decode_bytes_app in E. destruct (decode_bytes text_malloc ms part) as [[r ms1]|] eqn:E1; [|done]. cbn [mbind option_bind] in E.
  pose proof (process_event_run s ms part r ms1 Hs E1) as Ep. cbn [process_all]. rewrite bind_assoc. erewrite bind_run by exact Ep. destruct (decode_bytes_result _ _ _ _ _ E1) as [-> | ->].
  - change (0 <? 0) with false in *. cbv iota in *. by eapply IH.
  - change (-1 <? 0) with true in *. cbv iota in *. injection E as <-. rewrite (proj2 (Z.ltb_lt _ _) Hl). by apply dangling_stuck.
Qed.

(** C34. A message that is not JSON crashes the client. When an object starts with
    anything but a key (the empty object included) process_event gives the
    machines of the decoder back, and because its result is not looked at the
    next part, or process_event_finish, follows the pointer to them: undefined
    behaviour, however the message is cut. *)
Theorem malformed_event_faults m0 K Sk s evs apis b more parts : queued m0 K Sk s evs apis -> full evs = false -> ARROW_THREAD = false ->
  is_space b = false -> b <> 34 -> concat parts = 123 :: b :: more -> on_message parts s = None.
Proof.
  intros Hq Hf Ht Hb Hb' Hc. pose proof (init_run m0 K Sk s evs apis (zlen (concat parts)) Hq (or_introl Ht)) as Ei. rewrite Hf in Ei. unfold on_message.
  assert (Hk : exists ms', decode_bytes text_malloc json_decode_init (123 :: b :: more) = Some (-1, ms') /\ 1 < zlen ms').
  { cbn [decode_bytes]. change (process_first text_malloc json_decode_init 123) with (Some (0, [set_byte (set_root json_parse_machine_init (Some (JObject []))) jpm_value_end; set_byte json_parse_machine_init jpm_key_init])).
    cbn [mbind option_bind]. change (0 <? 0) with false. cbv iota. unfold process_first, json_parse_machine_process, run_fn, set_byte, set_root, json_parse_machine_init. cbn [jcomplete process_byte]. unfold do_key_init.
    rewrite Hb, (proj2 (Z.eqb_neq b 34) Hb'). cbn. by eexists. }
  destruct Hk as (ms' & E & Hl). rewrite <- Hc in E. erewrite bind_run by exact Ei. change (negb (0 =? 0)) with false. cbv iota. by eapply rejected_stuck.
Qed.

(** C38. With threads, asking an empty queue for its length returns with the mutex
    locked: the next time it is taken, by the same question, by a message (where
    the length of the queue is bounded) or by the dispatcher, is never returned from. *)
Theorem has_events_deadlock m0 K Sk s apis : ARROW_THREAD = true -> queued m0 K Sk s [] apis ->
  has_events s = Some (0, with_lock s true) /\ has_events (with_lock s true) = None /\
  (ARROW_MAX_MQTT_COMMANDS <> None -> forall parts, on_message parts (with_lock s true) = None).
Proof.
  intros Ht (ps & bs & aps & abs & [Rq _ Re _ _ _ Rl]). apply Forall2_length in Re. destruct bs; [|done]. unfold arrow_mqtt_has_events.
  pose proof (lock_run s Rl) as El. rewrite Ht in El. split; [|split].
  - rewrite Ht. erewrite bind_run by exact El. erewrite bind_run by done. change NULL with LinkedList.NULL. cbn [event_queue with_lock]. by rewrite (holds_null _ _ _ Rq).
  - by rewrite Ht.
  - intros Hmax parts. unfold on_message, process_event_init. destruct ARROW_MAX_MQTT_COMMANDS as [k|]; [|done]. by rewrite Ht.
Qed.

End queues.
(** ** Samples *)

#[local] Existing Instances GatewaySign.toy_hashes GatewaySign.toy_digests HttpExchange.sample_buffers.

Definition sample_start : state unit :=
  mk_state (Crypt.mk_state GatewaySign.sample_keys [] ([], []) NULL NULL) (mk_queue NULL ∅ ∅) (mk_queue NULL ∅ ∅) (finished false) (finished false) 0 false tt.

(** A command, and one with a signature that is not the right one. *)
Definition sample_members : list (list Z * JsonNode) :=
  [(lit "hid", JString (Some (lit "h1"))); (lit "name", JString (Some (lit "SendCommand"))); (lit "encrypted", JBool false);
   (lit "parameters", JObject [(lit "command", JString (Some (lit "go")))])].
Definition sample_forged : list (list Z * JsonNode) :=
  sample_members ++ [(lit "signatureVersion", JString (Some (lit "1"))); (lit "signature", JString (Some (lit "0123")))].
Definition sample_parts (ms : list (list Z * JsonNode)) : list (list Z) := [take 10 (etext (JObject ms)); drop 10 (etext (JObject ms))].
Definition sample_ops : list op := [Message sample_members (sample_parts sample_members); Message sample_forged (sample_parts sample_forged); Has; Proc; Proc].

Definition sample_text (j : JsonNode) : option (list Z) := None.
Definition sample_bool (j : JsonNode) : Z := 0.
Lemma sample_queued : queued 90 91 false GatewaySign.sample_keys (lit "api") (lit "secret") sample_start [] [].
Proof.
  exists [], [], [], []. split; [apply holds_empty | apply holds_empty | constructor | constructor | apply grown_nil | exact GatewaySign.sample_keys_ok | done].
Qed.

Lemma short_text_dec s : forallb (fun c => (1 <=? c) && (c <? 256)) s && (zlen (JsonEncode.equote s) <? 65536) = true -> short_text s.
Proof.
  intros Hs. apply andb_true_iff in Hs as [H1 H2]. split; [|lia]. apply Forall_forall. intros c Hc.
  rewrite forallb_forall in H1. specialize (H1 c (proj1 (list_elem_of_In _ _) Hc)). lia.
Qed.

Lemma sample_streams : streamable (JObject sample_forged) /\ streamable (JObject sample_members).
Proof. split; repeat constructor; try done; cbn [fst snd]; by apply short_text_dec. Qed.

Lemma sample_decodes : decodable (JObject sample_forged) /\ decodable (JObject sample_members).
Proof. split; repeat first [by apply (bool_decide_unpack _) | constructor]. Qed.

Lemma sample_message_ok ms : ms = sample_members \/ ms = sample_forged -> message_ok GatewaySign.no_number sample_bool sample_text ms (lit "hid") (lit "name").
Proof.
  intros Hms. split; [|split].
  - intros s E. exists (lit "h1"). destruct Hms as [-> | ->]; cbn in E; injection E as <-; (split; [done|]); (split; [by repeat constructor | by cbv]).
  - intros s E. exists (lit "SendCommand"). destruct Hms as [-> | ->]; cbn in E; injection E as <-; (split; [done|]); (split; [by repeat constructor | by cbv]).
  - intros e E v g Ev Eg. destruct Hms as [-> | ->]; cbn in E, Ev, Eg; [done|]. injection E as <-. injection Ev as <-. injection Eg as <-.
    exists (lit "1"), (lit "0123"). split; [done|]. split; [done|]. split; [by repeat constructor|]. intros _. eexists. split; [done|]. split; [done|]. split; [|done].
    apply Forall_cons; split; [|constructor]. split; [apply (bool_decide_unpack _); by vm_compute|]. exists (lit "go"). split; [done | by repeat constructor].
Qed.

(** An event without parameters, in two parts. *)
Lemma malformed_event_faults_witness : on_message bump_malloc test_malloc sample_node 1 2 90 91 (fun m _ _ => (-1, m)) GatewaySign.no_number sample_bool sample_text false (Some 10)
  [[123]; [125]] sample_start = None.
Proof.
  apply (malformed_event_faults bump_malloc test_malloc sample_node 1 2 90 91 (fun m _ _ => (-1, m)) GatewaySign.no_number sample_bool sample_text false (Some 10)
    GatewaySign.sample_keys (lit "api") (lit "secret") sample_start [] [] 125 []); [exact sample_queued | done | done | done | done | done].
Defined.

Lemma has_events_deadlock_witness : arrow_mqtt_has_events true sample_start = Some (0, with_lock sample_start true) /\ arrow_mqtt_has_events true (with_lock sample_start true) = None.
Proof.
  destruct (has_events_deadlock bump_malloc test_malloc sample_node 1 2 90 91 (fun m _ _ => (-1, m)) GatewaySign.no_number sample_bool sample_text true (Some 10)
    GatewaySign.sample_keys (lit "api") (lit "secret") sample_start []) as (A & B & _); [done | | by split].
  exists [], [], [], []. split; [apply holds_empty | apply holds_empty | constructor | constructor | apply grown_nil | exact GatewaySign.sample_keys_ok | done].
Defined.

End EventSpec.
