(* ===== verification/Retry.v ===== *)
(** The macros RETRY_UP and RETRY_CR of src/include/config.h, as the handlers of
    events use them: an operation is tried again, after a sleep, until its result is
    not negative, or until the counter of failures passes ARROW_MAX_RETRY. *)
From S2P Require Import Prelude StateM.

Module Retry.
Import StateM.

(** The counter is an int. *)
Definition RETRY_UP (ARROW_MAX_RETRY r : Z) : option (Z * bool) :=
  if 0 <=? r then if r =? INT_MAX then None else Some (r + 1, ARROW_MAX_RETRY <? r + 1) else Some (r, false).
Definition RETRY_CR : Z := 0.

Section retry.
Context {St : Type} (ARROW_MAX_RETRY : Z) (send : M St Z) (msleep : M St unit).

(** [while ( send < 0 ) { RETRY_UP(retry, {return -2;}); msleep }]: the counter
    afterwards, or [None], which is the return. *)
Fixpoint retry_loop (fuel : nat) (retry : Z) : M St (option Z) :=
  match fuel with
  | O => lift None
  | S fuel' =>
      r ← send;
      if 0 <=? r then mret (Some retry) else
      u ← lift (RETRY_UP ARROW_MAX_RETRY retry);
      if (u.2 : bool) then mret None else
      _ ← msleep;
      retry_loop fuel' u.1
  end.

(** The failures before the code gives up, without the last: with a negative
    ARROW_MAX_RETRY, which is the default, there are none. *)
Definition patience : Z := Z.max 0 ARROW_MAX_RETRY.

(** An invariant of the results so far and the state holds at the end, which comes
    after as many failures as the counter allows. *)
Lemma retry_loop_ok (I : list Z -> St -> Prop) : ARROW_MAX_RETRY < INT_MAX ->
  (forall l s, I l s -> exists r s', send s = Some (r, s') /\ I (l ++ [r]) s') ->
  (forall l s, I l s -> exists s', msleep s = Some (tt, s') /\ I l s') ->
  forall fuel retry l s, I l s -> 0 <= retry <= patience -> (Z.to_nat (patience - retry) < fuel)%nat ->
  exists o s' fs, retry_loop fuel retry s = Some (o, s') /\ Forall (fun r => r < 0) fs /\
    match o with
    | Some k => exists r, I (l ++ fs ++ [r]) s' /\ 0 <= r /\ k = retry + zlen fs /\ k <= patience
    | None => I (l ++ fs) s' /\ zlen fs = patience - retry + 1
    end.
Proof.
  intros Hmax Hsend Hsleep. assert (Hpos : 0 < INT_MAX) by done. unfold patience.
  induction fuel as [|fuel IH]; intros retry l s Hs Hr Hf; [lia|]. cbn [retry_loop]. destruct (Hsend l s Hs) as (r & s1 & E & H1). erewrite bind_run by exact E.
  destruct (Z.leb_spec 0 r) as [Hr0 | Hr0].
  - exists (Some retry), s1, []. split; [done|]. split; [constructor|]. exists r. change (zlen (@nil Z)) with 0. split; [exact H1 | lia].
  - assert (Eu : RETRY_UP ARROW_MAX_RETRY retry = Some (retry + 1, ARROW_MAX_RETRY <? retry + 1)) by (unfold RETRY_UP; rewrite (proj2 (Z.leb_le 0 retry)), (proj2 (Z.eqb_neq retry INT_MAX)) by lia; done).
    erewrite bind_run by (apply lift_run; exact Eu). cbn [fst snd]. destruct (Z.ltb_spec ARROW_MAX_RETRY (retry + 1)) as [Hover | Hover].
    + exists None, s1, [r]. split; [done|]. split; [by constructor|]. split; [exact H1 | zl; lia].
    + destruct (Hsleep _ s1 H1) as (s2 & E2 & H2). erewrite bind_run by exact E2.
      destruct (IH (retry + 1) (l ++ [r]) s2 H2) as (o & s' & fs & E' & Hfs & Hres); [lia | lia |].
      exists o, s', (r :: fs). split; [exact E'|]. split; [by constructor|]. destruct o as [k|].
      * destruct Hres as (r' & A & B & C & D). exists r'. rewrite <- app_assoc in A. split; [exact A | zl; lia].
      * destruct Hres as [A B]. rewrite <- app_assoc in A. split; [exact A | zl; lia].
Qed.

End retry.
End Retry.
