(* ===== verification/DeviceCommand.v ===== *)
(** src/src/arrow/device_command.c: the handler of commands, which answers the cloud
    over HTTP that it has received a command, calls the function that is
    registered for it, and answers how that went. STATIC_DEVICE_COMMANDS and
    HTTP_VIA_MQTT are undefined. *)
From S2P Require Import Prelude StateM Retry ByteQueue RingBuffer LinkedList EventQueue Property PropMap PropOwn Double Sb JsonParse JsonEmit Timer HttpClient HttpSend HttpRequest Crypt GatewaySign SignRequest HttpRoutine Events.

Module DeviceCommand.
Import StateM EventQueue Property JsonParse Events.

(** config/api.h: DEV_ENV chooses the address and switches HTTPS off. *)
Definition ARROW_API_EVENTS_ENDPOINT (DEV_ENV : bool) : list Z :=
  lit (if DEV_ENV then "http://pgsdev01.arrowconnect.io:12001/api/v1/core/events" else "https://api.arrowconnect.io:443/api/v1/core/events").

Inductive cmd_type := failed | received | succeeded.

Record cmd_handler := mk_handler { h_name : property_t; h_callback : Z }.

(** The rest of the program: the commands that are registered, the client of the
    HTTP API with its maps of properties, and the outside world. *)
Record program (U Wd : Type) := mk_program {
  handlers : queue cmd_handler;
  client : @HttpClient.http_client_t U;
  map_nodes : gmap Z (property_t * property_t); map_next : gmap Z Z;
  outside : Wd;
}.
Arguments mk_program {U Wd} _ _ _ _ _.
Arguments handlers {U Wd} _.
Arguments client {U Wd} _.
Arguments map_nodes {U Wd} _.
Arguments map_next {U Wd} _.
Arguments outside {U Wd} _.

(** [json_encode_property]: the text in a block of its own. *)
Definition json_encode_property (malloc : memory -> Z -> option (Z * list Z)) (text_malloc : Z -> option (list Z)) (node : JsonNode) (m : memory) : option (property_t * memory) :=
  t ← JsonEmit.json_encode text_malloc node;
  match t with
  | None => Some (p_null, m)
  | Some t => let '(m, a) := dup_bytes malloc m t in if a =? NULL then Some (p_null, m) else p ← p_json m a; Some (p, m)
  end.

Section command.
Context {U Wd : Type}.
Abbreviation M := (StateM.M (state (program U Wd))).

Definition set_program (p : program U Wd) : M unit :=
  fun s => Some (tt, mk_state (ks s) (event_queue s) (api_event_queue s) (sm s) (sm_http s) (api_mqtt_max_capacity s) (locked s) p).
Definition set_handlers (q : queue cmd_handler) : M unit :=
  s ← get; let p := rest s in set_program (mk_program q (client p) (map_nodes p) (map_next p) (outside p)).
Definition set_client (c : @HttpClient.http_client_t U) : M unit :=
  s ← get; let p := rest s in set_program (mk_program (handlers p) c (map_nodes p) (map_next p) (outside p)).
Definition set_outside (w : Wd) : M unit :=
  s ← get; let p := rest s in set_program (mk_program (handlers p) (client p) (map_nodes p) (map_next p) w).

Context (malloc : memory -> Z -> option (Z * list Z)) (new_handler : gmap Z Z -> option Z) (disp : list prop_type).

(** ** The registered commands *)

Definition arrow_command_init : M unit :=
  s ← get; let q := handlers (rest s) in set_handlers (mk_queue NULL (q_links q) (q_nodes q)).

Definition has_cmd_handler : M Z := s ← get; mret (if negb (q_root (handlers (rest s)) =? NULL) then 0 else -1).

Definition arrow_command_handler_add (name callback : Z) : M Z :=
  s ← get;
  let '(q, h) := alloc_node new_handler (handlers (rest s)) (mk_handler p_null 0) in
  if h =? NULL then mret (-1) else
  _ ← set_handlers q;
  n ← on_mem (fun m => p ← HttpRequest.p_const m name; '(m, n) ← property_copy malloc disp m p; Some (n, m));
  s ← get;
  q ← lift (add_node_last (set_node (handlers (rest s)) h (mk_handler n callback)) h);
  _ ← set_handlers q;
  mret 0.

(** The loop that gives the handlers back: [__handlers] still points to the first one. *)
Fixpoint free_handlers (fuel : nat) (p : Z) : M unit :=
  match fuel with
  | O => lift None
  | S fuel' =>
      if p =? NULL then mret tt else
      s ← get;
      next ← lift (q_links (handlers (rest s)) !! p);
      h ← lift (get_node (handlers (rest s)) p);
      _ ← free_property disp (h_name h);
      s ← get;
      _ ← set_handlers (free_node (handlers (rest s)) p);
      free_handlers fuel' next
  end.
Definition arrow_command_handler_free : M unit :=
  s ← get; free_handlers (LinkedList.nodes_fuel (q_links (handlers (rest s)))) (q_root (handlers (rest s))).

(** The comparison with a string of a JSON node, which is at an address of its own;
    [linked_list_find_node] with [cmdeq] is the first handler of that name. *)
Definition name_is (m : memory) (p : property_t) (name : list Z) : option bool :=
  let a := fresh (dom m ∪ {[NULL; value p]}) in
  let m := <[a := (false, name ++ [0])]> m in
  q ← HttpRequest.p_string m PROPERTY_STACK_TAG a;
  r ← property_cmp m p q;
  Some (r =? 0).
Definition cmdeq (m : memory) (h : cmd_handler) (name : list Z) : option bool := name_is m (h_name h) name.
Definition find_handler (m : memory) (q : queue cmd_handler) (name : list Z) : option (option (Z * cmd_handler)) :=
  linked_list_find_node q (fun h => cmdeq m h name).

(** ** Answers *)

Context (DEV_ENV : bool).
Definition endpoint : list Z := ARROW_API_EVENTS_ENDPOINT DEV_ENV.

(** [strcat] into an array. *)
Definition strcat (b s : list Z) : option (list Z) := n ← strlen b; wrn b n (s ++ [0]).

Definition form_evetns_url (m : memory) (hid : property_t) (ev : cmd_type) (uri : list Z) : option (list Z) :=
  uri ← wrn uri 0 (endpoint ++ [0]);
  uri ← strcat uri (lit "/");
  b ← bytes_at m (value hid);
  h ← cstr b;
  uri ← strcat uri h;
  strcat uri (match ev with failed => lit "/failed" | received => lit "/received" | succeeded => lit "/succeeded" end).

Record event_data_t := mk_data { d_hid : property_t; d_ev : cmd_type; d_payload : property_t }.

Context (literal : list Z -> Z) `{HttpClient.Buffers}.
(** Where the array [uri] is on the stack. *)
Context (uri_at : Z).
Definition PUT : Z := 2.

Definition event_ans_init (data : event_data_t) (w : PropMap.world) (request : HttpClient.http_request_t) : option (PropMap.world * HttpClient.http_request_t) :=
  uri ← form_evetns_url (PropMap.w_mem w) (d_hid data) (d_ev data) (HttpClient.chunk (zlen endpoint + 1 + 100));
  '(m, r) ← HttpRequest.http_request_init malloc disp literal (<[uri_at := (false, uri)]> (PropMap.w_mem w)) request PUT uri_at;
  let w := PropMap.set_mem w (delete uri_at m) in
  if IS_EMPTY (d_payload data) then Some (w, r) else HttpRequest.http_request_set_payload malloc disp w r (d_payload data).

Context `{ByteQueue U} `{HttpClient.Net Wd} `{Crypt.Hashes}.
Context (new_node : gmap Z Z -> option Z).
Context (api_key secret_key default_api_key default_secret_key : Z) (restore_key_setting : memory -> Z -> Z -> Z * memory) (ts signature : Z).
(** The variables of __http_routine before they are set, the fuel of the client,
    and the clock. *)
Context (no_request : HttpClient.http_request_t) (no_response : HttpClient.http_response_t).
Context (http_fuel : nat) (clock : Wd -> Timer.timestamp).

(** STD_ROUTINE of include/http/routine.h, in the whole program. *)
Definition STD_ROUTINE (init : PropMap.world -> HttpClient.http_request_t -> option (PropMap.world * HttpClient.http_request_t))
    (proc : option (@HttpClient.st U Wd -> HttpClient.http_response_t -> option (Z * @HttpClient.st U Wd * HttpClient.http_response_t))) : M Z := fun s =>
  let p := rest s in
  '(ret, k, st) ← HttpRoutine.__http_routine malloc new_node disp literal api_key secret_key default_api_key default_secret_key restore_key_setting ts signature
      init proc no_request no_response http_fuel (clock (outside p)) (ks s)
      (HttpClient.mk_st (client p) (PropMap.mk_world (Crypt.mem (ks s)) (map_nodes p) (map_next p)) (outside p));
  let w := HttpClient.props st in
  let k := Crypt.mk_state (PropMap.w_mem w) (Crypt.static_sh k) (Crypt.static_hmac k) (Crypt.api k) (Crypt.secret k) in
  Some (ret, mk_state k (event_queue s) (api_event_queue s) (sm s) (sm_http s) (api_mqtt_max_capacity s) (locked s)
    (mk_program (handlers p) (HttpClient.cl st) (PropMap.w_nodes w) (PropMap.w_next w) (HttpClient.wd st))).

Definition weak_copy (p : property_t) : M property_t := on_mem (fun m => let '(m, q) := property_weak_copy disp m p in Some (q, m)).
Definition arrow_send_event_ans (hid : property_t) (ev : cmd_type) (payload : property_t) : M Z :=
  d_hid ← weak_copy hid;
  d_payload ← weak_copy payload;
  STD_ROUTINE (event_ans_init (mk_data d_hid ev d_payload)) None.

(** ** The handler *)

Section handler.
(** How an answer is sent, config.h's ARROW_MAX_RETRY, and the functions of the user. *)
Context (send : property_t -> cmd_type -> property_t -> M Z) (ARROW_MAX_RETRY : Z) (call : Z -> option (list Z) -> Wd -> Z * Wd) (msleep : Wd -> Wd).
Context (text_malloc : Z -> option (list Z)).

Definition http_session_close_set (mode : bool) : M unit := s ← get; set_client (HttpClient.with_close (client (rest s)) mode).
Definition http_session_set_protocol (prot : Z) : M unit := s ← get; set_client (HttpClient.with_protocol (client (rest s)) prot).

Definition sleep : M unit := s ← get; set_outside (msleep (outside (rest s))).
Definition answer_loop (fuel : nat) (hid : property_t) (ev : cmd_type) (payload : property_t) : Z -> M (option Z) :=
  Retry.retry_loop ARROW_MAX_RETRY (send hid ev payload) sleep fuel.

(** The error the cloud is told. *)
Definition error_of (msg : list Z) : JsonNode := JObject [(lit "error", JString (Some msg))].

Definition either (params : option JsonNode) (a b : list Z) : option JsonNode :=
  match find_param params a with Some j => Some j | None => find_param params b end.

(** From the device's identifier to the call: an error, or nothing. *)
Definition run_command (params : option JsonNode) : M (option JsonNode) :=
  match find_param params (lit "deviceHid") with
  | Some (JString _) =>
      match either params (lit "command") (lit "Command") with
      | Some (JString cmd) =>
          match either params (lit "payload") (lit "Payload") with
          | Some (JString pay) =>
              cmd ← lift cmd;
              s ← get;
              let q := handlers (rest s) in
              h ← lift (find_handler (Crypt.mem (ks s)) q cmd);
              match h with
              | Some (_, h) =>
                  let '(ret, w) := call (h_callback h) pay (outside (rest s)) in
                  _ ← set_outside w;
                  mret (if ret <? 0 then Some (error_of (lit "Something went wrong")) else None)
              | None => mret (Some (error_of (lit "There is no a command handler")))
              end
          | _ => mret (Some (error_of (lit "There is no payload")))
          end
      | _ => mret (Some (error_of (lit "There is no command")))
      end
  | _ => mret (Some (error_of (lit "There is no device HID")))
  end.

Definition ev_DeviceCommand (fuel : nat) (ev : Z) (params : option JsonNode) : M Z :=
  _ ← http_session_close_set false;
  s ← get;
  e ← lift (get_node (event_queue s) ev);
  let hid := id (base e) in
  r ← answer_loop fuel hid received p_null 0;
  match r with
  | None => mret (-2)
  | Some _ =>
      err ← run_command params;
      _ ← http_session_close_set true;
      match err with
      | Some error =>
          p ← on_mem (json_encode_property malloc text_malloc error);
          r ← answer_loop fuel hid failed p Retry.RETRY_CR;
          match r with
          | None => mret (-2)
          | Some _ => _ ← free_property disp p; _ ← http_session_set_protocol HttpClient.api_via_http; mret 0
          end
      | None =>
          r ← answer_loop fuel hid succeeded p_null Retry.RETRY_CR;
          match r with
          | None => mret (-2)
          | Some _ => _ ← http_session_set_protocol HttpClient.api_via_http; mret 0
          end
      end
  end.

End handler.
End command.
End DeviceCommand.
