(* ===== verification/CommandSpec.v ===== *)
(** What src/src/arrow/device_command.c promises (DeviceCommand.v): the table of
    commands finds the function of a name, and the cloud is told that a command was
    received and how it went, with the function called once in between. *)
From S2P Require Import Prelude StateM Retry LinkedList EventQueue Property PropMap PropOwn Sb JsonUtf8 JsonParse JsonEmit JsonSpec ArrowUtf8 HttpClient HttpExchange HttpRequest HttpBuild Crypt GatewaySign SignRequest Events EventSpec DeviceCommand.

Module CommandSpec.
Import StateM EventQueue Property JsonParse Events EventSpec DeviceCommand.

(** ** The table of commands *)

(** The name of a handler is a constant string. *)
Definition const_prop (a n : Z) : property_t := mk_prop a (Z.lor is_owner PROPERTY_CONST_TAG) n.

(** The function that was registered first for a name. *)
Definition lookup_cmd (es : list (list Z * Z)) (cmd : list Z) : option Z := snd <$> head (filter (fun e => e.1 = cmd) es).

Section table.
Context {U Wd : Type}.
Context (malloc : memory -> Z -> option (Z * list Z)) (new_handler : gmap Z Z -> option Z).
Context (Hnew : forall links el, new_handler links = Some el -> links !! el = None /\ el <> LinkedList.NULL).
Abbreviation St := (state (program U Wd)).

(** A handler for a name and a function; the name is not in one of the arrays [sc]. *)
Definition named (sc : list Z) (m : memory) (h : cmd_handler) (e : list Z * Z) : Prop :=
  is_cstr e.1 /\ h_callback h = e.2 /\ exists a n b x, h_name h = const_prop a n /\ a <> NULL /\ (a ∉ sc) /\ m !! a = Some (b, (e.1 ++ 0 :: x)).

Definition table (sc : list Z) (s : St) (es : list (list Z * Z)) : Prop :=
  exists ps hs, holds (handlers (rest s)) ps hs /\ Forall2 (named sc (mem s)) hs es.

Lemma name_is_ok m p s name : flag p is_raw = false -> (exists b y, m !! value p = Some (b, (s ++ 0 :: y))) -> is_cstr s -> is_cstr name -> name_is m p name = Some (bool_decide (s = name)).
Proof.
  intros Hraw (b & y & Hm) Hs Hname. unfold name_is. set (f := fresh _).
  assert (Hf : f ∉ dom m ∪ {[NULL; value p]}) by apply is_fresh. apply not_elem_of_union in Hf as [Hf Hf0]. apply not_elem_of_dom in Hf. rewrite elem_of_union, !elem_of_singleton in Hf0. assert (Hfn : f <> NULL) by (intros E; apply Hf0; by left). clearbody f.
  unfold HttpRequest.p_string. rewrite (proj2 (Z.eqb_neq f NULL) Hfn). unfold bytes_at at 1. rewrite lookup_insert_eq. cbn [mbind option_bind]. rewrite strlen_cstr by done. cbn [mbind option_bind].
  unfold property_cmp. rewrite Hraw. cbn [value]. unfold bytes_at. rewrite (lookup_insert_ne _ f (value p)) by (intros ->; by rewrite Hm in Hf). rewrite Hm, lookup_insert_eq. cbn [mbind option_bind].
  rewrite (strcmp0_text _ _ s name) by by apply cstr_app. cbn [mbind option_bind]. by case_bool_decide.
Qed.

(** A name whose memory was given back is not compared with. *)
Lemma name_is_gone m p name : m !! value p = None -> is_cstr name -> name_is m p name = None.
Proof.
  intros Hm Hname. unfold name_is. set (f := fresh _). assert (Hf : f ∉ dom m ∪ {[NULL; value p]}) by apply is_fresh. apply not_elem_of_union in Hf as [_ Hf0]. rewrite elem_of_union, !elem_of_singleton in Hf0.
  assert (Hfn : f <> NULL) by (intros E; apply Hf0; by left). assert (Hfp : f <> value p) by (intros E; apply Hf0; by right). clearbody f. unfold HttpRequest.p_string. rewrite (proj2 (Z.eqb_neq f NULL) Hfn). unfold bytes_at at 1. rewrite lookup_insert_eq. cbn [mbind option_bind]. rewrite strlen_cstr by done. cbn [mbind option_bind].
  unfold property_cmp, bytes_at. rewrite (lookup_insert_ne _ f (value p)) by done. by rewrite Hm.
Qed.

Lemma cmdeq_ok sc m h e cmd : named sc m h e -> is_cstr cmd -> cmdeq m h cmd = Some (bool_decide (e.1 = cmd)).
Proof.
  intros (He & _ & a & n & b & x & Hn & Ha & _ & Hm) Hcmd. unfold cmdeq. apply name_is_ok; [by rewrite Hn | rewrite Hn; by exists b, x | done | done].
Qed.

(** The comparison with a name as a function of the handlers. *)
Lemma find_ok sc s es cmd : table sc s es -> is_cstr cmd ->
  exists r, find_handler (mem s) (handlers (rest s)) cmd = Some r /\ h_callback ∘ snd <$> r = lookup_cmd es cmd.
Proof.
  intros (ps & hs & Hq & Hes) Hcmd. set (f := fun h => default false (cmdeq (mem s) h cmd)).
  destruct (find_node_holds (handlers (rest s)) ps hs (fun h => cmdeq (mem s) h cmd) f Hq) as (r & E & Hr).
  { intros h Hh. apply list_elem_of_lookup in Hh as (i & Hi). destruct (Forall2_lookup_l _ _ _ _ _ Hes Hi) as (e & _ & He). subst f. cbn. by rewrite (cmdeq_ok _ _ _ _ _ He Hcmd). }
  exists r. split; [exact E|]. rewrite option_fmap_compose, (found_head _ _ _ _ Hr). unfold lookup_cmd. subst f. clear E Hr Hq. induction Hes as [|h e hs es He _ IH]; [done|].
  rewrite !filter_cons, (cmdeq_ok _ _ _ _ _ He Hcmd). cbn [default]. destruct (decide (e.1 = cmd)) as [Ee | Ee].
  - rewrite decide_True by by rewrite bool_decide_eq_true_2. cbn. f_equal. apply He.
  - rewrite decide_False by by rewrite bool_decide_eq_false_2. exact IH.
Qed.

(** *** Registering *)

Definition with_handlers (s : St) (q : queue cmd_handler) : St :=
  mk_state (ks s) (event_queue s) (api_event_queue s) (sm s) (sm_http s) (api_mqtt_max_capacity s) (locked s)
    (mk_program q (client (rest s)) (map_nodes (rest s)) (map_next (rest s)) (outside (rest s))).

Lemma set_handlers_run (s : St) q : set_handlers q s = Some (tt, with_handlers s q).
Proof. done. Qed.

(** A name that can be registered: a constant. *)
Definition name_ok (sc : list Z) (m : memory) (a : Z) (n : list Z) : Prop := is_cstr n /\ a <> NULL /\ (a ∉ sc) /\ exists b x, m !! a = Some (b, n ++ 0 :: x).

(** What a call writes when the allocator gives it [h]. *)
Lemma add_run sc (s : St) name n cb h : name_ok sc (mem s) name n -> new_handler (q_links (handlers (rest s))) = Some h ->
  let q := fst (alloc_node new_handler (handlers (rest s)) (mk_handler p_null 0)) in
  arrow_command_handler_add malloc new_handler json_types name cb s =
    (q2 ← lift (add_node_last (set_node q h (mk_handler (const_prop name (u16 (zlen n))) cb)) h); _ ← set_handlers q2; mret 0) (with_handlers s q).
Proof.
  intros (Hn & Ha & _ & b & x & Hm) Eh q. unfold arrow_command_handler_add. erewrite bind_run by done. subst q. unfold alloc_node. rewrite Eh. cbn [fst].
  destruct (Hnew _ _ Eh) as [_ Hh]. change NULL with LinkedList.NULL. rewrite (proj2 (Z.eqb_neq h LinkedList.NULL) Hh). erewrite bind_run by apply set_handlers_run. set (s1 := with_handlers s _).
  assert (Ec : on_mem (fun m => p ← HttpRequest.p_const m name; '(m, n) ← property_copy malloc json_types m p; Some (n, m)) s1 = Some (const_prop name (u16 (zlen n)), s1)).
  { rewrite <- (with_mem_id s1) at 2. apply on_mem_run. unfold HttpRequest.p_const, HttpRequest.p_string. rewrite (proj2 (Z.eqb_neq name NULL) Ha). unfold bytes_at. change (mem s1) with (mem s). rewrite Hm. cbn [mbind option_bind]. by rewrite strlen_cstr. }
  erewrite bind_run by exact Ec. erewrite bind_run by done. done.
Qed.

(** Registering puts the command behind the ones there are. *)
Lemma handler_add_ok sc (s : St) es name n cb : table sc s es -> name_ok sc (mem s) name n -> is_Some (new_handler (q_links (handlers (rest s)))) ->
  exists q, arrow_command_handler_add malloc new_handler json_types name cb s = Some (0, with_handlers s q) /\ table sc (with_handlers s q) (es ++ [(n, cb)]).
Proof.
  intros (ps & hs & Hq & Hes) Hname [h Eh]. pose proof Eh as Eh'. rewrite (add_run _ _ _ _ _ _ Hname Eh). destruct (Hnew _ _ Eh') as [_ Hh]. destruct Hname as (Hn & Ha & Hsc & b & x & Hm).
  assert (Ea : alloc_node new_handler (handlers (rest s)) (mk_handler p_null 0) = (fst (alloc_node new_handler (handlers (rest s)) (mk_handler p_null 0)), h)) by (unfold alloc_node; by rewrite Eh).
  destruct (add_last_holds new_handler Hnew _ ps hs (mk_handler p_null 0) (mk_handler (const_prop name (u16 (zlen n))) cb) h _ Hq Ea Hh) as (q2 & E & Hq2).
  exists q2. erewrite bind_run by (apply lift_run; exact E). split; [done|]. exists (ps ++ [h]), (hs ++ [mk_handler (const_prop name (u16 (zlen n))) cb]). split; [done|].
  apply Forall2_app; [done|]. constructor; [|constructor]. split; [done|]. split; [done|]. exists name, (u16 (zlen n)), b, x. by split_and!.
Qed.

(** *** Giving the table back *)

Lemma free_const a n (s : St) : free_property json_types (const_prop a n) s = Some (tt, s).
Proof. unfold free_property. rewrite <- (with_mem_id s) at 2. by apply on_mem_run. Qed.

Lemma foldl_delete {A} (x : Z) ps : forall g : gmap Z A, x ∈ ps -> foldl (fun g p => delete p g) g ps !! x = None.
Proof.
  assert (Hd : forall ps (g : gmap Z A), g !! x = None -> foldl (fun g p => delete p g) g ps !! x = None).
  { clear ps. induction ps as [|p ps IH]; intros g Hg; [done|]. cbn [foldl]. apply IH. rewrite lookup_delete_None. by right. }
  induction ps as [|p ps IH]; intros g Hx; [by apply not_elem_of_nil in Hx|]. cbn [foldl]. apply elem_of_cons in Hx as [-> | Hx]; [apply Hd, lookup_delete_eq | by apply IH].
Qed.
Lemma freed_nodes ps : forall q : queue cmd_handler, foldl free_node q ps = mk_queue (q_root q) (foldl (fun g p => delete p g) (q_links q) ps) (foldl (fun g p => delete p g) (q_nodes q) ps).
Proof. induction ps as [|p ps IH]; intros q; cbn [foldl]; [by destruct q | by rewrite IH]. Qed.

Lemma free_handlers_run sc m fuel : forall (s : St) p ps hs es, LinkedList.is_list (q_links (handlers (rest s))) p ps -> Forall2 (fun p a => q_nodes (handlers (rest s)) !! p = Some a) ps hs -> Forall2 (named sc m) hs es ->
  NoDup ps -> (length ps < fuel)%nat -> free_handlers json_types fuel p s = Some (tt, with_handlers s (foldl free_node (handlers (rest s)) ps)).
Proof.
  induction fuel as [|fuel IH]; intros s p ps hs es Hl Hn Hes Hnd Hf; [lia|]. cbn [free_handlers]. destruct Hn as [|x h ps hs Hx Hn]; cbn [LinkedList.is_list] in Hl.
  - subst p. by destruct s as [? ? ? ? ? ? ? []].
  - destruct Hl as (-> & Hx0 & nx & Hnx & Hl). apply Forall2_cons_inv_l in Hes as (e & es' & (_ & _ & a & n & _ & _ & Hh & _) & Hes & ->). apply NoDup_cons in Hnd as [Hin Hnd]. cbn [length] in Hf.
    change NULL with LinkedList.NULL. rewrite (proj2 (Z.eqb_neq x LinkedList.NULL) Hx0). erewrite bind_run by done. erewrite bind_run by (apply lift_run; exact Hnx). erewrite bind_run by (apply lift_run; exact Hx).
    rewrite Hh. erewrite bind_run by apply free_const. erewrite bind_run by done. erewrite bind_run by apply set_handlers_run.
    rewrite (IH _ nx ps hs es'); [done | | | done | done | lia]; cbn [with_handlers rest handlers free_node q_links q_nodes].
    + apply (LinkedList.is_list_same (q_links (handlers (rest s)))); [|done]. intros y Hy. rewrite lookup_delete_ne; [done|]. by intros ->.
    + by apply nodes_delete.
Qed.

(** A search that comes to a node that was given back, or back to where it was, does not end. *)
Lemma find_dead m (q : queue cmd_handler) cmd fuel : q_root q <> NULL -> q_nodes q !! q_root q = None -> find_node fuel q (fun h => cmdeq m h cmd) (q_root q) = None.
Proof. intros Hp Hn. destruct fuel; [done|]. cbn [find_node]. change LinkedList.NULL with NULL. rewrite (proj2 (Z.eqb_neq (q_root q) NULL) Hp). unfold get_node. by rewrite Hn. Qed.
Lemma find_cycle sc m (q : queue cmd_handler) cmd p h e : is_cstr cmd -> p <> NULL -> q_nodes q !! p = Some h -> named sc m h e -> e.1 <> cmd -> q_links q !! p = Some p ->
  forall fuel, find_node fuel q (fun h => cmdeq m h cmd) p = None.
Proof.
  intros Hcmd Hp Hn He Hne Hl. induction fuel as [|fuel IH]; [done|]. cbn [find_node]. change LinkedList.NULL with NULL. rewrite (proj2 (Z.eqb_neq p NULL) Hp). unfold get_node. rewrite Hn. cbn [mbind option_bind].
  rewrite (cmdeq_ok _ _ _ _ _ He Hcmd). cbn [mbind option_bind]. rewrite bool_decide_eq_false_2 by done. rewrite Hl. cbn [mbind option_bind]. exact IH.
Qed.

(** Registering in a table whose first node [p] was given back. *)
Lemma add_dead sc (s : St) name n cb h p : name_ok sc (mem s) name n -> new_handler (q_links (handlers (rest s))) = Some h -> q_root (handlers (rest s)) = p -> p <> LinkedList.NULL -> q_links (handlers (rest s)) !! p = None ->
  arrow_command_handler_add malloc new_handler json_types name cb s =
    (if h =? p then Some (0, with_handlers s (mk_queue p (<[p := p]> (q_links (handlers (rest s)))) (<[p := mk_handler (const_prop name (u16 (zlen n))) cb]> (q_nodes (handlers (rest s)))))) else None).
Proof.
  intros Hname Eh Hr Hp Hl. rewrite (add_run _ _ _ _ _ _ Hname Eh). destruct (Hnew _ _ Eh) as [_ Hh]. unfold alloc_node. rewrite Eh. cbn [fst]. unfold add_node_last, set_node. cbn [q_root q_links q_nodes]. rewrite Hr.
  unfold LinkedList.arrow_linked_list_add_node_last, LinkedList.arrow_linked_list_add, LinkedList.store. rewrite lookup_insert_eq. cbn [mbind option_bind]. unfold LinkedList.nodes_fuel. cbn [LinkedList.walk_last].
  rewrite (proj2 (Z.eqb_neq p LinkedList.NULL) Hp). destruct (Z.eqb_spec h p) as [-> | Hne].
  - rewrite lookup_insert_eq. cbn [mbind option_bind]. change (LinkedList.NULL =? LinkedList.NULL) with true. cbv iota. cbn [mbind option_bind]. rewrite (proj2 (Z.eqb_neq p LinkedList.NULL) Hp). cbn [negb]. rewrite lookup_insert_eq. cbn [mbind option_bind].
    erewrite bind_run by done. erewrite bind_run by apply set_handlers_run. rewrite !insert_insert_eq. done.
  - rewrite !lookup_insert_ne by done. rewrite Hl. done.
Qed.

(** arrow_command_handler_free leaves the table pointing to the handlers it gave
    back (and arrow_command_init, which would clear it, is not called by anything):
    the table still says that there are commands, giving it back again or looking
    for any command follows the pointer, and registering again either follows it
    or, when the allocator returns the same address, makes a list that is its own
    next node, in which the search for another command never ends. *)
Theorem command_handlers_dangle sc (s : St) e es : table sc s (e :: es) -> exists q,
  arrow_command_handler_free json_types s = Some (tt, with_handlers s q) /\ has_cmd_handler (with_handlers s q) = Some (0, with_handlers s q) /\
  arrow_command_handler_free json_types (with_handlers s q) = None /\ (forall m cmd, find_handler m q cmd = None) /\
  (forall name n cb h, name_ok sc (mem s) name n -> new_handler (q_links q) = Some h ->
     match arrow_command_handler_add malloc new_handler json_types name cb (with_handlers s q) with
     | None => h <> q_root q
     | Some (r, s') => h = q_root q /\ r = 0 /\ forall fuel cmd, is_cstr cmd -> cmd <> n -> find_node fuel (handlers (rest s')) (fun h => cmdeq (mem s) h cmd) (q_root (handlers (rest s'))) = None
     end).
Proof.
  intros (ps & hs & Hq & Hes). apply Forall2_cons_inv_r in Hes as (h0 & hs' & He & Hes & ->). pose proof (h_nodes _ _ _ Hq) as Hn. apply Forall2_cons_inv_r in Hn as (p & ps' & Hp & Hn & ->).
  pose proof (h_list _ _ _ Hq) as Hl. pose proof (holds_root _ _ _ Hq) as Hr. cbn [head default] in Hr. pose proof Hl as (_ & Hp0 & _).
  exists (foldl free_node (handlers (rest s)) (p :: ps')). set (q := foldl _ _ _).
  assert (Hq0 : q_root q = p /\ q_links q !! p = None /\ q_nodes q !! p = None).
  { subst q. rewrite freed_nodes. split_and!; [exact Hr | apply foldl_delete; left..]. }
  destruct Hq0 as (Hroot & Hq0 & Hk).
  split; [|split; [|split; [|split]]].
  - unfold arrow_command_handler_free. erewrite bind_run by done. eapply free_handlers_run; [exact Hl | by constructor | by constructor | by eapply holds_NoDup |].
    pose proof (LinkedList.is_list_size _ _ _ Hl). unfold LinkedList.nodes_fuel. lia.
  - unfold has_cmd_handler. erewrite bind_run by done. cbn [with_handlers rest handlers]. rewrite Hroot. change NULL with LinkedList.NULL. by rewrite (proj2 (Z.eqb_neq p LinkedList.NULL) Hp0).
  - unfold arrow_command_handler_free. erewrite bind_run by done. cbn [with_handlers rest handlers]. rewrite Hroot. unfold LinkedList.nodes_fuel. cbn [free_handlers]. change NULL with LinkedList.NULL. rewrite (proj2 (Z.eqb_neq p LinkedList.NULL) Hp0).
    erewrite bind_run by done. apply bind_stuck. unfold lift. cbn [with_handlers rest handlers]. by rewrite Hq0.
  - intros m cmd. unfold find_handler, linked_list_find_node. apply find_dead; rewrite Hroot; done.
  - intros name n cb h Hname Eh. rewrite (add_dead sc _ name n cb h p); [|done..]. rewrite Hroot. destruct (Z.eqb_spec h p) as [-> | Hne]; [|done].
    split; [done|]. split; [done|]. intros fuel cmd Hcmd Hne. destruct Hname as (Hcn & Ha & Hsc & b & x & Hm).
    apply (find_cycle sc _ _ _ _ (mk_handler (const_prop name (u16 (zlen n))) cb) (n, cb)); cbn [with_handlers rest handlers q_nodes q_links q_root]; rewrite ?lookup_insert_eq; try done.
    split; [done|]. split; [done|]. exists name, (u16 (zlen n)), b, x. by split_and!.
Qed.

End table.

(** ** Answers *)

(** What the cloud and the device see: an answer for an event and its result, and
    a call of a registered function. *)
Inductive entry := Answered (hid : list Z) (ev : cmd_type) (payload : option (list Z)) (r : Z) | Called (callback : Z) (payload : option (list Z)) (r : Z).

(** The memory is the same but for the bytes of the arrays [sc]. *)
Definition like (sc : list Z) (m m' : memory) : Prop := dom m' = dom m /\ forall a, a ∉ sc -> m' !! a = m !! a.

Lemma like_refl sc m : like sc m m.
Proof. done. Qed.
Lemma like_trans sc m1 m2 m3 : like sc m1 m2 -> like sc m2 m3 -> like sc m1 m3.
Proof. intros [D1 L1] [D2 L2]. split; [congruence|]. intros a Ha. by rewrite L2, L1. Qed.

(** What is in memory stays, the bytes too but for those of the arrays. *)
Definition kept (sc : list Z) (m m' : memory) : Prop := forall a, is_Some (m !! a) -> is_Some (m' !! a) /\ (a ∉ sc -> m' !! a = m !! a).

Lemma kept_trans sc m1 m2 m3 : kept sc m1 m2 -> kept sc m2 m3 -> kept sc m1 m3.
Proof. intros H1 H2 a Ha. destruct (H1 a Ha) as [A B]. destruct (H2 a A) as [C D]. split; [done|]. intros Hn. by rewrite D, B. Qed.
Lemma like_kept sc m m' : like sc m m' -> kept sc m m'.
Proof. intros [Hd Hl] a Ha. split; [|by apply Hl]. apply elem_of_dom. rewrite Hd. by apply elem_of_dom. Qed.

(** A block of its own that is given back. *)
Lemma like_delete sc m m' a b : m !! a = None -> like sc (<[a := b]> m) m' -> like sc m (delete a m').
Proof.
  intros Ha [Hd Hl]. split.
  - rewrite dom_delete_L, Hd, dom_insert_L. apply not_elem_of_dom in Ha. apply set_eq. intros x. rewrite elem_of_difference, elem_of_union, elem_of_singleton. split; [intros [[-> | ?] ?]; done|]. intros Hx. split; [by right|]. by intros ->.
  - intros x Hx. destruct (decide (x = a)) as [-> | Hne]; [by rewrite lookup_delete_eq|]. rewrite lookup_delete_ne, Hl, lookup_insert_ne by done. done.
Qed.

(** [p] is the string [t], not in one of the arrays [sc]; or NULL. *)
Definition says (sc : list Z) (m : memory) (p : property_t) (t : option (list Z)) : Prop :=
  match t with None => value p = NULL | Some s => is_cstr s /\ value p <> NULL /\ (value p ∉ sc) /\ exists b x, m !! value p = Some (b, s ++ 0 :: x) end.

Lemma says_like sc m m' p t : like sc m m' -> says sc m p t -> says sc m' p t.
Proof. intros [_ Hl]. destruct t as [s|]; [|done]. intros (A & B & C & D). unfold says. by rewrite Hl. Qed.

Section answers.
Context {U Wd : Type}.
Abbreviation St := (state (program U Wd)).
Context (sc : list Z) (log : Wd -> list entry).
Definition seen (s : St) : list entry := log (outside (rest s)).

(** The queues, the table of commands and the lock stay. *)
Definition others_same (s s' : St) : Prop :=
  event_queue s' = event_queue s /\ api_event_queue s' = api_event_queue s /\ sm s' = sm s /\ sm_http s' = sm_http s /\ api_mqtt_max_capacity s' = api_mqtt_max_capacity s /\
  locked s' = locked s /\ handlers (rest s') = handlers (rest s).
Definition moved (s s' : St) : Prop := others_same s s' /\ like sc (mem s) (mem s').

Lemma others_trans s1 s2 s3 : others_same s1 s2 -> others_same s2 s3 -> others_same s1 s3.
Proof. unfold others_same. intros (?&?&?&?&?&?&?) (?&?&?&?&?&?&?). split_and!; congruence. Qed.
Lemma moved_trans s1 s2 s3 : moved s1 s2 -> moved s2 s3 -> moved s1 s3.
Proof. intros [A B] [C D]. split; [by eapply others_trans | by eapply like_trans]. Qed.

Lemma table_same s s' es : others_same s s' -> kept sc (mem s) (mem s') -> table sc s es -> table sc s' es.
Proof.
  intros (_ & _ & _ & _ & _ & _ & Hh) Hm (ps & hs & Hq & Hes). exists ps, hs. rewrite Hh. split; [done|]. eapply Forall2_impl; [exact Hes|].
  intros h e (A & B & a & n & b & x & C & D & E & F). split; [done|]. split; [done|]. exists a, n, b, x. split_and!; try done. rewrite (proj2 (Hm a ltac:(by eexists))); done.
Qed.

(** What sending an answer promises: it returns, whatever the result, says what it
    was given, and leaves this part of the program alone but for its own arrays. *)
Class Sends (send : property_t -> cmd_type -> property_t -> M St Z) : Prop :=
  sends hid h ev payload p s : says sc (mem s) hid (Some h) -> says sc (mem s) payload p ->
    exists r s', send hid ev payload s = Some (r, s') /\ seen s' = seen s ++ [Answered h ev p r] /\ moved s s'.

Definition with_outside (s : St) (w : Wd) : St :=
  mk_state (ks s) (event_queue s) (api_event_queue s) (sm s) (sm_http s) (api_mqtt_max_capacity s) (locked s) (mk_program (handlers (rest s)) (client (rest s)) (map_nodes (rest s)) (map_next (rest s)) w).
Lemma set_outside_run (s : St) w : set_outside w s = Some (tt, with_outside s w).
Proof. done. Qed.
Definition with_client (s : St) (c : @HttpClient.http_client_t U) : St :=
  mk_state (ks s) (event_queue s) (api_event_queue s) (sm s) (sm_http s) (api_mqtt_max_capacity s) (locked s) (mk_program (handlers (rest s)) c (map_nodes (rest s)) (map_next (rest s)) (outside (rest s))).
Lemma close_set_run (s : St) b : DeviceCommand.http_session_close_set b s = Some (tt, with_client s (HttpClient.with_close (client (rest s)) b)).
Proof. done. Qed.
Lemma set_protocol_run (s : St) p : DeviceCommand.http_session_set_protocol p s = Some (tt, with_client s (HttpClient.with_protocol (client (rest s)) p)).
Proof. done. Qed.

Context (malloc : memory -> Z -> option (Z * list Z)) `{Hmalloc : !Malloc malloc}.
Context (Henough : forall m n, 0 <= n -> malloc m n <> None).
Context (send : property_t -> cmd_type -> property_t -> M St Z) `{Hsend : !Sends send}.
Context (ARROW_MAX_RETRY : Z) (Hretry : ARROW_MAX_RETRY < INT_MAX).
Context (call : Z -> option (list Z) -> Wd -> Z * Wd) (Hcall : forall cb p w, log (snd (call cb p w)) = log w ++ [Called cb p (fst (call cb p w))]).
Context (msleep : Wd -> Wd) (Hsleep : forall w, log (msleep w) = log w).
Context (text_malloc : Z -> option (list Z)) (Mx : Z) (Htext : Sb.SbMalloc text_malloc Mx) (HM : 100 <= Mx).

Abbreviation patience := (Retry.patience ARROW_MAX_RETRY).

(** One answer until it arrives, or until the code gives up. *)
Inductive attempts (h : list Z) (ev : cmd_type) (p : option (list Z)) : bool -> list entry -> Prop :=
  | arrives fs r : Forall (fun r => r < 0) fs -> zlen fs <= patience -> 0 <= r -> attempts h ev p true (map (Answered h ev p) (fs ++ [r]))
  | gives_up fs : Forall (fun r => r < 0) fs -> zlen fs = patience + 1 -> attempts h ev p false (map (Answered h ev p) fs).

Lemma answers_ok hid h ev payload p fuel s : says sc (mem s) hid (Some h) -> says sc (mem s) payload p -> (Z.to_nat patience < fuel)%nat ->
  exists o s' l, answer_loop send ARROW_MAX_RETRY msleep fuel hid ev payload 0 s = Some (o, s') /\ moved s s' /\ seen s' = seen s ++ l /\ attempts h ev p (bool_decide (is_Some o)) l.
Proof.
  intros Hh Hp Hf. set (I := fun rs s' => moved s s' /\ seen s' = seen s ++ map (Answered h ev p) rs).
  destruct (Retry.retry_loop_ok ARROW_MAX_RETRY (send hid ev payload) (sleep msleep) I Hretry) with fuel 0 (@nil Z) s as (o & s' & fs & E & Hfs & Hres).
  - intros l s1 [Hm Hs]. destruct (sends hid h ev payload p s1) as (r & s2 & E & Hs2 & Hm2); [eapply says_like; [apply Hm | done] | eapply says_like; [apply Hm | done] |].
    exists r, s2. split; [exact E|]. split; [by eapply moved_trans|]. by rewrite Hs2, Hs, map_app, <- app_assoc.
  - intros l s1 [Hm Hs]. exists (with_outside s1 (msleep (outside (rest s1)))). split; [unfold sleep; by erewrite bind_run by done|]. split; [exact Hm|]. unfold seen in *. cbn [with_outside rest outside]. by rewrite Hsleep.
  - split; [done|]. cbn [map]. by rewrite app_nil_r.
  - unfold Retry.patience. lia.
  - rewrite Z.sub_0_r. exact Hf.
  - destruct o as [o|].
    + destruct Hres as (r & [Hm Hs] & B & C & D). exists (Some o), s', (map (Answered h ev p) (fs ++ [r])). split; [exact E|]. split; [exact Hm|]. split; [exact Hs|]. apply arrives; [done | lia | done].
    + destruct Hres as [[Hm Hs] C]. exists None, s', (map (Answered h ev p) fs). split; [exact E|]. split; [exact Hm|]. split; [exact Hs|]. apply gives_up; [done | lia].
Qed.

(** *** The command *)

(** What the parameters of an event ask for: an error, or a call. *)
Definition verdict (es : list (list Z * Z)) (params : option JsonNode) : list Z + Z * option (list Z) :=
  match find_param params (lit "deviceHid"), either params (lit "command") (lit "Command"), either params (lit "payload") (lit "Payload") with
  | Some (JString _), Some (JString (Some cmd)), Some (JString pay) =>
      match lookup_cmd es cmd with Some cb => inr (cb, pay) | None => inl (lit "There is no a command handler") end
  | Some (JString _), Some (JString _), _ => inl (lit "There is no payload")
  | Some (JString _), _, _ => inl (lit "There is no command")
  | _, _, _ => inl (lit "There is no device HID")
  end.

(** The name of a command is a string. *)
Definition command_given (params : option JsonNode) : Prop := forall o, either params (lit "command") (lit "Command") = Some (JString o) -> exists cmd, o = Some cmd /\ is_cstr cmd.

Definition messages : list (list Z) :=
  [lit "There is no device HID"; lit "There is no command"; lit "There is no payload"; lit "There is no a command handler"; lit "Something went wrong"].
Definition error_text (msg : list Z) : list Z := JsonEmit.render (error_of msg).

Lemma verdict_message es params msg : verdict es params = inl msg -> msg ∈ messages.
Proof.
  unfold verdict. intros E. repeat case_match; simplify_eq; unfold messages; repeat first [left; done | right]; done.
Qed.

Lemma run_command_ok es params s : table sc s es -> command_given params ->
  match verdict es params with
  | inl msg => run_command call params s = Some (Some (error_of msg), s)
  | inr (cb, pay) => run_command call params s =
      Some (if fst (call cb pay (outside (rest s))) <? 0 then Some (error_of (lit "Something went wrong")) else None, with_outside s (snd (call cb pay (outside (rest s)))))
  end.
Proof.
  intros Ht Hc. unfold verdict, run_command. destruct (find_param params (lit "deviceHid")) as [[| |hid| | |]|]; try done.
  destruct (either params (lit "command") (lit "Command")) as [[| |o| | |]|] eqn:Ec; try done. destruct (Hc o Ec) as (cmd & -> & Hcmd).
  destruct (either params (lit "payload") (lit "Payload")) as [[| |pay| | |]|]; try done.
  destruct (find_ok sc s es cmd Ht Hcmd) as (h & E & Hh). rewrite <- Hh. destruct h as [[el h]|]; cbn [fmap option_fmap option_map compose snd].
  - destruct (call (h_callback h) pay (outside (rest s))) as [ret w] eqn:Ew.
    erewrite bind_run by done. erewrite bind_run by done. erewrite bind_run by (apply lift_run; exact E). cbn match. rewrite Ew. erewrite bind_run by apply set_outside_run. done.
  - erewrite bind_run by done. erewrite bind_run by done. by erewrite bind_run by (apply lift_run; exact E).
Qed.

Lemma ascii_text s : Forall (fun c => 1 <= c < 128) s -> JsonUtf8.well_formed s.
Proof.
  intros Hs. exists s. split; [eapply Forall_impl; [exact Hs|]; intros c Hc; cbv beta in *; unfold JsonUtf8.scalar; lia|]. unfold JsonUtf8.text. induction Hs as [|c s Hc _ IH]; [done|]. cbn [map concat]. rewrite <- IH.
  cbv beta in Hc. unfold JsonUtf8.utf8_write_char. rewrite (proj2 (Z.leb_le c 127)) by lia. by rewrite u8_id by (unfold is_byte; lia).
Qed.

Lemma message_printable msg : msg ∈ messages -> JsonEmit.printable (error_of msg) /\ zlen (error_text msg) <= 60 /\ is_cstr (error_text msg).
Proof.
  intros Hm. assert (Hascii : Forall (fun c => 1 <= c < 128) msg).
  { unfold messages in Hm. repeat (apply elem_of_cons in Hm as [-> | Hm]; [by repeat constructor|]). by apply not_elem_of_nil in Hm. }
  split; [|unfold messages in Hm; repeat (apply elem_of_cons in Hm as [-> | Hm]; [split; [by vm_compute | by repeat constructor]|]); by apply not_elem_of_nil in Hm].
  constructor. apply Forall_cons; split; [split; cbn [fst snd]|constructor].
  - apply ascii_text. by repeat constructor.
  - constructor. by apply ascii_text.
Qed.

Lemma encode_error msg (s : St) : msg ∈ messages -> exists a,
  on_mem (json_encode_property malloc text_malloc (error_of msg)) s = Some (json_prop a (u16 (zlen (error_text msg))), with_ks s (with_mem (ks s) (<[a := (true, error_text msg ++ [0])]> (mem s)))) /\ mem s !! a = None /\ a <> NULL.
Proof.
  intros Hmsg. destruct (message_printable msg Hmsg) as (Hp & Hl & Hc). pose proof (zlen_nonneg (error_text msg)).
  assert (E : JsonEmit.json_encode text_malloc (error_of msg) = Some (Some (error_text msg))) by (apply (JsonEmit.stringify_rendered text_malloc Mx None); [done | done | done | change (JsonEmit.rendered None (error_of msg)) with (error_text msg); lia]).
  destruct (malloc (mem s) (zlen (error_text msg) + 1)) as [[a f]|] eqn:Em; [|exfalso; by apply (Henough (mem s) (zlen (error_text msg) + 1)); [lia|]].
  destruct (malloc_fresh _ _ _ _ Em) as [Ha Ha0]. exists a. split; [|done]. apply on_mem_run. unfold json_encode_property. rewrite E. cbn [mbind option_bind]. unfold dup_bytes. rewrite Em. rewrite (proj2 (Z.eqb_neq a NULL) Ha0). unfold p_json, bytes_at. rewrite lookup_insert_eq. cbn [mbind option_bind]. by rewrite strlen_cstr.
Qed.

(** What is seen of one event: the answer that it was received, the call, and the
    answer of how it went; -2 when the code gave up on one of the answers. *)
Inductive trace (h : list Z) : list Z + Z * option (list Z) -> Z -> list entry -> Prop :=
  | not_received v l : attempts h received None false l -> trace h v (-2) l
  | refused msg ok l1 l2 : attempts h received None true l1 -> attempts h failed (Some (error_text msg)) ok l2 -> trace h (inl msg) (if ok then 0 else -2) (l1 ++ l2)
  | called cb pay r ok l1 l2 : attempts h received None true l1 ->
      attempts h (if r <? 0 then failed else succeeded) (if r <? 0 then Some (error_text (lit "Something went wrong")) else None) ok l2 ->
      trace h (inr (cb, pay)) (if ok then 0 else -2) (l1 ++ Called cb pay r :: l2).

(** The end of the handler, with an error to tell or without. *)
Definition finish_command (fuel : nat) (hid : property_t) (err : option JsonNode) : M St Z :=
  match err with
  | Some error =>
      p ← on_mem (json_encode_property malloc text_malloc error);
      r ← answer_loop send ARROW_MAX_RETRY msleep fuel hid failed p 0;
      match r with
      | None => mret (-2)
      | Some _ => _ ← free_property json_types p; _ ← DeviceCommand.http_session_set_protocol HttpClient.api_via_http; mret 0
      end
  | None =>
      r ← answer_loop send ARROW_MAX_RETRY msleep fuel hid succeeded p_null 0;
      match r with None => mret (-2) | Some _ => _ ← DeviceCommand.http_session_set_protocol HttpClient.api_via_http; mret 0 end
  end.

(** Afterwards the memory is as before, unless the code gave up. *)
Definition settled (s s' : St) (r : Z) : Prop := others_same s s' /\ kept sc (mem s) (mem s') /\
  (r = 0 -> like sc (mem s) (mem s') /\ HttpClient.protocol (client (rest s')) = HttpClient.api_via_http).

Lemma finish_none hid h fuel s : says sc (mem s) hid (Some h) -> (Z.to_nat patience < fuel)%nat ->
  exists ok s' l, finish_command fuel hid None s = Some (if (ok : bool) then 0 else -2, s') /\ settled s s' (if ok then 0 else -2) /\ seen s' = seen s ++ l /\ attempts h succeeded None ok l.
Proof.
  intros Hh Hf. destruct (answers_ok hid h succeeded p_null None fuel s Hh eq_refl Hf) as (o & s1 & l & E & [Ho Hm] & Hs & Ha). unfold finish_command. erewrite bind_run by exact E.
  destruct o as [o|]; [exists true | exists false]; eexists _, l; (split; [done|]); (split; [|by split]).
  - split; [done|]. split; [by apply like_kept | done].
  - split; [done|]. split; [by apply like_kept | done].
Qed.

Lemma finish_error hid h fuel msg s : (forall a, a ∈ sc -> is_Some (mem s !! a)) -> msg ∈ messages -> says sc (mem s) hid (Some h) -> (Z.to_nat patience < fuel)%nat ->
  exists ok s' l, finish_command fuel hid (Some (error_of msg)) s = Some (if (ok : bool) then 0 else -2, s') /\ settled s s' (if ok then 0 else -2) /\ seen s' = seen s ++ l /\ attempts h failed (Some (error_text msg)) ok l.
Proof.
  intros Hsc Hmsg Hh Hf. destruct (encode_error msg s Hmsg) as (a & Ee & Ha & Ha0). destruct (message_printable msg Hmsg) as (_ & _ & Hc). unfold finish_command. erewrite bind_run by exact Ee.
  set (s1 := with_ks s _). assert (Hasc : a ∉ sc) by (intros Hin; destruct (Hsc a Hin) as [b Hb]; congruence).
  assert (Hold : forall x, is_Some (mem s !! x) -> mem s1 !! x = mem s !! x) by (intros x [b Hb]; apply lookup_insert_ne; congruence).
  destruct (answers_ok hid h failed (json_prop a (u16 (zlen (error_text msg)))) (Some (error_text msg)) fuel s1) as (o & s2 & l & E & [Ho Hm] & Hs & Hatt); [| | done |].
  - destruct Hh as (A & B & C & b & x & D). split; [done|]. split; [done|]. split; [done|]. exists b, x. rewrite Hold; [done | by eexists].
  - split; [done|]. split; [done|]. split; [done|]. exists true, []. apply lookup_insert_eq.
  - erewrite bind_run by exact E. assert (Hkept : kept sc (mem s) (mem s2)) by (apply (kept_trans _ _ (mem s1)); [intros x Hx; rewrite (Hold x Hx); by split | by apply like_kept]).
    destruct o as [o|]; [exists true | exists false; by exists s2, l].
    assert (Ef : free_property json_types (json_prop a (u16 (zlen (error_text msg)))) s2 = Some (tt, with_ks s2 (with_mem (ks s2) (delete a (mem s2))))).
    { apply on_mem_run. rewrite (property_free_json _ _ (Some (error_text msg))).
      - unfold own. cbn [value json_prop]. rewrite (proj2 (Z.eqb_neq a NULL) Ha0). done.
      - exists a, (u16 (zlen (error_text msg))), []. split_and!; try done. rewrite (proj2 Hm) by done. apply lookup_insert_eq. }
    erewrite bind_run by exact Ef. eexists _, l. split; [done|]. split; [|by split]. split; [done|]. split.
    + intros x Hx. change (is_Some (delete a (mem s2) !! x) /\ (x ∉ sc -> delete a (mem s2) !! x = mem s !! x)). rewrite lookup_delete_ne by (intros ->; rewrite Ha in Hx; by destruct Hx). by apply Hkept.
    + intros _. split; [|done]. by apply (like_delete sc (mem s) (mem s2) a (true, error_text msg ++ [0])).
Qed.

Lemma settled_after s s1 s' r : moved s s1 -> settled s1 s' r -> settled s s' r.
Proof.
  intros [Ho Hm] (Ho' & Hk & Hl). split; [by eapply others_trans|]. split.
  - eapply kept_trans; [by apply like_kept | exact Hk].
  - intros Hr. destruct (Hl Hr) as [A B]. split; [by eapply like_trans | done].
Qed.

(** After the event was received: the call and the last answer. *)
Lemma rest_ok hid h fuel es params s : (forall a, a ∈ sc -> is_Some (mem s !! a)) -> table sc s es -> command_given params -> says sc (mem s) hid (Some h) -> (Z.to_nat patience < fuel)%nat ->
  forall l1, attempts h received None true l1 ->
  exists r s' l, (err ← run_command call params; _ ← DeviceCommand.http_session_close_set true; finish_command fuel hid err) s = Some (r, s') /\ settled s s' r /\ seen s' = seen s ++ l /\ trace h (verdict es params) r (l1 ++ l).
Proof.
  intros Hsc Ht Hc Hh Hf l1 Hl1. pose proof (run_command_ok es params s Ht Hc) as Hr. destruct (verdict es params) as [msg | [cb pay]] eqn:Ev.
  - erewrite bind_run by exact Hr. erewrite bind_run by apply close_set_run. set (s1 := with_client s _).
    destruct (finish_error hid h fuel msg s1) as (ok & s' & l & E & Hs & Hseen & Ha); [done | by eapply verdict_message | done | done |].
    exists (if ok then 0 else -2), s', l. split; [exact E|]. split; [exact Hs|]. split; [exact Hseen | by apply refused].
  - erewrite bind_run by exact Hr. pose proof (Hcall cb pay (outside (rest s))) as Hlog. destruct (call cb pay (outside (rest s))) as [r w]. cbn [fst snd] in Hlog |- *. erewrite bind_run by apply close_set_run. set (s1 := with_client _ _).
    assert (Hs1 : seen s1 = seen s ++ [Called cb pay r]) by exact Hlog.
    destruct (r <? 0) eqn:Er.
    + destruct (finish_error hid h fuel (lit "Something went wrong") s1) as (ok & s' & l & E & Hs & Hseen & Ha); [done | unfold messages; repeat first [left; done | right] | done | done |].
      exists (if ok then 0 else -2), s', (Called cb pay r :: l). split; [exact E|]. split; [exact Hs|]. split; [by rewrite Hseen, Hs1, <- app_assoc|]. apply called; [done|]. by rewrite Er.
    + destruct (finish_none hid h fuel s1) as (ok & s' & l & E & Hs & Hseen & Ha); [done | done |].
      exists (if ok then 0 else -2), s', (Called cb pay r :: l). split; [exact E|]. split; [exact Hs|]. split; [by rewrite Hseen, Hs1, <- app_assoc|]. apply called; [done|]. by rewrite Er.
Qed.

(** The handler, from its start. *)
Lemma device_command_ok fuel s ev e h es params : (forall a, a ∈ sc -> is_Some (mem s !! a)) -> table sc s es -> get_node (event_queue s) ev = Some e ->
  says sc (mem s) (id (base e)) (Some h) -> command_given params -> (Z.to_nat patience < fuel)%nat ->
  exists r s' l, ev_DeviceCommand malloc json_types send ARROW_MAX_RETRY call msleep text_malloc fuel ev params s = Some (r, s') /\
    seen s' = seen s ++ l /\ trace h (verdict es params) r l /\ settled s s' r /\ table sc s' es.
Proof.
  intros Hsc Ht He Hh Hc Hf. unfold ev_DeviceCommand. erewrite bind_run by apply close_set_run. set (s0 := with_client s _). erewrite bind_run by done. erewrite bind_run by (apply lift_run; exact He).
  destruct (answers_ok (id (base e)) h received p_null None fuel s0 Hh eq_refl Hf) as (o & s1 & l1 & E1 & Hm1 & Hs1 & Ha1). erewrite bind_run by exact E1.
  assert (Hm : moved s s1) by exact Hm1. assert (Ht1 : table sc s1 es) by (apply (table_same s); [apply Hm | apply like_kept, Hm | done]).
  destruct o as [o|].
  - destruct (rest_ok (id (base e)) h fuel es params s1) with l1 as (r & s' & l & E & Hset & Hseen & Htr); [| done | done | | done | exact Ha1 |].
    + intros a Ha. apply elem_of_dom. rewrite (proj1 (proj2 Hm)). apply elem_of_dom. by apply Hsc.
    + eapply says_like; [apply Hm | done].
    + exists r, s', (l1 ++ l). split; [exact E|]. split; [rewrite Hseen, Hs1; by rewrite <- app_assoc|]. split; [exact Htr|]. assert (Hfin : settled s s' r) by by eapply settled_after.
      split; [exact Hfin|]. apply (table_same s); [apply Hfin | apply Hfin | done].
  - exists (-2), s1, l1. split; [done|]. split; [exact Hs1|]. split; [by apply not_received|]. split; [|done]. split; [apply Hm|]. split; [apply like_kept, Hm | done].
Qed.


End answers.
(** ** The request of an answer *)

Lemma strcat_spec t r s : is_cstr t -> strcat (t ++ 0 :: r) s = if zlen s <=? zlen r then Some (t ++ s ++ 0 :: drop (Z.to_nat (zlen s)) r) else None.
Proof.
  intros Ht. unfold strcat. rewrite strlen_cstr by done. cbn [mbind option_bind]. destruct (Z.leb_spec (zlen s) (zlen r)) as [Hs | Hs].
  - destruct (split_at r (zlen s)) as (r1 & r2 & -> & Hr); [pose proof (zlen_nonneg s); lia|]. change (0 :: r1 ++ r2) with ((0 :: r1) ++ r2). rewrite wrn_app_split by zl.
    rewrite <- Hr, zlen_to_nat, drop_app_length, <- app_assoc. done.
  - apply wrn_None. right. zl.
Qed.

Definition suffix (ev : cmd_type) : list Z := match ev with failed => lit "/failed" | received => lit "/received" | succeeded => lit "/succeeded" end.
Lemma suffix_cstr ev : is_cstr (suffix ev).
Proof. by destruct ev; repeat constructor. Qed.
Lemma endpoint_cstr DEV_ENV : is_cstr (endpoint DEV_ENV).
Proof. by destruct DEV_ENV; repeat constructor. Qed.

Lemma form_url_ok DEV_ENV sc m hid h ev b : says sc m hid (Some h) -> zlen b = zlen (endpoint DEV_ENV) + 101 ->
  exists x, form_evetns_url DEV_ENV m hid ev b = if zlen h + zlen (suffix ev) <=? 99 then Some ((endpoint DEV_ENV ++ lit "/" ++ h ++ suffix ev) ++ 0 :: x) else None.
Proof.
  intros (Hh & _ & _ & f & y & Hm) Hb. pose proof (zlen_nonneg h). pose proof (zlen_nonneg (suffix ev)). unfold form_evetns_url. destruct (split_at b (zlen (endpoint DEV_ENV) + 1)) as (b1 & b2 & -> & Hb1); [pose proof (zlen_nonneg (endpoint DEV_ENV)); lia|].
  rewrite zlen_app in Hb. rewrite wrn_app_0 by (zl; lia). cbn [mbind option_bind]. rewrite <- app_assoc. change ([0] ++ b2) with (0 :: b2). pose proof (endpoint_cstr DEV_ENV) as He.
  rewrite strcat_spec by done. change (zlen (lit "/")) with 1. rewrite (proj2 (Z.leb_le 1 (zlen b2))) by lia. cbn [mbind option_bind]. unfold bytes_at. rewrite Hm. cbn [mbind option_bind]. rewrite cstr_app by done. cbn [mbind option_bind].
  rewrite app_assoc. assert (He1 : is_cstr (endpoint DEV_ENV ++ lit "/")) by (apply Forall_app; split; [done | by repeat constructor]). rewrite strcat_spec by done.
  set (b3 := drop _ b2). assert (Hb3 : zlen b3 = 99) by (subst b3; unfold zlen in *; rewrite length_drop; lia).
  rewrite Hb3. destruct (Z.leb_spec (zlen h) 99) as [Hle | Hgt]; [|exists []; rewrite (proj2 (Z.leb_gt _ 99)) by lia; done]. cbn [mbind option_bind]. rewrite app_assoc.
  assert (He2 : is_cstr ((endpoint DEV_ENV ++ lit "/") ++ h)) by by apply Forall_app. change (match ev with failed => lit "/failed" | received => lit "/received" | succeeded => lit "/succeeded" end) with (suffix ev). rewrite strcat_spec by done.
  exists (drop (Z.to_nat (zlen (suffix ev))) (drop (Z.to_nat (zlen h)) b3)). rewrite <- !app_assoc. replace (zlen (drop (Z.to_nat (zlen h)) b3)) with (99 - zlen h) by (unfold zlen in *; rewrite length_drop; lia).
  replace (zlen (suffix ev) <=? 99 - zlen h) with (zlen h + zlen (suffix ev) <=? 99) by lia. done.
Qed.

(** With the JSON type registered http_request_init does what it does without it. *)
Lemma init_json malloc literal m r k url : HttpRequest.http_request_init malloc json_types literal m r k url = HttpRequest.http_request_init malloc types literal m r k url.
Proof.
  assert (Hc : forall m a p, HttpRequest.p_const m a = Some p -> property_copy malloc json_types m p = property_copy malloc types m p).
  { intros m0 a p. unfold HttpRequest.p_const, HttpRequest.p_string. destruct (a =? NULL); [done|]. destruct (bytes_at m0 a) as [b|]; [|done]. cbn [mbind option_bind]. destruct (strlen b); [|done]. by intros [= <-]. }
  unfold HttpRequest.http_request_init. cbv zeta. destruct (HttpRequest.p_const m _) as [p|] eqn:E; [|done]. cbn [mbind option_bind]. rewrite (Hc _ _ _ E). destruct (property_copy malloc types m p) as [[m1 q]|]; [|done]. cbn [mbind option_bind].
  destruct (bytes_at m1 url) as [u|]; [|done]. cbn [mbind option_bind]. destruct (ArrowUtf8.Utf8.strstr u _) as [[n|]|]; [|done..]. cbn [mbind option_bind]. destruct (HttpRequest.cmp_n_Scheme u n) as [i|]; [|done]. cbn [mbind option_bind].
  destruct (HttpRequest.p_const m1 _) as [p1|] eqn:E1; [|done]. cbn [mbind option_bind]. by rewrite (Hc _ _ _ E1).
Qed.

(** The parts of the address of the API. *)
Definition ep_scheme (DEV_ENV : bool) : list Z := lit (if DEV_ENV then "http" else "https").
Definition ep_host (DEV_ENV : bool) : list Z := lit (if DEV_ENV then "pgsdev01.arrowconnect.io" else "api.arrowconnect.io").
Definition ep_port (DEV_ENV : bool) : Z := if DEV_ENV then 12001 else 443.
Definition ep_path (h : list Z) (ev : cmd_type) : list Z := lit "/api/v1/core/events/" ++ h ++ suffix ev.

Lemma endpoint_url DEV_ENV h ev : is_cstr h -> HttpBuild.url_ok (ep_scheme DEV_ENV) (ep_host DEV_ENV) (ep_port DEV_ENV) (ep_path h ev) /\
  endpoint DEV_ENV ++ lit "/" ++ h ++ suffix ev = HttpBuild.url_text (ep_scheme DEV_ENV) (ep_host DEV_ENV) (ep_port DEV_ENV) (ep_path h ev).
Proof.
  intros Hh. split; [|by destruct DEV_ENV]. split.
  - destruct DEV_ENV; unfold HttpRequest.Scheme_str; cbn [map]; repeat first [left; done | right].
  - by destruct DEV_ENV; repeat constructor.
  - destruct DEV_ENV; apply (bool_decide_unpack _); by vm_compute.
  - by destruct DEV_ENV.
  - exists (lit "api/v1/core/events/" ++ h ++ suffix ev). split; [done|]. apply Forall_app; split; [by repeat constructor|]. apply Forall_app; split; [done | apply suffix_cstr].
Qed.

Section request.
Context (malloc : memory -> Z -> option (Z * list Z)) `{Hmalloc : !Malloc malloc}.
Context (Henough : forall m n, 0 <= n -> malloc m n <> None).
Context (literal : list Z -> Z) `{HttpClient.Buffers} (DEV_ENV : bool) (uri_at : Z).

(** C25. The request of an answer without a payload: when the identifier of the event
    and the name of the answer have at most 99 bytes it is a PUT of
    /api/v1/core/events/<identifier>/<answer> to the address of the API, in blocks
    of its own; with an identifier from the cloud that is longer the array of the
    URL is written behind its end. *)
Theorem event_ans_init_spec sc w req0 hid h ev : HttpBuild.literals literal (PropMap.w_mem w) -> says sc (PropMap.w_mem w) hid (Some h) -> PropMap.w_mem w !! uri_at = None -> uri_at <> NULL ->
  if zlen h + zlen (suffix ev) <=? 99 then
    exists w' r, event_ans_init malloc json_types DEV_ENV literal uri_at (mk_data hid ev p_null) w req0 = Some (w', r) /\
      HttpBuild.request_rep (PropMap.w_mem w) w' r (lit "PUT") (ep_scheme DEV_ENV) (ep_host DEV_ENV) (ep_path h ev) [] [] /\ HttpClient.port r = ep_port DEV_ENV /\ HttpClient.payload r = p_null
  else event_ans_init malloc json_types DEV_ENV literal uri_at (mk_data hid ev p_null) w req0 = None.
Proof.
  intros Hl Hh Hu Hu0. unfold event_ans_init. cbn [d_hid d_ev d_payload].
  destruct (form_url_ok DEV_ENV sc (PropMap.w_mem w) hid h ev (HttpClient.chunk (zlen (endpoint DEV_ENV) + 1 + 100)) Hh) as (x & ->).
  { rewrite HttpClient.chunk_size; [lia|]. pose proof (zlen_nonneg (endpoint DEV_ENV)). lia. }
  destruct (zlen h + zlen (suffix ev) <=? 99); [|done]. cbn [mbind option_bind]. destruct Hh as (Hh & _). destruct (endpoint_url DEV_ENV h ev Hh) as [Hurl ->]. rewrite init_json.
  set (w1 := PropMap.set_mem w (<[uri_at := (false, HttpBuild.url_text (ep_scheme DEV_ENV) (ep_host DEV_ENV) (ep_port DEV_ENV) (ep_path h ev) ++ 0 :: x)]> (PropMap.w_mem w))).
  assert (Hlive : forall a, is_Some (PropMap.w_mem w !! a) -> a <> uri_at) by (intros a [b Hb] ->; congruence).
  assert (Hl1 : HttpBuild.literals literal (PropMap.w_mem w1)).
  { intros s Hs. destruct (Hl s Hs) as [A B]. split; [done|]. cbn [PropMap.w_mem PropMap.set_mem w1]. rewrite lookup_insert_ne; [done|]. apply not_eq_sym, Hlive. by eexists. }
  destruct (HttpBuild.http_request_init_ok malloc Henough literal w1 req0 2 (lit "PUT") (ep_scheme DEV_ENV) (ep_host DEV_ENV) (ep_port DEV_ENV) (ep_path h ev) uri_at x Hl1) as (m & r & E & Hr & _ & P1 & _ & _ & _ & P2 & _ & _ & _ & _ & Av); [done | done | |].
  { unfold bytes_at. cbn [PropMap.w_mem PropMap.set_mem w1]. by rewrite lookup_insert_eq. }
  change PUT with (Z.of_nat 2). change (<[uri_at := _]> (PropMap.w_mem w)) with (PropMap.w_mem w1). rewrite E. cbn [mbind option_bind]. change (IS_EMPTY p_null) with true. cbv iota.
  eexists _, r. split; [done|]. split; [|done].
  assert (Ha : HttpBuild.avoids uri_at r [] []).
  { apply Av; [cbn [PropMap.w_mem PropMap.set_mem w1]; rewrite lookup_insert_eq; by eexists | done | |].
    - apply Hlive. eexists. apply Hl. unfold HttpRequest.METH_str. cbn [map]. repeat first [left; done | right].
    - apply Hlive. eexists. apply Hl. apply elem_of_app; right. apply elem_of_app; left. apply Hurl. }
  pose proof (SignRequest.request_rep_delete _ _ _ _ _ _ _ _ _ uri_at Hr Ha) as Hd. cbn [PropMap.w_mem PropMap.set_mem w1] in Hd. rewrite delete_insert_eq, delete_id in Hd by done. exact Hd.
Qed.

End request.
(** ** Samples *)

(** The results that answers will have, and what was seen. *)
Definition sample_world : Type := list Z * list entry.
Abbreviation sample_state := (state (program unit sample_world)).

Definition text_at (m : memory) (p : property_t) : option (option (list Z)) :=
  if value p =? NULL then Some None else b ← bytes_at m (value p); s ← cstr b; Some (Some s).
Definition sample_send (hid : property_t) (ev : cmd_type) (payload : property_t) : M sample_state Z := fun s =>
  h ← text_at (mem s) hid; h ← h; p ← text_at (mem s) payload;
  let '(rs, l) := outside (rest s) in
  Some (default 0 (head rs), with_outside s (tail rs, l ++ [Answered h ev p (default 0 (head rs))])).
Definition sample_call (cb : Z) (p : option (list Z)) (w : sample_world) : Z * sample_world := (0, (w.1, w.2 ++ [Called cb p 0])).

Lemma text_at_says sc m p t : says sc m p t -> text_at m p = Some t.
Proof.
  unfold says, text_at. destruct t as [s|]; [|by intros ->]. intros (Hs & Hp & _ & b & x & Hm). rewrite (proj2 (Z.eqb_neq (value p) NULL) Hp). unfold bytes_at. rewrite Hm. cbn [mbind option_bind]. by rewrite cstr_app.
Qed.

#[local] Instance sample_sends : Sends [] (fun w : sample_world => w.2) sample_send.
Proof.
  intros hid h ev payload p s Hh Hp. unfold sample_send. rewrite (text_at_says _ _ _ _ Hh), (text_at_says _ _ _ _ Hp). cbn [mbind option_bind]. unfold seen. destruct (outside (rest s)) as [rs l] eqn:Ew.
  eexists _, _. split; [done|]. split; [done|]. by split.
Qed.

(** The command go, and an event that asks for it. *)
Definition sample_memory : memory := <[40 := (false, lit "go" ++ [0])]> (<[41 := (true, lit "h1" ++ [0])]> ∅).
Definition sample_client : @HttpClient.http_client_t unit := HttpClient.mk_client (-1) 10000 0 true false None None HttpClient.api_via_http.
Definition sample_program (rs : list Z) : program unit sample_world :=
  mk_program (mk_queue 5 {[5 := 0]} {[5 := mk_handler (const_prop 40 2) 7]}) sample_client ∅ ∅ (rs, []).
Definition sample_table (rs : list Z) : sample_state :=
  mk_state (Crypt.mk_state sample_memory [] ([], []) NULL NULL)
    (mk_queue 9 {[9 := 0]} {[9 := mk_event p_null (mk_base (json_prop 41 2) p_null 0 None)]}) (mk_queue NULL ∅ ∅) (finished false) (finished false) 0 false (sample_program rs).
Definition sample_params : JsonNode :=
  JObject [(lit "deviceHid", JString (Some (lit "d"))); (lit "Command", JString (Some (lit "go"))); (lit "payload", JString (Some (lit "x")))].

Lemma sample_table_ok rs : table [] (sample_table rs) [(lit "go", 7)].
Proof.
  exists [5], [mk_handler (const_prop 40 2) 7]. split.
  - split; [split; [done|]; split; [done|]; by exists 0 | by repeat constructor | done | done].
  - constructor; [|constructor]. split; [by repeat constructor|]. split; [done|]. exists 40, 2, false, []. split; [done|]. split; [done|]. split; [apply not_elem_of_nil | done].
Qed.

Lemma command_handlers_dangle_witness : exists q, arrow_command_handler_free json_types (sample_table []) = Some (tt, with_handlers (sample_table []) q) /\
  has_cmd_handler (with_handlers (sample_table []) q) = Some (0, with_handlers (sample_table []) q) /\ arrow_command_handler_free json_types (with_handlers (sample_table []) q) = None.
Proof.
  destruct (command_handlers_dangle Property.bump_malloc PropMap.sample_node PropMap.sample_node_ok [] (sample_table []) (lit "go", 7) [] (sample_table_ok [])) as (q & A & B & C & _). by exists q.
Defined.


#[local] Existing Instance HttpExchange.sample_buffers.

(** The identifier is the text PUT of the samples. *)
Lemma event_ans_init_spec_witness : exists w' r,
  event_ans_init Property.bump_malloc json_types false SignRequest.sign_literal 60 (mk_data (const_prop (SignRequest.sign_literal (lit "PUT")) 3) succeeded p_null) SignRequest.sign_heap HttpRequest.zero_request = Some (w', r) /\
  HttpBuild.request_rep SignRequest.sign_texts w' r (lit "PUT") (lit "https") (lit "api.arrowconnect.io") (lit "/api/v1/core/events/PUT/succeeded") [] [].
Proof.
  pose proof (event_ans_init_spec Property.bump_malloc PropMap.bump_enough SignRequest.sign_literal false 60 [] SignRequest.sign_heap HttpRequest.zero_request
    (const_prop (SignRequest.sign_literal (lit "PUT")) 3) (lit "PUT") succeeded) as Hs.
  change (zlen (lit "PUT") + zlen (suffix succeeded) <=? 99) with true in Hs. cbv iota in Hs. destruct Hs as (w' & r & E & Hr & _).
  - exact SignRequest.sign_literals.
  - split; [by repeat constructor|]. split; [done|]. split; [apply not_elem_of_nil|]. exists false, []. by vm_compute.
  - by vm_compute.
  - done.
  - exists w', r. split; [exact E | exact Hr].
Defined.

End CommandSpec.
