(* ===== verification/DeviceState.v ===== *)
(** src/src/arrow/state.c: the states of a device, which the program sets and the
    cloud may change, each with the time of its last change; they are posted to the
    cloud as JSON. STATIC_DEVICE_STATES, USE_HEAP and NO_EVENTS are undefined. *)
From S2P Require Import Prelude StateM Retry ByteQueue LinkedList EventQueue Property PropMap PropOwn Double JsonParse JsonEmit Timer ArrowUtf8 HttpClient HttpRequest Crypt HttpRoutine Events DeviceCommand.

Module DeviceState.
Import StateM EventQueue Property Double JsonParse Timer.

(** config/api.h *)
Definition ARROW_API_DEVICE_ENDPOINT (DEV_ENV : bool) : list Z :=
  lit (if DEV_ENV then "http://pgsdev01.arrowconnect.io:12001/api/v1/kronos/devices" else "https://api.arrowconnect.io:443/api/v1/kronos/devices").

(** enum JsonTag *)
Definition JSON_BOOL : Z := 1.
Definition JSON_STRING : Z := 2.
Definition JSON_NUMBER : Z := 3.
Definition is_valid_tag (t : Z) : bool := negb (Z.land t JSON_BOOL =? 0) || negb (Z.land t JSON_STRING =? 0) || negb (Z.land t JSON_NUMBER =? 0).

(** The member of the union that was written last. *)
Inductive value_t := v_property (p : property_t) | v_bool (b : bool) | v_number (d : double).
Record arrow_state_list_t := mk_st { name : property_t; tag : Z; value : value_t; ts : timestamp }.

(** What a pointer to the new value of a state points to. *)
Inductive data := d_bool (b : bool) | d_number (d : double) | d_property (p : property_t).

(** The entries of [state_adder]; an index behind them is not in the array. *)
Inductive adder := no_adder | bool_adder | string_adder | number_adder.
Definition state_adder (tag : Z) : option adder := if tag <? 0 then None else [no_adder; bool_adder; string_adder; number_adder] !! Z.to_nat tag.

(** The static variables, and the world outside. *)
Record dev (W : Type) := mk_dev { __state_list : queue arrow_state_list_t; _device_hid : property_t; _last_modify : timestamp; env : W }.
Arguments mk_dev {W} _ _ _ _.
Arguments __state_list {W} _.
Arguments _device_hid {W} _.
Arguments _last_modify {W} _.
Arguments env {W} _.

Section states.
Context {W : Type}.
(** The memory and the variables. *)
Abbreviation M := (StateM.M (memory * dev W)).

Definition get : M (memory * dev W) := fun s => Some (s, s).
Definition set_list (q : queue arrow_state_list_t) : M unit := fun s => Some (tt, (s.1, mk_dev q (_device_hid s.2) (_last_modify s.2) (env s.2))).
Definition set_hid (p : property_t) : M unit := fun s => Some (tt, (s.1, mk_dev (__state_list s.2) p (_last_modify s.2) (env s.2))).
Definition set_last_modify (t : timestamp) : M unit := fun s => Some (tt, (s.1, mk_dev (__state_list s.2) (_device_hid s.2) t (env s.2))).
(** An operation on the memory. *)
Definition on_mem {A} (f : memory -> option (A * memory)) : M A := fun s => '(a, m) ← f s.1; Some (a, (m, s.2)).

Context (malloc : memory -> Z -> option (Z * list Z)) (text_malloc : Z -> option (list Z)) (new_state : gmap Z Z -> option Z) (disp : list prop_type).
(** What another member of the union shows: of the value of a state, and of a JSON node. *)
Context (other_property : value_t -> property_t) (other_bool : value_t -> bool) (other_number : value_t -> double) (union_string : JsonNode -> option (list Z)).
(** [timestamp], which is code of the platform. *)
Context (timestamp_now : W -> timestamp -> timestamp).

Definition _property (v : value_t) : property_t := match v with v_property p => p | _ => other_property v end.
Definition _bool (v : value_t) : bool := match v with v_bool b => b | _ => other_bool v end.
Definition _number (v : value_t) : double := match v with v_number d => d | _ => other_number v end.

Definition now (t : timestamp) : M timestamp := fun s => Some (timestamp_now (env s.2) t, s).

(** [atof]: white space, then a number, or the name of an infinity or a NaN. *)
Definition lower (c : Z) : Z := if (65 <=? c) && (c <=? 90) then c + 32 else c.
Definition atof (s : list Z) : double :=
  let s := Utf8.skip_spaces s in
  let u := Utf8.sign s in
  if bool_decide (map lower (take 3 u.2) = lit "inf") then SpecFloat.S754_infinity u.1
  else if bool_decide (map lower (take 3 u.2) = lit "nan") then SpecFloat.S754_nan else strtod s.

(** ** The handlers of a type: (value afterwards) *)

Definition add (a : adder) (v : value_t) (d : option data) : M value_t :=
  match a, d with
  | bool_adder, None => mret (v_bool false)
  | bool_adder, Some (d_bool b) => mret (v_bool b)
  | number_adder, None => mret (v_number (double_of_Z 0))
  | number_adder, Some (d_number d) => mret (v_number d)
  | string_adder, None => mret (v_property p_null)
  | string_adder, Some (d_property p) => on_mem (fun m => '(m, dst, _) ← property_move malloc disp m (_property v) p; Some (v_property dst, m))
  | _, _ => lift None
  end.

(** Of a string the characters are duplicated; of NULL there are none. *)
Definition json (a : adder) (v : value_t) : M JsonNode :=
  match a with
  | no_adder => lift None
  | bool_adder => mret (JBool (_bool v))
  | number_adder => mret (JNumber (_number v))
  | string_adder => s ← get; b ← lift (bytes_at s.1 (Property.value (_property v))); t ← lift (cstr b); mret (JString (Some t))
  end.

(** [s] is the string of a JSON node. *)
Definition parse (a : adder) (v : value_t) (s : list Z) : M value_t :=
  match a with
  | no_adder => lift None
  | bool_adder => e ← lift (strcmp0 (s ++ [0]) (lit "true" ++ [0])); mret (v_bool e)
  | number_adder => mret (v_number (atof s))
  | string_adder =>
      on_mem (fun m =>
        '(m, _) ← property_free disp m (_property v);
        '(m, p) ← HttpRequest.copy_p_stack malloc disp m (s ++ [0]);
        Some (v_property p, m))
  end.

Definition state_value_string_free (v : value_t) : M unit :=
  if IS_EMPTY (_property v) then mret tt else on_mem (fun m => '(m, _) ← property_free disp m (_property v); Some (tt, m)).

(** ** The list *)

Definition arrow_device_state_list_init : arrow_state_list_t := mk_st p_null 0 (v_property p_null) Utf8.ts_zero.

Definition arrow_device_state_list_free (st : arrow_state_list_t) : M unit :=
  _ ← on_mem (fun m => '(m, _) ← property_free disp m (name st); Some (tt, m));
  if is_valid_tag (tag st) then
    a ← lift (state_adder (tag st));
    match a with string_adder => state_value_string_free (value st) | _ => mret tt end
  else mret tt.

Definition stateeq (m : memory) (sl : arrow_state_list_t) (nm : property_t) : option bool := r ← property_cmp m (name sl) nm; Some (r =? 0).

Definition tag_of (d : data) : Z := match d with d_bool _ => JSON_BOOL | d_number _ => JSON_NUMBER | d_property _ => JSON_STRING end.

Definition arrow_device_state_add (nm : property_t) (d : data) : M unit :=
  s ← get;
  dev_state ← lift (linked_list_find_node (__state_list s.2) (fun sl => stateeq s.1 sl nm));
  match dev_state with
  | None => mret tt
  | Some (el, st) =>
      if is_valid_tag (tag_of d) then
        a ← lift (state_adder (tag_of d));
        match a with
        | no_adder => mret tt
        | _ =>
            v ← add a (value st) (Some d);
            t ← now (ts st);
            s ← get;
            _ ← set_list (set_node (__state_list s.2) el (mk_st (name st) (tag st) v t));
            set_last_modify t
        end
      else mret tt
  end.

Definition arrow_device_state_set_string (nm val : property_t) : M unit := arrow_device_state_add nm (d_property val).
Definition arrow_device_state_set_number (nm : property_t) (val : Z) : M unit := arrow_device_state_add nm (d_number (double_of_Z val)).
Definition arrow_device_state_set_bool (nm : property_t) (val : bool) : M unit := arrow_device_state_add nm (d_bool val).

(** The names and types that are passed. *)
Fixpoint arrow_device_state_init (pairs : list (property_t * Z)) : M unit :=
  match pairs with
  | [] => mret tt
  | (nm, typetag) :: pairs' =>
      s ← get;
      let '(q, el) := alloc_node new_state (__state_list s.2) arrow_device_state_list_init in
      if el =? NULL then mret tt else
      _ ← set_list q;
      n ← on_mem (fun m => '(m, n) ← property_copy malloc disp m nm; Some (n, m));
      v ← (if is_valid_tag typetag then
             a ← lift (state_adder typetag);
             match a with no_adder => mret (v_property p_null) | _ => add a (v_property p_null) None end
           else mret (v_property p_null));
      s ← get;
      q ← lift (add_node_last (set_node (__state_list s.2) el (mk_st n typetag v Utf8.ts_zero)) el);
      _ ← set_list q;
      arrow_device_state_init pairs'
  end.

Fixpoint free_states (fuel : nat) (p : Z) : M unit :=
  match fuel with
  | O => lift None
  | S fuel' =>
      if p =? NULL then mret tt else
      s ← get;
      next ← lift (q_links (__state_list s.2) !! p);
      st ← lift (get_node (__state_list s.2) p);
      _ ← arrow_device_state_list_free st;
      s ← get;
      _ ← set_list (free_node (__state_list s.2) p);
      free_states fuel' next
  end.
Definition arrow_device_state_free : M unit :=
  s ← get;
  _ ← free_states (LinkedList.nodes_fuel (q_links (__state_list s.2))) (q_root (__state_list s.2));
  s ← get;
  set_list (mk_queue NULL (q_links (__state_list s.2)) (q_nodes (__state_list s.2))).

Definition arrow_state_mqtt_is_running : M Z := s ← get; mret (if q_root (__state_list s.2) =? NULL then -1 else 0).
Definition arrow_state_mqtt_stop : M Z :=
  s ← get;
  _ ← (if negb (q_root (__state_list s.2) =? NULL) then arrow_device_state_free else mret tt);
  s ← get;
  p ← on_mem (fun m => '(m, p) ← property_free disp m (_device_hid s.2); Some (p, m));
  _ ← set_hid p;
  mret 0.
Definition arrow_state_mqtt_run (hid : property_t) : M Z :=
  s ← get;
  _ ← (if IS_EMPTY (_device_hid s.2) then p ← on_mem (fun m => let '(m, p) := property_weak_copy disp m hid in Some (p, m)); set_hid p else mret tt);
  arrow_state_mqtt_is_running.

(** ** States from the cloud *)

(** The string of a node. *)
Definition string_ (j : JsonNode) : option (list Z) := Events.string_ union_string j.

(** One member of the object: [key] is NULL for an element of an array. *)
Definition handle_member (key : option (list Z)) (tmp : JsonNode) : M unit :=
  s ← get;
  dev_state ← lift (linked_list_find_node (__state_list s.2) (fun sl => k ← key; DeviceCommand.name_is s.1 (name sl) k));
  match dev_state with
  | None => mret tt
  | Some (el, st) =>
      match Events.json_find_member tmp (lit "value") with
      | None => mret tt
      | Some val =>
          stamp ← lift (Events.json_find_member tmp (lit "timestamp"));
          text ← lift (string_ stamp);
          r ← lift (Utf8.timestamp_parse Utf8.ts_zero (text ++ [0]));
          let t := r.2 in
          if timestamp_less (ts st) t =? 0 then mret tt else
          v ← (if is_valid_tag (tag st) then
                 a ← lift (state_adder (tag st));
                 match a with no_adder => mret (value st) | _ => x ← lift (string_ val); parse a (value st) x end
               else mret (value st));
          s ← get;
          set_list (set_node (__state_list s.2) el (mk_st (name st) (tag st) v t))
      end
  end.

Fixpoint handle_members (ms : list (option (list Z) * JsonNode)) : M unit :=
  match ms with [] => mret tt | (k, j) :: ms' => _ ← handle_member k j; handle_members ms' end.

Definition children (j : option JsonNode) : list (option (list Z) * JsonNode) :=
  match j with
  | Some (JObject ms) => map (fun kv => (Some kv.1, kv.2)) ms
  | Some (JArray els) => map (fun j => (None, j)) els
  | _ => []
  end.

Definition arrow_device_state_handler (_main : option JsonNode) : M Z :=
  _ ← handle_members (children _main);
  s ← get;
  t ← now (_last_modify s.2);
  _ ← set_last_modify t;
  mret 0.

(** ** Posting *)

(** The loop over the states: the key of a new member is moved out of a copy of the
    name, so it owns what the name owns. *)
Fixpoint post_members (fuel : nat) (p : Z) : M (list (property_t * JsonNode)) :=
  match fuel with
  | O => lift None
  | S fuel' =>
      if p =? NULL then mret [] else
      s ← get;
      st ← lift (get_node (__state_list s.2) p);
      m1 ← (if is_valid_tag (tag st) then
              a ← lift (state_adder (tag st));
              match a with
              | no_adder => mret []
              | _ => v ← json a (value st); k ← on_mem (fun m => '(m, k, _) ← property_move malloc disp m p_null (name st); Some (k, m)); mret [(k, v)]
              end
            else mret []);
      next ← lift (q_links (__state_list s.2) !! p);
      rest ← post_members fuel' next;
      mret (m1 ++ rest)
  end.

Fixpoint key_texts (m : memory) (ms : list (property_t * JsonNode)) : option (list (list Z * JsonNode)) :=
  match ms with
  | [] => Some []
  | (k, v) :: ms' => b ← bytes_at m (Property.value k); t ← cstr b; rest ← key_texts m ms'; Some ((t, v) :: rest)
  end.
Fixpoint free_keys (ms : list (property_t * JsonNode)) : M unit :=
  match ms with [] => mret tt | (k, _) :: ms' => _ ← on_mem (fun m => '(m, _) ← property_free disp m k; Some (tt, m)); free_keys ms' end.

(** The payload, and the keys, which are given back with the tree. *)
Definition post_payload : M (property_t * list (property_t * JsonNode)) :=
  s ← get;
  ms ← post_members (LinkedList.nodes_fuel (q_links (__state_list s.2))) (q_root (__state_list s.2));
  s ← get;
  texts ← lift (key_texts s.1 ms);
  let stamp := if timestamp_is_empty (_last_modify s.2) =? 0 then [(lit "timestamp", JString (Some (timestamp_string (_last_modify s.2))))] else [] in
  p ← on_mem (DeviceCommand.json_encode_property malloc text_malloc (JObject ((lit "states", JObject texts) :: stamp)));
  mret (p, ms).

End states.

(** ** Requests *)

Inductive _st_post_api := st_request | st_update.
Inductive _st_put_api := st_received | st_complete | st_error.

Section requests.
Context {U W : Type}.
Abbreviation St := (Events.state (DeviceCommand.program U (dev W))).
Abbreviation M := (StateM.M St).

Definition on_dev {A} (f : StateM.M (memory * dev W) A) : M A :=
  s ← Events.get;
  r ← lift (f (Crypt.mem (Events.ks s), DeviceCommand.outside (Events.rest s)));
  _ ← Events.on_mem (fun _ => Some (tt, r.2.1));
  _ ← DeviceCommand.set_outside r.2.2;
  mret r.1.

Context (malloc : memory -> Z -> option (Z * list Z)) (text_malloc : Z -> option (list Z)) (disp : list prop_type).
Context (other_property : value_t -> property_t) (other_bool : value_t -> bool) (other_number : value_t -> double) (union_string : JsonNode -> option (list Z)).
Context (timestamp_now : W -> timestamp -> timestamp).
Context (DEV_ENV : bool) (literal : list Z -> Z) `{HttpClient.Buffers} (uri_at : Z).
(** STD_ROUTINE with its parameters, the retries, and the sleep. *)
Context (STD_ROUTINE : (PropMap.world -> HttpClient.http_request_t -> option (PropMap.world * HttpClient.http_request_t)) ->
  option (@HttpClient.st U (dev W) -> HttpClient.http_response_t -> option (Z * @HttpClient.st U (dev W) * HttpClient.http_response_t)) -> M Z).
Context (ARROW_MAX_RETRY : Z) (msleep : dev W -> dev W).

(** The array [uri] of [n] bytes more than the address, with the identifier and the
    parts behind it. *)
Definition form_uri (m : memory) (n : Z) (hid : property_t) (parts : list (list Z)) : option (list Z) :=
  let ep := ARROW_API_DEVICE_ENDPOINT DEV_ENV in
  uri ← wrn (HttpClient.chunk (zlen ep + 1 + n)) 0 (ep ++ [0]);
  uri ← DeviceCommand.strcat uri (lit "/");
  b ← bytes_at m (Property.value hid);
  h ← cstr b;
  fold_opt (fun s uri => DeviceCommand.strcat uri s) (h :: parts) uri.

(** [http_request_init] of a URL that is in an array. *)
Definition init_uri (w : PropMap.world) (request : HttpClient.http_request_t) (meth : Z) (uri : list Z) : option (PropMap.world * HttpClient.http_request_t) :=
  '(m, r) ← HttpRequest.http_request_init malloc disp literal (<[uri_at := (false, uri)]> (PropMap.w_mem w)) request meth uri_at;
  Some (PropMap.set_mem w (delete uri_at m), r).

Definition GET : Z := 0.
Definition POST : Z := 1.
Definition PUT : Z := 2.

Definition _state_get_init (hid : property_t) (w : PropMap.world) (request : HttpClient.http_request_t) : option (PropMap.world * HttpClient.http_request_t) :=
  uri ← form_uri (PropMap.w_mem w) (size hid + 10) hid [lit "/state"];
  init_uri w request GET uri.

Definition _state_get_proc (hid : property_t) (s : @HttpClient.st U (dev W)) (response : HttpClient.http_response_t) : option (Z * @HttpClient.st U (dev W) * HttpClient.http_response_t) :=
  if negb (HttpClient.m_httpResponseCode response =? 200) then Some (-1, s, response) else
  let m := PropMap.w_mem (HttpClient.props s) in
  b ← bytes_at m (Property.value (HttpClient.r_payload (HttpClient.res_data response)));
  _main ← json_decode text_malloc b;
  match _main with
  | None => Some (-1, s, response)
  | Some main =>
      match Events.json_find_member main (lit "deviceHid") with
      | None => Some (-1, s, response)
      | Some dev_hid =>
          t ← string_ union_string dev_hid;
          h ← bytes_at m (Property.value hid);
          e ← strcmp0 (t ++ [0]) h;
          if negb e then Some (-1, s, response) else
          match Events.json_find_member main (lit "states") with
          | None => Some (-1, s, response)
          | Some states =>
              '(_, (m, v)) ← arrow_device_state_handler malloc disp other_property union_string timestamp_now (Some states) (m, HttpClient.wd s);
              Some (0, HttpClient.mk_st (HttpClient.cl s) (PropMap.set_mem (HttpClient.props s) m) v, response)
          end
      end
  end.

Definition arrow_state_receive (hid : property_t) : M Z := STD_ROUTINE (_state_get_init hid) (Some (_state_get_proc hid)).

Definition post_name (post : _st_post_api) : list Z := match post with st_request => lit "request" | st_update => lit "update" end.

Definition _state_post_init (v : dev W) (hid : property_t) (post : _st_post_api) (w : PropMap.world) (request : HttpClient.http_request_t) : option (PropMap.world * HttpClient.http_request_t) :=
  uri ← form_uri (PropMap.w_mem w) (size hid + 20) hid [lit "/state/"; post_name post];
  '(w, r) ← init_uri w request POST uri;
  '((p, ms), (m, v)) ← post_payload malloc text_malloc disp other_property other_bool other_number (PropMap.w_mem w, v);
  '(w, r) ← HttpRequest.http_request_set_payload malloc disp (PropMap.set_mem w m) r p;
  '(_, (m, _)) ← free_keys disp ms (PropMap.w_mem w, v);
  Some (PropMap.set_mem w m, r).

Definition _arrow_post_state (hid : property_t) (post : _st_post_api) : M Z :=
  s ← Events.get; STD_ROUTINE (_state_post_init (DeviceCommand.outside (Events.rest s)) hid post) None.
Definition arrow_post_state_request (hid : property_t) : M Z := _arrow_post_state hid st_request.
Definition arrow_post_state_update (hid : property_t) : M Z := _arrow_post_state hid st_update.

Definition put_name (put : _st_put_api) : list Z := match put with st_received => lit "/received" | st_complete => lit "/succeeded" | st_error => lit "/error" end.

Definition _state_put_init (hid : property_t) (trans_hid : list Z) (put : _st_put_api) (w : PropMap.world) (request : HttpClient.http_request_t) : option (PropMap.world * HttpClient.http_request_t) :=
  n ← property_size (PropMap.w_mem w) hid;
  uri ← form_uri (PropMap.w_mem w) (n + zlen trans_hid + 50) hid [lit "/state/trans/"; trans_hid; put_name put];
  '(w, r) ← init_uri w request PUT uri;
  match put with
  | st_error =>
      '(p, m) ← DeviceCommand.json_encode_property malloc text_malloc (JObject [(lit "error", JString (Some (lit "unknown")))]) (PropMap.w_mem w);
      HttpRequest.http_request_set_payload malloc disp (PropMap.set_mem w m) r p
  | _ => Some (w, r)
  end.

Definition arrow_device_state_answer (hid : property_t) (put : _st_put_api) (trans_hid : list Z) : M Z := STD_ROUTINE (_state_put_init hid trans_hid put) None.

(** How an answer is sent is an argument. *)
Context (answer : property_t -> _st_put_api -> list Z -> M Z).
Definition sleep : M unit := s ← Events.get; DeviceCommand.set_outside (msleep (DeviceCommand.outside (Events.rest s))).
Definition answer_loop (fuel : nat) (hid : property_t) (put : _st_put_api) (trans_hid : list Z) : Z -> M (option Z) :=
  Retry.retry_loop ARROW_MAX_RETRY (answer hid put trans_hid) sleep fuel.

(** The counter of retries goes on from one answer to the next. *)
Definition ev_DeviceStateRequest (fuel : nat) (ev : Z) (params : option JsonNode) : M Z :=
  s ← Events.get;
  let hid := _device_hid (DeviceCommand.outside (Events.rest s)) in
  if IS_EMPTY hid then mret (-1) else
  match Events.find_param params (lit "deviceHid"), Events.find_param params (lit "transHid"), Events.find_param params (lit "payload") with
  | Some _, Some trans_hid, Some payload =>
      trans ← lift (string_ union_string trans_hid);
      r ← answer_loop fuel hid st_received trans 0;
      match r with
      | None => mret (-2)
      | Some retry =>
          t ← lift (string_ union_string payload);
          _states ← lift (json_decode text_malloc (t ++ [0]));
          ret ← on_dev (arrow_device_state_handler malloc disp other_property union_string timestamp_now _states);
          s ← Events.get;
          let hid := _device_hid (DeviceCommand.outside (Events.rest s)) in
          r ← answer_loop fuel hid (if ret <? 0 then st_error else st_complete) trans retry;
          match r with None => mret (-2) | Some _ => mret 0 end
      end
  | _, _, _ => mret (-1)
  end.

End requests.
End DeviceState.
