(* ===== verification/StateSpec.v ===== *)
(** What src/src/arrow/state.c promises (DeviceState.v): a message from the cloud
    merges into the states by their times, and what goes wrong with that, with
    states that were not set and with names that are not constants. *)
From S2P Require Import Prelude StateM Retry LinkedList EventQueue Property PropMap PropOwn Double JsonParse Timer ArrowUtf8 HttpRequest HttpBuild Crypt Events EventSpec DeviceCommand CommandSpec DeviceState.

Module StateSpec.
Import StateM EventQueue Property PropMap PropOwn JsonParse Timer EventSpec DeviceState.

(** ** States as values *)

Inductive aval := AString (s : option (list Z)) | ABool (b : bool) | ANumber (d : Double.double).
Record astate := mk_as { a_name : list Z; a_val : aval; a_ts : timestamp }.
Definition a_tag (v : aval) : Z := match v with AString _ => JSON_STRING | ABool _ => JSON_BOOL | ANumber _ => JSON_NUMBER end.

Definition val_rep (m : memory) (v : value_t) (a : aval) : Prop :=
  match v, a with
  | v_property p, AString None => p = p_null
  | v_property p, AString (Some s) => stored m p s
  | v_bool b, ABool b' => b = b'
  | v_number d, ANumber d' => d = d'
  | _, _ => False
  end.
Definition st_rep (m : memory) (st : arrow_state_list_t) (a : astate) : Prop :=
  stored m (name st) (a_name a) /\ tag st = a_tag (a_val a) /\ val_rep m (value st) (a_val a) /\ ts st = a_ts a.
Definition val_props (v : value_t) : list property_t := match v with v_property p => [p] | _ => [] end.
Definition st_props (st : arrow_state_list_t) : list property_t := name st :: val_props (value st).
Definition all_props (sts : list arrow_state_list_t) : list property_t := concat (map st_props sts).

Section merge.
Context {W : Type}.
Context (malloc : memory -> Z -> option (Z * list Z)) `{Hmalloc : !Malloc malloc}.
Context (Henough : forall m n, 0 <= n -> malloc m n <> None).
Context (other_property : value_t -> property_t) (other_bool : value_t -> bool) (other_number : value_t -> Double.double) (union_string : JsonNode -> option (list Z)).
Context (timestamp_now : W -> timestamp -> timestamp) (text_malloc : Z -> option (list Z)).

(** The variables hold the states [l], in nodes and strings of their own; without
    them the memory is [m0]. *)
Definition table (m0 : memory) (s : memory * dev W) (l : list astate) : Prop :=
  exists ps sts, holds (__state_list s.2) ps sts /\ Forall2 (st_rep s.1) sts l /\ owns s.1 (all_props sts) /\ delete_all (owned_blocks (all_props sts)) s.1 = m0.

(** The same, with the states as they are in the nodes. *)
Definition table_at (m0 : memory) (s : memory * dev W) (sts : list arrow_state_list_t) (l : list astate) : Prop :=
  exists ps, holds (__state_list s.2) ps sts /\ Forall2 (st_rep s.1) sts l /\ owns s.1 (all_props sts) /\ delete_all (owned_blocks (all_props sts)) s.1 = m0.

Lemma table_at_table m0 s sts l : table_at m0 s sts l -> table m0 s l.
Proof. intros (ps & H). by exists ps, sts. Qed.
Lemma table_table_at m0 s l : table m0 s l -> exists sts, table_at m0 s sts l.
Proof. intros (ps & sts & H). by exists sts, ps. Qed.

(** The strings that were not there before are on the heap. *)
Definition fresh_props (sts sts' : list arrow_state_list_t) : Prop := forall p, p ∈ all_props sts' -> p ∈ all_props sts \/ flags p = dyn_flags.

(** *** The specification *)

Definition read_stamp (j : JsonNode) : option timestamp :=
  stamp ← Events.json_find_member j (lit "timestamp"); text ← string_ union_string stamp; r ← Utf8.timestamp_parse Utf8.ts_zero (text ++ [0]); Some r.2.
Definition parse_val (v : aval) (x : list Z) : aval :=
  match v with AString _ => AString (Some x) | ABool _ => ABool (bool_decide (x = lit "true")) | ANumber _ => ANumber (atof x) end.

(** A member changes a state when its time is greater. *)
Definition update (j : JsonNode) (a : astate) : astate :=
  match Events.json_find_member j (lit "value"), read_stamp j with
  | Some val, Some t => if timestamp_less (a_ts a) t =? 0 then a else mk_as (a_name a) (parse_val (a_val a) (default [] (string_ union_string val))) t
  | _, _ => a
  end.
Fixpoint merge_one (l : list astate) (k : list Z) (j : JsonNode) : list astate :=
  match l with [] => [] | a :: l' => if bool_decide (a_name a = k) then update j a :: l' else a :: merge_one l' k j end.
Definition merge (l : list astate) (ms : list (list Z * JsonNode)) : list astate := foldl (fun l kv => merge_one l kv.1 kv.2) l ms.

(** The members that a state is found for have texts where texts are read. *)
Definition member_ok (names : list (list Z)) (kv : list Z * JsonNode) : Prop :=
  is_cstr kv.1 /\ (kv.1 ∈ names -> forall val, Events.json_find_member kv.2 (lit "value") = Some val -> is_Some (read_stamp kv.2) /\ exists x, string_ union_string val = Some x /\ is_cstr x).

(** *** Names *)

Lemma stored_chars m p s : stored m p s -> flag p is_raw = false /\ exists b y, m !! Property.value p = Some (b, s ++ 0 :: y).
Proof.
  intros [Hs [(Hf & b & Hm & Hc) | (Hf & _ & Hm)]]; (split; [unfold flag; by rewrite Hf|]).
  - apply cstr_Some in Hc as [y ->]. by exists false, y.
  - by exists true, [].
Qed.

Lemma name_found m st a k : st_rep m st a -> is_cstr k -> DeviceCommand.name_is m (name st) k = Some (bool_decide (a_name a = k)).
Proof. intros (Hs & _) Hk. destruct (stored_chars _ _ _ Hs) as [Hr Hm]. apply CommandSpec.name_is_ok; [done | done | apply Hs | done]. Qed.

Lemma merge_none l k j : Forall (fun a => a_name a <> k) l -> merge_one l k j = l.
Proof. induction 1 as [|a l Ha _ IH]; [done|]. cbn [merge_one]. by rewrite bool_decide_eq_false_2, IH. Qed.
Lemma merge_at l1 a l2 k j : Forall (fun a => a_name a <> k) l1 -> a_name a = k -> merge_one (l1 ++ a :: l2) k j = l1 ++ update j a :: l2.
Proof. intros Hl Ha. induction Hl as [|b l1 Hb _ IH]; cbn [app merge_one]; [by rewrite bool_decide_eq_true_2|]. by rewrite bool_decide_eq_false_2, IH. Qed.

(** What looking for a name finds. *)
Lemma find_state m (q : queue arrow_state_list_t) ps sts l k : holds q ps sts -> Forall2 (st_rep m) sts l -> is_cstr k -> exists r, linked_list_find_node q (fun sl => DeviceCommand.name_is m (name sl) k) = Some r /\
  match r with
  | None => Forall (fun a => a_name a <> k) l
  | Some (el, st) => exists ps1 ps2 sts1 sts2 l1 a l2, ps = ps1 ++ el :: ps2 /\ sts = sts1 ++ st :: sts2 /\ l = l1 ++ a :: l2 /\ length ps1 = length sts1 /\
      Forall2 (st_rep m) sts1 l1 /\ st_rep m st a /\ Forall2 (st_rep m) sts2 l2 /\ Forall (fun a => a_name a <> k) l1 /\ a_name a = k
  end.
Proof.
  intros Hq Hr Hk. set (f := fun st => default false (DeviceCommand.name_is m (name st) k)).
  assert (Hf : forall sts l, Forall2 (st_rep m) sts l -> Forall (fun st => f st = false) sts -> Forall (fun a => a_name a <> k) l).
  { clear sts l Hq Hr. intros sts l. induction 1 as [|st a sts l Ha _ IH]; intros Hs; [constructor|]. apply Forall_cons in Hs as [H1 Hs]. constructor; [|by apply IH]. subst f. cbn in H1. rewrite (name_found _ _ _ _ Ha Hk) in H1. by apply bool_decide_eq_false in H1. }
  destruct (find_node_holds q ps sts (fun sl => DeviceCommand.name_is m (name sl) k) f Hq) as (r & E & Hfound).
  { intros st Hst. apply list_elem_of_lookup in Hst as (i & Hi). destruct (Forall2_lookup_l _ _ _ _ _ Hr Hi) as (a & _ & Ha). subst f. cbn. by rewrite (name_found _ _ _ _ Ha Hk). }
  exists r. split; [exact E|]. destruct Hfound as [ps sts Hs | ps1 el ps2 sts1 st sts2 Hlen Hs Hst]; [by eapply Hf|].
  apply Forall2_app_inv_l in Hr as (l1 & l' & H1 & Hr & ->). apply Forall2_cons_inv_l in Hr as (a & l2 & Ha & H2 & ->).
  exists ps1, ps2, sts1, sts2, l1, a, l2. split_and!; try done; [by eapply Hf|]. subst f. cbn in Hst. rewrite (name_found _ _ _ _ Ha Hk) in Hst. by apply bool_decide_eq_true in Hst.
Qed.

(** *** Strings *)

Lemma free_json m p : held m p -> property_free json_types m p = property_free types m p.
Proof.
  intros [-> | [s [_ [(Hf & _) | (Hf & _)]]]]; [done|..]; unfold property_free, flag, get_property_type; rewrite Hf; done.
Qed.

(** A string is given back and another takes its place. *)
Lemma swap_string m m0 p rest s : owns m (p :: rest) -> delete_all (owned_blocks (p :: rest)) m = m0 -> is_cstr s ->
  exists m2 q, (fun m => '(m, _) ← property_free json_types m p; '(m, q) ← HttpRequest.copy_p_stack malloc json_types m (s ++ [0]); Some (v_property q, m)) m = Some (v_property q, m2) /\
    owns m2 (q :: rest) /\ delete_all (owned_blocks (q :: rest)) m2 = m0 /\ stored m2 q s /\ (forall x t, x ∈ rest -> stored m x t -> stored m2 x t) /\ flags q = dyn_flags.
Proof.
  intros Ho Hb Hs. destruct (free_owned _ _ _ Ho) as [Ef Ho1]. set (m1 := delete_all (prop_blocks p) m) in *.
  destruct (HttpBuild.copy_p_stack_ok malloc Henough m1 s [] Hs) as (m2 & q & Ec & Hst & Hg & Hnew).
  assert (Hg' : grown m1 m2 (owned_blocks [q])) by (unfold owned_blocks; cbn [map concat]; by rewrite app_nil_r).
  assert (Hdyn : flags q = dyn_flags).
  { destruct Hst as [_ [(Hf & b & Hm & _) | (Hf & _)]]; [|done]. exfalso. unfold prop_blocks in Hg. rewrite Hf in Hg. pose proof (g_back _ _ _ Hg) as E. cbn in E. congruence. }
  exists m2, q. split; [|split; [|split; [|split; [|split; [|exact Hdyn]]]]].
  - rewrite free_json by by destruct Ho as [[Hh _]%Forall_cons_1 _]. rewrite Ef. cbn [mbind option_bind]. change (HttpRequest.copy_p_stack malloc json_types m1 (s ++ [0])) with (HttpRequest.copy_p_stack malloc types m1 (s ++ [0])). by rewrite Ec.
  - apply (owns_grown m1 m2 rest [q]); [done | by constructor; [right; exists s | constructor] | done].
  - apply (HttpBuild.back_grown m0 m1 m2 [q] rest); [|done]. rewrite <- Hb. change (p :: rest) with ([p] ++ rest). rewrite owned_blocks_app, delete_all_app, delete_all_comm. subst m1. unfold owned_blocks at 3. cbn [map concat]. by rewrite app_nil_r.
  - done.
  - intros x t Hx Hxs. eapply stored_grown; [exact Hg|]. apply stored_delete_all; [done|]. intros b Hb'. destruct Ho as [Hh Hn]. split.
    + intros Hbx. unfold owned_blocks in Hn. cbn [map concat] in Hn. apply NoDup_app in Hn as (_ & Hd & _). apply (Hd b Hb'). apply owned_in. by exists x.
    + apply Forall_cons in Hh as [Hp _]. by eapply held_heap.
Qed.

(** The handler of the type of a state. *)
Lemma parse_ok m m0 v a rest x (d : dev W) : val_rep m v a -> owns m (val_props v ++ rest) -> delete_all (owned_blocks (val_props v ++ rest)) m = m0 -> is_cstr x ->
  is_valid_tag (a_tag a) = true /\ exists ad v' m2, state_adder (a_tag a) = Some ad /\ ad <> no_adder /\ parse malloc json_types other_property ad v x (m, d) = Some (v', (m2, d)) /\
    val_rep m2 v' (parse_val a x) /\ owns m2 (val_props v' ++ rest) /\ delete_all (owned_blocks (val_props v' ++ rest)) m2 = m0 /\ (forall p s, p ∈ rest -> stored m p s -> stored m2 p s) /\ Forall (fun p => flags p = dyn_flags) (val_props v').
Proof.
  intros Hv Ho Hb Hx. split; [by destruct a|]. destruct a as [s | b | n]; destruct v as [p | b' | n']; try done; try by destruct s.
  - destruct (swap_string m m0 p rest x Ho Hb Hx) as (m2 & q & E & H1 & H2 & H3 & H4 & H5). exists string_adder, (v_property q), m2. split; [done|]. split; [done|]. split; [|split_and!; try done; by constructor].
    unfold parse, on_mem. cbn [_property fst snd]. rewrite E. done.
  - exists bool_adder, (v_bool (bool_decide (x = lit "true"))), m. split; [done|]. split; [done|]. split; [|by split_and!]. unfold parse.
    erewrite bind_run by (apply lift_run; apply strcmp0_text; apply cstr_app; [exact Hx | by repeat constructor]). done.
  - exists number_adder, (v_number (atof x)), m. by split_and!.
Qed.

Lemma all_props_at sts1 st sts2 : all_props (sts1 ++ st :: sts2) ≡ₚ val_props (value st) ++ name st :: all_props sts1 ++ all_props sts2.
Proof. unfold all_props. rewrite map_app, concat_app. cbn [map concat st_props]. unfold st_props. cbn [app]. solve_Permutation. Qed.

Lemma all_props_in st sts p : st ∈ sts -> p ∈ st_props st -> p ∈ all_props sts.
Proof. intros Hst Hp. unfold all_props. apply list_elem_of_In, in_concat. exists (st_props st). split; apply list_elem_of_In; [by apply list_elem_of_fmap_2 | done]. Qed.

(** States whose strings are still there. *)
Lemma reps_same m m2 sts l (rest : list property_t) : (forall p s, p ∈ rest -> stored m p s -> stored m2 p s) -> (forall p, p ∈ all_props sts -> p ∈ rest) -> Forall2 (st_rep m) sts l -> Forall2 (st_rep m2) sts l.
Proof.
  intros Hs Hin Hr. induction Hr as [|st a sts l Ha _ IH]; constructor.
  - assert (Hst : forall p, p ∈ st_props st -> p ∈ rest) by (intros p Hp; apply Hin; apply (all_props_in st); [left | done]).
    destruct Ha as (A & B & C & D). split; [apply Hs; [apply Hst; left | done]|]. split; [done|]. split; [|done].
    unfold st_props in Hst. destruct (value st) as [p | |], (a_val a) as [[s|] | |]; try done. apply Hs; [apply Hst; right; left | done].
  - apply IH. intros p Hp. apply Hin. unfold all_props in *. cbn [map concat]. apply elem_of_app. by right.
Qed.

(** One member is merged. *)
Lemma handle_member_ok m0 s sts0 l k j : table_at m0 s sts0 l -> member_ok (map a_name l) (k, j) ->
  exists m q sts', handle_member malloc json_types other_property union_string (Some k) j s = Some (tt, (m, mk_dev q (_device_hid s.2) (_last_modify s.2) (env s.2))) /\
    table_at m0 (m, mk_dev q (_device_hid s.2) (_last_modify s.2) (env s.2)) sts' (merge_one l k j) /\ fresh_props sts0 sts'.
Proof.
  intros (ps & Hq & Hr & Ho & Hb) [Hk Hok]. set (sts := sts0) in *. cbn [fst snd] in Hk, Hok. destruct s as [m d]. cbn [fst snd] in *. destruct (find_state m _ ps sts l k Hq Hr Hk) as (r & E & Hres).
  assert (Hsame : merge_one l k j = l -> forall x : M (memory * dev W) unit, x (m, d) = Some (tt, (m, d)) ->
    exists m' q sts', x (m, d) = Some (tt, (m', mk_dev q (_device_hid d) (_last_modify d) (env d))) /\ table_at m0 (m', mk_dev q (_device_hid d) (_last_modify d) (env d)) sts' (merge_one l k j) /\ fresh_props sts sts').
  { intros Hl x Hx. exists m, (__state_list d), sts. rewrite Hx, Hl. destruct d as [q hid lm e]. split; [done|]. split; [by exists ps | by left]. }
  unfold handle_member. erewrite bind_run by done. erewrite bind_run by (apply lift_run; exact E). destruct r as [[el st]|]; [|by apply Hsame; [apply merge_none|]].
  destruct Hres as (ps1 & ps2 & sts1 & sts2 & l1 & a & l2 & -> & Ests & -> & Hlen & H1 & Ha & H2 & Hl1 & Hak). rewrite merge_at in * by done.
  assert (Hin : k ∈ map a_name (l1 ++ a :: l2)) by (rewrite map_app; apply elem_of_app; right; cbn [map]; rewrite Hak; left).
  unfold update in *. destruct (Events.json_find_member j (lit "value")) as [val|] eqn:Ev; [|by apply Hsame].
  destruct (Hok Hin val eq_refl) as [[t Et] (x & Ex & Hx)]. rewrite Et in *. unfold read_stamp in Et.
  destruct (Events.json_find_member j (lit "timestamp")) as [stamp|]; [|done]. cbn [mbind option_bind] in Et. destruct (string_ union_string stamp) as [text|] eqn:Etx; [|done]. cbn [mbind option_bind] in Et.
  destruct (Utf8.timestamp_parse Utf8.ts_zero (text ++ [0])) as [r|] eqn:Er; [|done]. cbn [mbind option_bind] in Et. injection Et as <-.
  erewrite bind_run by done. erewrite bind_run by (apply lift_run; exact Etx). erewrite bind_run by (apply lift_run; exact Er). cbv zeta. destruct Ha as (Hn & Htag & Hv & Hts). rewrite Hts.
  destruct (timestamp_less (a_ts a) r.2 =? 0); [by apply Hsame|].
  rewrite Ests, (all_props_at sts1 st sts2) in Ho, Hb. destruct (parse_ok m m0 (value st) (a_val a) _ x d Hv Ho Hb Hx) as (Hval & ad & v' & m2 & Ead & Hne & Ep & Hv' & Ho' & Hb' & Hkeep & Hdyn).
  rewrite Ex in *. exists m2, (set_node (__state_list d) el (mk_st (name st) (tag st) v' r.2)), (sts1 ++ mk_st (name st) (tag st) v' r.2 :: sts2). split; [|split].
  - assert (Eb : (if is_valid_tag (tag st) then a ← lift (state_adder (tag st)); match a with no_adder => mret (value st) | _ => x ← lift (Some x); parse malloc json_types other_property a (value st) x end else mret (value st)) (m, d) = Some (v', (m2, d))).
    { rewrite Htag, Hval. erewrite bind_run by (apply lift_run; exact Ead). destruct ad; [done|..]; erewrite bind_run by done; exact Ep. }
    erewrite bind_run by exact Eb. done.
  - exists (ps1 ++ el :: ps2). cbn [fst snd __state_list]. rewrite Ests in Hq. split; [by eapply set_holds|]. rewrite (all_props_at sts1 (mk_st _ _ _ _) sts2). cbn [value name]. split; [|done].
    apply Forall2_app; [|constructor].
    + eapply reps_same; [exact Hkeep | intros p Hp; right; apply elem_of_app; by left | exact H1].
    + split; [apply Hkeep; [left | done]|]. split; [rewrite Htag; by destruct (a_val a)|]. by split.
    + eapply reps_same; [exact Hkeep | intros p Hp; right; apply elem_of_app; by right | exact H2].
  - intros p Hp. rewrite (all_props_at sts1 (mk_st _ _ _ _) sts2) in Hp. cbn [value name] in Hp. rewrite Ests, (all_props_at sts1 st sts2). rewrite elem_of_app in Hp. destruct Hp as [Hp | Hp]; [right; by rewrite Forall_forall in Hdyn; apply Hdyn | left; apply elem_of_app; by right].
Qed.

Lemma merge_one_names l k j : map a_name (merge_one l k j) = map a_name l.
Proof.
  induction l as [|a l IH]; [done|]. cbn [merge_one]. case_bool_decide; cbn [map]; [f_equal | by rewrite IH].
  unfold update. destruct (Events.json_find_member j (lit "value")); [|done]. destruct (read_stamp j); [|done]. by destruct (_ =? 0).
Qed.

Lemma merge_names l ms : map a_name (merge l ms) = map a_name l.
Proof. revert l. induction ms as [|[k j] ms IH]; intros l; [done|]. unfold merge. cbn [foldl]. fold (merge (merge_one l k j) ms). rewrite IH. apply merge_one_names. Qed.

Lemma handle_members_at m0 ms : forall s sts l, table_at m0 s sts l -> Forall (member_ok (map a_name l)) ms ->
  exists m q sts', handle_members malloc json_types other_property union_string (map (fun kv => (Some kv.1, kv.2)) ms) s = Some (tt, (m, mk_dev q (_device_hid s.2) (_last_modify s.2) (env s.2))) /\
    table_at m0 (m, mk_dev q (_device_hid s.2) (_last_modify s.2) (env s.2)) sts' (merge l ms) /\ fresh_props sts sts'.
Proof.
  induction ms as [|[k j] ms IH]; intros s sts l Ht Hms; [destruct s as [m [q hid lm e]]; exists m, q, sts; split_and!; [done | done | by left]|]. apply Forall_cons in Hms as [Hm Hms]. cbn [map handle_members fst snd].
  destruct (handle_member_ok m0 s sts l k j Ht Hm) as (m & q & sts1 & E & Ht' & Hf). erewrite bind_run by exact E. destruct (IH _ _ _ Ht') as (m' & q' & sts2 & E' & Ht'' & Hf'); [by rewrite merge_one_names|].
  exists m', q', sts2. split; [exact E'|]. split; [exact Ht''|]. intros p Hp. destruct (Hf' p Hp); [by apply Hf | by right].
Qed.

Lemma handle_members_ok m0 ms s l : table m0 s l -> Forall (member_ok (map a_name l)) ms ->
  exists m q, handle_members malloc json_types other_property union_string (map (fun kv => (Some kv.1, kv.2)) ms) s = Some (tt, (m, mk_dev q (_device_hid s.2) (_last_modify s.2) (env s.2))) /\
    table m0 (m, mk_dev q (_device_hid s.2) (_last_modify s.2) (env s.2)) (merge l ms).
Proof.
  intros Ht Hms. apply table_table_at in Ht as [sts Ht]. destruct (handle_members_at m0 ms s sts l Ht Hms) as (m & q & sts' & E & Ht' & _). exists m, q. split; [exact E | by eapply table_at_table].
Qed.

(** *** Again *)

Lemma less_irrefl t : timestamp_less t t = 0.
Proof. unfold timestamp_less. by rewrite !Z.ltb_irrefl, andb_false_r. Qed.
Lemma less_trans t1 t2 t3 : timestamp_less t1 t2 <> 0 -> timestamp_less t1 t3 = 0 -> timestamp_less t2 t3 = 0.
Proof.
  unfold timestamp_less. destruct (Z.ltb_spec (ts_word0 t1) (ts_word0 t2)), (Z.eqb_spec (ts_word0 t1) (ts_word0 t2)), (Z.ltb_spec (ts_word1 t1) (ts_word1 t2)); cbn [andb]; try done;
    destruct (Z.ltb_spec (ts_word0 t1) (ts_word0 t3)), (Z.eqb_spec (ts_word0 t1) (ts_word0 t3)), (Z.ltb_spec (ts_word1 t1) (ts_word1 t3)); cbn [andb]; try done; intros _ _;
    destruct (Z.ltb_spec (ts_word0 t2) (ts_word0 t3)), (Z.eqb_spec (ts_word0 t2) (ts_word0 t3)), (Z.ltb_spec (ts_word1 t2) (ts_word1 t3)); cbn [andb]; (done || lia).
Qed.

Lemma update_name j a : a_name (update j a) = a_name a.
Proof. unfold update. destruct (Events.json_find_member j (lit "value")); [|done]. destruct (read_stamp j); [|done]. by destruct (_ =? 0). Qed.
Lemma update_again j a : update j (update j a) = update j a.
Proof.
  unfold update. destruct (Events.json_find_member j (lit "value")); [|done]. destruct (read_stamp j) as [t|]; [|done].
  destruct (timestamp_less (a_ts a) t =? 0) eqn:E; [by rewrite E|]. cbn [a_ts]. by rewrite less_irrefl.
Qed.
Lemma update_stays j j' a : update j a = a -> update j (update j' a) = update j' a.
Proof.
  unfold update. destruct (Events.json_find_member j (lit "value")) as [v|]; [|done]. destruct (read_stamp j) as [t|]; [|done].
  destruct (Events.json_find_member j' (lit "value")) as [v'|]; [|done]. destruct (read_stamp j') as [t'|]; [|done]. destruct (Z.eqb_spec (timestamp_less (a_ts a) t') 0) as [E' | E']; [done|]. cbn [a_ts].
  destruct (Z.eqb_spec (timestamp_less (a_ts a) t) 0) as [E | E].
  - intros _. by rewrite (less_trans _ _ _ E' E).
  - intros Ha. rewrite <- Ha in E. cbn [a_ts] in E. by rewrite less_irrefl in E.
Qed.

Lemma merge_one_again l k j : merge_one (merge_one l k j) k j = merge_one l k j.
Proof.
  induction l as [|a l IH]; [done|]. cbn [merge_one]. destruct (bool_decide (a_name a = k)) eqn:E; cbn [merge_one]; [by rewrite update_name, E, update_again | by rewrite E, IH].
Qed.
Lemma merge_one_stays l k j k' j' : merge_one l k j = l -> merge_one (merge_one l k' j') k j = merge_one l k' j'.
Proof.
  induction l as [|a l IH]; [done|]. cbn [merge_one]. destruct (bool_decide (a_name a = k)) eqn:E; intros [= H]; destruct (bool_decide (a_name a = k')) eqn:E'; cbn [merge_one]; rewrite ?update_name, E.
  - by rewrite update_stays.
  - by rewrite H.
  - by rewrite H.
  - by rewrite IH.
Qed.

(** A message that comes again changes nothing. *)
Lemma merge_again l ms : merge (merge l ms) ms = merge l ms.
Proof.
  assert (Hstays : forall ms l k j, merge_one l k j = l -> merge_one (merge l ms) k j = merge l ms).
  { clear l ms. induction ms as [|[k' j'] ms IH]; intros l k j H; [done|]. apply IH. by apply merge_one_stays. }
  assert (Hdone : forall ms l kv, kv ∈ ms -> merge_one (merge l ms) kv.1 kv.2 = merge l ms).
  { clear l ms. induction ms as [|[k' j'] ms IH]; intros l kv Hkv; [by apply not_elem_of_nil in Hkv|]. apply elem_of_cons in Hkv as [-> | Hkv]; [apply (Hstays ms (merge_one l k' j') k' j'), merge_one_again | by apply (IH (merge_one l k' j'))]. }
  assert (Hid : forall ms' l, (forall kv, kv ∈ ms' -> merge_one l kv.1 kv.2 = l) -> merge l ms' = l).
  { clear l ms Hdone. induction ms' as [|[k j] ms' IH]; intros l H; [done|]. unfold merge. cbn [foldl]. pose proof (H (k, j) ltac:(left)) as Hkj. cbn [fst snd] in Hkj |- *. rewrite Hkj. apply IH. intros kv Hkv. apply H. by right. }
  apply Hid. intros kv Hkv. by apply Hdone.
Qed.

(** C6. The message of the cloud merges into the states: each state that a member
    names and whose time is smaller takes the value, read by its own type, and the
    time, and nothing else changes; the strings it replaces are given back, and
    the memory without the strings of the states is as before. A message that
    comes again, as MQTT may deliver it, changes nothing. *)
Theorem state_handler_merges m0 s l ms : table m0 s l -> Forall (member_ok (map a_name l)) ms ->
  exists s', arrow_device_state_handler malloc json_types other_property union_string timestamp_now (Some (JObject ms)) s = Some (0, s') /\ table m0 s' (merge l ms) /\
    _device_hid s'.2 = _device_hid s.2 /\ _last_modify s'.2 = timestamp_now (env s.2) (_last_modify s.2) /\
    exists s'', arrow_device_state_handler malloc json_types other_property union_string timestamp_now (Some (JObject ms)) s' = Some (0, s'') /\ table m0 s'' (merge l ms).
Proof.
  assert (Hrun : forall s l, table m0 s l -> Forall (member_ok (map a_name l)) ms -> exists s', arrow_device_state_handler malloc json_types other_property union_string timestamp_now (Some (JObject ms)) s = Some (0, s') /\ table m0 s' (merge l ms) /\
    _device_hid s'.2 = _device_hid s.2 /\ _last_modify s'.2 = timestamp_now (env s.2) (_last_modify s.2)).
  { clear s l. intros s l Ht Hms. destruct (handle_members_ok m0 ms s l Ht Hms) as (m & q & E & Ht'). unfold arrow_device_state_handler. cbn [children]. erewrite bind_run by exact E. eexists. split; [done|]. by split. }
  intros Ht Hms. destruct (Hrun s l Ht Hms) as (s' & E & Ht' & Hh & Hl). exists s'. split; [exact E|]. split; [exact Ht'|]. split; [exact Hh|]. split; [exact Hl|].
  destruct (Hrun s' (merge l ms) Ht') as (s'' & E' & Ht'' & _); [by rewrite merge_names|]. exists s''. split; [exact E'|]. by rewrite merge_again in Ht''.
Qed.

(** C35. timestamp_less compares the time of the day before the date: a value that is
    newer by its date but was set at an earlier time of the day is thrown away, and
    the call still returns 0. *)
Theorem state_update_lost m0 s l k j t : table m0 s l -> member_ok (map a_name l) (k, j) -> read_stamp j = Some t -> ts_ok t ->
  Forall (fun a => a_name a = k -> ts_ok (a_ts a) /\ day_time t < day_time (a_ts a) /\ date (a_ts a) < date t) l ->
  exists s', arrow_device_state_handler malloc json_types other_property union_string timestamp_now (Some (JObject [(k, j)])) s = Some (0, s') /\ table m0 s' l.
Proof.
  intros Ht Hok Hst Htok Hl. assert (Hsame : merge_one l k j = l).
  { clear Ht Hok. induction Hl as [|a l Ha _ IH]; [done|]. cbn [merge_one]. case_bool_decide as Ek; [|by rewrite IH]. f_equal. destruct (Ha Ek) as (Hok & Hday & Hdate).
    unfold update. rewrite Hst. destruct (Events.json_find_member j (lit "value")); [|done].
    assert (Hw : timestamp_less (a_ts a) t = 0); [|by rewrite Hw]. pose proof (word0_day_time t (a_ts a) Htok Hok) as Hc. rewrite (proj2 (Z.compare_lt_iff _ _) Hday) in Hc. apply (proj1 (Z.compare_lt_iff _ _)) in Hc.
    unfold timestamp_less. rewrite (proj2 (Z.ltb_ge (ts_word0 (a_ts a)) (ts_word0 t))) by lia. by rewrite (proj2 (Z.eqb_neq (ts_word0 (a_ts a)) (ts_word0 t))) by lia. }
  destruct (handle_members_ok m0 [(k, j)] s l Ht) as (m & q & E & Ht'); [by constructor|]. unfold arrow_device_state_handler. cbn [children]. erewrite bind_run by exact E. eexists. split; [done|].
  unfold merge in Ht'. cbn [foldl fst snd] in Ht'. by rewrite Hsame in Ht'.
Qed.

(** *** Posting *)

(** JSON_OBJECT passes the test of the tags, and is not an index of the array. *)
Example object_tag : is_valid_tag 5 = true /\ state_adder 5 = None.
Proof. done. Qed.

(** Moving a name does not touch the memory: an owner moves with it. *)
Lemma move_name m p s : stored m p s -> exists k p', property_move malloc json_types m p_null p = Some (m, k, p') /\ flags k = flags p /\ Property.value k = Property.value p.
Proof.
  intros [_ [(Hf & _) | (Hf & _)]]; destruct p as [v f n]; cbn [flags Property.value] in *; subst f.
  - eexists _, _. split; [unfold property_move; reflexivity|]. done.
  - eexists _, _. split; [unfold property_move; reflexivity|]. done.
Qed.

Abbreviation post_from := (post_members (W := W) malloc json_types other_property other_bool other_number).

(** The value of a state that was set, as JSON. *)
Lemma json_ok (d : dev W) m v a : val_rep m v a -> a <> AString None ->
  is_valid_tag (a_tag a) = true /\ exists ad j, state_adder (a_tag a) = Some ad /\ ad <> no_adder /\ json other_property other_bool other_number ad v (m, d) = Some (j, (m, d)).
Proof.
  intros Hv Ha. split; [by destruct a|]. destruct a as [[s|] | b | n]; destruct v as [p | b' | n']; try done.
  - exists string_adder, (JString (Some s)). split; [done|]. split; [done|]. unfold json. erewrite bind_run by done. cbn [_property fst]. destruct Hv as [Hs Hv].
    assert (Hb : exists b, bytes_at m (Property.value p) = Some b /\ cstr b = Some s).
    { unfold bytes_at. destruct Hv as [(_ & b & -> & Hc) | (_ & _ & ->)]; [by exists b|]. exists (s ++ [0]). split; [done | by apply cstr_app]. }
    destruct Hb as (b & Eb & Ec). erewrite bind_run by (apply lift_run; exact Eb). by erewrite bind_run by (apply lift_run; exact Ec).
  - by exists bool_adder, (JBool b').
  - by exists number_adder, (JNumber n').
Qed.

(** One state that was set becomes a member whose key is its name. *)
Lemma post_head (d : dev W) m st a : st_rep m st a -> a_val a <> AString None -> exists k v, flags k = flags (name st) /\ Property.value k = Property.value (name st) /\
  (if is_valid_tag (tag st) then
     ad ← lift (state_adder (tag st));
     match ad with
     | no_adder => mret []
     | _ => v ← json other_property other_bool other_number ad (value st); k ← on_mem (fun m => '(m, k, _) ← property_move malloc json_types m p_null (name st); Some (k, m)); mret [(k, v)]
     end
   else mret []) (m, d) = Some ([(k, v)], (m, d)).
Proof.
  intros (Hs & Htag & Hv & _) Ha. destruct (json_ok d m _ _ Hv Ha) as (Hval & ad & j & Ead & Hne & Ej). destruct (move_name m (name st) (a_name a) Hs) as (k & p' & Em & Hf & Hk).
  exists k, j. split; [done|]. split; [done|]. rewrite Htag, Hval. erewrite bind_run by (apply lift_run; exact Ead).
  assert (Ek : on_mem (W := W) (fun m => '(m, k, _) ← property_move malloc json_types m p_null (name st); Some (k, m)) (m, d) = Some (k, (m, d))) by (unfold on_mem; cbn [fst snd]; by rewrite Em).
  destruct ad; [done|..]; (erewrite bind_run by exact Ej); by erewrite bind_run by exact Ek.
Qed.

(** A string that was not set is read through NULL. *)
Lemma post_unset (d : dev W) m : m !! NULL = None -> forall fuel p ps sts l, LinkedList.is_list (q_links (__state_list d)) p ps -> Forall2 (fun p a => q_nodes (__state_list d) !! p = Some a) ps sts -> Forall2 (st_rep m) sts l ->
  (exists a, a ∈ l /\ a_val a = AString None) -> post_from fuel p (m, d) = None.
Proof.
  intros Hnull. induction fuel as [|fuel IH]; intros p ps sts l Hl Hn Hr (a & Ha & Hav); [done|]. cbn [post_members]. destruct Hr as [|st b sts l Hb Hr]; [by apply not_elem_of_nil in Ha|].
  apply Forall2_cons_inv_r in Hn as (x & ps' & Hx & Hn & ->). destruct Hl as (-> & Hx0 & nx & Hnx & Hl). change NULL with LinkedList.NULL. rewrite (proj2 (Z.eqb_neq x LinkedList.NULL) Hx0).
  erewrite bind_run by done. erewrite bind_run by (apply lift_run; exact Hx). assert (Hd : a_val b = AString None \/ a_val b <> AString None) by (destruct (a_val b) as [[?|] | |]; [by right | by left | by right | by right]); destruct Hd as [Eb | Eb].
  - apply bind_stuck. destruct Hb as (_ & Htag & Hv & _). rewrite Htag, Eb in *. destruct (value st) as [q | |]; try done. cbn [val_rep] in Hv. subst q.
    change (is_valid_tag (a_tag (AString None))) with true. cbv iota. erewrite bind_run by done. apply bind_stuck. unfold json. erewrite bind_run by done. apply bind_stuck. unfold lift, bytes_at. cbn [_property fst Property.value p_null]. by rewrite Hnull.
  - destruct (post_head d m st b Hb Eb) as (k & v & _ & _ & E). erewrite bind_run by exact E. erewrite bind_run by (apply lift_run; exact Hnx). apply bind_stuck. eapply IH; [exact Hl | exact Hn | exact Hr |].
    exists a. split; [|done]. apply elem_of_cons in Ha as [-> | Ha]; done.
Qed.

(** C37. Posting the states while one of them is a string that was not set, as
    arrow_device_state_init leaves it, reads through NULL. *)
Theorem state_post_unset_faults m0 s l : table m0 s l -> s.1 !! NULL = None -> (exists a, a ∈ l /\ a_val a = AString None) ->
  post_payload malloc text_malloc json_types other_property other_bool other_number s = None.
Proof.
  intros (ps & sts & Hq & Hr & _) Hnull Ha. destruct s as [m d]. unfold post_payload. erewrite bind_run by done. apply bind_stuck. cbn [fst snd] in *.
  eapply post_unset; [done | apply Hq | apply Hq | exact Hr | exact Ha].
Qed.

Lemma post_set (d : dev W) m : forall fuel p ps sts l, LinkedList.is_list (q_links (__state_list d)) p ps -> Forall2 (fun p a => q_nodes (__state_list d) !! p = Some a) ps sts -> Forall2 (st_rep m) sts l ->
  Forall (fun a => a_val a <> AString None) l -> (length ps < fuel)%nat ->
  exists ms, post_from fuel p (m, d) = Some (ms, (m, d)) /\ Forall2 (fun st kv => flags kv.1 = flags (name st) /\ Property.value kv.1 = Property.value (name st)) sts ms.
Proof.
  induction fuel as [|fuel IH]; intros p ps sts l Hl Hn Hr Hset Hf; [lia|]. cbn [post_members]. destruct Hr as [|st a sts l Ha Hr].
  - inversion Hn; subst. cbn in Hl. subst p. by exists [].
  - apply Forall2_cons_inv_r in Hn as (x & ps' & Hx & Hn & ->). destruct Hl as (-> & Hx0 & nx & Hnx & Hl). apply Forall_cons in Hset as [Hav Hset]. cbn [length] in Hf.
    change NULL with LinkedList.NULL. rewrite (proj2 (Z.eqb_neq x LinkedList.NULL) Hx0). erewrite bind_run by done. erewrite bind_run by (apply lift_run; exact Hx).
    destruct (post_head d m st a Ha Hav) as (k & v & Hk1 & Hk2 & E). erewrite bind_run by exact E. erewrite bind_run by (apply lift_run; exact Hnx).
    destruct (IH nx ps' sts l Hl Hn Hr Hset) as (ms & Em & Hms); [lia|]. erewrite bind_run by exact Em. exists ((k, v) :: ms). split; [done|]. by constructor.
Qed.

(** Giving properties back does not bring a block back. *)
Lemma free_gone m p m' q a : property_free json_types m p = Some (m', q) -> m !! a = None -> m' !! a = None.
Proof.
  intros E Ha. assert (Hf : forall m', mem_free m (Property.value p) = Some m' -> m' !! a = None).
  { intros m1. unfold mem_free. destruct (_ =? NULL); [by intros [= <-]|]. destruct (m !! Property.value p) as [[[|] b]|]; [|done..]. cbn [mbind option_bind]. intros [= <-]. rewrite lookup_delete_None. by right. }
  unfold property_free in E. destruct (flag p is_owner) eqn:Eo; [|by injection E as <- <-].
  destruct (get_property_type json_types p) as [[| | |]|]; try (by injection E as <- <-).
  - unfold dynmc_destroy in E. rewrite Eo in E. destruct (mem_free m (Property.value p)) as [m1|] eqn:Em; [|done]. injection E as <- <-. by apply Hf.
  - unfold json_destroy, json_delete_string in E. destruct (mem_free m (Property.value p)) as [m1|] eqn:Em; [|done]. injection E as <- <-. by apply Hf.
Qed.

Lemma free_keys_gone a ms : forall s s' : memory * dev W, free_keys json_types ms s = Some (tt, s') -> s.1 !! a = None -> s'.1 !! a = None /\ s'.2 = s.2.
Proof.
  induction ms as [|[k v] ms IH]; intros s s' E Ha; [by injection E as <-|]. cbn [free_keys] in E. unfold mbind, M_bind, on_mem in E. destruct (property_free json_types s.1 k) as [[m1 q]|] eqn:Ef; [|done].
  cbn [mbind option_bind] in E. by apply (IH (m1, s.2) s' E), (free_gone _ _ _ _ _ Ef).
Qed.

(** C36. Posting the states takes the names with it: the key of a member is moved out
    of a copy of the name, so deleting the tree gives back a name that is not a
    constant, and from then on every search of the states compares with the
    memory that was given back. *)
Theorem state_post_frees_names m0 s a l st p ms s1 s2 : table m0 s (a :: l) -> Forall (fun a => a_val a <> AString None) (a :: l) ->
  get_node (__state_list s.2) (q_root (__state_list s.2)) = Some st -> flags (name st) = dyn_flags ->
  post_payload malloc text_malloc json_types other_property other_bool other_number s = Some ((p, ms), s1) -> free_keys json_types ms s1 = Some (tt, s2) ->
  forall k j, is_cstr k -> handle_member malloc json_types other_property union_string (Some k) j s2 = None.
Proof.
  intros (ps & sts & Hq & Hr & _) Hset Hst Hfl Ep Ef k j Hk. destruct s as [m d]. cbn [fst snd] in *. apply Forall2_cons_inv_r in Hr as (st0 & sts' & Ha & Hr & ->). assert (Hrs : Forall2 (st_rep m) (st0 :: sts') (a :: l)) by (by constructor). clear Ha Hr. rename Hrs into Hr.
  pose proof (h_nodes _ _ _ Hq) as Hn. pose proof (h_list _ _ _ Hq) as Hl. apply Forall2_cons_inv_r in Hn as (x & ps' & Hx & Hn & ->). assert (st0 = st) as -> by (pose proof Hl as (Hroot & _); rewrite Hroot in Hst; unfold get_node in Hst; congruence).
  destruct (post_set d m (LinkedList.nodes_fuel (q_links (__state_list d))) _ _ _ _ Hl (h_nodes _ _ _ Hq) Hr Hset) as (ms' & Em & Hms); [pose proof (LinkedList.is_list_size _ _ _ Hl); unfold LinkedList.nodes_fuel; lia|].
  unfold post_payload in Ep. erewrite bind_run in Ep by done. erewrite bind_run in Ep by exact Em. erewrite bind_run in Ep by done. cbn [fst snd] in Ep.
  unfold mbind, M_bind, lift, mret, M_ret, on_mem in Ep. destruct (key_texts m ms') as [texts|]; [|done]. cbn [mbind option_bind fst snd] in Ep. destruct (DeviceCommand.json_encode_property _ _ _ m) as [[q m1]|]; [|done]. cbn [mbind option_bind fst snd] in Ep. injection Ep as _ <- <-.
  apply Forall2_cons_inv_l in Hms as ([key v] & ms'' & [Hf1 Hf2] & _ & ->). cbn [fst] in Hf1, Hf2. cbn [free_keys] in Ef. unfold mbind, M_bind, on_mem in Ef. cbn [fst snd] in Ef.
  assert (Hfree : forall m2 q2, property_free json_types m1 key = Some (m2, q2) -> Property.value key <> NULL -> m2 !! Property.value key = None).
  { intros m2 q2. unfold property_free, flag, get_property_type. rewrite Hf1, Hfl. unfold dynmc_destroy, flag, mem_free. rewrite Hf1, Hfl. cbn. intros E Hv. change (Property.value key =? NULL) with (Property.value key =? 0) in E. rewrite (proj2 (Z.eqb_neq _ 0) Hv) in E.
    destruct (m1 !! Property.value key) as [[[|] b]|]; [|done..]. cbn in E. injection E as <- <-. apply lookup_delete_eq. }
  destruct (property_free json_types m1 key) as [[m2 q2]|] eqn:Ek; [|done]. cbn [mbind option_bind] in Ef.
  assert (Hv : Property.value key <> NULL).
  { apply Forall2_cons in Hr as [[[_ [(Hf & _) | (_ & Hv & _)]] _] _]; [by rewrite Hf in Hfl | by rewrite Hf2]. }
  destruct (free_keys_gone (Property.value key) ms'' (m2, d) s2 Ef (Hfree _ _ eq_refl Hv)) as [Hgone Hd]. cbn [snd] in Hd.
  unfold handle_member. erewrite bind_run by done. apply bind_stuck. unfold lift, linked_list_find_node. rewrite Hd. pose proof Hl as (-> & Hx0 & _). unfold LinkedList.nodes_fuel. cbn [find_node]. rewrite (proj2 (Z.eqb_neq x LinkedList.NULL) Hx0).
  unfold get_node. rewrite Hx. cbn [mbind option_bind]. rewrite CommandSpec.name_is_gone; [done | by rewrite <- Hf2 | done].
Qed.

End merge.

(** ** Answers *)

(** An answer that was sent, and its result. *)
Definition sent : Type := _st_put_api * list Z * Z.

Section answers.
Context {U W : Type}.
Abbreviation St := (Events.state (DeviceCommand.program U (dev W))).
Abbreviation vars s := (Crypt.mem (Events.ks s), DeviceCommand.outside (Events.rest s)).
Context (malloc : memory -> Z -> option (Z * list Z)) `{Hmalloc : !Malloc malloc}.
Context (Henough : forall m n, 0 <= n -> malloc m n <> None).
Context (text_malloc : Z -> option (list Z)) (other_property : value_t -> property_t) (union_string : JsonNode -> option (list Z)).
Context (timestamp_now : W -> timestamp -> timestamp) (log : W -> list sent).

(** The states are [l]; the identifier of the device is set, to a string that is not theirs. *)
Definition running (m0 : memory) (s : St) (l : list astate) (h : list Z) : Prop :=
  table m0 (vars s) l /\ Property.value (_device_hid (vars s).2) <> NULL /\ is_cstr h /\ exists b x, m0 !! Property.value (_device_hid (vars s).2) = Some (b, (h ++ 0 :: x)).
Definition seen (s : St) : list sent := log (env (vars s).2).

(** What sending an answer promises: it returns, whatever the result, and leaves the
    states and the identifier. *)
Class Answers (answer : property_t -> _st_put_api -> list Z -> M St Z) : Prop :=
  answers m0 l h put trans s : running m0 s l h -> is_cstr trans ->
    exists r s' m0', answer (_device_hid (vars s).2) put trans s = Some (r, s') /\ running m0' s' l h /\ _device_hid (vars s').2 = _device_hid (vars s).2 /\ seen s' = seen s ++ [(put, trans, r)].

Context (answer : property_t -> _st_put_api -> list Z -> M St Z) `{Hanswer : !Answers answer}.
Context (ARROW_MAX_RETRY : Z) (Hretry : ARROW_MAX_RETRY < INT_MAX).
Context (msleep : dev W -> dev W) (Hsleep : forall v, __state_list (msleep v) = __state_list v /\ _device_hid (msleep v) = _device_hid v /\ log (env (msleep v)) = log (env v)).
Abbreviation patience := (Retry.patience ARROW_MAX_RETRY).
Abbreviation handler := (arrow_device_state_handler malloc json_types other_property union_string timestamp_now).

(** The members of the text of a request; a text that is not JSON has none. *)
Definition members_of (o : option JsonNode) (ms : list (list Z * JsonNode)) : Prop :=
  o = Some (JObject ms) \/ (ms = [] /\ children o = []).

(** A property of the states and the program that sending, sleeping and merging keep. *)
Record stable (I : list astate -> St -> Prop) (hid : property_t) : Prop := {
  st_hid l s : I l s -> _device_hid (vars s).2 = hid /\ Property.value hid <> NULL;
  st_answer l s put trans : I l s -> is_cstr trans -> exists r s', answer hid put trans s = Some (r, s') /\ I l s' /\ seen s' = seen s ++ [(put, trans, r)];
  st_sleep l s : I l s -> I l (CommandSpec.with_outside s (msleep (vars s).2));
  st_merge l s o ms : I l s -> members_of o ms -> Forall (member_ok union_string (map a_name l)) ms ->
    exists s', on_dev (handler o) s = Some (0, s') /\ I (merge union_string l ms) s' /\ seen s' = seen s;
}.

Lemma answer_loop_ok I hid fuel l put trans retry s : stable I hid -> I l s -> is_cstr trans -> 0 <= retry <= patience -> (Z.to_nat patience < fuel)%nat ->
  exists o s' fs, answer_loop ARROW_MAX_RETRY msleep answer fuel hid put trans retry s = Some (o, s') /\ I l s' /\ Forall (fun r => r < 0) fs /\
    match o with
    | Some k => exists r, seen s' = seen s ++ map (fun r => (put, trans, r)) (fs ++ [r]) /\ 0 <= r /\ k = retry + zlen fs /\ k <= patience
    | None => seen s' = seen s ++ map (fun r => (put, trans, r)) fs /\ zlen fs = patience - retry + 1
    end.
Proof.
  intros Hst HI Htr Hr Hf. set (J := fun rs (s' : St) => I l s' /\ seen s' = seen s ++ map (fun r => (put, trans, r)) rs).
  destruct (Retry.retry_loop_ok ARROW_MAX_RETRY (answer hid put trans) (sleep msleep) J Hretry) with fuel retry (@nil Z) s as (o & s' & fs & E & Hfs & Hres).
  - intros rs s1 (H1 & Hs). destruct (st_answer _ _ Hst l s1 put trans H1 Htr) as (r & s2 & E & H2 & Hs2). exists r, s2. split; [exact E|]. split; [exact H2|]. by rewrite Hs2, Hs, map_app, <- app_assoc.
  - intros rs s1 (H1 & Hs). eexists. split; [unfold sleep; erewrite bind_run by done; apply CommandSpec.set_outside_run|]. split; [by apply (st_sleep _ _ Hst)|].
    unfold seen in *. cbn [fst snd CommandSpec.with_outside Events.rest DeviceCommand.outside] in *. by rewrite (proj2 (proj2 (Hsleep _))).
  - split; [exact HI|]. cbn [map]. by rewrite app_nil_r.
  - exact Hr.
  - lia.
  - destruct o as [k|].
    + destruct Hres as (r & (H1 & Hs) & B & C & D). exists (Some k), s', fs. split; [exact E|]. split; [exact H1|]. split; [exact Hfs|]. by exists r.
    + destruct Hres as [(H1 & Hs) C]. exists None, s', fs. by split_and!.
Qed.

(** What is seen of a request: received, until it arrives; then, with the counter of
    retries as it is, succeeded, until it arrives. The flag says whether the states
    were merged. *)
Definition tries (put : _st_put_api) (trans : list Z) (rs : list Z) : list sent := map (fun r => (put, trans, r)) rs.
Inductive request_trace (trans : list Z) : bool -> Z -> list sent -> Prop :=
  | not_received fs : Forall (fun r => r < 0) fs -> zlen fs = patience + 1 -> request_trace trans false (-2) (tries st_received trans fs)
  | completed fs r fs' r' : Forall (fun r => r < 0) (fs ++ fs') -> 0 <= r -> 0 <= r' -> zlen (fs ++ fs') <= patience ->
      request_trace trans true 0 (tries st_received trans (fs ++ [r]) ++ tries st_complete trans (fs' ++ [r']))
  | not_completed fs r fs' : Forall (fun r => r < 0) (fs ++ fs') -> 0 <= r -> zlen (fs ++ fs') = patience + 1 ->
      request_trace trans true (-2) (tries st_received trans (fs ++ [r]) ++ tries st_complete trans fs').

(** The handler keeps what is stable. *)
Lemma state_request_ok I hid fuel (s : St) l ev params trans_hid trans payload text o ms : stable I hid -> I l s -> is_cstr trans ->
  Events.json_find_member params (lit "deviceHid") <> None -> Events.json_find_member params (lit "transHid") = Some trans_hid -> string_ union_string trans_hid = Some trans ->
  Events.json_find_member params (lit "payload") = Some payload -> string_ union_string payload = Some text -> json_decode text_malloc (text ++ [0]) = Some o -> members_of o ms ->
  Forall (member_ok union_string (map a_name l)) ms -> (Z.to_nat patience < fuel)%nat ->
  exists r s' merged out, ev_DeviceStateRequest malloc text_malloc json_types other_property union_string timestamp_now ARROW_MAX_RETRY msleep answer fuel ev (Some params) s = Some (r, s') /\
    seen s' = seen s ++ out /\ request_trace trans merged r out /\ I (if merged then merge union_string l ms else l) s'.
Proof.
  intros Hst HI Htr Hdev Htm Htx Hpm Hpx Hdec Ho Hms Hf. destruct (Events.json_find_member params (lit "deviceHid")) as [dev_hid|] eqn:Edev; [|done].
  unfold ev_DeviceStateRequest. erewrite bind_run by done. cbv zeta. destruct (st_hid _ _ Hst l s HI) as [Hh Hh0]. cbn [snd] in Hh. rewrite Hh. unfold IS_EMPTY. rewrite (proj2 (Z.eqb_neq _ NULL) Hh0).
  change (Events.find_param (Some params)) with (Events.json_find_member params). rewrite Edev, Htm, Hpm. erewrite bind_run by (apply lift_run; exact Htx).
  destruct (answer_loop_ok I hid fuel l st_received trans 0 s Hst HI Htr) as (o1 & s1 & fs & E1 & H1 & Hfs & Hres1); [unfold Retry.patience; lia | done |]. erewrite bind_run by exact E1.
  destruct o1 as [k|]; [|destruct Hres1 as [Hs1 Hl1]; exists (-2), s1, false; eexists; split; [done|]; split; [exact Hs1|]; split; [apply not_received; [done | lia] | exact H1]].
  destruct Hres1 as (r1 & Hs1 & Hr1 & Hk & Hkp). erewrite bind_run by (apply lift_run; exact Hpx). erewrite bind_run by (apply lift_run; exact Hdec).
  destruct (st_merge _ _ Hst l s1 o ms H1 Ho Hms) as (s2 & E2 & H2 & Hs2). erewrite bind_run by exact E2. erewrite bind_run by done. change (0 <? 0) with false. cbv iota.
  destruct (st_hid _ _ Hst _ s2 H2) as [Hh2 _]. cbn [snd] in Hh2. rewrite Hh2.
  pose proof (zlen_nonneg fs). destruct (answer_loop_ok I hid fuel (merge union_string l ms) st_complete trans k s2 Hst H2 Htr) as (o3 & s3 & fs' & E3 & H3 & Hfs' & Hres3); [lia | done |]. erewrite bind_run by exact E3.
  assert (Hneg : Forall (fun r => r < 0) (fs ++ fs')) by by apply Forall_app. destruct o3 as [k'|].
  - destruct Hres3 as (r3 & Hs3 & Hr3 & Hk' & Hkp'). exists 0, s3, true. eexists. split; [done|]. split; [rewrite Hs3, Hs2, Hs1, <- app_assoc; done|]. split; [|exact H3]. apply completed; [done | done | done | rewrite zlen_app; lia].
  - destruct Hres3 as [Hs3 Hl3]. exists (-2), s3, true. eexists. split; [done|]. split; [rewrite Hs3, Hs2, Hs1, <- app_assoc; done|]. split; [|exact H3]. apply not_completed; [done | done | rewrite zlen_app; lia].
Qed.

(** Merging, in the whole program. *)
Lemma handler_run m0 (s : St) sts l o ms : table_at m0 (vars s) sts l -> members_of o ms -> Forall (member_ok union_string (map a_name l)) ms ->
  exists m q sts', let d := mk_dev q (_device_hid (vars s).2) (timestamp_now (env (vars s).2) (_last_modify (vars s).2)) (env (vars s).2) in
    on_dev (handler o) s = Some (0, CommandSpec.with_outside (with_ks s (with_mem (Events.ks s) m)) d) /\ table_at m0 (m, d) sts' (merge union_string l ms) /\ fresh_props sts sts'.
Proof.
  intros Ht Ho Hms. assert (Hch : children o = map (fun kv => (Some kv.1, kv.2)) ms) by by destruct Ho as [-> | [-> ->]].
  destruct (handle_members_at malloc Henough other_property union_string m0 ms (vars s) sts l Ht Hms) as (m & q & sts' & E & Ht' & Hf). rewrite <- Hch in E. cbn [fst snd] in E, Ht'.
  exists m, q, sts'. cbv zeta. cbn [fst snd]. split; [|by split].
  assert (Eh : handler o (vars s) = Some (0, (m, mk_dev q (_device_hid (vars s).2) (timestamp_now (env (vars s).2) (_last_modify (vars s).2)) (env (vars s).2)))) by (unfold arrow_device_state_handler; by erewrite bind_run by exact E).
  unfold on_dev. erewrite bind_run by done. erewrite bind_run by (apply lift_run; exact Eh). erewrite bind_run by by apply on_mem_run. erewrite bind_run by apply CommandSpec.set_outside_run. done.
Qed.

Lemma running_stable l0 h m0 s0 : running m0 s0 l0 h -> stable (fun l s => exists m0, running m0 s l h /\ _device_hid (vars s).2 = _device_hid (vars s0).2) (_device_hid (vars s0).2).
Proof.
  intros (_ & Hh0 & _). split.
  - by intros l s (m & _ & Hh).
  - intros l s put trans (m & Hrun & Hh) Htr. destruct (answers m l h put trans s Hrun Htr) as (r & s2 & m2 & E & H2 & Hh2 & Hs2). rewrite Hh in E, Hh2. exists r, s2. split; [exact E|]. split; [by exists m2 | exact Hs2].
  - intros l s (m & Hrun & Hh). exists m. destruct (Hsleep (vars s).2) as (A & B & _). unfold running, table in *. cbn [fst snd CommandSpec.with_outside Events.ks Events.rest DeviceCommand.outside] in *. rewrite A, B. by split.
  - intros l s o ms (m & (Ht & Hh1 & Hh) & Hhid) Ho Hms. apply table_table_at in Ht as [sts Ht]. destruct (handler_run m s sts l o ms Ht Ho Hms) as (m' & q & sts' & E & Ht' & _).
    eexists. split; [exact E|]. split; [|done]. exists m. split; [|exact Hhid]. split; [by eapply table_at_table | by split].
Qed.


End answers.
(** ** Samples *)

Definition sample_world : Type := list Z * list sent.
Definition no_property (_ : value_t) : property_t := p_null.
Definition no_bool (_ : value_t) : bool := false.
Definition no_number (_ : value_t) : Double.double := Double.double_of_Z 0.
Definition no_text (_ : JsonNode) : option (list Z) := None.
Definition sample_time (_ : sample_world) (_ : timestamp) : timestamp := mk_ts 0 5 4 3 2 1 6 2018.

(** A boolean led and a string name, and the identifier h1. *)
Definition sample_strings : memory := <[40 := (false, lit "led" ++ [0])]> (<[41 := (false, lit "name" ++ [0])]> (<[42 := (false, lit "h1" ++ [0])]> ∅)).
Definition sample_dev (rs : list Z) (v : value_t) : dev sample_world :=
  mk_dev (mk_queue 5 (<[5 := 6]> {[6 := 0]}) (<[5 := mk_st (CommandSpec.const_prop 40 3) 1 (v_bool false) (mk_ts 0 0 0 0 9 1 5 2018)]> {[6 := mk_st (CommandSpec.const_prop 41 4) 2 v Utf8.ts_zero]}))
    (CommandSpec.const_prop 42 2) Utf8.ts_zero (rs, []).
Definition sample_values : list astate := [mk_as (lit "led") (ABool false) (mk_ts 0 0 0 0 9 1 5 2018); mk_as (lit "name") (AString None) Utf8.ts_zero].

Lemma sample_table rs : table sample_strings (sample_strings, sample_dev rs (v_property p_null)) sample_values.
Proof.
  exists [5; 6], [mk_st (CommandSpec.const_prop 40 3) 1 (v_bool false) (mk_ts 0 0 0 0 9 1 5 2018); mk_st (CommandSpec.const_prop 41 4) 2 (v_property p_null) Utf8.ts_zero].
  assert (Hled : stored sample_strings (CommandSpec.const_prop 40 3) (lit "led")) by (split; [by repeat constructor|]; left; split; [done|]; by exists (lit "led" ++ [0])).
  assert (Hname : stored sample_strings (CommandSpec.const_prop 41 4) (lit "name")) by (split; [by repeat constructor|]; left; split; [done|]; by exists (lit "name" ++ [0])).
  split; [|split; [|split; [split|]]].
  - split; [| by repeat constructor | apply (bool_decide_unpack _); by vm_compute | apply (bool_decide_unpack _); by vm_compute].
    split; [done|]. split; [done|]. exists 6. split; [done|]. split; [done|]. split; [done|]. by exists 0.
  - constructor; [by split_and!|]. constructor; [by split_and! | constructor].
  - apply Forall_cons; split; [right; by eexists|]. apply Forall_cons; split; [right; by eexists|]. apply Forall_cons; split; [by left | constructor].
  - constructor.
  - done.
Qed.

Definition member (v t : list Z) : JsonNode := JObject [(lit "value", JString (Some v)); (lit "timestamp", JString (Some t))].
Definition sample_message : list (list Z * JsonNode) := [(lit "led", member (lit "true") (lit "2018-05-22T10:08:38.503Z")); (lit "name", member (lit "x") (lit "2018-05-22T10:08:38.503Z"))].

Lemma sample_members : Forall (member_ok no_text (map a_name sample_values)) sample_message.
Proof.
  repeat (apply Forall_cons; split); try constructor; try (by repeat constructor); intros _ val [= <-]; (split; [eexists; by vm_compute|]); eexists; (split; [done | by repeat constructor]).
Qed.

Lemma state_handler_merges_witness : exists s',
  arrow_device_state_handler bump_malloc json_types no_property no_text sample_time (Some (JObject sample_message)) (sample_strings, sample_dev [] (v_property p_null)) = Some (0, s') /\
  table sample_strings s' [mk_as (lit "led") (ABool true) (mk_ts 0 503 38 8 10 22 5 2018); mk_as (lit "name") (AString (Some (lit "x"))) (mk_ts 0 503 38 8 10 22 5 2018)].
Proof.
  destruct (state_handler_merges bump_malloc bump_enough no_property no_text sample_time sample_strings (sample_strings, sample_dev [] (v_property p_null)) sample_values sample_message) as (s' & E & Ht & _).
  - apply sample_table.
  - exact sample_members.
  - exists s'. split; [exact E|]. assert (Hm : merge no_text sample_values sample_message = [mk_as (lit "led") (ABool true) (mk_ts 0 503 38 8 10 22 5 2018); mk_as (lit "name") (AString (Some (lit "x"))) (mk_ts 0 503 38 8 10 22 5 2018)]) by by vm_compute.
    rewrite <- Hm. exact Ht.
Defined.

(** The first of May, nine o'clock, against the second at eight. *)
Lemma state_update_lost_witness : exists s',
  arrow_device_state_handler bump_malloc json_types no_property no_text sample_time (Some (JObject [(lit "led", member (lit "true") (lit "2018-05-02T08:00:00.000Z"))])) (sample_strings, sample_dev [] (v_property p_null)) = Some (0, s') /\
  table sample_strings s' sample_values.
Proof.
  apply (state_update_lost bump_malloc bump_enough no_property no_text sample_time sample_strings (sample_strings, sample_dev [] (v_property p_null)) sample_values (lit "led") (member (lit "true") (lit "2018-05-02T08:00:00.000Z")) (mk_ts 0 0 0 0 8 2 5 2018)).
  - apply sample_table.
  - split; [by repeat constructor|]. intros _ val [= <-]. split; [eexists; by vm_compute|]. eexists. split; [done | by repeat constructor].
  - by vm_compute.
  - unfold ts_ok. cbn. lia.
  - repeat (apply Forall_cons; split); [| |constructor]; intros E; [unfold ts_ok, day_time, date; cbn; lia | by vm_compute in E].
Defined.

Lemma state_post_unset_faults_witness : post_payload bump_malloc test_malloc json_types no_property no_bool no_number (sample_strings, sample_dev [] (v_property p_null)) = None.
Proof.
  apply (state_post_unset_faults bump_malloc no_property no_bool no_number test_malloc sample_strings (sample_strings, sample_dev [] (v_property p_null)) sample_values).
  - apply sample_table.
  - by vm_compute.
  - exists (mk_as (lit "name") (AString None) Utf8.ts_zero). split; [right; left | done].
Defined.

(** A state whose name is on the heap. *)
Definition owned_name : property_t := mk_prop 50 dyn_flags 3.
Definition owned_strings : memory := {[50 := (true, lit "led" ++ [0])]}.
Definition owned_dev : dev sample_world := mk_dev (mk_queue 5 {[5 := 0]} {[5 := mk_st owned_name 1 (v_bool false) Utf8.ts_zero]}) p_null Utf8.ts_zero ([], []).

Lemma owned_states : table ∅ (owned_strings, owned_dev) [mk_as (lit "led") (ABool false) Utf8.ts_zero].
Proof.
  assert (Hst : stored owned_strings owned_name (lit "led")) by (split; [by repeat constructor|]; by right).
  exists [5], [mk_st owned_name 1 (v_bool false) Utf8.ts_zero]. split; [|split; [|split]].
  - split; [split; [done|]; split; [done|]; by exists 0 | by repeat constructor | apply (bool_decide_unpack _); by vm_compute | apply (bool_decide_unpack _); by vm_compute].
  - constructor; [by split_and! | constructor].
  - split; [apply Forall_cons; split; [right; by eexists | constructor] | apply NoDup_singleton].
  - apply (bool_decide_unpack _). by vm_compute.
Qed.

(** The payload, and then the keys given back. *)
Definition post_and_free (s : memory * dev sample_world) :=
  r ← post_payload bump_malloc test_malloc json_types no_property no_bool no_number s; k ← free_keys json_types r.1.2 r.2; Some (r, k.2).

Lemma state_post_frees_names_witness : exists p ms s1 s2, post_payload bump_malloc test_malloc json_types no_property no_bool no_number (owned_strings, owned_dev) = Some ((p, ms), s1) /\
  free_keys json_types ms s1 = Some (tt, s2) /\ handle_member bump_malloc json_types no_property no_text (Some (lit "led")) JNull s2 = None.
Proof.
  assert (Hrun : is_Some (post_and_free (owned_strings, owned_dev))) by (apply (bool_decide_unpack _); by vm_compute).
  destruct Hrun as [[r s2] E]. unfold post_and_free in E. destruct (post_payload _ _ _ _ _ _ _) as [[[p ms] s1]|] eqn:E1; [|discriminate E]. cbn [mbind option_bind fst snd] in E.
  destruct (free_keys json_types ms s1) as [[[] s3]|] eqn:E2; [|discriminate E]. exists p, ms, s1, s3. split; [reflexivity|]. split; [exact E2|].
  assert (Hset : Forall (fun a => a_val a <> AString None) [mk_as (lit "led") (ABool false) Utf8.ts_zero]) by (apply Forall_cons; split; [discriminate | constructor]).
  apply (state_post_frees_names bump_malloc no_property no_bool no_number no_text test_malloc ∅ (owned_strings, owned_dev) (mk_as (lit "led") (ABool false) Utf8.ts_zero) [] (mk_st owned_name 1 (v_bool false) Utf8.ts_zero) p ms s1 s3
    owned_states Hset eq_refl eq_refl E1 E2). by repeat constructor.
Defined.

(** *** A request *)

Abbreviation sample_state := (Events.state (DeviceCommand.program unit (dev sample_world))).
Definition sample_program (rs : list Z) : sample_state :=
  Events.mk_state (Crypt.mk_state sample_strings [] ([], []) NULL NULL) (mk_queue NULL ∅ ∅) (mk_queue NULL ∅ ∅) (Events.finished false) (Events.finished false) 0 false
    (DeviceCommand.mk_program (mk_queue NULL ∅ ∅) CommandSpec.sample_client ∅ ∅ (sample_dev rs (v_property p_null))).
Definition sample_answer (hid : property_t) (put : _st_put_api) (trans : list Z) : M sample_state Z := fun s =>
  let v := DeviceCommand.outside (Events.rest s) in
  let '(rs, l) := env v in
  Some (default 0 (head rs), CommandSpec.with_outside s (mk_dev (__state_list v) (_device_hid v) (_last_modify v) (tail rs, l ++ [(put, trans, default 0 (head rs))]))).
#[local] Instance sample_answers : Answers (fun w : sample_world => w.2) sample_answer.
Proof.
  intros m0 l h put trans s Hrun Htr. unfold sample_answer, seen. cbn [fst snd]. destruct (env (DeviceCommand.outside (Events.rest s))) as [rs out] eqn:Ee. eexists _, _, m0. split; [done|]. split; [exact Hrun | done].
Qed.
Definition sample_request (text : list Z) : JsonNode :=
  JObject [(lit "deviceHid", JString (Some (lit "h1"))); (lit "transHid", JString (Some (lit "t"))); (lit "payload", JString (Some text))].


End StateSpec.
