(* ===== verification/EventHandlers.v ===== *)
(** The queue of events with the handlers of the repository: src/src/arrow/events.c
    (Events.v, EventSpec.v) over src/src/arrow/device_command.c (CommandSpec.v) and
    src/src/arrow/state.c (StateSpec.v), which run in one program and one memory. *)
From S2P Require Import Prelude StateM Retry LinkedList EventQueue Property PropMap PropOwn Double Sb JsonParse JsonStream JsonDecode JsonSpec Timer HttpClient HttpExchange Crypt GatewaySign Events EventSpec DeviceCommand CommandSpec DeviceState StateSpec.

Module EventHandlers.
Import StateM EventQueue Property PropMap PropOwn JsonParse Events EventSpec.
Import CommandSpec (kept, like, others_same, says, entry).
Import StateSpec (table_at, all_props, fresh_props, astate, a_name, sent).

(** ** The memory under the strings *)

Lemma kept_delete sc bs m m' : kept sc m m' -> kept sc (delete_all bs m) (delete_all bs m').
Proof. intros Hk a. rewrite !delete_all_lookup. destruct (decide (a ∈ bs)); [by intros [? ?]|]. apply Hk. Qed.
Lemma like_delete_all sc bs m m' : like sc m m' -> like sc (delete_all bs m) (delete_all bs m').
Proof.
  intros [Hd Hl]. split.
  - apply set_eq. intros a. rewrite !elem_of_dom, !delete_all_lookup. destruct (decide (a ∈ bs)); [done|]. by rewrite <- !elem_of_dom, Hd.
  - intros a Ha. rewrite !delete_all_lookup. destruct (decide (a ∈ bs)); [done | by apply Hl].
Qed.

Section tables.
Context {W : Type}.
Implicit Types d : DeviceState.dev W.

Lemma owned_live mA m d sts l b : table_at mA (m, d) sts l -> b ∈ owned_blocks (all_props sts) -> is_Some (m !! b).
Proof. intros (ps & _ & _ & Ho & _) Hb. pose proof (owns_heap _ _ _ Ho Hb) as E. cbn [fst] in E. destruct (m !! b); [by eexists | done]. Qed.

(** A table moves to a memory in which its strings are the same. *)
Lemma table_move mA m m' d d' sts l : table_at mA (m, d) sts l -> (forall p, p ∈ all_props sts -> p = p_null \/ m' !! Property.value p = m !! Property.value p) ->
  DeviceState.__state_list d' = DeviceState.__state_list d -> table_at (delete_all (owned_blocks (all_props sts)) m') (m', d') sts l.
Proof.
  intros (ps & Hq & Hr & [Hh Hn] & _) Hs Hl. cbn [fst snd] in *. exists ps. cbn [fst snd]. rewrite Hl. split; [done|].
  assert (Hst : forall p s, p ∈ all_props sts -> stored m p s -> stored m' p s).
  { intros p s Hp Hps. destruct (Hs p Hp) as [-> | E]; [|by apply (stored_same m)]. destruct Hps as [_ [(Hf & _) | (Hf & _)]]; by vm_compute in Hf. }
  split; [|split; [split|done]].
  - eapply StateSpec.reps_same; [exact Hst | done | exact Hr].
  - rewrite Forall_forall in Hh |- *. intros p Hp. destruct (Hh p Hp) as [-> | [s Hps]]; [by left | right]. exists s. by apply Hst.
  - done.
Qed.

Lemma held_live m p : held m p -> p = p_null \/ is_Some (m !! Property.value p).
Proof. intros [-> | [s [_ [(_ & b & E & _) | (_ & _ & E)]]]]; [by left | right; by eexists..]. Qed.

Lemma table_live mA m d sts l p : table_at mA (m, d) sts l -> p ∈ all_props sts -> p = p_null \/ is_Some (m !! Property.value p).
Proof. intros (ps & _ & _ & [Hh _] & _) Hp. rewrite Forall_forall in Hh. apply held_live. by apply Hh. Qed.

Lemma table_base mA m d sts l : table_at mA (m, d) sts l -> mA = delete_all (owned_blocks (all_props sts)) m.
Proof. by intros (ps & _ & _ & _ & <-). Qed.

(** What lives without the strings of the states lives with them. *)
Lemma base_live mA m d sts l a : table_at mA (m, d) sts l -> is_Some (mA !! a) -> m !! a = mA !! a.
Proof. intros ->%table_base. rewrite delete_all_lookup. destruct (decide _); [by intros [? ?] | done]. Qed.

(** A string on the heap belongs to the table. *)
Lemma dyn_owned sts p : p ∈ all_props sts -> flags p = dyn_flags -> Property.value p ∈ owned_blocks (all_props sts).
Proof. intros Hp Hf. apply owned_in. exists p. split; [done|]. unfold prop_blocks. rewrite Hf. left. Qed.

End tables.

(** Strings of events in the memory [m0], around a step from [m] to [m'] that keeps
    what is not a string of the states. *)
Section around.
Context {W : Type} (sc bs : list Z) (m0 m m' mA mA' : memory) (d d' : DeviceState.dev W).
Context (sts sts' : list DeviceState.arrow_state_list_t) (l l' : list astate).
Context (Hg : grown m0 m bs) (m00 : memory) (Ht0 : table_at m00 (m0, d) sts l) (Hsc : forall a, a ∈ sc -> is_Some (m00 !! a)).
Context (Hav : forall p, p ∈ all_props sts -> p = p_null \/ Property.value p ∉ sc).

Lemma around_table : table_at (delete_all (owned_blocks (all_props sts)) m) (m, d) sts l.
Proof.
  eapply table_move; [exact Ht0 | | done]. intros p Hp. destruct (table_live _ _ _ _ _ _ Ht0 Hp) as [-> | Hlive]; [by left | right]. by apply (g_same _ _ _ Hg).
Qed.
Lemma around_base : delete_all bs (delete_all (owned_blocks (all_props sts)) m) = m00.
Proof. rewrite delete_all_comm, (g_back _ _ _ Hg). by rewrite (table_base _ _ _ _ _ Ht0). Qed.

Lemma fresh_owned b : b ∈ bs -> b ∉ owned_blocks (all_props sts).
Proof. intros Hb Ho. destruct (owned_live _ _ _ _ _ _ Ht0 Ho) as [x Hx]. by rewrite (g_fresh _ _ _ Hg b Hb) in Hx. Qed.
Lemma fresh_sc b : b ∈ bs -> b ∉ sc.
Proof. intros Hb Hs. destruct (Hsc b Hs) as [x Hx]. rewrite <- around_base, delete_all_lookup in Hx. by rewrite decide_True in Hx by done. Qed.

(** The step. *)
Context (HmA : mA = delete_all (owned_blocks (all_props sts)) m) (Ht' : table_at mA' (m', d') sts' l').
Context (Hk : kept sc mA mA') (Hf : fresh_props sts sts').

(** Neither a string of an event nor what lives without the strings changes. *)
Lemma around_same a : a ∉ sc -> is_Some (mA !! a) -> m' !! a = m !! a.
Proof.
  intros Ha Hl. destruct (Hk a Hl) as [Hl' E]. rewrite (base_live _ _ _ _ _ _ Ht' Hl'), (E Ha). rewrite HmA, delete_all_lookup in Hl |- *. destruct (decide _); [by destruct Hl | done].
Qed.
Lemma event_live b : b ∈ bs -> is_Some (mA !! b).
Proof. intros Hb. rewrite HmA, delete_all_lookup, decide_False by by apply fresh_owned. by apply (g_live _ _ _ Hg). Qed.
Lemma event_same b : b ∈ bs -> m' !! b = m !! b.
Proof. intros Hb. apply around_same; [by apply fresh_sc | by apply event_live]. Qed.

Lemma base_same a : a ∉ sc -> is_Some (m00 !! a) -> delete_all bs m' !! a = m0 !! a.
Proof.
  intros Ha Hl. assert (Hb : a ∉ bs) by (intros Hb; rewrite <- around_base, delete_all_lookup, decide_True in Hl by done; by destruct Hl). rewrite delete_all_lookup, decide_False by done.
  assert (HlA : is_Some (mA !! a)) by (rewrite <- around_base, delete_all_lookup, decide_False, <- HmA in Hl by done; done).
  rewrite around_same by done. apply (g_same _ _ _ Hg). rewrite (base_live _ _ _ _ _ _ Ht0 Hl). done.
Qed.

Lemma around_avoid p : p ∈ all_props sts' -> p = p_null \/ ((Property.value p ∉ sc) /\ (Property.value p ∉ bs)).
Proof.
  intros Hp. destruct (Hf p Hp) as [Hold | Hdyn].
  - destruct (Hav p Hold) as [-> | Hn]; [by left|]. destruct (table_live _ _ _ _ _ _ Ht0 Hold) as [-> | Hlive]; [by left | right]. split; [done|].
    intros Hb. rewrite (g_fresh _ _ _ Hg _ Hb) in Hlive. by destruct Hlive.
  - right. pose proof (dyn_owned _ _ Hp Hdyn) as Ho. assert (Hgone : mA' !! Property.value p = None) by (rewrite (table_base _ _ _ _ _ Ht'), delete_all_lookup; by rewrite decide_True).
    assert (Hnot : ~ is_Some (mA !! Property.value p)) by (intros Hl; destruct (Hk _ Hl) as [Hl' _]; rewrite Hgone in Hl'; by destruct Hl'). split.
    + intros Hs. apply Hnot. destruct (Hsc _ Hs) as [x Hx]. rewrite <- around_base, <- HmA, delete_all_lookup in Hx. destruct (decide _); [done | by eexists].
    + intros Hb. apply Hnot. by apply event_live.
Qed.

Lemma around_after : table_at (delete_all bs mA') (delete_all bs m', d') sts' l'.
Proof.
  rewrite (table_base _ _ _ _ _ Ht'), delete_all_comm. eapply table_move; [exact Ht' | | done]. intros p Hp. destruct (around_avoid p Hp) as [-> | [_ Hb]]; [by left | right]. by rewrite delete_all_lookup, decide_False.
Qed.
Lemma around_kept : kept sc m00 (delete_all bs mA').
Proof. rewrite <- around_base, <- HmA. by apply kept_delete. Qed.
Lemma around_like : like sc mA mA' -> like sc m00 (delete_all bs mA').
Proof. intros Hl. rewrite <- around_base, <- HmA. by apply like_delete_all. Qed.

End around.

(** ** The program *)

Section program.
Context {U Wd : Type}.
Abbreviation W := (DeviceCommand.program U (DeviceState.dev Wd)).
Abbreviation St := (state W).
Abbreviation dev_of s := (DeviceCommand.outside (rest s)).
Context (malloc : memory -> Z -> option (Z * list Z)) `{Hmalloc : !Malloc malloc}.
Context (Henough : forall m n, 0 <= n -> malloc m n <> None).
Context (text_malloc : Z -> option (list Z)) (Mx : Z) (Htext : Sb.SbMalloc text_malloc Mx) (HM : 65537 <= Mx).
Context (api_key secret_key default_api_key default_secret_key : Z) (ARROW_THREAD : bool).
Context (union_string : JsonNode -> option (list Z)) (other_property : DeviceState.value_t -> property_t) (timestamp_now : Wd -> Timer.timestamp -> Timer.timestamp).
Context (ARROW_MAX_RETRY : Z) (Hretry : ARROW_MAX_RETRY < INT_MAX).

(** The arrays that sending writes to; the commands that are registered, the names of
    the states and the identifier of the device; and what is seen of commands and of states. *)
Context (sc : list Z) (es : list (list Z * Z)) (names : list (list Z)) (h : list Z) (command_log : Wd -> list entry) (state_log : Wd -> list sent).
Abbreviation log := (fun d : DeviceState.dev Wd => command_log (DeviceState.env d)).

(** The keys and the variables of the states stay. *)
Definition same_dev (d d' : DeviceState.dev Wd) : Prop := DeviceState.__state_list d' = DeviceState.__state_list d /\ DeviceState._device_hid d' = DeviceState._device_hid d.
Definition quiet (s s' : St) : Prop := Crypt.api (ks s') = Crypt.api (ks s) /\ Crypt.secret (ks s') = Crypt.secret (ks s) /\ same_dev (dev_of s) (dev_of s').

Lemma quiet_refl s : quiet s s.
Proof. done. Qed.
Lemma quiet_trans s1 s2 s3 : quiet s1 s2 -> quiet s2 s3 -> quiet s1 s3.
Proof. unfold quiet, same_dev. intros (?&?&?&?) (?&?&?&?). split_and!; congruence. Qed.

(** What sending promises: of a command's answers what CommandSpec.v asks for, of a
    state's answers the same; and both leave the keys and the states alone. *)
Class Posts (send : property_t -> DeviceCommand.cmd_type -> property_t -> M St Z) : Prop := {
  posts :: CommandSpec.Sends sc log send;
  posts_quiet hid ev payload s r s' : send hid ev payload s = Some (r, s') -> quiet s s';
}.
Class Replies (answer : property_t -> DeviceState._st_put_api -> list Z -> M St Z) : Prop :=
  replies hid put trans s : says sc (mem s) hid (Some h) -> is_cstr trans ->
    exists r s', answer hid put trans s = Some (r, s') /\ others_same s s' /\ like sc (mem s) (mem s') /\ quiet s s' /\ StateSpec.seen state_log s' = StateSpec.seen state_log s ++ [(put, trans, r)].

Context (send : property_t -> DeviceCommand.cmd_type -> property_t -> M St Z) `{Hsend : !Posts send}.
Context (answer : property_t -> DeviceState._st_put_api -> list Z -> M St Z) `{Hanswer : !Replies answer}.
Context (call : Z -> option (list Z) -> DeviceState.dev Wd -> Z * DeviceState.dev Wd).
Context (Hcall : forall cb p d, log (snd (call cb p d)) = log d ++ [CommandSpec.Called cb p (fst (call cb p d))] /\ same_dev d (snd (call cb p d))).
Context (msleep : DeviceState.dev Wd -> DeviceState.dev Wd).
Context (Hsleep : forall d, log (msleep d) = log d /\ state_log (DeviceState.env (msleep d)) = state_log (DeviceState.env d) /\ same_dev d (msleep d)).
Context (fuel : nat) (Hfuel : (Z.to_nat (Retry.patience ARROW_MAX_RETRY) < fuel)%nat).

(** The handlers of the repository. *)
Abbreviation ev_DeviceCommand := (DeviceCommand.ev_DeviceCommand (U := U) malloc json_types send ARROW_MAX_RETRY call msleep text_malloc fuel).
Abbreviation ev_DeviceStateRequest := (DeviceState.ev_DeviceStateRequest malloc text_malloc json_types other_property union_string timestamp_now ARROW_MAX_RETRY msleep answer fuel).

(** *** What they share *)

(** The program between two events: without the strings of the states, which are
    [l], the memory is [m00], where the names of the commands, the identifier of
    the device, the keys and the arrays are. *)
Record idle (m00 : memory) (o : @outer W) (l : list astate) : Prop := {
  id_states : exists sts, table_at m00 (o.1.1, DeviceCommand.outside o.2) sts l /\ forall p, p ∈ all_props sts -> p = p_null \/ Property.value p ∉ sc;
  id_names : map a_name l = names;
  id_arrays : forall a, a ∈ sc -> is_Some (m00 !! a);
  id_commands : exists ps hs, holds (DeviceCommand.handlers o.2) ps hs /\ Forall2 (CommandSpec.named sc m00) hs es;
  id_device : says sc m00 (DeviceState._device_hid (DeviceCommand.outside o.2)) (Some h);
  id_keys : Forall (fun a => (a ∉ sc) /\ is_Some (m00 !! a)) [Crypt.key_at o.1.2.1 default_api_key; Crypt.key_at o.1.2.2 default_secret_key];
}.
Definition Inv (o : @outer W) : Prop := exists m00 l, idle m00 o l.

Lemma named_kept m m' hs : kept sc m m' -> Forall2 (CommandSpec.named sc m) hs es -> Forall2 (CommandSpec.named sc m') hs es.
Proof.
  intros Hk Hes. eapply Forall2_impl; [exact Hes|]. intros hd e (A & B & a & n & b & x & C & D & E & F). split; [done|]. split; [done|].
  exists a, n, b, x. split_and!; try done. rewrite (proj2 (Hk a ltac:(by eexists))); done.
Qed.
Lemma says_kept m m' p : kept sc m m' -> says sc m p (Some h) -> says sc m' p (Some h).
Proof. intros Hk (A & B & C & b & x & D). split_and!; try done. exists b, x. rewrite (proj2 (Hk _ ltac:(by eexists))); done. Qed.

(** A step of a handler, from a state in which the first event waits. *)
Lemma step_keeps m0 K Sk s s' p ps b bs e evs aps abs apis m00 l sts sts' l' mA mA' :
  ready default_api_key default_secret_key ARROW_THREAD m0 K Sk s (p :: ps) (b :: bs) (e :: evs) aps abs apis -> idle m00 (outer_of m0 s) l ->
  table_at m00 (m0, dev_of s) sts l -> (forall p, p ∈ all_props sts -> p = p_null \/ Property.value p ∉ sc) ->
  mA = delete_all (owned_blocks (all_props sts)) (mem s) -> table_at mA' (mem s', dev_of s') sts' l' -> kept sc mA mA' -> fresh_props sts sts' -> map a_name l' = names ->
  others_same s s' -> Crypt.api (ks s') = Crypt.api (ks s) -> Crypt.secret (ks s') = Crypt.secret (ks s) -> DeviceState._device_hid (dev_of s') = DeviceState._device_hid (dev_of s) ->
  let bl := concat (map base_blocks ((b :: bs) ++ abs)) in
  ready default_api_key default_secret_key ARROW_THREAD (delete_all bl (mem s')) K Sk s' (p :: ps) (b :: bs) (e :: evs) aps abs apis /\
  idle (delete_all bl mA') (outer_of (delete_all bl (mem s')) s') l' /\ kept sc m00 (delete_all bl mA') /\ (like sc mA mA' -> like sc m00 (delete_all bl mA')).
Proof.
  intros Hr [_ _ Hsc Hcmd Hdev Hkeys] Ht0 Hav HmA Ht' Hk Hf Hn (Oq & Oa & _ & _ & _ & Ol & Oh) Ka Ks Hhid bl. pose proof Hr as [Rq Ra Re Rp Rg Rk Rl].
  pose proof (around_kept sc bl m0 (mem s) mA mA' (dev_of s) sts l Rg m00 Ht0 HmA Hk) as Hk00.
  assert (Hev : forall x, x ∈ bl -> mem s' !! x = mem s !! x) by (intros x Hx; eapply (event_same sc bl m0 (mem s) (mem s') mA mA'); eauto).
  assert (Hbase : forall x, x ∉ sc -> is_Some (m00 !! x) -> delete_all bl (mem s') !! x = m0 !! x) by (intros x Hx Hxl; eapply (base_same sc bl m0 (mem s) (mem s') mA mA'); eauto).
  split; [|split; [|split; [exact Hk00|]]].
  - assert (Hin : forall c x, c ∈ (b :: bs) ++ abs -> base_ok (mem s) c x -> base_ok (mem s') c x).
    { intros c x Hc (Hcr & Hce). split; [|done]. apply (base_rep_same (mem s)); [done|]. intros a Ha. apply Hev. apply list_elem_of_In, in_concat. exists (base_blocks c). split; [by apply in_map, list_elem_of_In | by apply list_elem_of_In]. }
    split.
    + by rewrite Oq.
    + by rewrite Oa.
    + eapply Forall2_impl_in; [exact Re|]. intros c x Hc. apply Hin, elem_of_app. by left.
    + eapply Forall2_impl_in; [exact Rp|]. intros c x Hc. apply Hin, elem_of_app. by right.
    + split; [| | | apply Rg | done].
      * intros x Hx. rewrite delete_all_lookup in Hx |- *. destruct (decide _); [by destruct Hx | done].
      * intros x Hx. by rewrite delete_all_lookup, decide_True.
      * intros x Hx. rewrite Hev by done. by apply (g_live _ _ _ Rg).
    + rewrite Ka, Ks. apply Forall_cons in Hkeys as [[A1 A2] Hkeys]. apply Forall_cons in Hkeys as [[B1 B2] _]. cbn [outer_of fst snd] in A1, A2, B1, B2.
      destruct Rk as [(C1 & C2 & r & C3) (D1 & D2 & r' & D3)]. split; (split; [done|]; split; [done|]); eexists; rewrite Hbase by done; done.
    + by rewrite Ol.
  - split.
    + exists sts'. cbn [outer_of fst snd]. split; [eapply (around_after sc bl m0 (mem s) (mem s') mA mA'); eauto|].
      intros q Hq. destruct (around_avoid sc bl m0 (mem s) (mem s') mA mA' (dev_of s) (dev_of s') sts sts' l l' Rg m00 Ht0 Hsc Hav HmA Ht' Hk Hf q Hq) as [-> | [Hq' _]]; [by left | by right].
    + exact Hn.
    + intros x Hx. apply Hk00. by apply Hsc.
    + destruct Hcmd as (cps & hs & A & B). exists cps, hs. cbn [outer_of fst snd] in A |- *. rewrite Oh. split; [exact A | by eapply named_kept].
    + cbn [outer_of fst snd] in Hdev |- *. rewrite Hhid. by eapply says_kept.
    + cbn [outer_of fst snd] in Hkeys |- *. rewrite Ka, Ks. eapply Forall_impl; [exact Hkeys|]. intros x [A B]. cbv beta. split; [done | by apply Hk00].
  - intros Hl. by eapply (around_like sc bl m0 (mem s) mA mA').
Qed.

(** *** The keys and the states while a command is handled *)

Definition calm {A} (f : M St A) : Prop := forall s a s', f s = Some (a, s') -> quiet s s'.

Lemma calm_bind {A B} (f : M St A) (g : A -> M St B) : calm f -> (forall a, calm (g a)) -> calm (a ← f; g a).
Proof.
  intros Hf Hg s b s' E. unfold mbind, M_bind in E. destruct (f s) as [[a s1]|] eqn:Ef; [|done]. cbn [mbind option_bind fst snd] in E. eapply quiet_trans; [by eapply Hf | by eapply Hg].
Qed.
Lemma calm_ret {A} (a : A) : calm (mret a).
Proof. by intros s b s' [= <- <-]. Qed.
Lemma calm_lift {A} (o : option A) : calm (lift o).
Proof. intros s b s' E. unfold lift in E. destruct o; [by injection E as <- <- | done]. Qed.
Lemma calm_get : calm (get (W := W)).
Proof. by intros s b s' [= <- <-]. Qed.
Lemma calm_on_mem {A} (f : memory -> option (A * memory)) : calm (on_mem (W := W) f).
Proof.
  intros s a s' E. unfold on_mem, on_keys, mbind, M_bind, lift in E. cbn [get mbind option_bind fst snd] in E. destruct (f (mem s)) as [[x m]|]; [|done]. by injection E as <- <-.
Qed.
Lemma calm_close_set b : calm (DeviceCommand.http_session_close_set (U := U) (Wd := DeviceState.dev Wd) b).
Proof. by intros s a s' [= <- <-]. Qed.
Lemma calm_set_protocol b : calm (DeviceCommand.http_session_set_protocol (U := U) (Wd := DeviceState.dev Wd) b).
Proof. by intros s a s' [= <- <-]. Qed.
Lemma calm_sleep : calm (DeviceCommand.sleep (U := U) msleep).
Proof. intros s a s' [= <- <-]. split; [done|]. split; [done|]. apply Hsleep. Qed.
Lemma calm_free p : calm (free_property (W := W) json_types p).
Proof. apply calm_on_mem. Qed.

Lemma calm_answers hid ev payload n : forall k, calm (DeviceCommand.answer_loop send ARROW_MAX_RETRY msleep n hid ev payload k).
Proof.
  unfold DeviceCommand.answer_loop. induction n as [|n IH]; intros k; cbn [Retry.retry_loop]; [apply calm_lift|].
  apply calm_bind; [intros s a s' E; by eapply posts_quiet|]. intros r. destruct (0 <=? r); [apply calm_ret|]. apply calm_bind; [apply calm_lift|]. intros u. destruct (u.2 : bool); [apply calm_ret|]. apply calm_bind; [apply calm_sleep | intros _; apply IH].
Qed.

Lemma calm_run params : calm (DeviceCommand.run_command call params).
Proof.
  unfold DeviceCommand.run_command. destruct (find_param params (lit "deviceHid")) as [[| |hid| | |]|]; try apply calm_ret.
  destruct (DeviceCommand.either params (lit "command") (lit "Command")) as [[| |cmd| | |]|]; try apply calm_ret. destruct (DeviceCommand.either params (lit "payload") (lit "Payload")) as [[| |pay| | |]|]; try apply calm_ret.
  intros st r s' E. unfold mbind, M_bind, lift in E. destruct cmd as [cmd|]; [|done]. cbn [get mbind option_bind fst snd] in E.
  destruct (DeviceCommand.find_handler _ _ _) as [[[el hd]|]|]; [|by injection E as <- <- | done]. cbn [mbind option_bind fst snd] in E.
  pose proof (proj2 (Hcall (DeviceCommand.h_callback hd) pay (DeviceCommand.outside (rest st)))) as Hd. destruct (call _ _ _) as [ret w]. cbn in E. by injection E as <- <-.
Qed.

Lemma calm_command ev params : calm (ev_DeviceCommand ev params).
Proof.
  unfold DeviceCommand.ev_DeviceCommand. apply calm_bind; [apply calm_close_set|]. intros _. apply calm_bind; [apply calm_get|]. intros s. apply calm_bind; [apply calm_lift|]. intros e.
  apply calm_bind; [apply calm_answers|]. intros r. destruct r; [|apply calm_ret]. apply calm_bind; [apply calm_run|]. intros err. apply calm_bind; [apply calm_close_set|]. intros _. destruct err.
  - apply calm_bind; [apply calm_on_mem|]. intros p. apply calm_bind; [apply calm_answers|]. intros r. destruct r; [|apply calm_ret]. apply calm_bind; [apply calm_free|]. intros _. apply calm_bind; [apply calm_set_protocol | intros _; apply calm_ret].
  - apply calm_bind; [apply calm_answers|]. intros r. destruct r; [|apply calm_ret]. apply calm_bind; [apply calm_set_protocol | intros _; apply calm_ret].
Qed.

(** *** Commands *)

(** What is read of a state in which the first event waits. *)
Lemma waiting m0 K Sk s p ps b bs e evs aps abs apis m00 l sts : ready default_api_key default_secret_key ARROW_THREAD m0 K Sk s (p :: ps) (b :: bs) (e :: evs) aps abs apis -> idle m00 (outer_of m0 s) l ->
  table_at m00 (m0, dev_of s) sts l -> kept sc m00 (mem s) /\ (forall a, a ∈ sc -> is_Some (mem s !! a)) /\ get_node (event_queue s) p = Some (mk_event p_null b) /\ says sc (mem s) (id b) (Some (ev_id e)) /\
  table_at (delete_all (owned_blocks (all_props sts)) (mem s)) (mem s, dev_of s) sts l.
Proof.
  intros [Rq _ Re _ Rg _ _] [_ _ Hsc _ _ _] Ht0.
  assert (Hk : kept sc m00 (mem s)) by (intros a Ha; pose proof (base_live _ _ _ _ _ _ Ht0 Ha) as E; assert (Ha0 : is_Some (m0 !! a)) by (by rewrite E); rewrite (g_same _ _ _ Rg _ Ha0), E; by split).
  split; [exact Hk|]. split; [intros a Ha; apply Hk; by apply Hsc|]. split; [by apply (holds_same_nodes _ _ _ _ _ Rq)|]. split; [|by eapply around_table].
  apply Forall2_cons in Re as [(((a & n & x & Hid & Ha & Hs & Hm) & _) & _) _]. rewrite Hid. split; [done|]. split; [done|]. split; [|by exists true, x].
  eapply (fresh_sc sc); [exact Rg | exact Ht0 | exact Hsc|]. cbn [app map concat]. apply elem_of_app; left. unfold base_blocks. apply elem_of_app; left. rewrite Hid. unfold own. cbn [value json_prop]. rewrite (proj2 (Z.eqb_neq a NULL) Ha). left.
Qed.

(** A command: the answers and the call that CommandSpec.v describes; the states stay,
    and the memory too unless the code gave up. *)
Definition command_spec : @handler_spec W := mk_spec
  (fun e => CommandSpec.command_given (Some (ev_parameters e)))
  (fun e o r o' => exists m00 l m00' out, idle m00 o l /\ idle m00' o' l /\ kept sc m00 m00' /\ (r = 0 -> like sc m00 m00') /\
     log (DeviceCommand.outside o'.2) = log (DeviceCommand.outside o.2) ++ out /\ CommandSpec.trace ARROW_MAX_RETRY (ev_id e) (CommandSpec.verdict es (Some (ev_parameters e))) r out).

Lemma command_handler state_spec update_spec release_spec : Handler default_api_key default_secret_key ARROW_THREAD Inv command_spec state_spec update_spec release_spec command_spec ev_DeviceCommand.
Proof.
  intros m0 K Sk s p ps b bs e evs aps abs apis Hr (m00 & l & Hid) Hneed. pose proof Hid as [(sts & Ht0 & Hav) Hn _ Hcmd _ _]. cbn [outer_of fst snd] in Ht0, Hcmd.
  destruct (waiting _ _ _ _ _ _ _ _ _ _ _ _ _ _ _ sts Hr Hid Ht0) as (Hk0 & Hsc & Hnode & Hsays & Ht).
  destruct (CommandSpec.device_command_ok sc log malloc Henough send ARROW_MAX_RETRY Hretry call (fun cb p d => proj1 (Hcall cb p d)) msleep (fun d => proj1 (Hsleep d)) text_malloc Mx Htext ltac:(lia)
    fuel s p (mk_event p_null b) (ev_id e) es (Some (ev_parameters e))) as (r & s' & out & E & Hseen & Htr & (Ho & Hk & Hl) & _); [exact Hsc | | exact Hnode | exact Hsays | exact Hneed | exact Hfuel |].
  { destruct Hcmd as (cps & hs & Hq & Hhs). exists cps, hs. split; [exact Hq | by eapply named_kept]. }
  destruct (calm_command _ _ _ _ _ E) as (Qa & Qs & Ql & Qh).
  assert (Ht' : table_at (delete_all (owned_blocks (all_props sts)) (mem s')) (mem s', dev_of s') sts l).
  { eapply table_move; [exact Ht | | exact Ql]. intros q Hq. destruct (Hav q Hq) as [-> | Hqs]; [by left|]. destruct (table_live _ _ _ _ _ _ Ht Hq) as [-> | Hlive]; [by left | right]. by apply Hk. }
  destruct (step_keeps m0 K Sk s s' p ps b bs e evs aps abs apis m00 l sts sts l _ _ Hr Hid Ht0 Hav eq_refl Ht' (kept_delete _ _ _ _ Hk) (fun q Hq => or_introl Hq) Hn Ho Qa Qs Qh) as (Hr' & Hid' & Hk' & Hl').
  exists r, s', (delete_all (concat (map base_blocks ((b :: bs) ++ abs))) (mem s')), ps, bs, [], aps, abs, apis. rewrite app_nil_r.
  split; [exact E|]. split; [|split; [by eexists _, _ | split; [constructor | exact Hr']]].
  eexists m00, l, _, out. split; [exact Hid|]. split; [exact Hid'|]. split; [exact Hk'|]. split; [|split; [exact Hseen | exact Htr]]. intros Hr0. apply Hl', like_delete_all. by apply Hl.
Qed.

(** *** Requests to change the states *)

(** What the parameters ask for: the identifier of the request, and the members of
    its text; nothing when one of the three is missing. *)
Definition request_of (params : JsonNode) : option (list Z * list (list Z * JsonNode)) :=
  _ ← json_find_member params (lit "deviceHid"); t ← json_find_member params (lit "transHid"); p ← json_find_member params (lit "payload");
  trans ← DeviceState.string_ union_string t; text ← DeviceState.string_ union_string p; o ← json_decode text_malloc (text ++ [0]);
  match o with Some (JObject ms) => Some (trans, ms) | _ => match DeviceState.children o with [] => Some (trans, []) | _ => None end end.

(** A member is missing, or they are texts where texts are read. *)
Definition request_given (params : JsonNode) : Prop :=
  (json_find_member params (lit "deviceHid") = None \/ json_find_member params (lit "transHid") = None \/ json_find_member params (lit "payload") = None) \/
  exists trans ms, request_of params = Some (trans, ms) /\ is_cstr trans /\ Forall (StateSpec.member_ok union_string names) ms.

(** A request: the answers that StateSpec.v describes, and the states merged once in between. *)
Definition state_spec : @handler_spec W := mk_spec
  (fun e => request_given (ev_parameters e))
  (fun e o r o' => match request_of (ev_parameters e) with
   | None => r = -1 /\ o' = o
   | Some (trans, ms) => exists m00 l m00' merged out, idle m00 o l /\ idle m00' o' (if (merged : bool) then StateSpec.merge union_string l ms else l) /\ like sc m00 m00' /\
       state_log (DeviceState.env (DeviceCommand.outside o'.2)) = state_log (DeviceState.env (DeviceCommand.outside o.2)) ++ out /\ StateSpec.request_trace ARROW_MAX_RETRY trans merged r out
   end).

(** From the state [s0] on: the states in their nodes, and the rest as it was. *)
Definition since (s0 : St) (mA : memory) (sts : list DeviceState.arrow_state_list_t) (l : list astate) (s : St) : Prop :=
  exists mA' sts', table_at mA' (mem s, dev_of s) sts' l /\ like sc mA mA' /\ fresh_props sts sts' /\ (forall p, p ∈ all_props sts' -> p = p_null \/ Property.value p ∉ sc) /\ map a_name l = names /\
    others_same s0 s /\ Crypt.api (ks s) = Crypt.api (ks s0) /\ Crypt.secret (ks s) = Crypt.secret (ks s0) /\ DeviceState._device_hid (dev_of s) = DeviceState._device_hid (dev_of s0).

Lemma since_same s0 mA sts l s s' : since s0 mA sts l s -> others_same s s' -> like sc (mem s) (mem s') -> quiet s s' -> since s0 mA sts l s'.
Proof.
  intros (mA' & sts' & Ht & Hl & Hf & Hav & Hn & Ho & Ka & Ks & Hh) Ho' Hl' (Qa & Qs & Ql & Qh). exists (delete_all (owned_blocks (all_props sts')) (mem s')), sts'.
  split; [|split; [|split; [exact Hf|]; split; [exact Hav|]; split; [exact Hn|]; split; [by eapply CommandSpec.others_trans|]; split_and!; congruence]].
  - eapply table_move; [exact Ht | | exact Ql]. intros p Hp. destruct (Hav p Hp) as [-> | Hps]; [by left | right]. by apply Hl'.
  - eapply CommandSpec.like_trans; [exact Hl|]. rewrite (table_base _ _ _ _ _ Ht). by apply like_delete_all.
Qed.

Lemma since_stable s0 mA sts : (forall a, a ∈ sc -> is_Some (mA !! a)) -> says sc mA (DeviceState._device_hid (dev_of s0)) (Some h) ->
  StateSpec.stable malloc other_property union_string timestamp_now state_log answer msleep (since s0 mA sts) (DeviceState._device_hid (dev_of s0)).
Proof.
  intros Hsc Hh. assert (Hlive : forall l s, since s0 mA sts l s -> says sc (mem s) (DeviceState._device_hid (dev_of s0)) (Some h)).
  { intros l s (mA' & sts' & Ht & Hl & _). apply (says_kept mA); [|done]. apply (CommandSpec.kept_trans _ _ mA'); [by apply CommandSpec.like_kept|]. intros a Ha. rewrite (base_live _ _ _ _ _ _ Ht Ha). by split. }
  split.
  - intros l s (mA' & sts' & _ & _ & _ & _ & _ & _ & _ & _ & Hhid). split; [exact Hhid | apply Hh].
  - intros l s put trans Hs Htr. destruct (replies (DeviceState._device_hid (dev_of s0)) put trans s (Hlive l s Hs) Htr) as (r & s' & E & Ho & Hl & Hq & Hseen). exists r, s'. split; [exact E|]. split; [by eapply since_same | exact Hseen].
  - intros l s Hs. eapply since_same; [exact Hs | by unfold others_same | apply CommandSpec.like_refl |]. split; [done|]. split; [done|]. apply Hsleep.
  - intros l s o ms (mA' & sts' & Ht & Hl & Hf & Hav & Hn & Ho & Ka & Ks & Hh') Hms Hok.
    destruct (StateSpec.handler_run malloc Henough other_property union_string timestamp_now mA' s sts' l o ms Ht Hms Hok) as (m & q & sts2 & E & Ht2 & Hf2). eexists. split; [exact E|]. split; [|done].
    exists mA', sts2. split; [exact Ht2|]. split; [exact Hl|]. split; [|split; [|split; [by rewrite StateSpec.merge_names|]; split; [exact Ho | by split_and!]]].
    + intros p Hp. destruct (Hf2 p Hp); [by apply Hf | by right].
    + intros p Hp. destruct (Hf2 p Hp) as [Hp' | Hdyn]; [by apply Hav | right]. intros Hs. assert (Hx : is_Some (mA' !! Property.value p)) by (apply elem_of_dom; rewrite (proj1 Hl); apply elem_of_dom; by apply Hsc).
      rewrite (table_base _ _ _ _ _ Ht2), delete_all_lookup, decide_True in Hx by by apply dyn_owned. by destruct Hx.
Qed.

Lemma request_missing params : json_find_member params (lit "deviceHid") = None \/ json_find_member params (lit "transHid") = None \/ json_find_member params (lit "payload") = None -> request_of params = None.
Proof. unfold request_of. intros [-> | [-> | ->]]; [done | by destruct (json_find_member params (lit "deviceHid")) | by destruct (json_find_member params (lit "deviceHid")), (json_find_member params (lit "transHid"))]. Qed.

(** The answer -1 when a member is missing. *)
Lemma request_ignored ev params s : Property.value (DeviceState._device_hid (dev_of s)) <> NULL ->
  json_find_member params (lit "deviceHid") = None \/ json_find_member params (lit "transHid") = None \/ json_find_member params (lit "payload") = None -> ev_DeviceStateRequest ev (Some params) s = Some (-1, s).
Proof.
  intros Hh Hm. unfold DeviceState.ev_DeviceStateRequest. erewrite bind_run by done. cbv zeta. unfold IS_EMPTY. rewrite (proj2 (Z.eqb_neq _ NULL) Hh). change (find_param (Some params)) with (json_find_member params).
  destruct Hm as [-> | [-> | ->]]; [done | by destruct (json_find_member params (lit "deviceHid")) | by destruct (json_find_member params (lit "deviceHid")), (json_find_member params (lit "transHid"))].
Qed.

(** The parts of what is asked for. *)
Lemma request_parts params trans ms : request_of params = Some (trans, ms) -> exists th p text o, json_find_member params (lit "deviceHid") <> None /\ json_find_member params (lit "transHid") = Some th /\ DeviceState.string_ union_string th = Some trans /\
  json_find_member params (lit "payload") = Some p /\ DeviceState.string_ union_string p = Some text /\ json_decode text_malloc (text ++ [0]) = Some o /\ StateSpec.members_of o ms.
Proof.
  unfold request_of. destruct (json_find_member params (lit "deviceHid")) as [d|]; [|done]. cbn [mbind option_bind]. destruct (json_find_member params (lit "transHid")) as [th|]; [|done]. cbn [mbind option_bind].
  destruct (json_find_member params (lit "payload")) as [p|]; [|done]. cbn [mbind option_bind]. destruct (DeviceState.string_ union_string th) as [tr|] eqn:Et; [|done]. cbn [mbind option_bind].
  destruct (DeviceState.string_ union_string p) as [text|] eqn:Ep; [|done]. cbn [mbind option_bind]. destruct (json_decode text_malloc (text ++ [0])) as [o|] eqn:Eo; [|done]. cbn [mbind option_bind]. intros E.
  exists th, p, text, o. assert (Hm : tr = trans /\ StateSpec.members_of o ms).
  { unfold StateSpec.members_of. destruct o as [[| | | | |ms']|]; cbn [DeviceState.children] in E |- *; try (injection E as <- <-; split; [done | by right]); [|by injection E as <- <-; split; [done | left]].
    destruct els; cbn [map] in E |- *; [|done]. injection E as <- <-. split; [done | by right]. }
  destruct Hm as [<- Hm]. by split_and!.
Qed.

Lemma state_handler command_spec update_spec release_spec : Handler default_api_key default_secret_key ARROW_THREAD Inv command_spec state_spec update_spec release_spec state_spec ev_DeviceStateRequest.
Proof.
  intros m0 K Sk s p ps b bs e evs aps abs apis Hr (m00 & l & Hid) Hneed. pose proof Hid as [(sts & Ht0 & Hav) Hn Hsc _ Hdev _]. cbn [outer_of fst snd] in Ht0, Hdev.
  cbn [effect state_spec]. destruct Hneed as [Hmiss | (trans & ms & Hreq & Htr & Hms)].
  { exists (-1), s, m0, ps, bs, [], aps, abs, apis. rewrite app_nil_r, (request_missing _ Hmiss). split; [apply request_ignored; [apply Hdev | exact Hmiss]|]. split; [done|]. split; [by exists m00, l | by split]. }
  rewrite Hreq. destruct (waiting _ _ _ _ _ _ _ _ _ _ _ _ _ _ _ sts Hr Hid Ht0) as (_ & _ & _ & _ & Ht). set (mA := delete_all _ (mem s)) in Ht.
  assert (HkA : kept sc m00 mA).
  { intros a Ha. assert (Hb : mA !! a = m00 !! a); [|rewrite Hb; by split]. pose proof (around_base _ m0 (mem s) (dev_of s) sts l (rd_grown _ _ _ _ _ _ _ _ _ _ _ _ _ Hr) m00 Ht0) as E. rewrite <- E, delete_all_lookup in Ha |- *. destruct (decide _); [by destruct Ha | done]. }
  assert (HscA : forall a, a ∈ sc -> is_Some (mA !! a)) by (intros a Ha; apply HkA; by apply Hsc).
  destruct (request_parts _ _ _ Hreq) as (th & py & text & o & Hd & Hth & Etr & Hpy & Etext & Hdec & Ho).
  destruct (StateSpec.state_request_ok malloc text_malloc other_property union_string timestamp_now state_log answer ARROW_MAX_RETRY Hretry msleep ltac:(intros v; destruct (Hsleep v) as (_ & A & B & C); by split_and!)
    (since s mA sts) (DeviceState._device_hid (dev_of s)) fuel s l p (ev_parameters e) th trans py text o ms (since_stable s mA sts HscA (says_kept _ _ _ HkA Hdev))) as (r & s' & merged & out & E & Hseen & Htrace & Hsince); [|done..| |done|].
  - exists mA, sts. split; [exact Ht|]. split; [apply CommandSpec.like_refl|]. split; [by left|]. split; [exact Hav|]. split; [exact Hn|]. by split.
  - by rewrite Hn.
  - destruct Hsince as (mA' & sts' & Ht' & Hl & Hf & Hav' & Hn' & Hos & Ka & Ks & Hh).
    destruct (step_keeps m0 K Sk s s' p ps b bs e evs aps abs apis m00 l sts sts' _ mA mA' Hr Hid Ht0 Hav eq_refl Ht' (CommandSpec.like_kept _ _ _ Hl) Hf Hn' Hos Ka Ks Hh) as (Hr' & Hid' & _ & Hl').
    exists r, s', (delete_all (concat (map base_blocks ((b :: bs) ++ abs))) (mem s')), ps, bs, [], aps, abs, apis. rewrite app_nil_r. split; [exact E|]. split; [|split; [by eexists _, _ | split; [constructor | exact Hr']]].
    eexists m00, l, _, merged, out. split; [exact Hid|]. split; [exact Hid'|]. split; [by apply Hl'|]. split; [exact Hseen | exact Htrace].
Qed.

(** *** The queue with these handlers *)

Context (new_node : gmap Z Z -> option Z) (Hnew : forall next el, new_node next = Some el -> next !! el = None /\ el <> NULL) (Hnodes : forall next, new_node next <> None).
Context `{Crypt.Digests} `{HttpClient.Buffers}.
Context (restore_key_setting : memory -> Z -> Z -> Z * memory) (union_number : JsonNode -> Double.double) (union_bool : JsonNode -> Z) (ARROW_MAX_MQTT_COMMANDS : option Z).

(** The handlers of updates and releases, and their contracts. *)
Context (update_spec release_spec : @handler_spec W) (ev_GatewaySoftwareUpdate ev_DeviceSoftwareRelease : Z -> option JsonNode -> M St Z).
Context (Hupdate : Handler default_api_key default_secret_key ARROW_THREAD Inv command_spec state_spec update_spec release_spec update_spec ev_GatewaySoftwareUpdate).
Context (Hrelease : Handler default_api_key default_secret_key ARROW_THREAD Inv command_spec state_spec update_spec release_spec release_spec ev_DeviceSoftwareRelease).

Abbreviation ops_ok := (op_ok union_number union_bool union_string command_spec state_spec update_spec release_spec).
Abbreviation events_ok := (Forall (event_ok command_spec state_spec update_spec release_spec)).
Abbreviation waits := (queued default_api_key default_secret_key ARROW_THREAD).
Abbreviation run := (run_ops malloc text_malloc new_node api_key secret_key default_api_key default_secret_key restore_key_setting union_number union_bool union_string ARROW_THREAD ARROW_MAX_MQTT_COMMANDS
  ev_DeviceCommand ev_DeviceStateRequest ev_GatewaySoftwareUpdate ev_DeviceSoftwareRelease (DeviceCommand.arrow_command_handler_free json_types)).
Abbreviation fifo := (fifo_run union_number union_bool union_string ARROW_MAX_MQTT_COMMANDS command_spec state_spec update_spec release_spec
  ev_DeviceCommand ev_DeviceStateRequest ev_GatewaySoftwareUpdate ev_DeviceSoftwareRelease).


End program.

(** ** Samples *)

#[local] Existing Instances GatewaySign.toy_hashes GatewaySign.toy_digests HttpExchange.sample_buffers.

(** The results that answers will have, and what was seen. *)
Definition sample_world : Type := list Z * list entry * list sent.
Abbreviation sample_state := (state (DeviceCommand.program unit (DeviceState.dev sample_world))).
Definition sample_commands (w : sample_world) : list entry := w.1.2.
Definition sample_requests (w : sample_world) : list sent := w.2.
Definition with_env (d : DeviceState.dev sample_world) (w : sample_world) : DeviceState.dev sample_world := DeviceState.mk_dev (DeviceState.__state_list d) (DeviceState._device_hid d) (DeviceState._last_modify d) w.
Definition after_env (s : sample_state) (w : sample_world) : sample_state := CommandSpec.with_outside s (with_env (DeviceCommand.outside (rest s)) w).

Definition sample_post (hid : property_t) (ev : DeviceCommand.cmd_type) (payload : property_t) : M sample_state Z := fun s =>
  h ← CommandSpec.text_at (mem s) hid; h ← h; p ← CommandSpec.text_at (mem s) payload;
  let '(rs, l, out) := DeviceState.env (DeviceCommand.outside (rest s)) in
  Some (default 0 (head rs), after_env s (tail rs, l ++ [CommandSpec.Answered h ev p (default 0 (head rs))], out)).
Definition sample_reply (hid : property_t) (put : DeviceState._st_put_api) (trans : list Z) : M sample_state Z := fun s =>
  let '(rs, l, out) := DeviceState.env (DeviceCommand.outside (rest s)) in
  Some (default 0 (head rs), after_env s (tail rs, l, out ++ [(put, trans, default 0 (head rs))])).
Definition sample_call (cb : Z) (p : option (list Z)) (d : DeviceState.dev sample_world) : Z * DeviceState.dev sample_world :=
  (0, with_env d (let w := DeviceState.env d in (w.1.1, w.1.2 ++ [CommandSpec.Called cb p 0], w.2))).

#[local] Instance sample_posts : Posts [] sample_commands sample_post.
Proof.
  split.
  - intros hid h ev payload p s Hh Hp. unfold sample_post. rewrite (CommandSpec.text_at_says _ _ _ _ Hh), (CommandSpec.text_at_says _ _ _ _ Hp). cbn [mbind option_bind]. unfold CommandSpec.seen.
    destruct (DeviceState.env (DeviceCommand.outside (rest s))) as [[rs l] out] eqn:Ew. eexists _, _. split; [done|]. split; [done|]. by split.
  - intros hid ev payload s r s' E. unfold sample_post in E. destruct (CommandSpec.text_at (mem s) hid) as [[t|]|]; [|done..]. cbn [mbind option_bind] in E. destruct (CommandSpec.text_at (mem s) payload) as [p|]; [|done]. cbn [mbind option_bind] in E.
    destruct (DeviceState.env _) as [[rs l] out]. by injection E as <- <-.
Qed.
#[local] Instance sample_replies : Replies [] (lit "d1") sample_requests sample_reply.
Proof.
  intros hid put trans s _ _. unfold sample_reply, StateSpec.seen. cbn [snd]. destruct (DeviceState.env (DeviceCommand.outside (rest s))) as [[rs l] out] eqn:Ew. eexists _, _. split; [done|]. split; [by unfold others_same|]. split; [by split|]. split; [done|]. done.
Qed.

(** An update, of which nothing is asked and nothing is said but its result. *)
Definition sample_other (_ : Z) (_ : option JsonNode) : M sample_state Z := mret 0.
Definition other_spec : @handler_spec (DeviceCommand.program unit (DeviceState.dev sample_world)) := mk_spec (fun _ => True) (fun _ o r o' => r = 0 /\ o' = o).

(** The command go, the state led and the device d1, under the keys. *)
Definition sample_memory : memory := <[40 := (false, lit "go" ++ [0])]> (<[41 := (false, lit "led" ++ [0])]> (<[42 := (false, lit "d1" ++ [0])]> GatewaySign.sample_keys)).
Definition sample_dev : DeviceState.dev sample_world :=
  DeviceState.mk_dev (mk_queue 6 {[6 := 0]} {[6 := DeviceState.mk_st (CommandSpec.const_prop 41 3) 1 (DeviceState.v_bool false) ArrowUtf8.Utf8.ts_zero]}) (CommandSpec.const_prop 42 2) ArrowUtf8.Utf8.ts_zero ([-1], [], []).
Definition sample_start : sample_state :=
  mk_state (Crypt.mk_state sample_memory [] ([], []) NULL NULL) (mk_queue NULL ∅ ∅) (mk_queue NULL ∅ ∅) (finished false) (finished false) 0 false
    (DeviceCommand.mk_program (mk_queue 5 {[5 := 0]} {[5 := DeviceCommand.mk_handler (CommandSpec.const_prop 40 2) 7]}) CommandSpec.sample_client ∅ ∅ sample_dev).
Definition sample_states (b : bool) (t : Timer.timestamp) : list astate := [StateSpec.mk_as (lit "led") (StateSpec.ABool b) t].

Lemma sample_idle : idle 90 91 [] [(lit "go", 7)] [lit "led"] (lit "d1") sample_memory (outer_of sample_memory sample_start) (sample_states false ArrowUtf8.Utf8.ts_zero).
Proof.
  split.
  - exists [DeviceState.mk_st (CommandSpec.const_prop 41 3) 1 (DeviceState.v_bool false) ArrowUtf8.Utf8.ts_zero].
    assert (Hled : stored sample_memory (CommandSpec.const_prop 41 3) (lit "led")) by (split; [by repeat constructor|]; left; split; [done|]; by exists (lit "led" ++ [0])).
    split; [|intros p _; right; apply not_elem_of_nil]. exists [6]. split; [|split; [|split; [split|]]].
    + split; [split; [done|]; split; [done|]; by exists 0 | by repeat constructor | apply (bool_decide_unpack _); by vm_compute | apply (bool_decide_unpack _); by vm_compute].
    + constructor; [by split_and! | constructor].
    + apply Forall_cons; split; [right; by eexists | constructor].
    + constructor.
    + done.
  - done.
  - intros a Ha. by apply not_elem_of_nil in Ha.
  - exists [5], [DeviceCommand.mk_handler (CommandSpec.const_prop 40 2) 7]. split.
    + split; [split; [done|]; split; [done|]; by exists 0 | by repeat constructor | apply (bool_decide_unpack _); by vm_compute | apply (bool_decide_unpack _); by vm_compute].
    + constructor; [|constructor]. split; [by repeat constructor|]. split; [done|]. exists 40, 2, false, []. split; [done|]. split; [done|]. split; [apply not_elem_of_nil | done].
  - split; [by repeat constructor|]. split; [done|]. split; [apply not_elem_of_nil|]. by exists false, [].
  - repeat (apply Forall_cons; split); [..|constructor]; (split; [apply not_elem_of_nil | by eexists]).
Qed.

Lemma sample_waits : queued 90 91 false sample_memory (lit "api") (lit "secret") sample_start [] [].
Proof.
  exists [], [], [], []. split; [apply holds_empty | apply holds_empty | constructor | constructor | apply grown_nil | | done].
  split; (split; [done|]; split; [by repeat constructor|]; by exists []).
Qed.

(** A command, the same with a signature that is not the right one, and a request. *)
Definition event_members (name : list Z) (params : list (list Z * JsonNode)) : list (list Z * JsonNode) :=
  [(lit "hid", JString (Some (lit "h1"))); (lit "name", JString (Some name)); (lit "encrypted", JBool false); (lit "parameters", JObject params)].
Definition command_members : list (list Z * JsonNode) :=
  event_members (lit "SendCommand") [(lit "deviceHid", JString (Some (lit "d1"))); (lit "command", JString (Some (lit "go"))); (lit "payload", JString (Some (lit "x")))].
Definition forged_members : list (list Z * JsonNode) := command_members ++ [(lit "signatureVersion", JString (Some (lit "1"))); (lit "signature", JString (Some (lit "0123")))].
Definition request_text : list Z := JsonStream.etext (JObject [(lit "led", StateSpec.member (lit "true") (lit "2018-05-22T10:08:38.503Z"))]).
Definition request_members : list (list Z * JsonNode) :=
  event_members (lit "ServerToGateway_DeviceStateRequest") [(lit "deviceHid", JString (Some (lit "d1"))); (lit "transHid", JString (Some (lit "t"))); (lit "payload", JString (Some request_text))].
Definition sample_ops : list op :=
  [Message command_members (sample_parts command_members); Message forged_members (sample_parts forged_members); Message request_members (sample_parts request_members); Has; Proc; Proc; Proc].
Definition sample_now (_ : sample_world) (_ : Timer.timestamp) : Timer.timestamp := Timer.mk_ts 0 5 4 3 2 1 6 2018.

Lemma samples_stream : Forall (fun ms => JsonStream.streamable (JObject ms)) [command_members; forged_members; request_members].
Proof. repeat (apply Forall_cons; split); try constructor; repeat constructor; try done; cbn [fst snd]; by apply short_text_dec. Qed.

Lemma samples_decode : Forall (fun ms => JsonDecode.decodable (JObject ms)) [command_members; forged_members; request_members].
Proof. repeat (apply Forall_cons; split); try constructor; repeat first [by apply (bool_decide_unpack _) | constructor]. Qed.

Lemma samples_signed ms : ms ∈ [command_members; forged_members; request_members] -> message_ok GatewaySign.no_number sample_bool sample_text ms (lit "hid") (lit "name").
Proof.
  intros Hms. split; [|split].
  - intros s E. exists (lit "h1"). repeat (apply elem_of_cons in Hms as [-> | Hms]; [cbn in E; injection E as <-; split; [done|]; split; [by repeat constructor | by cbv]|]). by apply not_elem_of_nil in Hms.
  - intros s E. repeat (apply elem_of_cons in Hms as [-> | Hms]; [cbn in E; injection E as <-; eexists; split; [done|]; split; [by repeat constructor | by cbv]|]). by apply not_elem_of_nil in Hms.
  - intros e E v g Ev Eg. repeat (apply elem_of_cons in Hms as [-> | Hms]); [done | | done | by apply not_elem_of_nil in Hms]. cbn in E, Ev, Eg. injection E as <-. injection Ev as <-. injection Eg as <-.
    exists (lit "1"), (lit "0123"). split; [done|]. split; [done|]. split; [by repeat constructor|]. intros _. eexists. split; [done|]. split; [done|]. split; [|done].
    repeat (apply Forall_cons; split); [..|constructor]; (split; [apply (bool_decide_unpack _); by vm_compute|]); eexists; (split; [done | by repeat constructor]).
Qed.

(** What the events of the messages ask for. *)
Definition sample_command_spec : @handler_spec (DeviceCommand.program unit (DeviceState.dev sample_world)) := command_spec 90 91 1 [] [(lit "go", 7)] [lit "led"] (lit "d1") sample_commands.
Definition sample_state_spec : @handler_spec (DeviceCommand.program unit (DeviceState.dev sample_world)) := state_spec test_malloc 90 91 sample_text 1 [] [(lit "go", 7)] [lit "led"] (lit "d1") sample_requests.

Lemma command_event_ok e : ev_name e = lit "SendCommand" -> ev_parameters e = JObject [(lit "deviceHid", JString (Some (lit "d1"))); (lit "command", JString (Some (lit "go"))); (lit "payload", JString (Some (lit "x")))] ->
  event_ok sample_command_spec sample_state_spec other_spec other_spec e.
Proof.
  intros Hn Hp sp Hsp. rewrite Hn in Hsp. change (Some sample_command_spec = Some sp) in Hsp. injection Hsp as <-. cbn [needs sample_command_spec command_spec]. rewrite Hp. intros o. cbn. intros [= <-]. eexists. split; [done | by repeat constructor].
Qed.

Lemma request_event_ok e : ev_name e = lit "ServerToGateway_DeviceStateRequest" -> ev_parameters e = JObject [(lit "deviceHid", JString (Some (lit "d1"))); (lit "transHid", JString (Some (lit "t"))); (lit "payload", JString (Some request_text))] ->
  event_ok sample_command_spec sample_state_spec other_spec other_spec e.
Proof.
  intros Hn Hp sp Hsp. rewrite Hn in Hsp. change (Some sample_state_spec = Some sp) in Hsp. injection Hsp as <-. cbn [needs sample_state_spec state_spec]. rewrite Hp. right.
  exists (lit "t"), [(lit "led", StateSpec.member (lit "true") (lit "2018-05-22T10:08:38.503Z"))]. split; [by vm_compute|]. split; [by repeat constructor|].
  apply Forall_cons; split; [|constructor]. split; [by repeat constructor|]. intros _ val [= <-]. split; [eexists; by vm_compute|]. eexists. split; [done | by repeat constructor].
Qed.

Lemma sample_events_ok ms e : ms ∈ [command_members; forged_members; request_members] -> accepted GatewaySign.no_number sample_bool sample_text (lit "api") (lit "secret") ms (lit "hid") (lit "name") = Some e ->
  event_ok sample_command_spec sample_state_spec other_spec other_spec e.
Proof.
  intros Hms E. unfold accepted in E. destruct (parse_event sample_bool ms (lit "hid") (lit "name")) as [e'|] eqn:Ep; [|done]. cbn [mbind option_bind] in E. destruct (signed _ _ _ _ _ _); [|done]. injection E as <-.
  repeat (apply elem_of_cons in Hms as [-> | Hms]); [| | | by apply not_elem_of_nil in Hms]; cbn in Ep; injection Ep as <-; [by apply command_event_ok | by apply command_event_ok | by apply request_event_ok].
Qed.

Lemma sample_ops_ok : Forall (op_ok GatewaySign.no_number sample_bool sample_text sample_command_spec sample_state_spec other_spec other_spec (lit "api") (lit "secret")) sample_ops.
Proof.
  pose proof samples_stream as Hs. pose proof samples_decode as Hd. rewrite Forall_forall in Hs, Hd.
  assert (Hok : forall ms, ms ∈ [command_members; forged_members; request_members] -> op_ok GatewaySign.no_number sample_bool sample_text sample_command_spec sample_state_spec other_spec other_spec (lit "api") (lit "secret") (Message ms (sample_parts ms))).
  { intros ms Hms. split; [by apply Hs|]. split; [by apply Hd|]. split; [unfold sample_parts; cbn [concat]; by rewrite app_nil_r, take_drop|]. split; [by apply samples_signed | intros e; by apply sample_events_ok]. }
  apply Forall_cons; split; [apply Hok; left|]. apply Forall_cons; split; [apply Hok; right; left|]. apply Forall_cons; split; [apply Hok; right; right; left|]. by repeat constructor.
Qed.

Lemma other_handler a b spec1 spec2 spec3 spec4 : Handler 90 91 false (Inv a b [] [(lit "go", 7)] [lit "led"] (lit "d1")) spec1 spec2 spec3 spec4 other_spec sample_other.
Proof.
  intros m0 K Sk s p ps c bs e evs aps abs apis Hr Hi _. exists 0, s, m0, ps, bs, [], aps, abs, apis. rewrite app_nil_r. split; [done|]. by split.
Qed.

Abbreviation sample_run := (run_ops bump_malloc test_malloc sample_node 1 2 90 91 (fun m _ _ => (-1, m)) GatewaySign.no_number sample_bool sample_text false (Some 10)
  (DeviceCommand.ev_DeviceCommand bump_malloc json_types sample_post 1 sample_call (fun d => d) test_malloc 5)
  (DeviceState.ev_DeviceStateRequest bump_malloc test_malloc json_types StateSpec.no_property sample_text sample_now 1 (fun d => d) sample_reply 5)
  sample_other sample_other (DeviceCommand.arrow_command_handler_free json_types)).


End EventHandlers.
