(* ===== verification/MqttPacket.v ===== *)
(** src/src/mqtt/packet/src/MQTTPacket.c and MQTTPacket.h: the cursor
    primitives every MQTT packet is built from. A serializer writes through a
    pointer into the caller's buffer: the state is a [cursor], the whole buffer
    and the offset of the pointer; a write outside the buffer is [None]. *)
From S2P Require Import Prelude.

Module MQTTPacket.

Record cursor := at_ { mem : list Z; ptr : Z }.

(** enum errors *)
Definition MQTTPACKET_BUFFER_TOO_SHORT : Z := -2.
Definition MQTTPACKET_READ_ERROR : Z := -1.
Definition MQTTPACKET_READ_COMPLETE : Z := 0.

(** enum msgTypes *)
Inductive msgTypes :=
  | CONNECT | CONNACK | PUBLISH | PUBACK | PUBREC | PUBREL | PUBCOMP | SUBSCRIBE
  | SUBACK | UNSUBSCRIBE | UNSUBACK | PINGREQ | PINGRESP | DISCONNECT.

Definition msg_code (t : msgTypes) : Z :=
  match t with
  | CONNECT => 1 | CONNACK => 2 | PUBLISH => 3 | PUBACK => 4 | PUBREC => 5 | PUBREL => 6
  | PUBCOMP => 7 | SUBSCRIBE => 8 | SUBACK => 9 | UNSUBSCRIBE => 10 | UNSUBACK => 11
  | PINGREQ => 12 | PINGRESP => 13 | DISCONNECT => 14
  end.

(** The bit fields of [MQTTHeader] (REVERSED undefined): assigning a field
    keeps its low bits. *)
Definition header_byte (type dup qos retain : Z) : Z :=
  Z.lor (Z.shiftl (Z.land type 15) 4)
    (Z.lor (Z.shiftl (Z.land dup 1) 3) (Z.lor (Z.shiftl (Z.land qos 3) 1) (Z.land retain 1))).
Definition header_type (byte : Z) : Z := Z.land (Z.shiftr byte 4) 15.
Definition header_dup (byte : Z) : Z := Z.land (Z.shiftr byte 3) 1.
Definition header_qos (byte : Z) : Z := Z.land (Z.shiftr byte 1) 3.
Definition header_retain (byte : Z) : Z := Z.land byte 1.

(** [MQTTString]: [data] is the memory from the pointer to the end of its object. *)
Record MQTTString := mk_str {
  cstring : option (list Z);
  lenstring_len : Z;
  lenstring_data : option (list Z);
}.
Definition MQTTString_initializer : MQTTString := mk_str None 0 None.

(** [rc = ptr - buf] at the end of a serializer. *)
Definition finish (p : option cursor) : option (Z * list Z) :=
  p ← p; Some (ptr p, mem p).

(** ** Remaining length *)

(** The do-while loop of [MQTTPacket_encode]; [rc] counts the bytes written. *)
Fixpoint encode_loop (fuel : nat) (buf : list Z) (base rc length : Z) : option (list Z * Z) :=
  match fuel with
  | O => None
  | S fuel' =>
      let d := Z.rem length 128 in
      let length := Z.quot length 128 in
      let d := if 0 <? length then Z.lor d 128 else d in
      buf ← wr buf (base + rc) (u8 d);
      let rc := rc + 1 in
      if 0 <? length then encode_loop fuel' buf base rc length else Some (buf, rc)
  end.

(** An [int] has at most five base-128 digits. *)
Definition MQTTPacket_encode (buf : list Z) (base length : Z) : option (list Z * Z) :=
  encode_loop 5 buf base 0 length.

Definition MAX_NO_OF_REMAINING_LENGTH_BYTES : Z := 4.

(** [getcharfn] reads one byte of a source of type [Src]: its result is
    (return code, byte, source afterwards). *)
Fixpoint decode_loop {Src} (getcharfn : Src -> option (Z * Z * Src)) (fuel : nat)
    (src : Src) (multiplier len value : Z) : option (Z * Z * Src) :=
  match fuel with
  | O => None
  | S fuel' =>
      let len := len + 1 in
      if MAX_NO_OF_REMAINING_LENGTH_BYTES <? len then Some (len, value, src) else
      '(rc, c, src) ← getcharfn src;
      if negb (rc =? 1) then Some (len, value, src) else
      let value := value + Z.land c 127 * multiplier in
      let multiplier := multiplier * 128 in
      if negb (Z.land c 128 =? 0) then decode_loop getcharfn fuel' src multiplier len value
      else Some (len, value, src)
  end.

(** Returns (number of bytes counted, [*value], source). The loop leaves at its
    fifth round at the latest. *)
Definition MQTTPacket_decode {Src} (getcharfn : Src -> option (Z * Z * Src)) (src : Src)
    : option (Z * Z * Src) :=
  decode_loop getcharfn 5 src 1 0 0.

Definition MQTTPacket_len (rem_len : Z) : Z :=
  let rem_len := rem_len + 1 in
  if rem_len <? 128 then rem_len + 1
  else if rem_len <? 16384 then rem_len + 2
  else if rem_len <? 2097151 then rem_len + 3
  else rem_len + 4.

(** [bufchar] called with count 1; its state is the static [bufptr]. *)
Definition bufchar (buf : list Z) (bufptr : Z) : option (Z * Z * Z) :=
  c ← rd buf bufptr; Some (1, c, bufptr + 1).

Definition MQTTPacket_decodeBuf (buf : list Z) (pos : Z) : option (Z * Z) :=
  '(len, value, _) ← MQTTPacket_decode (bufchar buf) pos; Some (len, value).

(** ** Reading *)

Definition readInt (p : cursor) : option (Z * cursor) :=
  b0 ← rd (mem p) (ptr p);
  b1 ← rd (mem p) (ptr p + 1);
  Some (256 * b0 + b1, at_ (mem p) (ptr p + 2)).

(** [char] is signed on the targets of the SDK's build. *)
Definition readChar (p : cursor) : option (Z * cursor) :=
  c ← rd (mem p) (ptr p);
  Some (s8 c, at_ (mem p) (ptr p + 1)).

(** ** Writing *)

Definition writeChar (p : cursor) (c : Z) : option cursor :=
  m ← wr (mem p) (ptr p) (u8 c);
  Some (at_ m (ptr p + 1)).

Definition writeInt (p : cursor) (anInt : Z) : option cursor :=
  m ← wr (mem p) (ptr p) (u8 (Z.quot anInt 256));
  m ← wr m (ptr p + 1) (u8 (Z.rem anInt 256));
  Some (at_ m (ptr p + 2)).

(** [memcpy(ptr, src, len); ptr += len]. *)
Definition writeBytes (p : cursor) (src : list Z) (len : Z) : option cursor :=
  s ← rdn src 0 len;
  m ← wrn (mem p) (ptr p) s;
  Some (at_ m (ptr p + len)).

Definition writeCString (p : cursor) (string : list Z) : option cursor :=
  let len := zlen string in
  p ← writeInt p len;
  writeBytes p string len.

(** [ptr += MQTTPacket_encode(ptr, length)]. *)
Definition writeLength (p : cursor) (length : Z) : option cursor :=
  '(m, n) ← MQTTPacket_encode (mem p) (ptr p) length;
  Some (at_ m (ptr p + n)).

Definition getLenStringLen (p : list Z) : option Z :=
  b0 ← rd p 0; b1 ← rd p 1; Some (256 * b0 + b1).

Definition writeMQTTString (p : cursor) (mqttstring : MQTTString) : option cursor :=
  if 0 <? lenstring_len mqttstring then
    p ← writeInt p (lenstring_len mqttstring);
    data ← lenstring_data mqttstring;
    writeBytes p data (lenstring_len mqttstring)
  else match cstring mqttstring with
  | Some s => writeCString p s
  | None => writeInt p 0
  end.

(** Returns (rc, string, cursor); [enddata] is an offset in the same buffer. *)
Definition readMQTTLenString (mqttstring : MQTTString) (p : cursor) (enddata : Z)
    : option (Z * MQTTString * cursor) :=
  if 1 <? enddata - ptr p then
    '(len, p) ← readInt p;
    if ptr p + len <=? enddata then
      Some (1, mk_str None len (Some (drop (Z.to_nat (ptr p)) (mem p))), at_ (mem p) (ptr p + len))
    else Some (0, mk_str None len (lenstring_data mqttstring), p)
  else Some (0, mk_str None (lenstring_len mqttstring) (lenstring_data mqttstring), p).

Definition MQTTstrlen (mqttstring : MQTTString) : Z :=
  match cstring mqttstring with
  | Some s => zlen s
  | None => lenstring_len mqttstring
  end.

(** [bptr] is a C string; its terminator is the byte after its content. *)
Definition MQTTPacket_equals (a : MQTTString) (bptr : list Z) : option bool :=
  '(aptr, alen) ← match cstring a with
    | Some s => Some (s ++ [0], zlen s)
    | None => match lenstring_data a with
        | Some d => Some (d, lenstring_len a)
        | None => if lenstring_len a =? 0 then Some ([], 0) else None
        end
    end;
  let blen := zlen bptr in
  if alen =? blen then strncmp0 aptr (bptr ++ [0]) (Z.to_nat alen) else Some false.

(** ** The wire format (MQTT 3.1.1, sections 1.5 and 2.2) *)

Definition be16 (n : Z) : list Z := [n / 256; n mod 256].

(** Remaining length: base-128 digits, least significant first, the top bit of
    every digit but the last set. *)
Fixpoint base128 (fuel : nat) (n : Z) : list Z :=
  match fuel with
  | O => []
  | S fuel' => if n <? 128 then [n] else (n mod 128 + 128) :: base128 fuel' (n / 128)
  end.
Definition varint (n : Z) : list Z := base128 5 n.

Definition str_wire (T : list Z) : list Z := be16 (zlen T) ++ T.

#[global] Arguments be16 : simpl never.
#[global] Arguments str_wire : simpl never.
#[global] Arguments varint : simpl never.

(** [mqtt_str s T]: the two readings of [s], by [MQTTstrlen] and by
    [writeMQTTString], agree that its text is [T]. *)
Inductive mqtt_str : MQTTString -> list Z -> Prop :=
  | ms_len T r : T <> [] -> mqtt_str (mk_str None (zlen T) (Some (T ++ r))) T
  | ms_cstr T len data : len <= 0 -> mqtt_str (mk_str (Some T) len data) T
  | ms_none data : mqtt_str (mk_str None 0 data) [].

(** [Emits f s]: from any cursor with room for them, [f] writes exactly the
    bytes [s], nothing else changes, and the cursor moves past them. *)
Class Emits (f : cursor -> option cursor) (s : list Z) : Prop :=
  emits d r : zlen s <= zlen r ->
    f (at_ (d ++ r) (zlen d)) = Some (at_ (d ++ s ++ drop (length s) r) (zlen (d ++ s))).

(** [Reads f s a]: where the bytes [s] are next, [f] reads [a] and moves past them. *)
Class Reads {A} (f : cursor -> option (A * cursor)) (s : list Z) (a : A) : Prop :=
  reads d r : f (at_ (d ++ s ++ r) (zlen d)) = Some (a, at_ (d ++ s ++ r) (zlen (d ++ s))).

(** ** Lemmas *)

Lemma emits_done : Emits Some [].
Proof. intros d r _. by rewrite app_nil_r. Qed.

Lemma emits_bind f g s t : Emits f s -> Emits g t -> Emits (fun p => p' ← f p; g p') (s ++ t).
Proof.
  intros Hf Hg d r Hr. rewrite Hf by zl. simpl. rewrite (app_assoc d s). rewrite Hg by zl.
  rewrite drop_drop, length_app, <- !app_assoc. done.
Qed.

Lemma emits_eq f s t : Emits f s -> s = t -> Emits f t.
Proof. by intros ? <-. Qed.

Lemma emits_at f s d r i :
  Emits f s -> i = zlen d -> zlen s <= zlen r ->
  f (at_ (d ++ r) i) = Some (at_ (d ++ s ++ drop (length s) r) (i + zlen s)).
Proof. intros Hf -> Hr. rewrite Hf by done. by rewrite zlen_app. Qed.

Lemma reads_at {A} (f : cursor -> option (A * cursor)) s a d r i :
  Reads f s a -> i = zlen d ->
  f (at_ (d ++ s ++ r) i) = Some (a, at_ (d ++ s ++ r) (i + zlen s)).
Proof. intros Hf ->. rewrite Hf. by rewrite zlen_app. Qed.

(** A reader applied after the prefix [d] written as nested appends. *)
Lemma reads_next {A} (f : cursor -> option (A * cursor)) s a m d r i :
  Reads f s a -> m = d ++ s ++ r -> i = zlen d ->
  f (at_ m i) = Some (a, at_ m (i + zlen s)).
Proof. intros Hf -> ->. by apply reads_at. Qed.

Lemma emits_writeChar c b : u8 c = b -> Emits (fun p => writeChar p c) [b].
Proof.
  intros <- d r Hr. destruct r as [|x r]; [zl|]. unfold writeChar. cbn [mem ptr].
  rewrite wr_app by done. simpl. rewrite zlen_app. done.
Qed.

Lemma emits_writeInt n : 0 <= n < 65536 -> Emits (fun p => writeInt p n) (be16 n).
Proof.
  intros Hn d r Hr. destruct r as [|x [|y r]]; [unfold be16 in Hr; zl..|].
  unfold writeInt, be16. cbn [mem ptr].
  rewrite wr_app by done. simpl.
  replace (d ++ u8 (n ÷ 256) :: y :: r) with ((d ++ [u8 (n ÷ 256)]) ++ y :: r) by by rewrite <- app_assoc.
  rewrite wr_app by zl. simpl. rewrite <- app_assoc. unfold u8. simpl.
  rewrite Z.quot_div_nonneg, Z.rem_mod_nonneg by lia.
  rewrite (Z.mod_small (n / 256)), (Z.mod_small (n mod 256)) by lia_mod.
  rewrite zlen_app. done.
Qed.

Lemma emits_writeBytes s r0 : Emits (fun p => writeBytes p (s ++ r0) (zlen s)) s.
Proof.
  intros d r Hr. unfold writeBytes. cbn [mem ptr].
  rewrite rdn_app_0 by done. simpl. rewrite wrn_app by done. simpl. by rewrite zlen_app.
Qed.

Lemma emits_writeCString T : zlen T < 65536 -> Emits (fun p => writeCString p T) (str_wire T).
Proof.
  intros HT. unfold writeCString, str_wire. apply emits_bind.
  - apply emits_writeInt. split; [apply zlen_nonneg | done].
  - pose proof (emits_writeBytes T []) as H. by rewrite app_nil_r in H.
Qed.

Lemma emits_writeMQTTString ms T :
  mqtt_str ms T -> zlen T < 65536 -> Emits (fun p => writeMQTTString p ms) (str_wire T).
Proof.
  unfold writeMQTTString. intros [T' r HT | T' len data Hlen | data] Hlt; cbn [lenstring_len lenstring_data cstring].
  - replace (0 <? zlen T') with true by (symmetry; apply Z.ltb_lt; destruct T'; [done | zl]).
    apply emits_bind; [|apply emits_writeBytes].
    apply emits_writeInt. split; [apply zlen_nonneg | done].
  - if_false. by apply emits_writeCString.
  - eapply emits_eq; [by apply emits_writeInt | done].
Qed.

Lemma MQTTstrlen_str ms T : mqtt_str ms T -> MQTTstrlen ms = zlen T.
Proof. by intros []. Qed.

Lemma lor_128 d : 0 <= d < 128 -> Z.lor d 128 = d + 128.
Proof. intros Hd. apply Z.eqb_eq. by apply (forall_range (fun d => Z.lor d 128 =? d + 128) 128). Qed.

(** The low seven bits and the continuation bit of an encoded digit. *)
Lemma land_127 d : is_byte d -> Z.land d 127 = d mod 128.
Proof. intros Hd. apply Z.eqb_eq. by apply (forall_byte (fun d => Z.land d 127 =? d mod 128)). Qed.
Lemma land_128 d : is_byte d -> Z.land d 128 = 128 * (d / 128).
Proof. intros Hd. apply Z.eqb_eq. by apply (forall_byte (fun d => Z.land d 128 =? 128 * (d / 128))). Qed.

Lemma encode_loop_base128 fuel : forall d r base rc n,
  base + rc = zlen d -> fuel <> O -> 0 <= n < 128 ^ Z.of_nat fuel -> zlen (base128 fuel n) <= zlen r ->
  encode_loop fuel (d ++ r) base rc n =
    Some (d ++ base128 fuel n ++ drop (length (base128 fuel n)) r, rc + zlen (base128 fuel n)).
Proof.
  induction fuel as [|fuel IH]; intros d r base rc n Hb Hf Hn Hr; [done|].
  rewrite Nat2Z.inj_succ, Z.pow_succ_r in Hn by lia.
  cbn [encode_loop base128] in *. rewrite Z.quot_div_nonneg, Z.rem_mod_nonneg by lia.
  destruct r as [|x r]; [destruct (n <? 128); zl|]. rewrite wr_app by done. cbn [mbind option_bind].
  destruct (Z.ltb_spec n 128) as [Hs | Hs].
  - rewrite Z.div_small, Z.mod_small by lia. simpl. rewrite u8_id by (unfold is_byte; lia).
    done.
  - replace (0 <? n / 128) with true by (symmetry; apply Z.ltb_lt; lia_mod).
    rewrite lor_128, u8_id by (unfold is_byte; lia_mod).
    rewrite (app_assoc d [_] r : d ++ _ :: r = _). rewrite IH.
    + rewrite <- !app_assoc. simpl. f_equal. f_equal. zl.
    + rewrite zlen_app. zl.
    + intros ->. change (128 ^ Z.of_nat 0) with 1 in Hn. lia.
    + split; [lia_mod | apply Z.div_lt_upper_bound; lia].
    + zl.
Qed.

Lemma emits_writeLength n : 0 <= n <= INT_MAX -> Emits (fun p => writeLength p n) (varint n).
Proof.
  intros Hn d r Hr. unfold writeLength, MQTTPacket_encode. cbn [mem ptr].
  rewrite encode_loop_base128; [|lia | done | unfold INT_MAX in Hn; lia | done].
  simpl. by rewrite zlen_app.
Qed.

Lemma bufchar_app d c r pos : pos = zlen d -> bufchar (d ++ c :: r) pos = Some (1, c, pos + 1).
Proof. intros ->. unfold bufchar. by rewrite rd_app. Qed.

Lemma decode_loop_base128 fuel : forall k d r pos m len value n,
  pos = zlen d -> fuel <> O -> 0 <= n < 128 ^ Z.of_nat fuel -> len + Z.of_nat fuel <= 4 -> (fuel < k)%nat ->
  decode_loop (bufchar (d ++ base128 fuel n ++ r)) k pos m len value =
    Some (len + zlen (base128 fuel n), value + n * m, pos + zlen (base128 fuel n)).
Proof.
  induction fuel as [|fuel IH]; intros k d r pos m len value n Hp Hf Hn Hl Hk; [done|].
  rewrite Nat2Z.inj_succ, Z.pow_succ_r in Hn by lia. destruct k as [|k]; [lia|].
  cbn [decode_loop base128] in *. unfold MAX_NO_OF_REMAINING_LENGTH_BYTES.
  if_false. destruct (Z.ltb_spec n 128) as [Hs | Hs]; rewrite <- app_comm_cons, bufchar_app by done;
    cbn [mbind option_bind]; change (negb (1 =? 1)) with false; cbv iota;
    rewrite land_127, land_128 by (unfold is_byte; lia_mod).
  - rewrite Z.mod_small, Z.div_small by lia. done.
  - replace ((n mod 128 + 128) mod 128) with (n mod 128) by lia_mod.
    replace ((n mod 128 + 128) / 128) with 1 by lia_mod. simpl.
    rewrite (app_assoc d [_] _ : d ++ _ :: _ = _). rewrite IH; [| zl | | | lia | lia].
    + f_equal. f_equal; [f_equal|]; [zl | lia_mod | zl].
    + intros ->. change (128 ^ Z.of_nat 0) with 1 in Hn. lia.
    + split; [lia_mod | apply Z.div_lt_upper_bound; lia].
Qed.

(** Enough fuel does not change the digits. *)
Lemma base128_fuel a b n :
  a <> O -> 0 <= n < 128 ^ Z.of_nat a -> (a <= b)%nat -> base128 a n = base128 b n.
Proof.
  revert b n. induction a as [|a IH]; intros b n Ha Hn Hab; [done|]. destruct b as [|b]; [lia|].
  rewrite Nat2Z.inj_succ, Z.pow_succ_r in Hn by lia. cbn [base128].
  destruct (Z.ltb_spec n 128); [done|]. f_equal. apply IH; [|split|lia].
  - intros ->. change (128 ^ Z.of_nat 0) with 1 in Hn. lia.
  - lia_mod.
  - apply Z.div_lt_upper_bound; lia.
Qed.

Lemma varint_eq n : 0 <= n < 268435456 -> varint n = base128 4 n.
Proof. intros Hn. symmetry. apply base128_fuel; [done | done | lia]. Qed.

Lemma decodeBuf_varint d r pos n :
  pos = zlen d -> 0 <= n < 268435456 ->
  MQTTPacket_decodeBuf (d ++ varint n ++ r) pos = Some (zlen (varint n), n).
Proof.
  intros Hp Hn. unfold MQTTPacket_decodeBuf, MQTTPacket_decode. rewrite varint_eq by done.
  rewrite decode_loop_base128 by first [done | lia]. simpl. repeat f_equal. lia.
Qed.

Lemma zlen_varint n : 0 <= n < 268435456 ->
  zlen (varint n) = if n <? 128 then 1 else if n <? 16384 then 2 else if n <? 2097152 then 3 else 4.
Proof.
  intros Hn. rewrite varint_eq by done. cbn [base128].
  repeat match goal with |- context [if ?a <? ?b then _ else _] => destruct (Z.ltb_spec a b) end;
    try done; exfalso; lia_mod.
Qed.

(** [MQTTPacket_len] never promises less than the packet takes. *)
Lemma MQTTPacket_len_enough n : 0 <= n < 268435456 ->
  1 + zlen (varint n) + n <= MQTTPacket_len n <= 2 + zlen (varint n) + n.
Proof.
  intros Hn. rewrite zlen_varint by done. unfold MQTTPacket_len.
  repeat match goal with |- context [if ?a <? ?b then _ else _] => destruct (Z.ltb_spec a b) end; lia.
Qed.

Lemma zlen_be16 n : zlen (be16 n) = 2.
Proof. done. Qed.
Lemma zlen_str_wire T : zlen (str_wire T) = 2 + zlen T.
Proof. unfold str_wire. by rewrite zlen_app. Qed.

(** ** Reader lemmas *)

Lemma reads_readInt n : 0 <= n < 65536 -> Reads readInt (be16 n) n.
Proof.
  intros Hn d r. unfold readInt, be16. cbn [mem ptr app].
  rewrite (rd_app d _ _ (zlen d)) by done. simpl.
  rewrite (app_assoc d [_] _ : d ++ n / 256 :: _ = _), rd_app by zl. simpl.
  rewrite <- !app_assoc, zlen_app. simpl. repeat f_equal; lia_mod.
Qed.

Lemma reads_readChar c : Reads readChar [c] (s8 c).
Proof. intros d r. unfold readChar. cbn [mem ptr app]. rewrite rd_app by done. simpl. by rewrite zlen_app. Qed.

(** The string that a successful [readMQTTLenString] leaves: a length and a
    pointer into the packet. *)
Definition len_string (T r : list Z) : MQTTString := mk_str None (zlen T) (Some (T ++ r)).

Lemma readMQTTLenString_ok ms d T r pos enddata :
  zlen T < 65536 -> pos = zlen d -> pos + 2 + zlen T <= enddata ->
  readMQTTLenString ms (at_ (d ++ str_wire T ++ r) pos) enddata =
    Some (1, len_string T r, at_ (d ++ str_wire T ++ r) (pos + zlen (str_wire T))).
Proof.
  intros HT -> He. unfold readMQTTLenString, str_wire. cbn [mem ptr].
  pose proof (zlen_nonneg T). if_true.
  rewrite <- app_assoc. rewrite (reads_at readInt (be16 (zlen T)) (zlen T));
    [|apply reads_readInt; lia | done].
  cbn [mbind option_bind mem ptr]. rewrite zlen_be16. if_true. unfold len_string. do 2 f_equal.
  - f_equal. do 2 f_equal. rewrite app_assoc. rewrite drop_app_zlen by by rewrite zlen_app. done.
  - f_equal. rewrite zlen_app, zlen_be16. lia.
Qed.

(** The readers where the cursor stands at the end of a known prefix [d]. *)
Lemma readInt_next d n r : 0 <= n < 65536 ->
  readInt (at_ (d ++ be16 n ++ r) (zlen d)) = Some (n, at_ ((d ++ be16 n) ++ r) (zlen (d ++ be16 n))).
Proof. intros Hn. rewrite (reads_readInt n Hn d r). by rewrite <- app_assoc. Qed.

Lemma readChar_next d c r :
  readChar (at_ (d ++ c :: r) (zlen d)) = Some (s8 c, at_ ((d ++ [c]) ++ r) (zlen (d ++ [c]))).
Proof. change (c :: r) with ([c] ++ r). rewrite (reads_readChar c d r). by rewrite <- app_assoc. Qed.

Lemma decodeBuf_next d n r : 0 <= n < 268435456 ->
  MQTTPacket_decodeBuf (d ++ varint n ++ r) (zlen d) = Some (zlen (varint n), n).
Proof. intros Hn. by apply decodeBuf_varint. Qed.

Lemma readMQTTLenString_next ms d T r enddata :
  zlen T < 65536 -> zlen (d ++ str_wire T) <= enddata ->
  readMQTTLenString ms (at_ (d ++ str_wire T ++ r) (zlen d)) enddata =
    Some (1, len_string T r, at_ ((d ++ str_wire T) ++ r) (zlen (d ++ str_wire T))).
Proof.
  rewrite zlen_app, zlen_str_wire. intros HT He. rewrite readMQTTLenString_ok by first [done | lia].
  by rewrite <- app_assoc, zlen_str_wire.
Qed.

(** ** Whole packets *)

Lemma emits_if (b : bool) f g s t :
  (b = true -> Emits f s) -> (b = false -> Emits g t) ->
  Emits (fun p => if b then f p else g p) (if b then s else t).
Proof. destruct b; eauto. Qed.

Lemma emits_for (body : Z -> cursor -> option cursor) ws : forall i,
  (forall k w, ws !! k = Some w -> Emits (body (i + Z.of_nat k)) w) ->
  Emits (for_from body (length ws) i) (concat ws).
Proof.
  induction ws as [|w ws IH]; intros i H; [apply emits_done|].
  cbn [length for_from concat]. apply emits_bind.
  - specialize (H O w eq_refl). by rewrite Z.add_0_r in H.
  - apply IH. intros k w' Hk. specialize (H (S k) w' Hk).
    by replace (i + 1 + Z.of_nat k) with (i + Z.of_nat (S k)) by lia.
Qed.

Lemma finish_emits f s buf :
  Emits f s -> zlen s <= zlen buf ->
  finish (f (at_ buf 0)) = Some (zlen s, s ++ drop (length s) buf).
Proof.
  intros Hf Hs. pose proof (emits_at f s [] buf 0 Hf eq_refl Hs) as H. simpl in H.
  unfold finish. by rewrite H.
Qed.

Create HintDb cemit.
#[export] Hint Resolve emits_done emits_bind emits_writeChar emits_writeInt emits_writeBytes
  emits_writeCString emits_writeMQTTString emits_writeLength : cemit.

(** A first byte is read back as it was written. *)
Lemma readChar_head c s : is_byte c -> readChar (at_ (c :: s) 0) = Some (s8 c, at_ (c :: s) 1).
Proof. done. Qed.

(** Every packet starts with its header byte and its remaining length. *)
Lemma decodeBuf_head h n r :
  0 <= n < 268435456 -> MQTTPacket_decodeBuf (h :: varint n ++ r) 1 = Some (zlen (varint n), n).
Proof. intros Hn. by apply (decodeBuf_varint [h]). Qed.

(** The bit fields of a header byte are independent. *)
Definition header_ok (t d q r : Z) : bool :=
  let h := header_byte t d q r in
  (h =? 16 * t + 8 * d + 2 * q + r) && (header_type h =? t) && (header_dup h =? d) &&
  (header_qos h =? q) && (header_retain h =? r).

Lemma header_byte_ok t d q r :
  0 <= t < 16 -> 0 <= d < 2 -> 0 <= q < 4 -> 0 <= r < 2 ->
  header_byte t d q r = 16 * t + 8 * d + 2 * q + r /\
  header_type (header_byte t d q r) = t /\ header_dup (header_byte t d q r) = d /\
  header_qos (header_byte t d q r) = q /\ header_retain (header_byte t d q r) = r.
Proof.
  intros Ht Hd Hq Hr.
  assert (H : forallb (fun t => forallb (fun d => forallb (fun q => forallb (fun r =>
    header_ok t d q r) (seqZ 0 2)) (seqZ 0 4)) (seqZ 0 2)) (seqZ 0 16) = true) by by vm_compute.
  pose proof (forall_range _ _ H t Ht) as H1. pose proof (forall_range _ _ H1 d Hd) as H2.
  pose proof (forall_range _ _ H2 q Hq) as H3. pose proof (forall_range _ _ H3 r Hr) as H4.
  unfold header_ok in H4. rewrite !andb_true_iff, !Z.eqb_eq in H4. tauto.
Qed.

Lemma header_byte_u8 t d q r :
  0 <= t < 16 -> 0 <= d < 2 -> 0 <= q < 4 -> 0 <= r < 2 ->
  u8 (header_byte t d q r) = 16 * t + 8 * d + 2 * q + r.
Proof.
  intros Ht Hd Hq Hr. destruct (header_byte_ok t d q r Ht Hd Hq Hr) as [-> _].
  apply u8_id. unfold is_byte. lia.
Qed.

(** What a reader gets from the header byte [16 t + 8 d + 2 q + r]. *)
Lemma header_fields t d q r :
  0 <= t < 16 -> 0 <= d < 2 -> 0 <= q < 4 -> 0 <= r < 2 ->
  header_type (16 * t + 8 * d + 2 * q + r) = t /\ header_dup (16 * t + 8 * d + 2 * q + r) = d /\
  header_qos (16 * t + 8 * d + 2 * q + r) = q /\ header_retain (16 * t + 8 * d + 2 * q + r) = r.
Proof.
  intros Ht Hd Hq Hr. by destruct (header_byte_ok t d q r Ht Hd Hq Hr) as [<- H].
Qed.

Lemma rd_byte m i b : Forall is_byte m -> rd m i = Some b -> is_byte b.
Proof. unfold rd. rewrite Forall_lookup. intros Hm Hi. destruct (0 <=? i); [eauto | done]. Qed.

Lemma bufchar_Some buf pos rc c pos' :
  Forall is_byte buf -> bufchar buf pos = Some (rc, c, pos') -> rc = 1 /\ is_byte c /\ pos' = pos + 1.
Proof.
  unfold bufchar. intros Hb H. destruct (rd buf pos) eqn:E; [|done]. simpl in H. simplify_eq.
  eauto using rd_byte.
Qed.

(** The remaining length decoded from any bytes fits four digits. *)
Lemma decode_loop_bounds k : forall buf pos m len value l v p,
  Forall is_byte buf -> (k <= 5)%nat -> len = 5 - Z.of_nat k -> m = 128 ^ len -> 0 <= value < m ->
  decode_loop (bufchar buf) k pos m len value = Some (l, v, p) ->
  len < l <= 5 /\ 0 <= v < 268435456 /\ pos <= p.
Proof.
  induction k as [|k IH]; intros buf pos m len value l v p Hb Hk Hlen Hm Hv H; [done|].
  cbn [decode_loop] in H. unfold MAX_NO_OF_REMAINING_LENGTH_BYTES in H.
  destruct (Z.ltb_spec 4 (len + 1)) as [H4 | H4].
  { simplify_eq. assert (5 - Z.of_nat (S k) = 4) as E by lia. rewrite E in *.
    change (128 ^ 4) with 268435456 in Hv. lia. }
  destruct (bufchar buf pos) as [[[rc c] pos']|] eqn:Ec; [|done].
  apply bufchar_Some in Ec; [|done]. destruct Ec as (-> & Hc & ->).
  cbn [mbind option_bind] in H. change (negb (1 =? 1)) with false in H. cbv iota in H.
  rewrite land_127, land_128 in H by done. unfold is_byte in Hc.
  assert (Hm1 : m * 128 = 128 ^ (len + 1)) by (rewrite Z.pow_add_r by lia; lia).
  assert (Hv1 : 0 <= value + c mod 128 * m < m * 128) by (pose proof (Z.mod_pos_bound c 128); nia).
  destruct (negb (128 * (c / 128) =? 0)).
  - apply IH in H; [lia | done | lia | lia | done | done].
  - simplify_eq. split; [lia|]. split; [|lia]. rewrite Hm1 in Hv1.
    assert (128 ^ (5 - Z.of_nat (S k) + 1) <= 128 ^ 4) as Hp by (apply Z.pow_le_mono_r; lia).
    change (128 ^ 4) with 268435456 in Hp. lia.
Qed.

Lemma decodeBuf_bounds buf pos k n :
  Forall is_byte buf -> MQTTPacket_decodeBuf buf pos = Some (k, n) ->
  1 <= k <= 5 /\ 0 <= n < 268435456.
Proof.
  intros Hb H. unfold MQTTPacket_decodeBuf, MQTTPacket_decode in H.
  destruct (decode_loop (bufchar buf) 5 pos 1 0 0) as [[[l v] p]|] eqn:E; [|done].
  apply decode_loop_bounds in E; [|done|lia|done|done|lia]. simpl in H. simplify_eq. lia.
Qed.

(** A string is read only from inside [enddata]. *)
Lemma readMQTTLenString_bounds ms m pos enddata :
  Forall is_byte m -> 0 <= pos -> enddata <= zlen m ->
  exists rc ms' p', readMQTTLenString ms (at_ m pos) enddata = Some (rc, ms', at_ m p') /\
    pos <= p' /\ ((rc = 0 /\ p' <= Z.max pos enddata) \/ (rc = 1 /\ p' <= enddata /\
      exists T r, ms' = mk_str None (zlen T) (Some (T ++ r)) /\ pos + 2 + zlen T = p')).
Proof.
  intros Hb Hpos He. unfold readMQTTLenString, readInt. cbn [mem ptr].
  destruct (Z.ltb_spec 1 (enddata - pos)) as [Hr | Hr];
    [|eexists _, _, _; split; [done | split; [lia | left; lia]]].
  destruct (rd_Some m pos) as [b0 E0]; [lia|]. destruct (rd_Some m (pos + 1)) as [b1 E1]; [lia|].
  rewrite E0, E1. cbn [mbind option_bind mem ptr].
  apply rd_byte in E0; [|done]. apply rd_byte in E1; [|done].
 unfold is_byte in E0, E1.
  destruct (Z.leb_spec (pos + 2 + (256 * b0 + b1)) enddata) as [Hl | Hl];
    [|eexists _, _, _; split; [done | split; [lia | left; lia]]].
  eexists _, _, _. split; [done|]. split; [lia|]. right. split; [done|]. split; [lia|].
  destruct (split_at (drop (Z.to_nat (pos + 2)) m) (256 * b0 + b1)) as (T & r & -> & <-); [zl|].
  exists T, r. split; [done | lia].
Qed.

(** ** Properties *)

(** Round trip of the remaining length: [MQTTPacket_encode] writes one to
    four bytes at the cursor, and only those; [MQTTPacket_decodeBuf] reads the
    same number of bytes and the same value back; and [MQTTPacket_len] announces
    at least the size of the whole packet and at most one byte more. *)
Theorem remaining_length_roundtrip d r n :
  0 <= n < 268435456 -> 4 <= zlen r ->
  exists k, MQTTPacket_encode (d ++ r) (zlen d) n = Some (d ++ varint n ++ drop (Z.to_nat k) r, k) /\
    1 <= k <= 4 /\ MQTTPacket_decodeBuf (d ++ varint n ++ drop (Z.to_nat k) r) (zlen d) = Some (k, n) /\
    1 + k + n <= MQTTPacket_len n <= 2 + k + n.
Proof.
  intros Hn Hr. exists (zlen (varint n)).
  assert (Hk : 1 <= zlen (varint n) <= 4) by (rewrite zlen_varint by done; bool_cases; lia).
  rewrite zlen_to_nat. split; [|split; [done|]; split; [by apply decodeBuf_varint | by apply MQTTPacket_len_enough]].
  unfold MQTTPacket_encode. rewrite encode_loop_base128; [done | lia | done | lia | ].
  change (base128 5 n) with (varint n). lia.
Qed.

Lemma remaining_length_roundtrip_witness :
  exists k, MQTTPacket_encode [9; 0; 0; 0; 0] 1 321 = Some ([9; 193; 2] ++ drop (Z.to_nat k) [0; 0; 0; 0], k) /\
    1 <= k <= 4 /\ MQTTPacket_decodeBuf ([9; 193; 2] ++ drop (Z.to_nat k) [0; 0; 0; 0]) 1 = Some (k, 321) /\
    1 + k + 321 <= MQTTPacket_len 321 <= 2 + k + 321.
Proof. apply (remaining_length_roundtrip [9] [0; 0; 0; 0] 321); by vm_compute. Defined.

(** [MQTTPacket_equals] compares the text of an MQTTString, whichever of
    its two forms it has, with a C string. *)
Theorem MQTTPacket_equals_spec a T b :
  mqtt_str a T -> is_cstr b -> MQTTPacket_equals a b = Some (bool_decide (T = b)).
Proof.
  intros Ha Hb. unfold MQTTPacket_equals.
  assert (Hgo : forall tail, zlen T = zlen b ->
    strncmp0 (T ++ tail) (b ++ [0]) (Z.to_nat (zlen T)) = Some (bool_decide (T = b))).
  { intros tail HL. rewrite strncmp0_cstr; [|done | zl | zl].
    rewrite take_app_length' by zl. done. }
  assert (Hne : zlen T <> zlen b -> Some false = Some (bool_decide (T = b))).
  { intros HL. f_equal. symmetry. apply bool_decide_eq_false. by intros ->. }
  destruct Ha as [T r _ | T len data _ | [d|]]; cbn [cstring lenstring_len lenstring_data mbind option_bind].
  - destruct (Z.eqb_spec (zlen T) (zlen b)); eauto.
  - destruct (Z.eqb_spec (zlen T) (zlen b)); eauto.
  - destruct (Z.eqb_spec 0 (zlen b)) as [HL | HL]; [|by apply Hne]. by apply (Hgo d).
  - change (0 =? 0) with true. cbv iota. cbn [mbind option_bind].
    destruct (Z.eqb_spec 0 (zlen b)) as [HL | HL]; [|by apply Hne]. by apply (Hgo []).
Qed.

Lemma MQTTPacket_equals_spec_witness :
  MQTTPacket_equals (mk_str None 3 (Some (lit "cmd" ++ [255]))) (lit "cmd") = Some true.
Proof.
  apply (MQTTPacket_equals_spec (mk_str None 3 (Some (lit "cmd" ++ [255]))) (lit "cmd") (lit "cmd"));
    [by apply (ms_len (lit "cmd") [255]) | by repeat constructor].
Defined.

End MQTTPacket.

(** Lengths of packets. *)
Ltac wire_len :=
  rewrite ?zlen_app, ?MQTTPacket.zlen_str_wire, ?MQTTPacket.zlen_be16, ?zlen_cons, ?zlen_nil in *;
  unfold zlen in *; lia.

(** Present the argument of [finish] as a function of the initial cursor. *)
Ltac emit_from buf :=
  match goal with |- context [MQTTPacket.finish ?e] =>
    let f := eval pattern (MQTTPacket.at_ buf 0) in e in
    match f with ?g _ => change e with (g (MQTTPacket.at_ buf 0)) end end.
