(* ===== verification/MqttPublish.v ===== *)
(** src/src/mqtt/packet/src/MQTTSerializePublish.c and MQTTDeserializePublish.c:
    PUBLISH and the acknowledgements that carry only a packet identifier. *)
From S2P Require Import Prelude MqttPacket.
Import MQTTPacket.

Module MQTTPublish.

(** ** Serialization *)

Definition MQTTSerialize_publishLength (qos : Z) (topicName : MQTTString) (payloadlen : Z) : Z :=
  let len := 2 + MQTTstrlen topicName + payloadlen in
  if 0 <? qos then len + 2 else len.

(** Returns (rc, buffer afterwards). *)
Definition MQTTSerialize_publish (buf : list Z) (buflen dup qos retained packetid : Z)
    (topicName : MQTTString) (payload : list Z) (payloadlen : Z) : option (Z * list Z) :=
  let rem_len := MQTTSerialize_publishLength qos topicName payloadlen in
  if buflen <? MQTTPacket_len rem_len then Some (MQTTPACKET_BUFFER_TOO_SHORT, buf) else
  finish (
    p ← writeChar (at_ buf 0) (header_byte (msg_code PUBLISH) dup qos retained);
    p ← writeLength p rem_len;
    p ← writeMQTTString p topicName;
    p ← if 0 <? qos then writeInt p packetid else Some p;
    writeBytes p payload payloadlen).

Definition MQTTSerialize_ack (buf : list Z) (buflen packettype dup packetid : Z)
    : option (Z * list Z) :=
  if buflen <? 4 then Some (MQTTPACKET_BUFFER_TOO_SHORT, buf) else
  finish (
    p ← writeChar (at_ buf 0)
          (header_byte packettype dup (if packettype =? msg_code PUBREL then 1 else 0) 0);
    p ← writeLength p 2;
    writeInt p packetid).

Definition MQTTSerialize_puback (buf : list Z) (buflen packetid : Z) : option (Z * list Z) :=
  MQTTSerialize_ack buf buflen (msg_code PUBACK) 0 packetid.
Definition MQTTSerialize_pubrel (buf : list Z) (buflen dup packetid : Z) : option (Z * list Z) :=
  MQTTSerialize_ack buf buflen (msg_code PUBREL) dup packetid.
Definition MQTTSerialize_pubcomp (buf : list Z) (buflen packetid : Z) : option (Z * list Z) :=
  MQTTSerialize_ack buf buflen (msg_code PUBCOMP) 0 packetid.

(** ** Deserialization *)

(** The variables the caller passes by address. *)
Record publish_out := mk_publish {
  o_dup : Z; o_qos : Z; o_retained : Z; o_packetid : Z;
  o_topicName : MQTTString; o_payload : list Z; o_payloadlen : Z;
}.

(** Returns (rc, outputs); [buf] is the memory from the pointer to the end of
    its object. *)
Definition MQTTDeserialize_publish (o : publish_out) (buf : list Z) : option (Z * publish_out) :=
  '(c, curdata) ← readChar (at_ buf 0);
  let byte := u8 c in
  if negb (header_type byte =? msg_code PUBLISH) then Some (0, o) else
  let dup := header_dup byte in
  let qos := header_qos byte in
  let retained := header_retain byte in
  '(rc, mylen) ← MQTTPacket_decodeBuf buf (ptr curdata);
  let curdata := at_ buf (ptr curdata + rc) in
  let enddata := ptr curdata + mylen in
  '(ok, topicName, curdata) ← readMQTTLenString (o_topicName o) curdata enddata;
  if (ok =? 0) || (enddata - ptr curdata <? 0) then
    Some (rc, mk_publish dup qos retained (o_packetid o) topicName (o_payload o) (o_payloadlen o))
  else
  '(packetid, curdata) ← (if 0 <? qos then readInt curdata else Some (o_packetid o, curdata));
  Some (1, mk_publish dup qos retained packetid topicName
             (drop (Z.to_nat (ptr curdata)) buf) (enddata - ptr curdata)).

(** The body is a stub: nothing is read and nothing is assigned. *)
Definition MQTTDeserialize_ack (packettype dup packetid : Z) (buf : list Z) : Z * (Z * Z * Z) :=
  (1, (packettype, dup, packetid)).

(** ** The wire format (MQTT 3.1.1, sections 3.3 to 3.7) *)

Definition publish_body (qos packetid : Z) (T P : list Z) : list Z :=
  str_wire T ++ (if 0 <? qos then be16 packetid else []) ++ P.

Definition publish_wire (dup qos retained packetid : Z) (T P : list Z) : list Z :=
  [48 + 8 * dup + 2 * qos + retained] ++ varint (zlen (publish_body qos packetid T P)) ++
  publish_body qos packetid T P.

Definition ack_wire (type flags packetid : Z) : list Z := [16 * type + flags; 2] ++ be16 packetid.

(** ** Lemmas *)

Section publish.
Context (dup qos retained packetid : Z) (T P : list Z).
Context (Hdup : 0 <= dup < 2) (Hqos : 0 <= qos < 4) (Hret : 0 <= retained < 2).
Context (Hid : 0 <= packetid < 65536) (HT : zlen T < 65536).
Let body := publish_body qos packetid T P.
Context (Hbody : zlen body < 268435456).
Let W := publish_wire dup qos retained packetid T P.

Lemma publishLength_body ms :
  mqtt_str ms T -> MQTTSerialize_publishLength qos ms (zlen P) = zlen body.
Proof.
  intros Hms. unfold MQTTSerialize_publishLength, body, publish_body.
  rewrite (MQTTstrlen_str _ _ Hms), !zlen_app, zlen_str_wire.
  destruct (0 <? qos); rewrite ?zlen_be16; change (zlen (@nil Z)) with 0; lia.
Qed.

Lemma zlen_publish_wire : zlen W = 1 + zlen (varint (zlen body)) + zlen body.
Proof. unfold W, publish_wire. rewrite !zlen_app. fold body. change (zlen [_]) with 1. lia. Qed.

Lemma publish_wire_fits : zlen W <= MQTTPacket_len (zlen body) <= zlen W + 1.
Proof.
  rewrite zlen_publish_wire. pose proof (zlen_nonneg body).
  pose proof (MQTTPacket_len_enough (zlen body)). lia.
Qed.

Lemma publish_serialized buf buflen ms extra :
  mqtt_str ms T -> MQTTPacket_len (zlen body) <= buflen <= zlen buf ->
  MQTTSerialize_publish buf buflen dup qos retained packetid ms (P ++ extra) (zlen P) =
    Some (zlen W, W ++ drop (length W) buf).
Proof.
  intros Hms Hlen. pose proof publish_wire_fits. pose proof (zlen_nonneg body).
  unfold MQTTSerialize_publish. rewrite publishLength_body by done. if_false. emit_from buf.
  apply finish_emits; [|lia]. unfold W, publish_wire. fold body.
  apply emits_bind.
  { apply emits_writeChar. by rewrite header_byte_u8. }
  apply emits_bind; [apply emits_writeLength; unfold INT_MAX; lia|].
  unfold body, publish_body. apply emits_bind; [by apply emits_writeMQTTString|].
  apply emits_bind; [|apply emits_writeBytes].
  apply emits_if; intros _; [by apply emits_writeInt | apply emits_done].
Qed.

(** The optional packet identifier, written and read back. *)
Let ident := if 0 <? qos then be16 packetid else [].

Lemma read_ident old d r i :
  i = zlen d ->
  (if 0 <? qos then readInt (at_ (d ++ ident ++ r) i) else Some (old, at_ (d ++ ident ++ r) i)) =
    Some (if 0 <? qos then packetid else old, at_ (d ++ ident ++ r) (i + zlen ident)).
Proof.
  intros Hi. unfold ident. destruct (0 <? qos).
  - apply reads_at; [by apply reads_readInt | done].
  - change (zlen (@nil Z)) with 0. by rewrite Z.add_0_r.
Qed.

Lemma zlen_body : zlen body = 2 + zlen T + zlen ident + zlen P.
Proof. unfold body, publish_body. rewrite !zlen_app, zlen_str_wire. fold ident. lia. Qed.

Lemma publish_deserialized o r :
  MQTTDeserialize_publish o (W ++ r) =
    Some (1, mk_publish dup qos retained (if 0 <? qos then packetid else o_packetid o)
               (len_string T ((if 0 <? qos then be16 packetid else []) ++ P ++ r))
               (P ++ r) (zlen P)).
Proof.
  set (h := 48 + 8 * dup + 2 * qos + retained).
  destruct (header_fields 3 dup qos retained) as (Ht & Hd & Hq & Hr); [done..|].
  change (16 * 3 + 8 * dup + 2 * qos + retained) with h in *.
  unfold MQTTDeserialize_publish, W, publish_wire. fold body h.
  rewrite <- !app_assoc. cbn [app]. rewrite readChar_head by (unfold is_byte, h; lia).
  cbn [mbind option_bind ptr].
  rewrite u8_s8, u8_id by (unfold is_byte, h; lia). rewrite Ht, Hd, Hq, Hr.
  pose proof (zlen_nonneg body). rewrite decodeBuf_head by lia. cbn [mbind option_bind ptr].
  set (v := varint (zlen body)). pose proof zlen_body as HB.
  pose proof (zlen_nonneg ident). pose proof (zlen_nonneg P).
  replace (body ++ r) with (str_wire T ++ ident ++ P ++ r) by (unfold body, publish_body; by rewrite <- !app_assoc).
  rewrite app_comm_cons, readMQTTLenString_ok; [|done | by rewrite zlen_cons, Z.add_comm | lia].
  cbn [mbind option_bind ptr]. rewrite zlen_str_wire. if_false.
  change (negb (3 =? msg_code PUBLISH)) with false. cbv iota.
  rewrite (app_assoc (h :: v) (str_wire T)), read_ident by (rewrite zlen_app, zlen_cons, zlen_str_wire; lia).
  cbn [mbind option_bind ptr]. do 3 f_equal.
  - rewrite app_assoc. apply drop_app_zlen. rewrite !zlen_app, zlen_cons, zlen_str_wire. lia.
  - lia.
Qed.
End publish.

(** ** Properties *)

(** C11. [MQTTSerialize_publish] implements the PUBLISH format: on every input
    it either reports a short buffer and leaves the buffer alone, or leaves in
    it exactly the packet of MQTT 3.1.1 section 3.3 and nothing else; it never
    writes past the packet, and refuses a buffer at most one byte too early. *)
Theorem MQTTSerialize_publish_spec buf buflen dup qos retained packetid ms T P extra :
  0 <= dup < 2 -> 0 <= qos < 4 -> 0 <= retained < 2 -> 0 <= packetid < 65536 ->
  mqtt_str ms T -> zlen T < 65536 -> zlen (publish_body qos packetid T P) < 268435456 ->
  buflen <= zlen buf ->
  let W := publish_wire dup qos retained packetid T P in
  let r := MQTTSerialize_publish buf buflen dup qos retained packetid ms (P ++ extra) (zlen P) in
  (r = Some (zlen W, W ++ drop (length W) buf) /\ zlen W <= buflen) \/
  (r = Some (MQTTPACKET_BUFFER_TOO_SHORT, buf) /\ buflen <= zlen W).
Proof.
  intros Hd Hq Hr Hi Hms HT Hb Hlen W r.
  pose proof (publish_wire_fits dup qos retained packetid T P Hb) as Hf. fold W in Hf.
  destruct (Z.ltb_spec buflen (MQTTPacket_len (zlen (publish_body qos packetid T P)))) as [Hs | Hs].
  - right. split; [|lia]. unfold r, MQTTSerialize_publish.
    rewrite (publishLength_body qos packetid T P ms Hms). by if_true.
  - left. split; [|lia]. by apply publish_serialized.
Qed.

Lemma MQTTSerialize_publish_spec_witness :
  MQTTSerialize_publish (replicate 12 0) 12 0 1 0 258 (mk_str (Some (lit "a/b")) 0 None) (lit "hi") 2 =
    Some (11, [50; 9; 0; 3; 97; 47; 98; 1; 2; 104; 105; 0]).
Proof.
  destruct (MQTTSerialize_publish_spec (replicate 12 0) 12 0 1 0 258 (mk_str (Some (lit "a/b")) 0 None)
    (lit "a/b") (lit "hi") []) as [[H _] | [_ H]];
    [lia..| by apply ms_cstr | by vm_compute | by vm_compute | by vm_compute | exact H |].
  exfalso. vm_compute in H. by destruct H.
Defined.

(** C28. Round trip: what [MQTTSerialize_publish] reports as written,
    [MQTTDeserialize_publish] reads back, flags, identifier (when the QoS
    carries one), topic, payload and payload length, whatever follows the
    packet in the buffer and whatever the outputs held before. *)
Theorem publish_roundtrip buf buflen dup qos retained packetid ms T P extra rc buf' o :
  0 <= dup < 2 -> 0 <= qos < 4 -> 0 <= retained < 2 -> 0 <= packetid < 65536 ->
  mqtt_str ms T -> zlen T < 65536 -> zlen (publish_body qos packetid T P) < 268435456 ->
  buflen <= zlen buf ->
  MQTTSerialize_publish buf buflen dup qos retained packetid ms (P ++ extra) (zlen P) = Some (rc, buf') ->
  0 < rc ->
  exists rT rP,
    MQTTDeserialize_publish o buf' =
      Some (1, mk_publish dup qos retained (if 0 <? qos then packetid else o_packetid o)
                 (len_string T rT) (P ++ rP) (zlen P)).
Proof.
  intros Hd Hq Hr Hi Hms HT Hb Hlen H Hrc.
  destruct (Z.ltb_spec buflen (MQTTPacket_len (zlen (publish_body qos packetid T P)))) as [Hs | Hs].
  - unfold MQTTSerialize_publish in H. rewrite (publishLength_body qos packetid T P ms Hms) in H.
    apply Z.ltb_lt in Hs. rewrite Hs in H. simplify_eq. done.
  - rewrite (publish_serialized dup qos retained packetid T P) in H by first [done | lia].
    simplify_eq. eexists _, _. by apply publish_deserialized.
Qed.

Lemma publish_roundtrip_witness :
  exists rT rP,
    MQTTDeserialize_publish (mk_publish 9 9 9 9 MQTTString_initializer [] 9)
      [50; 9; 0; 3; 97; 47; 98; 1; 2; 104; 105; 0] =
      Some (1, mk_publish 0 1 0 258 (len_string (lit "a/b") rT) (lit "hi" ++ rP) 2).
Proof.
  apply (publish_roundtrip (replicate 12 0) 12 0 1 0 258 (mk_str (Some (lit "a/b")) 0 None)
    (lit "a/b") (lit "hi") [] 11 _ (mk_publish 9 9 9 9 MQTTString_initializer [] 9));
    [lia..| by apply ms_cstr | by vm_compute | by vm_compute | by vm_compute | by vm_compute | lia].
Defined.

(** C32. Bounds of [MQTTDeserialize_publish] on arbitrary bytes: when the
    remaining length and two more bytes are in the buffer, it reads nothing
    outside it; when the topic was readable, the payload it reports lies inside
    the buffer and is at most the remaining length, but the length can be -1 or
    -2, which happens when the packet has no room for its packet identifier. *)
Theorem MQTTDeserialize_publish_bounds o buf k n :
  Forall is_byte buf -> MQTTPacket_decodeBuf buf 1 = Some (k, n) -> 1 + k + n + 2 <= zlen buf ->
  exists rc o', MQTTDeserialize_publish o buf = Some (rc, o') /\
    (o_payload o' = o_payload o /\ o_payloadlen o' = o_payloadlen o /\ (rc = 0 \/ rc = k) \/
     rc = 1 /\ -2 <= o_payloadlen o' <= n /\ o_payloadlen o' <= zlen (o_payload o') /\
     (o_payloadlen o' < 0 -> 0 < o_qos o')).
Proof.
  intros Hb Hk Hlen. pose proof (decodeBuf_bounds _ _ _ _ Hb Hk) as Hkn.
  destruct buf as [|h buf]; [zl|]. inversion Hb as [|? ? Hh Hb']; subst.
  unfold MQTTDeserialize_publish. rewrite readChar_head by done.
  cbn [mbind option_bind ptr]. destruct (negb _); [eexists _, _; split; [done | tauto]|].
  rewrite Hk. cbn [mbind option_bind ptr].
  destruct (readMQTTLenString_bounds (o_topicName o) (h :: buf) (1 + k) (1 + k + n))
    as (rc & ms & p & -> & Hp & Hcase); [done | lia | lia |].
  cbn [mbind option_bind ptr]. destruct Hcase as [[-> _] | (-> & Hpe & _)].
  { eexists _, _. split; [done | simpl; tauto]. }
  if_false. destruct (Z.ltb_spec 0 (header_qos (u8 (s8 h)))) as [Hq | Hq].
  - unfold readInt. cbn [mem ptr].
    destruct (rd_Some (h :: buf) p) as [b0 ->]; [lia|]. destruct (rd_Some (h :: buf) (p + 1)) as [b1 ->]; [lia|].
    cbn [mbind option_bind ptr]. eexists _, _. split; [done|]. right.
    cbn [o_payloadlen o_payload o_qos]. split; [done|]. split; [lia|]. split; [zl | lia].
  - cbn [mbind option_bind ptr]. eexists _, _. split; [done|]. right.
    cbn [o_payloadlen o_payload o_qos]. split; [done|]. split; [lia|]. split; [zl | lia].
Qed.

Lemma MQTTDeserialize_publish_bounds_witness :
  exists rc o', MQTTDeserialize_publish (mk_publish 0 0 0 0 MQTTString_initializer [] 0)
      [50; 3; 0; 1; 97; 0; 0] = Some (rc, o') /\
    (o_payload o' = [] /\ o_payloadlen o' = 0 /\ (rc = 0 \/ rc = 1) \/
     rc = 1 /\ -2 <= o_payloadlen o' <= 3 /\ o_payloadlen o' <= zlen (o_payload o') /\
     (o_payloadlen o' < 0 -> 0 < o_qos o')).
Proof.
  apply (MQTTDeserialize_publish_bounds (mk_publish 0 0 0 0 MQTTString_initializer [] 0)
    [50; 3; 0; 1; 97; 0; 0] 1 3); [|done|by vm_compute].
  repeat constructor; by vm_compute.
Defined.

(** A packet of QoS 1 whose remaining length ends with the topic: the return
    code is success and the payload length is -2. *)
Example publish_negative_payloadlen :
  MQTTDeserialize_publish (mk_publish 0 0 0 0 MQTTString_initializer [] 0) [50; 3; 0; 1; 97; 7; 8] =
    Some (1, mk_publish 0 1 0 1800 (mk_str None 1 (Some [97; 7; 8])) [] (-2)).
Proof. reflexivity. Qed.

(** A truncated topic: the return code is the number of bytes of the remaining
    length, so a failure of a short packet is reported as 1, success. *)
Example publish_truncated_topic_reported_as_success :
  MQTTDeserialize_publish (mk_publish 0 0 0 0 MQTTString_initializer [42] 7) [48; 2; 0; 9] =
    Some (1, mk_publish 0 0 0 0 (mk_str None 9 None) [42] 7).
Proof. reflexivity. Qed.

(** [MQTTSerialize_ack] and the three functions over it write the four
    bytes of an acknowledgement (PUBREL with the mandatory flag 2) into any
    buffer of at least four bytes, and touch no shorter one. *)
Theorem MQTTSerialize_ack_spec buf buflen type dup packetid :
  0 <= type < 16 -> 0 <= dup < 2 -> 0 <= packetid < 65536 -> buflen <= zlen buf ->
  let W := ack_wire type (8 * dup + if type =? msg_code PUBREL then 2 else 0) packetid in
  MQTTSerialize_ack buf buflen type dup packetid =
    Some (if buflen <? 4 then (MQTTPACKET_BUFFER_TOO_SHORT, buf) else (4, W ++ drop 4 buf)).
Proof.
  intros Ht Hd Hi Hlen W. unfold MQTTSerialize_ack.
  destruct (Z.ltb_spec buflen 4); [done|]. emit_from buf.
  assert (HW : zlen W = 4) by done. rewrite (finish_emits _ W); [done | | lia].
  change W with ([16 * type + (8 * dup + if type =? msg_code PUBREL then 2 else 0)] ++ [2] ++ be16 packetid).
  apply emits_bind.
  { apply emits_writeChar. destruct (type =? msg_code PUBREL); rewrite header_byte_u8; lia. }
  apply emits_bind; [by apply (emits_writeLength 2) | by apply emits_writeInt].
Qed.

Lemma MQTTSerialize_ack_spec_witness :
  MQTTSerialize_pubrel [0; 0; 0; 0; 7] 5 1 300 = Some (4, [106; 2; 1; 44; 7]).
Proof.
  apply (MQTTSerialize_ack_spec [0; 0; 0; 0; 7] 5 (msg_code PUBREL) 1 300); by vm_compute.
Defined.

End MQTTPublish.
