(* ===== verification/MqttConnect.v ===== *)
(** src/src/mqtt/packet/src/MQTTConnect.h, MQTTConnectClient.c and
    MQTTConnectServer.c: CONNECT, CONNACK and the packets without a body. *)
From S2P Require Import Prelude MqttPacket.
Import MQTTPacket.

Module MQTTConnect.

Record MQTTPacket_willOptions := mk_will {
  topicName : MQTTString; message : MQTTString; retained : Z; qos : Z;
}.

(** The members [struct_id] and [struct_version] are never read. *)
Record MQTTPacket_connectData := mk_connect {
  MQTTVersion : Z; clientID : MQTTString; keepAliveInterval : Z; cleansession : Z;
  willFlag : Z; will : MQTTPacket_willOptions; username : MQTTString; password : MQTTString;
}.

Definition MQTTPacket_connectData_initializer : MQTTPacket_connectData :=
  mk_connect 4 MQTTString_initializer 60 1 0
    (mk_will MQTTString_initializer MQTTString_initializer 0 0)
    MQTTString_initializer MQTTString_initializer.

(** MQTTConnectFlags: the byte assembled from its bit fields, and the fields. *)
Definition connect_flags (f_clean f_will f_willQoS f_willRetain f_password f_username : Z) : Z :=
  Z.lor (Z.shiftl (Z.land f_clean 1) 1) (Z.lor (Z.shiftl (Z.land f_will 1) 2)
    (Z.lor (Z.shiftl (Z.land f_willQoS 3) 3) (Z.lor (Z.shiftl (Z.land f_willRetain 1) 5)
      (Z.lor (Z.shiftl (Z.land f_password 1) 6) (Z.shiftl (Z.land f_username 1) 7))))).
Definition flag_clean (all : Z) : Z := Z.land (Z.shiftr all 1) 1.
Definition flag_will (all : Z) : Z := Z.land (Z.shiftr all 2) 1.
Definition flag_willQoS (all : Z) : Z := Z.land (Z.shiftr all 3) 3.
Definition flag_willRetain (all : Z) : Z := Z.land (Z.shiftr all 5) 1.
Definition flag_password (all : Z) : Z := Z.land (Z.shiftr all 6) 1.
Definition flag_username (all : Z) : Z := Z.land (Z.shiftr all 7) 1.

(** [s.cstring || s.lenstring.data] *)
Definition given (s : MQTTString) : bool :=
  match cstring s, lenstring_data s with None, None => false | _, _ => true end.

(** ** MQTTConnectClient.c *)

Definition MQTTSerialize_connectLength (options : MQTTPacket_connectData) : Z :=
  let len := if MQTTVersion options =? 3 then 12 else if MQTTVersion options =? 4 then 10 else 0 in
  let len := len + (MQTTstrlen (clientID options) + 2) in
  let len := if negb (willFlag options =? 0)
    then len + (MQTTstrlen (topicName (will options)) + 2 + MQTTstrlen (message (will options)) + 2)
    else len in
  let len := if given (username options) then len + (MQTTstrlen (username options) + 2) else len in
  if given (password options) then len + (MQTTstrlen (password options) + 2) else len.

Definition MQTTSerialize_connect (buf : list Z) (buflen : Z) (options : MQTTPacket_connectData)
    : option (Z * list Z) :=
  let len := MQTTSerialize_connectLength options in
  if buflen <? MQTTPacket_len len then Some (MQTTPACKET_BUFFER_TOO_SHORT, buf) else
  let has_will := negb (willFlag options =? 0) in
  let has_user := given (username options) in
  let has_pass := given (password options) in
  finish (
    p ← writeChar (at_ buf 0) (header_byte (msg_code CONNECT) 0 0 0);
    p ← writeLength p len;
    p ← (if MQTTVersion options =? 4
         then p ← writeCString p (lit "MQTT"); writeChar p 4
         else p ← writeCString p (lit "MQIsdp"); writeChar p 3);
    p ← writeChar p (connect_flags (cleansession options) (if has_will then 1 else 0)
          (if has_will then qos (will options) else 0)
          (if has_will then retained (will options) else 0)
          (if has_pass then 1 else 0) (if has_user then 1 else 0));
    p ← writeInt p (keepAliveInterval options);
    p ← writeMQTTString p (clientID options);
    p ← (if has_will
         then p ← writeMQTTString p (topicName (will options));
              writeMQTTString p (message (will options))
         else Some p);
    p ← (if has_user then writeMQTTString p (username options) else Some p);
    if has_pass then writeMQTTString p (password options) else Some p).

(** Returns (rc, *sessionPresent, *connack_rc); [buf] starts after the fixed header. *)
Definition MQTTDeserialize_connack (buf : list Z) : option (Z * Z * Z) :=
  '(flags, p) ← readChar (at_ buf 0);
  '(c, _) ← readChar p;
  Some (1, Z.land (u8 flags) 1, u8 c).

Definition MQTTSerialize_zero (buf : list Z) (buflen packettype : Z) : option (Z * list Z) :=
  if buflen <? 2 then Some (MQTTPACKET_BUFFER_TOO_SHORT, buf) else
  finish (
    p ← writeChar (at_ buf 0) (header_byte packettype 0 0 0);
    writeLength p 0).

Definition MQTTSerialize_disconnect (buf : list Z) (buflen : Z) : option (Z * list Z) :=
  MQTTSerialize_zero buf buflen (msg_code DISCONNECT).
Definition MQTTSerialize_pingreq (buf : list Z) (buflen : Z) : option (Z * list Z) :=
  MQTTSerialize_zero buf buflen (msg_code PINGREQ).

(** ** MQTTConnectServer.c *)

(** [memcmp(data, name, min(n, len)) == 0] *)
Definition name_prefix (protocol : MQTTString) (name : list Z) : option bool :=
  let n := Z.min (zlen name) (lenstring_len protocol) in
  data ← lenstring_data protocol;
  s ← rdn data 0 n;
  Some (bool_decide (s = take (Z.to_nat n) name)).

Definition MQTTPacket_checkVersion (protocol : MQTTString) (version : Z) : option Z :=
  v3 ← (if version =? 3 then name_prefix protocol (lit "MQIsdp") else Some false);
  if (v3 : bool) then Some 1 else
  v4 ← (if version =? 4 then name_prefix protocol (lit "MQTT") else Some false);
  Some (if (v4 : bool) then 1 else 0).

Definition set_session (d : MQTTPacket_connectData) (clean keep : Z) : MQTTPacket_connectData :=
  mk_connect (MQTTVersion d) (clientID d) keep clean (willFlag d) (will d) (username d) (password d).
Definition set_clientID (d : MQTTPacket_connectData) (s : MQTTString) : MQTTPacket_connectData :=
  mk_connect (MQTTVersion d) s (keepAliveInterval d) (cleansession d) (willFlag d) (will d)
    (username d) (password d).
Definition set_will (d : MQTTPacket_connectData) (flag : Z) (w : MQTTPacket_willOptions)
    : MQTTPacket_connectData :=
  mk_connect (MQTTVersion d) (clientID d) (keepAliveInterval d) (cleansession d) flag w
    (username d) (password d).
Definition set_username (d : MQTTPacket_connectData) (s : MQTTString) : MQTTPacket_connectData :=
  mk_connect (MQTTVersion d) (clientID d) (keepAliveInterval d) (cleansession d) (willFlag d)
    (will d) s (password d).
Definition set_password (d : MQTTPacket_connectData) (s : MQTTString) : MQTTPacket_connectData :=
  mk_connect (MQTTVersion d) (clientID d) (keepAliveInterval d) (cleansession d) (willFlag d)
    (will d) (username d) s.

(** The part of [MQTTDeserialize_connect] after the client identifier that
    reads the will: (read?, data, cursor). *)
Definition read_will (data : MQTTPacket_connectData) (flags : Z) (curdata : cursor) (enddata : Z)
    : option (bool * MQTTPacket_connectData * cursor) :=
  let w := will data in
  let data := set_will data (flag_will flags) w in
  if flag_will flags =? 0 then Some (true, data, curdata) else
  let w := mk_will (topicName w) (message w) (flag_willRetain flags) (s8 (flag_willQoS flags)) in
  '(ok, s, curdata) ← readMQTTLenString (topicName w) curdata enddata;
  let w := mk_will s (message w) (retained w) (qos w) in
  if ok =? 0 then Some (false, set_will data (flag_will flags) w, curdata) else
  '(ok, s, curdata) ← readMQTTLenString (message w) curdata enddata;
  let w := mk_will (topicName w) s (retained w) (qos w) in
  Some (negb (ok =? 0), set_will data (flag_will flags) w, curdata).

(** ... and the part that reads the user name and the password: (rc, data). *)
Definition read_credentials (data : MQTTPacket_connectData) (flags : Z) (curdata : cursor)
    (enddata : Z) : option (Z * MQTTPacket_connectData) :=
  if negb (flag_username flags =? 0) then
    if enddata - ptr curdata <? 3 then Some (0, data) else
    '(ok, s, curdata) ← readMQTTLenString (username data) curdata enddata;
    let data := set_username data s in
    if ok =? 0 then Some (0, data) else
    if negb (flag_password flags =? 0) then
      if enddata - ptr curdata <? 3 then Some (0, data) else
      '(ok, s, _) ← readMQTTLenString (password data) curdata enddata;
      Some (if ok =? 0 then 0 else 1, set_password data s)
    else Some (1, data)
  else if negb (flag_password flags =? 0) then Some (0, data)
  else Some (1, data).

(** Returns (rc, data). *)
Definition MQTTDeserialize_connect (data : MQTTPacket_connectData) (buf : list Z) (len : Z)
    : option (Z * MQTTPacket_connectData) :=
  let enddata := len in
  '(c, curdata) ← readChar (at_ buf 0);
  if negb (header_type (u8 c) =? msg_code CONNECT) then Some (0, data) else
  '(k, _) ← MQTTPacket_decodeBuf buf (ptr curdata);
  let curdata := at_ buf (ptr curdata + k) in
  '(ok, Protocol, curdata) ← readMQTTLenString MQTTString_initializer curdata enddata;
  if (ok =? 0) || (enddata - ptr curdata <? 0) then Some (0, data) else
  '(version, curdata) ← readChar curdata;
  v ← MQTTPacket_checkVersion Protocol version;
  if v =? 0 then Some (0, data) else
  '(c, curdata) ← readChar curdata;
  let flags := u8 c in
  '(keep, curdata) ← readInt curdata;
  let data := set_session data (flag_clean flags) keep in
  '(ok, s, curdata) ← readMQTTLenString (clientID data) curdata enddata;
  let data := set_clientID data s in
  if ok =? 0 then Some (0, data) else
  '(ok, data, curdata) ← read_will data flags curdata enddata;
  if negb ok then Some (0, data) else
  read_credentials data flags curdata enddata.

Definition MQTTSerialize_connack (buf : list Z) (buflen connack_rc sessionPresent : Z)
    : option (Z * list Z) :=
  if buflen <? 2 then Some (MQTTPACKET_BUFFER_TOO_SHORT, buf) else
  finish (
    p ← writeChar (at_ buf 0) (header_byte (msg_code CONNACK) 0 0 0);
    p ← writeLength p 2;
    p ← writeChar p (Z.land sessionPresent 1);
    writeChar p connack_rc).

(** ** The wire format (MQTT 3.1.1, section 3.1) *)

(** What a client asks for in a CONNECT. *)
Record connect_msg := mk_msg {
  m_version : Z; m_clean : bool; m_keep : Z; m_client : list Z;
  m_will : option (Z * Z * list Z * list Z);
  m_user : option (list Z); m_pass : option (list Z);
}.

Definition has {A} (o : option A) : bool := match o with Some _ => true | None => false end.
Definition opt_flag {A} (o : option A) : Z := Z.b2z (has o).
Definition opt_wire (o : option (list Z)) : list Z := from_option str_wire [] o.

Definition will_qos (m : connect_msg) : Z := from_option (fun '(q, _, _, _) => q) 0 (m_will m).
Definition will_retain (m : connect_msg) : Z := from_option (fun '(_, r, _, _) => r) 0 (m_will m).
Definition will_wire (m : connect_msg) : list Z :=
  from_option (fun '(_, _, t, c) => str_wire t ++ str_wire c) [] (m_will m).

Definition flags_of (m : connect_msg) : Z :=
  2 * Z.b2z (m_clean m) + 4 * opt_flag (m_will m) + 8 * will_qos m + 32 * will_retain m +
  64 * opt_flag (m_pass m) + 128 * opt_flag (m_user m).

Definition protocol_wire (version : Z) : list Z :=
  if version =? 4 then str_wire (lit "MQTT") ++ [4] else str_wire (lit "MQIsdp") ++ [3].

Definition connect_body (m : connect_msg) : list Z :=
  protocol_wire (m_version m) ++ [flags_of m] ++ be16 (m_keep m) ++ str_wire (m_client m) ++
  will_wire m ++ opt_wire (m_user m) ++ opt_wire (m_pass m).

Definition connect_wire (m : connect_msg) : list Z :=
  [16] ++ varint (zlen (connect_body m)) ++ connect_body m.

Definition short (T : list Z) : Prop := zlen T < 65536.

(** The messages MQTT can carry. *)
Record msg_ok (m : connect_msg) : Prop := {
  ok_version : m_version m = 3 \/ m_version m = 4;
  ok_keep : 0 <= m_keep m < 65536;
  ok_client : short (m_client m);
  ok_will : from_option (fun '(q, r, t, c) => 0 <= q < 4 /\ 0 <= r < 2 /\ short t /\ short c) True (m_will m);
  ok_user : from_option short True (m_user m);
  ok_pass : from_option short True (m_pass m);
}.

Definition opt_str (s : MQTTString) (o : option (list Z)) : Prop :=
  match o with Some T => given s = true /\ mqtt_str s T | None => given s = false end.

(** The options structure that states the message [m]. *)
Record states (o : MQTTPacket_connectData) (m : connect_msg) : Prop := {
  st_version : MQTTVersion o = m_version m;
  st_clean : cleansession o = Z.b2z (m_clean m);
  st_keep : keepAliveInterval o = m_keep m;
  st_client : mqtt_str (clientID o) (m_client m);
  st_will : match m_will m with
    | Some (q, r, t, c) => willFlag o <> 0 /\ qos (will o) = q /\ retained (will o) = r /\
        mqtt_str (topicName (will o)) t /\ mqtt_str (message (will o)) c
    | None => willFlag o = 0
    end;
  st_user : opt_str (username o) (m_user m);
  st_pass : opt_str (password o) (m_pass m);
}.

(** ** Lemmas *)

Definition flags_ok (c w q r p u : Z) : bool :=
  let f := connect_flags c w q r p u in
  (f =? 2 * c + 4 * w + 8 * q + 32 * r + 64 * p + 128 * u) && (flag_clean f =? c) &&
  (flag_will f =? w) && (flag_willQoS f =? q) && (flag_willRetain f =? r) &&
  (flag_password f =? p) && (flag_username f =? u).

Lemma connect_flags_ok c w q r p u :
  0 <= c < 2 -> 0 <= w < 2 -> 0 <= q < 4 -> 0 <= r < 2 -> 0 <= p < 2 -> 0 <= u < 2 ->
  flags_ok c w q r p u = true.
Proof.
  intros Hc Hw Hq Hr Hp Hu.
  assert (H : forallb (fun c => forallb (fun w => forallb (fun q => forallb (fun r => forallb (fun p =>
    forallb (fun u => flags_ok c w q r p u) (seqZ 0 2)) (seqZ 0 2)) (seqZ 0 2)) (seqZ 0 4)) (seqZ 0 2))
    (seqZ 0 2) = true) by by vm_compute.
  apply (fun H => forall_range _ _ H c Hc) in H. apply (fun H => forall_range _ _ H w Hw) in H.
  apply (fun H => forall_range _ _ H q Hq) in H. apply (fun H => forall_range _ _ H r Hr) in H.
  apply (fun H => forall_range _ _ H p Hp) in H. exact (forall_range _ _ H u Hu).
Qed.

Section connect.
Context (m : connect_msg) (Hm : msg_ok m) (Hbody : zlen (connect_body m) < 268435456).
Let W := connect_wire m.

Lemma opt_flag_range {A} (o : option A) : 0 <= opt_flag o < 2.
Proof. destruct o; unfold opt_flag; simpl; lia. Qed.

Lemma will_ranges : 0 <= will_qos m < 4 /\ 0 <= will_retain m < 2.
Proof.
  unfold will_qos, will_retain. pose proof (ok_will m Hm) as H.
  destruct (m_will m) as [[[[q r] t] c]|]; simpl in *; [tauto | lia].
Qed.

Lemma flags_split :
  let f := flags_of m in
  is_byte f /\
  connect_flags (Z.b2z (m_clean m)) (opt_flag (m_will m)) (will_qos m) (will_retain m)
    (opt_flag (m_pass m)) (opt_flag (m_user m)) = f /\
  flag_clean f = Z.b2z (m_clean m) /\ flag_will f = opt_flag (m_will m) /\
  flag_willQoS f = will_qos m /\ flag_willRetain f = will_retain m /\
  flag_password f = opt_flag (m_pass m) /\ flag_username f = opt_flag (m_user m).
Proof.
  destruct will_ranges as [Hq Hr]. pose proof (opt_flag_range (m_will m)).
  pose proof (opt_flag_range (m_pass m)). pose proof (opt_flag_range (m_user m)).
  assert (Hc : 0 <= Z.b2z (m_clean m) < 2) by (destruct (m_clean m); simpl; lia).
  pose proof (connect_flags_ok (Z.b2z (m_clean m)) (opt_flag (m_will m)) (will_qos m) (will_retain m)
    (opt_flag (m_pass m)) (opt_flag (m_user m))) as F.
  unfold flags_ok in F. rewrite !andb_true_iff, !Z.eqb_eq in F. fold (flags_of m) in F.
  destruct F as ((((((F & ?) & ?) & ?) & ?) & ?) & ?); [lia..|].
  rewrite F in *. repeat split; try done; unfold is_byte, flags_of; lia.
Qed.

Lemma given_opt s o : opt_str s o -> given s = has o.
Proof. destruct o; simpl; tauto. Qed.

Lemma strlen_opt s o :
  opt_str s o -> zlen (opt_wire o) = if given s then MQTTstrlen s + 2 else 0.
Proof.
  intros Ho. rewrite (given_opt _ _ Ho). destruct o as [T|]; [|done].
  destruct Ho as [_ HT]. simpl. rewrite zlen_str_wire, (MQTTstrlen_str _ _ HT). lia.
Qed.

Lemma will_flag o : states o m -> negb (willFlag o =? 0) = has (m_will m).
Proof.
  intros Ho. pose proof (st_will _ _ Ho) as H. destruct (m_will m) as [[[[q r] t] c]|].
  - destruct H as [H _]. by apply Z.eqb_neq in H as ->.
  - by rewrite H.
Qed.

Lemma zlen_protocol_wire : zlen (protocol_wire (m_version m)) = if m_version m =? 3 then 9 else 7.
Proof. by destruct (ok_version m Hm) as [-> | ->]. Qed.

Lemma connectLength_body o :
  states o m -> MQTTSerialize_connectLength o = zlen (connect_body m).
Proof.
  intros Ho. unfold MQTTSerialize_connectLength, connect_body.
  rewrite (will_flag o Ho), !zlen_app, zlen_protocol_wire, zlen_be16, zlen_str_wire.
  rewrite (strlen_opt _ _ (st_user _ _ Ho)), (strlen_opt _ _ (st_pass _ _ Ho)).
  rewrite (MQTTstrlen_str _ _ (st_client _ _ Ho)), (st_version _ _ Ho).
  change (zlen [flags_of m]) with 1.
  assert (Hw : zlen (will_wire m) = if has (m_will m)
    then MQTTstrlen (topicName (will o)) + 2 + MQTTstrlen (message (will o)) + 2 else 0).
  { unfold will_wire. pose proof (st_will _ _ Ho) as H. destruct (m_will m) as [[[[q r] t] c]|]; [|done].
    destruct H as (_ & _ & _ & Ht & Hc). cbn [from_option has].
    rewrite zlen_app, !zlen_str_wire, (MQTTstrlen_str _ _ Ht), (MQTTstrlen_str _ _ Hc). lia. }
  rewrite Hw. destruct (ok_version m Hm) as [-> | ->]; simpl;
    destruct (has (m_will m)), (given (username o)), (given (password o)); lia.
Qed.

Lemma connect_wire_fits : zlen W <= MQTTPacket_len (zlen (connect_body m)) <= zlen W + 1.
Proof.
  unfold W, connect_wire. rewrite !zlen_app. change (zlen [_]) with 1.
  pose proof (zlen_nonneg (connect_body m)).
  pose proof (MQTTPacket_len_enough (zlen (connect_body m))). lia.
Qed.

Lemma emits_opt s o :
  opt_str s o -> from_option short True o ->
  Emits (fun p => if given s then writeMQTTString p s else Some p) (opt_wire o).
Proof.
  intros Ho Hs. destruct o as [T|]; simpl in Ho.
  - destruct Ho as [-> HT]. by apply emits_writeMQTTString.
  - rewrite Ho. apply emits_done.
Qed.

Lemma emits_will o :
  states o m ->
  Emits (fun p => if negb (willFlag o =? 0)
    then p ← writeMQTTString p (topicName (will o)); writeMQTTString p (message (will o))
    else Some p) (will_wire m).
Proof.
  intros Ho. rewrite (will_flag o Ho). pose proof (st_will _ _ Ho) as H. pose proof (ok_will m Hm) as Hs.
  unfold will_wire. destruct (m_will m) as [[[[q r] t] c]|]; [|apply emits_done].
  destruct H as (_ & _ & _ & Ht & Hc). destruct Hs as (_ & _ & Hst & Hsc).
  apply emits_bind; by apply emits_writeMQTTString.
Qed.

Lemma emits_protocol v :
  v = m_version m ->
  Emits (fun p => if v =? 4 then p ← writeCString p (lit "MQTT"); writeChar p 4
                  else p ← writeCString p (lit "MQIsdp"); writeChar p 3) (protocol_wire (m_version m)).
Proof.
  intros ->. unfold protocol_wire. destruct (m_version m =? 4);
    (apply emits_bind; [by apply emits_writeCString | by apply emits_writeChar]).
Qed.

Lemma connect_serialized buf buflen o :
  states o m -> MQTTPacket_len (zlen (connect_body m)) <= buflen <= zlen buf ->
  MQTTSerialize_connect buf buflen o = Some (zlen W, W ++ drop (length W) buf).
Proof.
  intros Ho Hlen. pose proof connect_wire_fits. pose proof (zlen_nonneg (connect_body m)).
  unfold MQTTSerialize_connect. rewrite connectLength_body by done. if_false. emit_from buf.
  apply finish_emits; [|lia]. unfold W, connect_wire.
  apply emits_bind; [by apply emits_writeChar|].
  apply emits_bind; [apply emits_writeLength; unfold INT_MAX; lia|].
  apply emits_bind; [apply emits_protocol, (st_version _ _ Ho)|].
  apply emits_bind.
  { apply emits_writeChar. destruct flags_split as (Hb & Hf & _).
    assert (Hw : (if negb (willFlag o =? 0) then qos (will o) else 0) = will_qos m /\
      (if negb (willFlag o =? 0) then retained (will o) else 0) = will_retain m).
    { rewrite (will_flag o Ho). unfold will_qos, will_retain. pose proof (st_will _ _ Ho) as H'.
      destruct (m_will m) as [[[[q r] t] c]|]; simpl; [tauto | done]. }
    destruct Hw as [-> ->]. rewrite (will_flag o Ho), (st_clean _ _ Ho).
    rewrite (given_opt _ _ (st_user _ _ Ho)), (given_opt _ _ (st_pass _ _ Ho)).
    change (if has ?x then 1 else 0) with (Z.b2z (has x)).
    fold (opt_flag (m_will m)) (opt_flag (m_user m)) (opt_flag (m_pass m)).
    rewrite Hf. by apply u8_id. }
  apply emits_bind; [rewrite (st_keep _ _ Ho); apply emits_writeInt, (ok_keep m Hm)|].
  apply emits_bind; [apply emits_writeMQTTString; [apply (st_client _ _ Ho) | apply (ok_client m Hm)]|].
  apply emits_bind; [by apply emits_will|].
  apply emits_bind; [apply emits_opt; [apply (st_user _ _ Ho) | apply (ok_user m Hm)]|].
  apply emits_opt; [apply (st_pass _ _ Ho) | apply (ok_pass m Hm)].
Qed.

(** *** Reading back *)

(** What the deserializer makes of the will of [m]. *)
Definition will_read (w : MQTTPacket_willOptions) (s t : list Z) : MQTTPacket_willOptions :=
  match m_will m with
  | Some (q, r, tp, c) => mk_will (len_string tp s) (len_string c t) r q
  | None => w
  end.

Lemma read_will_next data d r enddata :
  zlen (d ++ will_wire m) <= enddata ->
  exists s t, read_will data (flags_of m) (at_ (d ++ will_wire m ++ r) (zlen d)) enddata =
    Some (true, set_will data (opt_flag (m_will m)) (will_read (will data) s t),
          at_ ((d ++ will_wire m) ++ r) (zlen (d ++ will_wire m))).
Proof.
  intros He. destruct flags_split as (_ & _ & _ & Hw & Hq & Hr & _).
  unfold read_will. rewrite Hw, Hq, Hr. unfold will_read, will_qos, will_retain, will_wire in *.
  pose proof (ok_will m Hm) as Hs. destruct (m_will m) as [[[[q rt] tp] c]|]; cycle 1.
  { exists [], []. simpl. by rewrite app_nil_r. }
  cbn [from_option] in *. destruct Hs as (Hsq & Hsr & Hst & Hsc). unfold short in Hst, Hsc.
  exists (str_wire c ++ r), r. change (opt_flag (Some _) =? 0) with false. cbv iota.
  rewrite <- (app_assoc (str_wire tp)), readMQTTLenString_next by wire_len. cbn [mbind option_bind].
  rewrite readMQTTLenString_next by wire_len.
  cbn [mbind option_bind topicName message retained qos]. rewrite <- !app_assoc.
  rewrite s8_id by lia. done.
Qed.

(** The deserializer takes no password without a user name, and wants three
    bytes where a credential starts, so the last credential is not empty. *)
Definition readable : bool :=
  match m_user m, m_pass m with
  | None, None => true
  | None, Some _ => false
  | Some U, None => negb (bool_decide (U = []))
  | Some _, Some P => negb (bool_decide (P = []))
  end.

(** [s] reads as [o]; it is untouched when there is nothing to read. *)
Definition read_as (old s : MQTTString) (o : option (list Z)) : Prop :=
  match o with Some T => exists r, s = len_string T r | None => s = old end.

Lemma nil_zlen (T : list Z) : bool_decide (T = []) = (zlen T =? 0).
Proof. destruct T; [done|]. symmetry. rewrite zlen_cons. pose proof (zlen_nonneg T). simpl. lia. Qed.

Lemma read_credentials_next data d r enddata :
  enddata = zlen (d ++ opt_wire (m_user m) ++ opt_wire (m_pass m)) ->
  exists rc data',
    read_credentials data (flags_of m)
      (at_ (d ++ opt_wire (m_user m) ++ opt_wire (m_pass m) ++ r) (zlen d)) enddata = Some (rc, data') /\
    rc = Z.b2z readable /\
    (rc = 1 -> exists u p, read_as (username data) u (m_user m) /\ read_as (password data) p (m_pass m) /\
      data' = set_password (set_username data u) p).
Proof.
  intros He. destruct flags_split as (_ & _ & _ & _ & _ & _ & Hp & Hu).
  unfold read_credentials, readable. rewrite Hp, Hu. cbn [ptr].
  pose proof (ok_user m Hm) as Hsu. pose proof (ok_pass m Hm) as Hsp.
  destruct (m_user m) as [U|], (m_pass m) as [P|]; cbn [opt_wire from_option] in *;
    unfold short in *; unfold opt_flag; cbn [has Z.b2z]; simpl negb; cbv iota;
    rewrite ?app_nil_r, ?zlen_app, ?zlen_str_wire, ?nil_zlen in *.
  - assert (HU : zlen (d ++ str_wire U) = zlen d + (2 + zlen U)) by by rewrite zlen_app, zlen_str_wire.
    if_false. rewrite readMQTTLenString_next by wire_len. cbn [mbind option_bind ptr]. cbv iota.
    simpl (1 =? 0). cbv iota.
    destruct (Z.eqb_spec (zlen P) 0) as [H0 | H0].
    + if_true. eexists _, _. split; [done|]. done.
    + if_false. rewrite readMQTTLenString_next by wire_len. cbn [mbind option_bind].
      eexists _, _. split; [done|]. split; [done|]. intros _. eexists _, _.
      split; [by eexists|]. split; [by eexists | done].
  - destruct (Z.eqb_spec (zlen U) 0) as [H0 | H0].
    + if_true. eexists _, _. split; [done|]. done.
    + if_false. rewrite readMQTTLenString_next by wire_len. cbn [mbind option_bind]. simpl (1 =? 0). cbv iota.
      eexists _, _. split; [done|]. split; [done|]. intros _. eexists _, (password data).
      split; [by eexists|]. split; [done | by destruct data].
  - eexists _, _. by split.
  - eexists _, _. split; [done|]. split; [done|]. intros _. exists (username data), (password data).
    split; [done|]. split; [done | by destruct data].
Qed.

Lemma checkVersion_protocol r :
  let name := if m_version m =? 4 then lit "MQTT" else lit "MQIsdp" in
  MQTTPacket_checkVersion (len_string name r) (m_version m) = Some 1.
Proof.
  assert (Hn : forall name, name_prefix (len_string name r) name = Some true).
  { intros name. unfold name_prefix. cbn [lenstring_len lenstring_data len_string mbind option_bind].
    rewrite Z.min_id, rdn_app_0 by done. cbn [mbind option_bind]. rewrite zlen_to_nat, firstn_all.
    f_equal. by apply bool_decide_eq_true. }
  unfold MQTTPacket_checkVersion.
  destruct (ok_version m Hm) as [-> | ->]; cbv beta zeta; simpl (_ =? _); cbv iota;
    by rewrite Hn.
Qed.

(** What the deserializer reports of [m]; the version is not recorded. *)
Record connect_read (data data' : MQTTPacket_connectData) : Prop := {
  rd_version : MQTTVersion data' = MQTTVersion data;
  rd_clean : cleansession data' = Z.b2z (m_clean m);
  rd_keep : keepAliveInterval data' = m_keep m;
  rd_client : exists r, clientID data' = len_string (m_client m) r;
  rd_will : willFlag data' = opt_flag (m_will m) /\
    exists s t, MQTTConnect.will data' = will_read (MQTTConnect.will data) s t;
  rd_user : read_as (username data) (username data') (m_user m);
  rd_pass : read_as (password data) (password data') (m_pass m);
}.

Lemma protocol_next d r enddata :
  zlen (d ++ protocol_wire (m_version m)) <= enddata ->
  exists s,
  readMQTTLenString MQTTString_initializer (at_ (d ++ protocol_wire (m_version m) ++ r) (zlen d)) enddata =
    Some (1, len_string (if m_version m =? 4 then lit "MQTT" else lit "MQIsdp") s,
          at_ (d ++ protocol_wire (m_version m) ++ r) (zlen (d ++ protocol_wire (m_version m)) - 1)) /\
  readChar (at_ (d ++ protocol_wire (m_version m) ++ r) (zlen (d ++ protocol_wire (m_version m)) - 1)) =
    Some (m_version m, at_ ((d ++ protocol_wire (m_version m)) ++ r) (zlen (d ++ protocol_wire (m_version m)))).
Proof.
  intros He. unfold protocol_wire in *.
  set (name := if m_version m =? 4 then lit "MQTT" else lit "MQIsdp") in *.
  assert (E : (if m_version m =? 4 then str_wire (lit "MQTT") ++ [4] else str_wire (lit "MQIsdp") ++ [3]) =
    str_wire name ++ [m_version m]) by (by destruct (ok_version m Hm) as [H | H]; unfold name; rewrite H).
  assert (Hn : zlen name < 65536) by (unfold name; by destruct (m_version m =? 4)).
  rewrite E in *. clearbody name. exists ([m_version m] ++ r).
  assert (Hl : zlen (d ++ str_wire name ++ [m_version m]) - 1 = zlen (d ++ str_wire name)) by
    (rewrite app_assoc, zlen_app; change (zlen [_]) with 1; lia).
  rewrite Hl, <- app_assoc. split.
  - rewrite readMQTTLenString_next; [by rewrite <- !app_assoc | done | lia].
  - rewrite app_assoc. change ([m_version m] ++ r) with (m_version m :: r). rewrite readChar_next.
    rewrite <- !app_assoc. rewrite s8_id; [done|]. destruct (ok_version m Hm) as [-> | ->]; lia.
Qed.

Lemma connect_deserialized data r :
  exists rc data', MQTTDeserialize_connect data (W ++ r) (zlen W) = Some (rc, data') /\
    rc = Z.b2z readable /\ (rc = 1 -> connect_read data data').
Proof.
  destruct flags_split as (Hfb & _ & Hclean & _).
  pose proof (zlen_nonneg (connect_body m)).
  pose proof (ok_keep m Hm). pose proof (ok_client m Hm) as Hc. unfold short in Hc.
  unfold MQTTDeserialize_connect, W, connect_wire. rewrite <- !app_assoc. cbn [app].
  rewrite readChar_head by (unfold is_byte; lia).
  cbn [mbind option_bind ptr]. change (negb (header_type (u8 (s8 16)) =? msg_code CONNECT)) with false.
  cbv iota. rewrite decodeBuf_head by lia. cbn [mbind option_bind].
  set (v := varint (zlen (connect_body m))). set (d := 16 :: v).
  change (16 :: v ++ ?x) with (d ++ x). replace (1 + zlen v) with (zlen d) by (unfold d; rewrite zlen_cons; lia).
  set (e := zlen (d ++ connect_body m)). clearbody d.
  set (pw := protocol_wire (m_version m)). set (cw := str_wire (m_client m)).
  set (uw := opt_wire (m_user m)). set (sw := opt_wire (m_pass m)).
  assert (He : e = zlen (d ++ pw ++ [flags_of m] ++ be16 (m_keep m) ++ cw ++ will_wire m ++ uw ++ sw)) by done.
  replace (connect_body m ++ r) with (pw ++ flags_of m :: be16 (m_keep m) ++ cw ++ will_wire m ++ uw ++ sw ++ r)
    by (unfold connect_body; rewrite <- !app_assoc; done).
  clearbody e. rewrite !zlen_app in He. change (zlen [flags_of m]) with 1 in He. rewrite zlen_be16 in He.
  destruct (protocol_next d (flags_of m :: be16 (m_keep m) ++ cw ++ will_wire m ++ uw ++ sw ++ r) e)
    as (s & E1 & E2); [rewrite zlen_app; fold pw; wire_len|]. fold pw in E1, E2.
  rewrite E1. cbn [mbind option_bind ptr]. rewrite zlen_app. if_false. rewrite <- zlen_app, E2.
  cbn [mbind option_bind]. rewrite checkVersion_protocol. cbn [mbind option_bind].
  change (1 =? 0) with false. cbv iota.
  rewrite readChar_next. cbn [mbind option_bind]. rewrite u8_s8, u8_id by done. rewrite Hclean.
  rewrite readInt_next by done. cbn [mbind option_bind].
  unfold cw. rewrite readMQTTLenString_next by first [done | rewrite !zlen_app; fold cw; wire_len].
  cbn [mbind option_bind]. change (1 =? 0) with false. cbv iota. fold cw.
  set (data1 := set_clientID _ _).
  edestruct (read_will_next data1) as (s1 & t1 & ->); [rewrite !zlen_app; wire_len|].
  cbn [mbind option_bind negb]. cbv iota.
  set (data2 := set_will _ _ _).
  edestruct (read_credentials_next data2) as (rc & data' & -> & Hrc & Hd);
    [| eexists _, _; split; [done | split; [exact Hrc|]] ].
  { rewrite !zlen_app. fold uw sw. change (zlen [flags_of m]) with 1. rewrite zlen_be16. lia. }
  intros H1. destruct (Hd H1) as (u & p & Hu & Hp & ->). split; try done; simpl; eauto.
Qed.

End connect.

(** ** Properties *)

(** C27. [MQTTSerialize_connect] implements the CONNECT format: for the options
    that state a message [m], it writes exactly the packet of MQTT 3.1.1
    section 3.1 for [m] and nothing else, or reports a short buffer and writes
    nothing; a buffer is refused at most one byte too early. *)
Theorem MQTTSerialize_connect_spec buf buflen o m :
  states o m -> msg_ok m -> zlen (connect_body m) < 268435456 -> buflen <= zlen buf ->
  let W := connect_wire m in
  (MQTTSerialize_connect buf buflen o = Some (zlen W, W ++ drop (length W) buf) /\ zlen W <= buflen) \/
  (MQTTSerialize_connect buf buflen o = Some (MQTTPACKET_BUFFER_TOO_SHORT, buf) /\ buflen <= zlen W).
Proof.
  intros Ho Hm Hb Hlen W. pose proof (connect_wire_fits m Hb) as Hf. fold W in Hf.
  destruct (Z.ltb_spec buflen (MQTTPacket_len (zlen (connect_body m)))) as [Hs | Hs].
  - right. split; [|lia]. unfold MQTTSerialize_connect. rewrite (connectLength_body m Hm o Ho). by if_true.
  - left. split; [|lia]. by apply connect_serialized.
Qed.

Definition sample_msg : connect_msg :=
  mk_msg 4 true 60 (lit "gw") (Some (1, 0, lit "t", lit "x")) (Some (lit "u")) (Some (lit "p")).
Definition sample_options : MQTTPacket_connectData :=
  mk_connect 4 (mk_str (Some (lit "gw")) 0 None) 60 1 1
    (mk_will (mk_str (Some (lit "t")) 0 None) (mk_str None 1 (Some (lit "x"))) 0 1)
    (mk_str (Some (lit "u")) 0 None) (mk_str None 1 (Some (lit "p"))).
Definition sample_wire : list Z :=
  [16; 26; 0; 4; 77; 81; 84; 84; 4; 206; 0; 60; 0; 2; 103; 119; 0; 1; 116; 0; 1; 120; 0; 1; 117; 0; 1; 112].

Lemma sample_states : states sample_options sample_msg.
Proof.
  split; try done.
  - by apply ms_cstr.
  - split; [done|]. split; [done|]. split; [done|]. split; [by apply ms_cstr|].
    by apply (ms_len (lit "x") []).
  - split; [done | by apply ms_cstr].
  - split; [done | by apply (ms_len (lit "p") [])].
Defined.

Lemma sample_ok : msg_ok sample_msg.
Proof. split; [by right | by vm_compute ..]. Defined.

Lemma MQTTSerialize_connect_spec_witness :
  MQTTSerialize_connect (replicate 30 0) 30 sample_options = Some (28, sample_wire ++ [0; 0]).
Proof.
  destruct (MQTTSerialize_connect_spec (replicate 30 0) 30 sample_options sample_msg sample_states sample_ok)
    as [[H _] | [_ H]]; [by vm_compute | by vm_compute | exact H |].
  exfalso. vm_compute in H. by destruct H.
Defined.

(** Round trip of CONNECT: [MQTTDeserialize_connect] reads back what
    [MQTTSerialize_connect] reports as written (flags, keep-alive, client
    identifier, will and credentials), with one restriction that the theorem
    makes exact: a password without a user name, and a user name or password
    that is empty and last, are rejected although the serializer emits them. *)
Theorem connect_roundtrip buf buflen o m rc buf' data :
  states o m -> msg_ok m -> zlen (connect_body m) < 268435456 -> buflen <= zlen buf ->
  MQTTSerialize_connect buf buflen o = Some (rc, buf') -> 0 < rc ->
  exists rc' data', MQTTDeserialize_connect data buf' rc = Some (rc', data') /\
    rc' = Z.b2z (readable m) /\ (rc' = 1 -> connect_read m data data').
Proof.
  intros Ho Hm Hb Hlen H Hrc.
  destruct (Z.ltb_spec buflen (MQTTPacket_len (zlen (connect_body m)))) as [Hs | Hs].
  - unfold MQTTSerialize_connect in H. rewrite (connectLength_body m Hm o Ho) in H.
    apply Z.ltb_lt in Hs. rewrite Hs in H. by simplify_eq.
  - rewrite (connect_serialized m) in H by first [done | lia]. simplify_eq.
    by apply connect_deserialized.
Qed.

Lemma connect_roundtrip_witness :
  exists rc' data', MQTTDeserialize_connect MQTTPacket_connectData_initializer (sample_wire ++ [0; 0]) 28
      = Some (rc', data') /\
    rc' = Z.b2z (readable sample_msg) /\
    (rc' = 1 -> connect_read sample_msg MQTTPacket_connectData_initializer data').
Proof.
  apply (connect_roundtrip (replicate 30 0) 30 sample_options sample_msg 28);
    [exact sample_states | exact sample_ok | by vm_compute | by vm_compute | by vm_compute | lia].
Defined.

(** CONNACK on every buffer: [MQTTSerialize_connack] refuses a buffer below
    two bytes, writes out of bounds when the buffer has two or three (its guard
    counts two of the four bytes), and otherwise writes a packet whose variable
    header [MQTTDeserialize_connack] reads back. *)
Theorem connack_spec buf rc sp :
  is_byte rc -> 0 <= sp < 2 ->
  let r := MQTTSerialize_connack buf (zlen buf) rc sp in
  (zlen buf < 2 -> r = Some (MQTTPACKET_BUFFER_TOO_SHORT, buf)) /\
  (2 <= zlen buf < 4 -> r = None) /\
  (4 <= zlen buf -> r = Some (4, [32; 2; sp; rc] ++ drop 4 buf) /\
     MQTTDeserialize_connack ([sp; rc] ++ drop 4 buf) = Some (1, sp, rc)).
Proof.
  intros Hrc Hsp r. unfold r, MQTTSerialize_connack. split; [|split].
  - intros Hs. by if_true.
  - intros Hs. if_false. destruct buf as [|a [|b [|c [|d buf]]]]; try zl; reflexivity.
  - intros Hs. if_false. split.
    + emit_from buf. apply (finish_emits _ [32; 2; sp; rc]); [|done].
      change [32; 2; sp; rc] with ([32] ++ [2] ++ [sp] ++ [rc]).
      apply emits_bind; [by apply emits_writeChar|].
      apply emits_bind; [by apply (emits_writeLength 2)|].
      assert (Z.land sp 1 = sp) as -> by (by apply Z.eqb_eq, (forall_range (fun s => Z.land s 1 =? s) 2)).
      apply emits_bind; apply emits_writeChar, u8_id; [unfold is_byte; lia | done].
    + change (Some (1, Z.land (u8 (s8 sp)) 1, u8 (s8 rc)) = Some (1, sp, rc)).
      rewrite !u8_s8, !u8_id by (done || unfold is_byte; lia).
      by assert (Z.land sp 1 = sp) as -> by (by apply Z.eqb_eq, (forall_range (fun s => Z.land s 1 =? s) 2)).
Qed.

Lemma connack_spec_witness :
  MQTTSerialize_connack [0; 0; 0] 3 0 1 = None /\
  MQTTSerialize_connack [0; 0; 0; 0; 9] 5 4 1 = Some (4, [32; 2; 1; 4; 9]).
Proof.
  split.
  - apply (connack_spec [0; 0; 0] 0 1); by vm_compute.
  - apply (connack_spec [0; 0; 0; 0; 9] 4 1); by vm_compute.
Defined.

End MQTTConnect.
