(* ===== verification/MqttSubscribe.v ===== *)
(** src/src/mqtt/packet/src/MQTTSubscribeClient.c, MQTTSubscribeServer.c,
    MQTTUnsubscribeClient.c and MQTTUnsubscribeServer.c: SUBSCRIBE, SUBACK,
    UNSUBSCRIBE and UNSUBACK. The arrays of topics and QoS values are lists; an
    access outside them is [None]. *)
From S2P Require Import Prelude MqttPacket MqttPublish.
Import MQTTPacket.

Module MQTTSubscribe.

(** ** MQTTSubscribeClient.c *)

Definition MQTTSerialize_subscribeLength (count : Z) (topicFilters : list MQTTString) : option Z :=
  for_ count (fun i len => t ← rd topicFilters i; Some (len + (2 + MQTTstrlen t + 1))) 2.

Definition MQTTSerialize_subscribe (buf : list Z) (buflen dup packetid count : Z)
    (topicFilters : list MQTTString) (requestedQoSs : list Z) : option (Z * list Z) :=
  rem_len ← MQTTSerialize_subscribeLength count topicFilters;
  if buflen <? MQTTPacket_len rem_len then Some (MQTTPACKET_BUFFER_TOO_SHORT, buf) else
  finish (
    p ← writeChar (at_ buf 0) (header_byte (msg_code SUBSCRIBE) dup 1 0);
    p ← writeLength p rem_len;
    p ← writeInt p packetid;
    for_ count (fun i p =>
      t ← rd topicFilters i;
      p ← writeMQTTString p t;
      q ← rd requestedQoSs i;
      writeChar p q) p).

(** The loop of [MQTTDeserialize_suback]; every round reads one byte.
    Returns (rc, *count, grantedQoSs). *)
Fixpoint suback_loop (fuel : nat) (maxcount enddata : Z) (curdata : cursor) (count : Z)
    (grantedQoSs : list Z) : option (Z * Z * list Z) :=
  if enddata <=? ptr curdata then Some (1, count, grantedQoSs) else
  match fuel with
  | O => None
  | S fuel' =>
      if maxcount <? count then Some (-1, count, grantedQoSs) else
      '(c, curdata) ← readChar curdata;
      g ← wr grantedQoSs count c;
      suback_loop fuel' maxcount enddata curdata (count + 1) g
  end.

Definition MQTTDeserialize_suback (maxcount : Z) (grantedQoSs : list Z) (buf : list Z)
    : option (Z * Z * list Z) :=
  '(n, curdata) ← readInt (at_ buf 0);
  let enddata := 0 + n in
  suback_loop (Z.to_nat enddata) maxcount enddata curdata 0 grantedQoSs.

(** ** MQTTSubscribeServer.c *)

Record subscribe_out := mk_sub {
  s_dup : Z; s_packetid : Z; s_count : Z; s_topicFilters : list MQTTString; s_requestedQoSs : list Z;
}.

(** A round that does not leave the loop reads at least three bytes. [rc] is
    the value a [goto exit] returns. *)
Fixpoint subscribe_loop (fuel : nat) (rc enddata : Z) (curdata : cursor) (o : subscribe_out)
    : option (Z * subscribe_out) :=
  if enddata <=? ptr curdata then Some (1, o) else
  match fuel with
  | O => None
  | S fuel' =>
      t ← rd (s_topicFilters o) (s_count o);
      '(ok, t, curdata) ← readMQTTLenString t curdata enddata;
      topics ← wr (s_topicFilters o) (s_count o) t;
      let o := mk_sub (s_dup o) (s_packetid o) (s_count o) topics (s_requestedQoSs o) in
      if ok =? 0 then Some (rc, o) else
      if enddata <=? ptr curdata then Some (rc, o) else
      '(c, curdata) ← readChar curdata;
      qs ← wr (s_requestedQoSs o) (s_count o) c;
      subscribe_loop fuel' rc enddata curdata
        (mk_sub (s_dup o) (s_packetid o) (s_count o + 1) topics qs)
  end.

Definition MQTTDeserialize_subscribe (o : subscribe_out) (buf : list Z) : option (Z * subscribe_out) :=
  '(c, curdata) ← readChar (at_ buf 0);
  let header := u8 c in
  if negb (header_type header =? msg_code SUBSCRIBE) then Some (-1, o) else
  '(rc, mylen) ← MQTTPacket_decodeBuf buf (ptr curdata);
  let curdata := at_ buf (ptr curdata + rc) in
  let enddata := ptr curdata + mylen in
  '(packetid, curdata) ← readInt curdata;
  subscribe_loop (Z.to_nat mylen) rc enddata curdata
    (mk_sub (header_dup header) packetid 0 (s_topicFilters o) (s_requestedQoSs o)).

Definition MQTTSerialize_suback (buf : list Z) (buflen packetid count : Z) (grantedQoSs : list Z)
    : option (Z * list Z) :=
  if buflen <? 2 + count then Some (MQTTPACKET_BUFFER_TOO_SHORT, buf) else
  finish (
    p ← writeChar (at_ buf 0) (header_byte (msg_code SUBACK) 0 0 0);
    p ← writeLength p (2 + count);
    p ← writeInt p packetid;
    for_ count (fun i p => q ← rd grantedQoSs i; writeChar p q) p).

(** ** MQTTUnsubscribeClient.c *)

Definition MQTTSerialize_unsubscribeLength (count : Z) (topicFilters : list MQTTString) : option Z :=
  for_ count (fun i len => t ← rd topicFilters i; Some (len + (2 + MQTTstrlen t))) 2.

Definition MQTTSerialize_unsubscribe (buf : list Z) (buflen dup packetid count : Z)
    (topicFilters : list MQTTString) : option (Z * list Z) :=
  rem_len ← MQTTSerialize_unsubscribeLength count topicFilters;
  if buflen <? MQTTPacket_len rem_len then Some (MQTTPACKET_BUFFER_TOO_SHORT, buf) else
  finish (
    p ← writeChar (at_ buf 0) (header_byte (msg_code UNSUBSCRIBE) dup 1 0);
    p ← writeLength p rem_len;
    p ← writeInt p packetid;
    for_ count (fun i p => t ← rd topicFilters i; writeMQTTString p t) p).

(** [MQTTDeserialize_ack] leaves the local [type] 0. Returns (rc, *packetid). *)
Definition MQTTDeserialize_unsuback (packetid : Z) (buf : list Z) : Z * Z :=
  let '(rc, (type, dup, packetid)) := MQTTPublish.MQTTDeserialize_ack 0 0 packetid buf in
  (if type =? msg_code UNSUBACK then 1 else rc, packetid).

(** ** MQTTUnsubscribeServer.c *)

Fixpoint unsubscribe_loop (fuel : nat) (rc enddata : Z) (curdata : cursor) (o : subscribe_out)
    : option (Z * subscribe_out) :=
  if enddata <=? ptr curdata then Some (1, o) else
  match fuel with
  | O => None
  | S fuel' =>
      t ← rd (s_topicFilters o) (s_count o);
      '(ok, t, curdata) ← readMQTTLenString t curdata enddata;
      topics ← wr (s_topicFilters o) (s_count o) t;
      if ok =? 0
      then Some (rc, mk_sub (s_dup o) (s_packetid o) (s_count o) topics (s_requestedQoSs o))
      else unsubscribe_loop fuel' rc enddata curdata
             (mk_sub (s_dup o) (s_packetid o) (s_count o + 1) topics (s_requestedQoSs o))
  end.

(** [s_requestedQoSs] has no counterpart here and is passed through. *)
Definition MQTTDeserialize_unsubscribe (o : subscribe_out) (buf : list Z) : option (Z * subscribe_out) :=
  '(c, curdata) ← readChar (at_ buf 0);
  let header := u8 c in
  if negb (header_type header =? msg_code UNSUBSCRIBE) then Some (0, o) else
  '(rc, mylen) ← MQTTPacket_decodeBuf buf (ptr curdata);
  let curdata := at_ buf (ptr curdata + rc) in
  let enddata := ptr curdata + mylen in
  '(packetid, curdata) ← readInt curdata;
  unsubscribe_loop (Z.to_nat mylen) rc enddata curdata
    (mk_sub (header_dup header) packetid 0 (s_topicFilters o) (s_requestedQoSs o)).

Definition MQTTSerialize_unsuback (buf : list Z) (buflen packetid : Z) : option (Z * list Z) :=
  if buflen <? 2 then Some (MQTTPACKET_BUFFER_TOO_SHORT, buf) else
  finish (
    p ← writeChar (at_ buf 0) (header_byte (msg_code UNSUBACK) 0 0 0);
    p ← writeLength p 2;
    writeInt p packetid).

(** ** The wire format (MQTT 3.1.1, sections 3.8 to 3.11) *)

Definition request_wire (e : list Z * Z) : list Z := str_wire (fst e) ++ [snd e].

Definition subscribe_body (packetid : Z) (es : list (list Z * Z)) : list Z :=
  be16 packetid ++ concat (map request_wire es).
Definition subscribe_wire (dup packetid : Z) (es : list (list Z * Z)) : list Z :=
  [130 + 8 * dup] ++ varint (zlen (subscribe_body packetid es)) ++ subscribe_body packetid es.

Definition unsubscribe_body (packetid : Z) (ts : list (list Z)) : list Z :=
  be16 packetid ++ concat (map str_wire ts).
Definition unsubscribe_wire (dup packetid : Z) (ts : list (list Z)) : list Z :=
  [162 + 8 * dup] ++ varint (zlen (unsubscribe_body packetid ts)) ++ unsubscribe_body packetid ts.

(** A topic and a requested QoS that MQTT can carry (0x80 and above are read
    back as negative numbers by [readChar]). *)
Definition request_ok (e : list Z * Z) : Prop := zlen (fst e) < 65536 /\ 0 <= snd e < 128.
Definition topic_ok (t : list Z) : Prop := zlen t < 65536.

(** The string [s] was read from a packet that holds the text [T]. *)
Definition read_text (s : MQTTString) (T : list Z) : Prop := exists r, s = len_string T r.

(** ** Lemmas *)

(** A loop that adds up the lengths of the parts of a wire. *)
Lemma for_wire_len {A} (w : A -> list Z) (l : list A) n (g : Z -> Z -> option Z) :
  (forall k a acc, l !! k = Some a -> g (Z.of_nat k) acc = Some (acc + zlen (w a))) ->
  for_ (zlen l) g n = Some (n + zlen (concat (map w l))).
Proof.
  intros Hg. unfold for_. rewrite zlen_to_nat.
  rewrite (for_from_fold g (fun a acc => acc + zlen (w a)) l 0 n Hg). f_equal.
  clear Hg. revert n. induction l as [|a l IH]; intros n; simpl; [change (zlen (@nil Z)) with 0; lia|].
  rewrite IH, zlen_app. lia.
Qed.

(** A loop that writes the parts of a wire. *)
Lemma emits_for_map {A} (w : A -> list Z) (l : list A) (body : Z -> cursor -> option cursor) :
  (forall k a, l !! k = Some a -> Emits (body (Z.of_nat k)) (w a)) ->
  Emits (for_ (zlen l) body) (concat (map w l)).
Proof.
  intros H. unfold for_. rewrite zlen_to_nat, <- (length_map w l). apply emits_for.
  intros k x Hk. apply list_lookup_fmap_Some in Hk as (a & -> & Ha). by apply H.
Qed.

(** Array elements that state the texts [ts]. *)
Lemma topics_rd ms rest ts k T :
  Forall2 mqtt_str ms ts -> ts !! k = Some T ->
  exists t, rd (ms ++ rest) (Z.of_nat k) = Some t /\ mqtt_str t T.
Proof.
  intros H Hk. destruct (Forall2_lookup_r _ _ _ _ _ H Hk) as (t & Ht & HT). exists t. split; [|done].
  rewrite rd_app_l by (apply lookup_lt_Some in Ht; zl). by apply rd_lookup.
Qed.

Lemma elems_rd {A} (l rest : list A) k x : l !! k = Some x -> rd (l ++ rest) (Z.of_nat k) = Some x.
Proof. intros Hk. rewrite rd_app_l by (apply lookup_lt_Some in Hk; zl). by apply rd_lookup. Qed.

Section requests.
Context (dup packetid : Z) (Hdup : 0 <= dup < 2) (Hid : 0 <= packetid < 65536).
Context (ms : list MQTTString) (mrest : list MQTTString) (qrest : list Z).

(** *** SUBSCRIBE *)

Context (es : list (list Z * Z)) (Hes : Forall request_ok es) (Hms : Forall2 mqtt_str ms (map fst es)).
Let W := subscribe_wire dup packetid es.
Let body := subscribe_body packetid es.
Context (Hbody : zlen body < 268435456).

Lemma request_rd k T q :
  es !! k = Some (T, q) ->
  (exists t, rd (ms ++ mrest) (Z.of_nat k) = Some t /\ mqtt_str t T) /\
  rd (map snd es ++ qrest) (Z.of_nat k) = Some q /\ zlen T < 65536 /\ 0 <= q < 128.
Proof.
  intros Hk. split; [|split].
  - eapply topics_rd; [done|]. apply list_lookup_fmap_Some. by exists (T, q).
  - apply elems_rd. apply list_lookup_fmap_Some. by exists (T, q).
  - by apply (Forall_lookup_1 _ _ _ _ Hes) in Hk.
Qed.

Lemma subscribeLength_body : MQTTSerialize_subscribeLength (zlen es) (ms ++ mrest) = Some (zlen body).
Proof.
  unfold MQTTSerialize_subscribeLength, body, subscribe_body.
  rewrite (for_wire_len request_wire es); [by rewrite zlen_app|].
  intros k [T q] acc Hk. destruct (request_rd k T q Hk) as ((t & -> & Ht) & _ & HT & _).
  cbn [mbind option_bind]. rewrite (MQTTstrlen_str _ _ Ht). unfold request_wire. cbn [fst snd].
  rewrite zlen_app, zlen_str_wire. done.
Qed.

Lemma subscribe_wire_fits : zlen W <= MQTTPacket_len (zlen body) <= zlen W + 1.
Proof.
  unfold W, subscribe_wire. rewrite !zlen_app. fold body. change (zlen [_]) with 1.
  pose proof (zlen_nonneg body). pose proof (MQTTPacket_len_enough (zlen body)). lia.
Qed.

Lemma subscribe_serialized buf buflen :
  MQTTPacket_len (zlen body) <= buflen <= zlen buf ->
  MQTTSerialize_subscribe buf buflen dup packetid (zlen es) (ms ++ mrest) (map snd es ++ qrest) =
    Some (zlen W, W ++ drop (length W) buf).
Proof.
  intros Hlen. pose proof subscribe_wire_fits. pose proof (zlen_nonneg body).
  unfold MQTTSerialize_subscribe. rewrite subscribeLength_body. cbn [mbind option_bind]. if_false.
  emit_from buf. apply finish_emits; [|lia]. unfold W, subscribe_wire. fold body.
  apply emits_bind; [apply emits_writeChar; rewrite header_byte_u8 by (simpl; lia); simpl; lia|].
  apply emits_bind; [apply emits_writeLength; unfold INT_MAX; lia|].
  apply emits_bind; [by apply emits_writeInt|].
  apply emits_for_map. intros k [T q] Hk. destruct (request_rd k T q Hk) as ((t & -> & Ht) & -> & HT & Hq).
  cbn [mbind option_bind]. apply emits_bind; [by apply emits_writeMQTTString|].
  apply emits_writeChar, u8_id. unfold is_byte. simpl. lia.
Qed.

Lemma subscribe_loop_wire fuel l : forall d r A B Q Q2 rc n,
  Forall request_ok l -> n = zlen A -> n = zlen Q -> zlen l <= zlen B -> zlen l <= zlen Q2 ->
  (length l <= fuel)%nat ->
  exists A',
    subscribe_loop fuel rc (zlen (d ++ concat (map request_wire l)))
      (at_ (d ++ concat (map request_wire l) ++ r) (zlen d)) (mk_sub dup packetid n (A ++ B) (Q ++ Q2)) =
    Some (1, mk_sub dup packetid (n + zlen l) (A ++ A' ++ drop (length l) B)
               (Q ++ map snd l ++ drop (length l) Q2)) /\
    Forall2 read_text A' (map fst l).
Proof.
  revert l. induction fuel as [|fuel IH]; intros [|[T q] l] d r A B Q Q2 rc n Hl HA HQ HB HQ2 Hf.
  1, 3: exists []; simpl; rewrite app_nil_r, Z.leb_refl; rewrite Z.add_0_r; by split.
  - simpl in Hf. lia.
  - inversion Hl as [|? ? [HT Hq] Hl']; subst. simpl in HT, Hq.
    destruct B as [|t B]; [zl|]. destruct Q2 as [|q0 Q2]; [zl|].
    cbn [map concat fst snd subscribe_loop]. set (w := concat (map request_wire l)).
    change (request_wire (T, q)) with (str_wire T ++ [q]). rewrite <- !app_assoc.
    cbn [ptr s_topicFilters s_count s_dup s_packetid s_requestedQoSs].
    pose proof (zlen_nonneg w). pose proof (zlen_nonneg T).
    assert (Hlen : zlen (d ++ str_wire T ++ [q] ++ w) = zlen d + 3 + zlen T + zlen w).
    { rewrite !zlen_app, zlen_str_wire. change (zlen [q]) with 1. lia. }
    rewrite (proj2 (Z.leb_gt _ _)) by lia. rewrite rd_app by done. cbn [mbind option_bind].
    rewrite readMQTTLenString_next by (done || rewrite Hlen, zlen_app, zlen_str_wire; lia).
    cbn [mbind option_bind]. rewrite wr_app by done. cbn [mbind option_bind]. change (1 =? 0) with false.
    cbv iota. cbn [ptr]. rewrite (proj2 (Z.leb_gt _ _)) by (rewrite Hlen, zlen_app, zlen_str_wire; lia).
    change ([q] ++ w ++ r) with (q :: w ++ r). rewrite readChar_next. cbn [mbind option_bind].
    rewrite wr_app by done. cbn [mbind option_bind].
    rewrite s8_id by lia.
    pose proof (IH l ((d ++ str_wire T) ++ [q]) r (A ++ [len_string T (q :: w ++ r)]) B (Q ++ [q]) Q2 rc
      (zlen A + 1)) as (A' & H1 & H2);
      [done | rewrite zlen_app; done | rewrite zlen_app; change (zlen [q]) with 1; lia
      | rewrite !zlen_cons in *; lia.. | simpl in Hf; lia |].
    fold w in H1. rewrite <- !app_assoc in H1. simpl in H1. rewrite <- !app_assoc. simpl.
    exists (len_string T (q :: w ++ r) :: A'). rewrite H1. split.
    + rewrite zlen_cons. simpl. do 3 f_equal. lia.
    + constructor; [by eexists | done].
Qed.

Lemma length_requests (l : list (list Z * Z)) : (length l <= length (concat (map request_wire l)))%nat.
Proof.
  induction l as [|[T q] l IH]; [done|]. cbn [map concat].
  rewrite length_app. unfold request_wire at 1. rewrite length_app. cbn [length]. lia.
Qed.

Lemma subscribe_deserialized o r :
  zlen es <= zlen (s_topicFilters o) -> zlen es <= zlen (s_requestedQoSs o) ->
  exists A',
    MQTTDeserialize_subscribe o (W ++ r) =
      Some (1, mk_sub dup packetid (zlen es) (A' ++ drop (length es) (s_topicFilters o))
                 (map snd es ++ drop (length es) (s_requestedQoSs o))) /\
    Forall2 read_text A' (map fst es).
Proof.
  intros HB HQ. destruct (header_fields 8 dup 1 0) as (Ht & Hd & _); [lia..|].
  replace (16 * 8 + 8 * dup + 2 * 1 + 0) with (130 + 8 * dup) in * by lia.
  pose proof (zlen_nonneg body).
  unfold MQTTDeserialize_subscribe, W, subscribe_wire. fold body. rewrite <- !app_assoc. cbn [app].
  rewrite readChar_head by (unfold is_byte; lia). cbn [mbind option_bind ptr].
  rewrite u8_s8, u8_id by (unfold is_byte; lia). rewrite Ht, Hd. simpl negb. cbv iota.
  rewrite decodeBuf_head by lia. cbn [mbind option_bind ptr].
  set (h := 130 + 8 * dup). set (v := varint (zlen body)).
  rewrite app_comm_cons. set (d := h :: v). replace (1 + zlen v) with (zlen d) by (unfold d; rewrite zlen_cons; lia). clearbody d.
  assert (Hb : body = be16 packetid ++ concat (map request_wire es)) by done.
  assert (Hl : zlen d + zlen body = zlen ((d ++ be16 packetid) ++ concat (map request_wire es)))
    by (rewrite Hb, !zlen_app; lia).
  replace (body ++ r) with (be16 packetid ++ concat (map request_wire es) ++ r) by (by rewrite Hb, <- app_assoc).
  rewrite readInt_next by done. cbn [mbind option_bind]. rewrite Hl.
  destruct (subscribe_loop_wire (Z.to_nat (zlen body)) es (d ++ be16 packetid) r [] (s_topicFilters o)
    [] (s_requestedQoSs o) (zlen v) 0 Hes) as (A' & H1 & H2); [done..| |].
  - rewrite zlen_to_nat, Hb, length_app. pose proof (length_requests es). lia.
  - cbn [app] in H1. rewrite Z.add_0_l in H1. rewrite H1. by exists A'.
Qed.
End requests.

Section unsubscribe.
Context (dup packetid : Z) (Hdup : 0 <= dup < 2) (Hid : 0 <= packetid < 65536).
Context (ms mrest : list MQTTString) (ts : list (list Z)).
Context (Hts : Forall topic_ok ts) (Hms : Forall2 mqtt_str ms ts).
Let W := unsubscribe_wire dup packetid ts.
Let body := unsubscribe_body packetid ts.
Context (Hbody : zlen body < 268435456).

Lemma unsubscribeLength_body : MQTTSerialize_unsubscribeLength (zlen ts) (ms ++ mrest) = Some (zlen body).
Proof.
  unfold MQTTSerialize_unsubscribeLength, body, unsubscribe_body.
  rewrite (for_wire_len str_wire ts); [by rewrite zlen_app|].
  intros k T acc Hk. destruct (topics_rd ms mrest ts k T Hms Hk) as (t & -> & Ht).
  cbn [mbind option_bind]. by rewrite (MQTTstrlen_str _ _ Ht), zlen_str_wire.
Qed.

Lemma unsubscribe_wire_fits : zlen W <= MQTTPacket_len (zlen body) <= zlen W + 1.
Proof.
  unfold W, unsubscribe_wire. rewrite !zlen_app. fold body. change (zlen [_]) with 1.
  pose proof (zlen_nonneg body). pose proof (MQTTPacket_len_enough (zlen body)). lia.
Qed.

Lemma unsubscribe_serialized buf buflen :
  MQTTPacket_len (zlen body) <= buflen <= zlen buf ->
  MQTTSerialize_unsubscribe buf buflen dup packetid (zlen ts) (ms ++ mrest) =
    Some (zlen W, W ++ drop (length W) buf).
Proof.
  intros Hlen. pose proof unsubscribe_wire_fits. pose proof (zlen_nonneg body).
  unfold MQTTSerialize_unsubscribe. rewrite unsubscribeLength_body. cbn [mbind option_bind]. if_false.
  emit_from buf. apply finish_emits; [|lia]. unfold W, unsubscribe_wire. fold body.
  apply emits_bind; [apply emits_writeChar; rewrite header_byte_u8 by (simpl; lia); simpl; lia|].
  apply emits_bind; [apply emits_writeLength; unfold INT_MAX; lia|].
  apply emits_bind; [by apply emits_writeInt|].
  apply emits_for_map. intros k T Hk. destruct (topics_rd ms mrest ts k T Hms Hk) as (t & -> & Ht).
  cbn [mbind option_bind]. apply emits_writeMQTTString; [done|]. by apply (Forall_lookup_1 _ _ _ _ Hts) in Hk.
Qed.

Lemma unsubscribe_loop_wire fuel l : forall d r A B Q rc n,
  Forall topic_ok l -> n = zlen A -> zlen l <= zlen B -> (length l <= fuel)%nat ->
  exists A',
    unsubscribe_loop fuel rc (zlen (d ++ concat (map str_wire l)))
      (at_ (d ++ concat (map str_wire l) ++ r) (zlen d)) (mk_sub dup packetid n (A ++ B) Q) =
    Some (1, mk_sub dup packetid (n + zlen l) (A ++ A' ++ drop (length l) B) Q) /\
    Forall2 read_text A' l.
Proof.
  revert l. induction fuel as [|fuel IH]; intros [|T l] d r A B Q rc n Hl HA HB Hf.
  1, 3: exists []; simpl; rewrite app_nil_r, Z.leb_refl; rewrite Z.add_0_r; by split.
  - simpl in Hf. lia.
  - inversion Hl as [|? ? HT Hl']; subst. unfold topic_ok in HT.
    destruct B as [|t B]; [zl|].
    cbn [map concat unsubscribe_loop]. set (w := concat (map str_wire l)). rewrite <- !app_assoc.
    cbn [ptr s_topicFilters s_count s_dup s_packetid s_requestedQoSs].
    pose proof (zlen_nonneg w). pose proof (zlen_nonneg T).
    assert (Hlen : zlen (d ++ str_wire T ++ w) = zlen d + 2 + zlen T + zlen w)
      by (rewrite !zlen_app, zlen_str_wire; lia).
    rewrite (proj2 (Z.leb_gt _ _)) by lia. rewrite rd_app by done. cbn [mbind option_bind].
    rewrite readMQTTLenString_next by (done || rewrite Hlen, zlen_app, zlen_str_wire; lia).
    cbn [mbind option_bind]. rewrite wr_app by done. cbn [mbind option_bind]. change (1 =? 0) with false.
    cbv iota.
    pose proof (IH l (d ++ str_wire T) r (A ++ [len_string T (w ++ r)]) B Q rc (zlen A + 1))
      as (A' & H1 & H2);
      [done | rewrite zlen_app; done | rewrite !zlen_cons in *; lia | simpl in Hf; lia |].
    fold w in H1. rewrite <- !app_assoc in H1. cbn [app] in H1. rewrite <- !app_assoc.
    exists (len_string T (w ++ r) :: A'). rewrite H1. split.
    + rewrite zlen_cons. simpl. do 3 f_equal. lia.
    + constructor; [by eexists | done].
Qed.

Lemma length_topics (l : list (list Z)) : (length l <= length (concat (map str_wire l)))%nat.
Proof.
  induction l as [|T l IH]; [done|]. cbn [map concat]. rewrite length_app. cbn [length].
  pose proof (zlen_str_wire T). zl.
Qed.

Lemma unsubscribe_deserialized o r :
  zlen ts <= zlen (s_topicFilters o) ->
  exists A',
    MQTTDeserialize_unsubscribe o (W ++ r) =
      Some (1, mk_sub dup packetid (zlen ts) (A' ++ drop (length ts) (s_topicFilters o)) (s_requestedQoSs o)) /\
    Forall2 read_text A' ts.
Proof.
  intros HB. destruct (header_fields 10 dup 1 0) as (Ht & Hd & _); [lia..|].
  replace (16 * 10 + 8 * dup + 2 * 1 + 0) with (162 + 8 * dup) in * by lia.
  pose proof (zlen_nonneg body).
  unfold MQTTDeserialize_unsubscribe, W, unsubscribe_wire. fold body. rewrite <- !app_assoc. cbn [app].
  rewrite readChar_head by (unfold is_byte; lia). cbn [mbind option_bind ptr].
  rewrite u8_s8, u8_id by (unfold is_byte; lia). rewrite Ht, Hd. simpl negb. cbv iota.
  rewrite decodeBuf_head by lia. cbn [mbind option_bind ptr].
  set (h := 162 + 8 * dup). set (v := varint (zlen body)).
  rewrite app_comm_cons. set (d := h :: v).
  replace (1 + zlen v) with (zlen d) by (unfold d; rewrite zlen_cons; lia). clearbody d.
  assert (Hb : body = be16 packetid ++ concat (map str_wire ts)) by done.
  assert (Hl : zlen d + zlen body = zlen ((d ++ be16 packetid) ++ concat (map str_wire ts)))
    by (rewrite Hb, !zlen_app; lia).
  replace (body ++ r) with (be16 packetid ++ concat (map str_wire ts) ++ r) by (by rewrite Hb, <- app_assoc).
  rewrite readInt_next by done. cbn [mbind option_bind]. rewrite Hl.
  destruct (unsubscribe_loop_wire (Z.to_nat (zlen body)) ts (d ++ be16 packetid) r [] (s_topicFilters o)
    (s_requestedQoSs o) (zlen v) 0 Hts) as (A' & H1 & H2); [done..| |].
  - rewrite zlen_to_nat, Hb, length_app. pose proof (length_topics ts). lia.
  - cbn [app] in H1. rewrite Z.add_0_l in H1. rewrite H1. by exists A'.
Qed.
End unsubscribe.

(** *** SUBACK *)

Lemma suback_loop_reads fuel qs : forall d r A B maxcount n,
  Forall is_byte qs -> n = zlen A -> zlen qs <= zlen B -> n + zlen B = maxcount -> (length qs <= fuel)%nat ->
  suback_loop fuel maxcount (zlen (d ++ qs)) (at_ (d ++ qs ++ r) (zlen d)) n (A ++ B) =
    Some (1, n + zlen qs, A ++ map s8 qs ++ drop (length qs) B).
Proof.
  revert qs. induction fuel as [|fuel IH]; intros [|q qs] d r A B maxcount n Hq HA HB Hmax Hf.
  1, 3: simpl; rewrite app_nil_r, Z.leb_refl; by rewrite Z.add_0_r.
  - simpl in Hf. lia.
  - destruct B as [|b B]; [zl|]. cbn [suback_loop ptr]. subst.
    rewrite (proj2 (Z.leb_gt _ _)) by (rewrite zlen_app, zlen_cons; pose proof (zlen_nonneg qs); lia).
    if_false. rewrite <- app_comm_cons, readChar_next. cbn [mbind option_bind].
    rewrite wr_app by done. cbn [mbind option_bind].
    pose proof (IH qs (d ++ [q]) r (A ++ [s8 q]) B (zlen A + zlen (b :: B)) (zlen A + 1)) as H.
    rewrite <- !app_assoc in *. cbn [app] in *. rewrite H;
      [ | by inversion Hq | by rewrite zlen_app | rewrite !zlen_cons in *; lia.. | simpl in Hf; lia].
    rewrite zlen_cons. simpl. do 3 f_equal. lia.
Qed.

Lemma suback_loop_overflow fuel qs : forall d r A B maxcount n,
  n = zlen A -> zlen B < zlen qs -> n + zlen B = maxcount ->
  suback_loop fuel maxcount (zlen (d ++ qs)) (at_ (d ++ qs ++ r) (zlen d)) n (A ++ B) = None.
Proof.
  revert qs. induction fuel as [|fuel IH]; intros [|q qs] d r A B maxcount n HA HB Hmax; try (zl).
  - cbn [suback_loop ptr].
    by rewrite (proj2 (Z.leb_gt _ _)) by (rewrite zlen_app, zlen_cons; pose proof (zlen_nonneg qs); lia).
  - cbn [suback_loop ptr]. subst.
    rewrite (proj2 (Z.leb_gt _ _)) by (rewrite zlen_app, zlen_cons; pose proof (zlen_nonneg qs); lia).
    pose proof (zlen_nonneg B). if_false. rewrite <- app_comm_cons, readChar_next. cbn [mbind option_bind].
    destruct B as [|b B].
    + rewrite (proj2 (wr_None _ _ _)); [done|]. right. rewrite app_nil_r. lia.
    + rewrite wr_app by done. cbn [mbind option_bind].
      pose proof (IH qs (d ++ [q]) r (A ++ [s8 q]) B (zlen A + zlen (b :: B)) (zlen A + 1)) as H'.
      rewrite <- !app_assoc in *. cbn [app] in *. rewrite H';
        [ done | by rewrite zlen_app | rewrite !zlen_cons in *; lia..].
Qed.

(** ** Properties *)

(** SUBSCRIBE: for every list of topic filters and requested QoS values the
    serializer writes exactly the packet of MQTT 3.1.1 section 3.8, or reports
    a short buffer and writes nothing, and the server's deserializer reads the
    identifier, the count, the filters and the QoS values back. *)
Theorem subscribe_roundtrip buf buflen dup packetid es ms mrest qrest o :
  0 <= dup < 2 -> 0 <= packetid < 65536 -> Forall request_ok es ->
  Forall2 mqtt_str ms (map fst es) -> zlen (subscribe_body packetid es) < 268435456 ->
  buflen <= zlen buf -> zlen es <= zlen (s_topicFilters o) -> zlen es <= zlen (s_requestedQoSs o) ->
  let W := subscribe_wire dup packetid es in
  let r := MQTTSerialize_subscribe buf buflen dup packetid (zlen es) (ms ++ mrest) (map snd es ++ qrest) in
  (r = Some (MQTTPACKET_BUFFER_TOO_SHORT, buf) /\ buflen <= zlen W) \/
  (r = Some (zlen W, W ++ drop (length W) buf) /\ zlen W <= buflen /\
   exists A', MQTTDeserialize_subscribe o (W ++ drop (length W) buf) =
        Some (1, mk_sub dup packetid (zlen es) (A' ++ drop (length es) (s_topicFilters o))
                   (map snd es ++ drop (length es) (s_requestedQoSs o))) /\
      Forall2 read_text A' (map fst es)).
Proof.
  intros Hd Hi Hes Hms Hb Hlen HB HQ W r. pose proof (subscribe_wire_fits dup packetid es Hb) as Hf. fold W in Hf.
  destruct (Z.ltb_spec buflen (MQTTPacket_len (zlen (subscribe_body packetid es)))) as [Hs | Hs].
  - left. split; [|lia]. unfold r, MQTTSerialize_subscribe.
    rewrite (subscribeLength_body packetid ms mrest qrest es) by done. cbn [mbind option_bind]. by if_true.
  - right. split; [by apply subscribe_serialized|]. split; [lia|]. by apply subscribe_deserialized.
Qed.

Lemma subscribe_roundtrip_witness :
  MQTTSerialize_subscribe (replicate 12 0) 12 0 5 1 [mk_str (Some (lit "cmd")) 0 None] [1] =
    Some (10, [130; 8; 0; 5; 0; 3; 99; 109; 100; 1; 0; 0]).
Proof.
  destruct (subscribe_roundtrip (replicate 12 0) 12 0 5 [(lit "cmd", 1)]
    [mk_str (Some (lit "cmd")) 0 None] [] [] (mk_sub 0 0 0 [MQTTString_initializer] [0]))
    as [[_ H] | [H _]]; [lia | lia | by repeat constructor | | by vm_compute .. | | exact H].
  - constructor; [by apply ms_cstr | constructor].
  - exfalso. vm_compute in H. by destruct H.
Defined.

(** UNSUBSCRIBE: the same for [MQTTSerialize_unsubscribe] (section 3.10)
    and the server's [MQTTDeserialize_unsubscribe]. *)
Theorem unsubscribe_roundtrip buf buflen dup packetid ts ms mrest o :
  0 <= dup < 2 -> 0 <= packetid < 65536 -> Forall topic_ok ts ->
  Forall2 mqtt_str ms ts -> zlen (unsubscribe_body packetid ts) < 268435456 ->
  buflen <= zlen buf -> zlen ts <= zlen (s_topicFilters o) ->
  let W := unsubscribe_wire dup packetid ts in
  let r := MQTTSerialize_unsubscribe buf buflen dup packetid (zlen ts) (ms ++ mrest) in
  (r = Some (MQTTPACKET_BUFFER_TOO_SHORT, buf) /\ buflen <= zlen W) \/
  (r = Some (zlen W, W ++ drop (length W) buf) /\ zlen W <= buflen /\
   exists A', MQTTDeserialize_unsubscribe o (W ++ drop (length W) buf) =
        Some (1, mk_sub dup packetid (zlen ts) (A' ++ drop (length ts) (s_topicFilters o))
                   (s_requestedQoSs o)) /\
      Forall2 read_text A' ts).
Proof.
  intros Hd Hi Hts Hms Hb Hlen HB W r. pose proof (unsubscribe_wire_fits dup packetid ts Hb) as Hf. fold W in Hf.
  destruct (Z.ltb_spec buflen (MQTTPacket_len (zlen (unsubscribe_body packetid ts)))) as [Hs | Hs].
  - left. split; [|lia]. unfold r, MQTTSerialize_unsubscribe.
    rewrite (unsubscribeLength_body packetid ms mrest ts) by done. cbn [mbind option_bind]. by if_true.
  - right. split; [by apply unsubscribe_serialized|]. split; [lia|]. by apply unsubscribe_deserialized.
Qed.

Lemma unsubscribe_roundtrip_witness :
  MQTTSerialize_unsubscribe (replicate 12 0) 12 0 5 1 [mk_str (Some (lit "cmd")) 0 None] =
    Some (9, [162; 7; 0; 5; 0; 3; 99; 109; 100; 0; 0; 0]).
Proof.
  destruct (unsubscribe_roundtrip (replicate 12 0) 12 0 5 [lit "cmd"]
    [mk_str (Some (lit "cmd")) 0 None] [] (mk_sub 0 0 0 [MQTTString_initializer] []))
    as [[_ H] | [H _]]; [lia | lia | by repeat constructor | | by vm_compute .. | | exact H].
  - constructor; [by apply ms_cstr | constructor].
  - exfalso. vm_compute in H. by destruct H.
Defined.

(** SUBACK as the client reads it: the number of return codes is not taken
    from the remaining length but from the packet identifier [id], which stands
    where the code expects a length. With an array of [maxcount] entries, the
    [id - 2] bytes after the identifier are read as signed return codes, and an
    identifier above [maxcount + 2] makes the loop write past the array. *)
Theorem MQTTDeserialize_suback_spec id rest grantedQoSs :
  0 <= id < 65536 -> Forall is_byte rest -> id - 2 <= zlen rest ->
  MQTTDeserialize_suback (zlen grantedQoSs) grantedQoSs (be16 id ++ rest) =
    if zlen grantedQoSs <? id - 2 then None
    else let n := Z.max 0 (id - 2) in
      Some (1, n, map s8 (take (Z.to_nat n) rest) ++ drop (Z.to_nat n) grantedQoSs).
Proof.
  intros Hid Hrest Hlen. unfold MQTTDeserialize_suback.
  pose proof (readInt_next [] id rest Hid) as E. cbn [app] in E. change (zlen (@nil Z)) with 0 in E.
  rewrite E. cbn [mbind option_bind]. rewrite Z.add_0_l.
  destruct (split_at rest (Z.max 0 (id - 2))) as (qs & r & -> & Hqs); [pose proof (zlen_nonneg rest); lia|].
  apply Forall_app in Hrest as [Hq _].
  destruct (Z.leb_spec id 2) as [Hs | Hs].
  - pose proof (zlen_nonneg grantedQoSs). if_false. rewrite Z.max_l by lia.
    rewrite zlen_be16. destruct (Z.to_nat id) as [|f]; cbn [suback_loop ptr]; by rewrite (proj2 (Z.leb_le _ _)) by lia.
  - rewrite Z.max_r in Hqs by lia.
    assert (Hid2 : id = zlen (be16 id ++ qs)) by (rewrite zlen_app, zlen_be16; lia).
    destruct (Z.ltb_spec (zlen grantedQoSs) (id - 2)) as [Ho | Ho].
    + pose proof (suback_loop_overflow (Z.to_nat id) qs (be16 id) r [] grantedQoSs (zlen grantedQoSs) 0) as H.
      rewrite <- Hid2 in H. apply H; [done | lia | lia].
    + cbv zeta. rewrite Z.max_r by lia. rewrite <- Hqs, zlen_to_nat, take_app_length.
      pose proof (suback_loop_reads (Z.to_nat id) qs (be16 id) r [] grantedQoSs (zlen grantedQoSs) 0) as H.
      rewrite <- Hid2 in H. apply H; [done | done | lia | lia | zl].
Qed.

Lemma MQTTDeserialize_suback_spec_witness :
  MQTTDeserialize_suback 1 [7] [0; 3; 128] = Some (1, 1, [-128]) /\
  MQTTDeserialize_suback 1 [7] [0; 4; 1; 33] = None.
Proof.
  split.
  - apply (MQTTDeserialize_suback_spec 3 [128] [7]); by repeat constructor.
  - apply (MQTTDeserialize_suback_spec 4 [1; 33] [7]); by repeat constructor.
Defined.

(** SUBACK and UNSUBACK as the server writes them, on every buffer: the
    guards count two bytes less than the packets have, so a buffer of the two
    sizes in between is overrun. *)
Theorem suback_unsuback_spec buf packetid qs qrest :
  0 <= packetid < 65536 -> Forall is_byte qs -> zlen qs < 268435000 ->
  let W := [144] ++ varint (2 + zlen qs) ++ be16 packetid ++ qs in
  let s := MQTTSerialize_suback buf (zlen buf) packetid (zlen qs) (qs ++ qrest) in
  let u := MQTTSerialize_unsuback buf (zlen buf) packetid in
  (zlen buf < 2 + zlen qs -> s = Some (MQTTPACKET_BUFFER_TOO_SHORT, buf)) /\
  (zlen W <= zlen buf -> s = Some (zlen W, W ++ drop (length W) buf)) /\
  (zlen buf < 2 -> u = Some (MQTTPACKET_BUFFER_TOO_SHORT, buf)) /\
  (2 <= zlen buf < 4 -> u = None) /\
  (4 <= zlen buf -> u = Some (4, [176; 2] ++ be16 packetid ++ drop 4 buf)).
Proof.
  intros Hi Hq Hn W s u. pose proof (zlen_nonneg qs). split; [|split; [|split; [|split]]]; intros Hlen.
  - unfold s, MQTTSerialize_suback. by if_true.
  - assert (HW : zlen W = 3 + zlen (varint (2 + zlen qs)) + zlen qs).
    { unfold W. rewrite !zlen_app, zlen_be16. change (zlen [144]) with 1. lia. }
    pose proof (zlen_nonneg (varint (2 + zlen qs))).
    unfold s, MQTTSerialize_suback. if_false. emit_from buf. apply finish_emits; [|lia]. unfold W.
    apply emits_bind; [by apply emits_writeChar|].
    apply emits_bind; [apply emits_writeLength; unfold INT_MAX; lia|].
    apply emits_bind; [by apply emits_writeInt|].
    replace qs with (concat (map (fun q => [q]) qs)) at 2 by (clear; induction qs; simpl; congruence).
    apply emits_for_map. intros k q Hk. rewrite (elems_rd _ _ _ _ Hk). cbn [mbind option_bind].
    apply emits_writeChar, u8_id. by apply (Forall_lookup_1 _ _ _ _ Hq) in Hk.
  - unfold u, MQTTSerialize_unsuback. by if_true.
  - unfold u, MQTTSerialize_unsuback. if_false. destruct buf as [|a [|b [|c [|d buf]]]]; try zl; reflexivity.
  - unfold u, MQTTSerialize_unsuback. if_false. emit_from buf.
    apply (finish_emits _ ([176] ++ [2] ++ be16 packetid)); [|done].
    apply emits_bind; [by apply emits_writeChar|].
    apply emits_bind; [by apply (emits_writeLength 2) | by apply emits_writeInt].
Qed.

Lemma suback_unsuback_spec_witness :
  MQTTSerialize_unsuback [0; 0; 0] 3 9 = None /\
  MQTTSerialize_suback (replicate 6 0) 6 9 1 [1] = Some (5, [144; 3; 0; 9; 1; 0]).
Proof.
  split.
  - apply (suback_unsuback_spec [0; 0; 0] 9 [] []); [lia | by constructor | by vm_compute | by vm_compute].
  - apply (suback_unsuback_spec (replicate 6 0) 9 [1] []); [lia | by repeat constructor | by vm_compute | by vm_compute].
Defined.

End MQTTSubscribe.
