(* ===== verification/MqttClient.v ===== *)
(** The MQTT client: src/src/mqtt/client/client.c and delivery.c, the functions
    of src/src/mqtt/client/src/MQTTClient.c they rest on, and the socket loops of
    network.c.

    The world outside (sockets, clock, message callbacks) is a type class of
    operations. An operation of the client is a function on the state - the
    client, the registered callbacks, the world - that is undefined ([None])
    where the code reads or writes outside a buffer. *)
From S2P Require Import Prelude StateM Timer MqttPacket MqttPublish MqttConnect MqttSubscribe.

Module MqttClient.
Import StateM Timer MQTTPacket MQTTPublish MQTTConnect MQTTSubscribe.

(** ** The state *)

(** [arrow_mqtt_delivery_callback_t]; a callback is a name, NULL is [None]. *)
Record delivery_callback := mk_cb {
  cb_topic : list Z; cb_init : option nat; cb_process : option nat; cb_done : option nat;
}.

(** [buf] and [readbuf] are whole objects: [buf_size] and [readbuf_size] are their lengths. *)
Record client := mk_client {
  next_packetid : Z;
  command_timeout_ms : Z;
  buf : list Z;
  readbuf : list Z;
  keepAliveInterval : Z;
  ping_outstanding : Z;
  isconnected : Z;
  cleansession : Z;
  last_sent : timeval;
  last_received : timeval;
}.

Definition with_buf (c : client) (b : list Z) : client :=
  mk_client (next_packetid c) (command_timeout_ms c) b (readbuf c) (keepAliveInterval c) (ping_outstanding c) (isconnected c) (cleansession c) (last_sent c) (last_received c).
Definition with_readbuf (c : client) (b : list Z) : client :=
  mk_client (next_packetid c) (command_timeout_ms c) (buf c) b (keepAliveInterval c) (ping_outstanding c) (isconnected c) (cleansession c) (last_sent c) (last_received c).
Definition with_ping (c : client) (p : Z) : client :=
  mk_client (next_packetid c) (command_timeout_ms c) (buf c) (readbuf c) (keepAliveInterval c) p (isconnected c) (cleansession c) (last_sent c) (last_received c).
Definition with_connected (c : client) (i : Z) : client :=
  mk_client (next_packetid c) (command_timeout_ms c) (buf c) (readbuf c) (keepAliveInterval c) 0 i (cleansession c) (last_sent c) (last_received c).
Definition with_packetid (c : client) (i : Z) : client :=
  mk_client i (command_timeout_ms c) (buf c) (readbuf c) (keepAliveInterval c) (ping_outstanding c) (isconnected c) (cleansession c) (last_sent c) (last_received c).
Definition with_last_sent (c : client) (t : timeval) : client :=
  mk_client (next_packetid c) (command_timeout_ms c) (buf c) (readbuf c) (keepAliveInterval c) (ping_outstanding c) (isconnected c) (cleansession c) t (last_received c).
Definition with_session (c : client) (keepalive clean : Z) (t : timeval) : client :=
  mk_client (next_packetid c) (command_timeout_ms c) (buf c) (readbuf c) keepalive (ping_outstanding c) (isconnected c) clean (last_sent c) t.

(** enum returnCode, and the size limit of client.h. *)
Definition FAILURE : Z := -1.
Definition MQTT_SUCCESS : Z := 0.
Definition MAX_PACKET_ID : Z := 65535.
Definition MQTT_CLIENT_MAX_MSG_LEN : Z := 400 + 3000.

(** The world: [recv] takes the receive timeout of the socket and the size asked
    for, and returns its result and the bytes it stored. *)
Class World (W : Type) := {
  gettimeofday : W -> timeval * W;
  recv : W -> timeval -> Z -> Z * list Z * W;
  send : W -> list Z -> Z * W;
  call_init : W -> nat -> Z -> Z * W;
  call_process : W -> nat -> list Z -> Z * W;
  call_done : W -> nat -> Z * W;
}.

Section client.
Context {W : Type} `{World W}.

Record st := mk_st { cl : client; callbacks : list delivery_callback; wd : W }.

#[local] Abbreviation M := (StateM.M st).

Definition world {A} (f : W -> A * W) : M A := fun s => let (a, w) := f (wd s) in Some (a, mk_st (cl s) (callbacks s) w).
Definition get : M client := fun s => Some (cl s, s).
Definition put (c : client) : M unit := fun s => Some (tt, mk_st c (callbacks s) (wd s)).

(** ** network.c *)

Fixpoint read_loop (fuel : nat) (interval : timeval) (mem : list Z) (off len bytes : Z) : M (Z * list Z) :=
  match fuel with
  | O => lift None
  | S fuel' =>
      if bytes <? len then
        r ← world (fun w => recv w interval (u16 (len - bytes)));
        let '(rc, data) := r in
        if rc <=? 0 then mret (-1, mem) else
        mem ← lift (wrn mem (off + bytes) data);
        read_loop fuel' interval mem off len (bytes + rc)
      else mret (bytes, mem)
  end.

(** Reads into the memory [mem] at [off]; every round reads at least one byte. *)
Definition mqttread (mem : list Z) (off len timeout_ms : Z) : M (Z * list Z) :=
  if len <=? 0 then mret (-1, mem) else
  let interval := mk_tv (Z.quot timeout_ms 1000) (Z.rem timeout_ms 1000 * 1000) in
  let interval := if (tv_sec interval <? 0) || ((tv_sec interval =? 0) && (tv_usec interval <=? 0)) then mk_tv 0 100 else interval in
  read_loop (S (Z.to_nat len)) interval mem off len 0.

(** [mqttwrite(&c->buf[off], len)]: the whole range is handed to the socket. *)
Definition mqttwrite (off len : Z) : M Z :=
  c ← get;
  data ← lift (rdn (buf c) off len);
  world (fun w => send w data).

Definition read_readbuf (off len timeout_ms : Z) : M Z :=
  c ← get;
  r ← mqttread (readbuf c) off len timeout_ms;
  _ ← put (with_readbuf c (snd r));
  mret (fst r).

(** ** timer.c on the clock of the world *)

Definition expired (timer : timeval) : M bool := now ← world gettimeofday; mret (TimerIsExpired now timer).
Definition left_ms (timer : timeval) : M Z := now ← world gettimeofday; mret (TimerLeftMS now timer).
Definition countdown_ms (timeout : Z) : M timeval := now ← world gettimeofday; mret (TimerCountdownMS now timeout).
Definition countdown (timeout : Z) : M timeval := now ← world gettimeofday; mret (TimerCountdown now timeout).

(** ** MQTTClient.c *)

(** [MQTTClientInit]: the keepalive interval is not set. *)
Definition MQTTClientInit (c : client) (command_timeout : Z) (sendbuf readbuf : list Z) : client :=
  mk_client 1 command_timeout sendbuf readbuf (keepAliveInterval c) 0 0 0 TimerInit TimerInit.

Definition getNextPacketId : M Z :=
  c ← get;
  let i := if next_packetid c =? MAX_PACKET_ID then 1 else next_packetid c + 1 in
  _ ← put (with_packetid c i);
  mret i.

(** The loop of [sendPacket]: the length handed to [mqttwrite] is not reduced by
    what was sent. Every round that goes on sends at least one byte. *)
Fixpoint send_loop (fuel : nat) (sent length : Z) (timer : timeval) : M Z :=
  match fuel with
  | O => lift None
  | S fuel' =>
      if sent <? length then
        e ← expired timer;
        if (e : bool) then mret sent else
        t ← left_ms timer;
        rc ← mqttwrite sent length;
        if rc <=? 0 then mret sent else send_loop fuel' (sent + rc) length timer
      else mret sent
  end.

Definition sendPacket (length : Z) (timer : timeval) : M Z :=
  sent ← send_loop (S (Z.to_nat length)) 0 length timer;
  if sent =? length then
    c ← get;
    t ← countdown (keepAliveInterval c);
    _ ← put (with_last_sent c t);
    mret MQTT_SUCCESS
  else mret FAILURE.

(** The five rounds of [decodePacket]: returns (len, value). *)
Fixpoint decode_packet_loop (fuel : nat) (timeout len multiplier value : Z) : M (Z * Z) :=
  match fuel with
  | O => lift None
  | S fuel' =>
      r ← mqttread [0] 0 1 timeout;
      if negb (fst r =? 1) then mret (len, value) else
      i ← lift (rd (snd r) 0);
      let len := len + 1 in
      if 4 <? len then mret (len, value) else
      let value := value + Z.land i 127 * multiplier in
      if negb (Z.land i 128 =? 0) then decode_packet_loop fuel' timeout len (multiplier * 128) value
      else mret (len, value)
  end.

Definition decodePacket (timeout : Z) : M (Z * Z) := decode_packet_loop 5 timeout 0 1 0.

(** A serializer run on [buf]. *)
Definition serialize (f : list Z -> Z -> option (Z * list Z)) : M Z :=
  c ← get;
  r ← lift (f (buf c) (zlen (buf c)));
  _ ← put (with_buf c (snd r));
  mret (fst r).

Definition keepalive : M Z :=
  c ← get;
  if keepAliveInterval c =? 0 then mret MQTT_SUCCESS else
  e1 ← expired (last_sent c);
  e2 ← (if (e1 : bool) then mret true else expired (last_received c));
  if (e2 : bool) then
    if negb (ping_outstanding c =? 0) then mret FAILURE else
    timer ← countdown_ms 1000;
    len ← serialize MQTTSerialize_pingreq;
    if 0 <? len then
      rc ← sendPacket len timer;
      if rc =? MQTT_SUCCESS then c ← get; _ ← put (with_ping c 1); mret rc else mret rc
    else mret MQTT_SUCCESS
  else mret MQTT_SUCCESS.

Definition MQTTCloseSession : M unit := c ← get; put (with_connected c 0).

(** ** delivery.c *)

(** [deliveryeq] on the topic of a received message: the C string [cb->topic]
    is compared on the length of that topic only. *)
Definition deliveryeq (cb : delivery_callback) (topic : MQTTString) : option bool :=
  match cstring topic with
  | Some s => Some (streqb (cb_topic cb) s)
  | None => data ← lenstring_data topic; strncmp0 (cb_topic cb ++ [0]) data (Z.to_nat (lenstring_len topic))
  end.

Fixpoint find_callback (cbs : list delivery_callback) (topic : MQTTString) : option (option delivery_callback) :=
  match cbs with
  | [] => Some None
  | cb :: cbs' => e ← deliveryeq cb topic; if (e : bool) then Some (Some cb) else find_callback cbs' topic
  end.

Definition lookup_callback (topic : MQTTString) : M (option delivery_callback) :=
  fun s => cb ← find_callback (callbacks s) topic; Some (cb, s).

Definition arrow_mqtt_client_delivery_message_reg (dc : delivery_callback) : M Z :=
  tmp ← lookup_callback (mk_str (Some (cb_topic dc)) 0 None);
  match tmp with
  | None => fun s => Some (0, mk_st (cl s) (callbacks s ++ [dc]) (wd s))
  | Some _ => mret 0
  end.

Definition delivery_message_init (topic : MQTTString) (payloadlen : Z) : M Z :=
  cb ← lookup_callback topic;
  match option_bind _ _ cb_init cb with Some f => world (fun w => call_init w f payloadlen) | None => mret (-1) end.
Definition delivery_message_process (topic : MQTTString) (payload : list Z) : M Z :=
  cb ← lookup_callback topic;
  match option_bind _ _ cb_process cb with Some f => world (fun w => call_process w f payload) | None => mret (-1) end.
Definition delivery_message_done (topic : MQTTString) : M Z :=
  cb ← lookup_callback topic;
  match option_bind _ _ cb_done cb with Some f => world (fun w => call_done w f) | None => mret (-1) end.

(** ** client.c: receiving *)

(** [cycle_connack]: the whole packet body is read into [readbuf]. *)
Definition cycle_connack (rem_len : Z) (timer : timeval) : M Z :=
  t ← left_ms timer;
  r ← read_readbuf 0 rem_len t;
  mret (if r =? rem_len then MQTT_SUCCESS else FAILURE).

Definition cycle_subscribe (rem_len : Z) (timer : timeval) : M Z :=
  t ← left_ms timer;
  r ← read_readbuf 0 rem_len t;
  mret (if r <=? 0 then FAILURE else MQTT_SUCCESS).

(** The topic of the message [cycle_publish] handles: [data] points into [readbuf]. *)
Definition received_topic (len : Z) : M MQTTString := c ← get; mret (mk_str None len (Some (readbuf c))).

(** The loop over the payload: returns the size of the last part read, [len] if
    there was none, or nothing after a failure. Every round reads a byte. *)
Fixpoint payload_loop (fuel : nat) (tlen rest_buffer total_len msg_err len : Z) (timer : timeval) : M (option Z) :=
  match fuel with
  | O => lift None
  | S fuel' =>
      if total_len =? 0 then mret (Some len) else
      let chunk := if total_len <? rest_buffer then total_len else rest_buffer in
      t ← left_ms timer;
      len ← read_readbuf tlen chunk t;
      if len <=? 0 then mret None else
      topic ← received_topic tlen;
      c ← get;
      payload ← lift (rdn (readbuf c) tlen len);
      _ ← (if msg_err =? 0 then delivery_message_process topic payload else mret 0);
      payload_loop fuel' tlen rest_buffer (total_len - len) msg_err len timer
  end.

(** The packet identifier is read into two bytes on the stack. *)
Definition read_packet_id (qos : Z) (timer : timeval) : M (option Z) :=
  if 0 <? qos then
    t ← left_ms timer;
    r ← mqttread [0; 0] 0 2 t;
    if negb (fst r =? 2) then mret None else
    id ← lift (readInt (at_ (snd r) 0));
    mret (Some (fst id))
  else mret (Some 0).

(** [len] is what the last read returned: it is sent as the length of the packet
    when the QoS is neither 1 nor 2. *)
Definition acknowledge (qos id len : Z) (timer : timeval) : M Z :=
  if negb (qos =? 0) then
    len ← (if qos =? 1 then serialize (fun b n => MQTTSerialize_ack b n (msg_code PUBACK) 0 id)
           else if qos =? 2 then serialize (fun b n => MQTTSerialize_ack b n (msg_code PUBREC) 0 id)
           else mret len);
    if len <=? 0 then mret FAILURE else sendPacket len timer
  else mret MQTT_SUCCESS.

(** [cycle_publish] from the call of the init callback on. *)
Definition deliver_message (qos id tlen rest_buffer total_len : Z) (timer : timeval) : M Z :=
  topic ← received_topic tlen;
  msg_err ← delivery_message_init topic total_len;
  ok ← payload_loop (S (S (Z.to_nat total_len))) tlen rest_buffer total_len msg_err (if 0 <? qos then 2 else tlen) timer;
  match ok with
  | None => mret FAILURE
  | Some len =>
      topic ← received_topic tlen;
      _ ← (if msg_err =? 0 then delivery_message_done topic else mret 0);
      acknowledge qos id len timer
  end.

Definition cycle_publish (byte rem_len : Z) (timer : timeval) : M Z :=
  let qos := header_qos byte in
  let total_len := rem_len in
  t ← left_ms timer;
  len ← read_readbuf 0 2 t;
  if len <=? 0 then mret FAILURE else
  let total_len := total_len - len in
  c ← get;
  r ← lift (readInt (at_ (readbuf c) 0));
  let tlen := fst r in
  if total_len <=? tlen then mret FAILURE else
  t ← left_ms timer;
  len ← read_readbuf 0 tlen t;
  if negb (len =? tlen) then mret FAILURE else
  let total_len := total_len - len in
  let rest_buffer := zlen (readbuf c) - len in
  if rest_buffer <=? 0 then mret FAILURE else
  id ← read_packet_id qos timer;
  match id with
  | None => mret FAILURE
  | Some id => deliver_message qos id tlen rest_buffer (if 0 <? qos then total_len - 2 else total_len) timer
  end.

(** __cycle_collection *)
Definition has_cycle (pack_type : Z) : bool := (pack_type =? 2) || (pack_type =? 3) || (pack_type =? 9).
Definition cycle_of (pack_type byte rem_len : Z) (timer : timeval) : M Z :=
  if pack_type =? 2 then cycle_connack rem_len timer
  else if pack_type =? 3 then cycle_publish byte rem_len timer
  else cycle_subscribe rem_len timer.

(** The packet body no callback wants, four bytes at a time. *)
Fixpoint skip_loop (fuel : nat) (rem_len : Z) (timer : timeval) : M unit :=
  match fuel with
  | O => lift None
  | S fuel' =>
      if rem_len =? 0 then mret tt else
      t ← left_ms timer;
      r ← mqttread [0; 0; 0; 0] 0 (if rem_len <? 4 then rem_len else 4) t;
      if 0 <? fst r then skip_loop fuel' (rem_len - fst r) timer else mret tt
  end.

(** A packet whose remaining length cannot be read leaves [rc] at 1, the result
    of reading the first byte. *)
Definition cycle_r (timer : timeval) : M Z :=
  t ← left_ms timer;
  r ← mqttread [0; 0; 0; 0] 0 1 t;
  if negb (fst r =? 1) then mret FAILURE else
  byte ← lift (rd (snd r) 0);
  let pack_type := header_type byte in
  if (pack_type <? 1) || (15 <=? pack_type) then mret FAILURE else
  t ← left_ms timer;
  d ← decodePacket t;
  let '(len, rem_len) := d in
  if (len <=? 0) || (MQTT_CLIENT_MAX_MSG_LEN <? rem_len) then mret 1 else
  if negb (has_cycle pack_type) then
    _ ← skip_loop (S (Z.to_nat rem_len)) rem_len timer;
    mret pack_type
  else
    rc ← cycle_of pack_type byte rem_len timer;
    k ← keepalive;
    let rc := if negb (k =? MQTT_SUCCESS) then FAILURE else rc in
    mret (if rc =? MQTT_SUCCESS then pack_type else rc).

(** The loop of [waitfor]. *)
Fixpoint wait_loop (fuel : nat) (rc packet_type : Z) (timer : timeval) : M Z :=
  match fuel with
  | O => lift None
  | S fuel' =>
      e ← expired timer;
      if (e : bool) then mret rc else
      rc ← cycle_r timer;
      if negb (rc =? packet_type) && (0 <=? rc) then wait_loop fuel' rc packet_type timer else mret rc
  end.
Definition waitfor (fuel : nat) (packet_type : Z) (timer : timeval) : M Z := wait_loop fuel FAILURE packet_type timer.

(** The loop of [MQTTYield] returns in its first round. *)
Definition MQTTYield (timeout_ms : Z) : M Z :=
  timer ← countdown_ms (u32 timeout_ms);
  rc ← cycle_r timer;
  mret (if rc <? 0 then FAILURE else rc).

(** [waitfor] an acknowledgement and the stub that reads it. *)
Definition wait_ack (fuel : nat) (packet_type rc : Z) (timer : timeval) : M Z :=
  w ← waitfor fuel packet_type timer;
  if w =? packet_type then mret rc else mret FAILURE.

(** ** client.c: sending *)

(** [mqtt_payload_drive_t] on a state of its own; [d_part] writes into a memory
    at an offset and returns how many bytes. Both may be undefined. *)
Record payload_drive (D : Type) := mk_drive {
  d_init : D -> option (Z * D);
  d_part : D -> list Z -> Z -> Z -> option (Z * list Z * D);
  d_fin : D -> D;
}.
Arguments d_init {D}. Arguments d_part {D}. Arguments d_fin {D}.

(** The loop over the payload: what is left of it and the result of the last
    call. A part of no bytes ends it; a round sends at least one byte. *)
Fixpoint part_loop {D} (fuel : nat) (drive : payload_drive D) (d : D) (total : Z) (timer : timeval) : M (option Z * Z * D) :=
  match fuel with
  | O => lift None
  | S fuel' =>
      if total =? 0 then mret (Some total, MQTT_SUCCESS, d) else
      e ← expired timer;
      if (e : bool) then mret (Some total, MQTT_SUCCESS, d) else
      c ← get;
      let chunk := if total <? zlen (buf c) then total else zlen (buf c) in
      r ← lift (d_part drive d (buf c) 0 chunk);
      let '(chunk, b, d) := r in
      _ ← put (with_buf c b);
      if chunk <=? 0 then mret (None, FAILURE, d) else
      rc ← sendPacket chunk timer;
      if negb (rc =? MQTT_SUCCESS) then mret (None, rc, d) else part_loop fuel' drive d (total - chunk) timer
  end.

(** The header of a PUBLISH packet, written without a look at [buf_size]. *)
Definition publish_header (b : list Z) (rem_len dup qos retained id : Z) (topic : MQTTString) : option (Z * list Z) :=
  finish (
    p ← writeChar (at_ b 0) (header_byte (msg_code PUBLISH) dup qos retained);
    p ← writeLength p rem_len;
    p ← writeMQTTString p topic;
    if 0 <? qos then writeInt p id else Some p).

(** The message is its qos, retained and dup fields and its id. *)
Definition MQTTPublish_part {D} (fuel : nat) (topicName : list Z) (qos retained dup id : Z)
    (drive : payload_drive D) (d : D) : M (Z * D) :=
  let topic := mk_str (Some topicName) 0 None in
  c ← get;
  if isconnected c =? 0 then mret (FAILURE, d) else
  timer ← countdown_ms (command_timeout_ms c);
  id ← (if (qos =? 1) || (qos =? 2) then getNextPacketId else mret id);
  r ← lift (d_init drive d);
  let '(payloadlen, d) := r in
  if payloadlen <=? 0 then mret (FAILURE, d) else
  let rem_len := MQTTSerialize_publishLength qos topic payloadlen in
  len ← serialize (fun b _ => publish_header b rem_len dup qos retained id topic);
  rc ← sendPacket len timer;
  if negb (rc =? MQTT_SUCCESS) then mret (rc, d) else
  r ← part_loop (S (Z.to_nat payloadlen)) drive d payloadlen timer;
  let '(total, rc, d) := r in
  match total with
  | None => mret (rc, d)
  | Some total =>
      if negb (total =? 0) then mret (FAILURE, d) else
      let d := d_fin drive d in
      rc ← (if qos =? 1 then wait_ack fuel (msg_code PUBACK) MQTT_SUCCESS timer
            else if qos =? 2 then wait_ack fuel (msg_code PUBCOMP) MQTT_SUCCESS timer
            else mret MQTT_SUCCESS);
      mret (rc, d)
  end.

(** A SUBSCRIBE packet for one topic, written without a look at [buf_size]. *)
Definition subscribe_packet (b : list Z) (id qos : Z) (topic : list Z) : option (Z * list Z) :=
  finish (
    p ← writeChar (at_ b 0) (header_byte (msg_code SUBSCRIBE) 0 1 0);
    p ← writeLength p (5 + zlen topic);
    p ← writeInt p id;
    p ← writeCString p topic;
    writeChar p qos).

Definition arrow_mqtt_client_subscribe (fuel : nat) (qos : Z) (cb : delivery_callback) : M Z :=
  c ← get;
  if isconnected c =? 0 then mret FAILURE else
  timer ← countdown_ms (command_timeout_ms c);
  id ← getNextPacketId;
  len ← serialize (fun b _ => subscribe_packet b id qos (cb_topic cb));
  rc ← sendPacket len timer;
  if negb (rc =? MQTT_SUCCESS) then mret rc else
  w ← waitfor fuel (msg_code SUBACK) timer;
  if w =? msg_code SUBACK then
    c ← get;
    r ← lift (MQTTDeserialize_suback 1 [0] (readbuf c));
    let '(ok, _, granted) := r in
    if ok =? 1 then
      q ← lift (rd granted 0);
      if negb (q =? 128) then arrow_mqtt_client_delivery_message_reg cb else mret rc
    else mret rc
  else mret FAILURE.

(** [MQTTPublish] of MQTTClient.c: the whole packet in [buf]. *)
Definition MQTTPublish (fuel : nat) (topicName : list Z) (qos retained dup id : Z) (payload : list Z) (payloadlen : Z) : M Z :=
  let topic := mk_str (Some topicName) 0 None in
  c ← get;
  rc ← (if isconnected c =? 0 then mret FAILURE else
    timer ← countdown_ms (command_timeout_ms c);
    id ← (if (qos =? 1) || (qos =? 2) then getNextPacketId else mret id);
    len ← serialize (fun b n => MQTTSerialize_publish b n 0 qos retained id topic payload payloadlen);
    if len <=? 0 then mret FAILURE else
    rc ← sendPacket len timer;
    if negb (rc =? MQTT_SUCCESS) then mret rc else
    if qos =? 1 then wait_ack fuel (msg_code PUBACK) rc timer
    else if qos =? 2 then wait_ack fuel (msg_code PUBCOMP) rc timer
    else mret rc);
  if rc =? FAILURE then _ ← MQTTCloseSession; mret rc else mret rc.

(** ** Connecting *)

Definition MQTTConnectWithResults (fuel : nat) (options : MQTTPacket_connectData) : M Z :=
  c ← get;
  rc ← (if negb (isconnected c =? 0) then mret FAILURE else
    timer ← countdown_ms (command_timeout_ms c);
    t ← countdown (MQTTConnect.keepAliveInterval options);
    _ ← put (with_session c (MQTTConnect.keepAliveInterval options) (MQTTConnect.cleansession options) t);
    len ← serialize (fun b n => MQTTSerialize_connect b n options);
    if len <=? 0 then mret FAILURE else
    rc ← sendPacket len timer;
    if negb (rc =? MQTT_SUCCESS) then mret rc else
    w ← waitfor fuel (msg_code CONNACK) timer;
    if w =? msg_code CONNACK then
      c ← get;
      r ← lift (MQTTDeserialize_connack (readbuf c));
      let '(ok, _, connack_rc) := r in
      mret (if ok =? 1 then connack_rc else FAILURE)
    else mret FAILURE);
  if rc =? MQTT_SUCCESS then c ← get; _ ← put (with_connected c 1); mret rc else mret rc.

Definition MQTTDisconnect : M Z :=
  c ← get;
  timer ← countdown_ms (command_timeout_ms c);
  len ← serialize MQTTSerialize_disconnect;
  rc ← (if 0 <? len then sendPacket len timer else mret FAILURE);
  _ ← MQTTCloseSession;
  mret rc.

End client.

Arguments mk_drive {D}.
Arguments d_init {D}.
Arguments d_part {D}.
Arguments d_fin {D}.
End MqttClient.
