(* ===== verification/MqttPeer.v ===== *)
(** What the MQTT client relies on: a peer that has sent some bytes, takes all
    that is sent to it and keeps time, as laws on the world of MqttClient; and
    the reading loops of the client against such a peer. *)
From S2P Require Import Prelude StateM Timer MqttPacket MqttPublish MqttConnect MqttSubscribe MqttClient.

Module MqttPeer.
Import StateM Timer MQTTPacket MqttClient.

(** A call of a delivery callback. *)
Inductive event := EvInit (f : nat) (n : Z) | EvProcess (f : nat) (payload : list Z) | EvDone (f : nat).

(** The bytes to be received, the bytes sent and the callbacks called so far. *)
Record view := mk_view { input : list Z; output : list Z; events : list event }.

Definition send_view (v : view) (bs : list Z) : view := mk_view (input v) (output v ++ bs) (events v).
Definition event_view (v : view) (e : event) : view := mk_view (input v) (output v) (events v ++ [e]).
Definition rest_view (v : view) (n : Z) : view := mk_view (drop (Z.to_nat n) (input v)) (output v) (events v).

(** A stream socket returns at least one byte while there is one, in any pieces,
    and an error once there is none; it takes all that is sent. The clock stays
    inside a window; [accept] is what the init callbacks return. *)
Class Peer (W : Type) `{World W} := {
  see : W -> view;
  clock_start : Z;
  clock_span : Z;
  accept : nat -> Z;
  peer_clock w : normal (fst (gettimeofday w)) /\
    clock_start <= usec_of (fst (gettimeofday w)) < clock_start + clock_span /\ see (snd (gettimeofday w)) = see w;
  peer_recv w i n : 1 <= n -> input (see w) <> [] ->
    exists k w', recv w i n = (k, take (Z.to_nat k) (input (see w)), w') /\ 1 <= k <= n /\ k <= zlen (input (see w)) /\
      see w' = rest_view (see w) k;
  peer_recv_none w i n : 0 <= n -> n = 0 \/ input (see w) = [] -> exists k data w', recv w i n = (k, data, w') /\ k <= 0 /\ see w' = see w;
  peer_send w bs : bs <> [] -> exists w', send w bs = (zlen bs, w') /\ see w' = send_view (see w) bs;
  peer_send_none w : see (snd (send w [])) = see w;
  peer_init w f n : exists w', call_init w f n = (accept f, w') /\ see w' = event_view (see w) (EvInit f n);
  peer_process w f p : exists k w', call_process w f p = (k, w') /\ see w' = event_view (see w) (EvProcess f p);
  peer_done w f : exists k w', call_done w f = (k, w') /\ see w' = event_view (see w) (EvDone f);
}.

Section peer.
Context {W : Type} `{Peer W}.

#[local] Abbreviation M := (StateM.M (@st W)).

Lemma does_get s (Q : client -> @st W -> Prop) : Q (cl s) s -> does get s Q.
Proof. intros HQ. by exists (cl s), s. Qed.

Lemma does_put c s (Q : unit -> @st W -> Prop) : Q tt (mk_st c (callbacks s) (wd s)) -> does (put c) s Q.
Proof. intros HQ. eexists _, _. by split. Qed.

(** Nothing but the clock moves. *)
Definition same (s s' : @st W) : Prop := cl s' = cl s /\ callbacks s' = callbacks s /\ see (wd s') = see (wd s).

#[global] Instance same_refl : Reflexive same.
Proof. by intros s. Qed.
#[global] Instance same_trans : Transitive same.
Proof. intros s1 s2 s3 (? & ? & ?) (? & ? & ?). split_and!; congruence. Qed.

Lemma does_world {A} (f : W -> A * W) s a w : f (wd s) = (a, w) -> does (world f) s (fun b s' => b = a /\ s' = mk_st (cl s) (callbacks s) w).
Proof. intros E. eexists _, _. unfold world. rewrite E. done. Qed.

Lemma does_now s : does (world gettimeofday) s (fun t s' => same s s' /\ normal t /\ clock_start <= usec_of t < clock_start + clock_span).
Proof.
  destruct (peer_clock (wd s)) as (Hn & Hw & Hv). destruct (gettimeofday (wd s)) as [t w] eqn:E.
  eapply does_mono; [by apply does_world|]. intros a s' [-> ->]. cbn [fst snd] in *.
  split; [|done]. split; [done|]. by split.
Qed.

(** A timer that does not expire while the client is watched. *)
Definition live (t : timeval) : Prop := normal t /\ clock_start + clock_span <= usec_of t < clock_start + 1000000000 * 1000000.
(** A timer that is over. *)
Definition over (t : timeval) : Prop := normal t /\ clock_start - 1000000000 * 1000000 < usec_of t <= clock_start /\ clock_span <= 1000000000 * 1000000.

Lemma does_expired timer s : live timer -> does (expired timer) s (fun b s' => b = false /\ same s s').
Proof.
  intros [Hn Ht]. unfold expired. eapply does_bind; [apply does_now|]. intros now s' (Hs & Hnn & Hw). apply does_ret.
  split; [|done]. rewrite expired_usec; [lia | done | done |]. unfold close. lia.
Qed.

Lemma does_expired_over timer s : over timer -> does (expired timer) s (fun b s' => b = true /\ same s s').
Proof.
  intros (Hn & Ht & Hsp). unfold expired. eapply does_bind; [apply does_now|]. intros now s' (Hs & Hnn & Hw). apply does_ret.
  split; [|done]. rewrite expired_usec; [lia | done | done |]. unfold close. lia.
Qed.

Lemma does_left timer s : does (left_ms timer) s (fun _ s' => same s s').
Proof. unfold left_ms. eapply does_bind; [apply does_now|]. intros now s' (Hs & _). by apply does_ret. Qed.

Lemma does_countdown_ms timeout s : 0 <= clock_span <= timeout * 1000 -> timeout * 1000 + clock_span < 1000000000 * 1000000 ->
  does (countdown_ms timeout) s (fun t s' => live t /\ same s s').
Proof.
  intros Ht Hb. unfold countdown_ms. eapply does_bind; [apply does_now|]. intros now s' (Hs & Hn & Hw). apply does_ret.
  destruct (countdown_usec now timeout Hn) as [H1 H2]; [lia|]. split; [|done]. split; [done|]. lia.
Qed.

Lemma does_countdown timeout s : does (countdown timeout) s
  (fun t s' => (0 <= clock_span <= timeout * 1000000 /\ timeout * 1000000 + clock_span < 1000000000 * 1000000 -> live t) /\ same s s').
Proof.
  unfold countdown. eapply does_bind; [apply does_now|]. intros now s' (Hs & Hn & Hw). apply does_ret. split; [|done].
  intros Ht. destruct (timeradd_usec now (mk_tv timeout 0) Hn) as [H1 H2]; [by cbv|]. split; [done|].
  change (usec_of (mk_tv timeout 0)) with (timeout * 1000000 + 0) in H2. unfold TimerCountdown. rewrite H2. lia.
Qed.

(** ** Reading *)

(** The state after [n] bytes were received, the client being [c]. *)
Definition received (s : @st W) (c : client) (n : Z) (s' : @st W) : Prop :=
  cl s' = c /\ callbacks s' = callbacks s /\ see (wd s') = rest_view (see (wd s)) n.

Lemma rest_view_rest v a b : 0 <= a -> 0 <= b -> rest_view (rest_view v a) b = rest_view v (a + b).
Proof. intros Ha Hb. unfold rest_view. cbn [input output events]. rewrite drop_drop. do 2 f_equal. lia. Qed.

Lemma rest_view_0 v : rest_view v 0 = v.
Proof. by destruct v. Qed.

Lemma read_loop_all fuel : forall interval mem off len bytes s,
  0 <= bytes <= len -> len < 65536 -> 0 <= off -> off + len <= zlen mem -> len - bytes <= zlen (input (see (wd s))) ->
  (Z.to_nat (len - bytes) < fuel)%nat ->
  does (read_loop fuel interval mem off len bytes) s (fun r s' => fst r = len /\
    wrn mem (off + bytes) (take (Z.to_nat (len - bytes)) (input (see (wd s)))) = Some (snd r) /\ received s (cl s) (len - bytes) s').
Proof.
  induction fuel as [|fuel IH]; intros interval mem off len bytes s Hb Hlen Hoff Hmem Hin Hf; [lia|]. cbn [read_loop].
  destruct (Z.ltb_spec bytes len) as [Hlt | Hge].
  2: { apply does_ret. replace (len - bytes) with 0 by lia. cbn [fst snd]. split; [lia|]. split; [apply wrn_nil; lia|].
       split; [done|]. split; [done|]. by rewrite rest_view_0. }
  rewrite u16_id by lia. assert (Hne : input (see (wd s)) <> []) by (intros E; rewrite E in Hin; change (zlen (@nil Z)) with 0 in Hin; lia).
  destruct (peer_recv (wd s) interval (len - bytes)) as (k & w & E & Hk & Hkin & Hv); [lia | done |].
  eapply does_bind; [by apply does_world|]. intros r s1 [-> ->]. replace (k <=? 0) with false by lia.
  set (v := input (see (wd s))) in *. assert (Hkl : zlen (take (Z.to_nat k) v) = k) by zl.
  destruct (wrn_Some mem (off + bytes) (take (Z.to_nat k) v)) as [mem1 Hm1]; [lia | lia |].
  eapply does_bind; [by apply (does_lift _ mem1 _ (fun a s' => a = mem1 /\ s' = mk_st (cl s) (callbacks s) w))|]. intros a s' [-> ->].
  assert (Hin1 : input (see w) = drop (Z.to_nat k) v) by (rewrite Hv; done).
  pose proof (wrn_length _ _ _ _ Hm1) as Hl. eapply does_mono.
  - apply IH; try lia; [unfold zlen in *; lia|]. cbn [wd]. rewrite Hin1. zl.
  - cbn [wd cl callbacks]. intros [rc mem'] s' (Hrc & Hw & Hc & Hcb & Hv'). split; [done|]. rewrite Hin1 in Hw. split.
    + rewrite <- Hkl in Hw at 1. rewrite Z.add_assoc, (wrn_compose _ _ _ _ _ Hm1) in Hw. rewrite <- Hw. f_equal.
      rewrite take_take_drop. f_equal. lia.
    + split; [done|]. split; [done|]. cbn [wd] in Hv'. rewrite Hv', Hv, rest_view_rest by lia. f_equal. lia.
Qed.

Lemma does_mqttread mem off len timeout s : 1 <= len < 65536 -> 0 <= off -> off + len <= zlen mem -> len <= zlen (input (see (wd s))) ->
  does (mqttread mem off len timeout) s (fun r s' => fst r = len /\
    wrn mem off (take (Z.to_nat len) (input (see (wd s)))) = Some (snd r) /\ received s (cl s) len s').
Proof.
  intros Hlen Hoff Hmem Hin. unfold mqttread. replace (len <=? 0) with false by lia. eapply does_mono; [apply read_loop_all; try lia|].
  intros r s' Hr. cbn beta in Hr. by rewrite Z.sub_0_r, Z.add_0_r in Hr.
Qed.

Lemma does_read_readbuf off len timeout s : 1 <= len < 65536 -> 0 <= off -> off + len <= zlen (readbuf (cl s)) ->
  len <= zlen (input (see (wd s))) ->
  does (read_readbuf off len timeout) s (fun r s' => r = len /\ exists b,
    wrn (readbuf (cl s)) off (take (Z.to_nat len) (input (see (wd s)))) = Some b /\ received s (with_readbuf (cl s) b) len s').
Proof.
  intros Hlen Hoff Hmem Hin. unfold read_readbuf. eapply does_bind; [by apply (does_get _ (fun c s' => c = cl s /\ s' = s))|].
  intros c s1 [-> ->]. eapply does_bind; [by apply does_mqttread|]. intros r s2 (Hr & Hw & Hc & Hcb & Hv).
  eapply does_bind; [by apply (does_put _ _ (fun _ s' => s' = mk_st (with_readbuf (cl s) (snd r)) (callbacks s2) (wd s2)))|].
  intros _ s3 ->. apply does_ret. split; [done|]. exists (snd r). split; [done|]. by split_and!.
Qed.

(** Fewer bytes than asked for: everything is consumed, and the read fails. *)
Lemma read_loop_short fuel : forall interval mem off len bytes s,
  0 <= bytes -> len < 65536 -> 0 <= off -> off + len <= zlen mem -> zlen (input (see (wd s))) < len - bytes ->
  (Z.to_nat (len - bytes) < fuel)%nat ->
  does (read_loop fuel interval mem off len bytes) s (fun r s' => fst r = -1 /\ zlen (snd r) = zlen mem /\
    received s (cl s) (zlen (input (see (wd s)))) s').
Proof.
  induction fuel as [|fuel IH]; intros interval mem off len bytes s Hb Hlen Hoff Hmem Hin Hf; [lia|]. cbn [read_loop].
  pose proof (zlen_nonneg (input (see (wd s)))). replace (bytes <? len) with true by lia. rewrite u16_id by lia.
  destruct (input (see (wd s))) as [|x v0] eqn:Ei.
  - destruct (peer_recv_none (wd s) interval (len - bytes) ltac:(lia) (or_intror Ei)) as (k & data & w & E & Hk & Hv).
    eapply does_bind; [by apply does_world|]. intros r s1 [-> ->]. replace (k <=? 0) with true by lia. apply does_ret.
    split; [done|]. split; [done|]. change (zlen (@nil Z)) with 0. split; [done|]. split; [done|]. by rewrite rest_view_0.
  - destruct (peer_recv (wd s) interval (len - bytes)) as (k & w & E & Hk & Hkin & Hv); [lia | by rewrite Ei |]. rewrite Ei in *.
    set (v := x :: v0) in *. eapply does_bind; [by apply does_world|]. intros r s1 [-> ->]. replace (k <=? 0) with false by lia.
    assert (Hkl : zlen (take (Z.to_nat k) v) = k) by zl.
    destruct (wrn_Some mem (off + bytes) (take (Z.to_nat k) v)) as [mem1 Hm1]; [lia | lia |].
    eapply does_bind; [by apply (does_lift _ mem1 _ (fun a s' => a = mem1 /\ s' = mk_st (cl s) (callbacks s) w))|]. intros a s' [-> ->].
    assert (Hin1 : input (see w) = drop (Z.to_nat k) v) by (rewrite Hv; cbn [rest_view input]; by rewrite Ei).
    pose proof (wrn_length _ _ _ _ Hm1) as Hl. eapply does_mono.
    + apply IH; try lia; [unfold zlen in *; lia|]. cbn [wd]. rewrite Hin1. zl.
    + cbn [wd cl callbacks]. intros [rc mem'] s' (Hrc & Hz & Hc & Hcb & Hv'). split; [done|]. split; [unfold zlen in *; lia|].
      split; [done|]. split; [done|]. cbn [wd] in Hv'. rewrite Hv', Hv, rest_view_rest by zl. rewrite <- Hv, Hin1. f_equal. zl.
Qed.

(** ** A program logic

    [wp m c v Q]: from any state with client [c], callbacks [cbs] and view [v] the
    operation is defined, keeps the callbacks and ends in [Q]. *)

Definition wp {A} (cbs : list delivery_callback) (m : M A) (c : client) (v : view) (Q : A -> client -> view -> Prop) : Prop :=
  forall s : @st W, cl s = c -> callbacks s = cbs -> see (wd s) = v ->
    does m s (fun a s' => callbacks s' = cbs /\ Q a (cl s') (see (wd s'))).

Section logic.
Context (cbs : list delivery_callback).
Implicit Types (c : client) (v : view).

Lemma wp_ret {A} (a : A) c v (Q : A -> client -> view -> Prop) : Q a c v -> wp cbs (mret a) c v Q.
Proof. intros HQ s <- <- <-. by apply does_ret. Qed.

Lemma wp_bind {A B} (m : M A) (f : A -> M B) c v (R : A -> client -> view -> Prop) (Q : B -> client -> view -> Prop) :
  wp cbs m c v R -> (forall a c' v', R a c' v' -> wp cbs (f a) c' v' Q) -> wp cbs (m ≫= f) c v Q.
Proof.
  intros Hm Hf s Hc Hcb Hv. eapply does_bind; [by apply Hm|]. intros a s' [Hcb' HR]. by apply (Hf a _ _ HR).
Qed.

Lemma wp_mono {A} (m : M A) c v (R Q : A -> client -> view -> Prop) :
  wp cbs m c v R -> (forall a c' v', R a c' v' -> Q a c' v') -> wp cbs m c v Q.
Proof. intros Hm HQ s Hc Hcb Hv. eapply does_mono; [by apply Hm|]. intros a s' [Hcb' HR]. auto. Qed.

Lemma wp_get {B} (f : client -> M B) c v Q : wp cbs (f c) c v Q -> wp cbs (get ≫= f) c v Q.
Proof.
  intros Hf s <- Hcb Hv. eapply does_bind; [by apply (does_get _ (fun a s' => a = cl s /\ s' = s))|].
  intros a s' [-> ->]. by apply Hf.
Qed.

Lemma wp_put {B} (f : unit -> M B) c c' v Q : wp cbs (f tt) c' v Q -> wp cbs (put c' ≫= f) c v Q.
Proof.
  intros Hf s <- Hcb Hv. eapply does_bind; [by apply (does_put _ _ (fun _ s' => s' = mk_st c' (callbacks s) (wd s)))|].
  intros [] s' ->. by apply Hf.
Qed.

Lemma wp_lift {A B} (o : option A) a (f : A -> M B) c v Q : o = Some a -> wp cbs (f a) c v Q -> wp cbs (lift o ≫= f) c v Q.
Proof.
  intros Ho Hf s <- Hcb Hv. eapply does_bind; [by apply (does_lift _ a _ (fun b s' => b = a /\ s' = s))|].
  intros b s' [-> ->]. by apply Hf.
Qed.

(** An operation that only looks at the clock. *)
Lemma wp_clock {A B} (m : M A) (f : A -> M B) c v (P : A -> Prop) Q :
  (forall s, does m s (fun a s' => P a /\ same s s')) -> (forall a, P a -> wp cbs (f a) c v Q) -> wp cbs (m ≫= f) c v Q.
Proof.
  intros Hm Hf s <- Hcb Hv. eapply does_bind; [apply Hm|]. intros a s' (HP & Hc & Hcb' & Hv'). apply (Hf a HP); congruence.
Qed.

Lemma wp_left {B} timer (f : Z -> M B) c v Q : (forall t, wp cbs (f t) c v Q) -> wp cbs (left_ms timer ≫= f) c v Q.
Proof. intros Hf. eapply (wp_clock _ _ _ _ (fun _ => True)); [|auto]. intros s. eapply does_mono; [apply does_left|]. auto. Qed.

Lemma wp_expired {B} timer (f : bool -> M B) c v Q : live timer -> wp cbs (f false) c v Q -> wp cbs (expired timer ≫= f) c v Q.
Proof. intros Ht Hf. eapply wp_clock; [intros s; by apply does_expired|]. by intros a ->. Qed.

Lemma wp_expired_over {B} timer (f : bool -> M B) c v Q : over timer -> wp cbs (f true) c v Q -> wp cbs (expired timer ≫= f) c v Q.
Proof. intros Ht Hf. eapply wp_clock; [intros s; by apply does_expired_over|]. by intros a ->. Qed.

Lemma wp_expired_any {B} timer (f : bool -> M B) c v Q : (forall b, wp cbs (f b) c v Q) -> wp cbs (expired timer ≫= f) c v Q.
Proof.
  intros Hf. eapply (wp_clock _ _ _ _ (fun _ => True)); [|auto]. intros s. unfold expired. eapply does_bind; [apply does_now|].
  intros now s' (Hs & _). by apply does_ret.
Qed.

(** A timeout in microseconds that outlasts the window. *)
Definition long (usec : Z) : Prop := 0 <= clock_span <= usec /\ usec + clock_span < 1000000000 * 1000000.

Lemma wp_countdown_ms {B} timeout (f : timeval -> M B) c v Q :
  long (timeout * 1000) -> (forall t, live t -> wp cbs (f t) c v Q) -> wp cbs (countdown_ms timeout ≫= f) c v Q.
Proof. intros [H1 H2] Hf. eapply wp_clock; [intros s; by apply does_countdown_ms|]. done. Qed.

Lemma wp_countdown {B} k (f : timeval -> M B) c v Q :
  (forall t, (long (k * 1000000) -> live t) -> wp cbs (f t) c v Q) -> wp cbs (countdown k ≫= f) c v Q.
Proof. intros Hf. eapply wp_clock; [intros s; apply does_countdown | done]. Qed.

(** ** Receiving and sending *)

Definition with_input (v : view) (i : list Z) : view := mk_view i (output v) (events v).

Lemma rest_view_app v bs rest n : input v = bs ++ rest -> n = zlen bs -> rest_view v n = with_input v rest.
Proof. intros Hi ->. unfold rest_view, with_input. rewrite Hi. f_equal. by apply drop_app_zlen. Qed.

Lemma wp_mqttread {B} mem off n timeout bs rest mem' (f : Z * list Z -> M B) c v Q :
  input v = bs ++ rest -> n = zlen bs -> 1 <= n < 65536 -> wrn mem off bs = Some mem' ->
  wp cbs (f (n, mem')) c (with_input v rest) Q -> wp cbs (mqttread mem off n timeout ≫= f) c v Q.
Proof.
  intros Hi Hn Hn1 Hw Hf s <- Hcb <-. assert (Hr : 0 <= off /\ off + n <= zlen mem).
  { unfold wrn in Hw. destruct ((0 <=? off) && (off + zlen bs <=? zlen mem)) eqn:E; [|done]. lia. }
  eapply does_bind; [apply does_mqttread; [lia..|]; rewrite Hi; zl|].
  intros [k m] s' (Hk & Hm & Hc & Hcb' & Hv'). cbn [fst snd] in *. subst k. rewrite Hi, take_app_zlen, Hw in Hm by done. simplify_eq.
  apply Hf; [done | congruence |]. by rewrite Hv', (rest_view_app _ bs rest).
Qed.

Lemma wp_read_readbuf {B} off n timeout bs rest b (f : Z -> M B) c v Q :
  input v = bs ++ rest -> n = zlen bs -> 1 <= n < 65536 -> wrn (readbuf c) off bs = Some b ->
  wp cbs (f n) (with_readbuf c b) (with_input v rest) Q -> wp cbs (read_readbuf off n timeout ≫= f) c v Q.
Proof.
  intros Hi Hn Hn1 Hw Hf s <- Hcb <-. unfold read_readbuf. eapply does_bind.
  - eapply wp_get; [|done..]. eapply wp_mqttread; [done..|]. eapply wp_put, wp_ret.
    exact (conj eq_refl (conj eq_refl eq_refl) : (fun a c' v' => a = n /\ c' = with_readbuf (cl s) b /\ v' = with_input (see (wd s)) rest) _ _ _).
  - intros a s' (Hcb' & -> & Hc & Hv). by apply Hf.
Qed.

Lemma wp_seq {A B} (m : M A) (f : A -> M B) c v Q :
  wp cbs m c v (fun a c' v' => wp cbs (f a) c' v' Q) -> wp cbs (m ≫= f) c v Q.
Proof. intros Hm. by eapply wp_bind. Qed.

(** One byte of the input. *)
Lemma wp_read_1 {B} mem x timeout rest mem' (f : Z * list Z -> M B) c v Q :
  input v = x :: rest -> wr mem 0 x = Some mem' ->
  wp cbs (f (1, mem')) c (with_input v rest) Q -> wp cbs (mqttread mem 0 1 timeout ≫= f) c v Q.
Proof. intros Hi Hw Hf. rewrite wr_wrn in Hw. by apply (wp_mqttread _ _ _ _ [x] rest mem'). Qed.

Lemma wp_decode_loop timeout c Q k : forall fuel len m value n rest v,
  input v = base128 k n ++ rest -> k <> O -> 0 <= n < 128 ^ Z.of_nat k -> len + Z.of_nat k <= 4 -> (k < fuel)%nat ->
  Q (len + zlen (base128 k n), value + n * m) c (with_input v rest) ->
  wp cbs (decode_packet_loop fuel timeout len m value) c v Q.
Proof.
  induction k as [|k IH]; intros fuel len m value n rest v Hi Hk Hn Hl Hf HQ; [done|].
  rewrite Nat2Z.inj_succ, Z.pow_succ_r in Hn by lia. destruct fuel as [|fuel]; [lia|].
  cbn [decode_packet_loop base128] in *. destruct (Z.ltb_spec n 128) as [Hs | Hs].
  - eapply wp_read_1; [exact Hi | done |]. eapply wp_lift; [done|]. cbn [fst]. change (negb (1 =? 1)) with false. cbv iota zeta.
    if_false. rewrite land_127, land_128, Z.mod_small, Z.div_small by (unfold is_byte; lia).
    apply wp_ret. change (zlen [n]) with 1 in HQ. by rewrite Z.mul_comm in HQ |- *.
  - eapply wp_read_1; [exact Hi | done |]. eapply wp_lift; [done|]. cbn [fst]. change (negb (1 =? 1)) with false. cbv iota zeta.
    if_false. rewrite land_127, land_128 by (unfold is_byte; lia_mod).
    replace ((n mod 128 + 128) mod 128) with (n mod 128) by lia_mod.
    replace ((n mod 128 + 128) / 128) with 1 by lia_mod. change (negb (128 * 1 =? 0)) with true. cbv iota.
    eapply IH; [done | | | lia | lia |].
    + intros ->. change (128 ^ Z.of_nat 0) with 1 in Hn. lia.
    + split; [lia_mod | apply Z.div_lt_upper_bound; lia].
    + match type of HQ with Q ?x _ _ => match goal with |- Q ?y _ _ => replace y with x end end; [done|].
      f_equal; [zl | lia_mod].
Qed.

Lemma wp_decodePacket timeout n rest c v Q : input v = varint n ++ rest -> 0 <= n < 268435456 ->
  Q (zlen (varint n), n) c (with_input v rest) -> wp cbs (decodePacket timeout) c v Q.
Proof.
  intros Hi Hn HQ. rewrite varint_eq in Hi, HQ by done. eapply wp_decode_loop; [exact Hi | done | done | done | lia |].
  by rewrite Z.mul_1_r.
Qed.

(** The bytes of a packet no callback wants. *)
Lemma wp_skip_loop timer c Q fuel : forall body rest v, input v = body ++ rest -> (length body < fuel)%nat -> zlen body < 65536 ->
  Q tt c (with_input v rest) -> wp cbs (skip_loop fuel (zlen body) timer) c v Q.
Proof.
  induction fuel as [|fuel IH]; intros body rest v Hi Hf Hb HQ; [lia|]. cbn [skip_loop].
  destruct (Z.eqb_spec (zlen body) 0) as [Hz | Hz].
  - apply wp_ret. apply zlen_0 in Hz as ->. destruct v as [i o e]. cbn in Hi. by subst i.
  - pose proof (zlen_nonneg body). set (n := if zlen body <? 4 then zlen body else 4).
    assert (Hn : 1 <= n <= 4 /\ n <= zlen body) by (unfold n; destruct (Z.ltb_spec (zlen body) 4); lia).
    destruct (split_at body n) as (a & b & -> & Ha); [lia|]. rewrite <- app_assoc in Hi. apply wp_left. intros t.
    destruct (wrn_Some [0; 0; 0; 0] 0 a) as [mem Hm]; [lia | change (zlen [0; 0; 0; 0]) with 4; lia |].
    eapply wp_mqttread; [exact Hi | lia | lia | exact Hm |]. cbn [fst]. replace (0 <? n) with true by lia.
    replace (zlen (a ++ b) - n) with (zlen b) by zl. eapply IH; [done | zl | zl | done].
Qed.

(** ** Sending *)

Lemma does_send_loop data r timer fuel s : buf (cl s) = data ++ r -> data <> [] -> live timer ->
  does (send_loop (S (S fuel)) 0 (zlen data) timer) s
    (fun sent s' => sent = zlen data /\ callbacks s' = callbacks s /\ cl s' = cl s /\ see (wd s') = send_view (see (wd s)) data).
Proof.
  intros Hb Hd Ht. assert (H1 : 1 <= zlen data) by (destruct data; [done | zl]). cbn [send_loop]. replace (0 <? zlen data) with true by lia.
  eapply does_bind; [by apply does_expired|]. intros b s1 [-> (Hc & Hcb & Hv)].
  eapply does_bind; [by apply does_left|]. intros t s2 (Hc2 & Hcb2 & Hv2). unfold mqttwrite.
  assert (Hb2 : buf (cl s2) = data ++ r) by congruence. destruct (peer_send (wd s2) data Hd) as (w & Ew & Hw).
  eapply does_bind.
  - eapply does_bind; [by apply (does_get _ (fun c s' => c = cl s2 /\ s' = s2))|]. intros c s3 [-> ->].
    eapply does_bind; [by apply (does_lift _ data _ (fun a s' => a = data /\ s' = s2)); [rewrite Hb2; apply rdn_app_0|]|].
    intros a s3 [-> ->]. by apply does_world.
  - intros k s3 [-> ->]. replace (zlen data <=? 0) with false by lia. rewrite Z.add_0_l, Z.ltb_irrefl. apply does_ret.
    cbn [cl callbacks wd]. split; [done|]. split; [congruence|]. split; [congruence|]. by rewrite Hw, Hv2, Hv.
Qed.

(** A client that owes no ping while it is watched. *)
Definition quiet (c : client) : Prop :=
  keepAliveInterval c = 0 \/ long (keepAliveInterval c * 1000000) /\ live (last_sent c) /\ live (last_received c).

Lemma wp_sendPacket data r timer c v Q : buf c = data ++ r -> data <> [] -> live timer ->
  (forall t, (quiet c -> quiet (with_last_sent c t)) -> Q MQTT_SUCCESS (with_last_sent c t) (send_view v data)) ->
  wp cbs (sendPacket (zlen data) timer) c v Q.
Proof.
  intros Hb Hd Ht HQ. unfold sendPacket. replace (Z.to_nat (zlen data)) with (S (pred (length data))) by (destruct data; [done | zl]).
  eapply (wp_bind _ _ _ _ (fun a c' v' => a = zlen data /\ c' = c /\ v' = send_view v data)).
  - intros s <- Hcb <-. eapply does_mono; [by eapply does_send_loop|]. cbn beta. intros a s' (Ha & Hcb' & Hc & Hv).
    split; [congruence | done].
  - intros a c' v' (-> & -> & ->). rewrite Z.eqb_refl. apply wp_get, wp_countdown. intros t Hl. apply wp_put, wp_ret, HQ.
    intros [Hz | (Hk & Hs & Hr)]; [by left|]. right. cbn. auto.
Qed.

Lemma wp_keepalive c v Q : quiet c -> Q MQTT_SUCCESS c v -> wp cbs keepalive c v Q.
Proof.
  intros Hq HQ. unfold keepalive. apply wp_get. destruct (Z.eqb_spec (keepAliveInterval c) 0) as [Hz | Hz]; [by apply wp_ret|].
  destruct Hq as [? | (_ & Hs & Hr)]; [done|]. apply wp_expired; [done|]. cbv iota. apply wp_expired; [done|]. by apply wp_ret.
Qed.

Lemma wp_serialize f c v n b Q : f (buf c) (zlen (buf c)) = Some (n, b) -> Q n (with_buf c b) v -> wp cbs (serialize f) c v Q.
Proof. intros Hf HQ. unfold serialize. apply wp_get. eapply wp_lift; [exact Hf|]. cbn [fst snd]. by apply wp_put, wp_ret. Qed.

Lemma wp_world {A} (f : W -> A * W) c v (Q : A -> client -> view -> Prop) :
  (forall w, see w = v -> exists a w', f w = (a, w') /\ Q a c (see w')) -> wp cbs (world f) c v Q.
Proof.
  intros Hf s <- Hcb Hv. destruct (Hf (wd s) Hv) as (a & w & E & HQ). eapply does_mono; [by apply does_world|].
  intros b s' [-> ->]. by split.
Qed.

End logic.
End peer.

(** ** A concrete peer

    The world is the view itself; a read returns at most three bytes, the clock
    stands still and every message is accepted. *)
#[export] Instance view_world : World view := {
  gettimeofday v := (mk_tv 100 0, v);
  recv v _ n := let k := Z.min 3 (Z.min n (zlen (input v))) in (k, take (Z.to_nat k) (input v), rest_view v k);
  send v bs := (zlen bs, send_view v bs);
  call_init v f n := (0, event_view v (EvInit f n));
  call_process v f p := (0, event_view v (EvProcess f p));
  call_done v f := (0, event_view v (EvDone f));
}.

#[export, refine] Instance view_peer : Peer view := {
  see v := v;
  clock_start := 100 * 1000000;
  clock_span := 1;
  accept _ := 0;
}.
Proof.
  - intros v. unfold normal, usec_of. cbn. split; [lia|]. split; [lia | done].
  - intros v i n Hn Hne. set (k := Z.min 3 (Z.min n (zlen (input v)))).
    assert (1 <= zlen (input v)) by (destruct (input v); [done | zl]). exists k, (rest_view v k). split; [done|].
    split; [lia|]. split; [lia | done].
  - intros v i n Hn He. set (k := Z.min 3 (Z.min n (zlen (input v)))). exists k, (take (Z.to_nat k) (input v)), (rest_view v k). split; [done|].
    assert (Hk : k = 0) by (unfold k; pose proof (zlen_nonneg (input v)); destruct He as [-> | ->]; [lia|]; change (zlen (@nil Z)) with 0; lia).
    rewrite Hk. split; [done|]. apply rest_view_0.
  - intros v bs Hne. by exists (send_view v bs).
  - intros v. cbn. unfold send_view. rewrite app_nil_r. by destruct v.
  - intros v f n. by exists (event_view v (EvInit f n)).
  - intros v f p. by exists 0, (event_view v (EvProcess f p)).
  - intros v f. by exists 0, (event_view v (EvDone f)).
Defined.

End MqttPeer.
