(* ===== verification/MqttCycle.v ===== *)
(** The receiving side of the MQTT client against a peer: what [cycle_r] and
    [waitfor] of src/src/mqtt/client/client.c do with every packet, message
    delivery and acknowledgements included. *)
From S2P Require Import Prelude StateM Timer MqttPacket MqttPublish MqttConnect MqttSubscribe MqttClient MqttPeer.

Module MqttCycle.
Import StateM Timer MQTTPacket MQTTPublish MQTTConnect MqttClient MqttPeer.

(** ** What a packet is *)

(** The packets in transit: one no callback of [__cycle_collection] wants, one
    whose body goes to [readbuf] (CONNACK and SUBACK), and a PUBLISH. *)
Inductive packet :=
| Other (type flags : Z) (body : list Z)
| Reply (type flags : Z) (body : list Z)
| Message (dup qos retain id : Z) (topic payload : list Z).

Definition code (p : packet) : Z := match p with Other t _ _ | Reply t _ _ => t | Message _ _ _ _ _ _ => 3 end.

Definition wire (p : packet) : list Z :=
  match p with
  | Other t f body | Reply t f body => [16 * t + f] ++ varint (zlen body) ++ body
  | Message dup qos retain id topic payload => publish_wire dup qos retain id topic payload
  end.

(** A packet the client has room for. *)
Definition fits (c : client) (p : packet) : Prop :=
  match p with
  | Other t f body => 1 <= t < 15 /\ has_cycle t = false /\ 0 <= f < 16 /\ zlen body <= MQTT_CLIENT_MAX_MSG_LEN
  | Reply t f body => (t = 2 \/ t = 9) /\ 0 <= f < 16 /\ 1 <= zlen body <= MQTT_CLIENT_MAX_MSG_LEN /\ zlen body <= zlen (readbuf c)
  | Message dup qos retain id topic payload =>
      0 <= dup < 2 /\ 0 <= qos < 3 /\ 0 <= retain < 2 /\ 0 <= id < 65536 /\ is_cstr topic /\
      1 <= zlen topic < zlen (readbuf c) /\ (0 < qos \/ 1 <= zlen payload) /\
      zlen (publish_body qos id topic payload) <= MQTT_CLIENT_MAX_MSG_LEN /\ 4 <= zlen (buf c)
  end.

(** ** Deliveries *)

(** The callback of a topic: the first whose filter starts with it. *)
Definition handler (cbs : list delivery_callback) (topic : list Z) : option delivery_callback :=
  find (fun cb => bool_decide (topic `prefix_of` cb_topic cb)) cbs.

(** A payload cut into parts of [n] bytes, the last one shorter. *)
Fixpoint chunks (fuel n : nat) (l : list Z) : list (list Z) :=
  match fuel, l with
  | S fuel', _ :: _ => take n l :: chunks fuel' n (drop n l)
  | _, _ => []
  end.

Lemma concat_chunks fuel : forall n l, (0 < n)%nat -> (length l <= fuel)%nat -> concat (chunks fuel n l) = l.
Proof.
  induction fuel as [|fuel IH]; intros n [|x l] Hn Hl; try done; [cbn in Hl; lia|]. cbn [chunks concat].
  rewrite IH, take_drop; [done | done |]. rewrite length_drop. cbn [length] in *. lia.
Qed.

Lemma chunks_fuel f1 : forall f2 n l, (0 < n)%nat -> (length l <= f1)%nat -> (length l <= f2)%nat -> chunks f1 n l = chunks f2 n l.
Proof.
  induction f1 as [|f1 IH]; intros [|f2] n [|x l] Hn H1 H2; cbn [length] in *; try lia; try done. cbn [chunks].
  f_equal. apply IH; [done | rewrite length_drop; cbn [length]; lia..].
Qed.

Lemma chunks_size fuel : forall n l, (0 < n)%nat -> Forall (fun part => (0 < length part <= n)%nat) (chunks fuel n l).
Proof.
  induction fuel as [|fuel IH]; intros n [|x l] Hn; try apply Forall_nil_2.
  cbn [chunks]. apply Forall_cons_2; [|by apply IH]. rewrite length_take. cbn [length]. lia.
Qed.

Lemma strncmp0_prefix a b r : is_cstr a -> is_cstr b ->
  strncmp0 (a ++ [0]) (b ++ r) (length b) = Some (bool_decide (b `prefix_of` a)).
Proof.
  intros Ha Hb. revert a Ha. induction Hb as [|y b Hy Hb IH]; intros a Ha.
  { rewrite bool_decide_eq_true_2; [done | apply prefix_nil]. }
  destruct Ha as [|x a Hx Ha]; cbn [strncmp0 app length].
  - replace (0 =? y) with false by lia. rewrite bool_decide_eq_false_2; [done | apply prefix_nil_not].
  - destruct (Z.eqb_spec x y) as [-> | Hne].
    + replace (y =? 0) with false by lia. rewrite IH by done. f_equal. apply bool_decide_ext. split; [apply prefix_cons | apply prefix_cons_inv_2].
    + rewrite bool_decide_eq_false_2; [done|]. intros Hp. by apply prefix_cons_inv_1 in Hp.
Qed.

Lemma find_callback_handler cbs topic r : Forall (fun cb => is_cstr (cb_topic cb)) cbs -> is_cstr topic ->
  find_callback cbs (mk_str None (zlen topic) (Some (topic ++ r))) = Some (handler cbs topic).
Proof.
  intros Hc Ht. unfold handler. induction Hc as [|cb cbs Hcb _ IH]; [done|]. cbn [find_callback find].
  unfold deliveryeq. cbn [cstring lenstring_data lenstring_len mbind option_bind].
  rewrite zlen_to_nat, strncmp0_prefix by done. cbn [mbind option_bind]. by case_match.
Qed.

Section cycle.
Context {W : Type} `{Peer W} (cbs : list delivery_callback).
#[local] Abbreviation M := (StateM.M (@st W)).
Hypothesis (filters : Forall (fun cb => is_cstr (cb_topic cb)) cbs).
Implicit Types (c : client) (v : view).

Definition fired (o : option nat) (ev : nat -> event) : list event := from_option (fun f => [ev f]) [] o.

(** What the callbacks see of a message whose parts have at most [n] bytes. *)
Definition parts (topic payload : list Z) (n : nat) : list event :=
  concat (map (fun part => fired (handler cbs topic ≫= cb_process) (fun f => EvProcess f part)) (chunks (length payload) n payload)).
Definition deliver (topic payload : list Z) (n : nat) : list event :=
  match handler cbs topic ≫= cb_init with
  | None => []
  | Some f => EvInit f (zlen payload) ::
      if accept f =? 0 then parts topic payload n ++ fired (handler cbs topic ≫= cb_done) EvDone else []
  end.

(** What becomes of the view when a packet is handled: [room] is the size of [readbuf]. *)
Definition notified (room : Z) (p : packet) : list event :=
  match p with
  | Message _ _ _ _ topic payload => deliver topic payload (Z.to_nat (room - zlen topic))
  | _ => []
  end.
Definition answer (p : packet) : list Z :=
  match p with
  | Message _ qos _ id _ _ => if qos =? 0 then [] else ack_wire (if qos =? 1 then msg_code PUBACK else msg_code PUBREC) 0 id
  | _ => []
  end.

(** A handled packet changes nothing of the client but the contents of the two
    buffers and the time of the last packet sent. *)
Definition kept c c' : Prop :=
  exists b r t, c' = with_last_sent (with_readbuf (with_buf c b) r) t /\ zlen b = zlen (buf c) /\ zlen r = zlen (readbuf c) /\
    (quiet c -> quiet c').

#[global] Instance kept_refl : Reflexive kept.
Proof. intros c. exists (buf c), (readbuf c), (last_sent c). by destruct c. Qed.
#[global] Instance kept_trans : Transitive kept.
Proof.
  intros c c1 c2 (b & r & t & -> & Hb & Hr & Hq) (b' & r' & t' & -> & Hb' & Hr' & Hq'). exists b', r', t'. cbn in *.
  split; [done|]. split; [congruence|]. split; [congruence | auto].
Qed.

Lemma kept_readbuf c r : zlen r = zlen (readbuf c) -> kept c (with_readbuf c r).
Proof. intros Hr. exists (buf c), r, (last_sent c). by destruct c. Qed.
Lemma kept_buf c b : zlen b = zlen (buf c) -> kept c (with_buf c b).
Proof. intros Hr. exists b, (readbuf c), (last_sent c). by destruct c. Qed.
Lemma kept_sent c t : (quiet c -> quiet (with_last_sent c t)) -> kept c (with_last_sent c t).
Proof. intros Hq. exists (buf c), (readbuf c), t. by destruct c. Qed.

Lemma wp_lookup {B} topic r (f : option delivery_callback -> M B) c v Q : is_cstr topic ->
  wp cbs (f (handler cbs topic)) c v Q -> wp cbs (lookup_callback (mk_str None (zlen topic) (Some (topic ++ r))) ≫= f) c v Q.
Proof.
  intros Ht Hf s Hc Hcb Hv. eapply does_bind.
  - exists (handler cbs topic), s. unfold lookup_callback. rewrite Hcb, find_callback_handler by done.
    exact (conj eq_refl (conj eq_refl eq_refl) : _ /\ (fun a s' => a = handler cbs topic /\ s' = s) _ _).
  - intros a s' [-> ->]. by apply Hf.
Qed.

Definition add_events v (es : list event) : view := mk_view (input v) (output v) (events v ++ es).

Lemma add_events_nil v : add_events v [] = v.
Proof. destruct v. unfold add_events. cbn. by rewrite app_nil_r. Qed.
Lemma add_events_app v a b : add_events (add_events v a) b = add_events v (a ++ b).
Proof. unfold add_events. cbn. by rewrite app_assoc. Qed.

Lemma wp_process topic r part c v Q : is_cstr topic ->
  (forall k, Q k c (add_events v (fired (handler cbs topic ≫= cb_process) (fun f => EvProcess f part)))) ->
  wp cbs (delivery_message_process (mk_str None (zlen topic) (Some (topic ++ r))) part) c v Q.
Proof.
  intros Ht HQ. unfold delivery_message_process. apply wp_lookup; [done|].
  change (option_bind _ _ cb_process (handler cbs topic)) with (handler cbs topic ≫= cb_process).
  destruct (handler cbs topic ≫= cb_process) as [f|].
  - apply wp_world. intros w <-. destruct (peer_process w f part) as (k & w' & E & Hv). exists k, w'. rewrite Hv. split; [done | apply HQ].
  - apply wp_ret. rewrite <- (add_events_nil v). apply HQ.
Qed.

Lemma wp_done topic r c v Q : is_cstr topic ->
  (forall k, Q k c (add_events v (fired (handler cbs topic ≫= cb_done) EvDone))) ->
  wp cbs (delivery_message_done (mk_str None (zlen topic) (Some (topic ++ r)))) c v Q.
Proof.
  intros Ht HQ. unfold delivery_message_done. apply wp_lookup; [done|].
  change (option_bind _ _ cb_done (handler cbs topic)) with (handler cbs topic ≫= cb_done).
  destruct (handler cbs topic ≫= cb_done) as [f|].
  - apply wp_world. intros w <-. destruct (peer_done w f) as (k & w' & E & Hv). exists k, w'. rewrite Hv. split; [done | apply HQ].
  - apply wp_ret. rewrite <- (add_events_nil v). apply HQ.
Qed.

Lemma wp_init topic r n c v Q : is_cstr topic ->
  (match handler cbs topic ≫= cb_init with
   | Some f => Q (accept f) c (add_events v [EvInit f n])
   | None => Q (-1) c v
   end) -> wp cbs (delivery_message_init (mk_str None (zlen topic) (Some (topic ++ r))) n) c v Q.
Proof.
  intros Ht HQ. unfold delivery_message_init. apply wp_lookup; [done|].
  change (option_bind _ _ cb_init (handler cbs topic)) with (handler cbs topic ≫= cb_init).
  destruct (handler cbs topic ≫= cb_init) as [f|]; [|by apply wp_ret].
  apply wp_world. intros w <-. destruct (peer_init w f n) as (w' & E & Hv). exists (accept f), w'. by rewrite Hv.
Qed.

(** ** The payload *)

Lemma wp_payload_loop topic msg_err timer n Q fuel : forall payload len r rest c v,
  input v = payload ++ rest -> (length payload < fuel)%nat -> zlen payload < 65536 -> is_cstr topic ->
  readbuf c = topic ++ r -> length r = n -> (0 < n)%nat ->
  (forall len' r', length r' = n -> Q (Some len') (with_readbuf c (topic ++ r'))
    (add_events (with_input v rest) (if msg_err =? 0 then parts topic payload n else []))) ->
  wp cbs (payload_loop fuel (zlen topic) (Z.of_nat n) (zlen payload) msg_err len timer) c v Q.
Proof.
  induction fuel as [|fuel IH]; intros payload len r rest c v Hi Hf Hp Ht Hr Hn Hn0 HQ; [lia|]. cbn [payload_loop].
  destruct (Z.eqb_spec (zlen payload) 0) as [Hz | Hz].
  { apply zlen_0 in Hz as ->. apply wp_ret. specialize (HQ len r Hn). change (parts topic [] n) with (@nil event) in HQ.
    assert (Hc : with_readbuf c (topic ++ r) = c) by (rewrite <- Hr; by destruct c).
    assert (Hv : with_input v rest = v) by (destruct v; cbn in Hi; by subst). rewrite Hc, Hv in HQ.
    destruct (msg_err =? 0); by rewrite add_events_nil in HQ. }
  assert (Hck : (if zlen payload <? Z.of_nat n then zlen payload else Z.of_nat n) = zlen (take n payload)) by
    (destruct (Z.ltb_spec (zlen payload) (Z.of_nat n)); zl). cbv zeta. rewrite Hck.
  pose proof (take_drop n payload) as Hsp. set (a := take n payload) in *. set (b := drop n payload) in *.
  assert (Ha : 1 <= zlen a <= Z.of_nat n) by (unfold a; zl). assert (Hab : zlen payload = zlen a + zlen b) by (rewrite <- Hsp; zl).
  pose proof (zlen_nonneg b) as Hb0.
  apply wp_left. intros t. set (r1 := a ++ drop (length a) r). assert (Hr1 : length r1 = n) by (unfold r1; zl).
  eapply (wp_read_readbuf _ _ _ _ a (b ++ rest) (topic ++ r1)); [by rewrite app_assoc, Hsp | done | lia | |].
  { rewrite Hr. rewrite wrn_app; [done | zl | zl]. }
  replace (zlen a <=? 0) with false by lia. unfold received_topic. apply wp_seq, wp_get, wp_ret, wp_get.
  eapply wp_lift; [by apply (rdn_app topic a (drop (length a) r))|].
  assert (Hgo : forall c1 v1, c1 = with_readbuf c (topic ++ r1) ->
    v1 = add_events (with_input v (b ++ rest)) (if msg_err =? 0 then fired (handler cbs topic ≫= cb_process) (fun f => EvProcess f a) else []) ->
    wp cbs (payload_loop fuel (zlen topic) (Z.of_nat n) (zlen payload - zlen a) msg_err (zlen a) timer) c1 v1 Q).
  { intros c1 v1 -> ->. replace (zlen payload - zlen a) with (zlen b) by lia. eapply IH; [done | zl | lia | done | done | done | done |].
    intros len' r' Hr'. specialize (HQ len' r' Hr'). match type of HQ with Q _ _ ?x => match goal with |- Q _ _ ?y => replace y with x end end; [done|].
    unfold add_events, with_input. cbn [input output events]. f_equal. rewrite <- app_assoc. f_equal.
    destruct (msg_err =? 0); [|done]. unfold parts. destruct payload as [|x payload]; [done|]. cbn [length chunks map concat].
    f_equal. fold a b. do 2 f_equal. apply chunks_fuel; [done | unfold b; rewrite length_drop; cbn [length]; lia | lia]. }
  apply wp_seq. cbn [readbuf with_readbuf]. destruct (msg_err =? 0) eqn:Em.
  - apply wp_process; [done|]. intros k. by apply Hgo.
  - apply wp_ret, Hgo; [done | by rewrite add_events_nil].
Qed.

(** ** Acknowledging *)

Lemma wp_acknowledge qos id len timer c v Q : 0 <= qos < 3 -> 0 <= id < 65536 -> 4 <= zlen (buf c) -> live timer ->
  (forall c', kept c c' -> Q MQTT_SUCCESS c' (send_view v (answer (Message 0 qos 0 id [] [])))) ->
  wp cbs (acknowledge qos id len timer) c v Q.
Proof.
  intros Hq Hid Hb Ht HQ. unfold acknowledge. cbn [answer] in HQ. destruct (Z.eqb_spec qos 0) as [Hz | Hz]; cbn [negb].
  { apply wp_ret. specialize (HQ c (reflexivity c)). destruct v as [i o e]. unfold send_view in HQ. cbn in HQ. by rewrite app_nil_r in HQ. }
  set (type := if qos =? 1 then msg_code PUBACK else msg_code PUBREC) in *.
  assert (Hty : 0 <= type < 16 /\ type <> msg_code PUBREL) by (unfold type; destruct (qos =? 1); by cbv).
  set (W0 := ack_wire type 0 id) in *. assert (HW : zlen W0 = 4) by done.
  assert (Hs : forall Q', Q' 4 (with_buf c (W0 ++ drop 4 (buf c))) v ->
    wp cbs (serialize (fun b n => MQTTSerialize_ack b n type 0 id)) c v Q').
  { intros Q' HQ'. eapply wp_serialize; [|exact HQ']. rewrite MQTTSerialize_ack_spec by lia.
    replace (zlen (buf c) <? 4) with false by lia. rewrite (proj2 (Z.eqb_neq _ _)) by apply Hty. done. }
  apply wp_seq. assert (Hgo : wp cbs (serialize (fun b n => MQTTSerialize_ack b n type 0 id)) c v
    (fun len c' v' => wp cbs (if len <=? 0 then mret FAILURE else sendPacket len timer) c' v' Q)).
  { apply Hs. change (4 <=? 0) with false. cbv iota. change 4 with (zlen W0).
    eapply (wp_sendPacket cbs W0 (drop 4 (buf c))); [done | done | done |]. intros t Hqt. apply HQ.
    transitivity (with_buf c (W0 ++ drop 4 (buf c))); [apply kept_buf; zl | by apply kept_sent]. }
  unfold type in Hgo. destruct (Z.eqb_spec qos 1) as [H1 | H1]; [exact Hgo|]. by replace (qos =? 2) with true by lia.
Qed.

Lemma wp_read_packet_id qos id rest timer c v Q : 0 <= id < 65536 ->
  input v = (if 0 <? qos then be16 id else []) ++ rest ->
  Q (Some (if 0 <? qos then id else 0)) c (with_input v rest) -> wp cbs (read_packet_id qos timer) c v Q.
Proof.
  intros Hid Hi HQ. unfold read_packet_id. destruct (0 <? qos).
  - apply wp_left. intros t. eapply wp_mqttread; [exact Hi | done | done | by apply (wrn_app_0 (be16 id) [0; 0] []) |].
    cbn [fst snd]. change (negb (2 =? 2)) with false. cbv iota. eapply wp_lift; [exact (reads_readInt id Hid [] [])|]. by apply wp_ret.
  - apply wp_ret. destruct v as [i o e]. cbn in Hi. by subst i.
Qed.

(** The message whose topic is at the start of [readbuf]. *)
Lemma wp_deliver_message qos id topic payload y rest timer c v Q :
  0 <= qos < 3 -> 0 <= id < 65536 -> 4 <= zlen (buf c) -> live timer -> is_cstr topic -> zlen payload < 65536 ->
  readbuf c = topic ++ y -> (0 < length y)%nat -> input v = payload ++ rest ->
  (forall c', kept c c' -> Q MQTT_SUCCESS c'
    (mk_view rest (output v ++ answer (Message 0 qos 0 id topic payload)) (events v ++ deliver topic payload (length y)))) ->
  wp cbs (deliver_message qos (if 0 <? qos then id else 0) (zlen topic) (Z.of_nat (length y)) (zlen payload) timer) c v Q.
Proof.
  intros Hq Hid Hbuf Ht Htop Hpay Hr Hy Hi HQ. unfold deliver_message, received_topic.
  apply wp_seq, wp_get, wp_ret. rewrite Hr.
  assert (Hack : forall len es c', kept c c' -> es = deliver topic payload (length y) ->
    wp cbs (acknowledge qos (if 0 <? qos then id else 0) len timer) c' (add_events (with_input v rest) es) Q).
  { intros len es c' Hk ->. apply wp_acknowledge; [done | by destruct (0 <? qos) | | done |].
    - destruct Hk as (b & r & t & -> & Hb & _). by rewrite <- Hb in Hbuf.
    - intros c2 Hk2. cbn [answer]. specialize (HQ c2 (transitivity Hk Hk2)). cbn [answer] in HQ.
      unfold send_view, add_events, with_input. cbn [input output events].
      destruct (Z.eqb_spec qos 0) as [-> | Hz]; [exact HQ|]. by replace (0 <? qos) with true by lia. }
  assert (Hloop : forall msg_err es1, (forall len' y', length y' = length y ->
      wp cbs (_ ← (if msg_err =? 0 then delivery_message_done (mk_str None (zlen topic) (Some (topic ++ y'))) else mret 0);
              acknowledge qos (if 0 <? qos then id else 0) len' timer) (with_readbuf c (topic ++ y'))
        (add_events (with_input v rest) (es1 ++ if msg_err =? 0 then parts topic payload (length y) else [])) Q) ->
    wp cbs (ok ← payload_loop (S (S (Z.to_nat (zlen payload)))) (zlen topic) (Z.of_nat (length y)) (zlen payload) msg_err
        (if 0 <? qos then 2 else zlen topic) timer;
      match ok with
      | None => mret FAILURE
      | Some len =>
          topic ← (c ← get; mret (mk_str None (zlen topic) (Some (readbuf c))));
          _ ← (if msg_err =? 0 then delivery_message_done topic else mret 0);
          acknowledge qos (if 0 <? qos then id else 0) len timer
      end) c (add_events v es1) Q).
  { intros msg_err es1 Hafter. apply wp_seq. eapply wp_payload_loop; [exact Hi | zl | done | done | exact Hr | done | done |].
    intros len' y' Hy'. apply wp_seq, wp_get, wp_ret. cbn [readbuf with_readbuf].
    specialize (Hafter len' y' Hy'). rewrite <- add_events_app in Hafter. exact Hafter. }
  apply wp_seq, wp_init; [done|]. unfold deliver in Hack.
  assert (Hk : forall y', length y' = length y -> kept c (with_readbuf c (topic ++ y'))) by (intros y' Hy'; apply kept_readbuf; rewrite Hr; zl).
  destruct (handler cbs topic ≫= cb_init) as [f|].
  - apply (Hloop (accept f) [EvInit f (zlen payload)]). intros len' y' Hy'. destruct (accept f =? 0) eqn:Ea.
    + apply wp_seq, wp_done; [done|]. intros k. rewrite add_events_app. by apply Hack; [apply Hk | rewrite <- app_assoc].
    + apply wp_seq, wp_ret. by apply Hack; [apply Hk|].
  - rewrite <- (add_events_nil v). apply (Hloop (-1) []). intros len' y' Hy'. change (-1 =? 0) with false. cbv iota.
    apply wp_seq, wp_ret. by apply Hack; [apply Hk|].
Qed.

(** A PUBLISH packet, from its variable header on. *)
Lemma wp_cycle_publish dup qos retain id topic payload rest timer c v Q :
  let p := Message dup qos retain id topic payload in
  fits c p -> live timer -> input v = publish_body qos id topic payload ++ rest ->
  (forall c', kept c c' -> Q MQTT_SUCCESS c' (mk_view rest (output v ++ answer p) (events v ++ notified (zlen (readbuf c)) p))) ->
  wp cbs (cycle_publish (16 * 3 + 8 * dup + 2 * qos + retain) (zlen (publish_body qos id topic payload)) timer) c v Q.
Proof.
  intros p (Hd & Hq & Hret & Hid & Htop & Htl & Hne & Hbody & Hbuf) Ht Hi HQ. unfold cycle_publish.
  rewrite (proj1 (proj2 (proj2 (header_fields 3 dup qos retain ltac:(lia) Hd ltac:(lia) Hret)))).
  unfold publish_body, str_wire in *. set (ident := if 0 <? qos then be16 id else []) in *. cbv zeta.
  assert (Hz : zlen ((be16 (zlen topic) ++ topic) ++ ident ++ payload) = 2 + zlen topic + zlen ident + zlen payload) by (rewrite !zlen_app, zlen_be16; lia).
  rewrite Hz in *. unfold MQTT_CLIENT_MAX_MSG_LEN in Hbody. pose proof (zlen_nonneg ident). pose proof (zlen_nonneg payload).
  assert (Hident : zlen ident = if 0 <? qos then 2 else 0) by (unfold ident; by destruct (0 <? qos)).
  destruct (split_at (readbuf c) 2) as (x & y & Hxy & Hx); [lia|]. rewrite <- !app_assoc in Hi.
  apply wp_left. intros t. eapply (wp_read_readbuf _ _ _ _ (be16 (zlen topic))); [exact Hi | done | done | rewrite Hxy; by apply wrn_app_0 |].
  change (2 <=? 0) with false. cbv iota. apply wp_get. cbn [readbuf with_readbuf].
  eapply wp_lift; [apply (reads_readInt (zlen topic) ltac:(lia) [] y)|]. cbn [fst].
  replace (2 + zlen topic + zlen ident + zlen payload - 2 <=? zlen topic) with false by (destruct (Z.ltb_spec 0 qos); lia).
  apply wp_left. intros t1. set (r1 := be16 (zlen topic) ++ y). assert (Hr1 : zlen r1 = zlen (readbuf c)) by (rewrite Hxy; unfold r1; rewrite !zlen_app, zlen_be16; lia).
  destruct (split_at r1 (zlen topic)) as (x1 & y1 & Hxy1 & Hx1); [lia|].
  eapply (wp_read_readbuf _ _ _ _ topic (ident ++ payload ++ rest)); [done | done | lia | cbn [readbuf with_readbuf]; rewrite Hxy1; by apply wrn_app_0 |].
  rewrite Z.eqb_refl. cbn [negb readbuf with_readbuf]. change (x ++ y) with (x ++ y).
  assert (Hroom : zlen r1 - zlen topic = Z.of_nat (length y1)) by (rewrite Hxy1; zl).
  assert (Hn1 : Z.to_nat (zlen (readbuf c) - zlen topic) = length y1) by lia. rewrite Hroom.
  replace (Z.of_nat (length y1) <=? 0) with false by lia.
  apply wp_seq. eapply (wp_read_packet_id _ id); [done | done |]. cbv beta iota zeta.
  match goal with |- wp _ _ ?c1 ?v1 _ => set (c2 := c1); set (v2 := v1) end.
  assert (Hk2 : kept c c2) by (exact (kept_readbuf c (topic ++ y1) ltac:(rewrite <- Hr1, Hxy1; zl))). 
  replace (if 0 <? qos then 2 + zlen topic + zlen ident + zlen payload - 2 - zlen topic - 2 else _) with (zlen payload) by (destruct (0 <? qos); lia).
  eapply wp_deliver_message; [done | done | done | done | done | lia | done | lia | done |].
  intros c' Hk. cbn [answer]. specialize (HQ c' (transitivity Hk2 Hk)). cbn [answer notified p] in HQ. by rewrite Hn1 in HQ.
Qed.


(** ** One round of the receiving loop *)

Definition after (room : Z) (p : packet) (rest : list Z) v : view :=
  mk_view rest (output v ++ answer p) (events v ++ notified room p).

(** The body of a CONNACK or SUBACK packet is left at the start of [readbuf]. *)
Definition left_in (p : packet) c : Prop :=
  match p with Reply _ _ body => exists r, readbuf c = body ++ r | _ => True end.

Lemma header_type_of t f : 0 <= t < 16 -> 0 <= f < 16 -> header_type (16 * t + f) = t.
Proof.
  intros Ht Hf. assert (Hall : header_type (16 * t + f) = (16 * t + f) / 16).
  { apply Z.eqb_eq. apply (forall_byte (fun b => header_type b =? b / 16)); [done | unfold is_byte; lia]. }
  rewrite Hall. lia_mod.
Qed.

(** The header byte and the remaining length of a packet. *)
Lemma wp_cycle_head byte n rest timer c v Q :
  1 <= header_type byte < 15 -> 0 <= n <= MQTT_CLIENT_MAX_MSG_LEN -> input v = [byte] ++ varint n ++ rest ->
  wp cbs (if negb (has_cycle (header_type byte)) then
      _ ← skip_loop (S (Z.to_nat n)) n timer;
      mret (header_type byte)
    else
      rc ← cycle_of (header_type byte) byte n timer;
      k ← keepalive;
      let rc := if negb (k =? MQTT_SUCCESS) then FAILURE else rc in
      mret (if rc =? MQTT_SUCCESS then header_type byte else rc)) c (with_input v rest) Q ->
  wp cbs (cycle_r timer) c v Q.
Proof.
  unfold MQTT_CLIENT_MAX_MSG_LEN. intros Hty Hn Hi HQ. unfold cycle_r. apply wp_left. intros t.
  eapply wp_read_1; [exact Hi | done |]. cbn [fst snd]. change (negb (1 =? 1)) with false. cbv iota.
  eapply wp_lift; [done|]. cbv zeta. replace (header_type byte <? 1) with false by lia. replace (15 <=? header_type byte) with false by lia.
  cbn [orb]. apply wp_left. intros t2. apply wp_seq. eapply wp_decodePacket; [done | lia |].
  pose proof (zlen_varint n ltac:(lia)) as Hz. replace (zlen (varint n) <=? 0) with false by (rewrite Hz; bool_cases; lia).
  replace (MQTT_CLIENT_MAX_MSG_LEN <? n) with false by (unfold MQTT_CLIENT_MAX_MSG_LEN; lia). exact HQ.
Qed.

Lemma wp_cycle_tail rc type c v Q : quiet c -> rc = MQTT_SUCCESS -> Q type c v ->
  wp cbs (k ← keepalive; let rc := if negb (k =? MQTT_SUCCESS) then FAILURE else rc in mret (if rc =? MQTT_SUCCESS then type else rc)) c v Q.
Proof. intros Hq -> HQ. apply wp_seq, wp_keepalive; [done|]. by apply wp_ret. Qed.

Lemma wp_reply body rest timer c v (m : Z -> timeval -> StateM.M (@st W) Z) Q : (m = cycle_connack \/ m = cycle_subscribe) ->
  1 <= zlen body <= MQTT_CLIENT_MAX_MSG_LEN -> zlen body <= zlen (readbuf c) -> input v = body ++ rest ->
  (forall r, readbuf (with_readbuf c r) = r -> zlen r = zlen (readbuf c) -> (exists r0, r = body ++ r0) -> Q MQTT_SUCCESS (with_readbuf c r) (with_input v rest)) ->
  wp cbs (m (zlen body) timer) c v Q.
Proof.
  unfold MQTT_CLIENT_MAX_MSG_LEN. intros Hm Hb Hroom Hi HQ. destruct (split_at (readbuf c) (zlen body)) as (x & y & Hxy & Hx); [lia|].
  assert (HQ' : Q MQTT_SUCCESS (with_readbuf c (body ++ y)) (with_input v rest)) by (apply HQ; [done | rewrite Hxy; zl | by exists y]).
  destruct Hm as [-> | ->]; unfold cycle_connack, cycle_subscribe; apply wp_left; intros t;
    (eapply wp_read_readbuf; [exact Hi | done | lia | rewrite Hxy; by apply wrn_app_0 |]); apply wp_ret.
  - by rewrite Z.eqb_refl.
  - by replace (zlen body <=? 0) with false by lia.
Qed.

(** A packet that is skipped touches nothing. *)
Lemma wp_cycle_skip t f body rest timer c v Q : 1 <= t < 15 -> has_cycle t = false -> 0 <= f < 16 -> zlen body <= MQTT_CLIENT_MAX_MSG_LEN ->
  input v = wire (Other t f body) ++ rest -> Q t c (with_input v rest) -> wp cbs (cycle_r timer) c v Q.
Proof.
  unfold MQTT_CLIENT_MAX_MSG_LEN. intros Ht Hcy Hf Hb Hi HQ. cbn [wire] in Hi. rewrite <- !app_assoc in Hi. pose proof (zlen_nonneg body).
  eapply (wp_cycle_head (16 * t + f)); [rewrite header_type_of by lia; lia | | exact Hi |]; [unfold MQTT_CLIENT_MAX_MSG_LEN; lia|].
  rewrite header_type_of, Hcy by lia. cbn [negb]. apply wp_seq. eapply wp_skip_loop; [done | zl | lia |]. by apply wp_ret.
Qed.

Lemma wp_cycle_r p rest timer c v Q : fits c p -> quiet c -> live timer -> input v = wire p ++ rest ->
  (forall c', kept c c' -> left_in p c' -> Q (code p) c' (after (zlen (readbuf c)) p rest v)) -> wp cbs (cycle_r timer) c v Q.
Proof.
  intros Hfit Hq Ht Hi HQ. destruct v as [i o e]. cbn [input] in Hi. destruct p as [t f body | t f body | dup qos retain id topic payload]; cbn [fits wire code] in *.
  - destruct Hfit as (Ht1 & Hcy & Hf & Hb). eapply wp_cycle_skip; [done | done | done | done | exact Hi |].
    specialize (HQ c (reflexivity c) I). unfold after in HQ. cbn in HQ. by rewrite !app_nil_r in HQ.
  - destruct Hfit as (Ht1 & Hf & Hb & Hroom). rewrite <- !app_assoc in Hi.
    eapply (wp_cycle_head (16 * t + f)); [rewrite header_type_of by lia; lia | | exact Hi |]; [lia|].
    rewrite header_type_of by lia. replace (has_cycle t) with true by (destruct Ht1 as [-> | ->]; done). cbn [negb]. apply wp_seq.
    assert (Hm : exists m, cycle_of t (16 * t + f) (zlen body) timer = m (zlen body) timer /\ (m = cycle_connack \/ m = cycle_subscribe)).
    { destruct Ht1 as [-> | ->]; [exists cycle_connack | exists cycle_subscribe]; by split; [|auto]. }
    destruct Hm as (m & -> & Hm). eapply wp_reply; [done | done | done | done |]. intros r _ Hr Hex.
    assert (Hk : kept c (with_readbuf c r)) by by apply kept_readbuf. apply wp_cycle_tail; [by destruct Hk as (?&?&?&?&?&?&Hq'); apply Hq' | done |].
    specialize (HQ _ Hk Hex). unfold after in HQ. cbn in HQ. by rewrite !app_nil_r in HQ.
  - pose proof Hfit as (Hd & Hqos & Hret & Hid & Htop & Htl & Hne & Hbody & Hbuf). unfold publish_wire in Hi. rewrite <- !app_assoc in Hi.
    pose proof (zlen_nonneg (publish_body qos id topic payload)) as Hz.
    assert (Hty : header_type (48 + 8 * dup + 2 * qos + retain) = 3) by (apply (header_fields 3 dup qos retain); lia).
    eapply (wp_cycle_head (48 + 8 * dup + 2 * qos + retain)); [rewrite Hty; lia | | exact Hi |]; [lia|]. rewrite Hty. change (has_cycle 3) with true. cbn [negb]. apply wp_seq.
    eapply (wp_cycle_publish dup qos retain id topic payload rest timer c); [exact Hfit | done | done |].
    intros c' Hk. apply wp_cycle_tail; [by destruct Hk as (?&?&?&?&?&?&Hq'); apply Hq' | done |]. by apply HQ.
Qed.

(** ** Waiting *)

Lemma kept_fits c c' p : kept c c' -> fits c p -> fits c' p.
Proof. intros (b & r & t & -> & Hb & Hr & _). destruct p; cbn; rewrite ?Hb, ?Hr; done. Qed.

Lemma wp_wait_loop timer target p rest Q : code p = target -> live timer -> forall ps fuel rc c v,
  Forall (fun q => fits c q /\ code q <> target) ps -> fits c p -> quiet c -> (length ps < fuel)%nat ->
  input v = concat (map wire ps) ++ wire p ++ rest ->
  (forall c', kept c c' -> left_in p c' -> Q target c'
    (mk_view rest (output v ++ concat (map answer (ps ++ [p]))) (events v ++ concat (map (notified (zlen (readbuf c))) (ps ++ [p]))))) ->
  wp cbs (wait_loop fuel rc target timer) c v Q.
Proof.
  intros Hp Ht ps. induction ps as [|q ps IH]; intros fuel rc c v Hps Hfit Hq Hf Hi HQ; (destruct fuel as [|fuel]; [cbn [length] in Hf; lia|]).
  - cbn [wait_loop]. apply wp_expired; [done|]. apply wp_seq. eapply wp_cycle_r; [done | done | done | exact Hi |]. intros c' Hk Hl.
    rewrite Hp, Z.eqb_refl. cbn [negb andb]. apply wp_ret. specialize (HQ c' Hk Hl). cbn [map app concat] in HQ. by rewrite !app_nil_r in HQ.
  - cbn [map concat] in Hi. rewrite <- app_assoc in Hi. inversion Hps as [|? ? [Hfq Hcq] Hps']; subst x l.
    cbn [wait_loop]. apply wp_expired; [done|]. apply wp_seq. eapply wp_cycle_r; [done | done | done | exact Hi |]. intros c1 Hk Hl.
    replace (code q =? target) with false by lia. assert (Hc0 : 0 <= code q) by (destruct q; cbn in *; lia).
    replace (0 <=? code q) with true by lia. cbn [negb andb]. eapply IH.
    + eapply Forall_impl; [exact Hps'|]. intros q' [Hfq' Hne]. split; [by eapply kept_fits | done].
    + by eapply kept_fits.
    + by destruct Hk as (?&?&?&?&?&?&Hq'); apply Hq'.
    + cbn [length] in Hf. lia.
    + done.
    + intros c' Hk' Hl'. specialize (HQ c' (transitivity Hk Hk') Hl'). cbn [after output events].
      destruct Hk as (b & r & t & -> & Hb & Hr & _). cbn [readbuf with_last_sent with_readbuf]. rewrite Hr.
      cbn [map app concat] in HQ. by rewrite <- !app_assoc.
Qed.
End cycle.

(** ** Properties *)

Section properties.
Context {W : Type} `{Peer W}.
#[local] Abbreviation M := (StateM.M (@st W)).

(** C2. [waitfor] gets its acknowledgement: when the peer has sent any packets the
    client handles and has room for ([fits]) - messages other than empty ones of
    QoS 0, pings, acknowledgements of other types - and then a packet of the
    awaited type, no keepalive falls due ([quiet]) and the timer outlasts them,
    [waitfor]
    returns that type, having consumed exactly these packets, delivered every
    message in parts to the first callback whose filter starts with its topic and
    sent an acknowledgement for every message of QoS 1 or 2. *)
Theorem waitfor_delivers (s : @st W) timer target ps p rest fuel :
  Forall (fun cb => is_cstr (cb_topic cb)) (callbacks s) -> quiet (cl s) -> live timer ->
  Forall (fun q => fits (cl s) q /\ code q <> target) ps -> fits (cl s) p -> code p = target ->
  input (see (wd s)) = concat (map wire ps) ++ wire p ++ rest -> (length ps < fuel)%nat ->
  exists s', waitfor fuel target timer s = Some (target, s') /\ kept (cl s) (cl s') /\
    input (see (wd s')) = rest /\
    output (see (wd s')) = output (see (wd s)) ++ concat (map answer (ps ++ [p])) /\
    events (see (wd s')) = events (see (wd s)) ++ concat (map (notified (callbacks s) (zlen (readbuf (cl s)))) (ps ++ [p])).
Proof.
  intros Hcb Hq Ht Hps Hfit Hp Hi Hf.
  destruct (wp_wait_loop (callbacks s) Hcb timer target p rest
    (fun a c' v' => a = target /\ kept (cl s) c' /\ v' = mk_view rest (output (see (wd s)) ++ concat (map answer (ps ++ [p])))
      (events (see (wd s)) ++ concat (map (notified (callbacks s) (zlen (readbuf (cl s)))) (ps ++ [p])))) Hp Ht ps fuel FAILURE (cl s) (see (wd s)))
    with (s := s) as (a & s' & E & Hcb' & -> & Hk & Hv); try done.
  exists s'. rewrite Hv. done.
Qed.

End properties.

(** A message on a/b in two parts, a ping response and the acknowledgement. *)
Lemma waitfor_delivers_witness :
  let c := mk_client 1 1000 (replicate 8 0) (replicate 7 0) 0 0 1 1 (mk_tv 0 0) (mk_tv 0 0) in
  let cb := mk_cb (lit "a/b") (Some 1%nat) (Some 2%nat) (Some 3%nat) in
  let s := mk_st c [cb] (mk_view ([50; 12; 0; 3; 97; 47; 98; 1; 2; 104; 101; 108; 108; 111] ++ [208; 0] ++ [64; 2; 0; 5; 7]) [] []) in
  exists s', waitfor 3 4 (mk_tv 200 0) s = Some (4, s') /\ input (see (wd s')) = [7] /\ output (see (wd s')) = [64; 2; 1; 2] /\
    events (see (wd s')) = [EvInit 1 5; EvProcess 2 (lit "hell"); EvProcess 2 (lit "o"); EvDone 3].
Proof.
  intros c cb s.
  destruct (waitfor_delivers s (mk_tv 200 0) 4 [Message 0 1 0 258 (lit "a/b") (lit "hello"); Other 13 0 []] (Other 4 0 [0; 5]) [7] 3)
    as (s' & E & _ & Hi & Ho & He).
  - repeat constructor; by cbv.
  - by left.
  - by cbv.
  - repeat constructor; try (by cbv); try (by (left; cbv)).
  - cbn. by cbv.
  - done.
  - reflexivity.
  - cbn. lia.
  - exists s'. split; [exact E|]. split; [exact Hi|]. split; [rewrite Ho; by vm_compute | rewrite He; by vm_compute].
Defined.

(** ** The keepalive *)

Section keepalive.
Context {W : Type} `{Peer W}.
#[local] Abbreviation M := (StateM.M (@st W)).

Lemma zero_serialized b type : 0 <= type < 16 -> 2 <= zlen b -> MQTTSerialize_zero b (zlen b) type = Some (2, [16 * type; 0] ++ drop 2 b).
Proof.
  intros Ht Hb. unfold MQTTSerialize_zero. replace (zlen b <? 2) with false by lia. emit_from b. rewrite (finish_emits _ [16 * type; 0]); [done | | done].
  change [16 * type; 0] with ([16 * type] ++ [0]). apply emits_bind; [|by apply (emits_writeLength 0)].
  apply emits_writeChar. rewrite header_byte_u8 by lia. lia.
Qed.

(** The keepalive is due from the end of [last_received] on. *)
Lemma wp_keepalive_due cbs c v Q : keepAliveInterval c <> 0 -> over (last_received c) ->
  (ping_outstanding c <> 0 -> Q FAILURE c v) ->
  (ping_outstanding c = 0 -> 2 <= zlen (buf c) /\ long (1000 * 1000) /\ forall t b, zlen b = zlen (buf c) ->
    Q MQTT_SUCCESS (with_ping (with_last_sent (with_buf c b) t) 1) (send_view v [192; 0])) ->
  wp cbs keepalive c v Q.
Proof.
  intros Hk Ho Hfail Hping. unfold keepalive. apply wp_get. replace (keepAliveInterval c =? 0) with false by lia.
  apply wp_expired_any. intros e1. apply wp_seq.
  assert (He2 : forall Q', Q' true c v -> wp cbs (if e1 then mret true else expired (last_received c)) c v Q').
  { intros Q' HQ'. destruct e1; [by apply wp_ret|]. intros s <- Hcb <-. eapply does_mono; [by apply does_expired_over|].
    cbn beta. intros b s' (-> & Hc & Hcb' & Hv). rewrite Hc, Hv. split; [congruence | done]. }
  apply He2. destruct (Z.eqb_spec (ping_outstanding c) 0) as [Hz | Hz]; cbn [negb]; [|apply wp_ret; auto].
  destruct (Hping Hz) as (Hb & Hl & HQ). apply wp_countdown_ms; [done|]. intros t Ht. apply wp_seq.
  eapply wp_serialize; [by apply (zero_serialized _ 12)|]. change (0 <? 2) with true. cbv iota. apply wp_seq.
  eapply (wp_sendPacket cbs [192; 0] (drop 2 (buf c))); [done | done | done |]. intros t' _. rewrite Z.eqb_refl.
  apply wp_get, wp_put, wp_ret. apply HQ. zl.
Qed.

(** C39. A keepalive never recovers: once [last_received] is over, which nothing
    renews after the connection, the first call of [keepalive] sends a PINGREQ;
    the server's PINGRESP is consumed, but it leaves the client as it was, and the
    next call returns FAILURE without sending anything. *)
Theorem keepalive_gives_up (s : @st W) timer rest :
  keepAliveInterval (cl s) <> 0 -> over (last_received (cl s)) -> ping_outstanding (cl s) = 0 -> 2 <= zlen (buf (cl s)) ->
  long (1000 * 1000) -> live timer -> Forall (fun cb => is_cstr (cb_topic cb)) (callbacks s) -> input (see (wd s)) = [208; 0] ++ rest ->
  exists s1 s2 s3, keepalive s = Some (MQTT_SUCCESS, s1) /\ output (see (wd s1)) = output (see (wd s)) ++ [192; 0] /\
    cycle_r timer s1 = Some (13, s2) /\ input (see (wd s2)) = rest /\ cl s2 = cl s1 /\
    keepalive s2 = Some (FAILURE, s3) /\ output (see (wd s3)) = output (see (wd s1)).
Proof.
  intros Hk Ho Hp Hb Hl Ht Hcb Hi.
  destruct (wp_keepalive_due (callbacks s) (cl s) (see (wd s)) (fun a c' v' => a = MQTT_SUCCESS /\ keepAliveInterval c' <> 0 /\
    over (last_received c') /\ ping_outstanding c' = 1 /\ v' = send_view (see (wd s)) [192; 0]) Hk Ho) with (s := s)
    as (a & s1 & E1 & Hcb1 & -> & Hk1 & Ho1 & Hp1 & Hv1); try done.
  destruct (wp_cycle_skip (callbacks s) 13 0 [] rest timer (cl s1) (see (wd s1)) (fun a c' v' => a = 13 /\ c' = cl s1 /\ v' = with_input (see (wd s1)) rest))
    with (s := s1) as (a & s2 & E2 & Hcb2 & -> & Hc2 & Hv2); try done.
  { by rewrite Hv1. }
  destruct (wp_keepalive_due (callbacks s) (cl s2) (see (wd s2)) (fun a c' v' => a = FAILURE /\ v' = see (wd s2))) with (s := s2)
    as (a & s3 & E3 & Hcb3 & -> & Hv3); try done; try (by rewrite Hc2).
  { rewrite Hc2, Hp1. done. }
  exists s1, s2, s3. rewrite Hv1, Hv2, Hv3, Hv2, Hv1. done.
Qed.

End keepalive.

Lemma keepalive_gives_up_witness :
  let s := mk_st (mk_client 1 1000 (replicate 4 0) (replicate 4 0) 10 0 1 1 (mk_tv 90 0) (mk_tv 90 0)) [] (mk_view [208; 0; 7] [] []) in
  exists s1 s2 s3, keepalive s = Some (MQTT_SUCCESS, s1) /\ output (see (wd s1)) = [] ++ [192; 0] /\
    cycle_r (mk_tv 200 0) s1 = Some (13, s2) /\ input (see (wd s2)) = [7] /\ cl s2 = cl s1 /\
    keepalive s2 = Some (FAILURE, s3) /\ output (see (wd s3)) = output (see (wd s1)).
Proof.
  intros s. destruct (keepalive_gives_up s (mk_tv 200 0) [7]) as (s1 & s2 & s3 & E).
  1-8: by cbv.
  exists s1, s2, s3. exact E.
Defined.

End MqttCycle.
