(* ===== verification/MqttSend.v ===== *)
(** Publishing against a peer: what [MQTTPublish_part] of
    src/src/mqtt/client/client.c sends, for any payload drive and for the JSON
    drive of src/src/arrow/mqtt.c, and how it waits for the acknowledgement. *)
From S2P Require Import Prelude StateM Timer Sb JsonParse JsonSpec JsonEmit JsonEncode JsonStream.
From S2P Require Import MqttPacket MqttPublish MqttConnect MqttSubscribe MqttClient MqttPeer MqttCycle.

Module MqttSend.
Import StateM Timer MQTTPacket MQTTPublish MqttClient MqttPeer MqttCycle.

(** ** The payload drive *)

(** What [MQTTPublish_part] relies on of a payload drive: as long as it owes some
    bytes, asked for as many as it owes or as fit the buffer of [n] bytes, it
    writes some of them to its start. *)
Class Payload {D} (drive : payload_drive D) (n : Z) := {
  owes : D -> list Z -> Prop;
  owes_part d P b : owes d P -> P <> [] -> zlen b = n -> exists part rest d1, P = part ++ rest /\ part <> [] /\ zlen part <= n /\
    d_part drive d b 0 (Z.min (zlen P) n) = Some (zlen part, part ++ drop (length part) b, d1) /\ owes d1 rest;
}.

Section send.
Context {W : Type} `{Peer W} (cbs : list delivery_callback).
Implicit Types (c : client) (v : view).

Lemma wp_part_loop {D} (drive : payload_drive D) n `{!Payload drive n} timer (Q : option Z * Z * D -> client -> view -> Prop) : live timer ->
  forall fuel d P c v, owes d P -> zlen (buf c) = n -> (length P < fuel)%nat ->
  (forall c' d', kept c c' -> Q (Some 0, MQTT_SUCCESS, d') c' (send_view v P)) ->
  wp cbs (part_loop fuel drive d (zlen P) timer) c v Q.
Proof.
  intros Ht fuel. induction fuel as [|fuel IH]; intros d P c v Hd Hb Hf HQ; [lia|]. cbn [part_loop].
  destruct (Z.eqb_spec (zlen P) 0) as [Hz | Hz].
  { apply zlen_0 in Hz as ->. apply wp_ret. specialize (HQ c d (reflexivity c)).
    destruct v as [i o e]. unfold send_view in HQ. cbn in HQ. by rewrite app_nil_r in HQ. }
  assert (HP : P <> []) by by intros ->. destruct (owes_part d P (buf c) Hd HP Hb) as (part & rest & d1 & -> & Hne & Hn & E & Hd1).
  assert (1 <= zlen part) by (destruct part; [done | zl]). apply wp_expired; [done|]. cbv iota. apply wp_get.
  replace (if zlen (part ++ rest) <? zlen (buf c) then zlen (part ++ rest) else zlen (buf c)) with (Z.min (zlen (part ++ rest)) n)
    by (rewrite Hb; destruct (Z.ltb_spec (zlen (part ++ rest)) n); lia).
  cbv zeta. eapply wp_lift; [exact E|]. cbv beta iota. apply wp_put. replace (zlen part <=? 0) with false by lia.
  apply wp_seq. eapply (wp_sendPacket cbs part); [done | done | done |]. intros t Hq. rewrite Z.eqb_refl. cbn [negb].
  replace (zlen (part ++ rest) - zlen part) with (zlen rest) by zl.
  set (c1 := with_last_sent _ t). assert (Hk : kept c c1).
  { transitivity (with_buf c (part ++ drop (length part) (buf c))); [apply kept_buf; zl | by apply kept_sent]. }
  apply IH; [done | | zl |].
  - destruct Hk as (b & r & t' & -> & Hb' & _). cbn. lia.
  - intros c' d' Hk'. specialize (HQ c' d' (transitivity Hk Hk')). unfold send_view in *. cbn [input output events] in *. by rewrite <- app_assoc.
Qed.

(** ** The header *)

Definition header_wire (dup qos retained id : Z) (T P : list Z) : list Z :=
  [48 + 8 * dup + 2 * qos + retained] ++ varint (zlen (publish_body qos id T P)) ++ str_wire T ++ (if 0 <? qos then be16 id else []).

Lemma publish_wire_header dup qos retained id T P : publish_wire dup qos retained id T P = header_wire dup qos retained id T P ++ P.
Proof. unfold publish_wire, header_wire, publish_body. rewrite <- !app_assoc. done. Qed.

Lemma publish_header_wire b dup qos retained id T P : 0 <= dup < 2 -> 0 <= qos < 3 -> 0 <= retained < 2 -> 0 <= id < 65536 ->
  zlen T < 65536 -> zlen (publish_body qos id T P) < 268435456 -> zlen (header_wire dup qos retained id T P) <= zlen b ->
  let ms := mk_str (Some T) 0 None in
  publish_header b (MQTTSerialize_publishLength qos ms (zlen P)) dup qos retained id ms =
    Some (zlen (header_wire dup qos retained id T P), header_wire dup qos retained id T P ++ drop (length (header_wire dup qos retained id T P)) b).
Proof.
  intros Hd Hq Hr Hid HT Hbody Hb ms. assert (Hms : mqtt_str ms T) by by apply ms_cstr.
  rewrite (publishLength_body qos id T P ms Hms). pose proof (zlen_nonneg (publish_body qos id T P)).
  unfold publish_header. emit_from b. apply finish_emits; [|done]. unfold header_wire.
  apply emits_bind; [apply emits_writeChar; rewrite header_byte_u8; unfold msg_code; lia|].
  apply emits_bind; [apply emits_writeLength; unfold INT_MAX; lia|].
  apply emits_bind; [by apply emits_writeMQTTString|].
  apply emits_if; intros _; [by apply emits_writeInt | apply emits_done].
Qed.

(** ** The acknowledgement *)

(** What arrives while a message of this QoS is published: nothing for QoS 0,
    otherwise any packets up to the awaited one. *)
Definition traffic_ok c (fuel : nat) (qos : Z) (traffic : list packet) : Prop :=
  qos = 0 /\ traffic = [] \/
  exists ps p, traffic = ps ++ [p] /\ (qos = 1 /\ code p = msg_code PUBACK \/ qos = 2 /\ code p = msg_code PUBCOMP) /\
    Forall (fun q => fits c q /\ code q <> code p) ps /\ fits c p /\ quiet c /\ (length ps < fuel)%nat.

(** The view when the traffic was handled. *)
Definition handled (room : Z) (traffic : list packet) (rest : list Z) v : view :=
  mk_view rest (output v ++ concat (map answer traffic)) (events v ++ concat (map (notified cbs room) traffic)).

Lemma wp_publish_ack fuel qos traffic rest timer c v Q :
  Forall (fun cb => is_cstr (cb_topic cb)) cbs -> live timer -> traffic_ok c fuel qos traffic ->
  input v = concat (map wire traffic) ++ rest ->
  (forall c', kept c c' -> Q MQTT_SUCCESS c' (handled (zlen (readbuf c)) traffic rest v)) ->
  wp cbs (if qos =? 1 then wait_ack fuel (msg_code PUBACK) MQTT_SUCCESS timer
          else if qos =? 2 then wait_ack fuel (msg_code PUBCOMP) MQTT_SUCCESS timer
          else mret MQTT_SUCCESS) c v Q.
Proof.
  intros Hcb Ht [[-> ->] | (ps & p & -> & Hqos & Hps & Hfit & Hq & Hf)] Hi HQ.
  { change (0 =? 1) with false. change (0 =? 2) with false. apply wp_ret. specialize (HQ c (reflexivity c)).
    destruct v as [i o e]. unfold handled in HQ. cbn in *. subst i. by rewrite !app_nil_r in HQ. }
  rewrite map_app, concat_app, <- app_assoc in Hi. cbn [map concat] in Hi. rewrite app_nil_r in Hi.
  assert (Hgo : wp cbs (wait_ack fuel (code p) MQTT_SUCCESS timer) c v Q).
  { unfold wait_ack. apply wp_seq. eapply (wp_wait_loop cbs Hcb timer (code p) p rest); [done | done | done | done | done | done | exact Hi |].
    intros c' Hk _. rewrite Z.eqb_refl. apply wp_ret. by apply HQ. }
  destruct Hqos as [[-> Hc] | [-> Hc]]; rewrite Hc in Hgo; exact Hgo.
Qed.

(** The identifier a message gets. *)
Definition next_id c : Z := if next_packetid c =? MAX_PACKET_ID then 1 else next_packetid c + 1.
Definition message_id c (qos id : Z) : Z := if (qos =? 1) || (qos =? 2) then next_id c else id.

Lemma wp_message_id qos id c v Q : Q (message_id c qos id) (if (qos =? 1) || (qos =? 2) then with_packetid c (next_id c) else c) v ->
  wp cbs (if (qos =? 1) || (qos =? 2) then getNextPacketId else mret id) c v Q.
Proof.
  unfold message_id. intros HQ. destruct ((qos =? 1) || (qos =? 2)); [|by apply wp_ret]. unfold getNextPacketId.
  apply wp_get. cbv zeta. apply wp_put. by apply wp_ret.
Qed.

Lemma wp_MQTTPublish_part {D} (drive : payload_drive D) n `{!Payload drive n} d P d1 fuel T dup qos retained id traffic rest c v Q :
  Forall (fun cb => is_cstr (cb_topic cb)) cbs -> isconnected c <> 0 -> long (command_timeout_ms c * 1000) ->
  d_init drive d = Some (zlen P, d1) -> P <> [] -> owes d1 P -> zlen (buf c) = n ->
  0 <= dup < 2 -> 0 <= qos < 3 -> 0 <= retained < 2 -> 0 <= message_id c qos id < 65536 ->
  zlen T < 65536 -> zlen (publish_body qos (message_id c qos id) T P) < 268435456 ->
  zlen (header_wire dup qos retained (message_id c qos id) T P) <= zlen (buf c) ->
  traffic_ok c fuel qos traffic -> input v = concat (map wire traffic) ++ rest ->
  (forall c' d2, Q (MQTT_SUCCESS, d_fin drive d2) c'
     (handled (zlen (readbuf c)) traffic rest (send_view v (publish_wire dup qos retained (message_id c qos id) T P)))) ->
  wp cbs (MQTTPublish_part fuel T qos retained dup id drive d) c v Q.
Proof.
  intros Hcb Hconn Hlong Hinit HP Hy Hn Hdup Hqos Hret Hid HT Hbody Hhead Htr Hi HQ. unfold MQTTPublish_part. apply wp_get.
  replace (isconnected c =? 0) with false by lia. apply wp_countdown_ms; [done|]. intros timer Ht.
  apply wp_seq, wp_message_id. set (i := message_id c qos id) in *.
  set (c0 := if (qos =? 1) || (qos =? 2) then _ else c).
  assert (Hc0 : buf c0 = buf c /\ readbuf c0 = readbuf c /\ (quiet c -> quiet c0)) by (unfold c0; by destruct ((qos =? 1) || (qos =? 2))).
  destruct Hc0 as (Hb0 & Hr0 & Hq0). clearbody c0. eapply wp_lift; [exact Hinit|]. cbv beta iota.
  assert (HP1 : 1 <= zlen P) by (destruct P; [done | zl]). replace (zlen P <=? 0) with false by lia. cbv zeta.
  apply wp_seq. set (h := header_wire dup qos retained i T P) in *.
  eapply wp_serialize; [rewrite Hb0; by apply publish_header_wire|]. fold h.
  apply wp_seq. eapply (wp_sendPacket cbs h); [done | done | done |]. intros t Hqt. rewrite Z.eqb_refl. cbn [negb].
  set (c1 := with_last_sent _ t) in *. assert (Hk : kept c0 c1).
  { transitivity (with_buf c0 (h ++ drop (length h) (buf c))); [apply kept_buf; rewrite Hb0; zl | by apply kept_sent]. }
  assert (Hb1 : zlen (buf c1) = zlen (buf c)) by (unfold c1; cbn [buf with_last_sent with_buf]; clear -Hhead; zl).
  apply wp_seq. replace (S (Z.to_nat (zlen P))) with (S (length P)) by zl.
  eapply wp_part_loop; [done | exact Hy | lia | lia |]. intros c2 d2 Hk2. cbv beta iota.
  change (negb (0 =? 0)) with false. cbv iota zeta. apply wp_seq.
  assert (Hk02 : kept c0 c2) by (by transitivity c1). destruct Hk02 as (b & r & t' & Hc2 & Hlb & Hlr & Hq2).
  eapply (wp_publish_ack fuel qos traffic rest); [done | done | | exact Hi |].
  - destruct Htr as [Hz | (ps & p & -> & Hc & Hps & Hfit & Hq & Hf)]; [by left|]. right. exists ps, p.
    assert (Hfits : forall q, fits c q -> fits c2 q) by (intros q; subst c2; destruct q; cbn; rewrite ?Hlb, ?Hlr, ?Hb0, ?Hr0; done).
    split_and!; try done; auto. eapply Forall_impl; [exact Hps|]. intros q [? ?]. auto.
  - intros c' Hk'. apply wp_ret. specialize (HQ c' d2).
    replace (zlen (readbuf c2)) with (zlen (readbuf c)) by (subst c2; cbn; by rewrite Hlr, Hr0).
    rewrite publish_wire_header in HQ. unfold handled, send_view in *. cbn [input output events] in *.
    unfold header_wire in h. fold h in HQ. by rewrite (app_assoc (output v)) in HQ.
Qed.

End send.
(** ** The JSON drive of mqtt.c *)

Section json.
Import Sb JsonParse JsonSpec JsonEmit JsonEncode JsonStream.
Context (malloc : Z -> option (list Z)) (M : Z).

(** The state: [mqtt_pub_pay] and [em]. *)
Definition p_init (d : JsonNode * jem) : option (Z * (JsonNode * jem)) :=
  len ← json_size malloc None d.1; Some (len, (d.1, json_encode_init d.1)).
Definition p_part (d : JsonNode * jem) (m : list Z) (at_ len : Z) : option (Z * list Z * (JsonNode * jem)) :=
  '(j, m, r) ← json_encode_part malloc d.2 m at_ len; Some (r, m, (d.1, j)).
Definition p_fin (d : JsonNode * jem) : JsonNode * jem := (d.1, json_encode_fin d.2).
Definition mqtt_json_drive : payload_drive (JsonNode * jem) := mk_drive p_init p_part p_fin.

(** The machine owes any beginning of the text it has left. *)
Definition owes_text (d : JsonNode * jem) (P : list Z) : Prop :=
  P = [] \/ exists k v sibs u, ptr d.2 = Some ((k, v), sibs) /\ child_ok (k, v) /\ rep M d.2 (P ++ u).

Context (Hm : SbMalloc malloc M) (HM : 77 <= M).

Lemma json_owes_part n : 1 <= n -> forall d P b, owes_text d P -> P <> [] -> zlen b = n ->
  exists part rest d1, P = part ++ rest /\ part <> [] /\ zlen part <= n /\
    p_part d b 0 (Z.min (zlen P) n) = Some (zlen part, part ++ drop (length part) b, d1) /\ owes_text d1 rest.
Proof.
  intros Hn [v0 j] P b [-> | (k & v & sibs & u & Hp & Hok & Hr)] HP Hb; [done|]. cbn [snd] in *.
  assert (1 <= zlen P) by (destruct P; [done | zl]). set (len := Z.min (zlen P) n).
  destruct (encode_value_all malloc M Hm HM v (part_fuel j) j k sibs (P ++ u) b 0 len) as (j1 & m1 & E & Hw & Hend); try done; try lia.
  { split; lia. } { unfold part_fuel. by rewrite Hp. }
  exists (takeZ len P), (dropZ len P), (v0, j1). assert (Htk : takeZ len (P ++ u) = takeZ len P) by (unfold takeZ; rewrite take_app_le by zl; done).
  rewrite Htk in Hw. assert (Hz : zlen (takeZ len P) = len) by (rewrite takeZ_length; lia).
  split; [by rewrite take_drop_Z|]. split; [intros E0; rewrite E0 in Hz; change (zlen (@nil Z)) with 0 in Hz; lia|]. split; [lia|]. split.
  - unfold p_part, json_encode_part. cbn [fst snd]. rewrite E. cbn [mbind option_bind]. rewrite Hz. do 3 f_equal.
    + rewrite zlen_app. pose proof (zlen_nonneg u). lia.
    + assert (Hm1 : wrn ([] ++ b) 0 (takeZ len P) = Some m1) by exact Hw. rewrite wrn_app in Hm1 by (done || lia). by simplify_eq.
  - destruct Hend as [[_ Hle] | [(_ & Hp1 & Hr1) _]].
    + left. apply zlen_0. rewrite dropZ_length by lia. rewrite zlen_app in Hle. pose proof (zlen_nonneg u). lia.
    + right. exists k, v, sibs, u. rewrite Hp in Hp1. split; [done|]. split; [done|]. cbn [snd]. unfold dropZ in *. rewrite drop_app_le in Hr1 by zl. done.
Qed.

#[export, refine] Instance json_payload n (Hn : 1 <= n) : Payload mqtt_json_drive n := { owes := owes_text }.
Proof. by apply json_owes_part. Defined.

End json.

(** ** Properties *)

Section properties.
Import Sb JsonParse JsonSpec JsonEmit JsonEncode JsonStream.
Context {W : Type} `{Peer W}.

(** C10. [MQTTPublish_part] sends the packet: for every payload drive that delivers
    the announced payload in parts, of any QoS and with any other traffic before
    the acknowledgement, the bytes sent are exactly the PUBLISH packet of MQTT
    3.1.1 with that payload, followed by the acknowledgements of the messages
    received meanwhile; the result is success, with everything up to the awaited
    acknowledgement consumed. *)
Theorem MQTTPublish_part_spec {D} (drive : payload_drive D) n `{!Payload drive n} (s : @st W) d P d1 fuel T dup qos retained id traffic rest :
  let c := cl s in let i := message_id c qos id in
  Forall (fun cb => is_cstr (cb_topic cb)) (callbacks s) -> isconnected c <> 0 -> long (command_timeout_ms c * 1000) ->
  d_init drive d = Some (zlen P, d1) -> P <> [] -> owes d1 P -> zlen (buf c) = n ->
  0 <= dup < 2 -> 0 <= qos < 3 -> 0 <= retained < 2 -> 0 <= i < 65536 -> zlen T < 65536 ->
  zlen (publish_body qos i T P) < 268435456 -> zlen (header_wire dup qos retained i T P) <= n ->
  traffic_ok c fuel qos traffic -> input (see (wd s)) = concat (map wire traffic) ++ rest ->
  exists d2 s', MQTTPublish_part fuel T qos retained dup id drive d s = Some ((MQTT_SUCCESS, d_fin drive d2), s') /\
    see (wd s') = handled (callbacks s) (zlen (readbuf c)) traffic rest
      (send_view (see (wd s)) (publish_wire dup qos retained i T P)).
Proof.
  intros c i. intros.
  destruct (wp_MQTTPublish_part (callbacks s) drive n d P d1 fuel T dup qos retained id traffic rest c (see (wd s))
    (fun a _ v' => exists d2, a = (MQTT_SUCCESS, d_fin drive d2) /\ v' = handled (callbacks s) (zlen (readbuf c)) traffic rest
      (send_view (see (wd s)) (publish_wire dup qos retained i T P)))) with (s := s) as (a & s' & E & _ & d2 & -> & Hv); try done; [by subst n | by eauto |].
  by exists d2, s'.
Qed.

(** The payload [mqtt_publish] announces and streams. *)
Definition json_payload_text (v : JsonNode) : list Z := takeZ (zlen (etext v) - key_quotes v) (etext v).

Lemma join_quotes {X} (q : X -> Z) txt l : Forall (fun e => 0 <= q e <= zlen (txt e)) l ->
  0 <= zsum (map q l) <= zlen (join [44] (map txt l)).
Proof.
  induction 1 as [|e l He _ IH]; [done|]. unfold zsum in *. cbn [map foldr]. rewrite join_cons. destruct l as [|e' l]; cbn [map].
  - cbn. rewrite app_nil_r. lia.
  - rewrite !zlen_app. change (zlen [44]) with 1. cbn [map] in IH. lia.
Qed.

Lemma quotes_bounds k : 0 <= quotes k <= zlen (equote k).
Proof. rewrite zlen_equote. unfold quotes. pose proof (zlen_nonneg k). pose proof (zlen_nonneg (List.filter is_escape k)). lia. Qed.

Lemma key_quotes_bounds v : 0 <= key_quotes v /\ key_quotes v + (if is_container v then 2 else 0) <= zlen (etext v).
Proof.
  induction v as [|b|str|d|els IH|ms IH] using tree_ind; cbn [key_quotes is_container etext]; try (split; [done|]; apply zlen_nonneg).
  - pose proof (join_quotes key_quotes etext els) as Hj. rewrite zlen_cons, zlen_app. change (zlen [93]) with 1.
    destruct Hj; [|lia]. eapply Forall_impl; [exact IH|]. cbn beta. intros v [H1 H2]. destruct (is_container v); lia.
  - pose proof (join_quotes (fun kv => quotes kv.1 + key_quotes kv.2) (fun kv => equote kv.1 ++ 58 :: etext kv.2) ms) as Hj.
    rewrite zlen_cons, zlen_app. change (zlen [125]) with 1. destruct Hj; [|lia].
    eapply Forall_impl; [exact IH|]. cbn beta. intros kv [H1 H2]. rewrite zlen_app, zlen_cons.
    pose proof (quotes_bounds kv.1). destruct (is_container kv.2); lia.
Qed.

Lemma json_payload_zlen v : zlen (json_payload_text v) = zlen (etext v) - key_quotes v.
Proof. pose proof (key_quotes_bounds v) as [H1 H2]. unfold json_payload_text. rewrite takeZ_length; destruct (is_container v); lia. Qed.

(** C8. Publishing with the JSON drive of mqtt.c an array or object that the
    encoder handles ([streamable]: no null and no empty array or object anywhere,
    texts shorter than 65536 bytes when escaped, numbers shorter than 64), on a
    connected client whose buffer has room for the header: the packet on the wire is a well-formed PUBLISH packet whose payload is the text of the tree,
    all of it when no key holds a quotation mark, and cut short by the number of
    these quotation marks otherwise. *)
Theorem mqtt_publish_json (s : @st W) malloc M v em fuel T dup qos retained id traffic rest :
  let c := cl s in let i := message_id c qos id in let P := json_payload_text v in
  SbMalloc malloc M -> 77 <= M -> streamable v -> is_container v = true ->
  Forall (fun cb => is_cstr (cb_topic cb)) (callbacks s) -> isconnected c <> 0 -> long (command_timeout_ms c * 1000) ->
  0 <= dup < 2 -> 0 <= qos < 3 -> 0 <= retained < 2 -> 0 <= i < 65536 -> zlen T < 65536 ->
  zlen (publish_body qos i T P) < 268435456 -> zlen (header_wire dup qos retained i T P) <= zlen (buf c) ->
  traffic_ok c fuel qos traffic -> input (see (wd s)) = concat (map wire traffic) ++ rest ->
  (key_quotes v = 0 -> P = etext v) /\
  exists d' s', MQTTPublish_part fuel T qos retained dup id (mqtt_json_drive malloc) (v, em) s = Some ((MQTT_SUCCESS, d'), s') /\
    see (wd s') = handled (callbacks s) (zlen (readbuf c)) traffic rest
      (send_view (see (wd s)) (publish_wire dup qos retained i T P)).
Proof.
  intros c i P Hm HM Hst Hcont Hcb Hconn Hlong Hd Hq Hr Hi HT Hbody Hh Htr Hin. split.
  { intros Hz. unfold P, json_payload_text. rewrite Hz. apply takeZ_all. lia. }
  pose proof (key_quotes_bounds v) as [_ Hkq]. rewrite Hcont in Hkq. pose proof (json_payload_zlen v) as HzP. fold P in HzP.
  assert (Hb1 : 1 <= zlen (buf c)) by (rewrite <- Hh; unfold header_wire; rewrite zlen_app; change (zlen [_]) with 1; pose proof (zlen_nonneg (varint (zlen (publish_body qos i T P)) ++ str_wire T ++ (if 0 <? qos then be16 i else []))); lia).
  assert (HP : P <> []) by (intros E0; rewrite E0 in HzP; change (zlen (@nil Z)) with 0 in HzP; lia).
  assert (Ho : owes_text M (v, json_encode_init v) P).
  { right. exists None, v, [], (dropZ (zlen (etext v) - key_quotes v) (etext v)). split; [done|]. split; [done|].
    unfold P, json_payload_text. rewrite take_drop_Z. apply rep_no_key. }
  assert (Hinit : p_init malloc (v, em) = Some (zlen P, (v, json_encode_init v))).
  { unfold p_init. cbn [fst]. rewrite (json_size_text malloc M) by done. cbn [mbind option_bind]. by rewrite HzP. }
  pose (HPay := json_payload malloc M Hm HM (zlen (buf c)) Hb1).
  destruct (wp_MQTTPublish_part (callbacks s) (mqtt_json_drive malloc) (zlen (buf c)) (v, em) P (v, json_encode_init v) fuel T dup qos retained id traffic rest c (see (wd s))
    (fun a _ v' => exists d2, a = (MQTT_SUCCESS, d2) /\ v' = handled (callbacks s) (zlen (readbuf c)) traffic rest
      (send_view (see (wd s)) (publish_wire dup qos retained i T P)))) with (s := s) as (a & s' & E & _ & d2 & -> & Hv); try done; [by eauto|].
  by exists d2, s'.
Qed.

End properties.

(** A drive that holds its payload. *)
Definition text_drive : payload_drive (list Z) :=
  mk_drive (fun t => Some (zlen t, t)) (fun t m at_ n => m ← wrn m at_ (take (Z.to_nat n) t); Some (Z.min n (zlen t), m, drop (Z.to_nat n) t)) (fun t => t).

#[export, refine] Instance text_payload n (Hn : 1 <= n) : Payload text_drive n := { owes t P := t = P }.
Proof.
  intros t P b -> HP Hb. assert (1 <= zlen P) by (destruct P; [done | zl]). set (k := Z.min (zlen P) n).
  assert (Hk : zlen (take (Z.to_nat k) P) = k) by zl.
  exists (take (Z.to_nat k) P), (drop (Z.to_nat k) P), (drop (Z.to_nat k) P). split; [by rewrite take_drop|].
  split; [intros E; rewrite E in Hk; change (zlen (@nil Z)) with 0 in Hk; lia|]. split; [lia|]. split; [|done].
  cbn [d_part text_drive]. fold k. rewrite (wrn_app [] b) by (done || lia). cbn [mbind option_bind]. do 3 f_equal. lia.
Defined.

Definition sample_client : client := mk_client 257 1000 (replicate 12 0) (replicate 7 0) 0 0 1 1 (mk_tv 0 0) (mk_tv 0 0).
Definition sample_state (i : list Z) : @st view := mk_st sample_client [] (mk_view i [] []).

Lemma sample_traffic : traffic_ok sample_client 3 1 [Other 13 0 []; Other 4 0 [1; 2]].
Proof.
  right. exists [Other 13 0 []], (Other 4 0 [1; 2]). split; [done|]. split; [by left|].
  split; [repeat constructor; by cbv|]. split; [by cbv|]. split; [by left | cbn; lia].
Qed.

(** "hello" to a/b with QoS 1, in a buffer of 12 bytes. *)
Lemma MQTTPublish_part_spec_witness :
  exists d2 s', MQTTPublish_part 3 (lit "a/b") 1 0 0 0 text_drive (lit "hello, world!") (sample_state [208; 0; 64; 2; 1; 2; 9]) =
      Some ((MQTT_SUCCESS, d2), s') /\
    see (wd s') = mk_view [9] ([50; 20; 0; 3; 97; 47; 98; 1; 2] ++ lit "hello, world!") [].
Proof.
  destruct (@MQTTPublish_part_spec view _ _ (list Z) text_drive 12 (text_payload 12 ltac:(lia)) (sample_state [208; 0; 64; 2; 1; 2; 9])
    (lit "hello, world!") (lit "hello, world!") (lit "hello, world!") 3 (lit "a/b") 0 1 0 0 [Other 13 0 []; Other 4 0 [1; 2]] [9]) as (d2 & s' & E & Hv).
  1-14: by cbv.
  1: exact sample_traffic.
  1: done.
  exists d2, s'. split; [exact E | rewrite Hv; by vm_compute].
Defined.

(** {"on":true} in parts of 9 bytes at most. *)
Lemma mqtt_publish_json_witness :
  let v := JsonParse.JObject [(lit "on", JsonParse.JBool true)] in
  let s := mk_st (with_buf sample_client (replicate 9 0)) [] (mk_view [7] [] []) in
  exists d' s', MQTTPublish_part 1 (lit "t") 0 0 0 0 (mqtt_json_drive JsonParse.test_malloc) (v, JsonEncode.json_encode_init v) s =
      Some ((MQTT_SUCCESS, d'), s') /\
    see (wd s') = mk_view [7] ([48; 14; 0; 1; 116] ++ JsonParse.js "{'on':true}") [].
Proof.
  intros v s.
  destruct (mqtt_publish_json s JsonParse.test_malloc 200 v (JsonEncode.json_encode_init v) 1 (lit "t") 0 0 0 0 [] [7]) as (_ & d' & s' & E & Hv).
  1: apply JsonSpec.test_malloc_ok; unfold INT_MAX; lia.
  1: lia.
  1: { apply JsonStream.st_object; [done|]. repeat constructor; by cbv. }
  1-11: by cbv.
  1: by left.
  1: done.
  exists d', s'. split; [exact E | rewrite Hv; by vm_compute].
Defined.

End MqttSend.
