(* ===== verification/MqttSafety.v ===== *)
(** Invariants of the MQTT client in any world: every operation keeps the client
    well typed, along every history of calls. *)
From S2P Require Import Prelude StateM Timer MqttPacket MqttPublish MqttConnect MqttSubscribe MqttClient MqttPeer.

Module MqttSafety.
Import StateM Timer MQTTPacket MQTTPublish MQTTConnect MQTTSubscribe MqttClient MqttPeer.

(** ** Serializers write inside their buffer *)

Definition inside (f : list Z -> Z -> option (Z * list Z)) : Prop :=
  forall b n r b', f b n = Some (r, b') -> length b' = length b.

Lemma writeChar_length p c p' : writeChar p c = Some p' -> length (mem p') = length (mem p).
Proof.
  unfold writeChar. destruct (wr (mem p) (ptr p) (u8 c)) eqn:E; [|done]. cbn [mbind option_bind]. intros [= <-]. by apply wr_length in E.
Qed.

Lemma writeInt_length p n p' : writeInt p n = Some p' -> length (mem p') = length (mem p).
Proof.
  unfold writeInt. destruct (wr (mem p) (ptr p) _) as [m|] eqn:E; [|done]. cbn [mbind option_bind].
  destruct (wr m (ptr p + 1) _) eqn:E2; [|done]. cbn [mbind option_bind]. intros [= <-]. apply wr_length in E, E2. cbn. congruence.
Qed.

Lemma writeBytes_length p s n p' : writeBytes p s n = Some p' -> length (mem p') = length (mem p).
Proof.
  unfold writeBytes. destruct (rdn s 0 n) as [d|]; [|done]. cbn [mbind option_bind].
  destruct (wrn (mem p) (ptr p) d) eqn:E; [|done]. cbn [mbind option_bind]. intros [= <-]. by apply wrn_length in E.
Qed.

Lemma encode_loop_length fuel : forall b base rc n b' k, encode_loop fuel b base rc n = Some (b', k) -> length b' = length b.
Proof.
  induction fuel as [|fuel IH]; intros b base rc n b' k; [done|]. cbn [encode_loop].
  destruct (wr b _ _) as [b1|] eqn:E; [|done]. cbn [mbind option_bind]. apply wr_length in E. destruct (0 <? _).
  - intros H. apply IH in H. congruence.
  - intros [= <- <-]. done.
Qed.

Lemma writeLength_length p n p' : writeLength p n = Some p' -> length (mem p') = length (mem p).
Proof.
  unfold writeLength, MQTTPacket_encode. destruct (encode_loop 5 _ _ _ _) as [[m k]|] eqn:E; [|done]. cbn [mbind option_bind].
  intros [= <-]. by apply encode_loop_length in E.
Qed.

(** Take a chain of cursor operations apart. *)
Ltac chain := repeat (match goal with
  | H : mbind _ ?o = Some _ |- _ => let E := fresh "E" in destruct o eqn:E; [|discriminate H]; cbn [mbind option_bind] in H
  | H : (if ?b then _ else _) = Some _ |- _ => destruct b
  | H : Some _ = Some _ |- _ => injection H as H; subst
  | H : writeChar _ _ = Some _ |- _ => apply writeChar_length in H
  | H : writeInt _ _ = Some _ |- _ => apply writeInt_length in H
  | H : writeBytes _ _ _ = Some _ |- _ => apply writeBytes_length in H
  | H : writeLength _ _ = Some _ |- _ => apply writeLength_length in H
  end); cbn [mem] in *.

Lemma writeCString_length p s p' : writeCString p s = Some p' -> length (mem p') = length (mem p).
Proof. unfold writeCString. intros H. chain. congruence. Qed.

Lemma writeMQTTString_length p s p' : writeMQTTString p s = Some p' -> length (mem p') = length (mem p).
Proof.
  unfold writeMQTTString. intros H. chain; [congruence|]. destruct (cstring s); [by apply writeCString_length in H | by apply writeInt_length in H].
Qed.

Ltac serializer := intros b n r b' H; unfold finish in H; chain; repeat match goal with
  | H : writeCString _ _ = Some _ |- _ => apply writeCString_length in H
  | H : writeMQTTString _ _ = Some _ |- _ => apply writeMQTTString_length in H
  end; cbn [mem] in *; congruence.

Lemma inside_zero type : inside (fun b n => MQTTSerialize_zero b n type).
Proof. unfold MQTTSerialize_zero. serializer. Qed.
Lemma inside_ack type dup id : inside (fun b n => MQTTSerialize_ack b n type dup id).
Proof. unfold MQTTSerialize_ack. serializer. Qed.
Lemma inside_publish dup qos retained id t P n0 : inside (fun b n => MQTTSerialize_publish b n dup qos retained id t P n0).
Proof. unfold MQTTSerialize_publish. serializer. Qed.
Lemma inside_header rem dup qos retained id t : inside (fun b _ => publish_header b rem dup qos retained id t).
Proof. unfold publish_header. serializer. Qed.
Lemma inside_subscribe id qos t : inside (fun b _ => subscribe_packet b id qos t).
Proof. unfold subscribe_packet. serializer. Qed.
Lemma inside_connect o : inside (fun b n => MQTTSerialize_connect b n o).
Proof. unfold MQTTSerialize_connect. serializer. Qed.

(** ** The type of a client *)

Create HintDb typing.

Section typed.
Context {W : Type} `{World W} (nb nr : nat).
#[local] Abbreviation M := (StateM.M (@st W)).

(** Packet identifiers are 16-bit, the buffers have the sizes they were given and
    the flags are flags. *)
Definition typed (c : client) : Prop :=
  0 <= next_packetid c <= MAX_PACKET_ID /\ length (buf c) = nb /\ length (readbuf c) = nr /\
  0 <= ping_outstanding c <= 1 /\ 0 <= isconnected c <= 1.

(** The operation keeps the client well typed and its result satisfies [P]. *)
Definition gives {A} (P : A -> Prop) (m : M A) : Prop :=
  forall (s : @st W) a s', typed (cl s) -> m s = Some (a, s') -> typed (cl s') /\ P a.
Definition keeps {A} (m : M A) : Prop := gives (fun _ => True) m.

Lemma gives_ret {A} (P : A -> Prop) a : P a -> gives P (mret a).
Proof. intros HP s b s' Hs [= <- <-]. done. Qed.

Lemma gives_bind {A B} (P : A -> Prop) (R : B -> Prop) (m : M A) (f : A -> M B) :
  gives P m -> (forall a, P a -> gives R (f a)) -> gives R (m ≫= f).
Proof.
  intros Hm Hf s b s' Hs E. unfold mbind, M_bind in E. destruct (m s) as [[a s1]|] eqn:E1; [|done]. cbn [mbind option_bind] in E.
  destruct (Hm s a s1 Hs E1) as [Hs1 HP]. by apply (Hf a HP s1 b s').
Qed.

Lemma gives_get {B} (R : B -> Prop) (f : client -> M B) : (forall c, typed c -> gives R (f c)) -> gives R (get ≫= f).
Proof. intros Hf s b s' Hs E. by apply (Hf (cl s) Hs s b s'). Qed.

Lemma keeps_get {B} (f : client -> M B) : (forall c, typed c -> keeps (f c)) -> keeps (get ≫= f).
Proof. apply gives_get. Qed.

Lemma gives_lift {A} (o : option A) : gives (fun a => o = Some a) (lift o).
Proof. intros s a s' Hs E. unfold lift in E. destruct o; [|done]. cbn in E. by simplify_eq. Qed.

Lemma gives_put c : typed c -> keeps (put c).
Proof. intros Hc s a s' _ [= <- <-]. done. Qed.

Lemma gives_world {A} (f : W -> A * W) : keeps (world f).
Proof. intros s a s' Hs E. unfold world in E. destruct (f (wd s)) as [b w]. by simplify_eq. Qed.

Lemma gives_weak {A} (P : A -> Prop) (m : M A) : gives P m -> keeps m.
Proof. intros Hm s a s' Hs E. by destruct (Hm s a s' Hs E). Qed.

Lemma keeps_bind {A B} (m : M A) (f : A -> M B) : keeps m -> (forall a, keeps (f a)) -> keeps (m ≫= f).
Proof. intros Hm Hf. eapply gives_bind; [exact Hm|]. intros a _. apply Hf. Qed.

Lemma keeps_lift {A} (o : option A) : keeps (lift o).
Proof. eapply gives_weak, gives_lift. Qed.

(** The updates of the client that keep it well typed. *)
Lemma typed_buf c b : typed c -> length b = length (buf c) -> typed (with_buf c b).
Proof. unfold typed. intros (?&Hb&?&?&?) E. cbn. by rewrite E, Hb. Qed.
Lemma typed_readbuf c b : typed c -> length b = length (readbuf c) -> typed (with_readbuf c b).
Proof. unfold typed. intros (?&?&Hb&?&?) E. cbn. by rewrite E, Hb. Qed.
Lemma typed_sent c t : typed c -> typed (with_last_sent c t).
Proof. done. Qed.
Lemma typed_session c k cl t : typed c -> typed (with_session c k cl t).
Proof. done. Qed.
Lemma typed_ping c p : typed c -> 0 <= p <= 1 -> typed (with_ping c p).
Proof. unfold typed. intros (?&?&?&?&?) Hp. cbn. done. Qed.
Lemma typed_connected c i : typed c -> 0 <= i <= 1 -> typed (with_connected c i).
Proof. unfold typed. intros (?&?&?&?&?) Hp. cbn. done. Qed.
Lemma typed_packetid c i : typed c -> 0 <= i <= MAX_PACKET_ID -> typed (with_packetid c i).
Proof. unfold typed. intros (?&?&?&?&?) Hp. cbn. done. Qed.

Hint Resolve gives_world keeps_lift : typing.
Hint Resolve typed_sent typed_session typed_ping typed_connected : typing.
Hint Extern 1 (keeps (put _)) => (apply gives_put) : typing.
Hint Extern 2 (_ <= _ <= _) => lia : typing.

Ltac typing :=
  repeat match goal with
  | |- forall _, _ => intros ?
  | |- keeps (mret _) => by apply gives_ret
  | |- keeps (get ≫= _) => apply keeps_get; intros ? ?
  | |- keeps (if ?b then _ else _) => destruct b
  | |- keeps (let '(_, _) := ?p in _) => destruct p
  | |- keeps (match ?o with _ => _ end) => destruct o
  | |- keeps (_ ≫= _) => apply keeps_bind
  | |- keeps _ => solve [eauto 3 with typing]
  end.

Lemma keeps_expired t : keeps (expired t). Proof. unfold expired. typing. Qed.
Lemma keeps_left t : keeps (left_ms t). Proof. unfold left_ms. typing. Qed.
Lemma keeps_countdown_ms t : keeps (countdown_ms t). Proof. unfold countdown_ms. typing. Qed.
Lemma keeps_countdown t : keeps (countdown t). Proof. unfold countdown. typing. Qed.
Hint Resolve keeps_expired keeps_left keeps_countdown_ms keeps_countdown : typing.

Lemma gives_read_loop fuel : forall i mem off len bytes, gives (fun r => length (snd r) = length mem) (read_loop fuel i mem off len bytes).
Proof.
  induction fuel as [|fuel IH]; intros i mem off len bytes; cbn [read_loop]; [by intros s a s'|].
  destruct (bytes <? len); [|by apply gives_ret]. eapply gives_bind; [apply gives_world|]. intros [rc data] _.
  destruct (rc <=? 0); [by apply gives_ret|]. eapply gives_bind; [apply gives_lift|]. intros mem' Hw. apply wrn_length in Hw.
  rewrite <- Hw. apply IH.
Qed.

Lemma gives_mqttread mem off len t : gives (fun r => length (snd r) = length mem) (mqttread mem off len t).
Proof. unfold mqttread. destruct (len <=? 0); [by apply gives_ret | apply gives_read_loop]. Qed.

Lemma keeps_mqttread mem off len t : keeps (mqttread mem off len t).
Proof. eapply gives_weak, gives_mqttread. Qed.
Hint Resolve keeps_mqttread : typing.

Lemma keeps_read_readbuf off len t : keeps (read_readbuf off len t).
Proof.
  unfold read_readbuf. apply gives_get. intros c Hc. eapply gives_bind; [apply gives_mqttread|]. intros r Hr.
  apply keeps_bind; [by apply gives_put, typed_readbuf | typing].
Qed.

Lemma keeps_serialize f : inside f -> keeps (serialize f).
Proof.
  intros Hf. unfold serialize. apply gives_get. intros c Hc. eapply gives_bind; [apply gives_lift|]. intros [r b] Hr.
  apply keeps_bind; [by eapply gives_put, typed_buf, Hf | typing].
Qed.
Hint Resolve keeps_read_readbuf keeps_serialize inside_zero inside_ack inside_publish inside_header inside_subscribe inside_connect : typing.

Lemma gives_getNextPacketId : gives (fun i => 1 <= i <= MAX_PACKET_ID) getNextPacketId.
Proof.
  unfold getNextPacketId, MAX_PACKET_ID. apply gives_get. intros c Hc. cbv zeta. pose proof Hc as (Hid & _). unfold MAX_PACKET_ID in Hid.
  set (i := if _ =? _ then _ else _). assert (Hi : 1 <= i <= 65535) by (unfold i; destruct (Z.eqb_spec (next_packetid c) 65535); lia).
  eapply gives_bind; [apply gives_put, typed_packetid; [done | unfold MAX_PACKET_ID; lia]|]. intros _ _. by apply gives_ret.
Qed.
Lemma keeps_getNextPacketId : keeps getNextPacketId.
Proof. eapply gives_weak, gives_getNextPacketId. Qed.
Hint Resolve keeps_getNextPacketId : typing.

Lemma keeps_send_loop fuel : forall sent len t, keeps (send_loop fuel sent len t).
Proof. induction fuel as [|fuel IH]; intros sent len t; cbn [send_loop]; [apply keeps_lift|]. unfold mqttwrite. typing. Qed.
Hint Resolve keeps_send_loop : typing.

Lemma keeps_sendPacket len t : keeps (sendPacket len t). Proof. unfold sendPacket. typing. Qed.
Hint Resolve keeps_sendPacket : typing.

Lemma keeps_decode fuel : forall t len m v, keeps (decode_packet_loop fuel t len m v).
Proof. induction fuel as [|fuel IH]; intros t len m v; cbn [decode_packet_loop]; [apply keeps_lift|]. typing. Qed.
Lemma keeps_decodePacket t : keeps (decodePacket t). Proof. apply keeps_decode. Qed.
Hint Resolve keeps_decodePacket : typing.

Lemma keeps_pingreq : keeps (serialize MQTTSerialize_pingreq). Proof. apply keeps_serialize, (inside_zero 12). Qed.
Lemma keeps_disconnect : keeps (serialize MQTTSerialize_disconnect). Proof. apply keeps_serialize, (inside_zero 14). Qed.
Hint Resolve keeps_pingreq keeps_disconnect : typing.
Lemma keeps_keepalive : keeps keepalive. Proof. unfold keepalive. typing. Qed.
Lemma keeps_close : keeps MQTTCloseSession. Proof. unfold MQTTCloseSession. typing. Qed.
Hint Resolve keeps_keepalive keeps_close : typing.

Lemma keeps_lookup topic : keeps (lookup_callback topic).
Proof. intros s a s' Hs E. unfold lookup_callback in E. destruct (find_callback _ _); [|done]. cbn in E. by simplify_eq. Qed.
Hint Resolve keeps_lookup : typing.
Lemma keeps_reg dc : keeps (arrow_mqtt_client_delivery_message_reg dc).
Proof. unfold arrow_mqtt_client_delivery_message_reg. typing. intros s a s' Hs [= <- <-]. done. Qed.
Lemma keeps_init topic n : keeps (delivery_message_init topic n). Proof. unfold delivery_message_init. typing. Qed.
Lemma keeps_process topic p : keeps (delivery_message_process topic p). Proof. unfold delivery_message_process. typing. Qed.
Lemma keeps_done topic : keeps (delivery_message_done topic). Proof. unfold delivery_message_done. typing. Qed.
Hint Resolve keeps_reg keeps_init keeps_process keeps_done : typing.

Lemma keeps_connack n t : keeps (cycle_connack n t). Proof. unfold cycle_connack. typing. Qed.
Lemma keeps_subscribe n t : keeps (cycle_subscribe n t). Proof. unfold cycle_subscribe. typing. Qed.
Lemma keeps_payload fuel : forall tlen rest total err len t, keeps (payload_loop fuel tlen rest total err len t).
Proof. induction fuel as [|fuel IH]; intros tlen rest total err len t; cbn [payload_loop]; [apply keeps_lift|]. unfold received_topic. typing. Qed.
Lemma keeps_packet_id q t : keeps (read_packet_id q t). Proof. unfold read_packet_id. typing. Qed.
Lemma keeps_acknowledge q i n t : keeps (acknowledge q i n t). Proof. unfold acknowledge. typing. Qed.
Hint Resolve keeps_connack keeps_subscribe keeps_payload keeps_packet_id keeps_acknowledge : typing.
Lemma keeps_deliver q i n r m t : keeps (deliver_message q i n r m t). Proof. unfold deliver_message, received_topic. typing. Qed.
Hint Resolve keeps_deliver : typing.
Lemma keeps_publish b n t : keeps (cycle_publish b n t). Proof. unfold cycle_publish. typing. Qed.
Lemma keeps_skip fuel : forall n t, keeps (skip_loop fuel n t).
Proof. induction fuel as [|fuel IH]; intros n t; cbn [skip_loop]; [apply keeps_lift|]. typing. Qed.
Hint Resolve keeps_publish keeps_skip : typing.
Lemma keeps_cycle_of p b n t : keeps (cycle_of p b n t). Proof. unfold cycle_of. typing. Qed.
Hint Resolve keeps_cycle_of : typing.
Lemma keeps_cycle_r t : keeps (cycle_r t). Proof. unfold cycle_r. typing. Qed.
Hint Resolve keeps_cycle_r : typing.
Lemma keeps_wait fuel : forall rc p t, keeps (wait_loop fuel rc p t).
Proof. induction fuel as [|fuel IH]; intros rc p t; cbn [wait_loop]; [apply keeps_lift|]. typing. Qed.
Lemma keeps_waitfor fuel p t : keeps (waitfor fuel p t). Proof. apply keeps_wait. Qed.
Hint Resolve keeps_waitfor : typing.
Lemma keeps_wait_ack fuel p rc t : keeps (wait_ack fuel p rc t). Proof. unfold wait_ack. typing. Qed.
Hint Resolve keeps_wait_ack : typing.
(** ** The calls of the client *)

Lemma keeps_yield t : keeps (MQTTYield t). Proof. unfold MQTTYield. typing. Qed.

(** A drive writes into the memory it is given. *)
Definition writes_inside {D} (drive : payload_drive D) : Prop :=
  forall d m i n r m' d', d_part drive d m i n = Some (r, m', d') -> length m' = length m.

Lemma keeps_part_loop {D} (drive : payload_drive D) : writes_inside drive -> forall fuel d total t, keeps (part_loop fuel drive d total t).
Proof.
  intros Hd fuel. induction fuel as [|fuel IH]; intros d total t; cbn [part_loop]; [apply keeps_lift|].
  destruct (total =? 0); [by apply gives_ret|]. apply keeps_bind; [typing|]. intros e. destruct e; [by apply gives_ret|].
  apply keeps_get. intros c Hc. cbv zeta. eapply gives_bind; [apply gives_lift|]. intros [[k b] d'] E. apply Hd in E.
  apply keeps_bind; [by apply gives_put, typed_buf|]. typing.
Qed.
Hint Resolve keeps_part_loop : typing.

Lemma keeps_MQTTPublish_part {D} fuel T q r dup id (drive : payload_drive D) d : writes_inside drive -> keeps (MQTTPublish_part fuel T q r dup id drive d).
Proof. intros Hd. unfold MQTTPublish_part. cbv zeta. typing. Qed.
Lemma keeps_MQTTPublish fuel T q r dup id p n : keeps (MQTTPublish fuel T q r dup id p n).
Proof. unfold MQTTPublish. cbv zeta. typing. Qed.
Lemma keeps_client_subscribe fuel q cb : keeps (arrow_mqtt_client_subscribe fuel q cb).
Proof. unfold arrow_mqtt_client_subscribe. typing. Qed.
Lemma keeps_MQTTConnect fuel o : keeps (MQTTConnectWithResults fuel o). Proof. unfold MQTTConnectWithResults. typing. Qed.
Lemma keeps_MQTTDisconnect : keeps MQTTDisconnect. Proof. unfold MQTTDisconnect. typing. Qed.

(** One call of the client's interface, from the state before it to the state after it. *)
Inductive call : @st W -> @st W -> Prop :=
| call_connect fuel o rc s s' : MQTTConnectWithResults fuel o s = Some (rc, s') -> call s s'
| call_disconnect rc s s' : MQTTDisconnect s = Some (rc, s') -> call s s'
| call_yield t rc s s' : MQTTYield t s = Some (rc, s') -> call s s'
| call_subscribe fuel q cb rc s s' : arrow_mqtt_client_subscribe fuel q cb s = Some (rc, s') -> call s s'
| call_publish fuel T q r dup id p n rc s s' : MQTTPublish fuel T q r dup id p n s = Some (rc, s') -> call s s'
| call_publish_part D (drive : payload_drive D) fuel T q r dup id d rc s s' :
    writes_inside drive -> MQTTPublish_part fuel T q r dup id drive d s = Some (rc, s') -> call s s'.

Lemma call_typed s s' : call s s' -> typed (cl s) -> typed (cl s').
Proof.
  intros Hc Hs. assert (Hk : forall A (m : M A) a, keeps m -> m s = Some (a, s') -> typed (cl s')) by (intros A m a Hm E; by destruct (Hm s a s' Hs E)).
  destruct Hc; (eapply Hk; [|eassumption]).
  - apply keeps_MQTTConnect.
  - apply keeps_MQTTDisconnect.
  - apply keeps_yield.
  - apply keeps_client_subscribe.
  - apply keeps_MQTTPublish.
  - by apply keeps_MQTTPublish_part.
Qed.

End typed.

(** C19. Well-typedness of the client: whatever the world does, after any sequence of
    calls of the interface from [MQTTClientInit] on, the two buffers are the
    objects they were, the flags are flags, the last packet identifier fits 16
    bits, and the next one is never 0. *)
Theorem client_typed {W} `{World W} c0 timeout sendbuf recvbuf cbs w s' :
  rtc call (mk_st (MQTTClientInit c0 timeout sendbuf recvbuf) cbs w) s' ->
  typed (length sendbuf) (length recvbuf) (cl s') /\
  exists i s2, getNextPacketId s' = Some (i, s2) /\ 1 <= i <= 65535 /\ next_packetid (cl s2) = i.
Proof.
  intros Hr. assert (Ht : typed (length sendbuf) (length recvbuf) (cl s')).
  { assert (H0 : typed (length sendbuf) (length recvbuf) (cl (mk_st (MQTTClientInit c0 timeout sendbuf recvbuf) cbs w))).
    { unfold typed, MAX_PACKET_ID. cbn. lia. }
    revert H0. induction Hr as [s | s s1 s2 Hc _ IH]; [done|]. intros H0. apply IH. by eapply call_typed. }
  split; [done|]. destruct (getNextPacketId s') as [[i s2]|] eqn:E; [|done]. exists i, s2. split; [done|].
  split; [by destruct (gives_getNextPacketId _ _ s' i s2 Ht E)|]. unfold getNextPacketId in E. by injection E as <- <-.
Qed.

Lemma client_typed_witness :
  let c0 := mk_client 0 0 [] [] 10 0 0 0 TimerInit TimerInit in
  exists s', MQTTYield 1000 (mk_st (MQTTClientInit c0 1000 [0; 0; 0; 0] [0; 0]) [] (mk_view [208; 0] [] [])) = Some (13, s') /\
    typed 4 2 (cl s').
Proof.
  intros c0. set (s := mk_st (MQTTClientInit c0 1000 [0; 0; 0; 0] [0; 0]) [] (mk_view [208; 0] [] [])).
  destruct (MQTTYield 1000 s) as [[rc s']|] eqn:E; [|by vm_compute in E]. exists s'. split.
  - by vm_compute in E |- *; simplify_eq.
  - apply (client_typed c0 1000 [0; 0; 0; 0] [0; 0] [] (mk_view [208; 0] [] [])). apply rtc_once. by eapply call_yield.
Defined.

End MqttSafety.
