(* ===== verification/MqttProgress.v ===== *)
(** Progress of the MQTT client against a peer: the receiving loop ends, because
    every round that goes on takes a byte from the input; and the packets that
    make a round undefined. *)
From S2P Require Import Prelude StateM Timer MqttPacket MqttPublish MqttConnect MqttSubscribe MqttClient MqttPeer MqttCycle.

Module MqttProgress.
Import StateM Timer MQTTPacket MQTTPublish MQTTConnect MqttClient MqttPeer MqttCycle.

Create HintDb eating.

Section progress.
Context {W : Type} `{Peer W}.
#[local] Abbreviation M := (StateM.M (@st W)).

Definition left_over (s : @st W) : nat := length (input (see (wd s))).

(** ** Nothing is put back into the input *)

Definition eats {A} (m : M A) : Prop := forall s a s', m s = Some (a, s') -> (left_over s' <= left_over s)%nat.

Lemma eats_ret {A} (a : A) : eats (mret a).
Proof. intros s b s' [= <- <-]. done. Qed.
Lemma eats_lift {A} (o : option A) : eats (lift o).
Proof. intros s a s' E. unfold lift in E. destruct o; [|done]. cbn in E. by simplify_eq. Qed.
Lemma eats_get : eats get.
Proof. intros s a s' [= <- <-]. done. Qed.
Lemma eats_put c : eats (put c).
Proof. intros s a s' [= <- <-]. done. Qed.
Lemma eats_bind {A B} (m : M A) (f : A -> M B) : eats m -> (forall a, eats (f a)) -> eats (m ≫= f).
Proof.
  intros Hm Hf s b s' E. unfold mbind, M_bind in E. destruct (m s) as [[a s1]|] eqn:E1; [|done]. cbn [mbind option_bind] in E.
  apply Hm in E1. apply Hf in E. lia.
Qed.

Lemma eats_world {A} (f : W -> A * W) : (forall w, length (input (see (snd (f w)))) <= length (input (see w)))%nat -> eats (world f).
Proof. intros Hf s a s' E. specialize (Hf (wd s)). unfold world in E. destruct (f (wd s)) as [b w]. simplify_eq. exact Hf. Qed.

Lemma eats_now : eats (world gettimeofday).
Proof. apply eats_world. intros w. destruct (peer_clock w) as (_ & _ & ->). done. Qed.

Lemma eats_recv i n : 0 <= n -> eats (world (fun w => recv w i n)).
Proof.
  intros Hn. apply eats_world. intros w. destruct (decide (n = 0 \/ input (see w) = [])) as [Hz | Hz].
  - destruct (peer_recv_none w i n Hn Hz) as (k & d & w' & -> & _ & Hv). cbn [snd]. by rewrite Hv.
  - destruct (peer_recv w i n) as (k & w' & -> & _ & _ & Hv); [| by intros E; apply Hz; right |].
    + destruct (decide (n = 0)); [tauto | lia].
    + cbn [snd]. rewrite Hv. cbn [rest_view input]. rewrite length_drop. lia.
Qed.

Lemma eats_send bs : eats (world (fun w => send w bs)).
Proof.
  apply eats_world. intros w. destruct (decide (bs = [])) as [-> | Hbs]; [by rewrite peer_send_none|].
  destruct (peer_send w bs Hbs) as (w' & -> & Hv). cbn [snd]. by rewrite Hv.
Qed.

Lemma eats_init f n : eats (world (fun w => call_init w f n)).
Proof. apply eats_world. intros w. destruct (peer_init w f n) as (w' & -> & Hv). cbn [snd]. by rewrite Hv. Qed.
Lemma eats_process f p : eats (world (fun w => call_process w f p)).
Proof. apply eats_world. intros w. destruct (peer_process w f p) as (k & w' & -> & Hv). cbn [snd]. by rewrite Hv. Qed.
Lemma eats_done f : eats (world (fun w => call_done w f)).
Proof. apply eats_world. intros w. destruct (peer_done w f) as (k & w' & -> & Hv). cbn [snd]. by rewrite Hv. Qed.
Lemma eats_lookup topic : eats (lookup_callback topic).
Proof. intros s a s' E. unfold lookup_callback in E. destruct (find_callback _ _); [|done]. cbn in E. by simplify_eq. Qed.

Hint Resolve eats_ret eats_lift eats_get eats_put eats_now eats_send eats_init eats_process eats_done eats_lookup : eating.

Ltac eating :=
  repeat match goal with
  | |- forall _, _ => intros ?
  | |- eats (if ?b then _ else _) => destruct b
  | |- eats (let '(_, _) := ?p in _) => destruct p
  | |- eats (match ?o with _ => _ end) => destruct o
  | |- eats (_ ≫= _) => apply eats_bind
  | |- eats _ => solve [eauto 3 with eating]
  end.

Lemma eats_expired t : eats (expired t). Proof. unfold expired. eating. Qed.
Lemma eats_left t : eats (left_ms t). Proof. unfold left_ms. eating. Qed.
Lemma eats_countdown_ms t : eats (countdown_ms t). Proof. unfold countdown_ms. eating. Qed.
Lemma eats_countdown t : eats (countdown t). Proof. unfold countdown. eating. Qed.
Hint Resolve eats_expired eats_left eats_countdown_ms eats_countdown : eating.

Lemma eats_read_loop fuel : forall i mem off len bytes, eats (read_loop fuel i mem off len bytes).
Proof.
  induction fuel as [|fuel IH]; intros i mem off len bytes; cbn [read_loop]; [apply eats_lift|].
  destruct (bytes <? len); [|apply eats_ret]. apply eats_bind; [apply eats_recv; unfold u16; lia_mod|]. eating.
Qed.
Lemma eats_mqttread mem off len t : eats (mqttread mem off len t).
Proof. unfold mqttread. destruct (len <=? 0); [apply eats_ret | apply eats_read_loop]. Qed.
Hint Resolve eats_mqttread : eating.
Lemma eats_read_readbuf off len t : eats (read_readbuf off len t). Proof. unfold read_readbuf. eating. Qed.
Lemma eats_serialize f : eats (serialize f). Proof. unfold serialize. eating. Qed.
Lemma eats_send_loop fuel : forall sent len t, eats (send_loop fuel sent len t).
Proof. induction fuel as [|fuel IH]; intros sent len t; cbn [send_loop]; [apply eats_lift|]. unfold mqttwrite. eating. Qed.
Hint Resolve eats_read_readbuf eats_serialize eats_send_loop : eating.
Lemma eats_sendPacket len t : eats (sendPacket len t). Proof. unfold sendPacket. eating. Qed.
Lemma eats_decode fuel : forall t len m v, eats (decode_packet_loop fuel t len m v).
Proof. induction fuel as [|fuel IH]; intros t len m v; cbn [decode_packet_loop]; [apply eats_lift|]. eating. Qed.
Lemma eats_decodePacket t : eats (decodePacket t). Proof. apply eats_decode. Qed.
Hint Resolve eats_sendPacket eats_decodePacket : eating.
Lemma eats_keepalive : eats keepalive. Proof. unfold keepalive. eating. Qed.
Lemma eats_delivery_init topic n : eats (delivery_message_init topic n). Proof. unfold delivery_message_init. eating. Qed.
Lemma eats_delivery_process topic p : eats (delivery_message_process topic p). Proof. unfold delivery_message_process. eating. Qed.
Lemma eats_delivery_done topic : eats (delivery_message_done topic). Proof. unfold delivery_message_done. eating. Qed.
Hint Resolve eats_keepalive eats_delivery_init eats_delivery_process eats_delivery_done : eating.
Lemma eats_payload fuel : forall tlen rest total err len t, eats (payload_loop fuel tlen rest total err len t).
Proof. induction fuel as [|fuel IH]; intros tlen rest total err len t; cbn [payload_loop]; [apply eats_lift|]. unfold received_topic. eating. Qed.
Lemma eats_acknowledge q i n t : eats (acknowledge q i n t). Proof. unfold acknowledge. eating. Qed.
Hint Resolve eats_payload eats_acknowledge : eating.
Lemma eats_deliver q i n r m t : eats (deliver_message q i n r m t). Proof. unfold deliver_message, received_topic. eating. Qed.
Hint Resolve eats_deliver : eating.
Lemma eats_cycle_of p b n t : eats (cycle_of p b n t).
Proof. unfold cycle_of, cycle_connack, cycle_publish, cycle_subscribe, read_packet_id. eating. Qed.
Lemma eats_skip fuel : forall n t, eats (skip_loop fuel n t).
Proof. induction fuel as [|fuel IH]; intros n t; cbn [skip_loop]; [apply eats_lift|]. eating. Qed.
Hint Resolve eats_cycle_of eats_skip : eating.

(** ** A round that goes on takes a byte *)

Lemma bind_Some {A B} (m : M A) (f : A -> M B) (s : @st W) b s' : (m ≫= f) s = Some (b, s') -> exists a s1, m s = Some (a, s1) /\ f a s1 = Some (b, s').
Proof. unfold mbind, M_bind. destruct (m s) as [[a s1]|]; [|done]. intros E. by exists a, s1. Qed.

Lemma mqttread_1_eats mem off t s r s' : mqttread mem off 1 t s = Some (r, s') -> fst r = 1 -> (left_over s' < left_over s)%nat.
Proof.
  unfold mqttread. change (1 <=? 0) with false. cbv iota zeta. set (i := if _ || _ then _ else _). intros E Hr.
  change (Pos.to_nat 1) with 1%nat in E. cbn [read_loop Z.to_nat] in E. change (Pos.to_nat 1) with 1%nat in E. cbn [read_loop] in E.
  change (0 <? 1) with true in E. cbv iota in E. change (u16 (1 - 0)) with 1 in E.
  apply bind_Some in E as ([k d] & s1 & E1 & E). unfold world in E1. destruct (recv (wd s) i 1) as [[k' d'] w] eqn:Er. simplify_eq.
  destruct (decide (input (see (wd s)) = [])) as [Hz | Hz].
  - destruct (peer_recv_none (wd s) i 1) as (k1 & d1 & w1 & Er' & Hk & _); [lia | by right|]. rewrite Er in Er'. simplify_eq.
    replace (k1 <=? 0) with true in E by lia. injection E as <- <-. cbn in Hr. lia.
  - destruct (peer_recv (wd s) i 1) as (k1 & w1 & Er' & Hk & _ & Hv); [lia | done|]. rewrite Er in Er'. simplify_eq.
    replace k1 with 1 in * by lia. change (1 <=? 0) with false in E. cbv iota in E. apply bind_Some in E as (m1 & s2 & E2 & E).
    unfold lift in E2. destruct (wrn mem _ _); [|done]. cbn in E2. injection E2 as <- <-.
    change (0 + 1 <? 1) with false in E. cbn in E. injection E as <- <-. unfold left_over. cbn [wd]. rewrite Hv. cbn [rest_view input].
    rewrite length_drop. destruct (input (see (wd s))); [done | cbn; lia].
Qed.

Lemma cycle_r_eats timer s rc s' : cycle_r timer s = Some (rc, s') -> 0 <= rc -> (left_over s' < left_over s)%nat.
Proof.
  unfold cycle_r. intros E Hrc. apply bind_Some in E as (t & s1 & E1 & E). apply eats_left in E1.
  apply bind_Some in E as (r & s2 & E2 & E). destruct (Z.eqb_spec (fst r) 1) as [Hr | Hr]; cbn [negb] in E.
  2: { injection E as <- <-. unfold FAILURE in Hrc. lia. }
  apply mqttread_1_eats in E2; [|done]. assert (Hrest : (left_over s' <= left_over s2)%nat); [|lia].
  revert E. match goal with |- ?m s2 = _ -> _ => assert (Hm : eats m) by eating; apply Hm end.
Qed.

(** ** The loop ends *)

(** A round of the loop that goes on. *)
Definition round (packet_type : Z) (timer : timeval) (s s' : @st W) : Prop :=
  exists s1 rc, expired timer s = Some (false, s1) /\ cycle_r timer s1 = Some (rc, s') /\ 0 <= rc /\ rc <> packet_type.

(** The next round has no defined behaviour. *)
Definition stuck (timer : timeval) (s : @st W) : Prop := exists s1, expired timer s = Some (false, s1) /\ cycle_r timer s1 = None.

Lemma round_eats p timer s s' : round p timer s s' -> (left_over s' < left_over s)%nat.
Proof. intros (s1 & rc & E1 & E2 & Hrc & _). apply eats_expired in E1. apply cycle_r_eats in E2; lia. Qed.

Lemma wait_loop_total p timer fuel : forall rc s, (left_over s < fuel)%nat ->
  (exists r s', wait_loop fuel rc p timer s = Some (r, s') /\ forall fuel', (left_over s < fuel')%nat -> wait_loop fuel' rc p timer s = Some (r, s')) \/
  (exists s', rtc (round p timer) s s' /\ stuck timer s').
Proof.
  induction fuel as [|fuel IH]; intros rc s Hf; [lia|].
  assert (Hunf : forall f, (0 < f)%nat -> wait_loop f rc p timer s =
    (e ← expired timer; if (e : bool) then mret rc else
     rc ← cycle_r timer; if negb (rc =? p) && (0 <=? rc) then wait_loop (pred f) rc p timer else mret rc) s) by (intros [|f] Hz; [lia | done]).
  destruct (expired timer s) as [[e s1]|] eqn:Ee; [|by unfold expired, mbind, M_bind, world in Ee; destruct (gettimeofday (wd s))].
  destruct e.
  { left. exists rc, s1. assert (Hd : forall f, (0 < f)%nat -> wait_loop f rc p timer s = Some (rc, s1)).
    { intros f Hz. rewrite Hunf by done. unfold mbind at 1, M_bind. rewrite Ee. done. }
    split; [apply Hd; lia | intros f' Hf'; apply Hd; lia]. }
  destruct (cycle_r timer s1) as [[rc' s2]|] eqn:Ec.
  2: { right. exists s. split; [done|]. by exists s1. }
  assert (Hstep : forall f, (0 < f)%nat -> wait_loop f rc p timer s =
    (if negb (rc' =? p) && (0 <=? rc') then wait_loop (pred f) rc' p timer else mret rc') s2).
  { intros f Hz. rewrite Hunf by done. unfold mbind, M_bind. rewrite Ee. cbn [mbind option_bind]. rewrite Ec. done. }
  destruct (negb (rc' =? p) && (0 <=? rc')) eqn:Eg.
  - assert (Hr : round p timer s s2) by (exists s1, rc'; split_and!; [done | done | lia | lia]).
    pose proof (round_eats p timer s s2 Hr) as Hlt. destruct (IH rc' s2) as [(r & s' & E & Hall) | (s' & Hs & Hst)]; [lia | |].
    + left. exists r, s'. split; [rewrite Hstep by lia; exact E|]. intros f' Hf'. rewrite Hstep by lia. apply Hall. lia.
    + right. exists s'. split; [by eapply rtc_l | done].
  - left. exists rc', s2. split; [by rewrite Hstep by lia|]. intros f' Hf'. by rewrite Hstep by lia.
Qed.

(** ** Packets without defined behaviour *)

Lemma undefined_bind {A B} (m : M A) (f : A -> M B) (s : @st W) R :
  does m s R -> (forall a s', R a s' -> f a s' = None) -> (m ≫= f) s = None.
Proof. intros (a & s' & E & HR) Hf. unfold mbind, M_bind. rewrite E. cbn [mbind option_bind]. auto. Qed.

(** Reading more bytes than the memory holds, however long the loop is run. *)
Lemma read_loop_overflow fuel : forall i mem len bytes (s : @st W), 0 <= bytes <= zlen mem -> zlen mem < len < 65536 ->
  len - bytes <= zlen (input (see (wd s))) -> read_loop fuel i mem 0 len bytes s = None.
Proof.
  induction fuel as [|fuel IH]; intros i mem len bytes s Hb Hlen Hin; [done|]. cbn [read_loop].
  replace (bytes <? len) with true by lia. rewrite u16_id by lia.
  assert (Hne : input (see (wd s)) <> []) by (intros E; rewrite E in Hin; change (zlen (@nil Z)) with 0 in Hin; lia).
  destruct (peer_recv (wd s) i (len - bytes)) as (k & w & E & Hk & Hkin & Hv); [lia | done |].
  eapply undefined_bind; [by apply does_world|]. intros r s1 [-> ->]. replace (k <=? 0) with false by lia.
  set (d := take (Z.to_nat k) (input (see (wd s)))). assert (Hd : zlen d = k) by (unfold d; zl).
  destruct (wrn mem (0 + bytes) d) as [mem1|] eqn:Hm; [|done].
  assert (Hfit : bytes + k <= zlen mem) by (unfold wrn in Hm; destruct ((0 <=? 0 + bytes) && (0 + bytes + zlen d <=? zlen mem)) eqn:Ew; [lia | done]).
  pose proof (wrn_length _ _ _ _ Hm) as Hl. assert (Hlz : zlen mem1 = zlen mem) by (unfold zlen; lia).
  eapply undefined_bind; [by apply (does_lift _ mem1 _ (fun a s' => a = mem1 /\ s' = mk_st (cl s) (callbacks s) w))|]. intros a s' [-> ->].
  apply IH; [lia | lia |]. cbn [wd]. rewrite Hv. cbn [rest_view input]. zl.
Qed.

(** CONNACK and SUBACK packets larger than [readbuf]. *)
Lemma read_body_overflow body rest timer t (s : @st W) : t = 2 \/ t = 9 -> zlen (readbuf (cl s)) < zlen body < 65536 ->
  input (see (wd s)) = body ++ rest -> forall byte, cycle_of t byte (zlen body) timer s = None.
Proof.
  intros Ht Hb Hi byte. pose proof (zlen_nonneg (readbuf (cl s))).
  assert (Hread : forall tm s', same s s' -> read_readbuf 0 (zlen body) tm s' = None).
  { intros tm s' (Hc & Hcb & Hv). unfold read_readbuf. eapply undefined_bind; [by apply (does_get _ (fun c s2 => c = cl s' /\ s2 = s'))|].
    intros c s2 [-> ->]. rewrite Hc. unfold mqttread. replace (zlen body <=? 0) with false by lia. cbv zeta.
    set (i := if _ || _ then _ else _). unfold mbind, M_bind. rewrite read_loop_overflow; [done | lia | lia |]. rewrite Hv, Hi. zl. }
  destruct Ht as [-> | ->]; [change (cycle_of 2 byte (zlen body) timer) with (cycle_connack (zlen body) timer); unfold cycle_connack |
    change (cycle_of 9 byte (zlen body) timer) with (cycle_subscribe (zlen body) timer); unfold cycle_subscribe];
    (eapply undefined_bind; [apply does_left|]); intros tm s' Hs; unfold mbind at 1, M_bind; by rewrite Hread.
Qed.

Lemma cycle_overflow t f body rest timer (s : @st W) : t = 2 \/ t = 9 -> 0 <= f < 16 -> zlen (readbuf (cl s)) < zlen body <= MQTT_CLIENT_MAX_MSG_LEN ->
  input (see (wd s)) = wire (Reply t f body) ++ rest -> cycle_r timer s = None.
Proof.
  intros Ht Hf Hb Hi. unfold MQTT_CLIENT_MAX_MSG_LEN in Hb. pose proof (zlen_nonneg (readbuf (cl s))). cbn [wire] in Hi. rewrite <- !app_assoc in Hi.
  assert (Htr : 0 <= t < 16) by lia. pose proof (header_type_of t f Htr Hf) as Hh. unfold cycle_r.
  eapply undefined_bind; [apply does_left|]. intros t1 s1 (Hc1 & Hcb1 & Hv1). eapply undefined_bind.
  { apply does_mqttread; [lia | lia | cbv; done |]. rewrite Hv1, Hi. change (zlen ([16 * t + f] ++ varint (zlen body) ++ body ++ rest)) with (zlen ((16 * t + f) :: varint (zlen body) ++ body ++ rest)).
    rewrite zlen_cons. pose proof (zlen_nonneg (varint (zlen body) ++ body ++ rest)). lia. }
  intros [k m] s2 (Hk & Hm & Hc2 & Hcb2 & Hv2). cbn [fst snd] in *. subst k. change (negb (1 =? 1)) with false. cbv iota.
  rewrite Hv1, Hi in Hm. change (Some [16 * t + f; 0; 0; 0] = Some m) in Hm. injection Hm as <-.
  rewrite Hv1 in Hv2. rewrite (rest_view_app _ [16 * t + f] (varint (zlen body) ++ body ++ rest)) in Hv2 by done.
  eapply undefined_bind; [by apply (does_lift _ (16 * t + f) _ (fun a s' => a = 16 * t + f /\ s' = s2))|]. intros a s' [-> ->].
  cbv zeta. rewrite Hh. replace (t <? 1) with false by lia. replace (15 <=? t) with false by lia. cbn [orb].
  eapply undefined_bind; [apply does_left|]. intros t2 s3 (Hc3 & Hcb3 & Hv3). eapply undefined_bind.
  { eapply (wp_decodePacket (callbacks s3) t2 (zlen body) (body ++ rest) (cl s3) (see (wd s3))
      (fun a c' v' => a = (zlen (varint (zlen body)), zlen body) /\ c' = cl s3 /\ v' = with_input (see (wd s3)) (body ++ rest)));
      [by rewrite Hv3, Hv2 | lia | done | done | done | done]. }
  intros d s4 (Hcb4 & -> & Hc4 & Hv4). pose proof (zlen_varint (zlen body) ltac:(lia)) as Hz.
  replace (zlen (varint (zlen body)) <=? 0) with false by (rewrite Hz; bool_cases; lia).
  replace (MQTT_CLIENT_MAX_MSG_LEN <? zlen body) with false by (unfold MQTT_CLIENT_MAX_MSG_LEN; lia).
  replace (has_cycle t) with true by (destruct Ht as [-> | ->]; done). cbn [orb negb].
  assert (Hcs : cl s4 = cl s) by congruence. unfold mbind, M_bind. rewrite (read_body_overflow body rest); [done | done | rewrite Hcs; lia | by rewrite Hv4].
Qed.

(** C20. The receiving loop ends: with a round more than there are bytes to receive,
    [waitfor] returns - the same result for any larger number of rounds - unless
    one of the rounds it reaches has no defined behaviour. *)
Theorem waitfor_terminates packet_type timer (s : @st W) fuel : (length (input (see (wd s))) < fuel)%nat ->
  (exists rc s', waitfor fuel packet_type timer s = Some (rc, s') /\
     forall fuel', (length (input (see (wd s))) < fuel')%nat -> waitfor fuel' packet_type timer s = Some (rc, s')) \/
  (exists s', rtc (round packet_type timer) s s' /\ stuck timer s').
Proof. apply wait_loop_total. Qed.

(** A packet can be larger than the buffer it is read into: a CONNACK or SUBACK
    packet with a body longer than [readbuf], up to MQTT_CLIENT_MAX_MSG_LEN, is
    written past the end of [readbuf], and [waitfor] has no defined behaviour. *)
Theorem waitfor_overflow t f body rest packet_type timer (s : @st W) fuel :
  t = 2 \/ t = 9 -> 0 <= f < 16 -> zlen (readbuf (cl s)) < zlen body <= MQTT_CLIENT_MAX_MSG_LEN -> live timer ->
  input (see (wd s)) = wire (Reply t f body) ++ rest -> stuck timer s /\ waitfor fuel packet_type timer s = None.
Proof.
  intros Ht Hf Hb Hl Hi. destruct (does_expired timer s Hl) as (e & s1 & E & -> & (Hc & Hcb & Hv)).
  assert (Hcy : cycle_r timer s1 = None) by (eapply (cycle_overflow t f body rest); [done | done | by rewrite Hc | by rewrite Hv]).
  split; [by exists s1|]. destruct fuel as [|fuel]; [done|]. unfold waitfor. cbn [wait_loop]. unfold mbind, M_bind.
  rewrite E. cbn [mbind option_bind]. by rewrite Hcy.
Qed.

End progress.

Definition sample (i : list Z) : @st view :=
  mk_st (mk_client 1 1000 [0; 0; 0; 0] [0; 0] 0 0 1 1 (mk_tv 0 0) (mk_tv 0 0)) [] (mk_view i [] []).

Lemma waitfor_terminates_witness :
  let s := sample [208; 0; 64; 1; 0] in
  exists rc s', waitfor 6 4 (mk_tv 200 0) s = Some (rc, s') /\
    forall fuel', (length (input (see (wd s))) < fuel')%nat -> waitfor fuel' 4 (mk_tv 200 0) s = Some (rc, s').
Proof.
  intros s. assert (Hf : (length (input (see (wd s))) < 6)%nat) by (cbn; lia).
  destruct (waitfor_terminates 4 (mk_tv 200 0) s 6 Hf) as [Hr | (s' & Hr & s1 & E1 & E2)]; [exact Hr|].
  exfalso.
  inversion Hr as [? | ? s2 ? (s3 & rc & E3 & E4 & Hrc & Hne) Hr']; subst.
  - vm_compute in E1. injection E1 as <-. by vm_compute in E2.
  - vm_compute in E3. injection E3 as <-. vm_compute in E4. injection E4 as <- <-.
    inversion Hr' as [? | ? s4 ? (s5 & rc & E5 & E6 & Hrc' & Hne') Hr'']; subst.
    + vm_compute in E1. injection E1 as <-. by vm_compute in E2.
    + vm_compute in E5. injection E5 as <-. vm_compute in E6. injection E6 as <- <-. lia.
Defined.

Lemma waitfor_overflow_witness :
  stuck (mk_tv 200 0) (sample [32; 3; 0; 0; 0]) /\ waitfor 9 2 (mk_tv 200 0) (sample [32; 3; 0; 0; 0]) = None.
Proof. apply (waitfor_overflow 2 0 [0; 0; 0] []); [by left | by cbv | by cbv | by cbv | done]. Defined.

End MqttProgress.
